(* ===== verification/_CoqProject ===== *)
-Q . S2P
Prelude.v
Status.v
ArrayList.v
LinkList.v
UQueue.v
QueueingThread.v
QueueingRuns.v
Base64.v
OicString.v
OcRandom.v
CString.v
Fragmentation.v
LeAdapter.v
CaTypes.v
LibCoap.v
LibCoapReference.v
CoapCodec.v
Blockwise.v
Retransmission.v
MessageHandler.v
BlockTransfer.v
BlockExchange.v
BlockEdges.v
OcEndpoint.v
Cbor.v
RepPayload.v
RepConvert.v
RepParse.v
RepLaws.v
RepArrays.v
RepRoundTrip.v
RepTypes.v
PsInterface.v
CborTokens.v
PayloadCodec.v
Calendar.v
SrmUtility.v
Stack.v
ServerRequest.v
Observe.v
Server.v
Client.v
StackDemo.v
ObserveLaws.v
Observers.v
Notification.v
Feedback.v
Delivery.v
ResourceList.v
ResourceSpec.v
ResourceListLaws.v
ResourceCalls.v
ResourceInvariant.v
Svr.v
Pstat.v
AclCodec.v
CredCodec.v
Doxm.v
Acl.v
Cred.v
ResourceManager.v
Dos.v
Handlers.v
AclCredHandlers.v
PolicyEngine.v
SecureResourceManager.v
AccessWitnesses.v
Onboarding.v
AclInvariant.v
Witnesses.v
