(* ===== verification/Prelude.v ===== *)
(** * Iochibity (OpenOCF): a verification library for the core of the stack

    Iochibity is a C implementation of the OCF core framework: a device offers
    resources, and clients get, change and observe them over CoAP.  From the network
    upwards a message passes through an adapter ([comm/transport/]), the message
    handler with its queues, retransmission and block-wise transfer ([comm/],
    [coap/]), the security resource manager, which decides by the device's security
    resources whether a request may go on ([sec/]), and the stack of resources, which
    calls the entity handler of an application, or a client's callback ([ocf/]).  All
    paths are under [src/src/].

    ** Conventions

    A definition has the name of the C function, type or constant it models; parts of
    a function that are definitions of their own have names in lower case.  A function
    with state is in the monad [M S] of this file, where [S] is a record of the
    file-level variables it acts on; a function that only computes is a plain function.
    [None] of a run is undefined behaviour - a null dereference, an access outside an
    array, memory used after it was freed, a failed assertion - or, where the source can
    loop for ever, a run that does not end; error codes are values.  Machine integers
    are [Z], wrapped where C wraps ([u8] ... [size_t]).  Buffers that are written are
    lists read and written by [load] and [store]; strings that are only read are
    [string]s.  Allocations of a size other than zero succeed, except where an argument
    ([mem], [random]) or the state ([ResourceList.memory]) says what they do.

    Code that is not in the repository is a class of functions with the laws its
    documentation gives: libcoap ([LibCoap], [LibCoapLaws]), the CBOR library
    ([Cbor.CborLib], [CborLaws], [CborEncoder], [CborEncoderLaws]), the application's
    files ([Storage]) and its handlers and callbacks ([Stack.Application]).  Each has a
    concrete instance ([LibCoapReference], [CborTokens], [StackDemo]), on which the
    witnesses run.

    The configuration is that of a Linux device with UDP and Bluetooth LE: DTLS built,
    no multiple owners, no TCP, block-wise transfer built, threads, no presence, routing
    or cloud.

    ** Foundations

    [Prelude] (integers, buffers, the monad, tactics), [Status] (result codes),
    [CString] (functions of [string.h]), and the utilities: [ArrayList]
    ([util/uarraylist.c]), [LinkList] ([util/ulinklist.c]), [UQueue] ([util/uqueue.c]),
    [Base64] ([util/base64.c]), [OicString] ([portability/oic_string.c]), [OcRandom]
    ([portability/ocrandom.c]), [SrmUtility] ([sec/util/srmutility.c]) and [Calendar]
    ([sec/calendar/iotvticalendar.c]).  Shown: the array, as long as its size in
    bytes does not wrap, and the queue refine lists, Base64 and UUID strings are round
    trips and the decoder stays inside its buffers (the UUID format test does not stay
    inside its array), and the window of an access period is the one its text means.

    ** Connectivity

    [QueueingThread] models the worker thread of [comm/caqueueingthread.c] with its mutex
    and condition variable as a step relation over every interleaving of the threads;
    [QueueingRuns] shows that a queue is emptied in order and that shutting down, under
    controlled use, always ends.  [Fragmentation] and [LeAdapter] ([comm/transport/gatt/]) cut messages into
    Bluetooth packets and put them together again: what is sent arrives.  [CaTypes],
    [LibCoap] and [CoapCodec] ([coap/coap_codec.c]) are messages and their PDUs, with the
    round trip of a request.  [Retransmission] ([comm/caretransmission.c]): a confirmable
    message is sent again, after waits whose lower bounds double, until it is
    acknowledged or times out.
    [Blockwise] ([coap/cablockwisetransfer.c]), [BlockTransfer], [MessageHandler]
    ([comm/camessagehandler.c]) and [BlockExchange]: two devices' handlers exchange a
    payload larger than a message, and it arrives whole; [BlockEdges] has what they do
    with messages out of order.  [OcEndpoint] ([ocf/ocendpoint.c]) prints and parses
    endpoints.

    ** Payloads

    [RepPayload] ([ocf/ocpayload.c]) is the tree of named properties, [RepConvert] and
    [PayloadCodec] ([ocf/ocpayloadconvert.c]) turn it into CBOR items and bytes, and
    [RepParse] ([ocf/ocpayloadparse.c]) reads them.  [RepLaws]: properties are a map, an
    object that can be copied without loss is got back as it was set.  [RepArrays], [RepRoundTrip]: a canonical payload is
    read as it was written, and the loop that enlarges the buffer ends.  [RepTypes]:
    whatever is read is well-formed and can be written again.

    ** Resources, observers and clients

    [Stack] has the state of a device's stack and its messages, [ServerRequest]
    ([ocf/ocserverrequest.c]) the requests that are being served and their responses,
    [Observe] ([ocf/ocobserve.c], parts of [ocf/ocresource.c], [ocf/ocstack.c]) the
    observers, [Server] ([ocf/oocf_server.c]) the way of a request to the entity handler,
    [Client] ([ocf/oocf_client.c], [ocf/occlientcb.c]) callbacks, requests and responses.
    [ObserveLaws]: the bounds of sequence numbers and the quality of notifications.
    [Observers]: under any events the table of observers changes by the steps of an
    abstract one and stays free of duplicates.  [Notification]: notifying a resource
    sends each observer one response and changes nothing else.  [Feedback]: the counting
    of failures refines an automaton.  [Delivery]: the client's callback is given the
    notifications of the server in growing order, with the representations that were
    encoded - and none after the numbers of a round are used up.  The messages of
    [Notification.notification] are those of [Delivery.response], so that the theorems
    compose from the entity handler of the server to the callback of the client.

    [ResourceList] ([ocf/oocf_resource_list.c], [ocf/ocstack.c]) has the resources
    themselves: cells of a heap that are linked from [headResource] to [tailResource],
    with an allocator that may fail and give addresses again.  A request sees the same
    resources ([on_stack]), so that a resource that is deleted notifies its observers
    through [Observe].  [ResourceSpec] is an abstract list of handles and resources, how
    a heap is laid out from it, and what it means that an operation [implements] one on
    it; [ResourceListLaws] shows it of creation and deletion, [ResourceCalls] of
    sequences of all calls, with requests that arrive in between.  [ResourceInvariant]:
    the URIs stay distinct and within their bounds, types and interfaces without
    duplicates; and a resource that is created and deleted leaves nothing behind.

    ** Security

    [PsInterface] ([sec/psinterface.c]) is the database of the security resources, [Svr]
    their state.  [Pstat], [Doxm], [Acl], [Cred] with [AclCodec] and [CredCodec]
    ([sec/svrs/]) are the resources: access modes, formats, storage, and their handlers
    in [Handlers] and [AclCredHandlers].  [Dos] ([sec/dox/deviceonboardingstate.c]) is
    the state machine a device is onboarded by, [ResourceManager] the initialization and
    reset of all of them.  [PolicyEngine] ([sec/authorization/policyengine.c]) and
    [SecureResourceManager] decide on a request.  Shown: a request is passed on exactly
    when the policy engine grants it, and it grants what the state, the owners and the
    access control list say ([CheckPermission_granted]); the engine and the handlers
    return; [SetDosState] refines the table of valid transitions; every state a new
    device reaches by requests and changes of state that end in no internal error has
    the provisioning status its onboarding state prescribes, and is owned outside
    RFOTM; in RESET and normal operation no request to the other resources changes
    any ([Onboarding]); the resources survive the
    formats they are written in, and a restart; a list that is posted replaces the old
    entries; no entry of the access list gets a validity, so that a GET of it
    without a query is answered ([AclInvariant]).
    [AccessWitnesses] and [Witnesses] are concrete runs from the factory state.

    ** Fuel and bounds

    Loops without a structural measure have fuel, and a theorem that it is enough:
    [PayloadCodec.enough_fuel] (a round for each payload of a chain, by
    [convert_loop_ends]), the depth of an item for the functions that read nested CBOR
    ([depth]), the length of the string for parsers of text, the number of remaining
    messages for [QueueingRuns] (a measure every step decreases).  The check of a silent
    observer, which sends a notification and so runs the code that looks for observers,
    needs one round ([ObserveLaws.check_enough]).

    ** Not modelled

    Sockets, Bluetooth services and the other services of an operating system
    ([comm/transport/] except the GATT adapter), TLS and certificates (mbed TLS), the
    provisioning client ([provisioning/]: callbacks over the network, an SQL database),
    the resources that need certificates (roles, crl, csr) and sp and amacl, presence,
    groups, the resource directory and keep-alive, logging, tools, and vendored code.
    Of the stack of resources: the discovery payload, the default handler of
    collections, attributes, action sets and the parsing of a request's URI.
    Where modelled code calls such code of the repository the call is an argument of the
    definitions ([discovery], [DefaultCollectionEntityHandler], [update],
    [Svr.ext_call]); the theorems say what they ask of it. *)

From Stdlib Require Export ZArith Lia List Bool Ascii String.
From stdpp Require Export base tactics option list numbers strings gmap.
Export ListNotations.

#[global] Open Scope Z_scope.

(** ** Machine integers

    A C integer of width [w] is a [Z]; arithmetic that C performs modulo
    [2^w] goes through [wrap w]. *)

Definition wrap (w z : Z) : Z := z mod 2 ^ w.
Notation u8 := (wrap 8) (only parsing).
Notation u16 := (wrap 16) (only parsing).
Notation u32 := (wrap 32) (only parsing).
Notation size_t := (wrap 64) (only parsing).

Definition in_width (w z : Z) : Prop := 0 <= z < 2 ^ w.

Lemma wrap_id w z : in_width w z -> wrap w z = z.
Proof. intros H. apply Z.mod_small. exact H. Qed.

Lemma wrap_in_width w z : 0 <= w -> in_width w (wrap w z).
Proof. intros H. apply Z.mod_pos_bound. lia. Qed.

(** [flag_set x m] is the C test [(x & m) != 0]. *)
Definition flag_set (x m : Z) : bool := negb (Z.land x m =? 0).

(** ** Buffers

    A C array is the list of its cells (bytes as [Z] in [0, 255] or C [char]
    codes); an access outside it is undefined behaviour, the value [None]. *)
Definition load {A} (b : list A) (i : Z) : option A :=
  if i <? 0 then None else b !! Z.to_nat i.

Definition store {A} (b : list A) (i : Z) (v : A) : option (list A) :=
  if (0 <=? i) && (i <? Z.of_nat (List.length b)) then Some (<[Z.to_nat i := v]> b)
  else None.

Lemma load_nat {A} (b : list A) (n : nat) : load b (Z.of_nat n) = b !! n.
Proof. unfold load. rewrite Nat2Z.id. by destruct (Z.ltb_spec (Z.of_nat n) 0); [lia|]. Qed.

Lemma load_app {A} (pre : list A) v post n : n = Z.of_nat (List.length pre) ->
  load (pre ++ v :: post) n = Some v.
Proof. intros ->. rewrite load_nat. by rewrite list_lookup_middle. Qed.

Lemma store_app {A} (pre : list A) w post n v : n = Z.of_nat (List.length pre) ->
  store (pre ++ w :: post) n v = Some (pre ++ v :: post).
Proof.
  intros ->. unfold store. rewrite length_app. simpl.
  destruct (Z.leb_spec 0 (Z.of_nat (List.length pre))); [|lia].
  destruct (Z.ltb_spec (Z.of_nat (List.length pre))
              (Z.of_nat (List.length pre + S (List.length post)))); [|lia].
  simpl. rewrite Nat2Z.id, insert_app_r_alt by lia. by rewrite Nat.sub_diag.
Qed.

Lemma store_length {A} (b b' : list A) i v : store b i v = Some b' ->
  List.length b' = List.length b.
Proof. unfold store. case_match; [|done]. intros [= <-]. by rewrite length_insert. Qed.

(** Accesses at a known offset of a buffer that is written as an append. *)
Lemma load_off {A} (pre suf : list A) n k : n = Z.of_nat (List.length pre) -> 0 <= k ->
  load (pre ++ suf) (n + k) = load suf k.
Proof.
  intros -> Hk. unfold load. destruct (Z.ltb_spec (Z.of_nat (List.length pre) + k) 0); [lia|].
  destruct (Z.ltb_spec k 0); [lia|]. rewrite lookup_app_r by lia. f_equal. lia.
Qed.

Lemma store_off {A} (pre suf : list A) n k v : n = Z.of_nat (List.length pre) -> 0 <= k ->
  store (pre ++ suf) (n + k) v = (fun s => pre ++ s) <$> store suf k v.
Proof.
  intros -> Hk. unfold store. rewrite length_app.
  destruct (Z.leb_spec 0 (Z.of_nat (List.length pre) + k)); [|lia].
  destruct (Z.leb_spec 0 k); [|lia]. simpl.
  destruct (Z.ltb_spec (Z.of_nat (List.length pre) + k)
              (Z.of_nat (List.length pre + List.length suf))),
           (Z.ltb_spec k (Z.of_nat (List.length suf))); try lia; simpl; [|done].
  rewrite insert_app_r_alt by lia. do 3 f_equal. lia.
Qed.

Lemma load_here {A} (pre suf : list A) n : n = Z.of_nat (List.length pre) ->
  load (pre ++ suf) n = load suf 0.
Proof. intros ->. rewrite <- (load_off pre suf _ 0) by done. f_equal. lia. Qed.

Lemma store_here {A} (pre suf : list A) n v : n = Z.of_nat (List.length pre) ->
  store (pre ++ suf) n v = (fun s => pre ++ s) <$> store suf 0 v.
Proof. intros ->. rewrite <- (store_off pre suf _ 0) by done. f_equal. lia. Qed.

Lemma store_0 {A} (x : A) l v : store (x :: l) 0 v = Some (v :: l).
Proof. by apply (store_app []). Qed.
Lemma store_1 {A} (x y : A) l v : store (x :: y :: l) 1 v = Some (x :: v :: l).
Proof. by apply (store_app [x]). Qed.
Lemma store_2 {A} (x y z : A) l v : store (x :: y :: z :: l) 2 v = Some (x :: y :: v :: l).
Proof. by apply (store_app [x; y]). Qed.
Lemma store_3 {A} (x y z w : A) l v :
  store (x :: y :: z :: w :: l) 3 v = Some (x :: y :: z :: v :: l).
Proof. by apply (store_app [x; y; z]). Qed.

(** Opens a run of [load]s and [store]s on concrete offsets of a split buffer. *)
Ltac offsets :=
  repeat first
    [ rewrite load_off by (done || lia) | rewrite store_off by (done || lia)
    | rewrite load_here by (done || lia) | rewrite store_here by (done || lia)
    | rewrite store_0 | rewrite store_1 | rewrite store_2 | rewrite store_3 ].

Lemma load_in {A} (l : list A) i : 0 <= i < Z.of_nat (List.length l) ->
  exists v, load l i = Some v.
Proof.
  intros H. replace i with (Z.of_nat (Z.to_nat i)) by lia. rewrite load_nat.
  apply lookup_lt_is_Some_2. lia.
Qed.

Lemma store_in {A} (l : list A) i v : 0 <= i < Z.of_nat (List.length l) ->
  exists l', store l i v = Some l' /\ List.length l' = List.length l.
Proof.
  intros H. unfold store. rewrite (proj2 (Z.leb_le _ _)), (proj2 (Z.ltb_lt _ _)) by lia.
  eexists. split; [done|]. apply length_insert.
Qed.

Lemma split_block {A} (l : list A) (n : nat) : (n <= List.length l)%nat ->
  exists p q, l = p ++ q /\ List.length p = n.
Proof.
  intros H. exists (take n l), (drop n l). split; [by rewrite take_drop|].
  rewrite length_take. lia.
Qed.

(** [memcpy] from and to a range of a buffer. *)
Definition read_block {A} (b : list A) (off n : Z) : option (list A) :=
  if (0 <=? off) && (0 <=? n) && (off + n <=? Z.of_nat (List.length b))
  then Some (take (Z.to_nat n) (drop (Z.to_nat off) b)) else None.

Definition write_block {A} (b : list A) (off : Z) (xs : list A) : option (list A) :=
  if (0 <=? off) && (off + Z.of_nat (List.length xs) <=? Z.of_nat (List.length b))
  then Some (take (Z.to_nat off) b ++ xs ++ drop (Z.to_nat off + List.length xs) b) else None.

Lemma read_block_app {A} (pre xs post : list A) off n :
  off = Z.of_nat (List.length pre) -> n = Z.of_nat (List.length xs) ->
  read_block (pre ++ xs ++ post) off n = Some xs.
Proof.
  intros -> ->. unfold read_block. rewrite !length_app.
  rewrite !(proj2 (Z.leb_le _ _)) by lia. cbn [andb].
  by rewrite !Nat2Z.id, drop_app_length, take_app_length.
Qed.

Lemma write_block_app {A} (pre old post xs : list A) off :
  off = Z.of_nat (List.length pre) -> List.length old = List.length xs ->
  write_block (pre ++ old ++ post) off xs = Some (pre ++ xs ++ post).
Proof.
  intros -> Hl. unfold write_block. rewrite !length_app.
  rewrite !(proj2 (Z.leb_le _ _)) by lia. cbn [andb].
  rewrite Nat2Z.id, take_app_length, <- Hl, <- drop_drop, drop_app_length.
  by rewrite drop_app_length.
Qed.

Lemma write_block_length {A} (b xs b' : list A) off :
  write_block b off xs = Some b' -> List.length b' = List.length b.
Proof.
  unfold write_block. case_match eqn:E; [|done]. intros [= <-].
  apply andb_true_iff in E as [?%Z.leb_le ?%Z.leb_le].
  rewrite !length_app, length_take, length_drop. lia.
Qed.

(** The character codes of a literal. *)
Definition codes (s : string) : list Z :=
  (fun c => Z.of_N (N_of_ascii c)) <$> String.list_ascii_of_string s.

(** C [strlen]: the index of the first zero cell, [None] when there is none. *)
Fixpoint strlen (b : list Z) : option nat :=
  match b with
  | [] => None
  | c :: b' => if c =? 0 then Some O else S <$> strlen b'
  end.

(** A string's characters: the buffer [s ++ 0 :: rest] holds the string [s]. *)
Definition chars (s : list Z) : Prop := Forall (fun c => c <> 0) s.

Lemma strlen_app s rest : chars s -> strlen (s ++ 0 :: rest) = Some (List.length s).
Proof.
  induction 1 as [|c s Hc _ IH]; simpl; [done|].
  by rewrite (proj2 (Z.eqb_neq _ _)), IH by done.
Qed.

(** A decidable property of the integers below [n] (byte values, sextets, ...)
    is checked by evaluating it on each. *)
Lemma range_forall (P : Z -> Prop) `{!forall v, Decision (P v)} (n v : Z) :
  forallb (fun v => bool_decide (P v)) (seqZ 0 n) = true -> 0 <= v < n -> P v.
Proof.
  intros Hf Hv. eapply forallb_forall in Hf; [by eapply bool_decide_eq_true_1|].
  rewrite <- list_elem_of_In. apply elem_of_seqZ. lia.
Qed.

(** Joining a field to the bits above it. *)
Lemma lor_shiftl_add x y n : 0 <= n -> 0 <= y < 2 ^ n ->
  Z.lor (Z.shiftl x n) y = x * 2 ^ n + y.
Proof.
  intros Hn Hy. rewrite <- Z.add_nocarry_lor; [by rewrite Z.shiftl_mul_pow2|].
  apply Z.bits_inj'. intros k Hk. rewrite Z.land_spec, Z.bits_0.
  destruct (Z.ltb_spec k n).
  - by rewrite Z.shiftl_spec_low.
  - destruct (Z.eq_dec y 0) as [->|]; [by rewrite Z.bits_0, andb_false_r|].
    rewrite (Z.bits_above_log2 y k), andb_false_r; [done|lia|].
    apply Z.log2_lt_pow2; [lia|]. apply Z.lt_le_trans with (2 ^ n); [lia|].
    apply Z.pow_le_mono_r; lia.
Qed.

(** ** A state monad with undefined behaviour

    Stateful C functions are translated to [M S A]: the state the function reads
    and writes is [S], its return value is in [A], and [None] is undefined
    behaviour (a null dereference, an access outside an array, a failed
    assertion), after which nothing is claimed. *)

Definition M (S A : Type) : Type := S -> option (A * S).

Definition ret {S A} (a : A) : M S A := fun s => Some (a, s).
Definition bind {S A B} (m : M S A) (f : A -> M S B) : M S B :=
  fun s => match m s with Some (a, s') => f a s' | None => None end.
Definition undefined {S A} : M S A := fun _ => None.
Definition get {S} : M S S := fun s => Some (s, s).
Definition put {S} (s : S) : M S unit := fun _ => Some (tt, s).
Definition modify {S} (f : S -> S) : M S unit := fun s => Some (tt, f s).
Definition gets {S A} (f : S -> A) : M S A := fun s => Some (f s, s).
(** A value that must be defined. *)
Definition demand {S A} (o : option A) : M S A :=
  fun s => match o with Some a => Some (a, s) | None => None end.

Declare Scope m_scope.
Delimit Scope m_scope with m.
Notation "'let!' x ':=' m 'in' k" := (bind m (fun x => k))
  (at level 200, x pattern, m at level 200, k at level 200) : m_scope.
Notation "m ';;;' k" := (bind m (fun _ => k))
  (at level 199, right associativity) : m_scope.

(** [returns m s a s']: from [s], [m] returns [a] and leaves [s']. *)
Definition returns {S A} (m : M S A) (s : S) (a : A) (s' : S) : Prop := m s = Some (a, s').

Lemma bind_assoc {S A B C} (m : M S A) (f : A -> M S B) (g : B -> M S C) s :
  bind (bind m f) g s = bind m (fun a => bind (f a) g) s.
Proof. unfold bind. by destruct (m s) as [[a s']|]. Qed.

Lemma bind_some {S A B} (m : M S A) (f : A -> M S B) s a s' :
  m s = Some (a, s') -> bind m f s = f a s'.
Proof. unfold bind. by intros ->. Qed.

Lemma bind_ext {S A B} (m : M S A) (f g : A -> M S B) s :
  (forall a s', m s = Some (a, s') -> f a s' = g a s') -> bind m f s = bind m g s.
Proof. unfold bind. destruct (m s) as [[a s']|]; auto. Qed.

Lemma bind_inv {S A B} (m : M S A) (f : A -> M S B) s b s'' :
  bind m f s = Some (b, s'') -> exists a s', m s = Some (a, s') /\ f a s' = Some (b, s'').
Proof. unfold bind. destruct (m s) as [[a s']|]; [eauto|done]. Qed.

(** A function that only reads: it returns without changing the state. *)
Definition reads {S A} (m : M S A) (f : S -> A) : Prop := forall s, m s = Some (f s, s).

Lemma reads_gets {S A} (f : S -> A) : reads (gets f) f.
Proof. done. Qed.

(** [keeps R m]: whenever [m] returns, the states before and after it are in the
    relation [R]; with [R] a preorder it composes. *)
Definition keeps {S A} (R : S -> S -> Prop) (m : M S A) : Prop :=
  forall s a s', m s = Some (a, s') -> R s s'.

Section keeps.
Context {S : Type} (R : S -> S -> Prop) `{!PreOrder R}.

Lemma keeps_ret {A} (a : A) : keeps R (ret a).
Proof. by intros s b s' [= _ <-]. Qed.
Lemma keeps_gets {A} (f : S -> A) : keeps R (gets f).
Proof. by intros s b s' [= _ <-]. Qed.
Lemma keeps_demand {A} (o : option A) : keeps R (demand o).
Proof. intros s b s'. unfold demand. destruct o; [by intros [= _ <-]|done]. Qed.
Lemma keeps_undefined {A} : keeps R (@undefined S A).
Proof. done. Qed.
Lemma keeps_modify (f : S -> S) : (forall s, R s (f s)) -> keeps R (modify f).
Proof. intros H s b s' [= _ <-]. apply H. Qed.
Lemma keeps_bind {A B} (m : M S A) (f : A -> M S B) :
  keeps R m -> (forall a, keeps R (f a)) -> keeps R (bind m f).
Proof.
  intros Hm Hf s b s' E. apply bind_inv in E as (a & s1 & E1 & E2).
  etrans; [by eapply Hm|by eapply Hf].
Qed.
End keeps.

Lemma keeps_weaken {S A} (R R' : S -> S -> Prop) (m : M S A) :
  (forall s s', R s s' -> R' s s') -> keeps R m -> keeps R' m.
Proof. intros H Hm s a s' E. by eapply H, Hm. Qed.

(** ** Shared tactics *)

(** Proves [keeps] by following the structure of the function; the hint database
    [keeps] has the functions that were shown to keep a relation. *)
Ltac keep :=
  repeat first
    [ solve [eauto with keeps nocore]
    | simple apply keeps_bind; [typeclasses eauto| |intros ?]
    | simple apply keeps_ret; typeclasses eauto | simple apply keeps_gets; typeclasses eauto
    | simple apply keeps_demand; typeclasses eauto | simple apply keeps_undefined
    | match goal with
      | |- keeps _ (let x := _ in _) => cbv zeta
      | |- keeps _ (match ?x with _ => _ end) => destruct x
      end ].

(** Destructs the scrutinees of the [if]s and [match]es in the goal, keeping
    the equations, and closes the branches that contradict each other. *)
Ltac split_cases :=
  repeat (case_match; simplify_eq/=; try done).

(** Runs the primitive steps of a monadic function. *)
Ltac run := cbn [bind gets modify ret demand fmap option_fmap option_map mbind option_bind negb
  from_option default].

Create HintDb keeps.
Create HintDb ioc.
#[export] Hint Resolve wrap_in_width : ioc.
#[export] Hint Rewrite @length_app @length_take @length_drop @length_insert
  @length_cons @length_nil : ioc.
