(* ===== verification/Status.v ===== *)
(** * Result codes

    The enumerations that the modelled functions return:
    [OCStackResult] ([ocf/ocstack.c]), [CAResult_t] and [CAResponseResult_t]
    ([comm/_processing.h]), [OCEntityHandlerResult] ([ocf/oocf_server.c]) and
    [CAMethod_t] ([coap/coap_codec.c]). *)

From S2P Require Import Prelude.

Inductive OCStackResult : Type :=
| OC_STACK_OK | OC_STACK_RESOURCE_CREATED | OC_STACK_RESOURCE_DELETED
| OC_STACK_CONTINUE | OC_STACK_RESOURCE_CHANGED
| OC_STACK_INVALID_URI | OC_STACK_INVALID_QUERY | OC_STACK_INVALID_IP
| OC_STACK_INVALID_PORT | OC_STACK_INVALID_CALLBACK | OC_STACK_INVALID_METHOD
| OC_STACK_INVALID_PARAM | OC_STACK_INVALID_OBSERVE_PARAM | OC_STACK_NO_MEMORY
| OC_STACK_COMM_ERROR | OC_STACK_TIMEOUT | OC_STACK_ADAPTER_NOT_ENABLED
| OC_STACK_NOTIMPL | OC_STACK_NO_RESOURCE | OC_STACK_RESOURCE_ERROR
| OC_STACK_SLOW_RESOURCE | OC_STACK_DUPLICATE_REQUEST | OC_STACK_NO_OBSERVERS
| OC_STACK_OBSERVER_NOT_FOUND | OC_STACK_VIRTUAL_DO_NOT_HANDLE
| OC_STACK_INVALID_OPTION | OC_STACK_MALFORMED_RESPONSE
| OC_STACK_PERSISTENT_BUFFER_REQUIRED | OC_STACK_INVALID_REQUEST_HANDLE
| OC_STACK_INVALID_DEVICE_INFO | OC_STACK_INVALID_JSON
| OC_STACK_UNAUTHORIZED_REQ | OC_STACK_TOO_LARGE_REQ
| OC_STACK_PDM_IS_NOT_INITIALIZED | OC_STACK_DUPLICATE_UUID
| OC_STACK_INCONSISTENT_DB | OC_STACK_AUTHENTICATION_FAILURE
| OC_STACK_NOT_ALLOWED_OXM | OC_STACK_CONTINUE_OPERATION
| OC_STACK_BAD_ENDPOINT | OC_STACK_PRESENCE_STOPPED
| OC_STACK_PRESENCE_TIMEOUT | OC_STACK_PRESENCE_DO_NOT_HANDLE
| OC_STACK_USER_DENIED_REQ | OC_STACK_NOT_ACCEPTABLE | OC_STACK_FORBIDDEN_REQ
| OC_STACK_INTERNAL_SERVER_ERROR | OC_STACK_GATEWAY_TIMEOUT
| OC_STACK_SERVICE_UNAVAILABLE | OC_STACK_CA_SERVER_STARTED_ALREADY
| OC_STACK_CA_SERVER_NOT_STARTED | OC_STACK_ERROR.

#[export] Instance OCStackResult_eq_dec : EqDecision OCStackResult.
Proof. solve_decision. Defined.

(** [OC_STACK_OK == e], the test of every [VERIFY_SUCCESS]. *)
Definition is_ok (r : OCStackResult) : bool :=
  match r with OC_STACK_OK => true | _ => false end.

Inductive CAResult_t : Type :=
| CA_STATUS_OK | CA_STATUS_INVALID_PARAM | CA_ADAPTER_NOT_ENABLED
| CA_SERVER_STARTED_ALREADY | CA_SERVER_NOT_STARTED
| CA_DESTINATION_NOT_REACHABLE | CA_SOCKET_OPERATION_FAILED | CA_SEND_FAILED
| CA_RECEIVE_FAILED | CA_MEMORY_ALLOC_FAILED | CA_REQUEST_TIMEOUT
| CA_DESTINATION_DISCONNECTED | CA_NOT_SUPPORTED | CA_STATUS_NOT_INITIALIZED
| CA_DTLS_HANDSHAKE_FAILURE | CA_DTLS_AUTHENTICATION_FAILURE
| CA_CONTINUE_OPERATION | CA_HANDLE_ERROR_OTHER_MODULE | CA_STATUS_NOT_FOUND
| CA_STATUS_FAILED.

#[export] Instance CAResult_eq_dec : EqDecision CAResult_t.
Proof. solve_decision. Defined.

Definition ca_ok (r : CAResult_t) : bool :=
  match r with CA_STATUS_OK => true | _ => false end.

Inductive CAResponseResult_t : Type :=
| CA_EMPTY | CA_CREATED | CA_DELETED | CA_VALID | CA_CHANGED | CA_CONTENT
| CA_CONTINUE | CA_BAD_REQ | CA_UNAUTHORIZED_REQ | CA_BAD_OPT
| CA_FORBIDDEN_REQ | CA_NOT_FOUND | CA_METHOD_NOT_ALLOWED | CA_NOT_ACCEPTABLE
| CA_REQUEST_ENTITY_INCOMPLETE | CA_REQUEST_ENTITY_TOO_LARGE
| CA_INTERNAL_SERVER_ERROR | CA_BAD_GATEWAY | CA_SERVICE_UNAVAILABLE
| CA_RETRANSMIT_TIMEOUT | CA_PROXY_NOT_SUPPORTED.

Inductive OCEntityHandlerResult : Type :=
| OC_EH_OK | OC_EH_ERROR | OC_EH_SLOW | OC_EH_RESOURCE_CREATED
| OC_EH_RESOURCE_DELETED | OC_EH_VALID | OC_EH_CHANGED | OC_EH_CONTENT
| OC_EH_BAD_REQ | OC_EH_UNAUTHORIZED_REQ | OC_EH_BAD_OPT | OC_EH_FORBIDDEN
| OC_EH_RESOURCE_NOT_FOUND | OC_EH_METHOD_NOT_ALLOWED | OC_EH_NOT_ACCEPTABLE
| OC_EH_TOO_LARGE | OC_EH_UNSUPPORTED_MEDIA_TYPE | OC_EH_INTERNAL_SERVER_ERROR
| OC_EH_BAD_GATEWAY | OC_EH_SERVICE_UNAVAILABLE | OC_EH_RETRANSMIT_TIMEOUT.

#[export] Instance OCEntityHandlerResult_eq_dec : EqDecision OCEntityHandlerResult.
Proof. solve_decision. Defined.

Definition eh_ok (r : OCEntityHandlerResult) : bool :=
  match r with OC_EH_OK => true | _ => false end.

(** [CAMethod_t] is read from the wire, so a value outside the enumeration
    can occur; [CA_METHOD_OTHER] stands for all of them. *)
Inductive CAMethod_t : Type :=
| CA_GET | CA_POST | CA_PUT | CA_DELETE | CA_METHOD_OTHER (code : Z).

Lemma is_ok_true r : is_ok r = true <-> r = OC_STACK_OK.
Proof. by destruct r. Qed.

Lemma ca_ok_true r : ca_ok r = true <-> r = CA_STATUS_OK.
Proof. by destruct r. Qed.

Lemma eh_ok_true r : eh_ok r = true <-> r = OC_EH_OK.
Proof. by destruct r. Qed.

#[export] Hint Rewrite is_ok_true ca_ok_true eh_ok_true : ioc.
