(* ===== verification/ArrayList.v ===== *)
(** * The growable pointer array ([util/uarraylist.c])

    [u_arraylist_t] keeps [data], the block of cells it owns, [length] and
    [capacity], the number of cells it takes the block to have.  A cell is [None]
    while it is indeterminate (fresh from [OICMalloc] or [OICRealloc]) and
    [Some p] once a pointer was stored; a pointer is a [Z] of eight bytes whose
    null value is 0.  A [NULL] list argument is [None].  [OICRealloc] may fail:
    its success is the argument [mem].  The block has the number of bytes the
    code asks for, a product in [size_t].  An operation is [None] where C leaves
    it undefined: an access outside the block, the value of an indeterminate
    cell, [realloc] to no byte. *)

From S2P Require Import Prelude.

Module ArrayList.

Definition ptr : Type := Z.
Definition NULL : ptr := 0.
Definition sizeof_ptr : Z := 8.
Notation cell := (option ptr).

Record u_arraylist_t : Type := mk_arraylist {
  data : list cell;
  length : Z;
  capacity : Z }.

Definition U_ARRAYLIST_DEFAULT_CAPACITY : Z := 1.

Implicit Types (l : u_arraylist_t) (p : ptr).

(** [realloc] of the block to [size] bytes: the common prefix is kept, new cells
    are indeterminate.  The inner [None] is the null result; [realloc] to size 0
    may free the block the list keeps. *)
Definition realloc (block : list cell) (n : Z) : list cell :=
  take (Z.to_nat n) block ++ replicate (Z.to_nat n - List.length block) None.

Definition OICRealloc (mem : bool) (block : list cell) (size : Z) :
    option (option (list cell)) :=
  if size =? 0 then None
  else if mem then Some (Some (realloc block (size / sizeof_ptr))) else Some None.

Definition u_arraylist_create (mem1 mem2 : bool) : option u_arraylist_t :=
  if negb mem1 then None
  else if negb mem2 then None
  else Some (mk_arraylist (replicate (Z.to_nat U_ARRAYLIST_DEFAULT_CAPACITY) None)
               0 U_ARRAYLIST_DEFAULT_CAPACITY).

(** [u_arraylist_free] frees the block and the header and clears the pointer. *)
Definition u_arraylist_free (lst : option u_arraylist_t) : option u_arraylist_t :=
  match lst with None => lst | Some _ => None end.

Definition u_arraylist_reserve (mem : bool) (lst : option u_arraylist_t) (count : Z) :
    option (bool * option u_arraylist_t) :=
  match lst with
  | Some l =>
      if count >? capacity l then
        tmp ← OICRealloc mem (data l) (size_t (count * sizeof_ptr));
        match tmp with
        | None => Some (false, lst)
        | Some block => Some (true, Some (mk_arraylist block (length l) count))
        end
      else Some (true, lst)
  | None => Some (true, lst)
  end.

Definition u_arraylist_shrink_to_fit (mem : bool) (lst : option u_arraylist_t) :
    option (option u_arraylist_t) :=
  match lst with
  | None => Some None
  | Some l =>
      if (capacity l >? length l) && (length l >=? U_ARRAYLIST_DEFAULT_CAPACITY) then
        tmp ← OICRealloc mem (data l) (size_t (length l * sizeof_ptr));
        match tmp with
        | None => Some lst
        | Some block => Some (Some (mk_arraylist block (length l) (length l)))
        end
      else Some lst
  end.

(** The value of [data[i]]. *)
Definition at_index l (i : Z) : option ptr := c ← load (data l) i; c.

Definition u_arraylist_get (lst : option u_arraylist_t) (index : Z) : option ptr :=
  match lst with
  | None => Some NULL
  | Some l => if index <? length l then at_index l index else Some NULL
  end.

(** The [for] loop shared by [u_arraylist_get_index] and
    [u_arraylist_contains]: the first [i < n] with [data[i] == d]. *)
Fixpoint find_cell (cells : list cell) (n : nat) (i : Z) (d : ptr) {struct n} :
    option (option Z) :=
  match n, cells with
  | O, _ => Some None
  | S n', Some p :: cells' =>
      if p =? d then Some (Some i) else find_cell cells' n' (i + 1) d
  | S _, _ => None
  end.

Definition u_arraylist_get_index (lst : option u_arraylist_t) (d : ptr) :
    option (option Z) :=
  match lst with
  | None => Some None
  | Some l => if d =? NULL then Some None
              else find_cell (data l) (Z.to_nat (length l)) 0 d
  end.

Definition u_arraylist_contains (lst : option u_arraylist_t) (d : ptr) : option bool :=
  match lst with
  | None => Some false
  | Some l =>
      found ← find_cell (data l) (Z.to_nat (length l)) 0 d;
      Some (bool_decide (is_Some found))
  end.

(** [new_capacity = ((capacity * 3) + 1) / 2] in [size_t] arithmetic. *)
Definition new_capacity (cap : Z) : Z := size_t (size_t (cap * 3) + 1) / 2.

(** [memset(data + from, 0, n * sizeof(data[0]))]. *)
Definition memset_from (cells : list cell) (from n : Z) : option (list cell) :=
  if from + n <=? Z.of_nat (List.length cells) then
    Some (take (Z.to_nat from) cells ++ replicate (Z.to_nat n) (Some NULL)
          ++ drop (Z.to_nat (from + n)) cells)
  else None.

(** [list->data[list->length] = data; list->length++]. *)
Definition append l (d : ptr) : option (bool * option u_arraylist_t) :=
  cells ← store (data l) (length l) (Some d);
  Some (true, Some (mk_arraylist cells (size_t (length l + 1)) (capacity l))).

Definition u_arraylist_add (mem : bool) (lst : option u_arraylist_t) (d : ptr) :
    option (bool * option u_arraylist_t) :=
  match lst with
  | None => Some (false, lst)
  | Some l =>
      if capacity l <=? length l then
        let nc := new_capacity (capacity l) in
        tmp ← OICRealloc mem (data l) (size_t (nc * sizeof_ptr));
        match tmp with
        | None => Some (false, lst)
        | Some block =>
            cells ← memset_from block (capacity l)
              (size_t (size_t (nc - capacity l) * sizeof_ptr) / sizeof_ptr);
            append (mk_arraylist cells (length l) nc) d
        end
      else append l d
  end.

(** [memmove] of the [len - i - 1] cells from [i + 1] on, down to [i]. *)
Definition memmove_down (cells : list cell) (i len : Z) : option (list cell) :=
  if len <=? Z.of_nat (List.length cells) then
    Some (take (Z.to_nat i) cells
          ++ take (Z.to_nat (len - i - 1)) (drop (Z.to_nat (i + 1)) cells)
          ++ drop (Z.to_nat (len - 1)) cells)
  else None.

Definition u_arraylist_remove (lst : option u_arraylist_t) (index : Z) :
    option (ptr * option u_arraylist_t) :=
  match lst with
  | None => Some (NULL, lst)
  | Some l =>
      if index >=? length l then Some (NULL, lst)
      else
        removed ← at_index l index;
        cells ← (if index <? length l - 1 then memmove_down (data l) index (length l)
                 else Some (data l));
        Some (removed, Some (mk_arraylist cells (length l - 1) (capacity l)))
  end.

Definition u_arraylist_length (lst : option u_arraylist_t) : Z :=
  match lst with None => 0 | Some l => length l end.

(** [u_arraylist_destroy] frees every stored element (the freed pointers are
    returned, in order) and then the list. *)
Definition u_arraylist_destroy (lst : option u_arraylist_t) :
    option (list ptr * option u_arraylist_t) :=
  match lst with
  | None => Some ([], None)
  | Some l =>
      if length l <=? Z.of_nat (List.length (data l)) then
        freed ← mapM id (take (Z.to_nat (length l)) (data l));
        Some (freed, u_arraylist_free lst)
      else None
  end.

Definition u_arraylist_swap (lst : option u_arraylist_t) (index1 index2 : Z) :
    option (bool * option u_arraylist_t) :=
  match lst with
  | None => Some (false, lst)
  | Some l =>
      if (index1 >=? length l) || (index2 >=? length l) then Some (false, lst)
      else
        tmp ← at_index l index1;
        other ← at_index l index2;
        cells ← store (data l) index1 (Some other);
        cells ← store cells index2 (Some tmp);
        Some (true, Some (mk_arraylist cells (length l) (capacity l)))
  end.

(** ** Well-formed lists and their abstract contents *)

(** The abstract list: its pointers and the room it has for them. *)
Record contents : Type := mk_contents { elems : list ptr; room : Z }.

Implicit Types (a : contents) (ps : list ptr) (cells block cs : list cell).

(** The number of pointers a block can have: its bytes are counted in [size_t]. *)
Definition max_room : Z := 2 ^ 61.

(** A list owns a block of exactly [capacity] cells, at least the default
    capacity, and its first [length] cells hold the pointers. *)
Record represents l a : Prop := {
  rep_block : Z.of_nat (List.length (data l)) = capacity l;
  rep_room : capacity l = room a;
  rep_cap : U_ARRAYLIST_DEFAULT_CAPACITY <= room a < max_room;
  rep_len : length l = Z.of_nat (List.length (elems a));
  rep_cells : (Some <$> elems a) `prefix_of` data l }.

Lemma rep_fits l a : represents l a -> Z.of_nat (List.length (elems a)) <= room a.
Proof.
  intros [Hb Hr _ _ [k Hk]]. apply (f_equal List.length) in Hk.
  rewrite length_app, length_fmap in Hk. lia.
Qed.

Lemma cells_at cells ps (i : nat) p : (Some <$> ps) `prefix_of` cells ->
  ps !! i = Some p -> load cells (Z.of_nat i) = Some (Some p).
Proof.
  intros Hk Hp. rewrite load_nat. eapply prefix_lookup_Some; [|done].
  by rewrite list_lookup_fmap, Hp.
Qed.

Lemma rep_at_index l a (i : nat) p : represents l a -> elems a !! i = Some p ->
  at_index l (Z.of_nat i) = Some p.
Proof.
  intros H Hp. unfold at_index. by rewrite (cells_at _ _ i p (rep_cells _ _ H)).
Qed.

(** A block of [n] cells whose cells from 0 hold [ps]. *)
Lemma rep_intro cells ps n len : Z.of_nat (List.length cells) = n ->
  U_ARRAYLIST_DEFAULT_CAPACITY <= n < max_room -> len = Z.of_nat (List.length ps) ->
  (Some <$> ps) `prefix_of` cells ->
  represents (mk_arraylist cells len n) (mk_contents ps n).
Proof. by split. Qed.

(** Up to the room a block can have, the request in bytes does not wrap and
    the new block has the cells asked for. *)
Lemma realloc_cells mem block n : 0 < n < max_room ->
  OICRealloc mem block (size_t (n * sizeof_ptr)) =
    Some (if mem then Some (realloc block n) else None).
Proof.
  unfold OICRealloc, max_room, sizeof_ptr. intros Hn.
  rewrite wrap_id by (unfold in_width; lia).
  rewrite (proj2 (Z.eqb_neq _ _)), Z.div_mul by lia. by destruct mem.
Qed.

Lemma length_realloc block n : 0 <= n ->
  Z.of_nat (List.length (realloc block n)) = n.
Proof.
  intros Hn. unfold realloc. rewrite length_app, length_take, length_replicate. lia.
Qed.

Lemma realloc_prefix block n cs : cs `prefix_of` block ->
  Z.of_nat (List.length cs) <= n -> cs `prefix_of` realloc block n.
Proof.
  intros [k ->] Hn. unfold realloc. rewrite take_app_ge by lia.
  rewrite <- app_assoc. apply prefix_app_r. done.
Qed.

(** The block moved to [n] cells, which leave room for the elements. *)
Lemma rep_realloc l a n : represents l a ->
  U_ARRAYLIST_DEFAULT_CAPACITY <= n < max_room ->
  Z.of_nat (List.length (elems a)) <= n ->
  represents (mk_arraylist (realloc (data l) n) (length l) n) (mk_contents (elems a) n).
Proof.
  intros H Hn Hl. unfold U_ARRAYLIST_DEFAULT_CAPACITY in *.
  apply rep_intro; [apply length_realloc; lia|done|by apply rep_len|].
  apply realloc_prefix; [by apply rep_cells|]. by rewrite length_fmap.
Qed.

Lemma rep_create : exists l,
  u_arraylist_create true true = Some l /\ represents l (mk_contents [] 1).
Proof. eexists. split; [reflexivity|]. split; simpl; try done. by eexists. Qed.

(** [append] to a block with room. *)
Lemma rep_append cells ps n d : Z.of_nat (List.length cells) = n ->
  U_ARRAYLIST_DEFAULT_CAPACITY <= n < max_room ->
  (Some <$> ps) `prefix_of` cells -> Z.of_nat (List.length ps) < n ->
  exists l', append (mk_arraylist cells (Z.of_nat (List.length ps)) n) d
               = Some (true, Some l') /\ represents l' (mk_contents (ps ++ [d]) n).
Proof.
  unfold max_room. intros Hn Hc [k ->] Hr.
  assert (Hw : size_t (Z.of_nat (List.length ps) + 1)
               = Z.of_nat (List.length (ps ++ [d]))).
  { rewrite wrap_id by (unfold in_width; lia). rewrite length_app. simpl. lia. }
  destruct k as [|c k]; [rewrite app_nil_r, length_fmap in Hn; lia|].
  unfold append. cbn [data length capacity].
  rewrite store_app by by rewrite length_fmap.
  eexists. split; [done|]. apply rep_intro; try done.
  - rewrite <- Hn, !length_app. simpl. lia.
  - rewrite fmap_app. exists k. by rewrite <- app_assoc.
Qed.

Lemma new_capacity_grows cap : 1 <= cap <= 2 ^ 60 ->
  new_capacity cap = (cap * 3 + 1) / 2 /\ cap < new_capacity cap < max_room.
Proof.
  intros H. unfold new_capacity, max_room.
  rewrite (wrap_id 64 (cap * 3)) by (unfold in_width; lia).
  rewrite wrap_id by (unfold in_width; lia).
  split; [done|]. Z.to_euclidean_division_equations. lia.
Qed.

(** [memset] of the cells a grown block gained. *)
Lemma memset_grown block m n cs : 0 <= m <= n -> n < max_room ->
  Z.of_nat (List.length block) = n -> cs `prefix_of` block ->
  Z.of_nat (List.length cs) <= m ->
  exists cells, memset_from block m (size_t (size_t (n - m) * sizeof_ptr) / sizeof_ptr)
                  = Some cells /\
                Z.of_nat (List.length cells) = n /\ cs `prefix_of` cells.
Proof.
  unfold max_room, sizeof_ptr, memset_from. intros Hm Hn Hl [k Hk] Hc.
  rewrite (wrap_id 64 (n - m)) by (unfold in_width; lia).
  rewrite wrap_id by (unfold in_width; lia). rewrite Z.div_mul by lia.
  rewrite (proj2 (Z.leb_le _ _)) by lia. eexists. split; [done|]. split.
  - rewrite !length_app, length_take, length_replicate, length_drop. lia.
  - rewrite Hk, take_app_ge by lia. rewrite <- app_assoc. by apply prefix_app_r.
Qed.

(** [memmove] closes the gap at [i]. *)
Lemma memmove_prefix cells ps i :
  (Some <$> ps) `prefix_of` cells -> (S i < List.length ps)%nat ->
  exists cells', memmove_down cells (Z.of_nat i) (Z.of_nat (List.length ps)) = Some cells' /\
    List.length cells' = List.length cells /\
    (Some <$> delete i ps) `prefix_of` cells'.
Proof.
  intros [k ->] Hi. unfold memmove_down.
  rewrite (proj2 (Z.leb_le _ _)) by (rewrite length_app, length_fmap; lia).
  eexists. split; [done|]. split.
  { rewrite !length_app, !length_take, !length_drop, length_app, length_fmap. lia. }
  rewrite delete_take_drop, fmap_app, fmap_take, fmap_drop.
  replace (Z.to_nat (Z.of_nat i)) with i by lia.
  replace (Z.to_nat (Z.of_nat i + 1)) with (S i) by lia.
  replace (Z.to_nat (Z.of_nat (List.length ps) - Z.of_nat i - 1))
    with (List.length (drop (S i) (Some <$> ps)))
    by (rewrite length_drop, length_fmap; lia).
  rewrite take_app_le by (rewrite length_fmap; lia).
  rewrite drop_app_le by (rewrite length_fmap; lia).
  rewrite take_app_length. rewrite app_assoc. by apply prefix_app_r.
Qed.

Lemma find_cell_spec cells ps i d : (Some <$> ps) `prefix_of` cells ->
  find_cell cells (List.length ps) i d =
    Some ((fun n => i + Z.of_nat n) <$> (fst <$> list_find (d =.) ps)).
Proof.
  revert cells i. induction ps as [|p ps IH]; intros cells i [k ->]; simpl; [done|].
  destruct (Z.eqb_spec p d) as [->|Hne].
  - rewrite decide_True by done. simpl. do 2 f_equal. lia.
  - rewrite decide_False by congruence. rewrite IH by by eexists. f_equal.
    destruct (list_find (d =.) ps) as [[n q]|]; simpl; [|done]. f_equal. lia.
Qed.

(** ** Refinement: the array implements a list of pointers *)

(** The calls a client makes on a list, and what they answer. *)
Inductive call : Type :=
| CAdd (d : ptr) | CRemove (i : nat) | CSwap (i j : nat) | CReserve (n : Z)
| CShrink | CGet (i : nat) | CIndexOf (d : ptr) | CContains (d : ptr) | CLength.

Inductive answer : Type :=
| ABool (b : bool) | APtr (p : ptr) | AIndex (o : option Z) | ASize (n : Z) | AVoid.

(** A call, with the success of the allocation it may make. *)
Definition exec (mem : bool) (c : call) (lst : option u_arraylist_t) :
    option (answer * option u_arraylist_t) :=
  match c with
  | CAdd d => '(b, l') ← u_arraylist_add mem lst d; Some (ABool b, l')
  | CRemove i => '(p, l') ← u_arraylist_remove lst (Z.of_nat i); Some (APtr p, l')
  | CSwap i j =>
      '(b, l') ← u_arraylist_swap lst (Z.of_nat i) (Z.of_nat j); Some (ABool b, l')
  | CReserve n => '(b, l') ← u_arraylist_reserve mem lst n; Some (ABool b, l')
  | CShrink => l' ← u_arraylist_shrink_to_fit mem lst; Some (AVoid, l')
  | CGet i => p ← u_arraylist_get lst (Z.of_nat i); Some (APtr p, lst)
  | CIndexOf d => o ← u_arraylist_get_index lst d; Some (AIndex o, lst)
  | CContains d => b ← u_arraylist_contains lst d; Some (ABool b, lst)
  | CLength => Some (ASize (u_arraylist_length lst), lst)
  end.

(** The abstract list answers and changes as follows; where it would need more
    room and there is no memory, it answers false and stays as it is. *)
Definition spec (mem : bool) (c : call) a : answer * contents :=
  let ps := elems a in
  let len := Z.of_nat (List.length ps) in
  match c with
  | CAdd d =>
      if len <? room a then (ABool true, mk_contents (ps ++ [d]) (room a))
      else if mem then (ABool true, mk_contents (ps ++ [d]) ((room a * 3 + 1) / 2))
      else (ABool false, a)
  | CRemove i => (APtr (default NULL (ps !! i)), mk_contents (delete i ps) (room a))
  | CSwap i j =>
      match ps !! i, ps !! j with
      | Some p, Some q => (ABool true, mk_contents (<[j := p]> (<[i := q]> ps)) (room a))
      | _, _ => (ABool false, a)
      end
  | CReserve n =>
      if n <=? room a then (ABool true, a)
      else if mem then (ABool true, mk_contents ps n) else (ABool false, a)
  | CShrink =>
      (AVoid, if mem && negb (bool_decide (ps = [])) then mk_contents ps len else a)
  | CGet i => (APtr (default NULL (ps !! i)), a)
  | CIndexOf d =>
      (AIndex (if d =? NULL then None
               else Z.of_nat <$> (fst <$> list_find (d =.) ps)), a)
  | CContains d => (ABool (bool_decide (d ∈ ps)), a)
  | CLength => (ASize len, a)
  end.

(** The bounds within which no size wraps: a full list grows from at most
    [2 ^ 60] cells, and room is reserved for fewer than [2 ^ 61] pointers. *)
Definition fits (c : call) a : Prop :=
  match c with
  | CAdd _ => Z.of_nat (List.length (elems a)) = room a -> room a <= 2 ^ 60
  | CReserve n => n < max_room
  | _ => True
  end.

(** The call [c] on [l] does what the abstract list does. *)
Definition refined (mem : bool) (c : call) l a : Prop :=
  exists l', exec mem c (Some l) = Some (fst (spec mem c a), Some l') /\
             represents l' (snd (spec mem c a)).

Lemma add_refined mem l a d : represents l a -> fits (CAdd d) a -> refined mem (CAdd d) l a.
Proof.
  intros H Hf. pose proof (rep_fits _ _ H). destruct (H) as [Hb Hr Hc Hl Hp].
  unfold refined, exec, spec, u_arraylist_add. rewrite Hr, Hl.
  destruct (Z.leb_spec (room a) (Z.of_nat (List.length (elems a)))) as [Hfull|Hroom].
  - rewrite (proj2 (Z.ltb_ge _ _)) by done.
    destruct (new_capacity_grows (room a)) as [Heq Hgt].
    { unfold U_ARRAYLIST_DEFAULT_CAPACITY in *. cbn in Hf. lia. }
    rewrite realloc_cells by (unfold U_ARRAYLIST_DEFAULT_CAPACITY in *; lia).
    destruct mem; cbn [mbind option_bind]; [|eauto].
    destruct (memset_grown (realloc (data l) (new_capacity (room a))) (room a)
      (new_capacity (room a)) (Some <$> elems a)) as (cells & -> & Hlen & Hpre).
    1-5: unfold U_ARRAYLIST_DEFAULT_CAPACITY in *; rewrite ?length_fmap; try lia.
    1: apply length_realloc; lia.
    1: apply realloc_prefix; [done|rewrite length_fmap; lia].
    cbn [mbind option_bind]. rewrite <- Heq.
    destruct (rep_append cells (elems a) (new_capacity (room a)) d) as (l' & -> & Hl');
      [done|unfold U_ARRAYLIST_DEFAULT_CAPACITY in *; lia|done|lia|]. cbn. eauto.
  - rewrite (proj2 (Z.ltb_lt _ _)) by done.
    destruct (rep_append (data l) (elems a) (room a) d) as (l' & Ha & Hl'); try done; [lia|].
    replace l with (mk_arraylist (data l) (Z.of_nat (List.length (elems a))) (room a))
      by (destruct l; simpl in *; congruence).
    rewrite Ha. cbn. eauto.
Qed.

Lemma remove_refined mem l a i : represents l a -> refined mem (CRemove i) l a.
Proof.
  intros H. destruct (H) as [Hb Hr Hc Hl Hp].
  unfold refined, exec, spec, u_arraylist_remove. rewrite Hl. cbv zeta.
  destruct (elems a !! i) as [p|] eqn:Hi; cbn [default].
  - pose proof (lookup_lt_Some _ _ _ Hi) as Hlt. rewrite Z.geb_leb.
    rewrite (proj2 (Z.leb_gt _ _)) by lia. rewrite (rep_at_index l a i p) by done.
    cbn [mbind option_bind].
    destruct (Z.ltb_spec (Z.of_nat i) (Z.of_nat (List.length (elems a)) - 1)).
    + destruct (memmove_prefix (data l) (elems a) i) as (cells & -> & Hcl & Hcp);
        [done|lia|].
      cbn. eexists. split; [done|]. rewrite Hr. apply rep_intro; try done; [lia|].
      rewrite length_delete by eauto. lia.
    + cbn. eexists. split; [done|]. rewrite Hr. apply rep_intro; [lia|done| |].
      * rewrite length_delete by eauto. lia.
      * transitivity (Some <$> elems a); [|done].
        rewrite delete_take_drop, drop_ge by lia. rewrite app_nil_r, fmap_take.
        apply prefix_take.
  - apply lookup_ge_None in Hi. rewrite Z.geb_leb, (proj2 (Z.leb_le _ _)) by lia.
    cbn. rewrite delete_take_drop, take_ge, drop_ge, app_nil_r by lia.
    exists l. split; [done|]. by destruct a.
Qed.

Lemma store_nat cells (i : nat) c : (i < List.length cells)%nat ->
  store cells (Z.of_nat i) c = Some (<[i := c]> cells).
Proof.
  intros Hi. unfold store. rewrite Nat2Z.id.
  by rewrite (proj2 (Z.leb_le 0 _)), (proj2 (Z.ltb_lt _ _)) by lia.
Qed.

Lemma swap_refined mem l a i j : represents l a -> refined mem (CSwap i j) l a.
Proof.
  intros H. destruct (H) as [Hb Hr Hc Hl [k Hk]].
  unfold refined, exec, spec, u_arraylist_swap. rewrite Hl, !Z.geb_leb. cbv zeta.
  destruct (elems a !! i) as [p|] eqn:Hi; [destruct (elems a !! j) as [q|] eqn:Hj|].
  - pose proof (lookup_lt_Some _ _ _ Hi). pose proof (lookup_lt_Some _ _ _ Hj).
    rewrite !(proj2 (Z.leb_gt _ _)) by lia. cbn [orb].
    rewrite (rep_at_index l a i p), (rep_at_index l a j q) by done. cbn [mbind option_bind].
    assert (Hlen : (List.length (elems a) <= List.length (data l))%nat)
      by (rewrite Hk, length_app, length_fmap; lia).
    rewrite store_nat by lia. cbn [mbind option_bind].
    rewrite store_nat by (rewrite length_insert; lia). cbn [mbind option_bind].
    eexists. split; [done|]. rewrite Hr. apply rep_intro; rewrite ?length_insert; try done.
    + lia.
    + rewrite Hk, insert_app_l by (rewrite length_fmap; lia).
      rewrite insert_app_l by (rewrite length_insert, length_fmap; lia).
      rewrite !list_fmap_insert. by apply prefix_app_r.
  - apply lookup_ge_None in Hj. rewrite (proj2 (Z.leb_le _ (Z.of_nat j))), orb_true_r by lia.
    cbn. eauto.
  - apply lookup_ge_None in Hi. rewrite (proj2 (Z.leb_le _ (Z.of_nat i))) by lia.
    cbn. eauto.
Qed.

Lemma reserve_refined mem l a n : represents l a -> n < max_room ->
  refined mem (CReserve n) l a.
Proof.
  intros H Hn. pose proof (rep_fits _ _ H). pose proof (rep_cap _ _ H).
  unfold U_ARRAYLIST_DEFAULT_CAPACITY in *.
  unfold refined, exec, spec, u_arraylist_reserve. rewrite (rep_room _ _ H), Z.gtb_ltb.
  destruct (Z.leb_spec n (room a)).
  - rewrite (proj2 (Z.ltb_ge _ _)) by done. cbn. eauto.
  - rewrite (proj2 (Z.ltb_lt _ _)), realloc_cells by lia.
    destruct mem; cbn; [|eauto]. eexists. split; [done|]. apply rep_realloc; [done|unfold U_ARRAYLIST_DEFAULT_CAPACITY; lia|lia].
Qed.

Lemma shrink_refined mem l a : represents l a -> refined mem CShrink l a.
Proof.
  intros H. pose proof (rep_fits _ _ H). destruct (H) as [Hb Hr Hc Hl Hp].
  unfold refined, exec, spec, u_arraylist_shrink_to_fit, U_ARRAYLIST_DEFAULT_CAPACITY in *.
  cbv zeta. rewrite Hr, Hl, Z.gtb_ltb, Z.geb_leb.
  destruct (Z.leb_spec 1 (Z.of_nat (List.length (elems a)))).
  - rewrite bool_decide_eq_false_2 by (intros E; rewrite E in *; simpl in *; lia).
    destruct (Z.ltb_spec (Z.of_nat (List.length (elems a))) (room a)).
    + cbn [andb negb]. rewrite realloc_cells by lia. destruct mem; cbn; [|eauto].
      eexists. split; [done|]. rewrite <- Hl at 2. apply rep_realloc; [done|unfold U_ARRAYLIST_DEFAULT_CAPACITY; lia|lia].
    + cbn. exists l. split; [done|]. destruct mem; [|done].
      replace (Z.of_nat (List.length (elems a))) with (room a) by lia. by destruct a.
  - destruct (elems a) as [|p ps] eqn:E; [|simpl in *; lia].
    rewrite bool_decide_eq_true_2, !andb_false_r by done. cbn. eauto.
Qed.

Lemma queries_refined mem l a c : represents l a ->
  match c with CGet _ | CIndexOf _ | CContains _ | CLength => True | _ => False end ->
  refined mem c l a.
Proof.
  intros H. unfold refined.
  assert (Hq : forall r, exec mem c (Some l) = Some (r, Some l) ->
    spec mem c a = (r, a) -> refined mem c l a).
  { intros r E S. unfold refined. rewrite E, S. eauto. }
  destruct (H) as [Hb Hr Hc Hl Hp].
  destruct c as [| | | | |i|d|d|]; intros []; (eapply Hq; [|reflexivity]); cbn; rewrite Hl.
  - destruct (elems a !! i) as [p|] eqn:Hi.
    + pose proof (lookup_lt_Some _ _ _ Hi). rewrite (proj2 (Z.ltb_lt _ _)) by lia.
      by rewrite (rep_at_index l a i p).
    + apply lookup_ge_None in Hi. by rewrite (proj2 (Z.ltb_ge _ _)) by lia.
  - rewrite Nat2Z.id, (find_cell_spec _ (elems a)) by done. by destruct (d =? NULL).
  - rewrite Nat2Z.id, (find_cell_spec _ (elems a)) by done. cbn. do 3 f_equal.
    apply bool_decide_ext. rewrite !fmap_is_Some. split.
    + intros [[n q] Hf]. apply list_find_Some in Hf as (Hn & -> & _).
      by eapply list_elem_of_lookup_2.
    + intros Hin. by apply (list_find_elem_of (d =.) (elems a) d).
  - done.
Qed.

Lemma exec_refined mem c l a : represents l a -> fits c a -> refined mem c l a.
Proof.
  intros H Hf. destruct c; try (by apply queries_refined);
    eauto using add_refined, remove_refined, swap_refined, reserve_refined, shrink_refined.
Qed.

(** A run of calls, each with the success of its allocation. *)
Fixpoint exec_all (calls : list (bool * call)) (lst : option u_arraylist_t) :
    option (list answer * option u_arraylist_t) :=
  match calls with
  | [] => Some ([], lst)
  | (mem, c) :: calls' =>
      '(r, lst) ← exec mem c lst;
      '(rs, lst) ← exec_all calls' lst;
      Some (r :: rs, lst)
  end.

Fixpoint spec_all (calls : list (bool * call)) a : list answer * contents :=
  match calls with
  | [] => ([], a)
  | (mem, c) :: calls' =>
      let '(r, a) := spec mem c a in
      let '(rs, a) := spec_all calls' a in (r :: rs, a)
  end.

Fixpoint all_fit (calls : list (bool * call)) a : Prop :=
  match calls with
  | [] => True
  | (mem, c) :: calls' => fits c a /\ all_fit calls' (snd (spec mem c a))
  end.

Lemma exec_all_refined calls : forall l a, represents l a -> all_fit calls a ->
  exists l', exec_all calls (Some l) = Some (fst (spec_all calls a), Some l') /\
             represents l' (snd (spec_all calls a)).
Proof.
  induction calls as [|[mem c] calls IH]; intros l a H Hf; cbn; [eauto|].
  destruct Hf as [Hc Hf]. destruct (exec_refined mem c l a H Hc) as (l1 & -> & H1).
  destruct (spec mem c a) as [r a1]. cbn in *.
  destruct (IH l1 a1 H1 Hf) as (l2 & -> & H2). destruct (spec_all calls a1). cbn. eauto.
Qed.

Lemma destroy_refined l a : represents l a ->
  u_arraylist_destroy (Some l) = Some (elems a, None).
Proof.
  intros [_ _ _ Hl [k Hk]]. unfold u_arraylist_destroy. rewrite Hl, Hk, Nat2Z.id.
  rewrite (proj2 (Z.leb_le _ _)) by (rewrite length_app, length_fmap; lia).
  rewrite <- (length_fmap Some (elems a)) at 1. rewrite take_app_length.
  replace (mapM id (Some <$> elems a)) with (Some (elems a)); [done|].
  symmetry. apply mapM_Some. apply Forall2_fmap_l, Forall_Forall2_diag, Forall_true. done.
Qed.

(** C40: A new list implements a list of pointers: in every run of calls, each of
    whose allocations may fail, every call answers what the abstract list
    answers and leaves its next state, without an access outside the block; so
    the array never loses, duplicates or reorders a pointer, an addition or a
    reservation without memory is refused and changes nothing, and the final
    [u_arraylist_destroy] frees each element once, in order.  The bounds [fits]
    are those of the sizes in bytes: room is reserved for fewer than [2 ^ 61]
    pointers and a full list grows from at most [2 ^ 60]. *)
Theorem u_arraylist_refines (calls : list (bool * call)) :
  all_fit calls (mk_contents [] U_ARRAYLIST_DEFAULT_CAPACITY) ->
  let '(answers, a) := spec_all calls (mk_contents [] U_ARRAYLIST_DEFAULT_CAPACITY) in
  exists l', exec_all calls (u_arraylist_create true true) = Some (answers, Some l') /\
    represents l' a /\ u_arraylist_destroy (Some l') = Some (elems a, None).
Proof.
  intros Hf. destruct rep_create as (l & -> & H).
  destruct (exec_all_refined calls l _ H Hf) as (l' & He & Hr).
  destruct (spec_all calls _) as [answers a]. exists l'.
  split_and!; [done|done|by apply destroy_refined].
Qed.

Lemma u_arraylist_refines_witness :
  exists l', exec_all [(true, CAdd 7); (false, CAdd 8); (true, CAdd 8); (true, CAdd 9);
                       (false, CReserve 9); (true, CRemove 1); (true, CShrink);
                       (true, CIndexOf 9)] (u_arraylist_create true true)
    = Some ([ABool true; ABool false; ABool true; ABool true; ABool false; APtr 8; AVoid;
             AIndex (Some 1)], Some l') /\
    represents l' (mk_contents [7; 9] 2) /\
    u_arraylist_destroy (Some l') = Some ([7; 9], None).
Proof.
  apply (u_arraylist_refines [(true, CAdd 7); (false, CAdd 8); (true, CAdd 8); (true, CAdd 9);
    (false, CReserve 9); (true, CRemove 1); (true, CShrink); (true, CIndexOf 9)]).
  vm_compute. split_and!; done.
Defined.

(** Without the bound: the size of [2 ^ 61 + 1] pointers wraps to the eight
    bytes of one, so the reservation answers true, shrinks the block and loses
    the second element, and reading it leaves the block. *)
Example reserve_wraps :
  let l := mk_arraylist [Some 7; Some 8] 2 2 in
  let l' := mk_arraylist [Some 7] 2 (2 ^ 61 + 1) in
  represents l (mk_contents [7; 8] 2) /\
  u_arraylist_reserve true (Some l) (2 ^ 61 + 1) = Some (true, Some l') /\
  u_arraylist_get (Some l') 1 = None.
Proof. split_and!; [|reflexivity..]. split; try done. Qed.

End ArrayList.
