(* ===== verification/LinkList.v ===== *)
(** * The linked list with a destructive iterator ([util/ulinklist.c])

    Nodes live in a heap, a finite map from addresses to nodes, so that the
    iterator a client keeps, the list's [next] fields and [OICFree] refer to the
    same cells.  An operation returns [None] where the C code would dereference
    a null or freed address.  [OICMalloc]'s result is the argument [mem]. *)

From S2P Require Import Prelude.
From S2P Require Import Status.

Module LinkList.

Definition ptr : Type := Z.
Definition NULL : ptr := 0.

Record u_linklist_data_t : Type := mk_node { data : ptr; next : ptr }.
Record u_linklist_t : Type := mk_linklist { head : ptr; size : Z }.
Notation heap := (gmap ptr u_linklist_data_t).

Implicit Types (hp : heap) (l : u_linklist_t).

(** The header block; its own address plays no role. *)
Definition u_linklist_create (mem : bool) : option u_linklist_t :=
  if mem then Some (mk_linklist NULL 0) else None.

(** The outcome of an operation: result code, heap, header. *)
Definition outcome : Type := option (CAResult_t * heap * option u_linklist_t).

Definition u_linklist_add_head (mem : ptr) hp (linklist : option u_linklist_t)
    (d : ptr) : outcome :=
  match linklist with
  | None => Some (CA_STATUS_INVALID_PARAM, hp, None)
  | Some l =>
      if d =? NULL then Some (CA_STATUS_INVALID_PARAM, hp, linklist)
      else if mem =? NULL then Some (CA_MEMORY_ALLOC_FAILED, hp, linklist)
      else Some (CA_STATUS_OK, <[mem := mk_node d (head l)]> hp,
                 Some (mk_linklist mem (size l + 1)))
  end.

(** [while (true)]: the node whose [next] is null. *)
Fixpoint last_node (fuel : nat) hp (n : ptr) : option ptr :=
  match fuel with
  | O => None
  | S fuel' =>
      match hp !! n with
      | None => None
      | Some c => if next c =? NULL then Some n else last_node fuel' hp (next c)
      end
  end.

Definition set_next hp (n nx : ptr) : option heap :=
  match hp !! n with
  | None => None
  | Some c => Some (<[n := mk_node (data c) nx]> hp)
  end.

(** A list has at most as many nodes as the heap. *)
Definition turns hp : nat := S (base.size hp).

Definition u_linklist_add (mem : ptr) hp (linklist : option u_linklist_t)
    (d : ptr) : outcome :=
  match linklist with
  | None => Some (CA_STATUS_INVALID_PARAM, hp, None)
  | Some l =>
      if d =? NULL then Some (CA_STATUS_INVALID_PARAM, hp, linklist)
      else if mem =? NULL then Some (CA_MEMORY_ALLOC_FAILED, hp, linklist)
      else
        let hp1 := <[mem := mk_node d NULL]> hp in
        if head l =? NULL then
          Some (CA_STATUS_OK, hp1, Some (mk_linklist mem (size l + 1)))
        else
          n ← last_node (turns hp1) hp1 (head l);
          hp2 ← set_next hp1 n mem;
          Some (CA_STATUS_OK, hp2, Some (mk_linklist (head l) (size l + 1)))
  end.

(** The [while] loop of [u_linklist_free], [n] turns to go. *)
Fixpoint free_nodes (n : nat) hp l : outcome :=
  match n with
  | O => Some (CA_STATUS_OK, hp, None)
  | S n' =>
      if head l =? NULL then Some (CA_STATUS_FAILED, hp, Some l)
      else
        match hp !! head l with
        | None => None
        | Some c => free_nodes n' (delete (head l) hp) (mk_linklist (next c) (size l - 1))
        end
  end.

(** The loop runs while [size] is not 0 and decrements it, so a non-negative
    [size] is the number of turns; a negative one would count down past the
    smallest [int].  The list pointer is null once the header is freed. *)
Definition u_linklist_free hp (linklist : option u_linklist_t) : outcome :=
  match linklist with
  | None => Some (CA_STATUS_OK, hp, None)
  | Some l => if size l <? 0 then None else free_nodes (Z.to_nat (size l)) hp l
  end.

(** The loop that stops at the node before [it] or at the last node. *)
Fixpoint find_prev (fuel : nat) hp (prev it : ptr) : option ptr :=
  match fuel with
  | O => None
  | S fuel' =>
      match hp !! prev with
      | None => None
      | Some c =>
          if (next c =? NULL) || (next c =? it) then Some prev
          else find_prev fuel' hp (next c) it
      end
  end.

(** The last component is the iterator after the call. *)
Definition u_linklist_remove hp (linklist : option u_linklist_t) (it : ptr) :
    option (CAResult_t * heap * option u_linklist_t * ptr) :=
  match linklist with
  | None => Some (CA_STATUS_INVALID_PARAM, hp, None, it)
  | Some l =>
      if it =? NULL then Some (CA_STATUS_INVALID_PARAM, hp, linklist, it)
      else if head l =? it then
        c ← hp !! it;
        Some (CA_STATUS_OK, delete it hp, Some (mk_linklist (next c) (size l - 1)), next c)
      else
        prev ← find_prev (turns hp) hp (head l) it;
        p ← hp !! prev;
        if next p =? NULL then Some (CA_STATUS_FAILED, hp, linklist, it)
        else
          c ← hp !! next p;
          hp1 ← set_next hp prev (next c);
          Some (CA_STATUS_OK, delete it hp1,
                Some (mk_linklist (head l) (size l - 1)), next c)
  end.

Definition u_linklist_length (linklist : option u_linklist_t) : Z :=
  match linklist with None => 0 | Some l => u32 (size l) end.

Definition u_linklist_init_iterator (linklist : option u_linklist_t) (it : ptr) : ptr :=
  match linklist with None => it | Some l => head l end.

Definition u_linklist_get_data hp (it : ptr) : option ptr :=
  if it =? NULL then Some NULL else data <$> hp !! it.

(** Returns the next datum and the advanced iterator. *)
Definition u_linklist_get_next hp (it : ptr) : option (ptr * ptr) :=
  c ← hp !! it;
  if next c =? NULL then Some (NULL, NULL)
  else c' ← hp !! next c; Some (data c', next c).

(** ** Lists in the heap

    [lseg hp a xs b]: following [next] from [a] visits exactly the nodes [xs]
    (address and datum) and then reaches [b]. *)
Fixpoint lseg hp (a : ptr) (xs : list (ptr * ptr)) (b : ptr) : Prop :=
  match xs with
  | [] => a = b
  | (x, d) :: xs' =>
      a = x /\ x <> NULL /\
      exists nx, hp !! x = Some (mk_node d nx) /\ lseg hp nx xs' b
  end.

Definition addrs (xs : list (ptr * ptr)) : list ptr := xs.*1.

Record is_list hp l (xs : list (ptr * ptr)) : Prop := {
  il_chain : lseg hp (head l) xs NULL;
  il_size : size l = Z.of_nat (List.length xs);
  il_nodup : NoDup (addrs xs) }.

Implicit Types (xs ys : list (ptr * ptr)) (a b x d it : ptr).

Lemma lseg_app hp a xs ys b :
  lseg hp a (xs ++ ys) b <-> exists m, lseg hp a xs m /\ lseg hp m ys b.
Proof.
  revert a. induction xs as [|[x d] xs IH]; intros a; simpl.
  - split; [by eauto|]. by intros (m & -> & ?).
  - setoid_rewrite IH. naive_solver.
Qed.

(** Cells outside the segment do not matter. *)
Lemma lseg_frame hp hp' a xs b :
  (forall x, x ∈ addrs xs -> hp' !! x = hp !! x) -> lseg hp a xs b -> lseg hp' a xs b.
Proof.
  revert a. induction xs as [|[x d] xs IH]; intros a Heq; simpl; [done|].
  intros (-> & ? & nx & Hx & Hs). split_and!; [done..|]. exists nx. split.
  - rewrite Heq; [done|]. apply list_elem_of_here.
  - apply IH; [|done]. intros y Hy. apply Heq. by apply list_elem_of_further.
Qed.

Lemma lseg_allocated hp a xs b x : lseg hp a xs b -> x ∈ addrs xs ->
  x <> NULL /\ is_Some (hp !! x).
Proof.
  revert a. induction xs as [|[y d] xs IH]; intros a; simpl.
  - by intros _ ?%elem_of_nil.
  - intros (-> & ? & nx & Hx & Hs) [->|?]%elem_of_cons; eauto.
Qed.

Lemma lseg_head hp a xs : lseg hp a xs NULL ->
  a = match xs with [] => NULL | (x, _) :: _ => x end.
Proof. destruct xs as [|[x d] xs]; simpl; [done|]. by intros (-> & _). Qed.

(** While [it] is further on, the node reached is neither null nor [it]. *)
Lemma lseg_step hp a xs p e ys it : lseg hp a (xs ++ (p, e) :: ys) NULL ->
  it ∉ addrs xs -> it <> p -> a <> NULL /\ a <> it.
Proof.
  destruct xs as [|[y f] xs]; simpl; intros (-> & ? & _) Hni Hp; [done|].
  apply not_elem_of_cons in Hni as [? _]. done.
Qed.

(** Distinct nodes are counted by the heap's size: the loops' fuel is enough. *)
Lemma lseg_turns hp a xs b : lseg hp a xs b -> NoDup (addrs xs) ->
  (List.length xs < turns hp)%nat.
Proof.
  intros Hs Hnd. unfold turns, addrs in *. apply Nat.lt_succ_r.
  rewrite <- (length_fmap fst xs), <- (size_dom (D:=gset ptr) hp).
  rewrite <- (size_list_to_set (C:=gset ptr)) by done.
  apply subseteq_size. intros x Hx. rewrite elem_of_list_to_set in Hx.
  apply elem_of_dom. by eapply lseg_allocated.
Qed.

Lemma NoDup_fresh hp xs a b x : lseg hp a xs b -> hp !! x = None -> x ∉ addrs xs.
Proof. intros Hs Hx Hin. destruct (lseg_allocated _ _ _ _ _ Hs Hin) as [_ [? ?]]. congruence. Qed.

Lemma last_node_spec hp a xs n d fuel :
  lseg hp a (xs ++ [(n, d)]) NULL -> (List.length xs < fuel)%nat ->
  last_node fuel hp a = Some n.
Proof.
  revert a fuel. induction xs as [|[x e] xs IH]; intros a [|fuel]; simpl; try lia.
  - intros (-> & _ & nx & -> & ->) _. done.
  - intros (-> & _ & nx & -> & Hs) Hf. simpl.
    destruct (Z.eqb_spec nx NULL) as [->|_]; [|apply IH; [done|lia]].
    destruct xs as [|[y e'] xs]; simpl in Hs; destruct Hs as (<- & ? & _); done.
Qed.

Lemma find_prev_spec hp a xs p e it d ys fuel :
  lseg hp a (xs ++ (p, e) :: (it, d) :: ys) NULL -> it ∉ addrs xs -> it <> p ->
  (List.length xs < fuel)%nat -> find_prev fuel hp a it = Some p.
Proof.
  revert a fuel. induction xs as [|[x f] xs IH]; intros a [|fuel]; simpl; try lia.
  - intros (-> & _ & nx & -> & <- & _) _ _ _. simpl. by rewrite Z.eqb_refl, orb_true_r.
  - intros (-> & _ & nx & -> & Hs) Hni Hp Hf. simpl.
    apply not_elem_of_cons in Hni as [_ Hni].
    destruct (lseg_step _ _ _ _ _ _ it Hs Hni Hp) as [? ?].
    rewrite (proj2 (Z.eqb_neq _ _)), (proj2 (Z.eqb_neq nx it)) by done. simpl.
    apply IH; [done..|lia].
Qed.

(** An address that is not in the list sends the search to the last node. *)
Lemma find_prev_absent hp a xs p e it fuel :
  lseg hp a (xs ++ [(p, e)]) NULL -> it ∉ addrs xs -> it <> p ->
  (List.length xs < fuel)%nat -> find_prev fuel hp a it = Some p.
Proof.
  revert a fuel. induction xs as [|[x f] xs IH]; intros a [|fuel]; simpl; try lia.
  - intros (-> & _ & nx & -> & ->) _ _ _. done.
  - intros (-> & _ & nx & -> & Hs) Hni Hp Hf. simpl.
    apply not_elem_of_cons in Hni as [_ Hni].
    destruct (lseg_step _ _ _ _ _ _ it Hs Hni Hp) as [? ?].
    rewrite (proj2 (Z.eqb_neq _ _)), (proj2 (Z.eqb_neq nx it)) by done. simpl.
    apply IH; [done..|lia].
Qed.

(** The address of a chain's first node. *)
Definition first (xs : list (ptr * ptr)) : ptr :=
  match xs with [] => NULL | (x, _) :: _ => x end.

Lemma lseg_first hp a xs : lseg hp a xs NULL -> a = first xs.
Proof. apply lseg_head. Qed.

Lemma is_list_app hp l xs ys : is_list hp l (xs ++ ys) ->
  exists m, lseg hp (head l) xs m /\ lseg hp m ys NULL.
Proof. intros [H _ _]. by apply lseg_app. Qed.

Lemma NoDup_mid xs ys it d : NoDup (addrs (xs ++ (it, d) :: ys)) ->
  it ∉ addrs xs /\ it ∉ addrs ys /\ NoDup (addrs (xs ++ ys)).
Proof.
  unfold addrs. rewrite !fmap_app, fmap_cons. simpl. intros H.
  rewrite <- Permutation_middle in H. apply NoDup_cons in H as [Hn H].
  rewrite elem_of_app in Hn. tauto.
Qed.

Lemma addrs_app xs ys : addrs (xs ++ ys) = addrs xs ++ addrs ys.
Proof. apply fmap_app. Qed.

(** Unlinking the node after [p]. *)
Lemma lseg_unlink hp a xs p e it d nx ys :
  NoDup (addrs (xs ++ (p, e) :: (it, d) :: ys)) ->
  lseg hp a (xs ++ (p, e) :: (it, d) :: ys) NULL -> hp !! it = Some (mk_node d nx) ->
  lseg (delete it (<[p := mk_node e nx]> hp)) a (xs ++ (p, e) :: ys) NULL.
Proof.
  intros Hnd Hs Hit. apply lseg_app in Hs as (m & Hxs & Hm).
  rewrite addrs_app in Hnd. apply NoDup_app in Hnd as (_ & Hdisj & Hnd).
  simpl in Hnd. apply NoDup_cons in Hnd as [Hp Hnd].
  apply NoDup_cons in Hnd as [Hi _].
  apply not_elem_of_cons in Hp as [Hpi Hp].
  destruct Hm as (-> & Hp0 & nx' & Hhp & -> & Hi0 & nx'' & Hhi & Hys).
  assert (nx'' = nx) as -> by congruence.
  apply lseg_app. exists p. split.
  - eapply lseg_frame; [|exact Hxs]. intros x Hx. specialize (Hdisj x Hx).
    simpl in Hdisj. rewrite !not_elem_of_cons in Hdisj.
    rewrite lookup_delete_ne, lookup_insert_ne by naive_solver. done.
  - simpl. split_and!; [done..|]. exists nx. split.
    + by rewrite lookup_delete_ne, lookup_insert_eq by done.
    + eapply lseg_frame; [|exact Hys]. intros x Hx.
      rewrite lookup_delete_ne, lookup_insert_ne by set_solver. done.
Qed.

(** Removing the node the iterator points at unlinks and frees that node and
    no other, keeps the order of the rest, moves the iterator to the node that
    followed, and leaves the rest of the heap alone; the search loop ends. *)
Theorem u_linklist_remove_present hp l xs it d ys :
  is_list hp l (xs ++ (it, d) :: ys) ->
  exists hp' l',
    u_linklist_remove hp (Some l) it = Some (CA_STATUS_OK, hp', Some l', first ys) /\
    is_list hp' l' (xs ++ ys) /\ hp' !! it = None /\
    (forall a, a ∉ addrs (xs ++ (it, d) :: ys) -> hp' !! a = hp !! a).
Proof.
  intros H. pose proof H as [Hs Hsz Hnd].
  pose proof (NoDup_mid _ _ _ _ Hnd) as (Hnx & Hny & Hnd').
  assert (Hsz' : size l - 1 = Z.of_nat (List.length (xs ++ ys))).
  { rewrite Hsz, !length_app. simpl. lia. }
  pose proof Hs as (m & Hxs & -> & Hi0 & nx & Hhi & Hys)%lseg_app.
  pose proof (lseg_first _ _ _ Hys) as ->.
  unfold u_linklist_remove. rewrite (proj2 (Z.eqb_neq it NULL)) by done.
  destruct xs as [|[p e] xs _] using rev_ind.
  - simpl in Hxs. rewrite Hxs, Z.eqb_refl, Hhi. simpl. eexists _, _. split_and!; [done| |apply lookup_delete_eq|].
    + split; [|done..]. eapply lseg_frame; [|exact Hys]. intros x Hx.
      rewrite lookup_delete_ne by (intros ->; done). done.
    + intros a Ha. simpl in Ha. apply not_elem_of_cons in Ha as [Ha _].
      by rewrite lookup_delete_ne.
  - rewrite <- (app_assoc xs) in *. simpl app in *.
    destruct (proj1 (lseg_app _ _ _ _ _) Hs) as (mp & _ & -> & _ & nxp & Hhp & -> & _).
    rewrite addrs_app in Hnx. simpl in Hnx. rewrite elem_of_app in Hnx.
    assert (it <> p /\ it ∉ addrs xs) as [Hip Hni].
    { rewrite list_elem_of_singleton in Hnx. tauto. }
    rewrite (proj2 (Z.eqb_neq (head l) it)) by by eapply lseg_step.
    pose proof (lseg_turns _ _ _ _ Hs Hnd) as Ht. rewrite length_app in Ht.
    rewrite (find_prev_spec _ _ _ p e it d ys) by (done || lia). simpl.
    rewrite Hhp. simpl. rewrite (proj2 (Z.eqb_neq it NULL)) by done.
    rewrite Hhi. unfold set_next. rewrite Hhp. simpl.
    eexists _, _. split_and!; [done| |apply lookup_delete_eq|].
    + split; [|done..]. by eapply lseg_unlink.
    + intros a Ha. rewrite !addrs_app in Ha. simpl in Ha.
      rewrite !elem_of_app, !elem_of_cons in Ha.
      rewrite lookup_delete_ne, lookup_insert_ne by (intros ->; apply Ha; auto). done.
Qed.

Lemma u_linklist_remove_present_witness :
  exists hp' l',
    u_linklist_remove {[1 := mk_node 10 2; 2 := mk_node 20 3; 3 := mk_node 30 0]}
      (Some (mk_linklist 1 3)) 2 = Some (CA_STATUS_OK, hp', Some l', 3) /\
    is_list hp' l' [(1, 10); (3, 30)] /\ hp' !! 2 = None /\
    (forall a, a ∉ [1; 2; 3] ->
       hp' !! a = ({[1 := mk_node 10 2; 2 := mk_node 20 3; 3 := mk_node 30 0]} : heap) !! a).
Proof.
  apply (u_linklist_remove_present _ _ [(1, 10)] 2 20 [(3, 30)]).
  split; [|done|apply (bool_decide_unpack _); vm_compute; exact I].
  simpl. repeat (split; [done|]; split; [done|]; eexists; split; [reflexivity|]). done.
Defined.

(** An iterator that is not in a non-empty list is refused. *)
Lemma u_linklist_remove_absent hp l xs it : is_list hp l xs -> xs <> [] ->
  it <> NULL -> it ∉ addrs xs ->
  u_linklist_remove hp (Some l) it = Some (CA_STATUS_FAILED, hp, Some l, it).
Proof.
  intros [Hs _ Hnd] Hne Hi Hni. destruct xs as [|[p e] xs _] using rev_ind; [done|].
  rewrite addrs_app, elem_of_app in Hni. simpl in Hni.
  rewrite list_elem_of_singleton in Hni.
  assert (it ∉ addrs xs /\ it <> p) as [Hx Hp] by tauto.
  pose proof (lseg_turns _ _ _ _ Hs Hnd) as Ht. rewrite length_app in Ht. simpl in Ht.
  unfold u_linklist_remove. rewrite (proj2 (Z.eqb_neq it NULL)) by done.
  rewrite (proj2 (Z.eqb_neq (head l) it)) by by eapply lseg_step.
  rewrite (find_prev_absent _ _ xs p e it) by (done || lia). simpl.
  apply lseg_app in Hs as (m & _ & -> & _ & nx & -> & ->). done.
Qed.

(** On an empty list the search dereferences the null head: the guard
    [NULL == linklist->list] is missing. *)
Lemma u_linklist_remove_empty hp l it : is_list hp l [] -> hp !! NULL = None ->
  it <> NULL -> u_linklist_remove hp (Some l) it = None.
Proof.
  intros [Hs _ _] Hn Hi. simpl in Hs. unfold u_linklist_remove. rewrite Hs.
  rewrite !(proj2 (Z.eqb_neq _ _)) by done. cbn [turns find_prev]. by rewrite Hn.
Qed.

Lemma is_list_cons hp l xs x d : is_list hp l xs -> x <> NULL -> hp !! x = None ->
  is_list (<[x := mk_node d (head l)]> hp) (mk_linklist x (size l + 1)) ((x, d) :: xs).
Proof.
  intros [Hs Hsz Hnd] Hx Hf. pose proof (NoDup_fresh _ _ _ _ _ Hs Hf) as Hni. split.
  - simpl. split_and!; [done..|]. exists (head l).
    split; [apply lookup_insert_eq|]. eapply lseg_frame; [|exact Hs].
    intros y Hy. rewrite lookup_insert_ne by (intros ->; done). done.
  - simpl. lia.
  - by apply NoDup_cons.
Qed.

Lemma lseg_snoc hp a xs n e x d : NoDup (addrs (xs ++ [(n, e)])) -> x <> NULL ->
  x ∉ addrs (xs ++ [(n, e)]) -> lseg hp a (xs ++ [(n, e)]) NULL ->
  lseg (<[n := mk_node e x]> (<[x := mk_node d NULL]> hp)) a
    ((xs ++ [(n, e)]) ++ [(x, d)]) NULL.
Proof.
  rewrite addrs_app, elem_of_app, NoDup_app. simpl.
  intros (_ & Hdisj & _) Hx Hni (m & Hxs & -> & Hn & nx & Hhn & ->)%lseg_app.
  assert (x <> n /\ x ∉ addrs xs) as [Hxn Hxx].
  { rewrite list_elem_of_singleton in Hni. tauto. }
  rewrite <- app_assoc. simpl. apply lseg_app. exists n. split.
  - eapply lseg_frame; [|exact Hxs]. intros y Hy.
    assert (y <> n /\ y <> x) as [??].
    { split; intros ->; [|done]. apply (Hdisj n Hy). apply list_elem_of_here. }
    by rewrite !lookup_insert_ne.
  - simpl. split_and!; [done..|]. exists x. split; [apply lookup_insert_eq|].
    split_and!; [done..|]. exists NULL. split; [|done].
    rewrite lookup_insert_ne by done. apply lookup_insert_eq.
Qed.

(** Adding a datum with a fresh node appends it: the walk to the last node ends
    and links the new node there. *)
Theorem u_linklist_add_appends hp l xs x d :
  is_list hp l xs -> x <> NULL -> hp !! x = None -> d <> NULL ->
  exists hp' l',
    u_linklist_add x hp (Some l) d = Some (CA_STATUS_OK, hp', Some l') /\
    is_list hp' l' (xs ++ [(x, d)]).
Proof.
  intros H Hx Hf Hd. pose proof H as [Hs Hsz Hnd].
  pose proof (NoDup_fresh _ _ _ _ _ Hs Hf) as Hni.
  unfold u_linklist_add. rewrite !(proj2 (Z.eqb_neq _ _)) by done.
  destruct xs as [|[n e] xs _] using rev_ind.
  - simpl in Hs. rewrite Hs, Z.eqb_refl. eexists _, _. split; [done|].
    rewrite <- Hs. by apply is_list_cons.
  - assert (head l <> NULL) as Hh.
    { rewrite (lseg_first _ _ _ Hs). destruct (lseg_allocated _ _ _ _ (first (xs ++ [(n, e)])) Hs); [|done].
      destruct xs as [|[y f] xs]; apply list_elem_of_here. }
    rewrite (proj2 (Z.eqb_neq _ _)) by done.
    assert (lseg (<[x := mk_node d NULL]> hp) (head l) (xs ++ [(n, e)]) NULL) as Hs1.
    { eapply lseg_frame; [|exact Hs]. intros y Hy.
      rewrite lookup_insert_ne by (intros ->; done). done. }
    pose proof (lseg_turns _ _ _ _ Hs1 Hnd) as Ht. rewrite length_app in Ht. simpl in Ht.
    rewrite (last_node_spec _ _ xs n e) by (done || lia). simpl.
    pose proof Hs1 as (m & _ & -> & _ & nx & Hhn & _)%lseg_app.
    unfold set_next. rewrite Hhn. simpl. eexists _, _. split; [done|]. split.
    + by apply lseg_snoc.
    + simpl. rewrite Hsz, !length_app. simpl. lia.
    + rewrite addrs_app. apply NoDup_app. split_and!; [done| |apply NoDup_singleton].
      intros y Hy ->%list_elem_of_singleton. done.
Qed.

Lemma u_linklist_add_appends_witness :
  exists hp' l',
    u_linklist_add 9 {[1 := mk_node 10 2; 2 := mk_node 20 0]} (Some (mk_linklist 1 2)) 30
      = Some (CA_STATUS_OK, hp', Some l') /\
    is_list hp' l' [(1, 10); (2, 20); (9, 30)].
Proof.
  apply (u_linklist_add_appends _ _ [(1, 10); (2, 20)]); [|done|reflexivity|done].
  split; [|done|apply (bool_decide_unpack _); vm_compute; exact I].
  simpl. repeat (split; [done|]; split; [done|]; eexists; split; [reflexivity|]). done.
Defined.

(** Freeing releases exactly the list's nodes and the header. *)
Lemma u_linklist_free_spec hp l xs : is_list hp l xs ->
  exists hp', u_linklist_free hp (Some l) = Some (CA_STATUS_OK, hp', None) /\
    (forall a, hp' !! a = if decide (a ∈ addrs xs) then None else hp !! a).
Proof.
  intros [Hs Hsz Hnd]. unfold u_linklist_free.
  destruct (Z.ltb_spec (size l) 0); [lia|]. rewrite Hsz, Nat2Z.id. clear Hsz H.
  revert hp l Hs Hnd. induction xs as [|[x d] xs IH]; intros hp l Hs Hnd; cbn [List.length free_nodes].
  - eexists. split; [done|]. intros a. by rewrite decide_False by apply not_elem_of_nil.
  - destruct Hs as (-> & Hx & nx & Hhx & Hs).
    apply NoDup_cons in Hnd as [Hni Hnd].
    rewrite (proj2 (Z.eqb_neq _ _)), Hhx by done. simpl.
    destruct (IH (delete x hp) (mk_linklist nx (size l - 1))) as (hp' & Hf & Hhp'); [|done|].
    { eapply lseg_frame; [|exact Hs]. intros y Hy.
      rewrite lookup_delete_ne by (intros ->; done). done. }
    exists hp'. split; [done|]. intros a. rewrite Hhp'.
    destruct (decide (a = x)) as [->|].
    + rewrite decide_False by done. rewrite decide_True by apply list_elem_of_here.
      apply lookup_delete_eq.
    + rewrite lookup_delete_ne by done.
      destruct (decide (a ∈ addrs xs)).
      * by rewrite decide_True by by apply list_elem_of_further.
      * rewrite decide_False; [done|]. simpl. by intros [?|?]%elem_of_cons.
Qed.

End LinkList.
