(* ===== verification/UQueue.v ===== *)
(** * The message queue ([util/uqueue.c])

    A queue is the chain of its messages, first out first, and a 32-bit
    [count].  A message is the address of a [u_queue_message_t], with 0 for
    null.  [OICMalloc]'s success is the argument [mem]; an operation that frees
    messages returns them. *)

From S2P Require Import Prelude.
From S2P Require Import Status.

Module UQueue.

Definition msg : Type := Z.
Definition NULL : msg := 0.
Definition NO_MESSAGES : Z := 0.

Record u_queue_t : Type := mk_queue { element : list msg; count : Z }.
Implicit Types (q : u_queue_t) (m : msg).

Definition u_queue_create (mem : bool) : option u_queue_t :=
  if mem then Some (mk_queue [] NO_MESSAGES) else None.

Definition u_queue_add_element (mem : bool) (queue : option u_queue_t) m :
    CAResult_t * option u_queue_t :=
  match queue with
  | None => (CA_STATUS_FAILED, None)
  | Some q =>
      if m =? NULL then (CA_STATUS_FAILED, queue)
      else if negb mem then (CA_MEMORY_ALLOC_FAILED, queue)
      else
        match element q with
        | _ :: _ => (CA_STATUS_OK, Some (mk_queue (element q ++ [m]) (u32 (count q + 1))))
        | [] =>
            if negb (count q =? NO_MESSAGES) then (CA_STATUS_FAILED, queue)
            else (CA_STATUS_OK, Some (mk_queue [m] (u32 (count q + 1))))
        end
  end.

Definition u_queue_get_element (queue : option u_queue_t) : msg * option u_queue_t :=
  match queue with
  | None => (NULL, None)
  | Some q =>
      match element q with
      | [] => (NULL, queue)
      | m :: rest => (m, Some (mk_queue rest (u32 (count q - 1))))
      end
  end.

(** Frees the head message and its element. *)
Definition u_queue_remove_element (queue : option u_queue_t) :
    CAResult_t * list msg * option u_queue_t :=
  match queue with
  | None => (CA_STATUS_FAILED, [], None)
  | Some q =>
      match element q with
      | [] => (CA_STATUS_OK, [], queue)
      | m :: rest => (CA_STATUS_OK, [m], Some (mk_queue rest (u32 (count q - 1))))
      end
  end.

Definition u_queue_get_size (queue : option u_queue_t) : Z :=
  match queue with None => NO_MESSAGES | Some q => count q end.

(** [while (NULL != queue->element)], one element less per turn. *)
Fixpoint remove_all (n : nat) (q : u_queue_t) : list msg * u_queue_t :=
  match n, element q with
  | S n', _ :: _ =>
      let '(_, freed, q') := u_queue_remove_element (Some q) in
      let '(more, q'') := remove_all n' (default q q') in
      (freed ++ more, q'')
  | _, _ => ([], q)
  end.

Definition u_queue_reset (queue : option u_queue_t) :
    CAResult_t * list msg * option u_queue_t :=
  match queue with
  | None => (CA_STATUS_FAILED, [], None)
  | Some q =>
      if count q =? NO_MESSAGES then (CA_STATUS_OK, [], queue)
      else
        let '(freed, q') := remove_all (List.length (element q)) q in
        if negb (count q' =? NO_MESSAGES) then (CA_STATUS_FAILED, freed, Some q')
        else (CA_STATUS_OK, freed, Some q')
  end.

(** The queue is null once its header is freed. *)
Definition u_queue_delete (queue : option u_queue_t) :
    CAResult_t * list msg * option u_queue_t :=
  match queue with
  | None => (CA_STATUS_FAILED, [], None)
  | Some q =>
      let '(error, freed, q') := u_queue_reset queue in
      if negb (ca_ok error) then (error, freed, q')
      else (CA_STATUS_OK, freed, None)
  end.

Definition u_queue_get_head (queue : option u_queue_t) : msg :=
  match queue with
  | None => NULL
  | Some q => match element q with [] => NULL | m :: _ => m end
  end.

(** ** The invariant and the queue discipline *)

(** [count] is the length, modulo the width of [uint32_t]. *)
Definition wf q : Prop := count q = u32 (Z.of_nat (List.length (element q))).

Lemma wf_pop q m rest : wf q -> element q = m :: rest ->
  wf (mk_queue rest (u32 (count q - 1))).
Proof.
  unfold wf. simpl. intros -> ->. simpl List.length. unfold wrap.
  rewrite Zminus_mod_idemp_l. f_equal. lia.
Qed.

Lemma wf_push q m : wf q -> wf (mk_queue (element q ++ [m]) (u32 (count q + 1))).
Proof.
  unfold wf. simpl. intros ->. rewrite length_app. simpl. unfold wrap.
  rewrite Zplus_mod_idemp_l. f_equal. lia.
Qed.

Lemma add_element_spec q m : wf q -> m <> NULL ->
  u_queue_add_element true (Some q) m =
    (CA_STATUS_OK, Some (mk_queue (element q ++ [m]) (u32 (count q + 1)))).
Proof.
  intros Hwf Hm. simpl. rewrite (proj2 (Z.eqb_neq _ _)) by done.
  unfold wf in Hwf. destruct (element q); [|done].
  rewrite Hwf. done.
Qed.

(** A client's use of a queue: the messages it adds (never null) and its gets. *)
Inductive op : Type := Add (m : msg) | Get.

Definition adds (ops : list op) : list msg :=
  omap (fun o => match o with Add m => Some m | Get => None end) ops.

(** Runs the operations, collecting the messages got. *)
Fixpoint run (ops : list op) q : list msg * u_queue_t :=
  match ops with
  | [] => ([], q)
  | Add m :: ops' => run ops' (default q (u_queue_add_element true (Some q) m).2)
  | Get :: ops' =>
      let '(m, q1) := u_queue_get_element (Some q) in
      let '(out, q2) := run ops' (default q q1) in
      ((if m =? NULL then [] else [m]) ++ out, q2)
  end.

(** First in, first out: whatever the interleaving of adds and gets, the
    messages got, followed by those still queued, are exactly the messages
    added, in the order they were added; none is lost, none comes twice. *)
Theorem u_queue_fifo ops q :
  wf q -> NULL ∉ element q -> NULL ∉ adds ops ->
  let '(out, q') := run ops q in
  out ++ element q' = element q ++ adds ops /\ wf q'.
Proof.
  revert q. induction ops as [|[m|] ops IH]; intros q Hwf Hq Ha; cbn [run adds omap list_omap].
  - by rewrite app_nil_r.
  - apply not_elem_of_cons in Ha as [Hm Ha].
    rewrite add_element_spec by done. simpl.
    specialize (IH (mk_queue (element q ++ [m]) (u32 (count q + 1)))).
    destruct (run ops _) as [out q']. simpl in IH.
    destruct IH as [IH ?]; [by apply wf_push| |done|].
    + rewrite not_elem_of_app, list_elem_of_singleton. auto.
    + by rewrite IH, <- app_assoc.
  - unfold u_queue_get_element. destruct (element q) as [|m rest] eqn:Hel; simpl.
    + specialize (IH q). rewrite Hel in IH. destruct (run ops q). simpl. by apply IH.
    + apply not_elem_of_cons in Hq as [Hm Hq].
      specialize (IH (mk_queue rest (u32 (count q - 1)))).
      destruct (run ops _) as [out q']. simpl in IH.
      destruct IH as [IH ?]; [by eapply wf_pop|done..|].
      rewrite (proj2 (Z.eqb_neq m NULL)) by done. simpl. by rewrite IH.
Qed.

Lemma u_queue_fifo_witness :
  let '(out, q') := run [Add 5; Get; Add 6; Add 7; Get; Get; Get] (mk_queue [3; 4] 2) in
  out ++ element q' = [3; 4; 5; 6; 7] /\ wf q'.
Proof.
  apply (u_queue_fifo [Add 5; Get; Add 6; Add 7; Get; Get; Get] (mk_queue [3; 4] 2));
    [done|apply (bool_decide_unpack _); vm_compute; exact I..].
Defined.

Lemma remove_all_spec q : wf q ->
  remove_all (List.length (element q)) q = (element q, mk_queue [] 0).
Proof.
  destruct q as [el n]. simpl. revert n. induction el as [|m el IH]; intros n Hwf; simpl.
  - by rewrite Hwf.
  - rewrite (IH (u32 (n - 1))); [done|]. by eapply (wf_pop (mk_queue (m :: el) n)).
Qed.

(** Below 2^32 messages, a reset frees every message and empties the queue. *)
Lemma u_queue_reset_spec q : wf q -> Z.of_nat (List.length (element q)) < 2 ^ 32 ->
  u_queue_reset (Some q) = (CA_STATUS_OK, element q, Some (mk_queue [] 0)).
Proof.
  intros Hwf Hlt. simpl. destruct (Z.eqb_spec (count q) NO_MESSAGES) as [Hz|Hz].
  - unfold wf in Hwf. rewrite wrap_id in Hwf by (unfold in_width; lia).
    destruct q as [[|m el] n]; simpl in *; [by subst|]. unfold NO_MESSAGES in *. lia.
  - by rewrite remove_all_spec by done.
Qed.

End UQueue.
