(* ===== verification/QueueingThread.v ===== *)
(** * Queueing threads

    [comm/caqueueingthread.c] on the thread pool of [comm/cathreadpool_pthreads.c]
    and the mutex and condition variable of [portability/posix/octhread_posix.c]:
    a worker takes messages from a queue that any thread fills, until it is
    stopped.  Each routine is a step function on its program points, one for every
    access to the shared state; a run is a list of events that say which thread
    goes on, so that every interleaving is a run.  A condition variable wakes any
    of its waiters, and may wake one for no reason. *)

From S2P Require Import Prelude.
From S2P Require Import Status.
From S2P Require Import UQueue.

Module QueueingThread.
Import UQueue.

(** What happens to messages, in order. *)
Inductive action : Type :=
| Added (m : msg) | Taken (tid : nat) (m : msg) | Tasked (tid : nat) (m : msg) | Destroyed (m : msg).

(** The shared state: a [CAQueueingThread_t] and its pool.  A mutex is free or
    held by a thread, [None] once it is freed; a condition variable is the list of
    the threads that wait and have not been signalled, [None] once it is freed. *)
Record shared : Type := mk_shared {
  isStop : bool;
  dataQueue : option u_queue_t;
  threadMutex : option (option nat);
  threadCond : option (list nat);
  threads_list : option (list nat);
  list_lock : bool;
  trace : list action }.

Definition with_stop (b : bool) (s : shared) : shared :=
  mk_shared b (dataQueue s) (threadMutex s) (threadCond s) (threads_list s) (list_lock s) (trace s).
Definition with_queue (q : option u_queue_t) (s : shared) : shared :=
  mk_shared (isStop s) q (threadMutex s) (threadCond s) (threads_list s) (list_lock s) (trace s).
Definition with_mutex (m : option (option nat)) (s : shared) : shared :=
  mk_shared (isStop s) (dataQueue s) m (threadCond s) (threads_list s) (list_lock s) (trace s).
Definition with_cond (c : option (list nat)) (s : shared) : shared :=
  mk_shared (isStop s) (dataQueue s) (threadMutex s) c (threads_list s) (list_lock s) (trace s).
Definition with_pool (p : option (list nat)) (l : bool) (s : shared) : shared :=
  mk_shared (isStop s) (dataQueue s) (threadMutex s) (threadCond s) p l (trace s).
Definition put (a : action) (s : shared) : shared :=
  mk_shared (isStop s) (dataQueue s) (threadMutex s) (threadCond s) (threads_list s) (list_lock s) (trace s ++ [a]).

(** What a routine does at a program point: it uses the mutex or the condition
    variable, it does anything else ([Do]), it makes a thread ([Fork]), or it cannot
    go on ([Hang]); [Wrong] is undefined behaviour. *)
Inductive instr (P : Type) : Type :=
| Lock (k : P) | Unlock (k : P) | Signal (k : P) | Wait (waiting k : P) | Wake (k : P)
| FreeMutex (k : P) | FreeCond (k : P)
| Do (k : P) (s : shared) | Fork (k : P) (s : shared) | Hang | Wrong.
Arguments Lock {P} k.
Arguments Unlock {P} k.
Arguments Signal {P} k.
Arguments Wait {P} waiting k.
Arguments Wake {P} k.
Arguments FreeMutex {P} k.
Arguments FreeCond {P} k.
Arguments Do {P} k s.
Arguments Fork {P} k s.
Arguments Hang {P}.
Arguments Wrong {P}.

Definition into {P Q} (f : P -> Q) (i : instr P) : instr Q :=
  match i with
  | Lock k => Lock (f k)
  | Unlock k => Unlock (f k)
  | Signal k => Signal (f k)
  | Wait w k => Wait (f w) (f k)
  | Wake k => Wake (f k)
  | FreeMutex k => FreeMutex (f k)
  | FreeCond k => FreeCond (f k)
  | Do k s => Do (f k) s
  | Fork k s => Fork (f k) s
  | Hang => Hang
  | Wrong => Wrong
  end.

(** ** Mutex and condition variable *)

Definition oc_mutex_lock (tid : nat) (s : shared) : option shared :=
  match threadMutex s with
  | None => Some s
  | Some None => Some (with_mutex (Some (Some tid)) s)
  | Some (Some _) => None
  end.

(** The outcome of an instruction: the next program point, the state, and whether
    there is a new thread. *)
Inductive effect (P : Type) : Type :=
| Blocked | Undefined | Go (k : P) (s : shared) (new : bool).
Arguments Blocked {P}.
Arguments Undefined {P}.
Arguments Go {P} k s new.

(** [choice] says which of the waiting threads a signal wakes.  A thread that waits
    goes to [waiting] until it is signalled, and then takes the mutex. *)
Definition exec {P} (tid choice : nat) (s : shared) (i : instr P) : effect P :=
  match i with
  | Lock k => match oc_mutex_lock tid s with Some s' => Go k s' false | None => Blocked end
  | Unlock k =>
      match threadMutex s with
      | None => Go k s false
      | Some o => if bool_decide (o = Some tid) then Go k (with_mutex (Some None) s) false else Undefined
      end
  | Signal k =>
      match threadCond s with
      | None => Undefined
      | Some ws => Go k (with_cond (Some (delete (choice mod List.length ws)%nat ws)) s) false
      end
  | Wait w k =>
      match threadMutex s, threadCond s with
      | None, _ => Go k s false
      | Some _, None => Undefined
      | Some _, Some ws => Go w (with_mutex (Some None) (with_cond (Some (ws ++ [tid])) s)) false
      end
  | Wake k =>
      if bool_decide (tid ∈ default [] (threadCond s)) then Blocked
      else match oc_mutex_lock tid s with Some s' => Go k s' false | None => Blocked end
  | FreeMutex k =>
      match threadMutex s with
      | Some (Some _) => Undefined
      | _ => Go k (with_mutex None s) false
      end
  | FreeCond k =>
      match threadCond s with
      | Some [] => Go k (with_cond None s) false
      | _ => Undefined
      end
  | Do k s' => Go k s' false
  | Fork k s' => Go k s' true
  | Hang => Blocked
  | Wrong => Undefined
  end.

(** ** The worker *)

Inductive base_pc : Type :=
| B_while | B_lock | B_test | B_waiting | B_awake | B_continue
| B_unlock (m : msg) | B_task (m : msg) | B_destroy (m : msg)
| B_exit | B_signal | B_exit_unlock | B_done.

Definition CAQueueingThreadBaseRoutine (tid : nat) (p : base_pc) (s : shared) : instr base_pc :=
  match p with
  | B_while => Do (if isStop s then B_exit else B_lock) s
  | B_lock => Lock B_test
  | B_test =>
      if negb (isStop s) && (u_queue_get_size (dataQueue s) <=? 0)
      then Wait B_waiting B_awake
      else Do B_awake s
  | B_waiting => Wake B_awake
  | B_awake =>
      if isStop s then Do B_continue s
      else
        let '(m, q) := u_queue_get_element (dataQueue s) in
        Do (B_unlock m) (if m =? NULL then with_queue q s else put (Taken tid m) (with_queue q s))
  | B_continue => Unlock B_while
  | B_unlock m => Unlock (if m =? NULL then B_while else B_task m)
  | B_task m => Do (B_destroy m) (put (Tasked tid m) s)
  | B_destroy m => Do B_while (put (Destroyed m) s)
  | B_exit => Lock B_signal
  | B_signal => Signal B_exit_unlock
  | B_exit_unlock => Unlock B_done
  | B_done => Hang
  end.

(** ** The operations *)

(** The result, and the object when there is memory for its three parts. *)
Definition CAQueueingThreadInitialize (pool : option (list nat)) (queue_mem mutex_mem cond_mem : bool) :
    CAResult_t * option shared :=
  match pool with
  | None => (CA_STATUS_INVALID_PARAM, None)
  | Some p =>
      match u_queue_create queue_mem with
      | Some q =>
          if mutex_mem && cond_mem
          then (CA_STATUS_OK, Some (mk_shared true (Some q) (Some None) (Some []) (Some p) false []))
          else (CA_MEMORY_ALLOC_FAILED, None)
      | None => (CA_MEMORY_ALLOC_FAILED, None)
      end
  end.

(** [message] is the address [OICMalloc] returns for the message. *)
Inductive add_pc : Type :=
| A_start (data size message : Z) | A_lock (message : msg) | A_add (message : msg)
| A_signal | A_unlock | A_done (r : CAResult_t).

Definition CAQueueingThreadAddData (choice : nat) (p : add_pc) (s : shared) : instr add_pc :=
  match p with
  | A_start data size message =>
      Do (if (data =? 0) || (size =? 0) then A_done CA_STATUS_INVALID_PARAM
          else if message =? NULL then A_done CA_MEMORY_ALLOC_FAILED
          else A_lock message) s
  | A_lock message => Lock (A_add message)
  | A_add message =>
      let '(r, q) := u_queue_add_element (Nat.eqb choice 0) (dataQueue s) message in
      Do A_signal (if ca_ok r then put (Added message) (with_queue q s) else with_queue q s)
  | A_signal => Signal A_unlock
  | A_unlock => Unlock (A_done CA_STATUS_OK)
  | A_done _ => Hang
  end.

Inductive start_pc : Type :=
| T_start | T_lock | T_set | T_unlock | T_add_task
| T_fail_lock (r : CAResult_t) | T_fail_set (r : CAResult_t) | T_fail_unlock (r : CAResult_t)
| T_done (r : CAResult_t).

(** A new thread that runs the worker, numbered [next]. *)
Definition ca_thread_pool_add_task (next choice : nat) (s : shared) : instr start_pc :=
  match threads_list s with
  | None => Wrong
  | Some ts =>
      if list_lock s then Hang
      else match choice with
           | O => Fork (T_done CA_STATUS_OK) (with_pool (Some (ts ++ [next])) false s)
           | S O => Do (T_fail_lock CA_MEMORY_ALLOC_FAILED) s
           | _ => Do (T_fail_lock CA_STATUS_FAILED) s
           end
  end.

Definition CAQueueingThreadStart (next choice : nat) (p : start_pc) (s : shared) : instr start_pc :=
  match p with
  | T_start => Do (if isStop s then T_lock else T_done CA_STATUS_OK) s
  | T_lock => Lock T_set
  | T_set => Do T_unlock (with_stop false s)
  | T_unlock => Unlock T_add_task
  | T_add_task => ca_thread_pool_add_task next choice s
  | T_fail_lock r => Lock (T_fail_set r)
  | T_fail_set r => Do (T_fail_unlock r) (with_stop true s)
  | T_fail_unlock r => Unlock (T_done r)
  | T_done _ => Hang
  end.

Inductive stop_pc : Type :=
| S_start | S_lock | S_set | S_signal | S_wait | S_waiting | S_unlock | S_done.

Definition CAQueueingThreadStop (p : stop_pc) (s : shared) : instr stop_pc :=
  match p with
  | S_start => Do (if isStop s then S_done else S_lock) s
  | S_lock => Lock S_set
  | S_set => Do S_signal (with_stop true s)
  | S_signal => Signal S_wait
  | S_wait => Wait S_waiting S_unlock
  | S_waiting => Wake S_unlock
  | S_unlock => Unlock S_done
  | S_done => Hang
  end.

Inductive destroy_pc : Type :=
| D_lock | D_while | D_destroy (m : msg) | D_delete | D_unlock | D_free_mutex | D_free_cond | D_done.

Definition CAQueueingThreadDestroy (tid : nat) (p : destroy_pc) (s : shared) : instr destroy_pc :=
  match p with
  | D_lock => Lock D_while
  | D_while =>
      if 0 <? u_queue_get_size (dataQueue s) then
        let '(m, q) := u_queue_get_element (dataQueue s) in
        Do (if m =? NULL then D_while else D_destroy m)
           (if m =? NULL then with_queue q s else put (Taken tid m) (with_queue q s))
      else Do D_delete s
  | D_destroy m => Do D_while (put (Destroyed m) s)
  | D_delete => Do D_unlock (with_queue None s)
  | D_unlock => Unlock D_free_mutex
  | D_free_mutex => FreeMutex D_free_cond
  | D_free_cond => FreeCond D_done
  | D_done => Hang
  end.

Inductive pool_pc : Type := F_lock | F_join (i : nat) | F_free | F_done.

(** [ended] says whether a thread has returned. *)
Definition ca_thread_pool_free (ended : nat -> bool) (p : pool_pc) (s : shared) : instr pool_pc :=
  match p with
  | F_lock =>
      match threads_list s with
      | None => Wrong
      | Some ts => if list_lock s then Hang else Do (F_join 0) (with_pool (Some ts) true s)
      end
  | F_join i =>
      match default [] (threads_list s) !! i with
      | None => Do F_free s
      | Some tid => if ended tid then Do (F_join (S i)) s else Hang
      end
  | F_free => Do F_done (with_pool None false s)
  | F_done => Hang
  end.

(** ** Threads and runs *)

Inductive call : Type := AddData (data size message : Z) | Start | Stop | Join | Destroy.

(** Where a thread is: in the worker, in an operation, or between operations. *)
Inductive pc : Type :=
| Base (p : base_pc) | Add (p : add_pc) | Starting (p : start_pc) | Stopping (p : stop_pc)
| Joining (p : pool_pc) | Destroying (p : destroy_pc) | Idle.

Definition enter (c : call) : pc :=
  match c with
  | AddData data size message => Add (A_start data size message)
  | Start => Starting T_start
  | Stop => Stopping S_start
  | Join => Joining F_lock
  | Destroy => Destroying D_lock
  end.

Definition returned (p : pc) : bool :=
  match p with
  | Base B_done | Add (A_done _) | Starting (T_done _) | Stopping S_done | Joining F_done
  | Destroying D_done | Idle => true
  | _ => false
  end.

(** A thread and the operations it still calls. *)
Record thread : Type := mk_thread { at_pc : pc; calls : list call }.
Record system : Type := mk_system { sh : shared; threads : list thread }.

Definition ended (s : system) (tid : nat) : bool :=
  match threads s !! tid with
  | Some t => returned (at_pc t) && bool_decide (calls t = [])
  | None => true
  end.

Definition act (tid choice : nat) (s : system) (p : pc) : instr pc :=
  match p with
  | Base p => into Base (CAQueueingThreadBaseRoutine tid p (sh s))
  | Add p => into Add (CAQueueingThreadAddData choice p (sh s))
  | Starting p => into Starting (CAQueueingThreadStart (List.length (threads s)) choice p (sh s))
  | Stopping p => into Stopping (CAQueueingThreadStop p (sh s))
  | Joining p => into Joining (ca_thread_pool_free (ended s) p (sh s))
  | Destroying p => into Destroying (CAQueueingThreadDestroy tid p (sh s))
  | Idle => Hang
  end.

Inductive event : Type := Run (tid choice : nat) | Spurious (tid : nat).

Inductive outcome : Type := Stuck | Crash | Next (s : system).

(** A thread goes on; between two operations it makes its next call. *)
Definition run_thread (tid choice : nat) (t : thread) (s : system) : effect thread :=
  if returned (at_pc t) then
    match calls t with
    | c :: cs => Go (mk_thread (enter c) cs) (sh s) false
    | [] => Blocked
    end
  else
    match exec tid choice (sh s) (act tid choice s (at_pc t)) with
    | Go p s' new => Go (mk_thread p (calls t)) s' new
    | Blocked => Blocked
    | Undefined => Undefined
    end.

Definition new_threads (new : bool) : list thread := if new then [mk_thread (Base B_while) []] else [].

Definition step (e : event) (s : system) : outcome :=
  match e with
  | Spurious tid =>
      match threadCond (sh s) with
      | Some ws =>
          if bool_decide (tid ∈ ws)
          then Next (mk_system (with_cond (Some (filter (fun t => t <> tid) ws)) (sh s)) (threads s))
          else Stuck
      | None => Stuck
      end
  | Run tid choice =>
      match threads s !! tid with
      | None => Stuck
      | Some t =>
          match run_thread tid choice t s with
          | Blocked => Stuck
          | Undefined => Crash
          | Go t' s' new => Next (mk_system s' (<[tid := t']> (threads s) ++ new_threads new))
          end
      end
  end.

Fixpoint run (es : list event) (s : system) : outcome :=
  match es with
  | [] => Next s
  | e :: es' => match step e s with Next s' => run es' s' | o => o end
  end.

(** The object as it is initialized, and threads that are about to make their calls. *)
Definition initial (cs : list (list call)) : system :=
  mk_system (mk_shared true (Some (mk_queue [] 0)) (Some None) (Some []) (Some []) false [])
    (map (mk_thread Idle) cs).

(** ** What a run keeps *)

Lemma run_app es1 es2 s : run (es1 ++ es2) s = match run es1 s with Next s' => run es2 s' | o => o end.
Proof.
  revert s. induction es1 as [|e es1 IH]; intros s; cbn [run app]; [done|]. destruct (step e s); auto.
Qed.

Lemma run_invariant (P : system -> Prop) es s s' :
  (forall e s1 s2, P s1 -> step e s1 = Next s2 -> P s2) -> P s -> run es s = Next s' -> P s'.
Proof.
  intros Hstep. revert s. induction es as [|e es IH]; cbn [run]; intros s Hs; [by intros [= <-]|].
  destruct (step e s) eqn:E; [done..|]. intros Hr. eapply IH; [|exact Hr]. by eapply Hstep.
Qed.

(** The steps of a thread: it makes its next call, or executes the instruction it is at. *)
Inductive moves (tid choice : nat) (s : system) (t : thread) : shared -> thread -> bool -> Prop :=
| moves_call c cs : returned (at_pc t) = true -> calls t = c :: cs ->
    moves tid choice s t (sh s) (mk_thread (enter c) cs) false
| moves_go p s' new : returned (at_pc t) = false ->
    exec tid choice (sh s) (act tid choice s (at_pc t)) = Go p s' new ->
    moves tid choice s t s' (mk_thread p (calls t)) new.

Lemma step_moves e s s' : step e s = Next s' ->
  (exists tid choice t sh' t' new, e = Run tid choice /\ threads s !! tid = Some t /\
     moves tid choice s t sh' t' new /\ s' = mk_system sh' (<[tid := t']> (threads s) ++ new_threads new)) \/
  (exists tid ws, e = Spurious tid /\ threadCond (sh s) = Some ws /\ tid ∈ ws /\
     s' = mk_system (with_cond (Some (filter (fun t => t <> tid) ws)) (sh s)) (threads s)).
Proof.
  destruct e as [tid choice|tid]; cbn [step].
  - destruct (threads s !! tid) as [t|] eqn:Et; [|done]. unfold run_thread.
    destruct (returned (at_pc t)) eqn:Er.
    + destruct (calls t) as [|c cs] eqn:Ec; [done|]. intros [= <-]. left.
      exists tid, choice, t, (sh s), (mk_thread (enter c) cs), false. split_and!; try done.
      by constructor.
    + destruct (exec _ _ _ _) as [| |p s1 new] eqn:Ea; try done; intros [= <-]; left.
      do 6 eexists; split_and!; try done. by eapply moves_go.
  - destruct (threadCond (sh s)) as [ws|] eqn:Ew; [|done]. case_bool_decide; [|done]. intros [= <-].
    right. by exists tid, ws.
Qed.

(** Where a thread is after another one's step. *)
Lemma lookup_step (l : list thread) new tid t t' i u : l !! tid = Some t ->
  (<[tid := t']> l ++ new_threads new) !! i = Some u ->
  (i = tid /\ u = t') \/ (i <> tid /\ l !! i = Some u) \/
  (new = true /\ i = List.length l /\ u = mk_thread (Base B_while) []).
Proof.
  intros Ht Hu. apply lookup_app_Some in Hu as [Hu|[Hi Hu]].
  - destruct (decide (i = tid)) as [->|Hn].
    + rewrite list_lookup_insert_eq in Hu by (by eapply lookup_lt_Some). left. by simplify_eq.
    + rewrite list_lookup_insert_ne in Hu by done. auto.
  - rewrite length_insert in Hi, Hu. right. right. destruct new; [|done].
    apply list_lookup_singleton_Some in Hu as [Hz <-]. split_and!; [done|lia|done].
Qed.

(** ** Mutual exclusion *)

(** The program points between a lock and its unlock. *)
Definition holding (p : pc) : bool :=
  match p with
  | Base (B_test | B_awake | B_continue | B_unlock _ | B_signal | B_exit_unlock)
  | Add (A_add _ | A_signal | A_unlock)
  | Starting (T_set | T_unlock | T_fail_set _ | T_fail_unlock _)
  | Stopping (S_set | S_signal | S_wait | S_unlock)
  | Destroying (D_while | D_destroy _ | D_delete | D_unlock) => true
  | _ => false
  end.
(** Behind the deletion of the queue. *)
Definition deleting (p : pc) : bool :=
  match p with Destroying (D_unlock | D_free_mutex | D_free_cond | D_done) => true | _ => false end.

(** The instructions respect the locking discipline. *)
Lemma act_holding tid choice s p : returned p = false ->
  match act tid choice s p with
  | Lock k | Wake k => holding p = false /\ holding k = true
  | Unlock k => holding p = true /\ holding k = false
  | Signal k => holding p = true /\ holding k = true
  | Wait w k => holding p = true /\ holding w = false /\ holding k = true
  | FreeMutex k | FreeCond k => deleting p = true /\ holding p = false /\ holding k = false
  | Do k s' | Fork k s' => holding k = holding p /\ threadMutex s' = threadMutex (sh s) /\
      threadCond s' = threadCond (sh s)
  | Hang | Wrong => True
  end.
Proof.
  intros Hr. destruct p as [p|p|p|p|p|p|]; destruct p || idtac; try done; cbn; unfold ca_thread_pool_add_task;
    repeat (case_match; simplify_eq/=; try done).
Qed.

(** The queue and its deletion. *)
Lemma act_deleting tid choice s p : returned p = false ->
  match act tid choice s p with
  | Do k s' | Fork k s' =>
      (dataQueue (sh s) = None -> dataQueue s' = None) /\ (deleting k = true -> dataQueue s' = None) /\
      deleting p = false
  | FreeMutex k | FreeCond k => True
  | Lock k | Wake k | Signal k => deleting k = false
  | Wait w k => deleting k = false /\ deleting w = false
  | Unlock k => deleting k = deleting p
  | Hang | Wrong => True
  end.
Proof.
  intros Hr. destruct p as [p|p|p|p|p|p|]; destruct p || idtac; try done; cbn; unfold ca_thread_pool_add_task;
    repeat (case_match; simplify_eq/=; try done);
    split_and!; try done; intros E; rewrite ?E in *; by simplify_eq/=.
Qed.

(** The mutex is held by the thread that is between a lock and its unlock; it is
    freed after the queue. *)
Definition mutex_inv (s : system) : Prop :=
  (forall i t, threads s !! i = Some t -> deleting (at_pc t) = true -> dataQueue (sh s) = None) /\
  match threadMutex (sh s) with
  | None => dataQueue (sh s) = None
  | Some o =>
      (forall i t, threads s !! i = Some t -> holding (at_pc t) = bool_decide (o = Some i)) /\
      (forall i, o = Some i -> is_Some (threads s !! i))
  end.

(** What a thread's step does to the mutex and to the existence of the queue. *)
Definition mutex_move (tid : nat) (p p' : pc) (s s' : shared) : Prop :=
  (dataQueue s = None -> dataQueue s' = None) /\
  (deleting p' = true -> dataQueue s' = None \/ deleting p = true) /\
  match threadMutex s, threadMutex s' with
  | None, None => True
  | None, Some _ => False
  | Some o, None => deleting p = true
  | Some o, Some o' =>
      holding p = bool_decide (o = Some tid) ->
      holding p' = bool_decide (o' = Some tid) /\
      (o' = o \/ (o' = Some tid /\ o = None) \/ (o' = None /\ o = Some tid))
  end.

Lemma moves_mutex tid choice s t s' t' new : moves tid choice s t s' t' new ->
  mutex_move tid (at_pc t) (at_pc t') (sh s) s'.
Proof.
  unfold mutex_move. intros [c cs Hr Ec|p s1 new1 Hr Ee]; cbn [at_pc].
  - split_and!; [done|by destruct c|]. case_match; [|done].
    assert (holding (at_pc t) = false) as -> by (destruct (at_pc t) as [[]|[]|[]|[]|[]|[]|]; done).
    intros <-. split; [by destruct c|by left].
  - pose proof (act_holding tid choice s _ Hr) as Hh. pose proof (act_deleting tid choice s _ Hr) as Hd.
    destruct (act tid choice s (at_pc t)); cbn [exec] in Ee; unfold oc_mutex_lock in Ee;
      repeat (case_match; simplify_eq/=); repeat case_bool_decide; simplify_eq/=; destruct_and?;
      split_and!; try done; try congruence; try (intros Hb; rewrite ?Hb; repeat case_bool_decide);
      naive_solver congruence.
Qed.

Lemma mutex_inv_step e s s' : mutex_inv s -> step e s = Next s' -> mutex_inv s'.
Proof.
  intros [Hd Hm] [(tid & choice & t & s1 & t' & new & _ & Ht & Hmv & ->)|(? & ? & _ & ? & _ & ->)]%step_moves;
    [|done].
  destruct (moves_mutex _ _ _ _ _ _ _ Hmv) as (Hq & Hdel & Hmx). split; cbn [sh threads].
  - intros i u Hu Hu'. destruct (lookup_step _ _ _ _ _ _ _ Ht Hu) as [[-> ->]|[[_ Hu1]|(_ & _ & ->)]].
    + destruct (Hdel Hu') as [?|?]; [done|]. by eapply Hq, Hd.
    + by eapply Hq, Hd.
    + done.
  - destruct (threadMutex (sh s)) as [o|], (threadMutex s1) as [o'|]; try done.
    + destruct Hm as [Hh Ho]. destruct (Hmx (Hh _ _ Ht)) as [Hp Hoo]. split.
      * intros i u Hu. destruct (lookup_step _ _ _ _ _ _ _ Ht Hu) as [[-> ->]|[[Hn Hu1]|(_ & -> & ->)]].
        -- done.
        -- rewrite (Hh _ _ Hu1). apply bool_decide_ext. naive_solver congruence.
        -- cbn. symmetry. apply bool_decide_eq_false. apply lookup_lt_Some in Ht.
           destruct Hoo as [->|[[-> _]|[-> _]]]; [|intros [= E]; lia|done].
           intros ->. destruct (Ho _ eq_refl) as [? H%lookup_lt_Some]. lia.
      * intros i ->. apply lookup_lt_is_Some. rewrite length_app, length_insert.
        assert (i < List.length (threads s))%nat; [|lia]. destruct Hoo as [<-|[[[= ->] _]|[[=] _]]].
        -- by apply lookup_lt_is_Some, Ho.
        -- by eapply lookup_lt_Some.
    + by eapply Hq, Hd.
    + by apply Hq.
Qed.

Lemma mutex_inv_initial cs : mutex_inv (initial cs).
Proof.
  assert (H : forall i t, threads (initial cs) !! i = Some t -> at_pc t = Idle).
  { intros i t Ht. apply list_lookup_fmap_Some in Ht as (l & -> & _). done. }
  split; [intros i t Ht; by rewrite (H _ _ Ht)|]. split; [|done]. intros i t Ht. by rewrite (H _ _ Ht).
Qed.

(** ** First in, first out, nothing lost *)

Definition added (tr : list action) : list msg :=
  omap (fun a => match a with Added m => Some m | _ => None end) tr.
Definition taken (tr : list action) : list msg :=
  omap (fun a => match a with Taken _ m => Some m | _ => None end) tr.
Definition destroyed (tr : list action) : list msg :=
  omap (fun a => match a with Destroyed m => Some m | _ => None end) tr.
Definition taken_by (tid : nat) (tr : list action) : list msg :=
  omap (fun a => match a with Taken i m => if Nat.eqb i tid then Some m else None | _ => None end) tr.
Definition tasked_by (tid : nat) (tr : list action) : list msg :=
  omap (fun a => match a with Tasked i m => if Nat.eqb i tid then Some m else None | _ => None end) tr.

Definition queued (s : shared) : list msg :=
  match dataQueue s with Some q => element q | None => [] end.

(** The message a thread has taken and not destroyed, and not passed to the task. *)
Definition in_hand (p : pc) : list msg :=
  match p with
  | Base (B_unlock m) => if m =? NULL then [] else [m]
  | Base (B_task m | B_destroy m) | Destroying (D_destroy m) => [m]
  | _ => []
  end.
Definition untasked (p : pc) : list msg :=
  match p with
  | Base (B_unlock m) => if m =? NULL then [] else [m]
  | Base (B_task m) => [m]
  | _ => []
  end.
Definition in_hands (l : list thread) : list msg := mbind (fun t => in_hand (at_pc t)) l.
Definition is_worker (p : pc) : bool := match p with Base _ => true | _ => false end.
Definition message_ok (p : pc) : Prop :=
  match p with Add (A_lock m | A_add m) => m <> NULL | _ => True end.

Inductive queue_move (tid : nat) (p p' : pc) (s s' : shared) : Prop :=
| qm_quiet : trace s' = trace s -> dataQueue s' = dataQueue s -> in_hand p' = in_hand p ->
    untasked p' = untasked p -> (p' = Destroying D_delete -> queued s = []) ->
    queue_move tid p p' s s'
| qm_add m q : p = Add (A_add m) -> p' = Add A_signal -> dataQueue s = Some q ->
    trace s' = trace s ++ [Added m] ->
    dataQueue s' = Some (mk_queue (element q ++ [m]) (u32 (count q + 1))) -> queue_move tid p p' s s'
| qm_take m q rest : dataQueue s = Some q -> element q = m :: rest -> trace s' = trace s ++ [Taken tid m] ->
    dataQueue s' = Some (mk_queue rest (u32 (count q - 1))) -> in_hand p = [] -> in_hand p' = [m] ->
    (is_worker p' = true -> untasked p = [] /\ untasked p' = [m]) -> queue_move tid p p' s s'
| qm_task m : p = Base (B_task m) -> p' = Base (B_destroy m) -> trace s' = trace s ++ [Tasked tid m] ->
    dataQueue s' = dataQueue s -> queue_move tid p p' s s'
| qm_destroy m : in_hand p = [m] -> in_hand p' = [] -> trace s' = trace s ++ [Destroyed m] ->
    dataQueue s' = dataQueue s -> untasked p = [] -> untasked p' = [] -> p' <> Destroying D_delete ->
    queue_move tid p p' s s'
| qm_delete : p = Destroying D_delete -> p' = Destroying D_unlock -> trace s' = trace s -> dataQueue s' = None ->
    queue_move tid p p' s s'.

Record queue_ok (s : shared) : Prop := {
  queue_wf : forall q, dataQueue s = Some q -> wf q /\ NULL ∉ element q;
  queue_short : Z.of_nat (List.length (queued s)) < 2 ^ 32 }.

(** Taking the next message. *)
Lemma get_element_some q m q' : wf q /\ NULL ∉ element q ->
  u_queue_get_element (Some q) = (m, q') ->
  (m = NULL /\ q' = Some q /\ element q = []) \/
  (m <> NULL /\ exists rest, element q = m :: rest /\ q' = Some (mk_queue rest (u32 (count q - 1)))).
Proof.
  intros [_ Hn]. cbn. destruct (element q) as [|m1 rest]; intros [= <- <-]; [auto|].
  right. apply not_elem_of_cons in Hn as [? _]. split; [done|]. by exists rest.
Qed.

Definition quiet (p p' : pc) : Prop :=
  in_hand p' = in_hand p /\ untasked p' = untasked p /\ p' <> Destroying D_delete.

Lemma act_queue tid choice s p : queue_ok (sh s) -> message_ok p -> returned p = false ->
  match act tid choice s p with
  | Lock k | Wake k | Signal k | Unlock k | FreeMutex k | FreeCond k => quiet p k
  | Wait w k => quiet p w /\ quiet p k
  | Do k s' | Fork k s' => queue_move tid p k (sh s) s'
  | Hang | Wrong => True
  end.
Proof.
  intros [Hwf Hlen] Hm Hr. unfold queued in Hlen.
  assert (Hget : forall m q, u_queue_get_element (dataQueue (sh s)) = (m, q) ->
    (m = NULL /\ q = dataQueue (sh s)) \/
    (m <> NULL /\ exists q0 rest, dataQueue (sh s) = Some q0 /\ element q0 = m :: rest /\
       q = Some (mk_queue rest (u32 (count q0 - 1))))).
  { intros m q Hg. destruct (dataQueue (sh s)) as [q0|]; [|by injection Hg as <- <-; left].
    destruct (get_element_some _ _ _ (Hwf q0 eq_refl) Hg) as [(-> & -> & _)|(? & rest & ? & ->)]; [by left|].
    right. split; [done|]. by exists q0, rest. }
  destruct p as [b|a|st|sp|j|d|]; [destruct b|destruct a|destruct st|destruct sp|destruct j|destruct d|];
    try done; cbn; unfold ca_thread_pool_add_task;
    try (by apply qm_quiet).
  - destruct (isStop (sh s)); by apply qm_quiet.
  - destruct (negb (isStop (sh s)) && (u_queue_get_size (dataQueue (sh s)) <=? 0)); [done|by apply qm_quiet].
  - destruct (isStop (sh s)); [by apply qm_quiet|].
    destruct (u_queue_get_element (dataQueue (sh s))) as [m q] eqn:Eg.
    destruct (Hget _ _ eq_refl) as [[-> ->]|(Hm0 & q0 & rest & E & El & ->)]; cbn [into].
    + by apply qm_quiet.
    + rewrite (proj2 (Z.eqb_neq _ _)) by done. apply (qm_take _ _ _ _ _ m q0 rest); try done; cbn;
        by rewrite (proj2 (Z.eqb_neq _ _)).
  - unfold quiet. cbn. destruct (Z.eqb_spec m NULL); by cbn.
  - by eapply qm_task.
  - by eapply qm_destroy.
  - cbn in Hm. destruct (dataQueue (sh s)) as [q|] eqn:Eq.
    + destruct (Hwf q eq_refl) as [Hq _]. destruct (Nat.eqb choice 0).
      * rewrite add_element_spec by done. cbn [into]. by eapply qm_add.
      * cbn [u_queue_add_element]. rewrite (proj2 (Z.eqb_neq _ _)) by done. cbn. by apply qm_quiet.
    + by apply qm_quiet.
  - destruct (threads_list (sh s)); [|done]. destruct (list_lock (sh s)); [done|].
    destruct choice as [|[|]]; by apply qm_quiet.
  - destruct (threads_list (sh s)); [|done]. destruct (list_lock (sh s)); [done|]. by apply qm_quiet.
  - destruct (_ !! i); [|by apply qm_quiet]. destruct (ended s n); [by apply qm_quiet|done].
  - destruct (Z.ltb_spec 0 (u_queue_get_size (dataQueue (sh s)))) as [Hc|Hc].
    + destruct (u_queue_get_element (dataQueue (sh s))) as [m q] eqn:Eg.
      destruct (Hget _ _ eq_refl) as [[-> ->]|(Hm0 & q0 & rest & E & El & ->)]; cbn [into].
      * by apply qm_quiet.
      * rewrite (proj2 (Z.eqb_neq _ _)) by done. by apply (qm_take _ _ _ _ _ m q0 rest).
    + apply qm_quiet; try done. intros _. unfold queued. destruct (dataQueue (sh s)) as [q|]; [|done].
      cbn in Hc. destruct (Hwf q eq_refl) as [Hq _]. unfold wf in Hq.
      rewrite wrap_id in Hq by (unfold in_width; lia). destruct (element q); [done|]. cbn in Hq. lia.
  - by eapply qm_destroy.
  - by apply qm_delete.
Qed.

Lemma moves_queue tid choice s t s' t' new : queue_ok (sh s) -> message_ok (at_pc t) ->
  moves tid choice s t s' t' new -> queue_move tid (at_pc t) (at_pc t') (sh s) s'.
Proof.
  intros Hq Hm [c cs Hr Ec|p s1 new1 Hr Ee]; cbn [at_pc].
  { apply qm_quiet; try done; destruct (at_pc t) as [[]|[]|[]|[]|[]|[]|]; try done; by destruct c. }
  pose proof (act_queue tid choice s _ Hq Hm Hr) as Ha. unfold quiet in Ha.
  destruct (act tid choice s (at_pc t)); cbn [exec] in Ee; unfold oc_mutex_lock in Ee;
    repeat (case_match; simplify_eq/=); destruct_and?; simplify_eq/=; try done;
    apply qm_quiet; cbn; try done; naive_solver.
Qed.

(** The queue holds what was added and not yet taken, in order; what was taken is
    destroyed or in the hands of one thread; a worker passes messages to the task
    in the order it takes them. *)
Record queue_inv (s : system) : Prop := {
  q_ok : forall q, dataQueue (sh s) = Some q -> wf q /\ NULL ∉ element q;
  q_fifo : added (trace (sh s)) = taken (trace (sh s)) ++ queued (sh s);
  q_hands : Permutation (taken (trace (sh s))) (destroyed (trace (sh s)) ++ in_hands (threads s));
  q_order : forall i t, threads s !! i = Some t -> is_worker (at_pc t) = true ->
    taken_by i (trace (sh s)) = tasked_by i (trace (sh s)) ++ untasked (at_pc t);
  q_fresh : forall i, (List.length (threads s) <= i)%nat ->
    taken_by i (trace (sh s)) = [] /\ tasked_by i (trace (sh s)) = [];
  q_message : forall i t, threads s !! i = Some t -> message_ok (at_pc t);
  q_deleting : forall i t, threads s !! i = Some t -> at_pc t = Destroying D_delete -> queued (sh s) = [] }.

Lemma omap_snoc {A B} (f : A -> option B) l x :
  omap f (l ++ [x]) = omap f l ++ match f x with Some y => [y] | None => [] end.
Proof. rewrite omap_app. cbn. by destruct (f x). Qed.

(** The messages in hands after a step of one thread. *)
Lemma in_hands_step l new tid t t' : l !! tid = Some t ->
  Permutation (in_hands (<[tid := t']> l ++ new_threads new) ++ in_hand (at_pc t))
    (in_hands l ++ in_hand (at_pc t')).
Proof.
  intros Ht. unfold in_hands. rewrite bind_app.
  replace (mbind _ (new_threads new)) with (@nil msg) by (by destruct new). rewrite app_nil_r.
  rewrite insert_take_drop by (by eapply lookup_lt_Some).
  rewrite <- (take_drop_middle l tid t Ht) at 3. rewrite !bind_app, !bind_cons.
  solve_Permutation.
Qed.
Lemma act_trace tid choice s p : returned p = false ->
  match act tid choice s p with
  | Do _ s' | Fork _ s' => exists tr, trace s' = trace (sh s) ++ tr
  | _ => True
  end.
Proof.
  assert (H0 : exists tr, trace (sh s) = trace (sh s) ++ tr) by (exists []; by rewrite app_nil_r).
  intros Hr. destruct p as [b|a|st|sp|j|d|]; [destruct b|destruct a|destruct st|destruct sp|destruct j|destruct d|];
    try done; cbn; unfold ca_thread_pool_add_task;
    repeat (case_match; simplify_eq/=; try done); try (eexists; reflexivity).
Qed.

Lemma step_trace e s s' : step e s = Next s' -> exists tr, trace (sh s') = trace (sh s) ++ tr.
Proof.
  assert (H0 : exists tr, trace (sh s) = trace (sh s) ++ tr) by (exists []; by rewrite app_nil_r).
  intros [(tid & choice & t & s1 & t' & new & _ & Ht & Hmv & ->)|(? & ? & _ & ? & _ & ->)]%step_moves; [|done].
  destruct Hmv as [c cs Hr Ec|p s1 new1 Hr Ee]; [done|].
  pose proof (act_trace tid choice s _ Hr) as Ha.
  destruct (act tid choice s (at_pc t)); cbn [exec] in Ee; unfold oc_mutex_lock in Ee;
    repeat (case_match; simplify_eq/=); simplify_eq/=; done.
Qed.

Lemma act_worker tid choice s p : returned p = false ->
  match act tid choice s p with
  | Lock k | Wake k | Signal k | Unlock k | FreeMutex k | FreeCond k | Do k _ | Fork k _ =>
      is_worker k = is_worker p /\ (message_ok p -> message_ok k)
  | Wait w k =>
      (is_worker k = is_worker p /\ (message_ok p -> message_ok k)) /\
      is_worker w = is_worker p /\ (message_ok p -> message_ok w)
  | Hang | Wrong => True
  end.
Proof.
  intros Hr. destruct p as [b|a|st|sp|j|d|]; [destruct b|destruct a|destruct st|destruct sp|destruct j|destruct d|];
    try done; cbn; unfold ca_thread_pool_add_task; repeat (case_match; simplify_eq/=; try done).
  split; [done|]. intros _. by apply Z.eqb_neq.
Qed.

Lemma moves_worker tid choice s t s' t' new : moves tid choice s t s' t' new ->
  (is_worker (at_pc t') = true -> is_worker (at_pc t) = true) /\
  (message_ok (at_pc t) -> message_ok (at_pc t')).
Proof.
  intros [c cs Hr Ec|p s1 new1 Hr Ee]; cbn [at_pc]; [by destruct c|].
  pose proof (act_worker tid choice s _ Hr) as Ha.
  destruct (act tid choice s (at_pc t)); cbn [exec] in Ee; unfold oc_mutex_lock in Ee;
    repeat (case_match; simplify_eq/=); simplify_eq/=; destruct_and?; split; congruence || auto.
Qed.

Lemma queue_inv_ok s : queue_inv s -> Z.of_nat (List.length (added (trace (sh s)))) < 2 ^ 32 -> queue_ok (sh s).
Proof.
  intros Hi Hb. split; [apply Hi|]. rewrite (q_fifo _ Hi), length_app in Hb. lia.
Qed.

Section step_of_a_thread.
  Context (s : system) (s1 : shared) (tid : nat) (t t' : thread) (new : bool).
  Context (Hmx : mutex_inv s) (Hi : queue_inv s) (Ht : threads s !! tid = Some t).
  Context (Hq : queue_move tid (at_pc t) (at_pc t') (sh s) s1).

Ltac cases := destruct Hq as [Etr Eq Eh Eu Ed|m q Ep Ep' Eq Etr Eq'|m q rest Eq El Etr Eq' Eh Eh' Ew
    |m Ep Ep' Etr Eq'|m Eh Eh' Etr Eq' Eu Eu' Ed|Ep Ep' Etr Eq'].
Ltac traces := try match goal with E : trace s1 = _ |- _ => rewrite E end; unfold added, taken, destroyed, taken_by, tasked_by in *;
  rewrite ?omap_snoc; cbn [app]; rewrite ?app_nil_r.

Lemma step_queue_wf q1 : dataQueue s1 = Some q1 -> wf q1 /\ NULL ∉ element q1.
Proof using Hi Ht Hq.
  intros Hq1. cases; try (apply Hi; congruence); try congruence.
  - destruct (q_ok _ Hi _ Eq) as [Hwf Hn]. simplify_eq. split; [by apply wf_push|].
    cbn. apply not_elem_of_app. split; [done|]. apply not_elem_of_cons. split; [|apply not_elem_of_nil].
    pose proof (q_message _ Hi _ _ Ht) as Hm. by rewrite Ep in Hm.
  - destruct (q_ok _ Hi _ Eq) as [Hwf Hn]. simplify_eq. split; [by eapply wf_pop|].
    rewrite El in Hn. by apply not_elem_of_cons in Hn as [_ ?].
Qed.

Lemma step_fifo : added (trace s1) = taken (trace s1) ++ queued s1.
Proof using Hi Ht Hq.
  pose proof (q_fifo _ Hi) as Hf. unfold queued in *. cases; traces; rewrite ?Eq'.
  - by rewrite Eq.
  - rewrite Hf, Eq. cbn. by rewrite app_assoc.
  - rewrite Hf, Eq, El. cbn. by rewrite <- app_assoc.
  - done.
  - done.
  - pose proof (q_deleting _ Hi _ _ Ht Ep) as Hd. unfold queued in Hd. by rewrite Hf, Hd.
Qed.

Lemma step_hands :
  Permutation (taken (trace s1)) (destroyed (trace s1) ++ in_hands (<[tid := t']> (threads s) ++ new_threads new)).
Proof using Hi Ht Hq.
  pose proof (in_hands_step _ new _ _ t' Ht) as Hh. pose proof (q_hands _ Hi) as Hp. cases; traces.
  - rewrite Eh in Hh. apply Permutation_app_inv_r in Hh. by rewrite Hh.
  - rewrite Ep, Ep' in Hh. cbn in Hh. rewrite !app_nil_r in Hh. by rewrite Hh.
  - rewrite Eh, Eh', app_nil_r in Hh. rewrite Hh, Hp. by rewrite app_assoc.
  - rewrite Ep, Ep' in Hh. cbn in Hh. apply Permutation_app_inv_r in Hh. by rewrite Hh.
  - rewrite Eh, Eh', app_nil_r in Hh. rewrite Hp, <- Hh. solve_Permutation.
  - rewrite Ep, Ep' in Hh. cbn in Hh. rewrite !app_nil_r in Hh. by rewrite Hh.
Qed.

(** Only the thread that steps takes or passes messages. *)
Lemma step_others i : i <> tid -> taken_by i (trace s1) = taken_by i (trace (sh s)) /\
  tasked_by i (trace s1) = tasked_by i (trace (sh s)).
Proof using Hq.
  intros Hn. cases; traces; rewrite ?(proj2 (Nat.eqb_neq tid i)) by done; by rewrite ?app_nil_r.
Qed.

Lemma step_order i u : (<[tid := t']> (threads s) ++ new_threads new) !! i = Some u ->
  is_worker (at_pc u) = true -> (is_worker (at_pc t') = true -> is_worker (at_pc t) = true) ->
  taken_by i (trace s1) = tasked_by i (trace s1) ++ untasked (at_pc u).
Proof using Hi Ht Hq.
  intros Hu Hw Hww. destruct (lookup_step _ _ _ _ _ _ _ Ht Hu) as [[-> ->]|[[Hn Hu1]|(_ & -> & ->)]].
  - pose proof (q_order _ Hi _ _ Ht (Hww Hw)) as Ho. cases; traces; rewrite ?Nat.eqb_refl, ?app_nil_r.
    + by rewrite Eu.
    + by rewrite Ep' in Hw.
    + destruct (Ew Hw) as [E1 E2]. rewrite E1, app_nil_r in Ho. by rewrite E2, Ho.
    + rewrite Ep in Ho. rewrite Ep'. cbn in *. by rewrite app_nil_r.
    + by rewrite Eu, Eu' in *.
    + by rewrite Ep' in Hw.
  - destruct (step_others i Hn) as [-> ->]. by apply Hi.
  - assert (Hn : List.length (threads s) <> tid) by (apply lookup_lt_Some in Ht; lia).
    destruct (step_others _ Hn) as [-> ->]. by destruct (q_fresh _ Hi (List.length (threads s)) ltac:(lia)) as [-> ->].
Qed.

Lemma step_deleting i u : (<[tid := t']> (threads s) ++ new_threads new) !! i = Some u ->
  at_pc u = Destroying D_delete -> queued s1 = [].
Proof using Hmx Hi Ht Hq.
  intros Hu Hd. destruct (lookup_step _ _ _ _ _ _ _ Ht Hu) as [[-> ->]|[[Hn Hu1]|(_ & _ & ->)]]; [| |done].
  - cases; try congruence; [|by rewrite Hd in Eh'].
    unfold queued in *. rewrite Eq. by apply Ed.
  - pose proof (q_deleting _ Hi _ _ Hu1 Hd) as Hnil. unfold queued in *. cases; rewrite ?Eq'; try done.
    + by rewrite Eq.
    + exfalso. destruct Hmx as [_ Hm]. destruct (threadMutex (sh s)) as [o|]; [|by rewrite Hm in Eq].
      destruct Hm as [Hm _]. pose proof (Hm _ _ Ht) as E1. pose proof (Hm _ _ Hu1) as E2.
      rewrite Ep in E1. rewrite Hd in E2. cbn in E1, E2.
      symmetry in E1, E2. apply bool_decide_eq_true in E1, E2. congruence.
    + by rewrite Eq, El in Hnil.
Qed.
End step_of_a_thread.

Lemma queue_inv_step e s s' : mutex_inv s -> queue_inv s -> step e s = Next s' ->
  Z.of_nat (List.length (added (trace (sh s')))) < 2 ^ 32 -> queue_inv s'.
Proof.
  intros Hmx Hi Hst Hb.
  assert (Hok : queue_ok (sh s)).
  { apply queue_inv_ok; [done|]. destruct (step_trace _ _ _ Hst) as [tr E]. rewrite E in Hb.
    unfold added in *. rewrite omap_app, length_app in Hb. lia. }
  apply step_moves in Hst as [(tid & choice & t & s1 & t' & new & _ & Ht & Hmv & ->)|(? & ? & _ & ? & _ & ->)];
    [|by destruct Hi].
  pose proof (moves_queue _ _ _ _ _ _ _ Hok (q_message _ Hi _ _ Ht) Hmv) as Hq.
  destruct (moves_worker _ _ _ _ _ _ _ Hmv) as [Hw Hmsg].
  split; cbn [sh threads].
  - by eapply step_queue_wf.
  - by eapply step_fifo.
  - by eapply step_hands.
  - intros i u Hu Hu'. by eapply step_order.
  - intros i. rewrite length_app, length_insert. intros Hl. apply lookup_lt_Some in Ht.
    destruct (step_others _ _ _ _ _ Hq i) as [-> ->]; [lia|]. apply Hi. lia.
  - intros i u Hu. destruct (lookup_step _ _ _ _ _ _ _ Ht Hu) as [[-> ->]|[[_ Hu1]|(_ & _ & ->)]]; [|by eapply Hi|done].
    by eapply Hmsg, Hi.
  - intros i u Hu Hd. by eapply step_deleting.
Qed.

Lemma queue_inv_initial cs : queue_inv (initial cs).
Proof.
  assert (H : forall i t, threads (initial cs) !! i = Some t -> at_pc t = Idle).
  { intros i t Ht. apply list_lookup_fmap_Some in Ht as (l & -> & _). done. }
  split; cbn; try done.
  - intros q [= <-]. split; [done|]. apply not_elem_of_nil.
  - clear H. unfold in_hands. induction cs as [|c cs IH]; [done|]. exact IH.
  - intros i t Ht. by rewrite (H _ _ Ht).
  - intros i t Ht. by rewrite (H _ _ Ht).
Qed.

Lemma run_queue_inv es s s' : mutex_inv s -> queue_inv s -> run es s = Next s' ->
  Z.of_nat (List.length (added (trace (sh s')))) < 2 ^ 32 -> mutex_inv s' /\ queue_inv s'.
Proof.
  revert s. induction es as [|e es IH]; cbn [run]; intros s Hm Hi; [by intros [= <-]|].
  destruct (step e s) as [| |s1] eqn:E; [done..|]. intros Hr Hb.
  assert (Htr : exists tr, trace (sh s') = trace (sh s1) ++ tr).
  { eapply (run_invariant (fun x => exists tr, trace (sh x) = trace (sh s1) ++ tr)); [|by exists []; rewrite app_nil_r|done].
    intros e1 x y [tr Ex] Hxy. destruct (step_trace _ _ _ Hxy) as [tr' ->]. rewrite Ex. eexists. by rewrite <- app_assoc. }
  apply (IH s1); try done; [by eapply mutex_inv_step|]. eapply queue_inv_step; try done.
  destruct Htr as [tr Etr]. rewrite Etr in Hb. unfold added in *. rewrite omap_app, length_app in Hb. lia.
Qed.

(** C15: In every interleaving of any number of threads that add messages, start, stop,
    join and destroy, and of the workers: the messages added are those taken out
    followed by those in the queue, in order; each one that was taken is destroyed
    once or still in the hands of one thread; a worker passes the messages it takes
    to the task in the order it takes them; and no two threads are between a lock
    and its unlock. *)
Theorem queueing_fifo cs es s : run es (initial cs) = Next s ->
  Z.of_nat (List.length (added (trace (sh s)))) < 2 ^ 32 ->
  added (trace (sh s)) = taken (trace (sh s)) ++ queued (sh s) /\
  Permutation (taken (trace (sh s))) (destroyed (trace (sh s)) ++ in_hands (threads s)) /\
  (forall i t, threads s !! i = Some t -> is_worker (at_pc t) = true ->
     taken_by i (trace (sh s)) = tasked_by i (trace (sh s)) ++ untasked (at_pc t)) /\
  (threadMutex (sh s) <> None -> forall i j t u, threads s !! i = Some t -> threads s !! j = Some u ->
     holding (at_pc t) = true -> holding (at_pc u) = true -> i = j).
Proof.
  intros Hr Hb. destruct (run_queue_inv _ _ _ (mutex_inv_initial cs) (queue_inv_initial cs) Hr Hb) as [[_ Hm] Hi].
  split_and!; [apply Hi..|]. intros Hn i j t u Ht Hu Ht' Hu'. destruct (threadMutex (sh s)); [|done].
  destruct Hm as [Hm _]. rewrite (Hm _ _ Ht) in Ht'. rewrite (Hm _ _ Hu) in Hu'.
  apply bool_decide_eq_true in Ht', Hu'. congruence.
Qed.

End QueueingThread.
