(* ===== verification/QueueingRuns.v ===== *)
(** * Runs of a queueing thread from start to destruction

    [comm/caqueueingthread.c], used the way the message handler uses it
    ([CAInitializeMessageHandler], [CATerminateMessageHandler] in
    [comm/camessagehandler.c]): one thread starts the worker, may add messages,
    stops the worker, joins the pool and perhaps destroys the object, while others
    add messages.  Every run ends, without undefined behaviour, and when nothing can
    go on every thread has returned ([shutdown_completes]). *)

From S2P Require Import Prelude.
From S2P Require Import Status.
From S2P Require Import UQueue.
From S2P Require Import QueueingThread.

Module QueueingRuns.
Import UQueue.
Import QueueingThread.

Definition is_add (c : call) : bool := match c with AddData _ _ _ => true | _ => false end.

(** What the controlling thread calls after it started the worker. *)
Definition after_start (destroys : bool) (l : list call) : Prop :=
  exists adds, Forall (fun c => is_add c = true) adds /\
    l = adds ++ Stop :: Join :: (if destroys then [Destroy] else []).
Definition last_calls (destroys : bool) : list call := if destroys then [Destroy] else [].

(** Where the controlling thread is, whether the worker was made and whether it is
    told to stop. *)
Definition controller_ok (destroys started stop : bool) (t : thread) : Prop :=
  match at_pc t with
  | Idle => started = false /\ stop = true /\ exists l, calls t = Start :: l /\ after_start destroys l
  | Starting p =>
      after_start destroys (calls t) /\
      match p with
      | T_start | T_lock | T_set | T_fail_unlock _ => started = false /\ stop = true
      | T_unlock | T_add_task | T_fail_lock _ | T_fail_set _ => started = false /\ stop = false
      | T_done _ => stop = negb started
      end
  | Add _ => after_start destroys (calls t) /\ stop = negb started
  | Stopping p =>
      calls t = Join :: last_calls destroys /\
      match p with
      | S_start => stop = negb started
      | S_lock | S_set => started = true /\ stop = false
      | S_done => stop = true
      | _ => started = true /\ stop = true
      end
  | Joining _ => calls t = last_calls destroys /\ stop = true
  | Destroying _ => calls t = [] /\ destroys = true /\ stop = true
  | Base _ => False
  end.

Definition producer_ok (t : thread) : Prop :=
  match at_pc t with
  | Idle | Add _ => Forall (fun c => is_add c = true) (calls t)
  | _ => False
  end.

(** The threads: the controlling one, [n] others that add messages, and the worker. *)
Record threads_ok (destroys : bool) (n : nat) (c : thread) (ps : list thread) (w : option thread)
    (s : system) : Prop := {
  c_threads : threads s = c :: ps ++ option_list w;
  c_length : List.length ps = n;
  c_controller : controller_ok destroys (bool_decide (is_Some w)) (isStop (sh s)) c;
  c_producers : Forall producer_ok ps;
  c_worker : forall t, w = Some t -> is_worker (at_pc t) = true /\ calls t = [];
  c_alone : destroys = true -> ps = [] }.

(** ** Every run ends *)

Definition call_cost (c : call) : nat :=
  match c with AddData _ _ _ => 33 | Start => 25 | Stop => 26 | Join => 6 | Destroy => 7 end.

Definition pc_cost (p : pc) : nat :=
  match p with
  | Add p =>
      match p with
      | A_start _ _ _ => 32 | A_lock _ => 31 | A_add _ => 30 | A_signal => 20 | A_unlock => 1 | A_done _ => 0
      end
  | Starting p =>
      match p with
      | T_start => 24 | T_lock => 23 | T_set => 22 | T_unlock => 21 | T_add_task => 20
      | T_fail_lock _ => 3 | T_fail_set _ => 2 | T_fail_unlock _ => 1 | T_done _ => 0
      end
  | Stopping p =>
      match p with
      | S_start => 25 | S_lock => 24 | S_set => 23 | S_signal => 22 | S_wait => 3 | S_waiting => 2
      | S_unlock => 1 | S_done => 0
      end
  | Joining p => match p with F_lock => 5 | F_join i => 2 + (2 - i) | F_free => 1 | F_done => 0 end
  | Destroying p =>
      match p with
      | D_lock => 6 | D_while => 5 | D_destroy _ => 6 | D_delete => 4 | D_unlock => 3 | D_free_mutex => 2
      | D_free_cond => 1 | D_done => 0
      end
  | Base _ | Idle => 0
  end.
Definition cost (t : thread) : nat := pc_cost (at_pc t) + sum_list (map call_cost (calls t)).

(** The worker: [asleep] when it waits and has not been signalled, [idle] when the
    queue is empty. *)
Definition worker_cost (stop idle asleep : bool) (p : base_pc) : nat :=
  match p with
  | B_while => if stop then 8 else 14
  | B_lock => 13
  | B_test => 12
  | B_waiting => if asleep then 0 else if stop then 12 else 17
  | B_awake => if stop then 10 else if idle then 16 else 10
  | B_continue => 9
  | B_unlock m => if m =? NULL then 15 else 17
  | B_task _ => 16
  | B_destroy _ => 15
  | B_exit => 5
  | B_signal => 4
  | B_exit_unlock => 3
  | B_done => 0
  end.

Definition asleep (tid : nat) (s : shared) : bool := bool_decide (tid ∈ default [] (threadCond s)).
Definition worker_pot (tid : nat) (s : shared) (t : thread) : nat :=
  match at_pc t with
  | Base p => worker_cost (isStop s) (bool_decide (queued s = [])) (asleep tid s) p
  | _ => 0
  end.

(** What is left to do. *)
Definition potential (c : thread) (ps : list thread) (w : option thread) (s : shared) : nat :=
  cost c + sum_list (map cost ps) + from_option (worker_pot (S (List.length ps)) s) 0%nat w
  + 8 * List.length (queued s).

(** ** What holds in between *)

Definition done (w : option thread) : Prop := forall t, w = Some t -> at_pc t = Base B_done.
Definition pool_of (n : nat) (w : option thread) : list nat := if w then [S n] else [].
Definition exiting (p : pc) : bool :=
  match p with Base (B_continue | B_exit | B_signal | B_exit_unlock | B_done) => true | _ => false end.

(** The pool, as far as the controlling thread got with it. *)
Definition pool_ok (n : nat) (c : thread) (w : option thread) (s : shared) : Prop :=
  match at_pc c with
  | Joining (F_join i) =>
      threads_list s = Some (pool_of n w) /\ list_lock s = true /\
      (i <= List.length (pool_of n w))%nat /\ (i = List.length (pool_of n w) -> done w)
  | Joining F_free => threads_list s = Some (pool_of n w) /\ list_lock s = true /\ done w
  | Joining F_done | Destroying _ => done w
  | _ => threads_list s = Some (pool_of n w) /\ list_lock s = false
  end.

(** Who waits for a signal: nobody; the worker, when it has nothing to do, or the
    one that gave it something is about to signal; or the controlling thread, while
    the worker is about to signal. *)
Inductive waiters (n : nat) (c : thread) (ps : list thread) (w : option thread) (s : shared) : list nat -> Prop :=
| w_nobody : waiters n c ps w s []
| w_worker t : w = Some t -> at_pc t = Base B_waiting ->
    isStop s = false \/ at_pc c = Stopping S_signal ->
    queued s = [] \/ (exists i t', (c :: ps) !! i = Some t' /\ at_pc t' = Add A_signal) ->
    waiters n c ps w s [S n]
| w_controller : at_pc c = Stopping S_waiting ->
    (forall t, w = Some t -> at_pc t <> Base B_exit_unlock /\ at_pc t <> Base B_done) ->
    waiters n c ps w s [0%nat].

Record inv (d : bool) (n : nat) (c : thread) (ps : list thread) (w : option thread) (s : system) : Prop := {
  i_threads : threads_ok d n c ps w s;
  i_mutex : mutex_inv s;
  i_queue : queue_inv s;
  i_pool : pool_ok n c w (sh s);
  i_exiting : forall t, w = Some t -> exiting (at_pc t) = true -> isStop (sh s) = true;
  i_waiters : forall ws, threadCond (sh s) = Some ws -> waiters n c ps w (sh s) ws;
  i_stopping : at_pc c = Stopping S_signal \/ at_pc c = Stopping S_wait ->
    forall t, w = Some t -> at_pc t <> Base B_done;
  i_mutex_alive : threadMutex (sh s) = None ->
    at_pc c = Destroying D_free_cond \/ at_pc c = Destroying D_done;
  i_cond_alive : threadCond (sh s) = None -> at_pc c = Destroying D_done }.

Section Lookups.
  Context (d : bool) (n : nat) (c : thread) (ps : list thread) (w : option thread) (s : system).
  Context (H : threads_ok d n c ps w s).

Lemma thread_cases i t : threads s !! i = Some t ->
  (i = 0%nat /\ t = c) \/ (exists j, i = S j /\ ps !! j = Some t) \/ (i = S n /\ w = Some t).
Proof using H.
  rewrite (c_threads _ _ _ _ _ _ H). destruct i as [|i]; cbn; [intros [= <-]; by left|].
  intros [Hi|[Hl Hi]]%lookup_app_Some; right; [left; by exists i|right].
  rewrite (c_length _ _ _ _ _ _ H) in *. destruct w as [t0|]; [|done].
  cbn in Hi. apply list_lookup_singleton_Some in Hi as [? ->]. split; [lia|done].
Qed.

Lemma thread_controller : threads s !! 0%nat = Some c.
Proof using H. by rewrite (c_threads _ _ _ _ _ _ H). Qed.
Lemma thread_producer j t : ps !! j = Some t -> threads s !! S j = Some t.
Proof using H. intros Hj. rewrite (c_threads _ _ _ _ _ _ H). cbn. by apply lookup_app_l_Some. Qed.
Lemma thread_worker t : w = Some t -> threads s !! S n = Some t.
Proof using H.
  intros ->. rewrite (c_threads _ _ _ _ _ _ H), <- (c_length _ _ _ _ _ _ H). cbn.
  by apply list_lookup_middle.
Qed.
Lemma threads_number : List.length (threads s) = (S n + (if w then 1 else 0))%nat.
Proof using H.
  rewrite (c_threads _ _ _ _ _ _ H). cbn. rewrite length_app, (c_length _ _ _ _ _ _ H). by destruct w.
Qed.
End Lookups.

(** ** Nothing undefined happens *)

Lemma act_hang tid choice s p : returned p = false -> act tid choice s p = Hang ->
  holding p = false /\ is_worker p = false.
Proof.
  intros Hr Ha. destruct p as [b|a|st|sp|j|dd|]; [destruct b|destruct a|destruct st|destruct sp|destruct j|destruct dd|];
    try done; cbn in Ha; unfold ca_thread_pool_add_task in Ha; by repeat (case_match; simplify_eq/=).
Qed.

(** The instructions that only the controlling thread executes. *)
Lemma act_special tid choice s p : returned p = false ->
  match act tid choice s p with
  | FreeMutex _ => p = Destroying D_free_mutex
  | FreeCond _ => p = Destroying D_free_cond
  | Wrong => threads_list (sh s) = None /\ (p = Starting T_add_task \/ p = Joining F_lock)
  | _ => True
  end.
Proof.
  intros Hr. destruct p as [b|a|st|sp|j|dd|]; [destruct b|destruct a|destruct st|destruct sp|destruct j|destruct dd|];
    try done; cbn; unfold ca_thread_pool_add_task; repeat (case_match; simplify_eq/=; try done); auto.
Qed.

Section Invariant.
  Context (d : bool) (n : nat) (c : thread) (ps : list thread) (w : option thread) (s : system).
  Context (Hi : inv d n c ps w s).
Notation Ht := (i_threads _ _ _ _ _ _ Hi).

Lemma producer_pc j t : ps !! j = Some t -> producer_ok t.
Proof using Hi.
  intros Hj. by eapply (Forall_lookup_1 _ _ _ _ (c_producers _ _ _ _ _ _ Ht)).
Qed.

(** A destroying thread is alone. *)
Lemma destroying_alone p : at_pc c = Destroying p ->
  ps = [] /\ done w /\ isStop (sh s) = true /\ calls c = [] /\ d = true.
Proof using Hi.
  intros E. pose proof (c_controller _ _ _ _ _ _ Ht) as Hc. pose proof (i_pool _ _ _ _ _ _ Hi) as Hp.
  unfold controller_ok, pool_ok in *. rewrite E in *. destruct Hc as (E1 & E2 & E3).
  split_and!; try done. by apply (c_alone _ _ _ _ _ _ Ht).
Qed.

(** A thread that has something left to do besides the destroying one. *)
Lemma destroying_only p i t : at_pc c = Destroying p -> threads s !! i = Some t -> returned (at_pc t) = false ->
  i = 0%nat /\ t = c.
Proof using Hi.
  intros E Hit Hr. destruct (destroying_alone _ E) as (-> & Hd & _).
  destruct (thread_cases _ _ _ _ _ _ Ht _ _ Hit) as [?|[(j & _ & ?)|[_ Hw]]]; [done|done|].
  by rewrite (Hd _ Hw) in Hr.
Qed.

(** The program points of the controlling thread alone. *)
Lemma controlling i t : threads s !! i = Some t ->
  match at_pc t with Starting _ | Stopping _ | Joining _ | Destroying _ => true | _ => false end = true ->
  i = 0%nat /\ t = c.
Proof using Hi.
  intros Hit Hp. destruct (thread_cases _ _ _ _ _ _ Ht _ _ Hit) as [?|[(j & _ & Hj)|[_ Hw]]]; [done| |].
  - apply producer_pc in Hj. unfold producer_ok in Hj. by destruct (at_pc t).
  - destruct (c_worker _ _ _ _ _ _ Ht _ Hw) as [Hw' _]. by destruct (at_pc t).
Qed.

Lemma no_waiters ws : isStop (sh s) = true -> at_pc c <> Stopping S_signal -> at_pc c <> Stopping S_waiting ->
  threadCond (sh s) = Some ws -> ws = [].
Proof using Hi.
  intros Hs H1 H2 Hc. destruct (i_waiters _ _ _ _ _ _ Hi ws Hc) as [|t Hw Hp [?|?] _|? _]; congruence.
Qed.

Lemma no_crash e : step e s <> Crash.
Proof using Hi.
  destruct e as [tid choice|tid]; cbn [step]; [|repeat case_match; done].
  destruct (threads s !! tid) as [t|] eqn:Et; [|done]. unfold run_thread.
  destruct (returned (at_pc t)) eqn:Er; [by destruct (calls t)|].
  pose proof (act_holding tid choice s _ Er) as Hh. pose proof (act_special tid choice s _ Er) as Hsp.
  destruct (exec tid choice (sh s) (act tid choice s (at_pc t))) eqn:Ee; try done. exfalso.
  assert (Hgone : threadCond (sh s) = None -> False).
  { intros E. pose proof (i_cond_alive _ _ _ _ _ _ Hi E) as Ec.
    destruct (destroying_only _ _ _ Ec Et Er) as [_ ->]. by rewrite Ec in Er. }
  destruct (act tid choice s (at_pc t)) as [k|k|k|k1 k2|k|k|k|k s0|k s0| |]; cbn [exec] in Ee;
    unfold oc_mutex_lock in Ee; try (by repeat case_match).
  - destruct (threadMutex (sh s)) as [o|] eqn:Em; [|done]. case_bool_decide as Ho; [done|].
    destruct (i_mutex _ _ _ _ _ _ Hi) as [_ Hm]. rewrite Em in Hm. destruct Hm as [Hm _].
    rewrite (Hm _ _ Et) in Hh. destruct Hh as [Hh _]. by apply bool_decide_eq_true in Hh.
  - destruct (threadMutex (sh s)) as [[o|]|] eqn:Em; try done.
    destruct (controlling _ _ Et) as [_ ->]; [by rewrite Hsp|]. destruct (i_mutex _ _ _ _ _ _ Hi) as [_ Hm]. rewrite Em in Hm.
    destruct Hm as [Hm Ho]. destruct (Ho o eq_refl) as [u Hu]. pose proof (Hm _ _ Hu) as Hhu.
    rewrite bool_decide_eq_true_2 in Hhu by done.
    destruct (returned (at_pc u)) eqn:Eru; [destruct (at_pc u) as [[]|[]|[]|[]|[]|[]|]; done|].
    destruct (destroying_only _ _ _ Hsp Hu Eru) as [_ ->]. by rewrite Hsp in Hhu.
  - destruct (controlling _ _ Et) as [_ ->]; [by rewrite Hsp|]. destruct (destroying_alone _ Hsp) as (_ & _ & Hs & _).
    destruct (threadCond (sh s)) as [ws|] eqn:Ec; [|auto].
    rewrite (no_waiters ws Hs) in Ee; [done|by rewrite Hsp|by rewrite Hsp|done].
  - destruct Hsp as [El Hsp].
    destruct (controlling _ _ Et) as [_ ->]; [by destruct Hsp as [-> | ->]|]. pose proof (i_pool _ _ _ _ _ _ Hi) as Hp. unfold pool_ok in Hp.
    destruct Hsp as [Hsp|Hsp]; rewrite Hsp in Hp; destruct Hp; congruence.
Qed.

(** *** When nothing can go on *)

Context (Hstuck : forall tid choice, step (Run tid choice) s = Stuck).

Lemma stuck_blocked i t : threads s !! i = Some t ->
  (returned (at_pc t) = true /\ calls t = []) \/
  (returned (at_pc t) = false /\ exec i 0 (sh s) (act i 0 s (at_pc t)) = Blocked).
Proof using Hstuck.
  intros Hit. specialize (Hstuck i 0%nat). cbn [step] in Hstuck. rewrite Hit in Hstuck. unfold run_thread in Hstuck.
  destruct (returned (at_pc t)); [left|right; split; [done|]]; by repeat case_match.
Qed.

Lemma stuck_mutex o : threadMutex (sh s) <> Some (Some o).
Proof using Hi Hstuck.
  intros Em. destruct (i_mutex _ _ _ _ _ _ Hi) as [_ Hm]. rewrite Em in Hm. destruct Hm as [Hm Ho].
  destruct (Ho o eq_refl) as [t Hit]. pose proof (Hm _ _ Hit) as Hh. rewrite bool_decide_eq_true_2 in Hh by done.
  destruct (stuck_blocked _ _ Hit) as [[Hr _]|[Hr He]].
  - by destruct (at_pc t) as [[]|[]|[]|[]|[]|[]|].
  - pose proof (act_holding o 0 s _ Hr) as Ha. pose proof (act_hang o 0 s _ Hr) as Hg.
    destruct (act o 0 s (at_pc t)); cbn [exec] in He; unfold oc_mutex_lock in He; destruct_and?;
      repeat case_match; try done; try congruence; destruct Hg; congruence.
Qed.

(** A thread that cannot go on has ended, waits for a signal, or joins another one. *)
Lemma stuck_thread i t : threads s !! i = Some t ->
  (returned (at_pc t) = true /\ calls t = []) \/
  (exists ws, threadCond (sh s) = Some ws /\ i ∈ ws /\
     (at_pc t = Base B_waiting \/ at_pc t = Stopping S_waiting)) \/
  (exists j tid, at_pc t = Joining (F_join j) /\ default [] (threads_list (sh s)) !! j = Some tid /\
     ended s tid = false).
Proof using Hi Hstuck.
  intros Hit. destruct (stuck_blocked _ _ Hit) as [?|[Hr He]]; [by left|right].
  assert (Hlock : oc_mutex_lock i (sh s) <> None).
  { unfold oc_mutex_lock. destruct (threadMutex (sh s)) as [[o|]|] eqn:Em; try done.
    destruct (stuck_mutex _ Em). }
  pose proof (i_pool _ _ _ _ _ _ Hi) as Hp.
  assert (Hc : match at_pc t with Starting _ | Joining _ => true | _ => false end = true -> t = c).
  { intros Hpc. apply (controlling i t Hit). by destruct (at_pc t). }
  destruct (at_pc t) as [b|a|st|sp|j|dd|] eqn:Ep;
    [destruct b|destruct a|destruct st|destruct sp|destruct j|destruct dd|]; try done; cbn in He;
    unfold ca_thread_pool_add_task in He; try (by repeat (case_match; simplify_eq/=)).
  - case_bool_decide as Hw; [|by repeat case_match]. left. destruct (threadCond (sh s)) as [ws|]; [|by apply not_elem_of_nil in Hw].
    eauto.
  - rewrite (Hc eq_refl) in Ep. unfold pool_ok in Hp. rewrite Ep in Hp. destruct Hp as [El Ell].
    rewrite El, Ell in He. done.
  - case_bool_decide as Hw; [|by repeat case_match]. left. destruct (threadCond (sh s)) as [ws|]; [|by apply not_elem_of_nil in Hw].
    eauto.
  - rewrite (Hc eq_refl) in Ep. unfold pool_ok in Hp. rewrite Ep in Hp. destruct Hp as [El Ell].
    rewrite El, Ell in He. done.
  - right. destruct (_ !! i0) as [tid|] eqn:El; [|done]. destruct (ended s tid) eqn:Ee; [done|]. by exists i0, tid.
Qed.

Lemma after_start_not_nil l : after_start d l -> l <> [].
Proof using. intros (adds & _ & ->). by destruct adds. Qed.

Lemma stuck_running : isStop (sh s) = false -> False.
Proof using Hi Hstuck.
  intros Hs. pose proof (c_controller _ _ _ _ _ _ Ht) as Hc. rewrite Hs in Hc. unfold controller_ok in Hc.
  destruct (stuck_thread _ _ (thread_controller _ _ _ _ _ _ Ht)) as [[Hr Hn]|[(ws & _ & _ & Hp)|(j & tid & Hp & _)]].
  - destruct (at_pc c) as [b|a|st|sp|jj|dd|]; try done.
    + destruct Hc as [Ha _]. by destruct (after_start_not_nil _ Ha).
    + destruct Hc as [Ha _]. by destruct (after_start_not_nil _ Ha).
    + destruct sp; naive_solver.
    + naive_solver.
    + naive_solver.
    + naive_solver.
  - destruct Hp as [Hp|Hp]; rewrite Hp in Hc; naive_solver.
  - rewrite Hp in Hc. naive_solver.
Qed.

Lemma stuck_worker : done w.
Proof using Hi Hstuck.
  intros t Hw. destruct (c_worker _ _ _ _ _ _ Ht _ Hw) as [Hwk _].
  destruct (stuck_thread _ _ (thread_worker _ _ _ _ _ _ Ht _ Hw)) as [[Hr _]|[(ws & Hws & Hin & Hp)|(j & tid & Hp & _)]].
  - destruct (at_pc t) as [[]|[]|[]|[]|[]|[]|]; done.
  - exfalso. destruct (i_waiters _ _ _ _ _ _ Hi _ Hws) as [|t1 Hw1 Hp1 [Hs|Hs] _|_ _].
    + by apply not_elem_of_nil in Hin.
    + by apply stuck_running.
    + destruct (stuck_thread _ _ (thread_controller _ _ _ _ _ _ Ht)) as [[Hr _]|[(? & _ & _ & [?|?])|(? & ? & ? & _)]]; try congruence.
      by rewrite Hs in Hr.
    + apply list_elem_of_singleton in Hin. done.
  - by rewrite Hp in Hwk.
Qed.

Lemma stuck_ended i t : threads s !! i = Some t -> returned (at_pc t) = true /\ calls t = [].
Proof using Hi Hstuck.
  intros Hit. destruct (stuck_thread _ _ Hit) as [?|[(ws & Hws & Hin & Hp)|(j & tid & Hp & El & Ee)]]; [done|exfalso..].
  - destruct (thread_cases _ _ _ _ _ _ Ht _ _ Hit) as [[-> ->]|[(j & -> & Hj)|[-> Hw]]].
    + destruct Hp as [Hp|Hp]; [by pose proof (c_controller _ _ _ _ _ _ Ht) as Hc; unfold controller_ok in Hc; rewrite Hp in Hc|].
      destruct (i_waiters _ _ _ _ _ _ Hi _ Hws) as [|t1 Hw1 Hp1 _ _|_ Hnd];
        [by apply not_elem_of_nil in Hin|by apply list_elem_of_singleton in Hin|].
      pose proof (c_controller _ _ _ _ _ _ Ht) as Hc. unfold controller_ok in Hc. rewrite Hp in Hc.
      destruct Hc as (_ & Hst & _). apply bool_decide_eq_true in Hst as [t Hw].
      destruct (Hnd _ Hw) as [_ Hb]. by apply Hb, stuck_worker.
    + apply producer_pc in Hj. unfold producer_ok in Hj. by destruct Hp as [Hp|Hp]; rewrite Hp in Hj.
    + pose proof (stuck_worker _ Hw) as Hd. destruct Hp; congruence.
  - destruct (controlling i t Hit) as [-> ->]; [by rewrite Hp|].
    pose proof (i_pool _ _ _ _ _ _ Hi) as Hpool. unfold pool_ok in Hpool. rewrite Hp in Hpool.
    destruct Hpool as [Hl _]. rewrite Hl in El. cbn in El. unfold pool_of in El.
    pose proof stuck_worker as Hsw. pose proof (thread_worker _ _ _ _ _ _ Ht) as Htw.
    pose proof (c_worker _ _ _ _ _ _ Ht) as Hcw. unfold done in Hsw. revert El Hsw Htw Hcw.
    destruct w as [t|]; [|done]. intros El Hsw Htw Hcw. apply list_lookup_singleton_Some in El as [_ <-].
    unfold ended in Ee. rewrite (Htw t eq_refl), (proj2 (Hcw t eq_refl)), (Hsw t eq_refl) in Ee. done.
Qed.

(** The controlling thread made all its calls. *)
Lemma stuck_controller : at_pc c = (if d then Destroying D_done else Joining F_done).
Proof using Hi Hstuck.
  destruct (stuck_ended _ _ (thread_controller _ _ _ _ _ _ Ht)) as [Hr Hn].
  pose proof (c_controller _ _ _ _ _ _ Ht) as Hc. unfold controller_ok in Hc. rewrite Hn in Hc.
  destruct (at_pc c) as [b|a|st|sp|j|dd|]; try done.
  - destruct Hc as [Ha _]. by destruct (after_start_not_nil _ Ha).
  - destruct Hc as [Ha _]. by destruct (after_start_not_nil _ Ha).
  - by destruct Hc.
  - destruct j; try done. by destruct d, Hc.
  - destruct dd; try done. destruct Hc as (_ & -> & _). done.
  - by destruct Hc as (_ & _ & ? & ? & _).
Qed.

Lemma stuck_in_hands : in_hands (threads s) = [].
Proof using Hi Hstuck.
  assert (H : Forall (fun t => in_hand (at_pc t) = []) (threads s)).
  { apply Forall_lookup. intros i t Hit. destruct (stuck_ended _ _ Hit) as [Hr _].
    by destruct (at_pc t) as [[]|[]|[]|[]|[]|[]|]. }
  unfold in_hands. induction H as [|t l E _ IH]; [done|]. by rewrite bind_cons, E, IH.
Qed.
End Invariant.

(** ** The invariant is kept *)

(** What the invariant says of the threads and the shared state, besides the mutex
    and the queue. *)
Record rest (d : bool) (n : nat) (c : thread) (ps : list thread) (w : option thread) (s : shared) : Prop := {
  r_controller : controller_ok d (bool_decide (is_Some w)) (isStop s) c;
  r_producers : Forall producer_ok ps;
  r_length : List.length ps = n;
  r_worker : forall t, w = Some t -> is_worker (at_pc t) = true /\ calls t = [];
  r_alone : d = true -> ps = [];
  r_pool : pool_ok n c w s;
  r_exiting : forall t, w = Some t -> exiting (at_pc t) = true -> isStop s = true;
  r_waiters : forall ws, threadCond s = Some ws -> waiters n c ps w s ws;
  r_stopping : at_pc c = Stopping S_signal \/ at_pc c = Stopping S_wait ->
    forall t, w = Some t -> at_pc t <> Base B_done;
  r_mutex_alive : threadMutex s = None -> at_pc c = Destroying D_free_cond \/ at_pc c = Destroying D_done;
  r_cond_alive : threadCond s = None -> at_pc c = Destroying D_done }.

Lemma inv_rest d n c ps w s : inv d n c ps w s -> rest d n c ps w (sh s).
Proof. intros [[] ? ? ? ? ? ? ? ?]. by constructor. Qed.
Lemma rest_inv d n c ps w s : rest d n c ps w (sh s) -> threads s = c :: ps ++ option_list w ->
  mutex_inv s -> queue_inv s -> inv d n c ps w s.
Proof. intros [] ? ? ?. by constructor. Qed.

(** *** The potential of the worker under the steps of others *)

Section Potential.
  Context (tid : nat) (s s1 : shared) (t : thread).
  Context (Hstop : isStop s1 = isStop s) (Hcond : threadCond s1 = threadCond s).

Ltac pot := unfold worker_pot, asleep; destruct (at_pc t) as [p|p|p|p|p|p|]; try lia; destruct p; try lia;
  cbn [worker_cost]; repeat case_bool_decide; repeat case_match; try lia; try (exfalso; tauto).

Lemma pot_same : queued s1 = queued s -> worker_pot tid s1 t = worker_pot tid s t.
Proof using Hstop Hcond. intros Hq. unfold worker_pot, asleep. by rewrite Hstop, Hcond, Hq. Qed.

Lemma pot_filled : (queued s1 = [] -> queued s = []) -> (worker_pot tid s1 t <= worker_pot tid s t)%nat.
Proof using Hstop Hcond. intros Hq. unfold worker_pot, asleep. rewrite Hstop, Hcond. pot. Qed.

Lemma pot_drained : (worker_pot tid s1 t <= worker_pot tid s t + 6)%nat.
Proof using Hstop Hcond. unfold worker_pot, asleep. rewrite Hstop, Hcond. pot. Qed.
End Potential.

Lemma pot_signal tid s s1 t : isStop s1 = isStop s -> queued s1 = queued s ->
  (worker_pot tid s1 t <= worker_pot tid s t + 17)%nat.
Proof.
  intros Hs Hq. unfold worker_pot. rewrite Hs, Hq. destruct (at_pc t) as [p|p|p|p|p|p|]; try lia.
  destruct p; cbn [worker_cost]; repeat case_match; lia.
Qed.

Lemma pot_stop tid s s1 t : isStop s1 = true -> queued s1 = queued s -> threadCond s1 = threadCond s ->
  (worker_pot tid s1 t <= worker_pot tid s t)%nat.
Proof.
  intros Hs Hq Hc. unfold worker_pot, asleep. rewrite Hs, Hq, Hc. destruct (at_pc t) as [p|p|p|p|p|p|]; try lia.
  destruct p; cbn [worker_cost]; repeat case_match; lia.
Qed.

(** *** The waiting threads under the steps of others *)

Section Waiters.
  Context (n : nat) (c : thread) (ps : list thread) (w : option thread) (s : shared).

Lemma waiters_signalled choice ws : waiters n c ps w s ws -> delete (choice mod List.length ws)%nat ws = [].
Proof using. by intros []. Qed.

(** A step of the controlling thread or of another one that adds messages. *)
Lemma waiters_quiet c1 ps1 s1 k t t1 ws : (c :: ps) !! k = Some t -> c1 :: ps1 = <[k := t1]> (c :: ps) ->
  at_pc t <> Add A_signal -> at_pc t <> Stopping S_signal -> at_pc t <> Stopping S_waiting ->
  isStop s1 = isStop s -> (queued s1 = queued s \/ at_pc t1 = Add A_signal) ->
  waiters n c ps w s ws -> waiters n c1 ps1 w s1 ws.
Proof using.
  intros Hk E Ha Hs1 Hs2 Hst Hq Hw.
  assert (Hc : at_pc c = Stopping S_signal \/ at_pc c = Stopping S_waiting -> c1 = c).
  { intros Hc. destruct k as [|k]; cbn in *; [|by simplify_eq]. simplify_eq. naive_solver. }
  destruct Hw as [|u Hu Hp Hor Hqs|Hc2 Hu]; [constructor| |].
  - apply (w_worker _ _ _ _ _ u); try done.
    + rewrite Hst. destruct Hor as [?|Hor]; [by left|right]. rewrite Hc; auto.
    + destruct Hq as [Hq|Hq].
      * destruct Hqs as [Hqs|(i & t' & Hi & Ht')]; [left; congruence|right].
        exists i, t'. split; [|done]. rewrite E. rewrite list_lookup_insert_ne; [done|]. intros ->. congruence.
      * right. exists k, t1. split; [|done]. rewrite E. apply list_lookup_insert_eq.
        by eapply lookup_lt_Some.
  - apply w_controller; [rewrite Hc; auto|done].
Qed.
End Waiters.

Lemma rest_no_waiters d n c ps w s ws : rest d n c ps w s ->
  w = None \/ isStop s = true -> at_pc c <> Stopping S_signal -> at_pc c <> Stopping S_waiting ->
  threadCond s = Some ws -> ws = [].
Proof.
  intros Hr Hw H1 H2 Hc. destruct (r_waiters _ _ _ _ _ _ Hr ws Hc) as [|t Hw1 Hp [?|?] _|? _]; try congruence.
  destruct Hw; congruence.
Qed.

(** *** Adding a message *)

Inductive add_move (choice : nat) (s s1 : shared) (t t1 : thread) : Prop :=
| am_quiet : at_pc t <> Add A_signal -> threadCond s1 = threadCond s -> queued s1 = queued s ->
    (cost t1 < cost t)%nat -> add_move choice s s1 t t1
| am_add : at_pc t <> Add A_signal -> at_pc t1 = Add A_signal -> threadCond s1 = threadCond s ->
    (List.length (queued s1) <= S (List.length (queued s)))%nat -> (queued s1 = [] -> queued s = []) ->
    (cost t1 + 10 <= cost t)%nat -> add_move choice s s1 t t1
| am_signal ws : at_pc t = Add A_signal -> at_pc t1 = Add A_unlock -> queued s1 = queued s ->
    threadCond s = Some ws -> threadCond s1 = Some (delete (choice mod List.length ws)%nat ws) ->
    (cost t1 + 19 <= cost t)%nat -> add_move choice s s1 t t1.

Lemma add_element_queued mem q m r q1 : u_queue_add_element mem q m = (r, q1) ->
  let l o := match o with Some q => element q | None => [] end in
  (List.length (l q1) <= S (List.length (l q)))%nat /\ (l q1 = [] -> l q = []).
Proof.
  destruct q as [q|]; cbn; [|intros [= <- <-]; cbn; split; [lia|done]].
  destruct (m =? NULL); [intros [= <- <-]; cbn; split; [lia|done]|].
  destruct mem; cbn; [|intros [= <- <-]; cbn; split; [lia|done]].
  destruct (element q) as [|x l] eqn:E; [destruct (negb _)|]; intros [= <- <-]; cbn; rewrite ?E; cbn;
    rewrite ?length_app; cbn; (split; [lia|done]).
Qed.

(** What a call that adds a message leaves of the state. *)
Lemma add_step tid choice s t s1 t1 new :
  match at_pc t with Add _ => True | _ => returned (at_pc t) = true end ->
  match calls t with c :: _ => returned (at_pc t) = true -> is_add c = true | [] => True end ->
  moves tid choice s t s1 t1 new ->
  new = false /\ calls t1 = (if returned (at_pc t) then tail (calls t) else calls t) /\
  (exists p1, at_pc t1 = Add p1) /\ isStop s1 = isStop (sh s) /\
  threads_list s1 = threads_list (sh s) /\ list_lock s1 = list_lock (sh s) /\
  (threadMutex s1 = None -> threadMutex (sh s) = None) /\ (threadCond s1 = None -> threadCond (sh s) = None) /\
  add_move choice (sh s) s1 t t1.
Proof.
  destruct t as [pc cs]. cbn [at_pc calls]. intros Hp Hadd Hm.
  inversion Hm as [c cs' Hr E|p1 s2 new2 Hr Ee]; cbn [at_pc calls] in *; subst; rewrite Hr.
  { specialize (Hadd Hr). destruct c; try done. split_and!; try done; [by eexists|].
    apply am_quiet; try done; cbn [at_pc]; [by destruct pc as [| []| | | | |]|].
    unfold cost. cbn. destruct pc as [[]|[]|[]|[]|[]|[]|]; try done; cbn; lia. }
  destruct pc as [p|p|p|p|p|p|]; try congruence.
  destruct p as [a b m|m|m| | |r]; try done; cbn in Ee; unfold oc_mutex_lock in Ee.
  - case_match; [|case_match]; simplify_eq/=; (split_and!; [try done; by eexists..|]); apply am_quiet; try done;
      unfold cost; cbn; lia.
  - repeat (case_match; simplify_eq/=);
      (split_and!; [try done; by eexists..|]); apply am_quiet; try done; unfold cost; cbn; lia.
  - destruct (u_queue_add_element _ _ _) as [r q] eqn:Eq. simplify_eq/=.
    pose proof (add_element_queued _ _ _ _ _ Eq) as [Hl Hn].
    destruct (ca_ok r); (split_and!; [try done; by eexists..|]); apply am_add; try done; unfold cost; cbn; lia.
  - destruct (threadCond (sh s)) as [ws|] eqn:Ec; simplify_eq/=.
    split_and!; [try done; by eexists..|]. eapply am_signal; try done. unfold cost. cbn. lia.
  - repeat (case_match; simplify_eq/=); (split_and!; [try done; by eexists..|]); apply am_quiet; try done;
      unfold cost; cbn; lia.
Qed.

Lemma add_move_waiters n c ps w s c1 ps1 s1 k t t1 choice ws1 :
  (forall ws, threadCond s = Some ws -> waiters n c ps w s ws) ->
  (c :: ps) !! k = Some t -> c1 :: ps1 = <[k := t1]> (c :: ps) ->
  at_pc t <> Stopping S_signal -> at_pc t <> Stopping S_waiting -> isStop s1 = isStop s ->
  add_move choice s s1 t t1 -> threadCond s1 = Some ws1 -> waiters n c1 ps1 w s1 ws1.
Proof.
  intros Hw Hk E H1 H2 Hs Hm Hc. destruct Hm as [Ha Ec Eq _|Ha Ha1 Ec _ _ _|ws Ha Ha1 Eq Ec Ec1 _].
  - rewrite Ec in Hc. eapply waiters_quiet; eauto.
  - rewrite Ec in Hc. eapply waiters_quiet; eauto.
  - rewrite Ec1 in Hc. injection Hc as <-. rewrite (waiters_signalled _ _ _ _ _ _ _ (Hw _ Ec)). constructor.
Qed.

Lemma add_move_potential W w s s1 t t1 choice : isStop s1 = isStop s -> add_move choice s s1 t t1 ->
  (cost t1 + from_option (worker_pot W s1) 0%nat w + 8 * List.length (queued s1)
   < cost t + from_option (worker_pot W s) 0%nat w + 8 * List.length (queued s))%nat.
Proof.
  intros Hs Hm. destruct Hm as [Ha Ec Eq Hl|Ha Ha1 Ec Hq Hn Hl|ws Ha Ha1 Eq Ec Ec1 Hl]; destruct w as [u|];
    cbn [from_option]; rewrite ?Eq.
  - rewrite (pot_same W s s1 u) by done. lia.
  - lia.
  - pose proof (pot_filled W s s1 u Hs Ec Hn). lia.
  - lia.
  - pose proof (pot_signal W s s1 u Hs Eq). lia.
  - lia.
Qed.

Lemma sum_insert {A} (f : A -> nat) (l : list A) j t t1 : l !! j = Some t ->
  (sum_list (map f (<[j := t1]> l)) + f t = sum_list (map f l) + f t1)%nat.
Proof.
  revert j. induction l as [|u l IH]; intros j Hj; [done|]. destruct j as [|j]; cbn in *.
  - simplify_eq. lia.
  - specialize (IH j Hj). unfold insert in *. lia.
Qed.

(** *** A step of a thread that adds messages *)
Lemma producer_rest d n c ps w s j t choice s1 t1 new :
  rest d n c ps w (sh s) -> ps !! j = Some t -> moves (S j) choice s t s1 t1 new ->
  new = false /\ rest d n c (<[j := t1]> ps) w s1 /\
  (potential c (<[j := t1]> ps) w s1 < potential c ps w (sh s))%nat.
Proof.
  intros Hr Hj Hm. pose proof (Forall_lookup_1 _ _ _ _ (r_producers _ _ _ _ _ _ Hr) Hj) as Hp.
  unfold producer_ok in Hp.
  assert (H1 : match at_pc t with Add _ => True | _ => returned (at_pc t) = true end) by (by destruct (at_pc t)).
  assert (H2 : match calls t with a :: _ => returned (at_pc t) = true -> is_add a = true | [] => True end).
  { destruct (calls t) as [|a l]; [done|]. intros _. by destruct (at_pc t); try done; apply Forall_cons in Hp as [? _]. }
  destruct (add_step _ _ _ _ _ _ _ H1 H2 Hm) as (-> & Ecs & [p1 Ep1] & Es & El & Ell & Em & Ec & Hmv).
  pose proof (Forall_insert _ _ j t1 (r_producers _ _ _ _ _ _ Hr)) as Hps. destruct Hr.
  assert (Hd : forall p, at_pc c = Destroying p -> False).
  { intros p E. unfold controller_ok in r_controller0. rewrite E in r_controller0.
    rewrite r_alone0 in Hj by apply r_controller0. done. }
  split; [done|]. split; [constructor|].
  - by rewrite Es.
  - apply Hps. unfold producer_ok. rewrite Ep1, Ecs.
    destruct (at_pc t); try done; destruct (returned _); try done; destruct (calls t); try done; by apply Forall_cons in Hp as [_ ?].
  - by rewrite length_insert.
  - done.
  - intros ->. by rewrite r_alone0 in Hj.
  - unfold pool_ok. rewrite El, Ell. exact r_pool0.
  - by rewrite Es.
  - intros ws. eapply (add_move_waiters _ c ps w (sh s) _ _ _ (S j) t t1); try done; by destruct (at_pc t).
  - done.
  - intros E. apply Em in E. by apply r_mutex_alive0 in E.
  - intros E. apply Ec in E. by apply r_cond_alive0 in E.
  - pose proof (sum_insert cost _ _ _ t1 Hj). pose proof (add_move_potential (S (List.length ps)) w _ _ _ _ _ Es Hmv).
    unfold potential. rewrite length_insert. lia.
Qed.

(** *** A step of the controlling thread *)

Definition keeps_rest (d : bool) (n : nat) (c1 : thread) (ps : list thread) (w : option thread) (new : bool)
    (s s1 : shared) (c : thread) : Prop :=
  let w1 := if new then Some (mk_thread (Base B_while) []) else w in
  (new = true -> w = None) /\ rest d n c1 ps w1 s1 /\ (potential c1 ps w1 s1 < potential c ps w s)%nat.

Lemma after_start_next d l a cs : after_start d l -> l = a :: cs ->
  (is_add a = true /\ after_start d cs) \/ (a = Stop /\ cs = Join :: last_calls d).
Proof.
  intros (adds & Ha & ->) E. destruct adds as [|x adds]; cbn in E; simplify_eq.
  - by right.
  - apply Forall_cons in Ha as [Hx Ha]. left. split; [done|]. by exists adds.
Qed.

Section Controller.
  Context (d : bool) (n : nat) (c : thread) (ps : list thread) (w : option thread) (s : system).
  Context (Hi : inv d n c ps w s).
Notation Hr := (inv_rest _ _ _ _ _ _ Hi).

Lemma potential_quiet c1 s1 : isStop s1 = isStop (sh s) -> threadCond s1 = threadCond (sh s) ->
  queued s1 = queued (sh s) -> (cost c1 < cost c)%nat ->
  (potential c1 ps w s1 < potential c ps w (sh s))%nat.
Proof using c ps s w.
  clear Hi. intros H1 H2 H3 Hc. unfold potential. rewrite H3.
  destruct w as [u|]; cbn [from_option]; [|lia]. rewrite (pot_same _ (sh s) s1 u) by done. lia.
Qed.

(** Steps that add a message. *)
Lemma controller_add choice s1 c1 new :
  match at_pc c with Add _ => True | _ => returned (at_pc c) = true end ->
  match calls c with a :: _ => returned (at_pc c) = true -> is_add a = true | [] => True end ->
  moves 0 choice s c s1 c1 new -> keeps_rest d n c1 ps w new (sh s) s1 c.
Proof using Hi.
  intros H1 H2 Hm.
  destruct (add_step _ _ _ _ _ _ _ H1 H2 Hm) as (-> & Ecs & [p1 Ep1] & Es & El & Ell & Em & Ec & Hmv).
  assert (Hctl : controller_ok d (bool_decide (is_Some w)) (isStop (sh s)) c1 /\
    (threads_list (sh s) = Some (pool_of n w) /\ list_lock (sh s) = false)).
  { pose proof (r_controller _ _ _ _ _ _ Hr) as Hc. pose proof (r_pool _ _ _ _ _ _ Hr) as Hp.
    unfold controller_ok, pool_ok in *. rewrite Ep1, Ecs.
    assert (Hend : returned (at_pc c) = true -> calls c = [] -> False) by (intros E1 E2; inversion Hm; congruence).
    destruct (at_pc c) as [b|a|st|sp|j|dd|]; try done; cbn [returned] in *.
    - destruct Hc as [Ha Hs]. split; [split; [|done]|done]. destruct a; try done.
      destruct (calls c) as [|x l] eqn:E; [by destruct Ha as ([] & _ & ?)|].
      destruct (after_start_next _ _ _ _ Ha eq_refl) as [[_ ?]|[-> _]]; [done|]. by specialize (H2 eq_refl).
    - destruct Hc as [Ha Hs]. destruct st; try done. split; [split; [|done]|done].
      destruct (calls c) as [|x l] eqn:E; [by destruct Ha as ([] & _ & ?)|].
      destruct (after_start_next _ _ _ _ Ha eq_refl) as [[_ ?]|[-> _]]; [done|]. by specialize (H2 eq_refl).
    - destruct sp; try done. destruct Hc as [Hc _]. rewrite Hc in H2. by specialize (H2 eq_refl).
    - destruct j; try done. destruct Hc as [Hc _]. rewrite Hc in H2, Hend. unfold last_calls in H2, Hend.
      destruct d; [by specialize (H2 eq_refl)|]. by destruct Hend.
    - destruct dd; try done. destruct Hc as (Hc & _). by destruct Hend.
    - destruct Hc as (_ & _ & l & Hl & _). rewrite Hl in H2. by specialize (H2 eq_refl). }
  destruct Hctl as [Hctl Hpool].
  assert (Hnd : forall p, at_pc c <> Destroying p).
  { intros p E. destruct (destroying_alone _ _ _ _ _ _ Hi _ E) as (_ & _ & _ & Hn & _).
    unfold controller_ok in Hctl. rewrite Ep1, Ecs, Hn in Hctl. destruct Hctl as [([] & _ & ?) _]; by destruct (returned _). }
  pose proof (add_move_potential (S (List.length ps)) w _ _ _ _ _ Es Hmv) as Hpot.
  assert (Hw : forall ws, threadCond s1 = Some ws -> waiters n c1 ps w s1 ws).
  { intros ws. eapply (add_move_waiters _ c ps w (sh s) _ _ _ 0 c c1); try done; [apply Hr| |];
      intros E; by rewrite E in H1. }
  pose proof Hr as Hr'. destruct Hr'. split; [done|]. split; [constructor; try done|].
  - by rewrite Es.
  - unfold pool_ok. rewrite Ep1, El, Ell. done.
  - by rewrite Es.
  - rewrite Ep1. naive_solver.
  - intros E. apply Em, r_mutex_alive0 in E. destruct E; by destruct (Hnd _ H).
  - intros E. apply Ec, r_cond_alive0 in E. by destruct (Hnd _ E).
  - unfold potential. lia.
Qed.

(** The other calls. *)
Lemma controller_call choice s1 c1 new a cs : returned (at_pc c) = true -> calls c = a :: cs -> is_add a = false ->
  moves 0 choice s c s1 c1 new -> keeps_rest d n c1 ps w new (sh s) s1 c.
Proof using Hi.
  intros Hret Hcs Ha Hm. inversion Hm as [a' cs' _ E|? ? ? E]; [|congruence]. subst. rewrite Hcs in E. simplify_eq.
  pose proof Hr as Hr'. destruct Hr'. split; [done|]. cbn [at_pc].
  assert (Hnd : forall p, at_pc c <> Destroying p).
  { intros p E. destruct (destroying_alone _ _ _ _ _ _ Hi _ E) as (_ & _ & _ & Hn & _). congruence. }
  assert (Hnew : controller_ok d (bool_decide (is_Some w)) (isStop (sh s)) (mk_thread (enter a') cs') /\
    pool_ok n (mk_thread (enter a') cs') w (sh s)).
  { unfold controller_ok, pool_ok in *. cbn [at_pc calls]. rewrite Hcs in r_controller0.
    destruct (at_pc c) as [b|aa|st|sp|j|dd|]; try done.
    - destruct r_controller0 as [Has Hs].
      destruct (after_start_next _ _ _ _ Has eq_refl) as [[? _]|[-> ->]]; [congruence|]. by destruct aa.
    - destruct r_controller0 as [Has Hs].
      destruct (after_start_next _ _ _ _ Has eq_refl) as [[? _]|[-> ->]]; [congruence|]. by destruct st.
    - destruct r_controller0 as [[= -> ->] Hs]. by destruct sp.
    - destruct r_controller0 as [Hl Hs]. destruct j; try done. unfold last_calls in Hl. destruct d; simplify_eq. done.
    - by destruct r_controller0.
    - destruct r_controller0 as (Hst & Hs & l & [= -> ->] & Has). done. }
  split; [constructor; try done; try apply Hnew|].
  - intros ws Hws. eapply (waiters_quiet n c ps w (sh s) _ ps (sh s) 0 c); try done; [by destruct (at_pc c) as [|[]| | | | |]|..|by left|by apply Hr];
      intros E; by rewrite E in Hret.
  - cbn. intros [E|E]; by destruct a'.
  - intros E. apply r_mutex_alive0 in E. destruct E; by destruct (Hnd _ H).
  - intros E. apply r_cond_alive0 in E. by destruct (Hnd _ E).
  - apply potential_quiet; try done. unfold cost. rewrite Hcs. cbn.
    destruct a'; try done; cbn; lia.
Qed.

End Controller.

Lemma controller_start d n c ps w s choice s1 c1 new p : inv d n c ps w s ->
  at_pc c = Starting p -> returned (at_pc c) = false ->
  moves 0 choice s c s1 c1 new -> keeps_rest d n c1 ps w new (sh s) s1 c.
Proof.
  intros Hi Ep Hret Hm. pose proof (inv_rest _ _ _ _ _ _ Hi) as Hr.
  inversion Hm as [? ? ? ?|p1 s2 new2 _ Ee]; [congruence|subst; clear Hm].
  assert (Hnw : w = None).
  { pose proof (r_controller _ _ _ _ _ _ Hr) as Hc. unfold controller_ok in Hc. rewrite Ep in *.
    destruct w; [|done]. destruct Hc as [_ Hc]. destruct p; try done; destruct Hc; done. }
  subst w.
  assert (Hws : forall ws, threadCond (sh s) = Some ws -> ws = []).
  { intros ws Hc. eapply rest_no_waiters; eauto; rewrite Ep; done. }
  pose proof (threads_number _ _ _ _ _ _ (i_threads _ _ _ _ _ _ Hi)) as Hlen. cbn in Hlen.
  assert (Hma : threadMutex (sh s) <> None).
  { intros E. destruct (r_mutex_alive _ _ _ _ _ _ Hr E); congruence. }
  assert (Hca : threadCond (sh s) <> None).
  { intros E. pose proof (r_cond_alive _ _ _ _ _ _ Hr E). congruence. }
  destruct Hr. unfold controller_ok, pool_ok in *. rewrite Ep in *.
  destruct r_controller0 as [Has Hst], r_pool0 as [Hl Hll].
  destruct p; try done; cbn in Ee; unfold oc_mutex_lock, ca_thread_pool_add_task in Ee;
    repeat (case_match; simplify_eq/=); destruct_and?; simplify_eq/=.
  all: split; [done|]; split; [constructor; try done|].
  all: try (intros ws Hws1; rewrite (Hws ws) by done; constructor).
  all: try (intros E; by destruct Hma). all: try (intros E; by destruct Hca).
  all: try (unfold potential, cost, queued; rewrite Ep; cbn; lia).
  all: try (intros t [= <-]; done).
  - unfold pool_ok. cbn. by rewrite Hlen, Nat.add_0_r.
  - by intros [?|?].
  - unfold potential, cost, worker_pot, queued. rewrite Ep. cbn. rewrite H2. lia.
Qed.

Lemma holding_both s i j t u : mutex_inv s -> threadMutex (sh s) <> None -> threads s !! i = Some t ->
  threads s !! j = Some u -> holding (at_pc t) = true -> holding (at_pc u) = true -> i = j.
Proof.
  intros [_ Hm] Hn Hi Hj Hti Huj. destruct (threadMutex (sh s)) as [o|]; [|done]. destruct Hm as [Hm _].
  rewrite (Hm _ _ Hi) in Hti. rewrite (Hm _ _ Hj) in Huj. apply bool_decide_eq_true in Hti, Huj. congruence.
Qed.

Lemma controller_stop d n c ps w s choice s1 c1 new p : inv d n c ps w s ->
  at_pc c = Stopping p -> returned (at_pc c) = false ->
  moves 0 choice s c s1 c1 new -> keeps_rest d n c1 ps w new (sh s) s1 c.
Proof.
  intros Hi Ep Hret Hm. pose proof (inv_rest _ _ _ _ _ _ Hi) as Hr.
  inversion Hm as [? ? ? ?|p1 s2 new2 _ Ee]; [congruence|subst; clear Hm].
  assert (Hma : threadMutex (sh s) <> None).
  { intros E. destruct (r_mutex_alive _ _ _ _ _ _ Hr E); congruence. }
  assert (Hca : threadCond (sh s) <> None).
  { intros E. pose proof (r_cond_alive _ _ _ _ _ _ Hr E). congruence. }
  assert (Hhold : holding (at_pc c) = true -> forall t, w = Some t -> at_pc t <> Base B_exit_unlock).
  { intros Hc t Hw Ht. pose proof (thread_controller _ _ _ _ _ _ (i_threads _ _ _ _ _ _ Hi)) as H0.
    pose proof (thread_worker _ _ _ _ _ _ (i_threads _ _ _ _ _ _ Hi) _ Hw) as H1.
    pose proof (holding_both _ _ _ _ _ (i_mutex _ _ _ _ _ _ Hi) Hma H0 H1 Hc). rewrite Ht in H. by specialize (H eq_refl). }
  assert (Hq : forall c1 s2 ws, at_pc c <> Stopping S_signal -> at_pc c <> Stopping S_waiting ->
    isStop s2 = isStop (sh s) -> queued s2 = queued (sh s) -> threadCond (sh s) = Some ws ->
    waiters n c1 ps w s2 ws).
  { intros c1 s2 ws H1 H2 H3 H4 Hc. eapply (waiters_quiet n c ps w (sh s) c1 ps s2 0 c c1); try done;
      [by rewrite Ep|by left|by apply Hr]. }
  assert (Hno : forall ws, isStop (sh s) = true -> at_pc c <> Stopping S_signal -> at_pc c <> Stopping S_waiting ->
    threadCond (sh s) = Some ws -> ws = []).
  { intros ws H1 H2 H3 H4. eapply rest_no_waiters; eauto. }
  pose proof (r_waiters _ _ _ _ _ _ Hr) as Hw.
  destruct Hr. unfold controller_ok, pool_ok in *. rewrite Ep in *.
  destruct r_controller0 as [Hcs Hst], r_pool0 as [Hl Hll].
  destruct p; try done; cbn in Ee; unfold oc_mutex_lock in Ee;
    repeat (case_match; simplify_eq/=); destruct_and?; simplify_eq/=.
  all: split; [done|]; split; [constructor; try done|].
  all: try (by intros [?|?]).
  all: try (apply potential_quiet; try done; unfold cost; rewrite Ep; cbn; lia).
  all: try (by intros ws Hws; apply Hq).
  - unfold controller_ok. cbn. split; [done|]. rewrite H in *. by destruct w.
  - rewrite H. intros t Ht Hex. exfalso. specialize (r_exiting0 _ Ht Hex). congruence.
  - intros ws Hws. destruct (Hw ws Hws) as [|t Hwt Hp Hor Hqs|Hc _]; [constructor| |congruence].
    apply (w_worker _ _ _ _ _ t); try done; [by right|]. destruct Hqs as [Hqs|(i & t' & Hit & Ht')]; [by left|right].
    exists i, t'. destruct i; [|done]. cbn in Hit. congruence.
  - intros _ t Ht E. specialize (r_exiting0 _ Ht). rewrite E in r_exiting0. specialize (r_exiting0 eq_refl). congruence.
  - unfold potential, cost. rewrite Ep. cbn [pc_cost at_pc calls]. change (queued (with_stop true (sh s))) with (queued (sh s)).
    destruct w as [u|]; cbn [from_option]; [|lia].
    pose proof (pot_stop (S (List.length ps)) (sh s) (with_stop true (sh s)) u eq_refl eq_refl eq_refl). lia.
  - intros ws Hws. cbn in Hws. injection Hws as <-. rewrite (waiters_signalled _ _ _ _ _ _ _ (Hw _ eq_refl)). constructor.
  - intros _. apply r_stopping0. by left.
  - unfold potential, cost. rewrite Ep. cbn [pc_cost at_pc calls]. set (s1 := with_cond _ _).
    change (queued s1) with (queued (sh s)). destruct w as [u|]; cbn [from_option]; [|lia].
    pose proof (pot_signal (S (List.length ps)) (sh s) s1 u eq_refl eq_refl). lia.
  - intros ws Hws. cbn in Hws. injection Hws as <-. rewrite (Hno l) by done. apply w_controller; [done|].
    intros t Ht. split; [by apply Hhold|]. apply r_stopping0; [by right|done].
  - rewrite (Hno l) by done. unfold potential, cost. rewrite Ep. cbn [pc_cost at_pc calls]. set (s1 := with_mutex _ _).
    change (queued s1) with (queued (sh s)). destruct w as [u|]; cbn [from_option]; [|lia].
    assert (E : worker_pot (S (List.length ps)) s1 u = worker_pot (S (List.length ps)) (sh s) u); [|lia].
    unfold worker_pot, asleep. change (queued s1) with (queued (sh s)).
    match goal with E : threadCond (sh s) = Some l |- _ => rewrite E, (Hno l) by done end. done.
  - intros ws Hws. cbn in Hws. destruct (Hw ws Hws) as [|t Hwt Hp [?|?] Hqs|Hc _]; [constructor|congruence..|].
    exfalso. rewrite Hws in *. done.
Qed.

Lemma controller_join d n c ps w s choice s1 c1 new p : inv d n c ps w s ->
  at_pc c = Joining p -> returned (at_pc c) = false ->
  moves 0 choice s c s1 c1 new -> keeps_rest d n c1 ps w new (sh s) s1 c.
Proof.
  intros Hi Ep Hret Hm. pose proof (inv_rest _ _ _ _ _ _ Hi) as Hr.
  inversion Hm as [? ? ? ?|p1 s2 new2 _ Ee]; [congruence|subst; clear Hm].
  assert (Hma : threadMutex (sh s) <> None).
  { intros E. destruct (r_mutex_alive _ _ _ _ _ _ Hr E); congruence. }
  assert (Hca : threadCond (sh s) <> None).
  { intros E. pose proof (r_cond_alive _ _ _ _ _ _ Hr E). congruence. }
  assert (Hst : isStop (sh s) = true).
  { pose proof (r_controller _ _ _ _ _ _ Hr) as Hc. unfold controller_ok in Hc. rewrite Ep in Hc. apply Hc. }
  assert (Hno : forall ws, threadCond (sh s) = Some ws -> ws = []).
  { intros ws Hc. eapply rest_no_waiters; eauto; congruence. }
  assert (Hend : forall tid, pool_of n w !! 0%nat = Some tid -> ended s tid = true -> done w).
  { intros tid Hl He t Hw. subst w. cbn in Hl. injection Hl as <-. unfold ended in He.
    rewrite (thread_worker _ _ _ _ _ _ (i_threads _ _ _ _ _ _ Hi) t eq_refl) in He. apply andb_true_iff in He as [He _].
    destruct (r_worker _ _ _ _ _ _ Hr t eq_refl) as [Hw _]. destruct (at_pc t) as [[]|[]|[]|[]|[]|[]|]; done. }
  destruct Hr. unfold controller_ok, pool_ok in *. rewrite Ep in *.
  destruct p as [|i| |]; try done; cbn in Ee.
  all: repeat (case_match; simplify_eq/=); destruct_and?; simplify_eq/=.
  all: try match goal with E : default [] (threads_list _) !! _ = _, E1 : threads_list _ = Some _ |- _ =>
    rewrite E1 in E; cbn [default from_option id] in E end.
  all: split; [done|]; split; [constructor; try done|].
  all: try (by intros [?|?]).
  all: try (intros ws Hws; rewrite (Hno ws) by done; constructor).
  - unfold pool_ok. cbn. split_and!; try done; [lia|]. intros El t Hw. by subst w.
  - apply potential_quiet; try done. unfold cost. rewrite Ep. cbn. lia.
  - match goal with E : pool_of _ _ !! i = Some _ |- _ => rename E into El end.
    assert (i = 0%nat) as -> by (apply lookup_lt_Some in El; destruct w; cbn in El; lia).
    unfold pool_ok. cbn [at_pc]. apply lookup_lt_Some in El as Hlt. split_and!; try done. intros _. by eapply Hend.
  - match goal with E : pool_of _ _ !! i = Some _ |- _ => rename E into El end.
    assert (i = 0%nat) as -> by (apply lookup_lt_Some in El; destruct w; cbn in El; lia).
    apply potential_quiet; try done. unfold cost. rewrite Ep. cbn. lia.
  - match goal with E : pool_of _ _ !! i = None |- _ => apply lookup_ge_None in E; rename E into El end.
    unfold pool_ok. cbn [at_pc]. split_and!; try done.
    match goal with H : _ -> done w |- _ => apply H end. lia.
  - apply potential_quiet; try done. unfold cost. rewrite Ep. cbn. lia.
  - apply potential_quiet; try done. unfold cost. rewrite Ep. cbn. lia.
Qed.

Lemma controller_destroy d n c ps w s choice s1 c1 new p : inv d n c ps w s -> queue_ok (sh s) ->
  at_pc c = Destroying p -> returned (at_pc c) = false ->
  moves 0 choice s c s1 c1 new -> keeps_rest d n c1 ps w new (sh s) s1 c.
Proof.
  intros Hi Hqok Ep Hret Hm. pose proof (inv_rest _ _ _ _ _ _ Hi) as Hr.
  inversion Hm as [? ? ? ?|p1 s2 new2 _ Ee]; [congruence|subst; clear Hm].
  destruct (destroying_alone _ _ _ _ _ _ Hi _ Ep) as (-> & Hd & Hst & Hcs & ->).
  assert (Hno : forall ws, threadCond (sh s) = Some ws -> ws = []).
  { intros ws Hc. eapply rest_no_waiters; eauto; congruence. }
  assert (Hpot : forall W s1, from_option (worker_pot W s1) 0%nat w = 0%nat).
  { intros W s2. destruct w as [u|]; [|done]. cbn. unfold worker_pot. by rewrite (Hd u eq_refl). }
  destruct Hr. unfold controller_ok, pool_ok in *. rewrite Ep in *.
  destruct p; try done; cbn in Ee; unfold oc_mutex_lock in Ee.
  all: repeat (case_match; simplify_eq/=); destruct_and?; simplify_eq/=.
  all: split; [done|]; split; [constructor; try done|].
  all: try (by intros [?|?]).
  all: try (intros ws Hws; rewrite (Hno ws) by done; constructor).
  all: try (intros E; cbn in E; naive_solver).
  all: unfold potential, cost; rewrite !Hpot, Ep; cbn [pc_cost at_pc calls].
  all: try (unfold queued; cbn; lia).
  all: destruct (dataQueue (sh s)) as [q0|] eqn:Eq; [|done].
  all: match goal with E : u_queue_get_element _ = _ |- _ =>
    destruct (get_element_some _ _ _ (queue_wf _ Hqok _ Eq) E) as [(-> & -> & En)|(Hm0 & rest1 & En & ->)] end; try done.
  - match goal with E : (0 <? _) = true |- _ => apply Z.ltb_lt in E; cbn in E; rename E into Hc end.
    destruct (queue_wf _ Hqok _ Eq) as [Hwf _]. unfold wf in Hwf. rewrite En in Hwf. change (count q0 = 0) in Hwf. cbn in Hc. lia.
  - unfold queued. rewrite Eq. cbn. rewrite En. cbn. lia.
  - unfold queued. rewrite Eq. cbn. rewrite En. cbn. lia.
Qed.

Lemma controller_keeps d n c ps w s choice s1 c1 new : inv d n c ps w s -> queue_ok (sh s) ->
  moves 0 choice s c s1 c1 new -> keeps_rest d n c1 ps w new (sh s) s1 c.
Proof.
  intros Hi Hq Hm. destruct (returned (at_pc c)) eqn:Er.
  - inversion Hm as [a cs _ E|]; [|congruence]. subst. destruct (is_add a) eqn:Ea.
    + eapply controller_add; [exact Hi| | |exact Hm]; [by destruct (at_pc c)|]. by rewrite E.
    + by eapply controller_call.
  - destruct (at_pc c) as [b|a|st|sp|j|dd|] eqn:Ep; try done.
    + pose proof (c_controller _ _ _ _ _ _ (i_threads _ _ _ _ _ _ Hi)) as Hc. unfold controller_ok in Hc.
      by rewrite Ep in Hc.
    + eapply controller_add; [exact Hi|by rewrite Ep| |exact Hm]. rewrite Ep, Er. by destruct (calls c).
    + eapply controller_start; eauto. by rewrite Ep.
    + eapply controller_stop; eauto. by rewrite Ep.
    + eapply controller_join; eauto. by rewrite Ep.
    + eapply controller_destroy; eauto. by rewrite Ep.
Qed.

(** *** A step of the worker *)

Lemma queued_empty s : queue_ok s -> u_queue_get_size (dataQueue s) <= 0 <-> queued s = [].
Proof.
  intros [Hwf Hl]. unfold queued in *. destruct (dataQueue s) as [q|]; cbn; [|by split].
  destruct (Hwf q eq_refl) as [Hq _]. unfold wf in Hq. rewrite wrap_id in Hq by (unfold in_width; lia).
  rewrite Hq. destruct (element q); cbn; split; try done; lia.
Qed.

Ltac wpot := unfold potential; cbn [from_option]; unfold worker_pot;
  match goal with E : at_pc ?t = Base _ |- context [at_pc ?t] => rewrite E end;
  cbn [at_pc worker_cost];
  repeat match goal with
  | |- context [queued (with_mutex ?m ?x)] => change (queued (with_mutex m x)) with (queued x)
  | |- context [queued (put ?a ?x)] => change (queued (put a x)) with (queued x)
  end.

Lemma worker_rest d n c ps s t choice s1 t1 new : inv d n c ps (Some t) s -> queue_ok (sh s) ->
  moves (S n) choice s t s1 t1 new ->
  new = false /\ rest d n c ps (Some t1) s1 /\
  (potential c ps (Some t1) s1 < potential c ps (Some t) (sh s))%nat.
Proof.
  intros Hi Hqok Hm. pose proof (inv_rest _ _ _ _ _ _ Hi) as Hr.
  destruct (r_worker _ _ _ _ _ _ Hr t eq_refl) as [Hw Hcalls].
  inversion Hm as [? ? ? ?|p1 s2 new2 Hret Ee]; [congruence|subst; clear Hm].
  assert (Hnd : ~ done (Some t)).
  { intros Hd. specialize (Hd t eq_refl). by rewrite Hd in Hret. }
  assert (Hma : threadMutex (sh s) <> None).
  { intros E. destruct (r_mutex_alive _ _ _ _ _ _ Hr E) as [Ec|Ec];
      destruct (destroying_alone _ _ _ _ _ _ Hi _ Ec) as (_ & Hd & _); exact (Hnd Hd). }
  assert (Hca : threadCond (sh s) <> None).
  { intros E. pose proof (r_cond_alive _ _ _ _ _ _ Hr E) as Ec.
    destruct (destroying_alone _ _ _ _ _ _ Hi _ Ec) as (_ & Hd & _); exact (Hnd Hd). }
  assert (Hhold : holding (at_pc c) = true -> holding (at_pc t) = false).
  { intros Hc. apply not_true_is_false. intros Ht.
    by pose proof (holding_both _ _ _ _ _ (i_mutex _ _ _ _ _ _ Hi) Hma (thread_controller _ _ _ _ _ _ (i_threads _ _ _ _ _ _ Hi))
      (thread_worker _ _ _ _ _ _ (i_threads _ _ _ _ _ _ Hi) t eq_refl) Hc Ht). }
  pose proof (queued_empty _ Hqok) as Hqe.
  pose proof (r_waiters _ _ _ _ _ _ Hr) as Hww.
  destruct (at_pc t) as [p|p|p|p|p|p|] eqn:Ep; try done.
  assert (Hpool : forall t1 s1, threads_list s1 = threads_list (sh s) -> list_lock s1 = list_lock (sh s) ->
    pool_ok n c (Some t1) s1).
  { intros u s2 E1 E2. pose proof (r_pool _ _ _ _ _ _ Hr) as Hp. unfold pool_ok in *. rewrite E1, E2.
    destruct (at_pc c) as [b|a|st|sp|j|dd|]; try done. destruct j as [|i| |]; try done; [|exfalso; apply Hnd; by destruct Hp as (_ & _ & ?)].
    destruct Hp as (? & ? & Hl & Hd). split_and!; try done. intros Ei. exfalso. apply Hnd, Hd, Ei. }
  assert (Hwait : forall t1 s1 ws, threadCond s1 = threadCond (sh s) -> at_pc t <> Base B_waiting ->
    at_pc t1 <> Base B_exit_unlock -> at_pc t1 <> Base B_done -> threadCond s1 = Some ws ->
    waiters n c ps (Some t1) s1 ws).
  { intros u s2 ws E1 H1 H2 H3 Hs. rewrite E1 in Hs. destruct (Hww _ Hs) as [|? ? ?|? ?]; [constructor|congruence|].
    apply w_controller; [done|]. by intros ? [= <-]. }
  assert (Hex : exiting (at_pc t) = true -> isStop (sh s) = true) by (by apply (r_exiting _ _ _ _ _ _ Hr)).
  rewrite Ep in *. destruct Hr.
  destruct p; try done; cbn in Ee; unfold oc_mutex_lock in Ee;
    repeat (case_match; simplify_eq/=); destruct_and?; simplify_eq/=.
  all: split; [done|]; split; [constructor; try done|].
  all: try (by apply Hpool).
  all: try (by intros u [= <-]).
  all: try (by intros _ u [= <-]).
  all: try (intros ws Hws; by eapply Hwait).
  all: try match goal with H : isStop (sh _) = _ |- controller_ok _ _ _ _ => cbn [isStop with_queue put]; rewrite H; done end.
  all: try (unfold potential, worker_pot, queued; cbn; rewrite Ep; cbn;
     try match goal with H : isStop (sh _) = _ |- _ => rewrite H end; lia).
  - match goal with H : _ && _ = true |- _ => apply andb_true_iff in H as [Hs%negb_true_iff Hq%Z.leb_le%Hqe] end.
    intros ws Hws. cbn in Hws. injection Hws as <-. destruct (Hww l eq_refl) as [|? ? ?|Hc _]; [|congruence|].
    + by apply (w_worker _ _ _ _ _ (mk_thread (Base B_waiting) (calls t))); try (by left).
    + unfold controller_ok in r_controller0. rewrite Hc, Hs in r_controller0. by destruct r_controller0 as (_ & _ & ?).
  - unfold potential. cbn [from_option]. unfold worker_pot. rewrite Ep. cbn [at_pc worker_cost].
    unfold asleep. cbn [threadCond with_mutex with_cond default from_option].
    rewrite bool_decide_eq_true_2 by (apply elem_of_app; right; by apply list_elem_of_singleton).
    change (queued (with_mutex _ _)) with (queued (sh s)). lia.
  - match goal with H : _ && _ = false |- _ => rename H into Hb end.
    unfold potential. cbn [from_option]. unfold worker_pot. rewrite Ep. cbn [at_pc worker_cost].
    destruct (isStop (sh s)); cbn in Hb; [lia|]. rewrite bool_decide_eq_false_2; [lia|].
    intros E%Hqe. apply Z.leb_gt in Hb. lia.
  - intros ws Hws. cbn in Hws. destruct (Hww ws Hws) as [|u Hu Hpu Ho1 Ho2|Hc1 Hc2];
      [apply w_nobody| |by apply w_controller; [|intros u [= <-]]].
    exfalso. match goal with H : bool_decide _ = false |- _ => apply bool_decide_eq_false in H; apply H end.
    rewrite Hws. cbn. by apply list_elem_of_singleton.
  - unfold potential. cbn [from_option]. unfold worker_pot. rewrite Ep. cbn [at_pc worker_cost].
    unfold asleep. match goal with H : bool_decide _ = false |- _ => rewrite H end.
    set (s1 := with_mutex _ _). change (queued s1) with (queued (sh s)). change (isStop s1) with (isStop (sh s)).
    repeat case_match; lia.
  - destruct (dataQueue (sh s)) as [q0|] eqn:Eq.
    + match goal with E : u_queue_get_element _ = _ |- _ =>
        destruct (get_element_some _ _ _ (queue_wf _ Hqok _ Eq) E) as [(-> & -> & En)|(Hm0 & rest1 & En & ->)] end.
      * wpot. unfold queued. cbn. rewrite Eq, En. match goal with H : isStop _ = _ |- _ => rewrite H end. cbn. lia.
      * match goal with H : (m =? NULL) = true |- _ => apply Z.eqb_eq in H end. done.
    + match goal with E : u_queue_get_element _ = _ |- _ => injection E as <- <- end.
      wpot. unfold queued. cbn. rewrite Eq. match goal with H : isStop _ = _ |- _ => rewrite H end. cbn. lia.
  - match goal with H : (m =? NULL) = false |- _ => apply Z.eqb_neq in H; rename H into Hm0 end.
    destruct (dataQueue (sh s)) as [q0|] eqn:Eq.
    + match goal with E : u_queue_get_element _ = _ |- _ =>
        destruct (get_element_some _ _ _ (queue_wf _ Hqok _ Eq) E) as [(-> & -> & En)|(_ & rest1 & En & ->)] end; [done|].
      wpot. unfold queued. cbn. rewrite Eq, En, (proj2 (Z.eqb_neq _ _)) by done.
      match goal with H : isStop _ = _ |- _ => rewrite H end. cbn. lia.
    + match goal with E : u_queue_get_element _ = _ |- _ => injection E as <- <- end. done.
  - wpot. change (isStop (with_mutex _ _)) with (isStop (sh s)). rewrite (Hex eq_refl). cbn. lia.
  - wpot. match goal with H : (m =? NULL) = true |- _ => rewrite H end. cbn. destruct (isStop (sh s)); lia.
  - wpot. match goal with H : (m =? NULL) = false |- _ => rewrite H end. cbn. lia.
  - wpot. cbn. destruct (isStop (sh s)); lia.
  - intros ws Hws. cbn in Hws. injection Hws as <-. rewrite (waiters_signalled _ _ _ _ _ _ _ (Hww _ eq_refl)).
    apply w_nobody.
  - intros ws Hws. cbn in Hws. destruct (Hww ws Hws) as [|u Hu Hpu Ho1 Ho2|Hc1 Hc2]; [apply w_nobody|congruence|].
    by destruct (Hc2 t eq_refl) as [? _].
  - intros [Hc|Hc]; rewrite Hc in Hhold; by specialize (Hhold eq_refl).
Qed.

(** ** How many messages there can be *)

Definition pc_adds (p : pc) : nat :=
  match p with Add (A_start _ _ _ | A_lock _ | A_add _) => 1 | _ => 0 end.
Definition call_adds (c : call) : nat := if is_add c then 1 else 0.
Definition pending (t : thread) : nat := pc_adds (at_pc t) + sum_list (map call_adds (calls t)).
Definition messages (s : shared) : nat := List.length (added (trace s)).
Arguments messages : simpl never.

Lemma messages_put a s : messages (put a s) = (messages s + match a with Added _ => 1 | _ => 0 end)%nat.
Proof. unfold messages, added. cbn [put trace]. rewrite omap_snoc, length_app. by destruct a. Qed.

Ltac same_messages := repeat match goal with
  | |- context [messages (with_queue ?q ?x)] => change (messages (with_queue q x)) with (messages x)
  | |- context [messages (with_pool ?q ?b ?x)] => change (messages (with_pool q b x)) with (messages x)
  | |- context [messages (with_stop ?b ?x)] => change (messages (with_stop b x)) with (messages x)
  | |- context [messages (with_mutex ?b ?x)] => change (messages (with_mutex b x)) with (messages x)
  | |- context [messages (with_cond ?b ?x)] => change (messages (with_cond b x)) with (messages x)
  end.

Lemma act_pending tid choice s p : returned p = false ->
  match act tid choice s p with
  | Lock k | Wake k | Signal k | Unlock k | FreeMutex k | FreeCond k => (pc_adds k <= pc_adds p)%nat
  | Wait w k => (pc_adds w <= pc_adds p /\ pc_adds k <= pc_adds p)%nat
  | Do k s' | Fork k s' => (pc_adds k + messages s' <= pc_adds p + messages (sh s))%nat
  | Hang | Wrong => True
  end.
Proof.
  intros Hr. destruct p as [b|a|st|sp|j|dd|]; [destruct b|destruct a|destruct st|destruct sp|destruct j|destruct dd|];
    try done; cbn; try lia; unfold ca_thread_pool_add_task; rewrite ?messages_put;
    repeat match goal with
    | |- context [isStop (sh s)] => destruct (isStop (sh s)); cbn
    | |- context [u_queue_get_element ?q] => destruct (u_queue_get_element q) as [m q1]; cbn
    | |- context [u_queue_add_element ?a ?b ?x] => destruct (u_queue_add_element a b x) as [r q1]; cbn
    | |- context [?x =? ?y] => destruct (x =? y); cbn
    | |- context [?x <? ?y] => destruct (x <? y); cbn
    | |- context [?x <=? ?y] => destruct (x <=? y); cbn
    | |- context [threads_list ?x] => destruct (threads_list x); cbn
    | |- context [list_lock ?x] => destruct (list_lock x); cbn
    | |- context [ca_ok ?x] => destruct (ca_ok x); cbn
    | |- context [default [] ?x !! ?i] => destruct (default [] x !! i) as [tid1|]; cbn
    | |- context [ended ?x ?i] => destruct (ended x i); cbn
    end; rewrite ?messages_put; try done; try lia;
    try (destruct choice as [|[|]]; cbn); try (match goal with |- context [?l !! ?i] => destruct (l !! i) end; cbn);
    try match goal with |- context [ended ?x ?i] => destruct (ended x i); cbn end;
    same_messages; try done; try lia.
Qed.

Lemma moves_pending tid choice s t s1 t1 new : moves tid choice s t s1 t1 new ->
  (pending t1 + messages s1 <= pending t + messages (sh s))%nat.
Proof.
  intros [c cs Hr Ec|p s2 new2 Hr Ee]; unfold pending; cbn [at_pc calls].
  - rewrite Ec. cbn. destruct c; cbn; lia.
  - pose proof (act_pending tid choice s _ Hr) as Ha.
    destruct (act tid choice s (at_pc t)); cbn [exec] in Ee; unfold oc_mutex_lock in Ee;
      repeat (case_match; simplify_eq/=); simplify_eq/=; destruct_and?; same_messages; cbn; lia.
Qed.

(** ** Every step *)

(** The most messages there can be. *)
Definition budget (s : system) : nat := sum_list (map pending (threads s)) + messages (sh s).

Lemma step_budget e s s' : step e s = Next s' -> (budget s' <= budget s)%nat.
Proof.
  intros [(tid & choice & t & s1 & t' & new & _ & Ht & Hmv & ->)|(? & ? & _ & ? & _ & ->)]%step_moves; [|done].
  pose proof (moves_pending _ _ _ _ _ _ _ Hmv) as Hp. pose proof (sum_insert pending _ _ _ t' Ht) as Hs.
  unfold budget. cbn [threads sh]. rewrite map_app, sum_list_with_app. destruct new; cbn [new_threads map sum_list_with]; cbn; lia.
Qed.

Definition weight (e : event) : nat := match e with Run _ _ => 1 | Spurious _ => 0 end.
Definition credit (e : event) : nat := match e with Run _ _ => 0 | Spurious _ => 17 end.

Lemma inv_step d n c ps w e s s' : inv d n c ps w s -> Z.of_nat (budget s) < 2 ^ 32 -> step e s = Next s' ->
  exists c1 ps1 w1, inv d n c1 ps1 w1 s' /\
    (potential c1 ps1 w1 (sh s') + weight e <= potential c ps w (sh s) + credit e)%nat.
Proof.
  intros Hi Hb Hst.
  assert (Hm : mutex_inv s') by (eapply mutex_inv_step; [apply Hi|done]).
  assert (Hbound : forall x, (budget x <= budget s)%nat -> Z.of_nat (List.length (added (trace (sh x)))) < 2 ^ 32).
  { intros x Hx. change (List.length (added (trace (sh x)))) with (messages (sh x)). unfold budget in *. lia. }
  assert (Hq : queue_inv s').
  { eapply queue_inv_step; [apply Hi|apply Hi|done|]. by eapply Hbound, step_budget. }
  assert (Hqok : queue_ok (sh s)) by (apply queue_inv_ok; [apply Hi|by apply Hbound]).
  pose proof (i_threads _ _ _ _ _ _ Hi) as Hth. pose proof (c_threads _ _ _ _ _ _ Hth) as El.
  apply step_moves in Hst as [(tid & choice & t & s1 & t' & new & -> & Ht & Hmv & ->)
    |(tid & ws & -> & Hws & Hin & ->)]; cbn [sh weight credit] in *.
  - destruct (thread_cases _ _ _ _ _ _ Hth _ _ Ht) as [[-> ->]|[(j & -> & Hj)|[-> ->]]].
    + destruct (controller_keeps _ _ _ _ _ _ _ _ _ _ Hi Hqok Hmv) as (Hnew & Hr & Hp).
      exists t', ps, (if new then Some (mk_thread (Base B_while) []) else w). split; [|lia].
      apply rest_inv; try done. cbn [threads]. rewrite El. cbn.
      destruct new; [rewrite (Hnew eq_refl)|]; by rewrite ?app_nil_r.
    + destruct (producer_rest _ _ _ _ _ _ _ _ _ _ _ _ (inv_rest _ _ _ _ _ _ Hi) Hj Hmv) as (-> & Hr & Hp).
      exists c, (<[j := t']> ps), w. split; [|lia].
      apply rest_inv; try done. cbn [threads new_threads]. rewrite El, app_nil_r.
      exact (f_equal (cons c) (insert_app_l _ _ _ _ (lookup_lt_Some _ _ _ Hj))).
    + destruct (worker_rest _ _ _ _ _ _ _ _ _ _ Hi Hqok Hmv) as (-> & Hr & Hp).
      exists c, ps, (Some t'). split; [|lia].
      apply rest_inv; try done. cbn [threads new_threads]. rewrite El, app_nil_r, <- (c_length _ _ _ _ _ _ Hth).
      change (c :: ps ++ option_list (Some t)) with ((c :: ps) ++ [t]).
      by rewrite (insert_app_r_alt (c :: ps)), Nat.sub_diag by done.
  - exists c, ps, w. pose proof (i_waiters _ _ _ _ _ _ Hi _ Hws) as Hwt.
    assert (E : filter (fun t => t <> tid) ws = []).
    { destruct Hwt; [by apply not_elem_of_nil in Hin|..]; apply list_elem_of_singleton in Hin as ->;
        rewrite filter_cons, decide_False by (intros ?; done); done. }
    rewrite E in *. split.
    + apply rest_inv; try done. destruct (inv_rest _ _ _ _ _ _ Hi). constructor; try done.
      intros ws1 [= <-]. apply w_nobody.
    + unfold potential. set (s1 := with_cond _ _). change (queued s1) with (queued (sh s)).
      destruct w as [u|]; cbn [from_option]; [|lia].
      pose proof (pot_signal (S (List.length ps)) (sh s) s1 u eq_refl eq_refl). lia.
Qed.

(** *** The end of a run *)

Lemma inv_initial d adds others : Forall (fun c => is_add c = true) adds ->
  Forall (Forall (fun c => is_add c = true)) others -> (d = true -> others = []) ->
  inv d (List.length others) (mk_thread Idle (Start :: adds ++ Stop :: Join :: last_calls d))
    (map (mk_thread Idle) others) None
    (initial ((Start :: adds ++ Stop :: Join :: last_calls d) :: others)).
Proof.
  intros Ha Ho Hd. apply rest_inv; [|by rewrite app_nil_r|apply mutex_inv_initial|apply queue_inv_initial].
  constructor; try done.
  - cbn. split_and!; [done..|]. exists (adds ++ Stop :: Join :: last_calls d). split; [done|]. by exists adds.
  - apply Forall_map. by apply (Forall_impl _ _ _ Ho).
  - apply length_map.
  - intros E. by rewrite (Hd E).
  - intros ws [= <-]. apply w_nobody.
Qed.

Lemma run_inv d n c ps w es s s' : inv d n c ps w s -> Z.of_nat (budget s) < 2 ^ 32 -> run es s = Next s' ->
  exists c1 ps1 w1, inv d n c1 ps1 w1 s' /\ Z.of_nat (budget s') < 2 ^ 32 /\
    (potential c1 ps1 w1 (sh s') + sum_list (map weight es) <=
     potential c ps w (sh s) + sum_list (map credit es))%nat.
Proof.
  revert c ps w s. induction es as [|e es IH]; cbn [run map]; intros c ps w s Hi Hb.
  { intros [= <-]. exists c, ps, w. done. }
  destruct (step e s) as [| |s1] eqn:E; [done..|]. intros Hr.
  destruct (inv_step _ _ _ _ _ _ _ _ Hi Hb E) as (c1 & ps1 & w1 & Hi1 & Hp1).
  pose proof (step_budget _ _ _ E).
  destruct (IH _ _ _ _ Hi1 ltac:(lia) Hr) as (c2 & ps2 & w2 & Hi2 & Hb2 & Hp2).
  exists c2, ps2, w2. split_and!; [done..|]. cbn [sum_list_with]. unfold id in *. lia.
Qed.

Lemma run_no_crash d n c ps w es s : inv d n c ps w s -> Z.of_nat (budget s) < 2 ^ 32 -> run es s <> Crash.
Proof.
  revert c ps w s. induction es as [|e es IH]; cbn [run]; intros c ps w s Hi Hb; [done|].
  pose proof (no_crash _ _ _ _ _ _ Hi e). destruct (step e s) as [| |s1] eqn:E; [done..|].
  destruct (inv_step _ _ _ _ _ _ _ _ Hi Hb E) as (c1 & ps1 & w1 & Hi1 & _).
  pose proof (step_budget _ _ _ E). by eapply IH; [|lia].
Qed.

Definition adds_of (cs : list (list call)) : nat := sum_list (map (fun l => sum_list (map call_adds l)) cs).
Definition steps_bound (cs : list (list call)) : nat := sum_list (map (fun l => sum_list (map call_cost l)) cs).

Lemma initial_budget cs : budget (initial cs) = adds_of cs.
Proof.
  unfold budget, adds_of. cbn. rewrite Nat.add_0_r. f_equal. rewrite map_map. by apply map_ext.
Qed.

(** C14: Under controlled use - one thread starts the queue, adds messages, stops and
    joins the worker, and may then, if it is the only user, destroy the queue; any
    number of other threads add messages if it does not - nothing undefined happens, the threads take no more steps
    than a bound fixed by their calls, and 17 more for each spurious wake-up; and when
    none of them can go on, they all have made all their calls: no thread is left
    waiting.  Every message the worker took was destroyed once; the others that were
    added are in the queue, and with [Destroy] there are none: every message that
    was added was destroyed. *)
Theorem shutdown_completes d adds others es (cs := (Start :: adds ++ Stop :: Join :: last_calls d) :: others) :
  Forall (fun c => is_add c = true) adds -> Forall (Forall (fun c => is_add c = true)) others ->
  (d = true -> others = []) -> Z.of_nat (adds_of cs) < 2 ^ 32 ->
  run es (initial cs) <> Crash /\
  forall s, run es (initial cs) = Next s ->
    (sum_list (map weight es) <= steps_bound cs + sum_list (map credit es))%nat /\
    ((forall tid choice, step (Run tid choice) s = Stuck) ->
       Forall (fun t => returned (at_pc t) = true /\ calls t = []) (threads s) /\
       Permutation (taken (trace (sh s))) (destroyed (trace (sh s))) /\
       Permutation (added (trace (sh s))) (destroyed (trace (sh s)) ++ queued (sh s)) /\
       (d = true -> Permutation (added (trace (sh s))) (destroyed (trace (sh s))))).
Proof.
  intros Ha Ho Hd Hb. pose proof (inv_initial d adds others Ha Ho Hd) as Hi. fold cs in Hi.
  assert (Hb0 : Z.of_nat (budget (initial cs)) < 2 ^ 32) by by rewrite initial_budget.
  split; [by eapply run_no_crash|]. intros s Hr.
  destruct (run_inv _ _ _ _ _ _ _ _ Hi Hb0 Hr) as (c & ps & w & Hi' & _ & Hp). split.
  { revert Hp. unfold potential at 2. cbn [from_option]. unfold steps_bound, cs. cbn.
    rewrite map_map. cbn. intros. lia. }
  intros Hst. split; [apply Forall_lookup; intros i t Hit; by eapply stuck_ended|].
  pose proof (q_hands _ (i_queue _ _ _ _ _ _ Hi')) as Hh.
  rewrite (stuck_in_hands _ _ _ _ _ _ Hi' Hst), app_nil_r in Hh. split; [done|].
  split; [by rewrite (q_fifo _ (i_queue _ _ _ _ _ _ Hi')), Hh|].
  intros ->. rewrite (q_fifo _ (i_queue _ _ _ _ _ _ Hi')).
  replace (queued (sh s)) with (@nil msg); [by rewrite app_nil_r|].
  pose proof (stuck_controller _ _ _ _ _ _ Hi' Hst) as Ec.
  destruct (i_mutex _ _ _ _ _ _ Hi') as [Hdel _]. unfold queued.
  rewrite (Hdel 0%nat c); [done|by eapply thread_controller, i_threads, Hi'|by rewrite Ec].
Qed.

(** ** Runs *)

Definition can_run (s : system) (tid : nat) : bool :=
  match step (Run tid 0) s with Next _ => true | _ => false end.

(** The events of [n] steps in which the last thread that can go on does. *)
Fixpoint schedule (n : nat) (s : system) : list event :=
  match n with
  | O => []
  | S n' =>
      match List.find (can_run s) (reverse (seq 0 (List.length (threads s)))) with
      | Some tid => Run tid 0 :: match step (Run tid 0) s with Next s' => schedule n' s' | _ => [] end
      | None => []
      end
  end.

Definition one_user : list (list call) :=
  [[Start; AddData 1 4 11; AddData 2 4 12; AddData 3 4 13; Stop; Join; Destroy]].
Definition two_users : list (list call) :=
  [[Start; AddData 1 4 11; AddData 3 4 13; Stop; Join]; [AddData 2 4 12; AddData 0 4 14]].
Definition state_of (o : outcome) : system := match o with Next s => s | _ => initial [] end.

Lemma queueing_fifo_witness : exists es s, run es (initial one_user) = Next s /\
  added (trace (sh s)) = [11; 12] /\
  added (trace (sh s)) = taken (trace (sh s)) ++ queued (sh s).
Proof.
  exists (schedule 40 (initial one_user)), (state_of (run (schedule 40 (initial one_user)) (initial one_user))).
  split; [vm_compute; reflexivity|]. split; [vm_compute; reflexivity|].
  apply (queueing_fifo one_user (schedule 40 (initial one_user))); vm_compute; reflexivity.
Defined.

(** All the threads run until none can go on; the worker took all the messages. *)
Lemma shutdown_completes_witness : exists es s, run es (initial one_user) = Next s /\
  destroyed (trace (sh s)) = [11; 12; 13] /\ (List.length es <= 189)%nat.
Proof.
  exists (schedule 200 (initial one_user)), (state_of (run (schedule 200 (initial one_user)) (initial one_user))).
  split; [vm_compute; reflexivity|]. split; [vm_compute; reflexivity|].
  pose proof (shutdown_completes true [AddData 1 4 11; AddData 2 4 12; AddData 3 4 13] []
    (schedule 200 (initial one_user))) as H. cbn [app last_calls] in H. fold one_user in H.
  destruct H as [_ H]; [by repeat constructor|constructor|done|vm_compute; reflexivity|].
  destruct (H _ ltac:(vm_compute; reflexivity)) as [Hb _]. revert Hb. vm_compute. lia.
Defined.

(** The controlled use is needed. A message that another thread adds while [Stop]
    waits wakes [Stop] instead of the worker: [Stop] returns while the worker still
    runs, and [Destroy] without a [Join] in between frees what the worker then uses. *)
Example stop_returns_early :
  let cs := [[Start; Stop; Destroy]; [AddData 1 4 11]] in
  let before := repeat (Run 0 0) 6 ++ repeat (Run 2 0) 1 ++ repeat (Run 0 0) 6 in
  let adds := repeat (Run 1 0) 6 in
  exists s, run (before ++ adds ++ repeat (Run 0 0) 2) (initial cs) = Next s /\
    map at_pc (threads s) = [Stopping S_done; Add (A_done CA_STATUS_OK); Base B_lock] /\
    run (repeat (Run 0 0) 9 ++ repeat (Run 2 0) 7) s = Crash.
Proof. eexists. split; [vm_compute; reflexivity|]. split; vm_compute; reflexivity. Qed.

End QueueingRuns.
