(* ===== verification/Base64.v ===== *)
(** * Base64 ([util/base64.c])

    The encoder and the decoder as they run on buffers: every read of the input
    and every write of the output goes through [load] and [store], so the value
    [None] is an access outside an array.  A [NULL] argument is [None].  The
    functions return the result code, the output buffer and [*outLen]. *)

From S2P Require Import Prelude.

Module Base64.

Inductive B64Result : Type :=
| B64_OK | B64_INVALID_PARAM | B64_OUTPUT_BUFFER_TOO_SMALL | B64_ERROR.

#[export] Instance B64Result_eq_dec : EqDecision B64Result.
Proof. solve_decision. Defined.

Definition g_b64TransTbl : list Z :=
  codes "ABCDEFGHIJKLMNOPQRSTUVWXYZabcdefghijklmnopqrstuvwxyz0123456789+/".

(** The buffer sizes the header offers to callers. *)
Definition B64ENCODE_OUT_SAFESIZE (x : Z) : Z := (x + 3 - 1) / 3 * 4 + 1.
Definition B64DECODE_OUT_SAFESIZE (x : Z) : Z := x * 3 / 4.

Definition pad : Z := 61.  (* '=' *)

(** Encodes the [len] (at most 3) bytes at [inp + io] to [out + oo]. *)
Definition b64EncodeBlk (inp : list Z) (io : Z) (out : list Z) (oo len : Z) :
    option (B64Result * list Z) :=
  if len =? 0 then Some (B64_INVALID_PARAM, out)
  else
    a ← load inp io;
    c0 ← load g_b64TransTbl (Z.shiftr a 2);
    out ← store out oo c0;
    c1 ← (if len =? 1 then load g_b64TransTbl (Z.shiftl (Z.land a 3) 4)
          else b ← load inp (io + 1);
               load g_b64TransTbl
                 (Z.lor (Z.shiftl (Z.land a 3) 4) (Z.shiftr (Z.land b 240) 4)));
    out ← store out (oo + 1) c1;
    c2 ← (if len =? 2 then
            b ← load inp (io + 1); load g_b64TransTbl (Z.shiftl (Z.land b 15) 2)
          else if 1 <? len then
            b ← load inp (io + 1); c ← load inp (io + 2);
            load g_b64TransTbl
              (Z.lor (Z.shiftl (Z.land b 15) 2) (Z.shiftr (Z.land c 192) 6))
          else Some pad);
    out ← store out (oo + 2) c2;
    c3 ← (if 2 <? len then c ← load inp (io + 2); load g_b64TransTbl (Z.land c 63)
          else Some pad);
    out ← store out (oo + 3) c3;
    Some (B64_OK, out).

(** [for (i = 0; i < inLen / 3; i++)], [n] turns from [i] on. *)
Fixpoint encode_loop (n : nat) (i : Z) (inp out : list Z) : option (B64Result * list Z) :=
  match n with
  | O => Some (B64_OK, out)
  | S n' =>
      '(r, out') ← b64EncodeBlk inp (i * 3) out (i * 4) 3;
      match r with
      | B64_OK => encode_loop n' (i + 1) inp out'
      | _ => Some (B64_INVALID_PARAM, out')
      end
  end.

Definition b64Encode (inp outBuf : option (list Z)) :
    option (B64Result * option (list Z) * Z) :=
  match inp, outBuf with
  | Some inp, Some buf =>
      let inLen := Z.of_nat (List.length inp) in
      let outLen := if (inLen / 3) * 3 =? inLen then size_t ((inLen / 3) * 4)
                    else size_t ((inLen / 3 + 1) * 4) in
      let minBufSize := size_t (outLen + 1) in
      if Z.of_nat (List.length buf) <? minBufSize
      then Some (B64_OUTPUT_BUFFER_TOO_SMALL, outBuf, outLen)
      else
        let i := inLen / 3 in
        '(r, buf) ← encode_loop (Z.to_nat i) 0 inp buf;
        match r with
        | B64_OK =>
            '(r, buf) ← (if i * 3 =? inLen then Some (B64_OK, buf)
                         else b64EncodeBlk inp (i * 3) buf (i * 4) (inLen - i * 3));
            match r with
            | B64_OK => buf ← store buf outLen 0; Some (B64_OK, Some buf, outLen)
            | _ => Some (B64_INVALID_PARAM, Some buf, outLen)
            end
        | _ => Some (B64_INVALID_PARAM, Some buf, outLen)
        end
  | _, _ => Some (B64_INVALID_PARAM, outBuf, 0)
  end.

Definition b64GetVal (c : Z) : Z :=
  if (65 <=? c) && (c <=? 90) then c - 65
  else if (97 <=? c) && (c <=? 122) then c - 97 + 26
  else if (48 <=? c) && (c <=? 57) then c - 48 + 52
  else if c =? 43 then 62
  else if c =? 47 then 63
  else if c =? pad then 0
  else 0.

(** The test of one character of [isValidB64EncodedString]. *)
Definition b64_letter (c : Z) : bool :=
  negb (((c <? 65) || (90 <? c)) && ((c <? 97) || (122 <? c)) &&
        ((c <? 48) || (57 <? c)) && negb (c =? 43) && negb (c =? 47) &&
        negb (c =? pad)).

(** The loop of [isValidB64EncodedString], [n] turns from [i] on. *)
Fixpoint valid_loop (n : nat) (i : Z) (inp : list Z) (inLen : Z) : option B64Result :=
  match n with
  | O => Some B64_OK
  | S n' =>
      c ← load inp i;
      if negb (b64_letter c) then Some B64_ERROR
      else if c =? pad then
        if i <? size_t (inLen - 2) then Some B64_ERROR
        else if i =? size_t (inLen - 2) then
          c' ← load inp (i + 1);
          if negb (c' =? pad) then Some B64_ERROR
          else valid_loop n' (i + 1) inp inLen
        else valid_loop n' (i + 1) inp inLen
      else valid_loop n' (i + 1) inp inLen
  end.

Definition isValidB64EncodedString (inp : list Z) (inLen : Z) : option B64Result :=
  if negb (inLen mod 4 =? 0) then Some B64_ERROR
  else valid_loop (Z.to_nat inLen) 0 inp inLen.

Definition b64DecodeBlk (inp : list Z) (io : Z) (out : list Z) (oo : Z) :
    option (B64Result * list Z) :=
  c0 ← load inp io; c1 ← load inp (io + 1);
  c2 ← load inp (io + 2); c3 ← load inp (io + 3);
  let val := Z.lor (Z.lor (Z.lor (u32 (Z.shiftl (b64GetVal c0) 18))
                                 (u32 (Z.shiftl (b64GetVal c1) 12)))
                          (u32 (Z.shiftl (b64GetVal c2) 6))) (b64GetVal c3) in
  out ← store out oo (Z.land (Z.shiftr val 16) 255);
  out ← (if negb (c2 =? pad) then store out (oo + 1) (Z.land (Z.shiftr val 8) 255)
         else Some out);
  out ← (if negb (c3 =? pad) then store out (oo + 2) (Z.land val 255) else Some out);
  Some (B64_OK, out).

Fixpoint decode_loop (n : nat) (i : Z) (inp out : list Z) : option (B64Result * list Z) :=
  match n with
  | O => Some (B64_OK, out)
  | S n' =>
      '(r, out') ← b64DecodeBlk inp (i * 4) out (i * 3);
      match r with
      | B64_OK => decode_loop n' (i + 1) inp out'
      | _ => Some (B64_INVALID_PARAM, out')
      end
  end.

Definition b64Decode (inp outBuf : option (list Z)) :
    option (B64Result * option (list Z) * Z) :=
  match inp, outBuf with
  | Some inp, Some buf =>
      let inLen := Z.of_nat (List.length inp) in
      v ← isValidB64EncodedString inp inLen;
      if negb (bool_decide (v = B64_OK)) then Some (B64_INVALID_PARAM, outBuf, 0)
      else
        let outLen := (inLen / 4) * 3 in
        (* [minBufSize] and [*outLen] are computed alike *)
        outLen ← (if negb (inLen =? 0) then
                    c1 ← load inp (inLen - 1);
                    c2 ← load inp (inLen - 2);
                    Some (outLen - (if c1 =? pad then 1 else 0)
                                 - (if c2 =? pad then 1 else 0))
                  else Some outLen);
        if Z.of_nat (List.length buf) <? outLen
        then Some (B64_OUTPUT_BUFFER_TOO_SMALL, outBuf, outLen)
        else
          '(r, buf) ← decode_loop (Z.to_nat (inLen / 4)) 0 inp buf;
          match r with
          | B64_OK => Some (B64_OK, Some buf, outLen)
          | _ => Some (B64_INVALID_PARAM, Some buf, outLen)
          end
  | _, _ => Some (B64_INVALID_PARAM, outBuf, 0)
  end.

(** ** The encoding as a function on byte strings *)

Definition tchar (v : Z) : Z := default 0 (load g_b64TransTbl v).

(** One block of three bytes, and the one or two bytes that may be left. *)
Definition enc3 (x : Z * Z * Z) : list Z :=
  let '(a, b, c) := x in
  [tchar (a / 4); tchar (a mod 4 * 16 + b / 16);
   tchar (b mod 16 * 4 + c / 64); tchar (c mod 64)].

Definition enc_tail (l : list Z) : list Z :=
  match l with
  | [a] => [tchar (a / 4); tchar (a mod 4 * 16); pad; pad]
  | [a; b] => [tchar (a / 4); tchar (a mod 4 * 16 + b / 16);
               tchar (b mod 16 * 4); pad]
  | _ => []
  end.

Definition flat3 (x : Z * Z * Z) : list Z := let '(a, b, c) := x in [a; b; c].

(** The full blocks of a byte string and what is left. *)
Fixpoint split3 (l : list Z) : list (Z * Z * Z) * list Z :=
  match l with
  | a :: b :: c :: r => let '(bs, t) := split3 r in ((a, b, c) :: bs, t)
  | _ => ([], l)
  end.

Definition enc (l : list Z) : list Z :=
  let '(bs, t) := split3 l in flat_map enc3 bs ++ enc_tail t.

Definition byte (b : Z) : Prop := in_width 8 b.
Definition sextet (v : Z) : Prop := 0 <= v < 64.

Lemma chunks3_ind (P : list Z -> Prop) :
  P [] -> (forall a, P [a]) -> (forall a b, P [a; b]) ->
  (forall a b c r, P r -> P (a :: b :: c :: r)) -> forall l, P l.
Proof.
  intros H0 H1 H2 H3. fix IH 1. intros [|a [|b [|c r]]]; [done..|]. apply H3, IH.
Qed.

Lemma split3_spec l : l = flat_map flat3 (split3 l).1 ++ (split3 l).2 /\
  (List.length (split3 l).2 < 3)%nat.
Proof.
  induction l as [| | |a b c r IH] using chunks3_ind; simpl; try (split; [done|lia]).
  destruct (split3 r) as [bs t]. simpl in *. destruct IH as [-> ?]. done.
Qed.

(** ** Facts about sextets, by evaluation on their 64 values *)

Lemma tbl_some v : sextet v -> load g_b64TransTbl v = Some (tchar v).
Proof. by apply (range_forall (fun v => load g_b64TransTbl v = Some (tchar v)) 64). Qed.

Lemma getval_tchar v : sextet v -> b64GetVal (tchar v) = v.
Proof. by apply (range_forall (fun v => b64GetVal (tchar v) = v) 64). Qed.

(** Table characters are letters of the alphabet and not padding. *)
Definition plain (c : Z) : bool := b64_letter c && negb (c =? pad).

Lemma plain_tchar v : sextet v -> plain (tchar v) = true.
Proof. by apply (range_forall (fun v => plain (tchar v) = true) 64). Qed.

Lemma land_f0 b : byte b -> Z.shiftr (Z.land b 240) 4 = b / 16.
Proof. by apply (range_forall (fun b => Z.shiftr (Z.land b 240) 4 = b / 16) 256). Qed.

Lemma land_c0 b : byte b -> Z.shiftr (Z.land b 192) 6 = b / 64.
Proof. by apply (range_forall (fun b => Z.shiftr (Z.land b 192) 6 = b / 64) 256). Qed.

Ltac byte_lia :=
  unfold byte, sextet, in_width in *; Z.to_euclidean_division_equations; lia.

Lemma land3 a : Z.land a 3 = a mod 4.
Proof. by apply (Z.land_ones a 2). Qed.
Lemma land15 a : Z.land a 15 = a mod 16.
Proof. by apply (Z.land_ones a 4). Qed.
Lemma land63 a : Z.land a 63 = a mod 64.
Proof. by apply (Z.land_ones a 6). Qed.
Lemma land255 a : Z.land a 255 = a mod 256.
Proof. by apply (Z.land_ones a 8). Qed.

Lemma idx0 a : Z.shiftr a 2 = a / 4.
Proof. by rewrite Z.shiftr_div_pow2. Qed.
Lemma idx1_last a : Z.shiftl (Z.land a 3) 4 = a mod 4 * 16.
Proof. by rewrite Z.shiftl_mul_pow2, land3 by lia. Qed.
Lemma idx2_last b : Z.shiftl (Z.land b 15) 2 = b mod 16 * 4.
Proof. by rewrite Z.shiftl_mul_pow2, land15 by lia. Qed.

Lemma idx1 a b : byte b ->
  Z.lor (Z.shiftl (Z.land a 3) 4) (Z.shiftr (Z.land b 240) 4) = a mod 4 * 16 + b / 16.
Proof. intros H. by rewrite land_f0, lor_shiftl_add, land3 by (done || byte_lia). Qed.

Lemma idx2 b c : byte c ->
  Z.lor (Z.shiftl (Z.land b 15) 2) (Z.shiftr (Z.land c 192) 6) = b mod 16 * 4 + c / 64.
Proof. intros H. by rewrite land_c0, lor_shiftl_add, land15 by (done || byte_lia). Qed.

(** The 24 bits of a block from its four sextets. *)
Lemma val_spec v0 v1 v2 v3 : sextet v0 -> sextet v1 -> sextet v2 -> sextet v3 ->
  Z.lor (Z.lor (Z.lor (u32 (Z.shiftl v0 18)) (u32 (Z.shiftl v1 12)))
    (u32 (Z.shiftl v2 6))) v3 = ((v0 * 64 + v1) * 64 + v2) * 64 + v3.
Proof.
  unfold sextet. intros. rewrite !wrap_id
    by (unfold in_width; rewrite Z.shiftl_mul_pow2 by lia; lia).
  rewrite (lor_shiftl_add v0) by (rewrite ?Z.shiftl_mul_pow2; lia).
  replace (v0 * 2 ^ 18 + Z.shiftl v1 12) with (Z.shiftl (v0 * 64 + v1) 12)
    by (rewrite !Z.shiftl_mul_pow2 by lia; lia).
  rewrite lor_shiftl_add by (rewrite ?Z.shiftl_mul_pow2; lia).
  replace ((v0 * 64 + v1) * 2 ^ 12 + Z.shiftl v2 6)
    with (Z.shiftl ((v0 * 64 + v1) * 64 + v2) 6)
    by (rewrite !Z.shiftl_mul_pow2 by lia; lia).
  rewrite lor_shiftl_add by lia. lia.
Qed.

Lemma out_byte x k : 0 <= k -> Z.land (Z.shiftr x k) 255 = (x / 2 ^ k) mod 256.
Proof. intros. by rewrite Z.shiftr_div_pow2, land255 by lia. Qed.

Lemma encode_blk3 pre a b c r opre w0 w1 w2 w3 post io oo :
  byte a -> byte b -> byte c ->
  io = Z.of_nat (List.length pre) -> oo = Z.of_nat (List.length opre) ->
  b64EncodeBlk (pre ++ a :: b :: c :: r) io (opre ++ w0 :: w1 :: w2 :: w3 :: post) oo 3
    = Some (B64_OK, opre ++ enc3 (a, b, c) ++ post).
Proof.
  intros Ha Hb Hc Hio Hoo. unfold b64EncodeBlk. cbn [Z.eqb Z.ltb Z.compare Pos.compare Pos.compare_cont].
  offsets. simpl.
  rewrite idx0, (tbl_some (a / 4)) by byte_lia. simpl. offsets. simpl.
  rewrite idx1, (tbl_some (_ + b / 16)) by (done || byte_lia). simpl. offsets. simpl.
  rewrite idx2, (tbl_some (_ + c / 64)) by (done || byte_lia). simpl. offsets. simpl.
  rewrite land63, tbl_some by byte_lia. simpl. offsets. done.
Qed.

(** The last, partial block: one or two bytes, padded. *)
Lemma encode_blk_tail pre t opre w0 w1 w2 w3 post io oo :
  Forall byte t -> (0 < List.length t < 3)%nat ->
  io = Z.of_nat (List.length pre) -> oo = Z.of_nat (List.length opre) ->
  b64EncodeBlk (pre ++ t) io (opre ++ w0 :: w1 :: w2 :: w3 :: post) oo
    (Z.of_nat (List.length t)) = Some (B64_OK, opre ++ enc_tail t ++ post).
Proof.
  intros Ht Hn Hio Hoo. destruct t as [|a [|b [|]]]; simpl in Hn; try lia;
    unfold b64EncodeBlk; simpl.
  - apply Forall_cons in Ht as [Ha _].
    offsets. simpl. rewrite idx0, (tbl_some (a / 4)) by byte_lia. simpl. offsets. simpl.
    rewrite idx1_last, tbl_some by byte_lia. simpl. offsets. simpl. offsets. simpl.
    offsets. done.
  - apply Forall_cons in Ht as [Ha Ht]. apply Forall_cons in Ht as [Hb _].
    offsets. simpl. rewrite idx0, (tbl_some (a / 4)) by byte_lia. simpl. offsets. simpl.
    rewrite idx1, (tbl_some (_ + b / 16)) by (done || byte_lia). simpl. offsets. simpl.
    rewrite idx2_last, tbl_some by byte_lia. simpl. offsets. simpl. offsets. done.
Qed.

Definition byte3 (x : Z * Z * Z) : Prop := Forall byte (flat3 x).

Lemma length_flat3 bs : List.length (flat_map flat3 bs) = (3 * List.length bs)%nat.
Proof. induction bs as [|[[a b] c] bs IH]; simpl; lia. Qed.

Lemma length_enc3 bs : List.length (flat_map enc3 bs) = (4 * List.length bs)%nat.
Proof. induction bs as [|[[a b] c] bs IH]; simpl; lia. Qed.

Lemma app3 {A} (l k : list A) x y z : l ++ x :: y :: z :: k = (l ++ [x; y; z]) ++ k.
Proof. by rewrite <- app_assoc. Qed.

Lemma app4 {A} (l k : list A) x y z w :
  l ++ x :: y :: z :: w :: k = (l ++ [x; y; z; w]) ++ k.
Proof. by rewrite <- app_assoc. Qed.

Lemma encode_loop_spec bs : forall i pre rest opre obuf,
  Forall byte3 bs -> i * 3 = Z.of_nat (List.length pre) ->
  i * 4 = Z.of_nat (List.length opre) ->
  (4 * List.length bs <= List.length obuf)%nat ->
  encode_loop (List.length bs) i (pre ++ flat_map flat3 bs ++ rest) (opre ++ obuf)
    = Some (B64_OK, opre ++ flat_map enc3 bs ++ drop (4 * List.length bs) obuf).
Proof.
  induction bs as [|[[a b] c] bs IH]; intros i pre rest opre obuf Hb Hi Ho Hl.
  - done.
  - apply Forall_cons in Hb as [Hx Hb]. unfold byte3 in Hx. simpl in Hx.
    rewrite !Forall_cons in Hx. destruct Hx as (Ha & Hbb & Hc & _).
    destruct obuf as [|w0 [|w1 [|w2 [|w3 obuf]]]]; simpl in Hl; try lia.
    cbn [List.length encode_loop flat_map flat3 app].
    rewrite (encode_blk3 pre a b c) by done. simpl mbind.
    rewrite (app3 pre), (app4 opre _ (tchar (a / 4))).
    rewrite (IH (i + 1)) by (rewrite ?length_app; simpl in *; (done || lia)).
    replace (4 * S (List.length bs))%nat with (4 + 4 * List.length bs)%nat by lia.
    by rewrite <- app_assoc.
Qed.

Lemma length_enc l :
  Z.of_nat (List.length (enc l)) =
    let n := Z.of_nat (List.length l) in
    if (n / 3) * 3 =? n then (n / 3) * 4 else (n / 3 + 1) * 4.
Proof.
  destruct (split3_spec l) as [Hl Ht]. unfold enc. destruct (split3 l) as [bs t].
  simpl in *. subst l. rewrite !length_app, length_flat3, length_enc3.
  replace (Z.of_nat (3 * List.length bs + List.length t) / 3)
    with (Z.of_nat (List.length bs)) by (Z.to_euclidean_division_equations; lia).
  destruct t as [|a [|b [|]]]; simpl List.length in *; try lia; cbv zeta;
    match goal with |- context [?x =? ?y] => destruct (Z.eqb_spec x y) end; lia.
Qed.

Lemma bytes_split3 l : Forall byte l -> Forall byte3 (split3 l).1 /\ Forall byte (split3 l).2.
Proof.
  intros Hb. destruct (split3_spec l) as [Hl _]. rewrite Hl, Forall_app in Hb.
  destruct Hb as [Hb ?]. split; [|done]. clear -Hb.
  induction (split3 l).1 as [|x bs IH]; [done|]. simpl in Hb. rewrite Forall_app in Hb.
  destruct Hb. constructor; auto.
Qed.

(** The loop and the last block together write the encoding. *)
Lemma encode_body bs t out rest inLen :
  Forall byte3 bs -> Forall byte t -> (List.length t < 3)%nat ->
  inLen = 3 * Z.of_nat (List.length bs) + Z.of_nat (List.length t) ->
  List.length out = (4 * List.length bs + List.length (enc_tail t))%nat ->
  exists r,
    encode_loop (Z.to_nat (inLen / 3)) 0 (flat_map flat3 bs ++ t) (out ++ rest)
      = Some (B64_OK, r) /\
    (if inLen / 3 * 3 =? inLen then Some (B64_OK, r)
     else b64EncodeBlk (flat_map flat3 bs ++ t) (inLen / 3 * 3) r (inLen / 3 * 4)
            (inLen - inLen / 3 * 3))
    = Some (B64_OK, (flat_map enc3 bs ++ enc_tail t) ++ rest).
Proof.
  intros Hbs Hbt Ht Hin Ho.
  assert (Hdiv : inLen / 3 = Z.of_nat (List.length bs))
    by (Z.to_euclidean_division_equations; lia).
  rewrite Hdiv, Nat2Z.id.
  pose proof (encode_loop_spec bs 0 [] t [] (out ++ rest) Hbs) as Hloop.
  cbn [app] in Hloop. rewrite Hloop by (rewrite ?length_app; (done || lia)). clear Hloop.
  eexists. split; [reflexivity|]. rewrite drop_app_le by lia.
  destruct t as [|a t].
  - simpl in Ho. rewrite drop_ge by lia. rewrite !app_nil_r. simpl in Hin.
    by rewrite (proj2 (Z.eqb_eq _ _)) by lia.
  - rewrite (proj2 (Z.eqb_neq _ _)) by (simpl List.length in *; lia).
    replace (inLen - Z.of_nat (List.length bs) * 3)
      with (Z.of_nat (List.length (a :: t))) by lia.
    assert (Hw : List.length (drop (4 * List.length bs) out) = 4%nat).
    { rewrite length_drop, Ho. destruct t as [|b [|]]; simpl in *; lia. }
    destruct (drop (4 * List.length bs) out) as [|w0 [|w1 [|w2 [|w3 [|]]]]]; try done.
    cbn [app].
    rewrite (encode_blk_tail (flat_map flat3 bs) (a :: t) (flat_map enc3 bs))
      by (rewrite ?length_flat3, ?length_enc3; simpl in *; (done || lia)).
    by rewrite <- app_assoc.
Qed.

Lemma b64Encode_spec l buf : Forall byte l -> Z.of_nat (List.length l) < 2 ^ 62 ->
  (List.length (enc l) < List.length buf)%nat ->
  b64Encode (Some l) (Some buf) =
    Some (B64_OK, Some (enc l ++ 0 :: drop (S (List.length (enc l))) buf),
          Z.of_nat (List.length (enc l))).
Proof.
  intros Hb Hsz Hbuf. pose proof (length_enc l) as Hlen. cbv zeta in Hlen.
  unfold b64Encode. set (inLen := Z.of_nat (List.length l)) in *.
  replace (if inLen / 3 * 3 =? inLen then _ else _)
    with (Z.of_nat (List.length (enc l)));
    [|rewrite Hlen; case_match; rewrite wrap_id; try done;
      clearbody inLen; unfold in_width; Z.to_euclidean_division_equations; lia].
  assert (Hlt : Z.of_nat (List.length (enc l)) + 1 < 2 ^ 64).
  { rewrite Hlen. clear Hlen. clearbody inLen.
    case_match; Z.to_euclidean_division_equations; lia. }
  rewrite (wrap_id 64 (_ + 1)) by (unfold in_width; lia).
  destruct (Z.ltb_spec (Z.of_nat (List.length buf)) (Z.of_nat (List.length (enc l)) + 1));
    [lia|].
  destruct (split_block buf (List.length (enc l))) as (out & rest & -> & Hout); [lia|].
  rewrite length_app in Hbuf. destruct rest as [|w rest]; [simpl in *; lia|].
  destruct (bytes_split3 l Hb) as [Hbs Hbt]. destruct (split3_spec l) as [Hl Ht].
  unfold enc in *. destruct (split3 l) as [bs t]. simpl in Hbs, Hbt, Hl, Ht.
  destruct (encode_body bs t out (w :: rest) inLen) as (r & Hloop & Hr); [done..| | |].
  { unfold inLen. rewrite Hl, length_app, length_flat3. lia. }
  { by rewrite Hout, length_app, length_enc3. }
  rewrite <- Hl in Hloop, Hr. rewrite Hloop. simpl mbind. rewrite Hr. simpl mbind. rewrite store_app by done. simpl mbind.
  rewrite drop_app_ge by lia. by replace (S _ - _)%nat with 1%nat by lia.
Qed.

(** ** Decoding the encoding *)

Lemma tchar_not_pad v : sextet v -> (tchar v =? pad) = false.
Proof.
  intros Hv. pose proof (plain_tchar v Hv) as Hp. unfold plain in Hp.
  by destruct (tchar v =? pad); [rewrite andb_false_r in Hp|].
Qed.

Lemma block_val a b c : byte a -> byte b -> byte c ->
  ((a / 4 * 64 + (a mod 4 * 16 + b / 16)) * 64 + (b mod 16 * 4 + c / 64)) * 64 + c mod 64
  = (a * 256 + b) * 256 + c.
Proof. intros. byte_lia. Qed.

Lemma block_bytes a b c : byte a -> byte b -> byte c ->
  let v := (a * 256 + b) * 256 + c in
  (v / 2 ^ 16) mod 256 = a /\ (v / 2 ^ 8) mod 256 = b /\ v mod 256 = c.
Proof.
  intros Ha Hb Hc v. subst v. change (2 ^ 16) with (256 * 256). change (2 ^ 8) with 256.
  rewrite <- Z.div_div, !Z.div_add_l, (Z.div_small c), Z.add_0_r by byte_lia.
  rewrite Z.div_add_l, (Z.div_small b) by byte_lia. byte_lia.
Qed.

(** A full block gives its three bytes back. *)
Lemma decode_blk3 pre a b c r opre w0 w1 w2 post io oo :
  byte a -> byte b -> byte c ->
  io = Z.of_nat (List.length pre) -> oo = Z.of_nat (List.length opre) ->
  b64DecodeBlk (pre ++ enc3 (a, b, c) ++ r) io (opre ++ w0 :: w1 :: w2 :: post) oo
    = Some (B64_OK, opre ++ [a; b; c] ++ post).
Proof.
  intros Ha Hb Hc Hio Hoo. unfold b64DecodeBlk. simpl enc3.
  simpl app. offsets. simpl.
  rewrite !getval_tchar, val_spec by byte_lia.
  rewrite !tchar_not_pad by byte_lia. simpl.
  rewrite !out_byte, land255, block_val by (done || lia).
  destruct (block_bytes a b c) as (-> & -> & ->); [done..|].
  offsets. simpl. offsets. simpl. offsets. done.
Qed.

Lemma decode_blk_tail pre t opre w post io oo :
  Forall byte t -> (0 < List.length t < 3)%nat -> List.length w = List.length t ->
  io = Z.of_nat (List.length pre) -> oo = Z.of_nat (List.length opre) ->
  b64DecodeBlk (pre ++ enc_tail t) io (opre ++ w ++ post) oo
    = Some (B64_OK, opre ++ t ++ post).
Proof.
  intros Ht Hn Hw Hio Hoo. destruct t as [|a [|b [|]]]; simpl in Hn; try lia.
  - apply Forall_cons in Ht as [Ha _]. destruct w as [|w0 [|]]; try done.
    unfold b64DecodeBlk. simpl app. offsets. simpl.
    change (b64GetVal pad) with 0. rewrite !getval_tchar, val_spec by byte_lia.
    rewrite out_byte by lia.
    pose proof (block_val a 0 0 Ha) as Hv. rewrite !Z.add_0_r in Hv.
    rewrite !Z.add_0_r, Hv by done.
    destruct (block_bytes a 0 0) as (Hb & _); [done..|]. rewrite !Z.add_0_r in Hb.
    rewrite Hb. offsets. done.
  - apply Forall_cons in Ht as [Ha Ht]. apply Forall_cons in Ht as [Hb _].
    destruct w as [|w0 [|w1 [|]]]; try done.
    unfold b64DecodeBlk. simpl app. offsets. simpl.
    change (b64GetVal pad) with 0. rewrite !getval_tchar, val_spec by byte_lia.
    rewrite tchar_not_pad by byte_lia. simpl. rewrite !out_byte by lia.
    pose proof (block_val a b 0 Ha Hb) as Hv. rewrite !Z.add_0_r in Hv.
    rewrite !Z.add_0_r, Hv by done.
    destruct (block_bytes a b 0) as (Hb1 & Hb2 & _); [done..|]. rewrite !Z.add_0_r in Hb1, Hb2.
    rewrite Hb1, Hb2. offsets. simpl. offsets. done.
Qed.

Lemma decode_loop_spec bs : forall m i pre r opre obuf,
  Forall byte3 bs -> i * 4 = Z.of_nat (List.length pre) ->
  i * 3 = Z.of_nat (List.length opre) ->
  (3 * List.length bs <= List.length obuf)%nat ->
  decode_loop (List.length bs + m) i (pre ++ flat_map enc3 bs ++ r) (opre ++ obuf)
    = decode_loop m (i + Z.of_nat (List.length bs)) (pre ++ flat_map enc3 bs ++ r)
        (opre ++ flat_map flat3 bs ++ drop (3 * List.length bs) obuf).
Proof.
  induction bs as [|[[a b] c] bs IH]; intros m i pre r opre obuf Hb Hi Ho Hl.
  - simpl. by rewrite Z.add_0_r.
  - apply Forall_cons in Hb as [Hx Hb]. unfold byte3 in Hx. simpl in Hx.
    rewrite !Forall_cons in Hx. destruct Hx as (Ha & Hbb & Hc & _).
    destruct obuf as [|w0 [|w1 [|w2 obuf]]]; simpl in Hl; try lia.
    cbn [flat_map]. cbn [List.length decode_loop Nat.add]. rewrite <- (app_assoc (enc3 _)).
    rewrite (decode_blk3 pre a b c) by done. simpl mbind.
    cbn [app]. rewrite (app3 opre).
    rewrite (app4 pre).
    rewrite (IH m (i + 1)) by (rewrite ?length_app; simpl in *; (done || lia)).
    replace (3 * S (List.length bs))%nat with (3 + 3 * List.length bs)%nat by lia.
    f_equal; [lia|by rewrite <- !app_assoc..].
Qed.

(** Letters that are not padding pass the validity test one by one. *)
Lemma valid_plain cs : forall n i pre r L, i = Z.of_nat (List.length pre) ->
  Forall (fun c => plain c = true) cs ->
  valid_loop (List.length cs + n) i (pre ++ cs ++ r) L =
  valid_loop n (i + Z.of_nat (List.length cs)) (pre ++ cs ++ r) L.
Proof.
  induction cs as [|c cs IH]; intros n i pre r L Hi Hc.
  - simpl. by rewrite Z.add_0_r.
  - apply Forall_cons in Hc as [Hc Hcs]. unfold plain in Hc.
    apply andb_true_iff in Hc as [Hl Hp]. apply negb_true_iff in Hp.
    cbn [List.length Nat.add valid_loop app]. rewrite (load_app pre c _ i) by done. simpl mbind.
    rewrite Hl, Hp. simpl negb. cbv iota.
    replace (pre ++ c :: cs ++ r) with ((pre ++ [c]) ++ cs ++ r) by by rewrite <- app_assoc.
    rewrite IH by (rewrite ?length_app; simpl; (done || lia)). f_equal. lia.
Qed.

Lemma plain_enc3 bs : Forall byte3 bs -> Forall (fun c => plain c = true) (flat_map enc3 bs).
Proof.
  induction 1 as [|[[a b] c] bs Hx _ IH]; [constructor|].
  unfold byte3 in Hx. simpl in Hx. rewrite !Forall_cons in Hx.
  destruct Hx as (Ha & Hb & Hc & _). cbn [flat_map]. apply Forall_app. split; [|done].
  repeat constructor; apply plain_tchar; byte_lia.
Qed.

Lemma valid_tail pre t L : Forall byte t -> (List.length t < 3)%nat -> L < 2 ^ 64 ->
  L = Z.of_nat (List.length (pre ++ enc_tail t)) ->
  valid_loop (List.length (enc_tail t)) (Z.of_nat (List.length pre)) (pre ++ enc_tail t) L
  = Some B64_OK.
Proof.
  intros Ht Hn Hlt HL. rewrite length_app in HL.
  destruct t as [|a [|b [|]]]; simpl in Hn; try lia.
  - done.
  - apply Forall_cons in Ht as [Ha _]. simpl in HL. cbn [enc_tail].
    pose proof (valid_plain [tchar (a / 4); tchar (a mod 4 * 16)] 2 _ pre [pad; pad] L eq_refl)
      as Hv. simpl app in Hv. simpl Nat.add in Hv. simpl List.length in *. rewrite Hv; clear Hv;
      [|repeat constructor; apply plain_tchar; byte_lia].
    cbn [valid_loop]. change (Z.of_nat 2) with 2. rewrite <- !Z.add_assoc. simpl (2 + _).
    offsets. simpl. rewrite wrap_id by (unfold in_width; lia).
    replace (L - 2) with (Z.of_nat (List.length pre) + 2) by lia.
    by rewrite Z.ltb_irrefl, Z.eqb_refl, (proj2 (Z.ltb_ge _ _)), (proj2 (Z.eqb_neq _ _)) by lia.
  - apply Forall_cons in Ht as [Ha Ht]. apply Forall_cons in Ht as [Hb _].
    simpl in HL. cbn [enc_tail].
    pose proof (valid_plain [tchar (a / 4); tchar (a mod 4 * 16 + b / 16); tchar (b mod 16 * 4)]
      1 _ pre [pad] L eq_refl) as Hv.
    simpl app in Hv. simpl Nat.add in Hv. simpl List.length in *. rewrite Hv; clear Hv;
      [|repeat constructor; apply plain_tchar; byte_lia].
    cbn [valid_loop]. change (Z.of_nat 3) with 3. rewrite <- !Z.add_assoc. simpl (3 + _).
    offsets. simpl. rewrite wrap_id by (unfold in_width; lia).
    by rewrite (proj2 (Z.ltb_ge _ _)), (proj2 (Z.eqb_neq _ _)) by lia.
Qed.

Lemma length_enc_nat l : List.length (enc l) =
  (4 * List.length (split3 l).1 + List.length (enc_tail (split3 l).2))%nat.
Proof.
  unfold enc. destruct (split3 l) as [bs t]. by rewrite length_app, length_enc3.
Qed.

Lemma length_enc_tail t : (List.length t < 3)%nat ->
  List.length (enc_tail t) = if decide (t = []) then 0%nat else 4%nat.
Proof. by destruct t as [|a [|b [|]]]; simpl; [..|lia]. Qed.

Lemma enc_valid l : Forall byte l -> Z.of_nat (List.length (enc l)) < 2 ^ 64 ->
  isValidB64EncodedString (enc l) (Z.of_nat (List.length (enc l))) = Some B64_OK.
Proof.
  intros Hb Hlt. destruct (bytes_split3 l Hb) as [Hbs Hbt].
  destruct (split3_spec l) as [_ Ht]. pose proof (length_enc_nat l) as Hn.
  unfold isValidB64EncodedString. rewrite Nat2Z.id. 
  assert (Z.of_nat (List.length (enc l)) mod 4 = 0) as ->.
  { rewrite Hn, length_enc_tail by done. case_decide;
      Z.to_euclidean_division_equations; lia. }
  simpl negb. cbv iota. unfold enc in *. destruct (split3 l) as [bs t]. simpl in Hbs, Hbt, Ht.
  rewrite length_app.
  pose proof (valid_plain (flat_map enc3 bs) (List.length (enc_tail t)) 0 [] (enc_tail t)
    (Z.of_nat (List.length (flat_map enc3 bs) + List.length (enc_tail t))) eq_refl
    (plain_enc3 bs Hbs)) as Hv.
  cbn [app] in Hv. rewrite Hv. apply valid_tail; try done.
  - by rewrite <- length_app.
  - by rewrite length_app.
Qed.

(** The last four characters of an encoding count the padding. *)
Lemma enc_last l : l <> [] -> Forall byte l ->
  exists pre k q0 q1 q2 q3, enc l = pre ++ [q0; q1; q2; q3] /\
    List.length pre = (4 * k)%nat /\
    Z.of_nat (k + 1) * 3 - (if q3 =? pad then 1 else 0) - (if q2 =? pad then 1 else 0)
    = Z.of_nat (List.length l).
Proof.
  intros Hne Hb. destruct (bytes_split3 l Hb) as [Hbs Hbt].
  destruct (split3_spec l) as [Hl Ht]. unfold enc. destruct (split3 l) as [bs t].
  simpl in Hbs, Hbt, Ht, Hl. rewrite Hl, length_app, length_flat3.
  destruct t as [|a [|b [|]]]; simpl in Ht; try lia.
  - destruct bs as [|[[a b] c] bs _] using rev_ind; [by subst|].
    apply Forall_app in Hbs as [_ [Hx _]%Forall_cons]. unfold byte3 in Hx. simpl in Hx.
    rewrite !Forall_cons in Hx. destruct Hx as (Ha & Hbb & Hc & _).
    exists (flat_map enc3 bs), (List.length bs). do 4 eexists. split_and!.
    + rewrite flat_map_app, app_nil_r. simpl. reflexivity.
    + apply length_enc3.
    + rewrite !tchar_not_pad by byte_lia. rewrite length_app. simpl. lia.
  - apply Forall_cons in Hbt as [Ha _].
    exists (flat_map enc3 bs), (List.length bs). do 4 eexists. split_and!;
      [reflexivity|apply length_enc3|]. rewrite !Z.eqb_refl. simpl. lia.
  - apply Forall_cons in Hbt as [Ha [Hbb _]%Forall_cons].
    exists (flat_map enc3 bs), (List.length bs). do 4 eexists. split_and!;
      [reflexivity|apply length_enc3|].
    rewrite Z.eqb_refl, tchar_not_pad by byte_lia. simpl. lia.
Qed.

(** The decode loop over an encoding. *)
Lemma decode_body bs t out rest :
  Forall byte3 bs -> Forall byte t -> (List.length t < 3)%nat ->
  List.length out = (3 * List.length bs + List.length t)%nat ->
  decode_loop (List.length bs + (if decide (t = []) then 0 else 1)) 0
    (flat_map enc3 bs ++ enc_tail t) (out ++ rest)
  = Some (B64_OK, (flat_map flat3 bs ++ t) ++ rest).
Proof.
  intros Hbs Hbt Ht Ho.
  pose proof (decode_loop_spec bs (if decide (t = []) then 0 else 1) 0 [] (enc_tail t) []
    (out ++ rest) Hbs eq_refl eq_refl) as Hd. cbn [app] in Hd.
  rewrite Hd by (rewrite length_app; lia). rewrite drop_app_le by lia.
  case_decide as Hnil.
  - subst t. simpl in Ho. rewrite drop_ge by lia. simpl. by rewrite !app_nil_r.
  - assert (0 < List.length t)%nat by (destruct t; [done|simpl; lia]).
    cbn [decode_loop]. rewrite decode_blk_tail;
      rewrite ?length_flat3, ?length_enc3, ?length_drop; try (done || lia).
    simpl. by rewrite <- app_assoc.
Qed.

Lemma b64Decode_enc l buf : Forall byte l -> Z.of_nat (List.length (enc l)) < 2 ^ 64 ->
  (List.length l <= List.length buf)%nat ->
  b64Decode (Some (enc l)) (Some buf) =
    Some (B64_OK, Some (l ++ drop (List.length l) buf), Z.of_nat (List.length l)).
Proof.
  intros Hb Hlt Hbuf. unfold b64Decode. rewrite enc_valid by done. simpl mbind.
  destruct (decide (l = [])) as [->|Hne]; [by destruct buf|].
  destruct (enc_last l Hne Hb) as (pre & k & q0 & q1 & q2 & q3 & He & Hk & Hpad).
  assert (Hlen : Z.of_nat (List.length (enc l)) = Z.of_nat (List.length pre) + 4).
  { rewrite He, length_app. simpl. lia. }
  rewrite (proj2 (Z.eqb_neq _ 0)) by lia. simpl negb. cbv iota.
  replace (Z.of_nat (List.length (enc l)) - 1) with (Z.of_nat (List.length pre) + 3) by lia.
  replace (Z.of_nat (List.length (enc l)) - 2) with (Z.of_nat (List.length pre) + 2) by lia.
  assert (load (enc l) (Z.of_nat (List.length pre) + 3) = Some q3) as -> by (rewrite He; by offsets).
  simpl mbind.
  assert (load (enc l) (Z.of_nat (List.length pre) + 2) = Some q2) as -> by (rewrite He; by offsets).
  simpl mbind.
  replace (Z.of_nat (List.length (enc l)) / 4) with (Z.of_nat (k + 1))
    by (rewrite Hlen, Hk; Z.to_euclidean_division_equations; lia).
  rewrite Hpad. rewrite (proj2 (Z.ltb_ge _ _)) by lia. rewrite Nat2Z.id.
  destruct (split_block buf (List.length l) Hbuf) as (out & rest & -> & Hout).
  rewrite <- Hout at 1. rewrite drop_app_length.
  destruct (bytes_split3 l Hb) as [Hbs Hbt]. destruct (split3_spec l) as [Hl Ht].
  pose proof (length_enc_nat l) as Hn. rewrite length_enc_tail in Hn by done.
  pose proof (decode_body (split3 l).1 (split3 l).2 out rest Hbs Hbt Ht) as Hd.
  replace (List.length (split3 l).1 + (if decide ((split3 l).2 = []) then 0 else 1))%nat
    with (k + 1)%nat in Hd by (case_decide; lia).
  rewrite <- Hl in Hd. unfold enc. rewrite (surjective_pairing (split3 l)) at 1.
  rewrite Hd; [done|]. rewrite Hout, Hl at 1. by rewrite length_app, length_flat3.
Qed.

Lemma enc_safesize l :
  Z.of_nat (List.length (enc l)) + 1 = B64ENCODE_OUT_SAFESIZE (Z.of_nat (List.length l)).
Proof.
  rewrite length_enc. unfold B64ENCODE_OUT_SAFESIZE. cbv zeta.
  destruct (Z.eqb_spec (Z.of_nat (List.length l) / 3 * 3) (Z.of_nat (List.length l)));
    Z.to_euclidean_division_equations; lia.
Qed.

(** C38: Round trip: with an output buffer of the advertised size, encoding a byte
    string succeeds and terminates the text with a zero; decoding that text into
    any buffer of the advertised size succeeds and yields exactly the original
    bytes and their number. *)
Theorem b64_roundtrip l buf dbuf :
  Forall byte l -> Z.of_nat (List.length l) < 2 ^ 62 ->
  B64ENCODE_OUT_SAFESIZE (Z.of_nat (List.length l)) <= Z.of_nat (List.length buf) ->
  exists text out n,
    b64Encode (Some l) (Some buf) = Some (B64_OK, Some out, n) /\
    take (Z.to_nat n) out = text /\ out !! Z.to_nat n = Some 0 /\
    (B64DECODE_OUT_SAFESIZE n <= Z.of_nat (List.length dbuf) ->
     exists out',
       b64Decode (Some text) (Some dbuf) =
         Some (B64_OK, Some out', Z.of_nat (List.length l)) /\
       take (List.length l) out' = l).
Proof.
  intros Hb Hsz Hbuf. pose proof (enc_safesize l) as Hs.
  assert (Hlt : Z.of_nat (List.length (enc l)) < 2 ^ 64).
  { unfold B64ENCODE_OUT_SAFESIZE in Hs. Z.to_euclidean_division_equations; lia. }
  eexists (enc l), _, _. rewrite b64Encode_spec by (done || lia). split_and!.
  - done.
  - by rewrite Nat2Z.id, take_app_length.
  - by rewrite Nat2Z.id, list_lookup_middle.
  - intros Hd. eexists. rewrite b64Decode_enc; [|done..|].
    + by rewrite take_app_length.
    + unfold B64DECODE_OUT_SAFESIZE, B64ENCODE_OUT_SAFESIZE in *.
      Z.to_euclidean_division_equations; lia.
Qed.

Lemma b64_roundtrip_witness :
  exists text out n,
    b64Encode (Some [255; 0; 7; 128]) (Some (replicate 9 33)) = Some (B64_OK, Some out, n) /\
    take (Z.to_nat n) out = text /\ out !! Z.to_nat n = Some 0 /\
    (B64DECODE_OUT_SAFESIZE n <= 6 ->
     exists out', b64Decode (Some text) (Some (replicate 6 0)) = Some (B64_OK, Some out', 4) /\
       take 4 out' = [255; 0; 7; 128]).
Proof.
  apply (b64_roundtrip [255; 0; 7; 128] (replicate 9 33) (replicate 6 0));
    [repeat constructor; done|done|done].
Defined.

(** ** Decoding untrusted text stays inside its buffers *)

(** What the validity test establishes about padding. *)
Definition pads_last (inp : list Z) (L : Z) (i : Z) : Prop :=
  forall j, i <= j < L -> load inp j = Some pad ->
    L - 2 <= j /\ (j = L - 2 -> load inp (L - 1) = Some pad).

Lemma valid_loop_safe n : forall i inp L, L = Z.of_nat (List.length inp) ->
  L < 2 ^ 64 -> 0 <= i -> i + Z.of_nat n = L -> (n <> O -> 2 <= L) ->
  exists r, valid_loop n i inp L = Some r /\ (r = B64_OK -> pads_last inp L i).
Proof.
  induction n as [|n IH]; intros i inp L HL Hlt Hi Hn H2; cbn [valid_loop].
  - eexists. split; [done|]. intros _ j. lia.
  - destruct (load_in inp i) as [c Hc]; [lia|]. rewrite Hc. simpl mbind.
    specialize (H2 ltac:(done)).
    destruct (IH (i + 1) inp L) as (r & Hr & Hp); [done|done|lia|lia|done|].
    assert (Hstep : (c = pad -> L - 2 <= i /\ (i = L - 2 -> load inp (L - 1) = Some pad)) ->
      r = B64_OK -> pads_last inp L i).
    { intros Hcp Hok j Hj Hjp. destruct (Z.eq_dec j i) as [->|]; [|apply Hp; [done|lia|done]].
      apply Hcp. congruence. }
    rewrite wrap_id by (unfold in_width; lia).
    destruct (b64_letter c); simpl; [|by eexists B64_ERROR].
    destruct (Z.eqb_spec c pad) as [Hcp|Hcp]; [|exists r; split; [done|by apply Hstep]].
    destruct (Z.ltb_spec i (L - 2)); [by eexists B64_ERROR|].
    destruct (Z.eqb_spec i (L - 2)) as [He|He].
    + destruct (load_in inp (i + 1)) as [c' Hc']; [lia|]. rewrite Hc'. simpl mbind.
      destruct (Z.eqb_spec c' pad) as [->|]; simpl; [|by eexists B64_ERROR].
      exists r. split; [done|]. apply Hstep. intros _. split; [lia|].
      intros _. rewrite <- Hc'. f_equal. lia.
    + exists r. split; [done|]. apply Hstep. intros _. split; [lia|done].
Qed.

Lemma decode_blk_safe inp io out oo :
  0 <= io -> io + 4 <= Z.of_nat (List.length inp) -> 0 <= oo ->
  oo < Z.of_nat (List.length out) ->
  (load inp (io + 2) <> Some pad -> oo + 1 < Z.of_nat (List.length out)) ->
  (load inp (io + 3) <> Some pad -> oo + 2 < Z.of_nat (List.length out)) ->
  exists out', b64DecodeBlk inp io out oo = Some (B64_OK, out') /\
    List.length out' = List.length out.
Proof.
  intros Hi Hi4 Ho H0 H1 H2. unfold b64DecodeBlk.
  destruct (load_in inp io) as [c0 ->]; [lia|]. simpl mbind.
  destruct (load_in inp (io + 1)) as [c1 ->]; [lia|]. simpl mbind.
  destruct (load_in inp (io + 2)) as [c2 Hc2]; [lia|]. rewrite Hc2 in *. simpl mbind.
  destruct (load_in inp (io + 3)) as [c3 Hc3]; [lia|]. rewrite Hc3 in *. simpl mbind.
  cbv zeta. set (val := Z.lor _ (b64GetVal c3)). clearbody val.
  destruct (store_in out oo (Z.land (Z.shiftr val 16) 255)) as (o1 & -> & L1); [lia|].
  simpl mbind. destruct (Z.eqb_spec c2 pad) as [->|E2]; simpl negb; cbv iota.
  - simpl mbind. destruct (Z.eqb_spec c3 pad) as [->|E3]; simpl negb; cbv iota.
    + simpl. eauto.
    + destruct (store_in o1 (oo + 2) (Z.land val 255)) as (o2 & -> & L2).
      { rewrite L1. split; [lia|]. apply H2. congruence. }
      simpl. eexists. split; [done|congruence].
  - destruct (store_in o1 (oo + 1) (Z.land (Z.shiftr val 8) 255)) as (o2 & -> & L2).
    { rewrite L1. split; [lia|]. apply H1. congruence. }
    simpl mbind. destruct (Z.eqb_spec c3 pad) as [->|E3]; simpl negb; cbv iota.
    + simpl. eexists. split; [done|congruence].
    + destruct (store_in o2 (oo + 2) (Z.land val 255)) as (o3 & -> & L3).
      { rewrite L2, L1. split; [lia|]. apply H2. congruence. }
      simpl. eexists. split; [done|congruence].
Qed.

(** A padded text of [k] blocks fits a buffer of [3 k] less the padding. *)
Lemma decode_loop_safe n : forall i inp out k,
  Z.of_nat (List.length inp) = 4 * k -> 0 <= i -> i + Z.of_nat n = k ->
  pads_last inp (4 * k) 0 ->
  (0 < k -> 3 * k - 2 <= Z.of_nat (List.length out)) ->
  (load inp (4 * k - 2) <> Some pad -> 0 < k -> 3 * k - 1 <= Z.of_nat (List.length out)) ->
  (load inp (4 * k - 1) <> Some pad -> 0 < k -> 3 * k <= Z.of_nat (List.length out)) ->
  exists out', decode_loop n i inp out = Some (B64_OK, out').
Proof.
  induction n as [|n IH]; intros i inp out k HL Hi Hn Hp H0 H1 H2; cbn [decode_loop].
  - eauto.
  - assert (Hin : i < k) by lia.
    destruct (decode_blk_safe inp (i * 4) out (i * 3)) as (o & -> & Lo); try lia.
    + destruct (decide (i = k - 1)) as [->|]; [|lia].
      replace ((k - 1) * 4 + 2) with (4 * k - 2) by lia. intros E. specialize (H1 E). lia.
    + destruct (decide (i = k - 1)) as [->|]; [|lia].
      replace ((k - 1) * 4 + 3) with (4 * k - 1) by lia. intros E. specialize (H2 E). lia.
    + simpl mbind. apply (IH (i + 1) inp o k); rewrite ?Lo; (done || lia).
Qed.

(** C39: Memory safety on any input: for every text (valid or not, of any length a
    [size_t] can hold) and every output buffer, decoding terminates with a result
    code and never reads or writes outside the two arrays. *)
Theorem b64Decode_in_bounds inp buf : Z.of_nat (List.length inp) < 2 ^ 64 ->
  exists r, b64Decode (Some inp) (Some buf) = Some r.
Proof.
  intros Hlt. unfold b64Decode, isValidB64EncodedString.
  set (L := Z.of_nat (List.length inp)) in *.
  destruct (Z.eqb_spec (L mod 4) 0) as [Hm|]; simpl negb; cbv iota; [|simpl; by eexists].
  destruct (valid_loop_safe (Z.to_nat L) 0 inp L) as (v & Hv & Hp); try done; try lia.
  { intros ?. Z.to_euclidean_division_equations; lia. }
  rewrite Hv. simpl mbind.
  destruct (decide (v = B64_OK)) as [->|Hne]; [|rewrite bool_decide_eq_false_2 by done; by eexists].
  rewrite bool_decide_eq_true_2 by done. simpl negb. cbv iota. specialize (Hp eq_refl).
  assert (HL : L = 4 * (L / 4)) by (Z.to_euclidean_division_equations; lia).
  set (k := L / 4) in *. clearbody k.
  destruct (Z.eqb_spec L 0) as [H0|H0]; simpl negb; cbv iota.
  { simpl mbind. replace k with 0 by lia. simpl. case_match; by eexists. }
  destruct (load_in inp (L - 1)) as [c1 Hc1]; [lia|].
  destruct (load_in inp (L - 2)) as [c2 Hc2]; [lia|].
  rewrite Hc1. simpl mbind. rewrite Hc2. simpl mbind. rewrite HL in Hc1, Hc2, Hp.
  match goal with |- context [?x <? ?y] => destruct (Z.ltb_spec x y) as [|Hle] end;
    [by eexists|].
  destruct (decode_loop_safe (Z.to_nat k) 0 inp buf k) as (o & ->); try done; try lia.
  - destruct (c1 =? pad), (c2 =? pad); lia.
  - rewrite Hc2. intros E. assert (c2 <> pad) by congruence.
    rewrite (proj2 (Z.eqb_neq c2 pad)) in Hle by done. destruct (c1 =? pad); lia.
  - rewrite Hc1. intros E. assert (c1 <> pad) by congruence.
    rewrite (proj2 (Z.eqb_neq c1 pad)) in Hle by done.
    destruct (Z.eqb_spec c2 pad) as [->|]; [|lia].
    destruct (Hp (4 * k - 2)) as [_ Hl]; [lia|done|]. rewrite Hl in Hc1 by done. congruence.
  - simpl. by eexists.
Qed.

Lemma b64Decode_in_bounds_witness :
  exists r, b64Decode (Some (codes "=a==")) (Some [1]) = Some r.
Proof. apply (b64Decode_in_bounds (codes "=a==") [1]). reflexivity. Defined.

End Base64.
