(* ===== verification/OicString.v ===== *)
(** * Bounded string copies ([portability/oic_string.c])

    C strings are runs of non-zero characters ended by a zero inside a buffer.
    The C library's [strncat] is modelled on buffers, so that an access outside
    the destination or the source is the value [None]. *)

From S2P Require Import Prelude.

Module OicString.

(** [malloc] succeeds when [mem] holds; the copy is a buffer of its own. *)
Definition OICStrdup (mem : bool) (str : option (list Z)) : option (option (list Z)) :=
  match str with
  | None => Some None
  | Some s =>
      length ← strlen s;
      if mem then Some (Some (take (length + 1) s)) else Some None
  end.

(** The loop from index [ch] on. *)
Fixpoint to_lower_loop (fuel : nat) (str : list Z) (ch : Z) : option (list Z) :=
  match fuel with
  | O => None
  | S fuel' =>
      c ← load str ch;
      if c =? 0 then Some str
      else
        str ← (if (65 <=? c) && (c <=? 90) then store str ch (c + 32) else Some str);
        to_lower_loop fuel' str (ch + 1)
  end.

Definition OICStringToLower (str : list Z) : option (list Z) :=
  to_lower_loop (S (List.length str)) str 0.

(** C's [strncat]: at most [n] characters of [src], then a zero. *)
Fixpoint strncat_loop (n : nat) (src dest : list Z) (si di : Z) : option (list Z) :=
  match n with
  | O => store dest di 0
  | S n' =>
      c ← load src si;
      if c =? 0 then store dest di 0
      else dest ← store dest di c; strncat_loop n' src dest (si + 1) (di + 1)
  end.

Definition strncat (dest src : list Z) (n : Z) : option (list Z) :=
  d ← strlen dest; strncat_loop (Z.to_nat n) src dest 0 (Z.of_nat d).

(** The returned pointer is [dest] ([true]) or [NULL] ([false]). *)
Definition OICStrcpyPartial (dest : option (list Z)) (destSize : Z)
    (source : option (list Z)) (sourceLen : Z) : option (bool * option (list Z)) :=
  match dest, source with
  | Some d, Some s =>
      if (destSize =? 0) || (sourceLen =? 0) then Some (true, dest)
      else
        d ← store d 0 0;
        d ← strncat d s (Z.min (destSize - 1) sourceLen);
        Some (true, Some d)
  | _, _ => Some (false, dest)
  end.

Definition OICStrcpy (dest : option (list Z)) (destSize : Z) (source : option (list Z)) :=
  OICStrcpyPartial dest destSize source (if destSize =? 0 then 0 else destSize - 1).

Definition OICStrcatPartial (dest : option (list Z)) (destSize : Z)
    (source : option (list Z)) (sourceLen : Z) : option (bool * option (list Z)) :=
  match dest, source with
  | Some d, Some s =>
      if (destSize =? 0) || (sourceLen =? 0) then Some (true, dest)
      else
        n ← strlen d;
        let destLen := Z.of_nat n in
        if destLen >=? destSize then Some (true, dest)
        else
          d ← strncat d s (Z.min (destSize - destLen - 1) sourceLen);
          Some (true, Some d)
  | _, _ => Some (false, dest)
  end.

Definition OICStrcat (dest : option (list Z)) (destSize : Z) (source : option (list Z)) :=
  OICStrcatPartial dest destSize source (if destSize =? 0 then 0 else destSize - 1).

(** ** Strings in buffers *)

(** The copy loop writes [take n s] and a zero over the cells [w] of [dest]. *)
Lemma strncat_loop_spec s : forall n pre w post spre srest,
  chars s -> (min n (List.length s) < List.length w)%nat ->
  strncat_loop n (spre ++ s ++ 0 :: srest) (pre ++ w ++ post)
    (Z.of_nat (List.length spre)) (Z.of_nat (List.length pre))
  = Some (pre ++ take n s ++ 0 :: drop (S (min n (List.length s))) w ++ post).
Proof.
  induction s as [|c s IH]; intros n pre w post spre srest Hs Hw;
    (destruct w as [|x w]; [simpl in Hw; lia|]); destruct n as [|n]; simpl in Hw;
    cbn [strncat_loop].
  - by apply store_app.
  - simpl app. rewrite load_app by done. simpl. by apply store_app.
  - by apply store_app.
  - apply Forall_cons in Hs as [Hc Hs]. simpl app. rewrite load_app by done. simpl mbind.
    rewrite (proj2 (Z.eqb_neq _ _)) by done. rewrite store_app by done. simpl mbind.
    replace (spre ++ c :: s ++ 0 :: srest) with ((spre ++ [c]) ++ s ++ 0 :: srest)
      by by rewrite <- app_assoc.
    replace (pre ++ c :: w ++ post) with ((pre ++ [c]) ++ w ++ post)
      by by rewrite <- app_assoc.
    replace (Z.of_nat (List.length spre) + 1) with (Z.of_nat (List.length (spre ++ [c])))
      by (rewrite length_app; simpl; lia).
    replace (Z.of_nat (List.length pre) + 1) with (Z.of_nat (List.length (pre ++ [c])))
      by (rewrite length_app; simpl; lia).
    rewrite IH by (done || lia). by rewrite <- app_assoc.
Qed.

Lemma strncat_spec d s pad post srest n : chars d -> chars s ->
  (min (Z.to_nat n) (List.length s) < S (List.length pad))%nat ->
  strncat (d ++ 0 :: pad ++ post) (s ++ 0 :: srest) n
  = Some (d ++ take (Z.to_nat n) s
            ++ 0 :: drop (min (Z.to_nat n) (List.length s)) pad ++ post).
Proof.
  intros Hd Hs Hn. unfold strncat. rewrite strlen_app by done. simpl mbind.
  by apply (strncat_loop_spec s _ d (0 :: pad) post []).
Qed.

(** Appending [source] to the string [d] in a destination of [destSize] cells,
    [post] lying beyond it: the result is [d] followed by as much of the source
    as fits beside the terminator, and nothing past [destSize] is touched. *)
Theorem OICStrcatPartial_bounded d pad post s srest destSize n :
  chars d -> chars s -> 0 <= n ->
  destSize = Z.of_nat (List.length (d ++ 0 :: pad)) ->
  exists k pad',
    OICStrcatPartial (Some (d ++ 0 :: pad ++ post)) destSize (Some (s ++ 0 :: srest)) n
      = Some (true, Some (d ++ take k s ++ 0 :: pad' ++ post)) /\
    Z.of_nat k = Z.min n (destSize - Z.of_nat (List.length d) - 1) /\
    List.length (d ++ take k s ++ 0 :: pad') = Z.to_nat destSize.
Proof.
  intros Hd Hs Hn Hsz. rewrite length_app in Hsz. simpl in Hsz.
  exists (Z.to_nat (Z.min n (Z.of_nat (List.length pad)))),
    (drop (min (Z.to_nat (Z.min n (Z.of_nat (List.length pad)))) (List.length s)) pad).
  split_and!; [|lia|rewrite !length_app, length_take; simpl; rewrite length_drop; lia].
  unfold OICStrcatPartial. rewrite (proj2 (Z.eqb_neq destSize 0)) by lia. simpl.
  destruct (Z.eqb_spec n 0) as [->|Hn0].
  - rewrite Z.min_l by lia. done.
  - rewrite strlen_app by done. simpl mbind.
    destruct (Z.geb_spec (Z.of_nat (List.length d)) destSize); [lia|].
    rewrite strncat_spec by (done || lia). simpl mbind. do 4 f_equal;
      replace (Z.min (destSize - Z.of_nat (List.length d) - 1) n)
        with (Z.min n (Z.of_nat (List.length pad))) by lia; done.
Qed.

Lemma OICStrcatPartial_bounded_witness :
  exists k pad',
    OICStrcatPartial (Some (codes "ab" ++ 0 :: [1; 1] ++ [9; 9])) 5
      (Some (codes "cdef" ++ [0])) 4
      = Some (true, Some (codes "ab" ++ take k (codes "cdef") ++ 0 :: pad' ++ [9; 9])) /\
    Z.of_nat k = Z.min 4 (5 - 2 - 1) /\
    List.length (codes "ab" ++ take k (codes "cdef") ++ 0 :: pad') = 5%nat.
Proof.
  apply (OICStrcatPartial_bounded (codes "ab") [1; 1] [9; 9] (codes "cdef") [] 5 4);
    [repeat constructor; done|repeat constructor; done|done|done].
Defined.

(** [OICStrcpy] truncates to [destSize - 1] characters and terminates; nothing
    past [destSize] is touched. *)
Lemma OICStrcpy_bounded x pad post s srest : chars s -> pad <> [] ->
  let destSize := Z.of_nat (S (List.length pad)) in
  OICStrcpy (Some (x :: pad ++ post)) destSize (Some (s ++ 0 :: srest))
    = Some (true, Some (take (List.length pad) s
        ++ 0 :: drop (min (List.length pad) (List.length s)) pad ++ post)).
Proof.
  intros Hs Hp destSize. unfold OICStrcpy, OICStrcpyPartial. subst destSize.
  assert (0 < List.length pad)%nat by (destruct pad; [done|simpl; lia]).
  rewrite !(proj2 (Z.eqb_neq _ _)) by lia. simpl orb. cbv iota.
  rewrite store_0. simpl mbind.
  replace (Z.min _ _) with (Z.of_nat (List.length pad)) by lia.
  pose proof (strncat_spec [] s pad post srest (Z.of_nat (List.length pad))) as Hc.
  rewrite Nat2Z.id in Hc. cbn [app] in Hc.
  rewrite Hc; [done|by apply Forall_nil|done|lia].
Qed.

(** With room for the terminator only, the destination is returned as it was:
    the terminator is not written. *)
Lemma OICStrcpy_size_one d s : OICStrcpy (Some d) 1 (Some s) = Some (true, Some d).
Proof. done. Qed.

Definition lower (c : Z) : Z := if (65 <=? c) && (c <=? 90) then c + 32 else c.

Lemma to_lower_loop_spec s : forall fuel pre rest, chars s -> (List.length s < fuel)%nat ->
  to_lower_loop fuel (pre ++ s ++ 0 :: rest) (Z.of_nat (List.length pre))
  = Some (pre ++ (lower <$> s) ++ 0 :: rest).
Proof.
  induction s as [|c s IH]; intros [|fuel] pre rest Hs Hf; simpl in Hf; try lia;
    cbn [to_lower_loop].
  - simpl app. by rewrite load_app by done.
  - apply Forall_cons in Hs as [Hc Hs]. simpl app. rewrite load_app by done. simpl mbind.
    rewrite (proj2 (Z.eqb_neq _ _)) by done.
    assert (Hst : (if (65 <=? c) && (c <=? 90)
             then store (pre ++ c :: s ++ 0 :: rest) (Z.of_nat (List.length pre)) (c + 32)
             else Some (pre ++ c :: s ++ 0 :: rest))
            = Some (pre ++ lower c :: s ++ 0 :: rest)).
    { unfold lower. case_match; [by apply store_app|done]. }
    rewrite Hst. simpl mbind.
    specialize (IH fuel (pre ++ [lower c]) rest Hs ltac:(lia)).
    rewrite length_app, <- !app_assoc in IH. simpl in IH.
    replace (Z.of_nat (List.length pre) + 1) with (Z.of_nat (List.length pre + 1)) by lia.
    done.
Qed.

Lemma OICStringToLower_spec s rest : chars s ->
  OICStringToLower (s ++ 0 :: rest) = Some ((lower <$> s) ++ 0 :: rest).
Proof.
  intros Hs. apply (to_lower_loop_spec s _ []); [done|]. rewrite length_app. lia.
Qed.

Lemma OICStrdup_spec s rest : chars s ->
  OICStrdup true (Some (s ++ 0 :: rest)) = Some (Some (s ++ [0])).
Proof.
  intros Hs. simpl. rewrite strlen_app by done. simpl.
  rewrite take_app_add. done.
Qed.

End OicString.
