(* ===== verification/OcRandom.v ===== *)
(** * Random ranges and UUID strings ([portability/ocrandom.c])

    [OCGetRandomBytes] is the platform's generator: its successive results are
    an argument ([None] for a failure).  UUID strings are buffers of character
    codes ending in a zero; [snprintf] and [sscanf] are modelled for the formats
    the file uses. *)

From S2P Require Import Prelude.

Module OcRandom.

Definition UUID_SIZE : Z := 16.
Definition UUID_STRING_SIZE : Z := 37.
Definition OC_UUID_HYPHEN_1 : Z := 9.
Definition OC_UUID_HYPHEN_2 : Z := 14.
Definition OC_UUID_HYPHEN_3 : Z := 19.
Definition OC_UUID_HYPHEN_4 : Z := 24.

(** ** Random numbers in a range *)

(** One step of the binary search: [if (x <= bound) { n += k; x <<= k; }]. *)
Definition nlz_step (bound k : Z) (st : Z * Z) : Z * Z :=
  let '(n, x) := st in
  if x <=? bound then (n + k, u32 (Z.shiftl x k)) else (n, x).

Definition nlz (x : Z) : Z :=
  if x =? 0 then 32
  else
    let '(n, x) :=
      nlz_step 0x3FFFFFFF 2 (nlz_step 0x0FFFFFFF 4 (nlz_step 0x00FFFFFF 8
        (nlz_step 0x0000FFFF 16 (0, x)))) in
    if x <=? 0x7FFFFFFF then n + 1 else n.

(** [do ... while (offset > rangeWidth)] over the generator's results; [None]
    when they run out before the loop ends. *)
Fixpoint draw_loop (draws : list (option Z)) (rangeBase rangeWidth rangeMask : Z) :
    option Z :=
  match draws with
  | [] => None
  | None :: _ => Some rangeBase
  | Some bytes :: draws' =>
      let offset := Z.land bytes rangeMask in
      if offset >? rangeWidth then draw_loop draws' rangeBase rangeWidth rangeMask
      else Some (u32 (rangeBase + offset))
  end.

Definition rangeMask_of (rangeWidth : Z) : Z := Z.shiftr 0xFFFFFFFF (nlz rangeWidth).

Definition OCGetRandomRange (draws : list (option Z)) (firstBound secondBound : Z) :
    option Z :=
  if firstBound =? secondBound then Some secondBound
  else
    let rangeBase := Z.min firstBound secondBound in
    let rangeWidth := if firstBound >? secondBound then u32 (firstBound - secondBound)
                      else u32 (secondBound - firstBound) in
    draw_loop draws rangeBase rangeWidth (rangeMask_of rangeWidth).

(** Fills [uuid] with the generator's bytes. *)
Definition OCGenerateUuid (bytes : option (list Z)) (uuid : option (list Z)) :
    bool * option (list Z) :=
  match uuid with
  | None => (false, None)
  | Some _ => match bytes with Some b => (true, Some b) | None => (false, uuid) end
  end.

(** ** UUIDs as text *)

Definition hyphen : Z := 45.

(** [%02x] of a byte. *)
Definition hexdigit (v : Z) : Z := if v <? 10 then 48 + v else 87 + v.
Definition hex2 (b : Z) : list Z := [hexdigit (b / 16); hexdigit (b mod 16)].

Definition hexs (bytes : list Z) : list Z := flat_map hex2 bytes.

(** The format string: groups of 4, 2, 2, 2 and 6 bytes. *)
Definition uuid_text (u : list Z) : list Z :=
  hexs (take 4 u) ++ [hyphen] ++ hexs (take 2 (drop 4 u)) ++ [hyphen]
  ++ hexs (take 2 (drop 6 u)) ++ [hyphen] ++ hexs (take 2 (drop 8 u))
  ++ [hyphen] ++ hexs (take 6 (drop 10 u)).

(** [uuid] holds sixteen bytes, so [snprintf] writes 36 characters and a zero
    and the length test cannot fail. *)
Definition OCConvertUuidToString (uuid : option (list Z)) (uuidString : option (list Z)) :
    bool * option (list Z) :=
  match uuid, uuidString with
  | Some u, Some s =>
      let text := uuid_text u in
      (Z.of_nat (List.length text) =? UUID_STRING_SIZE - 1,
       Some (text ++ 0 :: drop (S (List.length text)) s))
  | _, _ => (false, uuidString)
  end.

Definition hexval (c : Z) : option Z :=
  if (48 <=? c) && (c <=? 57) then Some (c - 48)
  else if (97 <=? c) && (c <=? 102) then Some (c - 87)
  else if (65 <=? c) && (c <=? 70) then Some (c - 55)
  else None.

Definition isspace (c : Z) : bool := (c =? 32) || ((9 <=? c) && (c <=? 13)).

(** The characters of a string from index [i] on. *)
Definition string_at (s : list Z) (i : Z) : option (list Z) :=
  if (0 <=? i) && (i <? Z.of_nat (List.length s)) then Some (drop (Z.to_nat i) s) else None.

Fixpoint skip_spaces (s : list Z) : list Z :=
  match s with c :: s' => if isspace c then skip_spaces s' else s | [] => [] end.

(** [sscanf(s, "%2hhx", &x)]: an optional sign, then hexadecimal digits, two
    characters in all; [None] when nothing is stored. *)
Definition sscanf_2hhx (s : list Z) : option Z :=
  match skip_spaces s with
  | c0 :: rest =>
      let d1 := match rest with c1 :: _ => hexval c1 | [] => None end in
      if c0 =? 43 then d1
      else if c0 =? 45 then (fun d => u8 (- d)) <$> d1
      else
        match hexval c0 with
        | None => None
        | Some v0 =>
            match rest with
            | c1 :: _ =>
                if (c0 =? 48) && ((c1 =? 120) || (c1 =? 88)) then None
                else match d1 with Some v1 => Some (v0 * 16 + v1) | None => Some v0 end
            | [] => Some v0
            end
        end
  | [] => None
  end.

(** The [for] loop: [n] bytes to go; [acc] are the bytes stored so far. *)
Fixpoint convert_loop (n : nat) (s : list Z) (urnIdx : Z) (acc : list Z) : option (list Z) :=
  match n with
  | O => Some acc
  | S n' =>
      c ← load s urnIdx;
      let urnIdx := if c =? hyphen then urnIdx + 1 else urnIdx in
      rest ← string_at s urnIdx;
      convert_loop n' s (urnIdx + 2) (acc ++ [default 0 (sscanf_2hhx rest)])
  end.

Definition OCConvertStringToUuid (uuidString uuid : option (list Z)) :
    option (bool * option (list Z)) :=
  match uuidString, uuid with
  | Some s, Some _ =>
      strUuidLen ← strlen s;
      if UUID_STRING_SIZE - 1 =? Z.of_nat strUuidLen then
        converted ← convert_loop (Z.to_nat UUID_SIZE) s 0 [];
        Some (true, Some converted)
      else Some (false, uuid)
  | _, _ => Some (false, uuid)
  end.

(** [hyphens[counter]] of the array of four positions: [None], undefined in C,
    outside it. *)
Definition hyphens_at (counter : Z) : option Z :=
  load [OC_UUID_HYPHEN_1; OC_UUID_HYPHEN_2; OC_UUID_HYPHEN_3; OC_UUID_HYPHEN_4] counter.

(** The [for] loop over the 36 characters; [None] when it reads outside
    [hyphens].  [isxdigit] is false of a character above 127. *)
Fixpoint isuuid_loop (s : list Z) (i counter : Z) : option bool :=
  match s with
  | [] => Some true
  | var :: s' =>
      h ← hyphens_at counter;
      if i =? size_t (h - 1) then
        if negb (var =? hyphen) then Some false
        else isuuid_loop s' (i + 1) (counter + 1)
      else
        match hexval var with
        | None => Some false
        | Some _ => isuuid_loop s' (i + 1) counter
        end
  end.

Definition OCIsUUID (uuid : list Z) : option bool :=
  n ← strlen uuid;
  if negb (Z.of_nat n =? UUID_STRING_SIZE - 1) then Some false
  else isuuid_loop (take n uuid) 0 0.

(** ** The number of leading zeros *)

(** After a step with shift [k], [x] has its highest bit at [32 - k] or above. *)
Lemma nlz_step_spec x0 k n x : 0 < k < 32 -> 0 <= n -> x = x0 * 2 ^ n ->
  2 ^ (32 - 2 * k) <= x < 2 ^ 32 -> 0 <= 32 - 2 * k ->
  let '(n', x') := nlz_step (2 ^ (32 - k) - 1) k (n, x) in
  n <= n' <= n + k /\ x' = x0 * 2 ^ n' /\ 2 ^ (32 - k) <= x' < 2 ^ 32.
Proof.
  intros Hk Hn Hx Hb H2. unfold nlz_step. destruct (Z.leb_spec x (2 ^ (32 - k) - 1)).
  - assert (E1 : 2 ^ 32 = 2 ^ (32 - k) * 2 ^ k)
      by (rewrite <- Z.pow_add_r by lia; f_equal; lia).
    assert (E2 : 2 ^ (32 - k) = 2 ^ (32 - 2 * k) * 2 ^ k)
      by (rewrite <- Z.pow_add_r by lia; f_equal; lia).
    assert (0 < 2 ^ k) by (apply Z.pow_pos_nonneg; lia).
    assert (0 < 2 ^ (32 - 2 * k)) by (apply Z.pow_pos_nonneg; lia).
    rewrite Z.shiftl_mul_pow2, wrap_id by (unfold in_width; nia).
    split_and!; [lia|lia| |nia|nia]. rewrite Z.pow_add_r by lia. lia.
  - split_and!; first [assumption|lia].
Qed.

Lemma nlz_spec x : 0 < x < 2 ^ 32 ->
  0 <= nlz x < 32 /\ 2 ^ (31 - nlz x) <= x < 2 ^ (32 - nlz x).
Proof.
  intros Hx. unfold nlz. rewrite (proj2 (Z.eqb_neq x 0)) by lia.
  pose proof (nlz_step_spec x 16 0 x ltac:(lia) ltac:(lia) ltac:(lia)) as S1.
  change (2 ^ (32 - 16) - 1) with 0x0000FFFF in S1.
  destruct (nlz_step 0x0000FFFF 16 (0, x)) as [n1 x1]. simpl in S1.
  destruct S1 as (Hn1 & Hx1 & Hb1); [lia|lia|].
  pose proof (nlz_step_spec x 8 n1 x1 ltac:(lia) ltac:(lia) Hx1) as S2.
  change (2 ^ (32 - 8) - 1) with 0x00FFFFFF in S2.
  destruct (nlz_step 0x00FFFFFF 8 (n1, x1)) as [n2 x2]. simpl in S2.
  destruct S2 as (Hn2 & Hx2 & Hb2); [lia|lia|].
  pose proof (nlz_step_spec x 4 n2 x2 ltac:(lia) ltac:(lia) Hx2) as S3.
  change (2 ^ (32 - 4) - 1) with 0x0FFFFFFF in S3.
  destruct (nlz_step 0x0FFFFFFF 4 (n2, x2)) as [n3 x3]. simpl in S3.
  destruct S3 as (Hn3 & Hx3 & Hb3); [lia|lia|].
  pose proof (nlz_step_spec x 2 n3 x3 ltac:(lia) ltac:(lia) Hx3) as S4.
  change (2 ^ (32 - 2) - 1) with 0x3FFFFFFF in S4.
  destruct (nlz_step 0x3FFFFFFF 2 (n3, x3)) as [n4 x4]. simpl in S4.
  destruct S4 as (Hn4 & Hx4 & Hb4); [lia|lia|].
  set (m := if x4 <=? 0x7FFFFFFF then n4 + 1 else n4).
  assert (Hm : 0 <= m < 32 /\ 2 ^ 31 <= x * 2 ^ m < 2 ^ 32).
  { assert (n4 <= 31).
    { destruct (Z.le_gt_cases n4 31); [done|].
      assert (2 ^ 32 <= 2 ^ n4) by (apply Z.pow_le_mono_r; lia). nia. }
    unfold m. destruct (Z.leb_spec x4 0x7FFFFFFF); [|lia].
    assert (n4 <= 30).
    { destruct (Z.le_gt_cases n4 30); [done|].
      assert (2 ^ 31 <= 2 ^ n4) by (apply Z.pow_le_mono_r; lia). nia. }
    rewrite Z.pow_add_r by lia. lia. }
  clearbody m. destruct Hm as [Hm Hxm]. split; [done|].
  assert (E1 : 2 ^ 31 = 2 ^ (31 - m) * 2 ^ m) by (rewrite <- Z.pow_add_r by lia; f_equal; lia).
  assert (E2 : 2 ^ 32 = 2 ^ (32 - m) * 2 ^ m) by (rewrite <- Z.pow_add_r by lia; f_equal; lia).
  assert (0 < 2 ^ m) by (apply Z.pow_pos_nonneg; lia). rewrite E1, E2 in Hxm.
  split; [apply (Z.mul_le_mono_pos_r _ _ (2 ^ m))|apply (Z.mul_lt_mono_pos_r (2 ^ m))]; lia.
Qed.

(** The mask is a run of ones that covers the width and is less than twice it,
    so a masked draw is accepted with probability over one half. *)
Lemma rangeMask_spec w : 0 < w < 2 ^ 32 ->
  exists k, 0 <= k <= 32 /\ rangeMask_of w = Z.ones k /\ w <= Z.ones k < 2 * w.
Proof.
  intros Hw. destruct (nlz_spec w Hw) as [Hn Hb]. exists (32 - nlz w).
  assert (E : rangeMask_of w = Z.ones (32 - nlz w)).
  { unfold rangeMask_of. change 0xFFFFFFFF with (Z.ones 32).
    rewrite Z.shiftr_div_pow2, Z.ones_div_pow2 by lia. done. }
  split_and!; try lia; try done; rewrite Z.ones_equiv; [lia|].
  replace (32 - nlz w) with (Z.succ (31 - nlz w)) by lia. rewrite Z.pow_succ_r by lia. lia.
Qed.

Lemma draw_loop_spec draws base w m r : 0 <= m -> 0 <= base -> 0 <= w -> base + w < 2 ^ 32 ->
  draw_loop draws base w (Z.ones m) = Some r -> base <= r <= base + w.
Proof.
  intros Hm Hb Hw Hs. induction draws as [|[bytes|] draws IH]; simpl; [done| |].
  - destruct (Z.gtb_spec (Z.land bytes (Z.ones m)) w); [done|]. intros [= <-].
    rewrite Z.land_ones in * by done.
    pose proof (Z.mod_pos_bound bytes (2 ^ m) ltac:(apply Z.pow_pos_nonneg; lia)).
    rewrite wrap_id by (unfold in_width; lia). lia.
  - intros [= <-]. lia.
Qed.

Definition covers (a b v : Z) : Prop := Z.min a b <= v <= Z.max a b.

(** The value lies between the bounds whatever the generator yields, the loop
    ends with the first masked draw that is small enough, every value of the
    range can come out, and the mask is below twice the width, so more than half
    of the masked draws are accepted. *)
Theorem OCGetRandomRange_covers a b : in_width 32 a -> in_width 32 b ->
  (forall draws r, OCGetRandomRange draws a b = Some r -> covers a b r) /\
  (forall v, covers a b v -> exists d, in_width 32 d /\ OCGetRandomRange [Some d] a b = Some v) /\
  (a <> b -> exists k, 0 <= k <= 32 /\ Z.ones k < 2 * Z.abs (a - b) /\
     forall draws, Exists (fun d => forall x, d = Some x -> x mod 2 ^ k <= Z.abs (a - b)) draws ->
       is_Some (OCGetRandomRange draws a b)).
Proof.
  unfold in_width, covers, OCGetRandomRange. intros Ha Hb.
  destruct (Z.eqb_spec a b) as [->|Hne].
  { split_and!; [by intros _ r [= <-]; lia|intros v Hv; exists 0; split; [lia|f_equal; lia]|done]. }
  set (w := Z.abs (a - b)).
  assert (Hw : (if a >? b then u32 (a - b) else u32 (b - a)) = w).
  { destruct (Z.gtb_spec a b); apply eq_trans with (u32 w); try (f_equal; lia);
      apply wrap_id; unfold in_width; lia. }
  rewrite Hw. destruct (rangeMask_spec w) as (k & Hk & -> & Hkw); [lia|].
  split_and!.
  - intros draws r Hr. apply draw_loop_spec in Hr; lia.
  - intros v Hv. exists (v - Z.min a b). split; [lia|]. simpl.
    rewrite Z.land_ones by lia. rewrite Z.ones_equiv in Hkw.
    rewrite Z.mod_small by lia. destruct (Z.gtb_spec (v - Z.min a b) w); [lia|].
    f_equal. rewrite wrap_id by (unfold in_width; lia). lia.
  - intros _. exists k. split_and!; [lia..|]. intros draws Hex.
    induction Hex as [d draws Hd|d draws _ IH]; simpl.
    + destruct d as [x|]; [|by eexists]. rewrite Z.land_ones by lia.
      destruct (Z.gtb_spec (x mod 2 ^ k) w); [|by eexists]. specialize (Hd x eq_refl). lia.
    + destruct d as [x|]; [|by eexists]. destruct (_ >? w); [exact IH|by eexists].
Qed.

Lemma OCGetRandomRange_covers_witness :
  (forall draws r, OCGetRandomRange draws 10 3 = Some r -> covers 10 3 r) /\
  (forall v, covers 10 3 v -> exists d, in_width 32 d /\ OCGetRandomRange [Some d] 10 3 = Some v) /\
  (10 <> 3 -> exists k, 0 <= k <= 32 /\ Z.ones k < 2 * Z.abs (10 - 3) /\
     forall draws, Exists (fun d => forall x, d = Some x -> x mod 2 ^ k <= Z.abs (10 - 3)) draws ->
       is_Some (OCGetRandomRange draws 10 3)).
Proof. apply (OCGetRandomRange_covers 10 3); by split. Defined.

(** ** UUIDs survive the trip through text *)

Definition nibble (v : Z) : Prop := 0 <= v < 16.

Lemma hexdigit_facts v : nibble v ->
  hexval (hexdigit v) = Some v /\ isspace (hexdigit v) = false /\
  hexdigit v ∉ [0; 43; 45; 88; 120].
Proof.
  by apply (range_forall (fun v => hexval (hexdigit v) = Some v /\
    isspace (hexdigit v) = false /\ hexdigit v ∉ [0; 43; 45; 88; 120]) 16).
Qed.

Lemma byte_nibbles b : in_width 8 b -> nibble (b / 16) /\ nibble (b mod 16).
Proof. unfold in_width, nibble. intros. Z.to_euclidean_division_equations. lia. Qed.

Lemma sscanf_hex2 b rest : in_width 8 b -> sscanf_2hhx (hex2 b ++ rest) = Some b.
Proof.
  intros Hb. destruct (byte_nibbles b Hb) as [H1 H2].
  destruct (hexdigit_facts _ H1) as (V1 & S1 & N1), (hexdigit_facts _ H2) as (V2 & _ & N2).
  rewrite !not_elem_of_cons in N1, N2. unfold sscanf_2hhx, hex2. simpl app.
  cbn [skip_spaces]. rewrite S1, !(proj2 (Z.eqb_neq _ _)) by tauto.
  rewrite V1, V2. rewrite (proj2 (Z.eqb_neq _ 120)), (proj2 (Z.eqb_neq _ 88)), andb_false_r by tauto. f_equal. pose proof (Z.div_mod b 16). lia.
Qed.

(** One turn of the loop, without and with a hyphen in front of the byte. *)
Lemma convert_byte n s i acc b rest : drop (Z.to_nat i) s = hex2 b ++ rest ->
  in_width 8 b -> 0 <= i ->
  convert_loop (S n) s i acc = convert_loop n s (i + 2) (acc ++ [b]).
Proof.
  intros Hs Hb Hi. destruct (byte_nibbles b Hb) as [H1 _].
  destruct (hexdigit_facts _ H1) as (_ & _ & N1). rewrite !not_elem_of_cons in N1.
  assert (Hlt : (Z.to_nat i < List.length s)%nat).
  { apply (f_equal List.length) in Hs. rewrite length_drop in Hs. simpl in Hs. lia. }
  cbn [convert_loop]. unfold load. destruct (Z.ltb_spec i 0); [lia|].
  rewrite <- (Nat.add_0_r (Z.to_nat i)) at 1. rewrite <- lookup_drop, Hs. simpl mbind.
  unfold hyphen. rewrite (proj2 (Z.eqb_neq _ 45)) by tauto.
  unfold string_at. rewrite (proj2 (Z.leb_le 0 i)), (proj2 (Z.ltb_lt i _)) by lia.
  cbn [andb mbind option_bind]. by rewrite Hs, sscanf_hex2.
Qed.

Lemma convert_hyphen_byte n s i acc b rest : drop (Z.to_nat i) s = hyphen :: hex2 b ++ rest ->
  in_width 8 b -> 0 <= i ->
  convert_loop (S n) s i acc = convert_loop n s (i + 3) (acc ++ [b]).
Proof.
  intros Hs Hb Hi.
  assert (Hlt : (S (Z.to_nat i) < List.length s)%nat).
  { apply (f_equal List.length) in Hs. rewrite length_drop in Hs. simpl in Hs. lia. }
  cbn [convert_loop]. unfold load. destruct (Z.ltb_spec i 0); [lia|].
  rewrite <- (Nat.add_0_r (Z.to_nat i)) at 1. rewrite <- lookup_drop, Hs. simpl mbind.
  unfold string_at. rewrite (proj2 (Z.leb_le 0 _)), (proj2 (Z.ltb_lt (i + 1) _)) by lia.
  cbn [andb mbind option_bind].
  replace (Z.to_nat (i + 1)) with (Z.to_nat i + 1)%nat by lia.
  rewrite <- drop_drop, Hs. cbn [drop]. rewrite drop_0, sscanf_hex2 by done.
  f_equal. lia.
Qed.

(** ** The UUID format *)

Definition hyphen_position (i : Z) : bool :=
  (i =? 8) || (i =? 13) || (i =? 18) || (i =? 23).

Fixpoint format_from (i : Z) (s : list Z) : bool :=
  match s with
  | [] => true
  | c :: s' =>
      (if hyphen_position i then c =? hyphen else bool_decide (is_Some (hexval c)))
      && format_from (i + 1) s'
  end.

(** How many hyphens are expected before index [i]. *)
Definition hyphens_before (i : Z) : Z :=
  if i <=? 8 then 0 else if i <=? 13 then 1 else if i <=? 18 then 2
  else if i <=? 23 then 3 else 4.

Lemma hyphens_before_step i : 0 <= i < 36 ->
  hyphens_before (i + 1) = hyphens_before i + (if hyphen_position i then 1 else 0).
Proof.
  by apply (range_forall (fun i => hyphens_before (i + 1) =
    hyphens_before i + (if hyphen_position i then 1 else 0)) 36).
Qed.

(** Up to the last expected hyphen the counter names the next one. *)
Lemma hyphen_expected i : 0 <= i < 24 ->
  exists h, hyphens_at (hyphens_before i) = Some h /\
            (i =? size_t (h - 1)) = hyphen_position i.
Proof.
  intros Hi. assert (Hd : (fun h => i =? size_t (h - 1)) <$> hyphens_at (hyphens_before i)
    = Some (hyphen_position i)).
  { by apply (range_forall (fun i => (fun h => i =? size_t (h - 1)) <$>
      hyphens_at (hyphens_before i) = Some (hyphen_position i)) 24). }
  destruct (hyphens_at (hyphens_before i)) as [h|]; [|done].
  exists h. by injection Hd.
Qed.

(** The loop over a text with characters left behind the fourth hyphen: it
    leaves the array as soon as the first 24 characters have the format. *)
Lemma isuuid_loop_format s k : k <> [] -> forall i,
  0 <= i -> i + Z.of_nat (List.length s) = 24 ->
  isuuid_loop (s ++ k) i (hyphens_before i) =
    if format_from i s then None else Some false.
Proof.
  intros Hk. induction s as [|c s IH]; intros i Hi Hl.
  { simpl in Hl. replace i with 24 by lia. by destruct k. }
  cbn [isuuid_loop format_from List.length app] in *.
  destruct (hyphen_expected i) as (h & -> & Hh); [lia|].
  cbn [mbind option_bind]. rewrite Hh.
  specialize (IH (i + 1) ltac:(lia) ltac:(lia)). rewrite hyphens_before_step in IH by lia.
  destruct (hyphen_position i).
  - by destruct (c =? hyphen).
  - rewrite Z.add_0_r in IH. destruct (hexval c) as [v|].
    + by rewrite bool_decide_eq_true_2 by by eexists.
    + rewrite bool_decide_eq_false_2; [done|]. by intros [? ?].
Qed.

(** The test never accepts: it refuses a string of another length or one whose
    first 24 characters are not hexadecimal digits with hyphens at 8, 13, 18 and
    23, and on every other string, each UUID among them, it reads behind its
    array of hyphen positions. *)
Lemma OCIsUUID_format s rest : chars s ->
  OCIsUUID (s ++ 0 :: rest) =
    if (Z.of_nat (List.length s) =? 36) && format_from 0 (take 24 s)
    then None else Some false.
Proof.
  intros Hs. unfold OCIsUUID. rewrite strlen_app by done. simpl mbind.
  unfold UUID_STRING_SIZE. rewrite take_app_length. change (37 - 1) with 36.
  destruct (Z.eqb_spec (Z.of_nat (List.length s)) 36); simpl; [|done].
  rewrite <- (take_drop 24 s) at 1.
  assert (length (take 24 s) = 24%nat) by (rewrite length_take; lia).
  apply (isuuid_loop_format (take 24 s) (drop 24 s)); try lia.
  intros E. apply (f_equal length) in E. rewrite length_drop in E. simpl in E. lia.
Qed.

Lemma format_from_app s k i : format_from i (s ++ k) =
  format_from i s && format_from (i + Z.of_nat (length s)) k.
Proof.
  revert i. induction s as [|c s IH]; intros i; cbn [format_from app length].
  - by rewrite Z.add_0_r.
  - rewrite IH, andb_assoc. do 2 f_equal. lia.
Qed.

(** One byte at a known place of a text given by its cells. *)
Ltac next_byte := erewrite convert_byte; [|cbn; reflexivity|eassumption|lia].
Ltac next_hyphen := erewrite convert_hyphen_byte; [|cbn; reflexivity|eassumption|lia].

Lemma hexdigit_text b : in_width 8 b ->
  bool_decide (is_Some (hexval (hexdigit (b / 16)))) = true /\
  bool_decide (is_Some (hexval (hexdigit (b mod 16)))) = true /\
  hexdigit (b / 16) <> 0 /\ hexdigit (b mod 16) <> 0.
Proof.
  intros Hb. destruct (byte_nibbles b Hb) as [H1 H2].
  destruct (hexdigit_facts _ H1) as (-> & _ & N1), (hexdigit_facts _ H2) as (-> & _ & N2).
  rewrite !not_elem_of_cons in N1, N2. tauto.
Qed.

(** A UUID's text is 36 characters of the UUID format. *)
Lemma uuid_text_format u : Forall (in_width 8) u -> List.length u = 16%nat ->
  chars (uuid_text u) /\ List.length (uuid_text u) = 36%nat /\
  format_from 0 (uuid_text u) = true.
Proof.
  intros Hb Hl. do 16 (destruct u as [|? u]; [done|]). destruct u; [|done].
  rewrite !Forall_cons in Hb.
  repeat match goal with H : _ /\ _ |- _ => destruct H end.
  repeat match goal with H : in_width 8 ?b |- _ =>
    destruct (hexdigit_text b H) as (?E & ?E & ? & ?); clear H end.
  split_and!.
  - unfold chars, uuid_text, hexs, hex2. simpl. repeat constructor; done.
  - reflexivity.
  - unfold uuid_text, hexs, hex2. simpl.
    repeat match goal with E : bool_decide _ = true |- _ => rewrite E; clear E end. done.
Qed.

Lemma convert_text u rest : Forall (in_width 8) u -> List.length u = 16%nat ->
  convert_loop 16 (uuid_text u ++ rest) 0 [] = Some u.
Proof.
  intros Hb Hl.
  destruct u as [|u0 [|u1 [|u2 [|u3 [|u4 [|u5 [|u6 [|u7 [|u8 [|u9 [|u10 [|u11 [|u12
    [|u13 [|u14 [|u15 [|]]]]]]]]]]]]]]]]]; try discriminate Hl.
  rewrite !Forall_cons in Hb.
  destruct Hb as (?&?&?&?&?&?&?&?&?&?&?&?&?&?&?&?&_).
  unfold uuid_text, hexs. cbn [take drop flat_map app hex2].
  do 4 next_byte. next_hyphen. next_byte. next_hyphen. next_byte.
  next_hyphen. next_byte. next_hyphen. do 5 next_byte. reflexivity.
Qed.

(** C37: Text and back: sixteen bytes print as a terminated string of 36
    characters with hyphens at 8, 13, 18 and 23 and hexadecimal digits
    elsewhere, and parsing the string gives the same bytes, no read leaving the
    string.  The format test [OCIsUUID] does not accept that string: after the
    fourth hyphen it reads behind its array of hyphen positions ([None]). *)
Theorem uuid_text_roundtrip u buf dst :
  Forall (in_width 8) u -> List.length u = 16%nat ->
  exists text, chars text /\ List.length text = 36%nat /\ format_from 0 text = true /\
    OCConvertUuidToString (Some u) (Some buf) = (true, Some (text ++ 0 :: drop 37 buf)) /\
    OCConvertStringToUuid (Some (text ++ 0 :: drop 37 buf)) (Some dst)
      = Some (true, Some u) /\
    OCIsUUID (text ++ 0 :: drop 37 buf) = None.
Proof.
  intros Hb Hl. destruct (uuid_text_format u Hb Hl) as (Hc & Hlen & Hf).
  exists (uuid_text u). split_and!; try done.
  - unfold OCConvertUuidToString. cbv zeta. by rewrite Hlen.
  - unfold OCConvertStringToUuid. rewrite strlen_app, Hlen by done.
    cbn [mbind option_bind].
    change (UUID_STRING_SIZE - 1 =? Z.of_nat 36) with true. cbv iota.
    change (Z.to_nat UUID_SIZE) with 16%nat. clear Hc Hlen Hf.
    by rewrite convert_text.
  - rewrite OCIsUUID_format by done. rewrite Hlen.
    rewrite <- (take_drop 24 (uuid_text u)), format_from_app in Hf.
    apply andb_true_iff in Hf as [-> _]. done.
Qed.

Lemma uuid_text_roundtrip_witness :
  exists text, chars text /\ List.length text = 36%nat /\ format_from 0 text = true /\
    OCConvertUuidToString (Some (seqZ 170 16)) (Some (replicate 40 0))
      = (true, Some (text ++ 0 :: [0; 0; 0])) /\
    OCConvertStringToUuid (Some (text ++ 0 :: [0; 0; 0])) (Some [])
      = Some (true, Some (seqZ 170 16)) /\
    OCIsUUID (text ++ 0 :: [0; 0; 0]) = None.
Proof.
  apply (uuid_text_roundtrip (seqZ 170 16) (replicate 40 0) []);
    [repeat constructor; done|done].
Defined.

End OcRandom.
