(* ===== verification/CString.v ===== *)
(** * C strings as values

    Where the code only reads a string, a [char const *] is a [string]: its
    characters before the terminating zero.  This file models the functions of
    [string.h] and the part of [strptime] the sources use on such strings. *)

From S2P Require Import Prelude.

Module CString.

Definition strlen (s : string) : Z := Z.of_nat (String.length s).

(** The suffix after the first [n] characters. *)
Fixpoint str_drop (n : nat) (s : string) : string :=
  match n, s with
  | S n', String _ s' => str_drop n' s'
  | _, _ => s
  end.

Fixpoint str_take (n : nat) (s : string) : string :=
  match n, s with
  | S n', String c s' => String c (str_take n' s')
  | _, _ => EmptyString
  end.

(** [strchr(s, c)] as the index of the first [c]. *)
Fixpoint strchr (s : string) (c : ascii) : option nat :=
  match s with
  | EmptyString => None
  | String d s' => if Ascii.eqb d c then Some O else S <$> strchr s' c
  end.

(** [NULL != strstr(s, needle)]. *)
Fixpoint strstr (s needle : string) : bool :=
  String.prefix needle s ||
  match s with EmptyString => false | String _ s' => strstr s' needle end.

(** [0 == strncmp(a, b, n)]. *)
Definition strncmp_eq (a b : string) (n : nat) : bool :=
  bool_decide (str_take n a = str_take n b).

Definition code (c : ascii) : Z := Z.of_N (N_of_ascii c).

(** The number of characters before the first [c], all of them if there is none:
    [strchr] used to cut a query off. *)
Definition upto (s : string) (c : ascii) : nat :=
  match strchr s c with Some i => i | None => String.length s end.

Lemma str_take_full s : str_take (String.length s) s = s.
Proof. induction s as [|c s IH]; simpl; congruence. Qed.

Lemma length_str_take n s : String.length (str_take n s) = min n (String.length s).
Proof. revert s. induction n as [|n IH]; intros [|c s]; simpl; [done..|]. by rewrite IH. Qed.

Lemma strchr_lt s c i : strchr s c = Some i -> (i < String.length s)%nat.
Proof.
  revert i. induction s as [|d s IH]; intros i; simpl; [done|].
  destruct (Ascii.eqb d c); [intros [= <-]; lia|].
  destruct (strchr s c) as [j|]; [|done]. intros [= <-]. specialize (IH j eq_refl). lia.
Qed.

Lemma upto_le s c : (upto s c <= String.length s)%nat.
Proof.
  unfold upto. destruct (strchr s c) as [i|] eqn:H; [|lia]. apply strchr_lt in H. lia.
Qed.

(** [str_take n] of two strings, the second of length [n]. *)
Lemma strncmp_eq_spec a b : strncmp_eq a b (String.length b) = true <->
  str_take (String.length b) a = b.
Proof. unfold strncmp_eq. rewrite bool_decide_eq_true, str_take_full. done. Qed.

(** The characters of a buffer before its first zero cell. *)
Fixpoint c_string (b : list Z) : string :=
  match b with
  | [] => EmptyString
  | c :: b' => if c =? 0 then EmptyString
               else String (ascii_of_N (Z.to_N (c mod 256))) (c_string b')
  end.

(** What C sees of a string that may hold zero characters. *)
Definition cstr (s : string) : string := c_string (codes s).

Definition lower_char (c : ascii) : ascii :=
  if (65 <=? code c) && (code c <=? 90) then ascii_of_N (Z.to_N (code c + 32)) else c.

Fixpoint lower (s : string) : string :=
  match s with EmptyString => EmptyString | String c s' => String (lower_char c) (lower s') end.

(** [0 == strncasecmp(a, b, n)] for a [size_t n]. *)
Definition strncasecmp_eq (a b : string) (n : Z) : bool :=
  let k := Z.to_nat (Z.min n (strlen a + strlen b)) in
  bool_decide (lower (str_take k a) = lower (str_take k b)).

Lemma codes_c_string b : Forall (fun c => 0 < c < 256) b -> forall r,
  codes (c_string (b ++ 0 :: r)) = b.
Proof.
  intros H r. induction H as [|c b Hc _ IH]; [done|]. simpl.
  destruct (Z.eqb_spec c 0); [lia|].
  change (codes (String ?a ?s)) with (code a :: codes s). rewrite IH. f_equal.
  unfold code. rewrite Z.mod_small, N_ascii_embedding by lia. lia.
Qed.

(** The characters with the codes [b], zeros included. *)
Definition bytes_string (b : list Z) : string :=
  String.string_of_list_ascii ((fun z => ascii_of_N (Z.to_N z)) <$> b).

Lemma codes_bytes b : Forall (fun c => 0 <= c < 256) b -> codes (bytes_string b) = b.
Proof.
  unfold codes, bytes_string. rewrite String.list_ascii_of_string_of_list_ascii.
  induction 1 as [|c b Hc _ IH]; [done|]. rewrite !fmap_cons. rewrite IH. f_equal.
  rewrite N_ascii_embedding by lia. lia.
Qed.

Lemma cstr_c_string b r : Forall (fun c => 0 < c < 256) b ->
  cstr (c_string (b ++ 0 :: r)) = c_string (b ++ 0 :: r).
Proof.
  intros H. unfold cstr. rewrite codes_c_string by done.
  induction H as [|c b Hc _ IH]; simpl; [done|]. destruct (c =? 0); [done|]. by rewrite IH.
Qed.

(** The path of a URI: the part before the query. *)
Definition path (uri : string) : string := str_take (upto uri "?") uri.

Lemma length_path uri : String.length (path uri) = upto uri "?".
Proof. unfold path. rewrite length_str_take. pose proof (upto_le uri "?"). lia. Qed.

End CString.
