(* ===== verification/Fragmentation.v ===== *)
(** * Packets of the Bluetooth LE transport

    [comm/transport/gatt/cafragmentation.c]: the two-byte header of every packet,
    the four-byte length of the message in its first packet, and the copying of a
    message's bytes into packets.  Arguments that are tested for [NULL] are
    values here: the callers pass buffers of their own. *)

From S2P Require Import Prelude.
From S2P Require Import Status.

Module Fragmentation.

Open Scope m_scope.

Definition CA_SUPPORTED_BLE_MAX_PORT : Z := 127.
Definition CA_SUPPORTED_BLE_MIN_PORT : Z := 1.
Definition CA_BLE_MULTICAST_PORT : Z := 0.
Definition CA_BLE_HEADER_SIZE : Z := 2.
Definition CA_BLE_LENGTH_HEADER_SIZE : Z := 4.

(** [CABLEPacketStart_t], [CABLEPacketSecure_t] *)
Definition CA_BLE_PACKET_NOT_START : Z := 0.
Definition CA_BLE_PACKET_START : Z := 1.
Definition CA_BLE_PACKET_NON_SECURE : Z := 0.
Definition CA_BLE_PACKET_SECURE : Z := 1.

Definition CA_BLE_START_POS : Z := 7.
Definition CA_BLE_START_LEN : Z := 1.
Definition CA_BLE_SOURCE_PORT_POS : Z := 6.
Definition CA_BLE_SOURCE_PORT_LEN : Z := 7.
Definition CA_BLE_SECURE_POS : Z := 7.
Definition CA_BLE_SECURE_LEN : Z := 1.
Definition CA_BLE_DESTINATION_PORT_POS : Z := 6.
Definition CA_BLE_DESTINATION_PORT_LEN : Z := 7.

(** ** Bit fields *)

(** [~(~0u << n)] *)
Definition low_mask (n : Z) : Z := 2 ^ 32 - 1 - u32 (Z.shiftl (2 ^ 32 - 1) n).

Definition CASetBits (x p n v : Z) : Z :=
  if p + 1 <? n then x
  else if low_mask n <? v then x
  else u8 (Z.lor (Z.lor (Z.land x (low_mask (p - n + 1)))
                        (Z.land x (u32 (Z.shiftl (2 ^ 32 - 1) (p + 1)))))
                 (u32 (Z.shiftl (Z.land v (low_mask n)) (p - n + 1)))).

Definition CAGetBits (x p n : Z) : Z := u8 (Z.land (Z.shiftr x (p + 1 - n)) (low_mask n)).

(** ** The number and size of the packets *)

(** The result is the number of full packets after the first, what is left for
    the last one and the length of everything. *)
Definition CAGenerateVariableForFragmentation (dataLength mtuSize : Z) :
    CAResult_t + Z * Z * Z :=
  let dataOnlyLen := size_t (mtuSize - (CA_BLE_HEADER_SIZE + CA_BLE_LENGTH_HEADER_SIZE)) in
  let remainDataSize := if dataLength <? dataOnlyLen then 0 else dataLength - dataOnlyLen in
  if mtuSize - CA_BLE_HEADER_SIZE <=? 0 then inl CA_STATUS_FAILED
  else
    let midPacketCount := u32 remainDataSize / (mtuSize - CA_BLE_HEADER_SIZE) in
    let remainingLen := u32 remainDataSize mod (mtuSize - CA_BLE_HEADER_SIZE) in
    let remainHeaderSize :=
      u32 (CA_BLE_HEADER_SIZE * (midPacketCount + if remainingLen =? 0 then 0 else 1)) in
    inr (midPacketCount, remainingLen,
         size_t (dataLength + (CA_BLE_HEADER_SIZE + CA_BLE_LENGTH_HEADER_SIZE)
                 + remainHeaderSize)).

(** ** Headers *)

Definition CAGenerateHeader (header : list Z) (type sourcePort secure destPort : Z) :
    option (CAResult_t * list Z) :=
  if (CA_SUPPORTED_BLE_MAX_PORT <? sourcePort) || (sourcePort <? CA_SUPPORTED_BLE_MIN_PORT)
     || (CA_SUPPORTED_BLE_MAX_PORT <? destPort)
  then Some (CA_STATUS_FAILED, header)
  else
    h0 ← load header 0;
    header ← store header 0
      (CASetBits (CASetBits h0 CA_BLE_START_POS CA_BLE_START_LEN type)
         CA_BLE_SOURCE_PORT_POS CA_BLE_SOURCE_PORT_LEN sourcePort);
    h1 ← load header 1;
    header ← store header 1
      (CASetBits (CASetBits h1 CA_BLE_SECURE_POS CA_BLE_SECURE_LEN secure)
         CA_BLE_DESTINATION_PORT_POS CA_BLE_DESTINATION_PORT_LEN destPort);
    Some (CA_STATUS_OK, header).

(** The loop of [CAGenerateHeaderPayloadLength]: the cells from the last one down
    to index 1, [k] of them left. *)
Fixpoint length_loop (k : nat) (idx : Z) (header : list Z) (dataLength : Z) :
    option (list Z * Z) :=
  match k with
  | O => Some (header, dataLength)
  | S k' =>
      header ← store header (CA_BLE_LENGTH_HEADER_SIZE - idx) (Z.land dataLength 255);
      length_loop k' (idx + 1) header (Z.shiftr dataLength 8)
  end.

Definition CAGenerateHeaderPayloadLength (header : list Z) (headerLength dataLength : Z) :
    option (CAResult_t * list Z) :=
  if negb (headerLength =? CA_BLE_LENGTH_HEADER_SIZE) then Some (CA_STATUS_FAILED, header)
  else
    '(header, dataLength) ← length_loop 3 1 header dataLength;
    header ← store header 0 (Z.land dataLength 255);
    Some (CA_STATUS_OK, header).

(** ** Packets *)

Definition CAMakeFirstDataSegment (dataSegment data : list Z) (dataLength : Z)
    (dataHeader lengthHeader : list Z) : option (CAResult_t * list Z) :=
  h ← read_block dataHeader 0 CA_BLE_HEADER_SIZE;
  dataSegment ← write_block dataSegment 0 h;
  l ← read_block lengthHeader 0 CA_BLE_LENGTH_HEADER_SIZE;
  dataSegment ← write_block dataSegment CA_BLE_HEADER_SIZE l;
  d ← read_block data 0 dataLength;
  dataSegment ← write_block dataSegment (CA_BLE_HEADER_SIZE + CA_BLE_LENGTH_HEADER_SIZE) d;
  Some (CA_STATUS_OK, dataSegment).

Definition CAMakeRemainDataSegment (dataSegment : list Z) (segmentPayloadLength : Z)
    (sourceData : list Z) (sourceDataLength segmentNum : Z) (dataHeader : list Z)
    (mtuSize : Z) : option (CAResult_t * list Z) :=
  let index := u32 ((mtuSize - CA_BLE_HEADER_SIZE - CA_BLE_LENGTH_HEADER_SIZE)
                    + u32 (segmentNum * (mtuSize - CA_BLE_HEADER_SIZE))) in
  if sourceDataLength <? u32 (index + segmentPayloadLength)
  then Some (CA_STATUS_FAILED, dataSegment)
  else
    h ← read_block dataHeader 0 CA_BLE_HEADER_SIZE;
    dataSegment ← write_block dataSegment 0 h;
    d ← read_block sourceData index segmentPayloadLength;
    dataSegment ← write_block dataSegment CA_BLE_HEADER_SIZE d;
    Some (CA_STATUS_OK, dataSegment).

(** ** Reading headers *)

(** Start flag, source port, secure flag and destination port. *)
Definition CAParseHeader (header : list Z) : option (Z * Z * Z * Z) :=
  h0 ← load header 0;
  h1 ← load header 1;
  Some (CAGetBits h0 CA_BLE_START_POS CA_BLE_START_LEN,
        CAGetBits h0 CA_BLE_SOURCE_PORT_POS CA_BLE_SOURCE_PORT_LEN,
        CAGetBits h1 CA_BLE_SECURE_POS CA_BLE_SECURE_LEN,
        CAGetBits h1 CA_BLE_DESTINATION_PORT_POS CA_BLE_DESTINATION_PORT_LEN).

Fixpoint parse_length_loop (k : nat) (idx : Z) (header : list Z) (dataLength : Z) : option Z :=
  match k with
  | O => Some dataLength
  | S k' =>
      b ← load header (CA_BLE_HEADER_SIZE + idx);
      parse_length_loop k' (idx + 1) header (Z.lor (u32 (Z.shiftl dataLength 8)) b)
  end.

(** [dataLength] is the callers' zero; the header is the whole packet. *)
Definition CAParseHeaderPayloadLength (header : list Z) (headerLength : Z) :
    option (CAResult_t * Z) :=
  if negb (headerLength =? CA_BLE_LENGTH_HEADER_SIZE) then Some (CA_STATUS_FAILED, 0)
  else (fun n => (CA_STATUS_OK, n)) <$> parse_length_loop (Z.to_nat headerLength) 0 header 0.

(** ** What headers mean *)

(** The two bytes of a header. *)
Definition header_bytes (start sourcePort secure destPort : Z) : list Z :=
  [start * 128 + sourcePort; secure * 128 + destPort].

(** A number of 32 bits, the most significant byte first. *)
Definition be32 (n : Z) : list Z :=
  [n / 2 ^ 24 mod 256; n / 2 ^ 16 mod 256; n / 2 ^ 8 mod 256; n mod 256].

Definition port_ok (p : Z) : Prop := CA_SUPPORTED_BLE_MIN_PORT <= p <= CA_SUPPORTED_BLE_MAX_PORT.
Definition is_bit (b : Z) : Prop := b = 0 \/ b = 1.

(** All values of the two fields of a byte, by evaluation. *)
Lemma set_start x f : is_bit f -> 0 <= x < 256 -> CASetBits x 7 1 f = f * 128 + x mod 128.
Proof.
  intros Hf. apply (range_forall (fun x => CASetBits x 7 1 f = f * 128 + x mod 128) 256).
  destruct Hf as [-> | ->]; by vm_compute.
Qed.

Lemma set_ports f p : is_bit f -> 0 <= p < 128 ->
  forallb (fun x => CASetBits (f * 128 + x) 6 7 p =? f * 128 + p) (seqZ 0 128) = true.
Proof.
  intros Hf. apply (range_forall (fun p =>
    forallb (fun x => CASetBits (f * 128 + x) 6 7 p =? f * 128 + p) (seqZ 0 128) = true) 128).
  destruct Hf as [-> | ->]; by vm_compute.
Qed.

Lemma set_port f p x : is_bit f -> 0 <= p < 128 -> 0 <= x < 128 ->
  CASetBits (f * 128 + x) 6 7 p = f * 128 + p.
Proof.
  intros Hf Hp Hx. pose proof (set_ports f p Hf Hp) as H.
  rewrite forallb_forall in H. apply Z.eqb_eq, H, list_elem_of_In, elem_of_seqZ. lia.
Qed.

Lemma set_fields x f p : 0 <= x < 256 -> is_bit f -> 0 <= p < 128 ->
  CASetBits (CASetBits x 7 1 f) 6 7 p = f * 128 + p.
Proof.
  intros Hx Hf Hp. rewrite set_start by done. apply set_port; try done.
  by apply Z.mod_pos_bound.
Qed.

Lemma get_fields f p : is_bit f -> 0 <= p < 128 ->
  CAGetBits (f * 128 + p) 7 1 = f /\ CAGetBits (f * 128 + p) 6 7 = p.
Proof.
  intros Hf. apply (range_forall (fun p =>
    CAGetBits (f * 128 + p) 7 1 = f /\ CAGetBits (f * 128 + p) 6 7 = p) 128).
  destruct Hf as [-> | ->]; by vm_compute.
Qed.

(** A header that is generated, over any earlier one, has the fields it is given. *)
Lemma CAGenerateHeader_ok a b start sp sec dp : 0 <= a < 256 -> 0 <= b < 256 ->
  is_bit start -> is_bit sec -> port_ok sp -> 0 <= dp <= CA_SUPPORTED_BLE_MAX_PORT ->
  CAGenerateHeader [a; b] start sp sec dp
  = Some (CA_STATUS_OK, header_bytes start sp sec dp).
Proof.
  unfold port_ok, CA_SUPPORTED_BLE_MIN_PORT, CA_SUPPORTED_BLE_MAX_PORT.
  intros Ha Hb Hs Hc Hp Hd. unfold CAGenerateHeader.
  unfold CA_SUPPORTED_BLE_MIN_PORT, CA_SUPPORTED_BLE_MAX_PORT.
  rewrite !(proj2 (Z.ltb_ge _ _)) by lia. cbn [orb].
  change (load [a; b] 0) with (Some a). cbn [mbind option_bind].
  unfold CA_BLE_START_POS, CA_BLE_START_LEN, CA_BLE_SOURCE_PORT_POS, CA_BLE_SOURCE_PORT_LEN,
    CA_BLE_SECURE_POS, CA_BLE_SECURE_LEN, CA_BLE_DESTINATION_PORT_POS,
    CA_BLE_DESTINATION_PORT_LEN.
  rewrite (set_fields a start sp), store_0 by (done || lia). cbn [mbind option_bind].
  change (load [start * 128 + sp; b] 1) with (Some b). cbn [mbind option_bind].
  by rewrite (set_fields b sec dp), store_1 by (done || lia).
Qed.

Lemma CAGenerateHeader_refuses old start sp sec dp :
  ~ port_ok sp \/ CA_SUPPORTED_BLE_MAX_PORT < dp ->
  CAGenerateHeader old start sp sec dp = Some (CA_STATUS_FAILED, old).
Proof.
  unfold port_ok, CAGenerateHeader. intros H. case_match eqn:E; [done|].
  apply orb_false_iff in E as [[?%Z.ltb_ge ?%Z.ltb_ge]%orb_false_iff ?%Z.ltb_ge]. lia.
Qed.

Lemma CAParseHeader_ok start sp sec dp rest : is_bit start -> is_bit sec ->
  0 <= sp < 128 -> 0 <= dp < 128 ->
  CAParseHeader (header_bytes start sp sec dp ++ rest) = Some (start, sp, sec, dp).
Proof.
  intros Hs Hc Hp Hd. unfold CAParseHeader, header_bytes. cbn [app].
  change (load _ 0) with (Some (start * 128 + sp)).
  change (load _ 1) with (Some (sec * 128 + dp)). cbn [mbind option_bind].
  destruct (get_fields start sp Hs Hp) as [H1 H2], (get_fields sec dp Hc Hd) as [H3 H4].
  unfold CA_BLE_START_POS, CA_BLE_START_LEN, CA_BLE_SOURCE_PORT_POS, CA_BLE_SOURCE_PORT_LEN,
    CA_BLE_SECURE_POS, CA_BLE_SECURE_LEN, CA_BLE_DESTINATION_PORT_POS,
    CA_BLE_DESTINATION_PORT_LEN.
  by rewrite H1, H2, H3, H4.
Qed.

(** ** Lengths *)

Lemma low_byte n : Z.land n 255 = n mod 256.
Proof. by apply (Z.land_ones n 8). Qed.

Lemma CAGenerateHeaderPayloadLength_ok a b c d n : 0 <= n ->
  CAGenerateHeaderPayloadLength [a; b; c; d] 4 n = Some (CA_STATUS_OK, be32 n).
Proof.
  intros Hn. unfold CAGenerateHeaderPayloadLength, CA_BLE_LENGTH_HEADER_SIZE.
  cbn [Z.eqb Pos.eqb negb length_loop]. unfold CA_BLE_LENGTH_HEADER_SIZE. cbn [Z.sub Z.add Z.opp Z.pos_sub Pos.add Pos.succ Pos.pred_double].
  rewrite store_3. cbn [mbind option_bind]. rewrite store_2. cbn [mbind option_bind].
  rewrite store_1. cbn [mbind option_bind]. rewrite store_0. cbn [mbind option_bind].
  unfold be32. rewrite !low_byte, !Z.shiftr_div_pow2, !Z.div_div by lia. done.
Qed.

Lemma be32_value n : 0 <= n < 2 ^ 32 ->
  ((n / 2 ^ 24 mod 256 * 256 + n / 2 ^ 16 mod 256) * 256 + n / 2 ^ 8 mod 256) * 256 + n mod 256
  = n.
Proof.
  intros Hn. Z.div_mod_to_equations. lia.
Qed.

Definition be_value (a b c d : Z) : Z := ((a * 256 + b) * 256 + c) * 256 + d.

Lemma CAParseHeaderPayloadLength_value x y a b c d rest :
  0 <= a < 256 -> 0 <= b < 256 -> 0 <= c < 256 -> 0 <= d < 256 ->
  CAParseHeaderPayloadLength (x :: y :: a :: b :: c :: d :: rest) 4
  = Some (CA_STATUS_OK, be_value a b c d).
Proof.
  intros Ha Hb Hc Hd. unfold CAParseHeaderPayloadLength, be_value.
  cbn [Z.eqb Pos.eqb negb CA_BLE_LENGTH_HEADER_SIZE].
  change (Z.to_nat 4) with 4%nat. cbn [parse_length_loop].
  change (load _ (CA_BLE_HEADER_SIZE + 0)) with (Some a).
  change (load _ (CA_BLE_HEADER_SIZE + (0 + 1))) with (Some b).
  change (load _ (CA_BLE_HEADER_SIZE + (0 + 1 + 1))) with (Some c).
  change (load _ (CA_BLE_HEADER_SIZE + (0 + 1 + 1 + 1))) with (Some d).
  cbn [mbind option_bind fmap option_fmap option_map].
  change (Z.shiftl 0 8) with 0. do 2 f_equal.
  assert (Hj : forall v w, 0 <= v < 2 ^ 24 -> 0 <= w < 256 ->
            Z.lor (u32 (Z.shiftl v 8)) w = v * 256 + w).
  { intros v w Hv Hw. rewrite wrap_id; [by apply (lor_shiftl_add v w 8)|].
    rewrite Z.shiftl_mul_pow2 by lia. unfold in_width. lia. }
  change (Z.lor (u32 0) a) with a.
  rewrite (Hj a b), (Hj _ c), (Hj _ d) by lia. done.
Qed.

Lemma CAParseHeaderPayloadLength_ok h n rest : List.length h = 2%nat -> 0 <= n < 2 ^ 32 ->
  CAParseHeaderPayloadLength (h ++ be32 n ++ rest) 4 = Some (CA_STATUS_OK, n).
Proof.
  intros Hh Hn. destruct h as [|x [|y [|? ?]]]; try done. unfold be32. cbn [app].
  rewrite CAParseHeaderPayloadLength_value by (apply Z.mod_pos_bound; lia).
  unfold be_value. by rewrite be32_value.
Qed.

End Fragmentation.
