(* ===== verification/LeAdapter.v ===== *)
(** * The Bluetooth LE adapter: sending and reassembling messages

    [comm/transport/gatt/caleadapter.c]: the sender threads, which cut a message
    into packets, and the receiver handler, which collects the packets of every
    sender until a message is complete.  The radio is a parameter [update]
    ([CAUpdateCharacteristicsToGattClient] and [..ToGattServer]), what goes to the
    layer above is the list of upcalls.  Array lists are lists
    (what [ArrayList] implements); allocations succeed, except that
    [OICCalloc] of zero cells gives [NULL] as it does in the source. *)

From S2P Require Import Prelude.
From S2P Require Import Status.
From S2P Require Import Fragmentation.
Import Fragmentation.

Module LeAdapter.

Open Scope m_scope.

Definition CA_SUPPORTED_BLE_MTU_SIZE : Z := 517.
Definition CA_DEFAULT_BLE_MTU_SIZE : Z := 20.

(** ** The receiver

    [CABLESenderInfo_t]; of the remote endpoint it keeps, the address, the port and
    whether its flags have [CA_SECURE]. *)
Record CABLESenderInfo_t : Type := mk_sender {
  recvDataLen : Z; totalDataLen : Z; defragData : list Z;
  s_addr : string; s_port : Z; s_secure : bool }.

(** What is passed up: a message to [g_networkPacketReceivedCallback], a record to
    [CAdecryptSsl]. *)
Inductive upcall : Type :=
| NetworkPacketReceived (addr : string) (port : Z) (data : list Z)
| DecryptSsl (addr : string) (port : Z) (data : list Z).

(** The first entry whose address starts with [leAddress] ([strncmp] over its
    length) and whose port is [port], with its index. *)
Fixpoint CALEGetSenderInfo_from (index : nat) (leAddress : string) (port : Z)
    (senderInfoList : list CABLESenderInfo_t) : option (nat * CABLESenderInfo_t) :=
  match senderInfoList with
  | [] => None
  | info :: l =>
      if String.prefix leAddress (s_addr info) && (s_port info =? port)
      then Some (index, info)
      else CALEGetSenderInfo_from (S index) leAddress port l
  end.
Definition CALEGetSenderInfo : string -> Z -> list CABLESenderInfo_t ->
  option (nat * CABLESenderInfo_t) := CALEGetSenderInfo_from 0.

(** The end of the handler: a complete message is passed up and its entry, at
    [senderIndex], removed. *)
Definition deliver (callback : bool) (senderInfo : CABLESenderInfo_t) (senderIndex : nat)
    (l : list CABLESenderInfo_t) : option (list CABLESenderInfo_t * list upcall) :=
  if totalDataLen senderInfo =? recvDataLen senderInfo then
    if negb callback then Some (delete senderIndex l, [])
    else
      data ← read_block (defragData senderInfo) 0 (recvDataLen senderInfo);
      Some (delete senderIndex l,
            [if s_secure senderInfo
             then DecryptSsl (s_addr senderInfo) (s_port senderInfo) data
             else NetworkPacketReceived (s_addr senderInfo) (s_port senderInfo) data])
  else Some (l, []).

(** A packet of a sender that has no entry (any more): only a first packet makes
    one. *)
Definition new_sender (callback : bool) (addr : string) (port : Z) (startFlag secureFlag : Z)
    (data : list Z) (dataLen : Z) (l : list CABLESenderInfo_t) :
    option (list CABLESenderInfo_t * list upcall) :=
  if startFlag =? CA_BLE_PACKET_NOT_START then Some (l, [])
  else
    '(_, totalLength) ← CAParseHeaderPayloadLength data CA_BLE_LENGTH_HEADER_SIZE;
    if totalLength =? 0 then Some (l, [])
    else
      let dataOnlyLen := u32 (dataLen - (CA_BLE_HEADER_SIZE + CA_BLE_LENGTH_HEADER_SIZE)) in
      let size := u32 (totalLength + 1) in
      if size =? 0 then Some (l, [])
      else
        let defragData := replicate (Z.to_nat size) 0 in
        if totalLength <? 0 + dataOnlyLen then Some (l, [])
        else
          d ← read_block data (CA_BLE_HEADER_SIZE + CA_BLE_LENGTH_HEADER_SIZE) dataOnlyLen;
          defragData ← write_block defragData 0 d;
          let newSender := mk_sender (u32 (0 + dataOnlyLen)) totalLength defragData addr port
                             (secureFlag =? CA_BLE_PACKET_SECURE) in
          let l := l ++ [newSender] in
          '(senderIndex, _) ← CALEGetSenderInfo (s_addr newSender) (s_port newSender) l;
          deliver callback newSender senderIndex l.

(** A later packet of the sender [senderInfo], whose entry is at [senderIndex]. *)
Definition more_data (callback : bool) (senderInfo : CABLESenderInfo_t) (senderIndex : nat)
    (data : list Z) (dataLen : Z) (l : list CABLESenderInfo_t) :
    option (list CABLESenderInfo_t * list upcall) :=
  let dataOnlyLen := u32 (dataLen - CA_BLE_HEADER_SIZE) in
  if totalDataLen senderInfo <? recvDataLen senderInfo + dataOnlyLen
  then Some (delete senderIndex l, [])
  else
    d ← read_block data CA_BLE_HEADER_SIZE dataOnlyLen;
    defragData ← write_block (defragData senderInfo) (recvDataLen senderInfo) d;
    let senderInfo := mk_sender (u32 (recvDataLen senderInfo + dataOnlyLen))
      (totalDataLen senderInfo) defragData (s_addr senderInfo) (s_port senderInfo)
      (s_secure senderInfo) in
    deliver callback senderInfo senderIndex (<[senderIndex := senderInfo]> l).

(** [CALEDataReceiverHandler] on one packet from [addr]; [data] is the packet with
    the zero cell [CACreateLEData] adds, [callback] says whether the layer above has
    registered one.  [None] is an access outside a buffer. *)
Definition CALEDataReceiverHandler (g_localBLESourcePort : Z) (callback : bool)
    (addr : string) (data : list Z) (dataLen : Z) (l : list CABLESenderInfo_t) :
    option (list CABLESenderInfo_t * list upcall) :=
  '(startFlag, sourcePort, secureFlag, destPort) ← CAParseHeader data;
  if negb (destPort =? g_localBLESourcePort) && negb (destPort =? CA_BLE_MULTICAST_PORT)
  then Some (l, [])
  else
    match CALEGetSenderInfo addr sourcePort l with
    | Some (senderIndex, senderInfo) =>
        if startFlag =? CA_BLE_PACKET_NOT_START
        then more_data callback senderInfo senderIndex data dataLen l
        else new_sender callback addr sourcePort startFlag secureFlag data dataLen
               (delete senderIndex l)
    | None => new_sender callback addr sourcePort startFlag secureFlag data dataLen l
    end.

(** [CACreateLEData]: the copy of a packet that waits in the receiver queue. *)
Definition CACreateLEData (packet : list Z) : list Z * Z :=
  (packet ++ [0], Z.of_nat (List.length packet)).

(** The queue of received packets, each with the address it came from, in order. *)
Fixpoint receive (g_localBLESourcePort : Z) (callback : bool) (queue : list (string * list Z))
    (l : list CABLESenderInfo_t) : option (list CABLESenderInfo_t * list upcall) :=
  match queue with
  | [] => Some (l, [])
  | (addr, packet) :: queue' =>
      let '(data, dataLen) := CACreateLEData packet in
      '(l, up) ← CALEDataReceiverHandler g_localBLESourcePort callback addr data dataLen l;
      '(l, up') ← receive g_localBLESourcePort callback queue' l;
      Some (l, up ++ up')
  end.

(** ** When a device disconnects *)

(** The ports of the entries whose address starts with [leAddress]. *)
Fixpoint CALEGetPortsFromSenderInfo (leAddress : string) (l : list CABLESenderInfo_t) : list Z :=
  match l with
  | [] => []
  | info :: l' =>
      if String.prefix leAddress (s_addr info)
      then s_port info :: CALEGetPortsFromSenderInfo leAddress l'
      else CALEGetPortsFromSenderInfo leAddress l'
  end.

Definition remove_port (address : string) (l : list CABLESenderInfo_t) (port : Z) :
    list CABLESenderInfo_t :=
  match CALEGetSenderInfo address port l with
  | Some (senderIndex, _) => delete senderIndex l
  | None => l
  end.

(** The messages being put together for a device are dropped. *)
Definition CALERemoveReceiveQueueData (dataInfoList : list CABLESenderInfo_t)
    (address : string) : list CABLESenderInfo_t :=
  fold_left (remove_port address) (CALEGetPortsFromSenderInfo address dataInfoList) dataInfoList.

(** The send queue of addresses and messages when [address] disconnects; the
    result is the queue and what is passed to its destructor.  [u_queue_get_element]
    takes a message off the queue whether it is for [address] or not. *)
Definition CALERemoveSendQueueData {A} (strcasecmp : string -> string -> bool)
    (dataQueue : list (string * A)) (address : string) : list (string * A) * list (string * A) :=
  ([], filter (fun m => Is_true (strcasecmp m.1 address)) dataQueue).

(** ** The sender threads *)

Section sender.
Context {W : Type} (update : list Z -> M W CAResult_t).

(** [VERIFY]-style exits: any other result is reported to the error handler. *)
Definition unless_failed (r : CAResult_t) (k : M W CAResult_t) : M W CAResult_t :=
  if ca_ok r then k else ret r.

(** The loop over the full packets after the first, [n] of them left. *)
Fixpoint send_mid (n : nat) (index : Z) (g_mtuSize : Z) (dataSegment data : list Z)
    (dataLen : Z) (dataHeader : list Z) (k : list Z -> M W CAResult_t) : M W CAResult_t :=
  match n with
  | O => k dataSegment
  | S n' =>
      let! (r, dataSegment) := demand (CAMakeRemainDataSegment dataSegment
        (g_mtuSize - CA_BLE_HEADER_SIZE) data dataLen index dataHeader g_mtuSize) in
      unless_failed r (
      let! packet := demand (read_block dataSegment 0 g_mtuSize) in
      let! r := update packet in
      unless_failed r (
      send_mid n' (u32 (index + 1)) g_mtuSize dataSegment data dataLen dataHeader k))
  end.

(** The last packet, when something is left for it. *)
Definition send_last (index remainingLen totalLength g_mtuSize : Z) (data : list Z)
    (dataLen : Z) (dataHeader dataSegment : list Z) : M W CAResult_t :=
  if negb (remainingLen =? 0) && (g_mtuSize <? totalLength) then
    let! (r, dataSegment) := demand (CAMakeRemainDataSegment dataSegment
      (u32 remainingLen) data dataLen index dataHeader g_mtuSize) in
    unless_failed r (
    let! packet :=
      demand (read_block dataSegment 0 (u32 (remainingLen + CA_BLE_HEADER_SIZE))) in
    update packet)
  else ret CA_STATUS_OK.

(** [CALEServerSendDataThread] and [CALEClientSendDataThread], which differ in
    [update].  [data] has one more cell than the [dataLen] bytes of the message;
    the result is what the error handler is called with, [CA_STATUS_OK] when it is
    not called. *)
Definition CALEServerSendDataThread (g_mtuSize g_localBLESourcePort : Z) (secure : bool)
    (port : Z) (data : list Z) (dataLen : Z) : M W CAResult_t :=
  match CAGenerateVariableForFragmentation dataLen g_mtuSize with
  | inl r => ret r
  | inr (midPacketCount, remainingLen, totalLength) =>
      let dataSegment := replicate (Z.to_nat CA_SUPPORTED_BLE_MTU_SIZE) 0 in
      let secureFlag := if secure then CA_BLE_PACKET_SECURE else CA_BLE_PACKET_NON_SECURE in
      let! (r, dataHeader) := demand (CAGenerateHeader [0; 0] CA_BLE_PACKET_START
        g_localBLESourcePort secureFlag (u8 port)) in
      unless_failed r (
      let! (r, lengthHeader) := demand (CAGenerateHeaderPayloadLength [0; 0; 0; 0]
        CA_BLE_LENGTH_HEADER_SIZE dataLen) in
      unless_failed r (
      let '(length, firstLen) :=
        if totalLength <? g_mtuSize then (u32 totalLength, dataLen)
        else (g_mtuSize, u32 (g_mtuSize - CA_BLE_HEADER_SIZE - CA_BLE_LENGTH_HEADER_SIZE)) in
      let! (r, dataSegment) := demand (CAMakeFirstDataSegment dataSegment data firstLen
        dataHeader lengthHeader) in
      unless_failed r (
      let! packet := demand (read_block dataSegment 0 length) in
      let! r := update packet in
      unless_failed r (
      let! (r, dataHeader) := demand (CAGenerateHeader dataHeader CA_BLE_PACKET_NOT_START
        g_localBLESourcePort secureFlag (u8 port)) in
      unless_failed r (
      send_mid (Z.to_nat midPacketCount) 0 g_mtuSize dataSegment data dataLen dataHeader
        (send_last midPacketCount remainingLen totalLength g_mtuSize data dataLen dataHeader))))))
  end.

(** ** The packets of a message *)

Fixpoint chunks (fuel : nat) (n : nat) (l : list Z) : list (list Z) :=
  match fuel, l with
  | S fuel', _ :: _ => take n l :: chunks fuel' n (drop n l)
  | _, _ => []
  end.

Definition packets (mtu lport : Z) (secure : bool) (port : Z) (message : list Z) :
    list (list Z) :=
  let sec := if secure then CA_BLE_PACKET_SECURE else CA_BLE_PACKET_NON_SECURE in
  let first := Z.to_nat (mtu - 6) in
  (header_bytes CA_BLE_PACKET_START lport sec port
     ++ be32 (Z.of_nat (List.length message)) ++ take first message)
  :: ((fun c => header_bytes CA_BLE_PACKET_NOT_START lport sec port ++ c) <$>
      chunks (List.length message) (Z.to_nat (mtu - 2)) (drop first message)).

(** Sends packets until one fails. *)
Fixpoint send_all (ps : list (list Z)) : M W CAResult_t :=
  match ps with
  | [] => ret CA_STATUS_OK
  | p :: ps' => let! r := update p in unless_failed r (send_all ps')
  end.

(** ** The buffer a packet is built in *)

Definition starts (b p : list Z) : Prop :=
  List.length b = Z.to_nat CA_SUPPORTED_BLE_MTU_SIZE /\ exists junk, b = p ++ junk.

Lemma starts_nil b p : starts b p -> starts b [].
Proof. intros [H _]. split; [done|]. by exists b. Qed.

Lemma write_prefix b p xs off : starts b p -> off = Z.of_nat (List.length p) ->
  (List.length p + List.length xs <= Z.to_nat CA_SUPPORTED_BLE_MTU_SIZE)%nat ->
  exists b', write_block b off xs = Some b' /\ starts b' (p ++ xs).
Proof.
  intros [Hb [junk ->]] -> Hl. rewrite length_app in Hb.
  destruct (split_block junk (List.length xs)) as (u & v & -> & Hu); [lia|].
  exists (p ++ xs ++ v). split; [by apply write_block_app|]. split.
  - rewrite !length_app in *. lia.
  - exists v. by rewrite app_assoc.
Qed.

Lemma read_prefix b p n : starts b p -> n = Z.of_nat (List.length p) ->
  read_block b 0 n = Some p.
Proof. intros [_ [junk ->]] ->. by apply (read_block_app [] p junk). Qed.

Lemma first_segment b h l data k rest : starts b [] -> List.length h = 2%nat ->
  List.length l = 4%nat -> (k <= List.length data)%nat ->
  (6 + k <= Z.to_nat CA_SUPPORTED_BLE_MTU_SIZE)%nat ->
  exists b', CAMakeFirstDataSegment b (data ++ rest) (Z.of_nat k) h l = Some (CA_STATUS_OK, b')
             /\ starts b' (h ++ l ++ take k data).
Proof.
  intros Hb Hh Hl Hk Hf. unfold CAMakeFirstDataSegment.
  pose proof (read_block_app [] h [] 0 2) as R1. rewrite app_nil_r in R1.
  pose proof (read_block_app [] l [] 0 4) as R2. rewrite app_nil_r in R2.
  unfold CA_BLE_HEADER_SIZE, CA_BLE_LENGTH_HEADER_SIZE. cbn [app] in *.
  rewrite R1 by (simpl; lia). cbn [mbind option_bind].
  destruct (write_prefix b [] h 0 Hb) as (b1 & -> & H1); [done|simpl; lia|].
  cbn [mbind option_bind app] in *. rewrite R2 by (simpl; lia). cbn [mbind option_bind].
  destruct (write_prefix b1 h l 2 H1) as (b2 & -> & H2); [lia|lia|]. cbn [mbind option_bind].
  pose proof (read_block_app [] (take k data) (drop k data ++ rest) 0 (Z.of_nat k)) as R3.
  cbn [app] in R3. rewrite app_assoc, take_drop in R3.
  rewrite R3 by (rewrite ?length_take; simpl; lia). cbn [mbind option_bind].
  destruct (write_prefix b2 (h ++ l) (take k data) (2 + 4) H2) as (b3 & -> & H3);
    [rewrite length_app; lia|rewrite length_app, length_take; lia|].
  cbn [mbind option_bind]. exists b3. by rewrite <- app_assoc in H3.
Qed.

Lemma remain_segment b h mtu pre rest z k index : starts b [] -> List.length h = 2%nat ->
  6 <= mtu <= CA_SUPPORTED_BLE_MTU_SIZE -> (k <= List.length rest)%nat -> 0 <= index ->
  Z.of_nat k <= mtu - 2 ->
  Z.of_nat (List.length pre) = mtu - 6 + index * (mtu - 2) ->
  Z.of_nat (List.length (pre ++ rest)) < 2 ^ 32 ->
  exists b', CAMakeRemainDataSegment b (Z.of_nat k) ((pre ++ rest) ++ z)
               (Z.of_nat (List.length (pre ++ rest))) index h mtu = Some (CA_STATUS_OK, b')
             /\ starts b' (h ++ take k rest).
Proof.
  intros Hb Hh Hm Hk Hi Hp Hpre Hlen. unfold CAMakeRemainDataSegment.
  unfold CA_BLE_HEADER_SIZE, CA_BLE_LENGTH_HEADER_SIZE, CA_SUPPORTED_BLE_MTU_SIZE in *.
  rewrite length_app in *.
  assert (E1 : u32 (index * (mtu - 2)) = index * (mtu - 2)) by (apply wrap_id; unfold in_width; nia).
  rewrite E1.
  assert (E2 : u32 (mtu - 2 - 4 + index * (mtu - 2)) = Z.of_nat (List.length pre))
    by (rewrite wrap_id; unfold in_width; lia).
  rewrite E2. rewrite (wrap_id 32 (Z.of_nat (List.length pre) + Z.of_nat k)) by (unfold in_width; lia).
  rewrite (proj2 (Z.ltb_ge _ _)) by lia.
  pose proof (read_block_app [] h [] 0 2) as R1. rewrite app_nil_r in R1. cbn [app] in R1.
  rewrite R1 by (simpl; lia). cbn [mbind option_bind].
  destruct (write_prefix b [] h 0 Hb) as (b1 & -> & H1); [done|simpl; unfold CA_SUPPORTED_BLE_MTU_SIZE; lia|].
  cbn [mbind option_bind app] in *.
  assert (E3 : (pre ++ rest) ++ z = pre ++ take k rest ++ (drop k rest ++ z)).
  { rewrite <- app_assoc. f_equal. by rewrite app_assoc, take_drop. }
  rewrite E3, (read_block_app pre (take k rest)) by (rewrite ?length_take; lia). cbn [mbind option_bind].
  destruct (write_prefix b1 h (take k rest) 2 H1) as (b2 & -> & H2);
    [lia|rewrite length_take; unfold CA_SUPPORTED_BLE_MTU_SIZE; lia|].
  cbn [mbind option_bind]. by exists b2.
Qed.

Lemma chunks_more f n l : (0 < n)%nat -> (n <= List.length l)%nat ->
  chunks (S f) n l = take n l :: chunks f n (drop n l).
Proof. destruct l; simpl; [lia|done]. Qed.

Lemma chunks_last f n l : (List.length l <= n)%nat -> l <> [] -> chunks (S f) n l = [l].
Proof.
  intros Hl Hn. destruct l as [|x l']; [done|]. cbn [chunks].
  rewrite take_ge, drop_ge by done. by destruct f.
Qed.

Lemma send_mid_all k index mtu b h pre rest z f (w : W) r
    (last : list Z -> M W CAResult_t) :
  starts b [] -> List.length h = 2%nat -> 6 <= mtu <= CA_SUPPORTED_BLE_MTU_SIZE ->
  0 <= index -> Z.of_nat (List.length rest) = Z.of_nat k * (mtu - 2) + r -> 0 <= r < mtu - 2 ->
  Z.of_nat (List.length pre) = mtu - 6 + index * (mtu - 2) ->
  Z.of_nat (List.length (pre ++ rest)) < 2 ^ 32 -> (List.length rest <= f)%nat ->
  (forall b' pre' rest' f' w', starts b' [] -> pre' ++ rest' = pre ++ rest ->
     Z.of_nat (List.length rest') = r ->
     Z.of_nat (List.length pre') = mtu - 6 + (index + Z.of_nat k) * (mtu - 2) ->
     (List.length rest' <= f')%nat ->
     last b' w' = send_all
       ((fun c => h ++ c) <$> chunks f' (Z.to_nat (mtu - 2)) rest') w') ->
  send_mid k index mtu b ((pre ++ rest) ++ z) (Z.of_nat (List.length (pre ++ rest))) h last w
  = send_all ((fun c => h ++ c) <$> chunks f (Z.to_nat (mtu - 2)) rest) w.
Proof.
  revert index b pre rest f w. induction k as [|k IH];
    intros index b pre rest f w Hb Hh Hm Hi Hr Hr' Hpre Hlen Hf Hlast.
  { apply (Hlast b pre rest); (done || lia). }
  assert (Hc : (Z.to_nat (mtu - 2) <= List.length rest)%nat) by nia.
  assert (Hpos : (0 < Z.to_nat (mtu - 2))%nat) by lia.
  destruct f as [|f]; [lia|]. rewrite (chunks_more f) by done. rewrite fmap_cons.
  cbn [send_mid send_all]. unfold CA_BLE_HEADER_SIZE.
  destruct (remain_segment b h mtu pre rest z (Z.to_nat (mtu - 2)) index) as (b1 & E1 & Hb1);
    [done|done|done|done|done|lia|done|done|].
  replace (Z.of_nat (Z.to_nat (mtu - 2))) with (mtu - 2) in E1 by lia.
  unfold bind at 1, demand at 1. rewrite E1. unfold unless_failed at 1. cbn [ca_ok].
  assert (E2 : read_block b1 0 mtu = Some (h ++ take (Z.to_nat (mtu - 2)) rest)).
  { apply read_prefix; [done|]. rewrite length_app, length_take. lia. }
  unfold bind at 1, demand at 1. rewrite E2. unfold bind. destruct (update _ w) as [[u w']|]; [|done].
  unfold unless_failed. destruct (ca_ok u); [|done].
  set (c := Z.to_nat (mtu - 2)) in *.
  assert (Ep : pre ++ rest = (pre ++ take c rest) ++ drop c rest)
    by (rewrite <- app_assoc; by rewrite take_drop).
  assert (Ei : u32 (index + 1) = index + 1).
  { apply wrap_id. unfold in_width. rewrite length_app in Hlen.
    unfold CA_SUPPORTED_BLE_MTU_SIZE in Hm. nia. }
  rewrite Ei, Ep. apply IH; try done.
  - by eapply starts_nil.
  - lia.
  - rewrite length_drop. nia.
  - rewrite length_app, length_take. nia.
  - by rewrite <- Ep.
  - rewrite length_drop. lia.
  - intros b' pre' rest' f' w'' ? Eq ? ? ?. rewrite <- Ep in Eq. apply (Hlast b' pre' rest'); try done. lia.
Qed.

Lemma send_last_all b h mtu total pre rest index f w :
  starts b [] -> List.length h = 2%nat -> 6 <= mtu <= CA_SUPPORTED_BLE_MTU_SIZE ->
  0 <= index -> Z.of_nat (List.length rest) < mtu - 2 ->
  Z.of_nat (List.length pre) = mtu - 6 + index * (mtu - 2) ->
  Z.of_nat (List.length (pre ++ rest)) < 2 ^ 32 -> (List.length rest <= f)%nat ->
  (rest <> [] -> mtu < total) ->
  send_last index (Z.of_nat (List.length rest)) total mtu ((pre ++ rest) ++ [0])
    (Z.of_nat (List.length (pre ++ rest))) h b w
  = send_all ((fun c => h ++ c) <$> chunks f (Z.to_nat (mtu - 2)) rest) w.
Proof.
  intros Hb Hh Hm Hi Hr Hpre Hlen Hf Ht. unfold send_last.
  destruct (Z.eqb_spec (Z.of_nat (List.length rest)) 0) as [Hr0|Hr0].
  { destruct rest; [|simpl in Hr0; lia]. by destruct f. }
  assert (Hne : rest <> []) by (by intros ->).
  rewrite (proj2 (Z.ltb_lt _ _)) by auto. cbn [negb andb].
  rewrite (wrap_id 32 (Z.of_nat (List.length rest))) by
    (unfold in_width, CA_SUPPORTED_BLE_MTU_SIZE in *; lia).
  destruct (remain_segment b h mtu pre rest [0] (List.length rest) index) as (b2 & E3 & Hb2);
    try done; try lia.
  erewrite bind_some by (unfold demand; by rewrite E3). rewrite take_ge in Hb2 by done.
  unfold unless_failed at 1. cbn [ca_ok]. erewrite bind_some.
  2:{ unfold demand. erewrite read_prefix; [done|exact Hb2|]. rewrite length_app.
      unfold CA_BLE_HEADER_SIZE. rewrite wrap_id; [simpl; lia|].
      unfold in_width, CA_SUPPORTED_BLE_MTU_SIZE in *. lia. }
  destruct f as [|f]; [destruct rest; simpl in *; lia|].
  rewrite chunks_last by (done || lia).
  cbn [fmap list_fmap send_all]. unfold bind. destruct (update _ _) as [[u' w3]|]; [|done].
  unfold unless_failed. by destruct u'.
Qed.

(** The header is written over the one of the packet before. *)
Lemma next_header lport sec port f g : port_ok lport -> is_bit sec ->
  0 <= port <= CA_SUPPORTED_BLE_MAX_PORT -> is_bit f -> is_bit g ->
  CAGenerateHeader (header_bytes f lport sec port) g lport sec port
  = Some (CA_STATUS_OK, header_bytes g lport sec port).
Proof.
  unfold port_ok, CA_SUPPORTED_BLE_MIN_PORT, CA_SUPPORTED_BLE_MAX_PORT.
  intros Hl Hsec Hp Hf Hg. apply CAGenerateHeader_ok; try done;
    unfold CA_SUPPORTED_BLE_MIN_PORT, CA_SUPPORTED_BLE_MAX_PORT;
    destruct Hf as [-> | ->], Hsec as [-> | ->]; lia.
Qed.

Lemma take_length_take {A} n (l : list A) : take (List.length (take n l)) l = take n l.
Proof.
  rewrite length_take. destruct (Nat.le_ge_cases n (List.length l)).
  - by rewrite Nat.min_l.
  - rewrite Nat.min_r by lia. by rewrite !take_ge by lia.
Qed.

Lemma first_sizes mtu total (message : list Z) : 6 <= mtu <= CA_SUPPORTED_BLE_MTU_SIZE ->
  Z.of_nat (List.length message) <= mtu - 6 /\ total = Z.of_nat (List.length message) + 6 \/
  mtu - 6 <= Z.of_nat (List.length message) /\ mtu <= total ->
  (if total <? mtu then (u32 total, Z.of_nat (List.length message))
   else (mtu, u32 (mtu - CA_BLE_HEADER_SIZE - CA_BLE_LENGTH_HEADER_SIZE)))
  = (Z.of_nat (6 + List.length (take (Z.to_nat (mtu - 6)) message)),
     Z.of_nat (List.length (take (Z.to_nat (mtu - 6)) message))).
Proof.
  unfold CA_BLE_HEADER_SIZE, CA_BLE_LENGTH_HEADER_SIZE, CA_SUPPORTED_BLE_MTU_SIZE.
  intros Hm Hc. rewrite length_take.
  destruct (Z.ltb_spec total mtu); rewrite wrap_id by (unfold in_width; lia); f_equal; lia.
Qed.

(** What the computation of the packet sizes gives. *)
Lemma variables_ok mtu len : 6 <= mtu <= CA_SUPPORTED_BLE_MTU_SIZE -> 0 <= len < 2 ^ 32 ->
  exists mid rem total,
    CAGenerateVariableForFragmentation len mtu = inr (mid, rem, total) /\
    0 <= mid /\ 0 <= rem < mtu - 2 /\
    (len <= mtu - 6 /\ mid = 0 /\ rem = 0 /\ total = len + 6 \/
     mtu - 6 <= len /\ len = mtu - 6 + mid * (mtu - 2) + rem /\
     mtu <= total /\ (rem <> 0 -> mtu < total)).
Proof.
  unfold CA_SUPPORTED_BLE_MTU_SIZE. intros Hm Hl. unfold CAGenerateVariableForFragmentation.
  unfold CA_BLE_HEADER_SIZE, CA_BLE_LENGTH_HEADER_SIZE.
  rewrite (wrap_id 64 (mtu - (2 + 4))) by (unfold in_width; lia).
  rewrite (proj2 (Z.leb_gt _ _)) by lia.
  do 3 eexists. split; [done|].
  set (x := if len <? mtu - (2 + 4) then 0 else len - (mtu - (2 + 4))).
  assert (Hx : 0 <= x < 2 ^ 32 /\ x <= len) by (unfold x; case_match eqn:E; lia).
  rewrite (wrap_id 32 x) by (unfold in_width; lia).
  pose proof (Z.mod_pos_bound x (mtu - 2)) as Hr. pose proof (Z.div_mod x (mtu - 2)) as Hd.
  assert (Hq : 0 <= x / (mtu - 2)) by (apply Z.div_pos; lia).
  set (mid := x / (mtu - 2)) in *. set (rem := x mod (mtu - 2)) in *.
  assert (Hmid : mid * 4 <= x) by nia.
  set (e := if rem =? 0 then 0 else 1).
  assert (He : rem = 0 /\ e = 0 \/ rem <> 0 /\ e = 1)
    by (unfold e; destruct (Z.eqb_spec rem 0); auto).
  rewrite (wrap_id 32 (2 * (mid + e))) by (unfold in_width; lia).
  rewrite wrap_id by (unfold in_width; lia).
  split_and!; [lia|lia|lia|]. unfold x in *. destruct (Z.ltb_spec len (mtu - (2 + 4))).
  - left. assert (mid = 0) by nia. assert (rem = 0) by nia. lia.
  - right. split_and!; try lia; nia.
Qed.

(** A message is cut into its packets and these are sent in order until one
    fails: the first packet has the length of the message and as many bytes as fit,
    the others the rest. *)
Lemma CALEServerSendDataThread_sends mtu lport secure port message (w : W) :
  6 <= mtu <= CA_SUPPORTED_BLE_MTU_SIZE -> port_ok lport ->
  0 <= port <= CA_SUPPORTED_BLE_MAX_PORT -> Z.of_nat (List.length message) < 2 ^ 32 ->
  CALEServerSendDataThread mtu lport secure port (message ++ [0])
    (Z.of_nat (List.length message)) w
  = send_all (packets mtu lport secure port message) w.
Proof.
  intros Hm Hlp Hp Hlen. unfold CALEServerSendDataThread.
  destruct (variables_ok mtu (Z.of_nat (List.length message))) as
    (mid & rem & total & -> & Hmid & Hrem & Hcase); [done|lia|].
  set (sec := if secure then CA_BLE_PACKET_SECURE else CA_BLE_PACKET_NON_SECURE).
  assert (Hsec : is_bit sec) by (unfold sec; destruct secure; [by right|by left]).
  assert (Hport : u8 port = port)
    by (apply wrap_id; unfold in_width, CA_SUPPORTED_BLE_MAX_PORT in *; lia).
  rewrite Hport.
  erewrite bind_some by
    (unfold demand; rewrite CAGenerateHeader_ok by (done || lia || by right); done).
  unfold unless_failed at 1. cbn [ca_ok]. unfold CA_BLE_LENGTH_HEADER_SIZE at 1.
  erewrite bind_some by
    (unfold demand; rewrite CAGenerateHeaderPayloadLength_ok by lia; done).
  unfold unless_failed at 1. cbn [ca_ok]. set (first := Z.to_nat (mtu - 6)).
  rewrite (first_sizes mtu total message) by (destruct Hcase; lia || done). fold first.
  destruct (first_segment (replicate (Z.to_nat CA_SUPPORTED_BLE_MTU_SIZE) 0)
    (header_bytes CA_BLE_PACKET_START lport sec port) (be32 (Z.of_nat (List.length message)))
    message (List.length (take first message)) [0]) as (b1 & E1 & Hb1);
    [split; [by rewrite length_replicate|by eexists]|done|done|
     rewrite length_take; unfold CA_SUPPORTED_BLE_MTU_SIZE in *; lia..|].
  rewrite take_length_take in Hb1. erewrite bind_some by (unfold demand; by rewrite E1).
  unfold unless_failed at 1. cbn [ca_ok].
  erewrite bind_some by
    (unfold demand; erewrite read_prefix; [done|exact Hb1|rewrite !length_app; simpl; lia]).
  unfold packets. fold sec first. cbn [send_all]. apply bind_ext. intros u w' _.
  unfold unless_failed. destruct (ca_ok u); [|done].
  erewrite bind_some by (unfold demand; rewrite next_header by (done || (by left) || by right); done).
  cbn [ca_ok].
  set (h := header_bytes CA_BLE_PACKET_NOT_START lport sec port).
  assert (Hfirst : Z.of_nat first = mtu - 6) by (unfold first; lia).
  destruct Hcase as [(Hs & -> & -> & Ht)|(Hs & Hl & Ht & Hgt)].
  { cbn [Z.to_nat send_mid negb Z.eqb andb]. rewrite (drop_ge message) by lia.
    by destruct (List.length message). }
  rewrite <- (take_drop first message) at 1 2.
  apply send_mid_all with (r := rem); try done.
  - by eapply starts_nil.
  - rewrite length_drop. lia.
  - rewrite length_take. lia.
  - by rewrite take_drop.
  - rewrite length_drop. lia.
  - intros b' pre rest f' w'' Hb' Hpr Hrest Hpre Hf'. rewrite take_drop in Hpr.
    rewrite Z.add_0_l, Z2Nat.id in Hpre by done. rewrite <- Hpr, <- Hrest.
    apply send_last_all; try done; [lia|by rewrite Hpr|].
    intros Hne. apply Hgt. destruct rest; simpl in *; [done|lia].
Qed.

End sender.

(** ** What the receiver promises

    For each sender - an address and a port - a message being put together: whether
    it is secure, its length and the bytes so far. *)
Definition key : Type := string * Z.
Record partial : Type := mk_partial { p_secure : bool; p_total : Z; p_bytes : list Z }.

Definition complete (m : partial) : option partial * option (bool * list Z) :=
  if Z.of_nat (List.length (p_bytes m)) =? p_total m
  then (None, Some (p_secure m, p_bytes m)) else (Some m, None).

(** A packet of one sender: a first packet starts anew, a later one continues; what
    does not fit is dropped with the message it belongs to. *)
Definition reassemble (start secure : bool) (packet : list Z) (m : option partial) :
    option partial * option (bool * list Z) :=
  match start, m with
  | false, None => (None, None)
  | true, _ =>
      match packet with
      | _ :: _ :: a :: b :: c :: d :: bytes =>
          let total := be_value a b c d in
          if (total =? 0) || (total =? 2 ^ 32 - 1)
             || (total <? Z.of_nat (List.length bytes))
          then (None, None) else complete (mk_partial secure total bytes)
      | _ => (None, None)
      end
  | false, Some m =>
      let bytes := p_bytes m ++ drop 2 packet in
      if p_total m <? Z.of_nat (List.length bytes) then (None, None)
      else complete (mk_partial (p_secure m) (p_total m) bytes)
  end.

Definition up_of (callback : bool) (k : key) (r : option (bool * list Z)) : list upcall :=
  match r with
  | Some (secure, d) =>
      if callback then [if secure then DecryptSsl k.1 k.2 d else NetworkPacketReceived k.1 k.2 d]
      else []
  | None => []
  end.

Definition info_key (i : CABLESenderInfo_t) : key := (s_addr i, s_port i).
Definition info_partial (i : CABLESenderInfo_t) : partial :=
  mk_partial (s_secure i) (totalDataLen i) (take (Z.to_nat (recvDataLen i)) (defragData i)).
Definition view (l : list CABLESenderInfo_t) : gmap key partial :=
  list_to_map ((fun i => (info_key i, info_partial i)) <$> l).

(** The buffer of an entry has room for the message; addresses have one length
    (device addresses do), so that no two entries are of one sender. *)
Definition info_ok (i : CABLESenderInfo_t) : Prop :=
  0 <= recvDataLen i < totalDataLen i /\ totalDataLen i < 2 ^ 32 - 1 /\
  Z.of_nat (List.length (defragData i)) = totalDataLen i + 1.
Definition table_ok (n : nat) (l : list CABLESenderInfo_t) : Prop :=
  Forall info_ok l /\ Forall (fun i => String.length (s_addr i) = n) l /\
  NoDup (info_key <$> l).

Lemma prefix_same s t : String.length s = String.length t ->
  String.prefix s t = true <-> s = t.
Proof.
  revert t. induction s as [|a s IH]; intros [|b t] H; simpl in *; try done.
  destruct (ascii_dec a b) as [->|Hne]; [|split; [done|by intros [= ]]].
  rewrite IH by lia. split; [by intros ->|by intros [= ]].
Qed.

Lemma get_from_spec n base a p l : String.length a = n ->
  Forall (fun i => String.length (s_addr i) = n) l -> NoDup (info_key <$> l) ->
  match CALEGetSenderInfo_from base a p l with
  | Some (k, i) => exists j, k = (base + j)%nat /\ l !! j = Some i /\ info_key i = (a, p) /\
                            view l !! (a, p) = Some (info_partial i)
  | None => (a, p) ∉ info_key <$> l /\ view l !! (a, p) = None
  end.
Proof.
  intros Ha Hl. revert base. induction Hl as [|i l Hi Hl IH]; intros base Hnd; simpl.
  { split; [by intros ?%elem_of_nil|]. done. }
  rewrite fmap_cons in Hnd. apply NoDup_cons in Hnd as [Hni Hnd].
  destruct (String.prefix a (s_addr i) && (s_port i =? p)) eqn:E.
  - apply andb_true_iff in E as [E1 E2%Z.eqb_eq]. apply prefix_same in E1; [|congruence].
    subst a p. exists O. split_and!; [lia|done|done|]. unfold view. rewrite fmap_cons. simpl.
    by rewrite lookup_insert_eq.
  - assert (Hne : info_key i <> (a, p)).
    { intros [= <- <-]. rewrite Z.eqb_refl, andb_true_r in E.
      by rewrite (proj2 (prefix_same _ _ eq_refl)) in E. }
    specialize (IH (S base) Hnd). destruct (CALEGetSenderInfo_from (S base) a p l) as [[k i']|].
    + destruct IH as (j & -> & Hj & Hk & Hv). exists (S j). split_and!; [lia|done|done|].
      unfold view. rewrite fmap_cons. simpl. by rewrite lookup_insert_ne.
    + destruct IH as [Hn Hv]. split; [by rewrite elem_of_cons; intros [?|?]|].
      unfold view. rewrite fmap_cons. simpl. by rewrite lookup_insert_ne.
Qed.

Lemma view_cons i l : view (i :: l) = <[info_key i := info_partial i]> (view l).
Proof. done. Qed.

Lemma view_mid l1 i l2 : info_key i ∉ info_key <$> (l1 ++ l2) ->
  view (l1 ++ i :: l2) = <[info_key i := info_partial i]> (view (l1 ++ l2)).
Proof.
  induction l1 as [|x l1 IH]; [done|]. cbn [app]. rewrite fmap_cons, elem_of_cons.
  intros H. rewrite !view_cons, IH by auto. apply insert_insert_ne. auto.
Qed.

Lemma view_fresh k l : k ∉ info_key <$> l -> view l !! k = None.
Proof.
  intros H. apply not_elem_of_list_to_map_1. by rewrite <- list_fmap_compose.
Qed.

Lemma table_mid n l1 i l2 : table_ok n (l1 ++ i :: l2) <->
  table_ok n (l1 ++ l2) /\ info_ok i /\ String.length (s_addr i) = n /\
  info_key i ∉ info_key <$> (l1 ++ l2).
Proof.
  unfold table_ok. rewrite !Forall_app, !Forall_cons, !fmap_app, fmap_cons, !NoDup_app, NoDup_cons.
  setoid_rewrite elem_of_app. setoid_rewrite elem_of_cons. naive_solver.
Qed.

Lemma split_at (l : list CABLESenderInfo_t) j i : l !! j = Some i ->
  exists l1 l2, l = l1 ++ i :: l2 /\ j = List.length l1.
Proof.
  intros H. exists (take j l), (drop (S j) l). split; [by rewrite take_drop_middle|].
  rewrite length_take. apply lookup_lt_Some in H. lia.
Qed.

Lemma find_fresh n a p l : table_ok n l -> String.length a = n -> (a, p) ∉ info_key <$> l ->
  CALEGetSenderInfo a p l = None.
Proof.
  intros (_ & Hl & Hnd) Ha Hn. pose proof (get_from_spec n 0 a p l Ha Hl Hnd) as H.
  unfold CALEGetSenderInfo. destruct (CALEGetSenderInfo_from 0 a p l) as [[k i]|]; [|done].
  destruct H as (j & -> & Hj & Hk & _). destruct Hn. rewrite <- Hk.
  by eapply list_elem_of_lookup_2; rewrite list_lookup_fmap, Hj.
Qed.

Lemma find_last base a p l i : CALEGetSenderInfo_from base a p l = None -> info_key i = (a, p) ->
  CALEGetSenderInfo_from base a p (l ++ [i]) = Some ((base + List.length l)%nat, i).
Proof.
  intros Hf [= <- <-]. revert base Hf. induction l as [|x l IH]; intros base Hf; simpl in *.
  - by rewrite (proj2 (prefix_same _ _ eq_refl) eq_refl), Z.eqb_refl, Nat.add_0_r.
  - case_match; [done|]. rewrite IH by done. do 2 f_equal. lia.
Qed.

(** An entry whose buffer has room for its message, complete or not. *)
Definition info_fits (i : CABLESenderInfo_t) : Prop :=
  0 <= recvDataLen i <= totalDataLen i /\ totalDataLen i < 2 ^ 32 - 1 /\
  Z.of_nat (List.length (defragData i)) = totalDataLen i + 1.

Definition kept {A} (m : option partial) (there gone : A) : A :=
  match m with Some _ => there | None => gone end.

Lemma deliver_spec cb i l1 l2 : info_fits i ->
  exists m r, complete (info_partial i) = (m, r) /\
    deliver cb i (List.length l1) (l1 ++ i :: l2)
    = Some (kept m (l1 ++ i :: l2) (l1 ++ l2), up_of cb (info_key i) r) /\
    kept m (info_ok i /\ m = Some (info_partial i)) True.
Proof.
  intros (Hr & Ht & Hb). unfold complete, deliver, info_partial. cbn [p_bytes p_total p_secure].
  rewrite length_take, Nat.min_l by lia. rewrite Z2Nat.id, (Z.eqb_sym (recvDataLen i)) by lia.
  destruct (Z.eqb_spec (totalDataLen i) (recvDataLen i)) as [E|E].
  - do 2 eexists. split; [done|]. split; [|done]. cbn [kept up_of].
    assert (Hd : delete (List.length l1) (l1 ++ i :: l2) = l1 ++ l2) by apply delete_middle.
    rewrite Hd. destruct cb; cbn [negb]; [|done]. unfold read_block.
    rewrite !(proj2 (Z.leb_le _ _)) by lia. cbn [andb Z.to_nat mbind option_bind].
    by rewrite drop_0.
  - do 2 eexists. split; [done|]. split; [done|]. split; [|done]. split_and!; lia.
Qed.

(** What a branch of the handler does with the entry of [k], the other entries being
    [rest]. *)
Definition entry_step (n : nat) (cb : bool) (k : key) (rest : gmap key partial)
    (m : option partial) (r : option (bool * list Z))
    (result : option (list CABLESenderInfo_t * list upcall)) : Prop :=
  exists l', result = Some (l', up_of cb k r) /\ table_ok n l' /\
             view l' = partial_alter (fun _ => m) k rest.

Lemma partial_alter_none (k : key) (m : gmap key partial) : m !! k = None ->
  partial_alter (fun _ => None) k m = m.
Proof. intros H. by apply partial_alter_id. Qed.

Lemma deliver_step n cb i l1 l2 : info_fits i -> table_ok n (l1 ++ l2) ->
  String.length (s_addr i) = n -> info_key i ∉ info_key <$> (l1 ++ l2) ->
  exists m r, complete (info_partial i) = (m, r) /\
    entry_step n cb (info_key i) (view (l1 ++ l2)) m r
      (deliver cb i (List.length l1) (l1 ++ i :: l2)).
Proof.
  intros Hi Ht Hn Hk. destruct (deliver_spec cb i l1 l2 Hi) as (m & r & Hc & Hd & Hm).
  exists m, r. split; [done|]. eexists. split; [exact Hd|]. destruct m as [p|]; cbn [kept] in *.
  - destruct Hm as [Hok [= ->]]. split; [by apply table_mid|]. by apply view_mid.
  - split; [done|]. by rewrite partial_alter_none by by apply view_fresh.
Qed.

(** A first packet: the header, the length and the bytes [d]. *)
Lemma new_sender_first n cb a sp sec x y b3 b2 b1 b0 d l : table_ok n l -> String.length a = n ->
  (a, sp) ∉ info_key <$> l -> Forall (fun b => 0 <= b < 256) [b3; b2; b1; b0] ->
  Z.of_nat (List.length d) + 6 < 2 ^ 32 ->
  let packet := x :: y :: b3 :: b2 :: b1 :: b0 :: d in
  let '(m, r) := reassemble true (sec =? CA_BLE_PACKET_SECURE) packet None in
  entry_step n cb (a, sp) (view l) m r
    (new_sender cb a sp CA_BLE_PACKET_START sec (packet ++ [0])
       (Z.of_nat (List.length packet)) l).
Proof.
  intros Ht Ha Hk Hb Hd. cbv zeta. cbn [reassemble]. rewrite !Forall_cons in Hb.
  destruct Hb as (Hb3 & Hb2 & Hb1 & Hb0 & _). unfold new_sender. cbn [app Z.eqb CA_BLE_PACKET_START CA_BLE_PACKET_NOT_START].
  change CA_BLE_LENGTH_HEADER_SIZE with 4. change CA_BLE_HEADER_SIZE with 2.
  rewrite (CAParseHeaderPayloadLength_value x y b3 b2 b1 b0 (d ++ [0])) by done.
  cbn [mbind option_bind]. set (total := be_value b3 b2 b1 b0).
  assert (Htot : 0 <= total < 2 ^ 32) by (unfold total, be_value; lia).
  assert (Hgone : entry_step n cb (a, sp) (view l) None None (Some (l, []))).
  { exists l. split; [done|]. split; [done|].
    by rewrite partial_alter_none by by apply view_fresh. }
  destruct (Z.eqb_spec total 0) as [Et|Et]; [done|].
  cbn [orb].
  assert (El : u32 (Z.of_nat (List.length (x :: y :: b3 :: b2 :: b1 :: b0 :: d)) - (2 + 4))
               = Z.of_nat (List.length d)).
  { cbn [List.length]. rewrite wrap_id; [lia|]. unfold in_width. lia. }
  rewrite El.
  destruct (Z.eqb_spec total (2 ^ 32 - 1)) as [Em|Em].
  { by rewrite Em. }
  rewrite (wrap_id 32 (total + 1)) by (unfold in_width; lia).
  rewrite (proj2 (Z.eqb_neq (total + 1) 0)) by lia. cbn [orb]. rewrite Z.add_0_l.
  destruct (Z.ltb_spec total (Z.of_nat (List.length d))) as [Hg|Hg]; [done|].
  pose proof (read_block_app [x; y; b3; b2; b1; b0] d [0] (2 + 4) (Z.of_nat (List.length d))) as R.
  cbn [app] in R. rewrite R by done. cbn [mbind option_bind].
  rewrite (wrap_id 32 (Z.of_nat (List.length d))) by (unfold in_width; lia).
  destruct (split_block (replicate (Z.to_nat (total + 1)) 0) (List.length d)) as (u & v & Ev & Hu);
    [rewrite length_replicate; lia|].
  pose proof (write_block_app [] u v d 0) as Wr. cbn [app] in Wr. rewrite Ev, Wr by done.
  cbn [mbind option_bind s_addr s_port].
  set (i := mk_sender _ _ _ _ _ _).
  pose proof (find_last 0 a sp l i (find_fresh n a sp l Ht Ha Hk) eq_refl) as Hf.
  change (CALEGetSenderInfo a sp (l ++ [i]) = Some (List.length l, i)) in Hf.
  rewrite Hf. cbn [mbind option_bind].
  assert (Hlen : Z.of_nat (List.length (d ++ v)) = total + 1).
  { rewrite length_app. apply (f_equal (@List.length Z)) in Ev.
    rewrite length_replicate, length_app in Ev. lia. }
  destruct (deliver_step n cb i l []) as (m & r & Hc & Hs).
  - split_and!; cbn [recvDataLen totalDataLen defragData i]; lia.
  - by rewrite app_nil_r.
  - done.
  - by rewrite app_nil_r.
  - rewrite app_nil_r in Hs.
    replace (mk_partial (sec =? CA_BLE_PACKET_SECURE) total d) with (info_partial i);
      [by rewrite Hc|].
    unfold info_partial, i. cbn. rewrite Nat2Z.id. by rewrite take_app_length.
Qed.

(** Five bytes: the last byte of the length is the zero cell after the packet. *)
Lemma new_sender_short n cb a sp sec x y b3 b2 b1 l : table_ok n l ->
  (a, sp) ∉ info_key <$> l -> Forall (fun b => 0 <= b < 256) [b3; b2; b1] ->
  entry_step n cb (a, sp) (view l) None None
    (new_sender cb a sp CA_BLE_PACKET_START sec ([x; y; b3; b2; b1] ++ [0]) 5 l).
Proof.
  intros Ht Hk Hb. rewrite !Forall_cons in Hb. destruct Hb as (Hb3 & Hb2 & Hb1 & _).
  assert (Hgone : entry_step n cb (a, sp) (view l) None None (Some (l, []))).
  { exists l. split; [done|]. split; [done|].
    by rewrite partial_alter_none by by apply view_fresh. }
  unfold new_sender. cbn [app Z.eqb CA_BLE_PACKET_START CA_BLE_PACKET_NOT_START].
  change CA_BLE_LENGTH_HEADER_SIZE with 4. change CA_BLE_HEADER_SIZE with 2.
  rewrite (CAParseHeaderPayloadLength_value x y b3 b2 b1 0 []) by lia.
  cbn [mbind option_bind]. change (u32 (5 - (2 + 4))) with (2 ^ 32 - 1).
  destruct (_ =? 0); [done|]. destruct (_ =? 0); [done|].
  rewrite (proj2 (Z.ltb_lt _ _)); [done|]. unfold be_value. lia.
Qed.

Lemma more_data_step n cb i l1 l2 x y d : table_ok n (l1 ++ i :: l2) ->
  Z.of_nat (List.length d) + 2 < 2 ^ 32 ->
  let packet := x :: y :: d in
  let '(m, r) := reassemble false true packet (Some (info_partial i)) in
  entry_step n cb (info_key i) (view (l1 ++ l2)) m r
    (more_data cb i (List.length l1) (packet ++ [0]) (Z.of_nat (List.length packet))
       (l1 ++ i :: l2)).
Proof.
  intros Ht Hd. cbv zeta. apply table_mid in Ht as (Ht & (Hr & Htot & Hbuf) & Hn & Hk).
  unfold more_data. change CA_BLE_HEADER_SIZE with 2.
  assert (El : u32 (Z.of_nat (List.length (x :: y :: d)) - 2) = Z.of_nat (List.length d)).
  { cbn [List.length]. rewrite wrap_id; [lia|]. unfold in_width. lia. }
  rewrite El. cbn [reassemble info_partial p_total p_bytes p_secure drop].
  destruct (split_block (defragData i) (Z.to_nat (recvDataLen i))) as (got & free & Eb & Hgot); [lia|].
  rewrite Eb, length_app in Hbuf. rewrite Eb.
  assert (Et : take (Z.to_nat (recvDataLen i)) (got ++ free) = got)
    by (rewrite <- Hgot; apply take_app_length).
  rewrite Et, drop_0, length_app.
  destruct (Z.ltb_spec (totalDataLen i) (recvDataLen i + Z.of_nat (List.length d))) as [Hg|Hg].
  { rewrite (proj2 (Z.ltb_lt _ _)) by lia. exists (l1 ++ l2).
    assert (Hdel : delete (List.length l1) (l1 ++ i :: l2) = l1 ++ l2) by apply delete_middle.
    rewrite Hdel. split; [done|]. split; [done|].
    by rewrite partial_alter_none by by apply view_fresh. }
  rewrite (proj2 (Z.ltb_ge _ _)) by lia.
  pose proof (read_block_app [x; y] d [0] 2 (Z.of_nat (List.length d))) as R.
  cbn [app] in *. rewrite R by done. cbn [mbind option_bind].
  destruct (split_block free (List.length d)) as (u & v & -> & Hu); [lia|].
  rewrite (write_block_app got u v d) by lia. cbn [mbind option_bind].
  rewrite wrap_id by (unfold in_width; lia). set (i' := mk_sender _ _ _ _ _ _).
  assert (Hins : <[List.length l1 := i']> (l1 ++ i :: l2) = l1 ++ i' :: l2)
    by (by rewrite insert_app_r_alt, Nat.sub_diag by done).
  rewrite Hins. destruct (deliver_step n cb i' l1 l2) as (m & r & Hc & Hs); [|done..|].
  - unfold info_fits, i'. cbn [recvDataLen totalDataLen defragData]. rewrite !length_app in *. lia.
  - replace (mk_partial (s_secure i) (totalDataLen i) (got ++ d)) with (info_partial i');
      [by rewrite Hc|].
    unfold info_partial, i'. cbn [s_secure totalDataLen recvDataLen defragData]. f_equal.
    rewrite app_assoc. apply take_app_length'. rewrite length_app. lia.
Qed.

Lemma first_packet n cb a sp sec x y d m0 l : table_ok n l -> String.length a = n ->
  (a, sp) ∉ info_key <$> l -> Forall (fun b => 0 <= b < 256) d -> (3 <= List.length d)%nat ->
  Z.of_nat (List.length d) + 2 < 2 ^ 32 ->
  let packet := x :: y :: d in
  let '(m, r) := reassemble true (sec =? 1) packet m0 in
  entry_step n cb (a, sp) (view l) m r
    (new_sender cb a sp 1 sec (packet ++ [0]) (Z.of_nat (List.length packet)) l).
Proof.
  intros Ht Ha Hk Hb Hl Hm. destruct d as [|b3 [|b2 [|b1 [|b0 d]]]]; simpl in Hl; try lia.
  - by apply new_sender_short.
  - apply (new_sender_first n cb a sp sec x y b3 b2 b1 b0 d l Ht Ha Hk).
    + rewrite !Forall_cons in *. naive_solver.
    + simpl in Hm. lia.
Qed.

Lemma step_result n cb k l rest m r result : entry_step n cb k rest m r result ->
  (view l = rest \/ exists p, view l = <[k := p]> rest) ->
  exists l', result = Some (l', up_of cb k r) /\ table_ok n l' /\
             view l' = partial_alter (fun _ => m) k (view l).
Proof.
  intros (l' & H1 & H2 & H3) Hv. exists l'. split; [done|]. split; [done|].
  destruct Hv as [-> | [p ->]]; [done|]. rewrite H3. symmetry.
  apply (partial_alter_partial_alter_eq (fun _ => m)).
Qed.

(** The packet [packet] of the sender [k] is for us. *)
Definition for_us (lport dp : Z) : bool := (dp =? lport) || (dp =? CA_BLE_MULTICAST_PORT).

(** The receiver does what it promises: one packet moves the message of its
    sender on by [reassemble], leaves the messages of other senders alone and stays
    inside its buffers; so for every packet of at least two bytes, and five if it is
    a first packet. *)
Lemma CALEDataReceiverHandler_step n lport cb a start sp sec dp d l :
  table_ok n l -> String.length a = n -> is_bit start -> is_bit sec ->
  0 <= sp < 128 -> 0 <= dp < 128 -> Forall (fun b => 0 <= b < 256) d ->
  (start = 1 -> (3 <= List.length d)%nat) -> Z.of_nat (List.length d) + 2 < 2 ^ 32 ->
  let packet := header_bytes start sp sec dp ++ d in
  let '(m, r) :=
    if for_us lport dp
    then reassemble (start =? 1) (sec =? 1) packet (view l !! (a, sp))
    else (view l !! (a, sp), None) in
  exists l', CALEDataReceiverHandler lport cb a (packet ++ [0]) (Z.of_nat (List.length packet)) l
             = Some (l', up_of cb (a, sp) r) /\ table_ok n l' /\
             view l' = partial_alter (fun _ => m) (a, sp) (view l).
Proof.
  intros Ht Ha Hs Hc Hsp Hdp Hb Hlen Hmax. cbv zeta. unfold CALEDataReceiverHandler.
  rewrite <- app_assoc, CAParseHeader_ok by done. cbn [mbind option_bind].
  rewrite <- negb_orb. fold (for_us lport dp). destruct (for_us lport dp); cbn [negb].
  2:{ exists l. split; [done|]. split; [done|]. by rewrite partial_alter_self. }
  destruct Ht as (Hok & Hal & Hnd). pose proof (get_from_spec n 0 a sp l Ha Hal Hnd) as Hg.
  unfold CALEGetSenderInfo. assert (Ht : table_ok n l) by done.
  destruct (CALEGetSenderInfo_from 0 a sp l) as [[j i]|].
  - destruct Hg as (j' & -> & Hj & Hk & Hv). cbn [Nat.add]. rewrite Hv.
    apply split_at in Hj as (l1 & l2 & -> & ->).
    assert (Hview : view (l1 ++ i :: l2) = view (l1 ++ l2) \/
              exists p, view (l1 ++ i :: l2) = <[(a, sp) := p]> (view (l1 ++ l2))).
    { right. exists (info_partial i). rewrite <- Hk. apply view_mid.
      by apply table_mid in Ht as (_ & _ & _ & ?). }
    destruct Hs as [-> | ->].
    + pose proof (more_data_step n cb i l1 l2 (0 * 128 + sp) (sec * 128 + dp) d Ht Hmax) as Hm.
      cbv zeta in Hm. rewrite Hk in Hm. change (0 =? 1) with false.
      change (reassemble false (sec =? 1)) with (reassemble false true).
      change (header_bytes 0 sp sec dp ++ d) with (0 * 128 + sp :: sec * 128 + dp :: d) in *.
      destruct (reassemble false true _ _) as [m r]. by eapply step_result.
    + apply table_mid in Ht as (Ht & _ & _ & Hf). rewrite Hk in Hf.
      pose proof (first_packet n cb a sp sec (1 * 128 + sp) (sec * 128 + dp) d
        (Some (info_partial i)) (l1 ++ l2) Ht Ha Hf Hb (Hlen eq_refl) Hmax) as Hm. cbv zeta in Hm.
      change (1 =? 1) with true.
      change (header_bytes 1 sp sec dp ++ d) with (1 * 128 + sp :: sec * 128 + dp :: d) in *.
      assert (Hdel : delete (List.length l1) (l1 ++ i :: l2) = l1 ++ l2) by apply delete_middle.
      rewrite Hdel. destruct (reassemble true _ _ _) as [m r]. by eapply step_result.
  - destruct Hg as [Hf Hv]. rewrite Hv. destruct Hs as [-> | ->].
    + exists l. split; [done|]. split; [done|]. by rewrite partial_alter_none.
    + pose proof (first_packet n cb a sp sec (1 * 128 + sp) (sec * 128 + dp) d None l
        Ht Ha Hf Hb (Hlen eq_refl) Hmax) as Hm. cbv zeta in Hm. change (1 =? 1) with true.
      change (header_bytes 1 sp sec dp ++ d) with (1 * 128 + sp :: sec * 128 + dp :: d) in *.
      destruct (reassemble true _ _ _) as [m r]. eapply step_result; [exact Hm|by left].
Qed.

(** ** From sender to receiver *)

(** A packet as the radio may hand it over: bytes, long enough for its header. *)
Definition packet_ok (p : list Z) : Prop :=
  Forall (fun b => 0 <= b < 256) p /\ (2 <= List.length p)%nat /\
  (128 <= default 0 (head p) -> (5 <= List.length p)%nat) /\ Z.of_nat (List.length p) < 2 ^ 32.

#[export] Instance packet_ok_dec p : Decision (packet_ok p).
Proof. unfold packet_ok. apply _. Defined.

(** The sender a queued packet belongs to, and an upcall. *)
Definition source (e : string * list Z) : key := (e.1, default 0 (head e.2) mod 128).
Definition up_key (u : upcall) : key :=
  match u with NetworkPacketReceived a p _ | DecryptSsl a p _ => (a, p) end.

Definition step_packet (lport : Z) (p : list Z) (m : option partial) :
    option partial * option (bool * list Z) :=
  match p with
  | h0 :: h1 :: _ =>
      if for_us lport (h1 mod 128)
      then reassemble (h0 / 128 =? 1) (h1 / 128 =? 1) p m else (m, None)
  | _ => (m, None)
  end.

Fixpoint step_packets (lport : Z) (ps : list (list Z)) (m : option partial) :
    option partial * list (bool * list Z) :=
  match ps with
  | [] => (m, [])
  | p :: ps' =>
      let '(m, r) := step_packet lport p m in
      let '(m, rs) := step_packets lport ps' m in
      (m, option_list r ++ rs)
  end.

Lemma byte_fields b : 0 <= b < 256 -> is_bit (b / 128) /\ 0 <= b mod 128 < 128 /\
  b = b / 128 * 128 + b mod 128.
Proof. intros H. unfold is_bit. Z.div_mod_to_equations. lia. Qed.

Lemma handler_packet n lport cb a p l : table_ok n l -> String.length a = n -> packet_ok p ->
  let '(m, r) := step_packet lport p (view l !! source (a, p)) in
  exists l', CALEDataReceiverHandler lport cb a (p ++ [0]) (Z.of_nat (List.length p)) l
             = Some (l', up_of cb (source (a, p)) r) /\ table_ok n l' /\
             view l' = partial_alter (fun _ => m) (source (a, p)) (view l).
Proof.
  intros Ht Ha (Hb & Hl & Hs & Hm). destruct p as [|h0 [|h1 d]]; simpl in Hl; try lia.
  rewrite !Forall_cons in Hb. destruct Hb as (Hh0 & Hh1 & Hd).
  destruct (byte_fields h0 Hh0) as (B0 & P0 & E0), (byte_fields h1 Hh1) as (B1 & P1 & E1).
  unfold source. cbn [head default from_option fst snd step_packet] in *.
  pose proof (CALEDataReceiverHandler_step n lport cb a (h0 / 128) (h0 mod 128) (h1 / 128)
    (h1 mod 128) d l Ht Ha B0 B1 P0 P1 Hd) as H. cbv zeta in H.
  unfold header_bytes in H. rewrite <- E0, <- E1 in H. cbn [app] in *.
  apply H; [|simpl in Hm; lia]. intros Hs1. simpl in Hs. lia.
Qed.

Lemma receive_stream n lport queue : Forall (fun e => String.length e.1 = n /\ packet_ok e.2) queue ->
  forall l k, table_ok n l ->
  let '(m, rs) := step_packets lport (snd <$> filter (fun e => source e = k) queue) (view l !! k) in
  exists l' up, receive lport true queue l = Some (l', up) /\ table_ok n l' /\
    view l' !! k = m /\
    filter (fun u => up_key u = k) up = mjoin ((fun r => up_of true k (Some r)) <$> rs).
Proof.
  induction 1 as [|[a p] queue [Ha Hp] _ IH]; intros l k Ht.
  { cbn. exists l, []. auto. }
  cbn [fst snd] in *. pose proof (handler_packet n lport true a p l Ht Ha Hp) as Hh.
  cbn [receive CACreateLEData]. destruct (step_packet lport p _) as [m1 r1] eqn:Es.
  destruct Hh as (l1 & E1 & Ht1 & Hv1). rewrite E1. cbn [mbind option_bind].
  specialize (IH l1 k Ht1). rewrite Hv1 in IH.
  assert (Hup : filter (fun u => up_key u = source (a, p)) (up_of true (source (a, p)) r1)
                = up_of true (source (a, p)) r1).
  { destruct r1 as [[[] d]|]; [| |done]; cbn [up_of];
      rewrite filter_cons_True by done; by rewrite filter_nil. }
  destruct (decide (source (a, p) = k)) as [<-|Hne].
  - rewrite filter_cons_True by done. cbn [fmap list_fmap snd step_packets]. rewrite Es.
    rewrite lookup_partial_alter_eq in IH.
    destruct (step_packets lport _ m1) as [m rs]. destruct IH as (l' & up & E & Ht' & Hm & Hf).
    rewrite E. cbn [mbind option_bind]. exists l', (up_of true (source (a, p)) r1 ++ up).
    split_and!; try done. rewrite filter_app, Hup, Hf, fmap_app. by destruct r1.
  - rewrite filter_cons_False by done. rewrite lookup_partial_alter_ne in IH by done.
    destruct (step_packets lport _ _) as [m rs]. destruct IH as (l' & up & E & Ht' & Hm & Hf).
    rewrite E. cbn [mbind option_bind]. exists l', (up_of true (source (a, p)) r1 ++ up).
    split_and!; try done. rewrite filter_app, Hf.
    destruct r1 as [[[] d]|]; [| |done]; cbn [up_of]; by rewrite filter_cons_False.
Qed.

Lemma header_fields f p : is_bit f -> 0 <= p < 128 ->
  (f * 128 + p) / 128 = f /\ (f * 128 + p) mod 128 = p.
Proof. intros Hf Hp. unfold is_bit in Hf. Z.div_mod_to_equations. lia. Qed.

Lemma for_us_own p : for_us p p = true.
Proof. unfold for_us. by rewrite Z.eqb_refl. Qed.

(** The packets after the first complete the message. *)
Lemma later_packets sp sec dp secure got c f rest : 0 <= sp < 128 -> 0 <= dp < 128 ->
  is_bit sec -> (0 < c)%nat -> (List.length rest <= f)%nat -> rest <> [] ->
  step_packets dp ((fun x => header_bytes CA_BLE_PACKET_NOT_START sp sec dp ++ x) <$> chunks f c rest)
    (Some (mk_partial secure (Z.of_nat (List.length (got ++ rest))) got))
  = (None, [(secure, got ++ rest)]).
Proof.
  intros Hsp Hdp Hsec Hc. revert got rest. induction f as [|f IH]; intros got rest Hf Hne.
  { destruct rest; simpl in Hf; [done|lia]. }
  assert (Hch : chunks (S f) c rest = take c rest :: chunks f c (drop c rest)) by by destruct rest.
  rewrite Hch. clear Hch.
  assert (Hpq : exists p q, take c rest = p /\ drop c rest = q /\ rest = p ++ q /\ p <> []).
  { do 2 eexists. split_and!; [done|done|by rewrite take_drop|].
    destruct rest, c; simpl; (done || lia). }
  destruct Hpq as (p & q & -> & -> & -> & Hp). rewrite length_app in Hf.
  assert (Hpl : (0 < List.length p)%nat) by (destruct p; simpl; [done|lia]).
  cbn [fmap list_fmap step_packets step_packet header_bytes app].
  destruct (header_fields sec dp Hsec Hdp) as [_ ->].
  destruct (header_fields CA_BLE_PACKET_NOT_START sp) as [-> _]; [by left|done|].
  rewrite for_us_own. cbn [Z.eqb CA_BLE_PACKET_NOT_START reassemble p_bytes p_total p_secure drop].
  rewrite drop_0, !length_app. rewrite (proj2 (Z.ltb_ge _ _)) by lia.
  unfold complete. cbn [p_bytes p_total p_secure]. rewrite length_app.
  destruct q as [|z q].
  - rewrite (proj2 (Z.eqb_eq _ _)) by (simpl; lia). destruct f; by rewrite app_nil_r.
  - rewrite (proj2 (Z.eqb_neq _ _)) by (simpl; lia).
    specialize (IH (got ++ p) (z :: q)). rewrite <- app_assoc, !length_app in IH.
    cbn [header_bytes app] in IH. by rewrite IH by (done || lia).
Qed.

(** All packets of a message, whatever was there before. *)
Lemma all_packets mtu sp dp secure message m : 6 <= mtu -> 0 <= sp < 128 -> 0 <= dp < 128 ->
  0 < Z.of_nat (List.length message) < 2 ^ 32 - 1 ->
  step_packets dp (packets mtu sp secure dp message) m = (None, [(secure, message)]).
Proof.
  intros Hm Hsp Hdp Hl. unfold packets.
  set (sec := if secure then CA_BLE_PACKET_SECURE else CA_BLE_PACKET_NON_SECURE).
  assert (Hsec : is_bit sec /\ (sec =? 1) = secure)
    by (unfold sec; destruct secure; (split; [by (left + right)|done])).
  destruct Hsec as [Hsec Hb].
  set (p := take (Z.to_nat (mtu - 6)) message). set (q := drop (Z.to_nat (mtu - 6)) message).
  assert (E : message = p ++ q) by (unfold p, q; by rewrite take_drop).
  assert (Hq : (List.length q <= List.length message)%nat) by (unfold q; rewrite length_drop; lia).
  assert (Et : be_value (Z.of_nat (List.length message) / 2 ^ 24 mod 256)
    (Z.of_nat (List.length message) / 2 ^ 16 mod 256)
    (Z.of_nat (List.length message) / 2 ^ 8 mod 256) (Z.of_nat (List.length message) mod 256)
    = Z.of_nat (List.length message)) by (apply be32_value; lia).
  cbn [step_packets step_packet header_bytes be32 app].
  destruct (header_fields sec dp Hsec Hdp) as [-> ->].
  destruct (header_fields CA_BLE_PACKET_START sp) as [-> _]; [by right|done|].
  rewrite for_us_own, Hb. cbn [Z.eqb Pos.eqb CA_BLE_PACKET_START reassemble].
  rewrite Et. rewrite (proj2 (Z.eqb_neq _ 0)), (proj2 (Z.eqb_neq _ (2 ^ 32 - 1))) by lia.
  assert (Hpl : (List.length message = List.length p + List.length q)%nat)
    by (by rewrite E at 1; rewrite length_app).
  rewrite (proj2 (Z.ltb_ge _ _)) by lia. cbn [orb]. unfold complete. cbn [p_bytes p_total p_secure].
  clearbody p q. destruct q as [|z q].
  - rewrite (proj2 (Z.eqb_eq _ _)) by (simpl in Hpl; lia). rewrite app_nil_r in E. subst p.
    by destruct (List.length message).
  - rewrite (proj2 (Z.eqb_neq _ _)) by (simpl in Hpl; lia).
    pose proof (later_packets sp sec dp secure p (Z.to_nat (mtu - 2)) (List.length message) (z :: q))
      as L. cbn [header_bytes app] in L. rewrite <- E in L. by rewrite L by (done || lia).
Qed.

Lemma send_log ps : forall w, send_all (fun p w => Some (CA_STATUS_OK, w ++ [p])) ps w
                              = Some (CA_STATUS_OK, w ++ ps).
Proof.
  induction ps as [|p ps IH]; intros w; cbn [send_all]; [by rewrite app_nil_r|].
  unfold bind, unless_failed. cbn [ca_ok]. rewrite IH. by rewrite <- app_assoc.
Qed.

(** C31: A message that is sent arrives: when the packets the sender thread makes of it
    reach the receiver in order, among any packets of other senders, exactly this
    message is passed up for its sender and nothing of it is left. *)
Theorem ble_message_arrives n mtu sp dp secure a message sent queue l :
  6 <= mtu <= CA_SUPPORTED_BLE_MTU_SIZE -> port_ok sp -> port_ok dp ->
  0 < Z.of_nat (List.length message) < 2 ^ 32 - 1 ->
  CALEServerSendDataThread (fun p w => Some (CA_STATUS_OK, w ++ [p])) mtu sp secure dp
    (message ++ [0]) (Z.of_nat (List.length message)) [] = Some (CA_STATUS_OK, sent) ->
  snd <$> filter (fun e => source e = (a, sp)) queue = sent ->
  Forall (fun e => String.length e.1 = n /\ packet_ok e.2) queue -> table_ok n l ->
  exists l' up, receive dp true queue l = Some (l', up) /\ table_ok n l' /\
    view l' !! (a, sp) = None /\
    filter (fun u => up_key u = (a, sp)) up
    = [if secure then DecryptSsl a sp message else NetworkPacketReceived a sp message].
Proof.
  unfold port_ok, CA_SUPPORTED_BLE_MIN_PORT, CA_SUPPORTED_BLE_MAX_PORT.
  intros Hm Hsp Hdp Hl Hsend Hq Hok Ht.
  rewrite CALEServerSendDataThread_sends, send_log in Hsend; try done;
    unfold port_ok, CA_SUPPORTED_BLE_MIN_PORT, CA_SUPPORTED_BLE_MAX_PORT; try lia.
  injection Hsend as <-. pose proof (receive_stream n dp queue Hok l (a, sp) Ht) as Hr.
  rewrite Hq in Hr. cbn [app] in Hr. rewrite all_packets in Hr by lia.
  destruct Hr as (l' & up & E & Ht' & Hv & Hf). exists l', up. split_and!; try done.
Qed.

(** Thirty bytes over packets of twenty, with a packet of another device between. *)
Definition log (p : list Z) (w : list (list Z)) : option (CAResult_t * list (list Z)) :=
  Some (CA_STATUS_OK, w ++ [p]).
Definition example_message : list Z := seqZ 65 30.
Definition example_queue : list (string * list Z) :=
  match packets 20 5 false 1 example_message with
  | p :: ps => ("AA", p) :: ("BB", [133; 1; 0; 0; 0; 2; 7]) :: (pair "AA" <$> ps)
  | [] => []
  end.

Lemma ble_message_arrives_witness :
  exists l' up, receive 1 true example_queue [] = Some (l', up) /\ table_ok 2 l' /\
    view l' !! ("AA", 5) = None /\
    filter (fun u => up_key u = ("AA", 5)) up = [NetworkPacketReceived "AA" 5 example_message].
Proof.
  apply (ble_message_arrives 2 20 5 1 false "AA" example_message
           (packets 20 5 false 1 example_message) example_queue []).
  - unfold CA_SUPPORTED_BLE_MTU_SIZE. lia.
  - by split.
  - by split.
  - by split.
  - by vm_compute.
  - by vm_compute.
  - apply (bool_decide_unpack _). by vm_compute.
  - split; [constructor|]. split; constructor.
Defined.

(** A first packet shorter than its header and length is read past its end. *)
Lemma short_first_packet_overread lport cb a :
  CALEDataReceiverHandler lport cb a ([129; 0; 0; 0] ++ [0]) 4 [] = None.
Proof. unfold CALEDataReceiverHandler. cbn. by destruct (0 =? lport), lport. Qed.

Lemma remove_port_spec n a p l : table_ok n l -> String.length a = n ->
  table_ok n (remove_port a l p) /\ view (remove_port a l p) = delete (a, p) (view l).
Proof.
  intros Ht Ha. destruct Ht as (Hok & Hal & Hnd).
  pose proof (get_from_spec n 0 a p l Ha Hal Hnd) as Hg. unfold remove_port, CALEGetSenderInfo.
  destruct (CALEGetSenderInfo_from 0 a p l) as [[j i]|].
  - destruct Hg as (j' & -> & Hj & Hk & _). apply split_at in Hj as (l1 & l2 & -> & ->).
    assert (Ht : table_ok n (l1 ++ i :: l2)) by done. apply table_mid in Ht as (Ht & _ & _ & Hf).
    assert (Hd : delete (0 + List.length l1)%nat (l1 ++ i :: l2) = l1 ++ l2) by apply delete_middle.
    rewrite Hd. split; [done|]. rewrite view_mid, Hk by done. symmetry.
    apply delete_insert_id, view_fresh. by rewrite <- Hk.
  - destruct Hg as [_ Hv]. split; [done|]. by rewrite delete_id.
Qed.

Lemma remove_ports_spec n a ps : String.length a = n -> forall l, table_ok n l ->
  table_ok n (fold_left (remove_port a) ps l) /\
  forall k, view (fold_left (remove_port a) ps l) !! k
            = if decide (k.1 = a /\ k.2 ∈ ps) then None else view l !! k.
Proof.
  intros Ha. induction ps as [|p ps IH]; intros l Ht.
  { split; [done|]. intros k. rewrite decide_False; [done|]. by intros [_ ?%elem_of_nil]. }
  cbn [fold_left]. destruct (remove_port_spec n a p l Ht Ha) as [Ht' Hv].
  destruct (IH _ Ht') as [Ht2 Hk]. split; [done|]. intros [b q]. rewrite Hk, Hv. cbn [fst snd].
  destruct (decide (b = a /\ q ∈ ps)) as [Hd|Hd], (decide (b = a /\ q ∈ p :: ps)) as [Hd'|Hd'];
    rewrite elem_of_cons in Hd'; try done.
  - destruct Hd' as []. destruct Hd as [-> ?]. auto.
  - destruct Hd' as [-> [-> | ?]]; [by rewrite lookup_delete_eq|]. by destruct Hd.
  - rewrite lookup_delete_ne; [done|]. intros [= -> ->]. apply Hd'. auto.
Qed.

(** Nothing of a device that disconnects is left and nothing of others is lost. *)
Lemma CALERemoveReceiveQueueData_spec n a l : table_ok n l -> String.length a = n ->
  table_ok n (CALERemoveReceiveQueueData l a) /\
  forall k, view (CALERemoveReceiveQueueData l a) !! k = if decide (k.1 = a) then None else view l !! k.
Proof.
  intros Ht Ha. destruct (remove_ports_spec n a (CALEGetPortsFromSenderInfo a l) Ha l Ht) as [H1 H2].
  split; [done|]. intros [b p]. unfold CALERemoveReceiveQueueData. rewrite H2. cbn [fst snd].
  destruct (decide (b = a)) as [->|]; [|rewrite decide_False; [done|]; by intros []].
  case_decide as Hd; [done|]. apply view_fresh. intros Hin. apply Hd. split; [done|].
  destruct Ht as (_ & Hal & _). clear -Hin Hal Ha. induction Hal as [|i l Hi _ IH].
  - by apply elem_of_nil in Hin.
  - rewrite fmap_cons, elem_of_cons in Hin. simpl. destruct Hin as [[= -> ->]|Hin].
    + rewrite (proj2 (prefix_same _ _ eq_refl) eq_refl). by left.
    + case_match; [right|]; by apply IH.
Qed.

(** When one device disconnects, the messages waiting for all others are lost. *)
Lemma send_queue_emptied {A} cmp (q : list (string * A)) a :
  fst (CALERemoveSendQueueData cmp q a) = [].
Proof. done. Qed.

End LeAdapter.
