(* ===== verification/CaTypes.v ===== *)
(** * Messages of the connectivity layer

    The data that the layers under [comm/] and [coap/] pass each other
    ([comm/camessagehandler.c], [ocf/ocendpoint.c], [coap/coap_codec.c]) and
    their copying ([comm/caremotehandler.c]).  A request or response information
    is kept without the identity of its sender, which is only copied along.
    libcoap's message is the record [coap_pdu_t] and its functions are the
    class [LibCoap], with what the code relies on in [LibCoapLaws]. *)

From S2P Require Import Prelude.
From S2P Require Import Status.

Module CaTypes.

(** ** Enumerations that are compared with numbers of the wire *)

(** [CATransportAdapter_t] *)
Definition CA_DEFAULT_ADAPTER : Z := 0.
Definition CA_ADAPTER_IP : Z := 1.
Definition CA_ADAPTER_GATT_BTLE : Z := 2.
Definition CA_ADAPTER_RFCOMM_BTEDR : Z := 4.
Definition CA_ADAPTER_NFC : Z := 32.

(** [CAMessageType_t] *)
Definition CA_MSG_CONFIRM : Z := 0.
Definition CA_MSG_NONCONFIRM : Z := 1.
Definition CA_MSG_ACKNOWLEDGE : Z := 2.
Definition CA_MSG_RESET : Z := 3.

(** [CAMethod_t] *)
Definition CA_GET : Z := 1.
Definition CA_POST : Z := 2.
Definition CA_PUT : Z := 3.
Definition CA_DELETE : Z := 4.

(** [CAResponseResult_t] *)
Definition CA_EMPTY : Z := 0.
Definition CA_CONTINUE : Z := 231.
Definition CA_NOT_FOUND : Z := 404.
Definition CA_REQUEST_ENTITY_INCOMPLETE : Z := 408.
Definition CA_REQUEST_ENTITY_TOO_LARGE : Z := 413.
Definition CAResponseResult_values : list Z :=
  [CA_EMPTY; 201; 202; 203; 204; 205; CA_CONTINUE; 400; 401; 402; 403; CA_NOT_FOUND; 405; 406;
   CA_REQUEST_ENTITY_INCOMPLETE; CA_REQUEST_ENTITY_TOO_LARGE; 500; 502; 503; 504; 505].

(** [CADataType_t] *)
Definition CA_REQUEST_DATA : Z := 1.
Definition CA_RESPONSE_DATA : Z := 2.
Definition CA_ERROR_DATA : Z := 3.
Definition CA_RESPONSE_FOR_RES : Z := 4.

(** [CASendDataType_t] *)
Definition SEND_TYPE_MULTICAST : Z := 0.
Definition SEND_TYPE_UNICAST : Z := 1.

(** ** Records *)

(** The identity of the device and the routing data are not kept. *)
Record CAEndpoint_t : Type := mk_endpoint {
  adapter : Z; flags : Z; port : Z; addr : string; ifindex : Z }.

(** [optionLength] is the length of [optionData]. *)
Record CAHeaderOption_t : Type := mk_option { optionID : Z; optionData : list Z }.

(** A missing pointer is [None]; [tokenLength] and [payloadSize] are the lengths of
    [token] and [payload], [numOptions] that of [options]. *)
Record CAInfo_t : Type := mk_info {
  type : Z; messageId : Z; token : option (list Z); options : list CAHeaderOption_t;
  payload : option (list Z); payloadFormat : Z; acceptFormat : Z; payloadVersion : Z;
  acceptVersion : Z; resourceUri : option (list Z); info_dataType : Z }.

(** The cleared record. *)
Definition no_info : CAInfo_t := mk_info 0 0 None [] None 0 0 0 0 None 0.

Record CARequestInfo_t : Type := mk_request {
  method : Z; req_info : CAInfo_t; req_isMulticast : bool }.
Record CAResponseInfo_t : Type := mk_response {
  result : Z; resp_info : CAInfo_t; resp_isMulticast : bool }.

Record CAData_t : Type := mk_cadata {
  send_type : Z; remoteEndpoint : CAEndpoint_t; requestInfo : option CARequestInfo_t;
  responseInfo : option CAResponseInfo_t; dataType : Z }.

Definition with_message (ty id : Z) (i : CAInfo_t) : CAInfo_t :=
  mk_info ty id (token i) (options i) (payload i) (payloadFormat i) (acceptFormat i)
    (payloadVersion i) (acceptVersion i) (resourceUri i) (info_dataType i).
Definition with_payload (p : option (list Z)) (i : CAInfo_t) : CAInfo_t :=
  mk_info (type i) (messageId i) (token i) (options i) p (payloadFormat i) (acceptFormat i)
    (payloadVersion i) (acceptVersion i) (resourceUri i) (info_dataType i).
Definition with_uri (u : option (list Z)) (i : CAInfo_t) : CAInfo_t :=
  mk_info (type i) (messageId i) (token i) (options i) (payload i) (payloadFormat i)
    (acceptFormat i) (payloadVersion i) (acceptVersion i) u (info_dataType i).
Definition with_request (r : option CARequestInfo_t) (d : CAData_t) : CAData_t :=
  mk_cadata (send_type d) (remoteEndpoint d) r (responseInfo d) (dataType d).
Definition with_response (r : option CAResponseInfo_t) (d : CAData_t) : CAData_t :=
  mk_cadata (send_type d) (remoteEndpoint d) (requestInfo d) r (dataType d).

(** ** Copies: [comm/caremotehandler.c] *)

(** A pointer to no bytes is not copied. *)
Definition nonempty (b : option (list Z)) : option (list Z) :=
  match b with Some [] => None | _ => b end.

(** The data type is not copied. *)
Definition CACloneInfo (i : CAInfo_t) : CAInfo_t :=
  mk_info (type i) (messageId i) (nonempty (token i)) (options i) (nonempty (payload i))
    (payloadFormat i) (acceptFormat i) (payloadVersion i) (acceptVersion i) (resourceUri i) 0.

Definition is_method (c : Z) : bool :=
  (c =? CA_GET) || (c =? CA_POST) || (c =? CA_PUT) || (c =? CA_DELETE).

Definition CACloneRequestInfo (rep : CARequestInfo_t) : option CARequestInfo_t :=
  if is_method (method rep)
  then Some (mk_request (method rep) (CACloneInfo (req_info rep)) (req_isMulticast rep))
  else None.

Definition CACloneResponseInfo (rep : CAResponseInfo_t) : option CAResponseInfo_t :=
  if existsb (Z.eqb (result rep)) CAResponseResult_values
  then Some (mk_response (result rep) (CACloneInfo (resp_info rep)) (resp_isMulticast rep))
  else None.

(** ** libcoap *)

Record coap_block_t : Type := mk_block { num : Z; m : Z; szx : Z }.

(** A message: the fields of its header, its options with their values in the
    order of the wire, and its payload, if any. *)
Record coap_pdu_t : Type := mk_pdu {
  p_type : Z; p_id : Z; p_code : Z; p_token : list Z;
  p_options : list (Z * list Z); p_data : option (list Z) }.

(** [coap_hdr_t], read from the bytes of a message, and the macro
    [COAP_RESPONSE_CODE]. *)
Class CoapHeader : Type := {
  hdr_type : list Z -> Z; hdr_id : list Z -> Z; hdr_code : list Z -> Z;
  COAP_RESPONSE_CODE : Z -> Z }.

Section response_code.
Context {CH : CoapHeader}.
Definition CA_RESPONSE_CLASS (c : Z) : Z := Z.shiftr c 5 * 100.
Definition CA_RESPONSE_CODE (c : Z) : Z :=
  CA_RESPONSE_CLASS c + (c - COAP_RESPONSE_CODE (CA_RESPONSE_CLASS c)).
End response_code.

End CaTypes.
