(* ===== verification/LibCoap.v ===== *)
(** * libcoap: the interface the stack is written against

    libcoap is a submodule whose sources are not in the repository: its functions
    are the class [LibCoap], and what its documentation says of them, as far as the
    code relies on it, is [LibCoapLaws].  [reference_coap] is an instance of both,
    for the concrete runs.  A message is under construction or was parsed; the
    order of [p_options] is that of the wire. *)

From S2P Require Import Prelude.
From S2P Require Import CaTypes.

Module LibCoap.
Import CaTypes.

Definition COAP_OPTION_ETAG : Z := 4.
Definition COAP_OPTION_URI_HOST : Z := 3.
Definition COAP_OPTION_URI_PORT : Z := 7.
Definition COAP_OPTION_URI_PATH : Z := 11.
Definition COAP_OPTION_CONTENT_FORMAT : Z := 12.
Definition COAP_OPTION_MAXAGE : Z := 14.
Definition COAP_OPTION_URI_QUERY : Z := 15.
Definition COAP_OPTION_ACCEPT : Z := 17.
Definition COAP_OPTION_BLOCK2 : Z := 23.
Definition COAP_OPTION_BLOCK1 : Z := 27.
Definition COAP_OPTION_SIZE2 : Z := 28.
Definition COAP_OPTION_PROXY_URI : Z := 35.
Definition COAP_OPTION_PROXY_SCHEME : Z := 39.
Definition COAP_OPTION_SIZE1 : Z := 60.
Definition COAP_DEFAULT_PORT : Z := 5683.
(** [coap_codec.c] *)
Definition COAP_MAX_PDU_SIZE : Z := 1400.

(** An option: its number and value. *)
Notation coap_option := (Z * list Z)%type.

Definition with_data (d : option (list Z)) (p : coap_pdu_t) : coap_pdu_t :=
  mk_pdu (p_type p) (p_id p) (p_code p) (p_token p) (p_options p) d.
Definition with_options (o : list coap_option) (p : coap_pdu_t) : coap_pdu_t :=
  mk_pdu (p_type p) (p_id p) (p_code p) (p_token p) o (p_data p).
Definition with_code (c : Z) (p : coap_pdu_t) : coap_pdu_t :=
  mk_pdu (p_type p) (p_id p) c (p_token p) (p_options p) (p_data p).
Definition with_token (t : list Z) (p : coap_pdu_t) : coap_pdu_t :=
  mk_pdu (p_type p) (p_id p) (p_code p) t (p_options p) (p_data p).

(** A function that returns 0 on failure returns [None]. *)
Class LibCoap : Type := {
  #[global] coap_header :: CoapHeader;
  coap_encode_var_bytes : Z -> list Z;
  coap_decode_var_bytes : list Z -> Z;
  (** for an option number in the table of definitions, whether its value has
      variable length and the largest length *)
  coap_opt_def : Z -> option (bool * Z);
  (** with the comparison the list is ordered by *)
  coap_insert : (coap_option -> coap_option -> Z) -> list coap_option -> coap_option ->
    list coap_option;
  coap_add_code : coap_pdu_t -> Z -> coap_pdu_t;
  coap_add_token2 : coap_pdu_t -> list Z -> option coap_pdu_t;
  coap_add_option : coap_pdu_t -> Z -> list Z -> option coap_pdu_t;
  coap_add_data : coap_pdu_t -> list Z -> option coap_pdu_t;
  (** the payload, the number of the block and its size exponent *)
  coap_add_block : coap_pdu_t -> list Z -> Z -> Z -> option coap_pdu_t;
  coap_check_option : coap_pdu_t -> Z -> option (list Z);
  coap_get_block : coap_pdu_t -> Z -> option coap_block_t;
  (** port, path and query; path and query in segments, with the size of the
      buffer they are written to *)
  coap_split_uri : list Z -> Z * list Z * list Z;
  coap_split_path : list Z -> Z -> option (list (list Z));
  coap_split_query : list Z -> Z -> option (list (list Z));
  (** the bytes of a message, and the token in them *)
  coap_bytes : coap_pdu_t -> list Z;
  coap_get_token2 : list Z -> list Z }.

(** ** What is relied on *)

Fixpoint insert_by (order : coap_option -> coap_option -> Z) (l : list coap_option)
    (x : coap_option) : list coap_option :=
  match l with
  | [] => [x]
  | y :: l' => if order x y <? 0 then x :: y :: l' else y :: insert_by order l' x
  end.

Fixpoint find_option (k : Z) (l : list coap_option) : option (list Z) :=
  match l with
  | [] => None
  | (k', v) :: l' => if k' =? k then Some v else find_option k l'
  end.

(** The size of a message, an option counted with its longest header. *)
Definition options_size (l : list coap_option) : Z :=
  foldr (fun o n => 5 + Z.of_nat (List.length o.2) + n) 0 l.
Definition data_size (d : option (list Z)) : Z :=
  match d with Some d => 1 + Z.of_nat (List.length d) | None => 0 end.
Definition pdu_size (p : coap_pdu_t) : Z :=
  4 + Z.of_nat (List.length (p_token p)) + options_size (p_options p) + data_size (p_data p).

Definition block_of (v : Z) : coap_block_t :=
  mk_block (Z.shiftr v 4) (Z.land (Z.shiftr v 3) 1) (Z.land v 7).

(** The bytes of a block in a payload. *)
Definition block_size (s : Z) : Z := Z.shiftl 1 (s + 4).
Definition slice (d : list Z) (n s : Z) : list Z :=
  take (Z.to_nat (block_size s)) (drop (Z.to_nat (n * block_size s)) d).

Fixpoint join (sep : list Z) (l : list (list Z)) : list Z :=
  match l with
  | [] => []
  | [x] => x
  | x :: l' => x ++ sep ++ join sep l'
  end.

(** Segments that need no decoding: the unreserved characters. *)
Definition plain_char (c : Z) : bool :=
  (97 <=? c) && (c <=? 122) || (65 <=? c) && (c <=? 90) || (48 <=? c) && (c <=? 57)
  || (c =? 45) || (c =? 95) || (c =? 61) || (c =? 59).
Definition plain (s : list Z) : Prop := s <> [] /\ forallb plain_char s = true.

(** "/", then the path that starts with "/", "?" and the query. *)
Definition slash : Z := 47.
Definition uri_path (segs : list (list Z)) : list Z := mjoin ((fun s => slash :: s) <$> segs).
Definition uri_of (segs query : list (list Z)) : list Z :=
  uri_path segs ++ match query with [] => [] | _ => 63 :: join [38] query end.

Class LibCoapLaws `{LibCoap} : Prop := {
  response_code n : 0 <= n < 1000 ->
    COAP_RESPONSE_CODE n = Z.lor (Z.shiftl (n / 100) 5) (n mod 100);
  decode_encode v : 0 <= v < 2 ^ 32 -> coap_decode_var_bytes (coap_encode_var_bytes v) = v;
  encode_length v k : (k <= 4)%nat -> 0 <= v < 256 ^ Z.of_nat k ->
    (List.length (coap_encode_var_bytes v) <= k)%nat;
  encode_minimal v k : (k < 4)%nat -> 256 ^ Z.of_nat k <= v < 2 ^ 32 ->
    (k < List.length (coap_encode_var_bytes v))%nat;
  decode_byte b : 0 <= b < 256 -> coap_decode_var_bytes [b] = b;
  encode_bytes v : 0 <= v < 2 ^ 32 -> Forall (in_width 8) (coap_encode_var_bytes v);
  opt_def_format : coap_opt_def COAP_OPTION_CONTENT_FORMAT = Some (true, 2);
  opt_def_accept : coap_opt_def COAP_OPTION_ACCEPT = Some (true, 2);
  opt_def_version k b n : k = 2049 \/ k = 2053 -> coap_opt_def k = Some (b, n) -> 2 <= n;
  opt_def_block1 : coap_opt_def COAP_OPTION_BLOCK1 = Some (true, 3);
  opt_def_block2 : coap_opt_def COAP_OPTION_BLOCK2 = Some (true, 3);
  opt_def_size1 : coap_opt_def COAP_OPTION_SIZE1 = Some (true, 4);
  opt_def_size2 : coap_opt_def COAP_OPTION_SIZE2 = Some (true, 4);
  opt_def_path : exists n, coap_opt_def COAP_OPTION_URI_PATH = Some (false, n);
  opt_def_query : exists n, coap_opt_def COAP_OPTION_URI_QUERY = Some (false, n);
  insert_order order l x : coap_insert order l x = insert_by order l x;
  add_code p c : coap_add_code p c = with_code (COAP_RESPONSE_CODE c) p;
  add_token p t : p_token p = [] -> p_options p = [] -> p_data p = None ->
    (List.length t <= 8)%nat -> coap_add_token2 p t = Some (with_token t p);
  (** options are added in order, before the payload, while there is room *)
  add_option p k v : Forall (fun o => o.1 <= k) (p_options p) -> p_data p = None ->
    pdu_size p + 5 + Z.of_nat (List.length v) <= COAP_MAX_PDU_SIZE ->
    coap_add_option p k v = Some (with_options (p_options p ++ [(k, v)]) p);
  add_no_data p : coap_add_data p [] = Some p;
  add_data p d : d <> [] -> p_data p = None ->
    pdu_size p + 1 + Z.of_nat (List.length d) <= COAP_MAX_PDU_SIZE ->
    coap_add_data p d = Some (with_data (Some d) p);
  add_block p d n s : 0 <= n -> 0 <= s <= 6 -> n * block_size s < Z.of_nat (List.length d) ->
    coap_add_block p d n s = coap_add_data p (slice d n s);
  check_option p k : coap_check_option p k = find_option k (p_options p);
  get_block p k : coap_get_block p k
    = match coap_check_option p k with
      | Some v => if (3 <? List.length v)%nat then None
                  else Some (block_of (coap_decode_var_bytes v))
      | None => None
      end;
  split_uri segs query : Forall plain segs -> Forall plain query -> segs <> [] ->
    coap_split_uri (codes "coap://[::]/" ++ uri_of segs query)
    = (COAP_DEFAULT_PORT, uri_path segs, join [38] query);
  split_path segs n : Forall plain segs -> segs <> [] ->
    Z.of_nat (List.length (uri_path segs)) * 3 <= n -> coap_split_path (uri_path segs) n = Some segs;
  split_query query n : Forall plain query -> query <> [] ->
    Z.of_nat (List.length (join [38] query)) * 3 <= n ->
    coap_split_query (join [38] query) n = Some query;
  bytes_header p : 0 <= p_type p < 4 -> in_width 16 (p_id p) -> in_width 8 (p_code p) ->
    (List.length (p_token p) <= 8)%nat ->
    (4 <= List.length (coap_bytes p))%nat /\ hdr_type (coap_bytes p) = p_type p /\
    hdr_id (coap_bytes p) = p_id p /\ hdr_code (coap_bytes p) = p_code p /\
    coap_get_token2 (coap_bytes p) = p_token p }.

End LibCoap.
