(* ===== verification/LibCoapReference.v ===== *)
(** * A reference libcoap

    [reference_coap]: functions that do what [LibCoapLaws] says, so that the
    concrete runs of the development have a library to run with. *)

From S2P Require Import Prelude.
From S2P Require Import CaTypes.
From S2P Require Import LibCoap.

Module LibCoapReference.
Import CaTypes LibCoap.

Fixpoint encode_fuel (n : nat) (v : Z) : list Z :=
  match n with
  | O => []
  | S n' => if v =? 0 then [] else encode_fuel n' (v / 256) ++ [v mod 256]
  end.
Definition decode (l : list Z) : Z := fold_left (fun n b => 256 * n + b) l 0.

Definition opt_def (k : Z) : option (bool * Z) :=
  if existsb (Z.eqb k) [COAP_OPTION_BLOCK1; COAP_OPTION_BLOCK2] then Some (true, 3)
  else if existsb (Z.eqb k) [COAP_OPTION_SIZE1; COAP_OPTION_SIZE2; COAP_OPTION_MAXAGE]
  then Some (true, 4)
  else if existsb (Z.eqb k) [COAP_OPTION_URI_PORT; COAP_OPTION_CONTENT_FORMAT; COAP_OPTION_ACCEPT]
  then Some (true, 2)
  else if existsb (Z.eqb k) [COAP_OPTION_URI_PATH; COAP_OPTION_URI_QUERY; COAP_OPTION_URI_HOST]
  then Some (false, 255) else None.

Definition fits (p : coap_pdu_t) (n : Z) : bool := pdu_size p + n <=? COAP_MAX_PDU_SIZE.

Definition add_opt (p : coap_pdu_t) (k : Z) (v : list Z) : option coap_pdu_t :=
  if forallb (fun o => o.1 <=? k) (p_options p) && fits p (5 + Z.of_nat (List.length v))
  then match p_data p with
       | None => Some (with_options (p_options p ++ [(k, v)]) p)
       | Some _ => None
       end
  else None.

Definition add_payload (p : coap_pdu_t) (d : list Z) : option coap_pdu_t :=
  match d, p_data p with
  | [], _ => Some p
  | _, None => if fits p (1 + Z.of_nat (List.length d)) then Some (with_data (Some d) p) else None
  | _, Some _ => None
  end.

Fixpoint split_on (sep : Z) (l : list Z) : list (list Z) :=
  match l with
  | [] => [[]]
  | c :: l' =>
      if c =? sep then [] :: split_on sep l'
      else match split_on sep l' with s :: r => (c :: s) :: r | [] => [[c]] end
  end.

(** What comes before the first [c], and what comes after it. *)
Fixpoint cut (c : Z) (l : list Z) : list Z * list Z :=
  match l with
  | [] => ([], [])
  | x :: l' => if x =? c then ([], l') else (x :: (cut c l').1, (cut c l').2)
  end.

#[export] Instance rfc7252_header : CoapHeader := {|
  hdr_type p := Z.land (Z.shiftr (nth 0 p 0) 4) 3;
  hdr_id p := nth 2 p 0 * 256 + nth 3 p 0;
  hdr_code p := nth 1 p 0;
  COAP_RESPONSE_CODE n := Z.lor (Z.shiftl (n / 100) 5) (n mod 100) |}.

#[export] Instance reference_coap : LibCoap := {|
  coap_header := rfc7252_header;
  coap_encode_var_bytes := encode_fuel 4;
  coap_decode_var_bytes := decode;
  coap_opt_def := opt_def;
  coap_insert := insert_by;
  coap_add_code p c := with_code (@COAP_RESPONSE_CODE rfc7252_header c) p;
  coap_add_token2 p t := if (List.length t <=? 8)%nat then Some (with_token t p) else None;
  coap_add_option := add_opt;
  coap_add_data := add_payload;
  coap_add_block p d n s :=
    if n * block_size s <? Z.of_nat (List.length d) then add_payload p (slice d n s) else None;
  coap_check_option p k := find_option k (p_options p);
  coap_get_block p k :=
    match find_option k (p_options p) with
    | Some v => if (3 <? List.length v)%nat then None else Some (block_of (decode v))
    | None => None
    end;
  coap_split_uri u := let '(p, q) := cut 63 (drop 12 u) in (COAP_DEFAULT_PORT, p, q);
  coap_split_path p _ :=
    match split_on 47 p with [] :: segs => Some segs | segs => Some segs end;
  coap_split_query q _ := Some (split_on 38 q);
  coap_bytes p := [64 + p_type p * 16 + Z.of_nat (List.length (p_token p)); p_code p;
                   p_id p / 256; p_id p mod 256] ++ p_token p
                  ++ mjoin ((fun o => o.1 :: o.2) <$> p_options p) ++ default [] (p_data p);
  coap_get_token2 b := take (Z.to_nat (Z.land (nth 0 b 0) 15)) (drop 4 b) |}.

Lemma first_byte ty n : 0 <= ty < 4 -> (n <= 8)%nat ->
  Z.land (Z.shiftr (64 + ty * 16 + Z.of_nat n) 4) 3 = ty /\
  Z.land (64 + ty * 16 + Z.of_nat n) 15 = Z.of_nat n.
Proof.
  intros Ht Hn.
  assert (H : ty = 0 \/ ty = 1 \/ ty = 2 \/ ty = 3) by lia.
  do 9 (destruct n as [|n]; [by destruct H as [->|[->|[->| ->]]]|]). lia.
Qed.

Lemma decode_snoc l b : decode (l ++ [b]) = 256 * decode l + b.
Proof. unfold decode. by rewrite fold_left_app. Qed.

Lemma decode_encode_fuel n v : 0 <= v < 256 ^ Z.of_nat n -> decode (encode_fuel n v) = v.
Proof.
  revert v. induction n as [|n IH]; intros v Hv; [change (256 ^ Z.of_nat 0) with 1 in Hv; cbn; lia|].
  cbn [encode_fuel]. destruct (Z.eqb_spec v 0) as [->|]; [done|].
  rewrite Nat2Z.inj_succ, Z.pow_succ_r in Hv by lia.
  rewrite decode_snoc, IH by (split; [apply Z.div_pos; lia|apply Z.div_lt_upper_bound; lia]).
  Z.div_mod_to_equations. lia.
Qed.

Lemma encode_fuel_length n v k : 0 <= v < 256 ^ Z.of_nat k -> (List.length (encode_fuel n v) <= k)%nat.
Proof.
  revert v k. induction n as [|n IH]; intros v k Hv; [simpl; lia|]. cbn [encode_fuel].
  destruct (Z.eqb_spec v 0); [simpl; lia|].
  destruct k as [|k]; [change (256 ^ Z.of_nat 0) with 1 in Hv; lia|].
  rewrite Nat2Z.inj_succ, Z.pow_succ_r in Hv by lia. rewrite length_app. simpl.
  assert (List.length (encode_fuel n (v / 256)) <= k)%nat; [|lia].
  apply IH. split; [apply Z.div_pos; lia|apply Z.div_lt_upper_bound; lia].
Qed.

Lemma encode_fuel_minimal n v k : (k < n)%nat -> 256 ^ Z.of_nat k <= v ->
  (k < List.length (encode_fuel n v))%nat.
Proof.
  revert v k. induction n as [|n IH]; intros v k Hk Hv; [lia|]. cbn [encode_fuel].
  assert (0 < 256 ^ Z.of_nat k) by (apply Z.pow_pos_nonneg; lia).
  destruct (Z.eqb_spec v 0); [lia|]. rewrite length_app. simpl.
  destruct k as [|k]; [lia|]. rewrite Nat2Z.inj_succ, Z.pow_succ_r in Hv by lia.
  assert (k < List.length (encode_fuel n (v / 256)))%nat; [|lia].
  apply IH; [lia|]. apply Z.div_le_lower_bound; lia.
Qed.

Lemma encode_fuel_bytes n v : Forall (in_width 8) (encode_fuel n v).
Proof.
  revert v. induction n as [|n IH]; intros v; [constructor|]. cbn [encode_fuel].
  destruct (v =? 0); [constructor|]. apply Forall_app. split; [apply IH|].
  constructor; [|constructor]. by apply (wrap_in_width 8).
Qed.

(** Plain characters are none of the separators. *)
Lemma plain_not sep s : plain s -> sep = 47 \/ sep = 38 \/ sep = 63 ->
  Forall (fun c => c <> sep) s.
Proof.
  intros [_ H] Hsep. apply Forall_forall. intros c Hc. rewrite forallb_forall in H.
  specialize (H c (proj1 (list_elem_of_In _ _) Hc)). unfold plain_char in H. intros ->.
  destruct Hsep as [->|[->| ->]]; discriminate H.
Qed.

Lemma split_on_none sep s : Forall (fun c => c <> sep) s -> split_on sep s = [s].
Proof.
  induction 1 as [|c s Hc _ IH]; [done|]. cbn [split_on]. by rewrite (proj2 (Z.eqb_neq _ _)), IH.
Qed.

Lemma split_on_sep sep s r : Forall (fun c => c <> sep) s ->
  split_on sep (s ++ sep :: r) = s :: split_on sep r.
Proof.
  induction 1 as [|c s Hc _ IH]; cbn [app split_on]; [by rewrite Z.eqb_refl|].
  by rewrite (proj2 (Z.eqb_neq _ _)), IH.
Qed.

Lemma split_on_join q : Forall plain q -> q <> [] -> split_on 38 (join [38] q) = q.
Proof.
  induction 1 as [|s q Hs _ IH]; [done|]. intros _.
  destruct q as [|t q]; [apply split_on_none, plain_not; auto|].
  change (join [38] (s :: t :: q)) with (s ++ 38 :: join [38] (t :: q)).
  rewrite split_on_sep by (apply plain_not; auto). by rewrite IH.
Qed.

Lemma split_on_path segs : Forall plain segs ->
  split_on 47 (uri_path segs) = [] :: segs.
Proof.
  unfold uri_path. induction 1 as [|s segs Hs Hsegs IH]; [done|].
  cbn [fmap list_fmap mjoin list_join app split_on]. rewrite Z.eqb_refl. f_equal.
  destruct Hsegs as [|t segs Ht Hsegs].
  - rewrite app_nil_r. apply split_on_none, plain_not; auto.
  - cbn [fmap list_fmap mjoin list_join app split_on] in IH |- *. rewrite Z.eqb_refl in IH.
    injection IH as IH. rewrite split_on_sep by (apply plain_not; auto).
    f_equal. exact IH.
Qed.

Lemma cut_app c s r : Forall (fun x => x <> c) s -> cut c (s ++ c :: r) = (s, r).
Proof.
  induction 1 as [|x s Hx _ IH]; cbn [app cut]; [by rewrite Z.eqb_refl|].
  by rewrite (proj2 (Z.eqb_neq _ _)), IH.
Qed.
Lemma cut_none c s : Forall (fun x => x <> c) s -> cut c s = (s, []).
Proof.
  induction 1 as [|x s Hx _ IH]; [done|]. cbn [cut]. by rewrite (proj2 (Z.eqb_neq _ _)), IH.
Qed.

Lemma path_not_query segs : Forall plain segs -> Forall (fun c => c <> 63) (uri_path segs).
Proof.
  unfold uri_path. induction 1 as [|s segs Hs _ IH]; [constructor|].
  cbn [fmap list_fmap mjoin list_join app]. constructor; [done|].
  apply Forall_app. split; [apply plain_not; auto|done].
Qed.

#[export] Instance reference_laws : LibCoapLaws.
Proof.
  split; cbn [reference_coap rfc7252_header coap_header coap_encode_var_bytes coap_decode_var_bytes coap_opt_def coap_insert
    coap_add_code coap_add_token2 coap_add_option coap_add_data coap_add_block coap_check_option
    coap_get_block coap_bytes coap_get_token2 hdr_type hdr_id hdr_code coap_split_uri coap_split_path coap_split_query COAP_RESPONSE_CODE]; try done.
  - intros v Hv. by apply decode_encode_fuel.
  - intros v k _ Hv. by apply encode_fuel_length.
  - intros v k Hk Hv. apply encode_fuel_minimal; lia.
  - intros v _. apply encode_fuel_bytes.
  - by intros k b n [-> | ->].
  - by eexists.
  - by eexists.
  - intros p t _ _ _ Ht. by rewrite (proj2 (Nat.leb_le _ _)).
  - intros p k v Ho Hd Hs. unfold add_opt, fits. rewrite Hd.
    rewrite (proj2 (Z.leb_le _ _)) by lia. rewrite andb_true_r, (proj2 (forallb_forall _ _)); [done|].
    intros o Hin. rewrite Forall_forall in Ho. by apply Z.leb_le, Ho, list_elem_of_In.
  - intros p d Hd Hn Hs. unfold add_payload, fits. rewrite Hn.
    destruct d; [done|]. by rewrite (proj2 (Z.leb_le _ _)) by lia.
  - intros p d n s _ _ H. by rewrite (proj2 (Z.ltb_lt _ _)) by lia.
  - intros segs query Hs Hq _. rewrite drop_app_length'; [|done]. unfold uri_of.
    destruct query as [|q query].
    + by rewrite app_nil_r, cut_none by (by apply path_not_query).
    + by rewrite cut_app by (by apply path_not_query).
  - intros segs n Hs Hne _. by rewrite split_on_path.
  - intros q n Hq Hne _. by rewrite split_on_join.
  - intros p Ht Hi _ Hn. destruct (first_byte (p_type p) (List.length (p_token p)) Ht Hn) as [H1 H2].
    cbn [app nth List.length drop]. rewrite H1, H2, Nat2Z.id.
    split_and!; [lia|done|Z.div_mod_to_equations; lia|done|]. apply take_app_length.
Qed.

End LibCoapReference.
