(* ===== verification/CoapCodec.v ===== *)
(** * CoAP messages from and to message information

    [coap/coap_codec.c], for transports other than TCP: the option list of a
    message and its PDU ([CAGeneratePDU]), and back ([CAGetInfoFromPDU]).  The
    random message identifier and the preset proxy URI are arguments. *)

From S2P Require Import Prelude.
From S2P Require Import Status.
From S2P Require Import CaTypes.
From S2P Require Import LibCoap.
From S2P Require Import LibCoapReference.

Module CoapCodec.
Import CaTypes LibCoap.

Definition CA_MAX_URI_LENGTH : Z := 512.
Definition CA_MAX_HEADER_OPTION_DATA_LENGTH : Z := 1024.
Definition CA_MAX_TOKEN_LEN : Z := 8.
Definition COAP_DEFAULT_VERSION : Z := 1.
Definition UINT8_MAX : Z := 255.
Definition UINT16_MAX : Z := 65535.
Definition OCF_ACCEPT_CONTENT_FORMAT_VERSION : Z := 2049.
Definition OCF_CONTENT_FORMAT_VERSION : Z := 2053.
Definition DEFAULT_VERSION_VALUE : Z := 2048.
Definition COAP_URI_HEADER : list Z := codes "coap://[::]/".

(** Media types of libcoap and, last, of OCF. *)
Definition COAP_MEDIATYPE_TEXT_PLAIN : Z := 0.
Definition COAP_MEDIATYPE_APPLICATION_LINK_FORMAT : Z := 40.
Definition COAP_MEDIATYPE_APPLICATION_XML : Z := 41.
Definition COAP_MEDIATYPE_APPLICATION_OCTET_STREAM : Z := 42.
Definition COAP_MEDIATYPE_APPLICATION_RDF_XML : Z := 43.
Definition COAP_MEDIATYPE_APPLICATION_EXI : Z := 47.
Definition COAP_MEDIATYPE_APPLICATION_JSON : Z := 50.
Definition COAP_MEDIATYPE_APPLICATION_CBOR : Z := 60.
Definition COAP_MEDIATYPE_APPLICATION_VND_OCF_CBOR : Z := 10000.

(** [CAPayloadFormat_t] *)
Definition CA_FORMAT_UNDEFINED : Z := 0.
Definition CA_FORMAT_TEXT_PLAIN : Z := 1.
Definition CA_FORMAT_APPLICATION_LINK_FORMAT : Z := 2.
Definition CA_FORMAT_APPLICATION_XML : Z := 3.
Definition CA_FORMAT_APPLICATION_OCTET_STREAM : Z := 4.
Definition CA_FORMAT_APPLICATION_RDF_XML : Z := 5.
Definition CA_FORMAT_APPLICATION_EXI : Z := 6.
Definition CA_FORMAT_APPLICATION_JSON : Z := 7.
Definition CA_FORMAT_APPLICATION_CBOR : Z := 8.
Definition CA_FORMAT_APPLICATION_VND_OCF_CBOR : Z := 9.
Definition CA_FORMAT_UNSUPPORTED : Z := 10.

Definition CAConvertFormat (format : Z) : Z :=
  if format =? COAP_MEDIATYPE_TEXT_PLAIN then CA_FORMAT_TEXT_PLAIN
  else if format =? COAP_MEDIATYPE_APPLICATION_LINK_FORMAT then CA_FORMAT_APPLICATION_LINK_FORMAT
  else if format =? COAP_MEDIATYPE_APPLICATION_XML then CA_FORMAT_APPLICATION_XML
  else if format =? COAP_MEDIATYPE_APPLICATION_OCTET_STREAM then CA_FORMAT_APPLICATION_OCTET_STREAM
  else if format =? COAP_MEDIATYPE_APPLICATION_RDF_XML then CA_FORMAT_APPLICATION_RDF_XML
  else if format =? COAP_MEDIATYPE_APPLICATION_EXI then CA_FORMAT_APPLICATION_EXI
  else if format =? COAP_MEDIATYPE_APPLICATION_JSON then CA_FORMAT_APPLICATION_JSON
  else if format =? COAP_MEDIATYPE_APPLICATION_CBOR then CA_FORMAT_APPLICATION_CBOR
  else if format =? COAP_MEDIATYPE_APPLICATION_VND_OCF_CBOR then CA_FORMAT_APPLICATION_VND_OCF_CBOR
  else CA_FORMAT_UNSUPPORTED.

Definition CAIsSupportedBlockwiseTransfer (a : Z) : bool :=
  flag_set CA_ADAPTER_IP a || flag_set CA_ADAPTER_NFC a || (CA_DEFAULT_ADAPTER =? a).

Section codec.
Context {LC : LibCoap}.

(** ** The option list *)

Definition CAOrderOpts (a b : coap_option) : Z :=
  if a.1 <? b.1 then -1 else if a.1 =? b.1 then 1 else 0.

(** Options with values of variable length are cut to their largest length and
    encoded with as few bytes as possible. *)
Definition CACreateNewOptionNode (key : Z) (data : list Z) : coap_option :=
  match coap_opt_def key with
  | Some (true, max) =>
      let data := if max <? Z.of_nat (List.length data)
                  then drop (List.length data - Z.to_nat max) data else data in
      (key, coap_encode_var_bytes (coap_decode_var_bytes data))
  | _ => (key, data)
  end.

Definition insert_option (optlist : list coap_option) (key : Z) (data : list Z) : list coap_option :=
  coap_insert CAOrderOpts optlist (CACreateNewOptionNode key data).

Definition CAParseUriPartial (str : list Z) (target : Z) (optlist : list coap_option) :
    CAResult_t * list coap_option :=
  if negb (target =? COAP_OPTION_URI_PATH) && negb (target =? COAP_OPTION_URI_QUERY)
  then (CA_NOT_SUPPORTED, optlist)
  else match str with
  | [] => (CA_STATUS_FAILED, optlist)
  | _ =>
      match (if target =? COAP_OPTION_URI_PATH then coap_split_path str CA_MAX_URI_LENGTH
             else coap_split_query str CA_MAX_URI_LENGTH) with
      | None | Some [] => (CA_STATUS_FAILED, optlist)
      | Some segments =>
          (CA_STATUS_OK, fold_left (fun l s => insert_option l target s) segments optlist)
      end
  end.

Definition CAParseURI (uriInfo : list Z) (optlist : list coap_option) :
    CAResult_t * list coap_option :=
  let '(port, path, query) := coap_split_uri uriInfo in
  let optlist := if port =? COAP_DEFAULT_PORT then optlist
                 else insert_option optlist COAP_OPTION_URI_PORT (coap_encode_var_bytes port) in
  let '(ret, optlist) := match path with
                         | [] => (CA_STATUS_OK, optlist)
                         | _ => CAParseUriPartial path COAP_OPTION_URI_PATH optlist
                         end in
  if negb (ca_ok ret) then (ret, optlist)
  else match query with
       | [] => (CA_STATUS_OK, optlist)
       | _ => CAParseUriPartial query COAP_OPTION_URI_QUERY optlist
       end.

Definition CAParsePayloadFormatHeadOption (formatOption format versionOption version : Z)
    (optlist : list coap_option) : CAResult_t * list coap_option :=
  let encodeNode :=
    if format =? CA_FORMAT_APPLICATION_CBOR
    then Some (coap_encode_var_bytes COAP_MEDIATYPE_APPLICATION_CBOR)
    else if format =? CA_FORMAT_APPLICATION_VND_OCF_CBOR
    then Some (coap_encode_var_bytes COAP_MEDIATYPE_APPLICATION_VND_OCF_CBOR)
    else None in
  match encodeNode with
  | None => (CA_STATUS_INVALID_PARAM, optlist)
  | Some data =>
      let optlist := insert_option optlist formatOption data in
      (CA_STATUS_OK,
       if ((OCF_ACCEPT_CONTENT_FORMAT_VERSION =? versionOption)
           || (OCF_CONTENT_FORMAT_VERSION =? versionOption))
          && (CA_FORMAT_APPLICATION_VND_OCF_CBOR =? format)
       then insert_option optlist versionOption (coap_encode_var_bytes version)
       else optlist)
  end.

(** The options that are not header options of the information. *)
Definition not_header (id : Z) : bool :=
  existsb (Z.eqb id) [COAP_OPTION_URI_PATH; COAP_OPTION_URI_QUERY; COAP_OPTION_ACCEPT;
    OCF_ACCEPT_CONTENT_FORMAT_VERSION; COAP_OPTION_CONTENT_FORMAT; OCF_CONTENT_FORMAT_VERSION].

Definition CAParseHeadOption (info : CAInfo_t) (optlist : list coap_option) : list coap_option :=
  let optlist := fold_left (fun l o => if not_header (optionID o) then l
                                       else insert_option l (optionID o) (optionData o))
                   (options info) optlist in
  let optlist := if negb (CA_FORMAT_UNDEFINED =? payloadFormat info)
    then (CAParsePayloadFormatHeadOption COAP_OPTION_CONTENT_FORMAT (payloadFormat info)
            OCF_CONTENT_FORMAT_VERSION (payloadVersion info) optlist).2 else optlist in
  if negb (CA_FORMAT_UNDEFINED =? acceptFormat info)
  then (CAParsePayloadFormatHeadOption COAP_OPTION_ACCEPT (acceptFormat info)
          OCF_ACCEPT_CONTENT_FORMAT_VERSION (acceptVersion info) optlist).2 else optlist.

(** ** A message is generated *)

(** [coap_add_option2] on each option of the list. *)
Fixpoint add_options (l : list coap_option) (pdu : coap_pdu_t) : option coap_pdu_t :=
  match l with
  | [] => Some pdu
  | (k, v) :: l' => pdu ← coap_add_option pdu k v; add_options l' pdu
  end.

Definition add_payload (info : CAInfo_t) (pdu : coap_pdu_t) : coap_pdu_t :=
  match payload info with
  | Some (_ :: _ as d) => default pdu (coap_add_data pdu d)
  | _ => pdu
  end.

(** [prng] is the random identifier. *)
Definition CAGeneratePDUImpl (prng : Z) (code : Z) (info : CAInfo_t) (endpoint : CAEndpoint_t)
    (options : list coap_option) : option coap_pdu_t :=
  let message_id := if 0 =? messageId info then prng else messageId info in
  let pdu := coap_add_code (mk_pdu (type info) message_id 0 [] [] None) code in
  let pdu := match token info with
             | Some t => if negb (CA_EMPTY =? code) then default pdu (coap_add_token2 pdu t) else pdu
             | None => pdu
             end in
  if negb (CA_ADAPTER_GATT_BTLE =? adapter endpoint) then Some pdu
  else (fun pdu => add_payload info pdu) <$> add_options options pdu.

Definition CAGeneratePDU (prng : Z) (code : Z) (info : CAInfo_t) (endpoint : CAEndpoint_t) :
    option (coap_pdu_t * list coap_option) :=
  if (CA_MSG_RESET =? type info)
     || ((CA_EMPTY =? code) && (CA_MSG_ACKNOWLEDGE =? type info))
  then
    if negb (CA_EMPTY =? code) then None
    else match payload info, token info with
    | None, None => (fun p => (p, [])) <$> CAGeneratePDUImpl prng code info endpoint []
    | _, _ => None
    end
  else
    optlist ← match resourceUri info with
              | None => Some []
              | Some uri =>
                  if CA_MAX_URI_LENGTH <? Z.of_nat (List.length uri) then None
                  else match CAParseURI (COAP_URI_HEADER ++ uri) [] with
                       | (CA_STATUS_OK, optlist) => Some optlist
                       | _ => None
                       end
              end;
    let optlist := CAParseHeadOption info optlist in
    (fun p => (p, optlist)) <$> CAGeneratePDUImpl prng code info endpoint optlist.

(** ** A message is parsed *)

(** [parsed]: what [coap_pdu_parse2] makes of the bytes, with the version. *)
Definition CAParsePDU (parsed : option (Z * coap_pdu_t)) : option (coap_pdu_t * Z) :=
  '(version, pdu) ← parsed;
  if negb (version =? COAP_DEFAULT_VERSION) then None
  else if CA_MAX_TOKEN_LEN <? Z.of_nat (List.length (p_token pdu)) then None
  else Some (pdu, CA_RESPONSE_CODE (p_code pdu)).

(** The bytes in the buffer; no bytes when the buffer is too small. *)
Definition CAGetOptionData (key : Z) (data : list Z) (buflen : Z) : list Z :=
  if 0 =? buflen then []
  else if buflen <=? Z.of_nat (List.length data) then []
  else match coap_opt_def key, data with
       | Some (true, _), [] => [0]
       | _, _ => data
       end.

(** Options that are not counted as header options. *)
Definition uncounted (k : Z) : bool :=
  existsb (Z.eqb k) [COAP_OPTION_URI_PATH; COAP_OPTION_URI_QUERY; COAP_OPTION_BLOCK1;
    COAP_OPTION_BLOCK2; COAP_OPTION_SIZE1; COAP_OPTION_SIZE2; COAP_OPTION_URI_HOST;
    COAP_OPTION_URI_PORT; COAP_OPTION_ETAG; COAP_OPTION_MAXAGE; COAP_OPTION_PROXY_SCHEME].

(** More than 255 options fail an assertion. *)
Definition CAGetOptionCount (l : list coap_option) : option nat :=
  let n := List.length (filter (fun o => negb (uncounted o.1)) l) in
  if (Z.to_nat UINT8_MAX <? n)%nat then None else Some n.

(** What the loop over the options keeps: the URI so far and its flags, the
    header options, and the formats. *)
Record parse_state : Type := mk_parse {
  optionResult : list Z; isfirstsetflag : bool; isQueryBeingProcessed : bool;
  isProxyRequest : bool; found : list CAHeaderOption_t;
  s_acceptFormat : Z; s_acceptVersion : Z; s_payloadFormat : Z; s_payloadVersion : Z }.

Definition uri_append (s : parse_state) (r : list Z) (isQuery : bool) : parse_state :=
  mk_parse r true isQuery (isProxyRequest s) (found s) (s_acceptFormat s) (s_acceptVersion s)
    (s_payloadFormat s) (s_payloadVersion s).

(** An element of the path or query; [None]: there is not enough room. *)
Definition uri_element (key : Z) (buf : list Z) (s : parse_state) : option parse_state :=
  let put (r : list Z) (q : bool) :=
    if Z.of_nat (List.length r + List.length buf) <? CA_MAX_URI_LENGTH
    then Some (uri_append s (r ++ buf) q) else None in
  if negb (isfirstsetflag s) then put (optionResult s ++ [47]) (isQueryBeingProcessed s)
  else if negb (Z.of_nat (List.length (optionResult s)) <? CA_MAX_URI_LENGTH) then None
  else if key =? COAP_OPTION_URI_PATH
  then put (optionResult s ++ [47]) (isQueryBeingProcessed s)
  else if isQueryBeingProcessed s then put (optionResult s ++ [59]) true
  else put (optionResult s ++ [63]) true.

(** A format: one byte of the buffer, or two bytes decoded. *)
Definition parse_format (value buf : list Z) : Z :=
  if (List.length value =? 1)%nat then CAConvertFormat (u8 (nth 0 buf 0))
  else if (List.length value =? 2)%nat then CAConvertFormat (u16 (coap_decode_var_bytes value))
  else CA_FORMAT_UNSUPPORTED.
Definition parse_version (value : list Z) : Z :=
  if (List.length value =? 2)%nat then u16 (coap_decode_var_bytes value) else DEFAULT_VERSION_VALUE.

(** A header option; [count] is the room for them. *)
Definition header_element (count : nat) (key : Z) (value buf : list Z) (s : parse_state) :
    parse_state :=
  let room := (List.length (found s) <? count)%nat
              && (Z.of_nat (List.length buf) <=? CA_MAX_HEADER_OPTION_DATA_LENGTH) in
  mk_parse (optionResult s) (isfirstsetflag s) (isQueryBeingProcessed s)
    (isProxyRequest s || (key =? COAP_OPTION_PROXY_URI))
    (if room then found s ++ [mk_option key buf] else found s)
    (if key =? COAP_OPTION_ACCEPT then parse_format value buf else s_acceptFormat s)
    (if key =? OCF_ACCEPT_CONTENT_FORMAT_VERSION then parse_version value else s_acceptVersion s)
    (if key =? COAP_OPTION_CONTENT_FORMAT then parse_format value buf else s_payloadFormat s)
    (if key =? OCF_CONTENT_FORMAT_VERSION then parse_version value else s_payloadVersion s).

Definition parse_option (count : nat) (s : parse_state) (o : coap_option) : option parse_state :=
  match CAGetOptionData o.1 o.2 COAP_MAX_PDU_SIZE with
  | [] => Some s
  | buf =>
      if (COAP_OPTION_URI_PATH =? o.1) || (COAP_OPTION_URI_QUERY =? o.1)
      then uri_element o.1 buf s
      else if uncounted o.1 then Some s
      else Some (header_element count o.1 o.2 buf s)
  end.

Fixpoint parse_options (count : nat) (s : parse_state) (l : list coap_option) :
    option parse_state :=
  match l with
  | [] => Some s
  | o :: l' => s ← parse_option count s o; parse_options count s l'
  end.

(** A C string in a buffer. *)
Fixpoint until_nul (l : list Z) : list Z :=
  match l with
  | [] => []
  | c :: l' => if c =? 0 then [] else c :: until_nul l'
  end.

(** The information, or the error. *)
Definition CAGetInfoFromPDU (g_chproxyUri : list Z) (pdu : coap_pdu_t) :
    option (CAResult_t + CAInfo_t) :=
  count ← CAGetOptionCount (p_options pdu);
  Some match parse_options count (mk_parse [] false false false [] CA_FORMAT_UNDEFINED 0
                                    CA_FORMAT_UNDEFINED 0) (p_options pdu) with
  | None => inl CA_STATUS_FAILED
  | Some s =>
      if match p_data pdu with Some [] => true | _ => false end then inl CA_MEMORY_ALLOC_FAILED
      else inr (mk_info (p_type pdu) (p_id pdu)
        (match p_token pdu with [] => None | t => Some t end)
        (found s ++ replicate (count - List.length (found s)) (mk_option 0 []))
        (p_data pdu) (s_payloadFormat s) (s_acceptFormat s) (s_payloadVersion s)
        (s_acceptVersion s)
        (match until_nul (optionResult s) with
         | [] => if isProxyRequest s && negb (bool_decide (g_chproxyUri = []))
                 then Some g_chproxyUri else None
         | u => Some u
         end) 0)
  end.

Definition CAGetRequestInfoFromPDU (g_chproxyUri : list Z) (pdu : coap_pdu_t) :
    option (CAResult_t + CARequestInfo_t) :=
  r ← CAGetInfoFromPDU g_chproxyUri pdu;
  Some match r with
  | inl e => inl e
  | inr info => inr (mk_request (CA_RESPONSE_CODE (p_code pdu)) info false)
  end.

Definition CAGetResponseInfoFromPDU (g_chproxyUri : list Z) (pdu : coap_pdu_t) :
    option (CAResult_t + CAResponseInfo_t) :=
  r ← CAGetInfoFromPDU g_chproxyUri pdu;
  Some match r with
  | inl e => inl e
  | inr info => inr (mk_response (CA_RESPONSE_CODE (p_code pdu)) info false)
  end.

(** The token of a saved message; an empty one leaves the pointer that is there,
    with length 0. *)
Definition CAGetTokenFromPDU (pdu_hdr : list Z) (info : CAInfo_t) : CAInfo_t :=
  let t := match coap_get_token2 pdu_hdr with
           | [] => (fun _ => []) <$> token info
           | t => Some t
           end in
  mk_info (type info) (messageId info) t (options info) (payload info)
    (payloadFormat info) (acceptFormat info) (payloadVersion info) (acceptVersion info)
    (resourceUri info) (info_dataType info).

(** ** Round trip *)

Context {LL : LibCoapLaws}.

Lemma insert_mid l1 l2 k v : Forall (fun o => o.1 <= k) l1 -> Forall (fun o => k < o.1) l2 ->
  insert_by CAOrderOpts (l1 ++ l2) (k, v) = l1 ++ (k, v) :: l2.
Proof.
  intros H1 H2. induction H1 as [|o l1 Ho _ IH].
  - destruct H2 as [|o l2 Ho _]; [done|]. cbn [app insert_by]. unfold CAOrderOpts. cbn [fst].
    by rewrite (proj2 (Z.ltb_lt k o.1)).
  - cbn [app insert_by]. rewrite IH. unfold CAOrderOpts at 1. cbn [fst].
    rewrite (proj2 (Z.ltb_ge k o.1)) by done. by destruct (k =? o.1).
Qed.

Lemma insert_option_mid l1 l2 k v v' : CACreateNewOptionNode k v = (k, v') ->
  Forall (fun o => o.1 <= k) l1 -> Forall (fun o => k < o.1) l2 ->
  insert_option (l1 ++ l2) k v = l1 ++ (k, v') :: l2.
Proof. intros E H1 H2. unfold insert_option. rewrite insert_order, E. by apply insert_mid. Qed.

(** Values that a node keeps as they are. *)
Lemma node_opaque k n v : coap_opt_def k = Some (false, n) -> CACreateNewOptionNode k v = (k, v).
Proof. unfold CACreateNewOptionNode. by intros ->. Qed.

Lemma node_encoded k v n : 0 <= v < 2 ^ 32 -> (n <= 4)%nat -> v < 256 ^ Z.of_nat n ->
  (forall b m, coap_opt_def k = Some (b, m) -> Z.of_nat n <= m) ->
  CACreateNewOptionNode k (coap_encode_var_bytes v) = (k, coap_encode_var_bytes v).
Proof.
  intros Hv Hn Hb Hm. unfold CACreateNewOptionNode.
  destruct (coap_opt_def k) as [[[] m]|] eqn:E; try done.
  pose proof (encode_length v n Hn ltac:(lia)). pose proof (Hm _ _ eq_refl).
  rewrite (proj2 (Z.ltb_ge _ _)) by lia. by rewrite decode_encode.
Qed.

Definition segments (k : Z) (segs : list (list Z)) : list coap_option := (fun s => (k, s)) <$> segs.

Lemma insert_segments k n segs l1 l2 : coap_opt_def k = Some (false, n) ->
  Forall (fun o => o.1 <= k) l1 -> Forall (fun o => k < o.1) l2 ->
  fold_left (fun l s => insert_option l k s) segs (l1 ++ l2) = l1 ++ segments k segs ++ l2.
Proof.
  intros Hk H1 H2. revert l1 H1. induction segs as [|s segs IH]; intros l1 H1; [done|].
  cbn [fold_left]. rewrite (insert_option_mid _ _ _ _ s) by (try done; by eapply node_opaque).
  change (l1 ++ (k, s) :: l2) with (l1 ++ [(k, s)] ++ l2). rewrite app_assoc, IH.
  - by rewrite <- app_assoc.
  - apply Forall_app. split; [done|]. constructor; [cbn; lia|done].
Qed.

Lemma segments_keys k segs (P : coap_option -> Prop) : (forall s, P (k, s)) -> Forall P (segments k segs).
Proof. intros H. apply Forall_fmap, Forall_forall. intros s _. apply H. Qed.

Definition short_uri (segs query : list (list Z)) : Prop :=
  Forall plain segs /\ Forall plain query /\ segs <> [] /\
  Z.of_nat (List.length (uri_path segs)) * 3 <= CA_MAX_URI_LENGTH /\
  Z.of_nat (List.length (join [38] query)) * 3 <= CA_MAX_URI_LENGTH.

Lemma CAParseURI_options segs query : short_uri segs query ->
  CAParseURI (COAP_URI_HEADER ++ uri_of segs query) []
  = (CA_STATUS_OK, segments COAP_OPTION_URI_PATH segs ++ segments COAP_OPTION_URI_QUERY query).
Proof.
  intros (Hs & Hq & Hne & Hls & Hlq). unfold CAParseURI, COAP_URI_HEADER.
  rewrite split_uri by done. rewrite Z.eqb_refl.
  destruct opt_def_path as [np Hp], opt_def_query as [nq Hqd].
  assert (Hpath : CAParseUriPartial (uri_path segs) COAP_OPTION_URI_PATH []
                  = (CA_STATUS_OK, segments COAP_OPTION_URI_PATH segs)).
  { unfold CAParseUriPartial. cbn [Z.eqb COAP_OPTION_URI_PATH Pos.eqb negb andb].
    rewrite split_path by done. destruct segs as [|s segs]; [done|].
    cbn [uri_path fmap list_fmap mjoin list_join app].
    f_equal. etransitivity; [by apply (insert_segments _ np _ [] [])|]. by rewrite app_nil_r. }
  destruct (uri_path segs) as [|c cs] eqn:E; [by destruct segs|]. rewrite Hpath.
  cbn [ca_ok negb]. destruct query as [|q query]; [by rewrite app_nil_r|].
  unfold CAParseUriPartial. rewrite split_query by done.
  destruct (join [38] (q :: query)) as [|d ds] eqn:Ej.
  { exfalso. apply Forall_cons in Hq as [[Hq _] _]. by destruct q, query. }
  cbn [COAP_OPTION_URI_PATH COAP_OPTION_URI_QUERY Z.eqb Pos.eqb negb andb]. f_equal.
  rewrite <- (app_nil_r (segments _ segs)) at 1.
  rewrite (insert_segments _ nq) by (try done; by apply segments_keys).
  by rewrite app_nil_r.
Qed.

(** The format and version options. *)
Definition format_value (f : Z) : Z :=
  if f =? CA_FORMAT_APPLICATION_CBOR then COAP_MEDIATYPE_APPLICATION_CBOR
  else COAP_MEDIATYPE_APPLICATION_VND_OCF_CBOR.
Definition format_option (k f : Z) : list coap_option :=
  if f =? CA_FORMAT_UNDEFINED then [] else [(k, coap_encode_var_bytes (format_value f))].
Definition version_option (k f v : Z) : list coap_option :=
  if f =? CA_FORMAT_APPLICATION_VND_OCF_CBOR then [(k, coap_encode_var_bytes v)] else [].
Definition format_ok (f v : Z) : Prop :=
  (f = CA_FORMAT_UNDEFINED \/ f = CA_FORMAT_APPLICATION_CBOR) /\ v = 0 \/
  f = CA_FORMAT_APPLICATION_VND_OCF_CBOR /\ 256 <= v <= UINT16_MAX.

Lemma format_inserted fk f vk v l1 l2 l3 : format_ok f v ->
  coap_opt_def fk = Some (true, 2) -> vk = 2049 \/ vk = 2053 ->
  Forall (fun o => o.1 <= fk) l1 -> Forall (fun o => fk < o.1 <= vk) l2 ->
  Forall (fun o => vk < o.1) l3 -> fk < vk ->
  (if negb (CA_FORMAT_UNDEFINED =? f)
   then (CAParsePayloadFormatHeadOption fk f vk v (l1 ++ l2 ++ l3)).2 else l1 ++ l2 ++ l3)
  = l1 ++ format_option fk f ++ l2 ++ version_option vk f v ++ l3.
Proof.
  intros Hf Hd Hvk H1 H2 H3 Hk.
  assert (H23 : Forall (fun o => fk < o.1) (l2 ++ l3)).
  { apply Forall_app. split; eapply Forall_impl; try eassumption; cbn; intros; lia. }
  assert (Hnode : forall n, n < 2 ^ 16 -> 0 <= n ->
    CACreateNewOptionNode fk (coap_encode_var_bytes n) = (fk, coap_encode_var_bytes n)).
  { intros n Hn Hn0. apply (node_encoded _ _ 2); [lia|lia|exact Hn|].
    intros b m E. rewrite Hd in E. injection E as _ <-. done. }
  assert (Hb : (OCF_ACCEPT_CONTENT_FORMAT_VERSION =? vk) || (OCF_CONTENT_FORMAT_VERSION =? vk) = true)
    by (by destruct Hvk as [-> | ->]).
  unfold CAParsePayloadFormatHeadOption, format_option, version_option. rewrite Hb.
  destruct Hf as [[[-> | ->] ->]|[-> Hv]]; [done| |].
  - exact (insert_option_mid _ _ _ _ _ (Hnode 60 ltac:(done) ltac:(done)) H1 H23).
  - transitivity (insert_option (insert_option (l1 ++ l2 ++ l3) fk (coap_encode_var_bytes 10000)) vk
      (coap_encode_var_bytes v)); [done|].
    rewrite (insert_option_mid _ _ _ _ _ (Hnode 10000 ltac:(done) ltac:(done)) H1 H23).
    change (l1 ++ ?x :: l2 ++ l3) with (l1 ++ (x :: l2) ++ l3). rewrite app_assoc.
    rewrite (insert_option_mid _ _ vk _ (coap_encode_var_bytes v)).
    + by rewrite <- app_assoc.
    + unfold UINT16_MAX in Hv. apply (node_encoded _ _ 2); [lia|lia|cbn; lia|].
      intros b m. by apply opt_def_version.
    + apply Forall_app. split; [eapply Forall_impl; [exact H1|cbn; intros; lia]|].
      constructor; [cbn; lia|]. eapply Forall_impl; [exact H2|cbn; intros; lia].
    + done.
Qed.

(** The options of a message, in order, and the header options among them. *)
Definition content_options (info : CAInfo_t) : list coap_option :=
  format_option COAP_OPTION_CONTENT_FORMAT (payloadFormat info).
Definition accept_options (info : CAInfo_t) : list coap_option :=
  format_option COAP_OPTION_ACCEPT (acceptFormat info).
Definition version_options (info : CAInfo_t) : list coap_option :=
  version_option OCF_ACCEPT_CONTENT_FORMAT_VERSION (acceptFormat info) (acceptVersion info)
  ++ version_option OCF_CONTENT_FORMAT_VERSION (payloadFormat info) (payloadVersion info).
Definition other_options (info : CAInfo_t) : list coap_option :=
  accept_options info ++ version_options info.
(** With block and size options [blk]. *)
Definition block_message_options (info : CAInfo_t) (segs query : list (list Z))
    (blk : list coap_option) : list coap_option :=
  segments COAP_OPTION_URI_PATH segs ++ content_options info
  ++ segments COAP_OPTION_URI_QUERY query ++ accept_options info ++ blk ++ version_options info.
Definition message_options (info : CAInfo_t) (segs query : list (list Z)) : list coap_option :=
  block_message_options info segs query [].

Lemma CAGeneratePDU_options prng code info ep segs query :
  short_uri segs query -> Z.of_nat (List.length (uri_of segs query)) <= CA_MAX_URI_LENGTH ->
  resourceUri info = Some (uri_of segs query) -> options info = [] ->
  format_ok (payloadFormat info) (payloadVersion info) ->
  format_ok (acceptFormat info) (acceptVersion info) ->
  CA_MSG_RESET <> type info -> CA_EMPTY <> code ->
  CAGeneratePDU prng code info ep
  = (fun p => (p, message_options info segs query))
      <$> CAGeneratePDUImpl prng code info ep (message_options info segs query).
Proof.
  intros Hu Hl Euri Eopt Hpf Haf Hty Hcode. unfold CAGeneratePDU.
  rewrite (proj2 (Z.eqb_neq _ _) Hty), (proj2 (Z.eqb_neq _ _) Hcode). cbn [orb andb].
  rewrite Euri, (proj2 (Z.ltb_ge _ _)), CAParseURI_options by done. cbn [mbind option_bind].
  match goal with |- (fun p => (p, ?a)) <$> _ = (fun p => (p, ?b)) <$> _ =>
    assert (E : a = b); [|by rewrite E] end.
  unfold CAParseHeadOption. rewrite Eopt. cbn [fold_left].
  set (P := segments COAP_OPTION_URI_PATH segs). set (Q := segments COAP_OPTION_URI_QUERY query).
  rewrite <- (app_nil_r (P ++ Q)), <- app_assoc.
  rewrite (format_inserted COAP_OPTION_CONTENT_FORMAT _ _ _ P Q []); try done;
    [|apply opt_def_format|by right|by apply segments_keys|by apply segments_keys].
  rewrite app_nil_r.
  set (F := format_option COAP_OPTION_CONTENT_FORMAT _).
  set (V := version_option OCF_CONTENT_FORMAT_VERSION _ _).
  replace (P ++ F ++ Q ++ V) with ((P ++ F ++ Q) ++ [] ++ V) by (by rewrite <- !app_assoc).
  rewrite (format_inserted COAP_OPTION_ACCEPT); try done.
  - by rewrite <- !app_assoc.
  - apply opt_def_accept.
  - by left.
  - rewrite !Forall_app. split_and!; [by apply segments_keys| |by apply segments_keys].
    unfold F, format_option. destruct (_ =? _); repeat constructor; done.
  - unfold V, version_option. destruct (_ =? _); repeat constructor; done.
Qed.

(** ** Reading the options back *)

Lemma parse_options_app count l1 l2 s :
  parse_options count s (l1 ++ l2) = s ← parse_options count s l1; parse_options count s l2.
Proof.
  revert s. induction l1 as [|o l1 IH]; intros s; [done|]. cbn [app parse_options].
  destruct (parse_option count s o); [apply IH|done].
Qed.

Lemma option_data key v : v <> [] -> Z.of_nat (List.length v) < COAP_MAX_PDU_SIZE ->
  CAGetOptionData key v COAP_MAX_PDU_SIZE = v.
Proof.
  intros Hv Hl. unfold CAGetOptionData. cbn [Z.eqb COAP_MAX_PDU_SIZE].
  unfold COAP_MAX_PDU_SIZE in *. rewrite (proj2 (Z.leb_gt _ _)) by lia.
  destruct v; [done|]. by destruct (coap_opt_def key) as [[[] ?]|].
Qed.

Lemma uri_step count key v s r : plain v ->
  key = COAP_OPTION_URI_PATH \/ key = COAP_OPTION_URI_QUERY ->
  (isfirstsetflag s = false -> optionResult s = []) ->
  r = optionResult s ++ [if isfirstsetflag s && (key =? COAP_OPTION_URI_QUERY)
                         then if isQueryBeingProcessed s then 59 else 63 else 47] ++ v ->
  Z.of_nat (List.length r) < CA_MAX_URI_LENGTH ->
  parse_option count s (key, v)
  = Some (uri_append s r (isQueryBeingProcessed s || (isfirstsetflag s && (key =? COAP_OPTION_URI_QUERY)))).
Proof.
  intros [Hv _] Hk Hfirst -> Hl. rewrite !length_app in Hl. cbn [List.length] in Hl.
  unfold parse_option. cbn [fst snd].
  rewrite option_data by (try done; unfold COAP_MAX_PDU_SIZE, CA_MAX_URI_LENGTH in *; lia).
  replace ((COAP_OPTION_URI_PATH =? key) || (COAP_OPTION_URI_QUERY =? key)) with true
    by (by destruct Hk as [-> | ->]).
  destruct v as [|c v]; [done|]. unfold uri_element.
  assert (Hroom : forall x, Z.of_nat (List.length (optionResult s ++ [x]) + List.length (c :: v))
            <? CA_MAX_URI_LENGTH = true)
    by (intros x; apply Z.ltb_lt; rewrite length_app; cbn [List.length] in *; lia).
  rewrite !Hroom. destruct (isfirstsetflag s) eqn:Ef; cbn [negb andb].
  - rewrite (proj2 (Z.ltb_lt _ _)) by (unfold CA_MAX_URI_LENGTH in *; lia). cbn [negb].
    destruct Hk as [-> | ->]; cbn [Z.eqb Pos.eqb COAP_OPTION_URI_PATH COAP_OPTION_URI_QUERY].
    + by rewrite <- app_assoc, orb_false_r.
    + rewrite orb_true_r. destruct (isQueryBeingProcessed s); by rewrite <- app_assoc.
  - by rewrite <- app_assoc, orb_false_r.
Qed.

Lemma uri_append_same s q : isfirstsetflag s = true -> isQueryBeingProcessed s = q ->
  uri_append s (optionResult s) q = s.
Proof. destruct s. cbn. by intros -> ->. Qed.

Lemma parse_path_tail count segs s : Forall plain segs -> isfirstsetflag s = true ->
  Z.of_nat (List.length (optionResult s ++ uri_path segs)) < CA_MAX_URI_LENGTH ->
  parse_options count s (segments COAP_OPTION_URI_PATH segs)
  = Some (uri_append s (optionResult s ++ uri_path segs) (isQueryBeingProcessed s)).
Proof.
  intros Hs. revert s. induction Hs as [|v segs Hv Hs IH]; intros s Hf Hl.
  { cbn. rewrite app_nil_r. by rewrite uri_append_same. }
  cbn [segments fmap list_fmap parse_options].
  change (uri_path (v :: segs)) with ((slash :: v) ++ uri_path segs) in *.
  rewrite !length_app in Hl. cbn [List.length] in Hl.
  rewrite (uri_step count _ v s (optionResult s ++ slash :: v)); try done; try by left.
  - rewrite Hf. cbn [mbind option_bind andb COAP_OPTION_URI_PATH COAP_OPTION_URI_QUERY Z.eqb Pos.eqb].
    rewrite orb_false_r. unfold segments in IH. rewrite IH; [|done|].
    + cbn [optionResult uri_append isQueryBeingProcessed]. by rewrite <- app_assoc.
    + cbn [optionResult uri_append]. rewrite !length_app. cbn [List.length]. lia.
  - by rewrite Hf.
  - by rewrite Hf.
  - rewrite !length_app. cbn [List.length]. lia.
Qed.

Lemma parse_path count segs s : Forall plain segs -> isfirstsetflag s = false ->
  optionResult s = [] -> isQueryBeingProcessed s = false -> segs <> [] ->
  Z.of_nat (List.length (uri_path segs)) < CA_MAX_URI_LENGTH ->
  parse_options count s (segments COAP_OPTION_URI_PATH segs)
  = Some (uri_append s (uri_path segs) false).
Proof.
  intros Hs Hf Hr Hq Hne Hl. destruct Hs as [|v segs Hv Hs]; [done|].
  cbn [segments fmap list_fmap parse_options].
  change (uri_path (v :: segs)) with ((slash :: v) ++ uri_path segs) in *.
  rewrite length_app in Hl. cbn [List.length] in Hl.
  rewrite (uri_step count _ v s (slash :: v)); try done; try by left.
  - rewrite Hf, Hq. cbn [mbind option_bind andb orb].
    pose proof (parse_path_tail count segs (uri_append s (slash :: v) false) Hs eq_refl) as IH.
    unfold segments in IH. rewrite IH; [done|]. cbn [optionResult uri_append].
    rewrite length_app. cbn [List.length]. lia.
  - by rewrite Hr, Hf.
  - cbn [List.length]. lia.
Qed.

Definition prefixed (c : Z) (l : list (list Z)) : list Z := mjoin ((fun x => c :: x) <$> l).

Lemma parse_query_tail count query s : Forall plain query ->
  isfirstsetflag s = true -> isQueryBeingProcessed s = true ->
  Z.of_nat (List.length (optionResult s ++ prefixed 59 query)) < CA_MAX_URI_LENGTH ->
  parse_options count s (segments COAP_OPTION_URI_QUERY query)
  = Some (uri_append s (optionResult s ++ prefixed 59 query) true).
Proof.
  intros Hs. revert s. induction Hs as [|v query Hv Hs IH]; intros s Hf Hq Hl.
  { cbn. rewrite app_nil_r. by rewrite uri_append_same. }
  cbn [segments fmap list_fmap parse_options].
  change (prefixed 59 (v :: query)) with ((59 :: v) ++ prefixed 59 query) in *.
  rewrite !length_app in Hl. cbn [List.length] in Hl.
  rewrite (uri_step count _ v s (optionResult s ++ 59 :: v)); try done; try by right.
  - rewrite Hf, Hq. cbn [mbind option_bind andb orb].
    unfold segments in IH. rewrite IH; [|done|done|].
    + cbn [optionResult uri_append]. by rewrite <- app_assoc.
    + cbn [optionResult uri_append]. rewrite !length_app. cbn [List.length]. lia.
  - by rewrite Hf.
  - by rewrite Hf, Hq.
  - rewrite !length_app. cbn [List.length]. lia.
Qed.

(** The queries come back separated by ";". *)
Definition parsed_query (query : list (list Z)) : list Z :=
  match query with [] => [] | _ => 63 :: join [59] query end.

Lemma join_tail (sep : Z) q query : join [sep] (q :: query) = q ++ prefixed sep query.
Proof.
  revert q. induction query as [|x query IH]; intros q; [by rewrite app_nil_r|].
  change (join [sep] (q :: x :: query)) with (q ++ sep :: join [sep] (x :: query)). by rewrite IH.
Qed.

Lemma parse_query count query s : Forall plain query ->
  isfirstsetflag s = true -> isQueryBeingProcessed s = false ->
  Z.of_nat (List.length (optionResult s ++ parsed_query query)) < CA_MAX_URI_LENGTH ->
  parse_options count s (segments COAP_OPTION_URI_QUERY query)
  = Some (uri_append s (optionResult s ++ parsed_query query) (negb (bool_decide (query = [])))).
Proof.
  intros Hs Hf Hq Hl. destruct Hs as [|v query Hv Hs].
  { cbn. rewrite app_nil_r. by rewrite uri_append_same. }
  unfold parsed_query in *. rewrite join_tail in *.
  cbn [segments fmap list_fmap parse_options] in *.
  rewrite !length_app in Hl. cbn [List.length] in Hl. rewrite length_app in Hl.
  rewrite (uri_step count _ v s (optionResult s ++ 63 :: v)); try done; try by right.
  - rewrite Hf, Hq. cbn [mbind option_bind andb orb COAP_OPTION_URI_QUERY Z.eqb Pos.eqb].
    pose proof (parse_query_tail count query (uri_append s (optionResult s ++ 63 :: v) true) Hs
      eq_refl eq_refl) as IH.
    unfold segments in IH. rewrite IH.
    + cbn [optionResult uri_append]. by rewrite <- app_assoc.
    + cbn [optionResult uri_append]. rewrite !length_app. cbn [List.length]. lia.
  - by rewrite Hf.
  - by rewrite Hf, Hq.
  - rewrite !length_app. cbn [List.length]. lia.
Qed.

(** Header options: number and value of each are recorded, formats and versions
    are taken out. *)
Definition head_ok (o : coap_option) : Prop :=
  o.2 <> [] /\ Z.of_nat (List.length o.2) <= 4 /\
  existsb (Z.eqb o.1) [COAP_OPTION_CONTENT_FORMAT; COAP_OPTION_ACCEPT;
    OCF_ACCEPT_CONTENT_FORMAT_VERSION; OCF_CONTENT_FORMAT_VERSION] = true.

Definition heads_state (s : parse_state) (l : list coap_option) : parse_state :=
  let last k f d := fold_left (fun a (o : coap_option) => if o.1 =? k then f o.2 else a) l d in
  mk_parse (optionResult s) (isfirstsetflag s) (isQueryBeingProcessed s) (isProxyRequest s)
    (found s ++ ((fun o => mk_option o.1 o.2) <$> l))
    (last COAP_OPTION_ACCEPT (fun v => parse_format v v) (s_acceptFormat s))
    (last OCF_ACCEPT_CONTENT_FORMAT_VERSION parse_version (s_acceptVersion s))
    (last COAP_OPTION_CONTENT_FORMAT (fun v => parse_format v v) (s_payloadFormat s))
    (last OCF_CONTENT_FORMAT_VERSION parse_version (s_payloadVersion s)).

Lemma head_key k : existsb (Z.eqb k) [COAP_OPTION_CONTENT_FORMAT; COAP_OPTION_ACCEPT;
    OCF_ACCEPT_CONTENT_FORMAT_VERSION; OCF_CONTENT_FORMAT_VERSION] = true ->
  (COAP_OPTION_URI_PATH =? k) || (COAP_OPTION_URI_QUERY =? k) = false /\ uncounted k = false /\
  (k =? COAP_OPTION_PROXY_URI) = false.
Proof.
  cbn [existsb]. rewrite !orb_true_iff, !Z.eqb_eq.
  by intros [->|[->|[->|[->|?]]]].
Qed.

Lemma parse_heads count l s : Forall head_ok l ->
  (List.length (found s) + List.length l <= count)%nat ->
  parse_options count s l = Some (heads_state s l).
Proof.
  intros Hl. revert s. induction Hl as [|o l (Hv & Hlen & Hk) _ IH]; intros s Hc.
  { cbn. destruct s. unfold heads_state. cbn. by rewrite app_nil_r. }
  cbn [List.length] in Hc. cbn [parse_options]. unfold parse_option.
  rewrite option_data by (try done; unfold COAP_MAX_PDU_SIZE; lia).
  destruct (head_key _ Hk) as (-> & -> & Hp).
  destruct o.2 as [|c v] eqn:Ev; [done|]. cbn [mbind option_bind].
  rewrite IH; unfold header_element; rewrite Hp, (proj2 (Nat.ltb_lt _ _)) by lia;
    (rewrite (proj2 (Z.leb_le _ _)) by (unfold CA_MAX_HEADER_OPTION_DATA_LENGTH; lia));
    cbn [found andb optionResult isfirstsetflag isQueryBeingProcessed isProxyRequest
         s_acceptFormat s_acceptVersion s_payloadFormat s_payloadVersion].
  - unfold heads_state. cbn [fold_left fmap list_fmap found optionResult isfirstsetflag
      isQueryBeingProcessed isProxyRequest s_acceptFormat s_acceptVersion s_payloadFormat
      s_payloadVersion]. by rewrite Ev, orb_false_r, <- app_assoc.
  - rewrite length_app. cbn [List.length]. lia.
Qed.

Lemma heads_state_app s l1 l2 : heads_state (heads_state s l1) l2 = heads_state s (l1 ++ l2).
Proof.
  unfold heads_state. cbn. f_equal; [|by rewrite fold_left_app..].
  by rewrite fmap_app, <- app_assoc.
Qed.

(** Block and size options are passed over. *)
Definition block_key (k : Z) : bool :=
  existsb (Z.eqb k) [COAP_OPTION_BLOCK1; COAP_OPTION_BLOCK2; COAP_OPTION_SIZE1; COAP_OPTION_SIZE2].

Lemma block_key_other k : block_key k = true ->
  (COAP_OPTION_URI_PATH =? k) || (COAP_OPTION_URI_QUERY =? k) = false /\ uncounted k = true.
Proof.
  unfold block_key. cbn [existsb]. rewrite !orb_true_iff, !Z.eqb_eq.
  by intros [->|[->|[->|[->|?]]]].
Qed.

Lemma parse_skip count s l : Forall (fun o => block_key o.1 = true) l ->
  parse_options count s l = Some s.
Proof.
  induction 1 as [|o l Ho _ IH]; [done|]. cbn [parse_options]. unfold parse_option.
  destruct (block_key_other _ Ho) as [-> ->].
  by destruct (CAGetOptionData _ _ _).
Qed.

Lemma format_parsed f : f = CA_FORMAT_APPLICATION_CBOR \/ f = CA_FORMAT_APPLICATION_VND_OCF_CBOR ->
  let e := coap_encode_var_bytes (format_value f) in
  e <> [] /\ Z.of_nat (List.length e) <= 4 /\ parse_format e e = f.
Proof.
  intros [-> | ->]; cbv zeta.
  - pose proof (encode_length 60 1 ltac:(lia) ltac:(lia)) as Hl.
    pose proof (encode_minimal 60 0 ltac:(lia) ltac:(lia)) as Hm.
    pose proof (encode_bytes 60 ltac:(lia)) as Hb. pose proof (decode_encode 60 ltac:(lia)) as Hd.
    change (format_value CA_FORMAT_APPLICATION_CBOR) with 60.
    destruct (coap_encode_var_bytes 60) as [|b [|? ?]]; [simpl in Hm; lia| |simpl in Hl; lia].
    apply Forall_cons in Hb as [Hb _]. rewrite decode_byte in Hd by exact Hb. subst b.
    by split_and!.
  - pose proof (encode_length 10000 2 ltac:(lia) ltac:(lia)) as Hl.
    pose proof (encode_minimal 10000 1 ltac:(lia) ltac:(lia)) as Hm.
    pose proof (decode_encode 10000 ltac:(lia)) as Hd.
    change (format_value CA_FORMAT_APPLICATION_VND_OCF_CBOR) with 10000.
    destruct (coap_encode_var_bytes 10000) as [|b [|c [|? ?]]]; try (simpl in Hl, Hm; lia).
    unfold parse_format. cbn [List.length Nat.eqb]. rewrite Hd. by split_and!.
Qed.

Lemma version_parsed v : 256 <= v <= UINT16_MAX ->
  let e := coap_encode_var_bytes v in
  e <> [] /\ Z.of_nat (List.length e) <= 4 /\ parse_version e = v.
Proof.
  unfold UINT16_MAX. intros Hv. cbv zeta.
  pose proof (encode_length v 2 ltac:(lia) ltac:(cbn; lia)) as Hl.
  pose proof (encode_minimal v 1 ltac:(lia) ltac:(cbn; lia)) as Hm.
  pose proof (decode_encode v ltac:(lia)) as Hd.
  destruct (coap_encode_var_bytes v) as [|b [|c [|? ?]]]; try (simpl in Hl, Hm; lia).
  unfold parse_version. cbn [List.length Nat.eqb]. rewrite Hd.
  split_and!; [done|done|]. apply wrap_id. unfold in_width. lia.
Qed.

Lemma code_parsed c : existsb (Z.eqb c) ([CA_GET; CA_POST; CA_PUT; CA_DELETE] ++ CAResponseResult_values) = true ->
  CA_RESPONSE_CODE (COAP_RESPONSE_CODE c) = c.
Proof.
  intros H. apply existsb_exists in H as (x & Hx & ->%Z.eqb_eq).
  unfold CA_RESPONSE_CODE, CA_RESPONSE_CLASS.
  repeat (destruct Hx as [<-|Hx]; [rewrite !response_code by done; reflexivity|]). destruct Hx.
Qed.

Lemma head_options_ok info : format_ok (payloadFormat info) (payloadVersion info) ->
  format_ok (acceptFormat info) (acceptVersion info) ->
  Forall head_ok (content_options info) /\ Forall head_ok (other_options info).
Proof.
  intros Hp Ha.
  assert (Hfmt : forall k f v, format_ok f v ->
      existsb (Z.eqb k) [COAP_OPTION_CONTENT_FORMAT; COAP_OPTION_ACCEPT;
        OCF_ACCEPT_CONTENT_FORMAT_VERSION; OCF_CONTENT_FORMAT_VERSION] = true ->
      Forall head_ok (format_option k f)).
  { intros k f v Hf Hk. unfold format_option. destruct (Z.eqb_spec f CA_FORMAT_UNDEFINED); [constructor|].
    constructor; [|constructor]. destruct (format_parsed f) as (H1 & H2 & _); [|done].
    destruct Hf as [[[?|?] _]|[? _]]; tauto. }
  assert (Hver : forall k f v, format_ok f v ->
      existsb (Z.eqb k) [COAP_OPTION_CONTENT_FORMAT; COAP_OPTION_ACCEPT;
        OCF_ACCEPT_CONTENT_FORMAT_VERSION; OCF_CONTENT_FORMAT_VERSION] = true ->
      Forall head_ok (version_option k f v)).
  { intros k f v Hf Hk. unfold version_option.
    destruct (Z.eqb_spec f CA_FORMAT_APPLICATION_VND_OCF_CBOR) as [->|]; [|constructor].
    constructor; [|constructor]. destruct (version_parsed v) as (H1 & H2 & _); [|done].
    by destruct Hf as [[[[=]|[=]] _]|[_ ?]]. }
  split; [by eapply Hfmt|]. unfold other_options, accept_options, version_options. rewrite !Forall_app.
  split_and!; [by eapply Hfmt|by eapply Hver|by eapply Hver].
Qed.

Lemma filter_uncounted (l : list coap_option) : Forall (fun o => uncounted o.1 = true) l ->
  filter (fun o : coap_option => negb (uncounted o.1)) l = [].
Proof.
  induction 1 as [|o l Ho _ IH]; [done|]. rewrite filter_cons_False; [done|]. change (~ Is_true (negb (uncounted o.1))). rewrite Ho. by intros [].
Qed.

Lemma filter_heads (l : list coap_option) : Forall head_ok l ->
  filter (fun o : coap_option => negb (uncounted o.1)) l = l.
Proof.
  induction 1 as [|o l (_ & _ & Hk) _ IH]; [done|]. rewrite filter_cons_True; [by rewrite IH|].
  change (Is_true (negb (uncounted o.1))). by destruct (head_key _ Hk) as (_ & -> & _).
Qed.

Lemma heads_formats s info : format_ok (payloadFormat info) (payloadVersion info) ->
  format_ok (acceptFormat info) (acceptVersion info) ->
  s_payloadFormat s = 0 -> s_payloadVersion s = 0 -> s_acceptFormat s = 0 -> s_acceptVersion s = 0 ->
  let s' := heads_state s (content_options info) in
  forall s'', s_payloadFormat s'' = s_payloadFormat s' -> s_payloadVersion s'' = s_payloadVersion s' ->
  s_acceptFormat s'' = s_acceptFormat s' -> s_acceptVersion s'' = s_acceptVersion s' ->
  let r := heads_state s'' (other_options info) in
  s_payloadFormat r = payloadFormat info /\ s_payloadVersion r = payloadVersion info /\
  s_acceptFormat r = acceptFormat info /\ s_acceptVersion r = acceptVersion info.
Proof.
  intros Hp Ha E1 E2 E3 E4 s' s'' F1 F2 F3 F4 r. subst s' r. revert F1 F2 F3 F4.
  unfold heads_state. cbn [s_payloadFormat s_payloadVersion s_acceptFormat s_acceptVersion].
  rewrite E1, E2, E3, E4. intros -> -> -> ->.
  unfold content_options, other_options, accept_options, version_options, format_option, version_option.
  clear -Hp Ha LL.
  destruct Hp as [[[-> | ->] ->]|[-> Hv]], Ha as [[[-> | ->] ->]|[-> Hw]]; cbn -[parse_format parse_version coap_encode_var_bytes format_value];
  repeat match goal with
  | |- context [parse_format (coap_encode_var_bytes (format_value ?f)) _] =>
      rewrite (proj2 (proj2 (format_parsed f ltac:(first [by left|by right]))))
  | H : 256 <= ?v <= _ |- context [parse_version (coap_encode_var_bytes ?v)] =>
      rewrite (proj2 (proj2 (version_parsed v H)))
  end; done.
Qed.

Lemma join_sep_length (a b : Z) l : List.length (join [a] l) = List.length (join [b] l).
Proof.
  destruct l as [|x l]; [done|]. rewrite !join_tail, !length_app. f_equal.
  unfold prefixed. induction l as [|y l IH]; [done|].
  cbn [fmap list_fmap mjoin list_join app List.length]. rewrite !length_app. f_equal. f_equal. exact IH.
Qed.

Lemma uri_length segs query : short_uri segs query ->
  Z.of_nat (List.length (uri_path segs ++ parsed_query query)) < CA_MAX_URI_LENGTH.
Proof.
  intros (_ & _ & _ & H1 & H2). rewrite (join_sep_length 38 59) in H2. rewrite length_app.
  unfold parsed_query, CA_MAX_URI_LENGTH in *.
  destruct query; cbn [List.length]; lia.
Qed.

Lemma until_nul_id l : Forall (fun c => c <> 0) l -> until_nul l = l.
Proof.
  induction 1 as [|c l Hc _ IH]; [done|]. cbn [until_nul].
  by rewrite (proj2 (Z.eqb_neq _ _)), IH.
Qed.

Lemma plain_nonzero s : plain s -> Forall (fun c => c <> 0) s.
Proof.
  intros [_ H]. apply Forall_forall. intros c Hc. rewrite forallb_forall in H.
  specialize (H c (proj1 (list_elem_of_In _ _) Hc)). by intros ->.
Qed.

Lemma prefixed_nonzero c l : c <> 0 -> Forall plain l -> Forall (fun c => c <> 0) (prefixed c l).
Proof.
  intros Hc. unfold prefixed. induction 1 as [|s l Hs _ IH]; [constructor|].
  cbn [fmap list_fmap mjoin list_join app]. constructor; [done|].
  apply Forall_app. split; [by apply plain_nonzero|done].
Qed.

Lemma uri_nonzero segs query : short_uri segs query ->
  until_nul (uri_path segs ++ parsed_query query) = uri_path segs ++ parsed_query query.
Proof.
  intros (Hs & Hq & _). apply until_nul_id, Forall_app. split; [by apply prefixed_nonzero|].
  unfold parsed_query. destruct Hq as [|q query Hq Hqs]; [constructor|]. constructor; [done|].
  rewrite join_tail. apply Forall_app. split; [by apply plain_nonzero|by apply prefixed_nonzero].
Qed.

(** What the information of a message becomes on the other side. *)
Definition delivered (id : Z) (info : CAInfo_t) (segs query : list (list Z)) : CAInfo_t :=
  mk_info (type info) id (token info)
    ((fun o => mk_option o.1 o.2) <$> content_options info ++ other_options info)
    (payload info) (payloadFormat info) (acceptFormat info) (payloadVersion info)
    (acceptVersion info) (Some (uri_path segs ++ parsed_query query)) 0.

Lemma CAGetInfoFromPDU_options g info segs query blk pdu t :
  Forall (fun o => block_key o.1 = true) blk -> short_uri segs query -> format_ok (payloadFormat info) (payloadVersion info) ->
  format_ok (acceptFormat info) (acceptVersion info) ->
  p_options pdu = block_message_options info segs query blk -> p_type pdu = type info ->
  token info = Some t -> t <> [] -> p_token pdu = t -> p_data pdu <> Some [] ->
  CAGetInfoFromPDU g pdu
  = Some (inr (delivered (p_id pdu) (with_payload (p_data pdu) info) segs query)).
Proof.
  intros Hblk Hu Hp Ha Eo Et Etok Ht Ept Hpay. pose proof (uri_length _ _ Hu) as Hl.
  pose proof (uri_nonzero _ _ Hu) as Hnz. destruct Hu as (Hs & Hq & Hne & _).
  destruct (head_options_ok info Hp Ha) as [HC HO]. set (C := content_options info) in *.
  set (O := other_options info) in *.
  assert (HAV : Forall head_ok (accept_options info) /\ Forall head_ok (version_options info))
    by (unfold O, other_options in HO; by apply Forall_app in HO). destruct HAV as [HA HV].
  assert (Hskip : filter (fun o : coap_option => negb (uncounted o.1)) blk = []).
  { apply filter_uncounted. eapply Forall_impl; [exact Hblk|]. intros o Ho. by apply block_key_other. }
  assert (Ecount : CAGetOptionCount (p_options pdu) = Some (List.length (C ++ O))).
  { unfold CAGetOptionCount. rewrite Eo. unfold block_message_options. fold C.
    rewrite !filter_app, Hskip, !(filter_uncounted (segments _ _)) by (by apply segments_keys).
    rewrite !filter_heads by done. cbn [app]. change (accept_options info ++ version_options info) with O.
    rewrite (proj2 (Nat.ltb_ge _ _)); [done|]. rewrite length_app.
    unfold C, O, content_options, other_options, accept_options, version_options, format_option,
      version_option. rewrite !length_app. unfold UINT8_MAX.
    repeat (destruct (_ =? _)); cbn [List.length]; lia. }
  unfold CAGetInfoFromPDU. rewrite Ecount. cbn [mbind option_bind].
  rewrite Eo. unfold block_message_options. fold C.
  rewrite parse_options_app, parse_path; try done; [|rewrite length_app in Hl; lia].
  cbn [mbind option_bind]. rewrite parse_options_app, parse_heads; [|done|cbn; rewrite length_app; lia].
  cbn [mbind option_bind]. rewrite parse_options_app, parse_query; try done.
  cbn [mbind option_bind optionResult heads_state uri_append isQueryBeingProcessed].
  assert (Hlen : (List.length (C ++ O) = List.length C + (List.length (accept_options info)
                   + List.length (version_options info)))%nat)
    by (rewrite length_app; unfold O, other_options; by rewrite length_app).
  rewrite parse_options_app, parse_heads;
    [|done|cbn [found heads_state uri_append app]; rewrite length_fmap; lia].
  cbn [mbind option_bind]. rewrite parse_options_app, parse_skip by done.
  cbn [mbind option_bind]. rewrite parse_heads;
    [|done|cbn [found heads_state uri_append app]; rewrite length_app, !length_fmap; lia].
  rewrite heads_state_app. change (accept_options info ++ version_options info) with O.
  cbn [mbind option_bind]. set (s'' := uri_append _ _ _).
  destruct (heads_formats (uri_append (mk_parse [] false false false [] 0 0 0 0) (uri_path segs) false) info
    Hp Ha eq_refl eq_refl eq_refl eq_refl s'') as (E1 & E2 & E3 & E4); try done.
  fold O in E1, E2, E3, E4. rewrite E1, E2, E3, E4.
  unfold delivered. cbn [with_payload type token payload payloadFormat acceptFormat payloadVersion acceptVersion].
  change (content_options (with_payload (p_data pdu) info)) with C.
  change (other_options (with_payload (p_data pdu) info)) with O.
  rewrite Etok, Ept. destruct t as [|x t]; [done|].
  destruct (p_data pdu) as [[|c d]|] eqn:Ep; [done| |].
  all: cbn [heads_state found optionResult s'' uri_append isProxyRequest app].
  all: rewrite Hnz, Et, !fmap_app, !length_app, !length_fmap, Nat.sub_diag.
  all: cbn [replicate]; rewrite app_nil_r.
  all: by destruct (uri_path segs ++ parsed_query query) eqn:E; [destruct segs|].
Qed.

(** ** The whole way *)

Definition unsent_pdu (prng code : Z) (info : CAInfo_t) (t : list Z) : coap_pdu_t :=
  mk_pdu (type info) (if 0 =? messageId info then prng else messageId info)
    (COAP_RESPONSE_CODE code) t [] None.

Lemma CAGeneratePDUImpl_token prng code info ep l t : CA_EMPTY <> code ->
  token info = Some t -> (List.length t <= 8)%nat -> CA_ADAPTER_GATT_BTLE <> adapter ep ->
  CAGeneratePDUImpl prng code info ep l = Some (unsent_pdu prng code info t).
Proof.
  intros Hc Et Ht Ha. unfold CAGeneratePDUImpl. rewrite Et, add_code.
  rewrite (proj2 (Z.eqb_neq _ _) Hc), (proj2 (Z.eqb_neq _ _) Ha). cbn [negb].
  by rewrite add_token.
Qed.

Lemma options_size_app l1 l2 : options_size (l1 ++ l2) = options_size l1 + options_size l2.
Proof. induction l1 as [|o l1 IH]; [done|]. cbn [app options_size foldr]. fold (options_size (l1 ++ l2)). rewrite IH. cbn. fold (options_size l1). lia. Qed.

Lemma options_size_nonneg l : 0 <= options_size l.
Proof. induction l as [|o l IH]; [done|]. cbn [options_size foldr]. fold (options_size l). lia. Qed.

(** Options in order are added one after the other. *)
Fixpoint ordered (k : Z) (l : list coap_option) : Prop :=
  match l with [] => True | o :: l' => k <= o.1 /\ ordered o.1 l' end.

Lemma add_options_ordered l : forall p k, ordered k l -> Forall (fun o => o.1 <= k) (p_options p) ->
  p_data p = None -> pdu_size p + options_size l <= COAP_MAX_PDU_SIZE ->
  add_options l p = Some (with_options (p_options p ++ l) p).
Proof.
  induction l as [|[k' v] l IH]; intros p k Ho Hk Hd Hs.
  { cbn. rewrite app_nil_r. by destruct p. }
  destruct Ho as [Hkk Ho]. cbn [fst] in *. cbn [options_size foldr snd] in Hs.
  fold (options_size l) in Hs. pose proof (options_size_nonneg l).
  cbn [add_options].
  assert (Hk' : Forall (fun o : coap_option => o.1 <= k') (p_options p))
    by (eapply Forall_impl; [exact Hk|cbn; intros; lia]).
  rewrite add_option by (done || lia). cbn [mbind option_bind].
  rewrite (IH _ k'); cbn [with_options p_options p_data]; try done.
  - by rewrite <- app_assoc.
  - apply Forall_app. split; [done|]. constructor; [cbn; lia|done].
  - unfold pdu_size in *. cbn [with_options p_options p_token p_data] in *.
    rewrite options_size_app. cbn [options_size foldr snd]. lia.
Qed.

Lemma ordered_app l1 l2 k k' : ordered k l1 -> Forall (fun o => o.1 <= k') l1 -> k <= k' ->
  ordered k' l2 -> ordered k (l1 ++ l2).
Proof.
  revert k. induction l1 as [|o l1 IH]; intros k H1 Hk Hkk H2; cbn [app ordered] in *.
  - destruct l2; cbn in *; [done|]. split; [lia|tauto].
  - apply Forall_cons in Hk as [Ho Hk]. split; [tauto|]. apply IH; tauto.
Qed.

Lemma ordered_segments k segs : ordered k (segments k segs).
Proof. induction segs as [|s segs IH]; [done|]. split; [cbn; lia|exact IH]. Qed.

Lemma block_message_options_ordered info segs query blk :
  ordered COAP_OPTION_ACCEPT blk -> Forall (fun o => o.1 <= OCF_ACCEPT_CONTENT_FORMAT_VERSION) blk ->
  ordered 0 (block_message_options info segs query blk).
Proof.
  intros Hblk Hb. unfold block_message_options. apply (ordered_app _ _ 0 COAP_OPTION_URI_PATH); try done.
  { destruct segs; [done|]. split; [done|]. apply ordered_segments. }
  { by apply segments_keys. }
  apply (ordered_app _ _ _ COAP_OPTION_CONTENT_FORMAT); try done.
  { unfold content_options, format_option. by destruct (_ =? _). }
  { unfold content_options, format_option. destruct (_ =? _); repeat constructor; done. }
  apply (ordered_app _ _ _ COAP_OPTION_URI_QUERY); try done.
  { destruct query; [done|]. split; [done|]. apply ordered_segments. }
  { by apply segments_keys. }
  apply (ordered_app _ _ _ COAP_OPTION_ACCEPT); try done.
  { unfold accept_options, format_option. by destruct (_ =? _). }
  { unfold accept_options, format_option. destruct (_ =? _); repeat constructor; done. }
  apply (ordered_app _ _ _ OCF_ACCEPT_CONTENT_FORMAT_VERSION); try done.
  unfold version_options, version_option. repeat (destruct (_ =? _)); by repeat split.
Qed.

(** C13: A request that is small enough for one message and goes out over IP is
    received with the same method, type, identifier, token, payload, formats and
    path, its queries separated by ";". *)
Theorem request_roundtrip g prng code info ep segs query t :
  short_uri segs query -> Z.of_nat (List.length (uri_of segs query)) <= CA_MAX_URI_LENGTH ->
  resourceUri info = Some (uri_of segs query) -> options info = [] ->
  format_ok (payloadFormat info) (payloadVersion info) ->
  format_ok (acceptFormat info) (acceptVersion info) ->
  CA_MSG_RESET <> type info -> is_method code = true ->
  token info = Some t -> t <> [] -> (List.length t <= 8)%nat -> payload info <> Some [] ->
  CA_ADAPTER_GATT_BTLE <> adapter ep ->
  4 + Z.of_nat (List.length t) + options_size (message_options info segs query)
    + data_size (payload info) <= COAP_MAX_PDU_SIZE ->
  exists p l p' pdu, CAGeneratePDU prng code info ep = Some (p, l) /\ add_options l p = Some p' /\
    coap_add_data p' (default [] (payload info)) = Some pdu /\
    CAGetRequestInfoFromPDU g pdu
    = Some (inr (mk_request code (delivered (p_id pdu) info segs query) false)) /\
    p_id pdu = (if 0 =? messageId info then prng else messageId info).
Proof.
  intros Hu Hul Euri Eopt Hp Ha Hty Hcode Etok Ht Htl Hpay Had Hroom.
  assert (Hne : CA_EMPTY <> code) by (by intros <-).
  set (p := unsent_pdu prng code info t). set (l := message_options info segs query) in *.
  set (pdu := with_data (payload info) (with_options l p)).
  exists p, l, (with_options l p), pdu. split_and!.
  - rewrite (CAGeneratePDU_options _ _ _ _ segs query) by done.
    by rewrite (CAGeneratePDUImpl_token _ _ _ _ _ t).
  - assert (0 <= data_size (payload info)) by (destruct (payload info); simpl; lia).
    apply (add_options_ordered l p 0); [by apply block_message_options_ordered|done|done|].
    unfold pdu_size, p, unsent_pdu. cbn [p_token p_options p_data options_size foldr data_size]. lia.
  - unfold pdu. destruct (payload info) as [[|c d]|]; [done| |by rewrite add_no_data].
    cbn [default]. apply add_data; [done|done|].
    cbn [data_size] in Hroom. unfold pdu_size. cbn [p p_token p_options p_data with_options data_size unsent_pdu]. lia.
  - unfold CAGetRequestInfoFromPDU.
    rewrite (CAGetInfoFromPDU_options g info segs query [] pdu t) by done.
    replace (with_payload (p_data pdu) info) with info by (by destruct info).
    cbn [mbind option_bind p_code pdu with_data with_options p unsent_pdu].
    rewrite code_parsed; [done|]. unfold is_method in Hcode.
    rewrite existsb_app. cbn [existsb]. rewrite !orb_true_iff in Hcode. rewrite !orb_true_iff. tauto.
  - done.
Qed.

End codec.

(** ** A concrete message *)

Import LibCoapReference.

Definition discovery_path : list (list Z) := [codes "oic"; codes "res"].
Definition discovery_query : list (list Z) := [codes "rt=light"; codes "if=ll"].
Definition discovery : CAInfo_t :=
  mk_info CA_MSG_CONFIRM 0 (Some [1; 2; 3; 4]) [] (Some [160]) CA_FORMAT_APPLICATION_CBOR
    CA_FORMAT_APPLICATION_VND_OCF_CBOR 0 DEFAULT_VERSION_VALUE
    (Some (uri_of discovery_path discovery_query)) 0.

Lemma discovery_uri : short_uri discovery_path discovery_query.
Proof. split_and!; try done; repeat constructor; done. Qed.

Lemma request_roundtrip_witness :
  exists p l p' pdu,
    CAGeneratePDU 77 CA_GET discovery (mk_endpoint CA_ADAPTER_IP 64 5683 "192.0.2.1" 0) = Some (p, l) /\
    add_options l p = Some p' /\ coap_add_data p' [160] = Some pdu /\
    CAGetRequestInfoFromPDU [] pdu
    = Some (inr (mk_request CA_GET (delivered (p_id pdu) discovery discovery_path discovery_query) false)) /\
    p_id pdu = 77.
Proof.
  apply (request_roundtrip [] 77 CA_GET discovery (mk_endpoint CA_ADAPTER_IP 64 5683 "192.0.2.1" 0)
    discovery_path discovery_query [1; 2; 3; 4]); try done.
  - exact discovery_uri.
  - left. by split; [right|].
  - right. split; [done|]. by split.
  - simpl. lia.
Defined.

Example discovery_received :
  resourceUri (delivered 77 discovery discovery_path discovery_query)
  = Some (codes "/oic/res?rt=light;if=ll").
Proof. reflexivity. Qed.

End CoapCodec.
