(* ===== verification/Blockwise.v ===== *)
(** * Block-wise transfer

    [coap/cablockwisetransfer.c]: the table of transfers in progress, one entry
    per token and peer ([CABlockData_t]); what is sent and received goes through
    [CASendBlockWiseData] and [CAReceiveBlockWiseData], which split a payload that
    is too large for one message and put it together again (RFC 7959).  The state
    is [g_context]; the two callbacks append to its log.  [Some] pointers to entries
    are indices into the table: no entry is removed while one is held. *)

From S2P Require Import Prelude.
From S2P Require Import Status.
From S2P Require Import CaTypes.
From S2P Require Import LibCoap.
From S2P Require Import CoapCodec.

Module Blockwise.
Import CaTypes LibCoap CoapCodec.

Definition CA_BLOCK_SIZE_1024_BYTE : Z := 6.
Definition CA_DEFAULT_BLOCK_SIZE : Z := CA_BLOCK_SIZE_1024_BYTE.
Definition BLOCK_NUMBER_IDX : Z := 4.
Definition BLOCK_SIZE (arg : Z) : Z := block_size arg.

Inductive CABlockState_t : Type :=
| CA_BLOCK_UNKNOWN | CA_OPTION1_RESPONSE | CA_OPTION1_REQUEST_LAST_BLOCK
| CA_OPTION1_REQUEST_BLOCK | CA_OPTION2_FIRST_BLOCK | CA_OPTION2_LAST_BLOCK
| CA_OPTION2_RESPONSE | CA_OPTION2_REQUEST | CA_BLOCK_INCOMPLETE | CA_BLOCK_TOO_LARGE
| CA_BLOCK_RECEIVED_ALREADY.

#[export] Instance CABlockState_eq_dec : EqDecision CABlockState_t.
Proof. solve_decision. Defined.

(** ** State *)

Record CABlockData_t : Type := mk_block_data {
  block1 : coap_block_t; block2 : coap_block_t; btype : Z; blockDataId : list Z;
  sentData : CAData_t; bpayload : option (list Z); payloadLength : Z; receivedPayloadLen : Z }.

Record CABlockMulticastData_t : Type := mk_multicast {
  m_token : list Z; m_resourceUri : option (list Z) }.

(** [sendThreadFunc], [receivedThreadFunc], and the empty response that is sent at
    once. *)
Inductive event : Type :=
| SendThread (d : CAData_t)
| ReceiveThread (d : CAData_t)
| EmptyResponse (ep : CAEndpoint_t) (messageId : Z).

Record CABlockWiseContext_t : Type := mk_ctx {
  dataList : list CABlockData_t; multicastDataList : list CABlockMulticastData_t;
  log : list event }.

Definition with_dataList (l : list CABlockData_t) (c : CABlockWiseContext_t) :=
  mk_ctx l (multicastDataList c) (log c).
Definition with_multicast (l : list CABlockMulticastData_t) (c : CABlockWiseContext_t) :=
  mk_ctx (dataList c) l (log c).
Definition with_log (l : list event) (c : CABlockWiseContext_t) :=
  mk_ctx (dataList c) (multicastDataList c) l.

Definition set_block1 (b : coap_block_t) (d : CABlockData_t) : CABlockData_t :=
  mk_block_data b (block2 d) (btype d) (blockDataId d) (sentData d) (bpayload d)
    (payloadLength d) (receivedPayloadLen d).
Definition set_block2 (b : coap_block_t) (d : CABlockData_t) : CABlockData_t :=
  mk_block_data (block1 d) b (btype d) (blockDataId d) (sentData d) (bpayload d)
    (payloadLength d) (receivedPayloadLen d).
Definition set_btype (t : Z) (d : CABlockData_t) : CABlockData_t :=
  mk_block_data (block1 d) (block2 d) t (blockDataId d) (sentData d) (bpayload d)
    (payloadLength d) (receivedPayloadLen d).
Definition set_sent (s : CAData_t) (d : CABlockData_t) : CABlockData_t :=
  mk_block_data (block1 d) (block2 d) (btype d) (blockDataId d) s (bpayload d)
    (payloadLength d) (receivedPayloadLen d).
Definition set_received (p : option (list Z)) (len received : Z) (d : CABlockData_t) :
    CABlockData_t :=
  mk_block_data (block1 d) (block2 d) (btype d) (blockDataId d) (sentData d) p len received.
Definition set_num (n : Z) (b : coap_block_t) : coap_block_t := mk_block n (m b) (szx b).
Definition set_szx (s : Z) (b : coap_block_t) : coap_block_t := mk_block (num b) (m b) s.

Notation B := (M CABlockWiseContext_t).

Definition tell (e : event) : B unit := modify (fun c => with_log (log c ++ [e]) c).
Definition entry (i : nat) : B CABlockData_t :=
  (let! c := get in demand (dataList c !! i))%m.
Definition put_entry (i : nat) (d : CABlockData_t) : B unit :=
  modify (fun c => with_dataList (<[i := d]> (dataList c)) c).

(** ** Identifiers *)

(** Token, port and address one after the other. *)
Definition CACreateBlockDatablockId (token : list Z) (e : CAEndpoint_t) : list Z :=
  token ++ [Z.land (Z.shiftr (port e) 8) 255; Z.land (port e) 255] ++ codes (addr e).

Definition CABlockidMatches (id : list Z) (d : CABlockData_t) : bool :=
  bool_decide (blockDataId d = id).

(** The first entry with the identifier: the loop of every lookup. *)
Fixpoint find_block (id : list Z) (l : list CABlockData_t) : option nat :=
  match l with
  | [] => None
  | d :: l' => if CABlockidMatches id d then Some O else S <$> find_block id l'
  end.

Definition CAGetBlockDataFromBlockDataList (id : list Z) : B (option nat) :=
  gets (fun c => find_block id (dataList c)).

Definition with_found {A} (id : list Z) (f : nat -> CABlockData_t -> B A) (none : B A) : B A :=
  (let! i := CAGetBlockDataFromBlockDataList id in
   match i with
   | Some i => let! d := entry i in f i d
   | None => none
   end)%m.

Definition CAUpdateBlockOptionType (id : list Z) (blockType : Z) : B CAResult_t :=
  (with_found id (fun i d => put_entry i (set_btype blockType d) ;;; ret CA_STATUS_OK)
    (ret CA_STATUS_FAILED))%m.
Definition CAGetBlockOptionType (id : list Z) : B Z :=
  with_found id (fun _ d => ret (btype d)) (ret 0).
Definition CAGetDataSetFromBlockDataList (id : list Z) : B (option CAData_t) :=
  with_found id (fun _ d => ret (Some (sentData d))) (ret None).
Definition CAGetPayloadFromBlockDataList (id : list Z) : B (option (list Z) * Z) :=
  with_found id (fun _ d => ret (bpayload d, receivedPayloadLen d)) (ret (None, 0)).
Definition CAGetBlockOption (id : list Z) (blockType : Z) : B (option coap_block_t) :=
  with_found id (fun _ d =>
    ret (if COAP_OPTION_BLOCK2 =? blockType then Some (block2 d)
         else if COAP_OPTION_BLOCK1 =? blockType then Some (block1 d) else None)) (ret None).

Definition CARemoveBlockDataFromList (id : list Z) : B CAResult_t :=
  (let! i := CAGetBlockDataFromBlockDataList id in
   match i with
   | Some i => modify (fun c => with_dataList (delete i (dataList c)) c) ;;; ret CA_STATUS_OK
   | None => ret CA_STATUS_OK
   end)%m.
Definition CARemoveAllBlockDataFromList : B CAResult_t :=
  (modify (with_dataList []) ;;; ret CA_STATUS_OK)%m.
Definition CARemoveBlockDataFromListWithSeed (token : list Z) (e : CAEndpoint_t) : B CAResult_t :=
  CARemoveBlockDataFromList (CACreateBlockDatablockId token e).

(** ** Copies and payloads *)

Definition CACloneCAData (data : CAData_t) : CAData_t :=
  match requestInfo data with
  | Some r => with_request (CACloneRequestInfo r) data
  | None => with_response (r ← responseInfo data; CACloneResponseInfo r) data
  end.

Definition CAGetPayloadInfo (data : CAData_t) : option (list Z) :=
  match requestInfo data, responseInfo data with
  | Some r, _ => payload (req_info r)
  | None, Some r => payload (resp_info r)
  | None, None => None
  end.
Definition payload_length (p : option (list Z)) : Z :=
  match p with Some p => Z.of_nat (List.length p) | None => 0 end.

Definition CACheckPayloadLength (sendData : CAData_t) : bool :=
  BLOCK_SIZE CA_DEFAULT_BLOCK_SIZE <? payload_length (CAGetPayloadInfo sendData).

Definition CAUpdatePayloadToCAData (data : CAData_t) (full : list Z) : CAResult_t * CAData_t :=
  if dataType data =? CA_REQUEST_DATA then
    match requestInfo data, full with
    | Some r, _ :: _ =>
        (CA_STATUS_OK, with_request (Some (mk_request (method r)
           (with_payload (Some full) (req_info r)) (req_isMulticast r))) data)
    | _, _ => (CA_STATUS_FAILED, data)
    end
  else if dataType data =? CA_RESPONSE_DATA then
    match responseInfo data, full with
    | Some r, _ :: _ =>
        (CA_STATUS_OK, with_response (Some (mk_response (result r)
           (with_payload (Some full) (resp_info r)) (resp_isMulticast r))) data)
    | _, _ => (CA_STATUS_FAILED, data)
    end
  else (CA_NOT_SUPPORTED, data).

(** ** New entries *)

Definition CACreateNewBlockData (sendData : CAData_t) : B (option nat) :=
  (let data := CACloneCAData sendData in
   let token := match requestInfo data, responseInfo data with
                | Some r, _ => default [] (token (req_info r))
                | None, Some r => default [] (token (resp_info r))
                | None, None => []
                end in
   let id := CACreateBlockDatablockId token (remoteEndpoint data) in
   let! c := get in
   modify (with_dataList (dataList c ++
     [mk_block_data (mk_block 0 0 CA_DEFAULT_BLOCK_SIZE) (mk_block 0 0 CA_DEFAULT_BLOCK_SIZE)
        0 id data None 0 0])) ;;;
   ret (Some (List.length (dataList c))))%m.

(** [OICMalloc] of no bytes is no pointer. *)
Definition OICMalloc_copy (b : list Z) : option (list Z) :=
  match b with [] => None | _ => Some b end.

Definition multicast_matches (token : list Z) (d : CABlockMulticastData_t) : bool :=
  bool_decide (take (List.length (m_token d)) token = m_token d).

Definition CAGetBlockMulticastDataFromListWithSeed (token : option (list Z)) :
    B (option CABlockMulticastData_t) :=
  match token with
  | None => ret None
  | Some t => gets (fun c => List.find (multicast_matches t) (multicastDataList c))
  end.

Definition CACreateNewBlockMulticastData (r : CARequestInfo_t) : B bool :=
  (match t ← token (req_info r); OICMalloc_copy t with
   | None => ret false
   | Some t =>
       modify (fun c => with_multicast
         (multicastDataList c ++ [mk_multicast t (resourceUri (req_info r))]) c) ;;; ret true
   end)%m.

Fixpoint remove_first {A} (f : A -> bool) (l : list A) : list A :=
  match l with
  | [] => []
  | x :: l' => if f x then l' else x :: remove_first f l'
  end.
Definition CARemoveBlockMulticastDataFromListWithSeed (token : list Z) : B CAResult_t :=
  (modify (fun c => with_multicast (remove_first (multicast_matches token) (multicastDataList c)) c) ;;;
   ret CA_STATUS_OK)%m.
Definition CARemoveAllBlockMulticastDataFromList : B CAResult_t :=
  (modify (with_multicast []) ;;; ret CA_STATUS_OK)%m.

Definition CATerminateBlockWiseTransfer : B CAResult_t :=
  (CARemoveAllBlockDataFromList ;;; CARemoveAllBlockMulticastDataFromList ;;; ret CA_STATUS_OK)%m.

(** ** A message is sent *)

Definition CAAddSendThreadQueue (sendData : CAData_t) : B CAResult_t :=
  (tell (SendThread (CACloneCAData sendData)) ;;; ret CA_STATUS_OK)%m.

Definition CAUpdateDataSetFromBlockDataList (id : list Z) (sendData : CAData_t) : B (option nat) :=
  (with_found id (fun i d => put_entry i (set_sent (CACloneCAData sendData) d) ;;; ret (Some i))
    (ret None))%m.

Definition CACheckBlockDataValidation (sendData : CAData_t) : B (option nat) :=
  match responseInfo sendData with
  | Some r => CAUpdateDataSetFromBlockDataList
      (CACreateBlockDatablockId (default [] (token (resp_info r))) (remoteEndpoint sendData)) sendData
  | None => ret None
  end.

Definition CACheckBlockOptionType (i : nat) : B CAResult_t :=
  (let! d := entry i in
   if negb (CACheckPayloadLength (sentData d)) then ret CA_NOT_SUPPORTED
   else put_entry i (set_btype (if bool_decide (is_Some (requestInfo (sentData d)))
                                then COAP_OPTION_BLOCK1 else COAP_OPTION_BLOCK2) d) ;;;
        ret CA_STATUS_OK)%m.

(** Steps 3 and 4. *)
Definition send_first (i : nat) : B CAResult_t :=
  (let! res := CACheckBlockOptionType i in
   if ca_ok res then let! d := entry i in CAAddSendThreadQueue (sentData d) else ret res)%m.

(** Steps 1 and 2. *)
Definition send_data (sendData : CAData_t) : B CAResult_t :=
  (let! currData := CACheckBlockDataValidation sendData in
   match currData with
   | Some i => send_first i
   | None =>
       if negb (CACheckPayloadLength sendData) then
         if bool_decide (is_Some (requestInfo sendData)) then
           let! i := CACreateNewBlockData sendData in
           ret (if i then CA_NOT_SUPPORTED else CA_MEMORY_ALLOC_FAILED)
         else ret CA_NOT_SUPPORTED
       else
         let! i := CACreateNewBlockData sendData in
         match i with Some i => send_first i | None => ret CA_MEMORY_ALLOC_FAILED end
   end)%m.

Definition CASendBlockWiseData (sendData : CAData_t) : B CAResult_t :=
  (match requestInfo sendData, responseInfo sendData with
   | Some r, _ =>
       if CA_MSG_RESET =? type (req_info r) then ret CA_NOT_SUPPORTED
       else if req_isMulticast r then
         let! currData := CAGetBlockMulticastDataFromListWithSeed (token (req_info r)) in
         match currData with
         | Some _ => ret CA_NOT_SUPPORTED
         | None => let! ok := CACreateNewBlockMulticastData r in
                   ret (if ok then CA_NOT_SUPPORTED else CA_MEMORY_ALLOC_FAILED)
         end
       else send_data sendData
   | None, Some r =>
       if CA_MSG_RESET =? type (resp_info r) then ret CA_NOT_SUPPORTED
       else if resp_isMulticast r then ret CA_NOT_SUPPORTED else send_data sendData
   | None, None => send_data sendData
   end)%m.

(** ** Block options *)

Section blockwise.
Context {LC : LibCoap}.

(** [payloadLen] and the shift, which is done on 32 bits. *)
Definition CASetMoreBitFromBlock (payloadLen : Z) (block : coap_block_t) : coap_block_t :=
  mk_block (num block)
    (if u32 (Z.shiftl (u32 (num block + 1)) (szx block + BLOCK_NUMBER_IDX)) <? payloadLen then 1 else 0)
    (szx block).

Definition CANegotiateBlockSize (currData : CABlockData_t) (block : coap_block_t) (code : Z)
    (blockType : Z) : option coap_block_t :=
  let isReqMsg := is_method code in
  if COAP_OPTION_BLOCK2 =? blockType then
    if negb isReqMsg then
      Some (if szx (block2 currData) <? szx block
            then mk_block (u32 (num block + (BLOCK_SIZE (szx block) / BLOCK_SIZE (szx (block2 currData)) - 1)))
                   (m block) (szx (block2 currData))
            else block)
    else Some (if szx (block2 currData) <? szx block then set_szx (szx (block2 currData)) block else block)
  else if COAP_OPTION_BLOCK1 =? blockType then
    if negb isReqMsg then
      Some (if szx block <? szx (block1 currData)
            then set_num (u32 (num block + (BLOCK_SIZE (szx (block1 currData)) / BLOCK_SIZE (szx block) - 1))) block
            else block)
    else Some (if szx (block1 currData) <? szx block then set_szx (szx (block1 currData)) block else block)
  else None.

Definition CAUpdateBlockData (currData : CABlockData_t) (block : coap_block_t) (blockType : Z) :
    option CABlockData_t :=
  if CA_BLOCK_SIZE_1024_BYTE <? szx block then None
  else Some (if COAP_OPTION_BLOCK2 =? blockType then set_block2 block currData
             else set_block1 block currData).

Definition CAHandleBlockErrorResponse (block : coap_block_t) (blockType responseResult : Z) :
    option coap_block_t :=
  if responseResult =? CA_REQUEST_ENTITY_INCOMPLETE then Some (set_num 0 block)
  else if responseResult =? CA_REQUEST_ENTITY_TOO_LARGE then
    Some (mk_block (if COAP_OPTION_BLOCK1 =? blockType then u32 (num block + 1) else num block) 0 (szx block))
  else None.

Definition is_error_code (code : Z) : bool :=
  (CA_REQUEST_ENTITY_INCOMPLETE =? code) || (CA_REQUEST_ENTITY_TOO_LARGE =? code).

(** The new block option; [None]: the call fails. *)
Definition CAUpdateBlockOptionItems (currData : CABlockData_t) (pdu : coap_pdu_t)
    (block : coap_block_t) (blockType : Z) (status : CABlockState_t) : option coap_block_t :=
  let code := CA_RESPONSE_CODE (p_code pdu) in
  if is_error_code code then CAHandleBlockErrorResponse block blockType code
  else
    block ← match status with
            | CA_OPTION1_RESPONSE =>
                if num block <? num (block1 currData) then None
                else Some (set_num (u32 (num block + 1)) block)
            | CA_OPTION2_REQUEST => Some (mk_block (num block) 0 (szx block))
            | CA_OPTION2_RESPONSE =>
                if num block <? num (block2 currData) then None
                else Some (mk_block (u32 (num block + 1)) 0 (szx block))
            | CA_BLOCK_TOO_LARGE =>
                if COAP_OPTION_BLOCK2 =? blockType
                then Some (mk_block (u32 (num block + 1)) 0 (szx (block2 currData)))
                else Some (set_szx (szx (block1 currData)) block)
            | _ => Some block
            end;
    match status with
    | CA_BLOCK_INCOMPLETE | CA_BLOCK_TOO_LARGE => Some block
    | _ => CANegotiateBlockSize currData block (p_code pdu) blockType
    end.

(** Whether there is a size option, and the total length to be received. *)
Definition CAIsPayloadLengthInPduWithBlockSizeOption (pdu : coap_pdu_t) (sizeType : Z)
    (totalPayloadLen : Z) : bool * Z :=
  if negb (sizeType =? COAP_OPTION_SIZE1) && negb (sizeType =? COAP_OPTION_SIZE2)
  then (true, totalPayloadLen)
  else match coap_check_option pdu sizeType with
       | Some v => (true, coap_decode_var_bytes v)
       | None => (false, totalPayloadLen)
       end.

(** The largest size, from [size] down, with which a block fits a message. *)
Fixpoint fitting_size (size : nat) (optionLen : Z) : option Z :=
  if size_t (BLOCK_SIZE (Z.of_nat size) + optionLen) <=? COAP_MAX_PDU_SIZE
  then Some (Z.of_nat size)
  else match size with O => None | S size' => fitting_size size' optionLen end.

Definition CACheckBlockErrorType (currData : CABlockData_t) (receivedBlock : coap_block_t)
    (receivedData : CAData_t) (blockType dataLen : Z) : CABlockState_t * CABlockData_t :=
  let blockPayloadLen := payload_length (CAGetPayloadInfo receivedData) in
  let n := num receivedBlock in
  let sequence : option CABlockState_t :=
    if COAP_OPTION_BLOCK1 =? blockType then
      if negb (receivedPayloadLen currData =? BLOCK_SIZE (szx receivedBlock) * n)
      then Some (if u32 (num (block1 currData) + 1) <? n then CA_BLOCK_INCOMPLETE
                 else CA_BLOCK_RECEIVED_ALREADY)
      else None
    else if COAP_OPTION_BLOCK2 =? blockType then
      if negb (n =? num (block2 currData))
      then Some (if num (block2 currData) <? n then CA_BLOCK_INCOMPLETE
                 else CA_BLOCK_RECEIVED_ALREADY)
      else None
    else None in
  match sequence with
  | Some status => (status, currData)
  | None =>
      let optionLen := size_t (dataLen - blockPayloadLen) in
      if negb (m receivedBlock =? 0) && negb (blockPayloadLen =? BLOCK_SIZE (szx receivedBlock)) then
        if COAP_MAX_PDU_SIZE <? size_t (BLOCK_SIZE (szx receivedBlock) + optionLen) then
          (CA_BLOCK_TOO_LARGE,
           match fitting_size (Z.to_nat CA_DEFAULT_BLOCK_SIZE) optionLen with
           | Some size => set_block1 (set_szx size (block1 currData))
                            (set_block2 (set_szx size (block2 currData)) currData)
           | None => currData
           end)
        else (CA_BLOCK_INCOMPLETE, currData)
      else if (m receivedBlock =? 0) && negb (payloadLength currData =? 0) then
        (if size_t (receivedPayloadLen currData + blockPayloadLen) =? payloadLength currData
         then CA_BLOCK_UNKNOWN else CA_BLOCK_INCOMPLETE, currData)
      else (CA_BLOCK_UNKNOWN, currData)
  end.

(** ** The payload is put together *)

(** [memcpy] of a buffer into a cleared one of [n] bytes. *)
Definition calloc_copy (n : Z) (old : option (list Z)) (len : Z) : option (list Z) :=
  old ← read_block (default [] old) 0 len;
  write_block (replicate (Z.to_nat n) 0) 0 old.

(** [None]: a copy past the end of a buffer, or a buffer that is freed twice; the
    inner [None]: no memory, which is what asking for no bytes is answered with. *)
Definition CAUpdatePayloadData (currData : CABlockData_t) (receivedData : CAData_t)
    (status : CABlockState_t) (isSizeOption : bool) (blockType : Z) :
    option (option CABlockData_t) :=
  if bool_decide (status = CA_BLOCK_INCOMPLETE) then Some (Some currData)
  else match CAGetPayloadInfo receivedData with
  | None => Some (Some currData)
  | Some blockPayload =>
      let blockPayloadLen :=
        if bool_decide (status = CA_BLOCK_TOO_LARGE)
        then BLOCK_SIZE (szx (if COAP_OPTION_BLOCK2 =? blockType then block2 currData
                              else block1 currData))
        else Z.of_nat (List.length blockPayload) in
      let prePayloadLen := receivedPayloadLen currData in
      let totalPayloadLen := size_t (prePayloadLen + blockPayloadLen) in
      if (payloadLength currData =? 0) && (totalPayloadLen =? 0) then
        match bpayload currData with None => Some None | Some _ => None end
      else
      chunk ← read_block blockPayload 0 blockPayloadLen;
      buffer ← (if negb (payloadLength currData =? 0) then
                  if isSizeOption then calloc_copy (payloadLength currData) (bpayload currData) prePayloadLen
                  else bpayload currData
                else calloc_copy totalPayloadLen (bpayload currData) prePayloadLen);
      buffer ← write_block buffer prePayloadLen chunk;
      Some (Some (set_received (Some buffer) (payloadLength currData) totalPayloadLen currData))
  end.

(** ** The next message *)

(** An acknowledgement answers a confirmable message, and the other way round. *)
Definition answer_type (msgType : Z) : Z :=
  if msgType =? CA_MSG_CONFIRM then CA_MSG_ACKNOWLEDGE
  else if msgType =? CA_MSG_ACKNOWLEDGE then CA_MSG_CONFIRM else CA_MSG_NONCONFIRM.

Definition update_response (f : CAResponseInfo_t -> CAResponseInfo_t) (d : CAData_t) : CAData_t :=
  with_response (f <$> responseInfo d) d.
Definition update_request (f : CAInfo_t -> CAInfo_t) (d : CAData_t) : CAData_t :=
  with_request ((fun r => mk_request (method r) (f (req_info r)) (req_isMulticast r)) <$> requestInfo d) d.
Definition answer (ty id : Z) (r : CAResponseInfo_t) : CAResponseInfo_t :=
  mk_response (result r) (with_message ty id (resp_info r)) (resp_isMulticast r).
Definition set_result (res : Z) (r : CAResponseInfo_t) : CAResponseInfo_t :=
  mk_response res (resp_info r) (resp_isMulticast r).

(** The data is changed in the table and a copy of it is queued. *)
Definition CASendBlockMessage (pdu : coap_pdu_t) (msgType : Z) (id : list Z) : B CAResult_t :=
  (with_found id
    (fun i d =>
       let data := sentData d in
       let sentMsgType := answer_type msgType in
       let! data :=
         (if is_method (p_code pdu) then
            ret (update_response (fun r => set_result CA_CONTINUE (answer sentMsgType (p_id pdu) r)) data)
          else match requestInfo data with
          | Some r =>
              if msgType =? CA_MSG_CONFIRM then
                tell (EmptyResponse (remoteEndpoint data) (messageId (req_info r))) ;;;
                ret (update_request (with_message CA_MSG_CONFIRM 0) data)
              else ret (update_request (with_message sentMsgType 0) data)
          | None => ret (update_response (answer sentMsgType (p_id pdu)) data)
          end) in
       put_entry i (set_sent data d) ;;;
       CAAddSendThreadQueue data)
    (ret CA_STATUS_FAILED))%m.

Definition CASendErrorMessage (pdu : coap_pdu_t) (status : CABlockState_t) (responseResult : Z)
    (id : list Z) : B CAResult_t :=
  (with_found id
    (fun i d =>
       let cloneData := CACloneCAData (sentData d) in
       let sentMsgType := answer_type (p_type pdu) in
       let response :=
         match responseInfo cloneData with
         | Some r => Some (set_result responseResult (answer sentMsgType (p_id pdu) r))
         | None =>
             t ← OICMalloc_copy (p_token pdu);
             Some (mk_response responseResult
                     (mk_info sentMsgType 0 (Some t) [] None 0 0 0 0 None 0) false)
         end in
       match response with
       | None => ret CA_MEMORY_ALLOC_FAILED
       | Some r =>
           tell (SendThread (with_request None (with_response (Some r) cloneData))) ;;;
           (if bool_decide (status = CA_BLOCK_INCOMPLETE)
            then put_entry i (set_received None 0 0
                   (set_block1 (set_num 0 (block1 d)) (set_block2 (set_num 0 (block2 d)) d)))
            else ret tt) ;;;
           ret CA_STATUS_OK
       end)
    (ret CA_STATUS_FAILED))%m.

Definition CAReceiveLastBlock (id : list Z) (receivedData : CAData_t) : B CAResult_t :=
  (let cloneData := CACloneCAData receivedData in
   let! full := CAGetPayloadFromBlockDataList id in
   match full with
   | (Some buffer, fullPayloadLen) =>
       let! full := demand (read_block buffer 0 fullPayloadLen) in
       let '(res, cloneData) := CAUpdatePayloadToCAData cloneData full in
       if ca_ok res then tell (ReceiveThread cloneData) ;;; ret CA_STATUS_OK else ret res
   | (None, _) => tell (ReceiveThread cloneData) ;;; ret CA_STATUS_OK
   end)%m.

Definition CAProcessNextStep (pdu : coap_pdu_t) (receivedData : CAData_t)
    (blockWiseStatus : CABlockState_t) (id : list Z) : B CAResult_t :=
  (match blockWiseStatus with
   | CA_OPTION2_FIRST_BLOCK => CAAddSendThreadQueue receivedData
   | CA_OPTION2_REQUEST =>
       with_found id
         (fun i d =>
            match responseInfo (sentData d) with
            | Some _ =>
                let data := update_response
                  (answer (if p_type pdu =? CA_MSG_CONFIRM then CA_MSG_ACKNOWLEDGE
                           else CA_MSG_NONCONFIRM) (p_id pdu)) (sentData d) in
                put_entry i (set_sent data d) ;;; CAAddSendThreadQueue data
            | None => ret CA_STATUS_OK
            end)
         (ret CA_STATUS_FAILED)
   | CA_OPTION1_RESPONSE | CA_OPTION2_RESPONSE | CA_OPTION1_REQUEST_BLOCK =>
       CASendBlockMessage pdu (p_type pdu) id
   | CA_OPTION2_LAST_BLOCK =>
       let! res := CAReceiveLastBlock id receivedData in
       if negb (ca_ok res) then ret res else CARemoveBlockDataFromList id
   | CA_OPTION1_REQUEST_LAST_BLOCK => CAReceiveLastBlock id receivedData
   | CA_BLOCK_INCOMPLETE =>
       CASendErrorMessage pdu blockWiseStatus CA_REQUEST_ENTITY_INCOMPLETE id
   | CA_BLOCK_TOO_LARGE =>
       match requestInfo receivedData, responseInfo receivedData with
       | Some _, _ => CASendErrorMessage pdu blockWiseStatus CA_REQUEST_ENTITY_TOO_LARGE id
       | None, Some _ => CASendBlockMessage pdu (p_type pdu) id
       | None, None => ret CA_STATUS_OK
       end
   | CA_BLOCK_UNKNOWN | CA_BLOCK_RECEIVED_ALREADY => ret CA_STATUS_OK
   end)%m.

(** ** A message is received *)

(** The URI of a response, as [CACreateNewDataSet] asks for it: when the parse
    fails after header options were found, they are freed twice. *)
Definition response_uri (g_chproxyUri : list Z) (pdu : coap_pdu_t) : option (option (list Z)) :=
  r ← CAGetResponseInfoFromPDU g_chproxyUri pdu;
  match r with
  | inr i => Some (resourceUri (resp_info i))
  | inl _ => count ← CAGetOptionCount (p_options pdu);
             match count with O => Some None | S _ => None end
  end.

(** The data of the message that answers [pdu]; [None] inside: no memory, when
    there is no token. *)
Definition CACreateNewDataSet (g_chproxyUri : list Z) (pdu : coap_pdu_t) (endpoint : CAEndpoint_t) :
    option (option CAData_t) :=
  match OICMalloc_copy (p_token pdu) with
  | None => Some None
  | Some t =>
      if is_method (p_code pdu) then
        Some (Some (mk_cadata SEND_TYPE_UNICAST endpoint None
          (Some (mk_response 0 (mk_info 0 0 (Some t) [] None 0 0 0 0 None 0) false)) 0))
      else
        uri ← response_uri g_chproxyUri pdu;
        Some (Some (mk_cadata SEND_TYPE_UNICAST endpoint
          (Some (mk_request CA_GET (mk_info 0 (p_id pdu) (Some t) [] None 0 0 0 0 uri 0) false))
          None 0))
  end.

(** The URI of a multicast request is taken for a response that carries none. *)
Definition add_multicast_uri (id : list Z) (cadata : CAData_t) : B (option CAData_t) :=
  (match requestInfo cadata with
   | Some r =>
       match resourceUri (req_info r) with
       | Some _ => ret (Some cadata)
       | None =>
           let! currData := CAGetBlockMulticastDataFromListWithSeed (Some id) in
           ret (match currData with
                | Some mc => (fun u => update_request (with_uri (Some u)) cadata) <$> m_resourceUri mc
                | None => Some cadata
                end)
       end
   | None => ret (Some cadata)
   end)%m.

Definition CACheckTheExistOfBlockData (g_chproxyUri : list Z) (id : list Z) (pdu : coap_pdu_t)
    (endpoint : CAEndpoint_t) (blockType : Z) : B (option nat) :=
  (let! data := CAGetBlockDataFromBlockDataList id in
   let! data := (match data with
                 | Some i => ret (Some i)
                 | None =>
                     let! cadata := demand (CACreateNewDataSet g_chproxyUri pdu endpoint) in
                     match cadata with
                     | None => ret None
                     | Some cadata =>
                         let! cadata := add_multicast_uri id cadata in
                         match cadata with
                         | None => ret None
                         | Some cadata => CACreateNewBlockData cadata
                         end
                     end
                 end) in
   match data with
   | None => ret None
   | Some i =>
       let! res := CAUpdateBlockOptionType id blockType in
       ret (if ca_ok res then Some i else None)
   end)%m.

(** The label [exit]. *)
Definition exit_with (id : list Z) (res : CAResult_t) : B CAResult_t :=
  (CARemoveBlockDataFromList id ;;; ret res)%m.

Definition next_or_exit (pdu : coap_pdu_t) (receivedData : CAData_t) (status : CABlockState_t)
    (id : list Z) : B CAResult_t :=
  (let! res := CAProcessNextStep pdu receivedData status id in
   if ca_ok res then ret res else exit_with id res)%m.

(** The payload and the block option of an entry are updated; the result is the
    block option, or an error. *)
Definition update_options (i : nat) (pdu : coap_pdu_t) (block : coap_block_t) (blockType : Z)
    (status : CABlockState_t) : B (option coap_block_t) :=
  (let! d := entry i in
   match CAUpdateBlockOptionItems d pdu block blockType status with
   | None => ret None
   | Some block =>
       match CAUpdateBlockData d block blockType with
       | None => ret None
       | Some d => put_entry i d ;;; ret (Some block)
       end
   end)%m.

(** A request with a block1 option. *)
Definition block1_request (i : nat) (pdu : coap_pdu_t) (receivedData : CAData_t)
    (block : coap_block_t) (dataLen : Z) (id : list Z) : B CAResult_t :=
  (let! d := entry i in
   let '(isSizeOption, len) :=
     CAIsPayloadLengthInPduWithBlockSizeOption pdu COAP_OPTION_SIZE1 (payloadLength d) in
   let '(status, d) := CACheckBlockErrorType (set_received (bpayload d) len (receivedPayloadLen d) d)
                         block receivedData COAP_OPTION_BLOCK1 dataLen in
   let done (block : coap_block_t) :=
     next_or_exit pdu receivedData
       (match status with
        | CA_BLOCK_UNKNOWN | CA_BLOCK_RECEIVED_ALREADY =>
            if m block =? 0 then CA_OPTION1_REQUEST_LAST_BLOCK else CA_OPTION1_REQUEST_BLOCK
        | _ => status
        end) id in
   put_entry i d ;;;
   if bool_decide (status = CA_BLOCK_RECEIVED_ALREADY) then done block
   else
     let! d := demand (CAUpdatePayloadData d receivedData status isSizeOption COAP_OPTION_BLOCK1) in
     match d with
     | None => exit_with id CA_MEMORY_ALLOC_FAILED
     | Some d =>
         put_entry i d ;;;
         let! block := update_options i pdu block COAP_OPTION_BLOCK1 status in
         match block with
         | None => exit_with id CA_STATUS_FAILED
         | Some block => done block
         end
     end)%m.

(** A response with a block1 option. *)
Definition block1_response (i : nat) (pdu : coap_pdu_t) (receivedData : CAData_t)
    (block : coap_block_t) (id : list Z) : B CAResult_t :=
  (if (m block =? 0) && negb (is_error_code (CA_RESPONSE_CODE (p_code pdu))) then
     match coap_get_block pdu COAP_OPTION_BLOCK2 with
     | Some _ =>
         let! d := entry i in
         put_entry i (set_block1 (set_num 0 (block1 d)) d) ;;; ret CA_STATUS_OK
     | None => CAReceiveLastBlock id receivedData ;;; exit_with id CA_STATUS_OK
     end
   else
     let! d := entry i in
     match CAUpdateBlockOptionItems d pdu block COAP_OPTION_BLOCK1 CA_OPTION1_RESPONSE with
     | None => ret CA_STATUS_FAILED
     | Some block =>
         match CAUpdateBlockData d block COAP_OPTION_BLOCK1 with
         | None => exit_with id CA_STATUS_FAILED
         | Some d =>
             put_entry i d ;;; next_or_exit pdu receivedData CA_OPTION1_RESPONSE id
         end
     end)%m.

Definition UINT8_MAX_len : nat := 255.

Definition CASetNextBlockOption1 (g_chproxyUri : list Z) (pdu : coap_pdu_t) (endpoint : CAEndpoint_t)
    (receivedData : CAData_t) (block : coap_block_t) (dataLen : Z) : B CAResult_t :=
  (let id := CACreateBlockDatablockId (p_token pdu) endpoint in
   if (UINT8_MAX_len <? List.length id)%nat then ret CA_STATUS_FAILED
   else
     let! data := CACheckTheExistOfBlockData g_chproxyUri id pdu endpoint COAP_OPTION_BLOCK1 in
     match data with
     | None => exit_with id CA_STATUS_FAILED
     | Some i =>
         if is_method (p_code pdu) then block1_request i pdu receivedData block dataLen id
         else block1_response i pdu receivedData block id
     end)%m.

(** A response with a block2 option. *)
Definition block2_response (i : nat) (pdu : coap_pdu_t) (receivedData : CAData_t)
    (block : coap_block_t) (dataLen : Z) (id : list Z) : B CAResult_t :=
  (let! d := entry i in
   let '(isSizeOption, len) :=
     CAIsPayloadLengthInPduWithBlockSizeOption pdu COAP_OPTION_SIZE2 (payloadLength d) in
   let d := set_received (bpayload d) len (receivedPayloadLen d) d in
   let '(status, d) :=
     if is_error_code (CA_RESPONSE_CODE (p_code pdu)) then (CA_BLOCK_UNKNOWN, d)
     else CACheckBlockErrorType d block receivedData COAP_OPTION_BLOCK2 dataLen in
   put_entry i d ;;;
   let! d := (if bool_decide (status = CA_BLOCK_RECEIVED_ALREADY) then ret (Some d)
              else demand (CAUpdatePayloadData d receivedData status isSizeOption COAP_OPTION_BLOCK2)) in
   match d with
   | None => exit_with id CA_MEMORY_ALLOC_FAILED
   | Some d =>
       put_entry i d ;;;
       if (m block =? 0) && bool_decide (status = CA_BLOCK_UNKNOWN)
       then next_or_exit pdu receivedData CA_OPTION2_LAST_BLOCK id
       else
         let status := match status with
                       | CA_BLOCK_UNKNOWN | CA_BLOCK_RECEIVED_ALREADY => CA_OPTION2_RESPONSE
                       | _ => status
                       end in
         let! block := update_options i pdu block COAP_OPTION_BLOCK2 status in
         match block with
         | None => exit_with id CA_STATUS_FAILED
         | Some _ => next_or_exit pdu receivedData status id
         end
   end)%m.

Definition CASetNextBlockOption2 (g_chproxyUri : list Z) (pdu : coap_pdu_t) (endpoint : CAEndpoint_t)
    (receivedData : CAData_t) (block : coap_block_t) (dataLen : Z) : B CAResult_t :=
  (let id := CACreateBlockDatablockId (p_token pdu) endpoint in
   if (UINT8_MAX_len <? List.length id)%nat then ret CA_STATUS_FAILED
   else
     let! data := CACheckTheExistOfBlockData g_chproxyUri id pdu endpoint COAP_OPTION_BLOCK2 in
     match data with
     | None => exit_with id CA_STATUS_FAILED
     | Some i =>
         let request (status next : CABlockState_t) :=
           (let! block := update_options i pdu block COAP_OPTION_BLOCK2 status in
            match block with
            | None => exit_with id CA_STATUS_FAILED
            | Some _ => next_or_exit pdu receivedData next id
            end)%m in
         if (num block =? 0) && (p_code pdu =? CA_GET) && (m block =? 0)
         then request CA_BLOCK_UNKNOWN CA_OPTION2_FIRST_BLOCK
         else if is_method (p_code pdu) then request CA_OPTION2_REQUEST CA_OPTION2_REQUEST
         else block2_response i pdu receivedData block dataLen id
     end)%m.

(** The token of the request an empty message answers. *)
Fixpoint request_token (messageid adapter_ : Z) (l : list CABlockData_t) : option (list Z) :=
  match l with
  | [] => None
  | d :: l' =>
      match requestInfo (sentData d) with
      | Some r =>
          if (messageid =? messageId (req_info r))
             && (adapter_ =? adapter (remoteEndpoint (sentData d)))
          then match token (req_info r) with
               | Some t => Some t
               | None => request_token messageid adapter_ l'
               end
          else request_token messageid adapter_ l'
      | None => request_token messageid adapter_ l'
      end
  end.

Definition set_token (t : list Z) (i : CAInfo_t) : CAInfo_t :=
  mk_info (type i) (messageId i) (Some t) (options i) (payload i) (payloadFormat i) (acceptFormat i)
    (payloadVersion i) (acceptVersion i) (resourceUri i) (info_dataType i).

(** [responseInfo] with its token, or the error. *)
Definition CAGetTokenFromBlockDataList (pdu : coap_pdu_t) (endpoint : CAEndpoint_t)
    (r : CAResponseInfo_t) : B (option CAResponseInfo_t) :=
  gets (fun c => (fun t => mk_response (result r) (set_token t (resp_info r)) (resp_isMulticast r))
                 <$> request_token (p_id pdu) (adapter endpoint) (dataList c)).

(** An empty message. *)
Definition receive_empty (pdu : coap_pdu_t) (endpoint : CAEndpoint_t) (receivedData : CAData_t) :
    B (CAResult_t * CAData_t) :=
  (let! r := demand (responseInfo receivedData) in
   let! r := (match token (resp_info r) with
              | Some _ => ret (Some r)
              | None => CAGetTokenFromBlockDataList pdu endpoint r
              end) in
   match r with
   | None => ret (CA_STATUS_FAILED, receivedData)
   | Some r =>
       let receivedData := with_response (Some r) receivedData in
       let id := CACreateBlockDatablockId (default [] (token (resp_info r))) endpoint in
       with_found id
         (fun _ d =>
            if negb (m (block1 d) =? 0) || negb (m (block2 d) =? 0)
            then ret (CA_STATUS_OK, receivedData)
            else CARemoveBlockDataFromList id ;;; ret (CA_NOT_SUPPORTED, receivedData))
         (CARemoveBlockDataFromList id ;;; ret (CA_NOT_SUPPORTED, receivedData))
   end)%m.

(** A message without block option. *)
Definition receive_plain (g_chproxyUri : list Z) (pdu : coap_pdu_t) (endpoint : CAEndpoint_t)
    (receivedData : CAData_t) (dataLen : Z) : B CAResult_t :=
  (let id := CACreateBlockDatablockId (p_token pdu) endpoint in
   if CA_REQUEST_ENTITY_INCOMPLETE =? CA_RESPONSE_CODE (p_code pdu) then
     let! i := CAGetBlockDataFromBlockDataList id in
     match i with
     | None => ret CA_STATUS_FAILED
     | Some i =>
         let! d := entry i in
         if COAP_OPTION_BLOCK2 =? btype d then
           let! res := CASetNextBlockOption2 g_chproxyUri pdu endpoint receivedData (block2 d) dataLen in
           ret (if ca_ok res then CA_STATUS_OK else CA_STATUS_FAILED)
         else if COAP_OPTION_BLOCK1 =? btype d then
           CASetNextBlockOption1 g_chproxyUri pdu endpoint receivedData (block1 d) dataLen
         else ret CA_STATUS_FAILED
     end
   else
     (if bool_decide (is_Some (responseInfo receivedData))
      then CARemoveBlockDataFromListWithSeed (p_token pdu) endpoint else ret CA_STATUS_OK) ;;;
     ret CA_NOT_SUPPORTED)%m.

(** The result, and the data, to which the token may have been added. *)
Definition CAReceiveBlockWiseData (g_chproxyUri : list Z) (pdu : coap_pdu_t) (endpoint : CAEndpoint_t)
    (receivedData : CAData_t) (dataLen : Z) : B (CAResult_t * CAData_t) :=
  (if CA_EMPTY =? p_code pdu then receive_empty pdu endpoint receivedData
   else
     let! res :=
       (match coap_get_block pdu COAP_OPTION_BLOCK1, coap_get_block pdu COAP_OPTION_BLOCK2 with
        | None, None => receive_plain g_chproxyUri pdu endpoint receivedData dataLen
        | b1, b2 =>
            let! res := (match b1 with
                         | Some block => CASetNextBlockOption1 g_chproxyUri pdu endpoint receivedData block dataLen
                         | None => ret CA_STATUS_OK
                         end) in
            if negb (ca_ok res) then ret res
            else match b2 with
                 | Some block => CASetNextBlockOption2 g_chproxyUri pdu endpoint receivedData block dataLen
                 | None => ret CA_STATUS_OK
                 end
        end) in
     ret (res, receivedData))%m.

End blockwise.

End Blockwise.
