(* ===== verification/Retransmission.v ===== *)
(** * Retransmission of confirmable messages

    [comm/caretransmission.c]: the list of confirmable messages that were sent and
    not yet acknowledged, the periodic check that sends them again, and the
    handlers for what is sent and received.  The clock and the random byte are
    arguments; libcoap's header accessors are the class [CoapHeader]; the list is
    under one mutex in every function, so that each is one step. *)

From S2P Require Import Prelude.
From S2P Require Import Status.
From S2P Require Import CaTypes.
From S2P Require Import LibCoapReference.

Module Retransmission.
Import CaTypes.

Definition DEFAULT_ACK_TIMEOUT_SEC : Z := 2.
Definition DEFAULT_RETRANSMISSION_COUNT : Z := 4.
Definition MSECS_PER_SEC : Z := 1000.
Definition USECS_PER_MSEC : Z := 1000.
Definition CA_PDU_MIN_SIZE : Z := 4.

Definition DEFAULT_RETRANSMISSION_TYPE : Z :=
  Z.lor (Z.lor CA_ADAPTER_IP CA_ADAPTER_RFCOMM_BTEDR) CA_ADAPTER_GATT_BTLE.

Section retransmission.
Context {CH : CoapHeader}.

(** [size] is the length of [pdu]. *)
Definition too_short (pdu : list Z) : bool := Z.of_nat (List.length pdu) <? CA_PDU_MIN_SIZE.

Definition CAGetMessageTypeFromPduBinaryData (pdu : list Z) : Z :=
  if too_short pdu then CA_MSG_NONCONFIRM else hdr_type pdu.
Definition CAGetMessageIdFromPduBinaryData (pdu : list Z) : Z :=
  if too_short pdu then 0 else hdr_id pdu.
Definition CAGetCodeFromPduBinaryData (pdu : list Z) : Z :=
  if too_short pdu then CA_NOT_FOUND else CA_RESPONSE_CODE (hdr_code pdu).

(** ** State *)

Record CARetransmissionData_t : Type := mk_data {
  timeStamp : Z; timeout : Z; triedCount : Z; messageId : Z; dataType : Z;
  endpoint : CAEndpoint_t; pdu : list Z }.

Record CARetransmission_t : Type := mk_context {
  supportType : Z; tryingCount : Z; dataList : list CARetransmissionData_t }.

Definition with_list (l : list CARetransmissionData_t) (c : CARetransmission_t) :
    CARetransmission_t := mk_context (supportType c) (tryingCount c) l.

(** What the callbacks see: [dataSendMethod], with the time it is called at, and
    [timeoutCallback]. *)
Inductive event : Type :=
| DataSent (time : Z) (ep : CAEndpoint_t) (pdu : list Z) (dataType : Z)
| TimedOut (ep : CAEndpoint_t) (pdu : list Z).

Definition CARetransmissionInitialize (config : option (Z * Z)) : CARetransmission_t :=
  let '(s, n) := default (DEFAULT_RETRANSMISSION_TYPE, DEFAULT_RETRANSMISSION_COUNT) config in
  mk_context s n [].

(** ** Time *)

(** [randomValue]: the byte [OCGetRandomBytes] leaves, 0 when it fails. *)
Definition CAGetTimeoutValue (randomValue : Z) : Z :=
  (DEFAULT_ACK_TIMEOUT_SEC * MSECS_PER_SEC + Z.shiftr (MSECS_PER_SEC * randomValue) 8)
  * MSECS_PER_SEC.

(** A shift by the width of the type is undefined. *)
Definition CACheckTimeout (currentTime : Z) (retData : CARetransmissionData_t) : option bool :=
  let milliTimeoutValue := timeout retData / USECS_PER_MSEC in
  if 64 <=? triedCount retData then None
  else
    let timeout := size_t (size_t (Z.shiftl milliTimeoutValue (triedCount retData))
                           * USECS_PER_MSEC) in
    Some (size_t (timeStamp retData + timeout) <=? currentTime).

(** ** The periodic check *)

(** Steps 1 to 3 on one entry. *)
Definition attempt (currentTime : Z) (d : CARetransmissionData_t) :
    option (CARetransmissionData_t * list event) :=
  due ← CACheckTimeout currentTime d;
  Some (if due : bool
        then (mk_data currentTime (timeout d) (u8 (triedCount d + 1)) (messageId d) (dataType d)
                (endpoint d) (pdu d),
              [DataSent currentTime (endpoint d) (pdu d) (dataType d)])
        else (d, [])).

(** The loop of [CACheckRetransmissionList]: [clock k] is what the clock says in
    round [k], [i] the index, the list shrinks as entries are removed. *)
Fixpoint check_loop (fuel : nat) (clock : nat -> Z) (tryingCount : Z) (k i : nat)
    (l : list CARetransmissionData_t) : option (list CARetransmissionData_t * list event) :=
  match fuel with
  | O => None
  | S fuel' =>
      match l !! i with
      | None => Some (l, [])
      | Some retData =>
          '(retData, ev) ← attempt (clock k) retData;
          if tryingCount <=? triedCount retData then
            '(l, evs) ← check_loop fuel' clock tryingCount (S k) i (delete i l);
            Some (l, ev ++ TimedOut (endpoint retData) (pdu retData) :: evs)
          else
            '(l, evs) ← check_loop fuel' clock tryingCount (S k) (S i) (<[i := retData]> l);
            Some (l, ev ++ evs)
      end
  end.

Definition CACheckRetransmissionList (clock : nat -> Z) (context : CARetransmission_t) :
    option (CARetransmission_t * list event) :=
  '(l, evs) ← check_loop (S (List.length (dataList context))) clock (tryingCount context) 0 0
                (dataList context);
  Some (with_list l context, evs).

(** ** A message is sent *)

Definition supported (context : CARetransmission_t) (e : CAEndpoint_t) : bool :=
  flag_set (supportType context) (adapter e).

(** "found index": the same message identifier on the same adapter. *)
Definition found (id : Z) (e : CAEndpoint_t) (d : CARetransmissionData_t) : bool :=
  (messageId d =? id) && (adapter (endpoint d) =? adapter e).

Definition CARetransmissionSentData (currentTime randomValue : Z) (context : CARetransmission_t)
    (endpoint : CAEndpoint_t) (dataType : Z) (pdu : list Z) : CAResult_t * CARetransmission_t :=
  if negb (supported context endpoint) then (CA_NOT_SUPPORTED, context)
  else
    let type := CAGetMessageTypeFromPduBinaryData pdu in
    let messageId := CAGetMessageIdFromPduBinaryData pdu in
    if negb (type =? CA_MSG_CONFIRM) then (CA_NOT_SUPPORTED, context)
    else
      let retData := mk_data currentTime (CAGetTimeoutValue randomValue) 0 messageId dataType
                       endpoint pdu in
      if existsb (found messageId endpoint) (dataList context)
      then (CA_STATUS_FAILED, context)
      else (CA_STATUS_OK, with_list (dataList context ++ [retData]) context).

(** ** A message is received *)

(** The first entry that is found, taken out. *)
Fixpoint take_out (f : CARetransmissionData_t -> bool) (l : list CARetransmissionData_t) :
    option (CARetransmissionData_t * list CARetransmissionData_t) :=
  match l with
  | [] => None
  | d :: l' => if f d then Some (d, l')
               else (fun r => (r.1, d :: r.2)) <$> take_out f l'
  end.

(** The result, [*retransmissionPdu] when it is set, and the context. *)
Definition CARetransmissionReceivedData (context : CARetransmission_t) (endpoint : CAEndpoint_t)
    (received : list Z) : CAResult_t * option (list Z) * CARetransmission_t :=
  if negb (supported context endpoint) then (CA_STATUS_OK, None, context)
  else
    let type := CAGetMessageTypeFromPduBinaryData received in
    let messageId := CAGetMessageIdFromPduBinaryData received in
    let code := CAGetCodeFromPduBinaryData received in
    if (negb (type =? CA_MSG_ACKNOWLEDGE) && negb (type =? CA_MSG_RESET))
       || ((type =? CA_MSG_RESET) && negb (code =? CA_EMPTY))
    then (CA_STATUS_OK, None, context)
    else
      match take_out (found messageId endpoint) (dataList context) with
      | Some (retData, l) =>
          (CA_STATUS_OK, if code =? CA_EMPTY then Some (pdu retData) else None,
           with_list l context)
      | None => (CA_STATUS_OK, None, context)
      end.

Definition CARetransmissionDestroy (context : CARetransmission_t) : CARetransmission_t :=
  with_list [] context.

(** ** The check, entry by entry *)

Fixpoint process (clock : nat -> Z) (n : Z) (k : nat) (l : list CARetransmissionData_t) :
    option (list CARetransmissionData_t * list event) :=
  match l with
  | [] => Some ([], [])
  | d :: l' =>
      '(d, ev) ← attempt (clock k) d;
      '(l', evs) ← process clock n (S k) l';
      Some (if n <=? triedCount d
            then (l', ev ++ TimedOut (endpoint d) (pdu d) :: evs) else (d :: l', ev ++ evs))
  end.

Lemma check_loop_process clock n l : forall fuel k pre, (List.length l < fuel)%nat ->
  check_loop fuel clock n k (List.length pre) (pre ++ l)
  = (fun r => (pre ++ r.1, r.2)) <$> process clock n k l.
Proof.
  induction l as [|d l IH]; intros fuel k pre Hf; (destruct fuel as [|fuel]; [lia|]);
    cbn [check_loop process].
  { rewrite app_nil_r, (proj2 (lookup_ge_None _ _)) by lia. cbn. by rewrite app_nil_r. }
  rewrite list_lookup_middle by done. destruct (attempt (clock k) d) as [[d' ev]|]; [|done].
  cbn [mbind option_bind]. simpl in Hf.
  assert (Hdel : delete (List.length pre) (pre ++ d :: l) = pre ++ l) by apply delete_middle.
  assert (Hins : <[List.length pre := d']> (pre ++ d :: l) = (pre ++ [d']) ++ l)
    by (by rewrite insert_app_r_alt, Nat.sub_diag, <- app_assoc by done).
  destruct (n <=? triedCount d').
  - rewrite Hdel, IH by lia. destruct (process clock n (S k) l) as [[l' evs]|]; done.
  - rewrite Hins. replace (S (List.length pre)) with (List.length (pre ++ [d']))
      by (rewrite length_app; simpl; lia).
    rewrite IH by lia. destruct (process clock n (S k) l) as [[l' evs]|]; [|done].
    cbn. by rewrite <- app_assoc.
Qed.

Lemma CACheckRetransmissionList_process clock c :
  CACheckRetransmissionList clock c
  = (fun r => (with_list r.1 c, r.2)) <$> process clock (tryingCount c) 0 (dataList c).
Proof.
  unfold CACheckRetransmissionList.
  rewrite (check_loop_process clock (tryingCount c) (dataList c) _ 0 []) by lia.
  by destruct (process clock (tryingCount c) 0 (dataList c)) as [[l evs]|].
Qed.

(** ** The life of a message *)

(** A message is known by its identifier and adapter. *)
Definition id_of (ep : CAEndpoint_t) (p : list Z) : Z * Z :=
  (CAGetMessageIdFromPduBinaryData p, adapter ep).
Definition data_id (d : CARetransmissionData_t) : Z * Z := id_of (endpoint d) (pdu d).
Definition event_id (e : event) : Z * Z :=
  match e with DataSent _ ep p _ | TimedOut ep p => id_of ep p end.

(** Times stay below half the range of the clock, and the configured number of
    attempts below 40, so that no sum overflows. *)
Definition time_ok (t : Z) : Prop := 0 <= t < 2 ^ 63.
Definition data_ok (n : Z) (d : CARetransmissionData_t) : Prop :=
  time_ok (timeStamp d) /\ 2000000 <= timeout d < 3000000 /\ 0 <= triedCount d < n /\
  messageId d = CAGetMessageIdFromPduBinaryData (pdu d).
Definition context_ok (c : CARetransmission_t) : Prop :=
  1 <= tryingCount c <= 40 /\ Forall (data_ok (tryingCount c)) (dataList c) /\
  NoDup (data_id <$> dataList c).

(** The time an entry is due at. *)
Definition deadline (d : CARetransmissionData_t) : Z :=
  timeStamp d + timeout d / 1000 * 2 ^ triedCount d * 1000.

Lemma CAGetTimeoutValue_range r : 0 <= r < 256 -> 2000000 <= CAGetTimeoutValue r < 3000000.
Proof.
  intros H. unfold CAGetTimeoutValue, DEFAULT_ACK_TIMEOUT_SEC, MSECS_PER_SEC.
  rewrite Z.shiftr_div_pow2 by lia. Z.div_mod_to_equations. lia.
Qed.

Lemma CACheckTimeout_deadline n t d : n <= 40 -> data_ok n d ->
  CACheckTimeout t d = Some (deadline d <=? t).
Proof.
  intros Hn ((Ht & Ht') & Hto & Hk & _). unfold CACheckTimeout, deadline, USECS_PER_MSEC.
  rewrite (proj2 (Z.leb_gt _ _)) by lia. f_equal. f_equal.
  set (k := triedCount d) in *. rewrite Z.shiftl_mul_pow2 by lia.
  assert (Hp : 0 < 2 ^ k <= 2 ^ 40)
    by (split; [apply Z.pow_pos_nonneg; lia|apply Z.pow_le_mono_r; lia]).
  assert (Hm : 0 <= timeout d / 1000 < 3000) by (Z.div_mod_to_equations; lia).
  assert (Hb : 0 <= timeout d / 1000 * 2 ^ k <= 3000 * 2 ^ 40) by nia.
  rewrite (wrap_id 64 (timeout d / 1000 * 2 ^ k)) by (unfold in_width; lia).
  rewrite (wrap_id 64 (_ * 1000)) by (unfold in_width; lia).
  rewrite wrap_id by (unfold in_width; lia). lia.
Qed.

(** An entry after one check at time [t], and what it did. *)
Definition checked (t : Z) (d : CARetransmissionData_t) : CARetransmissionData_t * list event :=
  if deadline d <=? t
  then (mk_data t (timeout d) (triedCount d + 1) (messageId d) (dataType d) (endpoint d) (pdu d),
        [DataSent t (endpoint d) (pdu d) (dataType d)])
  else (d, []).

Lemma attempt_checked n t d : n <= 40 -> data_ok n d -> attempt t d = Some (checked t d).
Proof.
  intros Hn Hd. unfold attempt. rewrite (CACheckTimeout_deadline n t d) by done.
  destruct Hd as (_ & _ & Hk & _). cbn [mbind option_bind]. unfold checked.
  rewrite (wrap_id 8 (triedCount d + 1)) by (unfold in_width; lia).
  by destruct (deadline d <=? t).
Qed.

Lemma checked_id t d : data_id (checked t d).1 = data_id d.
Proof. unfold checked. by destruct (_ <=? _). Qed.

Lemma checked_events t d : Forall (fun e => event_id e = data_id d) (checked t d).2.
Proof. unfold checked. destruct (_ <=? _); repeat constructor. Qed.

Lemma checked_ok n t d : time_ok t -> data_ok n d ->
  triedCount (checked t d).1 <= n /\
  (triedCount (checked t d).1 < n -> data_ok n (checked t d).1).
Proof.
  intros Ht (H1 & H2 & H3 & H4). unfold checked.
  destruct (_ <=? _); cbn [fst triedCount]; [|by split; [lia|]].
  split; [lia|]. intros Hn. split_and!; cbn [timeStamp timeout triedCount messageId pdu]; (done || lia).
Qed.

(** What is left of an entry, and all it did. *)
Definition kept (n t : Z) (d : CARetransmissionData_t) : list CARetransmissionData_t :=
  if n <=? triedCount (checked t d).1 then [] else [(checked t d).1].
Definition did (n t : Z) (d : CARetransmissionData_t) : list event :=
  (checked t d).2 ++ if n <=? triedCount (checked t d).1 then [TimedOut (endpoint d) (pdu d)] else [].

Lemma process_spec clock n l : n <= 40 -> Forall (data_ok n) l -> forall k,
  exists ts, process clock n k l
    = Some (mjoin (zip_with (kept n) ts l), mjoin (zip_with (did n) ts l)) /\
    List.length ts = List.length l /\ Forall (fun t => exists j, t = clock j) ts.
Proof.
  intros Hn. induction 1 as [|d l Hd _ IH]; intros k; [by exists []|].
  destruct (IH (S k)) as (ts & E & Hl & Ht). exists (clock k :: ts). split_and!.
  - cbn [process]. rewrite (attempt_checked n) by done. cbn [mbind option_bind]. rewrite E.
    destruct (checked (clock k) d) as [d' ev] eqn:Ec. cbn [mbind option_bind zip_with mjoin list_join].
    unfold kept, did. rewrite Ec. cbn [fst snd].
    assert (Hs : endpoint d' = endpoint d /\ pdu d' = pdu d).
    { revert Ec. unfold checked. destruct (_ <=? _); by intros [= <- <-]. }
    destruct Hs as [-> ->]. destruct (n <=? triedCount d'); cbn [app]; by rewrite <- app_assoc.
  - simpl. lia.
  - constructor; eauto.
Qed.

Lemma did_id n t d : Forall (fun e => event_id e = data_id d) (did n t d).
Proof.
  unfold did. apply Forall_app. split; [apply checked_events|].
  destruct (n <=? _); repeat constructor.
Qed.

Lemma filter_id_all i (evs : list event) : Forall (fun e => event_id e = i) evs ->
  filter (fun e => event_id e = i) evs = evs.
Proof. induction 1 as [|e evs He _ IH]; [done|]. by rewrite filter_cons_True, IH. Qed.

Lemma filter_id_none i j (evs : list event) : Forall (fun e => event_id e = j) evs -> j <> i ->
  filter (fun e => event_id e = i) evs = [].
Proof.
  intros H Hj. induction H as [|e evs He _ IH]; [done|].
  rewrite filter_cons_False; [done|]. by rewrite He.
Qed.

Lemma process_none n i l : i ∉ data_id <$> l -> forall ts,
  filter (fun e => event_id e = i) (mjoin (zip_with (did n) ts l)) = [].
Proof.
  induction l as [|d l IH]; intros Hi [|t ts]; try done.
  rewrite fmap_cons, not_elem_of_cons in Hi. destruct Hi as [Hd Hi].
  cbn [zip_with mjoin list_join]. rewrite filter_app, IH by done.
  by rewrite (filter_id_none i (data_id d)) by (apply did_id || done).
Qed.

Lemma process_sublist n l : forall ts,
  data_id <$> mjoin (zip_with (kept n) ts l) `sublist_of` data_id <$> l.
Proof.
  induction l as [|d l IH]; intros [|t ts]; try (apply sublist_nil_l).
  cbn [zip_with mjoin list_join]. rewrite fmap_cons, fmap_app. unfold kept at 1.
  destruct (n <=? _); cbn; [by apply sublist_cons|].
  rewrite checked_id. apply sublist_skip, IH.
Qed.

Lemma process_ok n l : Forall (data_ok n) l -> forall ts, Forall time_ok ts ->
  Forall (data_ok n) (mjoin (zip_with (kept n) ts l)).
Proof.
  induction 1 as [|d l Hd _ IH]; intros [|t ts] Ht; try constructor.
  apply Forall_cons in Ht as [Ht Hts]. cbn [zip_with mjoin list_join]. apply Forall_app.
  split; [|by apply IH]. unfold kept. destruct (Z.leb_spec n (triedCount (checked t d).1)); [done|].
  constructor; [|done]. by apply checked_ok.
Qed.

(** The entry of one message, among the others. *)
Lemma process_one n l d : d ∈ l -> NoDup (data_id <$> l) -> forall ts, List.length ts = List.length l ->
  exists t, t ∈ ts /\
    filter (fun e => event_id e = data_id d) (mjoin (zip_with (did n) ts l)) = did n t d /\
    (forall d', kept n t d = [d'] -> d' ∈ mjoin (zip_with (kept n) ts l)) /\
    (kept n t d = [] -> data_id d ∉ data_id <$> mjoin (zip_with (kept n) ts l)).
Proof.
  induction l as [|x l IH]; intros Hd Hnd [|t ts] Hl; try (by apply elem_of_nil in Hd); try done.
  rewrite fmap_cons in Hnd. apply NoDup_cons in Hnd as [Hx Hnd]. injection Hl as Hl.
  cbn [zip_with mjoin list_join]. rewrite filter_app.
  apply elem_of_cons in Hd as [<-|Hd].
  - exists t. rewrite (filter_id_all _ _ (did_id n t _)), process_none, app_nil_r by done.
    split_and!; [by left|done| |].
    + intros d' ->. by apply elem_of_app; left; apply list_elem_of_singleton.
    + intros ->. intros Hin. apply Hx. by eapply elem_of_sublist; [|apply (process_sublist n l ts)].
  - destruct (IH Hd Hnd ts Hl) as (t' & Ht' & Hf & Hk & Hg).
    assert (Hxd : data_id x <> data_id d)
      by (intros E; apply Hx; rewrite E; by apply list_elem_of_fmap_2).
    exists t'. rewrite (filter_id_none _ (data_id x)) by (apply did_id || done).
    split_and!; [by right|done| |].
    + intros d' E. apply elem_of_app. right. auto.
    + intros E. rewrite fmap_app, elem_of_app. intros [Hin|Hin]; [|by apply (Hg E)].
      revert Hin. unfold kept. destruct (n <=? _); cbn; [by intros ?%elem_of_nil|].
      rewrite checked_id. by intros E'%list_elem_of_singleton.
Qed.

(** ** Runs *)

Inductive op : Type :=
| SentData (currentTime randomValue : Z) (ep : CAEndpoint_t) (dataType : Z) (pdu : list Z)
| ReceivedData (ep : CAEndpoint_t) (pdu : list Z)
| CheckList (clock : nat -> Z).

Definition step (o : op) (c : CARetransmission_t) : option (CARetransmission_t * list event) :=
  match o with
  | SentData now r ep ty p => Some ((CARetransmissionSentData now r c ep ty p).2, [])
  | ReceivedData ep p => Some ((CARetransmissionReceivedData c ep p).2, [])
  | CheckList clock => CACheckRetransmissionList clock c
  end.

Fixpoint run (ops : list op) (c : CARetransmission_t) :
    option (CARetransmission_t * list event) :=
  match ops with
  | [] => Some (c, [])
  | o :: ops' =>
      '(c, ev) ← step o c;
      '(c, evs) ← run ops' c;
      Some (c, ev ++ evs)
  end.

Definition op_ok (o : op) : Prop :=
  match o with
  | SentData now r _ _ _ => time_ok now /\ 0 <= r < 256
  | ReceivedData _ _ => True
  | CheckList clock => forall k, time_ok (clock k)
  end.

(** Neither sends nor acknowledges the message [i]. *)
Definition silent (i : Z * Z) (o : op) : Prop :=
  match o with
  | SentData _ _ ep _ p | ReceivedData ep p => id_of ep p <> i
  | CheckList _ => True
  end.

Lemma take_out_spec f l d l' : take_out f l = Some (d, l') ->
  exists l1 l2, l = l1 ++ d :: l2 /\ l' = l1 ++ l2 /\ f d = true.
Proof.
  revert l'. induction l as [|x l IH]; intros l' H; [done|]. cbn [take_out] in H.
  destruct (f x) eqn:E.
  - injection H as -> <-. by exists [], l.
  - destruct (take_out f l) as [[y m]|]; [|done]. injection H as -> <-.
    destruct (IH m eq_refl) as (l1 & l2 & -> & -> & Hf). by exists (x :: l1), l2.
Qed.

Lemma found_id n d i ep : data_ok n d -> found i ep d = true <-> data_id d = (i, adapter ep).
Proof.
  intros (_ & _ & _ & Hm). unfold found, data_id, id_of. rewrite <- Hm, andb_true_iff, !Z.eqb_eq.
  split; [by intros [-> ->]|by intros [= -> ->]].
Qed.

(** Sending: the list grows by one new message at most. *)
Lemma sent_list now r c ep ty p :
  let c' := (CARetransmissionSentData now r c ep ty p).2 in
  tryingCount c' = tryingCount c /\
  (dataList c' = dataList c \/
   exists d, dataList c' = dataList c ++ [d] /\ data_id d = id_of ep p /\
     existsb (found (CAGetMessageIdFromPduBinaryData p) ep) (dataList c) = false /\
     d = mk_data now (CAGetTimeoutValue r) 0 (CAGetMessageIdFromPduBinaryData p) ty ep p).
Proof.
  unfold CARetransmissionSentData. destruct (negb (supported c ep)); [by split; [|left]|].
  destruct (negb _); [by split; [|left]|]. destruct (existsb _ _) eqn:E; [by split; [|left]|].
  split; [done|]. right. by eexists.
Qed.

(** Receiving: the list loses one message at most, the acknowledged one. *)
Lemma received_list c ep p :
  let c' := (CARetransmissionReceivedData c ep p).2 in
  tryingCount c' = tryingCount c /\
  (dataList c' = dataList c \/
   exists l1 d l2, dataList c = l1 ++ d :: l2 /\ dataList c' = l1 ++ l2 /\
     found (CAGetMessageIdFromPduBinaryData p) ep d = true).
Proof.
  unfold CARetransmissionReceivedData. destruct (negb (supported c ep)); [by split; [|left]|].
  destruct (_ || _); [by split; [|left]|].
  destruct (take_out _ _) as [[d l]|] eqn:E; [|by split; [|left]].
  split; [done|]. right. apply take_out_spec in E as (l1 & l2 & E1 & -> & Hf). by exists l1, d, l2.
Qed.

Lemma check_step (P : Z -> Prop) clock c : context_ok c -> (forall k, P (clock k)) ->
  exists ts, Forall P ts /\ List.length ts = List.length (dataList c) /\
    CACheckRetransmissionList clock c
    = Some (with_list (mjoin (zip_with (kept (tryingCount c)) ts (dataList c))) c,
            mjoin (zip_with (did (tryingCount c)) ts (dataList c))).
Proof.
  intros (Hn & Hl & _) Hc.
  destruct (process_spec clock (tryingCount c) (dataList c)) with (k := O) as (ts & E & Hlen & Ht);
    [lia|done|].
  exists ts. split_and!; [|done|by rewrite CACheckRetransmissionList_process, E].
  eapply Forall_impl; [exact Ht|]. intros t [j ->]. apply Hc.
Qed.

(** Every operation returns, without overflow, and keeps the list well-formed. *)
Lemma step_ok o c : context_ok c -> op_ok o -> exists c' evs, step o c = Some (c', evs) /\
  context_ok c' /\ tryingCount c' = tryingCount c.
Proof.
  intros Hc Ho. destruct o as [now r ep ty p|ep p|clock]; cbn [step op_ok] in *.
  - pose proof (sent_list now r c ep ty p) as (Hn & Hs). do 2 eexists. split; [done|].
    split; [|done]. destruct Hc as (Hb & Hf & Hnd). destruct Ho as [Hnow Hr].
    unfold context_ok. rewrite Hn. split; [done|].
    destruct Hs as [->|(d & -> & Hid & Hex & Hd)]; [done|]. split.
    + apply Forall_app. split; [done|]. constructor; [|done]. subst d.
      split_and!; cbn; (done || lia || by apply CAGetTimeoutValue_range || idtac).
      all: pose proof (CAGetTimeoutValue_range r Hr); lia.
    + rewrite fmap_app. apply NoDup_app. split_and!; [done| |by repeat constructor; intros ?%elem_of_nil].
      intros i (x & Ei & Hx)%list_elem_of_fmap Ed%list_elem_of_singleton. subst i.
      rewrite Hid in Ed. apply (not_true_iff_false (existsb (found (CAGetMessageIdFromPduBinaryData p) ep) (dataList c)));
        [done|]. apply existsb_exists. exists x. split; [by apply list_elem_of_In|].
      apply (found_id (tryingCount c)); [|done]. by rewrite Forall_forall in Hf; apply Hf.
  - pose proof (received_list c ep p) as (Hn & Hs). do 2 eexists. split; [done|].
    split; [|done]. destruct Hc as (Hb & Hf & Hnd). unfold context_ok. rewrite Hn.
    split; [done|]. destruct Hs as [->|(l1 & d & l2 & E & -> & _)]; [done|]. rewrite E in *.
    rewrite Forall_app, Forall_cons in Hf. split; [apply Forall_app; tauto|].
    eapply sublist_NoDup; [exact Hnd|]. rewrite !fmap_app, fmap_cons.
    by apply sublist_app, sublist_cons.
  - destruct (check_step time_ok clock c Hc Ho) as (ts & Ht & Hl & E). do 2 eexists. split; [exact E|].
    split; [|done]. destruct Hc as (Hb & Hf & Hnd). split; [done|]. cbn [dataList with_list tryingCount].
    split; [by apply process_ok|]. eapply sublist_NoDup; [exact Hnd|]. apply process_sublist.
Qed.

(** What one operation does to a message that it neither sends nor acknowledges:
    when it is not in the list, nothing; when it is, what one check does, or nothing. *)
Lemma step_absent i o c c' evs : context_ok c -> op_ok o -> silent i o ->
  step o c = Some (c', evs) -> i ∉ data_id <$> dataList c ->
  i ∉ data_id <$> dataList c' /\ filter (fun e => event_id e = i) evs = [].
Proof.
  intros Hc Ho Hs E Hi. destruct o as [now r ep ty p|ep p|clock]; cbn [step op_ok silent] in *.
  - injection E as <- <-. split; [|done]. pose proof (sent_list now r c ep ty p) as (_ & [->|(d & -> & Hd & _)]); [done|].
    rewrite fmap_app, not_elem_of_app. split; [done|]. intros Hin%list_elem_of_singleton. by rewrite Hin, Hd in Hs.
  - injection E as <- <-. split; [|done]. pose proof (received_list c ep p) as (_ & [->|(l1 & d & l2 & E & -> & _)]); [done|].
    rewrite E in Hi. rewrite fmap_app, fmap_cons in Hi. rewrite fmap_app. set_solver.
  - destruct (check_step time_ok clock c Hc Ho) as (ts & Ht & Hl & E'). rewrite E' in E.
    injection E as <- <-. split; [|by apply process_none].
    intros Hin. apply Hi. eapply elem_of_sublist; [exact Hin|]. apply process_sublist.
Qed.

Lemma step_present d o c c' evs : context_ok c -> op_ok o -> silent (data_id d) o ->
  step o c = Some (c', evs) -> d ∈ dataList c ->
  d ∈ dataList c' /\ filter (fun e => event_id e = data_id d) evs = [] \/
  exists t, time_ok t /\ filter (fun e => event_id e = data_id d) evs = did (tryingCount c) t d /\
    (forall d', kept (tryingCount c) t d = [d'] -> d' ∈ dataList c') /\
    (kept (tryingCount c) t d = [] -> data_id d ∉ data_id <$> dataList c').
Proof.
  intros Hc Ho Hs E Hd. destruct o as [now r ep ty p|ep p|clock]; cbn [step op_ok silent] in *.
  - injection E as <- <-. left. split; [|done].
    pose proof (sent_list now r c ep ty p) as (_ & [->|(x & -> & _)]); [done|]. set_solver.
  - injection E as <- <-. left. split; [|done].
    pose proof (received_list c ep p) as (_ & [->|(l1 & x & l2 & E & -> & Hf)]); [done|].
    destruct Hc as (_ & Hf' & _). rewrite E in Hd, Hf'.
    apply elem_of_app in Hd as [Hd|Hd]; [set_solver|].
    apply elem_of_cons in Hd as [<-|Hd]; [|set_solver].
    apply (found_id (tryingCount c)) in Hf; [|by rewrite Forall_forall in Hf'; apply Hf'; set_solver].
    by destruct Hs.
  - right. destruct (check_step time_ok clock c Hc Ho) as (ts & Ht & Hl & E'). rewrite E' in E.
    injection E as <- <-. destruct Hc as (_ & _ & Hnd).
    destruct (process_one (tryingCount c) (dataList c) d Hd Hnd ts Hl) as (t & Hin & Hp).
    exists t. split; [|exact Hp]. rewrite Forall_forall in Ht. by apply Ht.
Qed.

Lemma run_absent i ops : Forall op_ok ops -> Forall (silent i) ops -> forall c,
  context_ok c -> i ∉ data_id <$> dataList c ->
  exists c' evs, run ops c = Some (c', evs) /\ context_ok c' /\
    i ∉ data_id <$> dataList c' /\ filter (fun e => event_id e = i) evs = [].
Proof.
  intros Hok Hs. revert Hs. induction Hok as [|o ops Ho _ IH]; intros Hs c Hc Hi.
  { by exists c, []. }
  apply Forall_cons in Hs as [Hso Hs]. destruct (step_ok o c Hc Ho) as (c1 & ev & E & Hc1 & _).
  destruct (step_absent i o c c1 ev Hc Ho Hso E Hi) as [Hi1 Hf].
  destruct (IH Hs c1 Hc1 Hi1) as (c2 & evs & E2 & Hc2 & Hi2 & Hf2).
  exists c2, (ev ++ evs). cbn [run]. rewrite E. cbn [mbind option_bind]. rewrite E2.
  split_and!; try done. by rewrite filter_app, Hf, Hf2.
Qed.

(** The times [ts] of the tries from number [k] on: each comes after the time before
    by at least [timeout * 2 ^ k], with [timeout] rounded to milliseconds.  The
    lower bounds double; the waits themselves are those of the checks. *)
Fixpoint spaced (start timeout k : Z) (ts : list Z) : Prop :=
  match ts with
  | [] => True
  | t :: ts' => start + timeout / 1000 * 2 ^ k * 1000 <= t /\ spaced t timeout (k + 1) ts'
  end.

(** The message [d] and what it has to go through yet. *)
Definition resent (d : CARetransmissionData_t) (ts : list Z) : list event :=
  (fun t => DataSent t (endpoint d) (pdu d) (dataType d)) <$> ts.

Definition life (n : Z) (d : CARetransmissionData_t) (c' : CARetransmission_t)
    (evs : list event) : Prop :=
  exists ts, spaced (timeStamp d) (timeout d) (triedCount d) ts /\
    let tries := triedCount d + Z.of_nat (List.length ts) in
    tries <= n /\
    filter (fun e => event_id e = data_id d) evs
      = resent d ts ++ (if tries =? n then [TimedOut (endpoint d) (pdu d)] else []) /\
    (data_id d ∈ data_id <$> dataList c' <-> tries < n).

Lemma life_kept n d c' ev evs : filter (fun e => event_id e = data_id d) ev = [] ->
  life n d c' evs -> life n d c' (ev ++ evs).
Proof.
  intros Hf (ts & Hsp & Htr & Hev & Hin). exists ts. split_and!; try done.
  by rewrite filter_app, Hf, Hev.
Qed.

Lemma life_last n t d c' ev evs : data_ok n d -> triedCount (checked t d).1 <= n ->
  n <= triedCount (checked t d).1 ->
  filter (fun e => event_id e = data_id d) ev
    = (checked t d).2 ++ [TimedOut (endpoint d) (pdu d)] ->
  filter (fun e => event_id e = data_id d) evs = [] -> data_id d ∉ data_id <$> dataList c' ->
  life n d c' (ev ++ evs).
Proof.
  intros (_ & _ & Hk & _). unfold checked. destruct (Z.leb_spec (deadline d) t) as [Hdue|];
    cbn [fst snd triedCount]; [|lia]. intros Hle Hge Hf Hf2 Hi. exists [t]. cbn [List.length spaced].
  replace (triedCount d + Z.of_nat 1) with n by lia. rewrite Z.eqb_refl. split_and!; try done; try lia.
  - by rewrite filter_app, Hf, Hf2, app_nil_r.
  - split; [done|lia].
Qed.

Lemma life_next n t d c' ev evs :
  filter (fun e => event_id e = data_id d) ev = (checked t d).2 ->
  life n (checked t d).1 c' evs -> life n d c' (ev ++ evs).
Proof.
  intros Hf Hl. revert Hf Hl. unfold checked. destruct (Z.leb_spec (deadline d) t) as [Hdue|];
    cbn [fst snd]; [|apply life_kept]. intros Hf (ts & Hsp & Htr & Hev & Hin).
  cbn [timeStamp timeout triedCount] in Hsp, Htr. exists (t :: ts). cbn [List.length spaced].
  replace (triedCount d + Z.of_nat (S (List.length ts)))
    with (triedCount d + 1 + Z.of_nat (List.length ts)) by lia.
  split_and!; try done. rewrite filter_app, Hf. exact (f_equal (cons _) Hev).
Qed.

Lemma run_life ops : Forall op_ok ops -> forall c d, context_ok c -> d ∈ dataList c ->
  Forall (silent (data_id d)) ops ->
  exists c' evs, run ops c = Some (c', evs) /\ context_ok c' /\ life (tryingCount c) d c' evs.
Proof.
  induction 1 as [|o ops Ho Hops IH]; intros c d Hc Hd Hs.
  { exists c, []. split_and!; try done. exists []. cbn.
    destruct Hc as (_ & Hf & _). rewrite Forall_forall in Hf. destruct (Hf d Hd) as (_ & _ & Hk & _).
    rewrite Z.add_0_r. rewrite (proj2 (Z.eqb_neq _ _)) by lia. split_and!; try done; [lia|].
    split; [lia|]. intros _. by apply list_elem_of_fmap_2. }
  apply Forall_cons in Hs as [Hso Hs].
  destruct (step_ok o c Hc Ho) as (c1 & ev & E & Hc1 & Hn).
  assert (Hdok : data_ok (tryingCount c) d)
    by (destruct Hc as (_ & Hf & _); rewrite Forall_forall in Hf; by apply Hf).
  cbn [run]. rewrite E. cbn [mbind option_bind].
  destruct (step_present d o c c1 ev Hc Ho Hso E Hd) as [[Hd1 Hf]|(t & Ht & Hf & Hk & Hg)].
  { destruct (IH c1 d Hc1 Hd1 Hs) as (c2 & evs & E2 & Hc2 & Hl).
    rewrite E2. exists c2, (ev ++ evs). split_and!; try done. rewrite <- Hn.
    by apply life_kept. }
  pose proof (checked_ok (tryingCount c) t d Ht Hdok) as [Hle Hok].
  unfold kept, did in *. destruct (Z.leb_spec (tryingCount c) (triedCount (checked t d).1)) as [Hm|Hm].
  - destruct (run_absent (data_id d) ops Hops Hs c1 Hc1) as (c2 & evs & E2 & Hc2 & Hi & Hf2); [by apply Hg|].
    rewrite E2. exists c2, (ev ++ evs). split_and!; try done.
    by apply (life_last (tryingCount c) t).
  - destruct (IH c1 (checked t d).1 Hc1 (Hk _ eq_refl)) as (c2 & evs & E2 & Hc2 & Hl);
      [by rewrite checked_id|].
    rewrite E2. exists c2, (ev ++ evs). split_and!; try done. rewrite Hn in Hl.
    apply (life_next _ t); [by rewrite app_nil_r in Hf|done].
Qed.

(** A message that was taken on. *)
Lemma sent_ok now r c ep ty p c0 : context_ok c -> time_ok now -> 0 <= r < 256 ->
  CARetransmissionSentData now r c ep ty p = (CA_STATUS_OK, c0) ->
  context_ok c0 /\ tryingCount c0 = tryingCount c /\
  mk_data now (CAGetTimeoutValue r) 0 (CAGetMessageIdFromPduBinaryData p) ty ep p ∈ dataList c0.
Proof.
  intros Hc Hnow Hr E. destruct (step_ok (SentData now r ep ty p) c Hc (conj Hnow Hr)) as (c1 & ev & E1 & Hok & Hn).
  cbn [step] in E1. rewrite E in E1. injection E1 as <- <-. split_and!; [done..|].
  revert E. unfold CARetransmissionSentData. destruct (negb (supported c ep)); [done|].
  destruct (negb _); [done|]. destruct (existsb _ _); [done|]. intros [= <-].
  cbn [dataList with_list]. apply elem_of_app. right. by apply list_elem_of_singleton.
Qed.

(** C32: A confirmable message that was taken on and is not acknowledged: whatever else
    is sent, received and checked meanwhile, every operation returns, the message
    is sent again at most [tryingCount] times, the first time not before its timeout
    has passed and each further time not before twice the bound of the one before
    has passed since that one, it is reported as timed out exactly once, with the
    last of them, and is in the list exactly until then. *)
Theorem resent_with_backoff now r c ep ty p c0 ops :
  context_ok c -> time_ok now -> 0 <= r < 256 ->
  CARetransmissionSentData now r c ep ty p = (CA_STATUS_OK, c0) ->
  Forall op_ok ops -> Forall (silent (id_of ep p)) ops ->
  exists c' evs ts, run ops c0 = Some (c', evs) /\ context_ok c' /\
    spaced now (CAGetTimeoutValue r) 0 ts /\ Z.of_nat (List.length ts) <= tryingCount c /\
    filter (fun e => event_id e = id_of ep p) evs
      = ((fun t => DataSent t ep p ty) <$> ts)
        ++ (if Z.of_nat (List.length ts) =? tryingCount c then [TimedOut ep p] else []) /\
    (id_of ep p ∈ data_id <$> dataList c' <-> Z.of_nat (List.length ts) < tryingCount c).
Proof.
  intros Hc Hnow Hr E Hops Hs. destruct (sent_ok now r c ep ty p c0 Hc Hnow Hr E) as (Hc0 & <- & Hd).
  destruct (run_life ops Hops c0 _ Hc0 Hd Hs) as (c' & evs & E' & Hc' & ts & Hsp & Htr & Hev & Hin).
  by exists c', evs, ts.
Qed.

(** Checks at times that leave room for each retransmission: the readings of one
    check lie between the time the message is due at the latest and [hi]. *)
Fixpoint paced (start timeout k : Z) (clocks : list (nat -> Z)) : Prop :=
  match clocks with
  | [] => True
  | clock :: clocks' => exists hi, hi < 2 ^ 63 /\
      (forall j, start + timeout / 1000 * 2 ^ k * 1000 <= clock j <= hi) /\
      paced hi timeout (k + 1) clocks'
  end.

(** One check of a message that is due. *)
Lemma check_due lo hi clock c d : context_ok c -> d ∈ dataList c -> deadline d <= lo ->
  0 <= lo -> hi < 2 ^ 63 -> (forall j, lo <= clock j <= hi) ->
  exists t c' ev, t <= hi /\ step (CheckList clock) c = Some (c', ev) /\ context_ok c' /\
    tryingCount c' = tryingCount c /\
    (triedCount d + 1 < tryingCount c -> (checked t d).1 ∈ dataList c') /\
    (checked t d).1 = mk_data t (timeout d) (triedCount d + 1) (messageId d) (dataType d)
                        (endpoint d) (pdu d) /\
    DataSent t (endpoint d) (pdu d) (dataType d) ∈ ev /\
    (triedCount d + 1 = tryingCount c -> TimedOut (endpoint d) (pdu d) ∈ ev).
Proof.
  intros Hc Hd Hdue Hlo Hhi Hclock.
  assert (Ho : op_ok (CheckList clock)) by (intros k; specialize (Hclock k); unfold time_ok; lia).
  destruct (step_ok _ c Hc Ho) as (c' & ev & E & Hc' & Hn).
  destruct (check_step (fun t => lo <= t <= hi) clock c Hc Hclock) as (ts & Ht & Hl & E').
  pose proof E as E2. cbn [step] in E2. rewrite E' in E2. injection E2 as Ec Eev.
  destruct Hc as (_ & Hf & Hnd).
  destruct (process_one (tryingCount c) (dataList c) d Hd Hnd ts Hl) as (t & Hin & Hev & Hk & _).
  rewrite Forall_forall in Ht. specialize (Ht t Hin). exists t, c', ev.
  assert (Hch : checked t d = (mk_data t (timeout d) (triedCount d + 1) (messageId d) (dataType d)
      (endpoint d) (pdu d), [DataSent t (endpoint d) (pdu d) (dataType d)]))
    by (unfold checked; by rewrite (proj2 (Z.leb_le _ _)) by lia).
  assert (Hsub : forall e, e ∈ did (tryingCount c) t d -> e ∈ ev).
  { intros e. rewrite <- Hev, Eev. by intros [_ He]%list_elem_of_filter. }
  unfold did, kept in *. rewrite Hch in *. cbn [fst snd triedCount] in *.
  split_and!; try done; [lia| | |].
  - intros Hlt. rewrite <- Ec. cbn [dataList with_list].
    apply Hk. by rewrite (proj2 (Z.leb_gt _ _)) by lia.
  - apply Hsub. by left.
  - intros Hlast. apply Hsub. rewrite (proj2 (Z.leb_le _ _)) by lia. right. by left.
Qed.

Lemma paced_times_out clocks : forall c d lo, context_ok c -> d ∈ dataList c ->
  timeStamp d <= lo -> 0 <= lo -> paced lo (timeout d) (triedCount d) clocks ->
  triedCount d + Z.of_nat (List.length clocks) = tryingCount c ->
  exists c' evs, run (CheckList <$> clocks) c = Some (c', evs) /\ context_ok c' /\
    TimedOut (endpoint d) (pdu d) ∈ evs.
Proof.
  induction clocks as [|clock clocks IH]; intros c d lo Hc Hd Hts Hlo Hp Hlen;
    (assert (Hdok : data_ok (tryingCount c) d)
      by (destruct Hc as (_ & Hf & _); rewrite Forall_forall in Hf; by apply Hf));
    destruct Hdok as (_ & Hto & Hk & _); cbn [List.length] in Hlen; [lia|].
  destruct Hp as (hi & Hhi & Hclock & Hp).
  set (delta := timeout d / 1000 * 2 ^ triedCount d * 1000) in *.
  assert (Hdelta : 0 <= delta).
  { unfold delta. apply Z.mul_nonneg_nonneg; [|lia]. apply Z.mul_nonneg_nonneg.
    - apply Z.div_pos; lia.
    - apply Z.pow_nonneg. lia. }
  destruct (check_due (lo + delta) hi clock c d Hc Hd) as
    (t & c1 & ev & Ht & E & Hc1 & Hn & Hkeep & Hch & _ & Hlast);
    [unfold deadline; fold delta; lia|lia|done|done|].
  rewrite fmap_cons. cbn [run]. rewrite E. cbn [mbind option_bind].
  destruct clocks as [|clock' clocks].
  { exists c1, (ev ++ []). split_and!; [reflexivity|done|]. rewrite app_nil_r. apply Hlast. simpl in Hlen. lia. }
  destruct (IH c1 (checked t d).1 hi) as (c2 & evs & E2 & Hc2 & Hin).
  - done.
  - apply Hkeep. simpl in Hlen. lia.
  - rewrite Hch. exact Ht.
  - specialize (Hclock O). lia.
  - rewrite Hch. exact Hp.
  - rewrite Hch, Hn. cbn [triedCount]. lia.
  - rewrite E2. exists c2, (ev ++ evs). split_and!; [done..|]. apply elem_of_app. right.
    by rewrite Hch in Hin.
Qed.

(** C33: An unacknowledged message does not stay forever: [tryingCount] checks, each
    after the message is due, end with its timeout and leave no trace of it. *)
Theorem unanswered_times_out now r c ep ty p c0 clocks :
  context_ok c -> time_ok now -> 0 <= r < 256 ->
  CARetransmissionSentData now r c ep ty p = (CA_STATUS_OK, c0) ->
  Z.of_nat (List.length clocks) = tryingCount c ->
  paced now (CAGetTimeoutValue r) 0 clocks ->
  exists c' evs, run (CheckList <$> clocks) c0 = Some (c', evs) /\ context_ok c' /\
    TimedOut ep p ∈ evs.
Proof.
  intros Hc Hnow Hr E Hlen Hp. destruct (sent_ok now r c ep ty p c0 Hc Hnow Hr E) as (Hc0 & Hn & Hd).
  rewrite <- Hn in Hlen.
  destruct (paced_times_out clocks c0 _ now Hc0 Hd) as (c' & evs & H); [done|apply Hnow|done|done|].
  by exists c', evs.
Qed.

End retransmission.

(** ** A concrete run *)

Import LibCoapReference.

Definition peer : CAEndpoint_t := mk_endpoint CA_ADAPTER_IP 64 5683 "192.0.2.1" 0.
(** A confirmable GET with identifier 258. *)
Definition con_get : list Z := [64; 1; 1; 2].
Definition sent_at (now : Z) : CARetransmission_t :=
  (CARetransmissionSentData (CH := rfc7252_header) now 128 (CARetransmissionInitialize None)
     peer 0 con_get).2.

Lemma initial_ok : context_ok (CH := rfc7252_header) (CARetransmissionInitialize None).
Proof. split_and!; [done|done|constructor|constructor]. Qed.

(** Sent at 0 with 2.5 s, checked every second from then on: sent again after 3,
    8 (at least 5 more), 18 and 38 seconds, and then reported. *)
Definition each_second (n : nat) : list op :=
  (fun k => CheckList (fun _ => Z.of_nat k * 1000000)) <$> seq 1 n.

Example each_second_run :
  (fun r => (dataList r.1, r.2)) <$> run (CH := rfc7252_header) (each_second 40) (sent_at 0)
  = Some ([], ((fun t => DataSent (t * 1000000) peer con_get 0) <$> [3; 8; 18; 38])
              ++ [TimedOut peer con_get]).
Proof. vm_compute. reflexivity. Qed.

Lemma resent_with_backoff_witness :
  exists c' evs ts, run (CH := rfc7252_header) (each_second 10) (sent_at 0) = Some (c', evs) /\
    Z.of_nat (List.length ts) <= 4 /\
    filter (fun e => event_id (CH := rfc7252_header) e = (258, 1)) evs
      = ((fun t => DataSent t peer con_get 0) <$> ts)
        ++ (if Z.of_nat (List.length ts) =? 4 then [TimedOut peer con_get] else []).
Proof.
  destruct (resent_with_backoff (CH := rfc7252_header) 0 128 (CARetransmissionInitialize None)
    peer 0 con_get (sent_at 0) (each_second 10)) as (c' & evs & ts & E & _ & _ & Hl & Hf & _).
  - exact initial_ok.
  - by split.
  - by split.
  - reflexivity.
  - repeat constructor; cbn; lia.
  - repeat constructor.
  - exists c', evs, ts. split; [exact E|]. split; [exact Hl|exact Hf].
Defined.

Lemma unanswered_times_out_witness :
  exists c' evs, run (CH := rfc7252_header)
      (CheckList <$> [(fun _ => 3000000); (fun _ => 9000000); (fun _ => 20000000); (fun _ => 50000000)])
      (sent_at 0) = Some (c', evs) /\ TimedOut peer con_get ∈ evs.
Proof.
  destruct (unanswered_times_out (CH := rfc7252_header) 0 128 (CARetransmissionInitialize None)
    peer 0 con_get (sent_at 0)
    [(fun _ => 3000000); (fun _ => 9000000); (fun _ => 20000000); (fun _ => 50000000)])
    as (c' & evs & E & _ & Hin).
  - exact initial_ok.
  - by split.
  - by split.
  - reflexivity.
  - reflexivity.
  - exists 3000000. split; [done|]. split; [intros; split; vm_compute; discriminate|].
    exists 9000000. split; [done|]. split; [intros; split; vm_compute; discriminate|].
    exists 20000000. split; [done|]. split; [intros; split; vm_compute; discriminate|].
    exists 50000000. split; [done|]. split; [intros; split; vm_compute; discriminate|]. exact I.
  - by exists c', evs.
Defined.

(** Only the identifier and the adapter are compared: another peer's
    acknowledgement ends the retransmission, and a message to another peer that
    happens to have the identifier of one in the list is not taken on. *)
Example ack_from_anyone :
  let other := mk_endpoint CA_ADAPTER_IP 64 5683 "198.51.100.7" 0 in
  dataList (CARetransmissionReceivedData (CH := rfc7252_header) (sent_at 0) other [96; 0; 1; 2]).2 = []
  /\ (CARetransmissionSentData (CH := rfc7252_header) 5 0 (sent_at 0) other 0 [64; 2; 1; 2]).1
     = CA_STATUS_FAILED.
Proof. by split. Qed.

End Retransmission.
