(* ===== verification/MessageHandler.v ===== *)
(** * The message handler

    [comm/camessagehandler.c]: what the stack hands over to be sent becomes a
    message with its block options ([CAProcessSendData]), and a received message
    becomes data for the stack ([mh_CAReceivedPacketCallback]); between the two
    are the retransmission list, the table of block-wise transfers, the history
    of requests and the two queues.  The network appears as [wire], in which
    everything that was handed to an adapter is kept, and the random identifiers
    and the clock as arguments. *)

From S2P Require Import Prelude.
From S2P Require Import Status.
From S2P Require Import CaTypes.
From S2P Require Import LibCoap.
From S2P Require Import CoapCodec.
From S2P Require Import Retransmission.
From S2P Require Import Blockwise.

Module MessageHandler.
Import CaTypes LibCoap CoapCodec Blockwise.

Definition HISTORYSIZE : nat := 4.
Definition CA_IPV6 : Z := 32.
Definition CA_IPV4 : Z := 64.
Definition CA_IPFAMILY_MASK : Z := Z.lor CA_IPV6 CA_IPV4.
Definition CA_RETRANSMIT_TIMEOUT : Z := 504.

(** ** Duplicates of requests *)

(** The bytes of [token] beyond [tokenLength] are left over from earlier items. *)
Record CAHistoryItem_t : Type := mk_item {
  i_flags : Z; i_messageId : Z; i_token : list Z; i_ifindex : Z }.
Record CAHistory_t : Type := mk_history { nextIndex : nat; items : list CAHistoryItem_t }.

Definition empty_history : CAHistory_t :=
  mk_history 0 (replicate HISTORYSIZE (mk_item 0 0 [] 0)).

Definition same_message (id : Z) (token : list Z) (ifindex_ : Z) (item : CAHistoryItem_t) : bool :=
  (id =? i_messageId item) && bool_decide (token = i_token item) && (ifindex_ =? i_ifindex item).

(** Whether to drop the message; a message without token leaves the token of the
    item it replaces. *)
Definition CADropSecondMessage (history : CAHistory_t) (ep : CAEndpoint_t) (id : Z)
    (token : option (list Z)) : bool * CAHistory_t :=
  if negb (adapter ep =? CA_ADAPTER_IP) then (false, history)
  else
    let token := take (Z.to_nat CA_MAX_TOKEN_LEN) (default [] token) in
    let ret := existsb (same_message id token (ifindex ep)) (items history) in
    let old := nth (nextIndex history) (items history) (mk_item 0 0 [] 0) in
    let item := mk_item (Z.land (flags ep) CA_IPFAMILY_MASK) id
                  (match token with [] => i_token old | _ => token end) (ifindex ep) in
    (ret, mk_history (if (S (nextIndex history) <? HISTORYSIZE)%nat then S (nextIndex history) else 0)
            (<[nextIndex history := item]> (items history))).

(** ** State *)

Record CAErrorInfo_t : Type := mk_error { e_result : CAResult_t; e_info : CAInfo_t }.

(** What the stack gets: a request or response, or an error. *)
Inductive received : Type :=
| Received (d : CAData_t)
| ReceivedError (ep : CAEndpoint_t) (e : CAErrorInfo_t).

Record sent : Type := mk_sent { s_endpoint : CAEndpoint_t; s_pdu : coap_pdu_t; s_dataType : Z }.

Record handler : Type := mk_handler {
  bwt : CABlockWiseContext_t; g_retransmissionContext : Retransmission.CARetransmission_t;
  requestHistory : CAHistory_t; g_sendThread : list CAData_t; g_receiveThread : list received;
  wire : list sent }.

Definition with_bwt (b : CABlockWiseContext_t) (h : handler) : handler :=
  mk_handler b (g_retransmissionContext h) (requestHistory h) (g_sendThread h) (g_receiveThread h) (wire h).
Definition with_retransmission (r : Retransmission.CARetransmission_t) (h : handler) : handler :=
  mk_handler (bwt h) r (requestHistory h) (g_sendThread h) (g_receiveThread h) (wire h).
Definition with_history (r : CAHistory_t) (h : handler) : handler :=
  mk_handler (bwt h) (g_retransmissionContext h) r (g_sendThread h) (g_receiveThread h) (wire h).
Definition with_send (q : list CAData_t) (h : handler) : handler :=
  mk_handler (bwt h) (g_retransmissionContext h) (requestHistory h) q (g_receiveThread h) (wire h).
Definition with_receive (q : list received) (h : handler) : handler :=
  mk_handler (bwt h) (g_retransmissionContext h) (requestHistory h) (g_sendThread h) q (wire h).
Definition with_wire (w : list sent) (h : handler) : handler :=
  mk_handler (bwt h) (g_retransmissionContext h) (requestHistory h) (g_sendThread h) (g_receiveThread h) w.

Notation H := (M handler).

(** [CAQueueingThreadAddData] on the two queues. *)
Definition CAAddDataToSendThread (d : CAData_t) : H unit :=
  modify (fun h => with_send (g_sendThread h ++ [d]) h).
Definition CAAddDataToReceiveThread (d : received) : H unit :=
  modify (fun h => with_receive (g_receiveThread h ++ [d]) h).
Definition put_on_wire (s : sent) : H unit := modify (fun h => with_wire (wire h ++ [s]) h).

Section handler.
Context {LC : LibCoap}.

(** Runs a function of the block-wise transfer and returns what it queued. *)
Definition run_bwt {A} (f : B A) : H (A * list event) :=
  fun h => match f (with_log [] (bwt h)) with
           | Some (a, b) => Some ((a, log b), with_bwt (with_log [] b) h)
           | None => None
           end.

(** ** Block options of outgoing messages *)

Definition CAAddBlockSizeOption (sizeType dataLength : Z) (options : list coap_option) :
    list coap_option := insert_option options sizeType (coap_encode_var_bytes dataLength).

Definition block_value (block : coap_block_t) : Z :=
  Z.lor (Z.lor (u32 (Z.shiftl (num block) BLOCK_NUMBER_IDX)) (Z.shiftl (m block) 3)) (szx block).

Definition CAAddBlockOptionImpl (block : coap_block_t) (blockType : Z) (options : list coap_option) :
    list coap_option := insert_option options blockType (coap_encode_var_bytes (block_value block)).

(** [CAAddOptionToPDU] is [add_options]; a size beyond [UINT_MAX] is refused. *)
Definition CAAddOptionToPDU (pdu : coap_pdu_t) (options : list coap_option) : option coap_pdu_t :=
  add_options options pdu.

Definition put_block1 (i : nat) (b : coap_block_t) : B unit :=
  (let! d := entry i in put_entry i (set_block1 b d))%m.
Definition put_block2 (i : nat) (b : coap_block_t) : B unit :=
  (let! d := entry i in put_entry i (set_block2 b d))%m.

(** Removes the entry and fails: the label [exit] of the two functions below. *)
Definition bad_option (id : list Z) : B (CAResult_t * option coap_pdu_t) :=
  (CARemoveBlockDataFromList id ;;; ret (CA_STATUS_FAILED, None))%m.

Definition CAAddBlockOption1 (pdu : coap_pdu_t) (payload : list Z) (id : list Z)
    (options : list coap_option) : B (CAResult_t * option coap_pdu_t) :=
  (with_found id
    (fun i d =>
       let dataLength := Z.of_nat (List.length payload) in
       if is_method (p_code pdu) then
         let block := CASetMoreBitFromBlock dataLength (block1 d) in
         put_block1 i block ;;;
         let options := if num block =? 0 then CAAddBlockSizeOption COAP_OPTION_SIZE1 dataLength options
                        else options in
         match CAAddOptionToPDU pdu (CAAddBlockOptionImpl block COAP_OPTION_BLOCK1 options) with
         | None => bad_option id
         | Some pdu =>
             match coap_add_block pdu payload (num block) (szx block) with
             | None => ret (CA_STATUS_FAILED, None)
             | Some pdu => ret (CA_STATUS_OK, Some pdu)
             end
         end
       else
         match CAAddOptionToPDU pdu (CAAddBlockOptionImpl (block1 d) COAP_OPTION_BLOCK1 options) with
         | None => bad_option id
         | Some pdu =>
             match coap_add_data pdu payload with
             | None => ret (CA_STATUS_FAILED, None)
             | Some pdu =>
                 (if m (block1 d) =? 0 then CARemoveBlockDataFromList id else ret CA_STATUS_OK) ;;;
                 ret (CA_STATUS_OK, Some pdu)
             end
         end)
    (ret (CA_STATUS_FAILED, None)))%m.

Definition CAAddBlockOption2 (pdu : coap_pdu_t) (payload : list Z) (id : list Z)
    (options : list coap_option) : B (CAResult_t * option coap_pdu_t) :=
  (with_found id
    (fun i d =>
       let dataLength := Z.of_nat (List.length payload) in
       if negb (is_method (p_code pdu)) then
         let block := CASetMoreBitFromBlock dataLength (block2 d) in
         put_block2 i block ;;;
         let options := if num block =? 0 then CAAddBlockSizeOption COAP_OPTION_SIZE2 dataLength options
                        else options in
         let options := CAAddBlockOptionImpl block COAP_OPTION_BLOCK2 options in
         let! options :=
           (if negb (num (block1 d) =? 0) then
              put_block1 i (set_num 0 (block1 d)) ;;;
              ret (CAAddBlockOptionImpl (block1 d) COAP_OPTION_BLOCK1 options)
            else ret options) in
         match CAAddOptionToPDU pdu options with
         | None => bad_option id
         | Some pdu =>
             match coap_add_block pdu payload (num block) (szx block) with
             | None => ret (CA_STATUS_FAILED, None)
             | Some pdu =>
                 (if m block =? 0 then CARemoveBlockDataFromList id else ret CA_STATUS_OK) ;;;
                 ret (CA_STATUS_OK, Some pdu)
             end
         end
       else
         match CAAddOptionToPDU pdu (CAAddBlockOptionImpl (block2 d) COAP_OPTION_BLOCK2 options) with
         | None => bad_option id
         | Some pdu => ret (CA_STATUS_OK, Some pdu)
         end)
    (ret (CA_STATUS_FAILED, None)))%m.

(** The identifier of a request that is sent is kept in its entry. *)
Definition CAUpdateMessageId (pdu : coap_pdu_t) (id : list Z) : B CAResult_t :=
  (with_found id
    (fun i d =>
       put_entry i (set_sent (update_request (fun r => with_message (type r) (p_id pdu) r) (sentData d)) d) ;;;
       ret CA_STATUS_OK)
    (ret CA_STATUS_FAILED))%m.

Definition update_sent_id (pdu : coap_pdu_t) (id : list Z) (out : CAResult_t * option coap_pdu_t) :
    B (CAResult_t * option coap_pdu_t) :=
  (if negb (ca_ok out.1) then ret out
   else if is_method (p_code pdu) then
     let! i := CAGetBlockDataFromBlockDataList id in
     match i with
     | Some _ => let! res := CAUpdateMessageId pdu id in ret (if ca_ok res then out else (res, None))
     | None => ret out
     end
   else ret out)%m.

Definition UINT_MAX : Z := 4294967295.

(** The result and, when it is OK, the message. *)
Definition CAAddBlockOption (pdu : coap_pdu_t) (info : CAInfo_t) (endpoint : CAEndpoint_t)
    (options : list coap_option) : B (CAResult_t * option coap_pdu_t) :=
  (let payload := default [] (payload info) in
   if UINT_MAX <? Z.of_nat (List.length payload) then ret (CA_STATUS_INVALID_PARAM, None)
   else
     let id := CACreateBlockDatablockId (p_token pdu) endpoint in
     if CA_REQUEST_ENTITY_INCOMPLETE =? CA_RESPONSE_CODE (p_code pdu)
     then ret (CA_STATUS_OK, Some pdu)
     else
       let! blockType := CAGetBlockOptionType id in
       let! out :=
         (if COAP_OPTION_BLOCK2 =? blockType then CAAddBlockOption2 pdu payload id options
          else if COAP_OPTION_BLOCK1 =? blockType then CAAddBlockOption1 pdu payload id options
          else ret match add_options options pdu with
                   | None => (CA_STATUS_FAILED, None)
                   | Some pdu => match coap_add_data pdu payload with
                                 | None => (CA_STATUS_FAILED, None)
                                 | Some pdu => (CA_STATUS_OK, Some pdu)
                                 end
                   end) in
       update_sent_id pdu id out)%m.

(** ** A message is sent *)

Definition CASendErrorInfo (endpoint : CAEndpoint_t) (info : CAInfo_t) (res : CAResult_t) : H unit :=
  CAAddDataToReceiveThread (ReceivedError endpoint (mk_error res (CACloneInfo info))).

Definition with_retransmitted {A} (f : Retransmission.CARetransmission_t -> A * Retransmission.CARetransmission_t) :
    H A :=
  fun h => let '(a, r) := f (g_retransmissionContext h) in Some (a, with_retransmission r h).

(** [CARetransmissionReceivedData], with the saved message. *)
Definition retransmission_received (endpoint : CAEndpoint_t) (bytes : list Z) : H (option (list Z)) :=
  with_retransmitted (fun c =>
    let '(_, saved, c) := Retransmission.CARetransmissionReceivedData c endpoint bytes in (saved, c)).

(** A message that could not be sent: it is taken off the retransmission list, as
    if it had been reset, and reported. *)
Definition CAErrorHandler (g_chproxyUri : list Z) (endpoint : CAEndpoint_t) (pdu : coap_pdu_t)
    (res : CAResult_t) : H unit :=
  (match CAParsePDU (Some (COAP_DEFAULT_VERSION, pdu)) with
   | None => ret tt
   | Some _ =>
       let! info := demand (CAGetInfoFromPDU g_chproxyUri pdu) in
       match info with
       | inl _ => ret tt
       | inr info =>
           let! saved := retransmission_received endpoint
             (coap_bytes (mk_pdu CA_MSG_RESET (p_id pdu) CA_EMPTY (p_token pdu) (p_options pdu) (p_data pdu))) in
           let info := match saved with Some b => CAGetTokenFromPDU b info | None => info end in
           CAAddDataToReceiveThread (ReceivedError endpoint (mk_error res info))
       end
   end)%m.

(** [res]: what the adapter makes of the message. *)
Definition transmit (g_chproxyUri : list Z) (now random : Z) (res : CAResult_t) (data : CAData_t)
    (pdu : coap_pdu_t) : H CAResult_t :=
  (if negb (ca_ok res) then CAErrorHandler g_chproxyUri (remoteEndpoint data) pdu res ;;; ret res
   else
     put_on_wire (mk_sent (remoteEndpoint data) pdu (dataType data)) ;;;
     let! res := with_retransmitted (fun c =>
       Retransmission.CARetransmissionSentData now random c (remoteEndpoint data) (dataType data)
         (coap_bytes pdu)) in
     ret match res with CA_STATUS_OK | CA_NOT_SUPPORTED => CA_STATUS_OK | _ => res end)%m.

(** The block options, and the message goes out; a message that gets no options is
    handed to the error handler as it was generated. *)
Definition send_unicast (g_chproxyUri : list Z) (prng now random : Z) (adapter_result : CAResult_t)
    (data : CAData_t) (code : Z) (info : CAInfo_t) : H CAResult_t :=
  (match CAGeneratePDU prng code info (remoteEndpoint data) with
   | None => CASendErrorInfo (remoteEndpoint data) info CA_SEND_FAILED ;;; ret CA_SEND_FAILED
   | Some (pdu, options) =>
       if CAIsSupportedBlockwiseTransfer (adapter (remoteEndpoint data)) then
         let! out := run_bwt (CAAddBlockOption pdu info (remoteEndpoint data) options) in
         match out.1 with
         | (CA_STATUS_OK, Some pdu) => transmit g_chproxyUri now random adapter_result data pdu
         | (res, _) => CAErrorHandler g_chproxyUri (remoteEndpoint data) pdu res ;;; ret res
         end
       else transmit g_chproxyUri now random adapter_result data pdu
   end)%m.

(** A multicast request is always a GET, and is not retransmitted. *)
Definition CAProcessMulticastData (g_chproxyUri : list Z) (prng : Z) (adapter_result : CAResult_t)
    (data : CAData_t) : H CAResult_t :=
  (match (match requestInfo data, responseInfo data with
          | Some r, _ => Some (CA_GET, req_info r)
          | None, Some r => Some (result r, resp_info r)
          | None, None => None
          end) with
   | None => ret CA_SEND_FAILED
   | Some (code, info) =>
       match CAGeneratePDU prng code info (remoteEndpoint data) with
       | None => CASendErrorInfo (remoteEndpoint data) info CA_SEND_FAILED ;;; ret CA_SEND_FAILED
       | Some (pdu, options) =>
           let! out :=
             (if CAIsSupportedBlockwiseTransfer (adapter (remoteEndpoint data)) then
                let! out := run_bwt (CAAddBlockOption pdu info (remoteEndpoint data) options) in
                ret out.1
              else ret (CA_STATUS_OK, Some pdu)) in
           match out with
           | (CA_STATUS_OK, Some pdu) =>
               if ca_ok adapter_result then
                 put_on_wire (mk_sent (remoteEndpoint data) pdu (dataType data)) ;;; ret CA_STATUS_OK
               else CAErrorHandler g_chproxyUri (remoteEndpoint data) pdu adapter_result ;;;
                    ret adapter_result
           | (res, _) => CAErrorHandler g_chproxyUri (remoteEndpoint data) pdu res ;;; ret res
           end
       end
   end)%m.

Definition CAProcessSendData (g_chproxyUri : list Z) (prng now random : Z)
    (adapter_result : CAResult_t) (data : CAData_t) : H CAResult_t :=
  (if SEND_TYPE_UNICAST =? send_type data then
     match requestInfo data, responseInfo data with
     | Some r, _ => send_unicast g_chproxyUri prng now random adapter_result data (method r) (req_info r)
     | None, Some r => send_unicast g_chproxyUri prng now random adapter_result data (result r) (resp_info r)
     | None, None => ret CA_STATUS_INVALID_PARAM
     end
   else if SEND_TYPE_MULTICAST =? send_type data then
     CAProcessMulticastData g_chproxyUri prng adapter_result data ;;; ret CA_STATUS_OK
   else ret CA_STATUS_OK)%m.

(** The send thread takes a message off its queue. *)
Definition CASendThreadProcess (g_chproxyUri : list Z) (prng now random : Z)
    (adapter_result : CAResult_t) : H unit :=
  (let! h := get in
   match g_sendThread h with
   | [] => ret tt
   | data :: q =>
       modify (with_send q) ;;;
       CAProcessSendData g_chproxyUri prng now random adapter_result data ;;; ret tt
   end)%m.

(** ** Messages for the stack to send *)

(** [msg] is what [sendMsg] points to, of the type that [dataType] names. *)
Definition CAPrepareSendData (endpoint : CAEndpoint_t) (msg : CARequestInfo_t + CAResponseInfo_t)
    (dataType : Z) : option (option CAData_t) :=
  let send_type (multicast : bool) := if multicast then SEND_TYPE_MULTICAST else SEND_TYPE_UNICAST in
  if CA_REQUEST_DATA =? dataType then
    match msg with
    | inl r => Some ((fun r => mk_cadata (send_type (req_isMulticast r)) endpoint (Some r) None dataType)
                     <$> CACloneRequestInfo r)
    | inr _ => None
    end
  else if (CA_RESPONSE_DATA =? dataType) || (CA_RESPONSE_FOR_RES =? dataType) then
    match msg with
    | inr r => Some ((fun r => mk_cadata (send_type (resp_isMulticast r)) endpoint None (Some r) dataType)
                     <$> CACloneResponseInfo r)
    | inl _ => None
    end
  else Some None.

(** [CAIsLocalEndpoint] of the interface controller. *)
Context (CAIsLocalEndpoint : CAEndpoint_t -> bool).

(** What the queues get when a message is to be sent, without the empty responses,
    which only a received message causes. *)
Definition queue_sends (l : list event) : H unit :=
  modify (fun h => with_send (g_sendThread h
    ++ flat_map (fun e => match e with SendThread d => [d] | _ => [] end) l) h).

Definition CADetachSendMessage (endpoint : CAEndpoint_t) (msg : CARequestInfo_t + CAResponseInfo_t)
    (dataType : Z) : H CAResult_t :=
  (let! data := demand (CAPrepareSendData endpoint msg dataType) in
   match data with
   | None => ret CA_MEMORY_ALLOC_FAILED
   | Some data =>
       if (SEND_TYPE_UNICAST =? send_type data) && CAIsLocalEndpoint (remoteEndpoint data) then
         CAAddDataToReceiveThread (Received data) ;;; ret CA_STATUS_OK
       else if CAIsSupportedBlockwiseTransfer (adapter endpoint) then
         let! out := run_bwt (CASendBlockWiseData data) in
         queue_sends out.2 ;;;
         match out.1 with
         | CA_NOT_SUPPORTED => CAAddDataToSendThread data ;;; ret CA_STATUS_OK
         | res => ret res
         end
       else CAAddDataToSendThread data ;;; ret CA_STATUS_OK
   end)%m.

(** [CASendDirectEmptyResponse] *)
Definition empty_response (ep : CAEndpoint_t) (messageId : Z) : H CAResult_t :=
  CADetachSendMessage ep
    (inr (mk_response CA_EMPTY (mk_info CA_MSG_ACKNOWLEDGE messageId None [] None 0 0 0 0 None
                                  CA_RESPONSE_DATA) false)) CA_RESPONSE_DATA.

(** The calls of the block-wise transfer, in their order.  An empty response, which
    the code sends before it changes the entry of the request, has no token and finds
    no entry (the entry of a request that has no token itself is not considered). *)
Fixpoint flush (l : list event) : H unit :=
  (match l with
   | [] => ret tt
   | SendThread d :: l => CAAddDataToSendThread d ;;; flush l
   | ReceiveThread d :: l => CAAddDataToReceiveThread (Received d) ;;; flush l
   | EmptyResponse ep id :: l => empty_response ep id ;;; flush l
   end)%m.

(** ** A message is received *)

(** The information of a message that cannot be parsed after header options were
    found is freed twice. *)
Definition parsed_info {A} (pdu : coap_pdu_t) (r : option (CAResult_t + A)) : option (option A) :=
  r ← r;
  match r with
  | inr a => Some (Some a)
  | inl _ => count ← CAGetOptionCount (p_options pdu);
             match count with O => Some None | S _ => None end
  end.

Definition CAGenerateHandlerData (g_chproxyUri : list Z) (endpoint : CAEndpoint_t)
    (pdu : coap_pdu_t) (dataType : Z) : H (option CAData_t) :=
  (if CA_RESPONSE_DATA =? dataType then
     let! r := demand (parsed_info pdu (CAGetResponseInfoFromPDU g_chproxyUri pdu)) in
     ret ((fun r => mk_cadata 0 endpoint None (Some r) dataType) <$> r)
   else if CA_REQUEST_DATA =? dataType then
     let! r := demand (parsed_info pdu (CAGetRequestInfoFromPDU g_chproxyUri pdu)) in
     match r with
     | None => ret None
     | Some r =>
         let! drop :=
           (if negb (type (req_info r) =? CA_MSG_CONFIRM) then
              fun h => let '(drop, hist) := CADropSecondMessage (requestHistory h) endpoint
                         (messageId (req_info r)) (token (req_info r)) in
                       Some (drop, with_history hist h)
            else ret false) in
         ret (if drop : bool then None else Some (mk_cadata 0 endpoint (Some r) None dataType))
     end
   else ret (Some (mk_cadata 0 endpoint None None dataType)))%m.
(** Errors go through [CAErrorHandler] above. *)

Definition as_unicast (d : CAData_t) : CAData_t :=
  mk_cadata SEND_TYPE_UNICAST (remoteEndpoint d) (requestInfo d) (responseInfo d) (dataType d).

(** A response takes the message it answers off the retransmission list; an empty
    one gets its token from there. *)
Definition answered (endpoint : CAEndpoint_t) (code : Z) (data : list Z) (cadata : CAData_t) :
    H CAData_t :=
  (let! saved := retransmission_received endpoint data in
   ret match saved with
       | Some b => if CA_EMPTY =? code
                   then update_response (fun r => mk_response (result r) (CAGetTokenFromPDU b (resp_info r))
                                                    (resp_isMulticast r)) cadata
                   else cadata
       | None => cadata
       end)%m.

(** [parsed]: what [coap_pdu_parse2] makes of [data]. *)
Definition mh_CAReceivedPacketCallback (g_chproxyUri : list Z) (endpoint : CAEndpoint_t)
    (data : list Z) (parsed : option (Z * coap_pdu_t)) : H unit :=
  (match data with
   | [] => ret tt
   | _ =>
       match CAParsePDU parsed with
       | None => ret tt
       | Some (pdu, code) =>
           let! cadata :=
             (if is_method code then CAGenerateHandlerData g_chproxyUri endpoint pdu CA_REQUEST_DATA
              else
                let! d := CAGenerateHandlerData g_chproxyUri endpoint pdu CA_RESPONSE_DATA in
                match d with
                | None => ret None
                | Some d => let! d := answered endpoint code data d in ret (Some d)
                end) in
           match cadata with
           | None => ret tt
           | Some cadata =>
               let cadata := as_unicast cadata in
               if CAIsSupportedBlockwiseTransfer (adapter endpoint) then
                 let! out := run_bwt (CAReceiveBlockWiseData g_chproxyUri pdu endpoint cadata
                                        (Z.of_nat (List.length data))) in
                 flush out.2 ;;;
                 match out.1 with
                 | (CA_NOT_SUPPORTED, cadata) | (CA_REQUEST_TIMEOUT, cadata) =>
                     CAAddDataToReceiveThread (Received cadata)
                 | _ => ret tt
                 end
               else CAAddDataToReceiveThread (Received cadata)
           end
       end
   end)%m.

(** ** A message is given up *)

(** [timeoutCallback] of the retransmission. *)
Definition CATimeoutCallback (endpoint : CAEndpoint_t) (pdu : list Z) : H unit :=
  (let info := CAGetTokenFromPDU pdu
                 (with_message (Retransmission.CAGetMessageTypeFromPduBinaryData pdu)
                    (Retransmission.CAGetMessageIdFromPduBinaryData pdu) no_info) in
   (if CAIsSupportedBlockwiseTransfer (adapter endpoint) then
      let! _ := run_bwt (CARemoveBlockDataFromListWithSeed (default [] (token info)) endpoint) in ret tt
    else ret tt) ;;;
   CAAddDataToReceiveThread (Received
     (mk_cadata SEND_TYPE_UNICAST endpoint None
        (Some (mk_response CA_RETRANSMIT_TIMEOUT info false)) 0)))%m.

(** The retransmission callbacks. *)
Fixpoint retransmission_events (l : list Retransmission.event) : H unit :=
  (match l with
   | [] => ret tt
   | Retransmission.DataSent _ _ _ _ :: l => retransmission_events l
   | Retransmission.TimedOut ep pdu :: l => CATimeoutCallback ep pdu ;;; retransmission_events l
   end)%m.

End handler.

End MessageHandler.
