(* ===== verification/BlockTransfer.v ===== *)
(** * A payload that is larger than a message

    What the two sides of a block-wise request do with one block: the sender cuts
    it out of the payload and numbers it ([CAAddBlockOption1]), the receiver appends
    it to what it has and asks for the next one or hands over the whole
    ([CASetNextBlockOption1]), the sender counts on ([block1_response]). *)

From S2P Require Import Prelude.
From S2P Require Import Status.
From S2P Require Import CaTypes.
From S2P Require Import LibCoap.
From S2P Require Import LibCoapReference.
From S2P Require Import CoapCodec.
From S2P Require Import Blockwise.
From S2P Require Import MessageHandler.

Module BlockTransfer.
Import CaTypes LibCoap CoapCodec Blockwise MessageHandler.

(** ** The table *)

(** The context with another entry at [i]. *)
Definition upd (i : nat) (d : CABlockData_t) (c : CABlockWiseContext_t) : CABlockWiseContext_t :=
  with_dataList (<[i := d]> (dataList c)) c.
Definition told (e : event) (c : CABlockWiseContext_t) : CABlockWiseContext_t :=
  with_log (log c ++ [e]) c.

(** The entry of [id] is [d], at index [i]. *)
Definition holds (c : CABlockWiseContext_t) (id : list Z) (i : nat) (d : CABlockData_t) : Prop :=
  find_block id (dataList c) = Some i /\ dataList c !! i = Some d.

Lemma find_block_some id l i d : find_block id l = Some i -> l !! i = Some d -> blockDataId d = id.
Proof.
  revert i. induction l as [|x l IH]; intros i; [done|]. cbn [find_block].
  unfold CABlockidMatches. case_bool_decide as E.
  - by intros [= <-] [= <-].
  - destruct (find_block id l) as [j|] eqn:Ej; [|done]. intros [= <-]. by apply IH.
Qed.

Lemma find_block_insert id l i d d' : l !! i = Some d -> blockDataId d' = blockDataId d ->
  find_block id (<[i := d']> l) = find_block id l.
Proof.
  revert i. induction l as [|x l IH]; intros i; [done|]. destruct i as [|i].
  - intros [= ->] E. cbn. unfold CABlockidMatches. by rewrite E.
  - intros Hl E. change (<[S i := d']> (x :: l)) with (x :: <[i := d']> l). cbn [find_block].
    by rewrite (IH i).
Qed.

Lemma find_block_app id l d : find_block id l = None -> blockDataId d = id ->
  find_block id (l ++ [d]) = Some (List.length l).
Proof.
  intros Hn <-. induction l as [|x l IH]; cbn in *.
  - unfold CABlockidMatches. by rewrite bool_decide_true.
  - destruct (CABlockidMatches _ x); [done|].
    destruct (find_block (blockDataId d) l); [done|]. by rewrite IH.
Qed.

Lemma holds_upd c id i d d' : holds c id i d -> blockDataId d' = blockDataId d ->
  holds (upd i d' c) id i d'.
Proof.
  intros [Hf Hl] E. unfold upd. split; cbn [dataList with_dataList].
  - by rewrite (find_block_insert _ _ _ d).
  - apply list_lookup_insert_eq. by eapply lookup_lt_Some.
Qed.

Lemma holds_told c id i d e : holds c id i d -> holds (told e c) id i d.
Proof. done. Qed.

Lemma holds_id c id i d : holds c id i d -> blockDataId d = id.
Proof. intros [H1 H2]. by eapply find_block_some. Qed.

Lemma upd_upd i d d' c : upd i d' (upd i d c) = upd i d' c.
Proof. unfold upd. cbn. by rewrite list_insert_insert_eq. Qed.

Lemma upd_told i d e c : upd i d (told e c) = told e (upd i d c).
Proof. done. Qed.

Lemma upd_same c id i d : holds c id i d -> upd i d c = c.
Proof. intros [_ Hl]. unfold upd. rewrite list_insert_id by done. by destruct c. Qed.

(** The context with one more entry: new entries come last. *)
Definition adding (d : CABlockData_t) (c : CABlockWiseContext_t) : CABlockWiseContext_t :=
  with_dataList (dataList c ++ [d]) c.
Definition fresh (id : list Z) (c : CABlockWiseContext_t) : Prop :=
  find_block id (dataList c) = None.
Notation last_index c := (List.length (dataList c)).

Lemma holds_adding id c d : fresh id c -> blockDataId d = id ->
  holds (adding d c) id (last_index c) d.
Proof.
  intros Hn E. split; cbn; [by apply find_block_app|]. by apply list_lookup_middle.
Qed.

Lemma upd_adding d d' c : upd (last_index c) d' (adding d c) = adding d' c.
Proof.
  unfold upd, adding. cbn. by rewrite insert_app_r_alt, Nat.sub_diag by done.
Qed.

Lemma with_found_holds {A} id (f : nat -> CABlockData_t -> B A) none c i d :
  holds c id i d -> with_found id f none c = f i d c.
Proof.
  intros [Hf Hl]. unfold with_found, CAGetBlockDataFromBlockDataList, entry.
  run. rewrite Hf. unfold bind, get, demand. by rewrite Hl.
Qed.

Lemma entry_holds c id i d : holds c id i d -> entry i c = Some (d, c).
Proof. intros [_ Hl]. unfold entry, bind, get, demand. by rewrite Hl. Qed.

Lemma put_entry_upd i d c : put_entry i d c = Some (tt, upd i d c).
Proof. done. Qed.

(** ** The blocks of a payload *)

(** Block [k] and the number of bytes up to its start. *)
Definition start (k : nat) : Z := 1024 * Z.of_nat k.
Definition more (L : list Z) (k : nat) : bool := start (S k) <? Z.of_nat (List.length L).
Definition blk (L : list Z) (k : nat) : coap_block_t :=
  mk_block (Z.of_nat k) (if more L k then 1 else 0) CA_DEFAULT_BLOCK_SIZE.
Definition chunk (L : list Z) (k : nat) : list Z := slice L (Z.of_nat k) CA_DEFAULT_BLOCK_SIZE.

(** The block exists, and its number fits the option. *)
Definition block_ok (L : list Z) (k : nat) : Prop :=
  start k < Z.of_nat (List.length L) <= 2 ^ 30.

(** What has been put together after [k] blocks. *)
Definition gathered (L : list Z) (k : nat) : list Z :=
  take (1024 * k) L ++ replicate (List.length L - 1024 * k) 0.

Lemma chunk_take L k : chunk L k = take 1024 (drop (1024 * k) L).
Proof.
  unfold chunk, slice, block_size, CA_DEFAULT_BLOCK_SIZE, CA_BLOCK_SIZE_1024_BYTE.
  change (Z.to_nat (Z.shiftl 1 (6 + 4))) with 1024%nat. f_equal. f_equal.
  change (Z.shiftl 1 (6 + 4)) with 1024. lia.
Qed.

Lemma chunk_length L k : block_ok L k -> List.length (chunk L k) = (1024 `min` (List.length L - 1024 * k))%nat.
Proof. intros _. by rewrite chunk_take, length_take, length_drop. Qed.

Lemma chunk_full L k : block_ok L k -> more L k = true -> Z.of_nat (List.length (chunk L k)) = 1024.
Proof.
  unfold more, start. intros H Hm%Z.ltb_lt. rewrite chunk_length by done. lia.
Qed.

Lemma chunk_last L k : block_ok L k -> more L k = false ->
  start k + Z.of_nat (List.length (chunk L k)) = Z.of_nat (List.length L).
Proof.
  unfold more, block_ok, start. intros H Hm%Z.ltb_ge. rewrite chunk_length by done. lia.
Qed.

Lemma chunk_nonempty L k : block_ok L k -> chunk L k <> [].
Proof.
  intros H. pose proof (chunk_length L k H) as Hl. unfold block_ok, start in H.
  destruct (chunk L k); [|done]. cbn [List.length] in Hl. lia.
Qed.

Lemma gathered_0 L : gathered L 0 = replicate (List.length L) 0.
Proof. unfold gathered. by rewrite Nat.mul_0_r, Nat.sub_0_r. Qed.

Lemma gathered_length L k : List.length (gathered L k) = List.length L.
Proof. unfold gathered. rewrite length_app, length_take, length_replicate. lia. Qed.

Lemma gathered_last L k : more L k = false -> gathered L (S k) = L.
Proof.
  unfold more, start. intros Hm%Z.ltb_ge. unfold gathered.
  rewrite take_ge by lia. replace (List.length L - 1024 * S k)%nat with 0%nat by lia.
  apply app_nil_r.
Qed.

Lemma gather_block L k : block_ok L k ->
  write_block (gathered L k) (start k) (chunk L k) = Some (gathered L (S k)).
Proof.
  intros H. pose proof (chunk_length L k H) as Hc. unfold block_ok, start in H.
  set (n := List.length (chunk L k)) in *.
  assert (E : gathered L k = take (1024 * k) L ++ replicate n 0
            ++ replicate (List.length L - 1024 * S k) 0).
  { unfold gathered. rewrite <- replicate_add. do 2 f_equal. lia. }
  rewrite E, write_block_app; [|unfold start; rewrite length_take; lia|by rewrite length_replicate].
  rewrite app_assoc. unfold gathered. do 2 f_equal. rewrite chunk_take.
  replace (1024 * S k)%nat with (1024 * k + 1024)%nat by lia. apply take_take_drop.
Qed.

(** ** The block options *)

Section transfer.
Context {LC : LibCoap} {LL : LibCoapLaws}.

Lemma block_value_small n b : 0 <= n < 2 ^ 20 -> b = 0 \/ b = 1 ->
  block_value (mk_block n b 6) = n * 16 + (b * 8 + 6).
Proof.
  intros Hn Hb. unfold block_value, BLOCK_NUMBER_IDX. cbn [num m szx].
  rewrite wrap_id by (unfold in_width; rewrite Z.shiftl_mul_pow2 by lia; lia).
  rewrite <- Z.lor_assoc.
  assert (E : Z.lor (Z.shiftl b 3) 6 = b * 8 + 6) by (by destruct Hb as [-> | ->]).
  rewrite E. apply (lor_shiftl_add n (b * 8 + 6) 4); lia.
Qed.

Lemma block_of_value n b : 0 <= n < 2 ^ 20 -> b = 0 \/ b = 1 ->
  block_of (block_value (mk_block n b 6)) = mk_block n b 6.
Proof.
  intros Hn Hb. rewrite block_value_small by done. unfold block_of.
  rewrite !Z.shiftr_div_pow2 by lia.
  rewrite (Z.land_ones _ 3 : forall _, Z.land _ 7 = _) by lia.
  rewrite (Z.land_ones _ 1 : forall _, Z.land _ 1 = _) by lia.
  f_equal; (destruct Hb as [-> | ->]; Z.div_mod_to_equations; lia).
Qed.

Definition block1_option (L : list Z) (k : nat) : coap_option :=
  (COAP_OPTION_BLOCK1, coap_encode_var_bytes (block_value (blk L k))).
Definition size1_option (L : list Z) : coap_option :=
  (COAP_OPTION_SIZE1, coap_encode_var_bytes (Z.of_nat (List.length L))).
Definition block_options (L : list Z) (k : nat) : list coap_option :=
  block1_option L k :: if (k =? 0)%nat then [size1_option L] else [].

Lemma block_ok_num L k : block_ok L k -> 0 <= Z.of_nat k < 2 ^ 20.
Proof. unfold block_ok, start. lia. Qed.

Lemma block_value_blk L k : block_ok L k -> 0 <= block_value (blk L k) < 2 ^ 24.
Proof.
  intros H%block_ok_num. unfold blk, CA_DEFAULT_BLOCK_SIZE, CA_BLOCK_SIZE_1024_BYTE.
  rewrite block_value_small by (try done; destruct (more L k); auto). destruct (more L k); lia.
Qed.

Lemma block_of_blk L k : block_ok L k -> block_of (block_value (blk L k)) = blk L k.
Proof.
  intros H%block_ok_num. apply block_of_value; [done|]. destruct (more L k); auto.
Qed.

Lemma block1_node L k : block_ok L k ->
  CACreateNewOptionNode COAP_OPTION_BLOCK1 (coap_encode_var_bytes (block_value (blk L k)))
  = block1_option L k.
Proof.
  intros H%block_value_blk. apply (node_encoded _ _ 3); [lia|lia|cbn; lia|].
  intros b n. rewrite opt_def_block1. by intros [= _ <-].
Qed.

Lemma size1_node L k : block_ok L k ->
  CACreateNewOptionNode COAP_OPTION_SIZE1 (coap_encode_var_bytes (Z.of_nat (List.length L)))
  = size1_option L.
Proof.
  intros H. unfold block_ok in H. apply (node_encoded _ _ 4); [lia|lia|cbn; lia|].
  intros b n. rewrite opt_def_size1. by intros [= _ <-].
Qed.

(** The options of a request, cut where block options go. *)
Definition options_before (info : CAInfo_t) (segs query : list (list Z)) : list coap_option :=
  segments COAP_OPTION_URI_PATH segs ++ content_options info
  ++ segments COAP_OPTION_URI_QUERY query ++ accept_options info.

Lemma block_message_options_split info segs query b :
  block_message_options info segs query b = options_before info segs query ++ b ++ version_options info.
Proof. unfold block_message_options, options_before. by rewrite <- !app_assoc. Qed.

Lemma options_before_keys info segs query :
  Forall (fun o => o.1 <= COAP_OPTION_ACCEPT) (options_before info segs query).
Proof.
  unfold options_before, content_options, accept_options, format_option. rewrite !Forall_app.
  split_and!; try (by apply segments_keys); destruct (_ =? _); repeat constructor; done.
Qed.

Lemma version_options_keys info : Forall (fun o => 2049 <= o.1) (version_options info).
Proof.
  unfold version_options, version_option. rewrite Forall_app.
  split; destruct (_ =? _); repeat constructor; done.
Qed.

(** The block options find their place. *)
Lemma block_options_inserted info segs query L k : block_ok L k ->
  CAAddBlockOptionImpl (blk L k) COAP_OPTION_BLOCK1
    (if num (blk L k) =? 0
     then CAAddBlockSizeOption COAP_OPTION_SIZE1 (Z.of_nat (List.length L))
            (message_options info segs query)
     else message_options info segs query)
  = block_message_options info segs query (block_options L k).
Proof.
  intros H. unfold message_options. rewrite !block_message_options_split.
  pose proof (options_before_keys info segs query) as Hb. pose proof (version_options_keys info) as Hv.
  unfold CAAddBlockOptionImpl, CAAddBlockSizeOption, block_options, blk. cbn [num app].
  fold (blk L k).
  assert (E1 : forall l2, Forall (fun o => COAP_OPTION_BLOCK1 < o.1) l2 ->
    insert_option (options_before info segs query ++ l2) COAP_OPTION_BLOCK1
      (coap_encode_var_bytes (block_value (blk L k)))
    = options_before info segs query ++ block1_option L k :: l2).
  { intros l2 Hl2. apply insert_option_mid; [by apply block1_node| |done].
    eapply Forall_impl; [exact Hb|]. cbn. unfold COAP_OPTION_ACCEPT, COAP_OPTION_BLOCK1. lia. }
  assert (Hv' : forall n, n < 2049 -> Forall (fun o : coap_option => n < o.1) (version_options info))
    by (intros n Hn; eapply Forall_impl; [exact Hv|]; cbn; lia).
  destruct k as [|k]; cbn [Nat.eqb].
  - change (Z.of_nat 0 =? 0) with true. cbn match.
    rewrite (insert_option_mid _ _ COAP_OPTION_SIZE1 _ (coap_encode_var_bytes (Z.of_nat (List.length L))));
      [|by apply (size1_node L 0)| |by apply Hv'].
    + rewrite E1; [done|]. constructor; [done|by apply Hv'].
    + eapply Forall_impl; [exact Hb|]. cbn. unfold COAP_OPTION_ACCEPT, COAP_OPTION_SIZE1. lia.
  - rewrite (proj2 (Z.eqb_neq _ _)) by lia. rewrite E1; [done|by apply Hv'].
Qed.

Lemma find_option_skip k l1 l2 : Forall (fun o => o.1 <> k) l1 ->
  find_option k (l1 ++ l2) = find_option k l2.
Proof.
  induction 1 as [|[k' v] l1 Ho _ IH]; [done|]. cbn [app find_option].
  cbn in Ho. by rewrite (proj2 (Z.eqb_neq _ _)).
Qed.
Lemma find_option_none k l : Forall (fun o => o.1 <> k) l -> find_option k l = None.
Proof. intros H. rewrite <- (app_nil_r l). by rewrite find_option_skip. Qed.

(** What the receiver finds: a block1 option, no block2 option, and the size with
    the first block. *)
Lemma received_options info segs query L k pdu : block_ok L k ->
  p_options pdu = block_message_options info segs query (block_options L k) ->
  coap_get_block pdu COAP_OPTION_BLOCK1 = Some (blk L k) /\
  coap_get_block pdu COAP_OPTION_BLOCK2 = None /\
  (forall t, CAIsPayloadLengthInPduWithBlockSizeOption pdu COAP_OPTION_SIZE1 t
             = if (k =? 0)%nat then (true, Z.of_nat (List.length L)) else (false, t)).
Proof.
  intros H Eo. rewrite !get_block, !check_option, Eo, block_message_options_split.
  assert (Hb : forall n, 17 < n -> Forall (fun o => o.1 <> n) (options_before info segs query)).
  { intros n Hn. eapply Forall_impl; [apply options_before_keys|]. cbn. unfold COAP_OPTION_ACCEPT. lia. }
  assert (Hv : forall n, n < 2049 -> find_option n (version_options info) = None).
  { intros n Hn. apply find_option_none. eapply Forall_impl; [apply version_options_keys|]. cbn. lia. }
  rewrite !(find_option_skip _ (options_before info segs query)) by (by apply Hb). unfold block_options. split_and!.
  - cbn [app find_option block1_option]. rewrite Z.eqb_refl.
    pose proof (block_value_blk L k H) as Hval.
    rewrite (proj2 (Nat.ltb_ge _ _)) by (apply encode_length; [lia|cbn; lia]).
    rewrite decode_encode by lia. by rewrite block_of_blk.
  - destruct k; cbn [Nat.eqb app find_option block1_option size1_option COAP_OPTION_BLOCK1
      COAP_OPTION_BLOCK2 COAP_OPTION_SIZE1 Z.eqb Pos.eqb]; by rewrite Hv.
  - intros t. unfold CAIsPayloadLengthInPduWithBlockSizeOption. cbn [Z.eqb Pos.eqb COAP_OPTION_SIZE1
      COAP_OPTION_SIZE2 negb andb].
    rewrite check_option, Eo, block_message_options_split, find_option_skip by (by apply Hb).
    unfold block_options.
    destruct k; cbn [Nat.eqb app find_option block1_option size1_option COAP_OPTION_BLOCK1
      COAP_OPTION_SIZE1 Z.eqb Pos.eqb]; [|by rewrite Hv].
    unfold block_ok in H. by rewrite decode_encode by lia.
Qed.

(** ** A block is sent *)

Lemma method_code c : is_method c = true -> COAP_RESPONSE_CODE c = c /\ CA_RESPONSE_CODE c = c.
Proof.
  intros H.
  assert (E : COAP_RESPONSE_CODE c = c).
  { unfold is_method in H. rewrite !orb_true_iff, !Z.eqb_eq in H.
    destruct H as [[[->| ->]| ->]| ->]; by rewrite response_code. }
  split; [done|]. rewrite <- E at 1. apply code_parsed.
  unfold is_method in H. rewrite existsb_app. cbn [existsb].
  rewrite !orb_true_iff in H. rewrite !orb_true_iff. tauto.
Qed.

Lemma CASetMoreBit_blk L k d : block_ok L k -> num (block1 d) = Z.of_nat k ->
  szx (block1 d) = CA_DEFAULT_BLOCK_SIZE ->
  CASetMoreBitFromBlock (Z.of_nat (List.length L)) (block1 d) = blk L k.
Proof.
  intros H En Es. unfold CASetMoreBitFromBlock, blk, more, BLOCK_NUMBER_IDX. rewrite En, Es.
  unfold block_ok, start in *.
  rewrite (wrap_id 32 (Z.of_nat k + 1)) by (unfold in_width; lia).
  change (CA_DEFAULT_BLOCK_SIZE + 4) with 10. rewrite Z.shiftl_mul_pow2 by lia.
  rewrite wrap_id by (unfold in_width; lia).
  replace ((Z.of_nat k + 1) * 2 ^ 10) with (1024 * Z.of_nat (S k)) by lia. done.
Qed.

Lemma block_options_size info segs query L k : block_ok L k ->
  options_size (block_message_options info segs query (block_options L k))
  <= options_size (message_options info segs query) + 17.
Proof.
  intros H. unfold message_options. rewrite !block_message_options_split, !options_size_app.
  pose proof (block_value_blk L k H).
  pose proof (encode_length (block_value (blk L k)) 3 ltac:(lia) ltac:(cbn; lia)).
  unfold block_ok in H.
  pose proof (encode_length (Z.of_nat (List.length L)) 4 ltac:(lia) ltac:(cbn; lia)).
  unfold block_options. destruct k; cbn [Nat.eqb options_size foldr block1_option size1_option snd]; lia.
Qed.

(** The message that carries block [k]. *)
Definition block_request (ty id c : Z) (t : list Z) (info : CAInfo_t) (segs query : list (list Z))
    (L : list Z) (k : nat) : coap_pdu_t :=
  mk_pdu ty id c t (block_message_options info segs query (block_options L k)) (Some (chunk L k)).

Definition room (info : CAInfo_t) (segs query : list (list Z)) (t : list Z) : Prop :=
  4 + Z.of_nat (List.length t) + options_size (message_options info segs query) + 17 + 1025
  <= COAP_MAX_PDU_SIZE.

Lemma add_block ty id c t info segs query L k : block_ok L k -> room info segs query t ->
  let p := mk_pdu ty id c t [] None in
  let opts := block_message_options info segs query (block_options L k) in
  CAAddOptionToPDU p opts = Some (with_options opts p) /\
  coap_add_block (with_options opts p) L (num (blk L k)) (szx (blk L k))
  = Some (block_request ty id c t info segs query L k).
Proof.
  intros H Hr p opts. pose proof (block_options_size info segs query L k H) as Hs. fold opts in Hs.
  unfold room in Hr. split.
  - apply (add_options_ordered opts p 0); try done.
    + apply block_message_options_ordered; unfold block_options;
        destruct k; repeat constructor; done.
    + unfold pdu_size, p. cbn [p_token p_options p_data options_size foldr data_size]. lia.
  - unfold block_ok, start in H. cbn [num szx blk].
    rewrite add_block; [|lia|unfold CA_DEFAULT_BLOCK_SIZE, CA_BLOCK_SIZE_1024_BYTE; lia|].
    + fold (chunk L k). rewrite add_data; [done|by apply chunk_nonempty|done|].
      unfold pdu_size. cbn [p_token p_options p_data data_size with_options p].
      rewrite chunk_length by done. lia.
    + change (block_size CA_DEFAULT_BLOCK_SIZE) with 1024. lia.
Qed.

Definition sent_with_id (id : Z) (d : CAData_t) : CAData_t :=
  update_request (fun r => with_message (type r) id r) d.

Lemma CAAddBlockOption_block c i d ep ty id code t info info' segs query L k :
  block_ok L k -> room info segs query t -> is_method code = true ->
  payload info' = Some L ->
  holds c (CACreateBlockDatablockId t ep) i d -> btype d = COAP_OPTION_BLOCK1 ->
  num (block1 d) = Z.of_nat k -> szx (block1 d) = CA_DEFAULT_BLOCK_SIZE ->
  CAAddBlockOption (mk_pdu ty id code t [] None) info' ep (message_options info segs query) c
  = Some ((CA_STATUS_OK, Some (block_request ty id code t info segs query L k)),
          upd i (set_sent (sent_with_id id (sentData d)) (set_block1 (blk L k) d)) c).
Proof.
  intros H Hr Hm Hp Hd Hb En Es. unfold CAAddBlockOption. rewrite Hp. change (default [] (Some L)) with L.
  cbn [p_token p_code].
  destruct (method_code code Hm) as [_ Hc].
  rewrite (proj2 (Z.ltb_ge _ _)) by (unfold UINT_MAX, block_ok in *; lia). cbv zeta.
  rewrite Hc, (proj2 (Z.eqb_neq _ _)) by (intros E; rewrite <- E in Hm; done).
  unfold CAGetBlockOptionType. rewrite (bind_some _ _ c COAP_OPTION_BLOCK1 c)
    by (by rewrite (with_found_holds _ _ _ _ _ _ Hd), <- Hb).
  change (COAP_OPTION_BLOCK2 =? COAP_OPTION_BLOCK1) with false. rewrite Z.eqb_refl. cbn match.
  set (d1 := set_block1 (blk L k) d). assert (Hd1 : holds (upd i d1 c) _ i d1) by (by eapply holds_upd).
  destruct (add_block ty id code t info segs query L k H Hr) as [Ha1 Ha2].
  erewrite bind_some.
  2:{ unfold CAAddBlockOption1. rewrite (with_found_holds _ _ _ _ _ _ Hd). cbn [p_code]. rewrite Hm.
      rewrite (CASetMoreBit_blk L k) by done. unfold put_block1.
      rewrite bind_assoc, (bind_some _ _ _ _ _ (entry_holds _ _ _ _ Hd)).
      rewrite (bind_some _ _ _ _ _ (put_entry_upd _ _ _)). cbv zeta.
      rewrite block_options_inserted by done. rewrite Ha1, Ha2. done. }
  unfold update_sent_id. cbn [ca_ok negb fst p_code]. rewrite Hm.
  unfold CAGetBlockDataFromBlockDataList. fold d1. destruct Hd1 as [Hf Hl] eqn:Edummy. clear Edummy.
  run. cbn [p_token]. rewrite Hf. unfold CAUpdateMessageId.
  erewrite bind_some; [|rewrite (with_found_holds _ _ _ _ _ _ (conj Hf Hl)); reflexivity].
  cbn [ca_ok p_id]. unfold ret. do 2 f_equal. exact (upd_upd i d1 _ c).
Qed.

(** ** A block is received *)

(** The data of the answers of the receiver. *)
Definition answer_data (ep : CAEndpoint_t) (t : list Z) (res ty id : Z) : CAData_t :=
  mk_cadata SEND_TYPE_UNICAST ep None
    (Some (mk_response res (mk_info ty id (Some t) [] None 0 0 0 0 None 0) false)) 0.

Lemma answer_data_clone ep t res ty id : t <> [] ->
  existsb (Z.eqb res) CAResponseResult_values = true ->
  CACloneCAData (answer_data ep t res ty id) = answer_data ep t res ty id.
Proof.
  intros Ht Hr. unfold CACloneCAData, answer_data. cbn [requestInfo responseInfo mbind option_bind].
  unfold CACloneResponseInfo. cbn [result]. rewrite Hr. by destruct t.
Qed.

(** The entry of the receiver when [k] blocks have come. *)
Record gathering (ep : CAEndpoint_t) (t L : list Z) (k : nat) (d : CABlockData_t) : Prop := {
  g_id : blockDataId d = CACreateBlockDatablockId t ep;
  g_btype : btype d = COAP_OPTION_BLOCK1;
  g_szx : szx (block1 d) = CA_DEFAULT_BLOCK_SIZE;
  g_len : receivedPayloadLen d = start k;
  g_none : k = O -> bpayload d = None;
  g_some : k <> O -> bpayload d = Some (gathered L k) /\ payloadLength d = Z.of_nat (List.length L);
  g_data : exists res ty id, sentData d = answer_data ep t res ty id }.

(** A request as it arrives, with the payload [p]. *)
Definition request_with (p : list Z) (rd : CAData_t) : Prop :=
  responseInfo rd = None /\ dataType rd = CA_REQUEST_DATA /\
  exists r, requestInfo rd = Some r /\ payload (req_info r) = Some p /\ is_method (method r) = true.

Lemma request_with_payload p rd : request_with p rd -> CAGetPayloadInfo rd = Some p.
Proof. intros (_ & _ & r & Er & Ep & _). unfold CAGetPayloadInfo. by rewrite Er. Qed.

Definition with_total (L : list Z) (d : CABlockData_t) : CABlockData_t :=
  set_received (bpayload d) (Z.of_nat (List.length L)) (receivedPayloadLen d) d.
Definition with_block (L : list Z) (k : nat) (d : CABlockData_t) : CABlockData_t :=
  set_received (Some (gathered L (S k))) (Z.of_nat (List.length L))
    (start k + Z.of_nat (List.length (chunk L k))) d.

Lemma block_octets L k : block_ok L k -> in_width 64 (start k + Z.of_nat (List.length (chunk L k))).
Proof. intros H. unfold in_width. rewrite chunk_length by done. unfold block_ok, start in *. lia. Qed.

Lemma CACheckBlockErrorType_ok ep t L k d rd dataLen : block_ok L k -> gathering ep t L k d ->
  request_with (chunk L k) rd ->
  CACheckBlockErrorType (with_total L d) (blk L k) rd COAP_OPTION_BLOCK1 dataLen
  = (CA_BLOCK_UNKNOWN, with_total L d).
Proof.
  intros H Hg Hrd. pose proof (block_octets L k H) as Hw. unfold CACheckBlockErrorType.
  rewrite (request_with_payload _ _ Hrd).
  cbn [payload_length blk num m szx with_total set_received receivedPayloadLen payloadLength].
  rewrite (g_len _ _ _ _ _ Hg). rewrite Z.eqb_refl.
  change (BLOCK_SIZE CA_DEFAULT_BLOCK_SIZE) with 1024. fold (start k). rewrite Z.eqb_refl.
  cbn [negb]. destruct (more L k) eqn:Em.
  - rewrite chunk_full by done. done.
  - cbn [Z.eqb negb andb]. rewrite (proj2 (Z.eqb_neq _ _)) by (unfold block_ok, start in H; lia).
    cbn [negb]. rewrite wrap_id by done. by rewrite chunk_last, Z.eqb_refl.
Qed.

Lemma CAUpdatePayloadData_block ep t L k d rd : block_ok L k -> gathering ep t L k d ->
  request_with (chunk L k) rd ->
  CAUpdatePayloadData (with_total L d) rd CA_BLOCK_UNKNOWN (k =? 0)%nat COAP_OPTION_BLOCK1
  = Some (Some (with_block L k d)).
Proof.
  intros H Hg Hrd. pose proof (block_octets L k H) as Hw. unfold CAUpdatePayloadData.
  rewrite (request_with_payload _ _ Hrd). rewrite !bool_decide_false by done.
  cbn [with_total set_received receivedPayloadLen payloadLength bpayload].
  rewrite (g_len _ _ _ _ _ Hg). rewrite wrap_id by done.
  assert (HN : Z.of_nat (List.length L) =? 0 = false)
    by (apply Z.eqb_neq; unfold block_ok, start in H; lia).
  rewrite HN. cbn [negb andb].
  assert (Hread : read_block (chunk L k) 0 (Z.of_nat (List.length (chunk L k))) = Some (chunk L k)).
  { rewrite <- (app_nil_r (chunk L k)) at 1. by apply (read_block_app []). }
  rewrite Hread. cbn [mbind option_bind].
  assert (Hbuf : (if (k =? 0)%nat then calloc_copy (Z.of_nat (List.length L)) (bpayload d) (start k)
                  else bpayload d) = Some (gathered L k)).
  { destruct k; cbn [Nat.eqb].
    - rewrite (g_none _ _ _ _ _ Hg) by done. unfold calloc_copy. rewrite Nat2Z.id.
      by rewrite gathered_0; destruct (replicate (List.length L) 0).
    - by destruct (g_some _ _ _ _ _ Hg). }
  rewrite Hbuf. cbn [mbind option_bind]. by rewrite gather_block.
Qed.

Definition received_entry (L : list Z) (k : nat) (d : CABlockData_t) : CABlockData_t :=
  set_block1 (blk L k) (with_block L k d).

Lemma received_gathering ep t L k d res ty id : block_ok L k -> more L k = true ->
  gathering ep t L k d ->
  gathering ep t L (S k) (set_sent (answer_data ep t res ty id) (received_entry L k d)).
Proof.
  intros H Hm Hg. split; cbn; try done.
  - by destruct Hg.
  - by destruct Hg.
  - rewrite chunk_full by done. unfold start. lia.
  - by eauto.
Qed.

(** The entry is brought up to date, whatever comes next. *)
Lemma block1_request_block i pdu rd ep t L k dataLen c d : block_ok L k ->
  gathering ep t L k d -> holds c (CACreateBlockDatablockId t ep) i d ->
  request_with (chunk L k) rd -> is_method (p_code pdu) = true ->
  CAIsPayloadLengthInPduWithBlockSizeOption pdu COAP_OPTION_SIZE1 (payloadLength d)
  = (if (k =? 0)%nat then (true, Z.of_nat (List.length L)) else (false, payloadLength d)) ->
  block1_request i pdu rd (blk L k) dataLen (CACreateBlockDatablockId t ep) c
  = next_or_exit pdu rd (if more L k then CA_OPTION1_REQUEST_BLOCK else CA_OPTION1_REQUEST_LAST_BLOCK)
      (CACreateBlockDatablockId t ep) (upd i (received_entry L k d) c).
Proof.
  intros H Hg Hd Hrd Hm Hsz. unfold block1_request.
  rewrite (bind_some _ _ _ _ _ (entry_holds _ _ _ _ Hd)), Hsz.
  assert (Et : (if (k =? 0)%nat then (true, Z.of_nat (List.length L)) else (false, payloadLength d))
               = ((k =? 0)%nat, Z.of_nat (List.length L))).
  { destruct k; [done|]. by destruct (g_some _ _ _ _ _ Hg) as [_ ->]. }
  rewrite Et. fold (with_total L d). rewrite (CACheckBlockErrorType_ok ep t L k) by done.
  rewrite (bind_some _ _ _ _ _ (put_entry_upd _ _ _)), bool_decide_false by done.
  rewrite (CAUpdatePayloadData_block ep t L k) by done.
  assert (H1 : holds (upd i (with_total L d) c) (CACreateBlockDatablockId t ep) i (with_total L d))
    by (by eapply holds_upd).
  assert (H2 : holds (upd i (with_block L k d) (upd i (with_total L d) c))
                 (CACreateBlockDatablockId t ep) i (with_block L k d)) by (by eapply holds_upd).
  cbn [demand]. rewrite (bind_some _ _ _ _ _ eq_refl).
  rewrite (bind_some _ _ _ _ _ (put_entry_upd _ _ _)).
  unfold update_options. rewrite bind_assoc, (bind_some _ _ _ _ _ (entry_holds _ _ _ _ H2)).
  assert (Ec : is_error_code (CA_RESPONSE_CODE (p_code pdu)) = false).
  { destruct (method_code _ Hm) as [_ ->]. unfold is_method in Hm.
    rewrite !orb_true_iff, !Z.eqb_eq in Hm. by destruct Hm as [[[->| ->]| ->]| ->]. }
  unfold CAUpdateBlockOptionItems. rewrite Ec. cbn [mbind option_bind].
  unfold CANegotiateBlockSize. change (COAP_OPTION_BLOCK2 =? COAP_OPTION_BLOCK1) with false.
  rewrite Z.eqb_refl, Hm. cbn [negb]. cbn [with_block set_received block1].
  rewrite (g_szx _ _ _ _ _ Hg). cbn [blk szx]. rewrite Z.ltb_irrefl.
  unfold CAUpdateBlockData. change (COAP_OPTION_BLOCK2 =? COAP_OPTION_BLOCK1) with false.
  cbn match. fold (blk L k). fold (received_entry L k d).
  change (CA_BLOCK_SIZE_1024_BYTE <? szx (blk L k)) with false. cbn match.
  rewrite bind_assoc, (bind_some _ _ _ _ _ (put_entry_upd _ _ _)).
  rewrite (bind_some _ _ _ _ _ eq_refl). rewrite !upd_upd.
  cbn [m blk]. by destruct (more L k).
Qed.

Lemma ask_next pdu rd i ep t res ty id c d :
  holds c (CACreateBlockDatablockId t ep) i d -> sentData d = answer_data ep t res ty id ->
  t <> [] -> is_method (p_code pdu) = true ->
  let a := answer_data ep t CA_CONTINUE (answer_type (p_type pdu)) (p_id pdu) in
  next_or_exit pdu rd CA_OPTION1_REQUEST_BLOCK (CACreateBlockDatablockId t ep) c
  = Some (CA_STATUS_OK, told (SendThread a) (upd i (set_sent a d) c)).
Proof.
  intros Hd Ed Ht Hm a. unfold next_or_exit. cbn [CAProcessNextStep]. unfold CASendBlockMessage.
  rewrite (bind_some _ _ c CA_STATUS_OK (told (SendThread a) (upd i (set_sent a d) c))); [done|].
  rewrite (with_found_holds _ _ _ _ _ _ Hd), Ed, Hm. cbv zeta.
  rewrite (bind_some _ _ _ _ _ eq_refl).
  change (update_response _ (answer_data ep t res ty id)) with a.
  rewrite (bind_some _ _ _ _ _ (put_entry_upd _ _ _)). unfold CAAddSendThreadQueue.
  assert (Ec : CACloneCAData a = a) by (by apply answer_data_clone). by rewrite Ec.
Qed.

(** The request that is handed over: the last one, with the whole payload. *)
Definition whole (L : list Z) (rd : CAData_t) : CAData_t :=
  with_request ((fun r => mk_request (method r) (with_payload (Some L) (CACloneInfo (req_info r)))
                            (req_isMulticast r)) <$> requestInfo rd) rd.

Lemma hand_over pdu rd i id L p c d : holds c id i d -> bpayload d = Some L ->
  receivedPayloadLen d = Z.of_nat (List.length L) -> L <> [] -> request_with p rd ->
  next_or_exit pdu rd CA_OPTION1_REQUEST_LAST_BLOCK id c
  = Some (CA_STATUS_OK, told (ReceiveThread (whole L rd)) c).
Proof.
  intros Hd Eb El HL (Er & Et & r & Erq & _ & Hm). unfold next_or_exit. cbn [CAProcessNextStep].
  rewrite (bind_some _ _ c CA_STATUS_OK (told (ReceiveThread (whole L rd)) c)); [done|].
  unfold CAReceiveLastBlock, CAGetPayloadFromBlockDataList.
  erewrite bind_some by (rewrite (with_found_holds _ _ _ _ _ _ Hd), Eb, El; reflexivity).
  assert (Hread : read_block L 0 (Z.of_nat (List.length L)) = Some L).
  { rewrite <- (app_nil_r L) at 1. by apply (read_block_app []). }
  cbn match. rewrite Hread. cbn [demand]. rewrite (bind_some _ _ _ _ _ eq_refl).
  unfold CACloneCAData. rewrite Erq. unfold CACloneRequestInfo. rewrite Hm.
  unfold CAUpdatePayloadToCAData. cbn [with_request dataType requestInfo]. rewrite Et, Z.eqb_refl.
  destruct L as [|x L]; [done|]. cbn [ca_ok]. unfold whole. rewrite Erq. done.
Qed.

Definition new_entry (ep : CAEndpoint_t) (t : list Z) : CABlockData_t :=
  mk_block_data (mk_block 0 0 CA_DEFAULT_BLOCK_SIZE) (mk_block 0 0 CA_DEFAULT_BLOCK_SIZE)
    COAP_OPTION_BLOCK1 (CACreateBlockDatablockId t ep) (answer_data ep t 0 0 0) None 0 0.

Lemma new_gathering ep t L : gathering ep t L 0 (new_entry ep t).
Proof. split; cbn; try done. by eauto. Qed.

(** The context after [k] blocks. *)
Definition stage (k : nat) (d : CABlockData_t) (c : CABlockWiseContext_t) : CABlockWiseContext_t :=
  if (k =? 0)%nat then c else adding d c.

Lemma block_entry g pdu ep t L k d c : is_method (p_code pdu) = true -> p_token pdu = t -> t <> [] ->
  fresh (CACreateBlockDatablockId t ep) c -> gathering ep t L k d ->
  (k = O -> d = new_entry ep t) ->
  CACheckTheExistOfBlockData g (CACreateBlockDatablockId t ep) pdu ep COAP_OPTION_BLOCK1 (stage k d c)
  = Some (Some (last_index c), adding d c).
Proof.
  intros Hm Et Ht Hf Hg Hk. unfold CACheckTheExistOfBlockData, CAGetBlockDataFromBlockDataList, stage.
  destruct k as [|k]; cbn [Nat.eqb].
  - rewrite (Hk eq_refl). run. rewrite Hf. unfold CACreateNewDataSet. rewrite Et.
    assert (Ecopy : OICMalloc_copy t = Some t) by (by destruct t). rewrite Ecopy, Hm.
    rewrite !bind_assoc. cbn [demand]. rewrite (bind_some _ _ _ _ _ eq_refl).
    change (mk_cadata SEND_TYPE_UNICAST ep None _ 0) with (answer_data ep t 0 0 0).
    rewrite (bind_some _ _ _ _ _ eq_refl). unfold CACreateNewBlockData.
    rewrite answer_data_clone by done. cbn [answer_data requestInfo responseInfo].
    set (e0 := set_btype 0 (new_entry ep t)).
    change (with_dataList (dataList c ++ [_]) c) with (adding e0 c).
    assert (He : holds (adding e0 c) (CACreateBlockDatablockId t ep) (last_index c) e0)
      by (by apply holds_adding).
    unfold CAUpdateBlockOptionType.
    erewrite bind_some; [|rewrite (with_found_holds _ _ _ _ _ _ He); reflexivity].
    cbn [ca_ok]. unfold ret. do 2 f_equal. exact (upd_adding e0 (new_entry ep t) c).
  - pose proof (holds_adding _ c d Hf (g_id _ _ _ _ _ Hg)) as Hd. destruct Hd as [Hd1 Hd2].
    run. rewrite Hd1. rewrite (bind_some _ _ _ _ _ eq_refl). unfold CAUpdateBlockOptionType.
    erewrite bind_some; [|rewrite (with_found_holds _ _ _ _ _ _ (conj Hd1 Hd2)); reflexivity].
    cbn [ca_ok]. unfold ret. do 2 f_equal. change (upd (last_index c) (set_btype COAP_OPTION_BLOCK1 d) (adding d c) = adding d c).
    rewrite upd_adding. pose proof (g_btype _ _ _ _ _ Hg) as E. destruct d. cbn in E. by subst.
Qed.

(** The whole reaction to block [k]. *)
Definition after_block (L : list Z) (k : nat) (ep : CAEndpoint_t) (t : list Z) (pdu : coap_pdu_t)
    (rd : CAData_t) (d : CABlockData_t) (c : CABlockWiseContext_t) : CABlockWiseContext_t :=
  if more L k then
    let a := answer_data ep t CA_CONTINUE (answer_type (p_type pdu)) (p_id pdu) in
    told (SendThread a) (adding (set_sent a (received_entry L k d)) c)
  else told (ReceiveThread (whole L rd)) (adding (received_entry L k d) c).

Definition short_id (t : list Z) (ep : CAEndpoint_t) : Prop :=
  (List.length (CACreateBlockDatablockId t ep) <= UINT8_MAX_len)%nat.

Lemma CAReceiveBlockWiseData_block g ep t L k d c rd dataLen ty id code info segs query :
  let pdu := block_request ty id code t info segs query L k in
  block_ok L k -> is_method code = true -> t <> [] -> short_id t ep ->
  fresh (CACreateBlockDatablockId t ep) c -> gathering ep t L k d ->
  (k = O -> d = new_entry ep t) -> request_with (chunk L k) rd ->
  CAReceiveBlockWiseData g pdu ep rd dataLen (stage k d c)
  = Some ((CA_STATUS_OK, rd), after_block L k ep t pdu rd d c).
Proof.
  intros pdu H Hm Ht Hs Hf Hg Hk Hrd.
  destruct (received_options info segs query L k pdu H eq_refl) as (E1 & E2 & E3).
  unfold CAReceiveBlockWiseData. cbn [p_code pdu block_request].
  rewrite (proj2 (Z.eqb_neq CA_EMPTY code)) by (by intros <-). fold pdu. rewrite E1, E2.
  rewrite bind_assoc. unfold CASetNextBlockOption1. cbn [p_token pdu block_request].
  rewrite (proj2 (Nat.ltb_ge _ _)) by exact Hs. fold pdu. rewrite bind_assoc.
  rewrite (bind_some _ _ _ _ _ (block_entry g pdu ep t L k d c Hm eq_refl Ht Hf Hg Hk)).
  change (is_method (p_code pdu)) with (is_method code). rewrite Hm.
  pose proof (holds_adding _ c d Hf (g_id _ _ _ _ _ Hg)) as Hd.
  assert (Hr : holds (adding (received_entry L k d) c) (CACreateBlockDatablockId t ep) (last_index c)
                 (received_entry L k d)) by (apply holds_adding; [done|by destruct Hg]).
  assert (E : block1_request (last_index c) pdu rd (blk L k) dataLen (CACreateBlockDatablockId t ep)
                (adding d c) = Some (CA_STATUS_OK, after_block L k ep t pdu rd d c)).
  { rewrite (block1_request_block _ _ _ ep t L k _ _ d) by done. rewrite upd_adding. unfold after_block.
    destruct (g_data _ _ _ _ _ Hg) as (res & ty' & id' & Eg).
    destruct (more L k) eqn:Em.
    - rewrite (ask_next _ _ (last_index c) ep t res ty' id' _ (received_entry L k d)) by done.
      by rewrite upd_adding.
    - apply (hand_over _ _ (last_index c) _ _ (chunk L k) _ (received_entry L k d)); try done.
      + change (Some (gathered L (S k)) = Some L). by rewrite gathered_last.
      + by apply chunk_last.
      + intros ->. unfold block_ok, start in H. simpl in H. lia. }
  rewrite (bind_some _ _ _ _ _ E). done.
Qed.

(** ** The receiver asks for the next block *)

Definition continue_code : Z := 95.

Lemma continue_codes : COAP_RESPONSE_CODE CA_CONTINUE = continue_code /\
  CA_RESPONSE_CODE continue_code = CA_CONTINUE.
Proof.
  assert (E : COAP_RESPONSE_CODE CA_CONTINUE = continue_code) by (by rewrite response_code).
  split; [done|]. rewrite <- E. by apply code_parsed.
Qed.

Definition block_answer (ty id : Z) (t L : list Z) (k : nat) : coap_pdu_t :=
  mk_pdu ty id continue_code t [block1_option L k] None.

Lemma CAAddBlockOption_answer c i d ep ty id info t L k : block_ok L k -> more L k = true ->
  payload info = None -> (List.length t <= 8)%nat ->
  holds c (CACreateBlockDatablockId t ep) i d -> btype d = COAP_OPTION_BLOCK1 -> block1 d = blk L k ->
  CAAddBlockOption (mk_pdu ty id continue_code t [] None) info ep [] c
  = Some ((CA_STATUS_OK, Some (block_answer ty id t L k)), c).
Proof.
  intros H Hm Hp Ht Hd Hb Eb. unfold CAAddBlockOption. rewrite Hp. cbn [default p_token p_code List.length].
  rewrite (proj2 continue_codes). change (UINT_MAX <? Z.of_nat 0) with false.
  change (CA_REQUEST_ENTITY_INCOMPLETE =? CA_CONTINUE) with false. cbv zeta.
  unfold CAGetBlockOptionType. rewrite (bind_some _ _ c COAP_OPTION_BLOCK1 c)
    by (by rewrite (with_found_holds _ _ _ _ _ _ Hd), <- Hb).
  change (COAP_OPTION_BLOCK2 =? COAP_OPTION_BLOCK1) with false. rewrite Z.eqb_refl. cbn match.
  assert (E : CAAddBlockOption1 (mk_pdu ty id continue_code t [] None) [] (CACreateBlockDatablockId t ep) [] c
              = Some ((CA_STATUS_OK, Some (block_answer ty id t L k)), c)).
  { unfold CAAddBlockOption1. rewrite (with_found_holds _ _ _ _ _ _ Hd). cbn [p_code].
    change (is_method continue_code) with false. cbn match. rewrite Eb.
    unfold CAAddBlockOptionImpl, insert_option. rewrite insert_order, block1_node by done.
    cbn [insert_by]. pose proof (block_value_blk L k H) as Hv.
    pose proof (encode_length (block_value (blk L k)) 3 ltac:(lia) ltac:(cbn; lia)).
    unfold CAAddOptionToPDU.
    rewrite (add_options_ordered _ _ 0); try done.
    - cbn [p_options app]. rewrite add_no_data. cbn [m blk]. rewrite Hm. done.
    - unfold pdu_size, block1_option. cbn [p_token p_options p_data options_size foldr data_size snd].
      unfold COAP_MAX_PDU_SIZE. lia. }
  rewrite (bind_some _ _ _ _ _ E). done.
Qed.

(** ** The sender counts on *)

(** What is sent, as it is kept: the identifier is filled in when it goes out. *)
Definition request_data (ep : CAEndpoint_t) (code : Z) (info : CAInfo_t) (ty id : Z) : CAData_t :=
  mk_cadata SEND_TYPE_UNICAST ep (Some (mk_request code (with_message ty id info) false)) None
    CA_REQUEST_DATA.

Definition large_info (t L : list Z) (info : CAInfo_t) : Prop :=
  token info = Some t /\ t <> [] /\ payload info = Some L /\ 1024 < Z.of_nat (List.length L) /\
  info_dataType info = 0.

Lemma request_data_clone ep code info ty id t L : large_info t L info -> is_method code = true ->
  CACloneCAData (request_data ep code info ty id) = request_data ep code info ty id.
Proof.
  intros (Et & Ht & Ep & HL & Ed) Hm. unfold CACloneCAData, request_data. cbn [requestInfo].
  unfold CACloneRequestInfo. cbn [method]. rewrite Hm. unfold with_request, CACloneInfo.
  cbn -[Z.lt Z.of_nat]. rewrite Et, Ep. unfold with_message. rewrite Et, Ep, Ed.
  destruct t; [done|]. destruct L; [simpl in HL; lia|]. done.
Qed.

Definition sending_entry (ep : CAEndpoint_t) (t : list Z) (data : CAData_t) (b : coap_block_t) :
    CABlockData_t :=
  mk_block_data b (mk_block 0 0 CA_DEFAULT_BLOCK_SIZE) COAP_OPTION_BLOCK1
    (CACreateBlockDatablockId t ep) data None 0 0.

Lemma CASendBlockWiseData_large ep code info ty id t L c :
  large_info t L info -> is_method code = true -> CA_MSG_RESET <> ty ->
  fresh (CACreateBlockDatablockId t ep) c ->
  let data := request_data ep code info ty id in
  CASendBlockWiseData data c
  = Some (CA_STATUS_OK, told (SendThread data)
            (adding (sending_entry ep t data (mk_block 0 0 CA_DEFAULT_BLOCK_SIZE)) c)).
Proof.
  intros Hl Hm Hty Hf data. pose proof (request_data_clone ep code info ty id t L Hl Hm) as Ec.
  fold data in Ec. destruct Hl as (Et & Ht & Ep & HL & Ed).
  assert (Hp : CACheckPayloadLength data = true).
  { unfold CACheckPayloadLength, CAGetPayloadInfo. cbn [data request_data requestInfo req_info with_message payload].
    rewrite Ep. by apply Z.ltb_lt. }
  unfold CASendBlockWiseData. cbn [data request_data requestInfo req_info with_message type req_isMulticast].
  rewrite (proj2 (Z.eqb_neq _ _) Hty). unfold send_data, CACheckBlockDataValidation.
  cbn [responseInfo]. fold data. rewrite (bind_some _ _ _ _ _ eq_refl). rewrite Hp. cbn [negb].
  unfold CACreateNewBlockData. rewrite Ec. cbn [data request_data requestInfo req_info with_message token].
  rewrite Et. change (default [] (Some t)) with t. fold data.
  set (e0 := set_btype 0 (sending_entry ep t data (mk_block 0 0 CA_DEFAULT_BLOCK_SIZE))).
  rewrite (bind_some _ _ c (Some (last_index c)) (adding e0 c)) by done.
  assert (He : holds (adding e0 c) (CACreateBlockDatablockId t ep) (last_index c) e0)
    by (by apply holds_adding).
  unfold send_first, CACheckBlockOptionType.
  rewrite bind_assoc, (bind_some _ _ _ _ _ (entry_holds _ _ _ _ He)).
  change (sentData e0) with data. rewrite Hp. cbn [negb].
  rewrite bind_assoc, (bind_some _ _ _ _ _ (put_entry_upd _ _ _)).
  rewrite bool_decide_true by (by eexists).
  change (set_btype COAP_OPTION_BLOCK1 e0)
    with (sending_entry ep t data (mk_block 0 0 CA_DEFAULT_BLOCK_SIZE)).
  rewrite upd_adding. set (e := sending_entry ep t data _).
  assert (He' : holds (adding e c) (CACreateBlockDatablockId t ep) (last_index c) e)
    by (by apply holds_adding).
  rewrite (bind_some _ _ _ _ _ eq_refl). cbn [ca_ok].
  rewrite (bind_some _ _ _ _ _ (entry_holds _ _ _ _ He')). unfold CAAddSendThreadQueue.
  change (sentData e) with data. rewrite Ec. done.
Qed.

(** The answer to block [k]: the entry goes on to block [k + 1], and the request
    is queued again. *)
Lemma CAReceiveBlockWiseData_answer g ep t L k ty id code info id' c rd dataLen rest :
  let pdu := block_answer (answer_type ty) id t L k in
  ty = CA_MSG_CONFIRM \/ ty = CA_MSG_NONCONFIRM ->
  block_ok L k -> more L k = true -> large_info t L info -> is_method code = true -> short_id t ep ->
  fresh (CACreateBlockDatablockId t ep) c ->
  CAReceiveBlockWiseData g pdu ep rd dataLen
    (adding (sending_entry ep t (request_data ep code info ty id') (blk L k)) (with_log rest c))
  = Some ((CA_STATUS_OK, rd),
          told (SendThread (request_data ep code info ty 0))
            (adding (sending_entry ep t (request_data ep code info ty 0)
               (mk_block (Z.of_nat (S k)) 1 CA_DEFAULT_BLOCK_SIZE)) (with_log rest c))).
Proof.
  intros pdu Hty H Hm Hl Hcode Hs Hf. set (c1 := with_log rest c).
  assert (Hf1 : fresh (CACreateBlockDatablockId t ep) c1) by done. clearbody c1.
  set (d := sending_entry ep t (request_data ep code info ty id') (blk L k)).
  pose proof (holds_adding (CACreateBlockDatablockId t ep) c1 d Hf1 eq_refl) as Hd.
  assert (E1 : coap_get_block pdu COAP_OPTION_BLOCK1 = Some (blk L k)).
  { rewrite get_block, check_option. cbn [pdu block_answer p_options find_option block1_option].
    rewrite Z.eqb_refl. pose proof (block_value_blk L k H).
    rewrite (proj2 (Nat.ltb_ge _ _)) by (apply encode_length; [lia|cbn; lia]).
    rewrite decode_encode by lia. by rewrite block_of_blk. }
  assert (E2 : coap_get_block pdu COAP_OPTION_BLOCK2 = None) by (by rewrite get_block, check_option).
  unfold CAReceiveBlockWiseData. change (CA_EMPTY =? p_code pdu) with false. rewrite E1, E2.
  rewrite bind_assoc. unfold CASetNextBlockOption1. change (p_token pdu) with t.
  rewrite (proj2 (Nat.ltb_ge _ _)) by exact Hs. rewrite bind_assoc.
  unfold CACheckTheExistOfBlockData, CAGetBlockDataFromBlockDataList.
  destruct Hd as [Hd1 Hd2].
  rewrite !bind_assoc, (bind_some _ _ _ (Some (last_index c1)) (adding d c1)) by (unfold gets; by rewrite Hd1).
  rewrite bind_assoc, (bind_some _ _ _ _ _ eq_refl). unfold CAUpdateBlockOptionType.
  rewrite bind_assoc.
  rewrite (bind_some _ _ _ CA_STATUS_OK (adding d c1));
    [|rewrite (with_found_holds _ _ _ _ _ _ (conj Hd1 Hd2)), (bind_some _ _ _ _ _ (put_entry_upd _ _ _));
      by rewrite upd_adding].
  cbn [ca_ok]. rewrite (bind_some _ _ _ _ _ eq_refl).
  change (is_method (p_code pdu)) with false. cbn match. unfold block1_response.
  change (p_code pdu) with continue_code. rewrite (proj2 continue_codes).
  cbn [m blk]. rewrite Hm. cbn [Z.eqb andb].
  rewrite bind_assoc, (bind_some _ _ _ _ _ (entry_holds _ _ _ _ (conj Hd1 Hd2))).
  unfold CAUpdateBlockOptionItems. change (p_code pdu) with continue_code.
  rewrite (proj2 continue_codes). change (is_error_code CA_CONTINUE) with false. cbn match.
  cbn [d sending_entry block1 blk num]. rewrite Z.ltb_irrefl. cbn [mbind option_bind].
  unfold CANegotiateBlockSize. change (COAP_OPTION_BLOCK2 =? COAP_OPTION_BLOCK1) with false.
  rewrite Z.eqb_refl. change (is_method continue_code) with false. cbn [negb].
  assert (Eb : set_num (u32 (Z.of_nat k + 1)) (blk L k)
               = mk_block (Z.of_nat (S k)) 1 CA_DEFAULT_BLOCK_SIZE).
  { unfold set_num, blk. cbn [m szx]. rewrite Hm. f_equal.
    rewrite (wrap_id 32) by (unfold in_width, block_ok, start in *; lia). lia. }
  rewrite Eb. cbn [szx]. change (szx (block1 d)) with CA_DEFAULT_BLOCK_SIZE. rewrite Z.ltb_irrefl.
  unfold CAUpdateBlockData. cbn [szx].
  change (CA_BLOCK_SIZE_1024_BYTE <? CA_DEFAULT_BLOCK_SIZE) with false. cbn match.
  change (COAP_OPTION_BLOCK2 =? COAP_OPTION_BLOCK1) with false. cbn match.
  rewrite bind_assoc, (bind_some _ _ _ _ _ (put_entry_upd _ _ _)), upd_adding.
  set (d' := set_block1 _ _). unfold next_or_exit. cbn [CAProcessNextStep]. unfold CASendBlockMessage.
  assert (Hd' : holds (adding d' c1) (CACreateBlockDatablockId t ep) (last_index c1) d')
    by (by apply holds_adding).
  rewrite !bind_assoc.
  rewrite (bind_some _ _ _ CA_STATUS_OK
    (told (SendThread (request_data ep code info ty 0))
       (adding (set_sent (request_data ep code info ty 0) d') c1))); [done|].
  rewrite (with_found_holds _ _ _ _ _ _ Hd'). change (p_code pdu) with continue_code.
  change (is_method continue_code) with false. cbn match.
  change (sentData d') with (request_data ep code info ty id'). cbn [request_data requestInfo].
  assert (En : p_type pdu =? CA_MSG_CONFIRM = false) by (by destruct Hty as [-> | ->]).
  assert (Ea : answer_type (p_type pdu) = ty) by (by destruct Hty as [-> | ->]).
  rewrite En, Ea. rewrite (bind_some _ _ _ _ _ eq_refl).
  change (update_request _ _) with (request_data ep code info ty 0).
  rewrite (bind_some _ _ _ _ _ (put_entry_upd _ _ _)), upd_adding. unfold CAAddSendThreadQueue.
  by rewrite (request_data_clone _ _ _ _ _ t L).
Qed.

End transfer.
End BlockTransfer.
