(* ===== verification/BlockExchange.v ===== *)
(** * A large request between two devices

    Two message handlers on a network that delivers: the sender's threads and the
    receiver's run in turn, and a request whose payload does not fit a message
    arrives whole ([blockwise_request_delivered]). *)

From S2P Require Import Prelude.
From S2P Require Import Status.
From S2P Require Import CaTypes.
From S2P Require Import LibCoap.
From S2P Require Import LibCoapReference.
From S2P Require Import CoapCodec.
From S2P Require Import Blockwise.
From S2P Require Import Retransmission.
From S2P Require Import MessageHandler.
From S2P Require Import BlockTransfer.

Module BlockExchange.
Import CaTypes LibCoap CoapCodec Blockwise MessageHandler BlockTransfer.

Section exchange.
Context {LC : LibCoap} {LL : LibCoapLaws}.
(** The preset proxy of both devices, which is not used, and their own addresses. *)
Context (g_chproxyUri : list Z) (CAIsLocalEndpoint : CAEndpoint_t -> bool).
(** How each device sees the other one. *)
Context (server client : CAEndpoint_t).

(** What was sent last reaches the other device, which parses what was built. *)
Definition deliver (from : CAEndpoint_t) (w : list sent) : H unit :=
  match List.last w (mk_sent from (mk_pdu 0 0 0 [] [] None) 0) with
  | mk_sent _ pdu _ =>
      mh_CAReceivedPacketCallback CAIsLocalEndpoint g_chproxyUri from (coap_bytes pdu)
        (Some (COAP_DEFAULT_VERSION, pdu))
  end.

(** The client's send thread sends a message, the server receives it and answers,
    if it has an answer, and the client receives that. *)
Definition exchange (prng now random : Z) (cli srv : handler) : option (handler * handler) :=
  '(_, cli) ← CASendThreadProcess g_chproxyUri prng now random CA_STATUS_OK cli;
  '(_, srv) ← deliver client (wire cli) srv;
  match g_sendThread srv with
  | [] => Some (cli, srv)
  | _ =>
      '(_, srv) ← CASendThreadProcess g_chproxyUri prng now random CA_STATUS_OK srv;
      '(_, cli) ← deliver server (wire srv) cli;
      Some (cli, srv)
  end.

Fixpoint exchanges (n k : nat) (prng now random : nat -> Z) (cli srv : handler) :
    option (handler * handler) :=
  match n with
  | O => Some (cli, srv)
  | S n' => '(cli, srv) ← exchange (prng k) (now k) (random k) cli srv;
            exchanges n' (S k) prng now random cli srv
  end.

(** ** The retransmission list *)

Definition not_pending (id : Z) (ep : CAEndpoint_t) (r : Retransmission.CARetransmission_t) : Prop :=
  existsb (Retransmission.found id ep) (Retransmission.dataList r) = false.

Lemma take_out_last f l d : existsb f l = false -> f d = true ->
  Retransmission.take_out f (l ++ [d]) = Some (d, l).
Proof.
  intros Hl Hd. induction l as [|x l IH]; cbn in *; [by rewrite Hd|].
  apply orb_false_iff in Hl as [-> Hl]. by rewrite IH.
Qed.

(** A message that is answered leaves the list as it was. *)
Lemma retransmission_cycle now random r ep dt b b' ty id :
  ty = CA_MSG_CONFIRM \/ ty = CA_MSG_NONCONFIRM -> not_pending id ep r ->
  (4 <= List.length b)%nat -> hdr_type b = ty -> hdr_id b = id ->
  (4 <= List.length b')%nat -> hdr_type b' = answer_type ty -> hdr_id b' = id ->
  CA_RESPONSE_CODE (hdr_code b') <> CA_EMPTY ->
  exists res r', Retransmission.CARetransmissionSentData now random r ep dt b = (res, r') /\
    (res = CA_STATUS_OK \/ res = CA_NOT_SUPPORTED) /\
    Retransmission.CARetransmissionReceivedData r' ep b' = (CA_STATUS_OK, None, r).
Proof.
  intros Hty Hp Hl Ht Hi Hl' Ht' Hi' Hc'. unfold not_pending in Hp.
  unfold Retransmission.CARetransmissionSentData, Retransmission.CARetransmissionReceivedData,
    Retransmission.CAGetMessageTypeFromPduBinaryData, Retransmission.CAGetMessageIdFromPduBinaryData,
    Retransmission.CAGetCodeFromPduBinaryData, Retransmission.too_short.
  rewrite !(proj2 (Z.ltb_ge (Z.of_nat (List.length b)) _)) by (unfold Retransmission.CA_PDU_MIN_SIZE; lia).
  rewrite !(proj2 (Z.ltb_ge (Z.of_nat (List.length b')) _)) by (unfold Retransmission.CA_PDU_MIN_SIZE; lia).
  rewrite Ht, Hi, Ht', Hi'. destruct (Retransmission.supported r ep) eqn:Es; cbn [negb].
  2:{ eexists _, _. split; [done|]. split; [by right|]. by rewrite Es. }
  destruct Hty as [-> | ->].
  - change (negb (CA_MSG_CONFIRM =? CA_MSG_CONFIRM)) with false. cbn match. rewrite Hp.
    eexists _, _. split; [done|]. split; [by left|].
    change (Retransmission.supported (Retransmission.with_list _ r) ep)
      with (Retransmission.supported r ep). rewrite Es. cbn [negb].
    change (answer_type CA_MSG_CONFIRM) with CA_MSG_ACKNOWLEDGE. cbn [Z.eqb Pos.eqb negb andb orb
      CA_MSG_ACKNOWLEDGE CA_MSG_RESET].
    cbn [Retransmission.with_list Retransmission.dataList].
    rewrite take_out_last; [|done|unfold Retransmission.found; cbn; by rewrite !Z.eqb_refl].
    rewrite (proj2 (Z.eqb_neq _ _)) by done. cbn. by destruct r.
  - change (negb (CA_MSG_NONCONFIRM =? CA_MSG_CONFIRM)) with true. cbn match.
    eexists _, _. split; [done|]. split; [by right|]. rewrite Es. cbn [negb].
    done.
Qed.

Lemma run_bwt_some {A} (f : B A) h a b : f (with_log [] (bwt h)) = Some (a, b) ->
  run_bwt f h = Some ((a, log b), with_bwt (with_log [] b) h).
Proof. intros E. unfold run_bwt. by rewrite E. Qed.

Lemma transmit_sent now random data pdu h res r' :
  Retransmission.CARetransmissionSentData now random (g_retransmissionContext h) (remoteEndpoint data)
    (dataType data) (coap_bytes pdu) = (res, r') ->
  res = CA_STATUS_OK \/ res = CA_NOT_SUPPORTED ->
  transmit g_chproxyUri now random CA_STATUS_OK data pdu h
  = Some (CA_STATUS_OK, with_retransmission r'
            (with_wire (wire h ++ [mk_sent (remoteEndpoint data) pdu (dataType data)]) h)).
Proof.
  intros Er Hres. unfold transmit, put_on_wire, with_retransmitted, bind, modify. cbn [ca_ok negb].
  cbn [with_wire g_retransmissionContext]. rewrite Er. unfold ret. by destruct Hres as [-> | ->].
Qed.

(** ** The request *)

Record request_ok (code : Z) (info : CAInfo_t) (segs query : list (list Z)) (t L : list Z) : Prop := {
  q_method : is_method code = true;
  q_type : type info = CA_MSG_CONFIRM \/ type info = CA_MSG_NONCONFIRM;
  q_id : messageId info = 0;
  q_uri : resourceUri info = Some (uri_of segs query);
  q_short : short_uri segs query /\ Z.of_nat (List.length (uri_of segs query)) <= CA_MAX_URI_LENGTH;
  q_options : options info = [];
  q_format : format_ok (payloadFormat info) (payloadVersion info);
  q_accept : format_ok (acceptFormat info) (acceptVersion info);
  q_token : token info = Some t /\ t <> [] /\ (List.length t <= 8)%nat;
  q_payload : payload info = Some L /\ 1024 < Z.of_nat (List.length L) <= 2 ^ 30;
  q_room : room info segs query t }.

(** Both devices are reached over IP. *)
Definition ip (ep : CAEndpoint_t) (t : list Z) : Prop :=
  adapter ep = CA_ADAPTER_IP /\ short_id t ep.

Section request.
Context (code : Z) (info : CAInfo_t) (segs query : list (list Z)) (t L : list Z).
Context (Hq : request_ok code info segs query t L) (Hdt : info_dataType info = 0).
Context (Hserver : ip server t) (Hclient : ip client t).

Lemma q_large : large_info t L info.
Proof.
  destruct (q_token _ _ _ _ _ _ Hq) as (? & ? & _), (q_payload _ _ _ _ _ _ Hq) as [? [? _]].
  by split_and!.
Qed.

Lemma q_code : CA_EMPTY <> code.
Proof. pose proof (q_method _ _ _ _ _ _ Hq) as H. by intros <-. Qed.

Lemma supported_ip ep : ip ep t -> CAIsSupportedBlockwiseTransfer (adapter ep) = true.
Proof. by intros [-> _]. Qed.

Lemma generated prng :
  CAGeneratePDU prng code (with_message (type info) 0 info) server
  = Some (mk_pdu (type info) prng code t [] None, message_options info segs query).
Proof.
  destruct Hq. destruct q_short0 as [Hs Hsl], q_token0 as (Et & Htn & Htl).
  rewrite (CAGeneratePDU_options _ _ _ _ segs query); try done.
  - rewrite (CAGeneratePDUImpl_token _ _ _ _ _ t); try done.
    + unfold unsent_pdu. by rewrite (proj1 (method_code code q_method0)).
    + apply q_code.
    + by destruct Hserver as [-> _].
  - by destruct q_type0 as [E|E]; cbn; rewrite E.
  - apply q_code.
Qed.

(** The client's entry and queue before block [k] is sent. *)
Definition next_block (k : nat) : coap_block_t :=
  mk_block (Z.of_nat k) (if (k =? 0)%nat then 0 else 1) CA_DEFAULT_BLOCK_SIZE.
Definition queued : CAData_t := request_data server code info (type info) 0.
Definition client_ctx (dl : list CABlockData_t) (ml : list CABlockMulticastData_t) (id : Z)
    (b : coap_block_t) : CABlockWiseContext_t :=
  adding (sending_entry server t (request_data server code info (type info) id) b) (mk_ctx dl ml []).
Definition block_pdu (id : Z) (k : nat) : coap_pdu_t :=
  block_request (type info) id code t info segs query L k.

Lemma q_block_ok k : start k < Z.of_nat (List.length L) -> block_ok L k.
Proof. intros H. destruct (q_payload _ _ _ _ _ _ Hq) as [_ ?]. split; [done|lia]. Qed.

Lemma client_sends prng now random k dl ml r hist rcv w : block_ok L k ->
  fresh (CACreateBlockDatablockId t server) (mk_ctx dl ml []) ->
  forall res r', Retransmission.CARetransmissionSentData now random r server CA_REQUEST_DATA
                   (coap_bytes (block_pdu prng k)) = (res, r') ->
  res = CA_STATUS_OK \/ res = CA_NOT_SUPPORTED ->
  CASendThreadProcess g_chproxyUri prng now random CA_STATUS_OK
    (mk_handler (client_ctx dl ml 0 (next_block k)) r hist [queued] rcv w)
  = Some (tt, mk_handler (client_ctx dl ml prng (blk L k)) r' hist [] rcv
                (w ++ [mk_sent server (block_pdu prng k) CA_REQUEST_DATA])).
Proof.
  intros H Hf res r' Er Hres. unfold CASendThreadProcess. cbn [bind get g_sendThread].
  cbn [bind modify with_send]. cbn [bwt g_retransmissionContext requestHistory g_receiveThread wire].
  unfold CAProcessSendData. cbn [queued request_data send_type requestInfo responseInfo].
  rewrite Z.eqb_refl. cbn [req_info method]. fold queued. unfold send_unicast.
  cbn [queued request_data remoteEndpoint]. rewrite generated, (supported_ip server Hserver).
  set (ctx := client_ctx dl ml 0 (next_block k)).
  set (d := sending_entry server t queued (next_block k)).
  assert (Hd : holds ctx (CACreateBlockDatablockId t server) (List.length dl) d)
    by (by apply (holds_adding _ (mk_ctx dl ml []))).
  assert (Ea : CAAddBlockOption (mk_pdu (type info) prng code t [] None)
            (with_message (type info) 0 info) server (message_options info segs query) ctx
          = Some ((CA_STATUS_OK, Some (block_pdu prng k)), client_ctx dl ml prng (blk L k))).
  { rewrite (CAAddBlockOption_block _ (List.length dl) d _ _ _ _ _ _ _ _ _ L k); try done.
    - f_equal. f_equal. apply (upd_adding d _ (mk_ctx dl ml [])).
    - apply (q_room _ _ _ _ _ _ Hq).
    - apply (q_method _ _ _ _ _ _ Hq).
    - apply (q_payload _ _ _ _ _ _ Hq). }
  pose proof (run_bwt_some _ (with_send [] (mk_handler ctx r hist [queued] rcv w)) _ _ Ea) as Erun.
  rewrite bind_assoc, (bind_some _ _ _ _ _ Erun). cbn [fst].
  set (h := with_bwt _ (with_send _ _)).
  by rewrite (bind_some _ _ _ _ _ (transmit_sent now random queued (block_pdu prng k) h res r' Er Hres)).
Qed.

(** ** The server receives a block *)

Definition arrived (id : Z) (p : list Z) : CAData_t :=
  mk_cadata SEND_TYPE_UNICAST client
    (Some (mk_request code (delivered id (with_payload (Some p) info) segs query) false)) None
    CA_REQUEST_DATA.

Lemma arrived_request id k : request_with (chunk L k) (arrived id (chunk L k)).
Proof. split_and!; [done|done|]. eexists. split_and!; [done|done|]. apply (q_method _ _ _ _ _ _ Hq). Qed.

(** What is handed over in the end is the request as it was made. *)
Lemma arrived_whole id p : whole L (arrived id p) = arrived id L.
Proof.
  destruct (q_token _ _ _ _ _ _ Hq) as (Et & Ht & _). unfold whole, arrived.
  cbn [with_request requestInfo fmap option_fmap option_map]. do 4 f_equal.
  unfold delivered, CACloneInfo, with_payload. cbn. rewrite Et. by destruct t.
Qed.

Definition unseen (id : Z) (h : CAHistory_t) : Prop :=
  Forall (fun item => i_messageId item <> id) (items h).

Lemma unseen_kept hist id tok : unseen id hist -> adapter client = CA_ADAPTER_IP ->
  exists hist', CADropSecondMessage hist client id tok = (false, hist') /\
    forall id', id' <> id -> unseen id' hist -> unseen id' hist'.
Proof.
  intros Hu Ha. unfold CADropSecondMessage. rewrite Ha. cbn [Z.eqb Pos.eqb CA_ADAPTER_IP negb].
  eexists. split.
  - f_equal. apply not_true_is_false. intros H. apply existsb_exists in H as (it & Hin & Hs).
    unfold same_message in Hs. apply andb_true_iff in Hs as [Hs _]. apply andb_true_iff in Hs as [Hs _].
    apply Z.eqb_eq in Hs. unfold unseen in Hu. rewrite Forall_forall in Hu.
    apply (Hu it); [by apply list_elem_of_In|done].
  - intros id' Hne Hu'. unfold unseen. cbn [items]. apply Forall_insert; [done|]. cbn. congruence.
Qed.

Lemma block_parsed id k : block_ok L k ->
  CAGetRequestInfoFromPDU g_chproxyUri (block_pdu id k)
  = Some (inr (mk_request code (delivered id (with_payload (Some (chunk L k)) info) segs query) false)).
Proof.
  intros H. destruct Hq. destruct q_short0 as [Hs Hsl], q_token0 as (Et & Htn & Htl).
  unfold CAGetRequestInfoFromPDU.
  rewrite (CAGetInfoFromPDU_options _ info segs query (block_options L k) _ t); try done.
  - cbn [mbind option_bind block_pdu block_request p_code p_id p_data].
    by rewrite (proj2 (method_code code q_method0)).
  - unfold block_options. destruct k; repeat constructor.
  - cbn. pose proof (chunk_nonempty L k H). congruence.
Qed.

Lemma parsed_block id k : CAParsePDU (Some (COAP_DEFAULT_VERSION, block_pdu id k)) = Some (block_pdu id k, code).
Proof.
  destruct (q_token _ _ _ _ _ _ Hq) as (_ & _ & Hl). unfold CAParsePDU. cbn [mbind option_bind].
  rewrite Z.eqb_refl. cbn [negb block_pdu block_request p_token].
  rewrite (proj2 (Z.ltb_ge _ _)) by (unfold CA_MAX_TOKEN_LEN; lia). cbn [p_code].
  by rewrite (proj2 (method_code code (q_method _ _ _ _ _ _ Hq))).
Qed.

Lemma q_bytes id k : in_width 16 id ->
  (4 <= List.length (coap_bytes (block_pdu id k)))%nat /\
  hdr_type (coap_bytes (block_pdu id k)) = type info /\ hdr_id (coap_bytes (block_pdu id k)) = id.
Proof.
  intros Hid. destruct (q_token _ _ _ _ _ _ Hq) as (_ & _ & Hl).
  pose proof (q_type _ _ _ _ _ _ Hq) as Hty. pose proof (q_method _ _ _ _ _ _ Hq) as Hm.
  destruct (bytes_header (block_pdu id k)) as (H1 & H2 & H3 & _); cbn; try done.
  - by destruct Hty as [-> | ->].
  - unfold is_method in Hm. rewrite !orb_true_iff, !Z.eqb_eq in Hm.
    by destruct Hm as [[[->| ->]| ->]| ->].
Qed.

Definition server_after (k : nat) (id : Z) (d : CABlockData_t) (dl : list CABlockData_t)
    (ml : list CABlockMulticastData_t) (r : Retransmission.CARetransmission_t) (hist : CAHistory_t)
    (rcv : list received) (w : list sent) : handler :=
  let c := mk_ctx dl ml [] in
  if more L k then
    let a := answer_data client t CA_CONTINUE (answer_type (type info)) id in
    mk_handler (adding (set_sent a (received_entry L k d)) c) r hist [a] rcv w
  else mk_handler (adding (received_entry L k d) c) r hist [] (rcv ++ [Received (arrived id L)]) w.

Lemma server_receives k id d dl ml r hist rcv w dt w' : block_ok L k -> in_width 16 id ->
  fresh (CACreateBlockDatablockId t client) (mk_ctx dl ml []) -> gathering client t L k d ->
  (k = O -> d = new_entry client t) -> unseen id hist ->
  exists hist', (forall id', id' <> id -> unseen id' hist -> unseen id' hist') /\
    deliver client (w' ++ [mk_sent server (block_pdu id k) dt])
      (mk_handler (stage k d (mk_ctx dl ml [])) r hist [] rcv w)
    = Some (tt, server_after k id d dl ml r hist' rcv w).
Proof.
  intros H Hid Hf Hg Hk Hu. destruct (q_token _ _ _ _ _ _ Hq) as (Et & Htn & Htl).
  destruct (unseen_kept hist id (Some t) Hu (proj1 Hclient)) as (hist1 & Ehist & Hkeep).
  set (hist' := if negb (type info =? CA_MSG_CONFIRM) then hist1 else hist).
  exists hist'. split; [unfold hist'; by destruct (negb _)|].
  set (h := mk_handler _ _ _ _ _ _).
  assert (Egen : CAGenerateHandlerData g_chproxyUri client (block_pdu id k) CA_REQUEST_DATA h
    = Some (Some (mk_cadata 0 client (requestInfo (arrived id (chunk L k))) None CA_REQUEST_DATA),
            with_history hist' h)).
  { unfold CAGenerateHandlerData. cbn [Z.eqb Pos.eqb CA_RESPONSE_DATA CA_REQUEST_DATA].
    rewrite (block_parsed id k H). cbn [parsed_info mbind option_bind demand].
    rewrite (bind_some _ _ _ _ _ eq_refl). cbn [req_info delivered with_payload type messageId token].
    unfold hist'. destruct (negb (type info =? CA_MSG_CONFIRM)).
    - rewrite Et, (bind_some _ _ h false (with_history hist1 h)); [done|]. cbn [requestHistory h]. by rewrite Ehist.
    - by rewrite (bind_some _ _ _ _ _ eq_refl). }
  unfold deliver. rewrite last_last. unfold mh_CAReceivedPacketCallback.
  pose proof (q_bytes id k Hid) as (Hb & _). destruct (coap_bytes (block_pdu id k)) as [|b0 bs] eqn:Eb;
    [simpl in Hb; lia|]. rewrite parsed_block, (q_method _ _ _ _ _ _ Hq).
  rewrite (bind_some _ _ _ _ _ Egen). rewrite (supported_ip client Hclient).
  change (as_unicast _) with (arrived id (chunk L k)).
  pose proof (CAReceiveBlockWiseData_block g_chproxyUri client t L k d (mk_ctx dl ml [])
    (arrived id (chunk L k)) (Z.of_nat (List.length (b0 :: bs))) (type info) id code info segs query H
    (q_method _ _ _ _ _ _ Hq) Htn (proj2 Hclient) Hf Hg Hk (arrived_request id k)) as Er.
  assert (Er' : CAReceiveBlockWiseData g_chproxyUri (block_pdu id k) client (arrived id (chunk L k))
      (Z.of_nat (List.length (b0 :: bs))) (with_log [] (bwt (with_history hist' h))) = Some (CA_STATUS_OK, arrived id (chunk L k),
      after_block L k client t (block_pdu id k) (arrived id (chunk L k)) d (mk_ctx dl ml []))).
  { etransitivity; [|exact Er]. unfold h, stage. by destruct (k =? 0)%nat. }
  rewrite (bind_some _ _ _ _ _ (run_bwt_some _ _ _ _ Er')). cbn [fst snd].
  unfold after_block, server_after. destruct (more L k).
  - done.
  - by rewrite arrived_whole.
Qed.

(** ** The server answers, and the client receives the answer *)

Definition answer_pdu (id : Z) (k : nat) : coap_pdu_t :=
  block_answer (answer_type (type info)) id t L k.

Lemma answer_types : 0 <= answer_type (type info) < 4 /\ CA_MSG_RESET <> answer_type (type info) /\
  CA_MSG_CONFIRM <> answer_type (type info).
Proof. by destruct (q_type _ _ _ _ _ _ Hq) as [-> | ->]. Qed.

Lemma answer_bytes id k : in_width 16 id ->
  (4 <= List.length (coap_bytes (answer_pdu id k)))%nat /\
  hdr_type (coap_bytes (answer_pdu id k)) = answer_type (type info) /\
  hdr_id (coap_bytes (answer_pdu id k)) = id /\
  CA_RESPONSE_CODE (hdr_code (coap_bytes (answer_pdu id k))) <> CA_EMPTY.
Proof.
  intros Hid. destruct (q_token _ _ _ _ _ _ Hq) as (_ & _ & Hl).
  destruct (bytes_header (answer_pdu id k)) as (H1 & H2 & H3 & H4 & _); cbn; try done.
  - apply answer_types.
  - split_and!; try done. rewrite H4. cbn. by rewrite (proj2 continue_codes).
Qed.

Lemma server_answers prng now random k id d' dl ml r hist rcv w : block_ok L k -> more L k = true ->
  0 < id < 65536 -> fresh (CACreateBlockDatablockId t client) (mk_ctx dl ml []) ->
  blockDataId d' = CACreateBlockDatablockId t client -> btype d' = COAP_OPTION_BLOCK1 ->
  block1 d' = blk L k ->
  CASendThreadProcess g_chproxyUri prng now random CA_STATUS_OK
    (mk_handler (adding d' (mk_ctx dl ml [])) r hist
       [answer_data client t CA_CONTINUE (answer_type (type info)) id] rcv w)
  = Some (tt, mk_handler (adding d' (mk_ctx dl ml [])) r hist [] rcv
                (w ++ [mk_sent client (answer_pdu id k) 0])).
Proof.
  intros H Hm Hid Hf Hi Hb Eb. destruct (q_token _ _ _ _ _ _ Hq) as (_ & _ & Hl).
  destruct answer_types as (_ & Hty & Hty').
  unfold CASendThreadProcess. cbn [bind get g_sendThread].
  cbn [bind modify with_send]. cbn [bwt g_retransmissionContext requestHistory g_receiveThread wire].
  unfold CAProcessSendData. set (a := answer_data _ _ _ _ _).
  cbn [a answer_data send_type requestInfo responseInfo]. rewrite Z.eqb_refl. cbn [result resp_info].
  fold a. unfold send_unicast. change (remoteEndpoint a) with client.
  rewrite (supported_ip client Hclient). set (ai := mk_info _ _ _ _ _ _ _ _ _ _ _).
  assert (Eg : CAGeneratePDU prng CA_CONTINUE ai client
               = Some (mk_pdu (answer_type (type info)) id continue_code t [] None, [])).
  { unfold CAGeneratePDU. cbn [type ai]. rewrite (proj2 (Z.eqb_neq _ _) Hty). cbn [orb andb].
    change (CA_EMPTY =? CA_CONTINUE) with false. cbn [orb andb resourceUri ai mbind option_bind].
    rewrite (CAGeneratePDUImpl_token _ _ _ _ _ t); try done; [|by destruct Hclient as [-> _]].
    unfold unsent_pdu. cbn [messageId type ai]. rewrite (proj2 (Z.eqb_neq 0 id)) by lia.
    by rewrite (proj1 continue_codes). }
  rewrite Eg.
  assert (Ea : CAAddBlockOption (mk_pdu (answer_type (type info)) id continue_code t [] None) ai client []
                 (adding d' (mk_ctx dl ml []))
               = Some ((CA_STATUS_OK, Some (answer_pdu id k)), adding d' (mk_ctx dl ml []))).
  { apply (CAAddBlockOption_answer _ (List.length dl) d'); try done.
    by apply (holds_adding _ (mk_ctx dl ml [])). }
  pose proof (run_bwt_some _ (mk_handler (adding d' (mk_ctx dl ml [])) r hist [] rcv w) _ _ Ea) as Erun.
  change (with_send [] (mk_handler _ r hist [a] rcv w))
    with (mk_handler (adding d' (mk_ctx dl ml [])) r hist [] rcv w).
  rewrite bind_assoc, (bind_some _ _ _ _ _ Erun). cbn [fst]. set (h := with_bwt _ _).
  assert (Er : Retransmission.CARetransmissionSentData now random r client 0 (coap_bytes (answer_pdu id k))
               = (CA_NOT_SUPPORTED, r)).
  { destruct (answer_bytes id k) as (B1 & B2 & _); [unfold in_width; lia|].
    unfold Retransmission.CARetransmissionSentData, Retransmission.CAGetMessageTypeFromPduBinaryData,
      Retransmission.too_short.
    rewrite (proj2 (Z.ltb_ge _ _)) by (unfold Retransmission.CA_PDU_MIN_SIZE; lia). rewrite B2.
    rewrite (proj2 (Z.eqb_neq (answer_type (type info)) _)) by congruence.
    by destruct (Retransmission.supported r client). }
  rewrite (bind_some _ _ _ _ _ (transmit_sent now random a (answer_pdu id k) h _ r Er ltac:(by right))).
  done.
Qed.

Lemma client_receives k id dl ml r r' hist rcv w w' : block_ok L k -> more L k = true ->
  0 < id < 65536 -> fresh (CACreateBlockDatablockId t server) (mk_ctx dl ml []) ->
  Retransmission.CARetransmissionReceivedData r' server (coap_bytes (answer_pdu id k))
  = (CA_STATUS_OK, None, r) ->
  deliver server (w' ++ [mk_sent client (answer_pdu id k) 0])
    (mk_handler (client_ctx dl ml id (blk L k)) r' hist [] rcv w)
  = Some (tt, mk_handler (client_ctx dl ml 0 (next_block (S k))) r hist [queued] rcv w).
Proof.
  intros H Hm Hid Hf Er. destruct (q_token _ _ _ _ _ _ Hq) as (_ & Htn & Hl).
  set (h := mk_handler _ _ _ _ _ _).
  set (rd := mk_cadata SEND_TYPE_UNICAST server None
     (Some (mk_response CA_CONTINUE (mk_info (answer_type (type info)) id (Some t) [] None 0 0 0 0 None 0) false))
     CA_RESPONSE_DATA).
  assert (Egen : CAGenerateHandlerData g_chproxyUri server (answer_pdu id k) CA_RESPONSE_DATA h
    = Some (Some (mk_cadata 0 server None (responseInfo rd) CA_RESPONSE_DATA), h)).
  { unfold CAGenerateHandlerData. rewrite Z.eqb_refl.
    unfold CAGetResponseInfoFromPDU, CAGetInfoFromPDU, CAGetOptionCount. cbn [answer_pdu block_answer p_options].
    rewrite filter_uncounted by (by repeat constructor). cbn [List.length Nat.ltb Nat.leb mbind option_bind].
    rewrite parse_skip by (by repeat constructor). cbn [mbind option_bind answer_pdu block_answer p_data p_code found
      List.length Nat.sub replicate optionResult until_nul isProxyRequest andb p_token p_type p_id
      s_payloadFormat s_acceptFormat s_payloadVersion s_acceptVersion app parsed_info demand].
    rewrite (bind_some _ _ _ _ _ eq_refl). rewrite (proj2 continue_codes). by destruct t. }
  unfold deliver. rewrite last_last. unfold mh_CAReceivedPacketCallback.
  destruct (answer_bytes id k) as (Hb & _); [unfold in_width; lia|].
  destruct (coap_bytes (answer_pdu id k)) as [|b0 bs] eqn:Eb; [simpl in Hb; lia|]. rewrite <- Eb in *.
  assert (Ep : CAParsePDU (Some (COAP_DEFAULT_VERSION, answer_pdu id k)) = Some (answer_pdu id k, CA_CONTINUE)).
  { unfold CAParsePDU. cbn [mbind option_bind]. rewrite Z.eqb_refl. cbn [negb answer_pdu block_answer p_token].
    rewrite (proj2 (Z.ltb_ge _ _)) by (unfold CA_MAX_TOKEN_LEN; lia). cbn [p_code].
    by rewrite (proj2 continue_codes). }
  rewrite Ep. change (is_method CA_CONTINUE) with false. cbn match.
  rewrite bind_assoc, (bind_some _ _ _ _ _ Egen).
  unfold answered, retransmission_received, with_retransmitted.
  set (h2 := with_retransmission r h).
  rewrite !bind_assoc. erewrite bind_some by (cbn [g_retransmissionContext h]; rewrite Er; reflexivity).
  rewrite (bind_some _ _ _ _ _ eq_refl), (bind_some _ _ _ _ _ eq_refl).
  rewrite (supported_ip server Hserver). change (as_unicast _) with rd.
  pose proof (CAReceiveBlockWiseData_answer g_chproxyUri server t L k (type info) id code info id
    (mk_ctx dl ml []) rd (Z.of_nat (List.length (coap_bytes (answer_pdu id k)))) [] (q_type _ _ _ _ _ _ Hq) H Hm q_large
    (q_method _ _ _ _ _ _ Hq) (proj2 Hserver) Hf) as Ec.
  change (with_retransmission r h) with h2.
  pose proof (run_bwt_some _ h2 _ _ Ec) as Erun.
  rewrite (bind_some _ _ _ _ _ Erun). done.
Qed.

(** ** One exchange *)

Lemma exchange_more prng now random k d dl ml dl' ml' r r' hist hist' rcv rcv' w w' :
  block_ok L k -> more L k = true -> 0 < prng < 65536 ->
  fresh (CACreateBlockDatablockId t server) (mk_ctx dl ml []) ->
  fresh (CACreateBlockDatablockId t client) (mk_ctx dl' ml' []) ->
  gathering client t L k d -> (k = O -> d = new_entry client t) ->
  unseen prng hist' -> not_pending prng server r ->
  exists d' h' v v', gathering client t L (S k) d' /\
    (forall id', id' <> prng -> unseen id' hist' -> unseen id' h') /\
    exchange prng now random
      (mk_handler (client_ctx dl ml 0 (next_block k)) r hist [queued] rcv w)
      (mk_handler (stage k d (mk_ctx dl' ml' [])) r' hist' [] rcv' w')
    = Some (mk_handler (client_ctx dl ml 0 (next_block (S k))) r hist [queued] rcv v,
            mk_handler (stage (S k) d' (mk_ctx dl' ml' [])) r' h' [] rcv' v').
Proof.
  intros H Hm Hid Hf Hf' Hg Hk Hu Hp.
  assert (Hw : in_width 16 prng) by (unfold in_width; lia).
  destruct (q_bytes prng k Hw) as (B1 & B2 & B3), (answer_bytes prng k Hw) as (A1 & A2 & A3 & A4).
  destruct (retransmission_cycle now random r server CA_REQUEST_DATA _ _ (type info) prng
    (q_type _ _ _ _ _ _ Hq) Hp B1 B2 B3 A1 A2 A3 A4) as (res & r1 & Es & Hres & Er).
  destruct (server_receives k prng d dl' ml' r' hist' rcv' w' CA_REQUEST_DATA w H Hw Hf' Hg Hk Hu)
    as (h' & Hh & Esrv).
  unfold server_after in Esrv. rewrite Hm in Esrv.
  set (d' := set_sent _ (received_entry L k d)) in Esrv.
  assert (Hg' : gathering client t L (S k) d') by (by apply received_gathering).
  eexists d', h', _, _. split; [done|]. split; [done|]. unfold exchange.
  rewrite (client_sends prng now random k dl ml r hist rcv w H Hf res r1 Es Hres).
  cbn [mbind option_bind]. cbn [wire]. rewrite Esrv. cbn [mbind option_bind g_sendThread].
  rewrite (server_answers prng now random k prng d' dl' ml' r' h' rcv' w' H Hm Hid Hf'); try done;
    [|by destruct Hg'|by destruct Hg'].
  cbn [mbind option_bind]. cbn [wire].
  rewrite (client_receives k prng dl ml r r1 hist rcv _ w' H Hm Hid Hf Er). done.
Qed.

Lemma exchange_last prng now random k d dl ml dl' ml' r r' hist hist' rcv rcv' w w' :
  block_ok L k -> more L k = false -> 0 < prng < 65536 ->
  fresh (CACreateBlockDatablockId t server) (mk_ctx dl ml []) ->
  fresh (CACreateBlockDatablockId t client) (mk_ctx dl' ml' []) ->
  gathering client t L k d -> (k = O -> d = new_entry client t) ->
  unseen prng hist' -> not_pending prng server r ->
  exists cli' srv', exchange prng now random
      (mk_handler (client_ctx dl ml 0 (next_block k)) r hist [queued] rcv w)
      (mk_handler (stage k d (mk_ctx dl' ml' [])) r' hist' [] rcv' w')
    = Some (cli', srv') /\ g_receiveThread cli' = rcv /\
    g_sendThread cli' = [] /\ g_sendThread srv' = [] /\
    g_receiveThread srv' = rcv' ++ [Received (arrived prng L)].
Proof.
  intros H Hm Hid Hf Hf' Hg Hk Hu Hp.
  assert (Hw : in_width 16 prng) by (unfold in_width; lia).
  destruct (q_bytes prng k Hw) as (B1 & B2 & B3), (answer_bytes prng k Hw) as (A1 & A2 & A3 & A4).
  destruct (retransmission_cycle now random r server CA_REQUEST_DATA _ _ (type info) prng
    (q_type _ _ _ _ _ _ Hq) Hp B1 B2 B3 A1 A2 A3 A4) as (res & r1 & Es & Hres & _).
  destruct (server_receives k prng d dl' ml' r' hist' rcv' w' CA_REQUEST_DATA w H Hw Hf' Hg Hk Hu)
    as (h' & _ & Esrv).
  unfold server_after in Esrv. rewrite Hm in Esrv.
  eexists _, _. split.
  - unfold exchange. rewrite (client_sends prng now random k dl ml r hist rcv w H Hf res r1 Es Hres).
    cbn [mbind option_bind]. cbn [wire]. rewrite Esrv. reflexivity.
  - done.
Qed.

(** All exchanges from block [k] on; [n] blocks are followed by others. *)
Lemma exchanges_all (prng now random : nat -> Z) dl ml dl' ml' r r' hist rcv rcv'
  (Hf : fresh (CACreateBlockDatablockId t server) (mk_ctx dl ml []))
  (Hf' : fresh (CACreateBlockDatablockId t client) (mk_ctx dl' ml' []))
  (last : nat) (Hlast : block_ok L last /\ more L last = false)
  (Hid : forall j, (j <= last)%nat -> 0 < prng j < 65536 /\ not_pending (prng j) server r)
  (Hinj : forall i j, (i < j <= last)%nat -> prng i <> prng j) n :
  forall k d hist' w w', (k + n = last)%nat ->
  gathering client t L k d -> (k = O -> d = new_entry client t) ->
  (forall j, (k <= j <= last)%nat -> unseen (prng j) hist') ->
  exists cli' srv', exchanges (S n) k prng now random
      (mk_handler (client_ctx dl ml 0 (next_block k)) r hist [queued] rcv w)
      (mk_handler (stage k d (mk_ctx dl' ml' [])) r' hist' [] rcv' w')
    = Some (cli', srv') /\ g_receiveThread cli' = rcv /\
    g_sendThread cli' = [] /\ g_sendThread srv' = [] /\
    g_receiveThread srv' = rcv' ++ [Received (arrived (prng last) L)].
Proof.
  induction n as [|n IH]; intros k d hist' w w' Hkn Hg Hk Hu.
  - replace k with last in * by lia. destruct Hlast as [Hl1 Hl2].
    destruct (exchange_last (prng last) (now last) (random last) last d dl ml dl' ml' r r' hist hist'
      rcv rcv' w w') as (cli' & srv' & E & Hrest); try done; try (by apply Hid); [by apply Hu|].
    exists cli', srv'. cbn [exchanges]. rewrite E. done.
  - destruct Hlast as [Hl1 Hl2].
    assert (Hs : block_ok L k) by (unfold block_ok, start in *; lia).
    assert (Hm : more L k = true) by (apply Z.ltb_lt; unfold block_ok, start in *; lia).
    destruct (exchange_more (prng k) (now k) (random k) k d dl ml dl' ml' r r' hist hist' rcv rcv' w w')
      as (d' & h' & v & v' & Hg' & Hh & E); try done; try (apply Hid; lia); [apply Hu; lia|].
    destruct (IH (S k) d' h' v v') as (cli' & srv' & E' & Hrest); try done; [lia| |].
    { intros j Hj. apply Hh; [|apply Hu; lia]. intros Eq. apply (Hinj k j); [lia|done]. }
    exists cli', srv'. split; [|done]. change (exchanges (S (S n)) k) with
      (fun p nw rd c s => '(c, s) ← exchange (p k) (nw k) (rd k) c s; exchanges (S n) (S k) p nw rd c s).
    cbn beta. rewrite E. exact E'.
Qed.

End request.

(** ** From the application to the application *)

Definition block_count (L : list Z) : nat := Z.to_nat ((Z.of_nat (List.length L) + 1023) / 1024).

Lemma clone_request_ok code info segs query t L : request_ok code info segs query t L ->
  request_ok code (CACloneInfo info) segs query t L.
Proof.
  intros []. destruct q_token0 as (Et & Ht & Hl), q_payload0 as [Ep HL].
  split; try done; cbn [CACloneInfo token payload].
  - rewrite Et. by destruct t.
  - rewrite Ep. destruct L; [simpl in HL; lia|done].
Qed.

(** A handler with nothing to send, and no transfer with the peer [ep]. *)
Definition idle (ep : CAEndpoint_t) (t : list Z) (h : handler) : Prop :=
  g_sendThread h = [] /\ log (bwt h) = [] /\ fresh (CACreateBlockDatablockId t ep) (bwt h).

(** Sending a large request queues its first block. *)
Lemma detach_large code info segs query t L dl ml r hist rcv w :
  request_ok code info segs query t L -> ip server t -> CAIsLocalEndpoint server = false ->
  fresh (CACreateBlockDatablockId t server) (mk_ctx dl ml []) ->
  CADetachSendMessage CAIsLocalEndpoint server (inl (mk_request code info false)) CA_REQUEST_DATA
    (mk_handler (mk_ctx dl ml []) r hist [] rcv w)
  = Some (CA_STATUS_OK, mk_handler (client_ctx code (CACloneInfo info) t dl ml 0 (next_block 0)) r hist
      [queued code (CACloneInfo info)] rcv w).
Proof.
  intros Hq Hserver Hloc Hf.
  pose proof (clone_request_ok _ _ _ _ _ _ Hq) as Hq'. set (info' := CACloneInfo info) in *.
  pose proof (q_method _ _ _ _ _ _ Hq) as Hm.
  assert (HlL : large_info t L info') by (by apply (q_large code info' segs query)).
  assert (Einfo : with_message (type info') 0 info' = info').
  { unfold with_message. pose proof (q_id _ _ _ _ _ _ Hq') as Ei. destruct info'. cbn in *. by subst. }
  set (queue := queued code info').
  unfold CADetachSendMessage, CAPrepareSendData. rewrite Z.eqb_refl.
  unfold CACloneRequestInfo. cbn [method req_info req_isMulticast]. rewrite Hm.
  cbn [fmap option_fmap option_map demand]. rewrite (bind_some _ _ _ _ _ eq_refl).
  cbn [send_type remoteEndpoint req_isMulticast]. rewrite Hloc, andb_false_r.
  rewrite (supported_ip t server Hserver). fold info'.
  assert (Edata : mk_cadata SEND_TYPE_UNICAST server (Some (mk_request code info' false)) None CA_REQUEST_DATA
                  = queue) by (unfold queue, queued, request_data; by rewrite Einfo).
  rewrite Edata.
  assert (Hty : CA_MSG_RESET <> type info') by (by destruct (q_type _ _ _ _ _ _ Hq') as [-> | ->]).
  pose proof (CASendBlockWiseData_large server code info' (type info') 0 t L (mk_ctx dl ml []) HlL Hm Hty Hf)
    as Es. fold queue in Es.
  pose proof (run_bwt_some _ (mk_handler (mk_ctx dl ml []) r hist [] rcv w) _ _ Es) as Erun.
  rewrite (bind_some _ _ _ _ _ Erun). done.
Qed.

Lemma last_block L : 1024 < Z.of_nat (List.length L) <= 2 ^ 30 ->
  exists last, block_count L = S last /\ block_ok L last /\ more L last = false.
Proof.
  intros HL.
  exists (pred (block_count L)). unfold block_ok, more, start, block_count.
  assert (1 <= (Z.of_nat (List.length L) + 1023) / 1024) by (apply Z.div_le_lower_bound; lia).
  split_and!; [lia| | |].
  - Z.div_mod_to_equations. lia.
  - lia.
  - apply Z.ltb_ge. Z.div_mod_to_equations. lia.
Qed.

(** C12: A request whose payload is larger than a block and that one device's stack
    sends over IP, confirmable or not, is handed over by the other device's message
    handler, once, with the payload as it was and the method, token, formats and
    path of the request, when every message reaches its destination; the client's
    stack hears nothing meanwhile, and in the end neither device has a message left
    to send.  The message identifiers are different, not
    pending at the client and not in the server's history. *)
Theorem blockwise_request_delivered code info segs query t L prng now random cli srv :
  request_ok code info segs query t L -> ip server t -> ip client t ->
  CAIsLocalEndpoint server = false -> idle server t cli -> idle client t srv ->
  (forall k, (k < block_count L)%nat -> 0 < prng k < 65536 /\
    not_pending (prng k) server (g_retransmissionContext cli) /\ unseen (prng k) (requestHistory srv)) ->
  (forall j k, (j < k < block_count L)%nat -> prng j <> prng k) ->
  exists cli0 cli' srv',
    CADetachSendMessage CAIsLocalEndpoint server (inl (mk_request code info false)) CA_REQUEST_DATA cli
    = Some (CA_STATUS_OK, cli0) /\
    exchanges (block_count L) 0 prng now random cli0 srv = Some (cli', srv') /\
    g_receiveThread srv' = g_receiveThread srv ++
      [Received (mk_cadata SEND_TYPE_UNICAST client
         (Some (mk_request code (delivered (prng (pred (block_count L))) info segs query) false)) None
         CA_REQUEST_DATA)] /\
    g_receiveThread cli' = g_receiveThread cli /\
    g_sendThread cli' = [] /\ g_sendThread srv' = [].
Proof.
  intros Hq Hserver Hclient Hloc Hcli Hsrv Hid Hinj.
  pose proof (clone_request_ok _ _ _ _ _ _ Hq) as Hq'. set (info' := CACloneInfo info) in *.
  destruct cli as [[dl ml lg] r hist q rcv w], srv as [[dl' ml' lg'] r' hist' q' rcv' w'].
  destruct Hcli as (Eq & El & Hf), Hsrv as (Eq' & El' & Hf'). cbn in Eq, El, Eq', El'. subst.
  cbn [g_retransmissionContext requestHistory] in Hid.
  destruct (q_payload _ _ _ _ _ _ Hq) as [Ep HL].
  set (queue := queued code info').
  set (cli0 := mk_handler (client_ctx code info' t dl ml 0 (next_block 0)) r hist [queue] rcv w).
  assert (Esend : CADetachSendMessage CAIsLocalEndpoint server (inl (mk_request code info false))
    CA_REQUEST_DATA (mk_handler (mk_ctx dl ml []) r hist [] rcv w) = Some (CA_STATUS_OK, cli0))
    by (by apply (detach_large code info segs query t L)).
  exists cli0.
  pose proof (last_block L HL) as Hc.
  destruct Hc as (last & Ec & Hl1 & Hl2). rewrite Ec in *. cbn [pred].
  destruct (exchanges_all code info' segs query t L Hq' eq_refl Hserver Hclient prng now random dl ml dl' ml'
    r r' hist rcv rcv' Hf Hf' last (conj Hl1 Hl2)) with (n := last) (k := O) (d := new_entry client t)
    (hist' := hist') (w := w) (w' := w') as (cli' & srv' & E & E1 & E2 & E2' & E3); try done.
  - intros j Hj. destruct (Hid j ltac:(lia)) as (? & ? & _). done.
  - intros i j Hij. apply Hinj. lia.
  - apply new_gathering.
  - intros j Hj. apply Hid. lia.
  - exists cli', srv'. split_and!; try done.
    rewrite E3. cbn [g_receiveThread]. unfold arrived. do 6 f_equal.
    unfold delivered, info', CACloneInfo. cbn.
    destruct (q_token _ _ _ _ _ _ Hq) as (Et & Ht & _). rewrite Et, Ep. f_equal. by destruct t.
Qed.

End exchange.

(** ** A concrete transfer *)

Import LibCoapReference.

Definition server_ep : CAEndpoint_t := mk_endpoint CA_ADAPTER_IP 64 5683 "192.0.2.1" 2.
Definition client_ep : CAEndpoint_t := mk_endpoint CA_ADAPTER_IP 64 49152 "192.0.2.7" 2.
Definition firmware : list Z := (fun k => Z.of_nat k mod 251) <$> List.seq 0 2500.
Definition update_path : list (list Z) := [codes "firmware"].
Definition update : CAInfo_t :=
  mk_info CA_MSG_NONCONFIRM 0 (Some [9; 8; 7; 6]) [] (Some firmware) CA_FORMAT_APPLICATION_CBOR
    CA_FORMAT_APPLICATION_VND_OCF_CBOR 0 DEFAULT_VERSION_VALUE (Some (uri_of update_path [])) 0.
Definition fresh_handler : handler :=
  mk_handler (mk_ctx [] [] []) (Retransmission.CARetransmissionInitialize None) empty_history [] [] [].

Lemma update_ok : request_ok CA_POST update update_path [] [9; 8; 7; 6] firmware.
Proof.
  split; try done.
  - by right.
  - split; [|done]. split_and!; try done; repeat constructor; done.
  - left. by split; [right|].
  - right. split; [done|]. by split.
  - by split_and!; [| |cbn; lia].
Qed.

Lemma update_ip : ip server_ep [9; 8; 7; 6] /\ ip client_ep [9; 8; 7; 6].
Proof. split; (split; [done|]); apply Nat.leb_le; by vm_compute. Qed.

Lemma blockwise_request_delivered_witness :
  exists cli0 cli' srv',
    CADetachSendMessage (fun _ => false) server_ep (inl (mk_request CA_POST update false)) CA_REQUEST_DATA
      fresh_handler = Some (CA_STATUS_OK, cli0) /\
    exchanges [] (fun _ => false) server_ep client_ep 3 0 (fun k => 100 + Z.of_nat k) (fun _ => 0)
      (fun _ => 0) cli0 fresh_handler = Some (cli', srv') /\
    g_receiveThread srv' =
      [Received (mk_cadata SEND_TYPE_UNICAST client_ep
         (Some (mk_request CA_POST (delivered 102 update update_path []) false)) None CA_REQUEST_DATA)] /\
    g_receiveThread cli' = [] /\ g_sendThread cli' = [] /\ g_sendThread srv' = [].
Proof.
  apply (blockwise_request_delivered [] (fun _ => false) server_ep client_ep CA_POST update update_path []
    [9; 8; 7; 6] firmware (fun k => 100 + Z.of_nat k) (fun _ => 0) (fun _ => 0) fresh_handler fresh_handler).
  - exact update_ok.
  - apply update_ip.
  - apply update_ip.
  - done.
  - done.
  - done.
  - change (block_count firmware) with 3%nat. intros k Hk. split; [lia|]. split; [done|].
    apply Forall_forall. intros it ->%elem_of_replicate_inv. cbn. lia.
  - intros j k Hjk. lia.
Defined.

End BlockExchange.
