(* ===== verification/BlockEdges.v ===== *)
(** * Block-wise transfer at its edges

    What the functions of [Blockwise] and [MessageHandler] do on messages that a
    well-behaved peer does not send, or not in this order: evaluated on concrete
    messages, with the reference libcoap. *)

From S2P Require Import Prelude.
From S2P Require Import Status.
From S2P Require Import CaTypes.
From S2P Require Import LibCoap.
From S2P Require Import LibCoapReference.
From S2P Require Import CoapCodec.
From S2P Require Import Blockwise.
From S2P Require Import MessageHandler.

Module BlockEdges.
Import CaTypes LibCoap LibCoapReference CoapCodec Blockwise MessageHandler.

Definition peer : CAEndpoint_t := mk_endpoint CA_ADAPTER_IP 64 5683 "192.0.2.7" 0.
Definition empty_ctx : CABlockWiseContext_t := mk_ctx [] [] [].
Definition full_block : list Z := replicate 1024 7.

(** A block of a request, with its data. *)
Definition block_post (id num_ more_ : Z) (size : option Z) (body : list Z) : coap_pdu_t :=
  mk_pdu CA_MSG_CONFIRM id CA_POST [1; 2]
    ([(COAP_OPTION_BLOCK1, coap_encode_var_bytes (block_value (mk_block num_ more_ 6)))]
     ++ match size with Some n => [(COAP_OPTION_SIZE1, coap_encode_var_bytes n)] | None => [] end)
    (Some body).
Definition post_data (pdu : coap_pdu_t) : CAData_t :=
  mk_cadata SEND_TYPE_UNICAST peer
    (Some (mk_request CA_POST (mk_info (p_type pdu) (p_id pdu) (Some (p_token pdu)) [] (p_data pdu)
                                 0 0 0 0 None 0) false)) None CA_REQUEST_DATA.
Definition receive (pdu : coap_pdu_t) : B (CAResult_t * CAData_t) :=
  CAReceiveBlockWiseData [] pdu peer (post_data pdu) 1060.
(** What is handed over: the payloads. *)
Definition handed_over (c : CABlockWiseContext_t) : list (option (list Z)) :=
  flat_map (fun e => match e with ReceiveThread d => [CAGetPayloadInfo d] | _ => [] end) (log c).

(** A first block that announces a payload smaller than itself is copied past the
    end of the buffer that was allocated for the payload. *)
Lemma size_option_overflow : receive (block_post 1 0 1 (Some 10) full_block) empty_ctx = None.
Proof. by vm_compute. Qed.

(** So is a block that follows more than the announced payload. *)
Lemma later_block_overflow :
  (receive (block_post 1 0 1 (Some 1030) full_block) ;;; receive (block_post 2 1 1 None full_block))%m
    empty_ctx = None.
Proof. by vm_compute. Qed.

(** The last of two blocks that comes first is taken for a block that was received
    already, and handed over as the whole payload. *)
Lemma last_block_first :
  (fun r => handed_over r.2) <$> receive (block_post 1 1 0 None [1; 2; 3]) empty_ctx
  = Some [Some [1; 2; 3]].
Proof. by vm_compute. Qed.

(** The last block is handed over again, with the whole payload, when it is
    received again. *)
Lemma last_block_again :
  (fun r => handed_over r.2) <$>
    (receive (block_post 1 0 1 (Some 1027) full_block) ;;; receive (block_post 2 1 0 None [1; 2; 3]) ;;;
     receive (block_post 2 1 0 None [1; 2; 3]))%m empty_ctx
  = Some [Some (full_block ++ [1; 2; 3]); Some (full_block ++ [1; 2; 3])].
Proof. by vm_compute. Qed.

(** A request that asks for blocks of a response is queued to be sent back to where
    it came from, and the stack does not hear of it. *)
Lemma first_block2_request_returned pdu :
  pdu = mk_pdu CA_MSG_CONFIRM 5 CA_GET [1; 2] [(COAP_OPTION_BLOCK2, [6])] None ->
  exists c, CAReceiveBlockWiseData [] pdu peer (post_data pdu) 10 empty_ctx
            = Some ((CA_STATUS_OK, post_data pdu), c) /\
    log c = [SendThread (CACloneCAData (post_data pdu))].
Proof. intros ->. eexists. split; [vm_compute; reflexivity|]. by vm_compute. Qed.

(** A confirmable answer is acknowledged with the identifier of the request. *)
Lemma acknowledges_own_identifier :
  let d := mk_block_data (mk_block 0 1 6) (mk_block 0 0 6) COAP_OPTION_BLOCK1
             (CACreateBlockDatablockId [1; 2] peer)
             (mk_cadata SEND_TYPE_UNICAST peer (Some (mk_request CA_POST
                (mk_info CA_MSG_CONFIRM 77 (Some [1; 2]) [] (Some (full_block ++ full_block)) 0 0 0 0 None 0)
                false)) None CA_REQUEST_DATA) None 0 0 in
  let answer := mk_pdu CA_MSG_CONFIRM 900 95 [1; 2] [(COAP_OPTION_BLOCK1, [14])] None in
  exists rest c, CAReceiveBlockWiseData [] answer peer (post_data answer) 10
                   (with_dataList [d] empty_ctx) = Some ((CA_STATUS_OK, post_data answer), c) /\
    log c = EmptyResponse peer 77 :: rest.
Proof. eexists _, _. split; [vm_compute; reflexivity|]. by vm_compute. Qed.

(** Token, port and address are not kept apart: different peers share a transfer. *)
Lemma transfers_confused :
  CACreateBlockDatablockId [1; 2; 3] (mk_endpoint CA_ADAPTER_IP 64 12594 "0.0.0.1" 0)
  = CACreateBlockDatablockId [1] (mk_endpoint CA_ADAPTER_IP 64 515 "120.0.0.1" 0).
Proof. by vm_compute. Qed.

(** A request in blocks without token is refused. *)
Lemma empty_token_refused :
  let pdu := mk_pdu CA_MSG_CONFIRM 1 CA_POST []
    [(COAP_OPTION_BLOCK1, coap_encode_var_bytes (block_value (mk_block 0 1 6)))] (Some full_block) in
  (fun r => (r.1.1, log r.2)) <$> CAReceiveBlockWiseData [] pdu peer (post_data pdu) 1060 empty_ctx
  = Some (CA_STATUS_FAILED, []).
Proof. by vm_compute. Qed.

(** The history compares neither address nor family: the same identifier and token
    from another device is dropped. *)
Lemma dropped_from_another_device :
  let h := (CADropSecondMessage empty_history peer 33 (Some [1; 2])).2 in
  (CADropSecondMessage h (mk_endpoint CA_ADAPTER_IP 64 5683 "198.51.100.9" 0) 33 (Some [1; 2])).1 = true.
Proof. by vm_compute. Qed.

(** A first request with identifier 0 and no token matches the empty history. *)
Lemma dropped_at_first :
  (CADropSecondMessage empty_history peer 0 None).1 = true.
Proof. by vm_compute. Qed.

(** After a fifth request the first one is no longer recognized. *)
Lemma history_of_four :
  let see h id := (CADropSecondMessage h peer id (Some [1; 2])).2 in
  let h := fold_left see [1; 2; 3; 4] empty_history in
  ((fun id => (CADropSecondMessage h peer id (Some [1; 2])).1) <$> [1; 2; 3; 4]
   = [true; true; true; true]) /\
  (CADropSecondMessage (see h 5) peer 1 (Some [1; 2])).1 = false.
Proof. by vm_compute. Qed.

End BlockEdges.
