(* ===== verification/OcEndpoint.v ===== *)
(** * Endpoints as strings

    [ocf/ocendpoint.c], with UDP and Bluetooth LE built and the other transports
    not: the transport protocol suites of an endpoint, and the "ep" strings of the
    discovery payload, such as [coaps://[fe80::1]:5684], printed and parsed.  A
    string is the list of its characters; the buffers of the parser are bounded as
    in the code. *)

From S2P Require Import Prelude.
From S2P Require Import Status.
From S2P Require Import CaTypes.

Module OcEndpoint.
Import CaTypes.

Definition OC_MAX_TPS_STR_SIZE : Z := 12.
Definition OC_MAX_ADDR_STR_SIZE : Z := 46.
Definition MAX_ADDR_STR_SIZE : Z := 66.
Definition OC_ENDPOINT_TPS_TOKEN : list Z := codes "://".
Definition OC_ENDPOINT_ADDR_TOKEN : Z := 58.
Definition OC_ENDPOINT_BRACKET_START : Z := 91.
Definition OC_ENDPOINT_BRACKET_END : Z := 93.
Definition COAP_STR : list Z := codes "coap".
Definition COAPS_STR : list Z := codes "coaps".
Definition UINT16_MAX : Z := 65535.

(** [OCTpsSchemeFlags] *)
Definition OC_NO_TPS : Z := 0.
Definition OC_COAP : Z := 1.
Definition OC_COAPS : Z := 2.
Definition OC_COAP_GATT : Z := 128.

(** [OCTransportFlags] *)
Definition OC_FLAG_SECURE : Z := 16.
Definition OC_IP_USE_V6 : Z := 32.
Definition OC_IP_USE_V4 : Z := 64.

(** One element of the list of endpoints of a resource. *)
Record OCEndpointPayload : Type := mk_ep {
  tps : list Z; ep_addr : list Z; family : Z; ep_port : Z; pri : Z }.

(** ** Transport protocol suites *)

Definition OCGetSupportedEndpointFlags (givenFlags out : Z) : Z :=
  let out := if flag_set givenFlags (Z.lor OC_COAP OC_COAPS) then Z.lor (Z.lor out OC_COAP) OC_COAPS
             else out in
  if flag_set givenFlags OC_COAP_GATT then Z.lor out OC_COAP_GATT else out.

Definition OCGetMatchedTpsFlags (adapter flags out : Z) : Z :=
  let out := if flag_set adapter CA_ADAPTER_IP && flag_set flags (Z.lor OC_IP_USE_V4 OC_IP_USE_V6)
             then Z.lor out (if flag_set flags OC_FLAG_SECURE then OC_COAPS else OC_COAP)
             else out in
  if flag_set adapter CA_ADAPTER_GATT_BTLE then Z.lor out OC_COAP_GATT else out.

Definition OCGetSupportedTpsFlags : Z := Z.lor (Z.lor (Z.lor OC_NO_TPS OC_COAP) OC_COAPS) OC_COAP_GATT.

Definition ConvertTpsToString (t : Z) : option (list Z) :=
  if t =? OC_COAP then Some COAP_STR else if t =? OC_COAPS then Some COAPS_STR else None.

Definition OCConvertTpsToString (t : Z) : OCStackResult * option (list Z) :=
  match ConvertTpsToString t with
  | Some s => (OC_STACK_OK, Some s)
  | None => (OC_STACK_NO_MEMORY, None)
  end.

(** ** An endpoint is printed *)

(** [%d] of a number that is not negative. *)
Fixpoint decimal (fuel : nat) (v : Z) : list Z :=
  match fuel with
  | O => []
  | S fuel' => (if v <? 10 then [] else decimal fuel' (v / 10)) ++ [48 + v mod 10]
  end.
Definition print_port (v : Z) : list Z := decimal 5 v.

(** [snprintf] into [MAX_ADDR_STR_SIZE] bytes. *)
Definition fits (s : list Z) : option (list Z) :=
  if Z.of_nat (List.length s) <? MAX_ADDR_STR_SIZE then Some s else None.

Definition v4_string (t a : list Z) (p : Z) : list Z := t ++ OC_ENDPOINT_TPS_TOKEN ++ a ++ [58] ++ print_port p.
Definition v6_string (t a : list Z) (p : Z) : list Z :=
  t ++ OC_ENDPOINT_TPS_TOKEN ++ [91] ++ a ++ [93; 58] ++ print_port p.

Definition OCCreateEndpointString (endpoint : OCEndpointPayload) : option (list Z) :=
  if bool_decide (tps endpoint = COAP_STR) || bool_decide (tps endpoint = COAPS_STR) then
    fits (if flag_set (family endpoint) OC_IP_USE_V4
          then v4_string (tps endpoint) (ep_addr endpoint) (ep_port endpoint)
          else v6_string (tps endpoint) (ep_addr endpoint) (ep_port endpoint))
  else None.

Definition OCCreateEndpointStringFromCA (endpoint : CAEndpoint_t) : option (list Z) :=
  match codes (addr endpoint) with
  | [] => None
  | a =>
      let t := OCGetMatchedTpsFlags (adapter endpoint) (flags endpoint) OC_NO_TPS in
      match ConvertTpsToString t with
      | None => None
      | Some s =>
          if port endpoint =? 0 then None
          else fits (if flag_set (flags endpoint) OC_IP_USE_V4 then v4_string s a (port endpoint)
                     else v6_string s a (port endpoint))
      end
  end.

(** ** An endpoint is parsed *)

Fixpoint is_prefix (n s : list Z) : bool :=
  match n, s with
  | [], _ => true
  | c :: n', d :: s' => (c =? d) && is_prefix n' s'
  | _ :: _, [] => false
  end.
(** Positions: of the first occurrence of a string, the first and the last of a
    character. *)
Fixpoint strstr (s needle : list Z) : option nat :=
  if is_prefix needle s then Some O
  else match s with [] => None | _ :: s' => S <$> strstr s' needle end.
Fixpoint strchr (s : list Z) (c : Z) : option nat :=
  match s with
  | [] => None
  | d :: s' => if d =? c then Some O else S <$> strchr s' c
  end.
Fixpoint strrchr (s : list Z) (c : Z) : option nat :=
  match s with
  | [] => None
  | d :: s' => match strrchr s' c with
               | Some i => Some (S i)
               | None => if d =? c then Some O else None
               end
  end.

Definition is_space (c : Z) : bool := (c =? 32) || ((9 <=? c) && (c <=? 13)).
Definition is_digit (c : Z) : bool := (48 <=? c) && (c <=? 57).
Fixpoint skip_spaces (s : list Z) : list Z :=
  match s with c :: s' => if is_space c then skip_spaces s' else s | [] => [] end.
Fixpoint digits (s : list Z) (acc : Z) : Z :=
  match s with
  | c :: s' => if is_digit c then digits s' (10 * acc + (c - 48)) else acc
  | [] => acc
  end.
Definition LONG_MAX : Z := 2 ^ 63 - 1.
Definition LONG_MIN : Z := - 2 ^ 63.
(** [strtol] with base 10. *)
Definition strtol (s : list Z) : Z :=
  let s := skip_spaces s in
  let '(neg, s) := match s with
                   | c :: s' => if c =? 45 then (true, s') else if c =? 43 then (false, s') else (false, s)
                   | [] => (false, s)
                   end in
  let v := if neg : bool then - digits s 0 else digits s 0 in
  Z.max LONG_MIN (Z.min LONG_MAX v).

Definition set_family (f : Z) (e : OCEndpointPayload) : OCEndpointPayload :=
  mk_ep (tps e) (ep_addr e) f (ep_port e) (pri e).

(** The address from [tokPos] up to [tmp], and the port. *)
Definition parse_addr (origin : list Z) (t : list Z) (tokPos : nat) (tmp : option nat) (isSecure : bool)
    (out : OCEndpointPayload) : OCStackResult * OCEndpointPayload :=
  match tmp with
  | None => (OC_STACK_ERROR, out)
  | Some tmp =>
      let out := if isSecure then set_family (Z.lor (family out) OC_FLAG_SECURE) out else out in
      let addrCharsToWrite := size_t (Z.of_nat tmp - Z.of_nat tokPos) in
      if (addrCharsToWrite <? 1) || (OC_MAX_ADDR_STR_SIZE <=? addrCharsToWrite)
      then (OC_STACK_ERROR, out)
      else
        let a := take (Z.to_nat addrCharsToWrite) (drop tokPos origin) in
        match strrchr origin OC_ENDPOINT_ADDR_TOKEN with
        | None => (OC_STACK_ERROR, out)
        | Some i =>
            let p := strtol (drop (S i) origin) in
            if (p <? 1) || (UINT16_MAX <? p) then (OC_STACK_ERROR, out)
            else (OC_STACK_OK, mk_ep t a (family out) p (pri out))
        end
  end.

Definition OCParseEndpointString (endpointStr : list Z) (out : OCEndpointPayload) :
    OCStackResult * OCEndpointPayload :=
  match strstr endpointStr OC_ENDPOINT_TPS_TOKEN with
  | None => (OC_STACK_ERROR, out)
  | Some tokPos =>
      if (Z.of_nat tokPos <? 1) || (OC_MAX_TPS_STR_SIZE <=? Z.of_nat tokPos) then (OC_STACK_ERROR, out)
      else
        let t := take tokPos endpointStr in
        if negb (bool_decide (t = COAP_STR)) && negb (bool_decide (t = COAPS_STR))
        then (OC_STACK_ADAPTER_NOT_ENABLED, out)
        else
          let isSecure := bool_decide (t = COAPS_STR) in
          match strchr endpointStr OC_ENDPOINT_BRACKET_START with
          | Some _ =>
              parse_addr endpointStr t (tokPos + 4) (strrchr endpointStr OC_ENDPOINT_BRACKET_END) isSecure
                (set_family OC_IP_USE_V6 out)
          | None =>
              parse_addr endpointStr t (tokPos + 3) (strrchr endpointStr OC_ENDPOINT_ADDR_TOKEN) isSecure
                (set_family OC_IP_USE_V4 out)
          end
  end.

(** ** Round trip *)

Lemma decimal_digits fuel v : 0 <= v -> Forall (fun c => is_digit c = true) (decimal fuel v).
Proof.
  revert v. induction fuel as [|fuel IH]; intros v Hv; [constructor|]. cbn [decimal].
  apply Forall_app. split.
  - destruct (v <? 10); [constructor|]. apply IH. Z.div_mod_to_equations. lia.
  - constructor; [|constructor]. unfold is_digit. apply andb_true_iff.
    split; apply Z.leb_le; Z.div_mod_to_equations; lia.
Qed.

Lemma digits_app s1 s2 acc : Forall (fun c => is_digit c = true) s1 ->
  digits (s1 ++ s2) acc = digits s2 (digits s1 acc).
Proof.
  intros H. revert acc. induction H as [|c s1 Hc _ IH]; intros acc; [done|].
  cbn [app digits]. rewrite Hc. apply IH.
Qed.

Lemma digits_decimal fuel v : 0 <= v < 10 ^ Z.of_nat fuel -> digits (decimal fuel v) 0 = v.
Proof.
  revert v. induction fuel as [|fuel IH]; intros v Hv.
  { change (10 ^ Z.of_nat 0) with 1 in Hv. cbn. lia. }
  rewrite Nat2Z.inj_succ, Z.pow_succ_r in Hv by lia. cbn [decimal].
  assert (Hd : is_digit (48 + v mod 10) = true).
  { unfold is_digit. apply andb_true_iff. split; apply Z.leb_le; Z.div_mod_to_equations; lia. }
  destruct (Z.ltb_spec v 10).
  - cbn [app digits]. rewrite Hd, Z.mod_small by lia. lia.
  - rewrite digits_app by (apply decimal_digits; Z.div_mod_to_equations; lia).
    rewrite IH by (Z.div_mod_to_equations; lia). cbn [digits]. rewrite Hd.
    Z.div_mod_to_equations. lia.
Qed.

Lemma decimal_head fuel v : (0 < fuel)%nat -> exists c s, decimal fuel v = c :: s.
Proof.
  destruct fuel as [|fuel]; [lia|]. intros _. cbn [decimal].
  destruct (if v <? 10 then [] else decimal fuel (v / 10)) as [|c s]; [|by exists c; eexists].
  by eexists _, _.
Qed.

Lemma strtol_port v : 0 < v <= UINT16_MAX -> strtol (print_port v) = v.
Proof.
  unfold UINT16_MAX. intros Hv. unfold print_port.
  pose proof (decimal_digits 5 v ltac:(lia)) as Hd.
  pose proof (digits_decimal 5 v ltac:(change (10 ^ Z.of_nat 5) with 100000; lia)) as Hval.
  destruct (decimal_head 5 v ltac:(lia)) as (c & s & E). rewrite E in *.
  apply Forall_cons in Hd as [Hc _]. unfold strtol.
  unfold is_digit in Hc. apply andb_true_iff in Hc as [H1%Z.leb_le H2%Z.leb_le].
  assert (Hs : is_space c = false).
  { unfold is_space. rewrite (proj2 (Z.eqb_neq _ _)), (proj2 (Z.leb_gt c 13)) by lia. by rewrite andb_false_r. }
  cbn [skip_spaces]. rewrite Hs. rewrite !(proj2 (Z.eqb_neq c _)) by lia. rewrite Hval.
  unfold LONG_MIN, LONG_MAX. lia.
Qed.

Lemma strrchr_last l1 c l2 : Forall (fun d => d <> c) l2 ->
  strrchr (l1 ++ c :: l2) c = Some (List.length l1).
Proof.
  intros H.
  assert (Hn : strrchr l2 c = None).
  { induction H as [|d l2 Hd _ IH]; [done|]. cbn. by rewrite IH, (proj2 (Z.eqb_neq _ _)). }
  induction l1 as [|d l1 IH]; cbn; [by rewrite Hn, Z.eqb_refl|]. by rewrite IH.
Qed.

Lemma strchr_none l c : Forall (fun d => d <> c) l -> strchr l c = None.
Proof. induction 1 as [|d l Hd _ IH]; [done|]. cbn. by rewrite (proj2 (Z.eqb_neq _ _)), IH. Qed.

Lemma strchr_some l1 c l2 : is_Some (strchr (l1 ++ c :: l2) c).
Proof.
  induction l1 as [|d l1 IH]; cbn; [rewrite Z.eqb_refl; by eexists|].
  destruct (d =? c); [by eexists|]. destruct IH as [i ->]. by eexists.
Qed.

Lemma port_not c v : 0 <= v -> (c < 48 \/ 57 < c) -> Forall (fun d => d <> c) (print_port v).
Proof.
  intros Hv Hc. eapply Forall_impl; [by apply decimal_digits|]. cbn. intros d Hd.
  unfold is_digit in Hd. apply andb_true_iff in Hd as [?%Z.leb_le ?%Z.leb_le]. lia.
Qed.

(** An endpoint whose family says what its protocol suite and address are. *)
Record endpoint_ok (e : OCEndpointPayload) : Prop := {
  ok_tps : tps e = COAP_STR \/ tps e = COAPS_STR;
  ok_family : family e = Z.lor (if flag_set (family e) OC_IP_USE_V4 then OC_IP_USE_V4 else OC_IP_USE_V6)
                (if bool_decide (tps e = COAPS_STR) then OC_FLAG_SECURE else 0);
  ok_addr : 1 <= Z.of_nat (List.length (ep_addr e)) < OC_MAX_ADDR_STR_SIZE;
  ok_v4 : flag_set (family e) OC_IP_USE_V4 = true ->
    Forall (fun c => c <> OC_ENDPOINT_BRACKET_START) (ep_addr e);
  ok_port : 0 < ep_port e <= UINT16_MAX }.

Lemma decimal_length fuel v : (List.length (decimal fuel v) <= fuel)%nat.
Proof.
  revert v. induction fuel as [|fuel IH]; intros v; [done|]. cbn [decimal]. rewrite length_app. simpl.
  destruct (v <? 10); [simpl; lia|]. specialize (IH (v / 10)). lia.
Qed.

Lemma parse_addr_ok t l2 a l3 p (sec : bool) out tmp :
  tmp = (List.length t + List.length a)%nat -> 1 <= Z.of_nat (List.length a) < OC_MAX_ADDR_STR_SIZE ->
  l2 = a ++ l3 ++ [58] ++ print_port p -> 0 < p <= UINT16_MAX -> forall name,
  parse_addr (t ++ l2) name (List.length t) (Some tmp) sec out
  = (OC_STACK_OK, mk_ep name a (family (if sec then set_family (Z.lor (family out) OC_FLAG_SECURE) out else out))
       p (pri out)).
Proof.
  intros -> Ha -> Hp name. unfold parse_addr. unfold OC_MAX_ADDR_STR_SIZE in *.
  rewrite (wrap_id 64) by (unfold in_width; lia).
  rewrite (proj2 (Z.ltb_ge (_ - _) 1)), (proj2 (Z.leb_gt 46 _)) by lia. cbn [orb].
  replace (Z.to_nat (Z.of_nat (List.length t + List.length a) - Z.of_nat (List.length t)))
    with (List.length a) by lia.
  rewrite drop_app_length, take_app_length.
  assert (E : strrchr (t ++ a ++ l3 ++ [58] ++ print_port p) OC_ENDPOINT_ADDR_TOKEN
              = Some (List.length (t ++ a ++ l3))).
  { change ([58] ++ print_port p) with (58 :: print_port p). rewrite !app_assoc.
    apply strrchr_last. apply port_not; [lia|right; reflexivity]. }
  rewrite E.
  assert (Ed : drop (S (List.length (t ++ a ++ l3))) (t ++ a ++ l3 ++ [58] ++ print_port p) = print_port p).
  { replace (t ++ a ++ l3 ++ [58] ++ print_port p) with ((t ++ a ++ l3 ++ [58]) ++ print_port p)
      by (by rewrite <- !app_assoc).
    apply drop_app_length'. rewrite !length_app. simpl. lia. }
  rewrite Ed, strtol_port by done. unfold UINT16_MAX in *.
  rewrite (proj2 (Z.ltb_ge p 1)), (proj2 (Z.ltb_ge 65535 p)) by lia. cbn [orb].
  by destruct sec.
Qed.

(** The parser past the protocol suite. *)
Lemma parse_open t rest out : t = COAP_STR \/ t = COAPS_STR ->
  OCParseEndpointString (t ++ OC_ENDPOINT_TPS_TOKEN ++ rest) out
  = match strchr (t ++ OC_ENDPOINT_TPS_TOKEN ++ rest) OC_ENDPOINT_BRACKET_START with
    | Some _ =>
        parse_addr (t ++ OC_ENDPOINT_TPS_TOKEN ++ rest) t (List.length t + 4)
          (strrchr (t ++ OC_ENDPOINT_TPS_TOKEN ++ rest) OC_ENDPOINT_BRACKET_END)
          (bool_decide (t = COAPS_STR)) (set_family OC_IP_USE_V6 out)
    | None =>
        parse_addr (t ++ OC_ENDPOINT_TPS_TOKEN ++ rest) t (List.length t + 3)
          (strrchr (t ++ OC_ENDPOINT_TPS_TOKEN ++ rest) OC_ENDPOINT_ADDR_TOKEN)
          (bool_decide (t = COAPS_STR)) (set_family OC_IP_USE_V4 out)
    end.
Proof. intros [-> | ->]; reflexivity. Qed.

(** The string of an endpoint fits the buffer. *)
Lemma fits_ok e s : endpoint_ok e ->
  s = v4_string (tps e) (ep_addr e) (ep_port e) \/ s = v6_string (tps e) (ep_addr e) (ep_port e) ->
  fits s = Some s.
Proof.
  intros [Ht _ Ha _ _] Hs. unfold fits. rewrite (proj2 (Z.ltb_lt _ _)); [done|].
  pose proof (decimal_length 5 (ep_port e)) as Hpl. unfold OC_MAX_ADDR_STR_SIZE in Ha.
  assert (Htl : (List.length (tps e) <= 5)%nat) by (destruct Ht as [-> | ->]; vm_compute; lia).
  change (List.length OC_ENDPOINT_TPS_TOKEN) with 3%nat in *. unfold MAX_ADDR_STR_SIZE.
  destruct Hs as [-> | ->]; unfold v4_string, v6_string, print_port; rewrite !length_app;
    cbn [List.length]; change (List.length OC_ENDPOINT_TPS_TOKEN) with 3%nat; lia.
Qed.

Lemma parse_v4 e out : endpoint_ok e -> flag_set (family e) OC_IP_USE_V4 = true ->
  OCParseEndpointString (v4_string (tps e) (ep_addr e) (ep_port e)) out
  = (OC_STACK_OK, mk_ep (tps e) (ep_addr e) (family e) (ep_port e) (pri out)).
Proof.
  intros [Ht Hf Ha H4 Hp] E4. rewrite E4 in Hf.
  assert (Hchr : strchr (v4_string (tps e) (ep_addr e) (ep_port e)) OC_ENDPOINT_BRACKET_START = None).
  { apply strchr_none. unfold v4_string. rewrite !Forall_app. split_and!; try done.
    - destruct Ht as [-> | ->]; repeat constructor; done.
    - repeat constructor; done.
    - by apply H4.
    - repeat constructor; done.
    - apply port_not; [lia|right; reflexivity]. }
  assert (Hlast : strrchr (v4_string (tps e) (ep_addr e) (ep_port e)) OC_ENDPOINT_ADDR_TOKEN
                  = Some (List.length (tps e ++ OC_ENDPOINT_TPS_TOKEN) + List.length (ep_addr e))%nat).
  { unfold v4_string. rewrite <- length_app, !app_assoc, <- app_assoc.
    apply strrchr_last, port_not; [lia|right; reflexivity]. }
  unfold v4_string in Hchr, Hlast |- *. rewrite parse_open, Hchr, Hlast by done. rewrite app_assoc.
  replace (List.length (tps e) + 3)%nat with (List.length (tps e ++ OC_ENDPOINT_TPS_TOKEN))
    by (by rewrite length_app).
  rewrite (parse_addr_ok _ _ (ep_addr e) [] (ep_port e)) by done. rewrite Hf.
  by destruct (bool_decide (tps e = COAPS_STR)).
Qed.

Lemma parse_v6 e out : endpoint_ok e -> flag_set (family e) OC_IP_USE_V4 = false ->
  OCParseEndpointString (v6_string (tps e) (ep_addr e) (ep_port e)) out
  = (OC_STACK_OK, mk_ep (tps e) (ep_addr e) (family e) (ep_port e) (pri out)).
Proof.
  intros [Ht Hf Ha H4 Hp] E4. rewrite E4 in Hf.
  assert (Hchr : is_Some (strchr (v6_string (tps e) (ep_addr e) (ep_port e)) OC_ENDPOINT_BRACKET_START))
    by (unfold v6_string; rewrite app_assoc; apply strchr_some).
  destruct Hchr as [i Hchr].
  set (front := tps e ++ OC_ENDPOINT_TPS_TOKEN ++ [91%Z]).
  assert (Hsplit : v6_string (tps e) (ep_addr e) (ep_port e)
                   = front ++ ep_addr e ++ [93] ++ [58] ++ print_port (ep_port e))
    by (unfold v6_string, front; by rewrite <- !app_assoc).
  assert (Hlast : strrchr (v6_string (tps e) (ep_addr e) (ep_port e)) OC_ENDPOINT_BRACKET_END
    = Some (List.length front + List.length (ep_addr e))%nat).
  { rewrite Hsplit, <- length_app, app_assoc.
    apply strrchr_last. constructor; [done|]. apply port_not; [lia|right; reflexivity]. }
  unfold v6_string in Hchr, Hlast, Hsplit |- *. rewrite parse_open, Hchr, Hlast, Hsplit by done.
  replace (List.length (tps e) + 4)%nat with (List.length front) by (unfold front; by rewrite !length_app).
  rewrite (parse_addr_ok _ _ (ep_addr e) [93] (ep_port e)) by done. rewrite Hf.
  by destruct (bool_decide (tps e = COAPS_STR)).
Qed.

(** C30: An endpoint that is printed is parsed as the same endpoint, and it always fits
    the buffer; the priority, which is not in the string, is that of the result. *)
Theorem endpoint_string_roundtrip e out : endpoint_ok e ->
  exists s, OCCreateEndpointString e = Some s /\
    OCParseEndpointString s out = (OC_STACK_OK, mk_ep (tps e) (ep_addr e) (family e) (ep_port e) (pri out)).
Proof.
  intros He. unfold OCCreateEndpointString.
  rewrite (proj2 (orb_true_iff _ _)) by (rewrite !bool_decide_eq_true; apply He).
  destruct (flag_set (family e) OC_IP_USE_V4) eqn:E4; rewrite (fits_ok e) by auto; eexists; split; try done.
  - by apply parse_v4.
  - by apply parse_v6.
Qed.

Definition light_ep : OCEndpointPayload := mk_ep COAPS_STR (codes "fe80::1%eth0") 48 5684 1.
Lemma endpoint_string_roundtrip_witness :
  exists s, OCCreateEndpointString light_ep = Some s /\
    OCParseEndpointString s (mk_ep [] [] 0 0 7)
    = (OC_STACK_OK, mk_ep COAPS_STR (codes "fe80::1%eth0") 48 5684 7).
Proof.
  apply (endpoint_string_roundtrip light_ep (mk_ep [] [] 0 0 7)). split; try done. by right.
Defined.

Example light_string : OCCreateEndpointString light_ep = Some (codes "coaps://[fe80::1%eth0]:5684").
Proof. by vm_compute. Qed.

(** What the parser lets pass: text behind the port, and a character before the
    bracket, which is not looked at. *)
Example lenient_port : (OCParseEndpointString (codes "coap://10.0.0.1: +80abc") (mk_ep [] [] 0 0 1)).1 = OC_STACK_OK.
Proof. by vm_compute. Qed.
Example lenient_bracket :
  OCParseEndpointString (codes "coap://x::1[]:80") (mk_ep [] [] 0 0 1)
  = (OC_STACK_OK, mk_ep COAP_STR (codes "::1[") OC_IP_USE_V6 80 1).
Proof. by vm_compute. Qed.

End OcEndpoint.
