(* ===== verification/Cbor.v ===== *)
(** * CBOR payloads

    The security resources are exchanged and stored as CBOR.  The library that
    encodes and decodes bytes (tinycbor) is outside the repository: it is the
    class [CborLib].  What the code does with a decoded payload (finding a
    property in a map, reading an integer, ...) is stated on CBOR data items. *)

From Stdlib Require Import Floats.SpecFloat.
From S2P Require Import Prelude.

Module Cbor.

(** Data items; [Other] stands for the types the code never asks for. *)
Inductive cbor : Type :=
| CInt (z : Z) | CBool (b : bool) | CText (s : string) | CBytes (b : list Z)
| CArray (l : list cbor) | CMap (l : list (cbor * cbor)) | COther
| CNull | CDouble (d : spec_float) | CFloat (f : spec_float).

(** The items of a container in the order an iterator meets them. *)
Definition items (v : cbor) : list cbor :=
  match v with
  | CArray l => l
  | CMap l => flat_map (fun '(k, v) => [k; v]) l
  | _ => []
  end.

(** Induction on data items. *)
Section cbor_ind.
Variable P : cbor -> Prop.
Hypothesis PInt : forall z, P (CInt z).
Hypothesis PBool : forall b, P (CBool b).
Hypothesis PText : forall s, P (CText s).
Hypothesis PBytes : forall b, P (CBytes b).
Hypothesis PArray : forall l, Forall P l -> P (CArray l).
Hypothesis PMap : forall l, Forall (fun '(k, v) => P k /\ P v) l -> P (CMap l).
Hypothesis POther : P COther.
Hypothesis PNull : P CNull.
Hypothesis PDouble : forall d, P (CDouble d).
Hypothesis PFloat : forall f, P (CFloat f).

Fixpoint cbor_induction (t : cbor) : P t :=
  match t with
  | CInt z => PInt z
  | CBool b => PBool b
  | CText s => PText s
  | CBytes b => PBytes b
  | CArray l =>
      PArray l ((fix go l : Forall P l :=
        match l with
        | [] => List.Forall_nil P
        | x :: l' => List.Forall_cons P x l' (cbor_induction x) (go l')
        end) l)
  | CMap l =>
      PMap l ((fix go l : Forall (fun '(k, v) => P k /\ P v) l :=
        match l with
        | [] => List.Forall_nil _
        | (k, v) :: l' =>
            List.Forall_cons _ (k, v) l' (conj (cbor_induction k) (cbor_induction v)) (go l')
        end) l)
  | COther => POther
  | CNull => PNull
  | CDouble d => PDouble d
  | CFloat f => PFloat f
  end.
End cbor_ind.

Fixpoint depth (t : cbor) : nat :=
  match t with
  | CArray l => S (foldr (fun x d => max (depth x) d) O l)
  | CMap l => S (foldr (fun '(k, v) d => max (max (depth k) (depth v)) d) O l)
  | _ => 1%nat
  end.

(** Sum of [f] over a list. *)
Section list_sum.
Context {A : Type} (f : A -> Z).
Fixpoint list_sum (l : list A) : Z :=
  match l with [] => 0 | x :: l' => f x + list_sum l' end.
End list_sum.

(** [payload init max t]: the bytes of [t] written to a buffer that starts with
    [init] bytes and is enlarged until it reaches [max]; [None] when they do not
    fit.  [parse b]: the first data item of [b]. *)
Class CborLib : Type := {
  payload : Z -> Z -> cbor -> option (list Z);
  parse : list Z -> option cbor }.

(** An upper bound of the encoded size: a header of at most nine bytes per item
    (RFC 8949), then its contents; one more byte ends an indefinite map. *)
Fixpoint size_bound (t : cbor) : Z :=
  match t with
  | CText s => 9 + Z.of_nat (String.length s)
  | CBytes b => 9 + Z.of_nat (List.length b)
  | CArray l => 10 + list_sum size_bound l
  | CMap l => 10 + list_sum (fun '(k, v) => size_bound k + size_bound v) l
  | _ => 9
  end.

(** The documented behaviour of the library: what is written parses back, an
    encoding is never empty, and an item that fits the buffer is written. *)
Class CborLaws {L : CborLib} : Prop := {
  parse_payload : forall init max t b, payload init max t = Some b -> parse b = Some t;
  payload_nonempty : forall init max t b, payload init max t = Some b -> b <> [];
  payload_fits : forall init max t, size_bound t <= init -> is_Some (payload init max t) }.

Definition is_int (v : cbor) : bool := match v with CInt _ => true | _ => false end.
Definition is_bool (v : cbor) : bool := match v with CBool _ => true | _ => false end.
Definition is_text (v : cbor) : bool := match v with CText _ => true | _ => false end.
Definition is_bytes (v : cbor) : bool := match v with CBytes _ => true | _ => false end.
Definition is_container (v : cbor) : bool :=
  match v with CArray _ | CMap _ => true | _ => false end.

(** [cbor_value_map_find_value]: the value of the first text key [k]; [None]
    when the item is a map without the key (an invalid iterator). *)
Fixpoint find_value (l : list (cbor * cbor)) (k : string) : option cbor :=
  match l with
  | [] => None
  | (CText k', v) :: l' => if String.eqb k' k then Some v else find_value l' k
  | _ :: l' => find_value l' k
  end.

(** A [CborInt64] stored in a C [int]. *)
Definition to_int (z : Z) : Z :=
  let u := z mod 2 ^ 32 in if u <? 2 ^ 31 then u else u - 2 ^ 32.

(** A property of a map that is being written. *)
Definition field (k : string) (v : cbor) : cbor * cbor := (CText k, v).

(** Maps whose values are byte strings, as association lists. *)
Definition byte_fields (ps : list (string * list Z)) : list (cbor * cbor) :=
  (fun '(n, b) => field n (CBytes b)) <$> ps.

Definition find_bytes (l : list (cbor * cbor)) (name : string) : option (list Z) :=
  match find_value l name with Some (CBytes b) => Some b | _ => None end.

Fixpoint assoc (ps : list (string * list Z)) (k : string) : option (list Z) :=
  match ps with
  | [] => None
  | (n, b) :: ps' => if String.eqb n k then Some b else assoc ps' k
  end.

Lemma find_byte_fields ps k : find_bytes (byte_fields ps) k = assoc ps k.
Proof.
  unfold find_bytes. induction ps as [|[n b] ps IH]; simpl; [done|].
  by destruct (String.eqb n k).
Qed.

Lemma assoc_app ps qs k : assoc (ps ++ qs) k =
  match assoc ps k with Some b => Some b | None => assoc qs k end.
Proof. induction ps as [|[n b] ps IH]; simpl; [done|]. by destruct (String.eqb n k). Qed.

(** Looking a name up in a filtered table of a function of names. *)
Lemma assoc_table (names : list string) (g : string -> list Z)
    (keep : string -> list Z -> bool) k :
  assoc (omap (fun '(n, b) => if keep n b then Some (n, b) else None)
           ((fun n => (n, g n)) <$> names)) k
  = if bool_decide (k ∈ names) && keep k (g k) then Some (g k) else None.
Proof.
  unfold omap, fmap. induction names as [|n names IH]; [done|].
  simpl. rewrite (bool_decide_ext (k ∈ n :: names) (n = k \/ k ∈ names))
    by (rewrite elem_of_cons; naive_solver).
  destruct (decide (n = k)) as [->|Hne].
  - rewrite bool_decide_eq_true_2 by auto. simpl. destruct (keep k (g k)) eqn:Hk; simpl.
    + by rewrite String.eqb_refl.
    + rewrite IH. by rewrite andb_false_r.
  - rewrite (bool_decide_ext (n = k \/ k ∈ names) (k ∈ names)) by naive_solver.
    destruct (keep n (g n)); simpl; [|done].
    destruct (String.eqb_spec n k); [done|]. done.
Qed.

Lemma size_byte_fields ps : size_bound (CMap (byte_fields ps)) =
  10 + list_sum (fun '(n, b) =>
         18 + Z.of_nat (String.length n) + Z.of_nat (List.length b)) ps.
Proof.
  simpl. f_equal. induction ps as [|[n b] ps IH]; simpl; [done|]. rewrite IH. lia.
Qed.

Lemma to_int_id z : - 2 ^ 31 <= z < 2 ^ 31 -> to_int z = z.
Proof.
  intros H. unfold to_int. destruct (Z.ltb_spec (z mod 2 ^ 32) (2 ^ 31)).
  - destruct (Z.lt_ge_cases z 0).
    + rewrite <- (Z_mod_plus_full z 1), Z.mod_small in * by lia. lia.
    + by apply Z.mod_small; lia.
  - destruct (Z.lt_ge_cases z 0).
    + rewrite <- (Z_mod_plus_full z 1), Z.mod_small by lia. lia.
    + rewrite Z.mod_small in * by lia. lia.
Qed.

End Cbor.
