(* ===== verification/RepPayload.v ===== *)
(** * Representation payloads

    [ocf/ocpayload.c]: the tree of named properties a resource is represented by,
    the operations that set and get properties, and the copies that are made of
    trees.  Allocations of a size other than zero succeed; [OICMalloc] of zero
    bytes gives no pointer, as in the source. *)

From Stdlib Require Import Floats.SpecFloat.
From S2P Require Import Prelude.
From S2P Require Import Status.

Module RepPayload.

(** ** The tree *)

Inductive OCPayloadInterfaceType : Type := PAYLOAD_NON_BATCH_INTERFACE | PAYLOAD_BATCH_INTERFACE.

Definition MAX_REP_ARRAY_DEPTH : Z := 3.
Record dimensions : Type := mk_dims { dim0 : Z; dim1 : Z; dim2 : Z }.

(** A payload, without the pointer to the next one: a chain of payloads is a list.
    Pointers that may be null are options; a double is a floating-point value.  The
    elements of an array have the type of the array, a null pointer to them is the
    empty list. *)
Inductive OCRepPayload : Type :=
| mk_rep (ifType : OCPayloadInterfaceType) (uri : option string) (types interfaces : list string)
    (values : list (string * OCRepPayloadValue))
with OCRepPayloadValue : Type :=
| OCREP_PROP_NULL
| OCREP_PROP_INT (i : Z)
| OCREP_PROP_DOUBLE (d : spec_float)
| OCREP_PROP_BOOL (b : bool)
| OCREP_PROP_STRING (str : option string)
| OCREP_PROP_BYTE_STRING (ocByteStr : list Z)
| OCREP_PROP_OBJECT (obj : option OCRepPayload)
| OCREP_PROP_ARRAY (dims : dimensions) (elements : array_elements)
with array_elements : Type :=
| iArray (l : list Z)
| dArray (l : list spec_float)
| bArray (l : list bool)
| strArray (l : list (option string))
| ocByteStrArray (l : list (list Z))
| objArray (l : list (option OCRepPayload)).

Definition ifType (p : OCRepPayload) : OCPayloadInterfaceType := let '(mk_rep x _ _ _ _) := p in x.
Definition uri (p : OCRepPayload) : option string := let '(mk_rep _ x _ _ _) := p in x.
Definition types (p : OCRepPayload) : list string := let '(mk_rep _ _ x _ _) := p in x.
Definition interfaces (p : OCRepPayload) : list string := let '(mk_rep _ _ _ x _) := p in x.
Definition values (p : OCRepPayload) : list (string * OCRepPayloadValue) := let '(mk_rep _ _ _ _ x) := p in x.
Definition with_values (v : list (string * OCRepPayloadValue)) (p : OCRepPayload) : OCRepPayload :=
  mk_rep (ifType p) (uri p) (types p) (interfaces p) v.

Definition OCRepPayloadCreate : OCRepPayload := mk_rep PAYLOAD_NON_BATCH_INTERFACE None [] [] [].

(** The child is cut off from what follows it. *)
Definition OCRepPayloadAppend (parent : list OCRepPayload) (child : list OCRepPayload) : list OCRepPayload :=
  match parent, child with
  | [], _ => []
  | _, [] => parent
  | _, c :: _ => parent ++ [c]
  end.

(** ** Properties by name *)

Fixpoint lookup_value (l : list (string * OCRepPayloadValue)) (name : string) : option OCRepPayloadValue :=
  match l with
  | [] => None
  | (n, v) :: l' => if String.eqb n name then Some v else lookup_value l' name
  end.
Fixpoint set_value (l : list (string * OCRepPayloadValue)) (name : string) (v : OCRepPayloadValue) :
    list (string * OCRepPayloadValue) :=
  match l with
  | [] => [(name, v)]
  | (n, x) :: l' => if String.eqb n name then (n, v) :: l' else (n, x) :: set_value l' name v
  end.

Definition OCRepPayloadFindValue (payload : OCRepPayload) (name : option string) : option OCRepPayloadValue :=
  n ← name; lookup_value (values payload) n.

(** The value found or appended becomes [v]; [None] is the null pointer. *)
Definition OCRepPayloadFindAndSetValue (payload : OCRepPayload) (name : option string) (v : OCRepPayloadValue) :
    option OCRepPayload :=
  n ← name; Some (with_values (set_value (values payload) n v) payload).

(** The result and the payload. *)
Definition set_to (payload : OCRepPayload) (name : option string) (v : OCRepPayloadValue) (r : bool) :
    bool * OCRepPayload :=
  match OCRepPayloadFindAndSetValue payload name v with
  | Some p => (r, p)
  | None => (false, payload)
  end.
Definition OCRepPayloadSetProp (payload : OCRepPayload) (name : option string) (v : OCRepPayloadValue) :
    bool * OCRepPayload :=
  set_to payload name v match v with OCREP_PROP_STRING None => false | OCREP_PROP_ARRAY _ _ => false | _ => true end.

Definition OCRepPayloadAddResourceType (payload : OCRepPayload) (resourceType : option string) :
    bool * OCRepPayload :=
  match resourceType with
  | None => (false, payload)
  | Some t => (true, mk_rep (ifType payload) (uri payload) (types payload ++ [t]) (interfaces payload) (values payload))
  end.
Definition OCRepPayloadAddInterface (payload : OCRepPayload) (iface : option string) : bool * OCRepPayload :=
  match iface with
  | None => (false, payload)
  | Some t => (true, mk_rep (ifType payload) (uri payload) (types payload) (interfaces payload ++ [t]) (values payload))
  end.
Definition OCRepPayloadSetUri (payload : OCRepPayload) (u : option string) : bool * OCRepPayload :=
  (bool_decide (is_Some u), mk_rep (ifType payload) u (types payload) (interfaces payload) (values payload)).
Definition OCRepPayloadSetInterfaceType (payload : OCRepPayload) (t : OCPayloadInterfaceType) : OCRepPayload :=
  mk_rep t (uri payload) (types payload) (interfaces payload) (values payload).
Definition OCRepPayloadIsNull (payload : OCRepPayload) (name : option string) : bool :=
  match OCRepPayloadFindValue payload name with
  | None | Some OCREP_PROP_NULL => true
  | _ => false
  end.

Definition OCRepPayloadSetNull (payload : OCRepPayload) (name : option string) : bool * OCRepPayload :=
  OCRepPayloadSetProp payload name OCREP_PROP_NULL.
Definition OCRepPayloadSetPropInt (payload : OCRepPayload) (name : option string) (value : Z) :=
  OCRepPayloadSetProp payload name (OCREP_PROP_INT value).
Definition OCRepPayloadGetPropInt (payload : OCRepPayload) (name : option string) : option Z :=
  match OCRepPayloadFindValue payload name with Some (OCREP_PROP_INT i) => Some i | _ => None end.
Definition OCRepPayloadSetPropDouble (payload : OCRepPayload) (name : option string) (value : spec_float) :=
  OCRepPayloadSetProp payload name (OCREP_PROP_DOUBLE value).

(** The double nearest to an integer. *)
Definition double_of_int (i : Z) : spec_float := binary_normalize 53 1024 i 0 false.

Definition OCRepPayloadGetPropDouble (payload : OCRepPayload) (name : option string) : option spec_float :=
  match OCRepPayloadFindValue payload name with
  | Some (OCREP_PROP_DOUBLE d) => Some d
  | Some (OCREP_PROP_INT i) => Some (double_of_int i)
  | _ => None
  end.
Definition OCRepPayloadSetPropString (payload : OCRepPayload) (name : option string) (value : option string) :=
  OCRepPayloadSetProp payload name (OCREP_PROP_STRING value).
Definition OCRepPayloadSetPropStringAsOwner (payload : OCRepPayload) (name : option string) (value : option string) :=
  OCRepPayloadSetProp payload name (OCREP_PROP_STRING value).
Definition OCRepPayloadGetPropString (payload : OCRepPayload) (name : option string) : option string :=
  match OCRepPayloadFindValue payload name with Some (OCREP_PROP_STRING s) => s | _ => None end.
Definition OCRepPayloadSetPropByteString (payload : OCRepPayload) (name : option string) (value : list Z) :=
  OCRepPayloadSetProp payload name (OCREP_PROP_BYTE_STRING value).
Definition OCRepPayloadSetPropByteStringAsOwner (payload : OCRepPayload) (name : option string) (value : list Z) :=
  OCRepPayloadSetProp payload name (OCREP_PROP_BYTE_STRING value).
Definition OCRepPayloadGetPropByteString (payload : OCRepPayload) (name : option string) : option (list Z) :=
  match OCRepPayloadFindValue payload name with Some (OCREP_PROP_BYTE_STRING b) => Some b | _ => None end.
Definition OCRepPayloadSetPropBool (payload : OCRepPayload) (name : option string) (value : bool) :=
  OCRepPayloadSetProp payload name (OCREP_PROP_BOOL value).
Definition OCRepPayloadGetPropBool (payload : OCRepPayload) (name : option string) : option bool :=
  match OCRepPayloadFindValue payload name with Some (OCREP_PROP_BOOL b) => Some b | _ => None end.
Definition OCRepPayloadSetPropObjectAsOwner (payload : OCRepPayload) (name : option string)
    (value : option OCRepPayload) :=
  OCRepPayloadSetProp payload name (OCREP_PROP_OBJECT value).

(** ** Copies *)

Definition calcDimTotal (d : dimensions) : Z :=
  if dim0 d =? 0 then 0
  else
    let total := size_t (1 * dim0 d) in
    if dim1 d =? 0 then total
    else
      let total := size_t (total * dim1 d) in
      if dim2 d =? 0 then total else size_t (total * dim2 d).

(** The first [n] elements of an array; there is undefined behaviour when it has fewer. *)
Definition first_elements {A} (n : Z) (l : list A) : option (list A) :=
  if n <=? Z.of_nat (List.length l) then Some (take (Z.to_nat n) l) else None.

(** A null string ends the copy of an array of strings: the elements behind it are
    left uninitialized. *)
Fixpoint copy_strings (l : list (option string)) : option (list (option string)) :=
  match l with
  | [] => Some []
  | Some s :: l' => r ← copy_strings l'; Some (Some s :: r)
  | None :: [] => Some [None]
  | None :: _ :: _ => None
  end.
(** An empty byte string ends the copy: the elements behind it are empty. *)
Fixpoint copy_byte_strings (l : list (list Z)) : list (list Z) :=
  match l with
  | [] => []
  | [] :: l' => [] :: map (fun _ => []) l'
  | b :: l' => b :: copy_byte_strings l'
  end.

Section clone_list.
Context {A : Type} (f : A -> option A).
Fixpoint clone_values (l : list (string * A)) : option (list (string * A)) :=
  match l with
  | [] => Some []
  | (n, v) :: l' => v' ← f v; r ← clone_values l'; Some ((n, v') :: r)
  end.
(** The first [n] of them. *)
Fixpoint clone_objects (n : nat) (l : list (option A)) {struct l} : option (list (option A)) :=
  match n, l with
  | O, _ => Some []
  | S _, [] => None
  | S n', None :: l' => r ← clone_objects n' l'; Some (None :: r)
  | S n', Some x :: l' => x' ← f x; r ← clone_objects n' l'; Some (Some x' :: r)
  end.
End clone_list.

(** The copy of a payload is no batch. *)
Fixpoint OCRepPayloadClone (payload : OCRepPayload) : option OCRepPayload :=
  let '(mk_rep _ u t i l) := payload in
  l' ← clone_values OCCopyPropertyValue l;
  Some (mk_rep PAYLOAD_NON_BATCH_INTERFACE u t i l')
with OCCopyPropertyValue (source : OCRepPayloadValue) : option OCRepPayloadValue :=
  match source with
  | OCREP_PROP_OBJECT None => Some (OCREP_PROP_OBJECT None)
  | OCREP_PROP_OBJECT (Some o) => o' ← OCRepPayloadClone o; Some (OCREP_PROP_OBJECT (Some o'))
  | OCREP_PROP_ARRAY d a => a' ← OCCopyPropertyValueArray (calcDimTotal d) a; Some (OCREP_PROP_ARRAY d a')
  | _ => Some source
  end
with OCCopyPropertyValueArray (dimTotal : Z) (source : array_elements) : option array_elements :=
  match source with
  | iArray l => iArray <$> first_elements dimTotal l
  | dArray l => dArray <$> first_elements dimTotal l
  | bArray l => bArray <$> first_elements dimTotal l
  | strArray l => l ← first_elements dimTotal l; strArray <$> copy_strings l
  | ocByteStrArray l => l ← first_elements dimTotal l; Some (ocByteStrArray (copy_byte_strings l))
  | objArray l => objArray <$> clone_objects OCRepPayloadClone (Z.to_nat dimTotal) l
  end.

Definition OCRepPayloadSetPropObject (payload : OCRepPayload) (name : option string) (value : option OCRepPayload) :
    option (bool * OCRepPayload) :=
  match value with
  | None => Some (OCRepPayloadSetPropObjectAsOwner payload name None)
  | Some v => temp ← OCRepPayloadClone v; Some (OCRepPayloadSetPropObjectAsOwner payload name (Some temp))
  end.

(** [Some None]: there is no such object. *)
Definition OCRepPayloadGetPropObject (payload : OCRepPayload) (name : option string) : option (option OCRepPayload) :=
  match OCRepPayloadFindValue payload name with
  | Some (OCREP_PROP_OBJECT (Some o)) => Some <$> OCRepPayloadClone o
  | _ => Some None
  end.

Definition OC_RSRVD_REPRESENTATION : string := "rep".

Definition OCRepPayloadBatchClone (repPayload : OCRepPayload) : option OCRepPayload :=
  l ← clone_values OCCopyPropertyValue (values repPayload);
  let clone := mk_rep (ifType repPayload) None (types repPayload) (interfaces repPayload) l in
  let newPayload := mk_rep PAYLOAD_NON_BATCH_INTERFACE (uri repPayload) [] [] [] in
  Some (snd (OCRepPayloadSetPropObjectAsOwner newPayload (Some OC_RSRVD_REPRESENTATION) (Some clone))).

(** ** Arrays *)

Definition set_array (payload : OCRepPayload) (name : option string) (d : dimensions) (a : array_elements) :
    bool * OCRepPayload :=
  set_to payload name (OCREP_PROP_ARRAY d a) true.
Definition OCRepPayloadSetByteStringArrayAsOwner payload name array d := set_array payload name d (ocByteStrArray array).
Definition OCRepPayloadSetIntArrayAsOwner payload name array d := set_array payload name d (iArray array).
Definition OCRepPayloadSetDoubleArrayAsOwner payload name array d := set_array payload name d (dArray array).
Definition OCRepPayloadSetStringArrayAsOwner payload name array d := set_array payload name d (strArray array).
Definition OCRepPayloadSetBoolArrayAsOwner payload name array d := set_array payload name d (bArray array).
Definition OCRepPayloadSetPropObjectArrayAsOwner payload name array d := set_array payload name d (objArray array).

(** A copy of the array, when it has elements. *)
Definition set_copy (payload : OCRepPayload) (name : option string) (d : dimensions) (a : option array_elements) :
    option (bool * OCRepPayload) :=
  if calcDimTotal d =? 0 then Some (false, payload) else a ← a; Some (set_array payload name d a).
Definition OCRepPayloadSetByteStringArray payload name (array : list (list Z)) d :=
  set_copy payload name d (ocByteStrArray <$> first_elements (calcDimTotal d) array).
(** An array without elements is set, with no pointer. *)
Definition OCRepPayloadSetIntArray payload name (array : list Z) d :=
  a ← first_elements (calcDimTotal d) array; Some (OCRepPayloadSetIntArrayAsOwner payload name a d).
Definition OCRepPayloadSetDoubleArray payload name (array : list spec_float) d :=
  set_copy payload name d (dArray <$> first_elements (calcDimTotal d) array).
Definition OCRepPayloadSetStringArray payload name (array : list (option string)) d :=
  set_copy payload name d (strArray <$> first_elements (calcDimTotal d) array).
Definition OCRepPayloadSetBoolArray payload name (array : list bool) d :=
  set_copy payload name d (bArray <$> first_elements (calcDimTotal d) array).
Definition OCRepPayloadSetPropObjectArray payload name (array : list (option OCRepPayload)) d :=
  set_copy payload name d (objArray <$> clone_objects OCRepPayloadClone (Z.to_nat (calcDimTotal d)) array).

(** The elements and the dimensions; [Some None] when there is no such array. *)
Definition get_array {A} (payload : OCRepPayload) (name : option string)
    (sel : dimensions -> array_elements -> option (option (list A))) : option (option (list A * dimensions)) :=
  match OCRepPayloadFindValue payload name with
  | Some (OCREP_PROP_ARRAY d a) =>
      if calcDimTotal d =? 0 then Some None
      else match sel d a with
           | None => Some None
           | Some None => None
           | Some (Some l) => Some (Some (l, d))
           end
  | _ => Some None
  end.
Definition nonnull {A} (d : dimensions) (l : list A) : option (option (list A)) :=
  match l with [] => None | _ => Some (first_elements (calcDimTotal d) l) end.
Definition OCRepPayloadGetByteStringArray payload name :=
  get_array payload name (fun d a => match a with ocByteStrArray l => nonnull d l | _ => None end).
Definition OCRepPayloadGetIntArray payload name :=
  get_array payload name (fun d a => match a with iArray l => nonnull d l | _ => None end).
Definition OCRepPayloadGetDoubleArray payload name :=
  get_array payload name (fun d a =>
    match a with dArray l => nonnull d l | iArray l => nonnull d (double_of_int <$> l) | _ => None end).
Definition OCRepPayloadGetStringArray payload name :=
  get_array payload name (fun d a => match a with strArray l => nonnull d l | _ => None end).
Definition OCRepPayloadGetBoolArray payload name :=
  get_array payload name (fun d a => match a with bArray l => nonnull d l | _ => None end).
Definition OCRepPayloadGetPropObjectArray payload name :=
  get_array payload name (fun d a =>
    match a with
    | objArray [] => None
    | objArray l => Some (clone_objects OCRepPayloadClone (Z.to_nat (calcDimTotal d)) l)
    | _ => None
    end).

(** ** Lists of strings *)

Definition CSV_SEPARATOR : ascii := ",".

(** [strtok_r] until there is no token left: the parts between separators that are
    not empty. *)
Fixpoint strtok (delim : ascii) (s : string) (token : string) : list string :=
  let emit l := match token with EmptyString => l | _ => token :: l end in
  match s with
  | EmptyString => emit []
  | String c s' =>
      if Ascii.eqb c delim then emit (strtok delim s' EmptyString)
      else strtok delim s' (token +:+ String c EmptyString)
  end.
Definition OCCreateOCStringLL (text : string) : list string := strtok CSV_SEPARATOR text EmptyString.
Definition CloneOCStringLL (ll : list string) : list string := ll.
Definition OCCreateString (ll : list string) : option string :=
  match ll with [] => None | _ => Some (String.concat (String CSV_SEPARATOR EmptyString) ll) end.

Definition OCResourcePayloadAddStringLL (stringLL : list string) (value : option string) : bool * list string :=
  match value with None => (false, stringLL) | Some v => (true, stringLL ++ [v]) end.

End RepPayload.
