(* ===== verification/RepConvert.v ===== *)
(** * Representation payloads as CBOR items

    The part of [ocf/ocpayloadconvert.c] that turns a payload into CBOR items.
    Items are written in the order of the tree that is built here; the bytes and the
    buffer they go to are in [PayloadCodec]. *)

From S2P Require Import Prelude.
From S2P Require Import Status.
From S2P Require Import Cbor.
From S2P Require Import OcEndpoint.
From S2P Require Import RepPayload.

Module RepConvert.
Import Cbor.
Import RepPayload.

Definition OC_RSRVD_HREF : string := "href".
Definition OC_RSRVD_RESOURCE_TYPE : string := "rt".
Definition OC_RSRVD_INTERFACE : string := "if".

(** ** [strtol] with base 0 *)

Definition digit_value (c : Z) : Z :=
  if OcEndpoint.is_digit c then c - 48
  else if (97 <=? c) && (c <=? 122) then c - 87
  else if (65 <=? c) && (c <=? 90) then c - 55 else 36.
Fixpoint number (base : Z) (s : list Z) (acc : Z) : Z * list Z :=
  match s with
  | c :: s' => if digit_value c <? base then number base s' (base * acc + digit_value c) else (acc, s)
  | [] => (acc, [])
  end.
(** The value and the rest of the string: all of it when there is no number. *)
Definition strtol0 (s : list Z) : Z * list Z :=
  let t := OcEndpoint.skip_spaces s in
  let '(neg, t) := match t with
                   | c :: t' => if c =? 45 then (true, t') else if c =? 43 then (false, t') else (false, t)
                   | [] => (false, t)
                   end in
  let '(base, t) := match t with
                    | 48 :: x :: h :: _ =>
                        if ((x =? 120) || (x =? 88)) && (digit_value h <? 16) then (16, drop 2 t) else (8, t)
                    | 48 :: _ => (8, t)
                    | _ => (10, t)
                    end in
  match t with
  | c :: _ =>
      if digit_value c <? base then
        let '(v, rest) := number base t 0 in
        let v := if neg : bool then - v else v in
        (Z.max OcEndpoint.LONG_MIN (Z.min OcEndpoint.LONG_MAX v), rest)
      else (0, s)
  | [] => (0, s)
  end.

(** The names are the non-negative integers in order, from [arrayLength]. *)
Fixpoint consecutive (l : list (string * OCRepPayloadValue)) (arrayLength : Z) : bool :=
  match l with
  | [] => true
  | (name, _) :: l' =>
      let '(i, endp) := strtol0 (codes name) in
      if bool_decide (endp = []) && (0 <=? i) && (arrayLength =? i) then consecutive l' (arrayLength + 1) else false
  end.

(** ** Conversion

    [None]: a null pointer is followed, or an array has fewer elements than its
    dimensions say. *)

Definition range (n : Z) : list Z := Z.of_nat <$> seq 0 (Z.to_nat n).

Definition OCConvertArray (d : dimensions) (OCConvertArrayItem : Z -> option cbor) : option cbor :=
  let item i := OCConvertArrayItem (size_t i) in
  CArray <$> mapM (fun i =>
    if dim1 d =? 0 then item i
    else CArray <$> mapM (fun j =>
      if dim2 d =? 0 then item (i * dim1 d + j)
      else CArray <$> mapM (fun k => item (j * dim2 d + i * dim2 d * dim1 d + k)) (range (dim2 d)))
      (range (dim1 d))) (range (dim0 d)).

Definition OCStringLLJoin (type : string) (val : list string) : list (cbor * cbor) :=
  match val with [] => [] | _ => [field type (CArray (CText <$> val))] end.

Section convert_list.
Context {A : Type} (f : A -> option cbor).
Fixpoint convert_values (l : list (string * A)) : option (list (cbor * cbor)) :=
  match l with
  | [] => Some []
  | (name, v) :: l' => x ← f v; r ← convert_values l'; Some (field name x :: r)
  end.
End convert_list.

(** What precedes the values in a map. *)
Definition header_fields (payload : OCRepPayload) : list (cbor * cbor) :=
  match uri payload with
  | Some u => if String.eqb u "" then [] else [field OC_RSRVD_HREF (CText u)]
  | None => []
  end ++ OCStringLLJoin OC_RSRVD_RESOURCE_TYPE (types payload)
  ++ OCStringLLJoin OC_RSRVD_INTERFACE (interfaces payload).

Fixpoint OCConvertRepMap (payload : OCRepPayload) : option cbor :=
  let '(mk_rep _ _ _ _ l) := payload in
  r ← convert_values OCConvertSingleRepPayloadValue l;
  Some (if consecutive l 0 then CArray (map snd r) else CMap (header_fields payload ++ r))
with OCConvertSingleRepPayloadValue (value : OCRepPayloadValue) : option cbor :=
  match value with
  | OCREP_PROP_NULL => Some CNull
  | OCREP_PROP_INT i => Some (CInt i)
  | OCREP_PROP_DOUBLE d => Some (CDouble d)
  | OCREP_PROP_BOOL b => Some (CBool b)
  | OCREP_PROP_STRING str => CText <$> str
  | OCREP_PROP_BYTE_STRING b => Some (CBytes b)
  | OCREP_PROP_OBJECT None => None
  | OCREP_PROP_OBJECT (Some obj) => OCConvertRepMap obj
  | OCREP_PROP_ARRAY d a =>
      OCConvertArray d (fun i => match OCConvertArrayItems a !! Z.to_nat i with Some x => x | None => None end)
  end
with OCConvertArrayItems (a : array_elements) : list (option cbor) :=
  match a with
  | iArray l => map (fun i => Some (CInt i)) l
  | dArray l => map (fun x => Some (CDouble x)) l
  | bArray l => map (fun b => Some (CBool b)) l
  | strArray l => map (fun s => Some match s with Some s => CText s | None => CNull end) l
  | ocByteStrArray l => map (fun b => Some (CBytes b)) l
  | objArray l => map (fun o => match o with Some o => OCConvertRepMap o | None => Some CNull end) l
  end.

Definition OCConvertSingleRepPayload (payload : OCRepPayload) : option (list (cbor * cbor)) :=
  r ← convert_values OCConvertSingleRepPayloadValue (values payload); Some (header_fields payload ++ r).

(** The maps of a chain of payloads, and whether they are in an array. *)
Definition in_array (payload : list OCRepPayload) : bool :=
  (1 <? Z.of_nat (List.length payload)) ||
  match payload with p :: _ => match ifType p with PAYLOAD_BATCH_INTERFACE => true | _ => false end | [] => false end.
Definition rep_maps (payload : list OCRepPayload) : option (list cbor) :=
  mapM (fun p => CMap <$> OCConvertSingleRepPayload p) payload.

(** All of it as one item. *)
Definition rep_item (payload : list OCRepPayload) : option cbor :=
  ms ← rep_maps payload;
  if in_array payload then Some (CArray ms) else head ms.

Example named_by_numbers : forall v w,
  map (fun n => consecutive [(n, v); ("1"%string, w)] 0) ["0"; ""; "00"; "0x0"; " +0"; "-0"; "a"; "0 "]%string
  = [true; true; true; true; true; true; false; false].
Proof. reflexivity. Qed.

End RepConvert.
