(* ===== verification/RepParse.v ===== *)
(** * CBOR items as representation payloads

    The part of [ocf/ocpayloadparse.c] that reads representation payloads.  An
    iterator is the list of the items it still meets; [None] is a failed assertion
    of the CBOR library (an item is read as something it is not) or a write outside
    an array, [Some None] a CBOR error. *)

From Stdlib Require Import Floats.SpecFloat.
From S2P Require Import Prelude.
From S2P Require Import Status.
From S2P Require Import CString.
From S2P Require Import Cbor.
From S2P Require Import OcEndpoint.
From S2P Require Import RepPayload.
From S2P Require Import RepConvert.

Module RepParse.
Import CString Cbor.
Import RepPayload RepConvert.

(** ** Arrays *)

Inductive OCRepPayloadPropType : Type :=
| TYPE_NULL | TYPE_INT | TYPE_DOUBLE | TYPE_BOOL | TYPE_STRING | TYPE_BYTE_STRING | TYPE_OBJECT | TYPE_ARRAY.

#[export] Instance prop_type_eq : EqDecision OCRepPayloadPropType.
Proof. solve_decision. Defined.

Definition DecodeCborType (t : cbor) : OCRepPayloadPropType :=
  match t with
  | CNull => TYPE_NULL
  | CInt _ => TYPE_INT
  | CDouble _ | CFloat _ => TYPE_DOUBLE
  | CBool _ => TYPE_BOOL
  | CText _ => TYPE_STRING
  | CBytes _ => TYPE_BYTE_STRING
  | CMap _ => TYPE_OBJECT
  | CArray _ => TYPE_ARRAY
  | COther => TYPE_NULL
  end.

(** What is known of an array whose type is [type] when an item of type [tempType]
    follows; [None] when the types differ. *)
Definition join_type (type tempType : OCRepPayloadPropType) : option OCRepPayloadPropType :=
  if bool_decide (type = TYPE_NULL) then Some tempType
  else if bool_decide (tempType <> TYPE_NULL) && bool_decide (type <> tempType) then None
  else Some type.

(** The items of an array, with the dimensions and the type of an array among them. *)
Section dims_loop.
Context (sub : cbor -> option (dimensions * OCRepPayloadPropType)).
(** What an item adds: the dimensions of a sub-array, and its type. *)
Definition item_dims (x : cbor) : option (Z * Z * OCRepPayloadPropType) :=
  if bool_decide (DecodeCborType x = TYPE_ARRAY)
  then '(subdim, tempType) ← sub x; Some (dim0 subdim, dim1 subdim, tempType)
  else Some (0, 0, DecodeCborType x).
Fixpoint dims_loop (l : list cbor) (d : dimensions) (type : OCRepPayloadPropType) :
    option (dimensions * OCRepPayloadPropType) :=
  match l with
  | [] => Some (d, type)
  | x :: l' =>
      '(s0, s1, tempType) ← item_dims x;
      type ← join_type type tempType;
      dims_loop l' (mk_dims (dim0 d + 1) (Z.max (dim1 d) s0) (Z.max (dim2 d) s1)) type
  end.
End dims_loop.

(** On an array; [None] when its items have different types. *)
Fixpoint OCParseArrayFindDimensionsAndType (parent : cbor) : option (dimensions * OCRepPayloadPropType) :=
  match parent with
  | CArray l => dims_loop OCParseArrayFindDimensionsAndType l (mk_dims 0 0 0) TYPE_NULL
  | _ => None
  end.

Definition arrayStep (d : dimensions) (elementNum : Z) : Z :=
  size_t (size_t ((if dim1 d =? 0 then 1 else dim1 d) * (if dim2 d =? 0 then 1 else dim2 d)) * elementNum).

(** An element of an array that is being filled; [None] is what [OICCalloc] left. *)
Inductive element : Type :=
| E_int (i : Z) | E_double (d : spec_float) | E_bool (b : bool) | E_string (s : string)
| E_byte_string (b : list Z) | E_object (o : option OCRepPayload).

(** An integer read as [int64_t]. *)
Definition to_int64 (z : Z) : Z :=
  let u := z mod 2 ^ 64 in if u <? 2 ^ 63 then u else u - 2 ^ 64.

(** A [float] converted to [double]. *)
Definition widen (f : spec_float) : spec_float :=
  match f with
  | S754_finite s m e => binary_normalize 53 1024 (if s then Z.neg m else Z.pos m) e s
  | _ => f
  end.

Section fill.
(** How an object is read. *)
Context (OCParseObject : cbor -> option (option OCRepPayload)).

(** The element an item is read as, and whether that went well. *)
Definition read_element (type : OCRepPayloadPropType) (t : cbor) : option (bool * option element) :=
  match type, t with
  | TYPE_INT, CInt z => Some (true, Some (E_int (to_int64 z)))
  | TYPE_DOUBLE, CDouble d => Some (true, Some (E_double d))
  | TYPE_DOUBLE, CFloat f => Some (true, Some (E_double (widen f)))
  | TYPE_BOOL, CBool b => Some (true, Some (E_bool b))
  | TYPE_STRING, CText s => Some (true, Some (E_string (cstr s)))
  | TYPE_BYTE_STRING, CBytes b => Some (true, Some (E_byte_string b))
  | TYPE_OBJECT, _ =>
      match OCParseObject t with
      | None => None
      | Some None => Some (false, Some (E_object None))
      | Some (Some o) => Some (true, Some (E_object (Some o)))
      end
  | TYPE_NULL, _ | TYPE_ARRAY, _ => Some (false, None)
  | _, _ => None
  end.

(** The [i]th item of an array; [sub] fills the place of a sub-array.  A null item
    leaves what [OICCalloc] made. *)
Definition fill_item (sub : cbor -> Z -> list (option element) -> option (bool * list (option element)))
    (d : dimensions) (type : OCRepPayloadPropType) (x : cbor) (i base : Z) (targetArray : list (option element)) :
    option (bool * list (option element)) :=
  match x with
  | CNull => Some (true, targetArray)
  | _ =>
      if dim1 d =? 0 then
        '(ok, e) ← read_element type x;
        a ← store targetArray (base + i) e;
        Some (ok, a)
      else if bool_decide (type = TYPE_NULL \/ type = TYPE_ARRAY) then Some (false, targetArray)
      else sub x (base + arrayStep d i) targetArray
  end.
Fixpoint fill_items (sub : cbor -> Z -> list (option element) -> option (bool * list (option element)))
    (d : dimensions) (type : OCRepPayloadPropType) (its : list cbor) (i base : Z) (targetArray : list (option element)) :
    option (bool * list (option element)) :=
  match its with
  | [] => Some (true, targetArray)
  | x :: its' =>
      if i <? dim0 d then
        '(ok, a) ← fill_item sub d type x i base targetArray;
        if ok : bool then fill_items sub d type its' (i + 1) base a else Some (false, a)
      else Some (true, targetArray)
  end.

(** Three levels are enough: the dimensions move up at each. *)
Fixpoint fill_array (levels : nat) (d : dimensions) (type : OCRepPayloadPropType) (parent : cbor) (base : Z)
    (targetArray : list (option element)) : option (bool * list (option element)) :=
  match levels with
  | O => None
  | S levels' =>
      if is_container parent then
        fill_items (fill_array levels' (mk_dims (dim1 d) (dim2 d) 0) type) d type (items parent) 0 base targetArray
      else None
  end.
Definition OCParseArrayFillArray := fill_array 3.

(** The array the elements are stored in. *)
Definition elements_of (type : OCRepPayloadPropType) (a : list (option element)) : array_elements :=
  match type with
  | TYPE_INT => iArray (map (fun e => match e with Some (E_int i) => i | _ => 0 end) a)
  | TYPE_DOUBLE => dArray (map (fun e => match e with Some (E_double d) => d | _ => S754_zero false end) a)
  | TYPE_BOOL => bArray (map (fun e => match e with Some (E_bool b) => b | _ => false end) a)
  | TYPE_STRING => strArray (map (fun e => match e with Some (E_string s) => Some s | _ => None end) a)
  | TYPE_BYTE_STRING => ocByteStrArray (map (fun e => match e with Some (E_byte_string b) => b | _ => [] end) a)
  | _ => objArray (map (fun e => match e with Some (E_object o) => o | _ => None end) a)
  end.

(** What filling the array reports is not looked at. *)
Definition OCParseArray (out : OCRepPayload) (name : option string) (container : cbor) :
    option (bool * OCRepPayload) :=
  match OCParseArrayFindDimensionsAndType container with
  | None => Some (false, out)
  | Some (d, type) =>
      if bool_decide (type = TYPE_NULL) then Some (OCRepPayloadSetNull out name)
      else
        let dimTotal := calcDimTotal d in
        if dimTotal =? 0 then Some (true, out)
        else
          '(_, a) ← OCParseArrayFillArray d type container 0 (replicate (Z.to_nat dimTotal) None);
          Some (set_array out name d (elements_of type a))
  end.

(** ** Properties *)

(** A property is set from an item.  [Some None] is an error; otherwise the payload,
    and whether the item behind is skipped: the iterator is moved twice behind an
    array that is read as an object. *)
Definition parse_value (name : option string) (v : cbor) (curPayload : OCRepPayload) :
    option (option (bool * OCRepPayload)) :=
  let set (r : bool * OCRepPayload) := Some (if fst r then Some (false, snd r) else None) in
  match v with
  | CNull => set (OCRepPayloadSetNull curPayload name)
  | CInt z => set (OCRepPayloadSetPropInt curPayload name (to_int64 z))
  | CDouble d => set (OCRepPayloadSetPropDouble curPayload name d)
  | CBool b => set (OCRepPayloadSetPropBool curPayload name b)
  | CText s => set (OCRepPayloadSetPropStringAsOwner curPayload name (Some (cstr s)))
  | CBytes b => set (OCRepPayloadSetPropByteStringAsOwner curPayload name b)
  | CMap _ =>
      match OCParseObject v with
      | None => None
      | Some None => Some None
      | Some (Some pl) => set (OCRepPayloadSetPropObjectAsOwner curPayload name (Some pl))
      end
  | CArray _ =>
      '(ok, p) ← OCParseArray curPayload name v;
      if ok : bool then Some (Some (false, p))
      else match OCParseObject v with
           | None => None
           | Some None => Some None
           | Some (Some pl) => Some (Some (true, snd (OCRepPayloadSetPropObjectAsOwner p name (Some pl))))
           end
  | CFloat _ | COther => Some None
  end.

Definition index_name (i : Z) : string := bytes_string (OcEndpoint.decimal 20 i).

Definition reserved (name : string) : bool :=
  String.eqb OC_RSRVD_HREF name || String.eqb OC_RSRVD_RESOURCE_TYPE name || String.eqb OC_RSRVD_INTERFACE name.

Fixpoint rep_loop (in_map isRoot : bool) (its : list cbor) (arrayIndex : Z) (curPayload : OCRepPayload) :
    option (option OCRepPayload) :=
  match its with
  | [] => Some (Some curPayload)
  | x :: rest =>
      let next name v (rest : list cbor) (k1 k2 : OCRepPayload -> option (option OCRepPayload)) :=
        match parse_value name v curPayload with
        | None => None
        | Some None => Some None
        | Some (Some (skip, p)) => if skip : bool then k2 p else k1 p
        end in
      let go its' := rep_loop in_map isRoot its' (arrayIndex + 1) in
      match in_map, x with
      | true, CText n =>
          let name := cstr n in
          match rest with
          | [] => if isRoot && reserved name then Some (Some curPayload) else Some None
          | v :: rest' =>
              if isRoot && reserved name then rep_loop in_map isRoot rest' arrayIndex curPayload
              else next (Some name) v rest' (go rest') (match rest' with [] => go rest' | _ :: r => go r end)
          end
      | true, _ => next None x rest (go rest) (match rest with [] => go rest | _ :: r => go r end)
      | false, _ =>
          next (Some (index_name arrayIndex)) x rest (go rest) (match rest with [] => go rest | _ :: r => go r end)
      end
  end.
End fill.

(** The nesting of the item is enough fuel. *)
Fixpoint parse_single (fuel : nat) (objMap : cbor) (isRoot : bool) (payload : OCRepPayload) :
    option (option OCRepPayload) :=
  match fuel with
  | O => None
  | S fuel' =>
      if is_container objMap then
        rep_loop (fun t => parse_single fuel' t false OCRepPayloadCreate)
          (match objMap with CMap _ => true | _ => false end) isRoot (items objMap) 0 payload
      else Some None
  end.
Definition OCParseSingleRepPayload (objMap : cbor) := parse_single (depth objMap) objMap.

(** ** Payloads *)

Fixpoint texts_until (l : list cbor) : list string :=
  match l with
  | CText s :: l' => strtok " " (cstr s) "" ++ texts_until l'
  | _ => []
  end.
Definition OCParseStringLL (map : list (cbor * cbor)) (type : string) : list string :=
  match find_value map type with
  | Some (CArray l) => texts_until l
  | _ => []
  end.

Definition parse_root (t : cbor) : option (option OCRepPayload) :=
  match t with
  | CMap m =>
      let u := match find_value m OC_RSRVD_HREF with Some (CText s) => Some (cstr s) | _ => None end in
      OCParseSingleRepPayload t true
        (mk_rep PAYLOAD_NON_BATCH_INTERFACE u (OCParseStringLL m OC_RSRVD_RESOURCE_TYPE)
           (OCParseStringLL m OC_RSRVD_INTERFACE) [])
  | CArray _ => Some (Some OCRepPayloadCreate)
  | _ => Some None
  end.

Fixpoint parse_roots (its : list cbor) : option (option (list OCRepPayload)) :=
  match its with
  | [] => Some (Some [])
  | t :: its' =>
      match parse_root t with
      | None => None
      | Some None => Some None
      | Some (Some p) =>
          r ← parse_roots its'; Some (r ← r; Some (p :: r))
      end
  end.

Definition OCParseRepPayload (root : cbor) : option (OCStackResult * list OCRepPayload) :=
  r ← parse_roots (match root with CArray l => l | _ => [root] end);
  Some match r with
       | Some l => (OC_STACK_OK, l)
       | None => (OC_STACK_MALFORMED_RESPONSE, [])
       end.

End RepParse.
