(* ===== verification/RepLaws.v ===== *)
(** * Laws of representation payloads

    The properties of a payload are a map from names to values; a well-formed
    payload is converted to CBOR without running out of an array; and an object
    that was set as a property is got back, if it can be copied without loss. *)

From Stdlib Require Import Floats.SpecFloat.
From S2P Require Import Prelude.
From S2P Require Import Status.
From S2P Require Import Cbor.
From S2P Require Import RepPayload.
From S2P Require Import RepConvert.

Module RepLaws.
Import Cbor RepPayload RepConvert.

(** ** Induction on payloads *)

Section rep_induction.
Context (P : OCRepPayload -> Prop) (Q : OCRepPayloadValue -> Prop) (R : array_elements -> Prop).
Definition on_object (o : option OCRepPayload) : Prop := match o with Some x => P x | None => True end.
Context (HP : forall it u t i l, Forall (fun nv => Q (snd nv)) l -> P (mk_rep it u t i l)).
Context (HN : Q OCREP_PROP_NULL) (HI : forall i, Q (OCREP_PROP_INT i)) (HD : forall d, Q (OCREP_PROP_DOUBLE d)).
Context (HB : forall b, Q (OCREP_PROP_BOOL b)) (HS : forall s, Q (OCREP_PROP_STRING s)).
Context (HY : forall b, Q (OCREP_PROP_BYTE_STRING b)).
Context (HO : forall o, on_object o -> Q (OCREP_PROP_OBJECT o)).
Context (HA : forall d a, R a -> Q (OCREP_PROP_ARRAY d a)).
Context (RI : forall l, R (iArray l)) (RD : forall l, R (dArray l)) (RB : forall l, R (bArray l)).
Context (RS : forall l, R (strArray l)) (RY : forall l, R (ocByteStrArray l)).
Context (RO : forall l, Forall on_object l -> R (objArray l)).

Fixpoint rep_induction (p : OCRepPayload) : P p :=
  match p with
  | mk_rep it u t i l =>
      HP it u t i l ((fix go (l : list (string * OCRepPayloadValue)) : Forall (fun nv => Q (snd nv)) l :=
        match l with
        | [] => List.Forall_nil _
        | (n, v) :: l' => List.Forall_cons _ (n, v) l' (value_induction v) (go l')
        end) l)
  end
with value_induction (v : OCRepPayloadValue) : Q v :=
  match v with
  | OCREP_PROP_NULL => HN
  | OCREP_PROP_INT i => HI i
  | OCREP_PROP_DOUBLE d => HD d
  | OCREP_PROP_BOOL b => HB b
  | OCREP_PROP_STRING s => HS s
  | OCREP_PROP_BYTE_STRING b => HY b
  | OCREP_PROP_OBJECT o => HO o (match o as o return on_object o with Some x => rep_induction x | None => I end)
  | OCREP_PROP_ARRAY d a => HA d a (elements_induction a)
  end
with elements_induction (a : array_elements) : R a :=
  match a with
  | iArray l => RI l
  | dArray l => RD l
  | bArray l => RB l
  | strArray l => RS l
  | ocByteStrArray l => RY l
  | objArray l =>
      RO l ((fix go (l : list (option OCRepPayload)) : Forall on_object l :=
        match l with
        | [] => List.Forall_nil _
        | o :: l' =>
            List.Forall_cons _ o l' (match o as o return on_object o with Some x => rep_induction x | None => I end) (go l')
        end) l)
  end.
End rep_induction.

(** ** Properties as a map *)

Definition properties (p : OCRepPayload) : gmap string OCRepPayloadValue := list_to_map (values p).
Definition names (p : OCRepPayload) : list string := map fst (values p).

Lemma lookup_value_map l n : lookup_value l n = (list_to_map l : gmap string OCRepPayloadValue) !! n.
Proof.
  induction l as [|[m v] l IH]; [done|]. cbn [lookup_value list_to_map foldr]. cbn.
  destruct (String.eqb_spec m n) as [->|Hne]; [by rewrite lookup_insert_eq|].
  by rewrite lookup_insert_ne.
Qed.

Lemma set_value_map l n v : (list_to_map (set_value l n v) : gmap string OCRepPayloadValue) = <[n := v]> (list_to_map l).
Proof.
  induction l as [|[m x] l IH]; [done|]. cbn [set_value].
  destruct (String.eqb_spec m n) as [->|Hne]; cbn.
  - by rewrite insert_insert_eq.
  - change (foldr _ _ ?l) with (list_to_map l : gmap string OCRepPayloadValue). rewrite IH.
    by rewrite insert_insert_ne.
Qed.

Lemma set_value_names l n v :
  map fst (set_value l n v) = if bool_decide (n ∈ map fst l) then map fst l else map fst l ++ [n].
Proof.
  induction l as [|[m x] l IH]; [done|]. cbn [set_value map fst].
  destruct (String.eqb_spec m n) as [->|Hne]; cbn [map fst].
  - by rewrite bool_decide_eq_true_2 by (apply elem_of_cons; by left).
  - rewrite IH. assert (E : n ∈ m :: map fst l <-> n ∈ map fst l) by (rewrite elem_of_cons; naive_solver).
    rewrite (bool_decide_ext _ _ E). by case_bool_decide.
Qed.

Lemma find_properties p m : OCRepPayloadFindValue p (Some m) = properties p !! m.
Proof. apply lookup_value_map. Qed.
Lemma set_properties p n v : properties (with_values (set_value (values p) n v) p) = <[n := v]> (properties p).
Proof. apply set_value_map. Qed.

(** C26: The properties of a payload are a map from names to values: finding a property is
    looking it up, setting one is inserting it; a new name comes last, the others
    keep their places, and nothing else of the payload changes. *)
Theorem properties_as_map p n v :
  OCRepPayloadFindValue p (Some n) = properties p !! n /\
  exists p', OCRepPayloadFindAndSetValue p (Some n) v = Some p' /\
    properties p' = <[n := v]> (properties p) /\
    names p' = (if bool_decide (n ∈ names p) then names p else names p ++ [n]) /\
    ifType p' = ifType p /\ uri p' = uri p /\ types p' = types p /\ interfaces p' = interfaces p.
Proof.
  split; [apply find_properties|]. eexists. split; [done|].
  split_and!; [apply set_properties|apply set_value_names|by destruct p..].
Qed.

(** ** Well-formed payloads *)

Section all_list.
Context {A : Type} (f : A -> Prop).
Fixpoint all_values (l : list (string * A)) : Prop :=
  match l with [] => True | (_, v) :: l' => f v /\ all_values l' end.
Fixpoint all_objects (l : list (option A)) : Prop :=
  match l with
  | [] => True
  | Some x :: l' => f x /\ all_objects l'
  | None :: l' => all_objects l'
  end.

Lemma all_values_forall l : all_values l <-> Forall (fun nv => f (snd nv)) l.
Proof. induction l as [|[n v] l IH]; cbn; [done|]. by rewrite IH, Forall_cons. Qed.
Lemma all_objects_forall l : all_objects l <-> Forall (fun o => match o with Some x => f x | None => True end) l.
Proof. induction l as [|[x|] l IH]; cbn; [done|by rewrite IH, Forall_cons..|]. rewrite IH, Forall_cons. naive_solver. Qed.
End all_list.

Definition elements_length (a : array_elements) : nat :=
  match a with
  | iArray l => List.length l
  | dArray l => List.length l
  | bArray l => List.length l
  | strArray l => List.length l
  | ocByteStrArray l => List.length l
  | objArray l => List.length l
  end.

(** The number of elements the dimensions say, without wrapping. *)
Definition dim_product (d : dimensions) : Z :=
  dim0 d * (if dim1 d =? 0 then 1 else dim1 d * (if dim2 d =? 0 then 1 else dim2 d)).
Definition dims_ok (d : dimensions) (n : nat) : Prop :=
  0 <= dim0 d /\ 0 <= dim1 d /\ 0 <= dim2 d /\ dim_product d = Z.of_nat n /\ dim_product d < 2 ^ 64.

Definition is_int64 (i : Z) : Prop := - 2 ^ 63 <= i < 2 ^ 63.

Fixpoint well_formed (p : OCRepPayload) : Prop :=
  let '(mk_rep _ _ _ _ l) := p in NoDup (map fst l) /\ all_values wf_value l
with wf_value (v : OCRepPayloadValue) : Prop :=
  match v with
  | OCREP_PROP_INT i => is_int64 i
  | OCREP_PROP_STRING s => is_Some s
  | OCREP_PROP_OBJECT o => match o with Some x => well_formed x | None => False end
  | OCREP_PROP_ARRAY d a => dims_ok d (elements_length a) /\ wf_elements a
  | _ => True
  end
with wf_elements (a : array_elements) : Prop :=
  match a with
  | iArray l => Forall is_int64 l
  | objArray l => all_objects well_formed l
  | _ => True
  end.

Lemma product_le a b c : 0 < a -> 0 < b -> 0 <= c -> a * b * c < 2 ^ 64 -> a * b < 2 ^ 64 \/ c = 0.
Proof. intros. destruct (Z.eq_dec c 0); [by right|left]. nia. Qed.

Lemma calcDimTotal_ok d n : dims_ok d n -> calcDimTotal d = Z.of_nat n.
Proof.
  intros (H0 & H1 & H2 & Hn & Hb). rewrite <- Hn. unfold calcDimTotal, dim_product in *.
  destruct (Z.eqb_spec (dim0 d) 0) as [->|N0]; [done|].
  rewrite Z.mul_1_l. destruct (Z.eqb_spec (dim1 d) 0) as [E1|N1].
  { rewrite Z.mul_1_r in *. apply wrap_id. split; lia. }
  destruct (Z.eqb_spec (dim2 d) 0) as [E2|N2].
  - rewrite Z.mul_1_r in *. rewrite (wrap_id 64 (dim0 d)) by (split; nia). apply wrap_id. split; nia.
  - rewrite (wrap_id 64 (dim0 d)) by (split; nia). rewrite (wrap_id 64 (dim0 d * dim1 d)) by (split; nia).
    rewrite Z.mul_assoc in *. apply wrap_id. split; nia.
Qed.

(** ** Conversion *)

Lemma mapM_range {A} (f : Z -> option A) n : (forall i, 0 <= i < n -> is_Some (f i)) -> is_Some (mapM f (range n)).
Proof.
  intros H. apply mapM_is_Some_2, Forall_forall. intros i Hi. apply list_elem_of_fmap in Hi as (k & -> & Hk).
  apply elem_of_seq in Hk. apply H. lia.
Qed.

Lemma convert_array_defined d item n : dims_ok d n -> (forall i, 0 <= i < Z.of_nat n -> is_Some (item i)) ->
  is_Some (OCConvertArray d item).
Proof.
  intros (H0 & H1 & H2 & Hn & Hb) Hi. unfold OCConvertArray. apply fmap_is_Some, mapM_range. intros i Hi0.
  unfold dim_product in *. rewrite <- Hn in Hi.
  destruct (Z.eqb_spec (dim1 d) 0) as [E1|N1].
  { rewrite wrap_id by (split; nia). apply Hi. nia. }
  apply fmap_is_Some, mapM_range. intros j Hj0. destruct (Z.eqb_spec (dim2 d) 0) as [E2|N2].
  { rewrite wrap_id by (split; nia). apply Hi. nia. }
  apply fmap_is_Some, mapM_range. intros k Hk0.
  assert (0 <= j * dim2 d + i * dim2 d * dim1 d + k < dim0 d * (dim1 d * dim2 d)).
  { assert (j * dim2 d + k < dim1 d * dim2 d) by nia. nia. }
  rewrite wrap_id by (split; lia). apply Hi. lia.
Qed.

Lemma item_defined (l : list (option cbor)) n i : List.length l = n -> Forall is_Some l -> 0 <= i < Z.of_nat n ->
  is_Some (match l !! Z.to_nat i with Some x => x | None => None end).
Proof.
  intros Hl Hf Hi. destruct (lookup_lt_is_Some_2 l (Z.to_nat i)) as [x Hx]; [lia|]. rewrite Hx.
  by apply (Forall_lookup_1 _ _ _ _ Hf Hx).
Qed.

Lemma convert_values_defined {A} (f : A -> option cbor) l : Forall (fun nv => is_Some (f (snd nv))) l ->
  is_Some (convert_values f l).
Proof.
  induction 1 as [|[n v] l [x Hx] _ [r Hr]]; cbn [convert_values]; [done|]. cbn in Hx. rewrite Hx. cbn. rewrite Hr. done.
Qed.

Lemma forall_mp {A} (P Q : A -> Prop) l : Forall (fun x => P x -> Q x) l -> Forall P l -> Forall Q l.
Proof. intros H1 H2. eapply Forall_impl; [by apply Forall_and; split; [apply H1|apply H2]|]. cbn. tauto. Qed.

Lemma items_length a : List.length (OCConvertArrayItems a) = elements_length a.
Proof. by destruct a; cbn; rewrite length_map. Qed.

Lemma map_defined {A B} (f : A -> B) (l : list A) : Forall is_Some (map (fun x => Some (f x)) l).
Proof. induction l; by constructor. Qed.

(** A well-formed payload is converted: no pointer that is followed is null, and no
    element of an array is missing. *)
Lemma convert_defined p : well_formed p -> is_Some (convert_values OCConvertSingleRepPayloadValue (values p)).
Proof.
  apply (rep_induction (fun p => well_formed p -> is_Some (convert_values OCConvertSingleRepPayloadValue (values p)))
    (fun v => wf_value v -> is_Some (OCConvertSingleRepPayloadValue v))
    (fun a => wf_elements a -> Forall is_Some (OCConvertArrayItems a))); try done; try (intros; apply map_defined).
  - intros it u t i l IH [_ Hl]. apply convert_values_defined. apply all_values_forall in Hl. exact (forall_mp _ _ _ IH Hl).
  - intros s [x ->]. done.
  - intros [o|] IH H; [|done]. cbn in *. destruct o as [it u t i l]. destruct (IH H) as [r Hr]. cbn in *. by rewrite Hr.
  - intros d a IH [Hd Ha]. apply (convert_array_defined d _ _ Hd). intros i Hi.
    apply (item_defined _ (elements_length a)); [apply items_length|by apply IH|done].
  - intros l IH Hl. cbn in *. apply all_objects_forall in Hl. apply Forall_map.
    refine (forall_mp _ _ _ (Forall_impl _ _ _ IH _) Hl). clear. intros [[it u t i l]|] IH H; cbn in *; [|done].
    destruct (IH H) as [r Hr]. by rewrite Hr.
Qed.

Lemma convert_map_defined p : well_formed p ->
  is_Some (OCConvertRepMap p) /\ is_Some (OCConvertSingleRepPayload p).
Proof.
  intros [r Hr]%convert_defined. destruct p as [it u t i l]. unfold OCConvertSingleRepPayload.
  cbn [values OCConvertRepMap] in *. rewrite Hr. by split.
Qed.

(** ** Copies *)

(** What is copied faithfully: payloads that are no batches, and whose arrays have no
    null string and no empty byte string. *)
Fixpoint copyable (p : OCRepPayload) : Prop :=
  let '(mk_rep it _ _ _ l) := p in it = PAYLOAD_NON_BATCH_INTERFACE /\ all_values copyable_value l
with copyable_value (v : OCRepPayloadValue) : Prop :=
  match v with
  | OCREP_PROP_OBJECT (Some o) => copyable o
  | OCREP_PROP_ARRAY d a => dims_ok d (elements_length a) /\ copyable_elements a
  | _ => True
  end
with copyable_elements (a : array_elements) : Prop :=
  match a with
  | strArray l => Forall is_Some l
  | ocByteStrArray l => Forall (fun b => b <> []) l
  | objArray l => all_objects copyable l
  | _ => True
  end.

Lemma first_all {A} (l : list A) : first_elements (Z.of_nat (List.length l)) l = Some l.
Proof. unfold first_elements. rewrite (proj2 (Z.leb_le _ _)) by done. by rewrite Nat2Z.id, firstn_all. Qed.

Lemma copy_strings_all l : Forall is_Some l -> copy_strings l = Some l.
Proof. induction 1 as [|o l [x ->] _ IH]; cbn; [done|]. by rewrite IH. Qed.
Lemma copy_byte_strings_all l : Forall (fun b : list Z => b <> []) l -> copy_byte_strings l = l.
Proof. induction 1 as [|[|c b] l H _ IH]; cbn; [done..|]. by rewrite IH. Qed.

Lemma clone_values_all {A} (f : A -> option A) l : Forall (fun nv => f (snd nv) = Some (snd nv)) l ->
  clone_values f l = Some l.
Proof. induction 1 as [|[n v] l Hx _ IH]; cbn [clone_values]; [done|]. cbn in Hx. by rewrite Hx, IH. Qed.
Lemma clone_objects_all {A} (f : A -> option A) l :
  Forall (fun o => match o with Some x => f x = Some x | None => True end) l ->
  clone_objects f (List.length l) l = Some l.
Proof. induction 1 as [|[x|] l Hx _ IH]; cbn [clone_objects List.length]; [done| |]; [rewrite Hx; cbn|]; by rewrite IH. Qed.

(** The copy of a payload equals it. *)
Lemma clone_equal p : copyable p -> OCRepPayloadClone p = Some p.
Proof.
  apply (rep_induction (fun p => copyable p -> OCRepPayloadClone p = Some p)
    (fun v => copyable_value v -> OCCopyPropertyValue v = Some v)
    (fun a => copyable_elements a ->
       OCCopyPropertyValueArray (Z.of_nat (elements_length a)) a = Some a)); try done;
    try (by intros l _; cbn; rewrite first_all).
  - intros it u t i l IH [-> Hl]. cbn [OCRepPayloadClone].
    rewrite clone_values_all; [done|]. apply all_values_forall in Hl. exact (forall_mp _ _ _ IH Hl).
  - intros [o|] IH H; cbn in *; [|done]. by rewrite IH.
  - intros d a IH [Hd Ha]. cbn. rewrite (calcDimTotal_ok _ _ Hd). by rewrite IH.
  - intros l Hl. cbn. rewrite first_all. cbn. by rewrite copy_strings_all.
  - intros l Hl. cbn. rewrite first_all. cbn. by rewrite copy_byte_strings_all.
  - intros l IH Hl. cbn in *. rewrite Nat2Z.id, clone_objects_all; [done|]. apply all_objects_forall in Hl.
    refine (forall_mp _ _ _ (Forall_impl _ _ _ IH _) Hl). by intros [x|].
Qed.

(** C25: An object that is copied faithfully is got back equal after it was set as a
    property, through two copies, and no other property changes.  [copyable] leaves
    out batches, arrays whose dimensions do not say how many elements there are,
    string arrays with a null string and byte-string arrays with an empty one: of
    those the copies lose data ([copied_arrays], [cloned_batch]). *)
Theorem object_property p n o : copyable o ->
  exists p', OCRepPayloadSetPropObject p (Some n) (Some o) = Some (true, p') /\
    OCRepPayloadGetPropObject p' (Some n) = Some (Some o) /\
    forall m, m <> n -> OCRepPayloadFindValue p' (Some m) = OCRepPayloadFindValue p (Some m).
Proof.
  intros Ho. cbn [OCRepPayloadSetPropObject]. rewrite (clone_equal _ Ho).
  exists (with_values (set_value (values p) n (OCREP_PROP_OBJECT (Some o))) p). split; [done|].
  unfold OCRepPayloadGetPropObject. split.
  - rewrite find_properties, set_properties, lookup_insert_eq. by rewrite (clone_equal _ Ho).
  - intros m Hne. by rewrite !find_properties, set_properties, lookup_insert_ne.
Qed.

(** What is not copied faithfully: the byte strings behind an empty one are lost, and
    the strings behind a null one are left uninitialized. *)
Example copied_arrays :
  let d := mk_dims 3 0 0 in
  OCCopyPropertyValue (OCREP_PROP_ARRAY d (ocByteStrArray [[1]; []; [2; 3]])) =
    Some (OCREP_PROP_ARRAY d (ocByteStrArray [[1]; []; []])) /\
  OCCopyPropertyValue (OCREP_PROP_ARRAY d (strArray [Some "a"; None; Some "b"]%string)) = None.
Proof. done. Qed.

(** The copy of a batch is no batch. *)
Example cloned_batch : OCRepPayloadClone (mk_rep PAYLOAD_BATCH_INTERFACE None [] [] []) =
  Some (mk_rep PAYLOAD_NON_BATCH_INTERFACE None [] [] []).
Proof. done. Qed.

(** Setting a null string fails, but the property is there, without a string. *)
Example null_string_set :
  OCRepPayloadSetPropString OCRepPayloadCreate (Some "a"%string) None =
    (false, mk_rep PAYLOAD_NON_BATCH_INTERFACE None [] [] [("a"%string, OCREP_PROP_STRING None)]) /\
  OCConvertRepMap (snd (OCRepPayloadSetPropString OCRepPayloadCreate (Some "a"%string) None)) = None.
Proof. done. Qed.

Definition demo : OCRepPayload :=
  mk_rep PAYLOAD_NON_BATCH_INTERFACE None [] []
    [("b"%string, OCREP_PROP_BOOL true);
     ("l"%string, OCREP_PROP_ARRAY (mk_dims 2 2 0) (iArray [1; 2; 3; -4]));
     ("s"%string, OCREP_PROP_ARRAY (mk_dims 2 0 0) (strArray [Some "x"%string; Some ""%string]))].

Lemma object_property_witness :
  exists p', OCRepPayloadSetPropObject demo (Some "o"%string) (Some demo) = Some (true, p') /\
    OCRepPayloadGetPropObject p' (Some "o"%string) = Some (Some demo) /\
    forall m, m <> "o"%string -> OCRepPayloadFindValue p' (Some m) = OCRepPayloadFindValue demo (Some m).
Proof.
  apply (object_property demo "o"). cbn. unfold dims_ok, dim_product. cbn.
  split_and!; try done; try lia. repeat constructor; by eexists.
Defined.

End RepLaws.
