(* ===== verification/RepArrays.v ===== *)
(** * Arrays of a representation, written and read

    What [OCConvertArray] writes from an array of up to three dimensions is read by
    [OCParseArrayFindDimensionsAndType] and [OCParseArrayFillArray] as the same
    dimensions, type and elements. *)

From Stdlib Require Import Floats.SpecFloat.
From S2P Require Import Prelude.
From S2P Require Import Status.
From S2P Require Import Cbor.
From S2P Require Import RepPayload.
From S2P Require Import RepConvert.
From S2P Require Import RepParse.
From S2P Require Import RepLaws.

Module RepArrays.
Import Cbor RepPayload RepConvert RepParse RepLaws.

(** ** Ranges *)

Lemma range_length n : List.length (range n) = Z.to_nat n.
Proof. unfold range. by rewrite length_fmap, length_seq. Qed.

Lemma elem_range i n : i ∈ range n -> 0 <= i < n.
Proof. intros (k & -> & Hk%elem_of_seq)%list_elem_of_fmap. lia. Qed.

Lemma index_range_forall n (P : Z -> Prop) : (forall i, 0 <= i < n -> P i) -> Forall P (range n).
Proof. intros H. apply Forall_forall. intros i Hi%elem_range. by apply H. Qed.

Lemma mapM_range_total {A} (f : Z -> option A) g n : (forall i, 0 <= i < n -> f i = Some (g i)) ->
  mapM f (range n) = Some (map g (range n)).
Proof.
  intros H. apply mapM_Some_2. apply Forall2_fmap_r. apply Forall_Forall2_diag, index_range_forall. done.
Qed.

Lemma range_succ n : 0 <= n -> range (n + 1) = range n ++ [n].
Proof.
  intros Hn. unfold range. rewrite Z2Nat.inj_add, seq_app, fmap_app by lia. f_equal.
  change (Z.to_nat 1) with 1%nat. cbn [seq fmap list_fmap]. f_equal. lia.
Qed.

Lemma concat_concat {A} (l : list (list (list A))) : concat (concat l) = concat (map (@concat A) l).
Proof. induction l as [|x l IH]; cbn; [done|]. by rewrite concat_app, IH. Qed.

Lemma length_rows {A} m (l : list (list A)) : Forall (fun x => List.length x = m) l ->
  List.length (concat l) = (List.length l * m)%nat.
Proof. induction 1 as [|x l Hx _ IH]; cbn; [done|]. by rewrite length_app, Hx, IH. Qed.

(** Row by row. *)
Lemma range_product {A} (f : Z -> A) a b : 0 <= a -> 0 <= b ->
  concat (map (fun i => map (fun j => f (i * b + j)) (range b)) (range a)) = map f (range (a * b)).
Proof.
  intros Ha Hb. pattern a. apply natlike_ind; [done| |done]. clear a Ha. intros a Ha IH.
  rewrite <- Z.add_1_r, range_succ by done. rewrite map_app, concat_app, IH by done. cbn [map concat].
  rewrite app_nil_r. unfold range. rewrite <- !list_fmap_compose. rewrite Z.mul_add_distr_r, Z.mul_1_l.
  rewrite (Z2Nat.inj_add (a * b) b) by lia. rewrite seq_app, fmap_app. f_equal.
  rewrite <- (Nat.add_0_r (Z.to_nat (a * b))) at 1. rewrite Nat.add_0_l, <- (Nat.add_0_r (Z.to_nat (a * b))).
  rewrite <- fmap_add_seq, <- !list_fmap_compose. apply list_fmap_ext. intros _ k _. cbn. f_equal. lia.
Qed.

Lemma map_range_lookup {A} (x0 : A) l : map (fun i => default x0 (l !! Z.to_nat i)) (range (Z.of_nat (List.length l))) = l.
Proof.
  unfold range. rewrite Nat2Z.id. change (map ?f (?g <$> ?k)) with (f <$> (g <$> k)). rewrite <- list_fmap_compose.
  apply list_eq. intros i. rewrite list_lookup_fmap. destruct (l !! i) as [x|] eqn:E.
  - rewrite lookup_seq_lt by (by eapply lookup_lt_Some). cbn. by rewrite Nat2Z.id, E.
  - rewrite lookup_seq_ge by (by apply lookup_ge_None). done.
Qed.

Lemma depth_in x l : x ∈ l -> (depth x < depth (CArray l))%nat.
Proof.
  intros Hx. cbn [depth]. apply Nat.lt_succ_r. induction Hx as [x l|x y l _ IH]; cbn [foldr]; lia.
Qed.

Lemma in_range {A} (f : Z -> A) m i : 0 <= i < m -> f i ∈ map f (range m).
Proof.
  intros Hi. apply list_elem_of_fmap. exists i. split; [done|]. apply list_elem_of_fmap. exists (Z.to_nat i).
  split; [lia|]. apply elem_of_seq. lia.
Qed.

(** ** Dimensions *)

Section dims.
Context (sub : cbor -> option (dimensions * OCRepPayloadPropType)) (ty : OCRepPayloadPropType) (a b : Z).
Context (Hty : ty <> TYPE_NULL) (Ha : 0 <= a) (Hb : 0 <= b).

Definition of_type (t : OCRepPayloadPropType) : Prop := t = TYPE_NULL \/ t = ty.

(** Items that all have the same dimensions, and the type or none. *)
Definition uniform (x : cbor) : Prop := exists tx, item_dims sub x = Some (a, b, tx) /\ of_type tx.

Lemma join_of_type t tx : of_type t -> of_type tx ->
  exists r, join_type t tx = Some r /\ of_type r /\ (t = ty \/ tx = ty -> r = ty).
Proof using Hty.
  unfold join_type, of_type. intros [-> | ->] [-> | ->]; repeat (case_bool_decide; cbn; try done); eexists; naive_solver.
Qed.

Lemma dims_uniform l : forall d t, Forall uniform l -> of_type t -> 0 <= dim1 d <= a -> 0 <= dim2 d <= b ->
  exists r, dims_loop sub l d t =
    Some (match l with [] => d | _ => mk_dims (dim0 d + Z.of_nat (List.length l)) a b end, r) /\ of_type r /\
    (t = ty \/ Exists (fun x => item_dims sub x = Some (a, b, ty)) l -> r = ty).
Proof using Hty Ha Hb.
  induction l as [|x l IH]; intros d t Hl Ht H1 H2; cbn [dims_loop].
  { exists t. split_and!; [done..|]. by intros [?|?%Exists_nil]. }
  apply Forall_cons in Hl as [(tx & Hx & Htx) Hl]. rewrite Hx. cbn.
  destruct (join_of_type t tx Ht Htx) as (r1 & -> & Hr1 & Hr1'). cbn.
  destruct (IH (mk_dims (dim0 d + 1) (Z.max (dim1 d) a) (Z.max (dim2 d) b)) r1 Hl Hr1) as (r & -> & Hr & Hr'); [cbn; lia..|].
  exists r. split_and!; [|done|].
  - f_equal. f_equal. rewrite (Z.max_r (dim1 d)), (Z.max_r (dim2 d)) by lia. destruct l; cbn; f_equal; lia.
  - intros [E|E]; [apply Hr'; left; apply Hr1'; by left|]. apply Exists_cons in E as [E|E]; apply Hr'; [|by right].
    left. apply Hr1'. right. rewrite Hx in E. by simplify_eq.
Qed.
End dims.

(** ** Elements *)

Section fill.
Context (OCParseObject : cbor -> option (option OCRepPayload)) (ty : OCRepPayloadPropType).
Context (Hty : ty <> TYPE_NULL /\ ty <> TYPE_ARRAY).

(** The element an item leaves in the array. *)
Definition cell (x : cbor) (e : option element) : Prop :=
  (x = CNull /\ e = None) \/ (x <> CNull /\ read_element OCParseObject ty x = Some (true, e)).

(** [f] writes [es] over cells that are as allocated, whatever is around them. *)
Definition writes (f : Z -> list (option element) -> option (bool * list (option element)))
    (es : list (option element)) : Prop :=
  forall pre post, f (Z.of_nat (List.length pre)) (pre ++ replicate (List.length es) None ++ post) = Some (true, pre ++ es ++ post).

Lemma fill_uniform sub d base step xs ess : (0 < step)%nat ->
  Forall2 (fun x es => List.length es = step /\
    forall i, 0 <= i < dim0 d -> writes (fun pos => fill_item OCParseObject sub d ty x i (pos - Z.of_nat step * i)) es) xs ess ->
  forall i pre post, 0 <= i -> i + Z.of_nat (List.length xs) <= dim0 d ->
    Z.of_nat (List.length pre) = base + Z.of_nat step * i ->
    fill_items OCParseObject sub d ty xs i base (pre ++ replicate (List.length (concat ess)) None ++ post)
      = Some (true, pre ++ concat ess ++ post).
Proof using.
  intros Hstep. induction 1 as [|x es xs ess [Hl Hx] _ IH]; intros i pre post Hi Hd Hp; [done|].
  cbn [fill_items concat List.length] in *. rewrite (proj2 (Z.ltb_lt _ _)) by lia.
  rewrite length_app, replicate_add, <- app_assoc.
  specialize (Hx i ltac:(lia) pre (replicate (List.length (concat ess)) None ++ post)).
  cbv beta in Hx. replace (Z.of_nat (List.length pre) - Z.of_nat step * i) with base in Hx by lia. rewrite Hx. cbn.
  rewrite (app_assoc pre es). rewrite IH; [by rewrite <- !app_assoc|lia|lia|]. rewrite length_app. lia.
Qed.

Lemma fill_flat sub d x e i : dim1 d = 0 -> cell x e ->
  writes (fun pos => fill_item OCParseObject sub d ty x i (pos - Z.of_nat 1 * i)) [e].
Proof using.
  intros H1 Hc pre post. cbn [List.length replicate app]. destruct Hc as [[-> ->]|[Hx Hr]]; [done|].
  assert (E : fill_item OCParseObject sub d ty x i (Z.of_nat (List.length pre) - Z.of_nat 1 * i) (pre ++ None :: post) =
    ('(ok, e) ← read_element OCParseObject ty x;
     a ← store (pre ++ None :: post) (Z.of_nat (List.length pre) - Z.of_nat 1 * i + i) e; Some (ok, a))).
  { unfold fill_item. rewrite H1. by destruct x. }
  rewrite E, Hr. cbn. by rewrite (store_app pre None post) by lia.
Qed.

Lemma fill_sub sub d x es step i : dim1 d <> 0 -> is_container x = true -> arrayStep d i = step * i -> writes (sub x) es ->
  writes (fun pos => fill_item OCParseObject sub d ty x i (pos - step * i)) es.
Proof using Hty.
  intros H1 Hx Hs Hw pre post. rewrite <- (Hw pre post).
  assert (E : fill_item OCParseObject sub d ty x i (Z.of_nat (List.length pre) - step * i) (pre ++ replicate (List.length es) None ++ post) =
    sub x (Z.of_nat (List.length pre) - step * i + arrayStep d i) (pre ++ replicate (List.length es) None ++ post)).
  { unfold fill_item. rewrite (proj2 (Z.eqb_neq _ _)) by done. rewrite bool_decide_eq_false_2 by tauto. by destruct x. }
  rewrite E, Hs. f_equal. lia.
Qed.

(** An array of elements, and an array of arrays. *)
Lemma fill_elements k d xs es : dim0 d = Z.of_nat (List.length xs) -> dim1 d = 0 -> Forall2 cell xs es ->
  writes (fill_array OCParseObject (S k) d ty (CArray xs)) es.
Proof using.
  intros H0 H1 Hc pre post. cbn [fill_array is_container items].
  replace es with (concat (map (fun e => [e]) es)) by (clear; induction es as [|e es IH]; cbn; [done|by rewrite IH]).
  apply (fill_uniform _ _ _ 1); [lia| |lia|lia|lia]. apply Forall2_fmap_r. eapply Forall2_impl; [exact Hc|].
  cbn. intros x e Hx. split; [done|]. intros i _. by apply fill_flat.
Qed.

Lemma fill_rows k d xs ess step : dim0 d = Z.of_nat (List.length xs) -> dim1 d <> 0 -> (0 < step)%nat ->
  (forall i, 0 <= i < dim0 d -> arrayStep d i = Z.of_nat step * i) ->
  Forall2 (fun x es => is_container x = true /\ List.length es = step /\
    writes (fill_array OCParseObject k (mk_dims (dim1 d) (dim2 d) 0) ty x) es) xs ess ->
  writes (fill_array OCParseObject (S k) d ty (CArray xs)) (concat ess).
Proof using Hty.
  intros H0 H1 Hs Ha Hc pre post. cbn [fill_array is_container items].
  apply (fill_uniform _ _ _ step); [done| |lia|lia|lia]. eapply Forall2_impl; [exact Hc|].
  cbn. intros x es (Hx & Hl & Hw). split; [done|]. intros i Hi. apply fill_sub; [done..|by apply Ha|done].
Qed.
End fill.

(** ** Dimensions of trees *)

Section find.
Context (ty : OCRepPayloadPropType) (Hty : ty <> TYPE_NULL).
Notation find := OCParseArrayFindDimensionsAndType.

Lemma find_range (g : Z -> cbor) (hit : Z -> Prop) m a b : 0 < m -> 0 <= a -> 0 <= b ->
  (forall k, 0 <= k < m -> exists r, item_dims find (g k) = Some (a, b, r) /\ of_type ty r /\ (hit k -> r = ty)) ->
  exists r, find (CArray (map g (range m))) = Some (mk_dims m a b, r) /\ of_type ty r /\
    ((exists k, 0 <= k < m /\ hit k) -> r = ty).
Proof using Hty.
  intros Hm Ha Hb Hg.
  destruct (dims_uniform find ty a b Hty Ha Hb (map g (range m)) (mk_dims 0 0 0) TYPE_NULL) as (r & Hr & Ht & Hh).
  - apply Forall_map, index_range_forall. intros k Hk. destruct (Hg k Hk) as (r & Hr & Ht & _). by exists r.
  - by left.
  - done.
  - done.
  - exists r. cbn [OCParseArrayFindDimensionsAndType]. rewrite Hr. split_and!; [|done|].
    + rewrite length_map, range_length, Z2Nat.id by lia.
      destruct (map g (range m)) eqn:E; [|done]. apply (f_equal List.length) in E.
      rewrite length_map, range_length in E. cbn in E. lia.
    + intros (k & Hk & Hkk). apply Hh. right. apply Exists_exists. exists (g k). split.
      * apply list_elem_of_fmap. exists k. split; [done|]. unfold range. apply list_elem_of_fmap. exists (Z.to_nat k).
        split; [lia|]. apply elem_of_seq. lia.
      * destruct (Hg k Hk) as (r' & -> & _ & E). by rewrite (E Hkk).
Qed.

Lemma find_range_item g hit m a b : 0 < m -> 0 <= a -> 0 <= b ->
  (forall k, 0 <= k < m -> exists r, item_dims find (g k) = Some (a, b, r) /\ of_type ty r /\ (hit k -> r = ty)) ->
  exists r, item_dims find (CArray (map g (range m))) = Some (m, a, r) /\ of_type ty r /\
    ((exists k, 0 <= k < m /\ hit k) -> r = ty).
Proof using Hty.
  intros Hm Ha Hb Hg. destruct (find_range g hit m a b Hm Ha Hb Hg) as (r & Hr & Ht & Hh). exists r.
  split_and!; [|done..]. unfold item_dims. rewrite bool_decide_eq_true_2 by done. rewrite Hr. done.
Qed.
End find.

(** ** Trees of items *)

Section tree.
Context (d : dimensions) (n : nat).
Context (H0 : 0 < dim0 d) (H1 : 0 <= dim1 d) (H2 : 0 <= dim2 d) (H12 : dim1 d = 0 -> dim2 d = 0).
Context (Hn : dim_product d = Z.of_nat n) (Hb : dim_product d < 2 ^ 64).

Definition row2 {A} (f : Z -> A) (g : list A -> A) (i : Z) : A :=
  if dim2 d =? 0 then f i else g (map (fun k => f (i * dim2 d + k)) (range (dim2 d))).
Definition row1 {A} (f : Z -> A) (g : list A -> A) (i : Z) : A :=
  if dim1 d =? 0 then f i else g (map (fun j => row2 f g (i * dim1 d + j)) (range (dim1 d))).
Definition tree (f : Z -> cbor) : cbor := CArray (map (row1 f CArray) (range (dim0 d))).

Lemma convert_tree item f : (forall i, 0 <= i < Z.of_nat n -> item i = Some (f i)) ->
  OCConvertArray d item = Some (tree f).
Proof using H0 H1 H2 Hn Hb.
  clear H12. intros Hi. unfold OCConvertArray, tree. unfold dim_product in *. rewrite <- Hn in Hi.
  erewrite mapM_range_total; [done|]. intros i Hi0. unfold row1.
  destruct (Z.eqb_spec (dim1 d) 0) as [E1|N1].
  { rewrite wrap_id by (split; nia). apply Hi. nia. }
  erewrite mapM_range_total; [done|]. intros j Hj0. unfold row2. destruct (Z.eqb_spec (dim2 d) 0) as [E2|N2].
  { rewrite wrap_id by (split; nia). apply Hi. nia. }
  erewrite mapM_range_total; [done|]. intros k Hk0.
  replace (j * dim2 d + i * dim2 d * dim1 d + k) with ((i * dim1 d + j) * dim2 d + k) by lia.
  assert (0 <= (i * dim1 d + j) * dim2 d + k < dim0 d * (dim1 d * dim2 d)).
  { assert (0 <= i * dim1 d + j < dim0 d * dim1 d) by nia. nia. }
  rewrite wrap_id by (split; lia). apply Hi. lia.
Qed.

(** The dimensions and the type are found again. *)
Lemma find_tree ty (Hty : ty <> TYPE_NULL) f :
  (forall i, 0 <= i < Z.of_nat n -> DecodeCborType (f i) <> TYPE_ARRAY /\ of_type ty (DecodeCborType (f i))) ->
  (exists i, 0 <= i < Z.of_nat n /\ DecodeCborType (f i) = ty) ->
  OCParseArrayFindDimensionsAndType (tree f) = Some (d, ty).
Proof using H0 H1 H2 H12 Hn Hb.
  intros Hf Hh. rewrite <- Hn in Hf, Hh. unfold dim_product in *. unfold tree.
  assert (Hitem : forall i, DecodeCborType (f i) <> TYPE_ARRAY /\ of_type ty (DecodeCborType (f i)) ->
    exists r, item_dims OCParseArrayFindDimensionsAndType (f i) = Some (0, 0, r) /\ of_type ty r /\ (DecodeCborType (f i) = ty -> r = ty)).
  { intros i [Hi Ht]. exists (DecodeCborType (f i)). unfold item_dims. by rewrite bool_decide_eq_false_2. }
  assert (Hrows : exists r, OCParseArrayFindDimensionsAndType (CArray (map (row1 f CArray) (range (dim0 d)))) = Some (mk_dims (dim0 d) (dim1 d) (dim2 d), r) /\ r = ty).
  2:{ destruct Hrows as (r & -> & ->). by destruct d. }
  unfold row1. destruct (Z.eqb_spec (dim1 d) 0) as [E1|N1].
  { rewrite (H12 E1), E1.
    destruct (find_range ty Hty f (fun i => DecodeCborType (f i) = ty) (dim0 d) 0 0) as (r & Hr & _ & Hrt); [done..| |].
    - intros k Hk. apply Hitem, Hf. lia.
    - exists r. split; [done|]. apply Hrt. destruct Hh as (i & Hi & E). exists i. split; [lia|done]. }
  unfold row2. destruct (Z.eqb_spec (dim2 d) 0) as [E2|N2].
  - rewrite E2.
    destruct (find_range ty Hty (fun i => CArray (map (fun j => f (i * dim1 d + j)) (range (dim1 d))))
      (fun i => exists j, 0 <= j < dim1 d /\ DecodeCborType (f (i * dim1 d + j)) = ty) (dim0 d) (dim1 d) 0)
      as (r & Hr & _ & Hrt); [done..| |].
    + intros i Hi. apply (find_range_item ty Hty (fun j => f (i * dim1 d + j)) (fun j => DecodeCborType (f (i * dim1 d + j)) = ty) _ 0 0); [lia..|].
      intros j Hj. apply Hitem, Hf. nia.
    + exists r. split; [done|]. apply Hrt. destruct Hh as (x & Hx & E). exists (x / dim1 d).
      pose proof (Z.div_mod x (dim1 d) N1). pose proof (Z.mod_pos_bound x (dim1 d) ltac:(lia)).
      split; [split; [apply Z.div_pos; lia|apply Z.div_lt_upper_bound; lia]|].
      exists (x mod dim1 d). split; [lia|]. rewrite <- E. do 2 f_equal. lia.
  - destruct (find_range ty Hty (fun i => CArray (map (fun j => CArray (map (fun k => f ((i * dim1 d + j) * dim2 d + k)) (range (dim2 d)))) (range (dim1 d))))
      (fun i => exists j, 0 <= j < dim1 d /\ exists k, 0 <= k < dim2 d /\ DecodeCborType (f ((i * dim1 d + j) * dim2 d + k)) = ty)
      (dim0 d) (dim1 d) (dim2 d)) as (r & Hr & _ & Hrt); [done..| |].
    + intros i Hi. apply (find_range_item ty Hty (fun j => CArray (map (fun k => f ((i * dim1 d + j) * dim2 d + k)) (range (dim2 d))))
        (fun j => exists k, 0 <= k < dim2 d /\ DecodeCborType (f ((i * dim1 d + j) * dim2 d + k)) = ty) _ _ 0); [lia..|].
      intros j Hj. apply (find_range_item ty Hty (fun k => f ((i * dim1 d + j) * dim2 d + k))
        (fun k => DecodeCborType (f ((i * dim1 d + j) * dim2 d + k)) = ty) _ 0 0); [lia..|].
      intros k Hk. apply Hitem, Hf. assert (0 <= i * dim1 d + j < dim0 d * dim1 d) by nia. nia.
    + exists r. split; [done|]. apply Hrt. destruct Hh as (x & Hx & E).
      pose proof (Z.div_mod x (dim2 d) N2). pose proof (Z.mod_pos_bound x (dim2 d) ltac:(lia)).
      set (y := x / dim2 d) in *.
      assert (Hy : 0 <= y < dim0 d * dim1 d) by (split; [apply Z.div_pos; lia|apply Z.div_lt_upper_bound; lia]).
      pose proof (Z.div_mod y (dim1 d) N1). pose proof (Z.mod_pos_bound y (dim1 d) ltac:(lia)).
      exists (y / dim1 d). split; [split; [apply Z.div_pos; lia|apply Z.div_lt_upper_bound; lia]|].
      exists (y mod dim1 d). split; [lia|]. exists (x mod dim2 d). split; [lia|]. rewrite <- E. do 2 f_equal.
      replace (y / dim1 d * dim1 d + y mod dim1 d) with y by lia. lia.
Qed.

(** The elements are written, row by row. *)
Lemma fill_tree OCParseObject ty (Hty : ty <> TYPE_NULL /\ ty <> TYPE_ARRAY) f e :
  (forall i, 0 <= i < Z.of_nat n -> cell OCParseObject ty (f i) (e i)) ->
  writes (OCParseArrayFillArray OCParseObject d ty (tree f)) (map e (range (dim_product d))).
Proof using H0 H1 H2 H12 Hn Hb.
  intros Hf. rewrite <- Hn in Hf. unfold dim_product, tree, row1, OCParseArrayFillArray in *.
  destruct (Z.eqb_spec (dim1 d) 0) as [E1|N1].
  { rewrite Z.mul_1_r in *. apply (fill_elements _ _ 2); [|done|].
    - rewrite length_map, range_length. lia.
    - apply Forall2_fmap, Forall_Forall2_diag, index_range_forall. exact Hf. }
  unfold row2. rewrite Z.mul_assoc. destruct (Z.eqb_spec (dim2 d) 0) as [E2|N2].
  - rewrite Z.mul_1_r in *. rewrite <- range_product by lia.
    apply (fill_rows _ _ Hty 2 d _ _ (Z.to_nat (dim1 d))); [rewrite length_map, range_length; lia|done|lia| |].
    + intros i Hi. unfold arrayStep. rewrite (proj2 (Z.eqb_neq _ _) N1), E2. cbn [Z.eqb].
      rewrite Z.mul_1_r, (wrap_id 64 (dim1 d)) by (split; nia). rewrite wrap_id by (split; nia). lia.
    + apply Forall2_fmap, Forall_Forall2_diag, index_range_forall. intros i Hi.
      split; [done|]. rewrite length_map, range_length. split; [done|]. rewrite E2.
      apply (fill_elements _ _ 1); [rewrite length_map, range_length; cbn; lia|done|].
      apply Forall2_fmap, Forall_Forall2_diag, index_range_forall. intros j Hj. apply Hf. nia.
  - rewrite Z.mul_assoc in Hb, Hf. rewrite <- (range_product e (dim0 d * dim1 d)) by nia.
    rewrite <- (range_product (fun x => map (fun k => e (x * dim2 d + k)) (range (dim2 d)))), concat_concat, map_map by lia.
    apply (fill_rows _ _ Hty 2 d _ _ (Z.to_nat (dim1 d * dim2 d))); [rewrite length_map, range_length; lia|done|nia| |].
    + intros i Hi. unfold arrayStep. rewrite (proj2 (Z.eqb_neq _ _) N1), (proj2 (Z.eqb_neq _ _) N2).
      rewrite (wrap_id 64 (dim1 d * dim2 d)) by (split; nia). rewrite wrap_id by (split; nia). rewrite Z2Nat.id by nia. lia.
    + apply Forall2_fmap, Forall_Forall2_diag, index_range_forall. intros i Hi. split; [done|].
      rewrite (length_rows (Z.to_nat (dim2 d))) by (apply Forall_map, index_range_forall; intros; by rewrite length_map, range_length).
      rewrite length_map, range_length. split; [lia|].
      apply (fill_rows _ _ Hty 1 (mk_dims (dim1 d) (dim2 d) 0) _ _ (Z.to_nat (dim2 d)));
        cbn [dim0 dim1 dim2]; [rewrite length_map, range_length; lia|done|lia| |].
      * intros j Hj. unfold arrayStep. cbn [dim1 dim2 Z.eqb]. rewrite (proj2 (Z.eqb_neq _ _) N2), Z.mul_1_r.
        assert (dim2 d * j <= dim1 d * dim2 d) by nia. assert (dim1 d * dim2 d <= dim0 d * dim1 d * dim2 d) by nia.
        assert (dim2 d <= dim1 d * dim2 d) by nia.
        rewrite (wrap_id 64 (dim2 d)) by (split; lia). rewrite wrap_id by (split; nia). lia.
      * apply Forall2_fmap, Forall_Forall2_diag, index_range_forall. intros j Hj. split; [done|].
        rewrite length_map, range_length. split; [done|].
        apply (fill_elements _ _ 0); [rewrite length_map, range_length; cbn; lia|done|].
        apply Forall2_fmap, Forall_Forall2_diag, index_range_forall. intros k Hk. apply Hf.
        assert (0 <= i * dim1 d + j < dim0 d * dim1 d) by nia. nia.
Qed.

Lemma depth_tree f i : 0 <= i < Z.of_nat n -> (depth (f i) < depth (tree f))%nat.
Proof using H0 H1 H2 Hn.
  clear H12 Hb. intros Hi. rewrite <- Hn in Hi. unfold dim_product, tree, row1, row2 in *.
  destruct (Z.eqb_spec (dim1 d) 0) as [E1|N1]; [apply depth_in, (in_range f); lia|].
  destruct (Z.eqb_spec (dim2 d) 0) as [E2|N2].
  - pose proof (Z.div_mod i (dim1 d) N1). pose proof (Z.mod_pos_bound i (dim1 d) ltac:(lia)).
    eapply Nat.lt_trans; [|apply depth_in, (in_range _ _ (i / dim1 d))].
    + apply depth_in. replace (f i) with (f (i / dim1 d * dim1 d + i mod dim1 d)) by (f_equal; lia).
      apply (in_range (fun j => f (i / dim1 d * dim1 d + j))). lia.
    + split; [apply Z.div_pos; lia|apply Z.div_lt_upper_bound; lia].
  - pose proof (Z.div_mod i (dim2 d) N2). pose proof (Z.mod_pos_bound i (dim2 d) ltac:(lia)).
    set (y := i / dim2 d) in *.
    assert (Hy : 0 <= y < dim0 d * dim1 d) by (split; [apply Z.div_pos; lia|apply Z.div_lt_upper_bound; lia]).
    pose proof (Z.div_mod y (dim1 d) N1). pose proof (Z.mod_pos_bound y (dim1 d) ltac:(lia)).
    eapply Nat.lt_trans; [|apply depth_in, (in_range _ _ (y / dim1 d))];
      [|split; [apply Z.div_pos; lia|apply Z.div_lt_upper_bound; lia]].
    eapply Nat.lt_trans; [|apply depth_in, (in_range _ _ (y mod dim1 d)); lia].
    apply depth_in. replace (f i) with (f ((y / dim1 d * dim1 d + y mod dim1 d) * dim2 d + i mod dim2 d)) by (f_equal; lia).
    apply (in_range (fun k => f ((y / dim1 d * dim1 d + y mod dim1 d) * dim2 d + k))). lia.
Qed.
End tree.

(** ** An array, written and read *)

(** The dimensions the parser finds: none is zero before one that is not. *)
Record shape (d : dimensions) (n : nat) : Prop := {
  s_dim0 : 0 < dim0 d;
  s_dim1 : 0 <= dim1 d;
  s_dim2 : 0 <= dim2 d;
  s_dim12 : dim1 d = 0 -> dim2 d = 0;
  s_product : dim_product d = Z.of_nat n;
  s_bound : dim_product d < 2 ^ 64 }.

Lemma shape_ok d n : shape d n -> dims_ok d n.
Proof. intros []. unfold dims_ok. split_and!; try done; lia. Qed.

Definition scalar (ty : OCRepPayloadPropType) (x : cbor) : Prop :=
  DecodeCborType x <> TYPE_ARRAY /\ of_type ty (DecodeCborType x).

Lemma array_written d xs : shape d (List.length xs) ->
  exists t, OCConvertArray d (fun i => match map Some xs !! Z.to_nat i with Some x => x | None => None end) = Some t /\
    t = tree d (fun i => default CNull (xs !! Z.to_nat i)) /\ Forall (fun x => depth x < depth t)%nat xs.
Proof.
  intros [S0 S1 S2 S12 Sn Sb]. eexists. split; [|split; [done|]].
  - apply (convert_tree d (List.length xs)); try done. intros i Hi. rewrite list_lookup_fmap.
    destruct (lookup_lt_is_Some_2 xs (Z.to_nat i)) as [x ->]; [lia|done].
  - apply Forall_lookup. intros i x Hx.
    pose proof (depth_tree d (List.length xs) S0 S1 S2 Sn (fun i => default CNull (xs !! Z.to_nat i)) (Z.of_nat i)) as H.
    cbv beta in H. rewrite Nat2Z.id, Hx in H. apply H. apply lookup_lt_Some in Hx. lia.
Qed.

Lemma array_read OCParseObject ty d xs es : ty <> TYPE_NULL /\ ty <> TYPE_ARRAY -> shape d (List.length xs) ->
  Forall2 (cell OCParseObject ty) xs es -> Forall (scalar ty) xs -> Exists (fun x => DecodeCborType x = ty) xs ->
  let t := tree d (fun i => default CNull (xs !! Z.to_nat i)) in
  OCParseArrayFindDimensionsAndType t = Some (d, ty) /\
  OCParseArrayFillArray OCParseObject d ty t 0 (replicate (List.length xs) None) = Some (true, es).
Proof.
  intros Hty [S0 S1 S2 S12 Sn Sb] Hc Hs He t. pose proof (Forall2_length _ _ _ Hc) as Hl.
  assert (Hget : forall i, 0 <= i < Z.of_nat (List.length xs) -> exists x e, xs !! Z.to_nat i = Some x /\ es !! Z.to_nat i = Some e).
  { intros i Hi. destruct (lookup_lt_is_Some_2 xs (Z.to_nat i)) as [x Hx]; [lia|].
    destruct (lookup_lt_is_Some_2 es (Z.to_nat i)) as [e He']; [lia|]. by exists x, e. }
  split.
  - apply (find_tree d (List.length xs)); try done; [tauto| |].
    + intros i Hi. destruct (Hget i Hi) as (x & e & Hx & _). rewrite Hx. exact (Forall_lookup_1 _ _ _ _ Hs Hx).
    + apply Exists_exists in He as (x & Hx & E). apply list_elem_of_lookup in Hx as [i Hi]. exists (Z.of_nat i).
      rewrite Nat2Z.id, Hi. split; [|done]. apply lookup_lt_Some in Hi. lia.
  - pose proof (fill_tree d (List.length xs) S0 S1 S2 S12 Sn Sb OCParseObject ty Hty
      (fun i => default CNull (xs !! Z.to_nat i)) (fun i => default None (es !! Z.to_nat i))) as H.
    specialize (H ltac:(intros i Hi; destruct (Hget i Hi) as (x & e & Hx & He'); rewrite Hx, He';
      exact (Forall2_lookup_lr _ _ _ _ _ _ Hc Hx He')) [] []).
    rewrite Sn, Hl, map_range_lookup, app_nil_r in H. cbn [List.length Z.of_nat app] in H.
    rewrite app_nil_r, <- Hl in H. exact H.
Qed.

End RepArrays.
