(* ===== verification/RepRoundTrip.v ===== *)
(** * Representations, written and read

    A canonical payload that is converted to CBOR is parsed as the same payload:
    its names, the types and the order of its properties, its arrays with their
    dimensions, and the objects it holds. *)

From Stdlib Require Import Floats.SpecFloat.
From S2P Require Import Prelude.
From S2P Require Import Status.
From S2P Require Import CString.
From S2P Require Import Cbor.
From S2P Require Import RepPayload.
From S2P Require Import RepConvert.
From S2P Require Import RepParse.
From S2P Require Import RepLaws.
From S2P Require Import RepArrays.

Module RepRoundTrip.
Import CString Cbor RepPayload RepConvert RepParse RepLaws RepArrays.

(** ** Canonical payloads *)

(** A string without zero characters. *)
Definition text_ok (s : string) : Prop := cstr s = s.

(** An object has no URI, types and interfaces, which are read as properties; its
    names are not the numbers from zero on; its properties are not the null pointer.
    An array has the dimensions the parser finds, and an element that tells its type. *)
Fixpoint canonical (p : OCRepPayload) : Prop :=
  let '(mk_rep it u t i l) := p in
  it = PAYLOAD_NON_BATCH_INTERFACE /\ u = None /\ t = [] /\ i = [] /\ consecutive l 0 = false /\
  NoDup (map fst l) /\ Forall (fun nv => text_ok (fst nv)) l /\ all_values canonical_value l
with canonical_value (v : OCRepPayloadValue) : Prop :=
  match v with
  | OCREP_PROP_INT i => is_int64 i
  | OCREP_PROP_STRING s => match s with Some s => text_ok s | None => False end
  | OCREP_PROP_OBJECT o => match o with Some x => canonical x | None => False end
  | OCREP_PROP_ARRAY d a => shape d (elements_length a) /\ canonical_elements a
  | _ => True
  end
with canonical_elements (a : array_elements) : Prop :=
  match a with
  | iArray l => Forall is_int64 l
  | strArray l => Forall (fun o => match o with Some s => text_ok s | None => True end) l /\ Exists is_Some l
  | objArray l => all_objects canonical l /\ Exists is_Some l
  | _ => True
  end.

Lemma to_int64_id i : is_int64 i -> to_int64 i = i.
Proof.
  intros Hi. unfold to_int64, is_int64 in *. destruct (Z.lt_ge_cases i 0).
  - rewrite <- (Z_mod_plus_full i 1), Z.mod_small by lia. case_match; lia.
  - rewrite Z.mod_small by lia. case_match; lia.
Qed.

(** ** Arrays *)

Definition type_of (a : array_elements) : OCRepPayloadPropType :=
  match a with
  | iArray _ => TYPE_INT
  | dArray _ => TYPE_DOUBLE
  | bArray _ => TYPE_BOOL
  | strArray _ => TYPE_STRING
  | ocByteStrArray _ => TYPE_BYTE_STRING
  | objArray _ => TYPE_OBJECT
  end.

Lemma type_of_ok a : type_of a <> TYPE_NULL /\ type_of a <> TYPE_ARRAY.
Proof. by destruct a. Qed.

(** How the items of an array are read, with [rd] for objects. *)
Record items_read (rd : cbor -> option (option OCRepPayload)) (a : array_elements) (xs : list cbor) : Prop := {
  ir_scalar : Forall (scalar (type_of a)) xs;
  ir_typed : Exists (fun x => DecodeCborType x = type_of a) xs;
  ir_cells : exists es, Forall2 (cell rd (type_of a)) xs es /\ elements_of (type_of a) es = a }.

Section parse_array.
Context (rd : cbor -> option (option OCRepPayload)).

Lemma parse_array_value d a xs name p : shape d (List.length xs) -> items_read rd a xs ->
  parse_value rd (Some name) (tree d (fun i => default CNull (xs !! Z.to_nat i))) p =
    Some (Some (false, with_values (set_value (values p) name (OCREP_PROP_ARRAY d a)) p)).
Proof.
  intros Hd [Hs Ht (es & Hc & He)].
  destruct (array_read rd (type_of a) d xs es (type_of_ok a) Hd Hc Hs Ht) as [Hf Hfill].
  set (t := tree d _) in *. unfold parse_value.
  assert (E : OCParseArray rd p (Some name) t =
    Some (true, with_values (set_value (values p) name (OCREP_PROP_ARRAY d a)) p)).
  { unfold OCParseArray. rewrite Hf. rewrite bool_decide_eq_false_2 by apply type_of_ok.
    rewrite (calcDimTotal_ok _ _ (shape_ok _ _ Hd)).
    assert (0 < Z.of_nat (List.length xs)).
    { destruct Hd. unfold dim_product in *. rewrite <- s_product0. repeat case_match; nia. }
    rewrite (proj2 (Z.eqb_neq _ _)) by lia. rewrite Nat2Z.id, Hfill. cbn. by rewrite He. }
  unfold t at 1, tree. cbv iota. fold (tree d (fun i => default CNull (xs !! Z.to_nat i))). fold t.
  rewrite E. done.
Qed.

(** Arrays of anything but objects. *)
Lemma cells_map {A} (f : A -> cbor) (g : A -> element) ty (l : list A) :
  (forall x, f x <> CNull) -> Forall (fun x => read_element rd ty (f x) = Some (true, Some (g x))) l ->
  Forall2 (cell rd ty) (map f l) (map (fun x => Some (g x)) l).
Proof. intros Hf Hl. apply Forall2_fmap. apply Forall_Forall2_diag. eapply Forall_impl; [exact Hl|]. intros x Hx. right. done. Qed.

Lemma typed_map {A} (f : A -> cbor) ty (l : list A) : l <> [] -> ty <> TYPE_ARRAY -> (forall x, DecodeCborType (f x) = ty) ->
  Forall (scalar ty) (map f l) /\ Exists (fun x => DecodeCborType x = ty) (map f l).
Proof.
  intros Hl Ht Hf. split.
  - apply Forall_map, Forall_true. intros x. unfold scalar, of_type. rewrite Hf. auto.
  - destruct l; [done|]. cbn. left. apply Hf.
Qed.
End parse_array.

(** ** Properties *)

Section loop.
Context (rd : cbor -> option (option OCRepPayload)).

(** A property and the field it is converted to. *)
Definition value_read (isRoot : bool) (nv : string * OCRepPayloadValue) (kx : cbor * cbor) : Prop :=
  let '(n, v) := nv in
  kx = field n (snd kx) /\ text_ok n /\ isRoot && reserved n = false /\
  forall p, parse_value rd (Some n) (snd kx) p = Some (Some (false, with_values (set_value (values p) n v) p)).

Definition set_all (acc l : list (string * OCRepPayloadValue)) : list (string * OCRepPayloadValue) :=
  foldl (fun acc nv => set_value acc (fst nv) (snd nv)) acc l.

Lemma loop_values isRoot l r : Forall2 (value_read isRoot) l r -> forall idx p,
  rep_loop rd true isRoot (items (CMap r)) idx p = Some (Some (with_values (set_all (values p) l) p)).
Proof.
  induction 1 as [|[n v] [k x] l r (Hk & Hn & Hr & Hv) _ IH]; intros idx p; [by destruct p|].
  cbn in Hk. injection Hk as ->. cbn [items flat_map app rep_loop] in *. rewrite Hn, Hr, Hv. rewrite IH.
  by destruct p.
Qed.

(** Fields of reserved names are passed over. *)
Lemma loop_reserved h r p : Forall (fun kx => exists n, kx = field n (snd kx) /\ text_ok n /\ reserved n = true) h ->
  forall idx, rep_loop rd true true (items (CMap (h ++ r))) idx p = rep_loop rd true true (items (CMap r)) idx p.
Proof.
  induction 1 as [|[k x] h (n & Hk & Hn & Hr) _ IH]; intros idx; [done|].
  cbn in Hk. injection Hk as ->. cbn [items flat_map app rep_loop] in *. rewrite Hn, Hr. apply IH.
Qed.
End loop.

Lemma set_value_new l n v : n ∉ map fst l -> set_value l n v = l ++ [(n, v)].
Proof.
  induction l as [|[m x] l IH]; cbn [map fst set_value app]; [done|]. intros [Hne Hn]%not_elem_of_cons.
  destruct (String.eqb_spec m n) as [->|_]; [done|]. by rewrite IH.
Qed.

Lemma set_all_new l : forall acc, NoDup (map fst acc ++ map fst l) -> set_all acc l = acc ++ l.
Proof.
  induction l as [|[n v] l IH]; intros acc Hd; cbn; [by rewrite app_nil_r|]. cbn [map fst] in Hd.
  rewrite set_value_new.
  - unfold set_all in IH. rewrite IH; [by rewrite <- app_assoc|]. rewrite map_app. cbn. by rewrite <- app_assoc.
  - apply NoDup_app in Hd as (_ & Hd & _). intros Hin. apply (Hd n Hin). by left.
Qed.

(** ** Objects *)

Definition reads (x : cbor) (v : OCRepPayloadValue) : Prop :=
  forall fuel, (depth x <= fuel)%nat -> forall n p,
    parse_value (fun t => parse_single fuel t false OCRepPayloadCreate) (Some n) x p =
      Some (Some (false, with_values (set_value (values p) n v) p)).

Lemma depth_field n x r fuel : (depth (CMap (field n x :: r)) <= S fuel)%nat ->
  (depth x <= fuel)%nat /\ (depth (CMap r) <= S fuel)%nat.
Proof. intros H. change (S (Nat.max (Nat.max 1 (depth x)) (pred (depth (CMap r)))) <= S fuel)%nat in H. split; lia. Qed.

Lemma shape_nonempty {A} d (l : list A) : shape d (List.length l) -> l <> [].
Proof. intros [] ->. unfold dim_product in *. cbn in *. repeat case_match; nia. Qed.

(** Elements that are never null. *)
Lemma plain_items {A} (f : A -> cbor) (g : A -> element) a l : l <> [] -> OCConvertArrayItems a = map (fun x => Some (f x)) l ->
  (forall x, f x <> CNull) -> (forall x, DecodeCborType (f x) = type_of a) ->
  Forall (fun x => forall rd, read_element rd (type_of a) (f x) = Some (true, Some (g x))) l ->
  elements_of (type_of a) (map (fun x => Some (g x)) l) = a ->
  exists xs, OCConvertArrayItems a = map Some xs /\ forall fuel, Forall (fun x => depth x <= fuel)%nat xs ->
    items_read (fun t => parse_single fuel t false OCRepPayloadCreate) a xs.
Proof.
  intros Hl Ha Hf Ht Hr He. exists (map f l). rewrite map_map. split; [done|]. intros fuel _.
  destruct (typed_map f (type_of a) l Hl (proj2 (type_of_ok a)) Ht) as [Hs Hx]. constructor; [done..|].
  exists (map (fun x => Some (g x)) l). split; [|done]. apply cells_map; [done|].
  eapply Forall_impl; [exact Hr|]. intros x H. apply H.
Qed.

(** Elements that may be null: strings and objects. *)
Lemma nullable_items {A} (conv : option A -> option cbor) (g : A -> element) a l : Exists is_Some l ->
  type_of a <> TYPE_NULL -> type_of a <> TYPE_ARRAY -> OCConvertArrayItems a = map conv l -> conv None = Some CNull ->
  Forall (fun o => match o with
    | Some y => exists x, conv (Some y) = Some x /\ x <> CNull /\ DecodeCborType x = type_of a /\
        forall fuel, (depth x <= fuel)%nat ->
          read_element (fun t => parse_single fuel t false OCRepPayloadCreate) (type_of a) x = Some (true, Some (g y))
    | None => True
    end) l ->
  elements_of (type_of a) (map (fmap g) l) = a ->
  exists xs, OCConvertArrayItems a = map Some xs /\ forall fuel, Forall (fun x => depth x <= fuel)%nat xs ->
    items_read (fun t => parse_single fuel t false OCRepPayloadCreate) a xs.
Proof.
  intros Hl Hn Hr Ha H0 Hf He. rewrite Ha.
  assert (H : exists xs, map conv l = map Some xs /\ Forall (scalar (type_of a)) xs /\
    (Exists is_Some l -> Exists (fun x => DecodeCborType x = type_of a) xs) /\
    forall fuel, Forall (fun x => depth x <= fuel)%nat xs ->
      Forall2 (cell (fun t => parse_single fuel t false OCRepPayloadCreate) (type_of a)) xs (map (fmap g) l)).
  2:{ destruct H as (xs & Ex & Hs & Ht & Hc). exists xs. split; [done|]. intros fuel Hx. constructor; [done|by apply Ht|].
      exists (map (fmap g) l). split; [by apply Hc|done]. }
  clear Ha He Hl. induction Hf as [|[y|] l Hy _ (xs & Ex & Hs & Ht & Hc)].
  - exists []. split_and!; [done|constructor|by intros ?%Exists_nil|constructor].
  - destruct Hy as (x & Hx & Hne & Hd & Hrd). exists (x :: xs). cbn [map]. rewrite Hx, Ex. split_and!; [done| | |].
    + constructor; [|done]. unfold scalar, of_type. rewrite Hd. auto.
    + intros _. by left.
    + intros fuel [Hf Hf']%Forall_cons. constructor; [|by apply Hc]. right. split; [done|]. by apply Hrd.
  - exists (CNull :: xs). cbn [map]. rewrite H0, Ex. split_and!; [done| | |].
    + constructor; [|done]. unfold scalar, of_type. cbn. auto.
    + intros [[? ?]|?]%Exists_cons; [done|]. right. by apply Ht.
    + intros fuel [Hf Hf']%Forall_cons. constructor; [by left|by apply Hc].
Qed.

(** Canonical properties are converted to fields that are read as them. *)
Lemma values_converted (l : list (string * OCRepPayloadValue)) :
  Forall (fun nv => text_ok (fst nv)) l ->
  Forall (fun nv => exists x, OCConvertSingleRepPayloadValue (snd nv) = Some x /\ reads x (snd nv)) l ->
  exists r, convert_values OCConvertSingleRepPayloadValue l = Some r /\
    forall isRoot fuel, Forall (fun nv => isRoot && reserved (fst nv) = false) l -> (depth (CMap r) <= S fuel)%nat ->
      Forall2 (value_read (fun t => parse_single fuel t false OCRepPayloadCreate) isRoot) l r.
Proof.
  induction l as [|[n v] l IH]; intros Hn Hl; [by exists []|].
  apply Forall_cons in Hn as [Hn Hn']. apply Forall_cons in Hl as [(x & Hx & Hr) Hl].
  destruct (IH Hn' Hl) as (r & Er & H). cbn in Hx. exists (field n x :: r). cbn [convert_values]. rewrite Hx, Er. split; [done|].
  intros isRoot fuel [Hz Hz']%Forall_cons [Hd Hd']%depth_field. constructor; [|by apply H].
    split_and!; [done..|]. by apply Hr.
Qed.

Definition object_ok (p : OCRepPayload) : Prop := canonical p ->
  exists r, OCConvertRepMap p = Some (CMap r) /\
    forall fuel, (depth (CMap r) <= fuel)%nat -> parse_single fuel (CMap r) false OCRepPayloadCreate = Some (Some p).
Definition value_ok (v : OCRepPayloadValue) : Prop :=
  canonical_value v -> exists x, OCConvertSingleRepPayloadValue v = Some x /\ reads x v.
Definition elements_ok (a : array_elements) : Prop :=
  forall d, shape d (elements_length a) -> canonical_elements a -> exists xs, OCConvertArrayItems a = map Some xs /\
    forall fuel, Forall (fun x => depth x <= fuel)%nat xs ->
      items_read (fun t => parse_single fuel t false OCRepPayloadCreate) a xs.

Lemma rep_ok it u t i l : Forall (fun nv => value_ok (snd nv)) l -> object_ok (mk_rep it u t i l).
Proof.
  intros IH (-> & -> & -> & -> & Hc & Hd & Hn & Hv). apply all_values_forall in Hv.
  destruct (values_converted l Hn (forall_mp _ _ _ IH Hv)) as (r & Er & Hr). exists r. cbn [OCConvertRepMap].
  rewrite Er, Hc. split; [done|]. intros [|fuel] Hf; [cbn in Hf; lia|]. cbn [parse_single is_container].
  rewrite (loop_values _ false l r) by (apply Hr; [by apply Forall_true|done]).
  cbn [values OCRepPayloadCreate with_values]. by rewrite (set_all_new l []).
Qed.

Lemma int_ok i : value_ok (OCREP_PROP_INT i).
Proof. intros Hi. exists (CInt i). split; [done|]. intros fuel _ n p. cbn. by rewrite to_int64_id. Qed.
Lemma string_ok s : value_ok (OCREP_PROP_STRING s).
Proof. destruct s as [s|]; [|by intros []]. intros Hs. exists (CText s). split; [done|]. intros fuel _ n p. cbn. by rewrite Hs. Qed.
Lemma nested_ok o : on_object object_ok o -> value_ok (OCREP_PROP_OBJECT o).
Proof.
  destruct o as [o|]; [|by intros _ []]. intros IH H. destruct (IH H) as (r & Er & Hr). exists (CMap r). split; [done|].
  intros fuel Hf n p. unfold parse_value. by rewrite Hr.
Qed.
Lemma array_ok d a : elements_ok a -> value_ok (OCREP_PROP_ARRAY d a).
Proof.
  intros IH [Hd Ha]. destruct (IH d Hd Ha) as (xs & Ex & Hx).
  assert (El : elements_length a = List.length xs) by (by rewrite <- items_length, Ex, length_map).
  rewrite El in Hd. destruct (array_written d xs Hd) as (t & Et & -> & Hdep). eexists. cbn [OCConvertSingleRepPayloadValue].
  rewrite Ex. split; [exact Et|]. intros fuel Hf n p. apply parse_array_value; [done|]. apply Hx.
  eapply Forall_impl; [exact Hdep|]. intros x Hlt. exact (Nat.lt_le_incl _ _ (Nat.lt_le_trans _ _ _ Hlt Hf)).
Qed.

Lemma ints_ok l : elements_ok (iArray l).
Proof.
  intros d Hd Hl. apply (plain_items (fun i => CInt i) E_int _ l); [exact (shape_nonempty d l Hd)|done..| |].
  - eapply Forall_impl; [exact Hl|]. intros i Hi rd. cbn. by rewrite to_int64_id.
  - cbn. by rewrite map_map, map_id.
Qed.

Ltac plain f g l := let d := fresh in let Hd := fresh in
  intros d Hd _; apply (plain_items f g _ l); [exact (shape_nonempty d l Hd)|done..| |];
  [by apply Forall_true|cbn; by rewrite map_map, map_id].
Lemma doubles_ok l : elements_ok (dArray l).
Proof. plain (fun i => CDouble i) E_double l. Qed.
Lemma bools_ok l : elements_ok (bArray l).
Proof. plain (fun i => CBool i) E_bool l. Qed.
Lemma byte_strings_ok l : elements_ok (ocByteStrArray l).
Proof. plain (fun i => CBytes i) E_byte_string l. Qed.

Lemma map_fmap_id {A B} (f : option B -> option A) (g : A -> B) l : (forall o, f (fmap g o) = o) ->
  map f (map (fmap g) l) = l.
Proof. intros H. rewrite map_map. rewrite <- (map_id l) at 2. apply map_ext. intros o. apply H. Qed.

Lemma strings_ok l : elements_ok (strArray l).
Proof.
  intros d Hd [Hl Hx]. apply (nullable_items (fun o => Some match o with Some s => CText s | None => CNull end) E_string _ l);
    try done.
  - eapply Forall_impl; [exact Hl|]. intros [s|] Hs; [|done]. exists (CText s). split_and!; [done..|].
    intros fuel _. cbn. by rewrite Hs.
  - cbn. f_equal. apply map_fmap_id. by intros [s|].
Qed.
Lemma objects_ok l : Forall (on_object object_ok) l -> elements_ok (objArray l).
Proof.
  intros IH d Hd [Hl Hx]. apply all_objects_forall in Hl.
  apply (nullable_items (fun o => match o with Some o => OCConvertRepMap o | None => Some CNull end)
    (fun o => E_object (Some o)) _ l); try done.
  - refine (forall_mp _ _ _ (Forall_impl _ _ _ IH _) Hl). clear. intros [o|] IH H; [|done]. cbn in IH.
    destruct (IH H) as (r & Er & Hr). exists (CMap r). split_and!; [done..|]. intros fuel Hf. cbn [read_element type_of].
    by rewrite Hr.
  - cbn. f_equal. apply map_fmap_id. by intros [s|].
Qed.

Lemma value_converted v : value_ok v.
Proof.
  apply (value_induction object_ok value_ok elements_ok).
  - exact rep_ok.
  - by exists CNull.
  - exact int_ok.
  - intros d _. by exists (CDouble d).
  - intros b _. by exists (CBool b).
  - exact string_ok.
  - intros b _. by exists (CBytes b).
  - exact nested_ok.
  - exact array_ok.
  - exact ints_ok.
  - exact doubles_ok.
  - exact bools_ok.
  - exact strings_ok.
  - exact byte_strings_ok.
  - exact objects_ok.
Qed.

(** ** Payloads *)

(** A string that is one token. *)
Definition token_ok (s : string) : Prop := text_ok s /\ strtok " " s "" = [s].

(** What is kept at the root: a URI that is not empty, types and interfaces that are
    single words, and properties of other names. *)
Definition canonical_root (p : OCRepPayload) : Prop :=
  ifType p = PAYLOAD_NON_BATCH_INTERFACE /\
  match uri p with Some u => text_ok u /\ u <> ""%string | None => True end /\
  Forall token_ok (types p) /\ Forall token_ok (interfaces p) /\ NoDup (map fst (values p)) /\
  Forall (fun nv => text_ok (fst nv) /\ reserved (fst nv) = false) (values p) /\
  Forall (fun nv => canonical_value (snd nv)) (values p).

Lemma values_field l r k : convert_values OCConvertSingleRepPayloadValue l = Some r ->
  Forall (fun nv => reserved (fst nv) = false) l -> reserved k = true -> find_value r k = None.
Proof.
  intros Hr Hl Hk. revert r Hr. induction Hl as [|[n v] l Hn _ IH]; cbn [convert_values]; intros r.
  - by intros [= <-].
  - destruct (OCConvertSingleRepPayloadValue v) as [x|]; [|done]. cbn.
    destruct (convert_values _ l) as [r'|]; [|done]. intros [= <-]. cbn in *.
    destruct (String.eqb_spec n k) as [->|_]; [congruence|]. by apply IH.
Qed.

Lemma texts_until_tokens l : Forall token_ok l -> texts_until (CText <$> l) = l.
Proof. induction 1 as [|s l [Hs Ht] _ IH]; cbn; [done|]. unfold text_ok in Hs. rewrite Hs, Ht. cbn. by rewrite IH. Qed.

Lemma find_join k k' l r : find_value (OCStringLLJoin k l ++ r) k' =
  if String.eqb k k' && negb (bool_decide (l = [])) then Some (CArray (CText <$> l)) else find_value r k'.
Proof. destruct l as [|s l]; cbn; [by destruct (String.eqb k k')|]. by destruct (String.eqb k k'). Qed.

Lemma header_reserved p :
  Forall (fun kx => exists n, kx = field n (snd kx) /\ text_ok n /\ reserved n = true) (header_fields p).
Proof.
  unfold header_fields. repeat apply Forall_app_2.
  - destruct (uri p) as [u|]; [|done]. destruct (String.eqb u ""); [done|]. constructor; [|done]. by exists OC_RSRVD_HREF.
  - destruct (types p); [done|]. constructor; [|done]. by exists OC_RSRVD_RESOURCE_TYPE.
  - destruct (interfaces p); [done|]. constructor; [|done]. by exists OC_RSRVD_INTERFACE.
Qed.

Lemma depth_app h r : (depth (CMap r) <= depth (CMap (h ++ r)))%nat.
Proof.
  induction h as [|[k x] h IH]; [done|]. etransitivity; [exact IH|]. cbn [depth app foldr]. apply le_n_S, Nat.le_max_r.
Qed.

(** A root that is converted is read. *)
Lemma root_read p : canonical_root p -> exists m, CMap <$> OCConvertSingleRepPayload p = Some (CMap m) /\
  parse_root (CMap m) = Some (Some p).
Proof.
  intros (Hi & Hu & Ht & Hif & Hd & Hn & Hv). apply Forall_and in Hn as [Hn Hr].
  destruct (values_converted (values p) Hn) as (r & Er & Hread).
  { eapply Forall_impl; [exact Hv|]. intros nv H. by apply value_converted. }
  exists (header_fields p ++ r). unfold OCConvertSingleRepPayload. rewrite Er. split; [done|].
  pose proof (values_field _ _ OC_RSRVD_HREF Er Hr eq_refl) as Fh.
  pose proof (values_field _ _ OC_RSRVD_RESOURCE_TYPE Er Hr eq_refl) as Ft.
  pose proof (values_field _ _ OC_RSRVD_INTERFACE Er Hr eq_refl) as Ff.
  assert (Eu : forall k, find_value (header_fields p ++ r) k =
    if String.eqb OC_RSRVD_HREF k && bool_decide (is_Some (uri p)) then CText <$> uri p
    else find_value (OCStringLLJoin OC_RSRVD_RESOURCE_TYPE (types p) ++ OCStringLLJoin OC_RSRVD_INTERFACE (interfaces p) ++ r) k).
  { intros k. unfold header_fields. rewrite <- !app_assoc. destruct (uri p) as [u|]; [|by rewrite andb_false_r].
    destruct Hu as [_ Hu]. rewrite (proj2 (String.eqb_neq _ _) Hu). cbn [app find_value field].
    destruct (String.eqb OC_RSRVD_HREF k); [|done]. by rewrite bool_decide_eq_true_2. }
  assert (E1 : match find_value (header_fields p ++ r) OC_RSRVD_HREF with Some (CText s) => Some (cstr s) | _ => None end = uri p).
  { rewrite Eu, !find_join, Fh. destruct (uri p) as [u|]; [|done]. cbn. f_equal. apply Hu. }
  assert (E2 : OCParseStringLL (header_fields p ++ r) OC_RSRVD_RESOURCE_TYPE = types p).
  { unfold OCParseStringLL. rewrite Eu, !find_join, Ft.
    destruct (decide (types p = [])) as [E|E]; [rewrite (bool_decide_eq_true_2 _ E)|rewrite (bool_decide_eq_false_2 _ E)]; cbn.
    - by rewrite E.
    - by apply texts_until_tokens. }
  assert (E3 : OCParseStringLL (header_fields p ++ r) OC_RSRVD_INTERFACE = interfaces p).
  { unfold OCParseStringLL. rewrite Eu, !find_join, Ff.
    destruct (decide (interfaces p = [])) as [E|E]; [rewrite (bool_decide_eq_true_2 _ E)|rewrite (bool_decide_eq_false_2 _ E)]; cbn.
    - by rewrite E.
    - by apply texts_until_tokens. }
  unfold parse_root. rewrite E1, E2, E3. unfold OCParseSingleRepPayload.
  assert (Hdep : exists fuel, depth (CMap (header_fields p ++ r)) = S fuel /\ (depth (CMap r) <= S fuel)%nat).
  { eexists. split; [reflexivity|]. apply (depth_app (header_fields p) r). }
  destruct Hdep as (fuel & -> & Hf). cbn [parse_single is_container].
  rewrite loop_reserved; [|apply header_reserved].
  rewrite (loop_values _ true (values p) r) by (apply Hread; [exact Hr|done]).
  cbn [values with_values ifType uri types interfaces]. rewrite (set_all_new (values p) []) by done.
  destruct p. cbn in *. by subst.
Qed.

(** ** Chains of payloads *)

Lemma roots_read ps : Forall canonical_root ps -> exists ms, rep_maps ps = Some ms /\
  parse_roots ms = Some (Some ps) /\ Forall (fun m => exists l, m = CMap l) ms.
Proof.
  unfold rep_maps. induction 1 as [|p ps Hp _ (ms & Ems & Hms & Hm)]; [by exists []|].
  destruct (root_read p Hp) as (m & Em & Hr). exists (CMap m :: ms). split; [cbn [mapM]; by rewrite Em; cbn; rewrite Ems|].
  cbn [parse_roots]. rewrite Hr, Hms. split; [done|]. constructor; [by exists m|exact Hm].
Qed.

(** Canonical payloads are converted to an item that is parsed as them. *)
Lemma rep_item_read ps : ps <> [] -> Forall canonical_root ps ->
  exists t, rep_item ps = Some t /\ OCParseRepPayload t = Some (OC_STACK_OK, ps).
Proof.
  intros Hne Hps. destruct (roots_read ps Hps) as (ms & Ems & Hr & Hm). unfold rep_item, in_array, OCParseRepPayload.
  rewrite Ems. cbn [mbind option_bind]. destruct ps as [|p ps]; [done|]. apply Forall_cons in Hps as [(Hi & _) _]. rewrite Hi, orb_false_r.
  destruct (1 <? Z.of_nat (List.length (p :: ps))) eqn:En.
  - eexists. split; [done|]. cbn iota. by rewrite Hr.
  - destruct ps as [|p' ps]; [|apply Z.ltb_ge in En; cbn [List.length] in En; lia].
    unfold rep_maps in Ems. apply mapM_Some_1, Forall2_length in Ems. destruct ms as [|m [|? ?]]; try done.
    exists m. split; [done|]. apply Forall_cons in Hm as [(l & ->) _]. cbn iota. by rewrite Hr.
Qed.

End RepRoundTrip.
