(* ===== verification/RepTypes.v ===== *)
(** * Parsed representations are well-formed

    Whatever CBOR item a representation is read from: when it is read, its payloads
    are well-formed - distinct names, no null strings and objects, as many elements in
    an array as its dimensions say - and can be converted again. *)

From S2P Require Import Prelude.
From S2P Require Import Status.
From S2P Require Import CString.
From S2P Require Import Cbor.
From S2P Require Import RepPayload.
From S2P Require Import RepConvert.
From S2P Require Import RepParse.
From S2P Require Import RepLaws.
From S2P Require Import RepArrays.
From S2P Require Import RepRoundTrip.

Module RepTypes.
Import CString Cbor RepPayload RepConvert RepParse RepLaws.

(** Every array has fewer than [2 ^ 21] items: the product of three dimensions does
    not overflow. *)
Definition few (n : nat) : Prop := Z.of_nat n < 2 ^ 21.
Fixpoint small (t : cbor) : Prop :=
  match t with
  | CArray l => few (List.length l) /\ foldr (fun x P => small x /\ P) True l
  | CMap l => foldr (fun '(k, v) P => small k /\ small v /\ P) True l
  | _ => True
  end.

Lemma small_items t : small t -> Forall small (items t).
Proof.
  destruct t; cbn; try constructor.
  - intros [_ H]. induction l as [|x l IH]; [constructor|]. destruct H. constructor; auto.
  - intros H. induction l as [|[k v] l IH]; [constructor|]. destruct H as (? & ? & ?). repeat constructor; auto.
Qed.

(** ** Setting properties *)

Lemma set_well_formed p n v : well_formed p -> wf_value v -> well_formed (with_values (set_value (values p) n v) p).
Proof.
  destruct p as [it u t i l]. intros [Hd Hl] Hv. cbn [with_values values well_formed]. split.
  - rewrite set_value_names. case_bool_decide as Hn; [done|]. apply NoDup_app. split_and!; [done| |apply NoDup_singleton].
    intros x Hx ->%list_elem_of_singleton. done.
  - apply all_values_forall in Hl. apply all_values_forall. induction Hl as [|[m x] l Hx Hl IH]; cbn [set_value].
    + by repeat constructor.
    + cbn in Hd. apply NoDup_cons in Hd as [_ Hd]. destruct (String.eqb m n); constructor; auto.
Qed.

(** The setters keep a payload well-formed. *)
Lemma set_to_well_formed p name v r : well_formed p -> wf_value v -> well_formed (snd (set_to p name v r)).
Proof. intros Hp Hv. destruct name as [n|]; [|done]. by apply set_well_formed. Qed.

(** ** Arrays *)

Definition dims_few (d : dimensions) : Prop :=
  0 <= dim0 d < 2 ^ 21 /\ 0 <= dim1 d < 2 ^ 21 /\ 0 <= dim2 d < 2 ^ 21.

Lemma dims_few_ok d : dims_few d -> dims_ok d (Z.to_nat (calcDimTotal d)).
Proof.
  intros (H0 & H1 & H2).
  assert (Hb : 0 <= dim_product d < 2 ^ 64).
  { unfold dim_product.
    assert (0 <= (if dim1 d =? 0 then 1 else dim1 d * (if dim2 d =? 0 then 1 else dim2 d)) < 2 ^ 42)
      by (repeat case_match; nia). nia. }
  assert (H : dims_ok d (Z.to_nat (dim_product d))) by (unfold dims_ok; lia).
  by rewrite (calcDimTotal_ok _ _ H), Nat2Z.id.
Qed.

Lemma find_few t : small t -> forall d ty, OCParseArrayFindDimensionsAndType t = Some (d, ty) -> dims_few d.
Proof.
  induction t as [z|b|s|b|l IH|l IH| | |d|f] using cbor_induction; try done. intros [Hn Hl] d ty. cbn [OCParseArrayFindDimensionsAndType].
  assert (H : forall d0 t0, dims_few d0 -> dim0 d0 + Z.of_nat (List.length l) < 2 ^ 21 ->
    dims_loop OCParseArrayFindDimensionsAndType l d0 t0 = Some (d, ty) -> dims_few d).
  2:{ apply H; [done|exact Hn]. }
  clear Hn. induction IH as [|x l Hx _ IHl]; intros d0 t0 Hd Hb; cbn [dims_loop].
  - by intros [= <- _].
  - destruct Hl as [Hsx Hl].
    destruct (item_dims OCParseArrayFindDimensionsAndType x) as [[[s0 s1] tx]|] eqn:Ei; [|done]. cbn.
    destruct (join_type t0 tx) as [t1|]; [|done]. cbn. apply IHl; [done| |cbn [dim0 List.length] in *; lia].
    assert (0 <= s0 < 2 ^ 21 /\ 0 <= s1 < 2 ^ 21).
    { unfold item_dims in Ei. case_bool_decide; [|by simplify_eq].
      destruct (OCParseArrayFindDimensionsAndType x) as [[sd t2]|] eqn:Ex; [|done]. cbn in Ei.
      destruct (Hx Hsx sd t2 eq_refl) as (? & ? & ?). simplify_eq. done. }
    destruct Hd as (? & ? & ?). cbn [List.length] in Hb. unfold dims_few. cbn. lia.
Qed.

Definition element_ok (e : option element) : Prop :=
  match e with
  | Some (E_int i) => is_int64 i
  | Some (E_object (Some o)) => well_formed o
  | _ => True
  end.

Lemma to_int64_range z : is_int64 (to_int64 z).
Proof. unfold to_int64, is_int64. pose proof (Z.mod_pos_bound z (2 ^ 64) ltac:(lia)). case_match; lia. Qed.

Section fill.
Context (rd : cbor -> option (option OCRepPayload)).
Context (Hrd : forall t o, small t -> rd t = Some (Some o) -> well_formed o).

Lemma read_element_ok ty t ok e : small t -> read_element rd ty t = Some (ok, e) -> element_ok e.
Proof using Hrd.
  intros Ht. destruct ty; cbn; try (by intros [= _ <-]); try (destruct t; by intros [= _ <-]).
  - destruct t; try done. intros [= _ <-]. apply to_int64_range.
  - destruct (rd t) as [[o|]|] eqn:E; [| |done]; intros [= _ <-]; [|done]. by eapply Hrd.
Qed.

(** The array keeps its length and holds well-formed elements. *)
Definition keeps_array (f : list (option element) -> option (bool * list (option element))) : Prop :=
  forall a ok a', Forall element_ok a -> f a = Some (ok, a') -> Forall element_ok a' /\ List.length a' = List.length a.

Lemma fill_item_keeps sub d ty x i base : small x -> (forall pos, keeps_array (sub x pos)) ->
  keeps_array (fill_item rd sub d ty x i base).
Proof using Hrd.
  intros Hx Hsub a ok a' Ha. unfold fill_item.
  assert (H : (if dim1 d =? 0
     then '(ok, e) ← read_element rd ty x; a ← store a (base + i) e; Some (ok, a)
     else if bool_decide (ty = TYPE_NULL \/ ty = TYPE_ARRAY) then Some (false, a) else sub x (base + arrayStep d i) a)
    = Some (ok, a') -> Forall element_ok a' /\ List.length a' = List.length a).
  { destruct (dim1 d =? 0).
    - destruct (read_element rd ty x) as [[ok1 e]|] eqn:Er; [|done]. cbn. unfold store.
      destruct ((0 <=? base + i) && (base + i <? Z.of_nat (List.length a))); [|done]. cbn. intros [= <- <-].
      split; [|apply length_insert]. apply Forall_insert; [done|]. by eapply read_element_ok.
    - case_bool_decide; [by intros [= _ <-]|]. by apply Hsub. }
  destruct x; try done. by intros [= _ <-].
Qed.

Lemma fill_items_keeps sub d ty its : Forall small its -> (forall x pos, small x -> keeps_array (sub x pos)) ->
  forall i base, keeps_array (fill_items rd sub d ty its i base).
Proof using Hrd.
  intros Hits Hsub. induction Hits as [|x its Hx _ IH]; intros i base a ok a' Ha; cbn [fill_items].
  - by intros [= _ <-].
  - case_match; [|by intros [= _ <-]].
    destruct (fill_item rd sub d ty x i base a) as [[ok1 a1]|] eqn:Ef; [|done]. cbn.
    destruct (fill_item_keeps sub d ty x i base Hx (fun pos => Hsub x pos Hx) a ok1 a1 Ha Ef) as [Ha1 Hl1].
    destruct ok1; [|by intros [= _ <-]]. intros Hf. destruct (IH _ _ _ _ _ Ha1 Hf) as [? ?]. split; [done|lia].
Qed.

Lemma fill_array_keeps levels : forall d ty t base, small t -> keeps_array (fill_array rd levels d ty t base).
Proof using Hrd.
  induction levels as [|levels IH]; intros d ty t base Ht a ok a' Ha; cbn [fill_array]; [done|].
  destruct (is_container t); [|done]. apply fill_items_keeps; [by apply small_items| |done].
  intros x pos Hx. by apply IH.
Qed.

Lemma elements_wf ty a : Forall element_ok a -> wf_elements (elements_of ty a) /\ elements_length (elements_of ty a) = List.length a.
Proof using.
  intros Ha. assert (Hi : wf_elements (iArray (map (fun e => match e with Some (E_int i) => i | _ => 0 end) a))).
  { cbn. apply Forall_map. eapply Forall_impl; [exact Ha|]. intros [[]|]; done. }
  assert (Ho : wf_elements (objArray (map (fun e => match e with Some (E_object o) => o | _ => None end) a))).
  { cbn. apply all_objects_forall, Forall_map. eapply Forall_impl; [exact Ha|]. by intros [[| | | | |[o|]]|]. }
  split; destruct ty; cbn [elements_of elements_length]; try done; by rewrite length_map.
Qed.

Lemma parse_array_keeps p name t ok p' : small t -> well_formed p -> OCParseArray rd p name t = Some (ok, p') -> well_formed p'.
Proof using Hrd.
  intros Ht Hp. unfold OCParseArray.
  destruct (OCParseArrayFindDimensionsAndType t) as [[d ty]|] eqn:Ed; [|by intros [= _ <-]].
  assert (Hsnd : forall x, wf_value x -> forall r, Some (set_to p name x r) = Some (ok, p') -> well_formed p').
  { intros x Hx r E%(inj Some). pose proof (set_to_well_formed p name x r Hp Hx) as H. by rewrite E in H. }
  case_bool_decide; [by apply Hsnd|].
  case_match; [by intros [= _ <-]|].
  destruct (OCParseArrayFillArray rd d ty t 0 _) as [[ok1 a]|] eqn:Ef; [|done]. cbn [mbind option_bind].
  assert (Hr : Forall element_ok (replicate (Z.to_nat (calcDimTotal d)) None)) by (by apply Forall_replicate).
  destruct (fill_array_keeps _ _ _ _ _ Ht _ _ _ Hr Ef) as [Ha Hl]. rewrite length_replicate in Hl.
  destruct (elements_wf ty a Ha) as [Hw Hwl].
  apply Hsnd. split; [|done]. rewrite Hwl, Hl. by eapply dims_few_ok, find_few.
Qed.

Lemma parse_value_keeps name v p skip p' : small v -> well_formed p ->
  parse_value rd name v p = Some (Some (skip, p')) -> well_formed p'.
Proof using Hrd.
  intros Hv Hp.
  assert (Hset : forall x r, wf_value x -> (Some (if fst (set_to p name x r) then Some (false, snd (set_to p name x r)) else None)
    = Some (Some (skip, p'))) -> well_formed p').
  { intros x r Hx. destruct (fst (set_to p name x r)); [|done]. intros [= _ <-]. by apply set_to_well_formed. }
  unfold parse_value. destruct v; try (apply Hset; first [done|apply to_int64_range|by eexists]); try done.
  - destruct (OCParseArray rd p name (CArray l)) as [[[] p1]|] eqn:Ea; [| |done]; cbn [mbind option_bind];
      pose proof (parse_array_keeps _ _ _ _ _ Hv Hp Ea) as Hp1; [by intros [= _ <-]|].
    destruct (rd (CArray l)) as [[o|]|] eqn:Er; [|done..]. intros [= _ <-]. apply set_to_well_formed; [done|]. by eapply Hrd.
  - destruct (rd (CMap l)) as [[o|]|] eqn:Er; [|done..]. apply (Hset (OCREP_PROP_OBJECT (Some o))). by eapply Hrd.
Qed.

(** The loop over the items: by their number, since an item can be passed over. *)
Lemma rep_loop_keeps in_map isRoot n : forall its, (List.length its <= n)%nat -> Forall small its ->
  forall i p p', well_formed p -> rep_loop rd in_map isRoot its i p = Some (Some p') -> well_formed p'.
Proof using Hrd.
  assert (Hnext : forall name v p (k1 k2 : OCRepPayload -> option (option OCRepPayload)) p', small v -> well_formed p ->
    (forall q, well_formed q -> k1 q = Some (Some p') -> well_formed p') ->
    (forall q, well_formed q -> k2 q = Some (Some p') -> well_formed p') ->
    match parse_value rd name v p with
    | None => None | Some None => Some None | Some (Some (skip, q)) => if skip : bool then k2 q else k1 q
    end = Some (Some p') -> well_formed p').
  { intros name v p k1 k2 p' Hv Hp H1 H2. destruct (parse_value rd name v p) as [[[[] q]|]|] eqn:E; try done;
      [apply H2|apply H1]; by eapply parse_value_keeps. }
  induction n as [|n IH]; intros its Hn Hs i p p' Hp; (destruct its as [|x rest]; [cbn; by intros [= <-]|]); [cbn in Hn; lia|].
  apply Forall_cons in Hs as [Hx Hs].
  assert (Hgo : forall l, (List.length l <= List.length rest)%nat -> Forall small l -> forall j q, well_formed q ->
    rep_loop rd in_map isRoot l j q = Some (Some p') -> well_formed p').
  { intros l Hl Hsl j q. apply IH; [cbn in Hn; lia|done]. }
  assert (Htl : forall v l j q, rest = v :: l -> well_formed q ->
    rep_loop rd in_map isRoot l j q = Some (Some p') -> well_formed p').
  { intros v l j q ->. apply Hgo; [cbn; lia|]. by apply Forall_cons in Hs as [_ Hs]. }
  assert (Hone : forall name, match parse_value rd name x p with
    | None => None | Some None => Some None
    | Some (Some (skip, q)) =>
        if skip : bool then match rest with [] => rep_loop rd in_map isRoot rest (i + 1) q | _ :: r => rep_loop rd in_map isRoot r (i + 1) q end
        else rep_loop rd in_map isRoot rest (i + 1) q
    end = Some (Some p') -> well_formed p').
  { intros name. apply Hnext; [done..|intros q; by apply Hgo|]. intros q Hq. destruct rest as [|v r]; [by apply (Hgo [])|].
    by eapply Htl. }
  cbn [rep_loop]. destruct in_map.
  2:{ pose proof (Hone (Some (index_name i))) as H. destruct rest; exact H. }
  destruct x; try (pose proof (Hone None) as H; destruct rest; exact H).
  destruct rest as [|v rest]; [case_match; [by intros [= <-]|done]|].
  apply Forall_cons in Hs as [Hv Hs]. destruct (isRoot && reserved (cstr s)); [by apply (Htl v rest)|].
  pose proof (Hnext (Some (cstr s)) v p (rep_loop rd true isRoot rest (i + 1))
    match rest with [] => rep_loop rd true isRoot rest (i + 1) | _ :: r => rep_loop rd true isRoot r (i + 1) end p' Hv Hp) as H'.
  assert (H1 : forall q, well_formed q -> rep_loop rd true isRoot rest (i + 1) q = Some (Some p') -> well_formed p').
  { intros q. by eapply Htl. }
  assert (H2 : forall q, well_formed q -> match rest with [] => rep_loop rd true isRoot rest (i + 1) | _ :: r => rep_loop rd true isRoot r (i + 1) end q = Some (Some p') -> well_formed p').
  { intros q. destruct rest as [|w r]; [apply H1|]. apply Hgo; [cbn; lia|]. by apply Forall_cons in Hs as [_ Hs]. }
  specialize (H' H1 H2). destruct rest; exact H'.
Qed.
End fill.

(** ** Payloads *)

Lemma create_well_formed : well_formed OCRepPayloadCreate.
Proof. split; [constructor|done]. Qed.

Lemma parse_single_keeps fuel : forall t isRoot p p', small t -> well_formed p ->
  parse_single fuel t isRoot p = Some (Some p') -> well_formed p'.
Proof.
  induction fuel as [|fuel IH]; intros t isRoot p p' Ht Hp; cbn [parse_single]; [done|].
  destruct (is_container t); [|done]. apply (rep_loop_keeps _ (fun t o Ht => IH t false _ o Ht create_well_formed) _ _ _ _ ltac:(reflexivity));
    [by apply small_items|done].
Qed.

Lemma parse_root_keeps t p : small t -> parse_root t = Some (Some p) -> well_formed p.
Proof.
  intros Ht. unfold parse_root. destruct t; try done.
  - intros [= <-]. apply create_well_formed.
  - apply parse_single_keeps; [done|]. split; [constructor|done].
Qed.

Lemma parse_roots_keep its : Forall small its -> forall ps, parse_roots its = Some (Some ps) -> Forall well_formed ps.
Proof.
  induction 1 as [|t its Ht _ IH]; intros ps; cbn [parse_roots]; [by intros [= <-]|].
  destruct (parse_root t) as [[p|]|] eqn:Ep; [|done..].
  destruct (parse_roots its) as [[l|]|]; [|done..]. intros [= <-]. constructor; [by apply (parse_root_keeps t)|by apply IH].
Qed.



End RepTypes.
