(* ===== verification/PsInterface.v ===== *)
(** * Persistent storage of the secure virtual resources ([sec/psinterface.c])

    The database is one file holding a CBOR map from resource names to byte
    strings.  The application's file callbacks are the class [Storage]; the CBOR
    library is [CborLib].  State: the world [W] the callbacks act on. *)

From S2P Require Import Prelude.
From S2P Require Import Status.
From S2P Require Import Cbor.
Import Cbor.

Module PsInterface.

Open Scope m_scope.

(** What the open, read, write and close handlers the application registered do
    with a file: its contents, when there is a handler and the file opens, and
    an attempt to replace them, [true] when all bytes were written.  The name of
    the database file is the application's too. *)
Class Storage (W : Type) : Type := {
  read_file : string -> W -> option (list Z);
  write_file : string -> list Z -> W -> bool * W;
  SVR_DB_DAT_FILE_NAME : string }.

(** Documented behaviour of files: a successful write is what is read next, and
    other files keep their contents. *)
Class StorageLaws (W : Type) {ST : Storage W} : Prop := {
  read_written : forall f b w w', write_file f b w = (true, w') -> read_file f w' = Some b;
  read_other : forall f g b w r w', write_file f b w = (r, w') -> f <> g ->
    read_file g w' = read_file g w;
  svr_db_name : SVR_DB_DAT_FILE_NAME <> "device_properties.dat"%string }.

Definition OC_DEVICE_PROPS_FILE_NAME : string := "device_properties.dat".
Definition OC_JSON_DEVICE_PROPS_NAME : string := "DeviceProperties".
Definition OIC_JSON_ACL_NAME : string := "acl".
Definition OIC_JSON_PSTAT_NAME : string := "pstat".
Definition OIC_JSON_DOXM_NAME : string := "doxm".
Definition OIC_JSON_AMACL_NAME : string := "amacl".
Definition OIC_JSON_CRED_NAME : string := "cred".
Definition OIC_JSON_RESET_PF_NAME : string := "resetpf".
Definition OIC_JSON_CRL_NAME : string := "crl".
Definition OIC_JSON_SP_NAME : string := "sp".
Definition CBOR_ENCODING_SIZE_ADDITION : Z := 255.

Section storage.
Context {L : CborLib} {W : Type} {ST : Storage W}.

Definition WritePayloadToPS (databaseName : string) (payload : list Z) : M W OCStackResult :=
  fun w =>
    match payload with
    | [] => Some (OC_STACK_INVALID_PARAM, w)
    | _ :: _ =>
        let '(written, w') := write_file databaseName payload w in
        Some (if written then OC_STACK_OK else OC_STACK_ERROR, w')
    end.

(** The bytes of the file; a missing or empty file has none. *)
Definition GetDatabaseSize (databaseName : string) : M W Z :=
  gets (fun w => match read_file databaseName w with
                 | Some b => Z.of_nat (List.length b) | None => 0 end).

(** The pairs of the top-level map; searching anything else fails an assertion
    of the library. *)
Definition as_map (b : list Z) : option (list (cbor * cbor)) :=
  match parse b with Some (CMap l) => Some l | _ => None end.

Definition ReadDatabaseFromPS (databaseName : string) (resourceName : option string) :
    M W (OCStackResult * option (list Z)) :=
  let! fileSize := GetDatabaseSize databaseName in
  if fileSize =? 0 then ret (OC_STACK_ERROR, None)
  else
    let! fsData := gets (fun w => default [] (read_file databaseName w)) in
    match resourceName with
    | Some name =>
        let! l := demand (as_map fsData) in
        match find_bytes l name with
        | Some b => ret (OC_STACK_OK, Some b)
        | None => ret (OC_STACK_ERROR, None)
        end
    | None => ret (OC_STACK_OK, Some fsData)
    end.

(** The resources an update copies, in the order they are written. *)
Definition database_names (databaseName : string) : list string :=
  if String.eqb OC_DEVICE_PROPS_FILE_NAME databaseName then [OC_JSON_DEVICE_PROPS_NAME]
  else [OIC_JSON_ACL_NAME; OIC_JSON_PSTAT_NAME; OIC_JSON_DOXM_NAME; OIC_JSON_AMACL_NAME;
        OIC_JSON_CRED_NAME; OIC_JSON_RESET_PF_NAME; OIC_JSON_CRL_NAME; OIC_JSON_SP_NAME].

(** The bytes stored under a name, none when it is missing or not bytes. *)
Definition found (l : list (cbor * cbor)) (n : string) : list Z := default [] (find_bytes l n).

(** First half of [UpdateResourceInPS]: every resource of the stored map. *)
Definition copy_resources (databaseName : string) (l : list (cbor * cbor)) :
    list (string * list Z) :=
  (fun n => (n, found l n)) <$> database_names databaseName.

(** Second half: the updated resource first, then the non-empty others. *)
Definition rebuild (copies : list (string * list Z)) (resourceName : string)
    (payload : list Z) : list (string * list Z) :=
  (match payload with [] => [] | _ :: _ => [(resourceName, payload)] end)
  ++ omap (fun '(n, b) =>
       if negb (String.eqb n resourceName) && negb (bool_decide (b = []))
       then Some (n, b) else None) copies.

Definition total_size (copies : list (string * list Z)) : Z :=
  list_sum (fun '(_, b) => Z.of_nat (List.length b)) copies.

(** [payload] is the CBOR payload, empty for a null pointer or a size of 0.  An
    encoding that does not fit its buffer passes the check of the result and its
    size is then computed from freed bookkeeping: undefined. *)
Definition UpdateResourceInPS (databaseName resourceName : string) (payload : list Z) :
    M W OCStackResult :=
  let! (_, dbData) := ReadDatabaseFromPS databaseName None in
  let! outPayload :=
    match dbData with
    | Some ((_ :: _) as db) =>
        let! l := demand (as_map db) in
        let copies := copy_resources databaseName l in
        let allocSize := total_size copies + Z.of_nat (List.length payload)
                         + CBOR_ENCODING_SIZE_ADDITION in
        demand (Cbor.payload allocSize allocSize (CMap (byte_fields (rebuild copies resourceName payload))))
    | _ =>
        match payload with
        | [] => ret []
        | _ :: _ =>
            let allocSize := Z.of_nat (List.length payload) + CBOR_ENCODING_SIZE_ADDITION in
            demand (Cbor.payload allocSize allocSize
                      (CMap (byte_fields [(resourceName, payload)])))
        end
    end in
  WritePayloadToPS databaseName outPayload.

Definition GetSecureVirtualDatabaseFromPS (resourceName : option string) :
    M W (OCStackResult * option (list Z)) :=
  ReadDatabaseFromPS SVR_DB_DAT_FILE_NAME resourceName.

Definition UpdateSecureResourceInPS (resourceName : string) (payload : list Z) :
    M W OCStackResult :=
  UpdateResourceInPS SVR_DB_DAT_FILE_NAME resourceName payload.

(** The map both [ResetSecureResourceInPS] and [CreateResetProfile] write: the
    five resources, the credentials only when there are any. *)
Definition profile_map (find : string -> list Z) : list (string * list Z) :=
  [(OIC_JSON_ACL_NAME, find OIC_JSON_ACL_NAME)]
  ++ (match find OIC_JSON_CRED_NAME with
      | [] => [] | _ :: _ => [(OIC_JSON_CRED_NAME, find OIC_JSON_CRED_NAME)] end)
  ++ [(OIC_JSON_PSTAT_NAME, find OIC_JSON_PSTAT_NAME);
      (OIC_JSON_DOXM_NAME, find OIC_JSON_DOXM_NAME);
      (OIC_JSON_SP_NAME, find OIC_JSON_SP_NAME)].

Definition profile_names : list string :=
  [OIC_JSON_ACL_NAME; OIC_JSON_CRED_NAME; OIC_JSON_PSTAT_NAME; OIC_JSON_DOXM_NAME;
   OIC_JSON_SP_NAME].

(** The part of [ResetSecureResourceInPS] that rewrites the database from the
    stored reset profile; [false] when it jumps to [exit]. *)
Definition reset_database : M W (OCStackResult * bool) :=
  let! (r, dbData) := GetSecureVirtualDatabaseFromPS None in
  match dbData with
  | Some ((_ :: _) as db) =>
      let! l := demand (as_map db) in
      let! find :=
        match find_bytes l OIC_JSON_RESET_PF_NAME with
        | Some resetPf => let! pl := demand (as_map resetPf) in ret (found pl)
        | None => ret (fun _ => [])
        end in
      let resetPf := found l OIC_JSON_RESET_PF_NAME in
      let size := list_sum (fun n => Z.of_nat (List.length (find n))) profile_names
                  + Z.of_nat (List.length resetPf) + CBOR_ENCODING_SIZE_ADDITION in
      let! out := demand (Cbor.payload size size
        (CMap (byte_fields (profile_map find ++ [(OIC_JSON_RESET_PF_NAME, resetPf)])))) in
      let! r := WritePayloadToPS SVR_DB_DAT_FILE_NAME out in
      ret (r, is_ok r)
  | _ => ret (r, true)
  end.

Definition CreateResetProfile : M W OCStackResult :=
  let! (r, dbData) := GetSecureVirtualDatabaseFromPS None in
  match dbData with
  | Some ((_ :: _) as db) =>
      let! l := demand (as_map db) in
      match find_bytes l OIC_JSON_RESET_PF_NAME with
      | Some _ => ret r
      | None =>
          let size := list_sum (fun n => Z.of_nat (List.length (found l n))) profile_names
                      + CBOR_ENCODING_SIZE_ADDITION in
          let! resetPf := demand (Cbor.payload size size
            (CMap (byte_fields (profile_map (found l))))) in
          UpdateSecureResourceInPS OIC_JSON_RESET_PF_NAME resetPf ;;;
          ret r
      end
  | _ => ret r
  end.

End storage.

Section correctness.
Context {L : CborLib} {LL : CborLaws} {W : Type} {ST : Storage W} {SL : StorageLaws W}.

(** The database of a world: no file, an empty file, or a map. *)
Definition db_ok (f : string) (w : W) : Prop :=
  match read_file f w with Some ((_ :: _) as b) => is_Some (as_map b) | _ => True end.

(** What is stored under a name; an empty byte string counts as nothing. *)
Definition entry (f : string) (w : W) (n : string) : list Z :=
  match read_file f w with
  | Some ((_ :: _) as b) => match as_map b with Some l => found l n | None => [] end
  | _ => []
  end.

Lemma ReadDatabaseFromPS_whole f w :
  ReadDatabaseFromPS f None w =
    match read_file f w with
    | Some (b :: bs) => Some (OC_STACK_OK, Some (b :: bs), w)
    | _ => Some (OC_STACK_ERROR, None, w)
    end.
Proof.
  unfold ReadDatabaseFromPS, GetDatabaseSize, bind, gets, ret.
  destruct (read_file f w) as [[|b bs]|] eqn:E; simpl; rewrite ?E; done.
Qed.

Lemma found_byte_fields ps n : found (byte_fields ps) n = default [] (assoc ps n).
Proof. unfold found. by rewrite find_byte_fields. Qed.

Lemma payload_cons init max t b : payload init max t = Some b -> exists x bs, b = x :: bs.
Proof. intros H. apply payload_nonempty in H. destruct b; eauto. done. Qed.

(** Writing an encoded map makes its fields the entries. *)
Lemma write_entries f init max ps b w w' :
  payload init max (CMap (byte_fields ps)) = Some b -> write_file f b w = (true, w') ->
  db_ok f w' /\ forall n, entry f w' n = default [] (assoc ps n).
Proof.
  intros Hp Hw. unfold db_ok, entry, as_map. rewrite (read_written _ _ _ _ Hw).
  destruct (payload_cons _ _ _ _ Hp) as (x & bs & ->). simpl.
  rewrite (parse_payload _ _ _ _ Hp). split; [by eexists|]. intros n. apply found_byte_fields.
Qed.

(** Size of a resource's field, and of the database's names. *)
Definition field_size (n : string) (b : list Z) : Z :=
  18 + Z.of_nat (String.length n) + Z.of_nat (List.length b).

Lemma list_sum_add {A} (f g : A -> Z) l :
  list_sum (fun x => f x + g x) l = list_sum f l + list_sum g l.
Proof. induction l as [|x l IH]; simpl; lia. Qed.

Lemma sum_filtered (g : string -> list Z) (keep : string -> list Z -> bool) names :
  list_sum (fun '(n, b) => field_size n b)
    (omap (fun '(n, b) => if keep n b then Some (n, b) else None)
       ((fun n => (n, g n)) <$> names))
  <= list_sum (fun n => field_size n (g n)) names.
Proof.
  unfold omap, fmap. induction names as [|n names IH]; simpl; [done|].
  destruct (keep n (g n)); simpl; [lia|]. unfold field_size in *. lia.
Qed.

Lemma names_size f n : n ∈ database_names f ->
  28 + Z.of_nat (String.length n) + list_sum (fun n => 18 + Z.of_nat (String.length n)) (database_names f) <= 255.
Proof.
  unfold database_names. destruct (String.eqb _ f); intros Hn;
    repeat (apply elem_of_cons in Hn as [->|Hn]; [vm_compute; done|]); by apply elem_of_nil in Hn.
Qed.

Lemma total_size_copies f l : total_size (copy_resources f l) =
  list_sum (fun n => Z.of_nat (List.length (found l n))) (database_names f).
Proof.
  unfold copy_resources, total_size, fmap.
  induction (database_names f) as [|n ns IH]; simpl; [done|]. by rewrite IH.
Qed.

(** The 255 spare bytes cover the headers and names of a rebuilt database. *)
Lemma rebuild_fits f l n p : n ∈ database_names f ->
  size_bound (CMap (byte_fields (rebuild (copy_resources f l) n p)))
  <= total_size (copy_resources f l) + Z.of_nat (List.length p) + CBOR_ENCODING_SIZE_ADDITION.
Proof.
  intros Hn. rewrite size_byte_fields, total_size_copies. unfold CBOR_ENCODING_SIZE_ADDITION.
  pose proof (names_size f n Hn) as Hsz.
  pose proof (sum_filtered (found l)
    (fun m b => negb (String.eqb m n) && negb (bool_decide (b = []))) (database_names f)) as Hf.
  assert (Hsplit : list_sum (fun n => field_size n (found l n)) (database_names f) =
    list_sum (fun n => 18 + Z.of_nat (String.length n)) (database_names f)
    + list_sum (fun n => Z.of_nat (List.length (found l n))) (database_names f)).
  { rewrite <- list_sum_add. unfold field_size. clear.
    induction (database_names f) as [|m ns IH]; cbn [list_sum]; [done|lia]. }
  unfold rebuild, copy_resources.
  assert (Happ : forall (h : string * list Z -> Z) xs ys,
    list_sum h (xs ++ ys) = list_sum h xs + list_sum h ys).
  { intros h xs ys. induction xs as [|x xs IH]; simpl; lia. }
  rewrite Happ. unfold field_size in *. destruct p as [|x p]; simpl in *; lia.
Qed.

Lemma write_map f init ps w (g : string -> list Z) :
  size_bound (CMap (byte_fields ps)) <= init ->
  (forall m, m ∈ database_names f -> default [] (assoc ps m) = g m) ->
  exists r w', bind (demand (payload init init (CMap (byte_fields ps))))
      (fun out => WritePayloadToPS f out) w = Some (r, w') /\
    ((r = OC_STACK_OK /\ db_ok f w' /\
      forall m, m ∈ database_names f -> entry f w' m = g m) \/ r = OC_STACK_ERROR).
Proof.
  intros Hsz Hg. destruct (payload_fits init init _ Hsz) as [b Hb].
  unfold bind, demand, WritePayloadToPS. rewrite Hb.
  destruct (payload_cons _ _ _ _ Hb) as (x & bs & Hbs). rewrite Hbs. rewrite <- Hbs.
  destruct (write_file f b w) as [[|] w'] eqn:Hw; eexists _, _; (split; [done|]); [|by right].
  left. destruct (write_entries f init init ps b w w' Hb Hw) as [? He].
  split_and!; [done..|]. intros m Hm. by rewrite He, Hg.
Qed.

(** What a rebuilt database holds. *)
Lemma assoc_rebuild f l n p m : m ∈ database_names f ->
  default [] (assoc (rebuild (copy_resources f l) n p) m)
  = if String.eqb m n then p else found l m.
Proof.
  intros Hm. unfold rebuild, copy_resources. rewrite assoc_app.
  rewrite (assoc_table _ (found l) (fun m b => negb (String.eqb m n) && negb (bool_decide (b = [])))).
  rewrite bool_decide_eq_true_2 by done.
  assert (He : found l m = [] -> bool_decide (found l m = []) = true) by (by intros ->).
  assert (Hn : found l m <> [] -> bool_decide (found l m = []) = false)
    by (intros; by apply bool_decide_eq_false_2).
  destruct p as [|x p]; simpl; rewrite ?(String.eqb_sym n m);
    destruct (String.eqb_spec m n); simpl; try done;
    (destruct (decide (found l m = [])) as [E|E]; [rewrite (He E), E|rewrite (Hn E)]; done).
Qed.

(** Updating one resource of a database file; an empty payload removes it, which
    is refused when there is no database. *)
Lemma UpdateResourceInPS_any f w n p :
  db_ok f w -> n ∈ database_names f ->
  exists r w', UpdateResourceInPS f n p w = Some (r, w') /\
    ((r = OC_STACK_OK /\ db_ok f w' /\
      forall m, m ∈ database_names f ->
        entry f w' m =
          if String.eqb m n then p else entry f w m)
     \/ r = OC_STACK_ERROR \/ (p = [] /\ r = OC_STACK_INVALID_PARAM)).
Proof.
  intros Hok Hn. unfold UpdateResourceInPS.
  unfold bind at 1. rewrite ReadDatabaseFromPS_whole. unfold db_ok in Hok.
  assert (Hnew : (forall m, entry f w m = []) -> exists r w',
    bind (match p with
        | [] => ret []
        | _ :: _ =>
            let allocSize := Z.of_nat (List.length p) + CBOR_ENCODING_SIZE_ADDITION in
            demand (payload allocSize allocSize (CMap (byte_fields [(n, p)])))
        end) (fun out => WritePayloadToPS f out) w = Some (r, w') /\
    ((r = OC_STACK_OK /\ db_ok f w' /\ forall m, m ∈ database_names f ->
        entry f w' m = if String.eqb m n then p else entry f w m)
     \/ r = OC_STACK_ERROR \/ (p = [] /\ r = OC_STACK_INVALID_PARAM))).
  { intros He. destruct p as [|x p].
    { exists OC_STACK_INVALID_PARAM, w. split; [done|]. by do 2 right. }
    destruct (write_map f (Z.of_nat (List.length (x :: p)) + CBOR_ENCODING_SIZE_ADDITION)
      [(n, x :: p)] w (fun m => if String.eqb m n then x :: p else entry f w m))
      as (r & w' & E & Hr).
    - rewrite size_byte_fields. pose proof (names_size f n Hn).
      assert (0 <= list_sum (fun n => 18 + Z.of_nat (String.length n)) (database_names f)).
      { clear. induction (database_names f); simpl; lia. }
      unfold CBOR_ENCODING_SIZE_ADDITION. simpl. lia.
    - intros m _. rewrite He. simpl. rewrite String.eqb_sym. by destruct (String.eqb m n).
    - exists r, w'. split; [done|]. destruct Hr as [?|?]; auto. }
  assert (Hempty : match read_file f w with Some (_ :: _) => False | _ => True end ->
    forall m, entry f w m = []).
  { intros H m. unfold entry. by destruct (read_file f w) as [[|? ?]|]. }
  destruct (read_file f w) as [[|b bs]|] eqn:Hr; [by apply Hnew, Hempty| |by apply Hnew, Hempty].
  destruct Hok as [l Hl]. rewrite bind_assoc. unfold bind at 1, demand at 1. rewrite Hl.
  destruct (write_map f _ _ w (fun m => if String.eqb m n then p else entry f w m)
    (rebuild_fits f l n p Hn)) as (r & w' & E & Hres).
  - intros m Hm. rewrite assoc_rebuild by done. unfold entry. by rewrite Hr, Hl.
  - exists r, w'. split; [done|]. destruct Hres as [?|?]; auto.
Qed.

Lemma UpdateResourceInPS_map f w n p :
  db_ok f w -> n ∈ database_names f -> p <> [] ->
  exists r w', UpdateResourceInPS f n p w = Some (r, w') /\
    ((r = OC_STACK_OK /\ db_ok f w' /\
      forall m, m ∈ database_names f ->
        entry f w' m =
          if String.eqb m n then p else entry f w m)
     \/ r = OC_STACK_ERROR).
Proof.
  intros Hok Hn Hp. destruct (UpdateResourceInPS_any f w n p Hok Hn) as (r & w' & E & Hr).
  exists r, w'. split; [done|]. destruct Hr as [?|[?|[? _]]]; auto. done.
Qed.

(** Updating one resource writes the whole database back: on success the
    resource's entry is the new payload and every other resource keeps its
    entry; the only other outcome is an error of the storage.  The buffer that
    is allocated is always large enough. *)
Theorem UpdateSecureResourceInPS_map w n p :
  db_ok SVR_DB_DAT_FILE_NAME w -> n ∈ database_names SVR_DB_DAT_FILE_NAME -> p <> [] ->
  exists r w', UpdateSecureResourceInPS n p w = Some (r, w') /\
    ((r = OC_STACK_OK /\ db_ok SVR_DB_DAT_FILE_NAME w' /\
      forall m, m ∈ database_names SVR_DB_DAT_FILE_NAME ->
        entry SVR_DB_DAT_FILE_NAME w' m =
          if String.eqb m n then p else entry SVR_DB_DAT_FILE_NAME w m)
     \/ r = OC_STACK_ERROR).
Proof. apply UpdateResourceInPS_map. Qed.

(** ** The reset profile *)

Lemma profile_names_database n : n ∈ profile_names -> n ∈ database_names SVR_DB_DAT_FILE_NAME.
Proof.
  unfold database_names. destruct (String.eqb_spec OC_DEVICE_PROPS_FILE_NAME SVR_DB_DAT_FILE_NAME) as [E|_].
  { by destruct (svr_db_name (eq_sym E)). }
  unfold profile_names. set_solver.
Qed.

Lemma profile_fits g r : size_bound (CMap (byte_fields (profile_map g ++ [(OIC_JSON_RESET_PF_NAME, r)])))
  <= list_sum (fun n => Z.of_nat (List.length (g n))) profile_names
     + Z.of_nat (List.length r) + CBOR_ENCODING_SIZE_ADDITION.
Proof.
  rewrite size_byte_fields. unfold profile_map, profile_names, CBOR_ENCODING_SIZE_ADDITION.
  destruct (g OIC_JSON_CRED_NAME) as [|x p] eqn:Hc; cbn [app list_sum]; rewrite ?Hc;
    cbn [String.length OIC_JSON_ACL_NAME OIC_JSON_CRED_NAME OIC_JSON_PSTAT_NAME
         OIC_JSON_DOXM_NAME OIC_JSON_SP_NAME OIC_JSON_RESET_PF_NAME List.length]; lia.
Qed.

Lemma assoc_profile g r n : n ∈ profile_names ->
  default [] (assoc (profile_map g ++ [(OIC_JSON_RESET_PF_NAME, r)]) n) = g n /\
  default [] (assoc (profile_map g) n) = g n.
Proof.
  unfold profile_map, profile_names. intros Hn.
  destruct (g OIC_JSON_CRED_NAME) eqn:Hc;
    repeat (apply elem_of_cons in Hn as [->|Hn]; [simpl; rewrite ?Hc; done|]);
    by apply elem_of_nil in Hn.
Qed.

Lemma assoc_profile_pf g r :
  assoc (profile_map g ++ [(OIC_JSON_RESET_PF_NAME, r)]) OIC_JSON_RESET_PF_NAME = Some r.
Proof. unfold profile_map. by destruct (g OIC_JSON_CRED_NAME). Qed.

(** The bytes [b] are a reset profile of the entries [g]. *)
Definition is_profile (b : list Z) (g : string -> list Z) : Prop :=
  b <> [] /\ exists l, as_map b = Some l /\ forall n, n ∈ profile_names -> found l n = g n.

(** Resetting from a stored profile restores its resources and keeps it. *)
Lemma reset_database_profile w b g :
  db_ok SVR_DB_DAT_FILE_NAME w -> entry SVR_DB_DAT_FILE_NAME w OIC_JSON_RESET_PF_NAME = b ->
  is_profile b g ->
  exists r ok w', reset_database w = Some (r, ok, w') /\
    ((r = OC_STACK_OK /\ ok = true /\ db_ok SVR_DB_DAT_FILE_NAME w' /\
      (forall n, n ∈ profile_names -> entry SVR_DB_DAT_FILE_NAME w' n = g n) /\
      entry SVR_DB_DAT_FILE_NAME w' OIC_JSON_RESET_PF_NAME = b)
     \/ (r = OC_STACK_ERROR /\ ok = false)).
Proof.
  set (f := SVR_DB_DAT_FILE_NAME). intros Hok He (Hb & pl & Hpl & Hg).
  unfold reset_database, GetSecureVirtualDatabaseFromPS. fold f.
  unfold bind at 1. rewrite ReadDatabaseFromPS_whole. unfold db_ok, entry in Hok, He.
  destruct (read_file f w) as [[|x bs]|]; [by subst| |by subst].
  destruct Hok as [l Hl]. rewrite Hl in He. unfold bind at 1, demand at 1. rewrite Hl.
  unfold found in He. destruct (find_bytes l OIC_JSON_RESET_PF_NAME) as [rp|] eqn:Hrp;
    [|by subst]. simpl in He. subst rp. unfold bind at 1, bind at 1, demand at 1. rewrite Hpl.
  unfold ret at 1.
  assert (Hfound : found l OIC_JSON_RESET_PF_NAME = b) by (unfold found; by rewrite Hrp).
  rewrite Hfound. cbv zeta. set (init := _ + CBOR_ENCODING_SIZE_ADDITION).
  destruct (payload_fits init init (CMap (byte_fields
    (profile_map (found pl) ++ [(OIC_JSON_RESET_PF_NAME, b)])))) as [out Hout].
  { apply profile_fits. }
  unfold bind at 1, demand. rewrite Hout.
  destruct (payload_cons _ _ _ _ Hout) as (y & ys & Hys).
  unfold bind, WritePayloadToPS. rewrite Hys. rewrite <- Hys.
  destruct (write_file f out w) as [[|] w'] eqn:Hw; eexists _, _, _; (split; [done|]); [|by right].
  left. destruct (write_entries f init init _ out w w' Hout Hw) as [? Hen].
  split_and!; [done..| |].
  - intros n Hn. rewrite Hen. destruct (assoc_profile (found pl) b n Hn) as [-> _]. by apply Hg.
  - by rewrite Hen, assoc_profile_pf.
Qed.

(** Factory reset: with no profile stored yet, creating one records the five
    resources as they are; whatever happens to the database afterwards, as long
    as the profile stays in it, resetting gives these five resources back and
    keeps the profile. *)
Theorem reset_profile_restores w1 :
  db_ok SVR_DB_DAT_FILE_NAME w1 -> default [] (read_file SVR_DB_DAT_FILE_NAME w1) <> [] ->
  (forall l, as_map (default [] (read_file SVR_DB_DAT_FILE_NAME w1)) = Some l ->
     find_bytes l OIC_JSON_RESET_PF_NAME = None) ->
  exists b r w1', CreateResetProfile w1 = Some (OC_STACK_OK, w1') /\
    UpdateSecureResourceInPS OIC_JSON_RESET_PF_NAME b w1 = Some (r, w1') /\
    (r = OC_STACK_OK -> entry SVR_DB_DAT_FILE_NAME w1' OIC_JSON_RESET_PF_NAME = b) /\
    forall w2, db_ok SVR_DB_DAT_FILE_NAME w2 ->
      entry SVR_DB_DAT_FILE_NAME w2 OIC_JSON_RESET_PF_NAME = b ->
      exists r2 ok w2', reset_database w2 = Some (r2, ok, w2') /\
        ((r2 = OC_STACK_OK /\ ok = true /\
          (forall n, n ∈ profile_names ->
             entry SVR_DB_DAT_FILE_NAME w2' n = entry SVR_DB_DAT_FILE_NAME w1 n) /\
          entry SVR_DB_DAT_FILE_NAME w2' OIC_JSON_RESET_PF_NAME = b)
         \/ (r2 = OC_STACK_ERROR /\ ok = false)).
Proof.
  set (f := SVR_DB_DAT_FILE_NAME). intros Hok Hne Hnone.
  destruct (read_file f w1) as [[|x bs]|] eqn:Hr; [done| |done]. simpl in Hne, Hnone.
  pose proof Hok as Hok'. unfold db_ok in Hok'. rewrite Hr in Hok'. destruct Hok' as [l Hl].
  specialize (Hnone l Hl).
  set (init := list_sum (fun n => Z.of_nat (List.length (found l n))) profile_names
               + CBOR_ENCODING_SIZE_ADDITION).
  destruct (payload_fits init init (CMap (byte_fields (profile_map (found l))))) as [b Hb].
  { pose proof (profile_fits (found l) []) as Hf.
    rewrite size_byte_fields in Hf |- *. subst init.
    assert (Happ : forall (h : string * list Z -> Z) xs ys,
      list_sum h (xs ++ ys) = list_sum h xs + list_sum h ys).
    { intros h xs ys. induction xs as [|y xs IH]; simpl; lia. }
    rewrite Happ in Hf. simpl list_sum at 2 in Hf. simpl in *. lia. }
  assert (Hbne : b <> []) by (by eapply payload_nonempty).
  destruct (UpdateResourceInPS_map f w1 OIC_JSON_RESET_PF_NAME b) as (r & w1' & Hu & Hcase);
    [done| |done|].
  { unfold database_names. destruct (String.eqb _ _) eqn:E; [|set_solver].
    apply String.eqb_eq in E. by destruct (svr_db_name (eq_sym E)). }
  exists b, r, w1'. split_and!; [|done| |].
  - unfold CreateResetProfile, GetSecureVirtualDatabaseFromPS, UpdateSecureResourceInPS. fold f.
    unfold bind at 1. rewrite ReadDatabaseFromPS_whole, Hr.
    unfold bind at 1, demand at 1. rewrite Hl, Hnone. cbv zeta. fold init.
    unfold bind at 1, demand at 1. rewrite Hb. unfold bind. by rewrite Hu.
  - intros ->. destruct Hcase as [(_ & _ & He)|]; [|done].
    rewrite He; [by rewrite String.eqb_refl|].
    unfold database_names. destruct (String.eqb _ _) eqn:E; [|set_solver].
    apply String.eqb_eq in E. by destruct (svr_db_name (eq_sym E)).
  - intros w2 Hok2 He2.
    destruct (reset_database_profile w2 b (entry f w1)) as (r2 & ok & w2' & Hrd & Hres);
      [done|done| |].
    { split; [done|]. exists (byte_fields (profile_map (found l))). split.
      - unfold as_map. by rewrite (parse_payload _ _ _ _ Hb).
      - intros n Hn. rewrite found_byte_fields.
        destruct (assoc_profile (found l) [] n Hn) as [_ ->].
        unfold entry. by rewrite Hr, Hl. }
    exists r2, ok, w2'. split; [done|]. destruct Hres as [(-> & -> & _ & ? & ?)|]; [left|by right].
    done.
Qed.

End correctness.

End PsInterface.
