(* ===== verification/CborTokens.v ===== *)
(** * A concrete CBOR library and a concrete file store

    The laws of [CborLib] and [Storage] can hold: data items written as runs of
    integers (a tag, a count, the contents) with their parser, and a map from
    file names to contents.  The witnesses of the theorems about stored
    resources are evaluated with these instances. *)

From Stdlib Require Import Floats.SpecFloat.
From S2P Require Import Prelude.
From S2P Require Import Status.
From S2P Require Import CString.
From S2P Require Import Cbor.
From S2P Require Import PsInterface.
Import Cbor PsInterface.

Module CborTokens.

Definition chars_of (s : string) : list Z := CString.code <$> String.list_ascii_of_string s.
Definition string_of (l : list Z) : string :=
  String.string_of_list_ascii ((fun z => ascii_of_N (Z.to_N z)) <$> l).

Lemma string_chars s : string_of (chars_of s) = s.
Proof.
  unfold string_of, chars_of. rewrite <- list_fmap_compose.
  rewrite <- (String.string_of_list_ascii_of_string s) at 2. f_equal.
  rewrite <- (list_fmap_id (String.list_ascii_of_string s)) at 2.
  apply list_fmap_ext. intros _ c _. unfold CString.code. simpl.
  by rewrite N2Z.id, ascii_N_embedding.
Qed.

Lemma length_chars s : List.length (chars_of s) = String.length s.
Proof. unfold chars_of. rewrite length_fmap. by induction s; simpl; f_equal. Qed.

(** A floating-point number as four integers. *)
Definition float_tokens (f : spec_float) : list Z :=
  let b (s : bool) := if s then 1 else 0 in
  match f with
  | S754_zero s => [0; b s; 0; 0]
  | S754_infinity s => [1; b s; 0; 0]
  | S754_nan => [2; 0; 0; 0]
  | S754_finite s m e => [3; b s; Z.pos m; e]
  end.
Definition read_float (k s m e : Z) : spec_float :=
  if k =? 0 then S754_zero (s =? 1) else if k =? 1 then S754_infinity (s =? 1)
  else if k =? 2 then S754_nan else S754_finite (s =? 1) (Z.to_pos m) e.

(** Writing. *)
Definition counted (l : list Z) : list Z := Z.of_nat (List.length l) :: l.

Fixpoint tokens (t : cbor) : list Z :=
  match t with
  | CInt z => [0; z]
  | CBool b => [1; if b then 1 else 0]
  | CText s => 2 :: counted (chars_of s)
  | CBytes b => 3 :: counted b
  | CArray l => 4 :: Z.of_nat (List.length l) :: flat_map tokens l
  | CMap l => 5 :: Z.of_nat (List.length l)
                :: flat_map (fun '(k, v) => tokens k ++ tokens v) l
  | COther => [6]
  | CNull => [7]
  | CDouble d => 8 :: float_tokens d
  | CFloat f => 9 :: float_tokens f
  end.

(** Reading: [n] items in a row, given a reader of one item. *)
Fixpoint read_many {A} (rd : list Z -> option (A * list Z)) (n : nat) (b : list Z) :
    option (list A * list Z) :=
  match n with
  | O => Some ([], b)
  | S n' =>
      '(x, b) ← rd b;
      '(xs, b) ← read_many rd n' b;
      Some (x :: xs, b)
  end.

Definition read_pair (rd : list Z -> option (cbor * list Z)) (b : list Z) :
    option ((cbor * cbor) * list Z) :=
  '(k, b) ← rd b; '(v, b) ← rd b; Some ((k, v), b).

Fixpoint read_item (fuel : nat) (b : list Z) : option (cbor * list Z) :=
  match fuel with
  | O => None
  | S fuel' =>
      match b with
      | 0 :: z :: r => Some (CInt z, r)
      | 1 :: z :: r => Some (CBool (z =? 1), r)
      | 2 :: n :: r => Some (CText (string_of (take (Z.to_nat n) r)), drop (Z.to_nat n) r)
      | 3 :: n :: r => Some (CBytes (take (Z.to_nat n) r), drop (Z.to_nat n) r)
      | 4 :: n :: r => '(l, r) ← read_many (read_item fuel') (Z.to_nat n) r; Some (CArray l, r)
      | 5 :: n :: r =>
          '(l, r) ← read_many (read_pair (read_item fuel')) (Z.to_nat n) r; Some (CMap l, r)
      | 6 :: r => Some (COther, r)
      | 7 :: r => Some (CNull, r)
      | 8 :: k :: s :: m :: e :: r => Some (CDouble (read_float k s m e), r)
      | 9 :: k :: s :: m :: e :: r => Some (CFloat (read_float k s m e), r)
      | _ => None
      end
  end.

Lemma read_pair_spec rd b k b1 v b2 : rd b = Some (k, b1) -> rd b1 = Some (v, b2) ->
  read_pair rd b = Some ((k, v), b2).
Proof. unfold read_pair. intros -> . simpl. intros ->. done. Qed.

Lemma read_tokens t : forall fuel r, (depth t <= fuel)%nat ->
  read_item fuel (tokens t ++ r) = Some (t, r).
Proof.
  induction t as [z|b|s|b|l IH|l IH| | |d|f] using cbor_induction; intros [|fuel] r Hf;
    try (simpl in Hf; lia); try done.
  - by destruct b.
  - simpl. rewrite Nat2Z.id, take_app_length, drop_app_length. by rewrite string_chars.
  - simpl. by rewrite Nat2Z.id, take_app_length, drop_app_length.
  - simpl tokens. cbn [app read_item]. rewrite Nat2Z.id. simpl in Hf.
    assert (H : read_many (read_item fuel) (List.length l) (flat_map tokens l ++ r) = Some (l, r)).
    { assert (Hd : (foldr (fun x d => max (depth x) d) O l <= fuel)%nat) by lia. clear Hf.
      induction IH as [|x l Hx _ IHl]; [done|]. simpl in *. rewrite <- app_assoc.
      rewrite Hx by lia. simpl. rewrite IHl by lia. done. }
    by rewrite H.
  - simpl tokens. cbn [app read_item]. rewrite Nat2Z.id. simpl in Hf.
    assert (H : read_many (read_pair (read_item fuel)) (List.length l)
        (flat_map (fun '(k, v) => tokens k ++ tokens v) l ++ r) = Some (l, r)).
    { assert (Hd : (foldr (fun '(k, v) d => max (max (depth k) (depth v)) d) O l <= fuel)%nat)
        by lia. clear Hf.
      induction IH as [|[k v] l [Hk Hv] _ IHl]; [done|]. simpl in *. rewrite <- !app_assoc.
      erewrite read_pair_spec by (first [apply Hk; lia | apply Hv; lia]). simpl.
      rewrite IHl by lia. done. }
    by rewrite H.
  - by destruct d as [[]|[]| |[]].
  - by destruct f as [[]|[]| |[]].
Qed.

Lemma depth_tokens t : (depth t <= List.length (tokens t))%nat.
Proof.
  induction t as [z|b|s|b|l IH|l IH| | |d|f] using cbor_induction; simpl; try lia.
  - apply le_n_S. apply Nat.le_trans with (List.length (flat_map tokens l)); [|lia].
    clear -IH. induction IH as [|x l Hx _ IHl]; simpl; [lia|]. rewrite length_app. lia.
  - apply le_n_S. apply Nat.le_trans with
      (List.length (flat_map (fun '(k, v) => tokens k ++ tokens v) l)); [|lia].
    clear -IH. induction IH as [|[k v] l [Hk Hv] _ IHl]; simpl; [lia|].
    rewrite !length_app. lia.
Qed.

#[export] Instance token_lib : CborLib := {
  payload init max t := if size_bound t <=? Z.max init max then Some (tokens t) else None;
  parse b := fst <$> read_item (List.length b) b }.

#[export] Instance token_laws : CborLaws.
Proof.
  split; simpl; intros init max t.
  - intros b H. case_match; [|done]. injection H as <-.
    rewrite <- (app_nil_r (tokens t)) at 2. by rewrite read_tokens by apply depth_tokens.
  - intros b H. case_match; [|done]. injection H as <-. by destruct t.
  - intros H. rewrite (proj2 (Z.leb_le _ _)) by lia. by eexists.
Qed.

(** ** Files *)

Definition files : Type := gmap string (list Z).

#[export] Instance file_store : Storage files := {
  read_file f w := w !! f;
  write_file f b w := (true, <[f := b]> w);
  SVR_DB_DAT_FILE_NAME := "oic_svr_db.dat" }.

#[export] Instance file_laws : StorageLaws files.
Proof.
  split; simpl; [| |done].
  - intros f b w w' [= <-]. apply lookup_insert_eq.
  - intros f g b w r w' [= _ <-] Hne. by apply lookup_insert_ne.
Qed.

(** ** Witnesses for the persistent-storage theorems *)

Definition demo_db : files :=
  {[ "oic_svr_db.dat"%string :=
     tokens (CMap (byte_fields [("doxm"%string, [7]); ("cred"%string, [8; 9])])) ]}.

Lemma demo_db_ok : db_ok (W:=files) SVR_DB_DAT_FILE_NAME demo_db.
Proof. vm_compute. by eexists. Qed.

Lemma UpdateSecureResourceInPS_map_witness :
  exists r (w' : files), UpdateSecureResourceInPS "acl" [1; 2] demo_db = Some (r, w') /\
    ((r = OC_STACK_OK /\ db_ok SVR_DB_DAT_FILE_NAME w' /\
      forall m, m ∈ database_names (SVR_DB_DAT_FILE_NAME (W:=files)) ->
        entry SVR_DB_DAT_FILE_NAME w' m =
          if String.eqb m "acl" then [1; 2] else entry SVR_DB_DAT_FILE_NAME demo_db m)
     \/ r = OC_STACK_ERROR).
Proof.
  apply (UpdateSecureResourceInPS_map (W:=files) demo_db "acl" [1; 2]);
    [apply demo_db_ok|apply (bool_decide_unpack _); vm_compute; exact I|done].
Defined.

Lemma reset_profile_restores_witness :
  exists b r (w1' : files), CreateResetProfile demo_db = Some (OC_STACK_OK, w1') /\
    UpdateSecureResourceInPS OIC_JSON_RESET_PF_NAME b demo_db = Some (r, w1') /\
    (r = OC_STACK_OK -> entry SVR_DB_DAT_FILE_NAME w1' OIC_JSON_RESET_PF_NAME = b) /\
    forall w2 : files, db_ok SVR_DB_DAT_FILE_NAME w2 ->
      entry SVR_DB_DAT_FILE_NAME w2 OIC_JSON_RESET_PF_NAME = b ->
      exists r2 ok w2', reset_database w2 = Some (r2, ok, w2') /\
        ((r2 = OC_STACK_OK /\ ok = true /\
          (forall n, n ∈ profile_names ->
             entry SVR_DB_DAT_FILE_NAME w2' n = entry SVR_DB_DAT_FILE_NAME demo_db n) /\
          entry SVR_DB_DAT_FILE_NAME w2' OIC_JSON_RESET_PF_NAME = b)
         \/ (r2 = OC_STACK_ERROR /\ ok = false)).
Proof.
  apply (reset_profile_restores (W:=files) demo_db); [apply demo_db_ok|done|].
  vm_compute. by intros l [= <-].
Defined.

End CborTokens.
