(* ===== verification/PayloadCodec.v ===== *)
(** * Payloads as bytes

    [OCConvertPayload] of [ocf/ocpayloadconvert.c] and [OCParsePayload] of
    [ocf/ocpayloadparse.c], for representation, security, diagnostic and
    introspection payloads.  The first makes a buffer, encodes, and makes a larger one
    as long as the payload does not fit. *)

From S2P Require Import Prelude.
From S2P Require Import Status.
From S2P Require Import CString.
From S2P Require Import Cbor.
From S2P Require Import RepPayload.
From S2P Require Import RepConvert.
From S2P Require Import RepParse.
From S2P Require Import RepLaws.
From S2P Require Import RepRoundTrip.
From S2P Require Import CborTokens.

Module PayloadCodec.
Import CString Cbor RepPayload RepConvert RepParse RepLaws RepRoundTrip.

(** The encoder of the CBOR library: the bytes of an item, and the bytes that open an
    array of some number of items. *)
Class CborEncoder : Type := {
  encode : cbor -> list Z;
  array_head : Z -> list Z }.

(** The documented behaviour: an item is parsed back, and an array is its head and
    its items in order (RFC 8949, 3.2.2). *)
Class CborEncoderLaws {L : CborLib} {E : CborEncoder} : Prop := {
  parse_encode : forall t, parse (encode t) = Some t;
  encode_array : forall l, encode (CArray l) = array_head (Z.of_nat (List.length l)) ++ concat (map encode l) }.

Inductive OCPayload : Type :=
| Representation (payload : list OCRepPayload)
| Diagnostic (message : option string)
| Security (securityData : list Z)
| Introspection (cborPayload : list Z).
Inductive OCPayloadType : Type :=
| PAYLOAD_TYPE_REPRESENTATION | PAYLOAD_TYPE_DIAGNOSTIC | PAYLOAD_TYPE_SECURITY | PAYLOAD_TYPE_INTROSPECTION.
Definition payload_type (p : OCPayload) : OCPayloadType :=
  match p with
  | Representation _ => PAYLOAD_TYPE_REPRESENTATION
  | Diagnostic _ => PAYLOAD_TYPE_DIAGNOSTIC
  | Security _ => PAYLOAD_TYPE_SECURITY
  | Introspection _ => PAYLOAD_TYPE_INTROSPECTION
  end.

Definition INIT_SIZE : Z := 255.
Definition size_of (b : list Z) : Z := Z.of_nat (List.length b).

(** ** Encoding into a buffer *)

Section convert.
Context {E : CborEncoder}.

(** Pieces are written one after the other; none is begun once the buffer is too
    small.  What does not fit is counted: the result is whether the buffer was too
    small, and the bytes that were, or would have been, written. *)
Fixpoint write_pieces (size : Z) (written : list Z) (pieces : list (list Z)) : bool * list Z :=
  let full := negb (size_of written <=? size) in
  match pieces with
  | [] => (full, written)
  | p :: pieces' => if full then (true, written) else write_pieces size (written ++ p) pieces'
  end.

Definition rep_pieces (payload : list OCRepPayload) : option (list (list Z)) :=
  ms ← rep_maps payload;
  Some ((if in_array payload then [array_head (Z.of_nat (List.length payload))] else []) ++ map encode ms).

(** The buffer that is needed is as large as what was written. *)
Definition checkError (r : bool * list Z) : bool * list Z * Z := (r, size_of (snd r)).

Definition OCConvertRepPayload (payload : list OCRepPayload) (size : Z) : option (bool * list Z * Z) :=
  pieces ← rep_pieces payload; Some (checkError (write_pieces size [] pieces)).
Definition OCConvertDiagnosticPayload (message : option string) (size : Z) : option (bool * list Z * Z) :=
  m ← message; Some (checkError (write_pieces size [] [encode (CText m)])).
(** The data is copied without a look at the size. *)
Definition OCConvertSecurityPayload (securityData : list Z) (size : Z) : option (bool * list Z * Z) :=
  if size_of securityData <=? size then Some (false, securityData, size_of securityData) else None.
Definition OCConvertIntrospectionPayload (cborPayload : list Z) (size : Z) : option (bool * list Z * Z) :=
  if size_of cborPayload <=? size then Some (false, cborPayload, size_of cborPayload) else None.

Definition OCConvertPayloadHelper (payload : OCPayload) (size : Z) : option (bool * list Z * Z) :=
  match payload with
  | Representation p => OCConvertRepPayload p size
  | Diagnostic m => OCConvertDiagnosticPayload m size
  | Security b => OCConvertSecurityPayload b size
  | Introspection b => OCConvertIntrospectionPayload b size
  end.

Fixpoint convert_loop (fuel : nat) (payload : OCPayload) (curSize : Z) : option (list Z) :=
  match fuel with
  | O => None
  | S fuel' =>
      '(oom, out, size) ← OCConvertPayloadHelper payload curSize;
      if oom : bool then convert_loop fuel' payload size else Some out
  end.

Definition first_size (payload : OCPayload) : Z :=
  match payload with
  | Security ((_ :: _) as b) | Introspection ((_ :: _) as b) => size_of b
  | _ => INIT_SIZE
  end.
Definition OCConvertPayload (fuel : nat) (payload : OCPayload) : option (OCStackResult * list Z) :=
  out ← convert_loop fuel payload (first_size payload); Some (OC_STACK_OK, out).

(** One round for each payload of the chain, one for what opens the array, and the
    last. *)
Definition enough_fuel (payload : OCPayload) : nat :=
  match payload with Representation p => List.length p + 2 | _ => 2 end.
End convert.

(** ** Parsing *)

Section parse.
Context {L : CborLib}.

Definition OCParseSecurityPayload (payload : list Z) : OCStackResult * option OCPayload :=
  (OC_STACK_OK, match payload with [] => None | _ => Some (Security payload) end).
Definition OCParseDiagnosticPayload (root : cbor) : OCStackResult * option OCPayload :=
  (OC_STACK_OK, Some (Diagnostic match root with CText s => Some (cstr s) | _ => None end)).

Definition OCParsePayload (payloadType : OCPayloadType) (payload : list Z) :
    option (OCStackResult * option OCPayload) :=
  t ← parse payload;
  match payloadType with
  | PAYLOAD_TYPE_SECURITY => Some (OCParseSecurityPayload payload)
  | PAYLOAD_TYPE_DIAGNOSTIC => Some (OCParseDiagnosticPayload t)
  | PAYLOAD_TYPE_REPRESENTATION =>
      '(r, l) ← OCParseRepPayload t;
      Some (r, match l with [] => None | _ => Some (Representation l) end)
  | PAYLOAD_TYPE_INTROSPECTION => Some (OC_STACK_INVALID_PARAM, None)
  end.
End parse.

(** ** The loop ends *)

Lemma write_done size pieces : forall w out, write_pieces size w pieces = (false, out) -> out = w ++ concat pieces.
Proof.
  induction pieces as [|p pieces IH]; intros w out; cbn [write_pieces concat].
  - destruct (size_of w <=? size); cbn; intros [= <-]. by rewrite app_nil_r.
  - destruct (size_of w <=? size); cbn [negb]; [|done]. intros H. by rewrite (IH _ _ H), <- app_assoc.
Qed.

Lemma write_full size pieces : forall w out, write_pieces size w pieces = (true, out) ->
  size < size_of out /\ exists j, (j <= List.length pieces)%nat /\ out = w ++ concat (take j pieces).
Proof.
  induction pieces as [|p pieces IH]; intros w out; cbn [write_pieces].
  - destruct (Z.leb_spec (size_of w) size); cbn; intros [= <-]. split; [done|]. exists 0%nat. by rewrite app_nil_r.
  - destruct (Z.leb_spec (size_of w) size); cbn [negb].
    + intros Hw. destruct (IH _ _ Hw) as [Hs (j & Hj & ->)]. split; [done|]. exists (S j). cbn. rewrite <- app_assoc. split; [lia|done].
    + intros [= <-]. split; [done|]. exists 0%nat. rewrite app_nil_r. split; [lia|done].
Qed.

Lemma concat_take_le (pieces : list (list Z)) j k : (j <= k)%nat ->
  size_of (concat (take j pieces)) <= size_of (concat (take k pieces)).
Proof.
  intros Hj. replace k with (j + (k - j))%nat by lia. rewrite <- take_take_drop, concat_app. unfold size_of. rewrite length_app. lia.
Qed.

Section loop.
Context {E : CborEncoder} (payload : OCPayload) (pieces : list (list Z)).
Context (Hp : forall size, OCConvertPayloadHelper payload size = Some (checkError (write_pieces size [] pieces))).

(** Each round fits at least one more piece. *)
Lemma convert_loop_ends fuel : forall k size, (k <= List.length pieces)%nat ->
  size_of (concat (take k pieces)) <= size -> (List.length pieces - k < fuel)%nat ->
  convert_loop fuel payload size = Some (concat pieces).
Proof using Hp.
  induction fuel as [|fuel IH]; intros k size Hk Hs Hf; [lia|]. cbn [convert_loop]. rewrite Hp.
  destruct (write_pieces size [] pieces) as [[] out] eqn:Ew; cbn.
  - destruct (write_full _ _ _ _ Ew) as [Ho (j & Hj & ->)]. cbn [app] in *.
    destruct (Nat.le_gt_cases j k) as [Hjk|Hjk]; [pose proof (concat_take_le pieces j k Hjk); lia|].
    apply (IH j); [done|done|lia].
  - by rewrite (write_done _ _ _ _ Ew).
Qed.
End loop.

(** ** Round trip *)

Section roundtrip.
Context {L : CborLib} {E : CborEncoder} {W : CborEncoderLaws}.

(** Representations that are canonical, messages, and data the parser can start on. *)
Definition canonical_payload (p : OCPayload) : Prop :=
  match p with
  | Representation l => l <> [] /\ Forall canonical_root l
  | Diagnostic m => match m with Some s => text_ok s | None => False end
  | Security b => b <> [] /\ is_Some (parse b)
  | Introspection _ => False
  end.

Lemma rep_pieces_item ps t : ps <> [] -> rep_item ps = Some t ->
  exists pieces, rep_pieces ps = Some pieces /\ concat pieces = encode t /\ (List.length pieces <= List.length ps + 1)%nat.
Proof using W.
  unfold rep_item, rep_pieces. intros Hne. destruct (rep_maps ps) as [ms|] eqn:Em; [|done]. cbn.
  pose proof Em as Hl. apply mapM_Some_1, Forall2_length in Hl.
  destruct (in_array ps) eqn:Ei.
  - intros [= <-]. eexists. split; [done|]. cbn [concat app]. rewrite encode_array, Hl. split; [done|].
    cbn [List.length]. rewrite length_map. lia.
  - intros Hh. eexists. split; [done|]. cbn [app]. rewrite length_map, <- Hl. split; [|lia].
    apply orb_false_iff in Ei as [Ei _]. apply Z.ltb_ge in Ei.
    destruct ms as [|m [|? ?]]; cbn in *; [done| |lia]. injection Hh as ->. by rewrite app_nil_r.
Qed.

Lemma representation_read ps fuel : ps <> [] -> Forall canonical_root ps -> (List.length ps + 2 <= fuel)%nat ->
  exists b, OCConvertPayload fuel (Representation ps) = Some (OC_STACK_OK, b) /\
    OCParsePayload PAYLOAD_TYPE_REPRESENTATION b = Some (OC_STACK_OK, Some (Representation ps)).
Proof using W.
  intros Hne Hps Hf. unfold OCConvertPayload. destruct (rep_item_read ps Hne Hps) as (t & Et & Hr).
  destruct (rep_pieces_item ps t Hne Et) as (pieces & Ep & Ec & Hl).
  rewrite (convert_loop_ends (Representation ps) pieces) with (k := 0%nat);
    [|intros; cbn; unfold OCConvertRepPayload; by rewrite Ep|lia|by cbn|lia].
  exists (concat pieces). split; [done|]. unfold OCParsePayload. rewrite Ec, parse_encode. cbn [mbind option_bind payload_type].
  rewrite Hr. cbn. by destruct ps.
Qed.

(** C23: A payload is converted in a bounded number of rounds, however large it is, and
    the bytes are parsed as the payload. *)
Theorem payload_roundtrip p fuel : canonical_payload p -> (enough_fuel p <= fuel)%nat ->
  exists b, OCConvertPayload fuel p = Some (OC_STACK_OK, b) /\
    OCParsePayload (payload_type p) b = Some (OC_STACK_OK, Some p).
Proof using W.
  intros Hp Hf. destruct p as [ps|[m|]|b|b]; cbn in Hp, Hf; try done; [by apply representation_read; try apply Hp| |]; unfold OCConvertPayload.
  - rewrite (convert_loop_ends (Diagnostic (Some m)) [encode (CText m)]) with (k := 0%nat); [|done|cbn; lia|by cbn|cbn; lia].
    exists (encode (CText m)). cbn [concat]. rewrite app_nil_r. split; [done|]. unfold OCParsePayload, OCParseDiagnosticPayload.
    rewrite parse_encode. cbn [mbind option_bind payload_type]. unfold text_ok in Hp. by rewrite Hp.
  - destruct Hp as [Hb [t Ht]]. exists b. destruct fuel as [|fuel]; [lia|]. cbn [convert_loop OCConvertPayloadHelper].
    assert (Es : first_size (Security b) = size_of b) by (clear - Hb; destruct b; [by destruct Hb|reflexivity]).
    rewrite Es. unfold OCConvertSecurityPayload. rewrite Z.leb_refl. split; [done|]. unfold OCParsePayload. rewrite Ht. cbn. by destruct b.
Qed.
End roundtrip.

(** ** With the concrete library *)

Import CborTokens.

#[export] Instance token_encoder : CborEncoder := {
  encode := tokens;
  array_head n := [4; n] }.
#[export] Instance token_encoder_laws : CborEncoderLaws.
Proof.
  split.
  - intros t. cbn. rewrite <- (app_nil_r (tokens t)) at 2. by rewrite read_tokens by apply depth_tokens.
  - intros l. cbn. by rewrite flat_map_concat_map.
Qed.

Definition demo_roots : list OCRepPayload :=
  [mk_rep PAYLOAD_NON_BATCH_INTERFACE (Some "/a/light"%string) ["core.light"%string] ["oic.if.baseline"%string]
     [("power"%string, OCREP_PROP_INT 75); ("o"%string, OCREP_PROP_OBJECT (Some demo))];
   mk_rep PAYLOAD_NON_BATCH_INTERFACE None [] [] [("name"%string, OCREP_PROP_STRING (Some "x"%string))]].

Lemma payload_roundtrip_witness : exists b,
  OCConvertPayload 4 (Representation demo_roots) = Some (OC_STACK_OK, b) /\
  OCParsePayload PAYLOAD_TYPE_REPRESENTATION b = Some (OC_STACK_OK, Some (Representation demo_roots)).
Proof.
  apply (payload_roundtrip (Representation demo_roots) 4); [|cbn; lia]. split; [done|].
  repeat constructor; cbn; try done; try (intros H; by repeat (apply elem_of_cons in H as [?|H] || apply not_elem_of_nil in H)).
Defined.

End PayloadCodec.
