(* ===== verification/Calendar.v ===== *)
(** * Access periods and recurrences ([sec/calendar/iotvticalendar.c])

    The parser of the PERIOD and RRULE strings of an access control entry and
    the test that the current time lies in the allowed window.  The current
    local time is an argument.  [strptime] is the C library's, for the two
    formats the file uses. *)

From S2P Require Import Prelude.
From S2P Require Import CString.
Import CString.

Module Calendar.

Definition FREQ_DAILY : Z := 1.
Definition TM_YEAR_OFFSET : Z := 1900.

(** [struct tm]. *)
Record tm : Type := mk_tm {
  tm_sec : Z; tm_min : Z; tm_hour : Z; tm_mday : Z; tm_mon : Z; tm_year : Z;
  tm_wday : Z; tm_yday : Z; tm_isdst : Z }.

#[export] Instance tm_eq_dec : EqDecision tm.
Proof. solve_decision. Defined.

Definition emptyDT : tm := mk_tm 0 0 0 0 0 0 0 0 0.

(** [IotvtICalWeekdayBM_t]. *)
Definition NO_WEEKDAY : Z := 0.
Definition SUNDAY : Z := Z.shiftl 1 0.
Definition MONDAY : Z := Z.shiftl 1 1.
Definition TUESDAY : Z := Z.shiftl 1 2.
Definition WEDNESDAY : Z := Z.shiftl 1 3.
Definition THURSDAY : Z := Z.shiftl 1 4.
Definition FRIDAY : Z := Z.shiftl 1 5.
Definition SATURDAY : Z := Z.shiftl 1 6.

Inductive IotvtICalResult_t : Type :=
| IOTVTICAL_SUCCESS | IOTVTICAL_VALID_ACCESS | IOTVTICAL_INVALID_ACCESS
| IOTVTICAL_INVALID_PARAMETER | IOTVTICAL_INVALID_RRULE | IOTVTICAL_INVALID_PERIOD
| IOTVTICAL_ERROR.

#[export] Instance IotvtICalResult_eq_dec : EqDecision IotvtICalResult_t.
Proof. solve_decision. Defined.

Record IotvtICalPeriod_t : Type := mk_period { startDateTime : tm; endDateTime : tm }.
Record IotvtICalRecur_t : Type := mk_recur { freq : Z; until : tm; byDay : Z }.

(** ** [strptime] *)

Definition is_digit (c : ascii) : bool := (48 <=? code c) && (code c <=? 57).

(** The digit loop: at most [n] further digits while the value can stay in range. *)
Fixpoint more_digits (n : nat) (to val : Z) (s : string) : Z * string :=
  match n, s with
  | S n', String c s' =>
      if (val * 10 <=? to) && is_digit c
      then more_digits n' to (val * 10 + (code c - 48)) s'
      else (val, s)
  | _, _ => (val, s)
  end.

Fixpoint skip_blanks (s : string) : string :=
  match s with
  | String c s' => if code c =? 32 then skip_blanks s' else s
  | EmptyString => s
  end.

(** A number of at most [n] digits between [from] and [to], after blanks. *)
Definition get_number (from to : Z) (n : nat) (s : string) : option (Z * string) :=
  match skip_blanks s with
  | String c s' =>
      if is_digit c then
        let '(v, r) := more_digits (n - 1) to (code c - 48) s' in
        if (v <? from) || (to <? v) then None else Some (v, r)
      else None
  | EmptyString => None
  end.

Definition is_leap (y : Z) : bool :=
  (y mod 4 =? 0) && (negb (y mod 100 =? 0) || (y mod 400 =? 0)).

(** Days before each month of a common year. *)
Definition mon_days : list Z := [0; 31; 59; 90; 120; 151; 181; 212; 243; 273; 304; 334].

Definition day_of_the_year (year mon mday : Z) : Z :=
  nth (Z.to_nat mon) mon_days 0 + (if (2 <=? mon) && is_leap (1900 + year) then 1 else 0)
  + (mday - 1).

Definition day_of_the_week (year yday : Z) : Z :=
  let y := 1900 + year - 1 in (365 * y + y / 4 - y / 100 + y / 400 + yday + 1) mod 7.

(** [%Y%m%d]: year, month, day; the day of the week and of the year follow. *)
Definition strptime_date (s : string) (t : tm) : option (tm * string) :=
  '(y, s) ← get_number 0 9999 4 s;
  '(m, s) ← get_number 1 12 2 s;
  '(d, s) ← get_number 1 31 2 s;
  let year := y - 1900 in
  let yday := day_of_the_year year (m - 1) d in
  Some (mk_tm (tm_sec t) (tm_min t) (tm_hour t) d (m - 1) year
          (day_of_the_week year yday) yday (tm_isdst t), s).

(** [%Y%m%dT%H%M%S]. *)
Definition strptime_datetime (s : string) (t : tm) : option (tm * string) :=
  '(t, s) ← strptime_date s t;
  match s with
  | String c s =>
      if Ascii.eqb c "T" then
        '(h, s) ← get_number 0 23 2 s;
        '(mi, s) ← get_number 0 59 2 s;
        '(sec, s) ← get_number 0 61 2 s;
        Some (mk_tm sec mi h (tm_mday t) (tm_mon t) (tm_year t) (tm_wday t) (tm_yday t)
                (tm_isdst t), s)
      else None
  | EmptyString => None
  end.

Definition strptime (dt : bool) (s : string) (t : tm) : option tm :=
  fst <$> (if dt then strptime_datetime s t else strptime_date s t).

(** ** Parsing *)

Definition CalculateElementLength (start : string) (endPosition : option nat) : Z :=
  match endPosition with Some e => Z.of_nat e | None => strlen start end.

(** [start] is after [end_]; [dt] when the format has a time. *)
Definition starts_after (dt : bool) (s e : tm) : bool :=
  (tm_year s >? tm_year e)
  || ((tm_year s =? tm_year e) && (tm_mon s >? tm_mon e))
  || ((tm_year s =? tm_year e) && (tm_mon s =? tm_mon e) && (tm_mday s >? tm_mday e))
  || (dt && (tm_year s =? tm_year e) && (tm_mon s =? tm_mon e) && (tm_mday s =? tm_mday e)
      && (tm_hour s >? tm_hour e))
  || (dt && (tm_year s =? tm_year e) && (tm_mon s =? tm_mon e) && (tm_mday s =? tm_mday e)
      && (tm_hour s =? tm_hour e) && (tm_min s >? tm_min e))
  || (dt && (tm_year s =? tm_year e) && (tm_mon s =? tm_mon e) && (tm_mday s =? tm_mday e)
      && (tm_hour s =? tm_hour e) && (tm_min s =? tm_min e) && (tm_sec s >? tm_sec e)).

(** Returns the result and the period, which is meaningful on success only. *)
Definition ParsePeriod (periodStr : option string) (period : IotvtICalPeriod_t) :
    IotvtICalResult_t * IotvtICalPeriod_t :=
  match periodStr with
  | None => (IOTVTICAL_INVALID_PARAMETER, period)
  | Some p =>
      match strchr p "/" with
      | None => (IOTVTICAL_INVALID_PERIOD, period)
      | Some startDTLen =>
          let endDTPos := str_drop (startDTLen + 1) p in
          if Z.of_nat startDTLen =? strlen endDTPos then
            if (startDTLen =? 8)%nat || (startDTLen =? 15)%nat then
              let dt := (startDTLen =? 15)%nat in
              match strptime dt p (startDateTime period) with
              | Some s =>
                  match strptime dt endDTPos (endDateTime period) with
                  | Some e =>
                      if starts_after dt s e
                      then (IOTVTICAL_INVALID_PERIOD, mk_period s e)
                      else (IOTVTICAL_SUCCESS, mk_period s e)
                  | None => (IOTVTICAL_INVALID_PERIOD, mk_period s (endDateTime period))
                  end
              | None => (IOTVTICAL_INVALID_PERIOD, period)
              end
            else (IOTVTICAL_INVALID_PERIOD, period)
          else (IOTVTICAL_INVALID_PERIOD, period)
      end
  end.

Definition ParseDate (untilRule : string) (recur : IotvtICalRecur_t) :
    IotvtICalResult_t * IotvtICalRecur_t :=
  match strchr untilRule "=" with
  | None => (IOTVTICAL_ERROR, recur)
  | Some i =>
      let date := str_drop (i + 1) untilRule in
      if strlen date =? 8 then
        match strptime false date (until recur) with
        | Some t => (IOTVTICAL_SUCCESS, mk_recur (freq recur) t (byDay recur))
        | None => (IOTVTICAL_ERROR, recur)
        end
      else (IOTVTICAL_ERROR, recur)
  end.

Definition weekdays : list (string * Z) :=
  [("SU"%string, SUNDAY); ("MO"%string, MONDAY); ("TU"%string, TUESDAY);
   ("WE"%string, WEDNESDAY); ("TH"%string, THURSDAY); ("FR"%string, FRIDAY);
   ("SA"%string, SATURDAY)].

Definition ParseByDay (bydayRule : string) (recur : IotvtICalRecur_t) :
    IotvtICalResult_t * IotvtICalRecur_t :=
  let days := fold_left (fun days '(name, bit) =>
                if strstr bydayRule name then Z.lor days bit else days)
              weekdays (byDay recur) in
  let recur := mk_recur (freq recur) (until recur) days in
  if days =? NO_WEEKDAY then (IOTVTICAL_ERROR, recur) else (IOTVTICAL_SUCCESS, recur).

(** One element of the rule, copied to [buf]. *)
Definition parse_element (buf : string) (recur : IotvtICalRecur_t) (freqFlag : bool) :
    option (IotvtICalRecur_t * bool) :=
  if strstr buf "FREQ" then
    if strstr buf "DAILY" then Some (mk_recur FREQ_DAILY (until recur) (byDay recur), true)
    else None
  else if strstr buf "UNTIL" then
    let '(r, recur) := ParseDate buf recur in
    if bool_decide (r = IOTVTICAL_SUCCESS) then Some (recur, freqFlag) else None
  else if strstr buf "BYDAY" then
    let '(r, recur) := ParseByDay buf recur in
    if bool_decide (r = IOTVTICAL_SUCCESS) then Some (recur, freqFlag) else None
  else Some (recur, freqFlag).

(** [while (NULL != startPos)], one turn per [;]-separated element. *)
Fixpoint recur_loop (fuel : nat) (startPos : string) (recur : IotvtICalRecur_t)
    (freqFlag : bool) : option (IotvtICalRecur_t * bool) :=
  match fuel with
  | O => None
  | S fuel' =>
      let endPos := strchr startPos ";" in
      let elementLength := CalculateElementLength startPos endPos in
      if elementLength >=? 50 then None
      else
        '(recur, freqFlag) ←
          parse_element (str_take (Z.to_nat elementLength) startPos) recur freqFlag;
        match endPos with
        | Some e => recur_loop fuel' (str_drop (e + 1) startPos) recur freqFlag
        | None => Some (recur, freqFlag)
        end
  end.

(** On failure the rule that was being filled in is not used. *)
Definition ParseRecur (recurStr : option string) (recur : IotvtICalRecur_t) :
    IotvtICalResult_t * IotvtICalRecur_t :=
  match recurStr with
  | None => (IOTVTICAL_INVALID_PARAMETER, recur)
  | Some s =>
      match recur_loop (S (String.length s)) s recur false with
      | None => (IOTVTICAL_INVALID_RRULE, recur)
      | Some (recur, freqFlag) =>
          if negb freqFlag then (IOTVTICAL_INVALID_RRULE, recur)
          else (IOTVTICAL_SUCCESS, recur)
      end
  end.

(** ** Comparing times *)

(** [for (y = y1; y < y2; y++) { y += TM_YEAR_OFFSET; ... }]: the offset is added
    to the loop variable itself. *)
Fixpoint leap_loop (fuel : nat) (y y2 leapDays : Z) : Z :=
  match fuel with
  | O => leapDays
  | S fuel' =>
      if y <? y2 then
        let y := y + TM_YEAR_OFFSET in
        leap_loop fuel' (y + 1) y2 (if is_leap y then leapDays + 1 else leapDays)
      else leapDays
  end.

Definition DiffDays (date1 date2 : tm) : Z :=
  let leapDays :=
    if tm_year date2 >? tm_year date1
    then leap_loop (Z.to_nat (tm_year date2 - tm_year date1)) (tm_year date1)
           (tm_year date2) 0
    else 0 in
  (365 * tm_year date2 + tm_yday date2 + leapDays)
  - (365 * tm_year date1 + tm_yday date1).

Definition DiffSecs (time1 time2 : tm) : Z :=
  (3600 * tm_hour time2 + 60 * tm_min time2 + tm_sec time2)
  - (3600 * tm_hour time1 + 60 * tm_min time1 + tm_sec time1).

Definition ValidatePeriod (period : IotvtICalPeriod_t) (currentTime : tm) :
    IotvtICalResult_t :=
  let todayIsStartDay := 0 =? DiffDays (startDateTime period) currentTime in
  let todayIsEndDay := 0 =? DiffDays currentTime (endDateTime period) in
  let validStartTime :=
    if todayIsStartDay then 0 <=? DiffSecs (startDateTime period) currentTime else true in
  let validEndTime :=
    if todayIsEndDay then 0 <=? DiffSecs currentTime (endDateTime period) else true in
  let validDay := (0 <=? DiffDays (startDateTime period) currentTime)
                  && (0 <=? DiffDays currentTime (endDateTime period)) in
  if validDay && validStartTime && validEndTime then IOTVTICAL_VALID_ACCESS
  else IOTVTICAL_INVALID_ACCESS.

(** The second half of [IsRequestWithinValidTime], for a parsed rule. *)
Definition ValidateRecur (period : IotvtICalPeriod_t) (recur : IotvtICalRecur_t)
    (currentTime : tm) : IotvtICalResult_t :=
  if (0 <=? DiffSecs (startDateTime period) currentTime)
     && (0 <=? DiffSecs currentTime (endDateTime period))
     && (0 <=? DiffDays (startDateTime period) currentTime) then
    let ret := IOTVTICAL_VALID_ACCESS in
    let ret :=
      if negb (bool_decide (until recur = emptyDT)) then
        if 0 >? DiffDays currentTime (until recur) then IOTVTICAL_INVALID_ACCESS else ret
      else ret in
    if negb (byDay recur =? NO_WEEKDAY) then
      if negb (flag_set (Z.shiftl 1 (tm_wday currentTime)) (byDay recur))
      then IOTVTICAL_INVALID_ACCESS else ret
    else ret
  else IOTVTICAL_INVALID_ACCESS.

(** [currentTime] is [localtime(time(0))]. *)
Definition IsRequestWithinValidTime (currentTime : tm) (periodStr recurStr : option string) :
    IotvtICalResult_t :=
  match periodStr with
  | None => IOTVTICAL_INVALID_PARAMETER
  | Some _ =>
      let '(ret, period) := ParsePeriod periodStr (mk_period emptyDT emptyDT) in
      if negb (bool_decide (ret = IOTVTICAL_SUCCESS)) then ret
      else
        match recurStr with
        | None => ValidatePeriod period currentTime
        | Some _ =>
            let '(ret, recur) := ParseRecur recurStr (mk_recur 0 emptyDT 0) in
            if negb (bool_decide (ret = IOTVTICAL_SUCCESS)) then ret
            else ValidateRecur period recur currentTime
        end
  end.

Example period_ok :
  IsRequestWithinValidTime (mk_tm 0 0 16 29 5 115 1 179 0)
    (Some "20150629T153050/20150630T203055"%string) None = IOTVTICAL_VALID_ACCESS.
Proof. reflexivity. Qed.

Example recur_ok :
  IsRequestWithinValidTime (mk_tm 0 0 16 29 5 115 1 179 0)
    (Some "20150626T150000/20150626T170000"%string)
    (Some "FREQ=DAILY; UNTIL=20150703; BYDAY=MO, WE, FR"%string) = IOTVTICAL_VALID_ACCESS.
Proof. reflexivity. Qed.

(** ** What the parser guarantees *)

(** A date whose day of the year exists in its year. *)
Definition wf_date (t : tm) : Prop :=
  0 <= tm_yday t <= 364 + (if is_leap (TM_YEAR_OFFSET + tm_year t) then 1 else 0).

Lemma get_number_range from to n s v r : get_number from to n s = Some (v, r) -> from <= v <= to.
Proof.
  unfold get_number. repeat case_match; try done. intros [= <- <-].
  match goal with H : _ || _ = false |- _ => apply orb_false_iff in H as [?%Z.ltb_ge ?%Z.ltb_ge] end.
  lia.
Qed.

Lemma mon_days_range m : 0 <= nth m mon_days 0 <= 334.
Proof. do 13 (destruct m as [|m]; [simpl; lia|]). simpl. destruct m; lia. Qed.

Lemma strptime_date_wf s t t' r : strptime_date s t = Some (t', r) -> wf_date t'.
Proof.
  unfold strptime_date. intros H.
  apply bind_Some in H as ([y s1] & _ & H).
  apply bind_Some in H as ([m s2] & Hm%get_number_range & H).
  apply bind_Some in H as ([d s3] & Hd%get_number_range & H). simplify_eq.
  unfold wf_date, TM_YEAR_OFFSET. cbn [tm_yday tm_year]. unfold day_of_the_year.
  pose proof (mon_days_range (Z.to_nat (m - 1))).
  destruct (2 <=? m - 1), (is_leap (1900 + (y - 1900))); cbn [andb]; lia.
Qed.

Lemma strptime_wf dt s t t' : strptime dt s t = Some t' -> wf_date t'.
Proof.
  unfold strptime. intros ([t1 r] & H & ->)%fmap_Some. simpl fst. destruct dt.
  - unfold strptime_datetime in H. apply bind_Some in H as ([t2 s2] & Hd & H).
    apply strptime_date_wf in Hd. destruct s2 as [|c s2]; [done|].
    case_match; [|done].
    apply bind_Some in H as ([h s3] & _ & H). apply bind_Some in H as ([mi s4] & _ & H).
    apply bind_Some in H as ([sec s5] & _ & H). simplify_eq. done.
  - by eapply strptime_date_wf.
Qed.

Lemma ParsePeriod_wf p per0 per : ParsePeriod p per0 = (IOTVTICAL_SUCCESS, per) ->
  wf_date (startDateTime per) /\ wf_date (endDateTime per).
Proof.
  unfold ParsePeriod. repeat case_match; intros [= <-]; simpl.
  split; by eapply strptime_wf.
Qed.

(** [until] is either absent or a parsed date. *)
Definition wf_until (r : IotvtICalRecur_t) : Prop := until r = emptyDT \/ wf_date (until r).

Lemma parse_element_wf buf r flag r' flag' :
  parse_element buf r flag = Some (r', flag') -> wf_until r -> wf_until r'.
Proof.
  unfold parse_element, ParseDate, ParseByDay. intros H Hw.
  repeat case_match; simplify_eq; try done. right.
  simpl. by eapply strptime_wf.
Qed.

Lemma recur_loop_wf fuel : forall s r flag r' flag',
  recur_loop fuel s r flag = Some (r', flag') -> wf_until r -> wf_until r'.
Proof.
  induction fuel as [|fuel IH]; intros s r flag r' flag' H Hw; cbn [recur_loop] in H; [done|].
  cbv zeta in H. destruct (_ >=? 50); [done|].
  apply bind_Some in H as ([r1 f1] & Hp & H). apply parse_element_wf in Hp; [|done].
  destruct (strchr s ";"); [by eapply IH|]. by simplify_eq.
Qed.

Lemma ParseRecur_wf s r : ParseRecur s (mk_recur 0 emptyDT 0) = (IOTVTICAL_SUCCESS, r) ->
  wf_until r.
Proof.
  unfold ParseRecur. intros H. repeat case_match; simplify_eq.
  eapply recur_loop_wf; [done|]. by left.
Qed.

(** The element loop always ends: each turn drops a separator. *)
Lemma length_str_drop n s : String.length (str_drop n s) = (String.length s - n)%nat.
Proof. revert s. induction n as [|n IH]; intros [|c s]; simpl; [done..|]. apply IH. Qed.

(** ** The window of access *)

(** [straddle a b]: [b] is December 31st of a leap year and [a] is the next day,
    the one case in which [DiffDays a b] has the wrong sign. *)
Definition straddle (a b : tm) : Prop :=
  tm_year a = tm_year b + 1 /\ tm_yday b = 365 /\ tm_yday a = 0.

Definition day_le (a b : tm) : Prop :=
  tm_year a < tm_year b \/ (tm_year a = tm_year b /\ tm_yday a <= tm_yday b).
Definition same_day (a b : tm) : Prop := tm_year a = tm_year b /\ tm_yday a = tm_yday b.
Definition secs (t : tm) : Z := 3600 * tm_hour t + 60 * tm_min t + tm_sec t.

(** [a] is not after [b]. *)
Definition moment_le (a b : tm) : Prop := day_le a b /\ (same_day a b -> secs a <= secs b).

Lemma leap_loop_ge fuel : forall y y2 n, n <= leap_loop fuel y y2 n.
Proof.
  induction fuel as [|fuel IH]; intros y y2 n; simpl; [lia|].
  destruct (y <? y2); [|lia]. etransitivity; [|apply IH]. destruct (is_leap _); lia.
Qed.

Lemma DiffDays_later a b : wf_date a -> wf_date b -> tm_year a < tm_year b -> 0 < DiffDays a b.
Proof.
  unfold wf_date, DiffDays, TM_YEAR_OFFSET. intros Ha Hb Hy.
  destruct (Z.gtb_spec (tm_year b) (tm_year a)); [|lia].
  replace (Z.to_nat (tm_year b - tm_year a))
    with (S (Z.to_nat (tm_year b - tm_year a - 1))) by lia.
  cbn [leap_loop]. rewrite (proj2 (Z.ltb_lt _ _)) by done.
  unfold TM_YEAR_OFFSET. rewrite (Z.add_comm (tm_year a) 1900).
  set (n := if is_leap (1900 + tm_year a) then 0 + 1 else 0).
  pose proof (leap_loop_ge (Z.to_nat (tm_year b - tm_year a - 1))
    (1900 + tm_year a + 1) (tm_year b) n).
  subst n. destruct (is_leap (1900 + tm_year a)), (is_leap (1900 + tm_year b)); lia.
Qed.

Lemma DiffDays_same a b : tm_year a = tm_year b -> DiffDays a b = tm_yday b - tm_yday a.
Proof.
  unfold DiffDays. intros ->. destruct (Z.gtb_spec (tm_year b) (tm_year b)); lia.
Qed.

Lemma DiffDays_earlier a b : wf_date a -> wf_date b -> tm_year b < tm_year a ->
  ~ straddle a b -> DiffDays a b < 0.
Proof.
  unfold wf_date, DiffDays, straddle. intros Ha Hb Hy Hs.
  destruct (Z.gtb_spec (tm_year b) (tm_year a)); [lia|].
  destruct (is_leap _), (is_leap _); lia.
Qed.

(** Outside the one bad case the day difference orders dates. *)
Lemma DiffDays_sign a b : wf_date a -> wf_date b -> ~ straddle a b ->
  (0 <= DiffDays a b <-> day_le a b) /\ (0 = DiffDays a b <-> same_day a b).
Proof.
  intros Ha Hb Hs. unfold day_le, same_day.
  destruct (Z.lt_trichotomy (tm_year a) (tm_year b)) as [Hy|[Hy|Hy]].
  - pose proof (DiffDays_later a b Ha Hb Hy). lia.
  - rewrite (DiffDays_same a b Hy). lia.
  - pose proof (DiffDays_earlier a b Ha Hb Hy Hs). lia.
Qed.

(** In the bad case the difference is 0: the two days pass for the same day. *)
Lemma DiffDays_straddle a b : straddle a b -> DiffDays a b = 0 /\ ~ day_le a b.
Proof.
  unfold straddle, DiffDays, day_le. intros (Hy & Hb & Ha).
  destruct (Z.gtb_spec (tm_year b) (tm_year a)); lia.
Qed.

Lemma DiffSecs_sign a b : 0 <= DiffSecs a b <-> secs a <= secs b.
Proof. unfold DiffSecs, secs. lia. Qed.

(** What an entry allows: without a recurrence, any moment from start to end;
    with one, the hours between the start's and the end's, from the first day
    on, until the last day if there is one, on the listed weekdays if any. *)
Definition allowed (per : IotvtICalPeriod_t) (recur : option IotvtICalRecur_t) (now : tm) : Prop :=
  match recur with
  | None => moment_le (startDateTime per) now /\ moment_le now (endDateTime per)
  | Some r =>
      secs (startDateTime per) <= secs now <= secs (endDateTime per) /\
      day_le (startDateTime per) now /\
      (until r <> emptyDT -> day_le now (until r)) /\
      (byDay r <> NO_WEEKDAY -> flag_set (Z.shiftl 1 (tm_wday now)) (byDay r) = true)
  end.

Lemma ValidatePeriod_window per now :
  wf_date (startDateTime per) -> wf_date (endDateTime per) -> wf_date now ->
  ~ straddle (startDateTime per) now -> ~ straddle now (endDateTime per) ->
  ValidatePeriod per now = IOTVTICAL_VALID_ACCESS <-> allowed per None now.
Proof.
  intros Hs He Hn Hss Hse. unfold ValidatePeriod, allowed, moment_le.
  destruct (DiffDays_sign _ _ Hs Hn Hss) as [L1 S1].
  destruct (DiffDays_sign _ _ Hn He Hse) as [L2 S2].
  rewrite <- L1, <- L2, <- S1, <- S2, <- !DiffSecs_sign.
  destruct (Z.eqb_spec 0 (DiffDays (startDateTime per) now)),
    (Z.eqb_spec 0 (DiffDays now (endDateTime per))),
    (Z.leb_spec 0 (DiffDays (startDateTime per) now)),
    (Z.leb_spec 0 (DiffDays now (endDateTime per))),
    (Z.leb_spec 0 (DiffSecs (startDateTime per) now)),
    (Z.leb_spec 0 (DiffSecs now (endDateTime per))); simpl;
    (split; [try done; intros _; repeat split; lia|try done; intros; exfalso; lia]).
Qed.

(** No two dates that are compared straddle the end of a leap year backwards. *)
Definition no_straddle (per : IotvtICalPeriod_t) (recur : option IotvtICalRecur_t)
    (now : tm) : Prop :=
  ~ straddle (startDateTime per) now /\
  match recur with
  | None => ~ straddle now (endDateTime per)
  | Some r => ~ straddle now (until r)
  end.

(** The parse of the optional rule. *)
Definition recur_of (recurStr : option string) (recur : option IotvtICalRecur_t) : Prop :=
  match recurStr, recur with
  | None, None => True
  | Some _, Some r => ParseRecur recurStr (mk_recur 0 emptyDT 0) = (IOTVTICAL_SUCCESS, r)
  | _, _ => False
  end.

Lemma ValidateRecur_window per r now :
  wf_date (startDateTime per) -> wf_until r -> wf_date now ->
  ~ straddle (startDateTime per) now -> ~ straddle now (until r) ->
  ValidateRecur per r now = IOTVTICAL_VALID_ACCESS <-> allowed per (Some r) now.
Proof.
  intros Hs Hu Hn Hss Hse. unfold ValidateRecur, allowed.
  destruct (DiffDays_sign _ _ Hs Hn Hss) as [L1 _].
  rewrite <- L1, <- !DiffSecs_sign.
  assert (L2 : until r <> emptyDT -> (0 >? DiffDays now (until r)) = true <-> ~ day_le now (until r)).
  { intros Hne. destruct Hu as [Hu|Hu]; [done|].
    destruct (DiffDays_sign _ _ Hn Hu Hse) as [<- _]. rewrite Z.gtb_lt. lia. }
  rewrite <- (Z.leb_le 0 (DiffSecs (startDateTime per) now)),
    <- (Z.leb_le 0 (DiffSecs now (endDateTime per))),
    <- (Z.leb_le 0 (DiffDays (startDateTime per) now)).
  destruct (0 <=? DiffSecs (startDateTime per) now), (0 <=? DiffSecs now (endDateTime per)),
    (0 <=? DiffDays (startDateTime per) now); simpl andb; cbv iota; try (intuition congruence).
  assert (E : until r <> emptyDT -> day_le now (until r) <-> (0 >? DiffDays now (until r)) = false).
  { intros Hne.
    destruct Hu as [Hu|Hu]; [done|]. destruct (DiffDays_sign _ _ Hn Hu Hse) as [<- _].
    destruct (Z.gtb_spec 0 (DiffDays now (until r))); split; (done || lia). }
  rewrite <- Z.eqb_neq. destruct (decide (until r = emptyDT)) as [He|Hne].
  - rewrite bool_decide_eq_true_2 by done. simpl negb. cbv iota.
    destruct (byDay r =? NO_WEEKDAY), (flag_set _ _); simpl; intuition congruence.
  - rewrite bool_decide_eq_false_2 by done. simpl negb. cbv iota. specialize (E Hne).
    rewrite E. destruct (byDay r =? NO_WEEKDAY), (flag_set _ _), (0 >? _); simpl;
      intuition congruence.
Qed.

(** C36: The access window of an entry's PERIOD and optional RRULE: a request is
    granted exactly when the current local time lies in it, for every pair of
    strings the parsers accept, as long as no compared pair of dates straddles
    the end of a leap year backwards. *)
Theorem IsRequestWithinValidTime_window now p recurStr per recur :
  ParsePeriod (Some p) (mk_period emptyDT emptyDT) = (IOTVTICAL_SUCCESS, per) ->
  recur_of recurStr recur -> wf_date now -> no_straddle per recur now ->
  IsRequestWithinValidTime now (Some p) recurStr = IOTVTICAL_VALID_ACCESS
  <-> allowed per recur now.
Proof.
  intros Hp Hr Hn [Hss Hse]. destruct (ParsePeriod_wf _ _ _ Hp) as [Hs He].
  unfold IsRequestWithinValidTime. rewrite Hp, bool_decide_eq_true_2 by done. simpl negb.
  cbv iota. destruct recurStr as [rs|], recur as [r|]; try done; unfold recur_of in Hr;
    [|by apply ValidatePeriod_window].
  pose proof (ParseRecur_wf _ _ Hr) as Hu. rewrite Hr, bool_decide_eq_true_2 by done.
  simpl negb. cbv iota. by apply ValidateRecur_window.
Qed.

Definition june_period : IotvtICalPeriod_t :=
  mk_period (mk_tm 0 0 15 26 5 115 5 176 0) (mk_tm 0 0 17 26 5 115 5 176 0).
Definition mwf_rule : IotvtICalRecur_t :=
  mk_recur 1 (mk_tm 0 0 0 3 6 115 5 183 0) (Z.lor (Z.lor MONDAY WEDNESDAY) FRIDAY).

Lemma IsRequestWithinValidTime_window_witness :
  IsRequestWithinValidTime (mk_tm 0 0 16 29 5 115 1 179 0)
    (Some "20150626T150000/20150626T170000"%string)
    (Some "FREQ=DAILY; UNTIL=20150703; BYDAY=MO, WE, FR"%string) = IOTVTICAL_VALID_ACCESS
  <-> allowed june_period (Some mwf_rule) (mk_tm 0 0 16 29 5 115 1 179 0).
Proof.
  apply IsRequestWithinValidTime_window; [reflexivity|reflexivity|by unfold wf_date; simpl|].
  split; intros (H & _); simpl in H; lia.
Defined.

(** With a period starting on 1 January 2021, access is granted on 31 December
    2020, before the period, at the allowed hours. *)
Lemma ValidatePeriod_day_early :
  exists per now,
    ParsePeriod (Some "20210101T090000/20210131T170000"%string) (mk_period emptyDT emptyDT)
      = (IOTVTICAL_SUCCESS, per) /\ wf_date now /\
    IsRequestWithinValidTime now (Some "20210101T090000/20210131T170000"%string) None
      = IOTVTICAL_VALID_ACCESS /\ ~ allowed per None now.
Proof.
  eexists _, (mk_tm 0 0 10 31 11 120 4 365 0). split_and!; try reflexivity; [by unfold wf_date|].
  intros [[[H|[H _]] _] _]; vm_compute in H; discriminate H.
Qed.

End Calendar.
