(* ===== verification/SrmUtility.v ===== *)
(** * Utilities of the security resource manager ([sec/util/srmutility.c])

    UUIDs and their text, the names of the owner transfer methods, the
    iterator over REST queries, and the classification of resource URIs. *)

From S2P Require Import Prelude.
From S2P Require Import Status.
From S2P Require Import CString.
From S2P Require Import OcRandom.
Import CString OcRandom.

Module SrmUtility.

(** ** UUIDs *)

(** [OicUuid_t]: its sixteen bytes. *)
Notation OicUuid_t := (list Z) (only parsing).
Definition UUID_LENGTH : nat := 16.
Definition is_uuid (u : OicUuid_t) : Prop :=
  List.length u = UUID_LENGTH /\ Forall (in_width 8) u.

Definition THE_NIL_UUID : OicUuid_t := replicate UUID_LENGTH 0.

Definition UuidCmp (firstId secondId : OicUuid_t) : bool := bool_decide (firstId = secondId).
Definition IsNilUuid (uuid : OicUuid_t) : bool := UuidCmp uuid THE_NIL_UUID.

(** The string is a fresh buffer of 37 zero characters. *)
Definition ConvertUuidToStr (uuid : OicUuid_t) : OCStackResult * option string :=
  match OCConvertUuidToString (Some uuid) (Some (replicate 37 0)) with
  | (true, Some b) => (OC_STACK_OK, Some (c_string b))
  | _ => (OC_STACK_INVALID_PARAM, None)
  end.

(** The result is undefined when the conversion reads outside the string; the
    UUID is written on success only. *)
Definition ConvertStrToUuid (strUuid : string) (uuid : OicUuid_t) :
    option (OCStackResult * OicUuid_t) :=
  let s := codes strUuid ++ [0] in
  strUuidLen ← Prelude.strlen s;
  if (strUuidLen =? 0)%nat then Some (OC_STACK_OK, THE_NIL_UUID)
  else
    match OCConvertStringToUuid (Some s) (Some uuid) with
    | Some (true, Some u) => Some (OC_STACK_OK, u)
    | Some (_, _) => Some (OC_STACK_INVALID_PARAM, uuid)
    | None => None
    end.

(** [GetReasonCode]: the reason bits of an access response. *)
Definition INSUFFICIENT_PERMISSION_DEF : Z := Z.shiftl 1 2.
Definition SUBJECT_NOT_FOUND_DEF : Z := Z.shiftl 1 3.
Definition RESOURCE_NOT_FOUND_DEF : Z := Z.shiftl 1 4.
Definition POLICY_ENGINE_ERROR_DEF : Z := Z.shiftl 1 5.
Definition INVALID_PERIOD_DEF : Z := Z.shiftl 1 6.
Definition SEC_RESOURCE_OVER_UNSECURE_CHANNEL_DEF : Z := Z.shiftl 1 7.
Definition REASON_MASK_DEF : Z :=
  fold_left Z.lor [INVALID_PERIOD_DEF; SUBJECT_NOT_FOUND_DEF; RESOURCE_NOT_FOUND_DEF;
    POLICY_ENGINE_ERROR_DEF; SEC_RESOURCE_OVER_UNSECURE_CHANNEL_DEF]
    INSUFFICIENT_PERMISSION_DEF.
Definition GetReasonCode (response : Z) : Z := Z.land response REASON_MASK_DEF.

(** ** Owner transfer methods *)

Definition OIC_JUST_WORKS : Z := 0.
Definition OIC_RANDOM_DEVICE_PIN : Z := 1.
Definition OIC_MANUFACTURER_CERTIFICATE : Z := 2.
Definition OIC_DECENTRALIZED_PUBLIC_KEY : Z := 3.
Definition OIC_MV_JUST_WORKS : Z := 0xFF01.
Definition OIC_CON_MFG_CERT : Z := 0xFF02.

Definition GetOxmString (oxmType : Z) : option string :=
  if oxmType =? OIC_JUST_WORKS then Some "oic.sec.doxm.jw"%string
  else if oxmType =? OIC_RANDOM_DEVICE_PIN then Some "oic.sec.doxm.rdp"%string
  else if oxmType =? OIC_MANUFACTURER_CERTIFICATE then Some "oic.sec.doxm.mfgcert"%string
  else if oxmType =? OIC_MV_JUST_WORKS then Some "x.org.iotivity.sec.doxm.mvjw"%string
  else if oxmType =? OIC_CON_MFG_CERT then Some "x.org.iotivity.conmfgcert"%string
  else None.

(** ** REST queries *)

(** The tokenizer of the CoAP library: start and length of each segment of a
    string, for the separator [;]. *)
Class CoapTokens : Type := { coap_segments : string -> list (nat * nat) }.

(** [OicParseQueryIter_t]: positions in the query. *)
Record OicParseQueryIter_t : Type := mk_query {
  attrPos : nat; attrLen : Z; valPos : nat; valLen : Z }.

(** The queries that repeated calls of [GetNextQuery] yield.  The delimiter is
    searched to the end of the string, so it may lie behind the segment and the
    length of the value wraps around; the first segment without one ends the
    iteration. *)
Fixpoint GetNextQuery (query : string) (segments : list (nat * nat)) : list OicParseQueryIter_t :=
  match segments with
  | [] => []
  | (start, len) :: segments' =>
      match strchr (str_drop start query) "=" with
      | Some d =>
          mk_query start (Z.of_nat d) (start + d + 1)
            (size_t (Z.of_nat len - Z.of_nat d - 1)) :: GetNextQuery query segments'
      | None => []
      end
  end.

Section queries.
Context {CT : CoapTokens}.

Definition ParseQueryIterInit (query : string) : list OicParseQueryIter_t :=
  GetNextQuery query (coap_segments query).

(** [strncasecmp(parseIter.attrPos, name, parseIter.attrLen) == 0], and the
    same test of the value. *)
Definition attr_is (query : string) (it : OicParseQueryIter_t) (name : string) : bool :=
  strncasecmp_eq (str_drop (attrPos it) query) name (attrLen it).
Definition val_is (query : string) (it : OicParseQueryIter_t) (name : string) : bool :=
  strncasecmp_eq (str_drop (valPos it) query) name (valLen it).

End queries.

(** ** Resource URIs *)

Definition OIC_RSRC_AMACL_URI : string := "/oic/sec/amacl".
Definition OIC_RSRC_CRL_URI : string := "/oic/sec/crl".
Definition OIC_RSRC_CRED_URI : string := "/oic/sec/cred".
Definition OIC_RSRC_SP_URI : string := "/oic/sec/sp".
Definition OIC_RSRC_CSR_URI : string := "/oic/sec/csr".
Definition OIC_RSRC_ACL_URI : string := "/oic/sec/acl".
Definition OIC_RSRC_ACL2_URI : string := "/oic/sec/acl2".
Definition OIC_RSRC_DOXM_URI : string := "/oic/sec/doxm".
Definition OIC_RSRC_PSTAT_URI : string := "/oic/sec/pstat".
Definition OIC_RSRC_VER_URI : string := "/oic/sec/ver".
Definition OIC_RSRC_ROLES_URI : string := "/oic/sec/roles".
Definition OIC_RSRC_SACL_URI : string := "/oic/sec/sacl".
Definition OC_RSRVD_PROV_CRL_URL : string := "/oic/credprov/crl".
Definition OC_RSRVD_DEVICE_URI : string := "/oic/d".
Definition OC_RSRVD_PLATFORM_URI : string := "/oic/p".
Definition OC_RSRVD_WELL_KNOWN_URI : string := "/oic/res".
Definition OC_RSRVD_CLOUDCONF_URI : string := "/CoapCloudConfResURI".

(** [uriLen == svrLen && strncmp(uri, rsrcs[i], svrLen) == 0] for some [i]. *)
Definition uri_in (uri : string) (rsrcs : list string) : bool :=
  let uriLen := upto uri "?" in
  existsb (fun rsrc => (uriLen =? String.length rsrc)%nat
                       && strncmp_eq uri rsrc (String.length rsrc)) rsrcs.

Definition svr_uris : list string :=
  [OIC_RSRC_AMACL_URI; OIC_RSRC_CRL_URI; OIC_RSRC_CRED_URI; OIC_RSRC_SP_URI;
   OIC_RSRC_CSR_URI; OIC_RSRC_ACL_URI; OIC_RSRC_ACL2_URI; OIC_RSRC_DOXM_URI;
   OIC_RSRC_PSTAT_URI; OIC_RSRC_VER_URI; OIC_RSRC_ROLES_URI; OC_RSRVD_PROV_CRL_URL].

Definition SRMIsSecurityResourceURI (uri : option string) : bool :=
  match uri with None => false | Some u => uri_in u svr_uris end.

Definition dcr_uris : list string :=
  [OC_RSRVD_DEVICE_URI; OC_RSRVD_PLATFORM_URI; OC_RSRVD_WELL_KNOWN_URI;
   OC_RSRVD_CLOUDCONF_URI].

Definition IsDeviceConfigurationResourceUri (uri : option string) : bool :=
  match uri with
  | None => false
  | Some u => if SRMIsSecurityResourceURI uri then true else uri_in u dcr_uris
  end.

Definition IsNonConfigurationResourceUri (uri : option string) : bool :=
  negb (IsDeviceConfigurationResourceUri uri).

(** ** Properties *)

Lemma nil_is_uuid : is_uuid THE_NIL_UUID.
Proof. split; [done|]. repeat constructor; done. Qed.

Lemma UuidCmp_true a b : UuidCmp a b = true <-> a = b.
Proof. apply bool_decide_eq_true. Qed.

Lemma IsNilUuid_true u : IsNilUuid u = true <-> u = THE_NIL_UUID.
Proof. apply UuidCmp_true. Qed.

Lemma IsNilUuid_false u : IsNilUuid u = false <-> u <> THE_NIL_UUID.
Proof. apply bool_decide_eq_false. Qed.

Lemma uuid_text_chars u : is_uuid u -> Forall (fun c => 0 < c < 256) (uuid_text u).
Proof.
  intros [Hl Hb]. unfold uuid_text, hexs, UUID_LENGTH in *.
  do 16 (destruct u as [|? u]; [done|]). destruct u; [|done]. rewrite !Forall_cons in Hb.
  assert (Hd : forall b, in_width 8 b ->
    0 < hexdigit (b / 16) < 256 /\ 0 < hexdigit (b mod 16) < 256).
  { intros b Hw. apply (range_forall (fun b => 0 < hexdigit (b / 16) < 256 /\
      0 < hexdigit (b mod 16) < 256) 256); [by vm_compute|exact Hw]. }
  repeat match goal with H : _ /\ _ |- _ => destruct H end.
  repeat match goal with H : in_width 8 ?b |- _ => destruct (Hd b H); clear H end.
  cbn [take drop flat_map app hex2]. unfold hyphen. repeat constructor; tauto || lia.
Qed.

Lemma ConvertUuidToStr_ok u : is_uuid u ->
  ConvertUuidToStr u = (OC_STACK_OK, Some (c_string (uuid_text u ++ [0]))).
Proof.
  intros Hu. pose proof (uuid_text_format u (proj2 Hu) (proj1 Hu)) as (_ & Hlen & _).
  unfold ConvertUuidToStr, OCConvertUuidToString. cbv zeta. rewrite Hlen. done.
Qed.

(** What is printed parses back. *)
Lemma ConvertStrToUuid_text u v : is_uuid u ->
  ConvertStrToUuid (c_string (uuid_text u ++ [0])) v = Some (OC_STACK_OK, u).
Proof.
  intros Hu. pose proof (uuid_text_format u (proj2 Hu) (proj1 Hu)) as (Hc & Hlen & _).
  unfold ConvertStrToUuid. rewrite codes_c_string by (by apply uuid_text_chars).
  rewrite strlen_app, Hlen by done. cbn [mbind option_bind Nat.eqb].
  unfold OCConvertStringToUuid. rewrite strlen_app, Hlen by done. cbn [mbind option_bind].
  change (UUID_STRING_SIZE - 1 =? Z.of_nat 36) with true. cbv iota.
  change (Z.to_nat UUID_SIZE) with 16%nat.
  rewrite (convert_text u [0] (proj2 Hu) (proj1 Hu)). done.
Qed.

(** A text of 36 hyphens makes the parser read behind the string's end. *)
Lemma ConvertStrToUuid_overread :
  ConvertStrToUuid (c_string (replicate 36 hyphen ++ [0])) THE_NIL_UUID = None.
Proof. reflexivity. Qed.

Lemma uri_in_spec uri rsrcs : uri_in uri rsrcs = true <-> path uri ∈ rsrcs.
Proof.
  unfold uri_in. rewrite existsb_exists. setoid_rewrite <- list_elem_of_In.
  setoid_rewrite andb_true_iff. setoid_rewrite Nat.eqb_eq. setoid_rewrite strncmp_eq_spec.
  unfold path. split.
  - intros (r & Hr & Hl & Ht). by rewrite Hl, Ht.
  - intros H. eexists. split; [exact H|]. fold (path uri). rewrite length_path. done.
Qed.

(** The classification depends on the path only: a URI names a
    non-configuration resource exactly when its path, the part before the
    query, is none of the security virtual resources and none of the device's
    own configuration resources. *)
Theorem IsNonConfigurationResourceUri_spec uri :
  IsNonConfigurationResourceUri (Some uri) = true <->
  path uri ∉ svr_uris /\ path uri ∉ dcr_uris.
Proof.
  unfold IsNonConfigurationResourceUri, IsDeviceConfigurationResourceUri,
    SRMIsSecurityResourceURI.
  rewrite negb_true_iff, <- not_true_iff_false, <- !uri_in_spec.
  destruct (uri_in uri svr_uris), (uri_in uri dcr_uris); naive_solver.
Qed.

End SrmUtility.
