(* ===== verification/Stack.v ===== *)
(** * The stack of resources: what servers and clients share

    The data of [ocf/ocresource.c], [ocf/ocserverrequest.c], [ocf/ocobserve.c] and
    [ocf/occlientcb.c], one record for the file-level variables they act on, and the
    small functions of [ocf/ocstack.c] all of them call.  An application is the class
    of the functions it registers. *)

From S2P Require Import Prelude.
From S2P Require Import Status.
From S2P Require Import CString.
From S2P Require Import CaTypes.
From S2P Require Import OcEndpoint.
From S2P Require Import SrmUtility.
From S2P Require Import CoapCodec.
From S2P Require Import PayloadCodec.

Module Stack.
Import CString SrmUtility.
Import PayloadCodec.
Open Scope m_scope.

(** ** Enumerations *)

Inductive OCQualityOfService : Type := OC_LOW_QOS | OC_MEDIUM_QOS | OC_HIGH_QOS | OC_NA_QOS.
#[export] Instance qos_eq : EqDecision OCQualityOfService.
Proof. solve_decision. Defined.

Inductive OCMethod : Type :=
| OC_REST_NOMETHOD | OC_REST_GET | OC_REST_PUT | OC_REST_POST | OC_REST_DELETE
| OC_REST_OBSERVE | OC_REST_OBSERVE_ALL | OC_REST_DISCOVER.
#[export] Instance method_eq : EqDecision OCMethod.
Proof. solve_decision. Defined.

Inductive OCPayloadFormat : Type :=
| OC_FORMAT_CBOR | OC_FORMAT_VND_OCF_CBOR | OC_FORMAT_JSON | OC_FORMAT_UNDEFINED | OC_FORMAT_UNSUPPORTED.
#[export] Instance format_eq : EqDecision OCPayloadFormat.
Proof. solve_decision. Defined.

(** [OCObserveAction]: compared with a number of the wire. *)
Definition OC_OBSERVE_REGISTER : Z := 0.
Definition OC_OBSERVE_DEREGISTER : Z := 1.
Definition OC_OBSERVE_NO_OPTION : Z := 2.

(** [OCEntityHandlerFlag] *)
Definition OC_REQUEST_FLAG : Z := 2.
Definition OC_OBSERVE_FLAG : Z := 4.

(** [OCResourceProperty] *)
Definition OC_OBSERVABLE : Z := 2.

Definition MAX_SEQUENCE_NUMBER : Z := 16777215.
Definition OC_OFFSET_SEQUENCE_NUMBER : Z := 0.
Definition MAX_HEADER_OPTIONS : Z := 50.
Definition MAX_URI_LENGTH : nat := 256.
Definition MAX_QUERY_LENGTH : nat := 256.
(** RFC 7641, 2. *)
Definition COAP_OPTION_OBSERVE : Z := 6.

Definition CAToOCPayloadFormat (caFormat : Z) : OCPayloadFormat :=
  if caFormat =? CoapCodec.CA_FORMAT_UNDEFINED then OC_FORMAT_UNDEFINED
  else if caFormat =? CoapCodec.CA_FORMAT_APPLICATION_CBOR then OC_FORMAT_CBOR
  else if caFormat =? CoapCodec.CA_FORMAT_APPLICATION_VND_OCF_CBOR then OC_FORMAT_VND_OCF_CBOR
  else OC_FORMAT_UNSUPPORTED.
Definition OCToCAPayloadFormat (ocFormat : OCPayloadFormat) : Z :=
  match ocFormat with
  | OC_FORMAT_UNDEFINED => CoapCodec.CA_FORMAT_UNDEFINED
  | OC_FORMAT_CBOR => CoapCodec.CA_FORMAT_APPLICATION_CBOR
  | OC_FORMAT_VND_OCF_CBOR => CoapCodec.CA_FORMAT_APPLICATION_VND_OCF_CBOR
  | _ => CoapCodec.CA_FORMAT_UNSUPPORTED
  end.

Definition CAResultToOCResult (caResult : CAResult_t) : OCStackResult :=
  match caResult with
  | CA_STATUS_OK => OC_STACK_OK
  | CA_STATUS_INVALID_PARAM => OC_STACK_INVALID_PARAM
  | CA_ADAPTER_NOT_ENABLED => OC_STACK_ADAPTER_NOT_ENABLED
  | CA_SERVER_STARTED_ALREADY => OC_STACK_OK
  | CA_SERVER_NOT_STARTED => OC_STACK_CA_SERVER_NOT_STARTED
  | CA_DESTINATION_NOT_REACHABLE | CA_SOCKET_OPERATION_FAILED | CA_SEND_FAILED | CA_RECEIVE_FAILED =>
      OC_STACK_COMM_ERROR
  | CA_MEMORY_ALLOC_FAILED => OC_STACK_NO_MEMORY
  | CA_REQUEST_TIMEOUT => OC_STACK_TIMEOUT
  | CA_DESTINATION_DISCONNECTED => OC_STACK_COMM_ERROR
  | CA_STATUS_FAILED => OC_STACK_ERROR
  | CA_NOT_SUPPORTED => OC_STACK_NOTIMPL
  | CA_HANDLE_ERROR_OTHER_MODULE => OC_STACK_COMM_ERROR
  | CA_CONTINUE_OPERATION => OC_STACK_CONTINUE_OPERATION
  | _ => OC_STACK_ERROR
  end.

(** ** Device addresses

    [OCDevAddr] has the fields of [CAEndpoint_t], of the same sizes. *)

Definition OC_SCOPE_LINK : Z := 2.
Definition OC_MASK_SCOPE : Z := 15.
Definition CopyEndpointToDevAddr (e : CaTypes.CAEndpoint_t) : CaTypes.CAEndpoint_t := e.
Definition OCToCATransportFlags (ocFlags : Z) : Z :=
  let f := if flag_set ocFlags (Z.lor OcEndpoint.OC_IP_USE_V6 OcEndpoint.OC_IP_USE_V4) then ocFlags
           else Z.lor (Z.lor ocFlags OcEndpoint.OC_IP_USE_V6) OcEndpoint.OC_IP_USE_V4 in
  if flag_set f OC_MASK_SCOPE then f else Z.lor f OC_SCOPE_LINK.
Definition CopyDevAddrToEndpoint (e : CaTypes.CAEndpoint_t) : CaTypes.CAEndpoint_t :=
  CaTypes.mk_endpoint (CaTypes.adapter e) (OCToCATransportFlags (CaTypes.flags e)) (CaTypes.port e)
    (CaTypes.addr e) (CaTypes.ifindex e).

(** ** Resources and their observers *)

(** A token is a pointer and a length; the pointer is null when there is none.  A
    stored token is only allocated when it has a length. *)
Record ResourceObserver : Type := mk_observer {
  observeId : Z; o_resUri : string; o_query : option string; o_token : list Z;
  o_devAddr : CaTypes.CAEndpoint_t; o_qos : OCQualityOfService; failedCommCount : Z; lowQosCount : Z;
  forceHighQos : bool; TTL : Z; o_acceptFormat : OCPayloadFormat; o_acceptVersion : Z }.

(** What of a resource its requests need.  Its place in the list is its handle. *)
Record OCResource : Type := mk_resource {
  r_uri : string; r_properties : Z; r_sequenceNum : Z; r_observers : list ResourceObserver;
  r_endpointType : Z; r_collection : bool; r_defaultHandler : bool }.

Definition with_observers (l : list ResourceObserver) (r : OCResource) : OCResource :=
  mk_resource (r_uri r) (r_properties r) (r_sequenceNum r) l (r_endpointType r) (r_collection r) (r_defaultHandler r).
Definition with_sequence (n : Z) (r : OCResource) : OCResource :=
  mk_resource (r_uri r) (r_properties r) n (r_observers r) (r_endpointType r) (r_collection r) (r_defaultHandler r).
Definition with_counts (failed low : Z) (force : bool) (o : ResourceObserver) : ResourceObserver :=
  mk_observer (observeId o) (o_resUri o) (o_query o) (o_token o) (o_devAddr o) (o_qos o) failed low force
    (TTL o) (o_acceptFormat o) (o_acceptVersion o).
Definition with_TTL (t : Z) (o : ResourceObserver) : ResourceObserver :=
  mk_observer (observeId o) (o_resUri o) (o_query o) (o_token o) (o_devAddr o) (o_qos o) (failedCommCount o)
    (lowQosCount o) (forceHighQos o) t (o_acceptFormat o) (o_acceptVersion o).

(** ** Requests and responses *)

(** [ehResponseHandler] is one of two functions: [q_aggregate] tells which.  The
    payload buffer has as many bytes as the payload. *)
Record OCServerRequest : Type := mk_sreq {
  q_method : OCMethod; q_acceptFormat : OCPayloadFormat; q_acceptVersion : Z; q_resourceUrl : string;
  q_query : string; q_qos : OCQualityOfService; q_observationOption : Z; q_observeResult : OCStackResult;
  q_numResponses : Z; q_aggregate : bool; q_devAddr : CaTypes.CAEndpoint_t; q_token : list Z; q_coapID : Z;
  q_options : list CaTypes.CAHeaderOption_t; q_requestComplete : bool; q_slowFlag : bool;
  q_notificationFlag : bool; q_payloadFormat : OCPayloadFormat; q_payload : list Z }.

Definition with_observe (result : OCStackResult) (option : Z) (q : OCServerRequest) : OCServerRequest :=
  mk_sreq (q_method q) (q_acceptFormat q) (q_acceptVersion q) (q_resourceUrl q) (q_query q) (q_qos q) option
    result (q_numResponses q) (q_aggregate q) (q_devAddr q) (q_token q) (q_coapID q) (q_options q)
    (q_requestComplete q) (q_slowFlag q) (q_notificationFlag q) (q_payloadFormat q) (q_payload q).
Definition with_slow (q : OCServerRequest) : OCServerRequest :=
  mk_sreq (q_method q) (q_acceptFormat q) (q_acceptVersion q) (q_resourceUrl q) (q_query q) (q_qos q)
    (q_observationOption q) (q_observeResult q) (q_numResponses q) (q_aggregate q) (q_devAddr q) (q_token q)
    (q_coapID q) (q_options q) (q_requestComplete q) true (q_notificationFlag q) (q_payloadFormat q) (q_payload q).
Definition with_complete (q : OCServerRequest) : OCServerRequest :=
  mk_sreq (q_method q) (q_acceptFormat q) (q_acceptVersion q) (q_resourceUrl q) (q_query q) (q_qos q)
    (q_observationOption q) (q_observeResult q) (q_numResponses q) (q_aggregate q) (q_devAddr q) (q_token q)
    (q_coapID q) (q_options q) true (q_slowFlag q) (q_notificationFlag q) (q_payloadFormat q) (q_payload q).

Record OCEntityHandlerRequest : Type := mk_ehreq {
  eh_resource : option nat; eh_requestHandle : option Z; eh_method : OCMethod;
  eh_devAddr : CaTypes.CAEndpoint_t; eh_query : string; eh_action : Z; eh_obsId : Z; eh_messageID : Z;
  eh_payload : option OCPayload; eh_options : list CaTypes.CAHeaderOption_t }.

Record OCEntityHandlerResponse : Type := mk_ehresp {
  s_requestHandle : option Z; s_ehResult : OCEntityHandlerResult; s_payload : option OCPayload;
  s_options : list CaTypes.CAHeaderOption_t; s_resourceUri : string }.

Record OCClientResponse : Type := mk_cresp {
  c_devAddr : CaTypes.CAEndpoint_t; c_result : OCStackResult; c_sequenceNumber : Z;
  c_resourceUri : option (list Z); c_payload : option OCPayload; c_options : list CaTypes.CAHeaderOption_t }.

(** [OCDoHandle] *)
Definition OCDoHandle : Type := Z.

(** Presence is not built. *)
Record ClientCB : Type := mk_cb {
  cb_context : Z; cb_type : Z; cb_token : list Z; cb_options : list CaTypes.CAHeaderOption_t;
  cb_payload : option (list Z); cb_payloadFormat : Z; cb_handle : OCDoHandle; cb_method : OCMethod;
  cb_sequenceNumber : Z; cb_requestUri : option string; cb_devAddr : CaTypes.CAEndpoint_t; cb_TTL : Z }.

(** ** The state *)

(** What was given to the connectivity layer. *)
Inductive message : Type :=
| SentRequest (to : CaTypes.CAEndpoint_t) (m : CaTypes.CARequestInfo_t)
| SentResponse (to : CaTypes.CAEndpoint_t) (m : CaTypes.CAResponseInfo_t).

(** [now] is what [coap_ticks] gives, [random] the successive results of the
    generator of random bytes, [results] those of the connectivity layer, [sent] what
    it was given, [app] the state of the application.  Requests have an address. *)
Record stack {A : Type} : Type := mk_stack {
  now : Z; random : list (option Z); results : list CAResult_t; sent : list message;
  headResource : list OCResource; g_serverRequestTree : list (Z * OCServerRequest); next_request : Z;
  g_serverResponseTree : list (Z * list RepPayload.RepPayload.OCRepPayload); g_cbList : list ClientCB; app : A }.
Arguments stack : clear implicits.
Arguments mk_stack {A}.

(** The functions an application registers.  An entity handler gets the flag and the
    request, answers with [OCDoResponse] as often as it likes, and returns a result; a
    callback gets a response and tells whether it wants more. *)
Class Application (A : Type) : Type := {
  entityHandler : string -> Z -> OCEntityHandlerRequest -> A -> OCEntityHandlerResult * list OCEntityHandlerResponse * A;
  defaultDeviceHandler : option (OCEntityHandlerRequest -> string -> A ->
    OCEntityHandlerResult * list OCEntityHandlerResponse * A);
  callBack : Z -> OCDoHandle -> OCClientResponse -> A -> Z * A;
  deleteCallback : Z -> A -> A }.

Section state.
Context {A : Type}.
Notation S := (stack A).

Definition set_now v (s : S) : S := mk_stack v (random s) (results s) (sent s) (headResource s) (g_serverRequestTree s)
  (next_request s) (g_serverResponseTree s) (g_cbList s) (app s).
Definition set_random v (s : S) : S := mk_stack (now s) v (results s) (sent s) (headResource s) (g_serverRequestTree s)
  (next_request s) (g_serverResponseTree s) (g_cbList s) (app s).
Definition set_sent v w (s : S) : S := mk_stack (now s) (random s) v w (headResource s) (g_serverRequestTree s)
  (next_request s) (g_serverResponseTree s) (g_cbList s) (app s).
Definition set_resources v (s : S) : S := mk_stack (now s) (random s) (results s) (sent s) v (g_serverRequestTree s)
  (next_request s) (g_serverResponseTree s) (g_cbList s) (app s).
Definition set_requests v n (s : S) : S := mk_stack (now s) (random s) (results s) (sent s) (headResource s) v
  n (g_serverResponseTree s) (g_cbList s) (app s).
Definition set_responses v (s : S) : S := mk_stack (now s) (random s) (results s) (sent s) (headResource s)
  (g_serverRequestTree s) (next_request s) v (g_cbList s) (app s).
Definition set_cbs v (s : S) : S := mk_stack (now s) (random s) (results s) (sent s) (headResource s)
  (g_serverRequestTree s) (next_request s) (g_serverResponseTree s) v (app s).
Definition set_app v (s : S) : S := mk_stack (now s) (random s) (results s) (sent s) (headResource s)
  (g_serverRequestTree s) (next_request s) (g_serverResponseTree s) (g_cbList s) v.

(** ** Sending and the clock *)

(** The connectivity layer takes a message and reports a result, success when it has
    nothing to report. *)
Definition give (m : message) : M S CAResult_t := fun s =>
  Some (default CA_STATUS_OK (head (results s)), set_sent (tail (results s)) (sent s ++ [m]) s).
Definition CASendResponse (to : CaTypes.CAEndpoint_t) (m : CaTypes.CAResponseInfo_t) : M S CAResult_t :=
  give (SentResponse to m).
Definition CASendRequest (to : CaTypes.CAEndpoint_t) (m : CaTypes.CARequestInfo_t) : M S CAResult_t :=
  give (SentRequest to m).

Definition MILLISECONDS_PER_SECOND : Z := 1000.
Definition UINT32_MAX : Z := 4294967295.

(** [COAP_TICKS_PER_SECOND] is a 32-bit constant of libcoap. *)
Definition ticks_after (COAP_TICKS_PER_SECOND now milliSeconds : Z) : Z :=
  if milliSeconds <=? u32 ((UINT32_MAX - u32 now) * MILLISECONDS_PER_SECOND) / COAP_TICKS_PER_SECOND
  then u32 (now + u32 (milliSeconds * COAP_TICKS_PER_SECOND) / MILLISECONDS_PER_SECOND)
  else UINT32_MAX.

(** ** Finding resources *)

Definition FindResourceByUri (resourceUri : string) : M S (option nat) :=
  gets (fun s => fst <$> list_find (fun r => r_uri r = resourceUri) (headResource s)).

(** A resource through its handle; there is none at a handle that was not given out. *)
Definition resource (r : nat) : M S OCResource :=
  let! l := gets headResource in demand (l !! r).
Definition update_resource (r : nat) (f : OCResource -> OCResource) : M S unit :=
  modify (fun s => set_resources (alter f r (headResource s)) s).

(** A request through its address: none after it was freed. *)
Definition request (q : Z) : M S OCServerRequest :=
  let! l := gets g_serverRequestTree in demand (snd <$> list_find (fun x => x.1 = q) l ≫= fun x => Some x.2).
Definition update_request (q : Z) (f : OCServerRequest -> OCServerRequest) : M S unit :=
  modify (fun s => set_requests (map (fun x => if x.1 =? q then (x.1, f x.2) else x) (g_serverRequestTree s))
    (next_request s) s).
End state.

Definition OC_RSRVD_INTROSPECTION_URI_PATH : string := "/introspection".
Definition OC_RSRVD_INTROSPECTION_PAYLOAD_URI_PATH : string := "/introspection/payload".
Definition OC_RSRVD_RESOURCE_TYPES_URI : string := "/oic/res/types/d".

(** Whether [GetTypeOfVirtualURI] knows the URI. *)
Definition virtual_uris : list string :=
  [OC_RSRVD_WELL_KNOWN_URI; OC_RSRVD_DEVICE_URI; OC_RSRVD_PLATFORM_URI; OC_RSRVD_RESOURCE_TYPES_URI;
   OC_RSRVD_INTROSPECTION_URI_PATH; OC_RSRVD_INTROSPECTION_PAYLOAD_URI_PATH].
Definition GetTypeOfVirtualURI (uriInRequest : string) : option string :=
  snd <$> list_find (fun u => u = uriInRequest) virtual_uris.

Definition CheckRequestsEndpoint (reqDevAddr : CaTypes.CAEndpoint_t) (resTpsFlags : Z) : OCStackResult :=
  let reqTpsFlags := OcEndpoint.OCGetMatchedTpsFlags (CaTypes.adapter reqDevAddr) (CaTypes.flags reqDevAddr)
                       OcEndpoint.OC_NO_TPS in
  if flag_set reqTpsFlags resTpsFlags then OC_STACK_OK else OC_STACK_BAD_ENDPOINT.

End Stack.
