(* ===== verification/ServerRequest.v ===== *)
(** * Requests to a server and their responses ([ocf/ocserverrequest.c])

    The tree of requests that are being served is, with its macros, third-party code:
    it finds a request by its token.  Here it is the list of the requests, oldest
    first. *)

From S2P Require Import Prelude.
From S2P Require Import Status.
From S2P Require Import CString.
From S2P Require Import CaTypes.
From S2P Require Import LibCoap.
From S2P Require Import CoapCodec.
From S2P Require Import Cbor.
From S2P Require Import RepPayload.
From S2P Require Import PayloadCodec.
From S2P Require Import Stack.

Module ServerRequest.
Import CString Stack PayloadCodec.
Open Scope m_scope.

(** [memcmp] of a stored token and as many bytes as [token] has; undefined behaviour
    when the stored one is shorter. *)
Definition same_token (stored token : list Z) : option bool :=
  if (List.length stored <? List.length token)%nat then None
  else Some (bool_decide (take (List.length token) stored = token)).

(** The first one of a list with the token. *)
Fixpoint find_token {X} (tok : X -> list Z) (token : list Z) (l : list X) : option (option X) :=
  match l with
  | [] => Some None
  | x :: l' => e ← same_token (tok x) token; if e : bool then Some (Some x) else find_token tok token l'
  end.

Definition ConvertEHResultToCAResult (result : OCEntityHandlerResult) (method : OCMethod) : Z :=
  match result with
  | OC_EH_RESOURCE_CREATED => if bool_decide (method = OC_REST_POST \/ method = OC_REST_PUT) then 201 else 400
  | OC_EH_RESOURCE_DELETED => if bool_decide (method = OC_REST_POST \/ method = OC_REST_DELETE) then 202 else 400
  | OC_EH_SLOW => 205
  | OC_EH_OK | OC_EH_CHANGED | OC_EH_CONTENT =>
      if bool_decide (method = OC_REST_POST \/ method = OC_REST_PUT \/ method = OC_REST_DELETE) then 204
      else if bool_decide (method = OC_REST_GET) then 205 else 400
  | OC_EH_VALID => 203
  | OC_EH_UNAUTHORIZED_REQ => 401
  | OC_EH_BAD_OPT => 402
  | OC_EH_FORBIDDEN => 403
  | OC_EH_RESOURCE_NOT_FOUND => 404
  | OC_EH_METHOD_NOT_ALLOWED => 405
  | OC_EH_NOT_ACCEPTABLE => 406
  | OC_EH_INTERNAL_SERVER_ERROR => 500
  | OC_EH_SERVICE_UNAVAILABLE => 503
  | OC_EH_RETRANSMIT_TIMEOUT => 504
  | _ => 400
  end.

(** ** The options of a response *)

Definition observe_option (n : Z) : CaTypes.CAHeaderOption_t :=
  CaTypes.mk_option COAP_OPTION_OBSERVE [n / 2 ^ 24 mod 256; n / 2 ^ 16 mod 256; n / 2 ^ 8 mod 256; n mod 256].
Definition CA_HEADER_OPTION_ID_LOCATION_PATH : Z := 8.
Definition le16 (v : Z) : list Z := [v mod 256; v / 256].
Definition data16 (d : list Z) : Z := Z.shiftl (nth 1 d 0) 8 + nth 0 d 0.

(** Version and format, and whether they are set. *)
Record content : Type := mk_content { cVersion : Z; cFormat : Z; cVersionSet : bool; cFormatSet : bool }.
Definition scan_option (c : content) (o : CaTypes.CAHeaderOption_t) : content :=
  let d := CaTypes.optionData o in
  if CaTypes.optionID o =? CoapCodec.OCF_CONTENT_FORMAT_VERSION then mk_content (data16 d) (cFormat c) true (cFormatSet c)
  else if CaTypes.optionID o =? LibCoap.COAP_OPTION_CONTENT_FORMAT then
    if Z.of_nat (List.length d) =? 1 then mk_content (cVersion c) (nth 0 d 0) (cVersionSet c) true
    else if Z.of_nat (List.length d) =? 2 then mk_content (cVersion c) (data16 d) (cVersionSet c) true
    else mk_content (cVersion c) CoapCodec.CA_FORMAT_UNSUPPORTED (cVersionSet c) false
  else c.
Definition scan_options (l : list CaTypes.CAHeaderOption_t) : content :=
  foldl scan_option (mk_content CoapCodec.DEFAULT_VERSION_VALUE CoapCodec.COAP_MEDIATYPE_APPLICATION_VND_OCF_CBOR false false) l.

(** What is added for a payload; an option that was counted and not written is left
    zero. *)
Definition content_options (c : content) : list CaTypes.CAHeaderOption_t :=
  let version := CaTypes.mk_option CoapCodec.OCF_CONTENT_FORMAT_VERSION (le16 (cVersion c)) in
  let format := CaTypes.mk_option LibCoap.COAP_OPTION_CONTENT_FORMAT (le16 (cFormat c)) in
  if negb (cVersionSet c) && negb (cFormatSet c) then [version; format]
  else if cFormatSet c && (CoapCodec.CA_FORMAT_APPLICATION_VND_OCF_CBOR =? cFormat c) && negb (cVersionSet c) then [version]
  else if cVersionSet c && negb (cFormatSet c) then
    if CoapCodec.DEFAULT_VERSION_VALUE <=? cVersion c then [format] else [CaTypes.mk_option 0 []]
  else [].

Definition has_observe (q : OCServerRequest) : bool :=
  bool_decide (q_observeResult q = OC_STACK_OK) && negb (q_observationOption q =? MAX_SEQUENCE_NUMBER + 1).

Definition response_type (q : OCServerRequest) : Z :=
  let high := bool_decide (q_qos q = OC_HIGH_QOS) in
  if q_notificationFlag q && high then CaTypes.CA_MSG_CONFIRM
  else if q_notificationFlag q && negb high then CaTypes.CA_MSG_NONCONFIRM
  else if negb (q_notificationFlag q) && negb (q_slowFlag q) && high then CaTypes.CA_MSG_ACKNOWLEDGE
  else if negb (q_notificationFlag q) && q_slowFlag q && high then CaTypes.CA_MSG_CONFIRM
  else CaTypes.CA_MSG_NONCONFIRM.

(** The options; [None] when there are more than the array has that they are read
    from. *)
Definition response_options (q : OCServerRequest) (r : OCEntityHandlerResponse) :
    option (OCStackResult + list CaTypes.CAHeaderOption_t) :=
  let observe := if has_observe q then [observe_option (q_observationOption q)] else [] in
  let location := if String.eqb (s_resourceUri r) "" then []
                  else [CaTypes.mk_option CA_HEADER_OPTION_ID_LOCATION_PATH (codes (s_resourceUri r) ++ [0])] in
  let numOptions := List.length (observe ++ s_options r ++ location) in
  if bool_decide (is_Some (s_payload r)) && (MAX_HEADER_OPTIONS <? Z.of_nat numOptions) then None
  else if negb (String.eqb (s_resourceUri r) "") && (CoapCodec.CA_MAX_HEADER_OPTION_DATA_LENGTH <? strlen (s_resourceUri r) + 1)
  then Some (inl OC_STACK_INVALID_URI)
  else Some (inr (observe ++ s_options r ++ location ++
                  match s_payload r with Some _ => content_options (scan_options (s_options r)) | None => [] end)).

(** The result code, the payload, its format and version. *)
Section payload.
Context {E : CborEncoder}.
Definition response_payload (q : OCServerRequest) (r : OCEntityHandlerResponse) : option (Z * option (list Z) * Z * Z) :=
  let code := ConvertEHResultToCAResult (s_ehResult r) (q_method q) in
  match s_payload r with
  | None => Some (code, None, CoapCodec.CA_FORMAT_UNDEFINED, 0)
  | Some p =>
      if bool_decide (q_acceptFormat q = OC_FORMAT_JSON \/ q_acceptFormat q = OC_FORMAT_UNSUPPORTED)
      then Some (406, None, CoapCodec.CA_FORMAT_UNDEFINED, 0)
      else
        '(_, b) ← OCConvertPayload (enough_fuel p) p;
        let format := if bool_decide (q_acceptFormat q = OC_FORMAT_VND_OCF_CBOR)
                      then CoapCodec.CA_FORMAT_APPLICATION_VND_OCF_CBOR else CoapCodec.CA_FORMAT_APPLICATION_CBOR in
        let version := if bool_decide (q_acceptFormat q = OC_FORMAT_VND_OCF_CBOR)
                       then (if q_acceptVersion q =? 0 then CoapCodec.DEFAULT_VERSION_VALUE else q_acceptVersion q) else 0 in
        Some (match p with
              | Diagnostic _ => (code, Some b, CoapCodec.CA_FORMAT_UNDEFINED, 0)
              | _ => if 0 <? Z.of_nat (List.length b) then (code, Some b, format, version)
                     else (code, Some b, CoapCodec.CA_FORMAT_UNDEFINED, 0)
              end)
  end.
End payload.

Section requests.
Context {A : Type}.
Notation S := (stack A).

(** ** Requests *)

(** The request and its address.  A null or empty payload has no format. *)
Definition AddServerRequest (coapMessageID : Z) (notificationFlag : bool) (method : OCMethod)
    (options : list CaTypes.CAHeaderOption_t) (observationOption : Z) (qos : OCQualityOfService) (query : option string)
    (payloadFormat : OCPayloadFormat) (payload token : list Z) (resourceUrl : string)
    (acceptFormat : OCPayloadFormat) (acceptVersion : Z) (devAddr : CaTypes.CAEndpoint_t) : M S Z :=
  let q := mk_sreq method acceptFormat acceptVersion (str_take (MAX_URI_LENGTH - 1) resourceUrl)
    (str_take (MAX_QUERY_LENGTH - 1) (default ""%string query)) qos observationOption OC_STACK_ERROR 1 false devAddr token
    coapMessageID options false false notificationFlag
    match payload with [] => OC_FORMAT_CBOR | _ => payloadFormat end payload in
  fun s => Some (next_request s,
    set_requests (g_serverRequestTree s ++ [(next_request s, q)]) (next_request s + 1) s).

(** [None]: there is no token. *)
Definition GetServerRequestUsingToken (token : list Z) : M S (option Z) :=
  match token with
  | [] => ret None
  | _ =>
      let! l := gets g_serverRequestTree in
      let! x := demand (find_token (fun x => q_token x.2) token l) in
      ret (fst <$> x)
  end.

(** The token of the request is read: it must not have been freed. *)
Definition DeleteServerRequest (q : Z) : M S unit :=
  let! _ := request q in
  modify (fun s => set_requests (filter (fun x => x.1 <> q) (g_serverRequestTree s)) (next_request s) s).

Section form.
Context {L : Cbor.CborLib}.
Definition FormOCEntityHandlerRequest (requestHandle : option Z) (method : OCMethod) (endpoint : CaTypes.CAEndpoint_t)
    (resource : option nat) (queryBuf : string) (payloadType : OCPayloadType) (payload : list Z)
    (vendorOptions : list CaTypes.CAHeaderOption_t) (observeAction observeID messageID : Z) :
    option (OCStackResult * option OCEntityHandlerRequest) :=
  let form p := mk_ehreq resource requestHandle method endpoint queryBuf observeAction observeID messageID p vendorOptions in
  match payload with
  | [] => Some (OC_STACK_OK, Some (form None))
  | _ =>
      '(r, p) ← OCParsePayload payloadType payload;
      Some (if is_ok r then (OC_STACK_OK, Some (form p)) else (OC_STACK_ERROR, None))
  end.
End form.

(** ** Responses *)

Section respond.
Context {E : CborEncoder}.

Definition OCSendResponse (object : CaTypes.CAEndpoint_t) (responseInfo : CaTypes.CAResponseInfo_t) : M S OCStackResult :=
  let! r := CASendResponse object responseInfo in
  ret (CAResultToOCResult r).

Definition HandleSingleResponse (ehResponse : OCEntityHandlerResponse) : M S OCStackResult :=
  match s_requestHandle ehResponse with
  | None => ret OC_STACK_ERROR
  | Some h =>
      let! q := request h in
      if CoapCodec.CA_MAX_TOKEN_LEN + 1 <? Z.of_nat (List.length (q_token q)) then undefined
      else
        let! o := demand (response_options q ehResponse) in
        match o with
        | inl e => ret e
        | inr options =>
            let! (code, payload, format, version) := demand (response_payload q ehResponse) in
            let info := CaTypes.mk_info (response_type q) (q_coapID q) (Some (q_token q)) options payload format
              CoapCodec.CA_FORMAT_UNDEFINED version 0 (Some (codes (q_resourceUrl q))) CaTypes.CA_RESPONSE_DATA in
            let! r := OCSendResponse (CopyDevAddrToEndpoint (q_devAddr q)) (CaTypes.mk_response code info false) in
            DeleteServerRequest h ;;; ret r
        end
  end.

(** The response whose request has the token of the request [h]. *)
Fixpoint find_response (reqs : list (Z * OCServerRequest)) (token : list Z)
    (l : list (Z * list RepPayload.OCRepPayload)) : option (option (Z * list RepPayload.OCRepPayload)) :=
  match l with
  | [] => Some None
  | (h, p) :: l' =>
      x ← snd <$> list_find (fun x => x.1 = h) reqs;
      e ← same_token (q_token x.2) token;
      if e : bool then Some (Some (h, p)) else find_response reqs token l'
  end.

(** One of the responses a request waits for; the last of them is sent, and the
    request deleted twice. *)
Definition HandleAggregateResponse (ehResponse : OCEntityHandlerResponse) : M S OCStackResult :=
  match s_payload ehResponse, s_requestHandle ehResponse with
  | None, _ => ret OC_STACK_INVALID_PARAM
  | Some _, None => ret OC_STACK_ERROR
  | Some p, Some h =>
      let! q := request h in
      let! reqs := gets g_serverRequestTree in
      let! resps := gets g_serverResponseTree in
      let! found := demand (find_response reqs (q_token q) resps) in
      match found with
      | None => modify (fun s => set_responses (resps ++ [(h, [])]) s)
      | Some _ => ret tt
      end ;;;
      let '(g, old) := default (h, []) found in
      match p with
      | Representation (rep :: _) =>
          let! new := demand (RepPayload.OCRepPayloadBatchClone rep) in
          let all := match old with
                     | [] => [RepPayload.OCRepPayloadSetInterfaceType new RepPayload.PAYLOAD_BATCH_INTERFACE]
                     | _ => RepPayload.OCRepPayloadAppend old [new]
                     end in
          let n := u8 (q_numResponses q - 1) in
          modify (fun s => set_responses (map (fun x => if x.1 =? g then (g, all) else x) (g_serverResponseTree s)) s) ;;;
          update_request h (fun q => mk_sreq (q_method q) (q_acceptFormat q) (q_acceptVersion q) (q_resourceUrl q)
            (q_query q) (q_qos q) (q_observationOption q) (q_observeResult q) n (q_aggregate q) (q_devAddr q) (q_token q)
            (q_coapID q) (q_options q) (q_requestComplete q) (q_slowFlag q) (q_notificationFlag q) (q_payloadFormat q) (q_payload q)) ;;;
          if n =? 0 then
            let! r := HandleSingleResponse (mk_ehresp (Some h) OC_EH_OK (Some (Representation all)) (s_options ehResponse)
                                              (s_resourceUri ehResponse)) in
            DeleteServerRequest h ;;;
            modify (fun s => set_responses (filter (fun x => x.1 <> g) (g_serverResponseTree s)) s) ;;;
            ret r
          else ret OC_STACK_OK
      | Representation [] => undefined
      | _ => ret OC_STACK_ERROR
      end
  end.

Definition OCDoResponse (ehResponse : OCEntityHandlerResponse) : M S OCStackResult :=
  match s_requestHandle ehResponse with
  | None => ret OC_STACK_INVALID_PARAM
  | Some h =>
      let! q := request h in
      if q_aggregate q then HandleAggregateResponse ehResponse else HandleSingleResponse ehResponse
  end.

(** What an application answers while it handles a request. *)
Fixpoint do_responses (l : list OCEntityHandlerResponse) : M S unit :=
  match l with
  | [] => ret tt
  | r :: l' => OCDoResponse r ;;; do_responses l'
  end.
End respond.
End requests.

End ServerRequest.
