(* ===== verification/Observe.v ===== *)
(** * Observers of resources ([ocf/ocobserve.c])

    Observers, their registration and the notifications they get, with what
    [ocf/ocresource.c], [ocf/oocf_server.c] and [ocf/ocstack.c] add to them: the
    handling of a request by the entity handler of its resource, sequence numbers and
    the feedback on observers.

    Looking for an observer sends a notification to those that were not heard of for
    too long, and a notification is handled as a request: the functions of this file
    call each other in a circle.  They are given the check of an observer as an
    argument, and the circle is closed at the end. *)

From S2P Require Import Prelude.
From S2P Require Import Status.
From S2P Require Import CString.
From S2P Require Import SrmUtility.
From S2P Require Import CaTypes.
From S2P Require Import Cbor.
From S2P Require Import RepPayload.
From S2P Require Import PayloadCodec.
From S2P Require Import Stack.
From S2P Require Import ServerRequest.

Module Observe.
Import CString SrmUtility Stack ServerRequest PayloadCodec.
Open Scope m_scope.

Definition MAX_OBSERVER_FAILED_COMM : Z := 2.
Definition MAX_OBSERVER_NON_COUNT : Z := 3.
Definition MAX_OBSERVER_TTL_SECONDS : Z := 60 * 60 * 24.
Definition OC_OBSERVER_NOT_INTERESTED : Z := 0.
Definition OC_OBSERVER_STILL_INTERESTED : Z := 1.
Definition OC_OBSERVER_FAILED_COMM : Z := 2.
Definition OC_RSRVD_PRESENCE_URI : string := "/oic/ad".

Inductive OCMode : Type := OC_CLIENT | OC_SERVER | OC_CLIENT_SERVER | OC_GATEWAY.

Inductive ResourceHandling : Type :=
| OC_RESOURCE_VIRTUAL | OC_RESOURCE_NOT_COLLECTION_WITH_ENTITYHANDLER
| OC_RESOURCE_NOT_COLLECTION_DEFAULT_ENTITYHANDLER | OC_RESOURCE_COLLECTION_WITH_ENTITYHANDLER
| OC_RESOURCE_COLLECTION_DEFAULT_ENTITYHANDLER | OC_RESOURCE_DEFAULT_DEVICE_ENTITYHANDLER
| OC_RESOURCE_NOT_SPECIFIED.

Definition EntityHandlerCodeToOCStackCode (ehResult : OCEntityHandlerResult) : OCStackResult :=
  match ehResult with
  | OC_EH_OK | OC_EH_CONTENT | OC_EH_VALID => OC_STACK_OK
  | OC_EH_SLOW => OC_STACK_SLOW_RESOURCE
  | OC_EH_ERROR => OC_STACK_ERROR
  | OC_EH_FORBIDDEN => OC_STACK_FORBIDDEN_REQ
  | OC_EH_INTERNAL_SERVER_ERROR => OC_STACK_INTERNAL_SERVER_ERROR
  | OC_EH_RESOURCE_CREATED => OC_STACK_RESOURCE_CREATED
  | OC_EH_RESOURCE_DELETED => OC_STACK_RESOURCE_DELETED
  | OC_EH_CHANGED => OC_STACK_RESOURCE_CHANGED
  | OC_EH_RESOURCE_NOT_FOUND => OC_STACK_NO_RESOURCE
  | OC_EH_BAD_REQ => OC_STACK_INVALID_QUERY
  | OC_EH_UNAUTHORIZED_REQ => OC_STACK_UNAUTHORIZED_REQ
  | OC_EH_BAD_OPT => OC_STACK_INVALID_OPTION
  | OC_EH_METHOD_NOT_ALLOWED => OC_STACK_INVALID_METHOD
  | OC_EH_NOT_ACCEPTABLE => OC_STACK_NOT_ACCEPTABLE
  | OC_EH_TOO_LARGE => OC_STACK_TOO_LARGE_REQ
  | OC_EH_SERVICE_UNAVAILABLE => OC_STACK_SERVICE_UNAVAILABLE
  | OC_EH_RETRANSMIT_TIMEOUT => OC_STACK_COMM_ERROR
  | _ => OC_STACK_ERROR
  end.

(** The pointer to a stored token. *)
Definition pointer (token : list Z) : option (list Z) := match token with [] => None | _ => Some token end.

(** ** Quality of service *)

(** The quality of a notification, and the observer with its counts. *)
Definition DetermineObserverQoS (o : ResourceObserver) (appQoS : OCQualityOfService) :
    OCQualityOfService * ResourceObserver :=
  let decidedQoS := if bool_decide (appQoS = OC_NA_QOS) then o_qos o else appQoS in
  if bool_decide (appQoS = OC_HIGH_QOS) then (decidedQoS, o)
  else if forceHighQos o || (MAX_OBSERVER_NON_COUNT <=? lowQosCount o)
  then (OC_HIGH_QOS, with_counts (failedCommCount o) 0 (forceHighQos o) o)
  else (decidedQoS, with_counts (failedCommCount o) (u8 (lowQosCount o + 1)) (forceHighQos o) o).

Section observe.
Context {A : Type} `{!Application A} {L : Cbor.CborLib} {E : CborEncoder}.
Notation St := (stack A).
Context (COAP_TICKS_PER_SECOND : Z).
(** What answers a request for a virtual resource, once observers are seen to, and the
    handling of collections without an entity handler. *)
Context (discovery : Z -> M St OCStackResult).
Context (DefaultCollectionEntityHandler : OCEntityHandlerRequest -> M St OCStackResult).

Definition GetTicks (milliSeconds : Z) : M St Z :=
  gets (fun s => ticks_after COAP_TICKS_PER_SECOND (now s) milliSeconds).
Definition observer_ttl : M St Z := GetTicks (MAX_OBSERVER_TTL_SECONDS * MILLISECONDS_PER_SECOND).

(** An observer, by the places of its resource and of itself. *)
Definition observer (r i : nat) : M St ResourceObserver :=
  let! x := resource r in demand (r_observers x !! i).
Definition update_observer (r i : nat) (f : ResourceObserver -> ResourceObserver) : M St unit :=
  update_resource r (fun x => with_observers (alter f i (r_observers x)) x).

(** ** Entity handlers *)

Definition run_handler (res : OCResource) (flag : Z) (req : OCEntityHandlerRequest) : M St OCEntityHandlerResult :=
  if r_defaultHandler res then ret OC_EH_OK
  else
    let! a := gets app in
    let '(r, responses, a) := entityHandler (r_uri res) flag req a in
    modify (set_app a) ;;; do_responses responses ;;; ret r.

Definition DetermineResourceHandling (q : OCServerRequest) : M St (OCStackResult * ResourceHandling * option nat) :=
  match GetTypeOfVirtualURI (q_resourceUrl q) with
  | Some _ => gets (fun s => (OC_STACK_OK, OC_RESOURCE_VIRTUAL, match headResource s with [] => None | _ => Some O end))
  | None =>
      if String.eqb (q_resourceUrl q) "" then ret (OC_STACK_NO_RESOURCE, OC_RESOURCE_NOT_SPECIFIED, None)
      else
        let! p := FindResourceByUri (q_resourceUrl q) in
        match p with
        | None =>
            ret match defaultDeviceHandler with
                | Some _ => (OC_STACK_OK, OC_RESOURCE_DEFAULT_DEVICE_ENTITYHANDLER, None)
                | None => (OC_STACK_NO_RESOURCE, OC_RESOURCE_NOT_SPECIFIED, None)
                end
        | Some r =>
            let! x := resource r in
            let result := CheckRequestsEndpoint (q_devAddr q) (r_endpointType x) in
            if negb (is_ok result) then ret (result, OC_RESOURCE_VIRTUAL, Some r)
            else ret (OC_STACK_OK,
              match r_collection x, r_defaultHandler x with
              | true, false => OC_RESOURCE_COLLECTION_WITH_ENTITYHANDLER
              | true, true => OC_RESOURCE_COLLECTION_DEFAULT_ENTITYHANDLER
              | false, false => OC_RESOURCE_NOT_COLLECTION_WITH_ENTITYHANDLER
              | false, true => OC_RESOURCE_NOT_COLLECTION_DEFAULT_ENTITYHANDLER
              end, Some r)
        end
  end.

Definition EHRequest (type : OCPayloadType) (h : Z) (r : option nat) : M St (OCStackResult * option OCEntityHandlerRequest) :=
  let! q := request h in
  demand (FormOCEntityHandlerRequest (Some h) (q_method q) (q_devAddr q) r (q_query q) type (q_payload q) (q_options q)
    (if q_notificationFlag q then OC_OBSERVE_NO_OPTION else q_observationOption q) 0 (q_coapID q)).

Definition with_obsId (id : Z) (q : OCEntityHandlerRequest) : OCEntityHandlerRequest :=
  mk_ehreq (eh_resource q) (eh_requestHandle q) (eh_method q) (eh_devAddr q) (eh_query q) (eh_action q) id
    (eh_messageID q) (eh_payload q) (eh_options q).

(** What follows the entity handler: the request is touched again, whether it was
    answered or not. *)
Definition after_handler (h : Z) (ehResult : OCEntityHandlerResult) : M St OCStackResult :=
  match ehResult with
  | OC_EH_SLOW => let! _ := request h in update_request h with_slow
  | OC_EH_ERROR => DeleteServerRequest h
  | _ => ret tt
  end ;;;
  ret (EntityHandlerCodeToOCStackCode ehResult).

Definition HandleDefaultDeviceEntityHandler (h : Z) : M St OCStackResult :=
  let! (result, req) := EHRequest PAYLOAD_TYPE_REPRESENTATION h None in
  match is_ok result, req, defaultDeviceHandler with
  | true, Some req, Some handler =>
      let! q := request h in
      let! a := gets app in
      let '(r, responses, a) := handler req (q_resourceUrl q) a in
      modify (set_app a) ;;; do_responses responses ;;; after_handler h r
  | true, Some _, None => undefined
  | _, _, _ => ret result
  end.
Definition HandleCollectionResourceDefaultEntityHandler (h : Z) (r : nat) : M St OCStackResult :=
  let! (result, req) := EHRequest PAYLOAD_TYPE_REPRESENTATION h (Some r) in
  match req with
  | Some req => if is_ok result then DefaultCollectionEntityHandler req else ret result
  | None => ret result
  end.

Section check.
Context (CheckTimedOutObserver : nat -> nat -> M St unit).

(** ** Looking for observers *)

Fixpoint walk (r : nat) (test : ResourceObserver -> option bool) (l : list nat) : M St (option nat) :=
  match l with
  | [] => ret None
  | i :: l' =>
      let! o := observer r i in
      let! e := demand (test o) in
      if e : bool then ret (Some i) else CheckTimedOutObserver r i ;;; walk r test l'
  end.
Definition places (r : nat) : M St (list nat) :=
  let! x := resource r in ret (seq 0 (List.length (r_observers x))).

Definition GetObserverUsingId (r : nat) (id : Z) : M St (option nat) :=
  let! l := places r in walk r (fun o => Some (observeId o =? id)) l.
Definition GetObserverUsingToken (r : nat) (token : option (list Z)) : M St (option nat) :=
  match token with
  | None => ret None
  | Some t => let! l := places r in walk r (fun o => same_token (o_token o) t) l
  end.

Definition DeleteObserverUsingToken (r : nat) (token : option (list Z)) : M St OCStackResult :=
  match token with
  | None => ret OC_STACK_INVALID_PARAM
  | Some t =>
      let! i := GetObserverUsingToken r (Some t) in
      match i with
      | Some i => update_resource r (fun x => with_observers (delete i (r_observers x)) x)
      | None => ret tt
      end ;;;
      ret OC_STACK_OK
  end.

Fixpoint delete_tokens (r : nat) (l : list (list Z)) : M St unit :=
  match l with
  | [] => ret tt
  | t :: l' => DeleteObserverUsingToken r (pointer t) ;;; delete_tokens r l'
  end.
Definition DeleteObserverList (r : nat) : M St unit :=
  let! x := resource r in
  delete_tokens r (map o_token (r_observers x)) ;;; update_resource r (with_observers []).

Fixpoint exists_id (id : Z) (l : list nat) : M St bool :=
  match l with
  | [] => ret false
  | r :: l' => let! i := GetObserverUsingId r id in match i with Some _ => ret true | None => exists_id id l' end
  end.
Definition IsObservationIdExisting (observationId : Z) : M St bool :=
  let! n := gets (fun s => List.length (headResource s)) in exists_id observationId (seq 0 n).

(** Random bytes are drawn until one is no identifier yet; the generator can fail. *)
Fixpoint draw_id (random : list (option Z)) : M St (option Z) :=
  match random with
  | [] => undefined
  | None :: rest => modify (set_random rest) ;;; ret None
  | Some v :: rest =>
      modify (set_random rest) ;;;
      let! b := IsObservationIdExisting v in
      if b : bool then draw_id rest else ret (Some v)
  end.
Definition GenerateObserverId : M St (OCStackResult * Z) :=
  let! l := gets random in
  let! v := draw_id l in
  ret match v with Some v => (OC_STACK_OK, v) | None => (OC_STACK_ERROR, 0) end.

Definition AddObserver (resUri : string) (query : option string) (obsId : Z) (token : option (list Z)) (r : nat)
    (qos : OCQualityOfService) (acceptFormat : OCPayloadFormat) (acceptVersion : Z) (devAddr : CaTypes.CAEndpoint_t) :
    M St OCStackResult :=
  let! x := resource r in
  if negb (flag_set (r_properties x) OC_OBSERVABLE) then ret OC_STACK_RESOURCE_ERROR
  else match token with
  | None => ret OC_STACK_INVALID_PARAM
  | Some t =>
      let! ttl := if String.eqb resUri OC_RSRVD_PRESENCE_URI then ret 0 else observer_ttl in
      let o := mk_observer obsId resUri query t devAddr qos 0 0 false ttl acceptFormat acceptVersion in
      update_resource r (fun x => with_observers (r_observers x ++ [o]) x) ;;;
      ret OC_STACK_OK
  end.

(** ** A request for a resource *)

(** Registration and its opposite: the request for the entity handler with its flag,
    or the result to return at once. *)
Definition observe_request (h : Z) (r : nat) (req : OCEntityHandlerRequest) :
    M St (OCStackResult + Z * OCEntityHandlerRequest) :=
  let! q := request h in
  if eh_action req =? OC_OBSERVE_NO_OPTION then ret (inr (OC_REQUEST_FLAG, req))
  else if eh_action req =? OC_OBSERVE_REGISTER then
    let! obs := GetObserverUsingToken r (pointer (q_token q)) in
    match obs with
    | Some _ => DeleteServerRequest h ;;; ret (inl OC_STACK_OK)
    | None =>
        let! (result, id) := GenerateObserverId in
        if negb (is_ok result) then ret (inl result)
        else
          let! result := AddObserver (q_resourceUrl q) (Some (q_query q)) id (pointer (q_token q)) r (q_qos q)
                           (q_acceptFormat q) (q_acceptVersion q) (q_devAddr q) in
          let req := with_obsId id req in
          match result with
          | OC_STACK_OK =>
              update_request h (with_observe OC_STACK_OK (q_observationOption q)) ;;;
              ret (inr (Z.lor OC_REQUEST_FLAG OC_OBSERVE_FLAG, req))
          | OC_STACK_RESOURCE_ERROR =>
              update_request h (with_observe OC_STACK_ERROR (q_observationOption q)) ;;; ret (inr (OC_REQUEST_FLAG, req))
          | _ => DeleteServerRequest h ;;; ret (inl result)
          end
    end
  else if eh_action req =? OC_OBSERVE_DEREGISTER then
    let! obs := GetObserverUsingToken r (pointer (q_token q)) in
    match obs with
    | None => ret (inl OC_STACK_ERROR)
    | Some i =>
        let! o := observer r i in
        let! result := DeleteObserverUsingToken r (pointer (q_token q)) in
        if is_ok result then
          update_request h (with_observe OC_STACK_OK (MAX_SEQUENCE_NUMBER + 1)) ;;;
          ret (inr (Z.lor OC_REQUEST_FLAG OC_OBSERVE_FLAG, with_obsId (observeId o) req))
        else DeleteServerRequest h ;;; ret (inl result)
    end
  else ret (inl OC_STACK_ERROR).

Definition HandleResourceWithEntityHandler (h : Z) (r : nat) : M St OCStackResult :=
  let! q := request h in
  let! x := resource r in
  let! (result, req) := EHRequest (if SRMIsSecurityResourceURI (Some (q_resourceUrl q)) then PAYLOAD_TYPE_SECURITY
                                   else PAYLOAD_TYPE_REPRESENTATION) h (Some r) in
  match req with
  | None => ret result
  | Some req =>
      let! o := observe_request h r req in
      match o with
      | inl result => ret result
      | inr (ehFlag, req) =>
          let! ehResult := run_handler x ehFlag req in
          after_handler h ehResult
      end
  end.

(** Of the virtual resources only the well-known one is observed.  Whether that
    succeeds or not, the request is answered. *)
Definition HandleVirtualObserveRequest (h : Z) : M St OCStackResult :=
  let! q := request h in
  if q_notificationFlag q then ret OC_STACK_OK
  else if negb (String.eqb (q_resourceUrl q) OC_RSRVD_WELL_KNOWN_URI) then ret OC_STACK_OK
  else
    let! p := FindResourceByUri OC_RSRVD_WELL_KNOWN_URI in
    match p with
    | None => ret OC_STACK_ERROR
    | Some r =>
        if q_observationOption q =? OC_OBSERVE_REGISTER then
          let! obs := GetObserverUsingToken r (pointer (q_token q)) in
          match obs with
          | Some _ => ret OC_STACK_DUPLICATE_REQUEST
          | None =>
              let! (result, id) := GenerateObserverId in
              let! result := if is_ok result
                then AddObserver (q_resourceUrl q) (Some (q_query q)) id (pointer (q_token q)) r (q_qos q)
                       (q_acceptFormat q) (q_acceptVersion q) (q_devAddr q)
                else ret result in
              update_request h (with_observe (if is_ok result then OC_STACK_OK else OC_STACK_ERROR) (q_observationOption q)) ;;;
              ret OC_STACK_OK
          end
        else if q_observationOption q =? OC_OBSERVE_DEREGISTER then
          let! result := DeleteObserverUsingToken r (pointer (q_token q)) in
          update_request h (if is_ok result then with_observe OC_STACK_OK (MAX_SEQUENCE_NUMBER + 1)
                            else with_observe OC_STACK_ERROR (q_observationOption q)) ;;;
          ret OC_STACK_OK
        else ret OC_STACK_OK
    end.

Definition HandleVirtualResource (h : Z) (r : option nat) : M St OCStackResult :=
  match r with
  | None => ret OC_STACK_INVALID_PARAM
  | Some _ =>
      let! q := request h in
      match q_method q with
      | OC_REST_PUT | OC_REST_POST | OC_REST_DELETE => DeleteServerRequest h ;;; ret OC_STACK_UNAUTHORIZED_REQ
      | _ =>
          let! result := HandleVirtualObserveRequest h in
          match result with
          | OC_STACK_DUPLICATE_REQUEST => DeleteServerRequest h ;;; ret OC_STACK_OK
          | OC_STACK_OK => discovery h
          | _ => ret result
          end
      end
  end.

Definition ProcessRequest (resHandling : ResourceHandling) (r : option nat) (h : Z) : M St OCStackResult :=
  match resHandling, r with
  | OC_RESOURCE_VIRTUAL, r => HandleVirtualResource h r
  | OC_RESOURCE_DEFAULT_DEVICE_ENTITYHANDLER, _ => HandleDefaultDeviceEntityHandler h
  | OC_RESOURCE_NOT_COLLECTION_DEFAULT_ENTITYHANDLER, _ => ret OC_STACK_ERROR
  | OC_RESOURCE_NOT_COLLECTION_WITH_ENTITYHANDLER, Some r
  | OC_RESOURCE_COLLECTION_WITH_ENTITYHANDLER, Some r => HandleResourceWithEntityHandler h r
  | OC_RESOURCE_COLLECTION_DEFAULT_ENTITYHANDLER, Some r => HandleCollectionResourceDefaultEntityHandler h r
  | OC_RESOURCE_NOT_SPECIFIED, _ => ret OC_STACK_NO_RESOURCE
  | _, None => ret OC_STACK_INVALID_PARAM
  end.

(** ** Notifications *)

(** The request that stands for a notification of an observer. *)
Definition notification_request (o : ResourceObserver) (sequenceNum : Z) (qos : OCQualityOfService) : M St Z :=
  let! h := AddServerRequest 0 true OC_REST_GET [] sequenceNum qos (o_query o) OC_FORMAT_UNDEFINED [] (o_token o)
    (o_resUri o) (o_acceptFormat o) (o_acceptVersion o) (o_devAddr o) in
  update_request h (with_observe OC_STACK_OK sequenceNum) ;;; ret h.

Definition SendObserveNotification (r i : nat) (sequenceNum : Z) (qos : OCQualityOfService) : M St OCStackResult :=
  let! o := observer r i in
  let! h := notification_request o sequenceNum qos in
  let! q := request h in
  let! (result, handling, res) := DetermineResourceHandling q in
  if is_ok result then
    let! result := ProcessRequest handling res h in
    let! ttl := observer_ttl in
    update_observer r i (with_TTL ttl) ;;; ret result
  else ret result.
End check.

Section check_step.
Context (check : nat -> nat -> M St unit).
Definition check_observer (r i : nat) : M St unit :=
  let! o := observer r i in
  let! n := gets now in
  if TTL o =? 0 then ret tt
  else if TTL o <? n then
    let! x := resource r in
    SendObserveNotification check r i (r_sequenceNum x) OC_HIGH_QOS ;;; ret tt
  else ret tt.
End check_step.

(** A notification is no registration, and so looks for no observer: the circle is
    closed after one round ([check_enough]). *)
Fixpoint timed_out (rounds : nat) : nat -> nat -> M St unit :=
  match rounds with
  | O => fun _ _ => undefined
  | S n => check_observer (timed_out n)
  end.
Definition CheckTimedOutObserver : nat -> nat -> M St unit := timed_out 1.
Notation check := CheckTimedOutObserver.

(** The quality of the last observer is where that of the next one starts. *)
Fixpoint notify_loop (r : nat) (l : list nat) (qos : OCQualityOfService) (result : OCStackResult) (observeErrorFlag : bool) :
    M St (OCStackResult * bool) :=
  match l with
  | [] => ret (result, observeErrorFlag)
  | i :: l' =>
      let! o := observer r i in
      let '(qos, o) := DetermineObserverQoS o qos in
      update_observer r i (fun _ => o) ;;;
      let! x := resource r in
      let! result := SendObserveNotification check r i (r_sequenceNum x) qos in
      notify_loop r l' qos result (observeErrorFlag || negb (is_ok result))
  end.
Definition SendAllObserverNotification (r : nat) (qos : OCQualityOfService) : M St OCStackResult :=
  let! l := places r in
  match l with
  | [] => ret OC_STACK_NO_OBSERVERS
  | _ =>
      let! (result, observeErrorFlag) := notify_loop r l qos OC_STACK_ERROR false in
      ret (if observeErrorFlag : bool then OC_STACK_ERROR else result)
  end.

(** How many were notified, and whether there was an error. *)
Fixpoint notify_list (r : nat) (ids : list Z) (payload : list RepPayload.OCRepPayload) (qos : OCQualityOfService)
    (numSent : Z) (observeErrorFlag : bool) : M St (Z * bool) :=
  match ids with
  | [] => ret (numSent, observeErrorFlag)
  | id :: ids' =>
      let! i := GetObserverUsingId check r id in
      match i with
      | None => notify_list r ids' payload qos numSent observeErrorFlag
      | Some i =>
          let! o := observer r i in
          let '(qos, o) := DetermineObserverQoS o qos in
          update_observer r i (fun _ => o) ;;;
          let! x := resource r in
          let! h := notification_request o (r_sequenceNum x) qos in
          let! result := OCDoResponse (mk_ehresp (Some h) OC_EH_OK (Some (Representation payload)) [] "") in
          let! ttl := observer_ttl in
          update_observer r i (with_TTL ttl) ;;;
          notify_list r ids' payload qos (if is_ok result then u8 (numSent + 1) else numSent)
            (observeErrorFlag || negb (is_ok result))
      end
  end.
Definition SendListObserverNotification (r : nat) (obsIdList : list Z) (payload : list RepPayload.OCRepPayload)
    (qos : OCQualityOfService) : M St OCStackResult :=
  let! x := resource r in
  match r_observers x with
  | [] => ret OC_STACK_NO_OBSERVERS
  | _ =>
      let! (numSent, observeErrorFlag) := notify_list r obsIdList payload qos 0 false in
      ret (if (numSent =? Z.of_nat (List.length obsIdList)) && negb observeErrorFlag then OC_STACK_OK else OC_STACK_ERROR)
  end.

Definition incrementSequenceNumber (x : OCResource) : OCResource :=
  let n := u32 (r_sequenceNum x + 1) in
  with_sequence (if n =? MAX_SEQUENCE_NUMBER then OC_OFFSET_SEQUENCE_NUMBER + 1 else n) x.

Definition findResource (r : nat) : M St bool := gets (fun s => bool_decide (r < List.length (headResource s))%nat).

Definition OCNotifyAllObservers (r : nat) (qos : OCQualityOfService) : M St OCStackResult :=
  let! b := findResource r in
  if negb b then ret OC_STACK_NO_RESOURCE
  else update_resource r incrementSequenceNumber ;;; SendAllObserverNotification r qos.
Definition OCNotifyListOfObservers (myStackMode : OCMode) (r : nat) (obsIdList : list Z)
    (payload : list RepPayload.OCRepPayload) (qos : OCQualityOfService) : M St OCStackResult :=
  let! b := findResource r in
  if negb b || match myStackMode with OC_CLIENT => true | _ => false end then ret OC_STACK_NO_RESOURCE
  else update_resource r incrementSequenceNumber ;;; SendListObserverNotification r obsIdList payload qos.

(** ** Feedback *)

Fixpoint find_in_resources (token : option (list Z)) (l : list nat) : M St (option (nat * nat)) :=
  match l with
  | [] => ret None
  | r :: l' =>
      let! i := GetObserverUsingToken check r token in
      match i with Some i => ret (Some (r, i)) | None => find_in_resources token l' end
  end.
Definition GetObserverFromResourceList (token : option (list Z)) : M St (option (nat * nat)) :=
  let! n := gets (fun s => List.length (headResource s)) in find_in_resources token (seq 0 n).

(** The entity handler is told that an observer is gone, which is then deleted. *)
Definition drop_observer (r i : nat) (token : option (list Z)) : M St unit :=
  let! x := resource r in
  let! o := observer r i in
  run_handler x OC_OBSERVE_FLAG (mk_ehreq None None OC_REST_NOMETHOD (o_devAddr o) "" OC_OBSERVE_DEREGISTER (observeId o) 0 None []) ;;;
  DeleteObserverUsingToken check r token ;;; ret tt.

Definition OCStackFeedBack (token : option (list Z)) (status : Z) : M St OCStackResult :=
  let! f := GetObserverFromResourceList token in
  match f with
  | None => ret OC_STACK_OBSERVER_NOT_FOUND
  | Some (r, i) =>
      if status =? OC_OBSERVER_NOT_INTERESTED then drop_observer r i token ;;; ret OC_STACK_OK
      else if status =? OC_OBSERVER_STILL_INTERESTED then
        update_observer r i (fun o => with_counts 0 (lowQosCount o) false o) ;;; ret OC_STACK_OK
      else if status =? OC_OBSERVER_FAILED_COMM then
        let! o := observer r i in
        if MAX_OBSERVER_FAILED_COMM <=? failedCommCount o then drop_observer r i token ;;; ret OC_STACK_OK
        else
          update_observer r i (fun o => with_counts (u8 (failedCommCount o + 1)) (lowQosCount o) true o) ;;;
          ret OC_STACK_CONTINUE
      else ret OC_STACK_ERROR
  end.
End observe.

(** ** The observe option *)

(** It is inserted first. *)
Definition CreateObserveHeaderOption (options : list CaTypes.CAHeaderOption_t) (observeFlag : Z) :
    list CaTypes.CAHeaderOption_t :=
  CaTypes.mk_option COAP_OPTION_OBSERVE [observeFlag] :: options.

(** Its value is the first byte, a [char]; the options behind it should move up, but only the
    next one does, and the last one is lost. *)
Fixpoint find_observe (options : list CaTypes.CAHeaderOption_t) (i : nat) : option (nat * Z) :=
  match options with
  | [] => None
  | o :: l => if CaTypes.optionID o =? COAP_OPTION_OBSERVE then Some (i, let c := nth 0 (CaTypes.optionData o) 0 in if c <? 128 then c else u32 (c - 256))
              else find_observe l (i + 1)
  end.
(** The option, the array, and how many of its elements are still options. *)
Definition GetObserveHeaderOption (observationOption : Z) (options : list CaTypes.CAHeaderOption_t) :
    Z * list CaTypes.CAHeaderOption_t * nat :=
  match find_observe options 0 with
  | None => (observationOption, options, List.length options)
  | Some (i, v) =>
      (v, match options !! (i + 1)%nat with Some o => <[i := o]> options | None => options end,
       (List.length options - 1)%nat)
  end.

End Observe.
