(* ===== verification/Server.v ===== *)
(** * Requests arrive at a server ([ocf/oocf_server.c])

    From the message of the connectivity layer to the entity handler and back. *)

From S2P Require Import Prelude.
From S2P Require Import Status.
From S2P Require Import CString.
From S2P Require Import CaTypes.
From S2P Require Import Cbor.
From S2P Require Import CoapCodec.
From S2P Require Import PayloadCodec.
From S2P Require Import Stack.
From S2P Require Import ServerRequest.
From S2P Require Import Observe.

Module Server.
Import CString Stack ServerRequest Observe PayloadCodec.
Open Scope m_scope.

Definition OCToCAStackResult (ocCode : OCStackResult) (method : OCMethod) : Z :=
  match ocCode with
  | OC_STACK_OK =>
      match method with
      | OC_REST_PUT | OC_REST_POST => 204
      | OC_REST_GET => 205
      | OC_REST_DELETE => 202
      | _ => 205
      end
  | OC_STACK_RESOURCE_CREATED => 201
  | OC_STACK_RESOURCE_DELETED => 202
  | OC_STACK_RESOURCE_CHANGED => 204
  | OC_STACK_INVALID_QUERY => 400
  | OC_STACK_INVALID_OPTION => 402
  | OC_STACK_NO_RESOURCE => 404
  | OC_STACK_COMM_ERROR | OC_STACK_GATEWAY_TIMEOUT => 504
  | OC_STACK_NOT_ACCEPTABLE => 406
  | OC_STACK_UNAUTHORIZED_REQ => 401
  | OC_STACK_FORBIDDEN_REQ => 403
  | OC_STACK_INTERNAL_SERVER_ERROR => 500
  | OC_STACK_BAD_ENDPOINT => 400
  | OC_STACK_SERVICE_UNAVAILABLE => 503
  | OC_STACK_INVALID_METHOD => 405
  | OC_STACK_TOO_LARGE_REQ => 413
  | _ => 500
  end.

Definition OCResultToSuccess (ocResult : OCStackResult) : bool :=
  match ocResult with
  | OC_STACK_OK | OC_STACK_RESOURCE_CREATED | OC_STACK_RESOURCE_DELETED | OC_STACK_CONTINUE
  | OC_STACK_RESOURCE_CHANGED | OC_STACK_SLOW_RESOURCE => true
  | _ => false
  end.

(** The query and what precedes it; an empty one is no pointer. *)
Definition nonempty_string (s : string) : option string := if String.eqb s "" then None else Some s.
Definition getQueryFromUri (uri : option string) : OCStackResult * option string * option string :=
  match uri with
  | None => (OC_STACK_INVALID_URI, None, None)
  | Some u =>
      match strchr u "?" with
      | None => (OC_STACK_OK, None, nonempty_string u)
      | Some i => (OC_STACK_OK, nonempty_string (str_drop (i + 1) u), nonempty_string (str_take i u))
      end
  end.

(** [OCServerProtocolRequest] *)
Record OCServerProtocolRequest : Type := mk_preq {
  p_observationOption : Z; p_method : OCMethod; p_payloadFormat : OCPayloadFormat; p_acceptFormat : OCPayloadFormat;
  p_acceptVersion : Z; p_resourceUrl : string; p_query : string; p_payload : list Z; p_qos : OCQualityOfService;
  p_options : list CaTypes.CAHeaderOption_t; p_devAddr : CaTypes.CAEndpoint_t; p_requestToken : list Z; p_coapID : Z }.

Section server.
Context {A : Type} `{!Application A} {L : Cbor.CborLib} {E : CborEncoder}.
Notation St := (stack A).
Context (COAP_TICKS_PER_SECOND : Z).
Context (discovery : Z -> M St OCStackResult).
Context (DefaultCollectionEntityHandler : OCEntityHandlerRequest -> M St OCStackResult).
Notation check := (CheckTimedOutObserver COAP_TICKS_PER_SECOND discovery DefaultCollectionEntityHandler).
Notation process := (ProcessRequest COAP_TICKS_PER_SECOND discovery DefaultCollectionEntityHandler check).

Definition SendDirectStackResponse (endPoint : CaTypes.CAEndpoint_t) (coapID responseResult type : Z)
    (options : list CaTypes.CAHeaderOption_t) (token : option (list Z)) (resourceUri : option (list Z)) (dataType : Z) :
    M St OCStackResult :=
  let! r := CASendResponse endPoint (CaTypes.mk_response responseResult
    (CaTypes.mk_info type coapID token options None 0 CoapCodec.CA_FORMAT_UNDEFINED 0 0 resourceUri dataType) false) in
  ret (if ca_ok r then OC_STACK_OK else CAResultToOCResult r).

(** A request is new, or the one with its token is handled again. *)
Definition HandleStackRequests (p : OCServerProtocolRequest) : M St OCStackResult :=
  let! found := GetServerRequestUsingToken (p_requestToken p) in
  let! h := match found with
            | Some h => ret h
            | None =>
                let! h := AddServerRequest (p_coapID p) false (p_method p) (p_options p) (p_observationOption p) (p_qos p)
                  (Some (p_query p)) (p_payloadFormat p) (p_payload p) (p_requestToken p) (p_resourceUrl p)
                  (p_acceptFormat p) (p_acceptVersion p) (p_devAddr p) in
                update_request h with_complete ;;; ret h
            end in
  let! q := request h in
  if q_requestComplete q then
    let! (result, handling, r) := DetermineResourceHandling q in
    if is_ok result then process handling r h else ret result
  else ret OC_STACK_CONTINUE.

(** What is answered without the entity handler. *)
Definition direct (endPoint : CaTypes.CAEndpoint_t) (requestInfo : CaTypes.CARequestInfo_t)
    (options : list CaTypes.CAHeaderOption_t) (code : Z) : M St unit :=
  let info := CaTypes.req_info requestInfo in
  let directResponseType := if CaTypes.type info =? CaTypes.CA_MSG_CONFIRM then CaTypes.CA_MSG_ACKNOWLEDGE
                            else CaTypes.CA_MSG_NONCONFIRM in
  SendDirectStackResponse endPoint (CaTypes.messageId info) code directResponseType options (CaTypes.token info)
    (CaTypes.resourceUri info) CaTypes.CA_RESPONSE_DATA ;;; ret tt.

Definition request_method (method : Z) : option OCMethod :=
  if method =? CaTypes.CA_GET then Some OC_REST_GET
  else if method =? CaTypes.CA_PUT then Some OC_REST_PUT
  else if method =? CaTypes.CA_POST then Some OC_REST_POST
  else if method =? CaTypes.CA_DELETE then Some OC_REST_DELETE
  else None.

Definition OCHandleRequests (myStackMode : OCMode) (endPoint : CaTypes.CAEndpoint_t)
    (requestInfo : CaTypes.CARequestInfo_t) : M St unit :=
  let info := CaTypes.req_info requestInfo in
  match myStackMode, getQueryFromUri (c_string <$> CaTypes.resourceUri info) with
  | OC_CLIENT, _ => ret tt
  | _, (result, query, uriWithoutQuery) =>
      match is_ok result, uriWithoutQuery with
      | true, Some uri =>
          if negb (strlen uri <? Z.of_nat MAX_URI_LENGTH) then ret tt
          else if negb (strlen (default ""%string query) <? Z.of_nat MAX_QUERY_LENGTH) then ret tt
          else
            let payload := default [] (CaTypes.payload info) in
            match request_method (CaTypes.method requestInfo) with
            | None => direct endPoint requestInfo (CaTypes.options info) 400
            | Some method =>
                let token := default [] (CaTypes.token info) in
                let acceptFormat := CAToOCPayloadFormat (CaTypes.acceptFormat info) in
                let acceptVersion := if bool_decide (acceptFormat = OC_FORMAT_VND_OCF_CBOR)
                                     then CaTypes.acceptVersion info else 0 in
                let qos := if CaTypes.type info =? CaTypes.CA_MSG_CONFIRM then OC_HIGH_QOS else OC_LOW_QOS in
                let '(observe, options, n) := GetObserveHeaderOption OC_OBSERVE_NO_OPTION (CaTypes.options info) in
                if MAX_HEADER_OPTIONS <? Z.of_nat (List.length (CaTypes.options info))
                then direct endPoint requestInfo options 402
                else
                  let! result := HandleStackRequests (mk_preq observe method
                    (match payload with [] => OC_FORMAT_CBOR | _ => CAToOCPayloadFormat (CaTypes.payloadFormat info) end)
                    acceptFormat acceptVersion uri (default ""%string query) payload qos (take n options)
                    (CopyEndpointToDevAddr endPoint) token (CaTypes.messageId info)) in
                  (if bool_decide (result = OC_STACK_SLOW_RESOURCE) && (CaTypes.type info =? CaTypes.CA_MSG_CONFIRM)
                   then SendDirectStackResponse endPoint (CaTypes.messageId info) CaTypes.CA_EMPTY
                          CaTypes.CA_MSG_ACKNOWLEDGE [] None None CaTypes.CA_RESPONSE_DATA
                   else ret OC_STACK_OK) ;;;
                  if bool_decide (result = OC_STACK_RESOURCE_ERROR) && (observe =? OC_OBSERVE_REGISTER) then ret tt
                  else if negb (OCResultToSuccess result)
                  then direct endPoint requestInfo options (OCToCAStackResult result method)
                  else ret tt
            end
      | _, _ => ret tt
      end
  end.

End server.

End Server.
