(* ===== verification/Client.v ===== *)
(** * Requests of a client and the responses to them

    The list of callbacks of [ocf/occlientcb.c], the requests and responses of
    [ocf/oocf_client.c], and of [ocf/ocstack.c] the cancellation of a request and the
    look of a batch response.  A callback is known by its handle. *)

From S2P Require Import Prelude.
From S2P Require Import Status.
From S2P Require Import CString.
From S2P Require Import SrmUtility.
From S2P Require Import CaTypes.
From S2P Require Import LibCoap.
From S2P Require Import CoapCodec.
From S2P Require Import Cbor.
From S2P Require Import RepPayload.
From S2P Require Import RepConvert.
From S2P Require Import PayloadCodec.
From S2P Require Import Stack.
From S2P Require Import ServerRequest.
From S2P Require Import Observe.
From S2P Require Import Server.

Module Client.
Import CString SrmUtility Stack ServerRequest Observe Server PayloadCodec.
Open Scope m_scope.

(** [OCStackApplicationResult] *)
Definition OC_STACK_DELETE_TRANSACTION : Z := 0.
Definition OC_STACK_KEEP_TRANSACTION : Z := 1.
Definition MAX_CB_TIMEOUT_SECONDS : Z := 2 * 60 * 60.

Definition qualityOfServiceToCoAPMessageType (qos : OCQualityOfService) : Z :=
  match qos with OC_HIGH_QOS => CaTypes.CA_MSG_CONFIRM | _ => CaTypes.CA_MSG_NONCONFIRM end.

Definition CAResponseToOCStackResult (caCode : Z) : OCStackResult :=
  if caCode =? 201 then OC_STACK_RESOURCE_CREATED
  else if caCode =? 202 then OC_STACK_RESOURCE_DELETED
  else if caCode =? 204 then OC_STACK_RESOURCE_CHANGED
  else if (caCode =? 205) || (caCode =? 203) then OC_STACK_OK
  else if caCode =? 400 then OC_STACK_INVALID_QUERY
  else if caCode =? 401 then OC_STACK_UNAUTHORIZED_REQ
  else if caCode =? 402 then OC_STACK_INVALID_OPTION
  else if caCode =? 404 then OC_STACK_NO_RESOURCE
  else if caCode =? 504 then OC_STACK_GATEWAY_TIMEOUT
  else if caCode =? 413 then OC_STACK_TOO_LARGE_REQ
  else if caCode =? 406 then OC_STACK_NOT_ACCEPTABLE
  else if caCode =? 403 then OC_STACK_FORBIDDEN_REQ
  else if caCode =? 500 then OC_STACK_INTERNAL_SERVER_ERROR
  else if caCode =? 503 then OC_STACK_SERVICE_UNAVAILABLE
  else OC_STACK_ERROR.

(** ** Filters of a query *)

Definition OC_RSRVD_INTERFACE_BATCH : string := "oic.if.b".
Definition OC_RSRVD_RD_URI : string := "/oic/rd".

(** [strtok_r] with the separators [&;]. *)
Fixpoint pairs (s token : string) : list string :=
  let emit l := match token with EmptyString => l | _ => token :: l end in
  match s with
  | EmptyString => emit []
  | String c s' => if Ascii.eqb c "&" || Ascii.eqb c ";" then emit (pairs s' EmptyString)
                   else pairs s' (token +:+ String c EmptyString)
  end.
Fixpoint skip_delimiters (s : string) : string :=
  match s with String c s' => if Ascii.eqb c "=" then skip_delimiters s' else s | _ => s end.

(** The filters by interface and by resource type. *)
Fixpoint filters (l : list string) (parsed : nat) (interface type : option string) :
    option (option string * option string) :=
  match l with
  | [] => Some (interface, type)
  | keyValuePair :: l' =>
      if (2 <=? parsed)%nat then None
      else
        let s := skip_delimiters keyValuePair in
        if String.eqb s "" then None
        else
          let i := upto s "=" in
          let key := str_take i s in
          let value := str_drop (i + 1) s in
          if strncasecmp_eq key RepConvert.OC_RSRVD_INTERFACE 2 then filters l' (parsed + 1) (Some value) type
          else if strncasecmp_eq key RepConvert.OC_RSRVD_RESOURCE_TYPE 2 then filters l' (parsed + 1) interface (Some value)
          else None
  end.
Definition ExtractFiltersFromQuery (query : option string) : option (option string * option string) :=
  match query with
  | None => None
  | Some q => if Z.of_nat MAX_QUERY_LENGTH <=? strlen q then None else filters (pairs q "") 0 None None
  end.

(** The payload a batch response is given to the application as; [None] when a null
    pointer is compared. *)
Definition HandleBatchResponse (requestUri : option string) (payload : list RepPayload.OCRepPayload) :
    option (list RepPayload.OCRepPayload) :=
  match requestUri, payload with
  | Some u, p :: _ =>
      match getQueryFromUri (Some u) with
      | (OC_STACK_OK, query, uriWithoutQuery) =>
          match ExtractFiltersFromQuery query with
          | Some (Some interfaceName, _) =>
              match String.eqb OC_RSRVD_INTERFACE_BATCH interfaceName, RepPayload.uri p with
              | true, Some uri =>
                  w ← uriWithoutQuery;
                  Some (if String.eqb w uri then payload
                        else snd (RepPayload.OCRepPayloadSetUri RepPayload.OCRepPayloadCreate (Some uri)) :: payload)
              | _, _ => Some payload
              end
          | _ => Some payload
          end
      | _ => Some payload
      end
  | _, _ => Some payload
  end.

(** ** Options that ask for a format *)

Definition schar (c : Z) : Z := if c <? 128 then c else c - 256.
Record accept : Type := mk_accept { aVersion : Z; aFormat : Z; aVersionSet : bool; aFormatSet : bool }.

(** [byte] reads a byte of the option: [uint8_t] in the options of an application,
    [char] in those of the connectivity layer. *)
Definition scan_accept (byte : Z -> Z) (a : accept) (o : CaTypes.CAHeaderOption_t) : accept :=
  let d := CaTypes.optionData o in
  let n := List.length d in
  let v16 := u16 (byte (nth 1 d 0) * 256 + byte (nth 0 d 0)) in
  if (CaTypes.optionID o =? CoapCodec.OCF_ACCEPT_CONTENT_FORMAT_VERSION) && (n =? 2)%nat
  then mk_accept v16 (aFormat a) true (aFormatSet a)
  else if CaTypes.optionID o =? LibCoap.COAP_OPTION_ACCEPT then
    mk_accept (aVersion a)
      (if (n =? 1)%nat then CoapCodec.CAConvertFormat (nth 0 d 0)
       else if (n =? 2)%nat then CoapCodec.CAConvertFormat v16 else CoapCodec.CA_FORMAT_UNSUPPORTED)
      (aVersionSet a) true
  else a.
Definition scan_accepts (byte : Z -> Z) (format : Z) (l : list CaTypes.CAHeaderOption_t) : accept :=
  foldl (scan_accept byte) (mk_accept CoapCodec.DEFAULT_VERSION_VALUE format false false) l.

(** What [OCDoRequest] adds to the options of a request that does not observe. *)
Definition accept_options (options : list CaTypes.CAHeaderOption_t) : list CaTypes.CAHeaderOption_t :=
  let a := scan_accepts (fun c => c) CoapCodec.COAP_MEDIATYPE_APPLICATION_VND_OCF_CBOR options in
  let version := CaTypes.mk_option CoapCodec.OCF_ACCEPT_CONTENT_FORMAT_VERSION (le16 (aVersion a)) in
  let format := CaTypes.mk_option LibCoap.COAP_OPTION_ACCEPT (le16 (aFormat a)) in
  options ++
  (if negb (aVersionSet a) && negb (aFormatSet a) then [format; version]
   else if aFormatSet a && (CoapCodec.CA_FORMAT_APPLICATION_VND_OCF_CBOR =? aFormat a) && negb (aVersionSet a) then [version]
   else if aVersionSet a && negb (aFormatSet a) then
     if CoapCodec.DEFAULT_VERSION_VALUE <=? aVersion a then [format] else [CaTypes.mk_option 0 []]
   else []).

(** Format and version of a payload that is sent. *)
Definition scan_content_format (c : Z * Z) (o : CaTypes.CAHeaderOption_t) : Z * Z :=
  let d := CaTypes.optionData o in
  let n := List.length d in
  if (CaTypes.optionID o =? CoapCodec.OCF_CONTENT_FORMAT_VERSION) && (n =? 2)%nat then (c.1, u16 (data16 d))
  else if CaTypes.optionID o =? LibCoap.COAP_OPTION_CONTENT_FORMAT then
    (if (n =? 1)%nat then CoapCodec.CAConvertFormat (nth 0 d 0)
     else if (n =? 2)%nat then CoapCodec.CAConvertFormat (data16 d) else CoapCodec.CA_FORMAT_UNSUPPORTED, c.2)
  else c.
Definition payload_format (options : list CaTypes.CAHeaderOption_t) : Z * Z :=
  let '(format, version) := foldl scan_content_format
    (CoapCodec.CA_FORMAT_APPLICATION_VND_OCF_CBOR, CoapCodec.DEFAULT_VERSION_VALUE) options in
  (format, if format =? CoapCodec.CA_FORMAT_APPLICATION_CBOR then 0 else version).

Section client.
Context {A : Type} `{!Application A} {L : Cbor.CborLib} {E : CborEncoder}.
Notation St := (stack A).
Context (COAP_TICKS_PER_SECOND : Z).
Context (discovery : Z -> M St OCStackResult).
Context (DefaultCollectionEntityHandler : OCEntityHandlerRequest -> M St OCStackResult).
Notation feedback := (OCStackFeedBack COAP_TICKS_PER_SECOND discovery DefaultCollectionEntityHandler).
Notation from_resources :=
  (GetObserverFromResourceList COAP_TICKS_PER_SECOND discovery DefaultCollectionEntityHandler).

Definition cb_ttl : M St Z :=
  gets (fun s => ticks_after COAP_TICKS_PER_SECOND (now s) (MAX_CB_TIMEOUT_SECONDS * MILLISECONDS_PER_SECOND)).

(** ** Callbacks *)

(** [LL_DELETE] and the deletion of the context. *)
Definition DeleteClientCBInternal (cb : ClientCB) : M St unit :=
  modify (fun s => set_cbs (filter (fun c => cb_handle c <> cb_handle cb) (g_cbList s)) s) ;;;
  modify (fun s => set_app (deleteCallback (cb_context cb) (app s)) s).
Definition CheckAndDeleteTimedOutCB (cb : ClientCB) : M St unit :=
  let! n := gets now in
  if cb_TTL cb =? 0 then ret tt else if cb_TTL cb <? n then DeleteClientCBInternal cb else ret tt.

(** Those that are passed on the way are deleted when they timed out. *)
Fixpoint search_cb (test : ClientCB -> option bool) (l : list ClientCB) : M St (option ClientCB) :=
  match l with
  | [] => ret None
  | cb :: l' =>
      let! e := demand (test cb) in
      if e : bool then ret (Some cb) else CheckAndDeleteTimedOutCB cb ;;; search_cb test l'
  end.
Definition GetClientCBUsingToken (token : option (list Z)) : M St (option ClientCB) :=
  match token with
  | None => ret None
  | Some t =>
      if (CoapCodec.CA_MAX_TOKEN_LEN <? Z.of_nat (List.length t)) || (List.length t =? 0)%nat then ret None
      else let! l := gets g_cbList in search_cb (fun cb => same_token (cb_token cb) t) l
  end.
Definition GetClientCBUsingHandle (handle : OCDoHandle) : M St (option ClientCB) :=
  let! l := gets g_cbList in search_cb (fun cb => Some (cb_handle cb =? handle)) l.

Definition DeleteClientCB (cb : ClientCB) : M St unit :=
  let! l := gets g_cbList in
  match list_find (fun c => cb_handle c = cb_handle cb) l with
  | Some (_, c) => DeleteClientCBInternal c
  | None => ret tt
  end.
Fixpoint delete_cbs (l : list ClientCB) : M St unit :=
  match l with [] => ret tt | cb :: l' => DeleteClientCBInternal cb ;;; delete_cbs l' end.
Definition DeleteClientCBList : M St unit := let! l := gets g_cbList in delete_cbs l ;;; modify (set_cbs []).

(** The callback is the last of the list. *)
Definition AddClientCB (context type : Z) (token : list Z) (options : list CaTypes.CAHeaderOption_t)
    (payload : option (list Z)) (payloadFormat : Z) (handle : OCDoHandle) (method : OCMethod)
    (devAddr : CaTypes.CAEndpoint_t) (requestUri : option string) (ttl : Z) : M St (OCStackResult * option ClientCB) :=
  if CoapCodec.CA_MAX_TOKEN_LEN <? Z.of_nat (List.length token) then ret (OC_STACK_INVALID_PARAM, None)
  else
    let cb := mk_cb context type token options (CaTypes.nonempty payload) payloadFormat handle method 0 requestUri devAddr
      (if bool_decide (method = OC_REST_OBSERVE \/ method = OC_REST_OBSERVE_ALL) then 0 else ttl) in
    modify (fun s => set_cbs (g_cbList s ++ [cb]) s) ;;; ret (OC_STACK_OK, Some cb).

Definition update_cb (handle : OCDoHandle) (f : ClientCB -> ClientCB) : M St unit :=
  modify (fun s => set_cbs (map (fun c => if cb_handle c =? handle then f c else c) (g_cbList s)) s).
Definition with_cb (sequenceNumber ttl : Z) (c : ClientCB) : ClientCB :=
  mk_cb (cb_context c) (cb_type c) (cb_token c) (cb_options c) (cb_payload c) (cb_payloadFormat c) (cb_handle c)
    (cb_method c) sequenceNumber (cb_requestUri c) (cb_devAddr c) ttl.

(** ** Requests *)

Definition OCSendRequest (object : CaTypes.CAEndpoint_t) (requestInfo : CaTypes.CARequestInfo_t) : M St OCStackResult :=
  let info := CaTypes.req_info requestInfo in
  let a := scan_accepts schar CoapCodec.CA_FORMAT_APPLICATION_VND_OCF_CBOR (CaTypes.options info) in
  let acceptFormat := if CaTypes.acceptFormat info =? CoapCodec.CA_FORMAT_UNDEFINED then aFormat a else CaTypes.acceptFormat info in
  let acceptVersion := if acceptFormat =? CoapCodec.CA_FORMAT_APPLICATION_CBOR then 0 else aVersion a in
  let info := CaTypes.mk_info (CaTypes.type info) (CaTypes.messageId info) (CaTypes.token info) (CaTypes.options info)
    (CaTypes.payload info) (CaTypes.payloadFormat info) acceptFormat (CaTypes.payloadVersion info) acceptVersion
    (CaTypes.resourceUri info) (CaTypes.info_dataType info) in
  let! r := CASendRequest object (CaTypes.mk_request (CaTypes.method requestInfo) info (CaTypes.req_isMulticast requestInfo)) in
  ret (if ca_ok r then OC_STACK_OK else CAResultToOCResult r).

Definition ca_method (method : OCMethod) : option Z :=
  match method with
  | OC_REST_GET | OC_REST_OBSERVE | OC_REST_OBSERVE_ALL | OC_REST_DISCOVER => Some CaTypes.CA_GET
  | OC_REST_PUT => Some CaTypes.CA_PUT
  | OC_REST_POST => Some CaTypes.CA_POST
  | OC_REST_DELETE => Some CaTypes.CA_DELETE
  | OC_REST_NOMETHOD => None
  end.

(** A request to one device, whose URI was split into the address [devAddr] and
    [resourceUri]; the token and the handle are new.  When it is not sent, they are
    freed twice: with the callback, and here. *)
Definition OCDoRequest (handle : OCDoHandle) (token : list Z) (method : OCMethod) (devAddr : CaTypes.CAEndpoint_t)
    (resourceUri : string) (payload : option OCPayload) (qos : OCQualityOfService) (context : Z)
    (options : list CaTypes.CAHeaderOption_t) : M St OCStackResult :=
  match ca_method method with
  | None => ret OC_STACK_INVALID_METHOD
  | Some m =>
      let opts := if bool_decide (method = OC_REST_OBSERVE \/ method = OC_REST_OBSERVE_ALL)
                  then CreateObserveHeaderOption options OC_OBSERVE_REGISTER else accept_options options in
      let! (bytes, format, version) :=
        match payload with
        | None => ret (None, CoapCodec.CA_FORMAT_UNDEFINED, 0)
        | Some p =>
            let '(format, version) := payload_format options in
            let! (_, b) := demand (OCConvertPayload (enough_fuel p) p) in ret (Some b, format, version)
        end in
      let info := CaTypes.mk_info (qualityOfServiceToCoAPMessageType qos) 0 (Some token) opts bytes format 0 version 0
        (Some (codes resourceUri)) 0 in
      let! ttl := cb_ttl in
      let! (result, cb) := AddClientCB context (qualityOfServiceToCoAPMessageType qos) token opts bytes format handle method
        devAddr (Some resourceUri) ttl in
      match is_ok result, cb with
      | true, Some cb =>
          let! result := OCSendRequest (CopyDevAddrToEndpoint devAddr) (CaTypes.mk_request m info false) in
          if is_ok result then ret result else undefined
      | _, _ => ret result
      end
  end.

Definition OCCancel (handle : OCDoHandle) (qos : OCQualityOfService) (options : list CaTypes.CAHeaderOption_t) :
    M St OCStackResult :=
  let! found := GetClientCBUsingHandle handle in
  match found with
  | None => ret OC_STACK_ERROR
  | Some cb =>
      match cb_method cb with
      | OC_REST_OBSERVE | OC_REST_OBSERVE_ALL =>
          let endpoint := CopyDevAddrToEndpoint (cb_devAddr cb) in
          if flag_set (CaTypes.adapter endpoint) CaTypes.CA_ADAPTER_IP && negb (bool_decide (qos = OC_HIGH_QOS))
          then DeleteClientCB cb ;;; ret OC_STACK_OK
          else
            OCSendRequest endpoint (CaTypes.mk_request CaTypes.CA_GET
              (CaTypes.mk_info (qualityOfServiceToCoAPMessageType qos) 0 (Some (cb_token cb))
                 (CreateObserveHeaderOption options OC_OBSERVE_DEREGISTER) None 0 0 0 0 (codes <$> cb_requestUri cb) 0) false)
      | OC_REST_NOMETHOD => ret OC_STACK_INVALID_METHOD
      | _ => DeleteClientCB cb ;;; ret OC_STACK_OK
      end
  end.

(** ** Responses *)

(** The type the payload of a response is read as; [Some None]: the response is
    dropped.  Discovery, which has a format of its own, is left out: [None]. *)
Definition payload_type (cb : ClientCB) (format : Z) : option (option OCPayloadType) :=
  if SRMIsSecurityResourceURI (cb_requestUri cb) then Some (Some PAYLOAD_TYPE_SECURITY)
  else match cb_method cb, cb_requestUri cb with
  | OC_REST_DISCOVER, None => None
  | OC_REST_DISCOVER, Some u =>
      if strncmp_eq OC_RSRVD_WELL_KNOWN_URI u (String.length OC_RSRVD_WELL_KNOWN_URI) then None
      else if String.eqb u OC_RSRVD_DEVICE_URI || String.eqb u OC_RSRVD_PLATFORM_URI || String.eqb u OC_RSRVD_RD_URI
      then Some (Some PAYLOAD_TYPE_REPRESENTATION) else Some None
  | OC_REST_NOMETHOD, _ => Some None
  | _, Some u =>
      Some (Some (if String.eqb u OC_RSRVD_DEVICE_URI || String.eqb u OC_RSRVD_PLATFORM_URI then PAYLOAD_TYPE_REPRESENTATION
                  else if format =? CoapCodec.CA_FORMAT_UNDEFINED then PAYLOAD_TYPE_DIAGNOSTIC
                  else PAYLOAD_TYPE_REPRESENTATION))
  | _, None => Some (Some PAYLOAD_TYPE_REPRESENTATION)
  end.

(** Big-endian, at most four bytes. *)
Definition observe_value (d : list Z) : Z := foldl (fun v b => u32 (Z.lor (u32 (Z.shiftl v 8)) b)) 0 (take 4 d).

(** The sequence number of a response and the options for the application. *)
Definition response_sequence (options : list CaTypes.CAHeaderOption_t) : Z * list CaTypes.CAHeaderOption_t :=
  match options with
  | o :: l => if CaTypes.optionID o =? COAP_OPTION_OBSERVE then (observe_value (CaTypes.optionData o), l)
              else (MAX_SEQUENCE_NUMBER + 1, options)
  | [] => (MAX_SEQUENCE_NUMBER + 1, [])
  end.

Definition call_back (cb : ClientCB) (response : OCClientResponse) : M St Z :=
  let! a := gets app in
  let '(f, a) := callBack (cb_context cb) (cb_handle cb) response a in
  modify (set_app a) ;;; ret f.

Definition acknowledge (endPoint : CaTypes.CAEndpoint_t) (info : CaTypes.CAInfo_t) : M St unit :=
  (if CaTypes.type info =? CaTypes.CA_MSG_CONFIRM
   then SendDirectStackResponse endPoint (CaTypes.messageId info) CaTypes.CA_EMPTY CaTypes.CA_MSG_ACKNOWLEDGE [] None None
          CaTypes.CA_RESPONSE_FOR_RES
   else ret OC_STACK_OK) ;;; ret tt.

(** What [OCParsePayload] read, [Some None] when it cannot.  The type of the payload is
    looked at, which must not be null. *)
Definition parsed_payload (type : OCPayloadType) (b : list Z) : option (option (option OCPayload)) :=
  '(r, p) ← OCParsePayload type b;
  if is_ok r then p ← p; Some (Some (Some p)) else Some None.

(** An error response is given to the application without a payload of the security type. *)
Definition response_payload (cb : ClientCB) (result : OCStackResult) (type : OCPayloadType) (b : list Z) :
    option (option (option OCPayload)) :=
  match type with
  | PAYLOAD_TYPE_SECURITY => if OCResultToSuccess result then parsed_payload type b else Some (Some None)
  | _ => parsed_payload type b
  end.

Definition batch (cb : ClientCB) (p : option OCPayload) : option (option OCPayload) :=
  match p with
  | Some (Representation l) => l ← HandleBatchResponse (cb_requestUri cb) l; Some (Some (Representation l))
  | _ => Some p
  end.

(** A response that is no error of the transport. *)
Definition regular_response (endPoint : CaTypes.CAEndpoint_t) (responseInfo : CaTypes.CAResponseInfo_t) (cb : ClientCB) :
    M St unit :=
  let info := CaTypes.resp_info responseInfo in
  let result := CAResponseToOCStackResult (CaTypes.result responseInfo) in
  let! payload := match CaTypes.nonempty (CaTypes.payload info) with
                  | None => ret (Some (None, CaTypes.resourceUri info))
                  | Some b =>
                      let! t := demand (payload_type cb (CaTypes.payloadFormat info)) in
                      match t with
                      | None => ret None
                      | Some t =>
                          let! p := demand (response_payload cb result t b) in
                          ret match p with
                              | None => None
                              | Some p => Some (p, match t with
                                                   | PAYLOAD_TYPE_SECURITY =>
                                                       if OCResultToSuccess result then CaTypes.resourceUri info
                                                       else codes <$> cb_requestUri cb
                                                   | _ => CaTypes.resourceUri info
                                                   end)
                              end
                      end
                  end in
  match payload with
  | None => ret tt
  | Some (payload, uri) =>
      let '(sequenceNumber, options) := response_sequence (CaTypes.options info) in
      if MAX_HEADER_OPTIONS <? Z.of_nat (List.length options) then ret tt
      else
        (if bool_decide (cb_method cb = OC_REST_OBSERVE) && (OC_OFFSET_SEQUENCE_NUMBER <? sequenceNumber)
            && (cb_sequenceNumber cb <=? MAX_SEQUENCE_NUMBER) && (sequenceNumber <=? cb_sequenceNumber cb)
         then ret tt
         else
           let! payload := demand (batch cb payload) in
           let! appFeedback := call_back cb (mk_cresp (CopyEndpointToDevAddr endPoint) result sequenceNumber uri payload options) in
           if flag_set appFeedback OC_STACK_KEEP_TRANSACTION then
             let! ttl := cb_ttl in update_cb (cb_handle cb) (with_cb sequenceNumber ttl)
           else DeleteClientCB cb) ;;;
        acknowledge endPoint info
  end.

(** A request that was not acceptable is sent once more, asking for CBOR. *)
Definition reissue (endPoint : CaTypes.CAEndpoint_t) (cb : ClientCB) (m : Z) : M St OCStackResult :=
  OCSendRequest endPoint (CaTypes.mk_request m
    (CaTypes.mk_info (cb_type cb) 0 (Some (cb_token cb)) (cb_options cb) (cb_payload cb)
       CoapCodec.CA_FORMAT_APPLICATION_CBOR CoapCodec.CA_FORMAT_APPLICATION_CBOR 0 0 (codes <$> cb_requestUri cb) 0) false).

(** An error of the transport ends the request. *)
Definition failed_response (endPoint : CaTypes.CAEndpoint_t) (responseInfo : CaTypes.CAResponseInfo_t) (cb : ClientCB) :
    M St unit :=
  call_back cb (mk_cresp (CopyEndpointToDevAddr endPoint) (CAResponseToOCStackResult (CaTypes.result responseInfo)) 0
    (CaTypes.resourceUri (CaTypes.resp_info responseInfo)) None []) ;;;
  DeleteClientCB cb.

Definition has_observe_option (info : CaTypes.CAInfo_t) : bool :=
  existsb (fun o => CaTypes.optionID o =? COAP_OPTION_OBSERVE) (CaTypes.options info).

Definition client_response (endPoint : CaTypes.CAEndpoint_t) (responseInfo : CaTypes.CAResponseInfo_t) (cb : ClientCB) :
    M St unit :=
  let info := CaTypes.resp_info responseInfo in
  let code := CaTypes.result responseInfo in
  if code =? CaTypes.CA_EMPTY then ret tt
  else if code =? CaTypes.CA_REQUEST_ENTITY_INCOMPLETE then ret tt
  else if (code =? 504) || (code =? 406) then
    match ca_method (cb_method cb) with
    | Some m =>
        if (code =? 406) && (CaTypes.payloadFormat info =? CoapCodec.CA_FORMAT_UNDEFINED) then
          let! r := reissue endPoint cb m in
          if is_ok r then ret tt else failed_response endPoint responseInfo cb
        else failed_response endPoint responseInfo cb
    | None => failed_response endPoint responseInfo cb
    end
  else if bool_decide (cb_method cb = OC_REST_OBSERVE \/ cb_method cb = OC_REST_OBSERVE_ALL) && (code =? 205)
          && negb (has_observe_option info) then
    call_back cb (mk_cresp (CopyEndpointToDevAddr endPoint) OC_STACK_OK (MAX_SEQUENCE_NUMBER + 1)
      (CaTypes.resourceUri info) None []) ;;;
    DeleteClientCB cb
  else regular_response endPoint responseInfo cb.

(** A response with the token of an observer tells of a notification. *)
Definition observer_response (responseInfo : CaTypes.CAResponseInfo_t) : M St unit :=
  let info := CaTypes.resp_info responseInfo in
  (if CaTypes.result responseInfo =? CaTypes.CA_EMPTY then
     if CaTypes.type info =? CaTypes.CA_MSG_RESET then feedback (CaTypes.token info) OC_OBSERVER_NOT_INTERESTED
     else if CaTypes.type info =? CaTypes.CA_MSG_ACKNOWLEDGE then feedback (CaTypes.token info) OC_OBSERVER_STILL_INTERESTED
     else ret OC_STACK_OK
   else if CaTypes.result responseInfo =? 504 then feedback (CaTypes.token info) OC_OBSERVER_FAILED_COMM
   else ret OC_STACK_OK) ;;; ret tt.

Definition is_client (m : OCMode) : bool := match m with OC_SERVER => false | _ => true end.

Definition OCHandleResponse (myStackMode : OCMode) (endPoint : CaTypes.CAEndpoint_t)
    (responseInfo : CaTypes.CAResponseInfo_t) : M St unit :=
  let info := CaTypes.resp_info responseInfo in
  let! found := GetClientCBUsingToken (CaTypes.token info) in
  match found with
  | Some cb => client_response endPoint responseInfo cb
  | None =>
      let! f := from_resources (CaTypes.token info) in
      match f with
      | Some _ => observer_response responseInfo
      | None =>
          if is_client myStackMode && negb (CaTypes.result responseInfo =? CaTypes.CA_EMPTY) then
            SendDirectStackResponse endPoint (CaTypes.messageId info) CaTypes.CA_EMPTY CaTypes.CA_MSG_RESET [] None None
              CaTypes.CA_RESPONSE_FOR_RES ;;; ret tt
          else ret tt
      end
  end.

(** An error of the connectivity layer: the callback is told, and so is an observer. *)
Definition HandleCAErrorResponse (endPoint : CaTypes.CAEndpoint_t) (result : CAResult_t) (info : CaTypes.CAInfo_t) : M St unit :=
  let! found := GetClientCBUsingToken (CaTypes.token info) in
  match found with
  | Some cb =>
      let! f := call_back cb (mk_cresp (CopyEndpointToDevAddr endPoint) (CAResultToOCResult result) 0
        (CaTypes.resourceUri info) None []) in
      if f =? OC_STACK_DELETE_TRANSACTION then DeleteClientCB cb else ret tt
  | None => ret tt
  end ;;;
  let! o := from_resources (CaTypes.token info) in
  match o with
  | Some _ => if bool_decide (CAResultToOCResult result = OC_STACK_COMM_ERROR)
              then feedback (CaTypes.token info) OC_OBSERVER_FAILED_COMM ;;; ret tt else ret tt
  | None => ret tt
  end.
End client.

End Client.
