(* ===== verification/StackDemo.v ===== *)
(** * A light and its observers

    A concrete application for the theorems about the stack: a server with one
    observable resource whose entity handler answers every request at once, and a
    client whose callback keeps what it is given. *)

From S2P Require Import Prelude.
From S2P Require Import Status.
From S2P Require Import CString.
From S2P Require Import CaTypes.
From S2P Require Import CoapCodec.
From S2P Require Import OcEndpoint.
From S2P Require Import Cbor.
From S2P Require Import RepPayload.
From S2P Require Import PayloadCodec.
From S2P Require Import Stack.
From S2P Require Import ServerRequest.
From S2P Require Import Observe.
From S2P Require Import Client.

Module StackDemo.
Import CString Stack PayloadCodec Client.

Definition light : RepPayload.OCRepPayload :=
  RepPayload.mk_rep RepPayload.PAYLOAD_NON_BATCH_INTERFACE None [] [] [("power"%string, RepPayload.OCREP_PROP_INT 75)].

(** What was delivered: the sequence number and the payload. *)
Notation delivered := (list (Z * option OCPayload)).
Definition light_on (req : OCEntityHandlerRequest) : OCEntityHandlerResponse :=
  mk_ehresp (eh_requestHandle req) OC_EH_OK (Some (Representation [light])) [] "".
#[export] Instance light_app : Application delivered := {
  entityHandler uri flag req a := (OC_EH_OK, if flag_set flag OC_REQUEST_FLAG then [light_on req] else [], a);
  defaultDeviceHandler := None;
  callBack context handle r a := (OC_STACK_KEEP_TRANSACTION, a ++ [(c_sequenceNumber r, c_payload r)]);
  deleteCallback context a := a }.

Definition ticks : Z := 1000.
Definition no_discovery (h : Z) : M (stack delivered) OCStackResult := ret OC_STACK_OK.
Definition no_collection (q : OCEntityHandlerRequest) : M (stack delivered) OCStackResult := ret OC_STACK_OK.

Definition phone : CaTypes.CAEndpoint_t := CaTypes.mk_endpoint CaTypes.CA_ADAPTER_IP 64 5683 "192.0.2.7" 0.
Definition uri : string := "/a/light".
Definition light_resource (l : list ResourceObserver) : OCResource :=
  mk_resource uri OC_OBSERVABLE 0 l OcEndpoint.OC_COAP false false.
Definition server (r : list (option Z)) (l : list ResourceObserver) : stack delivered :=
  mk_stack 0 r [] [] [light_resource l] [] 1 [] [] [].
Definition get_request (id : Z) (token : list Z) (observe : list Z) : CaTypes.CARequestInfo_t :=
  CaTypes.mk_request CaTypes.CA_GET
    (CaTypes.mk_info CaTypes.CA_MSG_CONFIRM id (Some token) [CaTypes.mk_option COAP_OPTION_OBSERVE observe] None
       CoapCodec.CA_FORMAT_UNDEFINED CoapCodec.CA_FORMAT_APPLICATION_CBOR 0 0 (Some (codes uri)) 0) false.

End StackDemo.
