(* ===== verification/ObserveLaws.v ===== *)
(** * Laws of the observers

    Sequence numbers, the quality of notifications, and who is observing: an
    operation of the server leaves the observers alone, adds one whose identifier and
    token are new, or removes some. *)

From S2P Require Import Prelude.
From S2P Require Import Status.
From S2P Require Import CString.
From S2P Require Import SrmUtility.
From S2P Require Import CaTypes.
From S2P Require Import CoapCodec.
From S2P Require Import Cbor.
From S2P Require Import PayloadCodec.
From S2P Require Import Stack.
From S2P Require Import ServerRequest.
From S2P Require Import Observe.
From S2P Require Import Server.
From S2P Require Import Client.

Module ObserveLaws.
Import CString Stack ServerRequest Observe Server PayloadCodec.
Open Scope m_scope.

(** ** Sequence numbers *)

Lemma sequence_step x : 0 <= r_sequenceNum x < MAX_SEQUENCE_NUMBER ->
  incrementSequenceNumber x = with_sequence (r_sequenceNum x mod (MAX_SEQUENCE_NUMBER - 1) + 1) x.
Proof.
  intros H. unfold incrementSequenceNumber, wrap. unfold MAX_SEQUENCE_NUMBER, OC_OFFSET_SEQUENCE_NUMBER in *.
  rewrite (Z.mod_small (r_sequenceNum x + 1)) by lia. destruct (Z.eqb_spec (r_sequenceNum x + 1) 16777215) as [E|E].
  - replace (r_sequenceNum x) with 16777214 by lia. reflexivity.
  - f_equal. rewrite Z.mod_small by lia. lia.
Qed.

Lemma sequence_iter x k : 0 <= r_sequenceNum x < MAX_SEQUENCE_NUMBER ->
  Nat.iter (S k) incrementSequenceNumber x
  = with_sequence ((r_sequenceNum x + Z.of_nat k) mod (MAX_SEQUENCE_NUMBER - 1) + 1) x.
Proof.
  intros H. induction k as [|k IH].
  - cbn [Nat.iter]. rewrite sequence_step by done. by rewrite Z.add_0_r.
  - change (Nat.iter (S (S k)) incrementSequenceNumber x)
      with (incrementSequenceNumber (Nat.iter (S k) incrementSequenceNumber x)).
    rewrite IH. pose proof (Z.mod_pos_bound (r_sequenceNum x + Z.of_nat k) (MAX_SEQUENCE_NUMBER - 1) ltac:(done)) as Hb.
    rewrite sequence_step by (cbn; lia). cbn [r_sequenceNum with_sequence r_uri r_properties r_observers r_endpointType r_collection r_defaultHandler].
    rewrite Zplus_mod_idemp_l. unfold with_sequence. cbn. do 2 f_equal. f_equal. lia.
Qed.

(** C27: The numbers of successive notifications go from 1 to the one before the
    largest and start again: none of them is 0, the number of a registration, or is
    repeated within a round.  The first number of a new resource, and of every
    round, is 1, which is also the value of [OC_OBSERVE_DEREGISTER]. *)
Theorem sequence_numbers x j k : 0 <= r_sequenceNum x < MAX_SEQUENCE_NUMBER ->
  let n i := r_sequenceNum (Nat.iter (S i) incrementSequenceNumber x) in
  1 <= n k < MAX_SEQUENCE_NUMBER /\ n k <> OC_OBSERVE_REGISTER /\
  n (S k) = (if n k =? MAX_SEQUENCE_NUMBER - 1 then 1 else n k + 1) /\
  (n j = n k <-> (Z.of_nat j - Z.of_nat k) mod (MAX_SEQUENCE_NUMBER - 1) = 0) /\
  (n k = OC_OBSERVE_DEREGISTER <->
     (r_sequenceNum x + Z.of_nat k) mod (MAX_SEQUENCE_NUMBER - 1) = OC_OFFSET_SEQUENCE_NUMBER).
Proof.
  intros H n. assert (En : forall i, n i = (r_sequenceNum x + Z.of_nat i) mod (MAX_SEQUENCE_NUMBER - 1) + 1).
  { intros i. unfold n. by rewrite sequence_iter by done. }
  rewrite !En, Nat2Z.inj_succ. unfold OC_OBSERVE_REGISTER, OC_OBSERVE_DEREGISTER,
    OC_OFFSET_SEQUENCE_NUMBER, MAX_SEQUENCE_NUMBER in *. change (16777215 - 1) with 16777214.
  split_and!; [..|lia];
    [| | |destruct (Z.eqb_spec ((r_sequenceNum x + Z.of_nat k) mod 16777214 + 1) 16777214)|split];
    Z.div_mod_to_equations; lia.
Qed.

Lemma sequence_numbers_witness :
  let x := mk_resource "/a/light" OC_OBSERVABLE 0 [] 0 false false in
  r_sequenceNum (incrementSequenceNumber x) = OC_OBSERVE_DEREGISTER /\
  1 <= r_sequenceNum (Nat.iter 9 incrementSequenceNumber x) < MAX_SEQUENCE_NUMBER.
Proof.
  intros x. destruct (sequence_numbers x 0 8) as [H _]; [cbn; unfold MAX_SEQUENCE_NUMBER; lia|].
  destruct (sequence_numbers x 0 0) as (_ & _ & _ & _ & H0); [cbn; unfold MAX_SEQUENCE_NUMBER; lia|].
  split; [by apply H0|exact H].
Defined.

(** ** Quality of service *)

(** The qualities decided for one observer, for those the application asks for. *)
Fixpoint decide_all (o : ResourceObserver) (l : list OCQualityOfService) : list OCQualityOfService * ResourceObserver :=
  match l with
  | [] => ([], o)
  | q :: l' => let '(d, o) := DetermineObserverQoS o q in let '(ds, o) := decide_all o l' in (d :: ds, o)
  end.

Lemma decide_step o q : 0 <= lowQosCount o <= MAX_OBSERVER_NON_COUNT ->
  let '(d, o') := DetermineObserverQoS o q in
  0 <= lowQosCount o' <= MAX_OBSERVER_NON_COUNT /\ forceHighQos o' = forceHighQos o /\
  (d = OC_HIGH_QOS \/ (lowQosCount o' = lowQosCount o + 1 /\ forceHighQos o = false)) /\
  (q = OC_HIGH_QOS \/ forceHighQos o = true -> d = OC_HIGH_QOS).
Proof.
  intros H. unfold DetermineObserverQoS, MAX_OBSERVER_NON_COUNT in *.
  destruct (bool_decide_reflect (q = OC_HIGH_QOS)) as [->|Hq]; cbn; [tauto|].
  destruct (forceHighQos o) eqn:Ef; cbn; [repeat split; try lia; tauto|].
  destruct (Z.leb_spec 3 (lowQosCount o)); cbn.
  - repeat split; try lia; tauto.
  - unfold wrap. rewrite Z.mod_small by lia. repeat split; try lia. by intros [?|?].
Qed.

(** C28: Of four notifications in a row that an observer gets one at least is confirmable,
    whatever the application asks for. *)
Theorem confirmable_often o l : 0 <= lowQosCount o <= MAX_OBSERVER_NON_COUNT -> (4 <= List.length l)%nat ->
  OC_HIGH_QOS ∈ take 4 (fst (decide_all o l)) /\
  0 <= lowQosCount (snd (decide_all o l)) <= MAX_OBSERVER_NON_COUNT.
Proof.
  assert (Hk : forall l (k : nat) o, 0 <= lowQosCount o <= MAX_OBSERVER_NON_COUNT ->
    0 <= lowQosCount (snd (decide_all o l)) <= MAX_OBSERVER_NON_COUNT /\
    (MAX_OBSERVER_NON_COUNT - lowQosCount o < Z.of_nat k -> (k <= List.length l)%nat ->
     OC_HIGH_QOS ∈ take k (fst (decide_all o l)))).
  { clear. induction l as [|q l IH]; intros k o Ho; cbn [decide_all]; [split; [done|]; cbn; lia|].
    pose proof (decide_step o q Ho) as Hs. destruct (DetermineObserverQoS o q) as [d o'].
    destruct Hs as (Ho' & _ & Hd & _). destruct (IH (k - 1)%nat o' Ho') as [H1 H2].
    destruct (decide_all o' l) as [ds o'']. cbn [fst snd] in *. split; [done|]. intros Hm Hl.
    destruct k as [|k]; [lia|]. cbn [take]. destruct Hd as [->|[Hc _]]; [by left|right].
    rewrite Nat.sub_succ, Nat.sub_0_r in *. cbn in Hl. apply H2; lia. }
  intros Ho Hl. destruct (Hk l 4%nat o Ho) as [H1 H2]. split; [|done]. apply H2; [|done].
  unfold MAX_OBSERVER_NON_COUNT. lia.
Qed.

Lemma confirmable_often_witness :
  let o := mk_observer 7 "/a/light" None [1; 2] (CaTypes.mk_endpoint 1 0 5683 ""%string 0) OC_LOW_QOS 0 0 false 0
             OC_FORMAT_CBOR 0 in
  OC_HIGH_QOS ∈ take 4 (fst (decide_all o [OC_LOW_QOS; OC_NA_QOS; OC_MEDIUM_QOS; OC_LOW_QOS; OC_LOW_QOS])).
Proof. intros o. apply (confirmable_often o); cbn; unfold MAX_OBSERVER_NON_COUNT; lia. Defined.

(** ** Who is observing *)

Lemma same_token_eq stored t : List.length stored = List.length t -> same_token stored t = Some (bool_decide (stored = t)).
Proof. intros H. unfold same_token. by rewrite <- H, Nat.ltb_irrefl, firstn_all. Qed.

(** Identifiers and tokens of the observers of each resource. *)
Definition observer_key (o : ResourceObserver) : Z * list Z := (observeId o, o_token o).
Definition resource_keys (x : OCResource) : list (Z * list Z) := map observer_key (r_observers x).
Definition observers {A} (s : stack A) : list (list (Z * list Z)) := map resource_keys (headResource s).

(** The addresses of requests are new ones. *)
Definition fresh {A} (s : stack A) : Prop := Forall (fun x => x.1 < next_request s) (g_serverRequestTree s).
(** Nobody came or left. *)
Definition same_observers {A} (s s' : stack A) : Prop := fresh s -> fresh s' /\ observers s' = observers s.
#[export] Instance same_observers_preorder {A} : PreOrder (@same_observers A).
Proof.
  split; [by intros x Hx|]. intros x y z Hxy Hyz Hx. destruct (Hxy Hx) as [Hy Ey]. destruct (Hyz Hy) as [Hz Ez].
  split; [done|by rewrite Ez, Ey].
Qed.

Lemma alter_map {X Y} (f : X -> Y) (g : X -> X) (g' : Y -> Y) (n : nat) l : (forall x, f (g x) = g' (f x)) ->
  map f (alter g n l) = alter g' n (map f l).
Proof. intros H. revert n. induction l as [|x l IH]; intros [|n]; cbn; [done..|by rewrite H|]. f_equal; apply IH. Qed.
Lemma alter_map_same {X Y} (f : X -> Y) (g : X -> X) (n : nat) l : (forall x, f (g x) = f x) -> map f (alter g n l) = map f l.
Proof. intros H. revert n. induction l as [|x l IH]; intros [|n]; cbn; [done..|by rewrite H|]. f_equal; apply IH. Qed.

Lemma alter_map_at {X Y} (f : X -> Y) (g : X -> X) (n : nat) l x : l !! n = Some x -> f (g x) = f x ->
  map f (alter g n l) = map f l.
Proof.
  intros Hx H. revert n Hx. induction l as [|y l IH]; intros [|n] Hx; cbn in *; [done|done| |].
  - injection Hx as ->. by rewrite H.
  - f_equal. by apply IH.
Qed.

Section keep.
Context {A : Type}.
Notation St := (stack A).
Notation keeping := (keeps (@same_observers A)).

Lemma keeps_update r f : (forall x, resource_keys (f x) = resource_keys x) -> keeping (update_resource r f).
Proof. intros H. apply keeps_modify. intros s Hs. split; [done|]. unfold observers. cbn. by rewrite alter_map_same. Qed.
Lemma keeps_update_observer r i f : (forall o, observer_key (f o) = observer_key o) -> keeping (update_observer r i f).
Proof. intros H. apply keeps_update. intros x. unfold resource_keys. cbn. by apply alter_map_same. Qed.
Lemma keeps_give m : keeping (give m).
Proof. by intros s a s' [= _ <-]. Qed.
Lemma keeps_update_request h f : keeping (update_request h f).
Proof.
  apply keeps_modify. intros s Hs. split; [|done]. unfold fresh in *. cbn. apply Forall_map.
  eapply Forall_impl; [exact Hs|]. intros [k q] Hk. cbn in *. by case_match.
Qed.
Lemma keeps_delete_request h : keeping (DeleteServerRequest h).
Proof.
  unfold DeleteServerRequest, request. keep. apply keeps_modify. intros s Hs. split; [|done]. unfold fresh in *. cbn.
  apply Forall_forall. intros x [_ Hx]%list_elem_of_filter. by eapply Forall_forall in Hs.
Qed.
Lemma keeps_add_request a b c d e f g h i j k l m n : keeping (AddServerRequest a b c d e f g h i j k l m n).
Proof.
  intros s x s' [= _ <-] Hs. split; [|done]. unfold fresh in *. cbn. apply Forall_app. split; [|by repeat constructor; cbn; lia].
  eapply Forall_impl; [exact Hs|]. cbn. lia.
Qed.
End keep.
Ltac keep_same := apply keeps_modify; intros ? Hs; split; [exact Hs|reflexivity].
#[local] Hint Resolve keeps_give keeps_add_request keeps_update_request keeps_delete_request : keeps.
#[local] Hint Extern 1 (keeps same_observers (modify _)) => keep_same : keeps.
#[local] Hint Extern 1 (keeps same_observers (update_resource _ _)) => (apply keeps_update; reflexivity) : keeps.
#[local] Hint Extern 1 (keeps same_observers (update_observer _ _ _)) => (apply keeps_update_observer; reflexivity) : keeps.

Section server.
Context {A : Type} `{!Application A} {L : Cbor.CborLib} {E : CborEncoder}.
Notation St := (stack A).
Notation keeping := (keeps (@same_observers A)).
Context (COAP_TICKS_PER_SECOND : Z).
Context (discovery : Z -> M St OCStackResult).
Context (DefaultCollectionEntityHandler : OCEntityHandlerRequest -> M St OCStackResult).
Context (discovery_keeps : forall h, keeping (discovery h)).
Context (collection_keeps : forall q, keeping (DefaultCollectionEntityHandler q)).
#[local] Hint Resolve discovery_keeps collection_keeps : keeps.

Lemma keeps_response r : keeping (OCDoResponse r).
Proof.
  assert (H1 : forall r, keeping (HandleSingleResponse r)).
  { intros x. unfold HandleSingleResponse, OCSendResponse, CASendResponse, request. keep. }
  unfold OCDoResponse, HandleAggregateResponse, request. keep.
Qed.
#[local] Hint Resolve keeps_response : keeps.
Lemma keeps_responses l : keeping (do_responses l).
Proof. induction l as [|r l IH]; cbn [do_responses]; keep. Qed.
#[local] Hint Resolve keeps_responses : keeps.
Lemma keeps_handler x flag req : keeping (run_handler x flag req).
Proof. unfold run_handler. keep. Qed.
Lemma keeps_after h r : keeping (after_handler h r).
Proof. unfold after_handler, request. keep. Qed.
#[local] Hint Resolve keeps_handler keeps_after : keeps.

(** ** Requests that are no registrations

    They look for no observer, so that the check of an observer, which sends such a
    request, is not part of a circle. *)

Definition answer_resource (h : Z) (r : nat) : M St OCStackResult :=
  let! q := request h in
  let! x := resource r in
  let! (result, req) := EHRequest (if SrmUtility.SRMIsSecurityResourceURI (Some (q_resourceUrl q)) then PAYLOAD_TYPE_SECURITY
                                   else PAYLOAD_TYPE_REPRESENTATION) h (Some r) in
  match req with
  | None => ret result
  | Some req => let! ehResult := run_handler x OC_REQUEST_FLAG req in after_handler h ehResult
  end.
Definition answer_request (resHandling : ResourceHandling) (r : option nat) (h : Z) : M St OCStackResult :=
  match resHandling, r with
  | OC_RESOURCE_VIRTUAL, Some _ => discovery h
  | OC_RESOURCE_DEFAULT_DEVICE_ENTITYHANDLER, _ => HandleDefaultDeviceEntityHandler h
  | OC_RESOURCE_NOT_COLLECTION_DEFAULT_ENTITYHANDLER, _ => ret OC_STACK_ERROR
  | OC_RESOURCE_NOT_COLLECTION_WITH_ENTITYHANDLER, Some r
  | OC_RESOURCE_COLLECTION_WITH_ENTITYHANDLER, Some r => answer_resource h r
  | OC_RESOURCE_COLLECTION_DEFAULT_ENTITYHANDLER, Some r =>
      HandleCollectionResourceDefaultEntityHandler DefaultCollectionEntityHandler h r
  | OC_RESOURCE_NOT_SPECIFIED, _ => ret OC_STACK_NO_RESOURCE
  | _, None => ret OC_STACK_INVALID_PARAM
  end.
Notation observer_ttl := (observer_ttl COAP_TICKS_PER_SECOND).
Definition send_notification (r i : nat) (sequenceNum : Z) (qos : OCQualityOfService) : M St OCStackResult :=
  let! o := observer r i in
  let! h := notification_request o sequenceNum qos in
  let! q := request h in
  let! (result, handling, res) := DetermineResourceHandling q in
  if is_ok result then
    let! result := answer_request handling res h in
    let! ttl := observer_ttl in
    update_observer r i (with_TTL ttl) ;;; ret result
  else ret result.

(** The request of a notification. *)
Definition notification_of (o : ResourceObserver) (n : Z) (qos : OCQualityOfService) : OCServerRequest :=
  mk_sreq OC_REST_GET (o_acceptFormat o) (o_acceptVersion o) (str_take (MAX_URI_LENGTH - 1) (o_resUri o))
    (str_take (MAX_QUERY_LENGTH - 1) (default ""%string (o_query o))) qos n OC_STACK_OK 1 false (o_devAddr o) (o_token o)
    0 [] false false true OC_FORMAT_CBOR [].
Definition with_request (q : OCServerRequest) (s : St) : St :=
  set_requests (g_serverRequestTree s ++ [(next_request s, q)]) (next_request s + 1) s.

Lemma find_new_request (l : list (Z * OCServerRequest)) k q : Forall (fun x => x.1 < k) l ->
  list_find (fun x => x.1 = k) (l ++ [(k, q)]) = Some (List.length l, (k, q)).
Proof.
  intros H. apply list_find_Some. rewrite list_lookup_middle by done. split; [done|split; [done|]].
  intros j y Hy Hj. rewrite lookup_app_l in Hy by (apply lookup_lt_Some in Hy; lia).
  eapply Forall_lookup_1 in H; [|exact Hy]. lia.
Qed.
Lemma request_new q (s : St) : fresh s -> request (next_request s) (with_request q s) = Some (q, with_request q s).
Proof. intros H. unfold request, with_request. run. cbn [g_serverRequestTree set_requests]. by rewrite find_new_request. Qed.

Lemma map_old (f : OCServerRequest -> OCServerRequest) (l : list (Z * OCServerRequest)) k : Forall (fun x => x.1 < k) l ->
  map (fun x => if x.1 =? k then (x.1, f x.2) else x) l = l.
Proof.
  induction 1 as [|x l Hx _ IH]; [done|]. cbn [map]. rewrite IH, (proj2 (Z.eqb_neq _ _)); [done|lia].
Qed.
Lemma update_new f q (s : St) : fresh s ->
  update_request (next_request s) f (with_request q s) = Some (tt, with_request (f q) s).
Proof.
  intros H. unfold update_request, with_request, modify. cbn. rewrite map_app, map_old by done. cbn.
  by rewrite Z.eqb_refl.
Qed.
Lemma notification_new o n qos (s : St) : fresh s ->
  notification_request o n qos s = Some (next_request s, with_request (notification_of o n qos) s).
Proof.
  intros H. unfold notification_request. erewrite bind_some by reflexivity.
  erewrite bind_some; [|apply (update_new _ _ s H)]. reflexivity.
Qed.

Lemma request_state h (s s' : St) q : request h s = Some (q, s') -> s' = s.
Proof. unfold request. cbn. destruct (_ ≫= _); cbn; congruence. Qed.
Lemma resource_state r (s s' : St) x : resource r s = Some (x, s') -> s' = s /\ headResource s !! r = Some x.
Proof. unfold resource. cbn. destruct (headResource s !! r); cbn; [|done]. by intros [= -> ->]. Qed.
Lemma observer_state r i (s s' : St) o : observer r i s = Some (o, s') -> s' = s.
Proof.
  unfold observer. intros (x & s1 & [-> _]%resource_state & Ho)%bind_inv. revert Ho. cbn. destruct (r_observers x !! i); cbn; congruence.
Qed.
Lemma plain_form type h r (s s' : St) q result req : request h s = Some (q, s) ->
  q_notificationFlag q = true \/ q_observationOption q = OC_OBSERVE_NO_OPTION ->
  EHRequest type h r s = Some ((result, Some req), s') -> s' = s /\ eh_action req = OC_OBSERVE_NO_OPTION.
Proof.
  intros Hq Hp. unfold EHRequest. rewrite (bind_some _ _ _ _ _ Hq). unfold demand, FormOCEntityHandlerRequest.
  set (action := if q_notificationFlag q then _ else _).
  assert (Ha : action = OC_OBSERVE_NO_OPTION) by (unfold action; destruct Hp as [->|<-]; [done|by case_match]).
  clearbody action. case_match eqn:Ef; [|done]. intros [= -> <-]. split; [done|]. revert Ef.
  destruct (q_payload q); [intros [= _ <-]; done|]. destruct (OCParsePayload _ _) as [[e p]|]; [|done]. cbn.
  destruct (is_ok e); [|done]. intros [= _ <-]. done.
Qed.

Section without_check.
Context (check : nat -> nat -> M St unit).
Lemma resource_plain h r (s : St) q : request h s = Some (q, s) ->
  q_notificationFlag q = true \/ q_observationOption q = OC_OBSERVE_NO_OPTION ->
  HandleResourceWithEntityHandler COAP_TICKS_PER_SECOND check h r s = answer_resource h r s.
Proof.
  intros Hq Hp. unfold HandleResourceWithEntityHandler, answer_resource. rewrite !(bind_some _ _ _ _ _ Hq).
  apply bind_ext. intros x s1 Hr.
  apply resource_state in Hr as [-> _].
  apply bind_ext. intros [result [req|]] s1 Hf; [|done]. destruct (plain_form _ _ _ _ _ _ _ _ Hq Hp Hf) as [-> Ha].
  rewrite (bind_some _ _ _ (inr (OC_REQUEST_FLAG, req)) s); [done|]. unfold observe_request.
  rewrite (bind_some _ _ _ _ _ Hq), Ha. done.
Qed.

Lemma process_notification handling r h (s : St) q : request h s = Some (q, s) -> q_notificationFlag q = true ->
  q_method q = OC_REST_GET ->
  ProcessRequest COAP_TICKS_PER_SECOND discovery DefaultCollectionEntityHandler check handling r h s
  = answer_request handling r h s.
Proof.
  intros Hq Hn Hm. destruct handling, r as [r|]; try done; try (eapply resource_plain; eauto).
  cbn [ProcessRequest answer_request]. unfold HandleVirtualResource. rewrite (bind_some _ _ _ _ _ Hq), Hm.
  rewrite (bind_some _ _ _ OC_STACK_OK s); [done|]. unfold HandleVirtualObserveRequest.
  by rewrite (bind_some _ _ _ _ _ Hq), Hn.
Qed.

Lemma determine_state q (s s' : St) x : DetermineResourceHandling q s = Some (x, s') -> s' = s.
Proof.
  unfold DetermineResourceHandling. destruct (GetTypeOfVirtualURI _); [by intros [= _ <-]|].
  destruct (String.eqb _ _); [by intros [= _ <-]|]. intros (p & s1 & Hp & Hx)%bind_inv.
  injection Hp as _ <-. destruct p as [r|]; [|by injection Hx as _ <-].
  apply bind_inv in Hx as (y & s1 & [-> _]%resource_state & Hy). revert Hy. case_match; by intros [= _ <-].
Qed.

Lemma notification_plain r i n qos (s : St) : fresh s ->
  SendObserveNotification COAP_TICKS_PER_SECOND discovery DefaultCollectionEntityHandler check r i n qos s
  = send_notification r i n qos s.
Proof.
  intros Hs. unfold SendObserveNotification, send_notification. apply bind_ext. intros o s1 Ho.
  apply observer_state in Ho as ->.
  rewrite !(bind_some _ _ _ _ _ (notification_new o n qos s Hs)), !(bind_some _ _ _ _ _ (request_new _ s Hs)).
  apply bind_ext. intros [[result handling] res] s1 Hd. apply determine_state in Hd as ->.
  destruct (is_ok result); [|done]. unfold bind.
  by rewrite (process_notification _ _ _ _ _ (request_new (notification_of o n qos) s Hs)).
Qed.
End without_check.

(** ** The circle is closed after one round *)

Lemma check_enough n r i (s : St) : fresh s ->
  timed_out COAP_TICKS_PER_SECOND discovery DefaultCollectionEntityHandler (S n) r i s
  = CheckTimedOutObserver COAP_TICKS_PER_SECOND discovery DefaultCollectionEntityHandler r i s.
Proof.
  intros Hs. cbn [timed_out]. unfold CheckTimedOutObserver, check_observer. cbn [timed_out].
  apply bind_ext. intros o s1 Ho.
  apply observer_state in Ho as ->.
  apply bind_ext. intros t s1 [= _ <-]. destruct (TTL o =? 0); [done|]. destruct (TTL o <? t); [|done].
  apply bind_ext. intros x s1 [-> _]%resource_state. unfold bind. by rewrite !notification_plain.
Qed.

(** ** What leaves the observers alone *)

Notation check := (CheckTimedOutObserver COAP_TICKS_PER_SECOND discovery DefaultCollectionEntityHandler).

Lemma keeps_eh_request type h r : keeping (EHRequest type h r).
Proof. unfold EHRequest, request. keep. Qed.
#[local] Hint Resolve keeps_eh_request : keeps.
Lemma keeps_determine q : keeping (DetermineResourceHandling q).
Proof. intros s x s' Hd Hs. by apply determine_state in Hd as ->. Qed.
#[local] Hint Resolve keeps_determine : keeps.
Lemma keeps_default_device h : keeping (HandleDefaultDeviceEntityHandler h).
Proof. unfold HandleDefaultDeviceEntityHandler, request. keep. Qed.
Lemma keeps_collection h r : keeping (HandleCollectionResourceDefaultEntityHandler DefaultCollectionEntityHandler h r).
Proof. unfold HandleCollectionResourceDefaultEntityHandler. keep. Qed.
#[local] Hint Resolve keeps_default_device keeps_collection : keeps.
Lemma keeps_answer handling r h : keeping (answer_request handling r h).
Proof. unfold answer_request, answer_resource, resource, request. keep. Qed.
#[local] Hint Resolve keeps_answer : keeps.
Lemma keeps_notification_request o n qos : keeping (notification_request o n qos).
Proof. unfold notification_request. keep. Qed.
#[local] Hint Resolve keeps_notification_request : keeps.
Lemma keeps_send c r i n qos :
  keeping (SendObserveNotification COAP_TICKS_PER_SECOND discovery DefaultCollectionEntityHandler c r i n qos).
Proof.
  assert (H : keeping (send_notification r i n qos)).
  { unfold send_notification, Observe.observer_ttl, GetTicks, observer, resource, request. keep. }
  intros s x s' Hn Hs. rewrite notification_plain in Hn by done. by apply (H s x).
Qed.
#[local] Hint Resolve keeps_send : keeps.
Lemma keeps_check r i : keeping (check r i).
Proof. unfold CheckTimedOutObserver. cbn [timed_out]. unfold check_observer, observer, resource. keep. Qed.
#[local] Hint Resolve keeps_check : keeps.
Lemma keeps_walk r test l : keeping (walk check r test l).
Proof. induction l as [|i l IH]; cbn [walk]; unfold observer, resource; keep. Qed.
#[local] Hint Resolve keeps_walk : keeps.
Lemma keeps_using_id r id : keeping (GetObserverUsingId check r id).
Proof. unfold GetObserverUsingId, places, resource. keep. Qed.
Lemma keeps_using_token r t : keeping (GetObserverUsingToken check r t).
Proof. unfold GetObserverUsingToken, places, resource. keep. Qed.
#[local] Hint Resolve keeps_using_id keeps_using_token : keeps.
Lemma keeps_exists_id id l : keeping (exists_id check id l).
Proof. induction l as [|r l IH]; cbn [exists_id]; keep. Qed.
#[local] Hint Resolve keeps_exists_id : keeps.
Lemma keeps_generate : keeping (GenerateObserverId check).
Proof.
  assert (H : forall l, keeping (draw_id check l)).
  { induction l as [|[v|] l IH]; cbn [draw_id]; unfold IsObservationIdExisting; keep. }
  unfold GenerateObserverId. keep.
Qed.
#[local] Hint Resolve keeps_generate : keeps.
Lemma keeps_in_resources t l : keeping (find_in_resources COAP_TICKS_PER_SECOND discovery DefaultCollectionEntityHandler t l).
Proof. induction l as [|r l IH]; cbn [find_in_resources]; keep. Qed.
#[local] Hint Resolve keeps_in_resources : keeps.

(** The counts of an observer are those it had, changed. *)
Lemma decide_key o qos : observer_key (snd (DetermineObserverQoS o qos)) = observer_key o.
Proof. unfold DetermineObserverQoS. by repeat case_match. Qed.
Lemma keeps_decided {X} r i qos (k : OCQualityOfService -> ResourceObserver -> M St X) : (forall q o, keeping (k q o)) ->
  keeping (let! o := observer r i in let '(q, o) := DetermineObserverQoS o qos in
           update_observer r i (fun _ => o) ;;; k q o).
Proof.
  intros Hk s a s' Hd Hs. apply bind_inv in Hd as (o & s1 & Ho & Hd).
  unfold observer in Ho. apply bind_inv in Ho as (x & s2 & [-> Hx]%resource_state & Ho).
  cbn in Ho. destruct (r_observers x !! i) as [o'|] eqn:Hi; [|done]. injection Ho as <- <-.
  pose proof (decide_key o' qos) as Hkey. destruct (DetermineObserverQoS o' qos) as [q o].
  apply bind_inv in Hd as ([] & s1 & [= <-] & Hd). apply Hk in Hd. destruct Hd as [Hf He]; [done|].
  split; [done|]. rewrite He. unfold observers. cbn. eapply alter_map_at; [exact Hx|]. unfold resource_keys. cbn.
  by eapply alter_map_at.
Qed.

Notation notify_loop := (notify_loop COAP_TICKS_PER_SECOND discovery DefaultCollectionEntityHandler).
Notation notify_list := (notify_list COAP_TICKS_PER_SECOND discovery DefaultCollectionEntityHandler).
Lemma keeps_notify_loop r l : forall qos result e, keeping (notify_loop r l qos result e).
Proof.
  induction l as [|i l IH]; intros qos result e; cbn [Observe.notify_loop]; [keep|].
  apply keeps_decided. intros q o. unfold resource. keep.
Qed.
Lemma keeps_notify_list r ids p : forall qos n e, keeping (notify_list r ids p qos n e).
Proof.
  induction ids as [|id ids IH]; intros qos n e; cbn [Observe.notify_list]; [keep|].
  apply keeps_bind; [typeclasses eauto|keep|]. intros [i|]; [|keep]. apply keeps_decided. intros q o.
  unfold resource, Observe.observer_ttl, GetTicks. keep.
Qed.
#[local] Hint Resolve keeps_notify_loop keeps_notify_list : keeps.
Lemma keeps_notify_all r qos : keeping (OCNotifyAllObservers COAP_TICKS_PER_SECOND discovery DefaultCollectionEntityHandler r qos).
Proof. unfold OCNotifyAllObservers, SendAllObserverNotification, findResource, places, resource. keep. Qed.
Lemma keeps_notify_some mode r ids p qos :
  keeping (OCNotifyListOfObservers COAP_TICKS_PER_SECOND discovery DefaultCollectionEntityHandler mode r ids p qos).
Proof. unfold OCNotifyListOfObservers, SendListObserverNotification, findResource, resource. keep. Qed.
End server.
End ObserveLaws.
