(* ===== verification/Observers.v ===== *)
(** * Who observes what

    The table of the observers' identifiers and tokens, its abstract steps, and the
    proof that the server, whatever arrives, takes only such steps: so identifiers and
    tokens stay distinct. *)

From S2P Require Import Prelude.
From S2P Require Import Status.
From S2P Require Import CString.
From S2P Require Import SrmUtility.
From S2P Require Import CaTypes.
From S2P Require Import CoapCodec.
From S2P Require Import Cbor.
From S2P Require Import RepPayload.
From S2P Require Import PayloadCodec.
From S2P Require Import Stack.
From S2P Require Import ServerRequest.
From S2P Require Import Observe.
From S2P Require Import Server.
From S2P Require Import Client.
From S2P Require Import ObserveLaws.
From S2P Require Import CborTokens.
From S2P Require Import StackDemo.

Module Observers.
Import CString Stack ServerRequest Observe Server Client PayloadCodec ObserveLaws.
Open Scope m_scope.

(** ** The abstract table *)

Notation table := (list (list (Z * list Z))).

(** An observer joins with an identifier no resource has and a token, not the empty
    one, the resource does not have, or some leave. *)
Inductive observers_step (t : table) : table -> Prop :=
| observer_joins r id token : token <> [] -> id ∉ (concat t).*1 -> token ∉ (default [] (t !! r)).*2 ->
    observers_step t (alter (fun l => l ++ [(id, token)]) r t)
| observer_leaves (r i : nat) : observers_step t (alter (delete i) r t)
| observers_leave (r : nat) : observers_step t (alter (fun _ => []) r t).

Definition distinct (t : table) : Prop := NoDup (concat t).*1 /\ Forall (fun l => NoDup l.*2) t.

Lemma alter_split {X} (f : X -> X) (r : nat) l : alter f r l = l \/
  exists l1 x l2, l = l1 ++ x :: l2 /\ l !! r = Some x /\ alter f r l = l1 ++ f x :: l2.
Proof.
  revert r. induction l as [|y l IH]; [by left|]. intros [|r].
  - right. by exists [], y, l.
  - destruct (IH r) as [H|(l1 & x & l2 & -> & Hx & H)]; cbn.
    + left. by f_equal.
    + right. exists (y :: l1), x, l2. split; [done|split; [done|]]. cbn. by f_equal.
Qed.

Lemma leave_distinct t r (f : list (Z * list Z) -> list (Z * list Z)) : (forall l, f l `sublist_of` l) ->
  distinct t -> distinct (alter f r t).
Proof.
  intros Hf [H1 H2]. destruct (alter_split f r t) as [->|(l1 & x & l2 & -> & _ & ->)]; [done|]. split.
  - eapply sublist_NoDup; [exact H1|]. apply fmap_sublist. rewrite !concat_app. cbn.
    repeat apply sublist_app; done.
  - apply Forall_app in H2 as [Ha [Hx Hb]%Forall_cons]. apply Forall_app. split; [done|]. constructor; [|done].
    eapply sublist_NoDup; [exact Hx|]. by apply fmap_sublist.
Qed.

Lemma step_distinct t t' : observers_step t t' -> distinct t -> distinct t'.
Proof.
  intros [r id token _ Hid Ht|r i|r] H.
  - destruct (alter_split (fun l => l ++ [(id, token)]) r t) as [->|(l1 & x & l2 & -> & Hx & ->)]; [done|].
    rewrite Hx in Ht. destruct H as [H1 H2]. split.
    + rewrite concat_app in *. cbn in *. rewrite !fmap_app in *. cbn.
      apply NoDup_Permutation_proper with (id :: (concat l1).*1 ++ x.*1 ++ (concat l2).*1); [solve_Permutation|].
      constructor; [done|]. exact H1.
    + apply Forall_app in H2 as [Ha [Hy Hb]%Forall_cons]. apply Forall_app. split; [done|]. constructor; [|done].
      rewrite fmap_app. apply NoDup_app. split; [done|]. split; [|apply NoDup_singleton].
      intros y Hy' ->%list_elem_of_singleton. by apply Ht.
  - apply leave_distinct; [|done]. intros l. apply sublist_delete.
  - apply leave_distinct; [|done]. intros l. apply sublist_nil_l.
Qed.

Lemma steps_distinct t t' : rtc observers_step t t' -> distinct t -> distinct t'.
Proof. induction 1 as [|x y z Hs _ IH]; [done|]. intros H. by eapply IH, step_distinct. Qed.
(** ** The server takes its steps *)

Definition moves {A} (s s' : stack A) : Prop := fresh s -> fresh s' /\ rtc observers_step (observers s) (observers s').
#[export] Instance moves_preorder {A} : PreOrder (@moves A).
Proof.
  split; [by intros x Hx|]. intros x y z Hxy Hyz Hx. destruct (Hxy Hx) as [Hy Ey]. destruct (Hyz Hy) as [Hz Ez].
  split; [done|]. by etrans.
Qed.
Lemma keeps_moves {A X} (m : M (stack A) X) : keeps same_observers m -> keeps moves m.
Proof. apply keeps_weaken. intros s s' H Hs. destruct (H Hs) as [Hf ->]. done. Qed.

Lemma observers_lookup {A} (s : stack A) r : observers s !! r = resource_keys <$> headResource s !! r.
Proof. apply list_lookup_fmap. Qed.
Lemma update_moves {A} r (f : OCResource -> OCResource) g (s : stack A) : (forall x, resource_keys (f x) = g (resource_keys x)) ->
  observers (set_resources (alter f r (headResource s)) s) = alter g r (observers s).
Proof. intros H. unfold observers. cbn. by rewrite (alter_map _ f g). Qed.

Section server.
Context {A : Type} `{!Application A} {L : Cbor.CborLib} {E : CborEncoder}.
Notation St := (stack A).
Context (COAP_TICKS_PER_SECOND : Z).
Context (discovery : Z -> M St OCStackResult).
Context (DefaultCollectionEntityHandler : OCEntityHandlerRequest -> M St OCStackResult).
Context (discovery_keeps : forall h, keeps same_observers (discovery h)).
Context (collection_keeps : forall q, keeps same_observers (DefaultCollectionEntityHandler q)).
Notation check := (CheckTimedOutObserver COAP_TICKS_PER_SECOND discovery DefaultCollectionEntityHandler).
#[local] Hint Resolve discovery_keeps collection_keeps : keeps.

(** A search that finds nothing looked at the key of each observer it was given. *)
Lemma walk_none r (t : Z * list Z -> option bool) l : forall (s s' : St), fresh s ->
  walk check r (fun o => t (observer_key o)) l s = Some (None, s') ->
  forall i k, i ∈ l -> observers s !! r ≫= lookup i = Some k -> t k = Some false.
Proof using discovery_keeps collection_keeps.
  induction l as [|i l IH]; intros s s' Hs Hw j k Hj Hk; [by apply not_elem_of_nil in Hj|]. cbn [walk] in Hw.
  apply bind_inv in Hw as (o & s1 & Ho & Hw).
  unfold observer in Ho. apply bind_inv in Ho as (x & s2 & [-> Hx]%resource_state & Ho).
  cbn in Ho. destruct (r_observers x !! i) as [o'|] eqn:Hi; [|done]. injection Ho as -> <-.
  apply bind_inv in Hw as (b & s1 & Hb & Hw). unfold demand in Hb. destruct (t (observer_key o)) as [b'|] eqn:Ht; [|done].
  injection Hb as -> <-. destruct b; [done|]. apply bind_inv in Hw as ([] & s1 & Hc & Hw).
  pose proof (keeps_check COAP_TICKS_PER_SECOND discovery DefaultCollectionEntityHandler discovery_keeps collection_keeps r i s _ _ Hc Hs)
    as [Hf He].
  apply elem_of_cons in Hj as [->|Hj].
  - rewrite observers_lookup, Hx in Hk. cbn in Hk. unfold resource_keys in Hk.
    rewrite list_lookup_fmap, Hi in Hk. cbn in Hk. by injection Hk as <-.
  - eapply (IH s1 s'); [done|exact Hw|exact Hj|]. by rewrite He.
Qed.

Lemma places_eq r (s s' : St) l : places r s = Some (l, s') ->
  s' = s /\ exists x, headResource s !! r = Some x /\ l = seq 0 (List.length (r_observers x)).
Proof.
  unfold places. intros (x & s1 & [-> Hx]%resource_state & Hl)%bind_inv. injection Hl as <- <-. split; [done|by exists x].
Qed.
Lemma key_place (s : St) r x k : headResource s !! r = Some x -> k ∈ default [] (observers s !! r) ->
  exists i, i ∈ seq 0 (List.length (r_observers x)) /\ observers s !! r ≫= lookup i = Some k.
Proof.
  rewrite observers_lookup. intros ->. cbn. intros [i Hi]%list_elem_of_lookup. exists i. split; [|done].
  apply lookup_lt_Some in Hi. unfold resource_keys in Hi. rewrite length_map in Hi. apply elem_of_seq. lia.
Qed.

Lemma same_token_refl t : same_token t t = Some true.
Proof. unfold same_token. rewrite Nat.ltb_irrefl, firstn_all. by rewrite bool_decide_true. Qed.

Lemma token_absent r t (s s' : St) : fresh s -> GetObserverUsingToken check r (Some t) s = Some (None, s') ->
  t ∉ (default [] (observers s !! r)).*2.
Proof using discovery_keeps collection_keeps.
  intros Hs Hg (k & -> & Hk)%list_elem_of_fmap. unfold GetObserverUsingToken in Hg.
  apply bind_inv in Hg as (l & s1 & (-> & x & Hx & ->)%places_eq & Hw).
  destruct (key_place _ _ _ _ Hx Hk) as (i & Hi & Hik).
  pose proof (walk_none r (fun k' => same_token k'.2 k.2) _ s s' Hs Hw i k Hi Hik) as H.
  cbn in H. by rewrite same_token_refl in H.
Qed.

Lemma id_absent id l : forall (s s' : St), fresh s -> exists_id check id l s = Some (false, s') ->
  forall r, r ∈ l -> id ∉ (default [] (observers s !! r)).*1.
Proof using discovery_keeps collection_keeps.
  induction l as [|r l IH]; intros s s' Hs He; [by intros r Hr%not_elem_of_nil|].
  cbn [exists_id] in He. apply bind_inv in He as (o & s1 & Hg & He). destruct o; [done|].
  pose proof (keeps_using_id COAP_TICKS_PER_SECOND discovery DefaultCollectionEntityHandler discovery_keeps collection_keeps r id s _ _ Hg Hs)
    as [Hf Ho].
  intros r' [->|Hr]%elem_of_cons; [|rewrite <- Ho; by eapply IH]. intros (k & -> & Hk)%list_elem_of_fmap.
  unfold GetObserverUsingId in Hg. apply bind_inv in Hg as (l' & s2 & (-> & x & Hx & ->)%places_eq & Hw).
  destruct (key_place _ _ _ _ Hx Hk) as (i & Hi & Hik).
  pose proof (walk_none r (fun k' => Some (k'.1 =? k.1)) _ s s1 Hs Hw i k Hi Hik) as H.
  cbn in H. by rewrite Z.eqb_refl in H.
Qed.

Lemma draw_absent l : forall (s s' : St) v, fresh s -> draw_id check l s = Some (Some v, s') ->
  fresh s' /\ observers s' = observers s /\ v ∉ (concat (observers s')).*1.
Proof using discovery_keeps collection_keeps.
  induction l as [|[w|] l IH]; intros s s' v Hs Hd; [done| |done]. cbn [draw_id] in Hd.
  apply bind_inv in Hd as ([] & s1 & [= <-] & Hd). apply bind_inv in Hd as (b & s1 & Hb & Hd).
  unfold IsObservationIdExisting in Hb. apply bind_inv in Hb as (n & s2 & [= <- <-] & Hb).
  assert (Hs0 : fresh (set_random l s)) by done.
  pose proof (keeps_exists_id COAP_TICKS_PER_SECOND discovery DefaultCollectionEntityHandler discovery_keeps collection_keeps _ _ _ _ _ Hb Hs0)
    as [Hf Ho].
  change (observers (set_random l s)) with (observers s) in Ho. destruct b.
  - destruct (IH _ _ _ Hf Hd) as (H1 & H2 & H3). split; [done|]. by rewrite H2, Ho in *.
  - injection Hd as -> <-. split; [done|]. rewrite Ho. split; [done|]. intros (k & -> & Hk)%list_elem_of_fmap.
    apply list_elem_of_In, in_concat in Hk as (keys & Hkeys & Hk). apply list_elem_of_In, list_elem_of_lookup in Hkeys as [r Hr].
    eapply (id_absent _ _ _ _ Hs0 Hb r).
    + apply elem_of_seq. apply lookup_lt_Some in Hr. unfold observers in Hr. rewrite length_map in Hr. cbn. lia.
    + change (observers (set_random l s)) with (observers s). rewrite Hr. apply list_elem_of_fmap. exists k. split; [done|].
      by apply list_elem_of_In.
Qed.

(** A search for a token that was not found, an identifier that was drawn, and the
    observer that is added with both. *)
Lemma add_moves resUri query id token r qos af av dev (s s' : St) result : fresh s ->
  id ∉ (concat (observers s)).*1 -> (forall t, token = Some t -> t <> [] /\ t ∉ (default [] (observers s !! r)).*2) ->
  AddObserver COAP_TICKS_PER_SECOND resUri query id token r qos af av dev s = Some (result, s') ->
  fresh s' /\ rtc observers_step (observers s) (observers s').
Proof.
  intros Hs Hid Ht Ha. unfold AddObserver in Ha. apply bind_inv in Ha as (x & s1 & [-> Hx]%resource_state & Ha).
  destruct (negb _); [by injection Ha as _ <-|]. destruct token as [t|]; [|by injection Ha as _ <-].
  apply bind_inv in Ha as (ttl & s1 & Httl & Ha).
  assert (s1 = s) as -> by (revert Httl; case_match; by intros [= _ <-]).
  apply bind_inv in Ha as ([] & s1 & [= <-] & Ha). injection Ha as _ <-. split; [done|].
  rewrite (update_moves r _ (fun l => l ++ [(id, t)])) by (intros y; unfold resource_keys; cbn; by rewrite map_app).
  destruct (Ht t eq_refl). by apply rtc_once, (observer_joins _ r id t).
Qed.
Lemma register_moves r q resUri query qos af av dev (s1 s2 s3 s4 : St) id result : fresh s1 ->
  GetObserverUsingToken check r (pointer q) s1 = Some (None, s2) ->
  GenerateObserverId check s2 = Some ((OC_STACK_OK, id), s3) ->
  AddObserver COAP_TICKS_PER_SECOND resUri query id (pointer q) r qos af av dev s3 = Some (result, s4) ->
  moves s1 s4.
Proof using discovery_keeps collection_keeps.
  intros Hs Hg Hi Ha _.
  pose proof (keeps_using_token COAP_TICKS_PER_SECOND discovery DefaultCollectionEntityHandler discovery_keeps collection_keeps _ _ _ _ _ Hg Hs)
    as [Hf2 Ho2].
  unfold GenerateObserverId in Hi. apply bind_inv in Hi as (l & s & [= <- <-] & Hi).
  apply bind_inv in Hi as (v & s & Hd & Hi). destruct v as [v|]; [|done]. injection Hi as -> <-.
  destruct (draw_absent _ _ _ _ Hf2 Hd) as (Hf3 & Ho3 & Hid).
  eapply add_moves in Ha; [|done|done|].
  - by rewrite Ho3, Ho2 in Ha.
  - intros t Ht. split; [by intros ->; destruct q|]. rewrite Ho3, Ho2. rewrite Ht in Hg. by eapply token_absent.
Qed.

Lemma leave_moves r f g : (forall x, resource_keys (f x) = g (resource_keys x)) ->
  (forall t, observers_step t (alter g r t)) -> keeps moves (update_resource (A := A) r f).
Proof.
  intros Hf Hg s u s' [= _ <-] Hs. split; [done|]. erewrite update_moves by exact Hf. apply rtc_once, Hg.
Qed.
Lemma keys_delete i x : resource_keys (with_observers (delete i (r_observers x)) x) = delete i (resource_keys x).
Proof.
  unfold resource_keys. cbn. generalize (r_observers x) as l. revert i.
  induction i as [|i IH]; intros [|o l]; cbn; [done..|]. f_equal. apply IH.
Qed.

#[local] Hint Resolve keeps_moves : keeps.
#[local] Hint Resolve keeps_using_token keeps_using_id keeps_generate keeps_handler keeps_after keeps_add_request
  keeps_update_request keeps_delete_request keeps_give keeps_eh_request keeps_in_resources keeps_notify_all
  keeps_notify_some keeps_response keeps_default_device keeps_collection keeps_determine : keeps.
Notation moving := (keeps (@moves A)).

Lemma deletes_token r t : moving (DeleteObserverUsingToken check r t).
Proof using discovery_keeps collection_keeps.
  unfold DeleteObserverUsingToken. keep. eapply leave_moves; [intros x; apply keys_delete|intros tb; apply observer_leaves].
Qed.
#[local] Hint Resolve deletes_token : keeps.
Lemma deletes_list r : moving (DeleteObserverList check r).
Proof using discovery_keeps collection_keeps.
  assert (H : forall l, moving (delete_tokens check r l)) by (induction l; cbn [delete_tokens]; keep).
  unfold DeleteObserverList, resource. keep.
  eapply (leave_moves _ _ (fun _ => [])); [done|intros tb; apply observers_leave].
Qed.

(** Registration: what is done in the order of the code, with anything that moves the
    observers before and after. *)
Lemma moves_register {X} r q resUri query qos af av dev (found : nat -> M St X) (drawn : OCStackResult * Z -> M St X) :
  (forall i, moving (found i)) ->
  (forall result id, is_ok result = false -> moving (drawn (result, id))) ->
  (forall id, exists k, (forall x, moving (k x)) /\ forall s, drawn (OC_STACK_OK, id) s
     = bind (AddObserver COAP_TICKS_PER_SECOND resUri query id (pointer q) r qos af av dev) k s) ->
  moving (let! obs := GetObserverUsingToken check r (pointer q) in
          match obs with Some i => found i | None => let! x := GenerateObserverId check in drawn x end).
Proof using discovery_keeps collection_keeps.
  intros H1 H2 H3 s x s' Hr Hs. apply bind_inv in Hr as (obs & s1 & Hg & Hr).
  assert (Hm : moves s s1) by (revert Hg; apply keeps_moves; eauto with keeps).
  destruct obs as [i|]; [by apply (transitivity Hm (H1 i _ _ _ Hr))|].
  apply bind_inv in Hr as ([result id] & s2 & Hi & Hr).
  assert (Hm2 : moves s1 s2) by (revert Hi; apply keeps_moves; eauto with keeps).
  destruct (is_ok result) eqn:Er; [|by apply (transitivity (transitivity Hm Hm2) (H2 _ _ Er _ _ _ Hr))].
  destruct result; try discriminate Er. destruct (H3 id) as (k & Hk & He). rewrite He in Hr.
  apply bind_inv in Hr as (result & s3 & Ha & Hr).
  assert (Hm3 : moves s s3) by (by eapply register_moves). by apply (transitivity Hm3 (Hk _ _ _ _ Hr)).
Qed.

Lemma observe_moves h r req : moving (observe_request COAP_TICKS_PER_SECOND check h r req).
Proof using discovery_keeps collection_keeps.
  unfold observe_request, request. apply keeps_bind; [typeclasses eauto|keep|]. intros q.
  destruct (_ =? _); [keep|]. destruct (_ =? _); [|unfold observer, resource; keep].
  eapply moves_register; [intros i; keep|intros result j ->; cbn [negb]; keep|].
  intros i. eexists. split; [|intros s; reflexivity]. intros x. cbv beta. keep.
Qed.
#[local] Hint Resolve observe_moves : keeps.

Lemma virtual_moves h r : moving (HandleVirtualResource COAP_TICKS_PER_SECOND discovery check h r).
Proof using discovery_keeps collection_keeps.
  assert (H : moving (HandleVirtualObserveRequest COAP_TICKS_PER_SECOND check h)).
  { unfold HandleVirtualObserveRequest, request, FindResourceByUri. apply keeps_bind; [typeclasses eauto|keep|]. intros q.
    destruct (q_notificationFlag q); [keep|]. destruct (negb _); [keep|]. apply keeps_bind; [typeclasses eauto|keep|].
    intros [r'|]; [|keep]. destruct (_ =? _); [|keep].
    eapply moves_register; [intros i; keep|intros result j ->; cbn [negb]; keep|].
    intros i. eexists. split; [|intros s; reflexivity]. intros x. cbv beta. keep. }
  unfold HandleVirtualResource, request. keep.
Qed.
#[local] Hint Resolve virtual_moves : keeps.
Notation process := (ProcessRequest COAP_TICKS_PER_SECOND discovery DefaultCollectionEntityHandler check).
Lemma process_moves handling r h : moving (process handling r h).
Proof using discovery_keeps collection_keeps.
  assert (H : forall r, moving (HandleResourceWithEntityHandler COAP_TICKS_PER_SECOND check h r))
    by (intros; unfold HandleResourceWithEntityHandler, request, resource; keep).
  unfold ProcessRequest. keep.
Qed.
#[local] Hint Resolve process_moves : keeps.
Lemma stack_requests_move p : moving (HandleStackRequests COAP_TICKS_PER_SECOND discovery DefaultCollectionEntityHandler p).
Proof using discovery_keeps collection_keeps. unfold HandleStackRequests, GetServerRequestUsingToken, request. keep. Qed.
#[local] Hint Resolve stack_requests_move : keeps.
Lemma requests_move mode ep info :
  moving (OCHandleRequests COAP_TICKS_PER_SECOND discovery DefaultCollectionEntityHandler mode ep info).
Proof using discovery_keeps collection_keeps.
  unfold OCHandleRequests, direct, SendDirectStackResponse, CASendResponse. keep.
Qed.
Lemma feedback_moves token status : moving (OCStackFeedBack COAP_TICKS_PER_SECOND discovery DefaultCollectionEntityHandler token status).
Proof using discovery_keeps collection_keeps.
  assert (H : forall r i f, (forall o, observer_key (f o) = observer_key o) -> moving (update_observer (A := A) r i f))
    by (intros; by apply keeps_moves, keeps_update_observer).
  unfold OCStackFeedBack, GetObserverFromResourceList, drop_observer, observer, resource.
  keep; by apply H.
Qed.
#[local] Hint Resolve requests_move feedback_moves : keeps.

#[local] Hint Extern 1 (keeps same_observers (modify _)) => keep_same : keeps.
Notation keeping := (keeps (@same_observers A)).
Lemma keeps_search_cb test l : keeping (search_cb test l).
Proof. induction l as [|cb l IH]; cbn [search_cb]; unfold CheckAndDeleteTimedOutCB, DeleteClientCBInternal; keep. Qed.
#[local] Hint Resolve keeps_search_cb : keeps.
Lemma keeps_using_cb t : keeping (GetClientCBUsingToken t).
Proof. unfold GetClientCBUsingToken. keep. Qed.
Lemma keeps_delete_cb cb : keeping (DeleteClientCB cb).
Proof. unfold DeleteClientCB, DeleteClientCBInternal. keep. Qed.
Lemma keeps_call_back cb r : keeping (call_back cb r).
Proof. unfold call_back. keep. Qed.
#[local] Hint Resolve keeps_using_cb keeps_delete_cb keeps_call_back : keeps.
Lemma keeps_client ep info cb : keeping (client_response COAP_TICKS_PER_SECOND ep info cb).
Proof.
  unfold client_response, regular_response, failed_response, reissue, acknowledge, update_cb, cb_ttl, OCSendRequest,
    CASendRequest, SendDirectStackResponse, CASendResponse. keep.
Qed.
#[local] Hint Resolve keeps_client : keeps.

Lemma responses_move mode ep info :
  moving (OCHandleResponse COAP_TICKS_PER_SECOND discovery DefaultCollectionEntityHandler mode ep info).
Proof using discovery_keeps collection_keeps.
  unfold OCHandleResponse, GetObserverFromResourceList, observer_response, SendDirectStackResponse, CASendResponse. keep.
Qed.
Lemma errors_move ep result info :
  moving (HandleCAErrorResponse COAP_TICKS_PER_SECOND discovery DefaultCollectionEntityHandler ep result info).
Proof using discovery_keeps collection_keeps. unfold HandleCAErrorResponse, GetObserverFromResourceList. keep. Qed.
#[local] Hint Resolve responses_move errors_move deletes_list : keeps.

(** ** What happens to a stack *)

(** A message or an error of the connectivity layer arrives, the application notifies
    observers, the time passes, and the random bytes and the results of sending are
    what they are. *)
Inductive event : Type :=
| Arrives (endPoint : CaTypes.CAEndpoint_t) (request : CaTypes.CARequestInfo_t)
| Responds (endPoint : CaTypes.CAEndpoint_t) (response : CaTypes.CAResponseInfo_t)
| Errs (endPoint : CaTypes.CAEndpoint_t) (result : CAResult_t) (info : CaTypes.CAInfo_t)
| NotifyAll (r : nat) (qos : OCQualityOfService)
| NotifySome (r : nat) (ids : list Z) (payload : list RepPayload.OCRepPayload) (qos : OCQualityOfService)
| DeleteObservers (r : nat)
| Ticks (t : Z) | Draws (l : list (option Z)).
Definition handle (mode : OCMode) (e : event) : M St unit :=
  match e with
  | Arrives ep q => OCHandleRequests COAP_TICKS_PER_SECOND discovery DefaultCollectionEntityHandler mode ep q
  | Responds ep r => OCHandleResponse COAP_TICKS_PER_SECOND discovery DefaultCollectionEntityHandler mode ep r
  | Errs ep r i => HandleCAErrorResponse COAP_TICKS_PER_SECOND discovery DefaultCollectionEntityHandler ep r i
  | NotifyAll r qos => OCNotifyAllObservers COAP_TICKS_PER_SECOND discovery DefaultCollectionEntityHandler r qos ;;; ret tt
  | NotifySome r ids p qos =>
      OCNotifyListOfObservers COAP_TICKS_PER_SECOND discovery DefaultCollectionEntityHandler mode r ids p qos ;;; ret tt
  | DeleteObservers r => DeleteObserverList check r
  | Ticks t => modify (set_now t)
  | Draws l => modify (set_random l)
  end.
Fixpoint handle_all (mode : OCMode) (l : list event) : M St unit :=
  match l with [] => ret tt | e :: l' => handle mode e ;;; handle_all mode l' end.

Lemma handle_moves mode e : moving (handle mode e).
Proof using discovery_keeps collection_keeps. destruct e; cbn [handle]; keep. Qed.
#[local] Hint Resolve handle_moves : keeps.

(** C16: Whatever arrives and whatever the entity handlers and the callbacks do, the
    observers change by steps of the abstract table only; so no two observers have the
    same identifier, and no two of a resource the same token. *)
Theorem observers_stay_distinct mode l (s s' : St) : fresh s -> distinct (observers s) ->
  handle_all mode l s = Some (tt, s') ->
  rtc observers_step (observers s) (observers s') /\ distinct (observers s').
Proof using discovery_keeps collection_keeps.
  assert (H : moving (handle_all mode l)) by (induction l; cbn [handle_all]; keep).
  intros Hs Hd Hh. destruct (H _ _ _ Hh Hs) as [_ Hr]. split; [done|by eapply steps_distinct].
Qed.
End server.

(** Two observers register, one again with its token, and one resets a notification. *)
Import CborTokens StackDemo.
Definition two_observers : list event :=
  [Arrives phone (get_request 33 [1; 2; 3; 4; 5; 6; 7; 8] [0]); Arrives phone (get_request 34 [9; 9; 9; 9; 9; 9; 9; 9] [0]);
   Arrives phone (get_request 35 [1; 2; 3; 4; 5; 6; 7; 8] [0]); NotifyAll 0 OC_LOW_QOS;
   Responds phone (CaTypes.mk_response CaTypes.CA_EMPTY
     (CaTypes.mk_info CaTypes.CA_MSG_RESET 7 (Some [1; 2; 3; 4; 5; 6; 7; 8]) [] None 0 0 0 0 None 0) false)].
Lemma observers_stay_distinct_witness : exists s',
  handle_all ticks no_discovery no_collection OC_SERVER two_observers (server [Some 7; Some 7; Some 8] []) = Some (tt, s') /\
  observers s' = [[(8, [9; 9; 9; 9; 9; 9; 9; 9])]] /\ distinct (observers s').
Proof.
  eexists. split; [vm_compute; reflexivity|]. split; [reflexivity|].
  apply (observers_stay_distinct ticks no_discovery no_collection ltac:(intros h; apply keeps_ret; typeclasses eauto)
           ltac:(intros q; apply keeps_ret; typeclasses eauto) OC_SERVER two_observers (server [Some 7; Some 7; Some 8] []));
    [by constructor|split; repeat constructor|by vm_compute].
Defined.
End Observers.
