(* ===== verification/Notification.v ===== *)
(** * Notifications

    What the observers of a resource get when its application notifies them: each of
    them one response, in order, and nothing else changes. *)

From S2P Require Import Prelude.
From S2P Require Import Status.
From S2P Require Import CString.
From S2P Require Import SrmUtility.
From S2P Require Import CaTypes.
From S2P Require Import CoapCodec.
From S2P Require Import Cbor.
From S2P Require Import RepPayload.
From S2P Require Import PayloadCodec.
From S2P Require Import CborTokens.
From S2P Require Import Stack.
From S2P Require Import ServerRequest.
From S2P Require Import Observe.
From S2P Require Import Client.
From S2P Require Import StackDemo.
From S2P Require Import ObserveLaws.

Module Notification.
Import CString SrmUtility Stack ServerRequest Observe PayloadCodec ObserveLaws.
Open Scope m_scope.

(** ** What an observer gets *)

(** Format and version that are announced for a payload. *)
Definition announced (f : OCPayloadFormat) (version : Z) : Z * Z :=
  if bool_decide (f = OC_FORMAT_VND_OCF_CBOR)
  then (CoapCodec.CA_FORMAT_APPLICATION_VND_OCF_CBOR, if version =? 0 then CoapCodec.DEFAULT_VERSION_VALUE else version)
  else (CoapCodec.CA_FORMAT_APPLICATION_CBOR, 0).
Definition notification_response (o : ResourceObserver) (n : Z) (qos : OCQualityOfService) (b : list Z) : CaTypes.CAResponseInfo_t :=
  let '(format, version) := announced (o_acceptFormat o) (o_acceptVersion o) in
  CaTypes.mk_response 205
    (CaTypes.mk_info (if bool_decide (qos = OC_HIGH_QOS) then CaTypes.CA_MSG_CONFIRM else CaTypes.CA_MSG_NONCONFIRM) 0
       (Some (o_token o)) (observe_option n :: content_options (scan_options [])) (Some b) format
       CoapCodec.CA_FORMAT_UNDEFINED version 0 (Some (codes (o_resUri o))) CaTypes.CA_RESPONSE_DATA) false.
Definition notification (o : ResourceObserver) (n : Z) (qos : OCQualityOfService) (b : list Z) : message :=
  SentResponse (CopyDevAddrToEndpoint (o_devAddr o)) (notification_response o n qos b).

(** The observers afterwards and their notifications.  The quality decided for one is
    what is asked for the next. *)
Fixpoint notify (ttl n : Z) (b : list Z) (qos : OCQualityOfService) (l : list ResourceObserver) :
    list ResourceObserver * list message :=
  match l with
  | [] => ([], [])
  | o :: l' =>
      let '(q, o') := DetermineObserverQoS o qos in
      let '(os, ms) := notify ttl n b q l' in
      (with_TTL ttl o' :: os, notification o n q b :: ms)
  end.

Lemma alter_insert {X} (f : X -> X) (r : nat) (l : list X) x : l !! r = Some x -> alter f r l = <[r := f x]> l.
Proof.
  revert r. induction l as [|y l IH]; intros [|r] H; cbn in *; [done|done|by injection H as ->|]. f_equal. by apply IH.
Qed.

Section notify.
Context {A : Type} `{!Application A} {L : Cbor.CborLib} {E : CborEncoder}.
Notation St := (stack A).
Context (COAP_TICKS_PER_SECOND : Z).
Context (discovery : Z -> M St OCStackResult).
Context (DefaultCollectionEntityHandler : OCEntityHandlerRequest -> M St OCStackResult).

(** [s] after some messages were sent and requests made and answered. *)
Definition after (s : St) (h : list OCResource) (requests : Z) (ms : list message) : St :=
  mk_stack (now s) (random s) [] (sent s ++ ms) h (g_serverRequestTree s) (next_request s + requests)
    (g_serverResponseTree s) (g_cbList s) (app s).

(** A resource whose handler answers every request at once with the same
    representation, which is [b] as bytes. *)
Record prompt (x : OCResource) (payload : list RepPayload.OCRepPayload) (b : list Z) : Prop := {
  prompt_handler : forall req a, entityHandler (r_uri x) OC_REQUEST_FLAG req a
    = (OC_EH_OK, [mk_ehresp (eh_requestHandle req) OC_EH_OK (Some (Representation payload)) [] ""], a);
  prompt_bytes : OCConvertPayload (enough_fuel (Representation payload)) (Representation payload) = Some (OC_STACK_OK, b);
  prompt_some : b <> [];
  prompt_uri : r_uri x <> ""%string /\ GetTypeOfVirtualURI (r_uri x) = None /\ str_take (MAX_URI_LENGTH - 1) (r_uri x) = r_uri x;
  prompt_own : r_defaultHandler x = false }.
(** An observer of it that can be reached and takes CBOR. *)
Record reachable_observer (x : OCResource) (o : ResourceObserver) : Prop := {
  observer_uri : o_resUri o = r_uri x;
  observer_endpoint : CheckRequestsEndpoint (o_devAddr o) (r_endpointType x) = OC_STACK_OK;
  observer_token : Z.of_nat (List.length (o_token o)) <= CoapCodec.CA_MAX_TOKEN_LEN;
  observer_format : o_acceptFormat o <> OC_FORMAT_JSON /\ o_acceptFormat o <> OC_FORMAT_UNSUPPORTED }.
(** It is the first of its URI. *)
Definition first_of_uri (h : list OCResource) (r : nat) (uri : string) : Prop :=
  fst <$> list_find (fun y => r_uri y = uri) h = Some r.

Lemma filter_old (l : list (Z * OCServerRequest)) k : Forall (fun x => x.1 < k) l -> filter (fun x => x.1 <> k) l = l.
Proof. induction 1 as [|x l Hx _ IH]; [done|]. rewrite filter_cons_True by lia. by rewrite IH. Qed.
Lemma delete_new q (s : St) : fresh s ->
  DeleteServerRequest (next_request s) (with_request q s) = Some (tt, set_requests (g_serverRequestTree s) (next_request s + 1) s).
Proof.
  intros Hs. unfold DeleteServerRequest. rewrite (bind_some _ _ _ _ _ (request_new q s Hs)). unfold modify. cbn.
  rewrite filter_app, filter_old, filter_cons_False by (done || (cbn; tauto)). by rewrite app_nil_r.
Qed.

Lemma respond_new o n qos payload b (s : St) : fresh s -> results s = [] -> 0 <= n <= MAX_SEQUENCE_NUMBER ->
  Z.of_nat (List.length (o_token o)) <= CoapCodec.CA_MAX_TOKEN_LEN ->
  o_acceptFormat o <> OC_FORMAT_JSON /\ o_acceptFormat o <> OC_FORMAT_UNSUPPORTED ->
  str_take (MAX_URI_LENGTH - 1) (o_resUri o) = o_resUri o ->
  OCConvertPayload (enough_fuel (Representation payload)) (Representation payload) = Some (OC_STACK_OK, b) -> b <> [] ->
  OCDoResponse (mk_ehresp (Some (next_request s)) OC_EH_OK (Some (Representation payload)) [] "")
    (with_request (notification_of o n qos) s)
  = Some (OC_STACK_OK, after s (headResource s) 1 [notification o n qos b]).
Proof.
  intros Hs Hr Hn Ht [Hj Hu] Huri Hp Hb. unfold OCDoResponse. cbn [s_requestHandle].
  rewrite (bind_some _ _ _ _ _ (request_new _ s Hs)). cbn [q_aggregate notification_of]. unfold HandleSingleResponse.
  cbn [s_requestHandle]. rewrite (bind_some _ _ _ _ _ (request_new _ s Hs)). cbn [q_token notification_of].
  rewrite (proj2 (Z.ltb_ge _ _)) by (unfold CoapCodec.CA_MAX_TOKEN_LEN in *; lia).
  set (opts := observe_option n :: content_options (scan_options [])).
  erewrite bind_some; [|unfold response_options, has_observe; cbn [q_observeResult q_observationOption notification_of];
    rewrite (proj2 (Z.eqb_neq n _)) by (unfold MAX_SEQUENCE_NUMBER in *; lia);
    exact (eq_refl : demand (Some (inr opts)) _ = Some (inr opts, _))].
  cbv iota. unfold response_payload. cbn [s_payload s_ehResult q_acceptFormat notification_of q_acceptVersion q_method].
  rewrite bool_decide_false by tauto. rewrite Hp. cbn [mbind option_bind].
  assert (Hlen : 0 <? Z.of_nat (List.length b) = true) by (by destruct b). rewrite Hlen.
  erewrite bind_some by reflexivity. cbv iota beta.
  unfold OCSendResponse, CASendResponse.
  erewrite bind_some; [|erewrite bind_some; [|unfold give; reflexivity]; reflexivity].
  cbn [results with_request set_requests]. rewrite Hr. cbn [head default tail from_option CAResultToOCResult].
  set (m := SentResponse _ _).
  rewrite (bind_some _ _ _ _ _ (delete_new (notification_of o n qos) (set_sent [] (sent s ++ [m]) s) Hs)).
  assert (m = notification o n qos b) as ->; [|reflexivity]. unfold m, notification, notification_response, announced, response_type. clear m.
  cbn [q_resourceUrl q_devAddr q_coapID q_qos q_notificationFlag notification_of]. rewrite Huri.
  by destruct (bool_decide (o_acceptFormat o = _)), (bool_decide (qos = _)).
Qed.

Lemma answer_new x r o n qos payload b (s : St) : prompt x payload b -> reachable_observer x o ->
  first_of_uri (headResource s) r (r_uri x) -> headResource s !! r = Some x ->
  fresh s -> results s = [] -> 0 <= n <= MAX_SEQUENCE_NUMBER ->
  let q := notification_of o n qos in
  exists handling, DetermineResourceHandling q (with_request q s) = Some ((OC_STACK_OK, handling, Some r), with_request q s) /\
    answer_request discovery DefaultCollectionEntityHandler handling (Some r) (next_request s) (with_request q s)
    = Some (OC_STACK_OK, after s (headResource s) 1 [notification o n qos b]).
Proof.
  intros [Hh Hp Hb (Hu & Hv & Ht) Hd] [Ho He Hl Hf] Hr Hx Hs Hres Hn q.
  assert (Hq : q_resourceUrl q = r_uri x) by (change (str_take (MAX_URI_LENGTH - 1) (o_resUri o) = r_uri x); by rewrite Ho).
  exists (if r_collection x then OC_RESOURCE_COLLECTION_WITH_ENTITYHANDLER else OC_RESOURCE_NOT_COLLECTION_WITH_ENTITYHANDLER).
  split.
  - unfold DetermineResourceHandling. rewrite Hq, Hv. rewrite (proj2 (String.eqb_neq _ _)) by done.
    unfold FindResourceByUri. erewrite bind_some by reflexivity. cbn [headResource with_request set_requests]. rewrite Hr.
    erewrite bind_some; [|unfold resource; cbn; by rewrite Hx]. cbn [q_devAddr q notification_of]. rewrite He, Hd. cbn [is_ok negb].
    by destruct (r_collection x).
  - assert (Ha : answer_resource (next_request s) r (with_request q s)
      = Some (OC_STACK_OK, after s (headResource s) 1 [notification o n qos b])); [|by destruct (r_collection x)].
    unfold answer_resource. rewrite (bind_some _ _ _ _ _ (request_new q s Hs)).
    erewrite bind_some; [|unfold resource; cbn; by rewrite Hx].
    erewrite bind_some; [|unfold EHRequest; rewrite (bind_some _ _ _ _ _ (request_new q s Hs)); reflexivity].
    cbv iota beta. unfold run_handler. rewrite Hd.
    erewrite bind_some; [|erewrite bind_some by reflexivity; rewrite Hh; cbv iota beta; erewrite bind_some by reflexivity;
      erewrite bind_some; [|cbn [do_responses]; erewrite bind_some; [reflexivity|];
        change (set_app _ (with_request q s)) with (with_request q s);
        apply (respond_new o n qos payload b s); try done; by rewrite Ho]; reflexivity].
    reflexivity.
Qed.

Notation ttl_of s := (ticks_after COAP_TICKS_PER_SECOND (now s) (MAX_OBSERVER_TTL_SECONDS * MILLISECONDS_PER_SECOND)).

Lemma after_nil (s : St) : results s = [] -> after s (headResource s) 0 [] = s.
Proof. destruct s. cbn. intros ->. unfold after. cbn. by rewrite app_nil_r, Z.add_0_r. Qed.
Lemma after_after (s : St) h h' n n' ms ms' : after (after s h n ms) h' n' ms' = after s h' (n + n') (ms ++ ms').
Proof. unfold after. cbn. by rewrite app_assoc, Z.add_assoc. Qed.
Lemma after_fresh (s : St) h n ms : fresh s -> 0 <= n -> fresh (after s h n ms).
Proof. intros Hs Hn. unfold fresh. cbn. eapply Forall_impl; [exact Hs|]. cbn. lia. Qed.

Lemma prompt_with x y payload b : r_uri y = r_uri x -> r_defaultHandler y = r_defaultHandler x ->
  prompt x payload b -> prompt y payload b.
Proof. intros Hu Hd []. split; [intros; rewrite Hu; eauto|done|done|by rewrite Hu|by rewrite Hd]. Qed.
Lemma reachable_with x y o o' : r_uri y = r_uri x -> r_endpointType y = r_endpointType x ->
  o_resUri o' = o_resUri o -> o_devAddr o' = o_devAddr o -> o_token o' = o_token o -> o_acceptFormat o' = o_acceptFormat o ->
  reachable_observer x o -> reachable_observer y o'.
Proof. intros Hu He H1 H2 H3 H4 []. split; [by rewrite H1, Hu|by rewrite H2, He|by rewrite H3|by rewrite H4]. Qed.

Lemma first_insert h r (x y : OCResource) u : first_of_uri h r u -> h !! r = Some x -> r_uri y = r_uri x ->
  first_of_uri (<[r := y]> h) r u.
Proof.
  unfold first_of_uri. intros Hf Hx Hu. destruct (list_find _ h) as [[i z]|] eqn:E1; [|done]. injection Hf as ->.
  apply list_find_Some in E1 as (Hz & Hp & Ho). rewrite Hx in Hz. injection Hz as ->.
  rewrite (proj2 (list_find_Some _ (<[r := y]> h) r y)); [done|].
  rewrite list_lookup_insert_eq by (by eapply lookup_lt_Some). split; [done|]. split; [by rewrite Hu|].
  intros j w Hw Hj. rewrite list_lookup_insert_ne in Hw by lia. by eapply Ho.
Qed.

(** The same observer, with other counts and another time to live. *)
Definition same_observer (o o' : ResourceObserver) : Prop :=
  o_resUri o' = o_resUri o /\ o_devAddr o' = o_devAddr o /\ o_token o' = o_token o /\ o_acceptFormat o' = o_acceptFormat o /\
  forall n q b, notification o' n q b = notification o n q b.
Lemma decided_same o q : same_observer o (snd (DetermineObserverQoS o q)).
Proof. unfold DetermineObserverQoS. by repeat case_match. Qed.

Lemma update_at r i f x o (s : St) : headResource s !! r = Some x -> r_observers x !! i = Some o ->
  update_observer r i f s = Some (tt, set_resources (<[r := with_observers (<[i := f o]> (r_observers x)) x]> (headResource s)) s).
Proof.
  intros Hx Ho. unfold update_observer, update_resource, modify. by rewrite (alter_insert _ _ _ _ Hx), (alter_insert _ _ _ _ Ho).
Qed.
Lemma observer_at r i x o (s : St) : headResource s !! r = Some x -> r_observers x !! i = Some o -> observer r i s = Some (o, s).
Proof. intros Hx Ho. unfold observer, resource. cbn. unfold bind. cbn. rewrite Hx. cbn. by rewrite Ho. Qed.

Lemma send_one x r i o n qos payload b (s : St) : prompt x payload b -> reachable_observer x o ->
  first_of_uri (headResource s) r (r_uri x) -> headResource s !! r = Some x -> r_observers x !! i = Some o ->
  fresh s -> results s = [] -> 0 <= n <= MAX_SEQUENCE_NUMBER ->
  send_notification COAP_TICKS_PER_SECOND discovery DefaultCollectionEntityHandler r i n qos s
  = Some (OC_STACK_OK, after s (<[r := with_observers (<[i := with_TTL (ttl_of s) o]> (r_observers x)) x]> (headResource s))
      1 [notification o n qos b]).
Proof.
  intros Hp Ho Hf Hx Hi Hs Hr Hn. unfold send_notification. rewrite (bind_some _ _ _ _ _ (observer_at _ _ _ _ _ Hx Hi)).
  rewrite (bind_some _ _ _ _ _ (notification_new o n qos s Hs)), (bind_some _ _ _ _ _ (request_new _ s Hs)).
  destruct (answer_new x r o n qos payload b s Hp Ho Hf Hx Hs Hr Hn) as (handling & Hd & Ha).
  rewrite (bind_some _ _ _ _ _ Hd). cbv iota beta. cbn [is_ok]. rewrite (bind_some _ _ _ _ _ Ha).
  erewrite bind_some by reflexivity. by erewrite bind_some; [|apply (update_at _ _ _ x o); [exact Hx|exact Hi]].
Qed.

Notation loop := (notify_loop COAP_TICKS_PER_SECOND discovery DefaultCollectionEntityHandler).
Lemma loop_notifies payload b r u e (s0 : St) : forall todo old x qos result (s : St),
  prompt x payload b -> Forall (reachable_observer x) todo ->
  first_of_uri (headResource s) r u -> r_uri x = u -> headResource s !! r = Some x -> r_observers x = old ++ todo ->
  fresh s -> results s = [] -> now s = now s0 -> 0 <= r_sequenceNum x <= MAX_SEQUENCE_NUMBER ->
  let '(os, ms) := notify (ttl_of s0) (r_sequenceNum x) b qos todo in
  loop r (seq (List.length old) (List.length todo)) qos result e s
  = Some ((match todo with [] => result | _ => OC_STACK_OK end, e),
      after s (<[r := with_observers (old ++ os) x]> (headResource s)) (Z.of_nat (List.length todo)) ms).
Proof.
  induction todo as [|o todo IH]; intros old x qos result s Hp Ho Hf Hu Hx Hl Hs Hr Ht Hn; cbn [notify].
  - cbn [List.length seq notify_loop]. unfold ret. f_equal. f_equal. rewrite <- Hl.
    replace (with_observers (r_observers x) x) with x by (by destruct x).
    rewrite list_insert_id by done. by rewrite after_nil.
  - apply Forall_cons in Ho as [Ho Htodo]. pose proof (decided_same o qos) as Hsame.
    assert (Hi : r_observers x !! List.length old = Some o) by (rewrite Hl; by apply list_lookup_middle).
    cbn [List.length seq Observe.notify_loop]. rewrite (bind_some _ _ _ _ _ (observer_at _ _ _ _ _ Hx Hi)).
    destruct (DetermineObserverQoS o qos) as [q o1]. cbn [snd] in Hsame. destruct Hsame as (E1 & E2 & E3 & E4 & E5).
    destruct (notify _ _ _ q todo) as [os ms] eqn:En.
    rewrite (bind_some _ _ _ _ _ (update_at _ _ _ _ _ _ Hx Hi)).
    set (x1 := with_observers (<[List.length old := o1]> (r_observers x)) x).
    set (s1 := set_resources (<[r := x1]> (headResource s)) s).
    pose proof (lookup_lt_Some _ _ _ Hx) as Hlt. pose proof (lookup_lt_Some _ _ _ Hi) as Hlti.
    assert (Hx1 : headResource s1 !! r = Some x1) by (by apply list_lookup_insert_eq).
    assert (Hp1 : prompt x1 payload b) by (by apply (prompt_with x)).
    assert (Ho1 : reachable_observer x1 o1) by (by apply (reachable_with x _ o)).
    assert (Hf1 : first_of_uri (headResource s1) r (r_uri x1)) by (subst u; by apply (first_insert _ _ x)).
    assert (Hi1 : r_observers x1 !! List.length old = Some o1) by (by apply list_lookup_insert_eq).
    erewrite bind_some; [|unfold resource; erewrite bind_some by reflexivity; rewrite Hx1; reflexivity].
    erewrite bind_some; [|rewrite (notification_plain COAP_TICKS_PER_SECOND discovery DefaultCollectionEntityHandler) by done;
      by apply (send_one x1 r (List.length old) o1 (r_sequenceNum x1) q payload b s1)].
    cbn [is_ok negb]. rewrite orb_false_r, E5.
    set (x2 := with_observers _ x1). set (s2 := after s1 _ 1 _).
    assert (Hobs : r_observers x2 = (old ++ [with_TTL (ttl_of s0) o1]) ++ todo).
    { rewrite <- Ht.
      change (<[List.length old := with_TTL (ttl_of s) o1]> (<[List.length old := o1]> (r_observers x))
              = (old ++ [with_TTL (ttl_of s) o1]) ++ todo).
      rewrite list_insert_insert_eq, Hl, insert_app_r_alt, Nat.sub_diag by lia. cbn. by rewrite <- app_assoc. }
    specialize (IH (old ++ [with_TTL (ttl_of s0) o1]) x2 q OC_STACK_OK s2).
    rewrite length_app, Nat.add_1_r in IH. cbn [r_sequenceNum x2 x1 with_observers] in IH. rewrite En in IH.
    assert (Hlt1 : (r < List.length (headResource s1))%nat) by (by eapply lookup_lt_Some).
    rewrite IH; clear IH; try done.
    + unfold s2. rewrite after_after. unfold s1. cbn [headResource after set_resources]. rewrite !list_insert_insert_eq.
      rewrite <- app_assoc, Nat2Z.inj_succ, Z.add_comm. cbn [app]. by destruct todo.
    + by apply (prompt_with x1).
    + eapply Forall_impl; [exact Htodo|]. intros o' Ho'. by apply (reachable_with x _ o').
    + subst u. by apply (first_insert _ _ x1).
    + by apply list_lookup_insert_eq.
    + by apply after_fresh.
Qed.

Lemma increment_fields x : let y := incrementSequenceNumber x in
  r_observers y = r_observers x /\ r_uri y = r_uri x /\ r_defaultHandler y = r_defaultHandler x /\ r_endpointType y = r_endpointType x.
Proof. unfold incrementSequenceNumber. by case_match. Qed.
Lemma notify_each ttl n b l : forall qos,
  Forall2 (fun o m => exists q, m = notification o n q b) l (snd (notify ttl n b qos l)).
Proof.
  induction l as [|o l IH]; intros qos; cbn [notify]; [constructor|].
  destruct (DetermineObserverQoS o qos) as [q o']. specialize (IH q). destruct (notify _ _ _ _ l) as [os ms].
  constructor; [by exists q|done].
Qed.

(** C17: Each observer of the resource gets one response with its token, the next sequence
    number and the representation, in the order of their registration; nothing else is
    sent, no request is left, and the observers are those there were. *)
Theorem notified_once r qos x payload b o l (s : St) :
  headResource s !! r = Some x -> first_of_uri (headResource s) r (r_uri x) -> prompt x payload b ->
  r_observers x = o :: l -> Forall (reachable_observer x) (r_observers x) ->
  0 <= r_sequenceNum x < MAX_SEQUENCE_NUMBER -> fresh s -> results s = [] ->
  let x' := incrementSequenceNumber x in
  let '(os, ms) := notify (ttl_of s) (r_sequenceNum x') b qos (r_observers x) in
  OCNotifyAllObservers COAP_TICKS_PER_SECOND discovery DefaultCollectionEntityHandler r qos s
  = Some (OC_STACK_OK, after s (<[r := with_observers os x']> (headResource s)) (Z.of_nat (List.length (r_observers x))) ms) /\
  Forall2 (fun o m => exists q, m = notification o (r_sequenceNum x') q b) (r_observers x) ms.
Proof.
  intros Hx Hf Hp Hl Ho Hn Hs Hr x'. destruct (notify _ _ _ _ _) as [os ms] eqn:En. split.
  - unfold OCNotifyAllObservers. erewrite bind_some by reflexivity.
    assert (Hlt : (r < List.length (headResource s))%nat) by (by eapply lookup_lt_Some).
    rewrite bool_decide_true by done. cbn [negb]. unfold update_resource at 1. erewrite bind_some by reflexivity.
    rewrite (alter_insert _ _ _ _ Hx). fold x'. set (s1 := set_resources _ s).
    assert (Hx1 : headResource s1 !! r = Some x') by (by apply list_lookup_insert_eq).
    assert (Hb : 0 <= r_sequenceNum x' <= MAX_SEQUENCE_NUMBER).
    { pose proof (sequence_step x Hn) as E1. unfold x'. rewrite E1. cbn [r_sequenceNum with_sequence].
      pose proof (Z.mod_pos_bound (r_sequenceNum x) (MAX_SEQUENCE_NUMBER - 1) ltac:(done)). unfold MAX_SEQUENCE_NUMBER in *. lia. }
    unfold SendAllObserverNotification, places.
    erewrite bind_some; [|erewrite bind_some; [|unfold resource; erewrite bind_some by reflexivity; rewrite Hx1; reflexivity]; reflexivity].
    destruct (increment_fields x) as (Hobs & Hu & Hd & He). fold x' in Hobs, Hu, Hd, He.
    pose proof (loop_notifies payload b r (r_uri x) false s (r_observers x) [] x' qos OC_STACK_ERROR s1) as Hloop.
    rewrite En in Hloop. rewrite Hobs. rewrite Hl in Hloop |- *. cbn [List.length seq] in Hloop |- *.
    erewrite bind_some; [|apply Hloop; clear Hloop; try done].
    + cbn [app]. unfold s1. cbn [headResource set_resources]. by rewrite list_insert_insert_eq.
    + by apply (prompt_with x).
    + rewrite <- Hl. eapply Forall_impl; [exact Ho|]. intros o' Ho'. by apply (reachable_with x _ o').
    + by apply (first_insert _ _ x).
  - pose proof (notify_each (ttl_of s) (r_sequenceNum x') b (r_observers x) qos) as H. by rewrite En in H.
Qed.
End notify.

(** ** Two observers of a light *)

Import CborTokens StackDemo.
Definition phone_observer (id : Z) (token : list Z) (qos : OCQualityOfService) (low : Z) : ResourceObserver :=
  mk_observer id uri None token phone qos 0 low false 0 OC_FORMAT_CBOR 0.
Definition observers_of_light : list ResourceObserver :=
  [phone_observer 7 [1; 2; 3; 4; 5; 6; 7; 8] OC_LOW_QOS 3; phone_observer 8 [9; 9; 9; 9; 9; 9; 9; 9] OC_HIGH_QOS 0].
Definition light_bytes : list Z := [5; 1; 2; 5; 112; 111; 119; 101; 114; 0; 75].

Lemma light_prompt l : prompt (light_resource l) [light] light_bytes.
Proof. by split. Qed.
Lemma phone_reachable l id token qos low : (List.length token <= 8)%nat ->
  reachable_observer (light_resource l) (phone_observer id token qos low).
Proof. intros H. split; [done|by vm_compute|cbn; unfold CoapCodec.CA_MAX_TOKEN_LEN; lia|done]. Qed.

Lemma notified_once_witness : exists s',
  OCNotifyAllObservers ticks no_discovery no_collection 0 OC_LOW_QOS (server [] observers_of_light) = Some (OC_STACK_OK, s') /\
  sent s' = [notification (phone_observer 7 [1; 2; 3; 4; 5; 6; 7; 8] OC_LOW_QOS 3) 1 OC_HIGH_QOS light_bytes;
             notification (phone_observer 8 [9; 9; 9; 9; 9; 9; 9; 9] OC_HIGH_QOS 0) 1 OC_HIGH_QOS light_bytes].
Proof.
  eexists. split.
  - apply (notified_once ticks no_discovery no_collection 0 OC_LOW_QOS (light_resource observers_of_light) [light] light_bytes
             (phone_observer 7 [1; 2; 3; 4; 5; 6; 7; 8] OC_LOW_QOS 3) [phone_observer 8 [9; 9; 9; 9; 9; 9; 9; 9] OC_HIGH_QOS 0]
             (server [] observers_of_light)); try reflexivity.
    + apply light_prompt.
    + repeat (constructor; [apply phone_reachable; cbn; lia|]). constructor.
    + split; [done|reflexivity].
    + constructor.
  - reflexivity.
Defined.
End Notification.
