(* ===== verification/Feedback.v ===== *)
(** * What becomes of a notification

    An observer acknowledges a notification, resets it, or is not reached.  The counts
    the stack keeps refine a small automaton: the third failure in a row, or a reset,
    ends the observation. *)

From S2P Require Import Prelude.
From S2P Require Import Status.
From S2P Require Import CString.
From S2P Require Import CaTypes.
From S2P Require Import Cbor.
From S2P Require Import PayloadCodec.
From S2P Require Import CborTokens.
From S2P Require Import Stack.
From S2P Require Import ServerRequest.
From S2P Require Import Observe.
From S2P Require Import Client.
From S2P Require Import StackDemo.
From S2P Require Import ObserveLaws.
From S2P Require Import Notification.

Module Feedback.
Import CString Stack ServerRequest Observe PayloadCodec ObserveLaws Notification.
Open Scope m_scope.

(** ** The automaton *)

(** The failures in a row, when there is an observation. *)
Definition feedback_spec (status : Z) (failures : option Z) : option Z :=
  match failures with
  | None => None
  | Some n =>
      if status =? OC_OBSERVER_NOT_INTERESTED then None
      else if status =? OC_OBSERVER_STILL_INTERESTED then Some 0
      else if status =? OC_OBSERVER_FAILED_COMM then
        if MAX_OBSERVER_FAILED_COMM <=? n then None else Some (n + 1)
      else Some n
  end.

(** ** The observers of all resources *)

Definition all_observers (h : list OCResource) : list ResourceObserver := concat (map r_observers h).
Fixpoint find_observer (t : list Z) (l : list ResourceObserver) : option ResourceObserver :=
  match l with [] => None | o :: l' => if decide (o_token o = t) then Some o else find_observer t l' end.
Definition failures {A} (t : list Z) (s : stack A) : option Z :=
  failedCommCount <$> find_observer t (all_observers (headResource s)).

Lemma find_observer_app t l1 o l2 : find_observer t (l1 ++ o :: l2) =
  match find_observer t l1 with Some o' => Some o' | None => if decide (o_token o = t) then Some o else find_observer t l2 end.
Proof. induction l1 as [|o1 l1 IH]; cbn; [done|]. by destruct (decide (o_token o1 = t)). Qed.
Lemma find_observer_none t l : t ∉ map o_token l -> find_observer t l = None.
Proof.
  induction l as [|o l IH]; cbn; [done|]. intros [H1 H2]%not_elem_of_cons. rewrite decide_False by congruence. by apply IH.
Qed.
Lemma find_observer_drop t l1 o l2 : o_token o <> t -> find_observer t (l1 ++ o :: l2) = find_observer t (l1 ++ l2).
Proof. intros Ho. induction l1 as [|o1 l1 IH]; cbn; [by rewrite decide_False|]. by rewrite IH. Qed.
Lemma find_observer_here t l1 o l2 : NoDup (map o_token (l1 ++ o :: l2)) -> o_token o = t ->
  find_observer t (l1 ++ o :: l2) = Some o /\ find_observer t (l1 ++ l2) = None.
Proof.
  rewrite map_app. cbn. intros Hn <-. apply NoDup_app in Hn as (H1 & H2 & [H3 H4]%NoDup_cons). split.
  - rewrite find_observer_app, find_observer_none, decide_True; [done|done|]. intros Ho. apply (H2 _ Ho). by left.
  - apply find_observer_none. rewrite map_app. intros [Ho|Ho]%elem_of_app; [|done]. apply (H2 _ Ho). by left.
Qed.

(** A place among the observers of a resource is a place among all. *)
Lemma all_split h r (x : OCResource) i o : h !! r = Some x -> r_observers x !! i = Some o ->
  exists l1 l2, all_observers h = l1 ++ o :: l2 /\
    (forall o', all_observers (<[r := with_observers (<[i := o']> (r_observers x)) x]> h) = l1 ++ o' :: l2) /\
    all_observers (<[r := with_observers (delete i (r_observers x)) x]> h) = l1 ++ l2.
Proof.
  intros Hx Ho. apply list_elem_of_split_length in Hx as (h1 & h2 & -> & ->).
  apply list_elem_of_split_length in Ho as (o1 & o2 & Ho & ->).
  exists (concat (map r_observers h1) ++ o1), (o2 ++ concat (map r_observers h2)).
  assert (E1 : forall y, all_observers (h1 ++ y :: h2) = concat (map r_observers h1) ++ r_observers y ++ concat (map r_observers h2)).
  { intros y. unfold all_observers. rewrite map_app, concat_app. done. }
  assert (E2 : forall y, <[List.length h1 := y]> (h1 ++ x :: h2) = h1 ++ y :: h2)
    by (intros y; by rewrite insert_app_r_alt, Nat.sub_diag by lia).
  rewrite E1, Ho. split; [by rewrite <- !app_assoc|split].
  - intros o'. rewrite E2, E1. cbn [r_observers with_observers]. rewrite insert_app_r_alt, Nat.sub_diag by lia.
    cbn. by rewrite <- !app_assoc.
  - rewrite E2, E1. cbn [r_observers with_observers]. by rewrite delete_middle, <- !app_assoc.
Qed.

Section feedback.
Context {A : Type} `{!Application A} {L : Cbor.CborLib} {E : CborEncoder}.
Notation St := (stack A).
Context (COAP_TICKS_PER_SECOND : Z).
Context (discovery : Z -> M St OCStackResult).
Context (DefaultCollectionEntityHandler : OCEntityHandlerRequest -> M St OCStackResult).
Notation check := (CheckTimedOutObserver COAP_TICKS_PER_SECOND discovery DefaultCollectionEntityHandler).
Notation feedback := (OCStackFeedBack COAP_TICKS_PER_SECOND discovery DefaultCollectionEntityHandler).

(** No observer was silent for too long, the tokens have the same length, and no two
    observers the same token. *)
Definition in_time (n : nat) (s : St) (o : ResourceObserver) : Prop :=
  (TTL o = 0 \/ now s <= TTL o) /\ List.length (o_token o) = n /\ 0 <= failedCommCount o.
Definition steady (n : nat) (s : St) : Prop :=
  (0 < n)%nat /\ Forall (in_time n s) (all_observers (headResource s)) /\ NoDup (map o_token (all_observers (headResource s))).

Lemma steady_in n (s : St) r i x o : steady n s -> headResource s !! r = Some x -> r_observers x !! i = Some o -> in_time n s o.
Proof.
  intros (_ & H & _) Hx Ho. destruct (all_split _ _ _ _ _ Hx Ho) as (l1 & l2 & El & _). rewrite El in H.
  by apply Forall_app in H as [_ [? _]%Forall_cons].
Qed.

Lemma check_in_time r i x o n (s : St) : headResource s !! r = Some x -> r_observers x !! i = Some o -> in_time n s o ->
  check r i s = Some (tt, s).
Proof.
  intros Hx Ho [Ht _]. unfold CheckTimedOutObserver. cbn [timed_out]. unfold check_observer.
  rewrite (bind_some _ _ _ _ _ (observer_at _ _ _ _ _ Hx Ho)). erewrite bind_some by reflexivity.
  destruct (Z.eqb_spec (TTL o) 0); [done|]. rewrite (proj2 (Z.ltb_ge _ _)); [done|lia].
Qed.

(** A search by token finds an observer with the token, when there is one. *)
Lemma walk_token r x t (s : St) : steady (List.length t) s -> headResource s !! r = Some x -> forall l,
  (forall i, i ∈ l -> is_Some (r_observers x !! i)) ->
  exists found, walk check r (fun o => same_token (o_token o) t) l s = Some (found, s) /\
    match found with
    | Some i => exists o, r_observers x !! i = Some o /\ o_token o = t
    | None => forall i o, i ∈ l -> r_observers x !! i = Some o -> o_token o <> t
    end.
Proof.
  intros Hs Hx l Hl. induction l as [|i l IH]; [exists None; split; [done|]; by intros i o Hi%not_elem_of_nil|].
  destruct (Hl i) as [o Ho]; [by left|]. pose proof (steady_in _ _ _ _ _ _ Hs Hx Ho) as Hin. pose proof Hin as (_ & Hlen & _).
  cbn [walk]. setoid_rewrite (bind_some _ _ _ _ _ (observer_at _ _ _ _ _ Hx Ho)). rewrite same_token_eq by done.
  erewrite bind_some by reflexivity.
  destruct (bool_decide_reflect (o_token o = t)) as [Ht|Ht]; [by exists (Some i); eauto|].
  destruct IH as (found & Hw & Hf); [intros j Hj; apply Hl; by right|]. exists found.
  rewrite (bind_some _ _ _ _ _ (check_in_time _ _ _ _ _ _ Hx Ho Hin)). split; [done|]. destruct found; [done|].
  intros j o' [->|Hj]%elem_of_cons Ho'; [congruence|by eapply Hf].
Qed.
Lemma using_token r x t (s : St) : steady (List.length t) s -> headResource s !! r = Some x ->
  exists found, GetObserverUsingToken check r (Some t) s = Some (found, s) /\
    match found with
    | Some i => exists o, r_observers x !! i = Some o /\ o_token o = t
    | None => t ∉ map o_token (r_observers x)
    end.
Proof.
  intros Hs Hx. destruct (walk_token r x t s Hs Hx (seq 0 (List.length (r_observers x)))) as (found & Hw & Hf).
  { intros i Hi%elem_of_seq. apply lookup_lt_is_Some. lia. }
  exists found. split; [|destruct found; [done|]].
  - unfold GetObserverUsingToken, places.
    erewrite bind_some; [exact Hw|]. erewrite bind_some; [reflexivity|]. unfold resource. erewrite bind_some by reflexivity. by rewrite Hx.
  - intros (o & Ho & [i Hi]%list_elem_of_lookup)%list_elem_of_fmap. eapply Hf; [|exact Hi|done].
    apply elem_of_seq. apply lookup_lt_Some in Hi. lia.
Qed.

Lemma in_resources t (s : St) : steady (List.length t) s -> forall rs, (forall r, r ∈ rs -> is_Some (headResource s !! r)) ->
  exists found, find_in_resources COAP_TICKS_PER_SECOND discovery DefaultCollectionEntityHandler (Some t) rs s = Some (found, s) /\
    match found with
    | Some (r, i) => exists x o, headResource s !! r = Some x /\ r_observers x !! i = Some o /\ o_token o = t
    | None => forall r x, r ∈ rs -> headResource s !! r = Some x -> t ∉ map o_token (r_observers x)
    end.
Proof.
  intros Hs rs. induction rs as [|r rs IH]; intros Hr; [exists None; split; [done|]; by intros r x Hn%not_elem_of_nil|].
  destruct (Hr r) as [x Hx]; [by left|]. destruct (using_token r x t s Hs Hx) as (found & Hg & Hf).
  cbn [find_in_resources]. rewrite (bind_some _ _ _ _ _ Hg). destruct found as [i|].
  - destruct Hf as (o & Ho & Ht). exists (Some (r, i)). split; [done|]. by exists x, o.
  - destruct IH as (found & Hi & Hj); [intros r' Hr'; apply Hr; by right|]. exists found. split; [done|].
    destruct found as [[]|]; [done|]. intros r' y [->|Hr']%elem_of_cons Hy; [congruence|by eapply Hj].
Qed.
Lemma located t (s : St) : steady (List.length t) s ->
  exists found, GetObserverFromResourceList COAP_TICKS_PER_SECOND discovery DefaultCollectionEntityHandler (Some t) s = Some (found, s) /\
    match found with
    | Some (r, i) => exists x o, headResource s !! r = Some x /\ r_observers x !! i = Some o /\ o_token o = t
    | None => t ∉ map o_token (all_observers (headResource s))
    end.
Proof.
  intros Hs. destruct (in_resources t s Hs (seq 0 (List.length (headResource s)))) as (found & Hg & Hf).
  { intros r Hr%elem_of_seq. apply lookup_lt_is_Some. lia. }
  exists found. split; [by unfold GetObserverFromResourceList; erewrite bind_some by reflexivity|].
  destruct found as [[]|]; [done|]. intros (o & Ho & Hin)%list_elem_of_fmap.
  unfold all_observers in Hin. apply list_elem_of_In, in_concat in Hin as (l & Hl & Hin).
  apply in_map_iff in Hl as (x & <- & Hx). apply list_elem_of_In, list_elem_of_lookup in Hx as [r Hr].
  eapply (Hf r x); [|done|].
  - apply elem_of_seq. apply lookup_lt_Some in Hr. lia.
  - apply list_elem_of_fmap. exists o. split; [done|]. by apply list_elem_of_In.
Qed.

(** The entity handlers answer nothing when an observer is gone. *)
Context (silent : forall u q a, exists x a', entityHandler u OC_OBSERVE_FLAG q a = (x, [], a')).

Lemma drop_found r i x o t (s : St) : steady (List.length t) s -> headResource s !! r = Some x ->
  r_observers x !! i = Some o -> o_token o = t ->
  exists a j o', r_observers x !! j = Some o' /\ o_token o' = t /\
    drop_observer COAP_TICKS_PER_SECOND discovery DefaultCollectionEntityHandler r i (Some t) s
    = Some (tt, set_resources (<[r := with_observers (delete j (r_observers x)) x]> (headResource s)) (set_app a s)).
Proof.
  intros Hs Hx Ho Ht. unfold drop_observer.
  erewrite bind_some; [|unfold resource; erewrite bind_some by reflexivity; rewrite Hx; reflexivity].
  rewrite (bind_some _ _ _ _ _ (observer_at _ _ _ _ _ Hx Ho)). set (req := mk_ehreq _ _ _ _ _ _ _ _ _ _).
  assert (Hh : exists y a, run_handler x OC_OBSERVE_FLAG req s = Some (y, set_app a s)).
  { unfold run_handler. destruct (r_defaultHandler x); [exists OC_EH_OK, (app s); by destruct s|].
    destruct (silent (r_uri x) req (app s)) as (y & a & Hy). exists y, a. erewrite bind_some by reflexivity. by rewrite Hy. }
  destruct Hh as (y & a & Hh). rewrite (bind_some _ _ _ _ _ Hh).
  destruct (using_token r x t (set_app a s) Hs Hx) as (found & Hg & Hf). destruct found as [j|].
  - destruct Hf as (o' & Ho' & Ht'). exists a, j, o'. split; [done|split; [done|]].
    unfold DeleteObserverUsingToken. erewrite bind_some; [|rewrite (bind_some _ _ _ _ _ Hg); erewrite bind_some by reflexivity; reflexivity].
    unfold ret. do 2 f_equal. cbn [headResource set_app]. by rewrite (alter_insert _ _ _ _ Hx).
  - destruct Hf. apply list_elem_of_fmap. exists o. split; [done|]. by eapply list_elem_of_lookup_2.
Qed.

Lemma steady_update n (s s' : St) l1 o o' l2 : steady n s -> all_observers (headResource s) = l1 ++ o :: l2 ->
  all_observers (headResource s') = l1 ++ o' :: l2 -> now s' = now s -> o_token o' = o_token o -> in_time n s o' -> steady n s'.
Proof.
  intros (Hn & Hf & Hd) E1 E2 Ht Ho Hi. rewrite E1 in *. split; [done|]. rewrite E2. unfold in_time in *. rewrite Ht.
  rewrite map_app in *. cbn in *. rewrite Ho. split; [|done].
  apply Forall_app in Hf as [? [_ ?]%Forall_cons]. apply Forall_app. split; [done|]. by constructor.
Qed.
Lemma steady_delete n (s s' : St) l1 o l2 : steady n s -> all_observers (headResource s) = l1 ++ o :: l2 ->
  all_observers (headResource s') = l1 ++ l2 -> now s' = now s -> steady n s'.
Proof.
  intros (Hn & Hf & Hd) E1 E2 Ht. rewrite E1 in *. split; [done|]. rewrite E2. unfold in_time in *. rewrite Ht. split.
  - apply Forall_app in Hf as [? [_ ?]%Forall_cons]. by apply Forall_app.
  - eapply sublist_NoDup; [exact Hd|]. apply (fmap_sublist o_token). apply sublist_app; [done|]. by apply sublist_cons.
Qed.

(** What one status does, seen from the automata of all tokens. *)
Definition refined (t : list Z) (status : Z) (s s' : St) : Prop :=
  steady (List.length t) s' /\ sent s' = sent s /\ failures t s' = feedback_spec status (failures t s) /\
  forall t', t' <> t -> failures t' s' = failures t' s.

Lemma refined_update status r i x o t o' (s : St) : steady (List.length t) s -> headResource s !! r = Some x ->
  r_observers x !! i = Some o -> o_token o = t -> o_token o' = t -> in_time (List.length t) s o' ->
  feedback_spec status (Some (failedCommCount o)) = Some (failedCommCount o') ->
  refined t status s (set_resources (<[r := with_observers (<[i := o']> (r_observers x)) x]> (headResource s)) s).
Proof.
  intros Hs Hx Ho Ht Ht' Hi Hf. destruct (all_split _ _ _ _ _ Hx Ho) as (l1 & l2 & E1 & E2 & _).
  set (s' := set_resources _ s). assert (E' : all_observers (headResource s') = l1 ++ o' :: l2) by apply E2.
  assert (Hs' : steady (List.length t) s') by (eapply steady_update; eauto; congruence).
  split; [done|split; [done|]]. unfold failures. rewrite E1, E'.
  pose proof Hs as (_ & _ & Hd). pose proof Hs' as (_ & _ & Hd'). rewrite E1 in Hd. rewrite E' in Hd'.
  destruct (find_observer_here _ _ _ _ Hd Ht) as [-> _], (find_observer_here _ _ _ _ Hd' Ht') as [-> _]. split; [done|].
  intros t' Hn. rewrite !find_observer_drop by congruence. done.
Qed.
Lemma refined_drop status r i x o t (s : St) : steady (List.length t) s -> headResource s !! r = Some x ->
  r_observers x !! i = Some o -> o_token o = t -> feedback_spec status (Some (failedCommCount o)) = None ->
  exists s', drop_observer COAP_TICKS_PER_SECOND discovery DefaultCollectionEntityHandler r i (Some t) s = Some (tt, s') /\
    refined t status s s'.
Proof.
  intros Hs Hx Ho Ht Hf. destruct (drop_found _ _ _ _ _ _ Hs Hx Ho Ht) as (a & j & o' & Hj & Ht' & Hdrop).
  eexists. split; [exact Hdrop|]. destruct (all_split _ _ _ _ _ Hx Hj) as (l1 & l2 & E1 & _ & E2).
  set (s' := set_resources _ _). assert (E' : all_observers (headResource s') = l1 ++ l2) by apply E2.
  split; [by eapply (steady_delete _ s)|split; [done|]]. unfold failures. rewrite E1, E'.
  pose proof Hs as (_ & _ & Hd). rewrite E1 in Hd. destruct (find_observer_here _ _ _ _ Hd Ht') as [Hh ->]. split.
  - destruct (all_split _ _ _ _ _ Hx Ho) as (k1 & k2 & E3 & _). rewrite E1 in E3. pose proof Hd as Hd3. rewrite E3 in Hd3.
    destruct (find_observer_here _ _ _ _ Hd3 Ht) as [Hh3 _]. rewrite E3, Hh3. symmetry. exact Hf.
  - intros t' Hn. by rewrite find_observer_drop by congruence.
Qed.

Lemma feedback_step t status (s : St) : steady (List.length t) s ->
  exists result s', feedback (Some t) status s = Some (result, s') /\ refined t status s s'.
Proof.
  intros Hs. destruct (located t s Hs) as (found & Hg & Hf). unfold OCStackFeedBack. rewrite (bind_some _ _ _ _ _ Hg).
  destruct found as [[r i]|].
  2: { exists OC_STACK_OBSERVER_NOT_FOUND, s. split; [done|]. split; [done|split; [done|]]. unfold failures.
       by rewrite find_observer_none. }
  destruct Hf as (x & o & Hx & Ho & Ht). pose proof (steady_in _ _ _ _ _ _ Hs Hx Ho) as (Hi1 & Hi2 & Hi3).
  assert (Hdrop : feedback_spec status (Some (failedCommCount o)) = None ->
    exists result s', (drop_observer COAP_TICKS_PER_SECOND discovery DefaultCollectionEntityHandler r i (Some t) ;;; ret OC_STACK_OK) s
      = Some (result, s') /\ refined t status s s').
  { intros Hn. destruct (refined_drop _ _ _ _ _ _ _ Hs Hx Ho Ht Hn) as (s' & Hd & Hr). exists OC_STACK_OK, s'.
    by rewrite (bind_some _ _ _ _ _ Hd). }
  cbn [feedback_spec] in Hdrop. destruct (Z.eqb_spec status OC_OBSERVER_NOT_INTERESTED) as [|N1]; [by apply Hdrop|].
  destruct (Z.eqb_spec status OC_OBSERVER_STILL_INTERESTED) as [E1|N2].
  { eexists _, _. rewrite (bind_some _ _ _ _ _ (update_at _ _ _ _ _ _ Hx Ho)). split; [reflexivity|].
    eapply refined_update; try done. by rewrite E1. }
  destruct (Z.eqb_spec status OC_OBSERVER_FAILED_COMM) as [E1|N3].
  - rewrite (bind_some _ _ _ _ _ (observer_at _ _ _ _ _ Hx Ho)).
    destruct (Z.leb_spec MAX_OBSERVER_FAILED_COMM (failedCommCount o)) as [Hm|Hm]; [by apply Hdrop|].
    assert (Hu : u8 (failedCommCount o + 1) = failedCommCount o + 1) by (apply Z.mod_small; unfold MAX_OBSERVER_FAILED_COMM in Hm; lia).
    eexists _, _. rewrite (bind_some _ _ _ _ _ (update_at _ _ _ _ _ _ Hx Ho)). split; [reflexivity|].
    eapply refined_update; try done; [split; [done|split; [done|]]; cbn [failedCommCount with_counts]; lia|].
    rewrite E1. cbn. rewrite (proj2 (Z.leb_gt _ _)) by done. cbn. by rewrite Hu.
  - exists OC_STACK_ERROR, s. split; [done|]. split; [done|split; [done|split; [|done]]].
    unfold failures. destruct (failedCommCount <$> _); [|done]. cbn [feedback_spec].
    by rewrite !(proj2 (Z.eqb_neq _ _)) by done.
Qed.

Fixpoint feedback_all (t : list Z) (l : list Z) : M St unit :=
  match l with [] => ret tt | status :: l' => feedback (Some t) status ;;; feedback_all t l' end.

(** C19: Whatever becomes of the notifications of an observer, its failures are those the
    automaton counts, it is dropped when the automaton ends, the other observers are
    not touched, and nothing is sent. *)
Theorem feedback_refines t l (s : St) : steady (List.length t) s ->
  exists s', feedback_all t l s = Some (tt, s') /\ sent s' = sent s /\
    failures t s' = foldl (fun n status => feedback_spec status n) (failures t s) l /\
    forall t', t' <> t -> failures t' s' = failures t' s.
Proof.
  revert s. induction l as [|status l IH]; intros s Hs; [by exists s|].
  destruct (feedback_step t status s Hs) as (result & s1 & H1 & Hs1 & Hsent & Hf & Ho).
  destruct (IH s1 Hs1) as (s2 & H2 & Hsent2 & Hf2 & Ho2). exists s2. cbn [feedback_all foldl].
  rewrite (bind_some _ _ _ _ _ H1), H2, Hsent2, Hf2, Hf. split; [done|split; [done|split; [done|]]].
  intros t' Hn. by rewrite Ho2, Ho.
Qed.
End feedback.

(** The first observer of a light fails, recovers, and fails for good; the second
    stays. *)
Import CborTokens StackDemo.
Lemma feedback_refines_witness : exists s',
  feedback_all ticks no_discovery no_collection [1; 2; 3; 4; 5; 6; 7; 8]
    [OC_OBSERVER_FAILED_COMM; OC_OBSERVER_FAILED_COMM; OC_OBSERVER_STILL_INTERESTED; OC_OBSERVER_FAILED_COMM;
     OC_OBSERVER_FAILED_COMM; OC_OBSERVER_FAILED_COMM] (server [] observers_of_light) = Some (tt, s') /\
  failures [1; 2; 3; 4; 5; 6; 7; 8] s' = None /\ failures [9; 9; 9; 9; 9; 9; 9; 9] s' = Some 0.
Proof.
  destruct (feedback_refines ticks no_discovery no_collection ltac:(intros u q a; by eexists _, _) [1; 2; 3; 4; 5; 6; 7; 8]
    [OC_OBSERVER_FAILED_COMM; OC_OBSERVER_FAILED_COMM; OC_OBSERVER_STILL_INTERESTED; OC_OBSERVER_FAILED_COMM;
     OC_OBSERVER_FAILED_COMM; OC_OBSERVER_FAILED_COMM] (server [] observers_of_light)) as (s' & H1 & _ & H2 & H3).
  - split; [cbn; lia|split; [repeat constructor; cbn; lia|]]. apply (bool_decide_unpack _). by vm_compute.
  - exists s'. split; [exact H1|split; [by rewrite H2; vm_compute|by rewrite H3; [vm_compute|]]].
Defined.
End Feedback.
