(* ===== verification/Delivery.v ===== *)
(** * Notifications at a client

    The notifications a server sends are handed to the client's callback, each at most
    once and with growing numbers; after the numbers started again, none is. *)

From Stdlib Require Import Sorted.
From S2P Require Import Prelude.
From S2P Require Import Status.
From S2P Require Import CString.
From S2P Require Import SrmUtility.
From S2P Require Import CaTypes.
From S2P Require Import CoapCodec.
From S2P Require Import OcEndpoint.
From S2P Require Import Cbor.
From S2P Require Import RepPayload.
From S2P Require Import RepRoundTrip.
From S2P Require Import PayloadCodec.
From S2P Require Import CborTokens.
From S2P Require Import Stack.
From S2P Require Import ServerRequest.
From S2P Require Import Observe.
From S2P Require Import Server.
From S2P Require Import Client.
From S2P Require Import StackDemo.
From S2P Require Import ObserveLaws.
From S2P Require Import Notification.

Module Delivery.
Import CString SrmUtility Stack ServerRequest Observe Server Client RepRoundTrip PayloadCodec ObserveLaws Notification.
Open Scope m_scope.

(** ** What a callback is given *)

(** A notification with its number, quality, representation and bytes. *)
Record notice : Type := mk_notice {
  number : Z; quality : OCQualityOfService; content : list RepPayload.OCRepPayload; bytes : list Z }.

(** Whether a number is news after the last one that was delivered. *)
Definition news (last n : Z) : bool := (n =? 0) || (MAX_SEQUENCE_NUMBER <? last) || (last <? n).
Fixpoint in_order (last : Z) (l : list notice) : list notice :=
  match l with
  | [] => []
  | x :: l' => if news last (number x) then x :: in_order (number x) l' else in_order last l'
  end.

Lemma observe_byte v b : 0 <= v -> 0 <= b < 256 -> v * 256 + b < 2 ^ 32 ->
  u32 (Z.lor (u32 (Z.shiftl v 8)) b) = v * 256 + b.
Proof.
  intros Hv Hb Hs. assert (E1 : u32 (Z.shiftl v 8) = Z.shiftl v 8).
  { apply wrap_id. rewrite Z.shiftl_mul_pow2 by lia. split; [apply Z.mul_nonneg_nonneg; lia|]. change (2 ^ 8) with 256. lia. }
  rewrite E1, lor_shiftl_add by (done || lia). change (2 ^ 8) with 256. apply wrap_id. split; lia.
Qed.
Lemma observe_value_option n : 0 <= n < 2 ^ 32 -> observe_value (CaTypes.optionData (observe_option n)) = n.
Proof.
  intros Hn. unfold observe_value, observe_option. cbn [CaTypes.optionData take foldl].
  change (2 ^ 24) with 16777216. change (2 ^ 16) with 65536. change (2 ^ 8) with 256. change (2 ^ 32) with 4294967296 in Hn.
  rewrite (observe_byte 0), (observe_byte (0 * 256 + _)), (observe_byte ((0 * 256 + _) * 256 + _)),
    (observe_byte (((0 * 256 + _) * 256 + _) * 256 + _)); change (2 ^ 32) with 4294967296; Z.div_mod_to_equations; lia.
Qed.

Section delivery.
Context {A : Type} `{!Application A} {L : Cbor.CborLib} {E : CborEncoder} {W : CborEncoderLaws}.
Notation St := (stack A).
Context (COAP_TICKS_PER_SECOND : Z).
Context (discovery : Z -> M St OCStackResult).
Context (DefaultCollectionEntityHandler : OCEntityHandlerRequest -> M St OCStackResult).
Notation handle := (OCHandleResponse COAP_TICKS_PER_SECOND discovery DefaultCollectionEntityHandler).

(** The callback of an observation: the first one with its token, and the only one with
    its handle. *)
Definition observing (t : list Z) (u : string) (cb : ClientCB) (s : St) (l1 l2 : list ClientCB) : Prop :=
  g_cbList s = l1 ++ cb :: l2 /\ cb_token cb = t /\ cb_requestUri cb = Some u /\ cb_method cb = OC_REST_OBSERVE /\
  Forall (fun c => cb_handle c <> cb_handle cb) (l1 ++ l2) /\
  Forall (fun c => List.length (cb_token c) = List.length t /\ cb_token c <> t /\ (cb_TTL c = 0 \/ now s <= cb_TTL c)) l1.

(** A URI of an ordinary resource, without a query. *)
Definition plain_uri (u : string) : Prop :=
  SRMIsSecurityResourceURI (Some u) = false /\ String.eqb u OC_RSRVD_DEVICE_URI || String.eqb u OC_RSRVD_PLATFORM_URI = false /\
  strchr u "?" = None /\ u <> ""%string.

Lemma find_observing t u cb (s : St) l1 l2 : observing t u cb s l1 l2 -> (0 < List.length t <= 8)%nat ->
  GetClientCBUsingToken (Some t) s = Some (Some cb, s).
Proof.
  intros (Hl & Ht & _ & _ & _ & Hf) Hlen. unfold GetClientCBUsingToken.
  rewrite (proj2 (Z.ltb_ge _ _)) by (unfold CoapCodec.CA_MAX_TOKEN_LEN; lia).
  rewrite (proj2 (Nat.eqb_neq _ _)) by lia. cbn [orb]. erewrite bind_some by reflexivity. rewrite Hl. clear Hl.
  induction Hf as [|c l1 (H1 & H2 & H3) _ IH]; cbn [Datatypes.app search_cb]; rewrite same_token_eq by congruence.
  - by rewrite bool_decide_true.
  - rewrite bool_decide_false by done. erewrite bind_some by reflexivity. cbv iota. erewrite bind_some; [exact IH|].
    unfold CheckAndDeleteTimedOutCB. erewrite bind_some by reflexivity.
    destruct (Z.eqb_spec (cb_TTL c) 0); [done|]. by rewrite (proj2 (Z.ltb_ge _ _)) by lia.
Qed.

(** The notification [x] of the observer [o], and what the callback gets of it. *)
Definition response (o : ResourceObserver) (x : notice) : CaTypes.CAResponseInfo_t :=
  notification_response o (number x) (quality x) (bytes x).
Definition given (ep : CaTypes.CAEndpoint_t) (o : ResourceObserver) (x : notice) : OCClientResponse :=
  mk_cresp ep OC_STACK_OK (number x) (Some (codes (o_resUri o))) (Some (Representation (content x)))
    (content_options (scan_options [])).
Definition acknowledgement (ep : CaTypes.CAEndpoint_t) : message :=
  SentResponse ep (CaTypes.mk_response CaTypes.CA_EMPTY
    (CaTypes.mk_info CaTypes.CA_MSG_ACKNOWLEDGE 0 None [] None 0 CoapCodec.CA_FORMAT_UNDEFINED 0 0 None CaTypes.CA_RESPONSE_FOR_RES) false).
Definition acknowledgements (ep : CaTypes.CAEndpoint_t) (x : notice) : list message :=
  if bool_decide (quality x = OC_HIGH_QOS) then [acknowledgement ep] else [].

(** The bytes are those of the representation. *)
Definition honest (x : notice) : Prop :=
  0 <= number x <= MAX_SEQUENCE_NUMBER /\ content x <> [] /\ Forall canonical_root (content x) /\ bytes x <> [] /\
  OCConvertPayload (enough_fuel (Representation (content x))) (Representation (content x)) = Some (OC_STACK_OK, bytes x).

Lemma honest_parsed x : honest x ->
  OCParsePayload PAYLOAD_TYPE_REPRESENTATION (bytes x) = Some (OC_STACK_OK, Some (Representation (content x))).
Proof using W.
  intros (_ & Hne & Hc & _ & Hb).
  destruct (representation_read (content x) _ Hne Hc (le_n _)) as (b & Hb' & Hp). change (List.length (content x) + 2)%nat
    with (enough_fuel (Representation (content x))) in Hb'. rewrite Hb in Hb'. by injection Hb' as <-.
Qed.
Lemma batch_plain u cb ps : plain_uri u -> cb_requestUri cb = Some u -> batch cb (Some (Representation ps)) = Some (Some (Representation ps)).
Proof.
  intros (_ & _ & Hq & _) Hu. unfold batch, HandleBatchResponse. rewrite Hu. destruct ps; [done|].
  cbn [getQueryFromUri]. by rewrite Hq.
Qed.

(** The state after the callback was called, or was not. *)
Definition delivered_state (s : St) (cbs : list ClientCB) (a : A) (ms : list message) : St :=
  mk_stack (now s) (random s) [] (sent s ++ ms) (headResource s) (g_serverRequestTree s) (next_request s)
    (g_serverResponseTree s) cbs a.
Notation cb_ttl_of s := (ticks_after COAP_TICKS_PER_SECOND (now s) (MAX_CB_TIMEOUT_SECONDS * MILLISECONDS_PER_SECOND)).

Lemma acknowledge_eq ep o x (s : St) : results s = [] ->
  acknowledge ep (CaTypes.resp_info (response o x)) s
  = Some (tt, delivered_state s (g_cbList s) (app s) (acknowledgements ep x)).
Proof.
  intros Hr. unfold acknowledge, response, notification_response, acknowledgements. destruct (announced _ _) as [f v].
  cbn [CaTypes.resp_info CaTypes.type CaTypes.messageId].
  destruct (bool_decide (quality x = OC_HIGH_QOS)); cbn [Z.eqb CaTypes.CA_MSG_CONFIRM CaTypes.CA_MSG_NONCONFIRM].
  - unfold SendDirectStackResponse, CASendResponse.
    erewrite bind_some; [|erewrite bind_some; [|unfold give; reflexivity]; reflexivity]. rewrite Hr. reflexivity.
  - cbn. unfold delivered_state. rewrite app_nil_r. destruct s; cbn in *. by rewrite Hr.
Qed.

Lemma response_form o x : exists f v, f <> CoapCodec.CA_FORMAT_UNDEFINED /\
  response o x = CaTypes.mk_response 205
    (CaTypes.mk_info (if bool_decide (quality x = OC_HIGH_QOS) then CaTypes.CA_MSG_CONFIRM else CaTypes.CA_MSG_NONCONFIRM) 0
       (Some (o_token o)) (observe_option (number x) :: content_options (scan_options [])) (Some (bytes x)) f
       CoapCodec.CA_FORMAT_UNDEFINED v 0 (Some (codes (o_resUri o))) CaTypes.CA_RESPONSE_DATA) false.
Proof.
  unfold response, notification_response, announced.
  case_bool_decide; (eexists _, _; split; [|reflexivity]); by vm_compute.
Qed.

(** What is read of a notification before its number is looked at. *)
Definition consider (ep : CaTypes.CAEndpoint_t) (o : ResourceObserver) (x : notice) (cb : ClientCB) : M St unit :=
  (if (0 <? number x) && (cb_sequenceNumber cb <=? MAX_SEQUENCE_NUMBER) && (number x <=? cb_sequenceNumber cb) then ret tt
   else
     let! appFeedback := call_back cb (given ep o x) in
     if flag_set appFeedback OC_STACK_KEEP_TRANSACTION then
       let! ttl := cb_ttl COAP_TICKS_PER_SECOND in update_cb (cb_handle cb) (with_cb (number x) ttl)
     else DeleteClientCB cb) ;;;
  acknowledge ep (CaTypes.resp_info (response o x)).

Lemma considered ep o x u cb (s : St) : honest x -> plain_uri u -> cb_requestUri cb = Some u -> cb_method cb = OC_REST_OBSERVE ->
  client_response COAP_TICKS_PER_SECOND ep (response o x) cb s = consider ep o x cb s.
Proof using W.
  intros Hx Hu Hcu Hm. pose proof Hx as ((Hn & Hn') & _ & _ & Hb & _). unfold consider.
  destruct (response_form o x) as (f & v & Hf & ->). unfold client_response. cbn [CaTypes.resp_info CaTypes.result].
  change (205 =? CaTypes.CA_EMPTY) with false. change (205 =? CaTypes.CA_REQUEST_ENTITY_INCOMPLETE) with false.
  change ((205 =? 504) || (205 =? 406)) with false. cbv iota.
  unfold has_observe_option. cbn [CaTypes.options existsb CaTypes.optionID observe_option]. rewrite andb_comm. cbn [negb orb andb Z.eqb Pos.eqb COAP_OPTION_OBSERVE].
  unfold regular_response. cbn [CaTypes.resp_info CaTypes.result CaTypes.payload CaTypes.resourceUri CaTypes.options CaTypes.payloadFormat].
  assert (Hne : CaTypes.nonempty (Some (bytes x)) = Some (bytes x)) by (unfold CaTypes.nonempty; by destruct (bytes x)).
  assert (Ht : Client.payload_type cb f = Some (Some PAYLOAD_TYPE_REPRESENTATION)).
  { unfold Client.payload_type. destruct Hu as (H1 & H2 & _). rewrite Hcu, H1, Hm, H2.
    by rewrite (proj2 (Z.eqb_neq _ _)) by done. }
  assert (Hp : Client.response_payload cb OC_STACK_OK PAYLOAD_TYPE_REPRESENTATION (bytes x)
               = Some (Some (Some (Representation (content x))))).
  { unfold Client.response_payload, Client.parsed_payload. by rewrite honest_parsed. }
  rewrite Hne. erewrite bind_some; [|rewrite Ht; erewrite bind_some by reflexivity; cbv iota;
    change (CAResponseToOCStackResult 205) with OC_STACK_OK; rewrite Hp; erewrite bind_some by reflexivity; reflexivity].
  cbv iota beta. unfold response_sequence. cbn [CaTypes.optionID observe_option Z.eqb Pos.eqb COAP_OPTION_OBSERVE].
  rewrite observe_value_option by (unfold MAX_SEQUENCE_NUMBER in *; lia).
  change (MAX_HEADER_OPTIONS <? Z.of_nat (List.length (content_options (scan_options [])))) with false. cbv iota.
  rewrite bool_decide_true by done. cbn [andb]. unfold bind at 1 2. change OC_OFFSET_SEQUENCE_NUMBER with 0.
  destruct (_ && _ && _); [done|]. rewrite (batch_plain u) by done. reflexivity.
Qed.

Lemma news_spec last n : 0 <= n ->
  (0 <? n) && (last <=? MAX_SEQUENCE_NUMBER) && (n <=? last) = negb (news last n).
Proof. intros Hn. unfold news. lia. Qed.

Lemma update_observing f cb l1 l2 : Forall (fun c => cb_handle c <> cb_handle cb) (l1 ++ l2) ->
  map (fun c => if cb_handle c =? cb_handle cb then f c else c) (l1 ++ cb :: l2) = l1 ++ f cb :: l2.
Proof.
  intros [H1 H2]%Forall_app. rewrite map_app. cbn [map]. rewrite Z.eqb_refl.
  assert (H : forall l, Forall (fun c => cb_handle c <> cb_handle cb) l ->
    map (fun c => if cb_handle c =? cb_handle cb then f c else c) l = l).
  { induction 1 as [|c l Hc _ IH]; [done|]. cbn [map]. by rewrite IH, (proj2 (Z.eqb_neq _ _)). }
  by rewrite !H.
Qed.

(** The application wants more of everything it is given. *)
Context (kept : forall context h r a, flag_set (fst (callBack context h r a)) OC_STACK_KEEP_TRANSACTION = true).
Definition called (cb : ClientCB) (ep : CaTypes.CAEndpoint_t) (o : ResourceObserver) (x : notice) (a : A) : A :=
  snd (callBack (cb_context cb) (cb_handle cb) (given ep o x) a).

Lemma deliver_one mode ep o x u cb l1 l2 (s : St) : observing (o_token o) u cb s l1 l2 -> (0 < List.length (o_token o) <= 8)%nat ->
  plain_uri u -> honest x -> results s = [] ->
  let fresh := news (cb_sequenceNumber cb) (number x) in
  handle mode ep (response o x) s = Some (tt, delivered_state s
    (l1 ++ (if fresh then with_cb (number x) (cb_ttl_of s) cb else cb) :: l2)
    (if fresh then called cb ep o x (app s) else app s) (acknowledgements ep x)).
Proof using W kept.
  intros Ho Hl Hu Hx Hr. pose proof Ho as (Hcbs & _ & Hcu & Hm & Hh & _). unfold OCHandleResponse.
  destruct (response_form o x) as (f & v & _ & Hform). rewrite Hform at 1. cbn [CaTypes.resp_info CaTypes.token].
  rewrite (bind_some _ _ _ _ _ (find_observing _ _ _ _ _ _ Ho Hl)), (considered _ _ _ u) by done.
  unfold consider. rewrite news_spec by apply Hx. destruct (news _ _); cbn [negb].
  - erewrite bind_some; [|erewrite bind_some; [|unfold call_back; erewrite bind_some by reflexivity;
      rewrite (surjective_pairing (callBack _ _ _ _)); erewrite bind_some by reflexivity; reflexivity];
      rewrite kept; erewrite bind_some by reflexivity; reflexivity].
    rewrite acknowledge_eq by done. cbn [g_cbList set_cbs set_app]. by rewrite Hcbs, update_observing.
  - erewrite bind_some by reflexivity. rewrite acknowledge_eq by done. by rewrite Hcbs.
Qed.

Fixpoint deliver_all (mode : OCMode) (ep : CaTypes.CAEndpoint_t) (o : ResourceObserver) (l : list notice) : M St unit :=
  match l with [] => ret tt | x :: l' => handle mode ep (response o x) ;;; deliver_all mode ep o l' end.

Lemma observing_with t u cb (s : St) l1 l2 n ttl a ms : observing t u cb s l1 l2 ->
  observing t u (with_cb n ttl cb) (delivered_state s (l1 ++ with_cb n ttl cb :: l2) a ms) l1 l2.
Proof. intros (H1 & H2 & H3 & H4 & H5 & H6). by repeat (split; [done|]). Qed.

Lemma deliver_many mode ep o u l cb l1 l2 (s : St) : observing (o_token o) u cb s l1 l2 ->
  (0 < List.length (o_token o) <= 8)%nat -> plain_uri u -> Forall honest l -> results s = [] ->
  exists s', deliver_all mode ep o l s = Some (tt, s') /\
    app s' = foldl (fun a x => called cb ep o x a) (app s) (in_order (cb_sequenceNumber cb) l) /\
    sent s' = sent s ++ flat_map (acknowledgements ep) l.
Proof using W kept.
  intros Ho Hl Hu Hf. revert cb s Ho. induction Hf as [|x l Hx _ IH]; intros cb s Ho Hr.
  - exists s. cbn. by rewrite app_nil_r.
  - cbn [deliver_all in_order flat_map]. rewrite (bind_some _ _ _ _ _ (deliver_one mode ep o x u cb l1 l2 s Ho Hl Hu Hx Hr)).
    destruct (news _ _).
    + destruct (IH (with_cb (number x) (cb_ttl_of s) cb) (delivered_state s (l1 ++ with_cb (number x) (cb_ttl_of s) cb :: l2)
        (called cb ep o x (app s)) (acknowledgements ep x))) as (s' & H1 & H2 & H3); [by apply observing_with|done|].
      exists s'. split; [exact H1|]. split; [exact H2|]. rewrite H3. cbn. by rewrite app_assoc.
    + destruct (IH cb (delivered_state s (l1 ++ cb :: l2) (app s) (acknowledgements ep x))) as (s' & H1 & H2 & H3); [|done|].
      { destruct Ho as (Ho1 & Ho2). by split. }
      exists s'. split; [exact H1|]. split; [exact H2|]. rewrite H3. cbn. by rewrite app_assoc.
Qed.

Lemma in_order_sorted l : forall last, last <= MAX_SEQUENCE_NUMBER -> Forall (fun x => 0 < number x <= MAX_SEQUENCE_NUMBER) l ->
  Sorted Z.lt (last :: map number (in_order last l)).
Proof.
  induction l as [|x l IH]; intros last Hl Hf; cbn [in_order map]; [by repeat constructor|].
  apply Forall_cons in Hf as [Hx Hf]. destruct (news last (number x)) eqn:En; [|by apply IH].
  cbn [map]. constructor; [apply IH; [lia|done]|]. constructor. unfold news in En. lia.
Qed.
Lemma in_order_stale l : forall last, last <= MAX_SEQUENCE_NUMBER -> Forall (fun x => 0 < number x <= last) l -> in_order last l = [].
Proof.
  intros last Hl Hf. induction Hf as [|x l Hx _ IH]; cbn [in_order]; [done|].
  assert (news last (number x) = false) as -> by (unfold news; lia). done.
Qed.

(** C18: Of the notifications of an observation, whatever their order on the way, the
    callback is called with exactly those whose number is larger than that of the last
    one it was given, and with the representations the server encoded; each one that
    asks for it is acknowledged, delivered or not.  So within a round of the numbers the
    callback never goes back. *)
Theorem delivered_in_order mode ep o u l cb l1 l2 (s : St) : observing (o_token o) u cb s l1 l2 ->
  (0 < List.length (o_token o) <= 8)%nat -> plain_uri u -> Forall honest l -> results s = [] ->
  (exists s', deliver_all mode ep o l s = Some (tt, s') /\
    app s' = foldl (fun a x => called cb ep o x a) (app s) (in_order (cb_sequenceNumber cb) l) /\
    sent s' = sent s ++ flat_map (acknowledgements ep) l) /\
  (cb_sequenceNumber cb <= MAX_SEQUENCE_NUMBER -> Forall (fun x => 0 < number x) l ->
    Sorted Z.lt (cb_sequenceNumber cb :: map number (in_order (cb_sequenceNumber cb) l))).
Proof using W kept.
  intros Ho Hl Hu Hf Hr. split; [by eapply deliver_many|]. intros Hc Hp. apply in_order_sorted; [done|].
  rewrite Forall_forall in *. intros x Hx. destruct (Hf x Hx) as [[_ Hn] _]. split; [by apply Hp|done].
Qed.

(** C29: When the last number of a round was delivered, no later notification is: the
    server starts with small numbers again. *)
Theorem deaf_after_the_round mode ep o u y l cb l1 l2 (s : St) : observing (o_token o) u cb s l1 l2 ->
  (0 < List.length (o_token o) <= 8)%nat -> plain_uri u -> Forall honest l -> results s = [] ->
  cb_sequenceNumber cb = MAX_SEQUENCE_NUMBER - 1 -> r_sequenceNum y = MAX_SEQUENCE_NUMBER - 1 ->
  map number l = map (fun k => r_sequenceNum (Nat.iter (Datatypes.S k) incrementSequenceNumber y)) (seq 0 (List.length l)) ->
  exists s', deliver_all mode ep o l s = Some (tt, s') /\ app s' = app s.
Proof using W kept.
  intros Ho Hl Hu Hf Hr Hc Hy Hn. destruct (deliver_many mode ep o u l cb l1 l2 s Ho Hl Hu Hf Hr) as (s' & H1 & H2 & _).
  exists s'. split; [done|]. rewrite H2, in_order_stale; [done|rewrite Hc; unfold MAX_SEQUENCE_NUMBER; lia|].
  apply Forall_forall. intros x Hx. assert (Hi : number x ∈ map number l) by (apply list_elem_of_fmap; by exists x).
  rewrite Hn in Hi. apply list_elem_of_fmap in Hi as (k & -> & _). rewrite Hc.
  rewrite sequence_iter by (rewrite Hy; unfold MAX_SEQUENCE_NUMBER; lia). cbn [r_sequenceNum with_sequence].
  pose proof (Z.mod_pos_bound (r_sequenceNum y + Z.of_nat k) (MAX_SEQUENCE_NUMBER - 1) ltac:(done)). lia.
Qed.
End delivery.

(** ** A phone that observes a light *)

Import CborTokens StackDemo.
Definition phone_callback (last : Z) : ClientCB :=
  mk_cb 5 CaTypes.CA_MSG_CONFIRM [1; 2; 3; 4; 5; 6; 7; 8] [] None 0 77 OC_REST_OBSERVE last (Some uri) phone 0.
Definition client (last : Z) : stack delivered :=
  mk_stack 0 [] [] [] [] [] 1 [] [phone_callback last] [].
Definition light_notice (n : Z) (qos : OCQualityOfService) : notice := mk_notice n qos [light] light_bytes.
Definition light_observer : ResourceObserver := phone_observer 7 [1; 2; 3; 4; 5; 6; 7; 8] OC_LOW_QOS 0.

Lemma light_honest n qos : 0 <= n <= MAX_SEQUENCE_NUMBER -> honest (light_notice n qos).
Proof.
  intros Hn. split; [done|]. split; [done|]. split; [|split; [done|by vm_compute]].
  repeat constructor; cbn; try done; by intros H%not_elem_of_nil.
Qed.
Lemma light_keeps : forall context h r (a : delivered), flag_set (fst (callBack context h r a)) OC_STACK_KEEP_TRANSACTION = true.
Proof. reflexivity. Qed.
Lemma phone_observing last : observing (o_token light_observer) uri (phone_callback last) (client last) [] [].
Proof. by repeat split. Qed.
Lemma light_plain : plain_uri uri.
Proof. by repeat split. Qed.

Lemma delivered_in_order_witness : exists s',
  deliver_all ticks no_discovery no_collection OC_CLIENT phone light_observer
    [light_notice 4 OC_HIGH_QOS; light_notice 3 OC_LOW_QOS; light_notice 4 OC_LOW_QOS; light_notice 9 OC_LOW_QOS] (client 2)
  = Some (tt, s') /\
  app s' = [(4, Some (Representation [light])); (9, Some (Representation [light]))] /\ sent s' = [acknowledgement phone].
Proof.
  destruct (delivered_in_order ticks no_discovery no_collection light_keeps OC_CLIENT phone light_observer uri
    [light_notice 4 OC_HIGH_QOS; light_notice 3 OC_LOW_QOS; light_notice 4 OC_LOW_QOS; light_notice 9 OC_LOW_QOS]
    (phone_callback 2) [] [] (client 2) (phone_observing 2) ltac:(cbn; lia) light_plain) as [(s' & H1 & H2 & H3) _];
    [repeat (constructor; [apply light_honest; unfold MAX_SEQUENCE_NUMBER; lia|]); constructor|done|].
  exists s'. split; [exact H1|split; [by rewrite H2|by rewrite H3]].
Defined.

Lemma deaf_after_the_round_witness : exists s',
  deliver_all ticks no_discovery no_collection OC_CLIENT phone light_observer
    [light_notice 1 OC_LOW_QOS; light_notice 2 OC_LOW_QOS; light_notice 3 OC_LOW_QOS] (client (MAX_SEQUENCE_NUMBER - 1))
  = Some (tt, s') /\ app s' = [].
Proof.
  apply (deaf_after_the_round ticks no_discovery no_collection light_keeps OC_CLIENT phone light_observer uri
    (mk_resource uri OC_OBSERVABLE (MAX_SEQUENCE_NUMBER - 1) [] OcEndpoint.OC_COAP false false)
    [light_notice 1 OC_LOW_QOS; light_notice 2 OC_LOW_QOS; light_notice 3 OC_LOW_QOS]
    (phone_callback (MAX_SEQUENCE_NUMBER - 1)) [] [] (client (MAX_SEQUENCE_NUMBER - 1)) (phone_observing _) ltac:(cbn; lia)
    light_plain);
    [repeat (constructor; [apply light_honest; unfold MAX_SEQUENCE_NUMBER; lia|]); constructor|done|done|done|by vm_compute].
Defined.
End Delivery.
