(* ===== verification/ResourceList.v ===== *)
(** * The list of resources ([ocf/oocf_resource_list.c])

    The resources of a server are cells of a heap, linked from [headResource] to
    [tailResource]; a handle is the address of one.  The operations that make, change,
    find and delete them, and those of [ocf/ocstack.c] that bind types, interfaces and
    handlers to them.  Requests see the same resources: a function of the stack runs on
    the resources of the list, in their order ([on_stack]). *)

From S2P Require Import Prelude.
From S2P Require Import Status.
From S2P Require Import CString.
From S2P Require Import CaTypes.
From S2P Require Import SrmUtility.
From S2P Require Import OcEndpoint.
From S2P Require Import Cbor.
From S2P Require Import PayloadCodec.
From S2P Require Import Stack.
From S2P Require Import ServerRequest.
From S2P Require Import Observe.

Module ResourceList.
Import CString Stack PayloadCodec.
Open Scope m_scope.

Definition ptr : Type := Z.
Definition NULL : ptr := 0.

(** ** Constants *)

(** [OCResourceProperty] *)
Definition OC_DISCOVERABLE : Z := 1.
Definition OC_ACTIVE : Z := 4.
Definition OC_SLOW : Z := 8.
Definition OC_SECURE : Z := 16.
Definition OC_EXPLICIT_DISCOVERABLE : Z := 32.
Definition OC_NONSECURE : Z := 64.
Definition OC_MASK_RESOURCE_SECURE : Z := Z.lor OC_NONSECURE OC_SECURE.
Definition OC_ALL : Z := 65535.

Definition OC_RSRVD_INTERFACE_DEFAULT : string := "oic.if.baseline".
Definition CORESPEC : string := "core".

(** ** Resources *)

Inductive OCEntityHandler : Type := defaultResourceEHandler | registeredHandler (f : ptr).

(** Types, interfaces and children are lists of the resource's own.  Attributes, which
    only the device and the platform have, and action sets are left out. *)
Record OCResource : Type := mk_rsrc {
  uri : string; rsrcType : list string; rsrcInterface : list string; rsrcChildResourcesHead : list ptr;
  handler : OCEntityHandler; entityHandlerCallbackParam : ptr; resourceProperties : Z;
  observersHead : list ResourceObserver; sequenceNum : Z; endpointType : Z }.
Record cell : Type := mk_cell { next : ptr; content : OCResource }.

(** What [OICCalloc] gives. *)
Definition zero_resource : OCResource := mk_rsrc "" [] [] [] (registeredHandler NULL) NULL 0 [] OC_OFFSET_SEQUENCE_NUMBER 0.

Definition with_uri v r := mk_rsrc v (rsrcType r) (rsrcInterface r) (rsrcChildResourcesHead r) (handler r)
  (entityHandlerCallbackParam r) (resourceProperties r) (observersHead r) (sequenceNum r) (endpointType r).
Definition with_types v r := mk_rsrc (uri r) v (rsrcInterface r) (rsrcChildResourcesHead r) (handler r)
  (entityHandlerCallbackParam r) (resourceProperties r) (observersHead r) (sequenceNum r) (endpointType r).
Definition with_interfaces v r := mk_rsrc (uri r) (rsrcType r) v (rsrcChildResourcesHead r) (handler r)
  (entityHandlerCallbackParam r) (resourceProperties r) (observersHead r) (sequenceNum r) (endpointType r).
Definition with_children v r := mk_rsrc (uri r) (rsrcType r) (rsrcInterface r) v (handler r)
  (entityHandlerCallbackParam r) (resourceProperties r) (observersHead r) (sequenceNum r) (endpointType r).
Definition with_handler h p r := mk_rsrc (uri r) (rsrcType r) (rsrcInterface r) (rsrcChildResourcesHead r) h
  p (resourceProperties r) (observersHead r) (sequenceNum r) (endpointType r).
Definition with_properties v r := mk_rsrc (uri r) (rsrcType r) (rsrcInterface r) (rsrcChildResourcesHead r) (handler r)
  (entityHandlerCallbackParam r) v (observersHead r) (sequenceNum r) (endpointType r).
Definition with_endpointType v r := mk_rsrc (uri r) (rsrcType r) (rsrcInterface r) (rsrcChildResourcesHead r) (handler r)
  (entityHandlerCallbackParam r) (resourceProperties r) (observersHead r) (sequenceNum r) v.

(** What the requests see of a resource, and what they change of it. *)
Definition for_requests (r : OCResource) : Stack.OCResource :=
  Stack.mk_resource (uri r) (resourceProperties r) (sequenceNum r) (observersHead r) (endpointType r)
    match rsrcChildResourcesHead r with [] => false | _ => true end
    match handler r with defaultResourceEHandler => true | registeredHandler _ => false end.
Definition after_requests (x : Stack.OCResource) (r : OCResource) : OCResource :=
  mk_rsrc (uri r) (rsrcType r) (rsrcInterface r) (rsrcChildResourcesHead r) (handler r)
    (entityHandlerCallbackParam r) (resourceProperties r) (r_observers x) (r_sequenceNum x) (endpointType r).

Fixpoint all_chars (f : ascii -> bool) (s : string) : bool :=
  match s with EmptyString => true | String c s' => f c && all_chars f s' end.
(** A name the core specification reserves has no other characters than these, any
    other name no white space. *)
Definition core_char (c : ascii) : bool :=
  (code c =? 46) || (code c =? 45) || ((97 <=? code c) && (code c <=? 122)) || ((48 <=? code c) && (code c <=? 57)).
Definition white_space (c : ascii) : bool := (code c =? 32) || (code c =? 9) || (code c =? 13) || (code c =? 10).
Definition ValidateResourceTypeInterface (resourceItemName : string) : bool :=
  if strncmp_eq resourceItemName CORESPEC (String.length CORESPEC)
  then all_chars core_char (str_drop (String.length CORESPEC) resourceItemName)
  else all_chars (fun c => negb (white_space c)) resourceItemName.

(** The largest set of properties, and of transports, that is accepted. *)
Definition all_properties : Z :=
  Z.lor (Z.lor (Z.lor (Z.lor (Z.lor (Z.lor OC_ACTIVE OC_DISCOVERABLE) OC_OBSERVABLE) OC_SLOW) OC_NONSECURE) OC_SECURE)
    OC_EXPLICIT_DISCOVERABLE.
Definition validTps : Z := Z.lor (Z.lor OcEndpoint.OC_COAP OcEndpoint.OC_COAPS) OcEndpoint.OC_COAP_GATT.

(** ** The state *)

(** [memory] holds what the allocator does next: fail, or give the first free address
    from some one on; when it is used up the first free address is given. *)
Record world {A : Type} : Type := mk_world {
  heap : gmap ptr cell; headResource : ptr; tailResource : ptr; memory : list (option Z); the_stack : stack A }.
Arguments world : clear implicits.
Arguments mk_world {A}.

Fixpoint free_from (fuel : nat) (used : ptr -> bool) (p : ptr) : ptr :=
  match fuel with O => p | S n => if used p then free_from n used (p + 1) else p end.

Section state.
Context {A : Type}.
Notation W := (world A).

Definition set_heap v (w : W) : W := mk_world v (headResource w) (tailResource w) (memory w) (the_stack w).
Definition set_ends h t (w : W) : W := mk_world (heap w) h t (memory w) (the_stack w).
Definition set_memory v (w : W) : W := mk_world (heap w) (headResource w) (tailResource w) v (the_stack w).
Definition set_stack v (w : W) : W := mk_world (heap w) (headResource w) (tailResource w) (memory w) v.

Definition read (p : ptr) : M W cell := let! h := gets heap in demand (h !! p).
Definition write (p : ptr) (f : cell -> cell) : M W unit :=
  let! c := read p in modify (fun w => set_heap (<[p := f c]> (heap w)) w).
Definition set_next (p q : ptr) : M W unit := write p (fun c => mk_cell q (content c)).
Definition change (p : ptr) (f : OCResource -> OCResource) : M W unit := write p (fun c => mk_cell (next c) (f (content c))).

(** The loops follow a list that has at most as many cells as the heap. *)
Definition turns (h : gmap ptr cell) : nat := S (base.size h).

(** [OICCalloc], [OICStrdup] *)
Definition allocate : M W ptr :=
  let! w := get in
  modify (set_memory (tail (memory w))) ;;;
  ret match memory w with
      | None :: _ => NULL
      | m => free_from (turns (heap w)) (fun p => bool_decide (is_Some (heap w !! p)))
               (Z.max 1 match m with Some k :: _ => k | _ => 1 end)
      end.
Definition allocated : M W bool := let! p := allocate in ret (negb (p =? NULL)).
Definition new_resource : M W ptr :=
  let! p := allocate in
  if p =? NULL then ret NULL
  else modify (fun w => set_heap (<[p := mk_cell NULL zero_resource]> (heap w)) w) ;;; ret p.

(** The addresses from [p] on. *)
Fixpoint addresses (fuel : nat) (h : gmap ptr cell) (p : ptr) : option (list ptr) :=
  match fuel with
  | O => None
  | S n => if p =? NULL then Some [] else c ← h !! p; l ← addresses n h (next c); Some (p :: l)
  end.
Definition all_resources : M W (list ptr) :=
  let! w := get in demand (addresses (turns (heap w)) (heap w) (headResource w)).

(** A function of the stack runs on these resources. *)
Fixpoint write_back (l : list (ptr * Stack.OCResource)) (h : gmap ptr cell) : gmap ptr cell :=
  match l with
  | [] => h
  | (p, x) :: l' => write_back l' (alter (fun c => mk_cell (next c) (after_requests x (content c))) p h)
  end.
Definition on_stack {B} (ps : list ptr) (f : M (stack A) B) : M W B := fun w =>
  xs ← mapM (fun p => (fun c => for_requests (content c)) <$> heap w !! p) ps;
  '(b, s) ← f (set_resources xs (the_stack w));
  Some (b, set_heap (write_back (zip ps (Stack.headResource s)) (heap w)) (set_stack (set_resources [] s) w)).

(** ** Finding *)

Definition insertResource (resource : ptr) : M W unit :=
  let! h := gets headResource in
  (if h =? NULL then modify (set_ends resource resource)
   else let! t := gets tailResource in set_next t resource ;;; modify (set_ends h resource)) ;;;
  set_next resource NULL.

Fixpoint search (fuel : nat) (test : ptr -> OCResource -> bool) (h : gmap ptr cell) (p : ptr) : option ptr :=
  match fuel with
  | O => None
  | S n => if p =? NULL then Some NULL else c ← h !! p; if test p (content c) then Some p else search n test h (next c)
  end.
Definition search_list (test : ptr -> OCResource -> bool) : M W ptr :=
  let! w := get in demand (search (turns (heap w)) test (heap w) (headResource w)).

Definition findResource (resource : ptr) : M W ptr := search_list (fun p _ => p =? resource).
Definition FindResourceByUri (resourceUri : string) : M W ptr :=
  search_list (fun _ r => String.eqb resourceUri (uri r)).

(** ** Types, interfaces, transports *)

Definition insertResourceType (resource : ptr) (resourceType : string) : M W unit :=
  change resource (fun r =>
    if bool_decide (resourceType ∈ rsrcType r) then r else with_types (rsrcType r ++ [resourceType]) r).

(** A structure and a copy of the name are allocated for each element of a list. *)
Definition two_allocated : M W bool :=
  let! a := allocated in if a : bool then allocated else ret false.

Definition BindResourceTypeToResource (resource : ptr) (resourceTypeName : option string) : M W OCStackResult :=
  match resourceTypeName with
  | None => ret OC_STACK_INVALID_PARAM
  | Some t =>
      if negb (ValidateResourceTypeInterface t) then ret OC_STACK_INVALID_PARAM
      else
        let! a := two_allocated in
        if a : bool then insertResourceType resource t ;;; ret OC_STACK_OK else ret OC_STACK_NO_MEMORY
  end.

(** The default interface is bound first: [insertResourceInterface] and
    [BindResourceInterfaceToResource] call each other for it, once. *)
Definition insertResourceInterface (resource : ptr) (newInterface : string) : M W unit :=
  let! c := read resource in
  match rsrcInterface (content c) with
  | [] =>
      if String.eqb newInterface OC_RSRVD_INTERFACE_DEFAULT
      then change resource (with_interfaces [newInterface])
      else
        let! a := two_allocated in
        if a : bool then change resource (with_interfaces [OC_RSRVD_INTERFACE_DEFAULT; newInterface]) else ret tt
  | (first :: _) as l =>
      if String.eqb newInterface OC_RSRVD_INTERFACE_DEFAULT then
        if String.eqb first OC_RSRVD_INTERFACE_DEFAULT then ret tt
        else change resource (with_interfaces (newInterface :: l))
      else if bool_decide (newInterface ∈ l) then ret tt
      else change resource (with_interfaces (l ++ [newInterface]))
  end.
Definition BindResourceInterfaceToResource (resource : ptr) (resourceInterfaceName : option string) : M W OCStackResult :=
  match resourceInterfaceName with
  | None => ret OC_STACK_INVALID_PARAM
  | Some i =>
      if negb (ValidateResourceTypeInterface i) then ret OC_STACK_INVALID_PARAM
      else
        let! a := two_allocated in
        if a : bool then insertResourceInterface resource i ;;; ret OC_STACK_OK else ret OC_STACK_NO_MEMORY
  end.

Definition BindTpsTypeToResource (resource : ptr) (resourceTpsTypes : Z) : M W OCStackResult :=
  let supportedTps := OcEndpoint.OCGetSupportedEndpointFlags resourceTpsTypes OcEndpoint.OC_NO_TPS in
  if supportedTps =? OcEndpoint.OC_NO_TPS then ret OC_STACK_BAD_ENDPOINT
  else change resource (with_endpointType supportedTps) ;;; ret OC_STACK_OK.

(** The functions an application calls check the handle first. *)
Definition with_resource {B} (handle : ptr) (missing : B) (f : ptr -> M W B) : M W B :=
  let! p := findResource handle in if p =? NULL then ret missing else f p.

Definition OCBindResourceTypeToResource (handle : ptr) (resourceTypeName : option string) : M W OCStackResult :=
  with_resource handle OC_STACK_ERROR (fun p => BindResourceTypeToResource p resourceTypeName).
Definition OCBindResourceInterfaceToResource (handle : ptr) (resourceInterfaceName : option string) : M W OCStackResult :=
  with_resource handle OC_STACK_ERROR (fun p => BindResourceInterfaceToResource p resourceInterfaceName).
Definition OCBindResourceHandler (handle : ptr) (h : OCEntityHandler) (callbackParam : ptr) : M W OCStackResult :=
  if handle =? NULL then ret OC_STACK_INVALID_PARAM
  else with_resource handle OC_STACK_ERROR (fun p => change p (with_handler h callbackParam) ;;; ret OC_STACK_OK).

(** ** What is known of a resource *)

Definition get_of {B} (handle : ptr) (missing : B) (f : OCResource -> B) : M W B :=
  with_resource handle missing (fun p => let! c := read p in ret (f (content c))).

Definition OCGetResourceUri (handle : ptr) : M W (option string) := get_of handle None (fun r => Some (uri r)).
(** The result for no resource is [(OCResourceProperty)-1]. *)
Definition OCGetResourceProperties (handle : ptr) : M W Z := get_of handle (-1) resourceProperties.
Definition OCSetResourceProperties (handle : ptr) (properties : Z) : M W OCStackResult :=
  with_resource handle OC_STACK_NO_RESOURCE (fun p =>
    change p (fun r => with_properties (Z.lor (resourceProperties r) properties) r) ;;; ret OC_STACK_OK).
Definition OCClearResourceProperties (handle : ptr) (properties : Z) : M W OCStackResult :=
  with_resource handle OC_STACK_NO_RESOURCE (fun p =>
    change p (fun r => with_properties (Z.ldiff (resourceProperties r) properties) r) ;;; ret OC_STACK_OK).
(** Counts are of 8 bits. *)
Definition count {B} (l : list B) : Z := u8 (Z.of_nat (List.length l)).
Definition OCGetNumberOfResourceTypes (handle : ptr) : M W (OCStackResult * Z) :=
  if handle =? NULL then ret (OC_STACK_INVALID_PARAM, 0)
  else let! n := get_of handle 0 (fun r => count (rsrcType r)) in ret (OC_STACK_OK, n).
Definition OCGetResourceTypeName (handle : ptr) (index : nat) : M W (option string) :=
  get_of handle None (fun r => rsrcType r !! index).
Definition OCGetNumberOfResourceInterfaces (handle : ptr) : M W (OCStackResult * Z) :=
  if handle =? NULL then ret (OC_STACK_INVALID_PARAM, 0)
  else let! n := get_of handle 0 (fun r => count (rsrcInterface r)) in ret (OC_STACK_OK, n).
Definition OCGetResourceInterfaceName (handle : ptr) (index : nat) : M W (option string) :=
  get_of handle None (fun r => rsrcInterface r !! index).
Definition OCGetResourceHandleFromCollection (collectionHandle : ptr) (index : nat) : M W ptr :=
  get_of collectionHandle NULL (fun r => default NULL (rsrcChildResourcesHead r !! index)).
Definition OCGetResourceHandler (handle : ptr) : M W OCEntityHandler :=
  get_of handle (registeredHandler NULL) ResourceList.handler.

Fixpoint count_cells (fuel : nat) (h : gmap ptr cell) (p : ptr) (n : Z) : option Z :=
  match fuel with
  | O => None
  | S m => if p =? NULL then Some n else c ← h !! p; count_cells m h (next c) (u8 (n + 1))
  end.
Definition OCGetNumberOfResources : M W (OCStackResult * Z) :=
  let! w := get in
  let! n := demand (count_cells (turns (heap w)) (heap w) (headResource w) 0) in ret (OC_STACK_OK, n).

Fixpoint nth_cell (index : nat) (h : gmap ptr cell) (p : ptr) : option ptr :=
  match index with
  | O => Some p
  | S i => if p =? NULL then Some NULL else c ← h !! p; nth_cell i h (next c)
  end.
Definition OCGetResourceHandle (index : nat) : M W ptr :=
  let! w := get in demand (nth_cell index (heap w) (headResource w)).

(** ** Collections *)

Definition OCBindResource (collectionHandle resourceHandle : ptr) : M W OCStackResult :=
  if (collectionHandle =? NULL) || (resourceHandle =? NULL) then ret OC_STACK_ERROR
  else if collectionHandle =? resourceHandle then ret OC_STACK_INVALID_PARAM
  else with_resource collectionHandle OC_STACK_INVALID_PARAM (fun p =>
    let! a := allocated in
    if a : bool then
      change p (fun r => with_children (rsrcChildResourcesHead r ++ [resourceHandle]) r) ;;; ret OC_STACK_OK
    else ret OC_STACK_ERROR).

Fixpoint remove_child (child : ptr) (l : list ptr) : option (list ptr) :=
  match l with
  | [] => None
  | c :: l' => if c =? child then Some l' else (fun l'' => c :: l'') <$> remove_child child l'
  end.
Definition OCUnBindResource (collectionHandle resourceHandle : ptr) : M W OCStackResult :=
  if (collectionHandle =? NULL) || (resourceHandle =? NULL) then ret OC_STACK_ERROR
  else if collectionHandle =? resourceHandle then ret OC_STACK_INVALID_PARAM
  else with_resource collectionHandle OC_STACK_INVALID_PARAM (fun p =>
    let! c := read p in
    match remove_child resourceHandle (rsrcChildResourcesHead (content c)) with
    | Some l => change p (with_children l) ;;; ret OC_STACK_OK
    | None => ret OC_STACK_ERROR
    end).
End state.

(** ** Making and deleting *)

Section resources.
Context {A : Type} `{!Application A} {L : Cbor.CborLib} {E : CborEncoder}.
Notation W := (world A).
Context (COAP_TICKS_PER_SECOND : Z).
Context (discovery : Z -> M (stack A) OCStackResult).
Context (DefaultCollectionEntityHandler : OCEntityHandlerRequest -> M (stack A) OCStackResult).

Definition OCNotifyAllObservers (handle : ptr) (qos : OCQualityOfService) : M W OCStackResult :=
  if handle =? NULL then ret OC_STACK_ERROR
  else
    let! ps := all_resources in
    match list_find (fun p => p = handle) ps with
    | None => ret OC_STACK_NO_RESOURCE
    | Some (i, _) =>
        on_stack ps (Observe.OCNotifyAllObservers COAP_TICKS_PER_SECOND discovery DefaultCollectionEntityHandler i qos)
    end.

(** Only the observers of the resource that is deleted are looked at, which is in the
    list no more: here it follows the others. *)
Definition DeleteObserverList (resource : ptr) : M W unit :=
  let! ps := all_resources in
  on_stack (ps ++ [resource])
    (Observe.DeleteObserverList (Observe.CheckTimedOutObserver COAP_TICKS_PER_SECOND discovery DefaultCollectionEntityHandler)
       (List.length ps)).

(** The address of the cell before [resource], if any. *)
Fixpoint before (fuel : nat) (h : gmap ptr cell) (prev temp resource : ptr) : option (option ptr) :=
  match fuel with
  | O => None
  | S n =>
      if temp =? NULL then Some None
      else if temp =? resource then Some (Some prev)
      else c ← h !! temp; before n h temp (next c) resource
  end.

Definition unlink (prev temp : ptr) : M W unit :=
  let! h := gets headResource in
  let! t := gets tailResource in
  if (temp =? h) && (temp =? t) then modify (set_ends NULL NULL)
  else if temp =? h then let! c := read temp in modify (set_ends (next c) t)
  else if (temp =? t) && negb (prev =? NULL) then modify (set_ends h prev) ;;; set_next prev NULL
  else if negb (prev =? NULL) then let! c := read temp in set_next prev (next c)
  else ret tt.

(** Of the elements of a resource, that are freed with it, only the observers are more
    than memory. *)
Definition deleteResourceElements (resource : ptr) : M W unit := DeleteObserverList resource.

Definition deleteResource (resource : ptr) : M W OCStackResult :=
  if resource =? NULL then ret OC_STACK_INVALID_PARAM
  else
    let! w := get in
    let! found := demand (before (turns (heap w)) (heap w) NULL (headResource w) resource) in
    match found with
    | None => ret OC_STACK_ERROR
    | Some prev =>
        change resource (with_properties 0) ;;;
        OCNotifyAllObservers resource OC_HIGH_QOS ;;;
        unlink prev resource ;;;
        deleteResourceElements resource ;;;
        modify (fun w => set_heap (delete resource (heap w)) w) ;;;
        ret OC_STACK_OK
    end.

Definition OCDeleteResource (handle : ptr) : M W OCStackResult :=
  if handle =? NULL then ret OC_STACK_INVALID_PARAM
  else with_resource handle OC_STACK_NO_RESOURCE (fun _ =>
    let! r := deleteResource handle in
    ret (if is_ok r then OC_STACK_OK else OC_STACK_ERROR)).

(** Each resource has its successor read before it is deleted.  The handles of the
    resources of the stack itself are cleared afterwards, and the security resources
    released, which is not part of this state. *)
Fixpoint delete_from (fuel : nat) (p : ptr) : M W unit :=
  match fuel with
  | O => undefined
  | S n =>
      if p =? NULL then ret tt
      else let! c := read p in deleteResource p ;;; delete_from n (next c)
  end.
Definition deleteAllResources : M W unit :=
  let! w := get in delete_from (turns (heap w)) (headResource w).

(** The elements of a new resource, until one fails. *)
Definition fill_resource (pointer : ptr) (resourceTypeName resourceInterfaceName u : string) (eh : ptr)
    (callbackParam : ptr) (properties resourceTpsTypes : Z) : M W OCStackResult :=
  let! a := allocated in
  if negb a then ret OC_STACK_NO_MEMORY
  else
    change pointer (with_uri u) ;;;
    let properties := if Z.land properties OC_MASK_RESOURCE_SECURE =? 0 then Z.lor properties OC_SECURE else properties in
    change pointer (with_properties (Z.lor properties OC_ACTIVE)) ;;;
    let! result := BindResourceTypeToResource pointer (Some resourceTypeName) in
    if negb (is_ok result) then ret result
    else
      let! result := BindResourceInterfaceToResource pointer (Some resourceInterfaceName) in
      if negb (is_ok result) then ret result
      else
        let! result := BindTpsTypeToResource pointer resourceTpsTypes in
        if negb (is_ok result) then ret result
        else
          change pointer (if eh =? NULL then with_handler defaultResourceEHandler NULL
                          else with_handler (registeredHandler eh) callbackParam) ;;;
          ret OC_STACK_OK.

(** The result, and the handle when there is one.  Whether the caller gave a place for
    the handle is [handle]. *)
Definition OCCreateResourceWithEp (handle : bool) (resourceTypeName resourceInterfaceName uri_ : option string)
    (eh callbackParam : ptr) (properties resourceTpsTypes : Z) : M W (OCStackResult * ptr) :=
  match uri_ with
  | None => ret (OC_STACK_INVALID_URI, NULL)
  | Some u =>
      if String.eqb u "" || (MAX_URI_LENGTH <=? String.length u)%nat then ret (OC_STACK_INVALID_URI, NULL)
      else match handle, resourceTypeName with
      | false, _ | _, None => ret (OC_STACK_INVALID_PARAM, NULL)
      | true, Some t =>
          if String.eqb t "" then ret (OC_STACK_INVALID_PARAM, NULL)
          else
            let i := match resourceInterfaceName with
                     | Some i => if String.eqb i "" then OC_RSRVD_INTERFACE_DEFAULT else i
                     | None => OC_RSRVD_INTERFACE_DEFAULT
                     end in
            if all_properties <? properties then ret (OC_STACK_INVALID_PARAM, NULL)
            else if (resourceTpsTypes <? OcEndpoint.OC_COAP)
                    || (negb (resourceTpsTypes =? OC_ALL) && (validTps <? resourceTpsTypes))
            then ret (OC_STACK_INVALID_PARAM, NULL)
            else
              let! same := search_list (fun _ r => strncmp_eq u (uri r) MAX_URI_LENGTH) in
              if negb (same =? NULL) then ret (OC_STACK_INVALID_PARAM, NULL)
              else
                let! pointer := new_resource in
                if pointer =? NULL then ret (OC_STACK_NO_MEMORY, NULL)
                else
                  insertResource pointer ;;;
                  let! result := fill_resource pointer t i u eh callbackParam properties resourceTpsTypes in
                  if is_ok result then ret (OC_STACK_OK, pointer)
                  else deleteResource pointer ;;; ret (result, NULL)
      end
  end.
Definition OCCreateResource (handle : bool) (resourceTypeName resourceInterfaceName uri_ : option string)
    (eh callbackParam : ptr) (properties : Z) : M W (OCStackResult * ptr) :=
  OCCreateResourceWithEp handle resourceTypeName resourceInterfaceName uri_ eh callbackParam properties OC_ALL.
End resources.
End ResourceList.
