(* ===== verification/ResourceSpec.v ===== *)
(** * The list of resources, abstractly

    A list of handles and resources that [ResourceList]'s heap is laid out from, what
    each operation promises of it, and the proof that the operations on the heap keep
    the promise. *)

From S2P Require Import Prelude.
From S2P Require Import Status.
From S2P Require Import CString.
From S2P Require Import CaTypes.
From S2P Require Import OcEndpoint.
From S2P Require Import Cbor.
From S2P Require Import PayloadCodec.
From S2P Require Import Stack.
From S2P Require Import ServerRequest.
From S2P Require Import Observe.
From S2P Require Import ObserveLaws.
From S2P Require Import Notification.
From S2P Require Import ResourceList.

Module ResourceSpec.
Import CString Stack PayloadCodec ResourceList.
Open Scope m_scope.

(** ** A list laid out in the heap *)

Notation rsrcs := (list (ptr * OCResource)).
Implicit Types (xs ys : list (ptr * OCResource)) (h : gmap ptr cell) (p q : ptr) (r : OCResource).

Definition first_or (b : ptr) xs : ptr := match xs with [] => b | (p, _) :: _ => p end.
Fixpoint layout (b : ptr) xs : gmap ptr cell :=
  match xs with [] => ∅ | (p, r) :: xs' => <[p := mk_cell (first_or b xs') r]> (layout b xs') end.
Definition last_of xs : ptr := default NULL (last xs.*1).

Definition good xs : Prop := NoDup xs.*1 /\ NULL ∉ xs.*1.

Lemma first_or_app b xs ys : first_or b (xs ++ ys) = first_or (first_or b ys) xs.
Proof. by destruct xs as [|[]]. Qed.
Lemma layout_None b xs p : p ∉ xs.*1 -> layout b xs !! p = None.
Proof.
  induction xs as [|[q r] xs IH]; cbn; [by rewrite lookup_empty|]. intros [Hp Hn]%not_elem_of_cons.
  rewrite lookup_insert_ne by done. by apply IH.
Qed.
Lemma layout_app b xs ys : layout b (xs ++ ys) = layout (first_or b ys) xs ∪ layout b ys.
Proof.
  induction xs as [|[p r] xs IH]; cbn; [by rewrite (left_id_L ∅ (∪))|].
  by rewrite IH, first_or_app, insert_union_l.
Qed.
Lemma layout_mid b xs p r ys : p ∉ xs.*1 ->
  layout b (xs ++ (p, r) :: ys) = <[p := mk_cell (first_or b ys) r]> (layout p xs ∪ layout b ys).
Proof. intros Hp. rewrite layout_app. cbn. by rewrite insert_union_r by (by apply layout_None). Qed.
Lemma layout_lookup b xs p r ys : p ∉ xs.*1 -> layout b (xs ++ (p, r) :: ys) !! p = Some (mk_cell (first_or b ys) r).
Proof. intros Hp. rewrite layout_mid by done. apply lookup_insert_eq. Qed.
Lemma layout_change b xs p r r' ys : p ∉ xs.*1 ->
  <[p := mk_cell (first_or b ys) r']> (layout b (xs ++ (p, r) :: ys)) = layout b (xs ++ (p, r') :: ys).
Proof. intros Hp. rewrite !layout_mid by done. apply insert_insert_eq. Qed.
Lemma layout_size b xs : NoDup xs.*1 -> base.size (layout b xs) = List.length xs.
Proof.
  induction xs as [|[p r] xs IH]; cbn; [by rewrite map_size_empty|]. intros [Hp Hn]%NoDup_cons.
  rewrite map_size_insert_None by (by apply layout_None). by rewrite IH.
Qed.

Lemma mid_notin xs p r ys : NoDup (xs ++ (p, r) :: ys).*1 -> p ∉ xs.*1 /\ p ∉ ys.*1 /\ NoDup (xs ++ ys).*1.
Proof.
  rewrite !fmap_app. cbn. intros (H1 & H2 & [H3 H4]%NoDup_cons)%NoDup_app. split_and!; [|done|].
  - intros Hx. apply (H2 p Hx). by left.
  - apply NoDup_app. split_and!; [done| |done]. intros q Hq Hy. apply (H2 q Hq). by right.
Qed.
Lemma cut_at_handle xs p : p ∈ xs.*1 -> exists ys r zs, xs = ys ++ (p, r) :: zs /\ p ∉ ys.*1.
Proof.
  induction xs as [|[q r] xs IH]; cbn; [by intros ?%elem_of_nil|]. intros Hp.
  destruct (decide (p = q)) as [->|Hn]; [exists [], r, xs; split; [done|apply not_elem_of_nil]|].
  apply elem_of_cons in Hp as [?|Hp]; [done|]. destruct (IH Hp) as (ys & s & zs & -> & Hy).
  exists ((q, r) :: ys), s, zs. split; [done|]. by apply not_elem_of_cons.
Qed.

(** The loops follow the list when its cells are in the heap. *)
Lemma layout_tail b p r xs : p ∉ xs.*1 -> layout b xs ⊆ layout b ((p, r) :: xs).
Proof. intros Hp. cbn. apply insert_subseteq. by apply layout_None. Qed.

Fixpoint find_addr (test : ptr -> OCResource -> bool) xs : ptr :=
  match xs with [] => NULL | (p, r) :: xs' => if test p r then p else find_addr test xs' end.

Lemma good_cons p r xs : good ((p, r) :: xs) -> p <> NULL /\ p ∉ xs.*1 /\ good xs.
Proof. intros [[Hp Hn]%NoDup_cons [H0 H1]%not_elem_of_cons]. split; [by intros ->|]. split; [exact Hp|by split]. Qed.

(** A free address is one, whatever the allocator starts from. *)
Lemma free_from_ext n used used' : (forall p, used p = used' p) -> forall p, free_from n used p = free_from n used' p.
Proof. intros H. induction n as [|n IH]; intros p; cbn; [done|]. by rewrite H, IH. Qed.
Lemma free_from_ge n used p : p <= free_from n used p.
Proof. revert p. induction n as [|n IH]; intros p; cbn; [lia|]. destruct (used p); [|lia]. specialize (IH (p + 1)). unfold ptr in *. lia. Qed.
Lemma free_from_free n used p i : (i < n)%nat -> used (p + Z.of_nat i) = false -> used (free_from n used p) = false.
Proof.
  revert p i. induction n as [|n IH]; intros p i Hi Hu; [lia|]. cbn. destruct (used p) eqn:E; [|done].
  destruct i as [|i]; [rewrite Z.add_0_r in Hu; congruence|]. apply (IH _ i); [lia|]. by rewrite <- Hu; f_equal; lia.
Qed.
Lemma some_free (l : list ptr) p : exists i, (i < S (List.length l))%nat /\ p + Z.of_nat i ∉ l.
Proof.
  destruct (decide (Forall (fun i => p + Z.of_nat i ∈ l) (seq 0 (S (List.length l))))) as [H|H].
  - exfalso. assert (Hn : NoDup ((fun i => p + Z.of_nat i) <$> seq 0 (S (List.length l)))).
    { apply NoDup_fmap_2; [intros x y; lia|apply NoDup_seq]. }
    apply (NoDup_submseteq _ l), submseteq_length in Hn; [rewrite length_fmap, length_seq in Hn; lia|].
    intros q (i & -> & Hi)%list_elem_of_fmap. by eapply Forall_forall in H.
  - apply not_Forall_Exists in H; [|intros i; apply _]. apply Exists_exists in H as (i & Hi & Hn).
    apply elem_of_seq in Hi. exists i. split; [lia|done].
Qed.
Lemma free_from_notin (l : list ptr) p : free_from (S (List.length l)) (fun q => bool_decide (q ∈ l)) p ∉ l.
Proof.
  destruct (some_free l p) as (i & Hi & Hn).
  pose proof (free_from_free _ (fun q => bool_decide (q ∈ l)) p i Hi (bool_decide_eq_false_2 _ Hn)) as H.
  by apply bool_decide_eq_false in H.
Qed.

Section loops.
Context (h : gmap ptr cell).
Ltac follow Hs Hg Hf :=
  apply good_cons in Hg as (? & ? & ?);
  cbn [search addresses count_cells nth_cell first_or]; rewrite ?(proj2 (Z.eqb_neq _ NULL)) by done;
  cbn [layout] in Hs; rewrite (lookup_weaken _ h _ _ (lookup_insert_eq _ _ _) Hs); cbn [mbind option_bind next content];
  assert (layout NULL _ ⊆ h) by (etrans; [by apply insert_subseteq, layout_None|exact Hs]); cbn [List.length] in *.

Lemma search_layout test xs : forall fuel, layout NULL xs ⊆ h -> good xs -> (List.length xs < fuel)%nat ->
  search fuel test h (first_or NULL xs) = Some (find_addr test xs).
Proof.
  induction xs as [|[p r] xs IH]; intros [|fuel] Hs Hg Hf; [lia|done|lia|].
  follow Hs Hg Hf. cbn [find_addr]. destruct (test p r); [done|]. apply IH; [done..|lia].
Qed.
Lemma addresses_layout xs : forall fuel, layout NULL xs ⊆ h -> good xs -> (List.length xs < fuel)%nat ->
  addresses fuel h (first_or NULL xs) = Some xs.*1.
Proof.
  induction xs as [|[p r] xs IH]; intros [|fuel] Hs Hg Hf; [lia|done|lia|].
  follow Hs Hg Hf. rewrite IH; [done..|lia].
Qed.
Lemma count_layout xs : forall fuel n, layout NULL xs ⊆ h -> good xs -> (List.length xs < fuel)%nat ->
  in_width 8 n -> count_cells fuel h (first_or NULL xs) n = Some (u8 (n + Z.of_nat (List.length xs))).
Proof.
  induction xs as [|[p r] xs IH]; intros [|fuel] n Hs Hg Hf Hn; [lia| |lia|].
  - cbn. by rewrite Z.add_0_r, wrap_id.
  - follow Hs Hg Hf. rewrite IH; [|done..|lia|by apply wrap_in_width].
    f_equal. unfold wrap. rewrite Zplus_mod_idemp_l. f_equal. lia.
Qed.
Lemma nth_layout xs : forall i, layout NULL xs ⊆ h -> good xs ->
  nth_cell i h (first_or NULL xs) = Some (default NULL (xs.*1 !! i)).
Proof.
  induction xs as [|[p r] xs IH]; intros [|i] Hs Hg; [done..|].
  follow Hs Hg Hg. by apply IH.
Qed.
(** The cell before the one looked for. *)
Lemma before_layout xs p r ys prev : forall fuel, layout NULL (xs ++ (p, r) :: ys) ⊆ h -> good (xs ++ (p, r) :: ys) ->
  (List.length xs < fuel)%nat ->
  before fuel h prev (first_or NULL (xs ++ (p, r) :: ys)) p = Some (Some (default prev (last xs.*1))).
Proof.
  revert prev. induction xs as [|[q s] xs IH]; intros prev [|fuel] Hs Hg Hf; [lia| |lia|].
  - apply good_cons in Hg as (? & _). cbn. rewrite (proj2 (Z.eqb_neq _ NULL)) by done. by rewrite Z.eqb_refl.
  - assert (q <> p) as Hq.
    { intros ->. rewrite <- app_comm_cons in Hg. apply good_cons in Hg as (_ & Hq & _). apply Hq.
      rewrite fmap_app. apply elem_of_app. right. by left. }
    rewrite <- app_comm_cons in *. apply good_cons in Hg as (? & ? & ?). cbn [before first_or].
    rewrite (proj2 (Z.eqb_neq _ NULL)), (proj2 (Z.eqb_neq _ p)) by done. cbn [layout] in Hs.
    rewrite (lookup_weaken _ h _ _ (lookup_insert_eq _ _ _) Hs). cbn [mbind option_bind next].
    rewrite IH; [|etrans; [by apply insert_subseteq, layout_None|exact Hs]|done|cbn in Hf; lia].
    do 2 f_equal. rewrite fmap_cons, last_cons. by destruct (last xs.*1).
Qed.
Lemma before_absent xs p prev : forall fuel, layout NULL xs ⊆ h -> good xs -> (List.length xs < fuel)%nat -> p ∉ xs.*1 ->
  before fuel h prev (first_or NULL xs) p = Some None.
Proof.
  revert prev. induction xs as [|[q s] xs IH]; intros prev [|fuel] Hs Hg Hf Hp; [lia|done|cbn in Hf; lia|].
  apply not_elem_of_cons in Hp as [Hn Hp]. apply good_cons in Hg as (? & ? & ?). cbn [before first_or].
  rewrite (proj2 (Z.eqb_neq _ NULL)), (proj2 (Z.eqb_neq q p)) by (cbn in *; congruence). cbn [layout] in Hs.
  rewrite (lookup_weaken _ h _ _ (lookup_insert_eq _ _ _) Hs). cbn [mbind option_bind next].
  apply IH; [etrans; [|exact Hs]; by apply insert_subseteq, layout_None|done|cbn in Hf; lia|exact Hp].
Qed.
End loops.

(** ** The abstract state *)

Fixpoint assoc p xs : option OCResource :=
  match xs with [] => None | (q, r) :: xs' => if q =? p then Some r else assoc p xs' end.
Fixpoint update p (f : OCResource -> OCResource) xs : rsrcs :=
  match xs with [] => [] | (q, r) :: xs' => if q =? p then (q, f r) :: xs' else (q, r) :: update p f xs' end.
Definition remove p xs : rsrcs := filter (fun x => x.1 <> p) xs.
Fixpoint merge xs (rs : list Stack.OCResource) : rsrcs :=
  match xs, rs with (p, r) :: xs', x :: rs' => (p, after_requests x r) :: merge xs' rs' | _, _ => xs end.

Lemma assoc_split xs p r : assoc p xs = Some r ->
  exists ys zs, xs = ys ++ (p, r) :: zs /\ p ∉ ys.*1 /\ forall f, update p f xs = ys ++ (p, f r) :: zs.
Proof.
  induction xs as [|[q s] xs IH]; cbn [assoc update]; [done|]. destruct (Z.eqb_spec q p) as [->|Hn].
  - intros [= ->]. exists [], xs. split; [done|]. split; [apply not_elem_of_nil|done].
  - intros H. destruct (IH H) as (ys & zs & -> & Hy & Hu). exists ((q, s) :: ys), zs. split; [done|]. split.
    + rewrite fmap_cons. by apply not_elem_of_cons.
    + intros f. by rewrite Hu.
Qed.
Lemma at_mid xs p r ys f : p ∉ xs.*1 ->
  assoc p (xs ++ (p, r) :: ys) = Some r /\ update p f (xs ++ (p, r) :: ys) = xs ++ (p, f r) :: ys.
Proof.
  induction xs as [|[q s] xs IH]; simpl; [by rewrite Z.eqb_refl|]. intros [Hq Hp]%not_elem_of_cons.
  rewrite (proj2 (Z.eqb_neq q p)) by congruence. destruct (IH Hp) as [-> ->]. done.
Qed.
Lemma assoc_None xs p : assoc p xs = None <-> p ∉ xs.*1.
Proof.
  induction xs as [|[q s] xs IH]; cbn [assoc]; [split; [intros _; apply not_elem_of_nil|done]|].
  rewrite fmap_cons, not_elem_of_cons. cbn [fst]. destruct (Z.eqb_spec q p) as [->|Hn]; [naive_solver|].
  rewrite IH. naive_solver.
Qed.
Lemma update_addrs xs p f : (update p f xs).*1 = xs.*1.
Proof.
  induction xs as [|[q s] xs IH]; cbn [update]; [done|]. destruct (q =? p); rewrite ?fmap_cons; [done|]. by rewrite IH.
Qed.
Lemma assoc_update xs p r f : assoc p xs = Some r -> assoc p (update p f xs) = Some (f r).
Proof.
  induction xs as [|[q s] xs IH]; cbn [assoc update]; [done|]. destruct (q =? p) eqn:E; cbn [assoc]; rewrite E; [by intros [= ->]|done].
Qed.
Lemma update_update xs p f g : update p g (update p f xs) = update p (fun r => g (f r)) xs.
Proof.
  induction xs as [|[q s] xs IH]; cbn [update]; [done|]. destruct (q =? p) eqn:E; cbn [update]; rewrite E; [done|by rewrite IH].
Qed.
Lemma update_const xs p r f : assoc p xs = Some r -> update p (fun _ => f r) xs = update p f xs.
Proof. intros (ys & zs & -> & Hy & Hu)%assoc_split. by rewrite !Hu. Qed.
Lemma update_Forall (P : OCResource -> Prop) xs p f : (forall r, P r -> P (f r)) ->
  Forall (fun x => P x.2) xs -> Forall (fun x => P x.2) (update p f xs).
Proof.
  intros Hf. induction 1 as [|[q s] xs Hx Hxs IH]; cbn [update]; [constructor|]. destruct (q =? p); constructor; cbn in *; auto.
Qed.

Record aworld {A : Type} : Type := mk_aworld { resources : rsrcs; a_memory : list (option Z); a_stack : stack A }.
Arguments aworld : clear implicits.
Arguments mk_aworld {A}.

Definition has_token (o : ResourceObserver) : Prop := o_token o <> [].

Section abstract.
Context {A : Type}.
Notation AW := (aworld A).

Definition set_resources_ v (a : AW) : AW := mk_aworld v (a_memory a) (a_stack a).
Definition set_amemory v (a : AW) : AW := mk_aworld (resources a) v (a_stack a).

(** The heap, and the ends of the list, of an abstract state. *)
Definition concrete (a : AW) : world A :=
  mk_world (layout NULL (resources a)) (first_or NULL (resources a)) (last_of (resources a)) (a_memory a) (a_stack a).

(** Handles are distinct and not null, requests have addresses and observers tokens. *)
Record wf (a : AW) : Prop := {
  wf_good : good (resources a); wf_empty : Stack.headResource (a_stack a) = [];
  wf_fresh : ObserveLaws.fresh (a_stack a);
  wf_tokens : Forall (fun x => Forall has_token (observersHead x.2)) (resources a) }.

(** ** What the operations promise *)

(** A single resource, and the memory. *)
Notation R := (OCResource * list (option Z))%type.
Definition r_allocated : M R bool := fun '(r, m) => Some (match m with None :: _ => false | _ => true end, (r, tail m)).
Definition r_two : M R bool := let! a := r_allocated in if a : bool then r_allocated else ret false.
Definition r_change (f : OCResource -> OCResource) : M R unit := fun '(r, m) => Some (tt, (f r, m)).
Definition r_get {B} (f : OCResource -> B) : M R B := gets (fun x => f x.1).

Definition r_named (o : option string) (f : string -> M R unit) : M R OCStackResult :=
  match o with
  | None => ret OC_STACK_INVALID_PARAM
  | Some n =>
      if negb (ValidateResourceTypeInterface n) then ret OC_STACK_INVALID_PARAM
      else let! a := r_two in if a : bool then f n ;;; ret OC_STACK_OK else ret OC_STACK_NO_MEMORY
  end.
Definition add_name (n : string) (l : list string) : list string := if bool_decide (n ∈ l) then l else l ++ [n].
Definition r_bind_type (o : option string) : M R OCStackResult :=
  r_named o (fun n => r_change (fun r => with_types (add_name n (rsrcType r)) r)).
(** The default interface is the first one. *)
Definition add_interface (n : string) (l : list string) : list string :=
  if String.eqb n OC_RSRVD_INTERFACE_DEFAULT
  then match l with [] => [n] | i :: _ => if String.eqb i OC_RSRVD_INTERFACE_DEFAULT then l else n :: l end
  else add_name n match l with [] => [OC_RSRVD_INTERFACE_DEFAULT] | _ => l end.
Definition r_bind_interface (o : option string) : M R OCStackResult :=
  r_named o (fun n =>
    let! l := r_get rsrcInterface in
    let! a := match l with
              | [] => if String.eqb n OC_RSRVD_INTERFACE_DEFAULT then ret true else r_two
              | _ => ret true
              end in
    if a : bool then r_change (with_interfaces (add_interface n l)) else ret tt).

(** On the resource of a handle. *)
Definition at_handle {B} p (missing : B) (f : M R B) : M AW B := fun a =>
  match assoc p (resources a) with
  | None => Some (missing, a)
  | Some r =>
      '(b, (r, m)) ← f (r, a_memory a);
      Some (b, mk_aworld (update p (fun _ => r) (resources a)) m (a_stack a))
  end.

Definition on_requests {B} (f : M (stack A) B) : M AW B := fun a =>
  '(b, s) ← f (set_resources (map (fun x => for_requests x.2) (resources a)) (a_stack a));
  Some (b, mk_aworld (merge (resources a) (Stack.headResource s)) (a_memory a) (set_resources [] s)).

Definition a_allocate : M AW ptr := fun a =>
  Some (match a_memory a with
        | None :: _ => NULL
        | m => free_from (S (List.length (resources a))) (fun p => bool_decide (p ∈ (resources a).*1))
                 (Z.max 1 match m with Some k :: _ => k | _ => 1 end)
        end, set_amemory (tail (a_memory a)) a).

(** [m], on the heap, does what [s] says of the abstract state. *)
Definition implements {B} (m : M (world A) B) (s : M AW B) : Prop := forall a, wf a ->
  m (concrete a) = (fun x => (x.1, concrete x.2)) <$> s a /\ (forall b a', s a = Some (b, a') -> wf a').

Lemma implements_ret {B} (b : B) : implements (ret b) (ret b).
Proof. intros a Ha. split; [done|]. by intros ? ? [= _ <-]. Qed.
Lemma implements_bind {B C} (m : M (world A) B) (s : M AW B) (f : B -> M (world A) C) (g : B -> M AW C) :
  implements m s -> (forall b, implements (f b) (g b)) -> implements (bind m f) (bind s g).
Proof.
  intros Hm Hf a Ha. destruct (Hm a Ha) as [E W]. unfold bind. rewrite E. destruct (s a) as [[b a']|]; cbn; [|done].
  apply Hf. by eapply W.
Qed.
Lemma implements_if {B} (c : bool) (m m' : M (world A) B) (s s' : M AW B) :
  implements m s -> implements m' s' -> implements (if c then m else m') (if c then s else s').
Proof. by destruct c. Qed.

Lemma turns_concrete a : wf a -> turns (heap (concrete a)) = S (List.length (resources a)).
Proof. intros Ha. unfold turns. cbn [heap concrete]. by rewrite layout_size by apply (wf_good a Ha). Qed.

Lemma implements_search test : implements (search_list test) (gets (fun a => find_addr test (resources a))).
Proof.
  intros a Ha. unfold search_list. cbn [bind get demand]. rewrite turns_concrete by done. cbn [heap headResource concrete].
  rewrite search_layout; [|done|apply (wf_good a Ha)|lia]. split; [done|]. by intros ? ? [= _ <-].
Qed.

(** *** Changes of one resource *)

Definition same_observers (x y : R) : Prop := observersHead y.1 = observersHead x.1.
#[export] Instance same_observers_preorder : PreOrder same_observers.
Proof. split; [done|]. intros x y z H1 H2. unfold same_observers in *. congruence. Qed.

Definition put_at p (a : AW) (x : R) : AW := mk_aworld (update p (fun _ => x.1) (resources a)) x.2 (a_stack a).
Lemma put_at_wf p a r m r' : wf a -> assoc p (resources a) = Some r -> observersHead r' = observersHead r ->
  wf (put_at p a (r', m)).
Proof.
  intros [[Hn H0] He Hf Ht] Hr Ho. split; cbn; [split; by rewrite update_addrs|done|done|].
  apply assoc_split in Hr as (ys & zs & Hx & _ & Hu). rewrite Hu, Hx in *.
  apply Forall_app in Ht as [? [? ?]%Forall_cons]. apply Forall_app. split; [done|]. constructor; [|done].
  cbn in *. by rewrite Ho.
Qed.
Lemma put_at_put p a x y : put_at p (put_at p a x) y = put_at p a y.
Proof. unfold put_at. cbn. by rewrite update_update. Qed.

Lemma layout_dom b xs p : is_Some (layout b xs !! p) <-> p ∈ xs.*1.
Proof.
  split; [|intros (ys & r & zs & -> & Hy)%cut_at_handle; rewrite layout_lookup by done; eauto].
  intros [c Hc]. destruct (decide (p ∈ xs.*1)) as [|Hn]; [done|]. by rewrite layout_None in Hc.
Qed.
Lemma allocate_concrete a : wf a -> allocate (concrete a) = (fun x => (x.1, concrete x.2)) <$> a_allocate a.
Proof.
  intros Ha. unfold allocate, a_allocate. cbn [bind get modify ret fmap option_fmap option_map fst snd].
  rewrite turns_concrete by done. cbn [memory concrete heap].
  assert (E : forall k, free_from (S (List.length (resources a))) (fun p => bool_decide (is_Some (layout NULL (resources a) !! p))) k
    = free_from (S (List.length (resources a))) (fun p => bool_decide (p ∈ (resources a).*1)) k).
  { apply free_from_ext. intros p. apply bool_decide_ext, layout_dom. }
  destruct (a_memory a) as [|[k|] m]; [|..]; rewrite ?E; done.
Qed.
Lemma a_allocate_free a p a' : a_allocate a = Some (p, a') -> a' = set_amemory (tail (a_memory a)) a /\
  if match a_memory a with None :: _ => false | _ => true end then p <> NULL /\ p ∉ (resources a).*1 else p = NULL.
Proof.
  intros [= <- <-]. split; [done|].
  assert (H : forall k, let p := free_from (S (List.length (resources a))) (fun p => bool_decide (p ∈ (resources a).*1)) (Z.max 1 k) in
    p <> NULL /\ p ∉ (resources a).*1).
  { intros k q. split.
    - pose proof (free_from_ge (S (List.length (resources a))) (fun p => bool_decide (p ∈ (resources a).*1)) (Z.max 1 k)) as H.
      fold q in H. unfold NULL, ptr in *. lia.
    - pose proof (free_from_notin (resources a).*1 (Z.max 1 k)) as H. by rewrite length_fmap in H. }
  destruct (a_memory a) as [|[k|] m]; [apply (H 1)|apply (H k)|done].
Qed.

Definition modifies {B} p (m : M (world A) B) (f : M R B) : Prop := keeps same_observers f /\
  forall a r, wf a -> assoc p (resources a) = Some r ->
  m (concrete a) = (fun x => (x.1, concrete (put_at p a x.2))) <$> f (r, a_memory a).

Lemma put_at_same p a r : assoc p (resources a) = Some r -> put_at p a (r, a_memory a) = a.
Proof.
  intros (ys & zs & Hx & _ & Hu)%assoc_split. unfold put_at. destruct a as [xs m s]. cbn in *. by rewrite Hu, Hx.
Qed.
Lemma modifies_ret {B} p (b : B) : modifies p (ret b) (ret b).
Proof. split; [apply keeps_ret; typeclasses eauto|]. intros a r _ Hr. cbn. by rewrite put_at_same. Qed.
Lemma modifies_bind {B C} p (m : M (world A) B) f (m' : B -> M (world A) C) f' :
  modifies p m f -> (forall b, modifies p (m' b) (f' b)) -> modifies p (bind m m') (bind f f').
Proof.
  intros [Hk Hm] Hm'. split.
  - apply keeps_bind; [typeclasses eauto|done|]. intros b. apply Hm'.
  - intros a r Ha Hr. unfold bind. rewrite (Hm a r) by done. destruct (f _) as [[b [r' mem]]|] eqn:E; cbn; [|done].
    apply Hk in E. unfold same_observers in E. cbn in E. destruct (Hm' b) as [_ H].
    rewrite (H (put_at p a (r', mem)) r') by (by eapply put_at_wf || by apply (assoc_update _ _ r)).
    cbn. destruct (f' b (r', mem)) as [[c x]|]; cbn; [|done]. by rewrite put_at_put.
Qed.
Lemma modifies_if {B} p (c : bool) (m m' : M (world A) B) f f' :
  modifies p m f -> modifies p m' f' -> modifies p (if c then m else m') (if c then f else f').
Proof. by destruct c. Qed.

Lemma read_split p a r ys zs : resources a = ys ++ (p, r) :: zs -> p ∉ ys.*1 ->
  read p (concrete a) = Some (mk_cell (first_or NULL zs) r, concrete a).
Proof. intros Hx Hy. unfold read. cbn [bind gets demand heap concrete]. by rewrite Hx, layout_lookup. Qed.
Lemma read_at p a r : assoc p (resources a) = Some r -> exists n, read p (concrete a) = Some (mk_cell n r, concrete a).
Proof. intros (ys & zs & Hx & Hy & _)%assoc_split. eexists. by eapply read_split. Qed.
Lemma modifies_get {B} p (f : OCResource -> B) : modifies p (let! c := read p in ret (f (content c))) (r_get f).
Proof.
  split; [apply keeps_gets; typeclasses eauto|]. intros a r Ha Hr. destruct (read_at p a r Hr) as [n E].
  rewrite (bind_some _ _ _ _ _ E). cbn. by rewrite put_at_same.
Qed.
Lemma modifies_change p f : (forall r, observersHead (f r) = observersHead r) -> modifies p (change p f) (r_change f).
Proof.
  intros Hf. split; [intros [r m] [] [r' m'] [= <- <-]; apply Hf|]. intros a r Ha Hr.
  pose proof Hr as (ys & zs & Hx & Hy & Hu)%assoc_split. unfold change, write.
  rewrite (bind_some _ _ _ _ _ (read_split p a r ys zs Hx Hy)). unfold put_at, concrete, modify, set_heap. cbn.
  rewrite Hu, Hx, layout_change by done. unfold last_of. by rewrite !first_or_app, !fmap_app.
Qed.
Lemma modifies_allocated p : modifies p allocated r_allocated.
Proof.
  split; [by intros [r m] b [r' m'] [= _ <- _]|]. intros a r Ha Hr. unfold allocated, bind.
  rewrite allocate_concrete by done. destruct (a_allocate a) as [[q a']|] eqn:E; [|done].
  destruct (a_allocate_free _ _ _ E) as [-> H].
  assert (set_amemory (tail (a_memory a)) a = put_at p a (r, tail (a_memory a))) as ->.
  { rewrite <- (put_at_same p a r Hr) at 2. done. }
  unfold ret. cbn. do 2 f_equal.
  destruct (a_memory a) as [|[k|] m]; [destruct H as [H _]|destruct H as [H _]|by subst]; by rewrite (proj2 (Z.eqb_neq q NULL) H).
Qed.
Lemma modifies_two p : modifies p two_allocated r_two.
Proof.
  apply modifies_bind; [apply modifies_allocated|]. intros b. apply modifies_if; [apply modifies_allocated|apply modifies_ret].
Qed.
Lemma modifies_named p o (m : string -> M (world A) unit) f : (forall n, modifies p (m n) (f n)) ->
  modifies p match o with
             | None => ret OC_STACK_INVALID_PARAM
             | Some n => if negb (ValidateResourceTypeInterface n) then ret OC_STACK_INVALID_PARAM
                         else let! a := two_allocated in if a : bool then m n ;;; ret OC_STACK_OK else ret OC_STACK_NO_MEMORY
             end (r_named o f).
Proof.
  intros H. destruct o as [n|]; cbn [r_named]; [|apply modifies_ret]. apply modifies_if; [apply modifies_ret|].
  apply modifies_bind; [apply modifies_two|]. intros b. apply modifies_if; [|apply modifies_ret].
  apply modifies_bind; [apply H|]. intros _. apply modifies_ret.
Qed.
Lemma modifies_ext {B} p (m : M (world A) B) f g : (forall x, f x = g x) -> modifies p m f -> modifies p m g.
Proof.
  intros H [Hk Hm]. split; [intros x b y E; rewrite <- H in E; by eapply Hk|]. intros a r Ha Hr. rewrite <- H. by apply Hm.
Qed.
(** What is read of the resource. *)
Lemma modifies_read {B} p (k : OCResource -> M (world A) B) f : keeps same_observers f ->
  (forall r, exists g, modifies p (k r) g /\ forall m, f (r, m) = g (r, m)) ->
  modifies p (let! c := read p in k (content c)) f.
Proof.
  intros Hk Hf. split; [done|]. intros a r Ha Hr. destruct (read_at p a r Hr) as [n E].
  rewrite (bind_some _ _ _ _ _ E). cbn. destruct (Hf r) as (g & [_ Hg] & He). rewrite He. by apply Hg.
Qed.

Lemma keeps_r_two : keeps same_observers r_two.
Proof. by destruct (modifies_two NULL). Qed.
Lemma keeps_r_change f : (forall r, observersHead (f r) = observersHead r) -> keeps same_observers (r_change f).
Proof. intros Hf [r m] [] [r' m'] [= <- <-]. apply Hf. Qed.

Lemma modifies_bind_type p o : modifies p (BindResourceTypeToResource p o) (r_bind_type o).
Proof.
  apply modifies_named. intros n. unfold insertResourceType.
  eapply modifies_ext; [|apply modifies_change; intros r; by case_match]. intros [r m]. cbn. unfold add_name.
  case_bool_decide; [|done]. by destruct r.
Qed.
Lemma modifies_bind_interface p o : modifies p (BindResourceInterfaceToResource p o) (r_bind_interface o).
Proof.
  apply modifies_named. intros n. unfold insertResourceInterface.
  apply (modifies_read p (fun r => match rsrcInterface r with [] => _ | _ => _ end)).
  { repeat (apply keeps_bind; [typeclasses eauto| |intros ?]); repeat case_match;
      first [apply keeps_gets; typeclasses eauto|apply keeps_r_two|by apply keeps_r_change|apply keeps_ret; typeclasses eauto]. }
  assert (Hc : forall l, modifies p (change p (with_interfaces l)) (r_change (with_interfaces l))) by (intros; by apply modifies_change).
  intros r. destruct (rsrcInterface r) as [|i l] eqn:El; eexists; split.
  - apply modifies_if; [apply Hc|]. apply modifies_bind; [apply modifies_two|]. intros b. apply modifies_if; [apply Hc|apply modifies_ret].
  - intros m. unfold bind. cbn. rewrite El. cbn. unfold add_interface. destruct (String.eqb n _) eqn:En.
    + done.
    + destruct (r_two (r, m)) as [[[|] [r' m']]|]; cbn; try done. unfold add_name. rewrite bool_decide_eq_false_2; [done|].
      intros ->%list_elem_of_singleton. by rewrite String.eqb_refl in En.
  - apply modifies_if; [apply modifies_if; [apply modifies_ret|apply Hc]|]. apply modifies_if; [apply modifies_ret|apply Hc].
  - intros m. unfold bind. cbn. rewrite El. cbn. unfold add_interface, add_name.
    assert (Hs : with_interfaces (i :: l) r = r) by (destruct r; cbn in El; by subst).
    destruct (String.eqb n _); [destruct (String.eqb i _)|case_bool_decide]; cbn; by rewrite ?Hs.
Qed.

(** *** Requests run on the resources in order *)

Lemma after_for_requests r : after_requests (for_requests r) r = r.
Proof. by destruct r. Qed.
Lemma merge_addrs xs rs : (merge xs rs).*1 = xs.*1.
Proof. revert rs. induction xs as [|[p r] xs IH]; intros [|x rs]; cbn [merge]; [done..|]. by rewrite !fmap_cons, IH. Qed.
Lemma snoc_app {X} (l : list X) z k : (l ++ [z]) ++ k = l ++ z :: k.
Proof. by rewrite <- app_assoc. Qed.
Lemma mapM_layout xs ys h : NoDup (ys ++ xs).*1 -> layout NULL (ys ++ xs) ⊆ h ->
  mapM (fun p => (fun c => for_requests (content c)) <$> h !! p) xs.*1 = Some (map (fun x => for_requests x.2) xs).
Proof.
  revert ys. induction xs as [|[p r] xs IH]; intros ys Hn Hs; [done|].
  pose proof (mid_notin _ _ _ _ Hn) as (Hp & _ & _). rewrite fmap_cons. cbn [mapM fst].
  rewrite (lookup_weaken _ h _ _ (layout_lookup NULL ys p r xs Hp) Hs). cbn [fmap option_fmap option_map mbind option_bind content].
  rewrite (IH (ys ++ [(p, r)])); [done|by rewrite snoc_app..].
Qed.
Lemma write_back_layout xs rs ys : NoDup (ys ++ xs).*1 ->
  write_back (zip xs.*1 rs) (layout NULL (ys ++ xs)) = layout NULL (ys ++ merge xs rs).
Proof.
  revert rs ys. induction xs as [|[p r] xs IH]; intros [|x rs] ys Hn; cbn [merge]; [done..|].
  pose proof (mid_notin _ _ _ _ Hn) as (Hp & _ & _). rewrite fmap_cons. cbn [zip zip_with write_back fst].
  assert (alter (fun c => mk_cell (next c) (after_requests x (content c))) p (layout NULL (ys ++ (p, r) :: xs))
    = layout NULL ((ys ++ [(p, after_requests x r)]) ++ xs)) as ->.
  { rewrite snoc_app, <- (layout_change NULL ys p r (after_requests x r)) by done.
    apply map_eq. intros q. destruct (decide (q = p)) as [->|Hq].
    - rewrite lookup_alter_eq, layout_lookup, lookup_insert_eq by done. done.
    - rewrite lookup_alter_ne, lookup_insert_ne by done. done. }
  rewrite IH by (rewrite snoc_app, !fmap_app, !fmap_cons in *; done). by rewrite snoc_app.
Qed.
Lemma first_or_merge b xs rs : first_or b (merge xs rs) = first_or b xs.
Proof. by destruct xs as [|[p r] xs], rs. Qed.

Lemma on_stack_concrete {B} (f : M (stack A) B) a : wf a ->
  on_stack (resources a).*1 f (concrete a) = (fun x => (x.1, concrete x.2)) <$> on_requests f a.
Proof.
  intros [[Hn H0] He Hf Ht]. unfold on_stack, on_requests. cbn [heap concrete the_stack].
  rewrite (mapM_layout _ [] _ Hn) by done. cbn [mbind option_bind].
  destruct (f _) as [[b s]|]; cbn [fmap option_fmap option_map fst snd]; [|done].
  unfold concrete, set_heap, set_stack. cbn. rewrite (write_back_layout _ _ [] Hn). cbn [app].
  unfold last_of. by rewrite merge_addrs, first_or_merge.
Qed.

(** *** Handles *)

Lemma find_handle xs p : good xs -> find_addr (fun q _ => q =? p) xs = match assoc p xs with Some _ => p | None => NULL end.
Proof.
  induction xs as [|[q r] xs IH]; [done|]. intros (_ & _ & Hg)%good_cons. cbn [find_addr assoc].
  destruct (Z.eqb_spec q p) as [->|]; [done|]. by apply IH.
Qed.
Lemma assoc_good xs p r : good xs -> assoc p xs = Some r -> p <> NULL.
Proof. intros [_ H0] (ys & zs & -> & _)%assoc_split ->. apply H0. rewrite fmap_app. apply elem_of_app. right. by left. Qed.

Lemma implements_at {B} p (missing : B) m f : modifies p (m p) f -> implements (with_resource p missing m) (at_handle p missing f).
Proof.
  intros [Hk Hm] a Ha. unfold with_resource, at_handle, findResource, bind.
  destruct (implements_search (fun q _ => q =? p) a Ha) as [-> _]. cbn. rewrite find_handle by apply (wf_good a Ha).
  destruct (assoc p (resources a)) as [r|] eqn:Hr; [|by split; [|by intros ? ? [= _ <-]]].
  rewrite (proj2 (Z.eqb_neq p NULL)) by (by eapply assoc_good; [apply (wf_good a Ha)|]).
  rewrite (Hm a r Ha Hr). destruct (f (r, a_memory a)) as [[b [r' mem]]|] eqn:E; cbn; [|by split].
  split; [done|]. intros ? ? [= _ <-]. eapply (put_at_wf p a r mem r'); [done..|]. by apply Hk in E.
Qed.
Lemma all_resources_concrete a : wf a -> all_resources (concrete a) = Some ((resources a).*1, concrete a).
Proof.
  intros Ha. unfold all_resources. cbn [bind get demand]. rewrite turns_concrete by done. cbn [heap headResource concrete].
  rewrite addresses_layout; [done|done|apply (wf_good a Ha)|lia].
Qed.
Lemma find_place xs p r ys zs : xs = ys ++ (p, r) :: zs -> p ∉ ys.*1 ->
  list_find (fun q => q = p) xs.*1 = Some (List.length ys, p).
Proof.
  intros -> Hy. rewrite fmap_app, fmap_cons. cbn [fst]. rewrite list_find_app_r.
  - cbn. rewrite decide_True by done. cbn. by rewrite length_fmap.
  - apply list_find_None, Forall_forall. by intros q Hq ->.
Qed.

(** *** Unlinking *)

Lemma last_of_snoc xs p r : last_of (xs ++ [(p, r)]) = p.
Proof. unfold last_of. by rewrite fmap_app, last_app. Qed.
Lemma last_of_app xs y ys : last_of (xs ++ y :: ys) = last_of (y :: ys).
Proof. unfold last_of. rewrite fmap_app, last_app, fmap_cons, last_cons. by destruct (last _). Qed.
Lemma last_of_in xs : xs <> [] -> last_of xs ∈ xs.*1.
Proof.
  destruct xs as [|[p r] xs _] using rev_ind; [done|]. intros _. rewrite last_of_snoc, fmap_app. apply elem_of_app. right. by left.
Qed.

Lemma read_heap p (w : world A) c : heap w !! p = Some c -> read p w = Some (c, w).
Proof. unfold read. cbn [bind gets demand]. by intros ->. Qed.
Lemma set_next_heap p q (w : world A) c : heap w !! p = Some c ->
  set_next p q w = Some (tt, set_heap (<[p := mk_cell q (content c)]> (heap w)) w).
Proof. intros H. unfold set_next, write. by rewrite (bind_some _ _ _ _ _ (read_heap p w c H)). Qed.

Lemma first_or_ne p ys t u zs : p ∉ ys.*1 -> p <> t -> p <> first_or NULL (ys ++ (t, u) :: zs).
Proof. destruct ys as [|[q v] ys]; cbn; [done|]. by intros [? _]%not_elem_of_cons. Qed.
Lemma layout_unlink ys t u p r zs : t ∉ ys.*1 -> p ∉ ys.*1 -> p ∉ zs.*1 -> p <> t ->
  delete p (<[t := mk_cell (first_or NULL zs) u]> (layout NULL (ys ++ (t, u) :: (p, r) :: zs)))
  = layout NULL (ys ++ (t, u) :: zs).
Proof.
  intros Ht Hp Hz Hn. rewrite !layout_mid by done. rewrite insert_insert_eq, delete_insert_ne, delete_union by done.
  rewrite (delete_id (layout t ys)) by (by apply layout_None). cbn [layout].
  by rewrite fin_maps.delete_insert_eq, (delete_id (layout NULL zs)) by (by apply layout_None).
Qed.

Lemma unlink_concrete (w : world A) ys p r zs : heap w = layout NULL (ys ++ (p, r) :: zs) ->
  headResource w = first_or NULL (ys ++ (p, r) :: zs) -> tailResource w = last_of (ys ++ (p, r) :: zs) ->
  good (ys ++ (p, r) :: zs) ->
  exists h', unlink (default NULL (last ys.*1)) p w
    = Some (tt, mk_world h' (first_or NULL (ys ++ zs)) (last_of (ys ++ zs)) (memory w) (the_stack w)) /\
  delete p h' = layout NULL (ys ++ zs) /\ (exists n, h' !! p = Some (mk_cell n r)).
Proof.
  intros Hh Hf Hl Hg. pose proof (mid_notin _ _ _ _ (proj1 Hg)) as (Hy & Hz & _).
  assert (Hp : heap w !! p = Some (mk_cell (first_or NULL zs) r)) by (by rewrite Hh, layout_lookup).
  assert (E : forall prev, unlink prev p w = (if (p =? headResource w) && (p =? tailResource w) then modify (set_ends NULL NULL)
    else if p =? headResource w then let! c := read p in modify (set_ends (next c) (tailResource w))
    else if (p =? tailResource w) && negb (prev =? NULL) then modify (set_ends (headResource w) prev) ;;; set_next prev NULL
    else if negb (prev =? NULL) then let! c := read p in set_next prev (next c) else ret tt) w) by done.
  rewrite E, Hf, Hl. clear E. destruct ys as [|[t u] ys _] using rev_ind.
  - cbn [app first_or] in *. rewrite Z.eqb_refl. cbn [andb]. destruct zs as [|z zs].
    + change (last_of [(p, r)]) with p. rewrite Z.eqb_refl. eexists. split; [done|]. split; [|by exists NULL].
      rewrite Hh. simpl. by rewrite fin_maps.delete_insert_eq, delete_empty.
    + change (last_of ((p, r) :: z :: zs)) with (last_of ([(p, r)] ++ z :: zs)). rewrite last_of_app.
      assert (p <> last_of (z :: zs)) as Hn by (intros ->; apply Hz, last_of_in; done).
      rewrite (proj2 (Z.eqb_neq _ _)), (bind_some _ _ _ _ _ (read_heap p w _ Hp)) by done.
      eexists. split; [done|]. split; [|by eexists].
      rewrite Hh. simpl. rewrite fin_maps.delete_insert_eq. apply delete_id. by apply (layout_None NULL (z :: zs)).
  - assert (Hq : p <> t /\ p ∉ ys.*1).
    { rewrite fmap_app, elem_of_app in Hy. split; [intros ->; apply Hy; right; by left|tauto]. }
    destruct Hq as [Hpt Hpy]. replace (default NULL (last (ys ++ [(t, u)]).*1)) with t by (by rewrite fmap_app, last_app).
    rewrite !snoc_app in *. assert (Ht : t ∉ ys.*1 /\ t <> NULL).
    { destruct Hg as [Hn H0]. apply mid_notin in Hn as (? & _). split; [done|]. intros ->. apply H0.
      rewrite fmap_app. apply elem_of_app. right. by left. }
    destruct Ht as [Hty Ht0].
    rewrite !(proj2 (Z.eqb_neq p _) (first_or_ne p ys t u ((p, r) :: zs) Hpy Hpt)), (proj2 (Z.eqb_neq t NULL) Ht0). cbn [andb negb].
    assert (Hht : heap w !! t = Some (mk_cell p u)) by (by rewrite Hh, layout_lookup).
    assert (Hd : forall n, <[t := mk_cell n u]> (heap w) !! p = Some (mk_cell (first_or NULL zs) r)) by (intros; by rewrite lookup_insert_ne).
    rewrite (first_or_app _ ys ((t, u) :: zs)), (first_or_app _ ys ((t, u) :: (p, r) :: zs)). cbn [first_or].
    destruct zs as [|z zs].
    + change ((p, r) :: []) with ([(p, r)]). replace (last_of (ys ++ [(t, u); (p, r)])) with p.
      2:{ change [(t, u); (p, r)] with ([(t, u)] ++ [(p, r)]). by rewrite app_assoc, last_of_snoc. }
      rewrite Z.eqb_refl. cbn [andb]. unfold bind, modify. rewrite (set_next_heap t NULL (set_ends _ _ w) _ Hht).
      eexists. split; [by rewrite last_of_snoc|]. split; [|by eexists]. cbn [heap set_ends set_heap content]. rewrite Hh. by apply layout_unlink.
    + assert (He : last_of (ys ++ (t, u) :: (p, r) :: z :: zs) = last_of (z :: zs)).
      { rewrite last_of_app. change ((t, u) :: (p, r) :: z :: zs) with ([(t, u); (p, r)] ++ z :: zs). apply last_of_app. }
      rewrite He. assert (p <> last_of (z :: zs)) as Hn by (intros ->; apply Hz, last_of_in; done).
      rewrite (proj2 (Z.eqb_neq p _) Hn). cbn [andb]. rewrite (bind_some _ _ _ _ _ (read_heap p w _ Hp)). cbn [next].
      rewrite (set_next_heap _ _ _ _ Hht). eexists. split.
      * unfold set_heap. rewrite Hf, Hl, He, first_or_app. do 3 f_equal. rewrite last_of_app.
        change ((t, u) :: z :: zs) with ([(t, u)] ++ z :: zs). by rewrite last_of_app.
      * split; [|by eexists]. cbn [content]. rewrite Hh. by apply layout_unlink.
Qed.

(** *** The observers of a resource that is deleted *)

Lemma write_back_same l h : Forall (fun x => exists c, h !! x.1 = Some c /\ x.2 = for_requests (content c)) l -> write_back l h = h.
Proof.
  induction 1 as [|[p x] l (c & Hc & Hx) _ IH]; [done|]. cbn [write_back fst snd] in *. rewrite alter_id; [done|].
  intros c' Hc'. rewrite Hc in Hc'. injection Hc' as <-. rewrite Hx, after_for_requests. by destruct c.
Qed.
Lemma write_back_app l k h : write_back (l ++ k) h = write_back k (write_back l h).
Proof. revert h. induction l as [|[p x] l IH]; intros h; cbn; [done|apply IH]. Qed.
End abstract.

Section requests.
Context {A : Type} `{!Application A} {L : Cbor.CborLib} {E : CborEncoder}.
Notation St := (stack A).
Context (check : nat -> nat -> M St unit).

Lemma resource_at n x (s : St) : Stack.headResource s !! n = Some x -> Stack.resource n s = Some (x, s).
Proof. intros H. unfold Stack.resource. cbn [bind gets demand]. by rewrite H. Qed.
(** The first observer is always the one with its token. *)
Lemma delete_first n o l x (s : St) : Stack.headResource s !! n = Some x -> r_observers x = o :: l -> has_token o ->
  Observe.DeleteObserverUsingToken check n (Observe.pointer (o_token o)) s
  = Some (OC_STACK_OK, set_resources (<[n := with_observers l x]> (Stack.headResource s)) s).
Proof.
  intros Hx Ho Ht. unfold has_token in Ht. unfold Observe.pointer. destruct (o_token o) as [|z t] eqn:Et; [done|].
  pose proof (Notification.observer_at n O x o s Hx ltac:(by rewrite Ho)) as Hw.
  unfold Observe.DeleteObserverUsingToken, Observe.GetObserverUsingToken, Observe.places. rewrite !bind_assoc.
  rewrite (bind_some _ _ _ _ _ (resource_at n x s Hx)). rewrite Ho.
  cbn [List.length seq].
  rewrite (bind_some (ret _) _ s _ s) by done. cbn [Observe.walk]. rewrite !bind_assoc, (bind_some _ _ _ _ _ Hw).
  rewrite Et, ObserveLaws.same_token_eq, bool_decide_eq_true_2 by done. cbn [bind demand ret update_resource modify].
  by rewrite (Notification.alter_insert _ _ _ _ Hx), Ho.
Qed.
Lemma delete_list n x (s : St) : Stack.headResource s !! n = Some x -> Forall has_token (r_observers x) ->
  Observe.DeleteObserverList check n s = Some (tt, set_resources (<[n := with_observers [] x]> (Stack.headResource s)) s).
Proof.
  intros Hx Ht. unfold Observe.DeleteObserverList. rewrite (bind_some _ _ _ _ _ (resource_at n x s Hx)).
  assert (H : forall l y (s' : St), Stack.headResource s' !! n = Some y -> r_observers y = l -> Forall has_token l ->
    bind (Observe.delete_tokens check n (map o_token l)) (fun _ => update_resource n (with_observers [])) s'
    = Some (tt, set_resources (<[n := with_observers [] y]> (Stack.headResource s')) s')).
  { clear. induction l as [|o l IH]; intros y s' Hy Ho Ht; cbn [map Observe.delete_tokens].
    - unfold update_resource, modify. cbn [bind ret]. by rewrite (Notification.alter_insert _ _ _ _ Hy).
    - apply Forall_cons in Ht as [Ht Hl]. rewrite bind_assoc. rewrite (bind_some _ _ _ _ _ (delete_first n o l y s' Hy Ho Ht)).
      rewrite (IH (with_observers l y)); [|cbn; by eapply list_lookup_insert_eq, lookup_lt_Some|done..].
      unfold set_resources. cbn. by rewrite list_insert_insert_eq. }
  by apply H.
Qed.
End requests.
End ResourceSpec.
