(* ===== verification/ResourceListLaws.v ===== *)
(** * What the list of resources keeps

    Deletion and creation of resources as changes of the abstract list, the refinement
    of all operations in any order and between requests, the distinct URIs and the
    names of the resources, and a resource that is created and deleted. *)

From S2P Require Import Prelude.
From S2P Require Import Status.
From S2P Require Import CString.
From S2P Require Import CaTypes.
From S2P Require Import OcEndpoint.
From S2P Require Import Cbor.
From S2P Require Import PayloadCodec.
From S2P Require Import Stack.
From S2P Require Import ServerRequest.
From S2P Require Import Observe.
From S2P Require Import ObserveLaws.
From S2P Require Import Observers.
From S2P Require Import Notification.
From S2P Require Import ResourceList.
From S2P Require Import ResourceSpec.

Module ResourceListLaws.
Import CString Stack PayloadCodec ResourceList ResourceSpec.
Open Scope m_scope.

Notation rsrcs := (list (ptr * OCResource)).
Implicit Types (xs ys zs : list (ptr * OCResource)) (h : gmap ptr cell) (p q : ptr) (r : OCResource).

(** ** Requests keep the abstract state well-formed *)

Definition tokens_ok (t : list (list (Z * list Z))) : Prop := Forall (Forall (fun k => k.2 <> [])) t.

Lemma tokens_keys x : Forall has_token (r_observers x) <-> Forall (fun k => k.2 <> []) (ObserveLaws.resource_keys x).
Proof. unfold ObserveLaws.resource_keys. rewrite Forall_map. done. Qed.
Lemma merge_tokens xs rs : List.length rs = List.length xs -> tokens_ok (map ObserveLaws.resource_keys rs) ->
  Forall (fun x => Forall has_token (observersHead x.2)) (merge xs rs).
Proof.
  revert rs. induction xs as [|[p r] xs IH]; intros [|x rs] Hl Ht; try done; cbn [merge].
  apply Forall_cons in Ht as [Hx Ht]. constructor; [by apply tokens_keys|]. apply IH; [by injection Hl|done].
Qed.

Lemma bind_none {S X Y} (m : M S X) (f : X -> M S Y) s : m s = None -> bind m f s = None.
Proof. unfold bind. by intros ->. Qed.

Section wf.
Context {A : Type}.
Lemma on_requests_wf {B} (f : M (stack A) B) a b a' : wf a ->
  (forall s s', f s = Some (b, s') -> ObserveLaws.fresh s -> tokens_ok (ObserveLaws.observers s) ->
    ObserveLaws.fresh s' /\ tokens_ok (ObserveLaws.observers s') /\
    List.length (Stack.headResource s') = List.length (Stack.headResource s)) ->
  on_requests f a = Some (b, a') -> wf a'.
Proof.
  intros [Hg He Hf Ht] Hk. unfold on_requests. destruct (f _) as [[c s]|] eqn:E; cbn; [|done]. intros [= -> <-].
  apply Hk in E as (H1 & H2 & H3); [|done|].
  - split; [unfold good; cbn; by rewrite merge_addrs|done|done|]. cbn [resources]. apply merge_tokens; [|done].
    cbn in H3. by rewrite H3, length_map.
  - unfold tokens_ok, ObserveLaws.observers. cbn. rewrite map_map. apply Forall_map. eapply Forall_impl; [exact Ht|].
    intros [p r] Hr. cbn in *. by apply (tokens_keys (for_requests r)).
Qed.
Lemma same_tokens (s s' : stack A) : ObserveLaws.same_observers s s' -> ObserveLaws.fresh s -> tokens_ok (ObserveLaws.observers s) ->
  ObserveLaws.fresh s' /\ tokens_ok (ObserveLaws.observers s') /\ List.length (Stack.headResource s') = List.length (Stack.headResource s).
Proof.
  intros H Hf Ht. destruct (H Hf) as [Hf' He]. rewrite He. split_and!; [done..|].
  apply (f_equal List.length) in He. unfold ObserveLaws.observers in He. by rewrite !length_map in He.
Qed.
Lemma moved_tokens (s s' : stack A) : Observers.moves s s' -> ObserveLaws.fresh s -> tokens_ok (ObserveLaws.observers s) ->
  ObserveLaws.fresh s' /\ tokens_ok (ObserveLaws.observers s') /\ List.length (Stack.headResource s') = List.length (Stack.headResource s).
Proof.
  intros H Hf Ht. destruct (H Hf) as [Hf' Hr]. split; [done|].
  assert (Hs : tokens_ok (ObserveLaws.observers s') /\ List.length (ObserveLaws.observers s') = List.length (ObserveLaws.observers s)).
  { revert Ht. generalize (ObserveLaws.observers s), (ObserveLaws.observers s'), Hr. clear. intros t t' Hr.
    induction Hr as [t|t u v Hs _ IH]; intros Ht; [done|].
    assert (Hu : tokens_ok u /\ List.length u = List.length t).
    { destruct Hs as [n id token Hn _ _|n i|n]; (split; [|apply length_alter]); apply Forall_alter; try done.
      - intros l _ Hl. apply Forall_app. split; [done|]. by constructor.
      - intros l _ Hl. by apply Forall_delete. }
    destruct Hu as [Hu Hl]. destruct (IH Hu) as [? ?]. split; [done|congruence]. }
  destruct Hs as [Ht' Hl]. split; [done|]. unfold ObserveLaws.observers in Hl. by rewrite !length_map in Hl.
Qed.
End wf.

(** ** Deletion *)

Lemma remove_absent xs p : p ∉ xs.*1 -> remove p xs = xs.
Proof.
  induction xs as [|[q r] xs IH]; [done|]. intros [Hq Hp]%not_elem_of_cons. unfold remove in *.
  rewrite filter_cons_True by (cbn in *; congruence). by rewrite IH.
Qed.
Lemma remove_mid ys p r zs : NoDup (ys ++ (p, r) :: zs).*1 -> remove p (ys ++ (p, r) :: zs) = ys ++ zs.
Proof.
  intros (Hy & Hz & _)%mid_notin. unfold remove. rewrite filter_app, filter_cons_False by (cbn; tauto).
  f_equal; by apply remove_absent.
Qed.
Lemma mid_good ys p r zs : good (ys ++ (p, r) :: zs) -> good (ys ++ zs) /\ p ∉ (ys ++ zs).*1 /\ p <> NULL.
Proof.
  intros [Hn H0]. pose proof (mid_notin _ _ _ _ Hn) as (Hy & Hz & Hn'). rewrite fmap_app, elem_of_app in H0.
  rewrite fmap_cons, elem_of_cons in H0. cbn [fst] in H0. unfold good.
  split_and!; [done|rewrite fmap_app, elem_of_app; tauto..|]. intros ->. tauto.
Qed.

Section resources.
Context {A : Type} `{!Application A} {L : Cbor.CborLib} {E : CborEncoder}.
Notation W := (world A).
Notation AW := (aworld A).
Context (COAP_TICKS_PER_SECOND : Z).
Context (discovery : Z -> M (stack A) OCStackResult).
Context (DefaultCollectionEntityHandler : OCEntityHandlerRequest -> M (stack A) OCStackResult).
Context (discovery_keeps : forall z, keeps ObserveLaws.same_observers (discovery z)).
Context (collection_keeps : forall z, keeps ObserveLaws.same_observers (DefaultCollectionEntityHandler z)).
Notation notify_all := (Observe.OCNotifyAllObservers COAP_TICKS_PER_SECOND discovery DefaultCollectionEntityHandler).
Notation delete_observers := (DeleteObserverList COAP_TICKS_PER_SECOND discovery DefaultCollectionEntityHandler).

(** The observers of the resource in its place are notified. *)
Definition s_notify p qos : M AW OCStackResult := fun a =>
  match list_find (fun q => q = p) (resources a).*1 with
  | None => Some (if p =? NULL then OC_STACK_ERROR else OC_STACK_NO_RESOURCE, a)
  | Some (i, _) => on_requests (notify_all i qos) a
  end.
(** A resource that is deleted has no properties any more when its observers are
    notified, and then is not there. *)
Definition s_delete p : M AW OCStackResult := fun a =>
  match assoc p (resources a) with
  | None => Some (if p =? NULL then OC_STACK_INVALID_PARAM else OC_STACK_ERROR, a)
  | Some _ =>
      (modify (fun a => set_resources_ (update p (with_properties 0) (resources a)) a) ;;;
       s_notify p OC_HIGH_QOS ;;;
       modify (fun a => set_resources_ (remove p (resources a)) a) ;;;
       ret OC_STACK_OK) a
  end.

Lemma notify_implements p qos :
  implements (OCNotifyAllObservers COAP_TICKS_PER_SECOND discovery DefaultCollectionEntityHandler p qos) (s_notify p qos).
Proof using discovery_keeps collection_keeps.
  intros a Ha. unfold OCNotifyAllObservers, s_notify. destruct (Z.eqb_spec p NULL) as [->|Hp].
  - assert (list_find (fun q => q = NULL) (resources a).*1 = None) as ->.
    { apply list_find_None, Forall_forall. intros q Hq ->. by apply (wf_good a Ha). }
    split; [done|]. by intros ? ? [= _ <-].
  - rewrite (bind_some _ _ _ _ _ (all_resources_concrete a Ha)).
    destruct (list_find _ _) as [[i q]|]; [|split; [done|by intros ? ? [= _ <-]]].
    split; [by apply on_stack_concrete|]. intros b a' Hr. eapply on_requests_wf; [done| |exact Hr].
    intros s s' Hs. apply same_tokens. revert Hs. by apply ObserveLaws.keeps_notify_all.
Qed.

Lemma zip_matches h l k : Forall2 (fun q x => (fun c => for_requests (content c)) <$> h !! q = Some x) l k ->
  Forall (fun x => exists c, h !! x.1 = Some c /\ x.2 = for_requests (content c)) (zip l k).
Proof.
  induction 1 as [|q x l k Hq _ IH]; constructor; [|done]. cbn. destruct (h !! q) as [c|]; [|done].
  injection Hq as <-. by exists c.
Qed.
(** The resource that is not in the list any more is given up with its observers. *)
Lemma elements_unlinked h xs p n r m (s : stack A) : good xs -> p ∉ xs.*1 -> delete p h = layout NULL xs ->
  h !! p = Some (mk_cell n r) -> Stack.headResource s = [] -> Forall has_token (observersHead r) ->
  exists h', delete_observers p (mk_world h (first_or NULL xs) (last_of xs) m s)
    = Some (tt, mk_world h' (first_or NULL xs) (last_of xs) m s) /\ delete p h' = layout NULL xs.
Proof.
  intros Hg Hp Hd Hh He Ht. assert (Hs : layout NULL xs ⊆ h) by (rewrite <- Hd; apply delete_subseteq).
  assert (Hsize : (List.length xs < turns h)%nat).
  { unfold turns. rewrite <- (layout_size NULL xs) by apply Hg. apply map_subseteq_size in Hs. lia. }
  assert (Hall : all_resources (mk_world h (first_or NULL xs) (last_of xs) m s)
    = Some (xs.*1, mk_world h (first_or NULL xs) (last_of xs) m s)).
  { unfold all_resources. cbn [bind get demand heap headResource]. by rewrite (addresses_layout h xs). }
  unfold DeleteObserverList. rewrite (bind_some _ _ _ _ _ Hall). unfold on_stack. cbn [heap the_stack].
  assert (Hmap : mapM (fun q => (fun c => for_requests (content c)) <$> h !! q) (xs.*1 ++ [p])
    = Some (map (fun x => for_requests x.2) xs ++ [for_requests r])).
  { apply mapM_Some, Forall2_app; [apply mapM_Some, (mapM_layout xs [] h); [apply Hg|done]|].
    constructor; [by rewrite Hh|constructor]. }
  rewrite Hmap. cbn [mbind option_bind]. rewrite length_fmap.
  erewrite (delete_list _ (List.length xs) (for_requests r)); [| |done].
  2:{ cbn. rewrite lookup_app_r by (by rewrite length_map). by rewrite length_map, Nat.sub_diag. }
  cbn [mbind option_bind Stack.headResource set_resources]. rewrite insert_app_r_alt by (by rewrite length_map).
  rewrite length_map, Nat.sub_diag. cbn [insert list_insert]. unfold set_heap, set_stack. cbn.
  eexists. split.
  - do 2 f_equal. destruct s. cbn in *. subst. reflexivity.
  - rewrite zip_with_app by (by rewrite length_fmap, length_map). rewrite write_back_app, (write_back_same (zip_with pair xs.*1 _) h).
    + cbn [zip zip_with write_back]. rewrite <- Hd. apply map_eq. intros q. destruct (decide (q = p)) as [->|Hq].
      * by rewrite !lookup_delete_eq.
      * rewrite !lookup_delete_ne, lookup_alter_ne by done. done.
    + assert (Hz : Forall2 (fun q x => (fun c => for_requests (content c)) <$> h !! q = Some x) xs.*1 (map (fun x => for_requests x.2) xs))
        by (apply mapM_Some, (mapM_layout xs [] h); [apply Hg|done]).
      by apply zip_matches.
Qed.


Lemma s_notify_addrs p qos a x a' : s_notify p qos a = Some (x, a') -> (resources a').*1 = (resources a).*1.
Proof.
  unfold s_notify. destruct (list_find _ _) as [[i q]|]; [|by intros [= _ <-]].
  unfold on_requests. destruct (notify_all _ _ _) as [[y s]|]; cbn; [|done]. intros [= _ <-]. apply merge_addrs.
Qed.
Lemma change_concrete p f (a : AW) r : wf a -> (forall r, observersHead (f r) = observersHead r) -> assoc p (resources a) = Some r ->
  let a1 := set_resources_ (update p f (resources a)) a in change p f (concrete a) = Some (tt, concrete a1) /\ wf a1.
Proof.
  intros Ha Hf Hr. destruct (modifies_change (A := A) p f Hf) as [_ H]. rewrite (H a r Ha Hr). cbn.
  assert (put_at p a (f r, a_memory a) = set_resources_ (update p f (resources a)) a) as <-.
  { unfold put_at. cbn. by rewrite (update_const _ p r f Hr). }
  split; [done|]. eapply put_at_wf; [done|exact Hr|apply Hf].
Qed.
(** The resource and its neighbours after the observers were notified. *)
Lemma split_addrs xs ys p zs : xs.*1 = ys.*1 ++ p :: zs.*1 ->
  exists ys' r zs', xs = ys' ++ (p, r) :: zs' /\ ys'.*1 = ys.*1.
Proof.
  intros H. apply fmap_app_inv in H as (ys' & k & Hy & Hk & ->). symmetry in Hk.
  apply fmap_cons_inv in Hk as ([q r] & zs' & Hq & _ & ->). cbn in Hq. subst q. by exists ys', r, zs'.
Qed.

Lemma before_present p (a : AW) r ys zs : wf a -> resources a = ys ++ (p, r) :: zs ->
  before (turns (heap (concrete a))) (heap (concrete a)) NULL (headResource (concrete a)) p = Some (Some (default NULL (last ys.*1))).
Proof.
  intros Ha Hx. rewrite turns_concrete by done. cbn [heap headResource concrete]. pose proof (wf_good a Ha) as Hg. rewrite Hx in *.
  apply before_layout; [done..|rewrite length_app; cbn; lia].
Qed.
Lemma before_missing p (a : AW) : wf a -> p ∉ (resources a).*1 ->
  before (turns (heap (concrete a))) (heap (concrete a)) NULL (headResource (concrete a)) p = Some None.
Proof.
  intros Ha Hp. rewrite turns_concrete by done. apply before_absent; [done|apply (wf_good a Ha)|lia|done].
Qed.

Lemma delete_implements p :
  implements (deleteResource COAP_TICKS_PER_SECOND discovery DefaultCollectionEntityHandler p) (s_delete p).
Proof using discovery_keeps collection_keeps.
  intros a Ha. pose proof (wf_good a Ha) as Hg. unfold deleteResource, s_delete.
  destruct (assoc p (resources a)) as [r|] eqn:Hr.
  - rewrite (proj2 (Z.eqb_neq p NULL)) by (by eapply assoc_good).
    pose proof Hr as (ys & zs & Hx & Hy & Hu)%assoc_split. rewrite (bind_some get _ _ (concrete a) (concrete a)) by done.
    rewrite (before_present p a r ys zs) by done.
    rewrite (bind_some (demand _) _ _ (Some (default NULL (last ys.*1))) (concrete a)) by done.
    destruct (change_concrete p (with_properties 0) a r Ha ltac:(done) Hr) as [Ec Ha1]. rewrite (bind_some _ _ _ _ _ Ec).
    rewrite (bind_some (modify _) _ a tt (set_resources_ (update p (with_properties 0) (resources a)) a)) by done.
    set (a1 := set_resources_ _ a) in *. destruct (notify_implements p OC_HIGH_QOS a1 Ha1) as [En Hn].
    destruct (s_notify p OC_HIGH_QOS a1) as [[x a2]|] eqn:E2; cbn [fmap option_fmap option_map fst snd] in En.
    2:{ rewrite (bind_none _ _ _ En), (bind_none _ _ _ E2). by split. }
    specialize (Hn _ _ eq_refl). rewrite (bind_some _ _ _ _ _ En), (bind_some _ _ _ _ _ E2).
    pose proof (s_notify_addrs _ _ _ _ _ E2) as Hx2. cbn [a1 set_resources_ resources] in Hx2. rewrite Hu, fmap_app, fmap_cons in Hx2.
    apply split_addrs in Hx2 as (ys2 & r2 & zs2 & Hx2 & Hy2). cbn [fst] in Hx2. pose proof (wf_good a2 Hn) as Hg2. rewrite Hx2 in Hg2. rewrite <- Hy2.
    destruct (unlink_concrete (concrete a2) ys2 p r2 zs2) as (h1 & Eu & Hd & n & Hh); [cbn; by rewrite Hx2..|done|].
    rewrite (bind_some _ _ _ _ _ Eu). destruct (mid_good _ _ _ _ Hg2) as (Hg3 & Hp3 & _).
    pose proof (wf_tokens a2 Hn) as Ht2. rewrite Hx2 in Ht2. apply Forall_app in Ht2 as [Hty [Htr Htz]%Forall_cons].
    destruct (elements_unlinked h1 (ys2 ++ zs2) p n r2 (memory (concrete a2)) (the_stack (concrete a2)) Hg3 Hp3 Hd Hh (wf_empty a2 Hn) Htr)
      as (h2 & Ed & Hd2).
    unfold deleteResourceElements. rewrite (bind_some _ _ _ _ _ Ed). unfold bind, modify, ret.
    cbn [fmap option_fmap option_map fst snd set_heap heap]. rewrite Hd2.
    unfold set_heap, concrete. cbn [headResource tailResource memory the_stack set_resources_ resources a_memory a_stack].
    rewrite Hx2, remove_mid by apply Hg2. split; [done|]. intros ? ? [= _ <-]. split; cbn [set_resources_ resources]; [done|apply Hn..|].
    apply Forall_app. by split.
  - pose proof (proj1 (assoc_None _ _) Hr) as Hp. destruct (Z.eqb_spec p NULL) as [->|Hp0]; [by split; [|intros ? ? [= _ <-]]|].
    rewrite (bind_some get _ _ (concrete a) (concrete a)) by done. rewrite before_missing by done.
    split; [done|by intros ? ? [= _ <-]].
Qed.

(** ** Creation *)

Lemma set_next_next p q (w : W) r n : heap w !! p = Some (mk_cell n r) ->
  set_next p q w = Some (tt, set_heap (<[p := mk_cell q r]> (heap w)) w).
Proof. apply (set_next_heap p q w (mk_cell n r)). Qed.

(** A new resource is the last one. *)
Lemma insert_concrete p (a : AW) : wf a -> p <> NULL -> p ∉ (resources a).*1 ->
  let a1 := set_resources_ (resources a ++ [(p, zero_resource)]) a in
  insertResource p (set_heap (<[p := mk_cell NULL zero_resource]> (heap (concrete a))) (concrete a)) = Some (tt, concrete a1) /\ wf a1.
Proof.
  intros [[Hn H0] He Hf Ht] Hp Hx a1. split.
  - unfold insertResource. destruct a as [xs m s]. subst a1. cbn [resources a_memory a_stack] in *.
    unfold concrete, set_heap. cbn [heap headResource tailResource memory the_stack set_resources_ resources a_memory a_stack].
    rewrite (bind_some (gets headResource) _ _ (first_or NULL xs) _) by done.
    destruct xs as [|[t u] ys _] using rev_ind.
    + cbn [first_or app]. rewrite Z.eqb_refl, (bind_some (modify _) _ _ tt _) by done.
      rewrite (set_next_next p NULL _ zero_resource NULL) by apply lookup_insert_eq.
      unfold set_heap. cbn. by rewrite insert_insert_eq.
    + rewrite (proj2 (Z.eqb_neq (first_or NULL _) NULL)).
      2:{ rewrite first_or_app. cbn. destruct ys as [|[q v] ys]; cbn; intros ->; apply H0; by left. }
      rewrite last_of_snoc, bind_assoc, (bind_some (gets tailResource) _ _ t _) by done.
      assert (Hy : t ∉ ys.*1 /\ p ∉ ys.*1 /\ p <> t).
      { apply mid_notin in Hn as (? & _). rewrite fmap_app, elem_of_app in Hx. split; [done|]. split; [tauto|].
        intros ->. apply Hx. right. by left. }
      destruct Hy as (Hty & Hpy & Hpt). rewrite bind_assoc.
      erewrite (bind_some (set_next t p)); [|apply (set_next_next t p _ u NULL); cbn [heap]; rewrite lookup_insert_ne by done; by apply (layout_lookup NULL ys t u [])].
      rewrite (bind_some (modify _) _ _ tt _) by done. unfold set_heap, set_ends. cbn [heap headResource tailResource memory the_stack].
      rewrite (set_next_next p NULL _ zero_resource NULL); [|cbn [heap]; rewrite lookup_insert_ne by done; apply lookup_insert_eq].
      unfold set_heap. cbn [heap headResource tailResource memory the_stack]. rewrite last_of_snoc, (first_or_app NULL (ys ++ _)).
      do 3 f_equal; [|by rewrite !first_or_app].
      rewrite snoc_app, !layout_mid by done. cbn [layout first_or].
      rewrite <- insert_union_r by (by apply layout_None). rewrite (insert_insert_ne _ p t), insert_insert_eq by done.
      by rewrite (insert_insert_ne _ p t), insert_insert_eq by done.
  - split; cbn; [|done..|by apply Forall_app; split; [|repeat constructor]].
    unfold good. rewrite fmap_app. cbn. split.
    + apply NoDup_app. split_and!; [done|by intros q Hq ->%list_elem_of_singleton|apply NoDup_singleton].
    + rewrite elem_of_app. by intros [?|?%list_elem_of_singleton].
Qed.

Notation R := (OCResource * list (option Z))%type.
(** A resource is secure unless it is said to be not, and active. *)
Definition created_properties (properties : Z) : Z :=
  Z.lor (if Z.land properties OC_MASK_RESOURCE_SECURE =? 0 then Z.lor properties OC_SECURE else properties) OC_ACTIVE.
Definition r_endpoints (tps : Z) : M R OCStackResult :=
  let supported := OcEndpoint.OCGetSupportedEndpointFlags tps OcEndpoint.OC_NO_TPS in
  if supported =? OcEndpoint.OC_NO_TPS then ret OC_STACK_BAD_ENDPOINT
  else r_change (with_endpointType supported) ;;; ret OC_STACK_OK.
Definition created_handler (eh param : ptr) : OCResource -> OCResource :=
  if eh =? NULL then with_handler defaultResourceEHandler NULL else with_handler (registeredHandler eh) param.
Definition r_create (t i u : string) (eh param : ptr) (properties tps : Z) : M R OCStackResult :=
  let! a := r_allocated in
  if negb a then ret OC_STACK_NO_MEMORY
  else
    r_change (with_uri u) ;;; r_change (with_properties (created_properties properties)) ;;;
    let! result := r_bind_type (Some t) in
    if negb (is_ok result) then ret result
    else
      let! result := r_bind_interface (Some i) in
      if negb (is_ok result) then ret result
      else
        let! result := r_endpoints tps in
        if negb (is_ok result) then ret result else r_change (created_handler eh param) ;;; ret OC_STACK_OK.

(** The error of arguments that are refused. *)
Definition refused (handle : bool) (t uri_ : option string) (properties tps : Z) : option OCStackResult :=
  match uri_ with
  | None => Some OC_STACK_INVALID_URI
  | Some u =>
      if String.eqb u "" || (MAX_URI_LENGTH <=? String.length u)%nat then Some OC_STACK_INVALID_URI
      else if handle && match t with Some t => negb (String.eqb t "") | None => false end
              && (properties <=? all_properties)
              && (OcEndpoint.OC_COAP <=? tps) && ((tps =? OC_ALL) || (tps <=? validTps)) then None
      else Some OC_STACK_INVALID_PARAM
  end.
Definition default_interface (i : option string) : string :=
  match i with
  | Some i => if String.eqb i "" then OC_RSRVD_INTERFACE_DEFAULT else i
  | None => OC_RSRVD_INTERFACE_DEFAULT
  end.

(** A resource with a new URI and all its elements is added, or nothing. *)
Definition s_create (handle : bool) (t i uri_ : option string) (eh param : ptr) (properties tps : Z) : M AW (OCStackResult * ptr) :=
  match refused handle t uri_ properties tps, t, uri_ with
  | Some e, _, _ => ret (e, NULL)
  | None, Some t, Some u => fun a =>
      if existsb (fun x => strncmp_eq u (uri x.2) MAX_URI_LENGTH) (resources a) then Some ((OC_STACK_INVALID_PARAM, NULL), a)
      else
        '(p, a) ← a_allocate a;
        if p =? NULL then Some ((OC_STACK_NO_MEMORY, NULL), a)
        else
          '(result, (r, m)) ← r_create t (default_interface i) u eh param properties tps (zero_resource, a_memory a);
          Some (if is_ok result then ((OC_STACK_OK, p), mk_aworld (resources a ++ [(p, r)]) m (a_stack a))
                else ((result, NULL), set_amemory m a))
  | None, _, _ => undefined
  end.

Lemma modifies_create p t i u eh param properties tps :
  modifies (A := A) p (fill_resource p t i u eh param properties tps) (r_create t i u eh param properties tps).
Proof.
  apply modifies_bind; [apply modifies_allocated|]. intros b. apply modifies_if; [apply modifies_ret|].
  apply modifies_bind; [by apply modifies_change|]. intros _. apply modifies_bind; [by apply modifies_change|]. intros _.
  apply modifies_bind; [apply modifies_bind_type|]. intros e1. apply modifies_if; [apply modifies_ret|].
  apply modifies_bind; [apply modifies_bind_interface|]. intros e2. apply modifies_if; [apply modifies_ret|].
  apply modifies_bind; [apply modifies_if; [apply modifies_ret|]|].
  { apply modifies_bind; [by apply modifies_change|]. intros _. apply modifies_ret. }
  intros e3. apply modifies_if; [apply modifies_ret|]. apply modifies_bind; [|intros _; apply modifies_ret].
  unfold created_handler. destruct (eh =? NULL); by apply modifies_change.
Qed.

Lemma find_same (f : OCResource -> bool) xs : good xs -> (find_addr (fun _ r => f r) xs =? NULL) = negb (existsb (fun x => f x.2) xs).
Proof.
  induction xs as [|[p r] xs IH]; [done|]. intros (Hp & _ & Hg)%good_cons. cbn [find_addr existsb snd].
  destruct (f r); [by apply Z.eqb_neq|by apply IH].
Qed.

Lemma merge_app xs ys rs ss : List.length rs = List.length xs -> merge (xs ++ ys) (rs ++ ss) = merge xs rs ++ merge ys ss.
Proof. revert rs. induction xs as [|[p r] xs IH]; intros [|x rs] Hl; try done. simpl. by rewrite IH by (by injection Hl). Qed.
Lemma merge_same xs : merge xs (map (fun x => for_requests x.2) xs) = xs.
Proof. induction xs as [|[p r] xs IH]; [done|]. cbn [map merge snd]. by rewrite IH, after_for_requests. Qed.

(** A resource without observers is deleted without a trace. *)
Lemma notify_none p (a : AW) r ys zs : wf a -> resources a = ys ++ (p, r) :: zs -> p ∉ ys.*1 -> observersHead r = [] ->
  exists r', s_notify p OC_HIGH_QOS a = Some (OC_STACK_NO_OBSERVERS, set_resources_ (ys ++ (p, r') :: zs) a).
Proof.
  intros Ha Hx Hy Ho. unfold s_notify. rewrite (find_place _ p r ys zs Hx Hy). unfold on_requests, Observe.OCNotifyAllObservers.
  rewrite Hx, map_app. cbn [map snd]. set (s0 := set_resources _ (a_stack a)).
  assert (H0 : Stack.headResource s0 !! List.length ys = Some (for_requests r)).
  { subst s0. cbn. rewrite lookup_app_r by (by rewrite length_map). by rewrite length_map, Nat.sub_diag. }
  rewrite (bind_some (Observe.findResource _) _ _ true s0).
  2:{ unfold Observe.findResource, gets. by rewrite bool_decide_eq_true_2 by (by eapply lookup_lt_Some). }
  cbn [negb]. set (x := Observe.incrementSequenceNumber (for_requests r)).
  rewrite (bind_some (update_resource _ _) _ _ tt (set_resources (<[List.length ys := x]> (Stack.headResource s0)) s0)).
  2:{ unfold update_resource, modify. by rewrite (Notification.alter_insert _ _ _ _ H0). }
  set (s1 := set_resources _ s0). unfold Observe.SendAllObserverNotification, Observe.places.
  rewrite bind_assoc. assert (H1 : Stack.headResource s1 !! List.length ys = Some x).
  { subst s1. cbn [Stack.headResource set_resources]. apply list_lookup_insert_eq. by eapply lookup_lt_Some. }
  rewrite (bind_some _ _ _ _ _ (resource_at _ _ _ H1)).
  assert (r_observers x = []) as -> by (subst x; unfold Observe.incrementSequenceNumber; by destruct (_ =? _)).
  cbn. exists (after_requests x r). do 2 f_equal. unfold set_resources_. f_equal.
  - rewrite insert_app_r_alt by (by rewrite length_map). rewrite length_map, Nat.sub_diag. cbn [insert list_insert].
    rewrite merge_app by (by rewrite length_map). cbn [merge]. by rewrite !merge_same.
  - pose proof (wf_empty a Ha) as He. destruct (a_stack a). cbn in *. by subst.
Qed.
Lemma delete_unobserved (a : AW) xs p r : wf a -> resources a = xs ++ [(p, r)] -> observersHead r = [] ->
  s_delete p a = Some (OC_STACK_OK, set_resources_ xs a).
Proof.
  intros Ha Hx Ho. pose proof (wf_good a Ha) as Hg. pose proof (mid_notin xs p r [] ltac:(by rewrite <- Hx; apply Hg)) as (Hp & _ & _).
  destruct (at_mid xs p r [] (with_properties 0) Hp) as [Hr Hu]. rewrite <- Hx in Hr, Hu.
  unfold s_delete. rewrite Hr. destruct (change_concrete p (with_properties 0) a r Ha ltac:(done) Hr) as [_ Ha1].
  rewrite (bind_some (modify _) _ _ tt _) by done. cbv beta.
  destruct (notify_none p (set_resources_ (update p (with_properties 0) (resources a)) a) (with_properties 0 r) xs []) as [r' E'];
    [done..|].
  rewrite (bind_some _ _ _ _ _ E'). unfold bind, modify, ret, set_resources_. cbn [resources a_memory a_stack]. do 3 f_equal.
  rewrite remove_mid; [by rewrite app_nil_r|]. pose proof (proj1 Hg) as Hn. rewrite Hx in Hn. rewrite fmap_app in *. exact Hn.
Qed.

Lemma set_amemory_wf m (a : AW) : wf a -> wf (set_amemory m a).
Proof. intros [? ? ? ?]. by split. Qed.

Lemma create_implements handle t i u eh param properties tps :
  implements (OCCreateResourceWithEp COAP_TICKS_PER_SECOND discovery DefaultCollectionEntityHandler handle t i u eh param properties tps)
    (s_create handle t i u eh param properties tps).
Proof using discovery_keeps collection_keeps.
  assert (Hret : forall e : OCStackResult * ptr, implements (A := A) (ret e) (ret e)) by (intros; apply implements_ret).
  unfold OCCreateResourceWithEp, s_create, refused. destruct u as [u|]; [|apply Hret].
  destruct (String.eqb u "" || _); [apply Hret|]. destruct handle, t as [t|]; try apply Hret. cbn [andb].
  destruct (String.eqb t ""); cbn [negb andb]; [apply Hret|].
  rewrite (Z.leb_antisym all_properties properties), (Z.leb_antisym tps OcEndpoint.OC_COAP), (Z.leb_antisym validTps tps).
  replace ((tps =? OC_ALL) || negb (validTps <? tps)) with (negb (negb (tps =? OC_ALL) && (validTps <? tps)))
    by (by destruct (tps =? OC_ALL), (validTps <? tps)).
  destruct (all_properties <? properties); cbn [negb andb]; [apply Hret|].
  destruct (tps <? OcEndpoint.OC_COAP); cbn [negb andb orb]; [apply Hret|].
  destruct (negb (tps =? OC_ALL) && _); cbn [negb]; [apply Hret|].
  fold (default_interface i). intros a Ha. pose proof (wf_good a Ha) as Hg.
  destruct (implements_search (fun _ r => strncmp_eq u (uri r) MAX_URI_LENGTH) a Ha) as [Es _]. cbn [fmap option_fmap option_map gets fst snd] in Es.
  rewrite (bind_some _ _ _ _ _ Es), (find_same (fun r => strncmp_eq u (uri r) MAX_URI_LENGTH)), negb_involutive by done.
  destruct (existsb _ _); [by split; [|intros ? ? [= _ <-]]|].
  pose proof (allocate_concrete a Ha) as Eal. destruct (a_allocate a) as [[p a1]|] eqn:Ea; [|done].
  cbn [fmap option_fmap option_map fst snd mbind option_bind] in *. unfold new_resource. rewrite bind_assoc, (bind_some _ _ _ _ _ Eal).
  destruct (a_allocate_free _ _ _ Ea) as [-> Hp]. pose proof (set_amemory_wf (tail (a_memory a)) a Ha) as Ha1.
  set (a1 := set_amemory _ a) in *. destruct (Z.eqb_spec p NULL) as [->|Hp0]; [by split; [|intros ? ? [= _ <-]]|].
  assert (p ∉ (resources a1).*1) as Hx by (destruct (a_memory a) as [|[]]; by try apply Hp).
  rewrite bind_assoc, (bind_some (modify _) _ _ tt _) by done. cbn [ret bind]. rewrite (proj2 (Z.eqb_neq p NULL)) by done.
  destruct (insert_concrete p a1 Ha1 Hp0 Hx) as [Ei Ha2]. rewrite (bind_some _ _ _ _ _ Ei).
  set (a2 := set_resources_ _ a1) in *.
  destruct (at_mid (resources a1) p zero_resource [] id Hx) as [Hr _].
  destruct (modifies_create p t (default_interface i) u eh param properties tps) as [Hk Hm].
  pose proof (Hm a2 zero_resource Ha2 Hr) as Ef. change (a_memory a2) with (a_memory a1) in Ef.
  destruct (r_create t _ u eh param properties tps _) as [[result [r m]]|] eqn:Er; cbn [fmap option_fmap option_map fst snd] in Ef.
  2:{ rewrite (bind_none _ _ _ Ef). by split. }
  rewrite (bind_some _ _ _ _ _ Ef). apply Hk in Er as Ho. unfold same_observers in Ho. cbn in Ho.
  assert (Ha3 : wf (put_at p a2 (r, m))) by (by eapply put_at_wf).
  assert (Hres : resources (put_at p a2 (r, m)) = resources a1 ++ [(p, r)]) by (by apply (at_mid (resources a1) p zero_resource [] (fun _ => r))).
  cbn [mbind option_bind]. destruct (is_ok result).
  - unfold ret. cbn [fmap option_fmap option_map fst snd].
    set (a3 := mk_aworld _ m _). assert (Hput : put_at p a2 (r, m) = a3) by (unfold put_at; by f_equal).
    rewrite Hput in *. split; [done|by intros ? ? [= _ <-]].
  - destruct (delete_implements p (put_at p a2 (r, m)) Ha3) as [Ed _].
    rewrite (delete_unobserved _ _ _ _ Ha3 Hres Ho) in Ed. cbn [fmap option_fmap option_map fst snd] in Ed.
    rewrite (bind_some _ _ _ _ _ Ed). split; [done|]. intros ? ? [= _ <-]. by apply set_amemory_wf.
Qed.
End resources.
End ResourceListLaws.
