(* ===== verification/ResourceCalls.v ===== *)
(** * The calls of an application on its resources

    The functions an application calls, and the requests that arrive between them, as
    one alphabet; what they answer in any order, and what always holds of the list. *)

From S2P Require Import Prelude.
From S2P Require Import Status.
From S2P Require Import CString.
From S2P Require Import CaTypes.
From S2P Require Import OcEndpoint.
From S2P Require Import Cbor.
From S2P Require Import PayloadCodec.
From S2P Require Import Stack.
From S2P Require Import ServerRequest.
From S2P Require Import Observe.
From S2P Require Import ObserveLaws.
From S2P Require Import Observers.
From S2P Require Import Notification.
From S2P Require Import ResourceList.
From S2P Require Import ResourceSpec.
From S2P Require Import ResourceListLaws.
From S2P Require Import Client.
From S2P Require Import CborTokens.
From S2P Require Import StackDemo.

Module ResourceCalls.
Import CString Stack PayloadCodec ResourceList ResourceSpec ResourceListLaws.
Open Scope m_scope.

Implicit Types (xs ys zs : list (ptr * OCResource)) (p q : ptr) (r : OCResource).

(** ** Calls and answers *)

Inductive call : Type :=
| Create (handle : bool) (t i u : option string) (eh param : ptr) (properties tps : Z)
| Delete (p : ptr) | DeleteAll
| BindType (p : ptr) (t : option string) | BindInterface (p : ptr) (i : option string)
| BindHandler (p : ptr) (h : OCEntityHandler) (param : ptr)
| SetProperties (p : ptr) (v : Z) | ClearProperties (p : ptr) (v : Z)
| BindChild (c p : ptr) | UnbindChild (c p : ptr)
| UriOf (p : ptr) | PropertiesOf (p : ptr) | HandlerOf (p : ptr)
| TypesOf (p : ptr) | TypeOf (p : ptr) (i : nat) | InterfacesOf (p : ptr) | InterfaceOf (p : ptr) (i : nat)
| ChildOf (p : ptr) (i : nat)
| Number | HandleAt (i : nat) | HandleOf (u : string)
| Notify (p : ptr) (qos : OCQualityOfService) | Handles (mode : Observe.OCMode) (e : Observers.event).

Inductive answer : Type :=
| AResult (e : OCStackResult) | ACreated (x : OCStackResult * ptr) | ACount (x : OCStackResult * Z)
| AHandle (p : ptr) | AName (n : option string) | ABits (v : Z) | AHandler (h : OCEntityHandler) | ADone.

Section calls.
Context {A : Type} `{!Application A} {L : Cbor.CborLib} {E : CborEncoder}.
Notation W := (world A).
Notation AW := (aworld A).
Notation R := (OCResource * list (option Z))%type.
Context (COAP_TICKS_PER_SECOND : Z).
Context (discovery : Z -> M (stack A) OCStackResult).
Context (DefaultCollectionEntityHandler : OCEntityHandlerRequest -> M (stack A) OCStackResult).
Notation with_app f := (f COAP_TICKS_PER_SECOND discovery DefaultCollectionEntityHandler).

Definition answers {S X} (m : M S X) (f : X -> answer) : M S answer := let! x := m in ret (f x).

Definition exec (c : call) : M W answer :=
  match c with
  | Create handle t i u eh param properties tps =>
      answers (with_app OCCreateResourceWithEp handle t i u eh param properties tps) ACreated
  | Delete p => answers (with_app OCDeleteResource p) AResult
  | DeleteAll => answers (with_app deleteAllResources) (fun _ => ADone)
  | BindType p t => answers (OCBindResourceTypeToResource p t) AResult
  | BindInterface p i => answers (OCBindResourceInterfaceToResource p i) AResult
  | BindHandler p h param => answers (OCBindResourceHandler p h param) AResult
  | SetProperties p v => answers (OCSetResourceProperties p v) AResult
  | ClearProperties p v => answers (OCClearResourceProperties p v) AResult
  | BindChild c p => answers (OCBindResource c p) AResult
  | UnbindChild c p => answers (OCUnBindResource c p) AResult
  | UriOf p => answers (OCGetResourceUri p) AName
  | PropertiesOf p => answers (OCGetResourceProperties p) ABits
  | HandlerOf p => answers (OCGetResourceHandler p) AHandler
  | TypesOf p => answers (OCGetNumberOfResourceTypes p) ACount
  | TypeOf p i => answers (OCGetResourceTypeName p i) AName
  | InterfacesOf p => answers (OCGetNumberOfResourceInterfaces p) ACount
  | InterfaceOf p i => answers (OCGetResourceInterfaceName p i) AName
  | ChildOf p i => answers (OCGetResourceHandleFromCollection p i) AHandle
  | Number => answers OCGetNumberOfResources ACount
  | HandleAt i => answers (OCGetResourceHandle i) AHandle
  | HandleOf u => answers (FindResourceByUri u) AHandle
  | Notify p qos => answers (with_app OCNotifyAllObservers p qos) AResult
  | Handles mode e => answers (let! ps := all_resources in on_stack ps (with_app Observers.handle mode e)) (fun _ => ADone)
  end.

(** ** What they promise *)

Fixpoint s_delete_all (ps : list ptr) : M AW unit :=
  match ps with [] => ret tt | p :: ps' => with_app s_delete p ;;; s_delete_all ps' end.
Definition s_with p {X} (missing : X) (f : M R X) (null : X) : M AW X :=
  if p =? NULL then ret null else at_handle p missing f.
Definition s_children c p (f : M R OCStackResult) : M AW OCStackResult :=
  if (c =? NULL) || (p =? NULL) then ret OC_STACK_ERROR
  else if c =? p then ret OC_STACK_INVALID_PARAM else at_handle c OC_STACK_INVALID_PARAM f.
Definition r_set (f : OCResource -> OCResource) : M R OCStackResult := r_change f ;;; ret OC_STACK_OK.

Definition spec (c : call) : M AW answer :=
  match c with
  | Create handle t i u eh param properties tps => answers (s_create handle t i u eh param properties tps) ACreated
  | Delete p => answers (fun a => match assoc p (resources a) with
      | Some _ => with_app s_delete p a
      | None => Some (if p =? NULL then OC_STACK_INVALID_PARAM else OC_STACK_NO_RESOURCE, a) end) AResult
  | DeleteAll => answers (fun a => s_delete_all (resources a).*1 a) (fun _ => ADone)
  | BindType p t => answers (at_handle p OC_STACK_ERROR (r_bind_type t)) AResult
  | BindInterface p i => answers (at_handle p OC_STACK_ERROR (r_bind_interface i)) AResult
  | BindHandler p h param => answers (s_with p OC_STACK_ERROR (r_set (with_handler h param)) OC_STACK_INVALID_PARAM) AResult
  | SetProperties p v =>
      answers (at_handle p OC_STACK_NO_RESOURCE (r_set (fun r => with_properties (Z.lor (resourceProperties r) v) r))) AResult
  | ClearProperties p v =>
      answers (at_handle p OC_STACK_NO_RESOURCE (r_set (fun r => with_properties (Z.ldiff (resourceProperties r) v) r))) AResult
  | BindChild c p => answers (s_children c p (let! b := r_allocated in
      if b : bool then r_set (fun r => with_children (rsrcChildResourcesHead r ++ [p]) r) else ret OC_STACK_ERROR)) AResult
  | UnbindChild c p => answers (s_children c p (let! l := r_get rsrcChildResourcesHead in
      match remove_child p l with Some l => r_set (with_children l) | None => ret OC_STACK_ERROR end)) AResult
  | UriOf p => answers (at_handle p None (r_get (fun r => Some (uri r)))) AName
  | PropertiesOf p => answers (at_handle p (-1) (r_get resourceProperties)) ABits
  | HandlerOf p => answers (at_handle p (registeredHandler NULL) (r_get handler)) AHandler
  | TypesOf p => answers (s_with p (OC_STACK_OK, 0) (r_get (fun r => (OC_STACK_OK, count (rsrcType r)))) (OC_STACK_INVALID_PARAM, 0)) ACount
  | TypeOf p i => answers (at_handle p None (r_get (fun r => rsrcType r !! i))) AName
  | InterfacesOf p =>
      answers (s_with p (OC_STACK_OK, 0) (r_get (fun r => (OC_STACK_OK, count (rsrcInterface r)))) (OC_STACK_INVALID_PARAM, 0)) ACount
  | InterfaceOf p i => answers (at_handle p None (r_get (fun r => rsrcInterface r !! i))) AName
  | ChildOf p i => answers (at_handle p NULL (r_get (fun r => default NULL (rsrcChildResourcesHead r !! i)))) AHandle
  | Number => answers (gets (fun a => (OC_STACK_OK, count (resources a)))) ACount
  | HandleAt i => answers (gets (fun a => default NULL ((resources a).*1 !! i))) AHandle
  | HandleOf u => answers (gets (fun a => find_addr (fun _ r => String.eqb u (uri r)) (resources a))) AHandle
  | Notify p qos => answers (with_app s_notify p qos) AResult
  | Handles mode e => answers (on_requests (with_app Observers.handle mode e)) (fun _ => ADone)
  end.

Fixpoint run {S} (f : call -> M S answer) (cs : list call) : M S (list answer) :=
  match cs with [] => ret [] | c :: cs' => let! x := f c in let! l := run f cs' in ret (x :: l) end.

(** ** The refinement *)

Context (discovery_keeps : forall z, keeps ObserveLaws.same_observers (discovery z)).
Context (collection_keeps : forall z, keeps ObserveLaws.same_observers (DefaultCollectionEntityHandler z)).

Lemma implements_ext {X} (m : M W X) (s s' : M AW X) : (forall a, s a = s' a) -> implements m s -> implements m s'.
Proof. intros H Hm a Ha. rewrite <- H. by apply Hm. Qed.
Lemma implements_answers {X} (m : M W X) (s : M AW X) f : implements m s -> implements (answers m f) (answers s f).
Proof. intros H. apply implements_bind; [done|]. intros x. apply implements_ret. Qed.
Lemma implements_gets {X} (m : M W X) (f : AW -> X) : (forall a, wf a -> m (concrete a) = Some (f a, concrete a)) ->
  implements m (gets f).
Proof. intros H a Ha. rewrite H by done. split; [done|]. by intros ? ? [= _ <-]. Qed.

Lemma modifies_set p (f : OCResource -> OCResource) : (forall r, observersHead (f r) = observersHead r) ->
  modifies (A := A) p (change p f ;;; ret OC_STACK_OK) (r_set f).
Proof. intros Hf. apply modifies_bind; [by apply modifies_change|]. intros _. apply modifies_ret. Qed.
Lemma get_implements {X} p (missing : X) f : implements (A := A) (get_of p missing f) (at_handle p missing (r_get f)).
Proof. apply (implements_at p missing (fun p => let! c := read p in ret (f (content c)))), modifies_get. Qed.
Lemma count_implements p (f : OCResource -> Z) :
  implements (A := A) (if p =? NULL then ret (OC_STACK_INVALID_PARAM, 0) else let! n := get_of p 0 f in ret (OC_STACK_OK, n))
    (s_with p (OC_STACK_OK, 0) (r_get (fun r => (OC_STACK_OK, f r))) (OC_STACK_INVALID_PARAM, 0)).
Proof.
  apply implements_if; [apply implements_ret|].
  apply (implements_ext _ (let! n := at_handle p 0 (r_get f) in ret (OC_STACK_OK, n))).
  - intros a. unfold at_handle, bind, ret. by destruct (assoc p (resources a)).
  - apply implements_bind; [apply get_implements|]. intros n. apply implements_ret.
Qed.
Lemma children_implements c p (m : ptr -> M W OCStackResult) f : modifies c (m c) f ->
  implements (if (c =? NULL) || (p =? NULL) then ret OC_STACK_ERROR
              else if c =? p then ret OC_STACK_INVALID_PARAM else with_resource c OC_STACK_INVALID_PARAM m) (s_children c p f).
Proof. intros H. repeat (apply implements_if; [apply implements_ret|]). by apply implements_at. Qed.

Lemma api_delete_implements p :
  implements (with_app OCDeleteResource p) (fun a => match assoc p (resources a) with
    | Some _ => with_app s_delete p a
    | None => Some (if p =? NULL then OC_STACK_INVALID_PARAM else OC_STACK_NO_RESOURCE, a) end).
Proof using discovery_keeps collection_keeps.
  intros a Ha. unfold OCDeleteResource. destruct (assoc p (resources a)) as [r|] eqn:Hr.
  - pose proof (assoc_good _ _ _ (wf_good a Ha) Hr) as Hp. rewrite (proj2 (Z.eqb_neq p NULL)) by done.
    destruct (implements_search (fun q _ => q =? p) a Ha) as [Es _]. cbn [fmap option_fmap option_map gets fst snd] in Es.
    rewrite find_handle, Hr in Es by apply (wf_good a Ha).
    unfold with_resource, findResource. rewrite (bind_some _ _ _ _ _ Es), (proj2 (Z.eqb_neq p NULL)) by done.
    destruct (delete_implements COAP_TICKS_PER_SECOND discovery DefaultCollectionEntityHandler discovery_keeps collection_keeps p a Ha)
      as [Ed Hw]. split; [|done]. destruct (with_app s_delete p a) as [[e a']|] eqn:Es'; cbn [fmap option_fmap option_map fst snd] in *.
    + rewrite (bind_some _ _ _ _ _ Ed). assert (e = OC_STACK_OK) as ->; [|done].
      revert Es'. unfold s_delete. rewrite Hr. unfold bind, modify, ret. destruct (with_app s_notify _ _ _) as [[]|]; [|done].
      by intros [= <- _].
    + by rewrite (bind_none _ _ _ Ed).
  - destruct (Z.eqb_spec p NULL) as [->|Hp]; [by split; [|intros ? ? [= _ <-]]|]. split; [|by intros ? ? [= _ <-]].
    destruct (implements_search (fun q _ => q =? p) a Ha) as [Es _]. cbn [fmap option_fmap option_map gets fst snd] in Es.
    rewrite find_handle, Hr in Es by apply (wf_good a Ha).
    unfold with_resource, findResource. by rewrite (bind_some _ _ _ _ _ Es).
Qed.

Lemma remove_addrs p xs : (remove p xs).*1 = filter (fun q => q <> p) xs.*1.
Proof.
  unfold remove. induction xs as [|[q r] xs IH]; [done|]. rewrite fmap_cons. cbn [fst]. destruct (decide (q = p)) as [->|Hq].
  - by rewrite !filter_cons_False by (cbn; tauto).
  - rewrite !filter_cons_True by done. by rewrite fmap_cons, IH.
Qed.
Lemma s_delete_addrs p (a : AW) e a' : with_app s_delete p a = Some (e, a') ->
  (resources a').*1 = filter (fun q => q <> p) (resources a).*1.
Proof.
  unfold s_delete. destruct (assoc p (resources a)) as [r|] eqn:Hr.
  - intros (u & a1 & [= _ <-] & H)%bind_inv. apply bind_inv in H as (x & a2 & Hn & H). apply s_notify_addrs in Hn.
    apply bind_inv in H as ([] & a3 & [= <-] & [= _ <-]). cbn in *. by rewrite remove_addrs, Hn, update_addrs.
  - intros [= _ <-]. apply assoc_None in Hr. symmetry. rewrite <- remove_addrs. by rewrite remove_absent.
Qed.

Lemma first_addrs b xs : first_or b xs = default b (head xs.*1).
Proof. by destruct xs as [|[]]. Qed.
Lemma delete_from_implements ps : forall fuel (a : AW), wf a -> (resources a).*1 = ps -> (List.length ps < fuel)%nat ->
  with_app delete_from fuel (first_or NULL (resources a)) (concrete a) = (fun x => (x.1, concrete x.2)) <$> s_delete_all ps a
  /\ (forall b a', s_delete_all ps a = Some (b, a') -> wf a').
Proof using discovery_keeps collection_keeps.
  induction ps as [|p ps IH]; intros [|fuel] a Ha Hps Hf; [lia| |lia|].
  - apply fmap_nil_inv in Hps. rewrite Hps. split; [done|]. by intros ? ? [= _ <-].
  - apply fmap_cons_inv in Hps as ([q r] & xs & Hq & Hxs & Hx). cbn in Hq. subst q.
    cbn [delete_from s_delete_all]. rewrite Hx. cbn [first_or].
    pose proof (wf_good a Ha) as Hg. rewrite Hx in Hg. destruct (good_cons _ _ _ Hg) as (Hp0 & Hp & _).
    rewrite (proj2 (Z.eqb_neq p NULL)) by done.
    rewrite (bind_some _ _ _ _ _ (read_split p a r [] xs Hx (not_elem_of_nil _))). cbn [next].
    destruct (delete_implements COAP_TICKS_PER_SECOND discovery DefaultCollectionEntityHandler discovery_keeps collection_keeps p a Ha)
      as [Ed Hw]. destruct (with_app s_delete p a) as [[e a']|] eqn:Es; cbn [fmap option_fmap option_map fst snd] in Ed.
    2:{ rewrite (bind_none _ _ _ Ed), (bind_none _ _ _ Es). by split. }
    rewrite (bind_some _ _ _ _ _ Ed), (bind_some _ _ _ _ _ Es).
    apply s_delete_addrs in Es as Ha'. rewrite Hx, <- remove_addrs in Ha'.
    replace (remove p ((p, r) :: xs)) with xs in Ha' by (symmetry; apply (remove_mid [] p r xs), Hg).
    replace (first_or NULL xs) with (first_or NULL (resources a')).
    + apply IH; [by eapply Hw|by rewrite Ha'|cbn in Hf; lia].
    + by rewrite !first_addrs, Ha'.
Qed.

Lemma handles_implements mode e :
  implements (let! ps := all_resources in on_stack ps (with_app Observers.handle mode e)) (on_requests (with_app Observers.handle mode e)).
Proof using discovery_keeps collection_keeps.
  intros a Ha. rewrite (bind_some _ _ _ _ _ (all_resources_concrete a Ha)). split; [by apply on_stack_concrete|].
  intros b a' Hr. eapply on_requests_wf; [done| |exact Hr]. intros s s' Hs. apply moved_tokens. revert Hs. by apply Observers.handle_moves.
Qed.

Lemma exec_implements c : implements (exec c) (spec c).
Proof using discovery_keeps collection_keeps.
  destruct c; cbn [exec spec]; apply implements_answers.
  - by apply create_implements.
  - apply api_delete_implements.
  - intros a Ha. unfold deleteAllResources. rewrite (bind_some get _ _ (concrete a) (concrete a)) by done.
    rewrite turns_concrete by done. apply delete_from_implements; [done..|rewrite length_fmap; lia].
  - apply (implements_at p OC_STACK_ERROR (fun p => BindResourceTypeToResource p t)), modifies_bind_type.
  - apply (implements_at p OC_STACK_ERROR (fun p => BindResourceInterfaceToResource p i)), modifies_bind_interface.
  - apply implements_if; [apply implements_ret|].
    apply (implements_at p OC_STACK_ERROR (fun p => change p (with_handler h param) ;;; ret OC_STACK_OK)). by apply modifies_set.
  - apply (implements_at p _ (fun p => change p _ ;;; ret OC_STACK_OK)). by apply modifies_set.
  - apply (implements_at p _ (fun p => change p _ ;;; ret OC_STACK_OK)). by apply modifies_set.
  - apply children_implements. apply modifies_bind; [apply modifies_allocated|]. intros b.
    apply modifies_if; [by apply modifies_set|apply modifies_ret].
  - apply children_implements. apply (modifies_read c (fun r => match remove_child p (rsrcChildResourcesHead r) with
      | Some l => change c (with_children l) ;;; ret OC_STACK_OK | None => ret OC_STACK_ERROR end)).
    + apply keeps_bind; [typeclasses eauto|apply keeps_gets; typeclasses eauto|]. intros l. destruct (remove_child p l);
        [by destruct (modifies_set NULL (with_children l0))|apply keeps_ret; typeclasses eauto].
    + intros r. destruct (remove_child p (rsrcChildResourcesHead r)) as [l|] eqn:El; eexists; (split; [|intros m; unfold bind; cbn; by rewrite El]).
      * by apply modifies_set.
      * apply modifies_ret.
  - apply get_implements.
  - apply get_implements.
  - apply get_implements.
  - apply count_implements.
  - apply get_implements.
  - apply count_implements.
  - apply get_implements.
  - apply get_implements.
  - apply implements_gets. intros a Ha. unfold OCGetNumberOfResources. rewrite (bind_some get _ _ (concrete a) (concrete a)) by done.
    rewrite turns_concrete by done. cbn [heap headResource concrete].
    rewrite count_layout by (done || apply (wf_good a Ha) || lia || (unfold in_width; lia)). done.
  - apply implements_gets. intros a Ha. unfold OCGetResourceHandle. cbn [bind get demand heap headResource concrete].
    by rewrite nth_layout by (done || apply (wf_good a Ha)).
  - apply implements_search.
  - by apply notify_implements.
  - apply handles_implements.
Qed.

(** C20: Whatever an application calls, and whatever arrives in between, the linked list
    gives the answers of the abstract list and is laid out from it afterwards, and
    something undefined happens only where it does to the abstract list; allocations
    that fail and addresses that are used again included. *)
Theorem resource_list_refines cs a : wf a ->
  run exec cs (concrete a) = (fun x => (x.1, concrete x.2)) <$> run spec cs a /\
  (forall l a', run spec cs a = Some (l, a') -> wf a').
Proof using discovery_keeps collection_keeps.
  intros Ha. induction cs as [|c cs IH] in a, Ha |- *; cbn [run].
  - by apply implements_ret.
  - apply implements_bind; [apply exec_implements| |done]. intros x a' Ha'.
    apply implements_bind; [exact (IH)| |done]. intros l. apply implements_ret.
Qed.
End calls.

(** A light that is made, twice in vain for lack of memory, is observed, bound to a room
    and deleted: its observer gets one more notification, and the room keeps the handle,
    which is then that of the next resource made there. *)
Import Client CborTokens StackDemo.
Definition no_resources : aworld (list (Z * option OCPayload)) :=
  mk_aworld [] [None; Some 100; None; Some 200] (mk_stack 0 [Some 7] [] [] [] [] 1 [] [] []).
Definition light_calls : list call :=
  [Create true (Some "core.light") None (Some "/a/light") 77 0 3 OC_ALL;
   Create true (Some "core.light") None (Some "/a/light") 77 0 3 OC_ALL;
   Create true (Some "core.light") (Some "oic.if.a") (Some "/a/light") 77 0 3 OC_ALL;
   Create true (Some "x.room") (Some "oic.if.ll") (Some "/a/room") 0 0 1 OC_ALL;
   Create true (Some "x.room") None (Some "/a/light") 0 0 1 OC_ALL;
   BindInterface 200 (Some "oic.if.s"); BindType 200 (Some "core.dimmer"); BindChild 1 200;
   Handles Observe.OC_SERVER (Observers.Arrives phone (get_request 33 [1; 2; 3; 4; 5; 6; 7; 8] [0]));
   Number; HandleAt 1; UriOf 200; InterfaceOf 200 2; TypesOf 200; ChildOf 1 0;
   Delete 200; Delete 200; Number; UriOf 200; ChildOf 1 0]%string.
Lemma resource_list_refines_witness : exists w,
  run (exec ticks no_discovery no_collection) light_calls (concrete no_resources)
  = Some ([ACreated (OC_STACK_NO_MEMORY, 0); ACreated (OC_STACK_NO_MEMORY, 0); ACreated (OC_STACK_OK, 200);
           ACreated (OC_STACK_OK, 1); ACreated (OC_STACK_INVALID_PARAM, 0); AResult OC_STACK_OK; AResult OC_STACK_OK;
           AResult OC_STACK_OK; ADone; ACount (OC_STACK_OK, 2); AHandle 1; AName (Some "/a/light");
           AName (Some "oic.if.s"); ACount (OC_STACK_OK, 2); AHandle 200; AResult OC_STACK_OK;
           AResult OC_STACK_NO_RESOURCE; ACount (OC_STACK_OK, 1); AName None; AHandle 200]%string, w) /\
  List.length (sent (the_stack w)) = 2%nat /\ base.size (heap w) = 1%nat.
Proof.
  destruct (resource_list_refines ticks no_discovery no_collection ltac:(intros h; apply keeps_ret, ObserveLaws.same_observers_preorder)
              ltac:(intros q; apply keeps_ret, ObserveLaws.same_observers_preorder) light_calls no_resources) as [-> _].
  - split; [split; [constructor|apply not_elem_of_nil]|done|constructor|constructor].
  - eexists. split; [vm_compute; reflexivity|]. by vm_compute.
Defined.
End ResourceCalls.
