(* ===== verification/ResourceInvariant.v ===== *)
(** * Resources stay valid

    Distinct URIs that are not empty nor too long, types and interfaces without
    repetition and with the default interface first: what no call and no request
    changes; and a resource that is created, found, and deleted again. *)

From S2P Require Import Prelude.
From S2P Require Import Status.
From S2P Require Import CString.
From S2P Require Import CaTypes.
From S2P Require Import OcEndpoint.
From S2P Require Import Cbor.
From S2P Require Import PayloadCodec.
From S2P Require Import Stack.
From S2P Require Import ServerRequest.
From S2P Require Import Observe.
From S2P Require Import ObserveLaws.
From S2P Require Import Observers.
From S2P Require Import Notification.
From S2P Require Import ResourceList.
From S2P Require Import ResourceSpec.
From S2P Require Import Client.
From S2P Require Import CborTokens.
From S2P Require Import StackDemo.
From S2P Require Import ResourceListLaws.
From S2P Require Import ResourceCalls.

Module ResourceInvariant.
Import CString Stack PayloadCodec ResourceList ResourceSpec ResourceListLaws ResourceCalls.
Open Scope m_scope.

Implicit Types (xs ys zs : list (ptr * OCResource)) (p q : ptr) (r : OCResource).

(** ** Valid resources *)

Record valid (r : OCResource) : Prop := {
  valid_uri : uri r <> ""%string /\ (String.length (uri r) < MAX_URI_LENGTH)%nat;
  valid_types : rsrcType r <> [] /\ NoDup (rsrcType r) /\ Forall (fun n => ValidateResourceTypeInterface n = true) (rsrcType r);
  valid_interfaces : NoDup (rsrcInterface r) /\ Forall (fun n => ValidateResourceTypeInterface n = true) (rsrcInterface r) /\
    match rsrcInterface r with [] => True | i :: _ => i = OC_RSRVD_INTERFACE_DEFAULT end }.
Definition valid_list xs : Prop := NoDup (map (fun x => uri x.2) xs) /\ Forall (fun x => valid x.2) xs.

Notation R := (OCResource * list (option Z))%type.
(** The URI stays, and what is valid stays valid. *)
Definition keeps_valid (x y : R) : Prop := uri y.1 = uri x.1 /\ (valid x.1 -> valid y.1).
#[export] Instance keeps_valid_preorder : PreOrder keeps_valid.
Proof. split; [done|]. intros x y z [H1 H2] [H3 H4]. split; [congruence|auto]. Qed.
Notation keeping := (keeps keeps_valid).

Lemma keeps_set_valid (f : OCResource -> OCResource) : (forall r, uri (f r) = uri r /\ rsrcType (f r) = rsrcType r /\ rsrcInterface (f r) = rsrcInterface r) ->
  keeping (r_change f).
Proof.
  intros H [r m] [] [r' m'] [= <- <-]. destruct (H r) as (Hu & Ht & Hi). split; [done|]. cbn. intros [V1 V2 V3].
  split; by rewrite ?Hu, ?Ht, ?Hi.
Qed.
Lemma keeps_allocated_valid : keeping r_allocated.
Proof. by intros [r m] b [r' m'] [= _ <- _]. Qed.
#[local] Hint Resolve keeps_allocated_valid : keeps.
Lemma keeps_two_valid : keeping r_two.
Proof. unfold r_two. keep. Qed.
#[local] Hint Resolve keeps_two_valid : keeps.
Lemma keeps_get_valid {X} (f : OCResource -> X) : keeping (r_get f).
Proof. apply keeps_gets. typeclasses eauto. Qed.
#[local] Hint Resolve keeps_get_valid : keeps.
Lemma keeps_named_valid o f : (forall n, ValidateResourceTypeInterface n = true -> keeping (f n)) -> keeping (r_named o f).
Proof.
  intros H. destruct o as [n|]; cbn [r_named]; [|keep]. destruct (ValidateResourceTypeInterface n) eqn:E; cbn [negb]; [|keep].
  specialize (H n E). keep.
Qed.

Lemma add_name_valid n l : ValidateResourceTypeInterface n = true -> NoDup l ->
  Forall (fun n => ValidateResourceTypeInterface n = true) l ->
  NoDup (add_name n l) /\ Forall (fun n => ValidateResourceTypeInterface n = true) (add_name n l) /\ add_name n l <> [].
Proof.
  intros Hn Hl Hf. unfold add_name. case_bool_decide as He; [split_and!; [done..|by intros ->; apply elem_of_nil in He]|].
  split_and!; [|apply Forall_app; by split; [|constructor]|by destruct l].
  apply NoDup_app. split_and!; [done|by intros x Hx ->%list_elem_of_singleton|apply NoDup_singleton].
Qed.
Lemma default_valid : ValidateResourceTypeInterface OC_RSRVD_INTERFACE_DEFAULT = true.
Proof. reflexivity. Qed.
Lemma add_interface_valid n l : ValidateResourceTypeInterface n = true -> NoDup l ->
  Forall (fun n => ValidateResourceTypeInterface n = true) l ->
  match l with [] => True | i :: _ => i = OC_RSRVD_INTERFACE_DEFAULT end ->
  let l' := add_interface n l in
  NoDup l' /\ Forall (fun n => ValidateResourceTypeInterface n = true) l' /\ head l' = Some OC_RSRVD_INTERFACE_DEFAULT.
Proof.
  intros Hn Hl Hf Hd. unfold add_interface. destruct (String.eqb_spec n OC_RSRVD_INTERFACE_DEFAULT) as [->|Hne].
  - destruct l as [|i l]; [split_and!; [apply NoDup_singleton|by constructor|done]|]. subst i. by rewrite String.eqb_refl.
  - destruct l as [|i l].
    + destruct (add_name_valid n [OC_RSRVD_INTERFACE_DEFAULT] Hn) as (? & ? & _); [apply NoDup_singleton|by constructor|].
      split_and!; [done..|]. unfold add_name. by case_bool_decide.
    + subst i. destruct (add_name_valid n _ Hn Hl Hf) as (? & ? & _). split_and!; [done..|]. unfold add_name. by case_bool_decide.
Qed.

Lemma keeps_bind_type_valid o : keeping (r_bind_type o).
Proof.
  apply keeps_named_valid. intros n Hn [r m] [] [r' m'] [= <- <-]. split; [done|]. cbn. intros [V1 (V2 & V3 & V4) V5].
  destruct (add_name_valid n _ Hn V3 V4) as (? & ? & ?). by split.
Qed.
Lemma two_same x b y : r_two x = Some (b, y) -> y.1 = x.1.
Proof. destruct x as [r [|[] [|[] m]]]; by intros [= _ <-]. Qed.
Lemma keeps_bind_interface_valid o : keeping (r_bind_interface o).
Proof.
  apply keeps_named_valid. intros n Hn x [] y H. apply bind_inv in H as (l & x1 & [= <- <-] & H).
  apply bind_inv in H as (b & x2 & Ha & H).
  assert (Hx : x2.1 = x.1).
  { revert Ha. destruct (rsrcInterface x.1); [|by intros [= _ <-]]. destruct (String.eqb _ _); [by intros [= _ <-]|apply two_same]. }
  destruct b; [|injection H as <-; by split; rewrite Hx]. destruct x2 as [r m]. injection H as <-. cbn in Hx. subst r.
  split; [done|]. cbn. intros [V1 V2 (V3 & V4 & V5)]. destruct (add_interface_valid n _ Hn V3 V4 V5) as (? & ? & H3).
  split; [done|done|]. cbn. split_and!; [done..|]. destruct (add_interface n (rsrcInterface x.1)); [done|]. by injection H3.
Qed.
#[local] Hint Resolve keeps_bind_type_valid keeps_bind_interface_valid : keeps.
Lemma keeps_r_set_valid (f : OCResource -> OCResource) : (forall r, uri (f r) = uri r /\ rsrcType (f r) = rsrcType r /\ rsrcInterface (f r) = rsrcInterface r) ->
  keeping (r_set f).
Proof. intros H. unfold r_set. apply keeps_bind; [typeclasses eauto|by apply keeps_set_valid|intros; keep]. Qed.
#[local] Hint Extern 1 (keeping (r_set _)) => (apply keeps_r_set_valid; done) : keeps.

(** ** The list *)

Section valid.
Context {A : Type}.
Notation AW := (aworld A).

(** The names of the resources, all that validity is about. *)
Definition names (r : OCResource) : string * list string * list string := (uri r, rsrcType r, rsrcInterface r).
Lemma valid_names r r' : names r' = names r -> valid r -> valid r'.
Proof. intros [= Hu Ht Hi] [V1 V2 V3]. split; by rewrite ?Hu, ?Ht, ?Hi. Qed.
Lemma valid_list_names xs ys : map (fun x => names x.2) ys = map (fun x => names x.2) xs -> valid_list xs -> valid_list ys.
Proof.
  revert ys. induction xs as [|[p r] xs IH]; intros [|[q s] ys] H; try done. injection H as Hu Ht Hi H.
  intros [[Hn Hd]%NoDup_cons [Hr Hv]%Forall_cons]. destruct (IH ys H (conj Hd Hv)) as [Hd' Hv'].
  assert (Heq : map (fun x => uri x.2) ys = map (fun x => uri x.2) xs).
  { apply (f_equal (map (fun x => fst (fst x)))) in H. by rewrite !map_map in H. }
  split; cbn.
  - apply NoDup_cons. rewrite Heq, Hu. by split.
  - constructor; [|done]. apply (valid_names r); [|done]. cbn. unfold names. congruence.
Qed.
Lemma merge_names xs rs : map (fun x => names x.2) (merge xs rs) = map (fun x => names x.2) xs.
Proof. revert rs. induction xs as [|[p r] xs IH]; intros [|x rs]; cbn; [done..|]. by rewrite IH. Qed.
Lemma update_names p f xs : (forall r, names (f r) = names r) -> map (fun x => names x.2) (update p f xs) = map (fun x => names x.2) xs.
Proof. intros H. induction xs as [|[q r] xs IH]; cbn; [done|]. destruct (q =? p); cbn; [by rewrite H|by rewrite IH]. Qed.
Lemma valid_sublist xs ys : ys `sublist_of` xs -> valid_list xs -> valid_list ys.
Proof.
  intros H [Hn Hv]. split; [|clear Hn; induction H; rewrite ?Forall_cons in *; naive_solver]. eapply sublist_NoDup; [exact Hn|]. by apply (fmap_sublist (fun x => uri x.2)).
Qed.

Definition list_keeps (a a' : AW) : Prop := wf a -> valid_list (resources a) -> valid_list (resources a').
Lemma list_keeps_trans a b c : (wf a -> wf b) -> list_keeps a b -> list_keeps b c -> list_keeps a c.
Proof. unfold list_keeps. auto. Qed.

Lemma at_handle_valid {X} p (missing : X) f (a : AW) x a' : keeping f -> at_handle p missing f a = Some (x, a') -> list_keeps a a'.
Proof.
  intros Hf H _ Hv. unfold at_handle in H. destruct (assoc p (resources a)) as [r|] eqn:Hr; [|by injection H as _ <-].
  destruct (f (r, a_memory a)) as [[y [r' m]]|] eqn:E; [|done]. cbn in H. injection H as _ <-. cbn.
  apply Hf in E as [Hu Hk]. cbn in *. pose proof Hr as (ys & zs & Hx & _ & Hup)%assoc_split. rewrite Hup. rewrite Hx in Hv.
  destruct Hv as [Hd Hv]. rewrite map_app in Hd. cbn in Hd.
  apply Forall_app in Hv as [H1 [H2 H3]%Forall_cons]. split.
  - rewrite map_app. cbn. by rewrite Hu.
  - apply Forall_app. split; [done|]. constructor; [by apply Hk|done].
Qed.

(** What a new resource is made of; only the binding of the default interface can fail
    without an error. *)
Lemma named_ok n f (r : OCResource) m y : r_named (Some n) f (r, m) = Some (OC_STACK_OK, y) ->
  ValidateResourceTypeInterface n = true /\ exists m', f n (r, m') = Some (tt, y).
Proof.
  cbn [r_named]. destruct (ValidateResourceTypeInterface n); cbn [negb]; [|done]. intros (b & [r' m'] & H2 & H)%bind_inv.
  split; [done|]. apply two_same in H2. cbn in H2. subst r'. destruct b; [|done].
  apply bind_inv in H as ([] & y' & Hf & [= ->]). by exists m'.
Qed.
Lemma interface_ok n r m y : r_bind_interface (Some n) (r, m) = Some (OC_STACK_OK, y) -> rsrcInterface r = [] ->
  ValidateResourceTypeInterface n = true /\ (y.1 = with_interfaces (add_interface n []) r \/ y.1 = r).
Proof.
  intros (Hn & m' & H)%named_ok Hr. split; [done|]. apply bind_inv in H as (l & x & [= <- <-] & H).
  apply bind_inv in H as (b & [r' m2] & Ha & H). cbn in Ha. rewrite Hr in Ha.
  assert (r' = r) as -> by (revert Ha; destruct (String.eqb _ _); [by intros [= _ <-]|intros Ha; by apply two_same in Ha]).
  destruct b; injection H as <-; [left; by rewrite Hr|by right].
Qed.
Lemma create_result t i u eh param properties tps m r m' :
  r_create t i u eh param properties tps (zero_resource, m) = Some (OC_STACK_OK, (r, m')) ->
  ValidateResourceTypeInterface t = true /\ ValidateResourceTypeInterface i = true /\
  exists l, (l = add_interface i [] \/ l = []) /\
  r = created_handler eh param (mk_rsrc u [t] l [] (registeredHandler NULL) NULL (created_properties properties) [] OC_OFFSET_SEQUENCE_NUMBER
        (OcEndpoint.OCGetSupportedEndpointFlags tps OcEndpoint.OC_NO_TPS)).
Proof.
  unfold r_create. intros (b & [r1 m1] & Ha & H)%bind_inv. assert (r1 = zero_resource) as -> by (revert Ha; by intros [= _ <- _]).
  destruct b; cbn [negb] in H; [|done]. apply bind_inv in H as ([] & x & [= <-] & H). apply bind_inv in H as ([] & x & [= <-] & H).
  apply bind_inv in H as (e & [r2 m2] & Ht & H). destruct (is_ok e) eqn:He; cbn [negb] in H; [|by injection H as ->].
  apply is_ok_true in He as ->. apply named_ok in Ht as (Vt & m3 & [= <- <-]).
  apply bind_inv in H as (e & [r4 m4] & Hi & H). destruct (is_ok e) eqn:He; cbn [negb] in H; [|by injection H as ->].
  apply is_ok_true in He as ->. apply interface_ok in Hi as [Vi Hr]; [|done]. cbn [fst] in Hr.
  apply bind_inv in H as (e & [r5 m5] & He5 & H). destruct (is_ok e) eqn:He; cbn [negb] in H; [|by injection H as ->].
  apply is_ok_true in He as ->. apply bind_inv in H as ([] & x & [= <-] & [= <- <-]). split; [done|]. split; [done|].
  unfold r_endpoints in He5. destruct (_ =? _); [done|]. apply bind_inv in He5 as ([] & x & [= <-] & [= <- <-]).
  destruct Hr as [->| ->]; [exists (add_interface i []); split; [by left|reflexivity]|exists []; split; [by right|reflexivity]].
Qed.

Lemma created_valid eh param u t l properties endpoints : u <> ""%string -> (String.length u < MAX_URI_LENGTH)%nat ->
  ValidateResourceTypeInterface t = true ->
  NoDup l /\ Forall (fun n => ValidateResourceTypeInterface n = true) l /\ match l with [] => True | i :: _ => i = OC_RSRVD_INTERFACE_DEFAULT end ->
  valid (created_handler eh param (mk_rsrc u [t] l [] (registeredHandler NULL) NULL properties [] OC_OFFSET_SEQUENCE_NUMBER endpoints)).
Proof.
  intros Hu Hl Ht Hi. apply (valid_names (mk_rsrc u [t] l [] (registeredHandler NULL) NULL properties [] OC_OFFSET_SEQUENCE_NUMBER endpoints)).
  - unfold created_handler. by destruct (eh =? NULL).
  - split; cbn; [done|split_and!; [done|apply NoDup_singleton|by constructor]|done].
Qed.
Lemma interface_list_valid i l : ValidateResourceTypeInterface i = true -> l = add_interface i [] \/ l = [] ->
  NoDup l /\ Forall (fun n => ValidateResourceTypeInterface n = true) l /\ match l with [] => True | i :: _ => i = OC_RSRVD_INTERFACE_DEFAULT end.
Proof.
  intros Hi [->| ->]; [|split_and!; constructor].
  destruct (add_interface_valid i [] Hi (NoDup_nil_2) (Forall_nil_2 _) I) as (? & ? & Hh). split_and!; [done..|].
  destruct (add_interface i []); [done|]. by injection Hh.
Qed.
Lemma not_refused handle t u properties tps : refused handle t u properties tps = None ->
  exists t' u', t = Some t' /\ u = Some u' /\ u' <> ""%string /\ (String.length u' < MAX_URI_LENGTH)%nat.
Proof.
  unfold refused. destruct u as [u|]; [|done]. destruct (String.eqb_spec u "") as [->|Hu]; [done|]. cbn [orb].
  destruct (Nat.leb_spec MAX_URI_LENGTH (String.length u)) as [|Hl]; [done|]. destruct t as [t|]; [|by rewrite !andb_false_r].
  intros _. by exists t, u.
Qed.
Lemma strncmp_short u v : (String.length u < MAX_URI_LENGTH)%nat -> (String.length v < MAX_URI_LENGTH)%nat ->
  strncmp_eq u v MAX_URI_LENGTH = bool_decide (u = v).
Proof.
  assert (H : forall s n, (String.length s <= n)%nat -> str_take n s = s).
  { clear. induction s as [|c s IH]; intros [|n] Hn; cbn in *; [done..|lia|]. by rewrite IH by lia. }
  intros Hu Hv. unfold strncmp_eq. by rewrite !H by lia.
Qed.

Lemma create_valid handle t i u eh param properties tps (a : AW) x a' :
  s_create handle t i u eh param properties tps a = Some (x, a') -> list_keeps a a'.
Proof.
  unfold s_create. destruct (refused handle t u properties tps) eqn:Er; [intros [= _ <-]; by intros _ ?|].
  apply not_refused in Er as (t' & u' & -> & -> & Hu & Hl). destruct (existsb _ _) eqn:Ee; [intros [= _ <-]; by intros _ ?|].
  destruct (a_allocate a) as [[p a1]|] eqn:Ea; [|done]. cbn [mbind option_bind]. apply a_allocate_free in Ea as [-> _].
  destruct (p =? NULL); [intros [= _ <-]; by intros _ ?|].
  destruct (r_create _ _ _ _ _ _ _ _) as [[e [r m]]|] eqn:Ec; [|done]. cbn [mbind option_bind].
  destruct (is_ok e) eqn:He; [|intros [= _ <-]; by intros _ ?]. intros [= _ <-] _ [Hd Hv]. cbn.
  apply is_ok_true in He as ->. apply create_result in Ec as (Vt & Vi & l & Hli & ->).
  pose proof (created_valid eh param u' t' l (created_properties properties)
    (OcEndpoint.OCGetSupportedEndpointFlags tps OcEndpoint.OC_NO_TPS) Hu Hl Vt (interface_list_valid _ _ Vi Hli)) as Hr.
  split; [|apply Forall_app; by split; [|constructor]].
  rewrite map_app. apply NoDup_app. split_and!; [done| |apply NoDup_singleton].
  cbn. intros v Hin ->%list_elem_of_singleton. apply list_elem_of_fmap in Hin as ([q s] & Hs & Hq).
  assert (Hc : uri (created_handler eh param (mk_rsrc u' [t'] l [] (registeredHandler NULL) NULL (created_properties properties) []
    OC_OFFSET_SEQUENCE_NUMBER (OcEndpoint.OCGetSupportedEndpointFlags tps OcEndpoint.OC_NO_TPS))) = u')
    by (unfold created_handler; by destruct (eh =? NULL)).
  rewrite Hc in Hs. cbn in Hs. apply (not_true_iff_false _) in Ee. apply Ee. apply existsb_exists. exists (q, s).
  split; [by apply list_elem_of_In|]. cbn. apply Forall_forall with (x := (q, s)) in Hv; [|done]. cbn in Hv.
  rewrite strncmp_short by (done || apply Hv). by apply bool_decide_eq_true_2.
Qed.
End valid.

(** ** Whatever is called *)

Section calls.
Context {A : Type} `{!Application A} {L : Cbor.CborLib} {E : CborEncoder}.
Notation AW := (aworld A).
Context (COAP_TICKS_PER_SECOND : Z).
Context (discovery : Z -> M (stack A) OCStackResult).
Context (DefaultCollectionEntityHandler : OCEntityHandlerRequest -> M (stack A) OCStackResult).
Context (discovery_keeps : forall z, keeps ObserveLaws.same_observers (discovery z)).
Context (collection_keeps : forall z, keeps ObserveLaws.same_observers (DefaultCollectionEntityHandler z)).
Notation with_app f := (f COAP_TICKS_PER_SECOND discovery DefaultCollectionEntityHandler).

Lemma on_requests_valid {X} (f : M (stack A) X) (a : AW) x a' : on_requests f a = Some (x, a') -> list_keeps a a'.
Proof.
  unfold on_requests. destruct (f _) as [[y s]|]; cbn; [|done]. intros [= _ <-] _. cbn.
  apply valid_list_names. apply merge_names.
Qed.
Lemma notify_valid p qos (a : AW) x a' : with_app s_notify p qos a = Some (x, a') -> list_keeps a a'.
Proof.
  unfold s_notify. destruct (list_find _ _) as [[i q]|]; [apply on_requests_valid|]. intros [= _ <-]. by intros _ ?.
Qed.
Lemma delete_valid p (a : AW) x a' : with_app s_delete p a = Some (x, a') -> list_keeps a a'.
Proof.
  unfold s_delete. destruct (assoc p (resources a)) as [r|] eqn:Hr; [|intros [= _ <-]; by intros _ ?].
  intros (u & a1 & [= _ <-] & H)%bind_inv. apply bind_inv in H as (y & a2 & Hn & H).
  apply bind_inv in H as ([] & a3 & [= <-] & [= _ <-]). intros Ha Hv. cbn.
  apply (valid_sublist (resources a2)); [apply sublist_filter|]. apply notify_valid in Hn. apply Hn.
  - by destruct (change_concrete p (with_properties 0) a r Ha ltac:(done) Hr).
  - cbn. eapply valid_list_names; [by apply update_names|done].
Qed.
Lemma delete_wf p (a : AW) x a' : with_app s_delete p a = Some (x, a') -> wf a -> wf a'.
Proof using discovery_keeps collection_keeps.
  intros H Ha. destruct (delete_implements COAP_TICKS_PER_SECOND discovery DefaultCollectionEntityHandler discovery_keeps collection_keeps p a Ha)
    as [_ Hw]. by eapply Hw.
Qed.
Lemma delete_all_valid ps : forall (a : AW) x a', with_app s_delete_all ps a = Some (x, a') -> list_keeps a a'.
Proof using discovery_keeps collection_keeps.
  induction ps as [|p ps IH]; intros a x a' H; cbn [s_delete_all] in H; [injection H as _ <-; by intros _ ?|].
  apply bind_inv in H as (y & a1 & Hd & H). eapply list_keeps_trans; [by apply (delete_wf p a y)|by eapply delete_valid|by eapply IH].
Qed.

Lemma answers_inv {X} (m : M AW X) f (a : AW) y a' : answers m f a = Some (y, a') -> exists x, m a = Some (x, a').
Proof. intros (x & a1 & Hm & [= _ <-])%bind_inv. by exists x. Qed.
Lemma s_with_valid {X} p (missing null : X) f (a : AW) x a' : keeping f -> s_with p missing f null a = Some (x, a') -> list_keeps a a'.
Proof. intros Hf. unfold s_with. destruct (p =? NULL); [intros [= _ <-]; by intros _ ?|by apply at_handle_valid]. Qed.
Lemma s_children_valid c p f (a : AW) x a' : keeping f -> s_children c p f a = Some (x, a') -> list_keeps a a'.
Proof.
  intros Hf. unfold s_children. destruct (_ || _); [intros [= _ <-]; by intros _ ?|].
  destruct (c =? p); [intros [= _ <-]; by intros _ ?|by apply at_handle_valid].
Qed.

Lemma spec_valid c (a : AW) y a' : with_app spec c a = Some (y, a') -> list_keeps a a'.
Proof using discovery_keeps collection_keeps.
  destruct c; cbn [spec]; intros [x H]%answers_inv;
    try (first [eapply at_handle_valid in H|eapply s_with_valid in H|eapply s_children_valid in H]; [exact H|keep]; fail).
  - by eapply create_valid.
  - destruct (assoc p (resources a)); [by eapply delete_valid|]. injection H as _ <-. by intros _ ?.
  - by eapply delete_all_valid.
  - injection H as _ <-. by intros _ ?.
  - injection H as _ <-. by intros _ ?.
  - injection H as _ <-. by intros _ ?.
  - by eapply notify_valid.
  - by eapply on_requests_valid.
Qed.

(** C21: Whatever is called and whatever arrives, the URIs of the resources stay distinct,
    not empty and shorter than the buffers they are copied to, each resource keeps a type,
    no type and no interface is there twice, and the default interface is the first; and
    the list stays well-formed. *)
Theorem resources_stay_valid cs (a : AW) l w : wf a -> valid_list (resources a) ->
  run (with_app exec) cs (concrete a) = Some (l, w) ->
  exists a', w = concrete a' /\ wf a' /\ valid_list (resources a').
Proof using discovery_keeps collection_keeps.
  induction cs as [|c cs IH] in a, l |- *; cbn [run]; intros Ha Hv H.
  - injection H as _ <-. by exists a.
  - apply bind_inv in H as (x & w1 & Hx & H). apply bind_inv in H as (l' & w2 & Hr & [= _ <-]).
    destruct (exec_implements COAP_TICKS_PER_SECOND discovery DefaultCollectionEntityHandler discovery_keeps collection_keeps c a Ha)
      as [He Hw]. rewrite He in Hx. destruct (with_app spec c a) as [[y a1]|] eqn:Es; [|done]. injection Hx as _ <-.
    apply (IH a1 l'); [by eapply Hw|by eapply spec_valid|done].
Qed.

(** ** A resource comes and goes *)

Lemma s_create_ok t i u eh param properties tps (a : AW) p a' :
  s_create true (Some t) i (Some u) eh param properties tps a = Some ((OC_STACK_OK, p), a') ->
  (String.length u < MAX_URI_LENGTH)%nat /\ p <> NULL /\ p ∉ (resources a).*1 /\
  existsb (fun x => strncmp_eq u (uri x.2) MAX_URI_LENGTH) (resources a) = false /\
  exists r m, a' = mk_aworld (resources a ++ [(p, r)]) m (a_stack a) /\
    names r = (u, [t], rsrcInterface r) /\ resourceProperties r = created_properties properties /\ observersHead r = [].
Proof.
  unfold s_create. destruct (refused _ _ _ _ _) eqn:Er; [intros [= -> _ _]|].
  { unfold refused in Er. revert Er. by repeat case_match. }
  apply not_refused in Er as (t' & u' & [= <-] & [= <-] & Hu & Hl). destruct (existsb _ _) eqn:Ee; [done|].
  destruct (a_allocate a) as [[q a1]|] eqn:Ea; [|done]. cbn [mbind option_bind]. apply a_allocate_free in Ea as [-> Hq].
  destruct (Z.eqb_spec q NULL) as [|Hq0]; [done|].
  assert (q <> NULL /\ q ∉ (resources a).*1) as [_ Hqx] by (by destruct (a_memory a) as [|[]]). clear Hq.
  destruct (r_create _ _ _ _ _ _ _ _) as [[e [r m]]|] eqn:Ec; [|done]. cbn [mbind option_bind].
  destruct (is_ok e) eqn:He; [|intros [= -> _ _]; done]. intros [= <- <-]. apply is_ok_true in He as ->.
  apply create_result in Ec as (Vt & Vi & l & Hli & Hr). split_and!; [done..|]. exists r, m. split; [done|].
  rewrite Hr. unfold created_handler. by destruct (eh =? NULL).
Qed.
Lemma find_new u p r xs : existsb (fun x => strncmp_eq u (uri x.2) MAX_URI_LENGTH) xs = false -> uri r = u ->
  find_addr (fun _ r => String.eqb u (uri r)) (xs ++ [(p, r)]) = p.
Proof.
  intros Hx Hr. induction xs as [|[q s] xs IH]; simpl; [by rewrite Hr, String.eqb_refl|].
  cbn in Hx. apply orb_false_iff in Hx as [Hs Hx]. destruct (String.eqb_spec u (uri s)) as [->|]; [|by apply IH].
  unfold strncmp_eq in Hs. by rewrite bool_decide_eq_true_2 in Hs.
Qed.

(** C22: A resource that was created has a new handle, under which, and under its URI, it
    is found with its type and its properties; and when it is deleted again everything
    but the state of the allocator is as it was before. *)
Theorem created_and_deleted t i u eh param properties tps (a : AW) p w : wf a ->
  with_app OCCreateResourceWithEp true (Some t) i (Some u) eh param properties tps (concrete a) = Some ((OC_STACK_OK, p), w) ->
  p <> NULL /\ p ∉ (resources a).*1 /\
  FindResourceByUri u w = Some (p, w) /\ OCGetResourceUri p w = Some (Some u, w) /\
  OCGetResourceProperties p w = Some (created_properties properties, w) /\ OCGetResourceTypeName p 0 w = Some (Some t, w) /\
  exists m, with_app OCDeleteResource p w = Some (OC_STACK_OK, concrete (set_amemory m a)).
Proof using discovery_keeps collection_keeps.
  intros Ha H. destruct (create_implements COAP_TICKS_PER_SECOND discovery DefaultCollectionEntityHandler discovery_keeps collection_keeps
    true (Some t) i (Some u) eh param properties tps a Ha) as [He Hw]. rewrite He in H.
  destruct (s_create _ _ _ _ _ _ _ _ _) as [[x a']|] eqn:Es; [|done]. injection H as -> <-. pose proof (Hw _ _ eq_refl) as Ha'.
  apply s_create_ok in Es as (_ & Hp & Hpx & Hu & r & m & Ha1 & Hn & Hpr & Ho).
  assert (Hr : assoc p (resources a') = Some r) by (subst a'; by apply (at_mid _ _ _ [] id)). injection Hn as Hru Hrt.
  assert (Hget : forall X (missing : X) f, get_of p missing f (concrete a') = Some (f r, concrete a')).
  { intros X missing f. destruct (get_implements p missing f a' Ha') as [-> _]. unfold at_handle. rewrite Hr. cbn.
    do 3 f_equal. by apply put_at_same. }
  split_and!; [done..| | | | |].
  - destruct (implements_search (fun _ r => String.eqb u (uri r)) a' Ha') as [Ef _]. unfold FindResourceByUri. rewrite Ef.
    cbn [gets fmap option_fmap option_map fst snd]. subst a'. cbn [resources]. by rewrite (find_new u p r).
  - unfold OCGetResourceUri. by rewrite Hget, Hru.
  - unfold OCGetResourceProperties. by rewrite Hget, Hpr.
  - unfold OCGetResourceTypeName. by rewrite Hget, Hrt.
  - destruct (api_delete_implements COAP_TICKS_PER_SECOND discovery DefaultCollectionEntityHandler discovery_keeps collection_keeps p a' Ha')
      as [-> _]. rewrite Hr. erewrite delete_unobserved; [|done|by subst a'|done]. exists m. by subst a'.
Qed.
End calls.

Import CborTokens StackDemo.
Lemma resources_stay_valid_witness : exists w,
  run (exec StackDemo.ticks StackDemo.no_discovery StackDemo.no_collection) light_calls (concrete no_resources) = Some w /\
  exists a', w.2 = concrete a' /\ wf a' /\ valid_list (resources a').
Proof.
  eexists. split; [vm_compute; reflexivity|].
  eapply (resources_stay_valid StackDemo.ticks StackDemo.no_discovery StackDemo.no_collection
    ltac:(intros h; apply keeps_ret, ObserveLaws.same_observers_preorder) ltac:(intros q; apply keeps_ret, ObserveLaws.same_observers_preorder)
    light_calls no_resources).
  - split; [split; [constructor|apply not_elem_of_nil]|done|constructor|constructor].
  - split; constructor.
  - vm_compute. reflexivity.
Defined.
Lemma created_and_deleted_witness : exists w,
  OCCreateResourceWithEp ticks no_discovery no_collection true (Some "core.light"%string) (Some "oic.if.a"%string)
    (Some "/a/light"%string) 77 0 3 OC_ALL (concrete (set_amemory [Some 200] no_resources)) = Some ((OC_STACK_OK, 200), w) /\
  OCGetResourceProperties 200 w = Some (23, w) /\
  exists m, OCDeleteResource ticks no_discovery no_collection 200 w = Some (OC_STACK_OK, concrete (set_amemory m no_resources)).
Proof.
  eexists. split; [vm_compute; reflexivity|].
  edestruct (created_and_deleted ticks no_discovery no_collection
    ltac:(intros h; apply keeps_ret, ObserveLaws.same_observers_preorder) ltac:(intros q; apply keeps_ret, ObserveLaws.same_observers_preorder)
    "core.light"%string (Some "oic.if.a"%string) "/a/light"%string 77 0 3 OC_ALL (set_amemory [Some 200] no_resources) 200)
    as (_ & _ & _ & _ & Hp & _ & Hd).
  - split; [split; [constructor|apply not_elem_of_nil]|done|constructor|constructor].
  - vm_compute. reflexivity.
  - split; [exact Hp|exact Hd].
Defined.
End ResourceInvariant.
