(* ===== verification/Svr.v ===== *)
(** * The state of the security virtual resources

    The structures of [sec/svrs/*.c] and [sec/dox/deviceonboardingstate.c] and
    one record, [SVR], for their file-level variables.  Every function on it is
    in the monad [M (SVR W)]; [W] is what the functions below this layer act on.
    Allocations are assumed to succeed. *)

From S2P Require Import Prelude.
From S2P Require Import Status.
From S2P Require Import SrmUtility.
From S2P Require Import Cbor.
From S2P Require Import PsInterface.
Import SrmUtility Cbor PsInterface.

Module Svr.

Open Scope m_scope.

(** ** Onboarding state and provisioning status *)

(** [OicSecDeviceOnboardingState_t]; a value read from a payload can be any
    32-bit number. *)
Definition DOS_RESET : Z := 0.
Definition DOS_RFOTM : Z := 1.
Definition DOS_RFPRO : Z := 2.
Definition DOS_RFNOP : Z := 3.
Definition DOS_SRESET : Z := 4.
Definition DOS_STATE_COUNT : Z := 5.

(** [OicSecDpm_t] and [OicSecDpom_t] bits. *)
Definition RESET : Z := Z.shiftl 1 0.
Definition TAKE_OWNER : Z := Z.shiftl 1 1.
Definition VERIFY_SOFTWARE_VERSION : Z := Z.shiftl 1 6.
Definition UPDATE_SOFTWARE : Z := Z.shiftl 1 7.
Definition NORMAL : Z := 0.
Definition SINGLE_SERVICE_CLIENT_DRIVEN : Z := Z.shiftl 1 2.

(** [OicSecPstat_t]: [dos] is split into its two fields, [sm] with its length is
    a list. *)
Record OicSecPstat_t : Type := mk_pstat {
  p_state : Z; p_pending : bool; p_isOp : bool; p_cm : Z; p_tm : Z; p_om : Z;
  p_sm : list Z; p_commitHash : Z; p_rownerID : OicUuid_t }.

Definition set_state v p := mk_pstat v (p_pending p) (p_isOp p) (p_cm p) (p_tm p) (p_om p)
  (p_sm p) (p_commitHash p) (p_rownerID p).
Definition set_pending v p := mk_pstat (p_state p) v (p_isOp p) (p_cm p) (p_tm p) (p_om p)
  (p_sm p) (p_commitHash p) (p_rownerID p).
Definition set_isOp v p := mk_pstat (p_state p) (p_pending p) v (p_cm p) (p_tm p) (p_om p)
  (p_sm p) (p_commitHash p) (p_rownerID p).
Definition set_cm v p := mk_pstat (p_state p) (p_pending p) (p_isOp p) v (p_tm p) (p_om p)
  (p_sm p) (p_commitHash p) (p_rownerID p).
Definition set_tm v p := mk_pstat (p_state p) (p_pending p) (p_isOp p) (p_cm p) v (p_om p)
  (p_sm p) (p_commitHash p) (p_rownerID p).
Definition set_om v p := mk_pstat (p_state p) (p_pending p) (p_isOp p) (p_cm p) (p_tm p) v
  (p_sm p) (p_commitHash p) (p_rownerID p).
Definition set_p_rownerID v p := mk_pstat (p_state p) (p_pending p) (p_isOp p) (p_cm p)
  (p_tm p) (p_om p) (p_sm p) (p_commitHash p) v.

(** The static [gDefaultPstat] before the program runs. *)
Definition initial_default_pstat : OicSecPstat_t :=
  mk_pstat DOS_RFOTM false false TAKE_OWNER NORMAL SINGLE_SERVICE_CLIENT_DRIVEN
    [SINGLE_SERVICE_CLIENT_DRIVEN] 0 THE_NIL_UUID.

(** ** Device ownership *)

Record OicSecDoxm_t : Type := mk_doxm {
  d_oxm : list Z; d_oxmSel : Z; d_sct : Z; d_owned : bool; d_deviceID : OicUuid_t;
  d_dpc : bool; d_owner : OicUuid_t; d_rownerID : OicUuid_t }.

Definition set_oxmSel v d := mk_doxm (d_oxm d) v (d_sct d) (d_owned d) (d_deviceID d)
  (d_dpc d) (d_owner d) (d_rownerID d).
Definition set_owned v d := mk_doxm (d_oxm d) (d_oxmSel d) (d_sct d) v (d_deviceID d)
  (d_dpc d) (d_owner d) (d_rownerID d).
Definition set_deviceID v d := mk_doxm (d_oxm d) (d_oxmSel d) (d_sct d) (d_owned d) v
  (d_dpc d) (d_owner d) (d_rownerID d).
Definition set_owner v d := mk_doxm (d_oxm d) (d_oxmSel d) (d_sct d) (d_owned d)
  (d_deviceID d) (d_dpc d) v (d_rownerID d).
Definition set_d_rownerID v d := mk_doxm (d_oxm d) (d_oxmSel d) (d_sct d) (d_owned d)
  (d_deviceID d) (d_dpc d) (d_owner d) v.

Definition SYMMETRIC_PAIR_WISE_KEY : Z := Z.shiftl 1 0.
Definition SYMMETRIC_GROUP_KEY : Z := Z.shiftl 1 1.
Definition ASYMMETRIC_KEY : Z := Z.shiftl 1 2.
Definition SIGNED_ASYMMETRIC_KEY : Z := Z.shiftl 1 3.
Definition PIN_PASSWORD : Z := Z.shiftl 1 4.
Definition ASYMMETRIC_ENCRYPTION_KEY : Z := Z.shiftl 1 5.

(** The static [gDefaultDoxm]. *)
Definition initial_default_doxm : OicSecDoxm_t :=
  mk_doxm [OIC_RANDOM_DEVICE_PIN] OIC_RANDOM_DEVICE_PIN
    (Z.lor SYMMETRIC_PAIR_WISE_KEY SIGNED_ASYMMETRIC_KEY) false THE_NIL_UUID false
    THE_NIL_UUID THE_NIL_UUID.

(** ** Access control *)

(** The subject [*]: the character and zeros. *)
Definition WILDCARD_SUBJECT_ID : OicUuid_t := 42 :: replicate 15 0.

Inductive OicSecAceResourceWildcard_t : Type :=
| NO_WILDCARD | ALL_DISCOVERABLE_NCRS_WITH_OC_SECURE
| ALL_DISCOVERABLE_NCRS_WITH_OC_NONSECURE | ALL_NCRS.
#[export] Instance wildcard_eq_dec : EqDecision OicSecAceResourceWildcard_t.
Proof. solve_decision. Defined.

(** A null array of strings is [None]. *)
Record OicSecRsrc_t : Type := mk_rsrc {
  r_href : option string; r_rel : option string; r_types : option (list string);
  r_interfaces : option (list string); r_wildcard : OicSecAceResourceWildcard_t }.

Record OicSecValidity_t : Type := mk_validity {
  v_period : option string; v_recurrences : option (list string) }.

(** [OicSecRole_t]: two arrays of 64 characters, as strings. *)
Definition ROLEID_LENGTH : nat := 64.
Definition ROLEAUTHORITY_LENGTH : nat := 64.
Record OicSecRole_t : Type := mk_role { role_id : string; role_authority : string }.

Inductive OicSecConntype_t : Type := AUTH_CRYPT | ANON_CLEAR.
#[export] Instance conntype_eq_dec : EqDecision OicSecConntype_t.
Proof. solve_decision. Defined.

(** The subject of an entry: [subjectType] and the union. *)
Inductive subject : Type :=
| UuidSubject (subjectuuid : OicUuid_t) | RoleSubject (subjectRole : OicSecRole_t)
| ConntypeSubject (subjectConn : OicSecConntype_t).

(** [ace->subjectuuid] whatever the type is: the first sixteen bytes of the
    union, which is allocated zeroed. *)
Definition subjectuuid_bytes (s : subject) : OicUuid_t :=
  match s with
  | UuidSubject u => u
  | RoleSubject r => take 16 (codes (role_id r) ++ replicate 16 0)
  | ConntypeSubject c => (match c with AUTH_CRYPT => 0 | ANON_CLEAR => 1 end)
                         :: replicate 15 0
  end.

Record OicSecAce_t : Type := mk_ace {
  a_subject : subject; a_resources : list OicSecRsrc_t; a_permission : Z;
  a_validities : list OicSecValidity_t; a_aceid : Z }.

Record OicSecAcl_t : Type := mk_acl { acl_rownerID : OicUuid_t; aces : list OicSecAce_t }.

Definition set_acl_rownerID v a := mk_acl v (aces a).
Definition set_aces v a := mk_acl (acl_rownerID a) v.

(** ** Credentials *)

(** [k_data] is [None] for a null pointer. *)
Record OicSecKey_t : Type := mk_key { k_data : option (list Z); k_len : Z; k_encoding : Z }.

(** [OicSecOpt_t]: a key and a revocation status. *)
Record OicSecOpt_t : Type := mk_opt { o_key :> OicSecKey_t; o_revstat : bool }.

Definition OIC_ENCODING_UNKNOWN : Z := 0.
Definition OIC_ENCODING_RAW : Z := 1.
Definition OIC_ENCODING_BASE64 : Z := 2.
Definition OIC_ENCODING_PEM : Z := 3.
Definition OIC_ENCODING_DER : Z := 4.

Record OicSecCred_t : Type := mk_cred {
  c_credId : Z; c_subject : OicUuid_t; c_roleId : OicSecRole_t; c_credType : Z;
  c_publicData : OicSecKey_t; c_credUsage : option string; c_optionalData : OicSecOpt_t;
  c_privateData : OicSecKey_t; c_period : option string; c_rownerID : OicUuid_t }.

Definition set_credId v c := mk_cred v (c_subject c) (c_roleId c) (c_credType c)
  (c_publicData c) (c_credUsage c) (c_optionalData c) (c_privateData c) (c_period c)
  (c_rownerID c).
Definition set_c_subject v c := mk_cred (c_credId c) v (c_roleId c) (c_credType c)
  (c_publicData c) (c_credUsage c) (c_optionalData c) (c_privateData c) (c_period c)
  (c_rownerID c).

(** ** The layers below *)

(** Calls into the resource and connectivity layers, the application's
    callbacks and the resources that are not modelled; each succeeds or fails. *)
Inductive ext_call : Type :=
| OCCreateResource (uri : string) | OCDeleteResource (uri : string)
| OCDoResponse (ehResult : OCEntityHandlerResult) (payload : list Z)
| CAEnableAnonECDHCipherSuite (enable : bool)
| CAregisterSslHandshakeCallback (* DoxmDTLSHandshakeCB *)
| CASelectCipherSuite (cipher adapter : Z)
| GeneratePin | SetUuidForPinBasedOxm (uuid : OicUuid_t) | ClosePinDisplay
| CAregisterPskCredentialsHandler | CAregisterPkixInfoHandler
| CAregisterIdentityHandler | CAregisterGetCredentialTypesHandler
| VerifyOwnershipTransfer (mutualVerifNum : option (list Z)) (userConfirm : bool)
| InitSvr (name : string) | DeInitSvr (name : string).

Class Platform (W : Type) : Type := {
  ext : ext_call -> W -> bool * W;
  random_uuid : W -> option (list Z) * W;
  generate_owner_psk : string -> OicUuid_t -> OicUuid_t -> W -> option (list Z);
  sha256 : list Z -> option (list Z);
  mbedtls_base64_encode : list Z -> option (list Z) }.

(** ** The file-level variables *)

(** [gPstat] and [gDoxm] are null, point to the file's static default, which is
    then modified in place, or to an allocated structure. *)
Inductive ref (A : Type) : Type := RNull | RDefault | RHeap (a : A).
Arguments RNull {A}.
Arguments RDefault {A}.
Arguments RHeap {A} a.

Record SVR (W : Type) : Type := mk_svr {
  gDefaultPstat : OicSecPstat_t; gPstat : ref OicSecPstat_t;
  gDefaultDoxm : OicSecDoxm_t; gDoxm : ref OicSecDoxm_t; gUuidSeed : list Z;
  gAcl : option OicSecAcl_t; gAceFreeId : Z;
  gCred : list OicSecCred_t; gRownerId : OicUuid_t;
  world : W }.
Arguments mk_svr {W}.
Arguments gDefaultPstat {W}.
Arguments gPstat {W}.
Arguments gDefaultDoxm {W}.
Arguments gDoxm {W}.
Arguments gUuidSeed {W}.
Arguments gAcl {W}.
Arguments gAceFreeId {W}.
Arguments gCred {W}.
Arguments gRownerId {W}.
Arguments world {W}.

Section state.
Context {W : Type}.
Implicit Type s : SVR W.

Definition with_pstats (dflt : OicSecPstat_t) (r : ref OicSecPstat_t) s :=
  mk_svr dflt r (gDefaultDoxm s) (gDoxm s) (gUuidSeed s) (gAcl s) (gAceFreeId s) (gCred s) (gRownerId s)
    (world s).
Definition with_doxms (dflt : OicSecDoxm_t) (r : ref OicSecDoxm_t) s :=
  mk_svr (gDefaultPstat s) (gPstat s) dflt r (gUuidSeed s) (gAcl s) (gAceFreeId s) (gCred s) (gRownerId s)
    (world s).
Definition with_seed (x : list Z) s :=
  mk_svr (gDefaultPstat s) (gPstat s) (gDefaultDoxm s) (gDoxm s) x (gAcl s) (gAceFreeId s) (gCred s)
    (gRownerId s) (world s).
Definition with_acl (x : option OicSecAcl_t) s :=
  mk_svr (gDefaultPstat s) (gPstat s) (gDefaultDoxm s) (gDoxm s) (gUuidSeed s) x (gAceFreeId s) (gCred s)
    (gRownerId s) (world s).
Definition with_free_id (x : Z) s :=
  mk_svr (gDefaultPstat s) (gPstat s) (gDefaultDoxm s) (gDoxm s) (gUuidSeed s) (gAcl s) x
    (gCred s) (gRownerId s) (world s).
Definition with_cred (x : list OicSecCred_t) s :=
  mk_svr (gDefaultPstat s) (gPstat s) (gDefaultDoxm s) (gDoxm s) (gUuidSeed s) (gAcl s) (gAceFreeId s) x
    (gRownerId s) (world s).
Definition with_rowner (x : OicUuid_t) s :=
  mk_svr (gDefaultPstat s) (gPstat s) (gDefaultDoxm s) (gDoxm s) (gUuidSeed s) (gAcl s) (gAceFreeId s)
    (gCred s) x (world s).
Definition with_world (x : W) s :=
  mk_svr (gDefaultPstat s) (gPstat s) (gDefaultDoxm s) (gDoxm s) (gUuidSeed s) (gAcl s) (gAceFreeId s)
    (gCred s) (gRownerId s) x.

(** The structure [gPstat] points to, and an update of it in place. *)
Definition pstat s : option OicSecPstat_t :=
  match gPstat s with RNull => None | RDefault => Some (gDefaultPstat s) | RHeap p => Some p end.
Definition upd_pstat (f : OicSecPstat_t -> OicSecPstat_t) s : SVR W :=
  match gPstat s with
  | RNull => s
  | RDefault => with_pstats (f (gDefaultPstat s)) RDefault s
  | RHeap p => with_pstats (gDefaultPstat s) (RHeap (f p)) s
  end.
Definition point_pstat (r : ref OicSecPstat_t) s : SVR W := with_pstats (gDefaultPstat s) r s.

Definition doxm s : option OicSecDoxm_t :=
  match gDoxm s with RNull => None | RDefault => Some (gDefaultDoxm s) | RHeap d => Some d end.
Definition upd_doxm (f : OicSecDoxm_t -> OicSecDoxm_t) s : SVR W :=
  match gDoxm s with
  | RNull => s
  | RDefault => with_doxms (f (gDefaultDoxm s)) RDefault s
  | RHeap d => with_doxms (gDefaultDoxm s) (RHeap (f d)) s
  end.
Definition point_doxm (r : ref OicSecDoxm_t) s : SVR W := with_doxms (gDefaultDoxm s) r s.

(** A function of the storage layer, and a call of another layer. *)
Definition on_world {A} (m : M W A) : M (SVR W) A := fun s =>
  match m (world s) with Some (a, w) => Some (a, with_world w s) | None => None end.

Definition call {P : Platform W} (c : ext_call) : M (SVR W) bool := fun s =>
  let '(b, w) := ext c (world s) in Some (b, with_world w s).

(** [OC_VERIFY(call)]. *)
Definition verify {P : Platform W} (c : ext_call) : M (SVR W) unit :=
  let! ok := call c in demand (if ok : bool then Some tt else None).

(** Calls of other layers change [world] only. *)
Definition only_world s s' : Prop := exists w, s' = with_world w s.
#[export] Instance only_world_preorder : PreOrder only_world.
Proof.
  split.
  - intros s. exists (world s). by destruct s.
  - intros s1 s2 s3 [w ->] [w' ->]. by exists w'.
Qed.

Lemma keeps_on_world {A} (m : M W A) : keeps only_world (on_world m).
Proof.
  intros s a s'. unfold on_world. destruct (m (world s)) as [[b w]|]; [|done].
  intros [= _ <-]. by exists w.
Qed.
Lemma keeps_call {P : Platform W} c : keeps only_world (call c).
Proof. intros s a s'. unfold call. destruct (ext c (world s)) as [b w]. intros [= _ <-]. by exists w. Qed.
Lemma keeps_verify {P : Platform W} c : keeps only_world (verify c).
Proof.
  unfold verify. apply keeps_bind; [exact _|apply keeps_call|].
  intros. apply keeps_demand. exact _.
Qed.

(** ** Reading what was updated *)

Lemma pstat_upd f s : pstat (upd_pstat f s) = f <$> pstat s.
Proof. unfold pstat, upd_pstat. destruct s as [? [] ? ? ? ? ? ? ? ?]; done. Qed.

Lemma doxm_upd f s : doxm (upd_doxm f s) = f <$> doxm s.
Proof. unfold doxm, upd_doxm. destruct s as [? ? ? [] ? ? ? ? ? ?]; done. Qed.

Lemma upd_pstat_twice f g s : upd_pstat f (upd_pstat g s) = upd_pstat (fun p => f (g p)) s.
Proof. unfold upd_pstat. destruct s as [? [] ? ? ? ? ? ? ? ?]; done. Qed.

Lemma doxm_upd_pstat f s : doxm (upd_pstat f s) = doxm s.
Proof. unfold doxm, upd_pstat. destruct s as [? [] ? ? ? ? ? ? ? ?]; done. Qed.

Lemma pstat_upd_doxm f s : pstat (upd_doxm f s) = pstat s.
Proof. unfold pstat, upd_doxm. destruct s as [? ? ? [] ? ? ? ? ? ?]; done. Qed.

Lemma gAcl_upd_pstat f s : gAcl (upd_pstat f s) = gAcl s.
Proof. unfold upd_pstat. by destruct (gPstat s). Qed.
Lemma gAcl_upd_doxm f s : gAcl (upd_doxm f s) = gAcl s.
Proof. unfold upd_doxm. by destruct (gDoxm s). Qed.
Lemma gAceFreeId_upd_pstat f s : gAceFreeId (upd_pstat f s) = gAceFreeId s.
Proof. unfold upd_pstat. by destruct (gPstat s). Qed.
Lemma gAceFreeId_upd_doxm f s : gAceFreeId (upd_doxm f s) = gAceFreeId s.
Proof. unfold upd_doxm. by destruct (gDoxm s). Qed.
Lemma gCred_upd_pstat f s : gCred (upd_pstat f s) = gCred s.
Proof. unfold upd_pstat. by destruct (gPstat s). Qed.
Lemma gCred_upd_doxm f s : gCred (upd_doxm f s) = gCred s.
Proof. unfold upd_doxm. by destruct (gDoxm s). Qed.
Lemma gRownerId_upd_pstat f s : gRownerId (upd_pstat f s) = gRownerId s.
Proof. unfold upd_pstat. by destruct (gPstat s). Qed.
Lemma gRownerId_upd_doxm f s : gRownerId (upd_doxm f s) = gRownerId s.
Proof. unfold upd_doxm. by destruct (gDoxm s). Qed.
Lemma world_upd_pstat f s : world (upd_pstat f s) = world s.
Proof. unfold upd_pstat. by destruct (gPstat s). Qed.
Lemma world_upd_doxm f s : world (upd_doxm f s) = world s.
Proof. unfold upd_doxm. by destruct (gDoxm s). Qed.

(** The fields of a state of which one was replaced. *)
Lemma pstat_with_world x s : pstat (with_world x s) = pstat s.
Proof. done. Qed.
Lemma doxm_with_world x s : doxm (with_world x s) = doxm s.
Proof. done. Qed.
Lemma gAcl_with_world x s : gAcl (with_world x s) = gAcl s.
Proof. done. Qed.
Lemma gCred_with_world x s : gCred (with_world x s) = gCred s.
Proof. done. Qed.
Lemma gRownerId_with_world x s : gRownerId (with_world x s) = gRownerId s.
Proof. done. Qed.
Lemma gAceFreeId_with_world x s : gAceFreeId (with_world x s) = gAceFreeId s.
Proof. done. Qed.
Lemma world_with_world x s : world (with_world x s) = x.
Proof. done. Qed.
Lemma pstat_with_acl x s : pstat (with_acl x s) = pstat s.
Proof. done. Qed.
Lemma doxm_with_acl x s : doxm (with_acl x s) = doxm s.
Proof. done. Qed.
Lemma gAcl_with_acl x s : gAcl (with_acl x s) = x.
Proof. done. Qed.
Lemma gCred_with_acl x s : gCred (with_acl x s) = gCred s.
Proof. done. Qed.
Lemma gRownerId_with_acl x s : gRownerId (with_acl x s) = gRownerId s.
Proof. done. Qed.
Lemma gAceFreeId_with_acl x s : gAceFreeId (with_acl x s) = gAceFreeId s.
Proof. done. Qed.
Lemma world_with_acl x s : world (with_acl x s) = world s.
Proof. done. Qed.
Lemma pstat_with_cred x s : pstat (with_cred x s) = pstat s.
Proof. done. Qed.
Lemma doxm_with_cred x s : doxm (with_cred x s) = doxm s.
Proof. done. Qed.
Lemma gAcl_with_cred x s : gAcl (with_cred x s) = gAcl s.
Proof. done. Qed.
Lemma gCred_with_cred x s : gCred (with_cred x s) = x.
Proof. done. Qed.
Lemma gRownerId_with_cred x s : gRownerId (with_cred x s) = gRownerId s.
Proof. done. Qed.
Lemma gAceFreeId_with_cred x s : gAceFreeId (with_cred x s) = gAceFreeId s.
Proof. done. Qed.
Lemma world_with_cred x s : world (with_cred x s) = world s.
Proof. done. Qed.
Lemma pstat_with_rowner x s : pstat (with_rowner x s) = pstat s.
Proof. done. Qed.
Lemma doxm_with_rowner x s : doxm (with_rowner x s) = doxm s.
Proof. done. Qed.
Lemma gAcl_with_rowner x s : gAcl (with_rowner x s) = gAcl s.
Proof. done. Qed.
Lemma gCred_with_rowner x s : gCred (with_rowner x s) = gCred s.
Proof. done. Qed.
Lemma gRownerId_with_rowner x s : gRownerId (with_rowner x s) = x.
Proof. done. Qed.
Lemma gAceFreeId_with_rowner x s : gAceFreeId (with_rowner x s) = gAceFreeId s.
Proof. done. Qed.
Lemma world_with_rowner x s : world (with_rowner x s) = world s.
Proof. done. Qed.
Lemma pstat_with_free_id x s : pstat (with_free_id x s) = pstat s.
Proof. done. Qed.
Lemma doxm_with_free_id x s : doxm (with_free_id x s) = doxm s.
Proof. done. Qed.
Lemma gAcl_with_free_id x s : gAcl (with_free_id x s) = gAcl s.
Proof. done. Qed.
Lemma gCred_with_free_id x s : gCred (with_free_id x s) = gCred s.
Proof. done. Qed.
Lemma gRownerId_with_free_id x s : gRownerId (with_free_id x s) = gRownerId s.
Proof. done. Qed.
Lemma gAceFreeId_with_free_id x s : gAceFreeId (with_free_id x s) = x.
Proof. done. Qed.
Lemma world_with_free_id x s : world (with_free_id x s) = world s.
Proof. done. Qed.

(** Updates that agree on the structure pointed to are the same. *)
Lemma upd_pstat_ext f g s p : pstat s = Some p -> f p = g p -> upd_pstat f s = upd_pstat g s.
Proof.
  unfold pstat, upd_pstat. destruct s as [? [] ? ? ? ? ? ? ? ?]; simpl; [done| |];
    by intros [= ->] ->.
Qed.
Lemma upd_pstat_same f s p : pstat s = Some p -> f p = p -> upd_pstat f s = s.
Proof.
  unfold pstat, upd_pstat, with_pstats. destruct s as [? [] ? ? ? ? ? ? ? ?]; simpl; [done| |];
    by intros [= ->] ->.
Qed.

End state.

End Svr.

#[export] Hint Resolve Svr.keeps_on_world Svr.keeps_call Svr.keeps_verify : keeps.
#[export] Hint Rewrite @Svr.pstat_upd @Svr.doxm_upd @Svr.doxm_upd_pstat @Svr.pstat_upd_doxm
  @Svr.gAcl_upd_pstat @Svr.gAcl_upd_doxm @Svr.gCred_upd_pstat @Svr.gCred_upd_doxm
  @Svr.gRownerId_upd_pstat @Svr.gRownerId_upd_doxm @Svr.gAceFreeId_upd_pstat @Svr.gAceFreeId_upd_doxm
  @Svr.world_upd_pstat @Svr.world_upd_doxm : svr.
#[export] Hint Rewrite @Svr.pstat_with_world @Svr.doxm_with_world @Svr.gAcl_with_world
  @Svr.gCred_with_world @Svr.gRownerId_with_world @Svr.gAceFreeId_with_world
  @Svr.world_with_world @Svr.pstat_with_acl @Svr.doxm_with_acl @Svr.gAcl_with_acl
  @Svr.gCred_with_acl @Svr.gRownerId_with_acl @Svr.gAceFreeId_with_acl @Svr.world_with_acl
  @Svr.pstat_with_cred @Svr.doxm_with_cred @Svr.gAcl_with_cred @Svr.gCred_with_cred
  @Svr.gRownerId_with_cred @Svr.gAceFreeId_with_cred @Svr.world_with_cred @Svr.pstat_with_rowner
  @Svr.doxm_with_rowner @Svr.gAcl_with_rowner @Svr.gCred_with_rowner @Svr.gRownerId_with_rowner
  @Svr.gAceFreeId_with_rowner @Svr.world_with_rowner @Svr.pstat_with_free_id
  @Svr.doxm_with_free_id @Svr.gAcl_with_free_id @Svr.gCred_with_free_id
  @Svr.gRownerId_with_free_id @Svr.gAceFreeId_with_free_id @Svr.world_with_free_id : svr.

(** Computes what a field of an updated state is. *)
Ltac svr_simpl := autorewrite with svr.
