(* ===== verification/Pstat.v ===== *)
(** * The provisioning status resource, /oic/sec/pstat ([sec/svrs/pstatresource.c])

    Access modes, CBOR format, persistent storage, the accessors the onboarding
    state machine uses, initialization and the GET handler.  The POST handler
    changes the onboarding state and is in [Handlers]. *)

From S2P Require Import Prelude.
From S2P Require Import Status.
From S2P Require Import CString.
From S2P Require Import OcRandom.
From S2P Require Import SrmUtility.
From S2P Require Import Cbor.
From S2P Require Import PsInterface.
From S2P Require Import Svr.
Import CString OcRandom SrmUtility Cbor PsInterface Svr.

Module Pstat.

Open Scope m_scope.

Definition CBOR_SIZE : Z := 512.
Definition CBOR_MAX_SIZE : Z := 4400.

Definition PERMISSION_READ : Z := Z.shiftl 1 1.
Definition PERMISSION_WRITE : Z := Z.shiftl 1 2.

(** ** Access modes *)

Inductive PstatProperty_t : Type :=
| PSTAT_DOS | PSTAT_ISOP | PSTAT_CM | PSTAT_TM | PSTAT_OM | PSTAT_SM | PSTAT_ROWNERUUID.

(** A row per property; columns RESET, RFOTM, RFPRO, RFNOP, SRESET. *)
Definition gPstatPropertyAccessModes (p : PstatProperty_t) : list Z :=
  let R := PERMISSION_READ in
  let RW := Z.lor PERMISSION_READ PERMISSION_WRITE in
  match p with
  | PSTAT_DOS => [R; RW; RW; RW; RW]
  | PSTAT_ISOP => [R; R; R; R; R]
  | PSTAT_CM => [R; R; R; R; R]
  | PSTAT_TM => [R; RW; RW; RW; RW]
  | PSTAT_OM => [R; RW; RW; RW; RW]
  | PSTAT_SM => [R; R; R; R; R]
  | PSTAT_ROWNERUUID => [R; RW; R; R; RW]
  end.

(** Undefined for a state outside the table. *)
Definition IsPropertyReadOnly (p : PstatProperty_t) (s : Z) : option bool :=
  mode ← load (gPstatPropertyAccessModes p) s;
  Some (PERMISSION_READ =? mode).

(** ** CBOR format *)

Definition OIC_JSON_DOS_NAME : string := "dos".
Definition OIC_JSON_S_NAME : string := "s".
Definition OIC_JSON_P_NAME : string := "p".
Definition OIC_JSON_ISOP_NAME : string := "isop".
Definition OIC_JSON_CM_NAME : string := "cm".
Definition OIC_JSON_TM_NAME : string := "tm".
Definition OIC_JSON_OM_NAME : string := "om".
Definition OIC_JSON_SM_NAME : string := "sm".
Definition OIC_JSON_ROWNERID_NAME : string := "rowneruuid".
Definition OIC_JSON_RT_NAME : string := "rt".
Definition OIC_JSON_IF_NAME : string := "if".
Definition OIC_RSRC_TYPE_SEC_PSTAT : string := "oic.r.pstat".
Definition OC_RSRVD_INTERFACE : string := "if".
Definition OC_RSRVD_INTERFACE_DEFAULT : string := "oic.if.baseline".

(** A property that is written when its flag is set. *)
Definition included (b : bool) (k : string) (v : cbor) : list (cbor * cbor) :=
  if b then [field k v] else [].

(** The resource type and interface every resource ends with. *)
Definition rt_if (rt : string) : list (cbor * cbor) :=
  [field OIC_JSON_RT_NAME (CArray [CText rt]);
   field OIC_JSON_IF_NAME (CArray [CText OC_RSRVD_INTERFACE_DEFAULT])].

Definition pstat_map (p : OicSecPstat_t) (sm0 : Z) (uuid : string)
    (propertiesToInclude : PstatProperty_t -> bool) (includeDosP : bool) :
    list (cbor * cbor) :=
  included (propertiesToInclude PSTAT_DOS) OIC_JSON_DOS_NAME
    (CMap (field OIC_JSON_S_NAME (CInt (p_state p))
           :: included includeDosP OIC_JSON_P_NAME (CBool (p_pending p))))
  ++ included (propertiesToInclude PSTAT_ISOP) OIC_JSON_ISOP_NAME (CBool (p_isOp p))
  ++ included (propertiesToInclude PSTAT_CM) OIC_JSON_CM_NAME (CInt (p_cm p))
  ++ included (propertiesToInclude PSTAT_TM) OIC_JSON_TM_NAME (CInt (p_tm p))
  ++ included (propertiesToInclude PSTAT_OM) OIC_JSON_OM_NAME (CInt (p_om p))
  ++ included (propertiesToInclude PSTAT_SM) OIC_JSON_SM_NAME (CInt sm0)
  ++ included (propertiesToInclude PSTAT_ROWNERUUID) OIC_JSON_ROWNERID_NAME (CText uuid)
  ++ rt_if OIC_RSRC_TYPE_SEC_PSTAT.

Section codec.
Context {L : CborLib}.

(** A null [pstat] is [None]; the payload is returned on success. *)
Definition PstatToCBORPayloadPartial (pstat : option OicSecPstat_t)
    (propertiesToInclude : PstatProperty_t -> bool) (includeDosP : bool) :
    option (OCStackResult * list Z) :=
  match pstat with
  | None => Some (OC_STACK_INVALID_PARAM, [])
  | Some p =>
      sm0 ← (if propertiesToInclude PSTAT_SM then load (p_sm p) 0 else Some 0);
      match (if propertiesToInclude PSTAT_ROWNERUUID then ConvertUuidToStr (p_rownerID p)
             else (OC_STACK_OK, Some EmptyString)) with
      | (OC_STACK_OK, Some strUuid) =>
          match payload CBOR_SIZE CBOR_MAX_SIZE
                  (CMap (pstat_map p sm0 strUuid propertiesToInclude includeDosP)) with
          | Some b => Some (OC_STACK_OK, b)
          | None => Some (OC_STACK_ERROR, [])
          end
      | _ => Some (OC_STACK_ERROR, [])
      end
  end.

Definition PstatToCBORPayload (pstat : option OicSecPstat_t) :
    option (OCStackResult * list Z) :=
  PstatToCBORPayloadPartial pstat (fun _ => true) true.

(** The loop over the [dos] container: tags and values alternate, an item that
    is not a text ends it.  Reading a value of another type than the tag asks
    for fails an assertion of the CBOR library. *)
Fixpoint dos_loop (its : list cbor) (state : Z) (pending ro : bool) :
    option (Z * bool * bool) :=
  match its with
  | CText tag :: rest =>
      if String.eqb (cstr tag) OIC_JSON_S_NAME then
        match rest with
        | CInt z :: rest' => dos_loop rest' (u32 (to_int z)) pending ro
        | _ => None
        end
      else if String.eqb (cstr tag) OIC_JSON_P_NAME then
        match rest with
        | CBool b :: rest' => dos_loop rest' state b true
        | _ => None
        end
      else
        match rest with
        | _ :: rest' => dos_loop rest' state pending ro
        | [] => Some (state, pending, ro)
        end
  | _ => Some (state, pending, ro)
  end.

(** [dos]: its state, [pending] flag and whether it was read-only.  The structure
    being filled is zeroed, so a value that is no container means state 0. *)
Definition parse_dos (s : Z) (g : OicSecPstat_t) (l : list (cbor * cbor)) :
    option (Z * bool * bool) :=
  match find_value l OIC_JSON_DOS_NAME with
  | Some v =>
      if is_container v then
        ro ← IsPropertyReadOnly PSTAT_DOS s;
        dos_loop (items v) 0 false ro
      else Some (0, false, false)
  | None => Some (p_state g, p_pending g, false)
  end.

(** An integer property; the old value when it is missing. *)
Definition parse_int (s : Z) (p : PstatProperty_t) (k : string) (old : Z)
    (l : list (cbor * cbor)) : option (Z * bool) :=
  match find_value l k with
  | Some (CInt z) => ro ← IsPropertyReadOnly p s; Some (u32 (to_int z), ro)
  | _ => Some (old, false)
  end.

Definition parse_isop (s : Z) (g : OicSecPstat_t) (l : list (cbor * cbor)) :
    option (bool * bool) :=
  match find_value l OIC_JSON_ISOP_NAME with
  | Some (CBool b) => ro ← IsPropertyReadOnly PSTAT_ISOP s; Some (b, ro)
  | _ => Some (p_isOp g, false)
  end.

(** A missing [sm] is copied from the old structure, its first element only. *)
Definition parse_sm (s : Z) (g : OicSecPstat_t) (l : list (cbor * cbor)) :
    option (list Z * bool) :=
  match find_value l OIC_JSON_SM_NAME with
  | Some (CInt z) => ro ← IsPropertyReadOnly PSTAT_SM s; Some ([u32 (to_int z)], ro)
  | _ => match p_sm g with
         | x :: r => Some (x :: replicate (List.length r) 0, false)
         | [] => None
         end
  end.

(** The error is that of a malformed UUID. *)
Definition parse_rowner (s : Z) (g : OicSecPstat_t) (l : list (cbor * cbor)) :
    option (OCStackResult * OicUuid_t * bool) :=
  match find_value l OIC_JSON_ROWNERID_NAME with
  | Some (CText t) =>
      '(r, u) ← ConvertStrToUuid t THE_NIL_UUID;
      if is_ok r then ro ← IsPropertyReadOnly PSTAT_ROWNERUUID s; Some (r, u, ro)
      else Some (r, u, false)
  | _ => Some (OC_STACK_OK, p_rownerID g, false)
  end.

(** The structure read from the map [l], old values from [g]; whether a
    read-only property was met in state [s]. *)
Definition parse_pstat (s : Z) (g : OicSecPstat_t) (l : list (cbor * cbor)) :
    option (OCStackResult * option OicSecPstat_t * bool) :=
  '(state, pending, ro1) ← parse_dos s g l;
  '(isOp, ro2) ← parse_isop s g l;
  '(cm, ro3) ← parse_int s PSTAT_CM OIC_JSON_CM_NAME (p_cm g) l;
  '(tm, ro4) ← parse_int s PSTAT_TM OIC_JSON_TM_NAME (p_tm g) l;
  '(om, ro5) ← parse_int s PSTAT_OM OIC_JSON_OM_NAME (p_om g) l;
  '(sm, ro6) ← parse_sm s g l;
  '(r, rownerID, ro7) ← parse_rowner s g l;
  let ro := ro1 || ro2 || ro3 || ro4 || ro5 || ro6 || ro7 in
  if is_ok r then Some (r, Some (mk_pstat state pending isOp cm tm om sm 0 rownerID), ro)
  else Some (r, None, ro).

End codec.

Section resource.
Context {L : CborLib} {W : Type} {ST : Storage W} {P : Platform W} {CT : CoapTokens}.

Implicit Type s : SVR W.

(** [GetPstatDefault] gives the address of the static structure. *)
Definition GetPstatDefault : ref OicSecPstat_t := RDefault.

(** [secPstat_null] is [NULL == *secPstat]; [stateForReadOnlyCheck] and
    [roParsed] are those of the POST handler. *)
Definition CBORPayloadToPstatBin (cborPayload : list Z) (secPstat_null : bool)
    (stateForReadOnlyCheck : Z) : M (SVR W) (OCStackResult * option OicSecPstat_t * bool) :=
  match cborPayload with
  | [] => ret (OC_STACK_INVALID_PARAM, None, false)
  | _ :: _ =>
      if secPstat_null then
        let! g := gets gPstat in
        match g with RNull => modify (point_pstat GetPstatDefault) | _ => ret tt end ;;;
        let! old := gets pstat in
        let! g := demand old in
        let! l := demand (as_map cborPayload) in
        demand (parse_pstat stateForReadOnlyCheck g l)
      else ret (OC_STACK_INVALID_PARAM, None, false)
  end.

Definition CBORPayloadToPstat (cborPayload : list Z) (secPstat_null : bool) :
    M (SVR W) (OCStackResult * option OicSecPstat_t) :=
  let! (r, p, _) := CBORPayloadToPstatBin cborPayload secPstat_null DOS_RESET in ret (r, p).

Definition UpdatePersistentStorage (p : option OicSecPstat_t) : M (SVR W) bool :=
  let! (r, cborPayload) := demand (PstatToCBORPayload p) in
  if is_ok r then
    let! r := on_world (UpdateSecureResourceInPS OIC_JSON_PSTAT_NAME cborPayload) in
    ret (is_ok r)
  else ret false.

(** ** Accessors

    A getter returns [None] for [OC_STACK_ERROR]. *)

Definition get_pstat {A} (f : OicSecPstat_t -> A) : M (SVR W) (option A) :=
  gets (fun s => f <$> pstat s).

Definition set_pstat (f : OicSecPstat_t -> OicSecPstat_t) : M (SVR W) OCStackResult :=
  let! p := gets pstat in
  match p with
  | Some _ => modify (upd_pstat f) ;;; ret OC_STACK_OK
  | None => ret OC_STACK_ERROR
  end.

Definition GetPstatRownerId : M (SVR W) (option OicUuid_t) := get_pstat p_rownerID.
Definition IsPstatRowneruuidTheNilUuid : M (SVR W) bool :=
  gets (fun s => match pstat s with Some p => IsNilUuid (p_rownerID p) | None => true end).

(** Undone when it cannot be stored. *)
Definition SetPstatRownerId (rowneruuid : option OicUuid_t) : M (SVR W) OCStackResult :=
  match rowneruuid with
  | None => ret OC_STACK_INVALID_PARAM
  | Some u =>
      let! p := gets pstat in
      match p with
      | None => ret OC_STACK_NO_RESOURCE
      | Some p =>
          let prevId := p_rownerID p in
          modify (upd_pstat (set_p_rownerID u)) ;;;
          let! p' := gets pstat in
          let! stored := UpdatePersistentStorage p' in
          if stored then ret OC_STACK_OK
          else modify (upd_pstat (set_p_rownerID prevId)) ;;; ret OC_STACK_ERROR
      end
  end.

Definition GetPstatDosS : M (SVR W) (option Z) := get_pstat p_state.
Definition SetPstatDosS (s : Z) : M (SVR W) OCStackResult := set_pstat (set_state s).
Definition GetPstatDosP : M (SVR W) (option bool) := get_pstat p_pending.
Definition SetPstatDosP (p : bool) : M (SVR W) OCStackResult := set_pstat (set_pending p).
Definition GetPstatIsop : M (SVR W) (option bool) := get_pstat p_isOp.
Definition SetPstatIsop (isop : bool) : M (SVR W) OCStackResult := set_pstat (set_isOp isop).
Definition GetPstatCm : M (SVR W) (option Z) := get_pstat p_cm.
Definition SetPstatCm (cm : Z) : M (SVR W) OCStackResult := set_pstat (set_cm cm).
Definition GetPstatTm : M (SVR W) (option Z) := get_pstat p_tm.
Definition SetPstatTm (tm : Z) : M (SVR W) OCStackResult := set_pstat (set_tm tm).

(** [GetDos] ([sec/dox/deviceonboardingstate.c]): the state and its pending flag. *)
Definition GetDos : M (SVR W) (option (Z * bool)) :=
  let! state := GetPstatDosS in
  let! pending := GetPstatDosP in
  ret (s ← state; p ← pending; Some (s, p)).

Definition SetPstatSelfOwnership (newROwner : option OicUuid_t) : M (SVR W) OCStackResult :=
  let! p := gets pstat in
  match p, newROwner with
  | None, _ => ret OC_STACK_NO_RESOURCE
  | Some p, Some u =>
      if negb (p_isOp p) && flag_set TAKE_OWNER (p_cm p) then
        modify (upd_pstat (fun p => set_p_rownerID u (set_isOp true
          (set_cm (Z.ldiff (p_cm p) TAKE_OWNER) p)))) ;;;
        let! p' := gets pstat in
        let! (r, b) := demand (PstatToCBORPayload p') in
        if is_ok r then on_world (UpdateSecureResourceInPS OIC_JSON_PSTAT_NAME b)
        else ret r
      else ret OC_STACK_ERROR
  | Some _, None => ret OC_STACK_ERROR
  end.

(** ** Initialization *)

Definition result_of (ok : bool) : OCStackResult := if ok then OC_STACK_OK else OC_STACK_ERROR.

(** The static default stays in place when [gPstat] points to it. *)
Definition DeInitPstatResource : M (SVR W) OCStackResult :=
  let! g := gets gPstat in
  match g with RDefault => ret tt | _ => modify (point_pstat RNull) end ;;;
  let! ok := call (OCDeleteResource OIC_RSRC_PSTAT_URI) in ret (result_of ok).

Definition CreatePstatResource : M (SVR W) OCStackResult :=
  let! ok := call (OCCreateResource OIC_RSRC_PSTAT_URI) in
  if negb ok then DeInitPstatResource ;;; ret OC_STACK_ERROR else ret OC_STACK_OK.

(** [CBORPayloadToPstat] is given [&gPstat]: it refuses to fill it when it is
    not null, and otherwise leaves the default there when it fails. *)
Definition InitPstatResource : M (SVR W) OCStackResult :=
  let! (r, data) := on_world (GetSecureVirtualDatabaseFromPS (Some OIC_JSON_PSTAT_NAME)) in
  let! r :=
    match data with
    | Some b =>
        let! g := gets gPstat in
        let! (r, p) := CBORPayloadToPstat b (match g with RNull => true | _ => false end) in
        match p with Some p => modify (point_pstat (RHeap p)) | None => ret tt end ;;; ret r
    | None => ret r
    end in
  let! g := gets gPstat in
  (if negb (is_ok r) || (match g with RNull => true | _ => false end)
   then modify (point_pstat GetPstatDefault) else ret tt) ;;;
  let! r := CreatePstatResource in
  if is_ok r then ret r else DeInitPstatResource ;;; ret r.

Definition InitPstatResourceToDefault : M (SVR W) OCStackResult :=
  modify (point_pstat GetPstatDefault) ;;; ret OC_STACK_OK.

(** ** GET *)

(** The part of [OCEntityHandlerRequest] the handlers read.  A payload is given by
    its data: [None] for a null pointer, [Some nil] for no bytes. *)
Inductive OCMethod : Type :=
| OC_REST_GET | OC_REST_PUT | OC_REST_POST | OC_REST_DELETE | OC_REST_OTHER.
Record request : Type := mk_request {
  req_method : OCMethod;
  req_query : option string; req_payload : option (list Z); req_adapter : Z }.

(** [SendSRMResponse] ([sec/svrs/resourcemanager.c]). *)
Definition SendSRMResponse (ehRet : OCEntityHandlerResult) (cborPayload : list Z) :
    M (SVR W) OCStackResult :=
  let! ok := call (OCDoResponse ehRet cborPayload) in ret (result_of ok).

Definition respond (ehRet : OCEntityHandlerResult) (cborPayload : list Z) :
    M (SVR W) OCEntityHandlerResult :=
  let! r := SendSRMResponse ehRet cborPayload in ret (if is_ok r then OC_EH_OK else OC_EH_ERROR).

Definition ValidateQuery (query : string) : M (SVR W) bool :=
  let! p := gets pstat in
  match p with
  | None => ret false
  | Some _ =>
      let its := ParseQueryIterInit query in
      let bInterfaceQry := existsb (fun it => attr_is query it OC_RSRVD_INTERFACE) its in
      let bInterfaceMatch := existsb (fun it => attr_is query it OC_RSRVD_INTERFACE
        && val_is query it OC_RSRVD_INTERFACE_DEFAULT) its in
      ret (if bInterfaceQry then bInterfaceMatch else true)
  end.

Definition HandlePstatGetRequest (req : request) : M (SVR W) OCEntityHandlerResult :=
  let! ok := match req_query req with Some q => ValidateQuery q | None => ret true end in
  if ok : bool then
    let! p := gets pstat in
    let! (_, b) := demand (PstatToCBORPayload p) in
    respond OC_EH_OK b
  else respond OC_EH_ERROR [].

End resource.

(** ** Properties *)

(** A structure the encoder can write: machine integers and one supported mode. *)
Definition wf_pstat (p : OicSecPstat_t) : Prop :=
  in_width 32 (p_state p) /\ in_width 32 (p_cm p) /\ in_width 32 (p_tm p) /\
  in_width 32 (p_om p) /\ (exists m, p_sm p = [m] /\ in_width 32 m) /\
  p_commitHash p = 0 /\ is_uuid (p_rownerID p).

Lemma u32_to_int z : in_width 32 z -> u32 (to_int z) = z.
Proof.
  intros H. unfold to_int, wrap. unfold in_width in H. rewrite (Z.mod_small z) by lia.
  destruct (Z.ltb_spec z (2 ^ 31)).
  - by apply Z.mod_small.
  - rewrite <- (Z_mod_plus_full _ 1), Z.mod_small by lia. lia.
Qed.

Lemma length_uuid_string u : is_uuid u ->
  String.length (c_string (uuid_text u ++ [0])) = 36%nat.
Proof.
  intros Hu. pose proof (uuid_text_format u (proj2 Hu) (proj1 Hu)) as (_ & Hlen & _).
  pose proof (codes_c_string _ (uuid_text_chars _ Hu) []) as Hc.
  apply (f_equal List.length) in Hc. rewrite Hlen in Hc. rewrite <- Hc.
  unfold codes. rewrite length_fmap. clear.
  induction (c_string (uuid_text u ++ [0])); simpl; congruence.
Qed.

Section properties.
Context {L : CborLib} {LL : CborLaws}.

(** The encoder always succeeds, the buffer being large enough. *)
Lemma PstatToCBORPayload_total p : wf_pstat p -> exists b m u,
  p_sm p = [m] /\ u = c_string (uuid_text (p_rownerID p) ++ [0]) /\
  payload CBOR_SIZE CBOR_MAX_SIZE (CMap (pstat_map p m u (fun _ => true) true)) = Some b /\
  PstatToCBORPayload (Some p) = Some (OC_STACK_OK, b).
Proof.
  intros (_ & _ & _ & _ & (m & Hm & _) & _ & Hu).
  destruct (payload_fits CBOR_SIZE CBOR_MAX_SIZE
    (CMap (pstat_map p m (c_string (uuid_text (p_rownerID p) ++ [0]))
             (fun _ => true) true))) as [b Hb].
  { cbn [size_bound pstat_map included app rt_if field list_sum]. rewrite length_uuid_string by done.
    by vm_compute. }
  exists b, m, (c_string (uuid_text (p_rownerID p) ++ [0])). split_and!; try done.
  unfold PstatToCBORPayload, PstatToCBORPayloadPartial. rewrite Hm, ConvertUuidToStr_ok by done.
  change (load [m] 0) with (Some m). cbn [mbind option_bind]. by rewrite Hb.
Qed.

Lemma dos_loop_map z b ro :
  dos_loop (items (CMap [field OIC_JSON_S_NAME (CInt z); field OIC_JSON_P_NAME (CBool b)]))
    0 false ro = Some (u32 (to_int z), b, true).
Proof. reflexivity. Qed.

Ltac go := cbn -[IsPropertyReadOnly ConvertStrToUuid wrap to_int orb dos_loop items THE_NIL_UUID].

(** What the encoder writes is read back, whatever the old structure is. *)
Lemma parse_pstat_map s g p m : wf_pstat p -> p_sm p = [m] -> 0 <= s < 5 ->
  exists ro, parse_pstat s g
    (pstat_map p m (c_string (uuid_text (p_rownerID p) ++ [0])) (fun _ => true) true)
  = Some (OC_STACK_OK, Some p, ro).
Proof.
  intros (H1 & H2 & H3 & H4 & (m' & Hm' & Hm) & Hh & Hu) Hsm Hs.
  rewrite Hsm in Hm'. injection Hm' as <-.
  assert (Hro : forall q, exists b, IsPropertyReadOnly q s = Some b).
  { intros q. unfold IsPropertyReadOnly.
    destruct (load_in (gPstatPropertyAccessModes q) s) as [v ->]; [by destruct q|].
    by eexists. }
  destruct (Hro PSTAT_DOS) as [b1 E1], (Hro PSTAT_ISOP) as [b2 E2], (Hro PSTAT_CM) as [b3 E3],
    (Hro PSTAT_TM) as [b4 E4], (Hro PSTAT_OM) as [b5 E5], (Hro PSTAT_SM) as [b6 E6],
    (Hro PSTAT_ROWNERUUID) as [b7 E7].
  assert (E8 := ConvertStrToUuid_text (p_rownerID p) THE_NIL_UUID Hu).
  set (u := c_string (uuid_text (p_rownerID p) ++ [0])) in *. clearbody u.
  unfold parse_pstat, parse_dos, parse_isop, parse_int, parse_sm, parse_rowner.
  go. rewrite E1. go. rewrite dos_loop_map. go. rewrite E2. go. rewrite E3. go.
  rewrite E4. go. rewrite E5. go. rewrite E6. go. rewrite E8. go. rewrite E7. go.
  rewrite !u32_to_int by done. eexists. do 3 f_equal.
  destruct p; simpl in *. by subst.
Qed.

Context {W : Type}.
Implicit Type s : SVR W.

(** Encoding and decoding: the encoder succeeds on every well-formed status, and
    the decoder, started with a null pointer, gives the same status back. *)
Theorem pstat_cbor_roundtrip p s : wf_pstat p ->
  exists b, PstatToCBORPayload (Some p) = Some (OC_STACK_OK, b) /\
    exists s', CBORPayloadToPstat b true s = Some (OC_STACK_OK, Some p, s') /\
      (gPstat s <> RNull -> s' = s).
Proof.
  intros Hp. destruct (PstatToCBORPayload_total p Hp) as (b & m & u & Hm & -> & Hb & Ht).
  exists b. split; [done|].
  unfold CBORPayloadToPstat, CBORPayloadToPstatBin.
  pose proof (payload_nonempty _ _ _ _ Hb) as Hne. apply parse_payload in Hb.
  assert (Hmap : as_map b = Some (pstat_map p m (c_string (uuid_text (p_rownerID p)
    ++ [0])) (fun _ => true) true)) by (unfold as_map; by rewrite Hb).
  destruct b as [|x b]; [done|]. clear Hb Ht Hne.
  set (s0 := match gPstat s with RNull => point_pstat RDefault s | _ => s end).
  assert (Hg : exists g, pstat s0 = Some g).
  { unfold s0, pstat, point_pstat. destruct s as [? [] ? ? ? ? ? ? ? ?]; simpl; eauto. }
  destruct Hg as [g Hg].
  destruct (parse_pstat_map DOS_RESET g p m Hp Hm) as [ro Hro]; [by vm_compute|].
  exists s0. split.
  - unfold bind at 1 2 3, gets at 1.
    replace (match gPstat s with RNull => modify (point_pstat GetPstatDefault) | _ => ret tt end s)
      with (Some (tt, s0)) by (unfold s0; by destruct (gPstat s)).
    unfold bind, gets, demand, ret. rewrite Hg, Hmap, Hro. done.
  - unfold s0. by destruct (gPstat s).
Qed.

End properties.

Lemma is_ro_some q st : 0 <= st < 5 -> exists b, IsPropertyReadOnly q st = Some b.
Proof.
  intros Hs. unfold IsPropertyReadOnly.
  destruct (load_in (gPstatPropertyAccessModes q) st) as [v ->]; [by destruct q|]. by eexists.
Qed.

(** The states of the table, one by one. *)
Lemma dos_cases st : 0 <= st < 5 ->
  st = DOS_RESET \/ st = DOS_RFOTM \/ st = DOS_RFPRO \/ st = DOS_RFNOP \/ st = DOS_SRESET.
Proof. unfold DOS_RESET, DOS_RFOTM, DOS_RFPRO, DOS_RFNOP, DOS_SRESET. lia. Qed.

(** The server-controlled properties are read-only in every state, the owner
    outside RFOTM and SRESET. *)
Lemma server_controlled q st : q = PSTAT_ISOP \/ q = PSTAT_CM \/ q = PSTAT_SM -> 0 <= st < 5 ->
  IsPropertyReadOnly q st = Some true.
Proof.
  intros Hq Hs. destruct (dos_cases st Hs) as [->|[->|[->|[->| ->]]]];
    by destruct Hq as [->|[->| ->]].
Qed.

Lemma rowner_read_only st : 0 <= st < 5 -> st <> DOS_RFOTM -> st <> DOS_SRESET ->
  IsPropertyReadOnly PSTAT_ROWNERUUID st = Some true.
Proof.
  intros Hs H1 H2. by destruct (dos_cases st Hs) as [->|[->|[->|[->| ->]]]].
Qed.

(** A payload that meets no read-only property leaves the server-controlled
    properties as they are, and the owner too unless the state allows it. *)
Lemma parse_pstat_keeps st g l p : 0 <= st < 5 ->
  parse_pstat st g l = Some (OC_STACK_OK, Some p, false) ->
  p_isOp p = p_isOp g /\ p_cm p = p_cm g /\
  (forall m, p_sm g = [m] -> p_sm p = [m]) /\
  (st <> DOS_RFOTM -> st <> DOS_SRESET -> p_rownerID p = p_rownerID g).
Proof.
  intros Hs. unfold parse_pstat.
  destruct (parse_dos st g l) as [[[state pending] ro1]|]; [|done]. cbn [mbind option_bind].
  destruct (parse_isop st g l) as [[isOp ro2]|] eqn:E2; [|done]. cbn [mbind option_bind].
  destruct (parse_int st PSTAT_CM _ _ l) as [[cm ro3]|] eqn:E3; [|done]. cbn [mbind option_bind].
  destruct (parse_int st PSTAT_TM _ _ l) as [[tm ro4]|]; [|done]. cbn [mbind option_bind].
  destruct (parse_int st PSTAT_OM _ _ l) as [[om ro5]|]; [|done]. cbn [mbind option_bind].
  destruct (parse_sm st g l) as [[sm ro6]|] eqn:E6; [|done]. cbn [mbind option_bind].
  destruct (parse_rowner st g l) as [[[r u] ro7]|] eqn:E7; [|done]. cbn [mbind option_bind].
  destruct (is_ok r); [|done]. intros [= -> <- Hro]. simpl.
  rewrite !orb_false_iff in Hro. destruct Hro as ((((((_ & ->) & ->) & _) & _) & ->) & ->).
  unfold parse_isop, parse_int, parse_sm, parse_rowner in *.
  rewrite server_controlled in E2, E3, E6 by auto. cbn [mbind option_bind] in *.
  split_and!.
  - destruct (find_value l OIC_JSON_ISOP_NAME) as [[]|]; congruence.
  - destruct (find_value l OIC_JSON_CM_NAME) as [[]|]; congruence.
  - intros m Hm. rewrite Hm in E6. clear -E6.
    destruct (find_value l OIC_JSON_SM_NAME) as [[]|]; simpl in E6; congruence.
  - intros N1 N2. rewrite rowner_read_only in E7 by done. cbn [mbind option_bind] in E7.
    destruct (find_value l OIC_JSON_ROWNERID_NAME) as [[]|]; try (by simplify_eq).
    destruct (ConvertStrToUuid s THE_NIL_UUID) as [[r u']|]; [|done]. simpl in E7.
    by destruct r.
Qed.

Section storage.
Context {L : CborLib} {LL : CborLaws} {W : Type} {ST : Storage W} {SL : StorageLaws W}.
Implicit Type s : SVR W.

Lemma svr_name n : n ∈ [OIC_JSON_ACL_NAME; OIC_JSON_PSTAT_NAME; OIC_JSON_DOXM_NAME;
    OIC_JSON_AMACL_NAME; OIC_JSON_CRED_NAME; OIC_JSON_RESET_PF_NAME; OIC_JSON_CRL_NAME;
    OIC_JSON_SP_NAME] -> n ∈ database_names (SVR_DB_DAT_FILE_NAME (W:=W)).
Proof.
  unfold database_names. destruct (String.eqb_spec OC_DEVICE_PROPS_FILE_NAME
    (SVR_DB_DAT_FILE_NAME (W:=W))) as [E|]; [by destruct (svr_db_name (W:=W) (eq_sym E))|done].
Qed.

(** Reading a resource that is stored. *)
Lemma read_entry n b (w : W) : db_ok SVR_DB_DAT_FILE_NAME w -> entry SVR_DB_DAT_FILE_NAME w n = b ->
  b <> [] -> GetSecureVirtualDatabaseFromPS (Some n) w = Some (OC_STACK_OK, Some b, w).
Proof.
  unfold db_ok, entry, GetSecureVirtualDatabaseFromPS, ReadDatabaseFromPS, GetDatabaseSize.
  unfold bind, gets, demand, ret.
  destruct (read_file SVR_DB_DAT_FILE_NAME w) as [[|x bs]|] eqn:Hr; intros Hok <- Hne; try done.
  destruct Hok as [l Hl]. rewrite Hl in *. cbn [default].
  destruct (Z.eqb_spec (Z.of_nat (List.length (x :: bs))) 0); [simpl in *; lia|].
  rewrite Hr. cbn [from_option]. unfold id. rewrite Hl.
  unfold found in *. destruct (find_bytes l n); done.
Qed.

Definition stored (p : OicSecPstat_t) (b : list Z) : Prop :=
  PstatToCBORPayload (Some p) = Some (OC_STACK_OK, b).

(** Storing a well-formed status: success makes it the database's entry and
    keeps all others; the only effect is on the storage. *)
Lemma UpdatePersistentStorage_spec p s : wf_pstat p -> db_ok SVR_DB_DAT_FILE_NAME (world s) ->
  exists ok w', UpdatePersistentStorage (Some p) s = Some (ok, with_world w' s) /\
    (ok = true -> db_ok SVR_DB_DAT_FILE_NAME w' /\
       stored p (entry SVR_DB_DAT_FILE_NAME w' OIC_JSON_PSTAT_NAME)).
Proof.
  intros Hp Hdb. destruct (PstatToCBORPayload_total p Hp) as (b & m & u & _ & _ & Hb & Ht).
  unfold UpdatePersistentStorage, bind at 1, demand. rewrite Ht. cbn [is_ok].
  assert (Hin : OIC_JSON_PSTAT_NAME ∈ database_names (SVR_DB_DAT_FILE_NAME (W:=W)))
    by (apply svr_name; set_solver).
  destruct (UpdateResourceInPS_map SVR_DB_DAT_FILE_NAME (world s) OIC_JSON_PSTAT_NAME b)
    as (r & w' & Hu & Hr); [done|done|by eapply payload_nonempty|].
  unfold bind, on_world, UpdateSecureResourceInPS, ret. rewrite Hu.
  exists (is_ok r), w'. split; [done|]. intros Hr'. apply is_ok_true in Hr' as ->.
  destruct Hr as [(_ & Hok & He)|]; [|done]. split; [done|].
  unfold stored. rewrite He by done. rewrite String.eqb_refl. done.
Qed.

(** C35: Replacing the owner either succeeds, and the new one is in force in memory and
    stored, or answers an error with the status in memory put back to what it was.
    What a write that failed has left in the file is up to the storage. *)
Theorem SetPstatRownerId_stores_or_reverts p u s : pstat s = Some p -> wf_pstat p -> is_uuid u ->
  db_ok SVR_DB_DAT_FILE_NAME (world s) ->
  exists r s', SetPstatRownerId (Some u) s = Some (r, s') /\ doxm s' = doxm s /\
    ((r = OC_STACK_OK /\ pstat s' = Some (set_p_rownerID u p) /\
      stored (set_p_rownerID u p) (entry SVR_DB_DAT_FILE_NAME (world s') OIC_JSON_PSTAT_NAME))
     \/ (r = OC_STACK_ERROR /\ pstat s' = Some p)).
Proof.
  intros Hp Hwf Hu Hdb. unfold SetPstatRownerId. unfold bind at 1, gets at 1. rewrite Hp.
  unfold bind at 1, modify at 1. unfold bind at 1, gets at 1. rewrite pstat_upd, Hp.
  cbn [fmap option_fmap option_map].
  assert (Hwf' : wf_pstat (set_p_rownerID u p)) by (destruct Hwf as (?&?&?&?&?&?&?); by split_and!).
  assert (Hdb' : db_ok SVR_DB_DAT_FILE_NAME (world (upd_pstat (set_p_rownerID u) s))).
  { unfold upd_pstat. by destruct (gPstat s). }
  destruct (UpdatePersistentStorage_spec _ _ Hwf' Hdb') as (ok & w' & E & Hst).
  unfold bind at 1. rewrite E. destruct ok.
  - do 2 eexists. split; [done|]. split; [by svr_simpl|]. left.
    split; [done|]. split; [svr_simpl; by rewrite Hp|].
    by destruct Hst.
  - do 2 eexists. split; [done|]. svr_simpl. split; [done|]. right.
    split; [done|]. rewrite Hp. cbn. f_equal. by destruct p.
Qed.

Context {P : Platform W}.

(** Restart: a status that was stored is in force again after the resource is
    initialized from the same storage, provided [gPstat] starts out null. *)
Theorem pstat_survives_restart p s1 s1' s2 : wf_pstat p ->
  db_ok SVR_DB_DAT_FILE_NAME (world s1) ->
  UpdatePersistentStorage (Some p) s1 = Some (true, s1') ->
  world s2 = world s1' -> gPstat s2 = RNull ->
  fst (ext (OCCreateResource OIC_RSRC_PSTAT_URI) (world s1')) = true ->
  exists s3, InitPstatResource s2 = Some (OC_STACK_OK, s3) /\ pstat s3 = Some p.
Proof.
  intros Hp Hdb Hst Hw Hnull Hext.
  destruct (UpdatePersistentStorage_spec p s1 Hp Hdb) as (ok & w' & E & Hok).
  rewrite E in Hst. injection Hst as -> <-. destruct (Hok eq_refl) as [Hdb' Hs].
  cbn [world with_world] in *.
  set (b := entry SVR_DB_DAT_FILE_NAME w' OIC_JSON_PSTAT_NAME) in *.
  assert (Hne : b <> []).
  { destruct (PstatToCBORPayload_total p Hp) as (b' & m & u & _ & _ & Hb & Ht).
    unfold stored in Hs. rewrite Ht in Hs. injection Hs as <-. by eapply payload_nonempty. }
  destruct (PstatToCBORPayload_total p Hp) as (b' & m & u & Hm & -> & Hb & Ht).
  unfold stored in Hs. rewrite Ht in Hs. injection Hs as ->.
  assert (Hmap : as_map b = Some (pstat_map p m (c_string (uuid_text (p_rownerID p) ++ [0]))
    (fun _ => true) true)) by (unfold as_map; by rewrite (parse_payload _ _ _ _ Hb)).
  destruct (parse_pstat_map DOS_RESET (gDefaultPstat s2) p m Hp Hm) as [ro Hro]; [by vm_compute|].
  unfold InitPstatResource. unfold bind at 1, on_world at 1. rewrite Hw.
  rewrite (read_entry _ b) by done. destruct b as [|x bs]; [done|].
  assert (Hparse : CBORPayloadToPstat (x :: bs) true (with_world w' s2)
    = Some (OC_STACK_OK, Some p, point_pstat RDefault (with_world w' s2))).
  { unfold CBORPayloadToPstat, CBORPayloadToPstatBin, bind, gets, ret, modify.
    cbn [gPstat with_world]. rewrite Hnull. unfold demand. cbn [pstat gPstat gDefaultPstat
      point_pstat with_pstats with_world GetPstatDefault]. by rewrite Hmap, Hro. }
  unfold bind at 1, gets at 1. unfold bind at 1, gets at 1. cbn [gPstat with_world].
  rewrite Hnull. unfold bind at 1. rewrite Hparse.
  unfold CreatePstatResource, call, bind, modify, ret, gets, is_ok, negb, orb.
  cbn [world point_pstat with_pstats with_world gPstat].
  destruct (ext (OCCreateResource OIC_RSRC_PSTAT_URI) w') as [ok w''] eqn:Ex. cbn in Hext.
  subst ok. cbn. by eexists.
Qed.

End storage.

End Pstat.
