(* ===== verification/AclCodec.v ===== *)
(** * The CBOR format of access control lists ([sec/svrs/aclresource.c])

    [AclToCBORPayload] for version 2, the only one the resource writes, and
    [CBORPayloadToAclVersionOpt] for both versions.  The library's accessors fail
    an assertion on an item of another type (and on the end of a container); that
    is undefined here, and so are three inputs whose result is not a list this
    model can hold: an [rt] or [if] array with an element that is no text (it
    leaves null pointers), and a subject that mixes two kinds (it reads one member
    of a union as another).  Arrays are of known length. *)

From S2P Require Import Prelude.
From S2P Require Import Status.
From S2P Require Import CString.
From S2P Require Import OcRandom.
From S2P Require Import SrmUtility.
From S2P Require Import Cbor.
From S2P Require Import Svr.
From S2P Require Import Pstat.
Import CString OcRandom SrmUtility Cbor Svr Pstat.

Module AclCodec.

Definition CBOR_SIZE : Z := 2048 * 8.

Definition WILDCARD_RESOURCE_URI : string := "*".

Definition OIC_JSON_ACLIST_NAME : string := "aclist".
Definition OIC_JSON_ACLIST2_NAME : string := "aclist2".
Definition OIC_JSON_ACES_NAME : string := "aces".
Definition OIC_JSON_ACEID_NAME : string := "aceid".
Definition OIC_JSON_RESOURCES_NAME : string := "resources".
Definition OIC_JSON_PERMISSION_NAME : string := "permission".
Definition OIC_JSON_SUBJECT_NAME : string := "subject".
Definition OIC_JSON_SUBJECTID_NAME : string := "subjectuuid".
Definition OIC_JSON_ROLE_NAME : string := "role".
Definition OIC_JSON_AUTHORITY_NAME : string := "authority".
Definition OIC_JSON_VALIDITY_NAME : string := "validity".
Definition OIC_JSON_HREF_NAME : string := "href".
Definition OIC_JSON_REL_NAME : string := "rel".
Definition OIC_JSON_UUID_NAME : string := "uuid".
Definition OIC_JSON_CONNTYPE_NAME : string := "conntype".
Definition OIC_JSON_AUTHCRYPT_NAME : string := "auth-crypt".
Definition OIC_JSON_ANONCLEAR_NAME : string := "anon-clear".
Definition OIC_JSON_WC_NAME : string := "wc".
Definition OIC_JSON_WC_PLUS_NAME : string := "+".
Definition OIC_JSON_WC_MINUS_NAME : string := "-".
Definition OIC_JSON_WC_ASTERISK_NAME : string := "*".
Definition OIC_RSRC_TYPE_SEC_ACL2 : string := "oic.r.acl2".

Inductive OicSecAclVersion_t : Type := OIC_SEC_ACL_UNKNOWN | OIC_SEC_ACL_V1 | OIC_SEC_ACL_V2.
#[export] Instance acl_version_eq_dec : EqDecision OicSecAclVersion_t.
Proof. solve_decision. Defined.

(** ** Encoding *)

(** The loop that counts what the validities add to the size of the map.  It does
    not advance its pointer: the fuel is used up whenever there is a validity. *)
Fixpoint count_validities (fuel : nat) (validityElts : list OicSecValidity_t) (size : Z) :
    option Z :=
  match fuel with
  | O => None
  | S fuel' =>
      match validityElts with
      | [] => Some size
      | v :: _ =>
          let size := match v_period v with Some _ => u8 (size + 1) | None => size end in
          let size := match v_recurrences v with Some _ => u8 (size + 1) | None => size end in
          count_validities fuel' validityElts size
      end
  end.

Definition texts (l : list string) : cbor := CArray (CText <$> l).

(** An array that is written when it has elements. *)
Definition strings_field (k : string) (l : option (list string)) : list (cbor * cbor) :=
  match l with Some (x :: l') => [field k (texts (x :: l'))] | _ => [] end.

Definition wcstring (w : OicSecAceResourceWildcard_t) : string :=
  match w with
  | ALL_DISCOVERABLE_NCRS_WITH_OC_SECURE => OIC_JSON_WC_PLUS_NAME
  | ALL_DISCOVERABLE_NCRS_WITH_OC_NONSECURE => OIC_JSON_WC_MINUS_NAME
  | _ => OIC_JSON_WC_ASTERISK_NAME
  end.

Definition rsrc_map (rsrc : OicSecRsrc_t) : cbor :=
  CMap (match r_href rsrc with Some h => [field OIC_JSON_HREF_NAME (CText h)] | None => [] end
        ++ strings_field OIC_JSON_RT_NAME (r_types rsrc)
        ++ strings_field OIC_JSON_IF_NAME (r_interfaces rsrc)
        ++ match r_rel rsrc with Some r => [field OIC_JSON_REL_NAME (CText r)] | None => [] end
        ++ included (negb (bool_decide (r_wildcard rsrc = NO_WILDCARD)))
             OIC_JSON_WC_NAME (CText (wcstring (r_wildcard rsrc)))).

(** The subject of a version 2 entry; the wildcard identity has no encoding. *)
Definition subject_map (s : subject) : option cbor :=
  match s with
  | UuidSubject u =>
      if bool_decide (u = WILDCARD_SUBJECT_ID) then None
      else
        match ConvertUuidToStr u with
        | (OC_STACK_OK, Some str) => Some (CMap [field OIC_JSON_UUID_NAME (CText str)])
        | _ => None
        end
  | RoleSubject r =>
      Some (CMap (field OIC_JSON_ROLE_NAME (CText (role_id r))
                  :: included (negb (String.eqb (role_authority r) ""))
                       OIC_JSON_AUTHORITY_NAME (CText (role_authority r))))
  | ConntypeSubject c =>
      Some (CMap [field OIC_JSON_CONNTYPE_NAME
                    (CText (match c with AUTH_CRYPT => OIC_JSON_AUTHCRYPT_NAME
                                       | ANON_CLEAR => OIC_JSON_ANONCLEAR_NAME end))])
  end.

(** Outer [None]: the function does not return; inner [None]: it fails. *)
Definition ace_map (fuel : nat) (ace : OicSecAce_t) : option (option cbor) :=
  _ ← count_validities fuel (a_validities ace) 4;
  Some (s ← subject_map (a_subject ace);
        Some (CMap [field OIC_JSON_ACEID_NAME (CInt (a_aceid ace));
                    field OIC_JSON_SUBJECT_NAME s;
                    field OIC_JSON_RESOURCES_NAME (CArray (rsrc_map <$> a_resources ace));
                    field OIC_JSON_PERMISSION_NAME (CInt (a_permission ace))])).

Fixpoint ace_maps (fuel : nat) (l : list OicSecAce_t) : option (option (list cbor)) :=
  match l with
  | [] => Some (Some [])
  | ace :: l' =>
      m ← ace_map fuel ace;
      match m with
      | None => Some None
      | Some m => ms ← ace_maps fuel l'; Some (ms ← ms; Some (m :: ms))
      end
  end.

Section codec.
Context {L : CborLib}.

(** The buffer grows until everything fits. *)
Definition AclToCBORPayload (fuel : nat) (secAcl : OicSecAcl_t) : option (option (list Z)) :=
  ms ← ace_maps fuel (aces secAcl);
  Some (ms ← ms;
        match ConvertUuidToStr (acl_rownerID secAcl) with
        | (OC_STACK_OK, Some rowner) =>
            let t := CMap (field OIC_JSON_ACLIST2_NAME (CArray ms)
                           :: field OIC_JSON_ROWNERID_NAME (CText rowner)
                           :: rt_if OIC_RSRC_TYPE_SEC_ACL2) in
            payload CBOR_SIZE (Z.max CBOR_SIZE (size_bound t)) t
        | _ => None
        end).

End codec.

(** ** Decoding

    How a loop goes on: with the next item, out of the function with what was
    read so far ([goto exit] without a CBOR error), or out of it with an error.
    [None] is undefined behaviour. *)
Inductive flow (A : Type) : Type := Go (a : A) | Done (a : A) | Err.
Arguments Go {A}.
Arguments Done {A}.
Arguments Err {A}.

Definition then_flow {A} (m : option (flow A)) (f : A -> option (flow A)) : option (flow A) :=
  match m with Some (Go a) => f a | _ => m end.

(** The flow of an inner loop inside the object that is being filled. *)
Definition inside {A B} (g : A -> B) (m : option (flow A)) : option (flow B) :=
  (fun r => match r with Go a => Go (g a) | Done a => Done (g a) | Err => Err end) <$> m.

(** The texts of an array; [None] if another item is met. *)
Fixpoint all_texts (l : list cbor) : option (list string) :=
  match l with
  | [] => Some []
  | CText t :: l' => ts ← all_texts l'; Some (cstr t :: ts)
  | _ :: _ => None
  end.

Definition parse_strings (v : option cbor) (old : option (list string))
    (put : option (list string) -> OicSecRsrc_t) : option (flow OicSecRsrc_t) :=
  match v with
  | Some (CArray []) => Some (Done (put (match old with Some _ => Some [] | None => None end)))
  | Some (CArray l) => ts ← all_texts l; Some (Go (put (Some ts)))
  | _ => Some (Go (put old))
  end.

Definition wildcard_of (wc : string) : OicSecAceResourceWildcard_t :=
  if String.eqb wc OIC_JSON_WC_ASTERISK_NAME then ALL_NCRS
  else if String.eqb wc OIC_JSON_WC_PLUS_NAME then ALL_DISCOVERABLE_NCRS_WITH_OC_SECURE
  else if String.eqb wc OIC_JSON_WC_MINUS_NAME then ALL_DISCOVERABLE_NCRS_WITH_OC_NONSECURE
  else NO_WILDCARD.

Definition parse_rsrc_field (name : string) (v : option cbor) (r : OicSecRsrc_t) :
    option (flow OicSecRsrc_t) :=
  if String.eqb name OIC_JSON_HREF_NAME then
    match v with
    | Some (CText h) =>
        let href := cstr h in
        Some (Go (if String.eqb href WILDCARD_RESOURCE_URI
                  then mk_rsrc None (r_rel r) (r_types r) (r_interfaces r) ALL_NCRS
                  else mk_rsrc (Some href) (r_rel r) (r_types r) (r_interfaces r) NO_WILDCARD))
    | _ => None
    end
  else if String.eqb name OIC_JSON_RT_NAME then
    parse_strings v (r_types r)
      (fun l => mk_rsrc (r_href r) (r_rel r) l (r_interfaces r) (r_wildcard r))
  else if String.eqb name OIC_JSON_IF_NAME then
    parse_strings v (r_interfaces r)
      (fun l => mk_rsrc (r_href r) (r_rel r) (r_types r) l (r_wildcard r))
  else if String.eqb name OIC_JSON_REL_NAME then
    match v with
    | Some (CText t) =>
        Some (Go (mk_rsrc (r_href r) (Some (cstr t)) (r_types r) (r_interfaces r) (r_wildcard r)))
    | _ => None
    end
  else if String.eqb name OIC_JSON_WC_NAME then
    match v with
    | Some (CText t) =>
        Some (Go (mk_rsrc (r_href r) (r_rel r) (r_types r) (r_interfaces r) (wildcard_of (cstr t))))
    | _ => None
    end
  else Some (Go r).

(** Tags and values alternate; a tag that is no text fails an assertion. *)
Fixpoint rsrc_loop (its : list cbor) (r : OicSecRsrc_t) : option (flow OicSecRsrc_t) :=
  match its with
  | [] => Some (Go r)
  | CText name :: rest =>
      match rest with
      | [] => parse_rsrc_field (cstr name) None r
      | v :: rest' => then_flow (parse_rsrc_field (cstr name) (Some v) r) (rsrc_loop rest')
      end
  | _ :: _ => None
  end.

Definition empty_rsrc : OicSecRsrc_t := mk_rsrc None None None None NO_WILDCARD.

Fixpoint rsrcs_loop (its : list cbor) (l : list OicSecRsrc_t) : option (flow (list OicSecRsrc_t)) :=
  match its with
  | [] => Some (Go l)
  | it :: rest =>
      if is_container it then
        then_flow (inside (fun r => l ++ [r]) (rsrc_loop (items it) empty_rsrc)) (rsrcs_loop rest)
      else None
  end.

(** The union is zero at first, which is the nil identity. *)
Definition no_subject : subject := UuidSubject THE_NIL_UUID.

(** [s] read as a role, [None] when it holds something else. *)
Definition as_role (s : subject) : option OicSecRole_t :=
  match s with
  | RoleSubject r => Some r
  | UuidSubject u => if bool_decide (u = THE_NIL_UUID) then Some (mk_role "" "") else None
  | ConntypeSubject _ => None
  end.

Definition parse_subject_field (name : string) (v : option cbor) (s : subject) :
    option (flow subject) :=
  if String.eqb name OIC_JSON_UUID_NAME then
    match v with
    | Some (CText t) =>
        match s with
        | UuidSubject u =>
            '(ret, u) ← ConvertStrToUuid (cstr t) u;
            Some (if is_ok ret then Go (UuidSubject u) else Err)
        | _ => None
        end
    | _ => Some (Go s)
    end
  else if String.eqb name OIC_JSON_ROLE_NAME then
    match v with
    | Some (CText t) =>
        if (ROLEID_LENGTH <=? String.length (cstr t))%nat then Some Err
        else r ← as_role s; Some (Go (RoleSubject (mk_role (cstr t) (role_authority r))))
    | _ => None
    end
  else if String.eqb name OIC_JSON_AUTHORITY_NAME then
    match v with
    | Some (CText t) =>
        if (ROLEAUTHORITY_LENGTH <=? String.length (cstr t))%nat then Some Err
        else r ← as_role s; Some (Go (RoleSubject (mk_role (role_id r) (cstr t))))
    | _ => None
    end
  else if String.eqb name OIC_JSON_CONNTYPE_NAME then
    match v with
    | Some (CText t) =>
        let conn c := match s with
                      | ConntypeSubject _ => Some (Go (ConntypeSubject c))
                      | UuidSubject u => if bool_decide (u = THE_NIL_UUID)
                                         then Some (Go (ConntypeSubject c)) else None
                      | RoleSubject _ => None
                      end in
        if String.eqb (cstr t) OIC_JSON_AUTHCRYPT_NAME then conn AUTH_CRYPT
        else if String.eqb (cstr t) OIC_JSON_ANONCLEAR_NAME then conn ANON_CLEAR
        else Some Err
    | _ => None
    end
  else Some (Go s).

(** An item that is no text ends the loop. *)
Fixpoint subject_loop (its : list cbor) (s : subject) : option (flow subject) :=
  match its with
  | CText name :: rest =>
      match rest with
      | [] => parse_subject_field (cstr name) None s
      | v :: rest' => then_flow (parse_subject_field (cstr name) (Some v) s) (subject_loop rest')
      end
  | _ => Some (Go s)
  end.

Definition parse_subject (v : option cbor) (s : subject) : option (flow subject) :=
  match v with
  | Some v =>
      if is_container v then
        then_flow (subject_loop (items v) s)
          (fun s => Some (match s with
                          | RoleSubject r => if String.eqb (role_id r) "" then Err else Go s
                          | _ => Go s
                          end))
      else Some Err
  | None => Some Err
  end.

(** [subjectuuid] of version 1. *)
Definition parse_subjectuuid (v : option cbor) (s : subject) : option (flow subject) :=
  match v, s with
  | Some (CText t), UuidSubject u =>
      if String.eqb (cstr t) WILDCARD_RESOURCE_URI then Some (Go (UuidSubject (42 :: tl u)))
      else
        '(ret, u) ← ConvertStrToUuid (cstr t) u;
        Some (if is_ok ret then Go (UuidSubject u) else Err)
  | Some (CText _), _ => None
  | _, _ => Some (Go s)
  end.

Definition set_subject v a := mk_ace v (a_resources a) (a_permission a) (a_validities a) (a_aceid a).
Definition set_resources v a := mk_ace (a_subject a) v (a_permission a) (a_validities a) (a_aceid a).
Definition set_permission v a := mk_ace (a_subject a) (a_resources a) v (a_validities a) (a_aceid a).
Definition set_aceid v a := mk_ace (a_subject a) (a_resources a) (a_permission a) (a_validities a) v.

(** A [uint64_t] stored in a [uint16_t]; a negative number fails an assertion. *)
Definition parse_u16 (v : option cbor) : option Z :=
  match v with Some (CInt z) => if 0 <=? z then Some (u16 z) else None | _ => None end.

(** The validities: after the period has been copied, the iterator is not moved,
    and entering the period as the array of recurrences fails an assertion. *)
Definition parse_validities (v : option cbor) (a : OicSecAce_t) : option (flow OicSecAce_t) :=
  match v with Some (CArray []) => Some (Go a) | _ => None end.

Definition parse_ace_field (version : OicSecAclVersion_t) (name : string) (v : option cbor)
    (a : OicSecAce_t) : option (flow OicSecAce_t) :=
  if String.eqb name OIC_JSON_ACEID_NAME then
    z ← parse_u16 v; Some (Go (set_aceid z a))
  else if String.eqb name OIC_JSON_SUBJECTID_NAME then
    match version with
    | OIC_SEC_ACL_V2 => Some (Go a)
    | _ => inside (fun s => set_subject s a) (parse_subjectuuid v (a_subject a))
    end
  else if String.eqb name OIC_JSON_SUBJECT_NAME then
    match version with
    | OIC_SEC_ACL_V1 => Some (Go a)
    | _ => inside (fun s => set_subject s a) (parse_subject v (a_subject a))
    end
  else if String.eqb name OIC_JSON_RESOURCES_NAME then
    match v with
    | Some v => if is_container v
                then inside (fun l => set_resources l a) (rsrcs_loop (items v) (a_resources a))
                else None
    | None => None
    end
  else if String.eqb name OIC_JSON_PERMISSION_NAME then
    z ← parse_u16 v; Some (Go (set_permission z a))
  else if String.eqb name OIC_JSON_VALIDITY_NAME then parse_validities v a
  else Some (Go a).

(** The iterator is advanced past an item that is no text, except when it is a
    map: then the loop never ends, which uses up the fuel. *)
Fixpoint ace_loop (fuel : nat) (version : OicSecAclVersion_t) (its : list cbor)
    (a : OicSecAce_t) : option (flow OicSecAce_t) :=
  match fuel with
  | O => None
  | S fuel' =>
      match its with
      | [] => Some (Go a)
      | CText name :: rest =>
          then_flow (parse_ace_field version (cstr name) (head rest) a)
            (ace_loop fuel' version (tail rest))
      | CMap _ :: _ => ace_loop fuel' version its a
      | _ :: rest => ace_loop fuel' version rest a
      end
  end.

Definition empty_ace : OicSecAce_t := mk_ace no_subject [] 0 [] 0.

Fixpoint aces_loop (version : OicSecAclVersion_t) (its : list cbor) (l : list OicSecAce_t) :
    option (flow (list OicSecAce_t)) :=
  match its with
  | [] => Some (Go l)
  | it :: rest =>
      if is_container it then
        then_flow
          (inside (fun a => l ++ [a])
             (ace_loop (S (List.length (items it))) version (items it) empty_ace))
          (aces_loop version rest)
      else None
  end.

(** The items of an [aclist] map after its first tag: each must be an array of
    entries. *)
Fixpoint arrays_loop (version : OicSecAclVersion_t) (its : list cbor) (l : list OicSecAce_t) :
    option (flow (list OicSecAce_t)) :=
  match its with
  | [] => Some (Go l)
  | it :: rest =>
      if is_container it
      then then_flow (aces_loop version (items it) l) (arrays_loop version rest)
      else None
  end.

(** The value [v] of the tag [aclist2], or of [aclist]. *)
Definition parse_aclist2 (v : option cbor) (l : list OicSecAce_t) :
    option (flow (list OicSecAce_t)) :=
  match v with
  | None => Some (Go l)
  | Some v => if is_container v then aces_loop OIC_SEC_ACL_V2 (items v) l else None
  end.

Definition parse_aclist (v : option cbor) (l : list OicSecAce_t) :
    option (flow (list OicSecAce_t)) :=
  match v with
  | None => None
  | Some v =>
      if is_container v then
        match items v with
        | CText acName :: rest =>
            if String.eqb (cstr acName) OIC_JSON_ACES_NAME
            then arrays_loop OIC_SEC_ACL_V1 rest l else Some (Go l)
        | _ => Some (Go l)
        end
      else None
  end.

(** The owner: taken from the tag while it is still nil, else from the list in
    memory [gAcl]; a text that is no UUID ends the parsing. *)
Definition parse_acl_rowner (gAcl : option OicSecAcl_t) (tagName : string) (v : option cbor)
    (acl : OicSecAcl_t) : option (flow OicSecAcl_t) :=
  if IsNilUuid (acl_rownerID acl) then
    if String.eqb tagName OIC_JSON_ROWNERID_NAME then
      match v with
      | Some (CText t) =>
          '(ret, u) ← ConvertStrToUuid (cstr t) (acl_rownerID acl);
          Some (if is_ok ret then Go (set_acl_rownerID u acl) else Done acl)
      | _ => None
      end
    else
      Some (Go (match gAcl with Some g => set_acl_rownerID (acl_rownerID g) acl | None => acl end))
  else Some (Go acl).

Definition parse_acl_field (gAcl : option OicSecAcl_t) (tagName : string) (v : option cbor)
    (acl : OicSecAcl_t) : option (flow OicSecAcl_t) :=
  then_flow
    (inside (fun l => set_aces l acl)
       (if String.eqb tagName OIC_JSON_ACLIST_NAME then parse_aclist v (aces acl)
        else if String.eqb tagName OIC_JSON_ACLIST2_NAME then parse_aclist2 v (aces acl)
        else Some (Go (aces acl))))
    (parse_acl_rowner gAcl tagName v).

(** An item that is no text is skipped by itself. *)
Fixpoint acl_loop (gAcl : option OicSecAcl_t) (its : list cbor) (acl : OicSecAcl_t) :
    option (flow OicSecAcl_t) :=
  match its with
  | [] => Some (Go acl)
  | CText tag :: rest =>
      match rest with
      | [] => parse_acl_field gAcl (cstr tag) None acl
      | v :: rest' =>
          then_flow (parse_acl_field gAcl (cstr tag) (Some v) acl) (acl_loop gAcl rest')
      end
  | _ :: rest => acl_loop gAcl rest acl
  end.

Section decode.
Context {L : CborLib}.

(** The list, [Some None] for a null pointer. *)
Definition CBORPayloadToAcl (gAcl : option OicSecAcl_t) (cborPayload : list Z) :
    option (option OicSecAcl_t) :=
  match cborPayload with
  | [] => Some None
  | _ :: _ =>
      t ← parse cborPayload;
      if is_container t then
        r ← acl_loop gAcl (items t) (mk_acl THE_NIL_UUID []);
        Some (match r with Go a | Done a => Some a | Err => None end)
      else None
  end.

(** What [versionCheck] is set to: the first tag tells; [None] when nothing is
    assigned. *)
Fixpoint first_tag (its : list cbor) : option string :=
  match its with
  | [] => None
  | CText tag :: _ => Some (cstr tag)
  | _ :: rest => first_tag rest
  end.

Definition AclVersionCheck (cborPayload : list Z) : option (option OicSecAclVersion_t) :=
  match cborPayload with
  | [] => Some None
  | _ :: _ =>
      t ← parse cborPayload;
      if is_container t then
        Some (tag ← first_tag (items t);
              Some (if String.eqb tag OIC_JSON_ACLIST_NAME then OIC_SEC_ACL_V1
                    else if String.eqb tag OIC_JSON_ACLIST2_NAME then OIC_SEC_ACL_V2
                    else OIC_SEC_ACL_UNKNOWN))
      else None
  end.

End decode.

(** ** Properties *)

(** The counting loop ends only when there is nothing to count. *)
Lemma count_validities_ends fuel l size :
  is_Some (count_validities (S fuel) l size) <-> l = [].
Proof.
  split; [|by intros ->; eexists].
  destruct l as [|v l]; [done|]. intros [z Hz]. exfalso. revert size Hz.
  generalize (S fuel). intros n. induction n as [|n IH]; [done|]. intros size. apply IH.
Qed.

Definition encodable (ace : OicSecAce_t) : Prop := is_Some (subject_map (a_subject ace)).

Lemma ace_map_ends fuel ace : is_Some (ace_map (S fuel) ace) <-> a_validities ace = [].
Proof.
  rewrite <- (count_validities_ends fuel (a_validities ace) 4). unfold ace_map.
  destruct (count_validities (S fuel) (a_validities ace) 4) as [z|]; simpl; split; intros [m Hm];
    solve [done|by eexists].
Qed.

Lemma ace_maps_ends fuel l : Forall encodable l ->
  is_Some (ace_maps (S fuel) l) <-> Forall (fun ace => a_validities ace = []) l.
Proof.
  induction 1 as [|ace l He _ IH]; [split; intros; [done|by eexists]|].
  rewrite Forall_cons, <- IH, <- (ace_map_ends fuel ace). cbn [ace_maps].
  destruct (ace_map (S fuel) ace) as [[m|]|] eqn:Hm; cbn [mbind option_bind].
  - destruct (ace_maps (S fuel) l) as [ms|]; cbn [mbind option_bind]; split.
    + by intros _; split; eexists.
    + by intros _; eexists.
    + by intros [? ?].
    + by intros [_ [? ?]].
  - exfalso. revert Hm. destruct He as [t Ht]. unfold ace_map.
    destruct (count_validities (S fuel) (a_validities ace) 4); cbn [mbind option_bind]; [|done].
    rewrite Ht. done.
  - split; [by intros [? ?]|by intros [[? ?] _]].
Qed.

(** A list that the encoder can count. *)
Definition no_validities (a : OicSecAcl_t) : Prop :=
  Forall (fun ace => a_validities ace = []) (aces a).

Lemma no_validities_app o o' l l' : no_validities (mk_acl o (l ++ l')) <->
  no_validities (mk_acl o' l) /\ no_validities (mk_acl o' l').
Proof. apply Forall_app. Qed.

Lemma no_validities_encoded {L : CborLib} a : no_validities a ->
  exists m, AclToCBORPayload 1 a = Some m.
Proof.
  intros H. unfold AclToCBORPayload.
  assert (E : is_Some (ace_maps 1 (aces a))).
  { induction H as [|ace l Ha _ [ms IH]]; [by eexists|]. cbn [ace_maps]. unfold ace_map at 1.
    rewrite Ha. cbn [count_validities mbind option_bind].
    destruct (subject_map (a_subject ace)); cbn [mbind option_bind]; [|by eexists].
    rewrite IH. by eexists. }
  destruct E as [ms ->]. by eexists.
Qed.

(** A loop that meets a map where it expects a tag never ends. *)
Lemma ace_loop_stuck version m its a fuel : ace_loop fuel version (CMap m :: its) a = None.
Proof. by induction fuel. Qed.

(** What follows is about lists that can be written and read back. *)
Definition text_ok (t : string) : Prop := cstr t = t.
Definition strings_ok (l : option (list string)) : Prop :=
  match l with None => True | Some l => l <> [] /\ Forall text_ok l end.
Definition rsrc_ok (r : OicSecRsrc_t) : Prop :=
  match r_href r with None => True | Some h => text_ok h /\ h <> WILDCARD_RESOURCE_URI end /\
  match r_rel r with None => True | Some t => text_ok t end /\
  strings_ok (r_types r) /\ strings_ok (r_interfaces r).
Definition subject_ok (s : subject) : Prop :=
  match s with
  | UuidSubject u => is_uuid u /\ u <> WILDCARD_SUBJECT_ID
  | RoleSubject r =>
      text_ok (role_id r) /\ text_ok (role_authority r) /\ role_id r <> EmptyString /\
      (String.length (role_id r) < ROLEID_LENGTH)%nat /\
      (String.length (role_authority r) < ROLEAUTHORITY_LENGTH)%nat
  | ConntypeSubject _ => True
  end.
Definition ace_ok (a : OicSecAce_t) : Prop :=
  subject_ok (a_subject a) /\ Forall rsrc_ok (a_resources a) /\ a_validities a = [] /\
  in_width 16 (a_aceid a) /\ in_width 16 (a_permission a).
Definition acl_ok (a : OicSecAcl_t) : Prop := is_uuid (acl_rownerID a) /\ Forall ace_ok (aces a).

Lemma all_texts_ok l : Forall text_ok l -> all_texts (CText <$> l) = Some l.
Proof.
  induction 1 as [|t l Ht _ IH]; [done|]. rewrite fmap_cons. cbn [all_texts]. rewrite IH.
  cbn [mbind option_bind]. by rewrite Ht.
Qed.

(** The reader of a field on what the writer puts there. *)
Lemma parse_strings_ok l old put : l <> [] -> Forall text_ok l ->
  parse_strings (Some (texts l)) old put = Some (Go (put (Some l))).
Proof.
  intros Hne Hl. unfold parse_strings, texts. destruct l as [|t l]; [done|].
  apply all_texts_ok in Hl. rewrite fmap_cons in *. cbn iota. by rewrite Hl.
Qed.

Lemma rsrc_loop_field k v l r : text_ok k -> rsrc_loop (items (CMap (field k v :: l))) r =
  then_flow (parse_rsrc_field k (Some v) r) (rsrc_loop (items (CMap l))).
Proof. unfold text_ok. intros Hk. cbn -[cstr parse_rsrc_field]. by rewrite Hk. Qed.

Lemma rsrc_roundtrip r : rsrc_ok r -> rsrc_loop (items (rsrc_map r)) empty_rsrc = Some (Go r).
Proof.
  destruct r as [href rel rts ifs w]. unfold rsrc_ok, rsrc_map, empty_rsrc.
  cbn [r_href r_rel r_types r_interfaces r_wildcard]. intros (Hh & Hr & Ht & Hi).
  assert (E1 : forall l, rsrc_loop (items (CMap (match href with
        Some h => [field OIC_JSON_HREF_NAME (CText h)] | None => [] end ++ l)))
      (mk_rsrc None None None None NO_WILDCARD)
    = rsrc_loop (items (CMap l)) (mk_rsrc href None None None NO_WILDCARD)).
  { intros l. destruct href as [h|]; [|done]. destruct Hh as [Hh Hw].
    cbn [app]. rewrite rsrc_loop_field by done. cbn -[rsrc_loop items cstr]. rewrite Hh.
    by rewrite (proj2 (String.eqb_neq _ _)) by done. }
  rewrite E1. clear E1.
  assert (E2 : forall l, rsrc_loop (items (CMap (strings_field OIC_JSON_RT_NAME rts ++ l)))
      (mk_rsrc href None None None NO_WILDCARD)
    = rsrc_loop (items (CMap l)) (mk_rsrc href None rts None NO_WILDCARD)).
  { intros l. destruct rts as [[|t ts]|]; [by destruct Ht| |done]. destruct Ht as [Hn Ht].
    cbn [strings_field app]. rewrite rsrc_loop_field by done. cbn -[rsrc_loop items cstr parse_strings texts].
    by rewrite parse_strings_ok. }
  rewrite E2. clear E2.
  assert (E3 : forall l, rsrc_loop (items (CMap (strings_field OIC_JSON_IF_NAME ifs ++ l)))
      (mk_rsrc href None rts None NO_WILDCARD)
    = rsrc_loop (items (CMap l)) (mk_rsrc href None rts ifs NO_WILDCARD)).
  { intros l. destruct ifs as [[|t ts]|]; [by destruct Hi| |done]. destruct Hi as [Hn Hi].
    cbn [strings_field app]. rewrite rsrc_loop_field by done. cbn -[rsrc_loop items cstr parse_strings texts].
    by rewrite parse_strings_ok. }
  rewrite E3. clear E3.
  destruct rel as [t|]; cbn [app].
  - rewrite rsrc_loop_field by done. cbn -[rsrc_loop items cstr]. rewrite Hr. by destruct w.
  - by destruct w.
Qed.

Lemma rsrcs_roundtrip l : Forall rsrc_ok l -> forall acc,
  rsrcs_loop (rsrc_map <$> l) acc = Some (Go (acc ++ l)).
Proof.
  induction 1 as [|r l Hr _ IH]; intros acc; [by rewrite app_nil_r|].
  cbn [fmap list_fmap rsrcs_loop]. rewrite rsrc_roundtrip by done.
  change (is_container (rsrc_map r)) with true. cbn [inside fmap option_fmap option_map then_flow].
  rewrite IH. by rewrite <- app_assoc.
Qed.

Lemma subject_loop_field k v l s : text_ok k -> subject_loop (items (CMap (field k v :: l))) s =
  then_flow (parse_subject_field k (Some v) s) (subject_loop (items (CMap l))).
Proof. unfold text_ok. intros Hk. cbn -[cstr parse_subject_field]. by rewrite Hk. Qed.

Lemma ace_loop_field version fuel k v l a : text_ok k ->
  ace_loop (S fuel) version (items (CMap (field k v :: l))) a =
  then_flow (parse_ace_field version k (Some v) a) (ace_loop fuel version (items (CMap l))).
Proof. unfold text_ok. intros Hk. cbn -[cstr parse_ace_field]. by rewrite Hk. Qed.

Lemma acl_loop_field gAcl k v l a : text_ok k ->
  acl_loop gAcl (items (CMap (field k v :: l))) a =
  then_flow (parse_acl_field gAcl k (Some v) a) (acl_loop gAcl (items (CMap l))).
Proof. unfold text_ok. intros Hk. cbn -[cstr parse_acl_field]. by rewrite Hk. Qed.

Lemma uuid_string_ok u : is_uuid u -> text_ok (c_string (uuid_text u ++ [0])).
Proof. intros Hu. apply cstr_c_string. by apply uuid_text_chars. Qed.

Lemma subject_roundtrip s t : subject_ok s -> subject_map s = Some t ->
  parse_subject (Some t) no_subject = Some (Go s).
Proof.
  destruct s as [u|r|c]; cbn [subject_ok subject_map].
  - intros [Hu Hw]. rewrite bool_decide_eq_false_2 by done. rewrite ConvertUuidToStr_ok by done.
    intros [= <-]. unfold parse_subject. change (is_container _) with true. cbn iota.
    rewrite subject_loop_field by done. cbn -[cstr subject_loop items ConvertStrToUuid THE_NIL_UUID].
    rewrite uuid_string_ok by done. rewrite ConvertStrToUuid_text by done. done.
  - destruct r as [i a]. cbn [role_id role_authority]. intros (Hi & Ha & Hne & Hli & Hla) [= <-].
    unfold parse_subject. change (is_container _) with true. cbn iota.
    rewrite subject_loop_field by done.
    cbn -[cstr subject_loop items ROLEID_LENGTH Nat.leb as_role].
    change (as_role no_subject) with (Some (mk_role "" "")).
    rewrite Hi. rewrite (proj2 (Nat.leb_gt _ _)) by done. cbn -[cstr subject_loop items].
    destruct (String.eqb_spec a "") as [->|Hae]; cbn [included negb].
    + cbn. by rewrite (proj2 (String.eqb_neq _ _)) by done.
    + rewrite subject_loop_field by done. cbn -[cstr subject_loop items ROLEAUTHORITY_LENGTH Nat.leb].
      rewrite Ha. rewrite (proj2 (Nat.leb_gt _ _)) by done. cbn -[cstr].
      by rewrite (proj2 (String.eqb_neq _ _)) by done.
  - intros _ [= <-]. by destruct c.
Qed.

Lemma ace_roundtrip ace m : ace_ok ace -> ace_map 1 ace = Some (Some m) ->
  ace_loop (S (List.length (items m))) OIC_SEC_ACL_V2 (items m) empty_ace = Some (Go ace).
Proof.
  destruct ace as [s rs p vs i]. unfold ace_ok, ace_map.
  cbn [a_subject a_resources a_permission a_validities a_aceid].
  intros (Hs & Hrs & -> & Hi & Hp). cbn [count_validities mbind option_bind].
  destruct (subject_map s) as [t|] eqn:Ht; cbn [mbind option_bind]; [|done]. intros [= <-].
  match goal with |- ace_loop ?n _ _ _ = _ => change n with 9%nat end.
  rewrite ace_loop_field by done.
  assert (Hu : forall z, in_width 16 z -> parse_u16 (Some (CInt z)) = Some z).
  { intros z Hz. cbn. destruct (Z.leb_spec 0 z); [|unfold in_width in Hz; lia].
    by rewrite wrap_id. }
  cbn -[ace_loop items parse_u16]. rewrite Hu by done. cbn [mbind option_bind then_flow].
  rewrite ace_loop_field by done. cbn -[ace_loop items parse_subject].
  rewrite (subject_roundtrip s t) by done.
  cbn [inside fmap option_fmap option_map then_flow set_aceid set_subject].
  rewrite ace_loop_field by done. cbn -[ace_loop items rsrcs_loop fmap].
  change (items (CArray (rsrc_map <$> rs))) with (rsrc_map <$> rs).
  rewrite rsrcs_roundtrip by done.
  cbn -[ace_loop items parse_u16].
  rewrite ace_loop_field by done. cbn -[ace_loop items parse_u16]. rewrite Hu by done.
  cbn -[ace_loop]. done.
Qed.

Lemma aces_roundtrip l : Forall ace_ok l -> forall ms, ace_maps 1 l = Some (Some ms) ->
  forall acc, aces_loop OIC_SEC_ACL_V2 ms acc = Some (Go (acc ++ l)).
Proof.
  induction 1 as [|ace l Ha _ IH]; intros ms.
  { intros [= <-] acc. by rewrite app_nil_r. }
  cbn [ace_maps]. destruct (ace_map 1 ace) as [[m|]|] eqn:Hm; cbn [mbind option_bind]; [|done..].
  destruct (ace_maps 1 l) as [[ms'|]|]; cbn [mbind option_bind]; [|done..].
  intros [= <-] acc. cbn [aces_loop].
  assert (Hc : is_container m = true).
  { revert Hm. unfold ace_map. destruct (count_validities _ _ _); [|done].
    cbn [mbind option_bind]. by destruct (subject_map (a_subject ace)); [intros [= <-]|]. }
  rewrite Hc, (ace_roundtrip ace) by done. cbn [inside fmap option_fmap option_map then_flow].
  rewrite (IH ms') by done. by rewrite <- app_assoc.
Qed.

(** The owner that a stored list gets when it is read while [gAcl] is in memory:
    the tag of the entries comes first and takes the owner of [gAcl]. *)
Definition owner_read (gAcl : option OicSecAcl_t) (a : OicSecAcl_t) : OicUuid_t :=
  match gAcl with
  | Some g => if IsNilUuid (acl_rownerID g) then acl_rownerID a else acl_rownerID g
  | None => acl_rownerID a
  end.

Definition acl_map (ms : list cbor) (a : OicSecAcl_t) : cbor :=
  CMap (field OIC_JSON_ACLIST2_NAME (CArray ms)
        :: field OIC_JSON_ROWNERID_NAME (CText (c_string (uuid_text (acl_rownerID a) ++ [0])))
        :: rt_if OIC_RSRC_TYPE_SEC_ACL2).

Lemma acl_loop_roundtrip gAcl a ms : acl_ok a -> ace_maps 1 (aces a) = Some (Some ms) ->
  acl_loop gAcl (items (acl_map ms a)) (mk_acl THE_NIL_UUID [])
  = Some (Go (set_acl_rownerID (owner_read gAcl a) a)).
Proof.
  destruct a as [o l]. intros [Ho Hl] Hms. cbn [acl_rownerID aces] in *.
  unfold acl_map. rewrite acl_loop_field by done. unfold parse_acl_field.
  change (String.eqb OIC_JSON_ACLIST2_NAME OIC_JSON_ACLIST_NAME) with false. cbn iota.
  change (String.eqb OIC_JSON_ACLIST2_NAME OIC_JSON_ACLIST2_NAME) with true.
  cbn [parse_aclist2 is_container]. change (items (CArray ms)) with ms.
  rewrite (aces_roundtrip l) by done.
  cbn [aces app inside fmap option_fmap option_map then_flow set_aces acl_rownerID].
  unfold parse_acl_rowner at 1, set_aces. cbn [acl_rownerID aces].
  change (IsNilUuid THE_NIL_UUID) with true.
  change (String.eqb OIC_JSON_ACLIST2_NAME OIC_JSON_ROWNERID_NAME) with false.
  cbn [then_flow].
  set (o1 := match gAcl with Some g => acl_rownerID g | None => THE_NIL_UUID end).
  replace (match gAcl with Some g => set_acl_rownerID (acl_rownerID g) (mk_acl THE_NIL_UUID l)
           | None => mk_acl THE_NIL_UUID l end) with (mk_acl o1 l) by (unfold o1; by destruct gAcl).
  assert (Ho1 : gAcl = None \/ (exists g, gAcl = Some g /\ acl_rownerID g = o1))
    by (unfold o1; destruct gAcl; eauto).
  assert (Hrest : forall o2 k v rest, text_ok k -> k <> OIC_JSON_ACLIST_NAME ->
    k <> OIC_JSON_ACLIST2_NAME -> k <> OIC_JSON_ROWNERID_NAME ->
    (o2 = THE_NIL_UUID -> o1 = THE_NIL_UUID) ->
    acl_loop gAcl (items (CMap (field k v :: rest))) (mk_acl o2 l)
    = acl_loop gAcl (items (CMap rest)) (mk_acl o2 l)).
  { intros o2 k v rest Hk H1 H2 H3 Hn. rewrite acl_loop_field by done. unfold parse_acl_field.
    rewrite (proj2 (String.eqb_neq _ _) H1), (proj2 (String.eqb_neq _ _) H2).
    cbn [aces inside fmap option_fmap option_map then_flow set_aces acl_rownerID].
    unfold parse_acl_rowner, set_aces.
    cbn [acl_rownerID aces]. destruct (IsNilUuid o2) eqn:E; [|done].
    rewrite (proj2 (String.eqb_neq _ _) H3). apply IsNilUuid_true in E. subst o2. cbn [then_flow].
    destruct Ho1 as [->|(g & -> & Hg)]; [done|]. by rewrite Hg, Hn. }
  rewrite acl_loop_field by done. unfold parse_acl_field.
  change (String.eqb OIC_JSON_ROWNERID_NAME OIC_JSON_ACLIST_NAME) with false. cbn iota.
  change (String.eqb OIC_JSON_ROWNERID_NAME OIC_JSON_ACLIST2_NAME) with false. cbn iota.
  cbn [aces inside fmap option_fmap option_map then_flow set_aces acl_rownerID].
  unfold parse_acl_rowner, set_aces. cbn [acl_rownerID aces].
  change (String.eqb OIC_JSON_ROWNERID_NAME OIC_JSON_ROWNERID_NAME) with true. cbn iota.
  unfold rt_if. destruct (IsNilUuid o1) eqn:E.
  - apply IsNilUuid_true in E. rewrite uuid_string_ok by done. rewrite ConvertStrToUuid_text by done.
    cbn [mbind option_bind is_ok then_flow].
    change (set_acl_rownerID o (mk_acl o1 l)) with (mk_acl o l).
    rewrite !Hrest by done. unfold owner_read.
    destruct Ho1 as [->|(g & -> & Hg)]; [done|]. rewrite Hg, E. done.
  - cbn [then_flow]. rewrite !Hrest by (done || (intros ->; done)).
    unfold owner_read. destruct Ho1 as [->|(g & -> & Hg)]; [done|]. by rewrite Hg, E.
Qed.

Section codec_properties.
Context {L : CborLib} {LL : CborLaws}.

Lemma acl_ok_encodable a : acl_ok a -> exists ms, ace_maps 1 (aces a) = Some (Some ms).
Proof.
  intros [_ Ha]. induction Ha as [|ace l (Hs & _ & Hv & _) _ [ms IH]]; [by exists []|].
  cbn [ace_maps]. unfold ace_map. rewrite Hv. cbn [count_validities mbind option_bind].
  assert (Ht : exists t, subject_map (a_subject ace) = Some t).
  { destruct (a_subject ace) as [u|r|c]; cbn [subject_map]; [|by eexists..].
    destruct Hs as [Hu Hw]. rewrite bool_decide_eq_false_2, ConvertUuidToStr_ok by done.
    by eexists. }
  destruct Ht as [t ->]. cbn [mbind option_bind]. rewrite IH. by eexists.
Qed.

(** The encoder returns, whatever the outcome, exactly when no entry has a
    validity: the loop that counts them never advances. *)
Theorem AclToCBORPayload_returns fuel acl : Forall encodable (aces acl) ->
  is_Some (AclToCBORPayload (S fuel) acl) <->
  Forall (fun ace => a_validities ace = []) (aces acl).
Proof.
  intros He. rewrite <- (ace_maps_ends fuel) by done. unfold AclToCBORPayload.
  destruct (ace_maps (S fuel) (aces acl)) as [ms|]; cbn [mbind option_bind];
    split; intros [x Hx]; solve [done|by eexists].
Qed.

(** What is written for [a]; the bytes must fit the first buffer, since the size of
    the next one comes from the library's cursor. *)
Definition fits (a : OicSecAcl_t) : Prop :=
  match ace_maps 1 (aces a) with
  | Some (Some ms) => size_bound (acl_map ms a) <= CBOR_SIZE
  | _ => False
  end.

(** C9: A list that is well formed is written, and what is written reads back with
    every entry in place; the owner is the written one unless a list with an owner
    is in memory. *)
Theorem acl_cbor_roundtrip gAcl a : acl_ok a -> fits a ->
  exists b, AclToCBORPayload 1 a = Some (Some b) /\ b <> [] /\
    CBORPayloadToAcl gAcl b = Some (Some (set_acl_rownerID (owner_read gAcl a) a)) /\
    AclVersionCheck b = Some (Some OIC_SEC_ACL_V2).
Proof.
  intros Ha Hf. unfold fits in Hf.
  destruct (acl_ok_encodable a Ha) as [ms Hms]. rewrite Hms in Hf.
  destruct (payload_fits CBOR_SIZE (Z.max CBOR_SIZE (size_bound (acl_map ms a)))
    (acl_map ms a)) as [b Hb]; [done|].
  exists b. pose proof (payload_nonempty _ _ _ _ Hb) as Hne.
  pose proof (parse_payload _ _ _ _ Hb) as Hp. split; [|split; [done|]].
  { unfold AclToCBORPayload. rewrite Hms, ConvertUuidToStr_ok by apply Ha.
    cbn [mbind option_bind]. fold (acl_map ms a). by rewrite Hb. }
  unfold CBORPayloadToAcl, AclVersionCheck. destruct b as [|x b]; [done|]. rewrite Hp.
  cbn [mbind option_bind]. change (is_container (acl_map ms a)) with true. cbn iota.
  rewrite (acl_loop_roundtrip gAcl a ms) by done. done.
Qed.

End codec_properties.

End AclCodec.
