(* ===== verification/CredCodec.v ===== *)
(** * The CBOR format of credentials ([sec/svrs/credresource.c])

    [CredToCBORPayloadWithRowner] and [CBORPayloadToCred].  In their results the
    outer [None] is undefined behaviour: an accessor of the library on an item of
    another type, a key that is longer than its buffer, or optional data, which is
    copied from a structure that is only partly set ([DeserializeSecOptFromCbor]
    declares it anew for every property). *)

From S2P Require Import Prelude.
From S2P Require Import Status.
From S2P Require Import CString.
From S2P Require Import OcRandom.
From S2P Require Import SrmUtility.
From S2P Require Import Cbor.
From S2P Require Import Svr.
From S2P Require Import Pstat.
From S2P Require Import AclCodec.
Import CString OcRandom SrmUtility Cbor Svr Pstat AclCodec.

Module CredCodec.

Definition CBOR_SIZE : Z := 2048.

Definition OIC_JSON_CREDS_NAME : string := "creds".
Definition OIC_JSON_CREDID_NAME : string := "credid".
Definition OIC_JSON_ROLEID_NAME : string := "roleid".
Definition OIC_JSON_CREDTYPE_NAME : string := "credtype".
Definition OIC_JSON_PUBLICDATA_NAME : string := "publicdata".
Definition OIC_JSON_PRIVATEDATA_NAME : string := "privatedata".
Definition OIC_JSON_OPTDATA_NAME : string := "optionaldata".
Definition OIC_JSON_CREDUSAGE_NAME : string := "credusage".
Definition OIC_JSON_REVOCATION_STATUS_NAME : string := "revstat".
Definition OIC_JSON_PERIOD_NAME : string := "period".
Definition OIC_JSON_ENCODING_NAME : string := "encoding".
Definition OIC_JSON_DATA_NAME : string := "data".
Definition OIC_SEC_ENCODING_BASE64 : string := "oic.sec.encoding.base64".
Definition OIC_SEC_ENCODING_RAW : string := "oic.sec.encoding.raw".
Definition OIC_SEC_ENCODING_PEM : string := "oic.sec.encoding.pem".
Definition OIC_SEC_ENCODING_DER : string := "oic.sec.encoding.der".
Definition OIC_RSRC_TYPE_SEC_CRED : string := "oic.r.cred".

(** [IsNonEmptyRole] ([sec/svrs/secureresourcemanager.c]). *)
Definition IsNonEmptyRole (role : OicSecRole_t) : bool :=
  negb (String.eqb (role_id role) EmptyString).

(** Steps that may fail (inner [None]). *)
Definition and_then {A B} (m : option (option A)) (f : A -> option (option B)) :
    option (option B) :=
  match m with Some (Some a) => f a | Some None => Some None | None => None end.
Notation "'let?' x ':=' m 'in' k" := (and_then m (fun x => k))
  (at level 200, x pattern, m at level 200, k at level 200).
Definition ok {A} (a : A) : option (option A) := Some (Some a).
Definition fails {A} : option (option A) := Some None.

(** ** Encoding *)

Definition EncodingValueToString (encoding : Z) : option string :=
  if encoding =? OIC_ENCODING_RAW then Some OIC_SEC_ENCODING_RAW
  else if encoding =? OIC_ENCODING_BASE64 then Some OIC_SEC_ENCODING_BASE64
  else if encoding =? OIC_ENCODING_DER then Some OIC_SEC_ENCODING_DER
  else if encoding =? OIC_ENCODING_PEM then Some OIC_SEC_ENCODING_PEM
  else None.

(** The first [len] bytes of the data. *)
Definition key_bytes (k : OicSecKey_t) : option (list Z) :=
  d ← k_data k;
  if (Z.to_nat (k_len k) <=? List.length d)%nat then Some (take (Z.to_nat (k_len k)) d) else None.

Definition SerializeEncodingToCborInternal (k : OicSecKey_t) :
    option (option (list (cbor * cbor))) :=
  match EncodingValueToString (k_encoding k) with
  | None => fails
  | Some encoding =>
      b ← key_bytes k;
      ok [field OIC_JSON_ENCODING_NAME (CText encoding);
          field OIC_JSON_DATA_NAME
            (if (OIC_ENCODING_DER =? k_encoding k) || (OIC_ENCODING_RAW =? k_encoding k)
             then CBytes b else CText (bytes_string b))]
  end.

Definition SerializeEncodingToCbor (tag : string) (value : OicSecKey_t) :
    option (option (list (cbor * cbor))) :=
  let? l := SerializeEncodingToCborInternal value in ok [field tag (CMap l)].

Definition SerializeSecOptToCbor (tag : string) (value : OicSecOpt_t) :
    option (option (list (cbor * cbor))) :=
  let? l := SerializeEncodingToCborInternal value in
  ok [field tag (CMap (l ++ [field OIC_JSON_REVOCATION_STATUS_NAME (CBool (o_revstat value))]))].

Definition when_has (b : bool) (m : option (option (list (cbor * cbor)))) :
    option (option (list (cbor * cbor))) := if b then m else ok [].

Definition has_data (k : OicSecKey_t) : bool := bool_decide (is_Some (k_data k)).

Definition optional_text (k : string) (v : option string) : list (cbor * cbor) :=
  match v with Some t => [field k (CText t)] | None => [] end.

Definition subject_text (u : OicUuid_t) : option (option string) :=
  if bool_decide (u = WILDCARD_SUBJECT_ID) then ok WILDCARD_RESOURCE_URI
  else match ConvertUuidToStr u with (OC_STACK_OK, Some s) => ok s | _ => fails end.

Definition role_map (r : OicSecRole_t) : cbor :=
  CMap (field OIC_JSON_ROLE_NAME (CText (role_id r))
        :: included (negb (String.eqb (role_authority r) ""))
             OIC_JSON_AUTHORITY_NAME (CText (role_authority r))).

Definition cred_map (secureFlag : bool) (cred : OicSecCred_t) : option (option cbor) :=
  let signed := SIGNED_ASYMMETRIC_KEY =? c_credType cred in
  let? subject := subject_text (c_subject cred) in
  let? pub := when_has ((signed || (ASYMMETRIC_KEY =? c_credType cred)) &&
                        has_data (c_publicData cred))
                (SerializeEncodingToCbor OIC_JSON_PUBLICDATA_NAME (c_publicData cred)) in
  let? opt := when_has (signed && has_data (c_optionalData cred))
                (SerializeSecOptToCbor OIC_JSON_OPTDATA_NAME (c_optionalData cred)) in
  let? priv := when_has (negb secureFlag && has_data (c_privateData cred))
                 (SerializeEncodingToCbor OIC_JSON_PRIVATEDATA_NAME (c_privateData cred)) in
  ok (CMap (field OIC_JSON_CREDID_NAME (CInt (c_credId cred))
            :: field OIC_JSON_SUBJECTID_NAME (CText subject)
            :: included (IsNonEmptyRole (c_roleId cred)) OIC_JSON_ROLEID_NAME
                 (role_map (c_roleId cred))
            ++ field OIC_JSON_CREDTYPE_NAME (CInt (c_credType cred))
            :: pub ++ opt ++ optional_text OIC_JSON_CREDUSAGE_NAME (c_credUsage cred)
            ++ priv ++ optional_text OIC_JSON_PERIOD_NAME (c_period cred))).

Fixpoint cred_maps (secureFlag : bool) (l : list OicSecCred_t) : option (option (list cbor)) :=
  match l with
  | [] => ok []
  | c :: l' => let? m := cred_map secureFlag c in
               let? ms := cred_maps secureFlag l' in ok (m :: ms)
  end.

Definition creds_map (ms : list cbor) (rowner : string) : cbor :=
  CMap (field OIC_JSON_CREDS_NAME (CArray ms)
        :: field OIC_JSON_ROWNERID_NAME (CText rowner)
        :: rt_if OIC_RSRC_TYPE_SEC_CRED).

Section encode.
Context {L : CborLib}.

(** A buffer that is too small is not enlarged: the retry is called without an
    owner, which fails. *)
Definition CredToCBORPayloadWithRowner (credS : list OicSecCred_t) (rownerId : OicUuid_t)
    (cborSize : Z) (secureFlag : bool) : option (option (list Z)) :=
  let cborLen := if cborSize =? 0 then CBOR_SIZE else cborSize in
  let? ms := cred_maps secureFlag credS in
  match ConvertUuidToStr rownerId with
  | (OC_STACK_OK, Some rowner) => Some (payload cborLen cborLen (creds_map ms rowner))
  | _ => fails
  end.

End encode.

(** ** Decoding *)

Definition set_key_data (b : list Z) (k : OicSecKey_t) : OicSecKey_t :=
  mk_key (Some (b ++ [0])) (Z.of_nat (List.length b)) (k_encoding k).
Definition set_key_encoding (e : Z) (k : OicSecKey_t) : OicSecKey_t :=
  mk_key (k_data k) (k_len k) e.

Definition encoding_of (strEncoding : string) : Z :=
  if String.eqb strEncoding OIC_SEC_ENCODING_RAW then OIC_ENCODING_RAW
  else if String.eqb strEncoding OIC_SEC_ENCODING_BASE64 then OIC_ENCODING_BASE64
  else if String.eqb strEncoding OIC_SEC_ENCODING_DER then OIC_ENCODING_DER
  else if String.eqb strEncoding OIC_SEC_ENCODING_PEM then OIC_ENCODING_PEM
  else OIC_ENCODING_RAW.

(** The library's copies end with a zero that is not counted. *)
Definition DeserializeEncodingFromCborInternal (v : option cbor) (name : string)
    (value : OicSecKey_t) : option (option OicSecKey_t) :=
  if String.eqb name OIC_JSON_DATA_NAME then
    match v with
    | Some (CBytes b) => ok (set_key_data b value)
    | Some (CText t) => ok (set_key_data (codes t) value)
    | _ => fails
    end
  else if String.eqb name OIC_JSON_ENCODING_NAME then
    match v with
    | Some (CText t) => ok (set_key_encoding (encoding_of (cstr t)) value)
    | _ => None
    end
  else ok value.

(** An item that is no text is skipped by itself. *)
Fixpoint key_loop (its : list cbor) (k : OicSecKey_t) : option (option OicSecKey_t) :=
  match its with
  | [] => ok k
  | CText name :: rest =>
      match rest with
      | [] => DeserializeEncodingFromCborInternal None (cstr name) k
      | v :: rest' =>
          and_then (DeserializeEncodingFromCborInternal (Some v) (cstr name) k) (key_loop rest')
      end
  | _ :: rest => key_loop rest k
  end.

(** The value must be a container. *)
Definition entered (v : option cbor) : option (list cbor) :=
  match v with Some c => if is_container c then Some (items c) else None | None => None end.

Definition DeserializeEncodingFromCbor (v : option cbor) (k : OicSecKey_t) :
    option (option OicSecKey_t) := its ← entered v; key_loop its k.

(** Any property makes the loop copy what was never set, unless its value is
    refused before. *)
Fixpoint opt_loop (its : list cbor) (o : OicSecOpt_t) : option (option OicSecOpt_t) :=
  match its with
  | [] => ok o
  | CText name :: rest =>
      if String.eqb (cstr name) OIC_JSON_DATA_NAME
         && negb (match head rest with Some (CBytes _) | Some (CText _) => true | _ => false end)
      then fails else None
  | _ :: rest => opt_loop rest o
  end.

Definition DeserializeSecOptFromCbor (v : option cbor) (o : OicSecOpt_t) :
    option (option OicSecOpt_t) := its ← entered v; opt_loop its (mk_opt (o_key o) false).

Definition text_value (v : option cbor) : option string :=
  match v with Some (CText t) => Some (cstr t) | _ => None end.

Definition role_field (name : string) (v : option cbor) (r : OicSecRole_t) :
    option (option OicSecRole_t) :=
  if String.eqb name OIC_JSON_ROLE_NAME then
    t ← text_value v;
    if (ROLEID_LENGTH <=? String.length t)%nat then fails else ok (mk_role t (role_authority r))
  else if String.eqb name OIC_JSON_AUTHORITY_NAME then
    t ← text_value v;
    if (ROLEAUTHORITY_LENGTH <=? String.length t)%nat then fails else ok (mk_role (role_id r) t)
  else ok r.

(** An item that is no text ends the loop. *)
Fixpoint role_loop (its : list cbor) (r : OicSecRole_t) : option (option OicSecRole_t) :=
  match its with
  | CText name :: rest =>
      match rest with
      | [] => role_field (cstr name) None r
      | v :: rest' => and_then (role_field (cstr name) (Some v) r) (role_loop rest')
      end
  | _ => ok r
  end.

Definition parse_role (v : option cbor) (r : OicSecRole_t) : option (option OicSecRole_t) :=
  its ← entered v;
  let? r := role_loop its r in if IsNonEmptyRole r then ok r else fails.

Definition parse_cred_subject (v : option cbor) (u : OicUuid_t) : option (option OicUuid_t) :=
  t ← text_value v;
  if String.eqb t WILDCARD_RESOURCE_URI then ok (42 :: tl u)
  else '(ret, u) ← ConvertStrToUuid t u; if is_ok ret then ok u else fails.

(** A [uint64_t]; a negative number fails an assertion. *)
Definition unsigned_value (v : option cbor) : option Z :=
  match v with Some (CInt z) => if 0 <=? z then Some z else None | _ => None end.

Definition parse_cred_field (name : string) (v : option cbor) (c : OicSecCred_t) :
    option (option OicSecCred_t) :=
  let set id subject role type pub usage opt priv period :=
    mk_cred id subject role type pub usage opt priv period (c_rownerID c) in
  let '(mk_cred id subject role type pub usage opt priv period _) := c in
  if String.eqb name OIC_JSON_CREDID_NAME then
    z ← unsigned_value v; ok (set (u16 z) subject role type pub usage opt priv period)
  else if String.eqb name OIC_JSON_SUBJECTID_NAME then
    let? u := parse_cred_subject v subject in ok (set id u role type pub usage opt priv period)
  else if String.eqb name OIC_JSON_ROLEID_NAME then
    let? r := parse_role v role in ok (set id subject r type pub usage opt priv period)
  else if String.eqb name OIC_JSON_CREDTYPE_NAME then
    z ← unsigned_value v; ok (set id subject role (u32 z) pub usage opt priv period)
  else if String.eqb name OIC_JSON_PRIVATEDATA_NAME then
    let? k := DeserializeEncodingFromCbor v priv in
    ok (set id subject role type pub usage opt k period)
  else if String.eqb name OIC_JSON_PUBLICDATA_NAME then
    let? k := DeserializeEncodingFromCbor v pub in
    ok (set id subject role type k usage opt priv period)
  else if String.eqb name OIC_JSON_OPTDATA_NAME then
    let? o := DeserializeSecOptFromCbor v opt in
    ok (set id subject role type pub usage o priv period)
  else if String.eqb name OIC_JSON_CREDUSAGE_NAME then
    t ← text_value v; ok (set id subject role type pub (Some t) opt priv period)
  else if String.eqb name OIC_JSON_PERIOD_NAME then
    t ← text_value v; ok (set id subject role type pub usage opt priv (Some t))
  else ok c.

Fixpoint cred_loop (its : list cbor) (c : OicSecCred_t) : option (option OicSecCred_t) :=
  match its with
  | CText name :: rest =>
      match rest with
      | [] => parse_cred_field (cstr name) None c
      | v :: rest' => and_then (parse_cred_field (cstr name) (Some v) c) (cred_loop rest')
      end
  | _ => ok c
  end.

Definition no_key : OicSecKey_t := mk_key None 0 OIC_ENCODING_UNKNOWN.
Definition empty_cred : OicSecCred_t :=
  mk_cred 0 THE_NIL_UUID (mk_role "" "") 0 no_key None (mk_opt no_key false) no_key None
    THE_NIL_UUID.

(** The first element of an array is read into the head of the list, which it then
    ends; the others are appended. *)
Fixpoint creds_loop (its : list cbor) (l : list OicSecCred_t) : option (option (list OicSecCred_t)) :=
  match its with
  | [] => ok l
  | it :: rest =>
      its' ← entered (Some it);
      let? c := cred_loop its' empty_cred in creds_loop rest (l ++ [c])
  end.

Definition parse_creds (v : option cbor) (l : list OicSecCred_t) :
    option (option (list OicSecCred_t)) :=
  its ← entered v;
  match its with
  | [] => ok l
  | it :: rest =>
      its' ← entered (Some it);
      let? c := cred_loop its' (default empty_cred (head l)) in creds_loop rest [c]
  end.

Definition parse_cred_rowner (v : option cbor) (o : option OicUuid_t) :
    option (option (option OicUuid_t)) :=
  match v with
  | Some (CText t) =>
      '(ret, u) ← ConvertStrToUuid (cstr t) THE_NIL_UUID;
      if is_ok ret then ok (Some u) else fails
  | _ => ok o
  end.

Definition parse_root_field (tagName : string) (v : option cbor)
    (r : list OicSecCred_t * option OicUuid_t) :
    option (option (list OicSecCred_t * option OicUuid_t)) :=
  let '(l, rownerid) := r in
  if String.eqb tagName OIC_JSON_CREDS_NAME then
    let? l := parse_creds v l in ok (l, rownerid)
  else if String.eqb tagName OIC_JSON_ROWNERID_NAME then
    let? o := parse_cred_rowner v rownerid in ok (l, o)
  else ok (l, rownerid).

Fixpoint root_loop (its : list cbor) (r : list OicSecCred_t * option OicUuid_t) :
    option (option (list OicSecCred_t * option OicUuid_t)) :=
  match its with
  | [] => ok r
  | CText tag :: rest =>
      match rest with
      | [] => parse_root_field (cstr tag) None r
      | v :: rest' => and_then (parse_root_field (cstr tag) (Some v) r) (root_loop rest')
      end
  | _ :: rest => root_loop rest r
  end.

Section decode.
Context {L : CborLib}.

(** The credentials and the owner; without the tag [creds] there is one empty
    credential. *)
Definition CBORPayloadToCred (cborPayload : list Z) :
    option (option (list OicSecCred_t * option OicUuid_t)) :=
  match cborPayload with
  | [] => fails
  | _ :: _ =>
      t ← parse cborPayload;
      if is_container t then root_loop (items t) ([empty_cred], None) else fails
  end.

End decode.

(** ** Properties *)

(** A key lies in its buffer. *)
Definition key_bounded (k : OicSecKey_t) : Prop :=
  match k_data k with Some d => k_len k <= Z.of_nat (List.length d) | None => True end.
Definition keys_bounded (c : OicSecCred_t) : Prop :=
  key_bounded (c_publicData c) /\ key_bounded (c_optionalData c) /\ key_bounded (c_privateData c).

Lemma key_bytes_some k : key_bounded k -> has_data k = true -> exists b, key_bytes k = Some b.
Proof.
  unfold key_bounded, has_data, key_bytes. destruct (k_data k) as [d|]; [|done]. intros H _.
  cbn [mbind option_bind]. rewrite (proj2 (Nat.leb_le _ _)) by lia. by eexists.
Qed.

Lemma key_encoded k : key_bounded k -> has_data k = true ->
  is_Some (SerializeEncodingToCborInternal k).
Proof.
  intros H Hd. unfold SerializeEncodingToCborInternal.
  destruct (EncodingValueToString (k_encoding k)); [|by eexists].
  destruct (key_bytes_some k H Hd) as [b ->]. by eexists.
Qed.

Lemma and_then_defined {A B} (m : option (option A)) (f : A -> option (option B)) :
  is_Some m -> (forall a, is_Some (f a)) -> is_Some (and_then m f).
Proof. intros [[a|] ->] Hf; [apply Hf|by eexists]. Qed.

(** The encoder has no undefined behaviour on keys that lie in their buffers. *)
Lemma cred_map_defined secureFlag c : keys_bounded c -> is_Some (cred_map secureFlag c).
Proof.
  intros (Hp & Ho & Hr). unfold cred_map, when_has, SerializeEncodingToCbor, SerializeSecOptToCbor.
  apply and_then_defined.
  { unfold subject_text. case_bool_decide; [by eexists|].
    by destruct (ConvertUuidToStr (c_subject c)) as [[] [|]]; eexists. }
  intros subj. apply and_then_defined.
  { destruct (_ && has_data (c_publicData c)) eqn:E; [|by eexists].
    apply andb_prop in E as [_ E]. apply and_then_defined; [by apply key_encoded|by eexists]. }
  intros pub. apply and_then_defined.
  { destruct (_ && has_data (c_optionalData c)) eqn:E; [|by eexists].
    apply andb_prop in E as [_ E]. apply and_then_defined; [by apply key_encoded|by eexists]. }
  intros opt. apply and_then_defined; [|by eexists].
  destruct (_ && has_data (c_privateData c)) eqn:E; [|by eexists].
  apply andb_prop in E as [_ E]. apply and_then_defined; [by apply key_encoded|by eexists].
Qed.

Lemma cred_maps_defined secureFlag l : Forall keys_bounded l -> is_Some (cred_maps secureFlag l).
Proof.
  induction 1 as [|c l Hc _ IH]; [by eexists|]. cbn [cred_maps].
  apply and_then_defined; [by apply cred_map_defined|]. intros m.
  apply and_then_defined; [done|]. by eexists.
Qed.

Lemma CredToCBORPayload_defined {L : CborLib} l o n f : Forall keys_bounded l ->
  exists m, CredToCBORPayloadWithRowner l o n f = Some m.
Proof.
  intros H. unfold CredToCBORPayloadWithRowner. cbv zeta.
  apply and_then_defined; [by apply cred_maps_defined|]. intros ms.
  by destruct (ConvertUuidToStr o) as [[] [|]]; eexists.
Qed.

(** ** What can be written and read back *)

Definition key_ok (k : OicSecKey_t) : Prop :=
  k = no_key \/
  exists b e, k = mk_key (Some (b ++ [0])) (Z.of_nat (List.length b)) e /\
    Forall (fun z => 0 <= z < 256) b /\
    e ∈ [OIC_ENCODING_RAW; OIC_ENCODING_BASE64; OIC_ENCODING_PEM; OIC_ENCODING_DER].

Definition text_opt_ok (t : option string) : Prop :=
  match t with Some t => text_ok t | None => True end.

Definition role_ok (r : OicSecRole_t) : Prop :=
  r = mk_role "" "" \/
  (text_ok (role_id r) /\ text_ok (role_authority r) /\ role_id r <> "" /\
   (String.length (role_id r) < ROLEID_LENGTH)%nat /\
   (String.length (role_authority r) < ROLEAUTHORITY_LENGTH)%nat).

(** Public data only where the type has it, and no optional data, which cannot be
    read. *)
Definition cred_ok (c : OicSecCred_t) : Prop :=
  in_width 16 (c_credId c) /\ is_uuid (c_subject c) /\ role_ok (c_roleId c) /\
  in_width 32 (c_credType c) /\ key_ok (c_publicData c) /\
  (c_publicData c = no_key \/ c_credType c ∈ [SIGNED_ASYMMETRIC_KEY; ASYMMETRIC_KEY]) /\
  text_opt_ok (c_credUsage c) /\ c_optionalData c = mk_opt no_key false /\
  key_ok (c_privateData c) /\ text_opt_ok (c_period c) /\ c_rownerID c = THE_NIL_UUID.

(** What is left of a credential that is written with [secureFlag]. *)
Definition without_secret (c : OicSecCred_t) : OicSecCred_t :=
  mk_cred (c_credId c) (c_subject c) (c_roleId c) (c_credType c) (c_publicData c)
    (c_credUsage c) (c_optionalData c) no_key (c_period c) (c_rownerID c).

Definition sent (secureFlag : bool) (c : OicSecCred_t) : OicSecCred_t :=
  if secureFlag then without_secret c else c.

Lemma has_data_no_key : has_data no_key = false.
Proof. done. Qed.

(** A key that has data is read back from what is written. *)
Lemma key_roundtrip k tag : key_ok k -> has_data k = true ->
  exists l, SerializeEncodingToCbor tag k = ok [field tag (CMap l)] /\
    DeserializeEncodingFromCbor (Some (CMap l)) no_key = ok k.
Proof.
  intros [->|(b & e & -> & Hb & He)] Hd; [done|]. unfold SerializeEncodingToCbor.
  unfold SerializeEncodingToCborInternal, key_bytes. cbn [k_encoding k_data k_len mbind option_bind].
  rewrite length_app, Nat2Z.id, (proj2 (Nat.leb_le _ _)), take_app_length by lia.
  assert (Hdec : forall E v, encoding_of E = e -> text_ok E ->
      (v = CBytes b \/ v = CText (bytes_string b)) ->
      DeserializeEncodingFromCbor (Some (CMap [field OIC_JSON_ENCODING_NAME (CText E);
        field OIC_JSON_DATA_NAME v])) no_key
      = ok (mk_key (Some (b ++ [0])) (Z.of_nat (List.length b)) e)).
  { intros E v HE Ht Hv. unfold DeserializeEncodingFromCbor, entered. cbn -[cstr encoding_of codes].
    change (cstr OIC_JSON_ENCODING_NAME) with OIC_JSON_ENCODING_NAME.
    change (cstr OIC_JSON_DATA_NAME) with OIC_JSON_DATA_NAME.
    unfold DeserializeEncodingFromCborInternal at 1. cbn -[cstr encoding_of codes].
    rewrite Ht, HE. cbn -[cstr codes]. destruct Hv as [-> | ->]; cbn -[codes bytes_string]; [done|].
    by rewrite codes_bytes. }
  rewrite !elem_of_cons in He.
  destruct He as [->|[->|[->|[->|He]]]]; [..|by apply not_elem_of_nil in He];
    (eexists; split; [reflexivity|apply Hdec; [done|done|]]); auto.
Qed.

Lemma cred_loop_field k v l c : text_ok k -> cred_loop (items (CMap (field k v :: l))) c =
  and_then (parse_cred_field k (Some v) c) (cred_loop (items (CMap l))).
Proof. unfold text_ok. intros Hk. cbn -[cstr parse_cred_field]. by rewrite Hk. Qed.

Lemma root_loop_field k v l r : text_ok k -> root_loop (items (CMap (field k v :: l))) r =
  and_then (parse_root_field k (Some v) r) (root_loop (items (CMap l))).
Proof. unfold text_ok. intros Hk. cbn -[cstr parse_root_field]. by rewrite Hk. Qed.

Lemma role_loop_field k v l r : text_ok k -> role_loop (items (CMap (field k v :: l))) r =
  and_then (role_field k (Some v) r) (role_loop (items (CMap l))).
Proof. unfold text_ok. intros Hk. cbn -[cstr role_field]. by rewrite Hk. Qed.

Lemma role_roundtrip r : role_ok r -> IsNonEmptyRole r = true ->
  parse_role (Some (role_map r)) (mk_role "" "") = ok r.
Proof.
  intros [->|(Hi & Ha & Hne & Hli & Hla)] Hn; [done|]. destruct r as [i a].
  cbn [role_id role_authority] in *. unfold parse_role, role_map, entered.
  cbn [is_container mbind option_bind role_id role_authority].
  rewrite role_loop_field by done. unfold role_field at 1.
  change (String.eqb OIC_JSON_ROLE_NAME OIC_JSON_ROLE_NAME) with true.
  cbn [text_value mbind option_bind]. rewrite Hi, (proj2 (Nat.leb_gt _ _)) by done.
  cbn [and_then ok role_authority]. destruct (String.eqb_spec a "") as [->|Hae]; cbn [included negb].
  - cbn [items flat_map role_loop and_then ok]. by rewrite Hn.
  - rewrite role_loop_field by done. unfold role_field.
    change (String.eqb OIC_JSON_AUTHORITY_NAME OIC_JSON_ROLE_NAME) with false.
    change (String.eqb OIC_JSON_AUTHORITY_NAME OIC_JSON_AUTHORITY_NAME) with true.
    cbn [text_value mbind option_bind]. rewrite Ha, (proj2 (Nat.leb_gt _ _)) by done.
    cbn [and_then ok role_id items flat_map role_loop]. by rewrite Hn.
Qed.

Lemma subject_text_roundtrip u : is_uuid u -> exists t, subject_text u = ok t /\
  parse_cred_subject (Some (CText t)) THE_NIL_UUID = ok u.
Proof.
  intros Hu. unfold subject_text, parse_cred_subject. case_bool_decide as Hw.
  - subst u. by eexists.
  - rewrite ConvertUuidToStr_ok by done. eexists. split; [done|].
    cbn [text_value mbind option_bind]. rewrite uuid_string_ok by done.
    destruct (String.eqb_spec (c_string (uuid_text u ++ [0])) WILDCARD_RESOURCE_URI) as [E|_].
    { exfalso. apply (f_equal codes) in E. rewrite codes_c_string in E by by apply uuid_text_chars.
      pose proof (uuid_text_format u (proj2 Hu) (proj1 Hu)) as (_ & Hl & _). by rewrite E in Hl. }
    by rewrite ConvertStrToUuid_text by done.
Qed.

(** The field of a key is left out, or is read back. *)
Lemma key_part cond tag k : key_ok k -> (cond = false -> k = no_key) ->
  exists part, when_has (cond && has_data k) (SerializeEncodingToCbor tag k) = ok part /\
    (part = [] /\ k = no_key \/
     exists l, part = [field tag (CMap l)] /\
       DeserializeEncodingFromCbor (Some (CMap l)) no_key = ok k).
Proof.
  intros Hk Hc. destruct cond; cbn [andb when_has]; [|by exists []; auto].
  destruct (has_data k) eqn:Hd; cbn [when_has].
  - destruct (key_roundtrip k tag Hk Hd) as (l & E & D). eexists. split; [exact E|]. right. by exists l.
  - exists []. split; [done|]. left. split; [done|]. by destruct Hk as [->|(b & e & -> & _)].
Qed.

(** Opens a field of the loop over a credential. *)
Ltac cred_step :=
  rewrite cred_loop_field by done; unfold parse_cred_field at 1;
  cbn -[cred_loop items cstr parse_cred_subject parse_role unsigned_value wrap THE_NIL_UUID
    DeserializeEncodingFromCbor DeserializeSecOptFromCbor].

Lemma unsigned_ok z : 0 <= z -> unsigned_value (Some (CInt z)) = Some z.
Proof. intros H. unfold unsigned_value. by rewrite (proj2 (Z.leb_le _ _)). Qed.

(** Optional parts of a credential, each starting from a field that is not set. *)
Section parts.
Context (id : Z) (u : OicUuid_t) (o : OicUuid_t) (l : list (cbor * cbor)).

Lemma role_part r type pub usage opt priv period : role_ok r ->
  cred_loop (items (CMap (included (IsNonEmptyRole r) OIC_JSON_ROLEID_NAME (role_map r) ++ l)))
    (mk_cred id u (mk_role "" "") type pub usage opt priv period o)
  = cred_loop (items (CMap l)) (mk_cred id u r type pub usage opt priv period o).
Proof.
  intros Hr. destruct (IsNonEmptyRole r) eqn:Hn; cbn [included app].
  - cred_step. by rewrite role_roundtrip.
  - by destruct Hr as [->|(_ & _ & Hne & _)]; [|apply negb_false_iff, String.eqb_eq in Hn].
Qed.

Lemma pub_part part r type pub usage opt priv period :
  part = [] /\ pub = no_key \/ (exists m, part = [field OIC_JSON_PUBLICDATA_NAME (CMap m)] /\
    DeserializeEncodingFromCbor (Some (CMap m)) no_key = ok pub) ->
  cred_loop (items (CMap (part ++ l))) (mk_cred id u r type no_key usage opt priv period o)
  = cred_loop (items (CMap l)) (mk_cred id u r type pub usage opt priv period o).
Proof. intros [[-> ->]|(m & -> & D)]; [done|]. cbn [app]. cred_step. by rewrite D. Qed.

Lemma priv_part part r type pub usage opt priv period :
  part = [] /\ priv = no_key \/ (exists m, part = [field OIC_JSON_PRIVATEDATA_NAME (CMap m)] /\
    DeserializeEncodingFromCbor (Some (CMap m)) no_key = ok priv) ->
  cred_loop (items (CMap (part ++ l))) (mk_cred id u r type pub usage opt no_key period o)
  = cred_loop (items (CMap l)) (mk_cred id u r type pub usage opt priv period o).
Proof. intros [[-> ->]|(m & -> & D)]; [done|]. cbn [app]. cred_step. by rewrite D. Qed.

Lemma usage_part r type pub usage opt priv period : text_opt_ok usage ->
  cred_loop (items (CMap (optional_text OIC_JSON_CREDUSAGE_NAME usage ++ l)))
    (mk_cred id u r type pub None opt priv period o)
  = cred_loop (items (CMap l)) (mk_cred id u r type pub usage opt priv period o).
Proof. intros Ht. destruct usage as [t|]; [|done]. cbn [app optional_text]. cred_step. by rewrite Ht. Qed.

Lemma period_part r type pub usage opt priv period : text_opt_ok period ->
  cred_loop (items (CMap (optional_text OIC_JSON_PERIOD_NAME period ++ l)))
    (mk_cred id u r type pub usage opt priv None o)
  = cred_loop (items (CMap l)) (mk_cred id u r type pub usage opt priv period o).
Proof. intros Ht. destruct period as [t|]; [|done]. cbn [app optional_text]. cred_step. by rewrite Ht. Qed.
End parts.

Lemma cred_roundtrip f c : cred_ok c -> exists m, cred_map f c = ok m /\ is_container m = true /\
  cred_loop (items m) empty_cred = ok (sent f c).
Proof.
  destruct c as [id u r t pub usage opt priv period o]. unfold cred_ok.
  cbn [c_credId c_subject c_roleId c_credType c_publicData c_credUsage c_optionalData
    c_privateData c_period c_rownerID].
  intros (Hid & Hu & Hr & Ht & Hpub & Hpt & Hus & -> & Hpriv & Hper & ->).
  destruct (subject_text_roundtrip u Hu) as (st & E1 & D1).
  destruct (key_part ((SIGNED_ASYMMETRIC_KEY =? t) || (ASYMMETRIC_KEY =? t))
    OIC_JSON_PUBLICDATA_NAME pub Hpub) as (p1 & E2 & D2).
  { intros E. apply orb_false_elim in E as [Ea Eb]. apply Z.eqb_neq in Ea, Eb.
    destruct Hpt as [|Hin]; [done|]. rewrite !elem_of_cons in Hin.
    destruct Hin as [->|[->|Hin]]; [done..|by apply not_elem_of_nil in Hin]. }
  destruct (key_part (negb f) OIC_JSON_PRIVATEDATA_NAME (if f then no_key else priv))
    as (p3 & E3 & D3); [by destruct f; [left|]|by destruct f|].
  assert (E3' : when_has (negb f && has_data priv)
    (SerializeEncodingToCbor OIC_JSON_PRIVATEDATA_NAME priv) = ok p3) by (by destruct f).
  unfold cred_map. cbn [c_credId c_subject c_roleId c_credType c_publicData c_credUsage
    c_optionalData c_privateData c_period c_rownerID]. rewrite E1. cbn [and_then ok].
  rewrite E2. cbn [and_then ok]. change (has_data (mk_opt no_key false)) with false.
  rewrite andb_false_r. cbn [when_has and_then ok]. rewrite E3'. cbn [and_then ok].
  eexists. split; [done|]. split; [done|]. unfold empty_cred. cred_step.
  rewrite unsigned_ok by apply Hid. cbn [mbind option_bind and_then ok]. rewrite wrap_id by done.
  cred_step. rewrite D1. cbn [and_then ok].
  rewrite role_part by done. cred_step. rewrite unsigned_ok by apply Ht. cbn [mbind option_bind and_then ok].
  rewrite wrap_id by done. rewrite (pub_part _ _ _ _ p1 _ _ pub) by done.
  change (@nil (cbor * cbor) ++ ?x) with x.
  rewrite usage_part by done. rewrite (priv_part _ _ _ _ p3 _ _ _ _ _ (if f then no_key else priv)) by done.
  rewrite <- (app_nil_r (optional_text OIC_JSON_PERIOD_NAME period)).
  rewrite period_part by done. by destruct f.
Qed.

Lemma creds_roundtrip f l : Forall cred_ok l -> exists ms, cred_maps f l = ok ms /\
  List.length ms = List.length l /\ forall acc, creds_loop ms acc = ok (acc ++ (sent f <$> l)).
Proof.
  induction 1 as [|c l Hc _ (ms & E & Hl & D)].
  { exists []. split; [done|]. split; [done|]. intros acc. cbn [fmap list_fmap creds_loop].
    by rewrite app_nil_r. }
  destruct (cred_roundtrip f c Hc) as (m & Em & Hm & Dm). exists (m :: ms).
  cbn [cred_maps]. rewrite Em. cbn [and_then ok]. rewrite E. split; [done|].
  split; [by cbn; f_equal|]. intros acc. cbn [creds_loop entered mbind option_bind]. rewrite Hm.
  cbn [mbind option_bind]. rewrite Dm. cbn [and_then ok]. rewrite D, <- app_assoc. done.
Qed.

Section codec_properties.
Context {L : CborLib} {LL : CborLaws}.

Lemma CredToCBORPayload_nonempty l o n f b :
  CredToCBORPayloadWithRowner l o n f = Some (Some b) -> b <> [].
Proof.
  unfold CredToCBORPayloadWithRowner. cbv zeta.
  destruct (cred_maps f l) as [[ms|]|]; cbn [and_then]; [|done..].
  destruct (ConvertUuidToStr o) as [[] [t|]]; try done.
  intros [= H]. by apply payload_nonempty in H.
Qed.

(** The list fits a buffer of [n] bytes, 2048 for 0. *)
Definition creds_fit (l : list OicSecCred_t) (o : OicUuid_t) (n : Z) (f : bool) : Prop :=
  match cred_maps f l with
  | Some (Some ms) =>
      size_bound (creds_map ms (c_string (uuid_text o ++ [0]))) <= (if n =? 0 then CBOR_SIZE else n)
  | _ => False
  end.

(** C10: Credentials that are well formed and fit the buffer are written, and what is
    written reads back as the same list and owner, without the private keys when
    the flag asks for that. *)
Theorem cred_cbor_roundtrip l o n f : l <> [] -> Forall cred_ok l -> is_uuid o ->
  creds_fit l o n f ->
  exists b, CredToCBORPayloadWithRowner l o n f = Some (Some b) /\ b <> [] /\
    CBORPayloadToCred b = Some (Some (sent f <$> l, Some o)).
Proof.
  intros Hne Hl Ho Hfit. unfold creds_fit in Hfit.
  destruct (creds_roundtrip f l Hl) as (ms & E & _). rewrite E in Hfit.
  set (t := creds_map ms (c_string (uuid_text o ++ [0]))) in *.
  destruct (payload_fits _ (if n =? 0 then CBOR_SIZE else n) t Hfit) as [b Hb].
  assert (He : CredToCBORPayloadWithRowner l o n f = Some (Some b)).
  { unfold CredToCBORPayloadWithRowner. cbv zeta. rewrite E. cbn [and_then ok].
    rewrite ConvertUuidToStr_ok by done. exact (f_equal Some Hb). }
  exists b. split; [done|]. pose proof (CredToCBORPayload_nonempty _ _ _ _ _ He) as Hb0.
  split; [done|]. apply parse_payload in Hb. unfold CBORPayloadToCred.
  destruct b as [|x b]; [done|]. rewrite Hb. cbn [mbind option_bind].
  change (is_container t) with true. unfold t, creds_map.
  rewrite root_loop_field by done. unfold parse_root_field at 1.
  change (String.eqb OIC_JSON_CREDS_NAME OIC_JSON_CREDS_NAME) with true.
  destruct l as [|c l]; [done|]. inversion Hl as [|? ? Hc Hl']; subst.
  destruct (cred_roundtrip f c Hc) as (m & Em & Hm & Dm).
  destruct (creds_roundtrip f l Hl') as (ms' & E' & _ & D').
  cbn [cred_maps] in E. rewrite Em in E. cbn [and_then ok] in E. rewrite E' in E.
  injection E as <-. unfold parse_creds. cbn [entered is_container mbind option_bind].
  change (items (CArray (m :: ms'))) with (m :: ms'). cbn iota. rewrite Hm.
  cbn [mbind option_bind]. change (default empty_cred (head [empty_cred])) with empty_cred.
  rewrite Dm. cbn [and_then ok]. rewrite D'.
  cbn [and_then ok]. rewrite root_loop_field by done. unfold parse_root_field at 1.
  change (String.eqb OIC_JSON_ROWNERID_NAME OIC_JSON_CREDS_NAME) with false.
  change (String.eqb OIC_JSON_ROWNERID_NAME OIC_JSON_ROWNERID_NAME) with true.
  unfold parse_cred_rowner. rewrite uuid_string_ok, ConvertStrToUuid_text by done.
  cbn [mbind option_bind is_ok and_then ok]. done.
Qed.

(** A payload without the tag of the list is one empty credential. *)
Lemma empty_payload_is_a_credential b : parse b = Some (CMap []) -> b <> [] ->
  CBORPayloadToCred b = Some (Some ([empty_cred], None)).
Proof. intros Hb Hne. unfold CBORPayloadToCred. destruct b; [done|]. by rewrite Hb. Qed.

End codec_properties.

(** Optional data that the encoder writes cannot be read: the copy is taken from a
    structure that was not set. *)
Lemma optional_data_undefined o l :
  SerializeSecOptToCbor OIC_JSON_OPTDATA_NAME o = Some (Some l) ->
  exists v, l = [field OIC_JSON_OPTDATA_NAME v] /\
    DeserializeSecOptFromCbor (Some v) (mk_opt no_key false) = None.
Proof.
  unfold SerializeSecOptToCbor, SerializeEncodingToCborInternal.
  destruct (EncodingValueToString _) as [e|]; [|done].
  destruct (key_bytes (o_key o)) as [b|]; [|done]. cbn [mbind option_bind and_then ok].
  intros [= <-]. by eexists.
Qed.

End CredCodec.
