(* ===== verification/Doxm.v ===== *)
(** * The device ownership resource, /oic/sec/doxm ([sec/svrs/doxmresource.c])

    Access modes, CBOR format, persistent storage, device identity, the
    accessors, the steps that start an owner transfer, initialization and the
    GET handler.  The POST handler is in [Handlers].  The configuration without
    multiple owners and with DTLS is modelled. *)

From S2P Require Import Prelude.
From S2P Require Import Status.
From S2P Require Import CString.
From S2P Require Import OcRandom.
From S2P Require Import SrmUtility.
From S2P Require Import Cbor.
From S2P Require Import PsInterface.
From S2P Require Import Svr.
From S2P Require Import Pstat.
Import CString OcRandom SrmUtility Cbor PsInterface Svr Pstat.

Module Doxm.

Open Scope m_scope.

Definition CBOR_SIZE : Z := 512.
Definition CBOR_MAX_SIZE : Z := 4400.
Definition MAX_UUID_SEED_SIZE : Z := 64.
Definition MIN_UUID_SEED_SIZE : Z := 8.

(** ** Access modes *)

Inductive DoxmProperty_t : Type :=
| DOXM_OXMS | DOXM_OXMSEL | DOXM_SCT | DOXM_OWNED | DOXM_DEVICEUUID | DOXM_DEVOWNERUUID
| DOXM_ROWNERUUID.

(** The table has a first row for a property ([oxmtype]) the enumeration, which
    starts at one, does not have. *)
Definition gDoxmPropertyAccessModes (p : DoxmProperty_t) : list Z :=
  let R := PERMISSION_READ in
  let RW := Z.lor PERMISSION_READ PERMISSION_WRITE in
  match p with
  | DOXM_OXMS => [R; R; R; R; R]
  | DOXM_OXMSEL => [R; RW; R; R; R]
  | DOXM_SCT => [R; R; R; R; R]
  | DOXM_OWNED => [R; RW; R; R; R]
  | DOXM_DEVICEUUID => [R; RW; R; R; R]
  | DOXM_DEVOWNERUUID => [R; RW; R; R; R]
  | DOXM_ROWNERUUID => [R; RW; R; R; RW]
  end.

Definition IsPropertyReadOnly (p : DoxmProperty_t) (s : Z) : option bool :=
  mode ← load (gDoxmPropertyAccessModes p) s;
  Some (PERMISSION_READ =? mode).

(** ** CBOR format *)

Definition OIC_JSON_OXMS_NAME : string := "oxms".
Definition OIC_JSON_OXM_SEL_NAME : string := "oxmsel".
Definition OIC_JSON_SUPPORTED_CRED_TYPE_NAME : string := "sct".
Definition OIC_JSON_OWNED_NAME : string := "owned".
Definition OIC_JSON_DEVICE_ID_NAME : string := "deviceuuid".
Definition OIC_JSON_DEVOWNERID_NAME : string := "devowneruuid".
Definition OIC_RSRC_TYPE_SEC_DOXM : string := "oic.r.doxm".

Definition doxm_map (d : OicSecDoxm_t) (deviceID owner rownerID : string)
    (propertiesToInclude : DoxmProperty_t -> bool) : list (cbor * cbor) :=
  let has_oxm := negb (bool_decide (d_oxm d = [])) in
  included (propertiesToInclude DOXM_OXMS && has_oxm) OIC_JSON_OXMS_NAME
    (CArray (CInt <$> d_oxm d))
  ++ included (propertiesToInclude DOXM_OXMSEL && has_oxm) OIC_JSON_OXM_SEL_NAME
       (CInt (d_oxmSel d))
  ++ included (propertiesToInclude DOXM_SCT) OIC_JSON_SUPPORTED_CRED_TYPE_NAME (CInt (d_sct d))
  ++ included (propertiesToInclude DOXM_OWNED) OIC_JSON_OWNED_NAME (CBool (d_owned d))
  ++ included (propertiesToInclude DOXM_DEVICEUUID) OIC_JSON_DEVICE_ID_NAME (CText deviceID)
  ++ included (propertiesToInclude DOXM_DEVOWNERUUID) OIC_JSON_DEVOWNERID_NAME (CText owner)
  ++ included (propertiesToInclude DOXM_ROWNERUUID) OIC_JSON_ROWNERID_NAME (CText rownerID)
  ++ rt_if OIC_RSRC_TYPE_SEC_DOXM.

(** The text of a UUID property, converted only when it is included. *)
Definition uuid_property (include : bool) (u : OicUuid_t) : option string :=
  if include then
    match ConvertUuidToStr u with (OC_STACK_OK, Some t) => Some t | _ => None end
  else Some EmptyString.

Section codec.
Context {L : CborLib}.

Definition DoxmToCBORPayloadPartial (doxm : option OicSecDoxm_t)
    (propertiesToInclude : DoxmProperty_t -> bool) : OCStackResult * list Z :=
  match doxm with
  | None => (OC_STACK_INVALID_PARAM, [])
  | Some d =>
      match uuid_property (propertiesToInclude DOXM_DEVICEUUID) (d_deviceID d),
            uuid_property (propertiesToInclude DOXM_DEVOWNERUUID) (d_owner d),
            uuid_property (propertiesToInclude DOXM_ROWNERUUID) (d_rownerID d) with
      | Some deviceID, Some owner, Some rownerID =>
          match payload CBOR_SIZE CBOR_MAX_SIZE
                  (CMap (doxm_map d deviceID owner rownerID propertiesToInclude)) with
          | Some b => (OC_STACK_OK, b)
          | None => (OC_STACK_ERROR, [])
          end
      | _, _, _ => (OC_STACK_ERROR, [])
      end
  end.

Definition DoxmToCBORPayload (doxm : option OicSecDoxm_t) : OCStackResult * list Z :=
  DoxmToCBORPayloadPartial doxm (fun _ => true).

(** [goto exit] with a result code is [inl]. *)
Definition andthen {A B} (m : option (OCStackResult + A)) (f : A -> option (OCStackResult + B)) :
    option (OCStackResult + B) :=
  match m with Some (inr a) => f a | Some (inl r) => Some (inl r) | None => None end.
Local Notation "'try' x ':=' m 'in' k" := (andthen m (fun x => k))
  (at level 200, x pattern, m at level 200, k at level 200).

(** A missing property is taken from the old structure, which must exist. *)
Definition old_value {A} (r : OCStackResult) (g : option OicSecDoxm_t) (f : OicSecDoxm_t -> A) :
    option (OCStackResult + A * bool) :=
  match g with Some d => Some (inr (f d, false)) | None => Some (inl r) end.

(** The leading integers of an array; the array was allocated zeroed. *)
Fixpoint int_prefix (l : list cbor) : list Z :=
  match l with
  | CInt z :: l' => u32 (to_int z) :: int_prefix l'
  | _ => (fun _ => 0) <$> l
  end.

Definition parse_oxms (s : Z) (g : option OicSecDoxm_t) (l : list (cbor * cbor)) :
    option (OCStackResult + list Z * bool) :=
  match find_value l OIC_JSON_OXMS_NAME with
  | Some (CArray a) =>
      match a with
      | [] => Some (inl OC_STACK_ERROR)
      | _ :: _ => ro ← IsPropertyReadOnly DOXM_OXMS s; Some (inr (int_prefix a, ro))
      end
  | _ => old_value OC_STACK_ERROR g d_oxm
  end.

(** An integer property, and whether it was met at all. *)
Definition parse_num (s : Z) (p : DoxmProperty_t) (k : string) (g : option OicSecDoxm_t)
    (f : OicSecDoxm_t -> Z) (l : list (cbor * cbor)) :
    option (OCStackResult + Z * bool * bool) :=
  match find_value l k with
  | Some (CInt z) => ro ← IsPropertyReadOnly p s; Some (inr (u32 (to_int z), ro, true))
  | _ => try (v, ro) := old_value OC_STACK_ERROR g f in Some (inr (v, ro, false))
  end.

Definition parse_owned (s : Z) (g : option OicSecDoxm_t) (l : list (cbor * cbor)) :
    option (OCStackResult + bool * bool) :=
  match find_value l OIC_JSON_OWNED_NAME with
  | Some (CBool b) => ro ← IsPropertyReadOnly DOXM_OWNED s; Some (inr (b, ro))
  | _ => old_value OC_STACK_ERROR g d_owned
  end.

(** A UUID property; [r] is the result code so far, which a conversion sets. *)
Definition parse_uuid (s : Z) (p : DoxmProperty_t) (k : string) (r : OCStackResult)
    (g : option OicSecDoxm_t) (f : OicSecDoxm_t -> OicUuid_t) (l : list (cbor * cbor)) :
    option (OCStackResult + OicUuid_t * bool * OCStackResult) :=
  match find_value l k with
  | Some (CText t) =>
      '(c, u) ← ConvertStrToUuid t THE_NIL_UUID;
      if is_ok c then ro ← IsPropertyReadOnly p s; Some (inr (u, ro, OC_STACK_OK))
      else Some (inl c)
  | _ => try (u, ro) := old_value r g f in Some (inr (u, ro, r))
  end.

(** The structure read from the map [l] over the old one [g]; whether a property
    that is read-only in state [s] was met, and whether [oxmsel] was. *)
Definition parse_doxm (s : Z) (g : option OicSecDoxm_t) (l : list (cbor * cbor)) :
    option (OCStackResult + OicSecDoxm_t * bool * bool) :=
  try (oxm, ro1) := parse_oxms s g l in
  try (oxmSel, ro2, oxmselParsed) :=
    parse_num s DOXM_OXMSEL OIC_JSON_OXM_SEL_NAME g d_oxmSel l in
  try (sct, ro3, _) := parse_num s DOXM_SCT OIC_JSON_SUPPORTED_CRED_TYPE_NAME g d_sct l in
  try (owned, ro4) := parse_owned s g l in
  try (deviceID, ro5, r) :=
    parse_uuid s DOXM_DEVICEUUID OIC_JSON_DEVICE_ID_NAME OC_STACK_ERROR g d_deviceID l in
  try (owner, ro6, r) := parse_uuid s DOXM_DEVOWNERUUID OIC_JSON_DEVOWNERID_NAME r g d_owner l in
  try (rownerID, ro7, _) :=
    parse_uuid s DOXM_ROWNERUUID OIC_JSON_ROWNERID_NAME r g d_rownerID l in
  Some (inr (mk_doxm oxm oxmSel sct owned deviceID false owner rownerID,
             ro1 || ro2 || ro3 || ro4 || ro5 || ro6 || ro7, oxmselParsed)).

End codec.

(** ** Selecting a transfer method, updating properties *)

Definition ValidateOxmsel (supportedMethods : list Z) (selectedMethod : Z) : bool :=
  existsb (fun m => selectedMethod =? m) supportedMethods.

Definition DoxmUpdateWriteableProperty (src dst : OicSecDoxm_t) : OicSecDoxm_t :=
  let dst := if negb (d_oxmSel dst =? d_oxmSel src) then set_oxmSel (d_oxmSel src) dst else dst in
  let dst := if negb (Bool.eqb (d_owned dst) (d_owned src))
             then set_owned (d_owned src) dst else dst in
  let dst := if negb (UuidCmp (d_deviceID dst) (d_deviceID src))
             then set_deviceID (d_deviceID src) dst else dst in
  let dst := if negb (UuidCmp (d_rownerID dst) (d_rownerID src))
             then set_d_rownerID (d_rownerID src) dst else dst in
  if negb (UuidCmp (d_owner dst) (d_owner src)) then set_owner (d_owner src) dst else dst.

Section resource.
Context {L : CborLib} {W : Type} {ST : Storage W} {P : Platform W} {CT : CoapTokens}.

Implicit Type s : SVR W.

(** [secDoxm_null] is [NULL == *secDoxm]. *)
Definition CBORPayloadToDoxmBin (cborPayload : list Z) (secDoxm_null : bool)
    (stateForReadOnlyCheck : Z) : M (SVR W) (OCStackResult + OicSecDoxm_t * bool * bool) :=
  match cborPayload with
  | [] => ret (inl OC_STACK_INVALID_PARAM)
  | _ :: _ =>
      if secDoxm_null then
        let! g := gets doxm in
        let! l := demand (as_map cborPayload) in
        demand (parse_doxm stateForReadOnlyCheck g l)
      else ret (inl OC_STACK_INVALID_PARAM)
  end.

Definition CBORPayloadToDoxm (cborPayload : list Z) (secDoxm_null : bool) :
    M (SVR W) (OCStackResult * option OicSecDoxm_t) :=
  let! r := CBORPayloadToDoxmBin cborPayload secDoxm_null DOS_RESET in
  ret (match r with inl c => (c, None) | inr (d, _, _) => (OC_STACK_OK, Some d) end).

(** A null structure removes the stored resource. *)
Definition UpdatePersistentStorage (d : option OicSecDoxm_t) : M (SVR W) bool :=
  match d with
  | Some _ =>
      let '(res, payload) := DoxmToCBORPayload d in
      if is_ok res then
        let! r := on_world (UpdateSecureResourceInPS OIC_JSON_DOXM_NAME payload) in ret (is_ok r)
      else ret false
  | None =>
      let! r := on_world (UpdateSecureResourceInPS OIC_JSON_DOXM_NAME []) in ret (is_ok r)
  end.

(** ** Device identity *)

Definition SetDoxmDeviceIDSeed (seed : option (list Z)) : M (SVR W) OCStackResult :=
  match seed with
  | None => ret OC_STACK_INVALID_PARAM
  | Some b =>
      let seedSize := Z.of_nat (List.length b) in
      if MAX_UUID_SEED_SIZE <? seedSize then ret OC_STACK_INVALID_PARAM
      else if seedSize <? MIN_UUID_SEED_SIZE then ret OC_STACK_INVALID_PARAM
      else modify (with_seed b) ;;; ret OC_STACK_OK
  end.

(** The identifier of a device that has none: the first bytes of the hash of the
    seed, or random bytes. *)
Definition new_device_id (seed old : list Z) : M (SVR W) (OCStackResult * OicUuid_t) :=
  match seed with
  | _ :: _ =>
      match sha256 (W:=W) seed with
      | Some h => ret (OC_STACK_OK, take UUID_LENGTH h)
      | None => ret (OC_STACK_ERROR, old)
      end
  | [] =>
      let! bytes := fun s => let '(b, w) := random_uuid (world s) in Some (b, with_world w s) in
      match OCGenerateUuid bytes (Some old) with
      | (true, Some u) => ret (OC_STACK_OK, u)
      | _ => ret (OC_STACK_ERROR, old)
      end
  end.

Definition CheckDeviceID : M (SVR W) OCStackResult :=
  let! d := gets doxm in
  match d with
  | None => ret OC_STACK_INVALID_PARAM
  | Some d =>
      let validId := existsb (fun b => negb (b =? 0)) (d_deviceID d) in
      if negb validId then
        let! seed := gets gUuidSeed in
        let! (r, u) := new_device_id seed (d_deviceID d) in
        modify (upd_doxm (set_deviceID u)) ;;;
        let! d' := gets doxm in
        UpdatePersistentStorage d' ;;; ret r
      else ret OC_STACK_OK
  end.

(** ** Accessors *)

Definition get_doxm {A} (f : OicSecDoxm_t -> A) : M (SVR W) (option A) :=
  gets (fun s => f <$> doxm s).

Definition set_doxm (f : OicSecDoxm_t -> OicSecDoxm_t) : M (SVR W) OCStackResult :=
  let! d := gets doxm in
  match d with
  | Some _ => modify (upd_doxm f) ;;; ret OC_STACK_OK
  | None => ret OC_STACK_ERROR
  end.

Definition GetDoxmResourceData : M (SVR W) (option OicSecDoxm_t) := gets doxm.
Definition GetDoxmDeviceID : M (SVR W) (option OicUuid_t) := get_doxm d_deviceID.

(** A failed update of the storage is not undone. *)
Definition SetDoxmDeviceID (deviceuuid : option OicUuid_t) : M (SVR W) OCStackResult :=
  match deviceuuid with
  | None => ret OC_STACK_INVALID_PARAM
  | Some u =>
      let! d := gets doxm in
      match d with
      | None => ret OC_STACK_NO_RESOURCE
      | Some d =>
          if d_owned d && negb (UuidCmp (d_deviceID d) (d_owner d)) then ret OC_STACK_ERROR
          else
            modify (upd_doxm (set_deviceID u)) ;;;
            let! d' := gets doxm in
            let! stored := UpdatePersistentStorage d' in
            ret (if stored : bool then OC_STACK_OK else OC_STACK_ERROR)
      end
  end.

Definition GetDoxmDevOwnerId : M (SVR W) (option OicUuid_t) := get_doxm d_owner.
Definition SetDoxmDevOwnerId (u : OicUuid_t) : M (SVR W) OCStackResult := set_doxm (set_owner u).
Definition GetDoxmIsOwned : M (SVR W) (option bool) := get_doxm d_owned.

Definition IsDoxmOwned : M (SVR W) bool :=
  gets (fun s => match doxm s with Some d => d_owned d | None => false end).
Definition IsDoxmDevowneruuidTheNilUuid : M (SVR W) bool :=
  gets (fun s => match doxm s with Some d => IsNilUuid (d_owner d) | None => true end).
Definition IsDoxmDeviceuuidTheNilUuid : M (SVR W) bool :=
  gets (fun s => match doxm s with Some d => IsNilUuid (d_deviceID d) | None => true end).
(** Unlike the others, false without a resource. *)
Definition IsDoxmRowneruuidTheNilUuid : M (SVR W) bool :=
  gets (fun s => match doxm s with Some d => IsNilUuid (d_rownerID d) | None => false end).

Definition SetDoxmIsOwned (isowned : bool) : M (SVR W) OCStackResult :=
  set_doxm (set_owned isowned).
Definition GetDoxmRownerId : M (SVR W) (option OicUuid_t) := get_doxm d_rownerID.
Definition SetDoxmRownerId (u : OicUuid_t) : M (SVR W) OCStackResult :=
  set_doxm (set_d_rownerID u).

Definition SetDoxmSelfOwnership (newROwner : option OicUuid_t) : M (SVR W) OCStackResult :=
  let! d := gets doxm in
  match d, newROwner with
  | None, _ => ret OC_STACK_NO_RESOURCE
  | Some d, Some u =>
      if negb (d_owned d) then
        modify (upd_doxm (fun d => set_d_rownerID u (set_owner u (set_owned true d)))) ;;;
        let! d' := gets doxm in
        let '(r, b) := DoxmToCBORPayload d' in
        if is_ok r then on_world (UpdateSecureResourceInPS OIC_JSON_DOXM_NAME b) else ret r
      else ret OC_STACK_ERROR
  | Some _, None => ret OC_STACK_ERROR
  end.

(** ** Owner transfer *)

(** Returns the result and [*enabled]. *)
Definition EnableAnonCipherSuiteIfUnOwnedAndJustWorksSelected :
    M (SVR W) (OCStackResult * bool) :=
  let! d := gets doxm in
  match d with
  | Some d =>
      if negb (d_owned d) && (OIC_JUST_WORKS =? d_oxmSel d) then
        verify CAregisterSslHandshakeCallback ;;;
        let! ok := call (CAEnableAnonECDHCipherSuite true) in ret (result_of ok, ok)
      else ret (OC_STACK_OK, false)
  | None => ret (OC_STACK_OK, false)
  end.

Definition MUTUAL_VERIF_NUM : string := "mutualVerifNum".
Definition OXM_MV_JUST_WORKS : string := "x.org.iotivity.sec.doxm.mvjw".
Definition LABEL_LEN : nat := 30.
Definition MUTUAL_VERIF_NUM_LEN : nat := 3.
Definition OWNER_PSK_LENGTH_128 : nat := 16.
Definition ECDHE_PSK_WITH_AES_128_CBC_SHA256 : Z := 0xC037.

(** The user confirms the number both devices show, the last bytes of a key
    derived from the label (cut to the size of its buffer) and the two UUIDs. *)
Definition StartOTMJustWorks : M (SVR W) OCEntityHandlerResult :=
  let! d := gets doxm in
  let! d := demand d in
  if IsNilUuid (d_owner d) then
    let! (res, _) := EnableAnonCipherSuiteIfUnOwnedAndJustWorksSelected in
    ret (if is_ok res then OC_EH_OK else OC_EH_ERROR)
  else if (OIC_MV_JUST_WORKS =? d_oxmSel d) && negb (d_owned d) then
    let label := str_take (LABEL_LEN - 1) (MUTUAL_VERIF_NUM ++ OXM_MV_JUST_WORKS) in
    let! psk := gets (fun s => generate_owner_psk label (d_owner d) (d_deviceID d) (world s)) in
    match psk with
    | None => ret OC_EH_ERROR
    | Some key =>
        let mutualVerifNum :=
          take MUTUAL_VERIF_NUM_LEN (drop (OWNER_PSK_LENGTH_128 - MUTUAL_VERIF_NUM_LEN) key) in
        let! ok := call (VerifyOwnershipTransfer (Some mutualVerifNum) true) in
        ret (if ok : bool then OC_EH_OK else OC_EH_NOT_ACCEPTABLE)
    end
  else ret OC_EH_OK.

(** A step that fails jumps to the exit with the result still [OC_EH_OK]. *)
Definition HandleDoxmPostRequestRandomPin (newDoxm : OicSecDoxm_t) (adapter : Z) :
    M (SVR W) OCEntityHandlerResult :=
  if IsNilUuid (d_owner newDoxm) then
    modify (upd_doxm (set_oxmSel (d_oxmSel newDoxm))) ;;;
    let! ok := call (CAEnableAnonECDHCipherSuite false) in
    if negb ok then ret OC_EH_OK
    else
      verify CAregisterSslHandshakeCallback ;;;
      let! ok := call (CASelectCipherSuite ECDHE_PSK_WITH_AES_128_CBC_SHA256 adapter) in
      if negb ok then ret OC_EH_OK
      else
        let! ok := call GeneratePin in
        if ok : bool then
          let! d := gets doxm in
          let! d := demand d in
          call (SetUuidForPinBasedOxm (d_deviceID d)) ;;;
          call CAregisterPskCredentialsHandler ;;;
          ret OC_EH_OK
        else ret OC_EH_ERROR
  else
    modify (upd_doxm (set_owner (d_owner newDoxm))) ;;;
    call ClosePinDisplay ;;;
    ret OC_EH_OK.

(** The calls stop at the first that fails. *)
Fixpoint call_all (cs : list ext_call) : M (SVR W) unit :=
  match cs with
  | [] => ret tt
  | c :: cs' => let! ok := call c in if ok : bool then call_all cs' else ret tt
  end.

Definition HandleDoxmPostRequestMfg (newDoxm : OicSecDoxm_t) (adapter : Z) :
    M (SVR W) OCEntityHandlerResult :=
  let! confirmed :=
    if (OIC_CON_MFG_CERT =? d_oxmSel newDoxm) && negb (d_owned newDoxm)
       && negb (IsNilUuid (d_owner newDoxm))
    then call (VerifyOwnershipTransfer None true)
    else ret true in
  if negb confirmed then ret OC_EH_NOT_ACCEPTABLE
  else
    modify (upd_doxm (fun d => set_oxmSel (d_oxmSel newDoxm) (set_owner (d_owner newDoxm) d))) ;;;
    verify CAregisterSslHandshakeCallback ;;;
    call_all [CAEnableAnonECDHCipherSuite false; CASelectCipherSuite 0 adapter;
              CAregisterPkixInfoHandler; CAregisterIdentityHandler;
              CAregisterGetCredentialTypesHandler] ;;;
    ret OC_EH_OK.

Definition StartOwnershipTransfer (newDoxm : OicSecDoxm_t) (adapter : Z) :
    M (SVR W) OCEntityHandlerResult :=
  let m := d_oxmSel newDoxm in
  if (m =? OIC_JUST_WORKS) || (m =? OIC_MV_JUST_WORKS) then StartOTMJustWorks
  else if m =? OIC_RANDOM_DEVICE_PIN then HandleDoxmPostRequestRandomPin newDoxm adapter
  else if (m =? OIC_MANUFACTURER_CERTIFICATE) || (m =? OIC_CON_MFG_CERT)
  then HandleDoxmPostRequestMfg newDoxm adapter
  else ret OC_EH_OK.

(** ** Initialization *)

Definition DeInitDoxmResource : M (SVR W) OCStackResult :=
  let! ok := call (OCDeleteResource OIC_RSRC_DOXM_URI) in
  modify (point_doxm RNull) ;;; ret (result_of ok).

Definition CreateDoxmResource : M (SVR W) OCStackResult :=
  let! ok := call (OCCreateResource OIC_RSRC_DOXM_URI) in
  if negb ok then DeInitDoxmResource ;;; ret OC_STACK_ERROR else ret OC_STACK_OK.

Definition InitDoxmResource : M (SVR W) OCStackResult :=
  let! (r, data) := on_world (GetSecureVirtualDatabaseFromPS (Some OIC_JSON_DOXM_NAME)) in
  let! r :=
    match data with
    | Some b =>
        let! g := gets gDoxm in
        let! (r, d) := CBORPayloadToDoxm b (match g with RNull => true | _ => false end) in
        match d with Some d => modify (point_doxm (RHeap d)) | None => ret tt end ;;; ret r
    | None => ret r
    end in
  let! g := gets gDoxm in
  (if negb (is_ok r) || (match data with None => true | _ => false end)
      || (match g with RNull => true | _ => false end)
   then modify (point_doxm RDefault) else ret tt) ;;;
  let! d := gets doxm in
  let! d := demand d in
  (if negb (d_owned d) then modify (upd_doxm (set_owner THE_NIL_UUID)) else ret tt) ;;;
  let! r := CheckDeviceID in
  let! r := if is_ok r then CreateDoxmResource else ret r in
  let! (a, _) := EnableAnonCipherSuiteIfUnOwnedAndJustWorksSelected in
  ret (if is_ok a then r else OC_STACK_ERROR).

(** ** GET *)

Definition OIC_SEC_TRUE : string := "true".
Definition OIC_SEC_FALSE : string := "false".

(** The loop over the queries; flags: [owned] asked for and matched, [deviceuuid]
    asked for and matched.  The interface query decides at once. *)
Fixpoint query_loop (q : string) (d : OicSecDoxm_t) (its : list OicParseQueryIter_t)
    (bOwnedQry bOwnedMatch bDeviceIDQry bDeviceIDMatch : bool) : bool :=
  match its with
  | [] => (if bOwnedQry then bOwnedMatch else true)
          && (if bDeviceIDQry then bDeviceIDMatch else true)
  | it :: its' =>
      let owned := attr_is q it OIC_JSON_OWNED_NAME in
      let bOwnedQry := bOwnedQry || owned in
      let bOwnedMatch := bOwnedMatch || (owned &&
        ((val_is q it OIC_SEC_TRUE && d_owned d) || (val_is q it OIC_SEC_FALSE && negb (d_owned d)))) in
      let device := attr_is q it OIC_JSON_DEVICE_ID_NAME in
      if device && (Z.of_nat UUID_LENGTH <? valLen it) then false
      else
        let value := codes (str_take (Z.to_nat (Z.min 16 (valLen it))) (str_drop (valPos it) q)) in
        let subject := take UUID_LENGTH (value ++ THE_NIL_UUID) in
        let bDeviceIDQry := bDeviceIDQry || device in
        let bDeviceIDMatch := bDeviceIDMatch
          || (device && bool_decide (d_deviceID d = subject)) in
        if attr_is q it OC_RSRVD_INTERFACE then val_is q it OC_RSRVD_INTERFACE_DEFAULT
        else query_loop q d its' bOwnedQry bOwnedMatch bDeviceIDQry bDeviceIDMatch
  end.

Definition ValidateQuery (query : string) : M (SVR W) bool :=
  let! d := gets doxm in
  ret (match d with
       | None => false
       | Some d => query_loop query d (ParseQueryIterInit query) false false false false
       end).

Definition HandleDoxmGetRequest (req : request) : M (SVR W) OCEntityHandlerResult :=
  let! ok := match req_query req with Some q => ValidateQuery q | None => ret true end in
  if ok : bool then
    let! d := gets doxm in
    respond OC_EH_OK (snd (DoxmToCBORPayload d))
  else respond OC_EH_ERROR [].

End resource.

(** ** Properties *)

Definition wf_doxm (d : OicSecDoxm_t) : Prop :=
  d_oxm d <> [] /\ Forall (in_width 32) (d_oxm d) /\ in_width 32 (d_oxmSel d) /\
  in_width 32 (d_sct d) /\ d_dpc d = false /\
  is_uuid (d_deviceID d) /\ is_uuid (d_owner d) /\ is_uuid (d_rownerID d).

Lemma doxm_ro_some q st : 0 <= st < 5 -> exists b, IsPropertyReadOnly q st = Some b.
Proof.
  intros Hs. unfold IsPropertyReadOnly.
  destruct (load_in (gDoxmPropertyAccessModes q) st) as [v ->]; [by destruct q|]. by eexists.
Qed.

(** What each state lets a request write. *)
Lemma doxm_read_only q st : 0 <= st < 5 -> st <> DOS_RFOTM ->
  q <> DOXM_ROWNERUUID \/ st <> DOS_SRESET -> IsPropertyReadOnly q st = Some true.
Proof.
  intros Hs H1 H2. destruct (dos_cases st Hs) as [->|[->|[->|[->| ->]]]]; try by destruct q.
  by destruct q, H2.
Qed.

Lemma oxms_sct_read_only q st : 0 <= st < 5 -> q = DOXM_OXMS \/ q = DOXM_SCT ->
  IsPropertyReadOnly q st = Some true.
Proof.
  intros Hs Hq. destruct (dos_cases st Hs) as [->|[->|[->|[->| ->]]]]; by destruct Hq as [->| ->].
Qed.

Definition uuid_string (u : OicUuid_t) : string := c_string (uuid_text u ++ [0]).

Lemma int_prefix_map l : Forall (in_width 32) l -> int_prefix (CInt <$> l) = l.
Proof.
  induction 1 as [|z l Hz _ IH]; [done|]. simpl. rewrite u32_to_int by done.
  by rewrite <- IH at 2.
Qed.

Section properties.
Context {L : CborLib} {LL : CborLaws}.

Lemma list_sum_ints l : list_sum size_bound (CInt <$> l) = 9 * Z.of_nat (List.length l).
Proof.
  induction l as [|x l IH]; [done|].
  change (list_sum size_bound (CInt <$> x :: l)) with (9 + list_sum size_bound (CInt <$> l)).
  rewrite IH. simpl List.length. lia.
Qed.

Lemma uuid_property_ok u : is_uuid u -> uuid_property true u = Some (uuid_string u).
Proof. intros Hu. unfold uuid_property. by rewrite ConvertUuidToStr_ok. Qed.

(** The encoder succeeds on every structure with at most fourteen methods. *)
Lemma DoxmToCBORPayload_total d : wf_doxm d -> (List.length (d_oxm d) <= 14)%nat ->
  exists b, payload CBOR_SIZE CBOR_MAX_SIZE
      (CMap (doxm_map d (uuid_string (d_deviceID d)) (uuid_string (d_owner d))
               (uuid_string (d_rownerID d)) (fun _ => true))) = Some b /\
    DoxmToCBORPayload (Some d) = (OC_STACK_OK, b).
Proof.
  intros (Hne & _ & _ & _ & _ & H1 & H2 & H3) Hl.
  destruct (payload_fits CBOR_SIZE CBOR_MAX_SIZE
    (CMap (doxm_map d (uuid_string (d_deviceID d)) (uuid_string (d_owner d))
             (uuid_string (d_rownerID d)) (fun _ => true)))) as [b Hb].
  { unfold doxm_map. rewrite bool_decide_eq_false_2 by done.
    cbn [size_bound included app rt_if field list_sum negb andb].
    change (list_sum size_bound ?l) with (list_sum size_bound l). rewrite list_sum_ints.
    unfold uuid_string. rewrite !length_uuid_string by done.
    change (String.length OIC_JSON_OXMS_NAME) with 4%nat.
    change (String.length OIC_JSON_OXM_SEL_NAME) with 6%nat.
    change (String.length OIC_JSON_SUPPORTED_CRED_TYPE_NAME) with 3%nat.
    change (String.length OIC_JSON_OWNED_NAME) with 5%nat.
    change (String.length OIC_JSON_DEVICE_ID_NAME) with 10%nat.
    change (String.length OIC_JSON_DEVOWNERID_NAME) with 12%nat.
    change (String.length OIC_JSON_ROWNERID_NAME) with 10%nat.
    change (String.length OIC_JSON_RT_NAME) with 2%nat.
    change (String.length OIC_JSON_IF_NAME) with 2%nat.
    change (String.length OIC_RSRC_TYPE_SEC_DOXM) with 10%nat.
    change (String.length OC_RSRVD_INTERFACE_DEFAULT) with 15%nat.
    unfold CBOR_SIZE. lia. }
  exists b. split; [done|].
  unfold DoxmToCBORPayload, DoxmToCBORPayloadPartial. rewrite !uuid_property_ok by done.
  by rewrite Hb.
Qed.

Ltac go := cbn -[IsPropertyReadOnly ConvertStrToUuid wrap to_int orb int_prefix THE_NIL_UUID].

Lemma parse_doxm_map s d : wf_doxm d -> 0 <= s < 5 ->
  exists ro, parse_doxm s None (doxm_map d (uuid_string (d_deviceID d)) (uuid_string (d_owner d))
    (uuid_string (d_rownerID d)) (fun _ => true)) = Some (inr (d, ro, true)).
Proof.
  intros (Hne & Hoxm & Hsel & Hsct & Hdpc & H1 & H2 & H3) Hs.
  destruct (doxm_ro_some DOXM_OXMS s Hs) as [b1 E1], (doxm_ro_some DOXM_OXMSEL s Hs) as [b2 E2],
    (doxm_ro_some DOXM_SCT s Hs) as [b3 E3], (doxm_ro_some DOXM_OWNED s Hs) as [b4 E4],
    (doxm_ro_some DOXM_DEVICEUUID s Hs) as [b5 E5], (doxm_ro_some DOXM_DEVOWNERUUID s Hs) as [b6 E6],
    (doxm_ro_some DOXM_ROWNERUUID s Hs) as [b7 E7].
  assert (E8 := ConvertStrToUuid_text _ THE_NIL_UUID H1).
  assert (E9 := ConvertStrToUuid_text _ THE_NIL_UUID H2).
  assert (E10 := ConvertStrToUuid_text _ THE_NIL_UUID H3).
  fold (uuid_string (d_deviceID d)) in E8. fold (uuid_string (d_owner d)) in E9.
  fold (uuid_string (d_rownerID d)) in E10.
  set (u1 := uuid_string (d_deviceID d)) in *. set (u2 := uuid_string (d_owner d)) in *.
  set (u3 := uuid_string (d_rownerID d)) in *. clearbody u1 u2 u3.
  assert (Hp := int_prefix_map _ Hoxm).
  unfold doxm_map. rewrite bool_decide_eq_false_2 by done.
  assert (Hcons : exists c cs, CInt <$> d_oxm d = c :: cs).
  { destruct (d_oxm d); [done|]. simpl. eauto. }
  destruct Hcons as (c & cs & Hc). rewrite Hc in *.
  unfold parse_doxm, parse_oxms, parse_num, parse_owned, parse_uuid.
  go. rewrite E1. go. rewrite E2. go. rewrite E3. go. rewrite E4. go. rewrite E8. go.
  rewrite E5. go. rewrite E9. go. rewrite E6. go. rewrite E10. go. rewrite E7. go.
  rewrite !u32_to_int, Hp by done. eexists. do 4 f_equal.
  destruct d; simpl in *. by subst.
Qed.

Context {W : Type}.
Implicit Type s : SVR W.

(** Encoding and decoding, the decoder having no earlier resource to take missing
    properties from. *)
Theorem doxm_cbor_roundtrip d s : wf_doxm d -> (List.length (d_oxm d) <= 14)%nat ->
  gDoxm s = RNull ->
  exists b, DoxmToCBORPayload (Some d) = (OC_STACK_OK, b) /\
    CBORPayloadToDoxm b true s = Some (OC_STACK_OK, Some d, s).
Proof.
  intros Hd Hl Hnull. destruct (DoxmToCBORPayload_total d Hd Hl) as (b & Hb & Ht).
  exists b. split; [done|].
  destruct (parse_doxm_map DOS_RESET d Hd) as [ro Hro]; [by vm_compute|].
  pose proof (payload_nonempty _ _ _ _ Hb) as Hne. apply parse_payload in Hb.
  assert (Hmap : as_map b = Some (doxm_map d (uuid_string (d_deviceID d))
    (uuid_string (d_owner d)) (uuid_string (d_rownerID d)) (fun _ => true)))
    by (unfold as_map; by rewrite Hb).
  destruct b as [|x b]; [done|]. clear Hb Ht Hne.
  unfold CBORPayloadToDoxm, CBORPayloadToDoxmBin, bind, gets, demand, ret.
  unfold doxm. by rewrite Hnull, Hmap, Hro.
Qed.

End properties.

(** What a payload without read-only properties can change: nothing but the owner
    of the resource outside RFOTM, and that in SRESET only. *)
Lemma parse_doxm_keeps st g l d oxmselParsed : 0 <= st < 5 ->
  parse_doxm st (Some g) l = Some (inr (d, false, oxmselParsed)) ->
  d_oxm d = d_oxm g /\ d_sct d = d_sct g /\
  (st <> DOS_RFOTM -> d_oxmSel d = d_oxmSel g /\ d_owned d = d_owned g /\
     d_deviceID d = d_deviceID g /\ d_owner d = d_owner g /\
     (st <> DOS_SRESET -> d_rownerID d = d_rownerID g)).
Proof.
  intros Hs. unfold parse_doxm.
  destruct (parse_oxms st (Some g) l) as [[|[oxm ro1]]|] eqn:E1; try done. cbn [andthen].
  destruct (parse_num st DOXM_OXMSEL _ _ _ l) as [[|[[sel ro2] f]]|] eqn:E2; try done.
  cbn [andthen].
  destruct (parse_num st DOXM_SCT _ _ _ l) as [[|[[sct ro3] f']]|] eqn:E3; try done. cbn [andthen].
  destruct (parse_owned st (Some g) l) as [[|[owned ro4]]|] eqn:E4; try done. cbn [andthen].
  destruct (parse_uuid st DOXM_DEVICEUUID _ _ _ _ l) as [[|[[dev ro5] r5]]|] eqn:E5; try done.
  cbn [andthen].
  destruct (parse_uuid st DOXM_DEVOWNERUUID _ _ _ _ l) as [[|[[own ro6] r6]]|] eqn:E6; try done.
  cbn [andthen].
  destruct (parse_uuid st DOXM_ROWNERUUID _ _ _ _ l) as [[|[[row ro7] r7]]|] eqn:E7; try done.
  cbn [andthen]. intros [= <- Hro _]. cbn [d_oxm d_sct d_oxmSel d_owned d_deviceID d_owner d_rownerID].
  rewrite !orb_false_iff in Hro. destruct Hro as ((((((-> & ->) & ->) & ->) & ->) & ->) & ->).
  assert (Hnum : forall q k (f0 : OicSecDoxm_t -> Z) v b, IsPropertyReadOnly q st = Some true ->
    parse_num st q k (Some g) f0 l = Some (inr (v, false, b)) -> v = f0 g).
  { intros q k f0 v b Hq. unfold parse_num. rewrite Hq. cbn [mbind option_bind].
    destruct (find_value l k) as [[]|]; simpl; congruence. }
  assert (Huuid : forall q k r (f0 : OicSecDoxm_t -> OicUuid_t) v r', IsPropertyReadOnly q st = Some true ->
    parse_uuid st q k r (Some g) f0 l = Some (inr (v, false, r')) -> v = f0 g).
  { intros q k r f0 v r' Hq. unfold parse_uuid. rewrite Hq. cbn [mbind option_bind].
    destruct (find_value l k) as [[]|]; simpl; try congruence.
    destruct (ConvertStrToUuid s THE_NIL_UUID) as [[c u]|]; simpl; [|done].
    destruct (is_ok c); simpl; congruence. }
  split_and!.
  - unfold parse_oxms in E1. rewrite oxms_sct_read_only in E1 by auto.
    destruct (find_value l OIC_JSON_OXMS_NAME) as [[]|]; simpl in E1; try congruence.
    destruct l0; simpl in E1; congruence.
  - eapply Hnum; [|exact E3]. by apply oxms_sct_read_only; auto.
  - intros Hst. assert (Hq : forall q, q <> DOXM_ROWNERUUID -> IsPropertyReadOnly q st = Some true)
      by (intros; apply doxm_read_only; auto).
    split_and!.
    + eapply Hnum; [|exact E2]. by apply Hq.
    + unfold parse_owned in E4. rewrite Hq in E4 by done.
      destruct (find_value l OIC_JSON_OWNED_NAME) as [[]|]; simpl in E4; congruence.
    + eapply Huuid; [|exact E5]. by apply Hq.
    + eapply Huuid; [|exact E6]. by apply Hq.
    + intros Hsr. eapply Huuid; [|exact E7]. apply doxm_read_only; auto.
Qed.

End Doxm.
