(* ===== verification/Acl.v ===== *)
(** * Access control lists, /oic/sec/acl and /oic/sec/acl2 ([sec/svrs/aclresource.c])

    The list in memory: its iterators, insertion, removal, comparison and
    defaults, each with the update of the storage.  The CBOR format is in
    [AclCodec]; the request handlers are in [AclCredHandlers]. *)

From S2P Require Import Prelude.
From S2P Require Import Status.
From S2P Require Import CString.
From S2P Require Import SrmUtility.
From S2P Require Import Cbor.
From S2P Require Import PsInterface.
From S2P Require Import Svr.
From S2P Require Import Pstat.
From S2P Require Import Doxm.
From S2P Require Import AclCodec.
Import CString SrmUtility Cbor PsInterface Svr Pstat Doxm AclCodec.

Module Acl.

Open Scope m_scope.

Definition ACE_ID1 : Z := 1.
Definition ACE_ID2 : Z := 2.
Definition ACE_ID3 : Z := 3.
Definition ACE_ID4 : Z := 4.
Definition ACE_ID5 : Z := 5.
Definition ACE_ID_FIRST_FREE : Z := 6.
Definition NUMBER_OF_SEC_PROV_RSCS : nat := 3.
Definition PERMISSION_DELETE : Z := Z.shiftl 1 3.

Definition WILDCARD_SUBJECT_B64_ID : OicUuid_t := replicate 16 50.
Definition OIC_RSRC_TYPE_SEC_ACE2 : string := "oic.r.ace2".

(** ** Copies *)

(** An array of strings is copied when it has elements. *)
Definition dup_strings (l : option (list string)) : option (list string) :=
  match l with Some (_ :: _) => l | _ => None end.

Definition dup_rsrc (r : OicSecRsrc_t) : OicSecRsrc_t :=
  mk_rsrc (r_href r) (r_rel r) (dup_strings (r_types r)) (dup_strings (r_interfaces r))
    (r_wildcard r).

Definition dup_validity (v : OicSecValidity_t) : OicSecValidity_t :=
  mk_validity (v_period v) (dup_strings (v_recurrences v)).

(** The copy, and the identifier counter after it. *)
Definition DuplicateACE (freeId : Z) (ace : OicSecAce_t) (createNewAceID : bool) :
    OicSecAce_t * Z :=
  let copy id := mk_ace (a_subject ace) (dup_rsrc <$> a_resources ace) (a_permission ace)
                   (dup_validity <$> a_validities ace) id in
  if createNewAceID then (copy freeId, u16 (freeId + 1)) else (copy (a_aceid ace), freeId).

(** ** Comparison *)

(** Reading the first element of an empty array is undefined. *)
Definition IsSameStringArray (a b : option (list string)) : option bool :=
  match a, b with
  | None, None => Some true
  | Some l1, Some l2 =>
      match l1, l2 with
      | _ :: _, _ :: _ =>
          if (List.length l1 =? List.length l2)%nat then
            let matchedStr := list_sum (fun x => list_sum (fun y =>
              if String.eqb x y then 1 else 0) l2) l1 in
            Some (matchedStr =? Z.of_nat (List.length l1))
          else Some false
      | _, _ => None
      end
  | _, _ => Some false
  end.

(** The pairs of a property of two lists, counted; [test] may be undefined. *)
Fixpoint count_row {A} (test : A -> option bool) (l : list A) : option Z :=
  match l with
  | [] => Some 0
  | y :: l' => b ← test y; n ← count_row test l'; Some ((if b : bool then 1 else 0) + n)
  end.
Fixpoint count_pairs {A} (test : A -> A -> option bool) (l1 l2 : list A) : option Z :=
  match l1 with
  | [] => Some 0
  | x :: l1' => n ← count_row (test x) l2; m ← count_pairs test l1' l2; Some (n + m)
  end.

(** [&&] of C: the right side is evaluated when the left is true. *)
Definition andb_then (a : option bool) (b : option bool) : option bool :=
  x ← a; if x : bool then b else Some false.

Definition same_resource (r1 r2 : OicSecRsrc_t) : option bool :=
  match r_href r1, r_href r2 with
  | Some h1, Some h2 =>
      andb_then (Some (String.eqb h1 h2))
        (andb_then (IsSameStringArray (r_interfaces r1) (r_interfaces r2))
                   (IsSameStringArray (r_types r1) (r_types r2)))
  | _, _ => Some false
  end.

Definition IsSameResources (l1 l2 : list OicSecRsrc_t) : option bool :=
  match l1, l2 with
  | [], [] => Some true
  | _ :: _, _ :: _ =>
      numOfMatchedRsrc ← count_pairs same_resource l1 l2;
      Some (numOfMatchedRsrc =? Z.of_nat (List.length l1))
  | _, _ => Some false
  end.

(** A null period is dereferenced. *)
Definition same_validity (v1 v2 : OicSecValidity_t) : option bool :=
  p1 ← v_period v1; p2 ← v_period v2;
  andb_then (Some (String.eqb p1 p2))
            (IsSameStringArray (v_recurrences v1) (v_recurrences v2)).

Definition IsSameValidities (l1 l2 : list OicSecValidity_t) : option bool :=
  match l1, l2 with
  | [], [] => Some true
  | _ :: _, _ :: _ =>
      if (List.length l1 =? List.length l2)%nat then
        numOfMatchedVal ← count_pairs same_validity l1 l2;
        Some (numOfMatchedVal =? Z.of_nat (List.length l1))
      else Some false
  | _, _ => Some false
  end.

(** Two roles differ only when both parts differ; connection types are not
    compared. *)
Definition same_subject (a b : subject) : bool :=
  match a, b with
  | UuidSubject u, UuidSubject v => bool_decide (u = v)
  | RoleSubject r, RoleSubject q =>
      negb (negb (String.eqb (role_id r) (role_id q))
            && negb (String.eqb (role_authority r) (role_authority q)))
  | ConntypeSubject _, ConntypeSubject _ => true
  | _, _ => false
  end.

Definition IsSameACE (ace1 ace2 : OicSecAce_t) : option bool :=
  andb_then (Some (same_subject (a_subject ace1) (a_subject ace2)))
    (andb_then (IsSameResources (a_resources ace1) (a_resources ace2))
      (andb_then (Some (a_permission ace1 =? a_permission ace2))
        (IsSameValidities (a_validities ace1) (a_validities ace2)))).

(** ** Iterators

    [savePtr] is the position of the entry returned last, [None] for the first
    call; the result is the position of the next entry with the property. *)

Fixpoint find_from {A} (f : A -> bool) (i : nat) (l : list A) : option nat :=
  match l with
  | [] => None
  | x :: l' => if f x then Some i else find_from f (S i) l'
  end.

Definition next_ace (f : OicSecAce_t -> bool) (l : list OicSecAce_t) (savePtr : option nat) :
    option nat :=
  match savePtr with
  | None => find_from f 0 l
  | Some i => find_from f (S i) (drop (S i) l)
  end.

Definition has_uuid (subjectId : OicUuid_t) (ace : OicSecAce_t) : bool :=
  match a_subject ace with UuidSubject u => bool_decide (u = subjectId) | _ => false end.

Definition has_role (roles : list OicSecRole_t) (ace : OicSecAce_t) : bool :=
  match a_subject ace with
  | RoleSubject r => existsb (fun q => String.eqb (role_id r) (role_id q)
                                       && String.eqb (role_authority r) (role_authority q)) roles
  | _ => false
  end.

Definition has_conntype (conntype : OicSecConntype_t) (ace : OicSecAce_t) : bool :=
  match a_subject ace with
  | ConntypeSubject c => bool_decide (conntype = c) | _ => false end.

Definition GetACLResourceData (acl : option OicSecAcl_t) (subjectId : OicUuid_t)
    (savePtr : option nat) : option nat :=
  match acl with None => None | Some a => next_ace (has_uuid subjectId) (aces a) savePtr end.

Definition GetACLResourceDataByRoles (acl : option OicSecAcl_t) (roles : list OicSecRole_t)
    (savePtr : option nat) : option nat :=
  match acl with
  | None => None
  | Some a => match roles with [] => None | _ :: _ => next_ace (has_role roles) (aces a) savePtr end
  end.

Definition GetACLResourceDataByConntype (acl : option OicSecAcl_t)
    (conntype : OicSecConntype_t) (savePtr : option nat) : option nat :=
  match acl with None => None | Some a => next_ace (has_conntype conntype) (aces a) savePtr end.

(** ** Removal *)

(** [strcmp(rsrc->href, resource) == 0]; a wildcard has no [href]. *)
Fixpoint remove_rsrcs (resource : string) (l : list OicSecRsrc_t) :
    option (list OicSecRsrc_t * bool) :=
  match l with
  | [] => Some ([], false)
  | r :: l' =>
      href ← r_href r;
      '(rest, removed) ← remove_rsrcs resource l';
      Some (if String.eqb href resource then (rest, true) else (r :: rest, removed))
  end.

(** The loop over the entries; the flag stays set from one entry to the next. *)
Fixpoint remove_resource (subject : OicUuid_t) (resource : string) (deleteFlag : bool)
    (l : list OicSecAce_t) : option (list OicSecAce_t * bool) :=
  match l with
  | [] => Some ([], deleteFlag)
  | ace :: l' =>
      if bool_decide (subjectuuid_bytes (a_subject ace) = subject) then
        '(rest, removed) ← remove_rsrcs resource (a_resources ace);
        let deleteFlag := deleteFlag || removed in
        '(others, flag) ← remove_resource subject resource deleteFlag l';
        Some (if (match rest with [] => true | _ => false end) && deleteFlag then (others, flag)
              else (mk_ace (a_subject ace) rest (a_permission ace) (a_validities ace)
                      (a_aceid ace) :: others, flag))
      else
        '(others, flag) ← remove_resource subject resource deleteFlag l';
        Some (ace :: others, flag)
  end.

(** Entries of a subject are deleted whatever their subject type is. *)
Definition remove_subject (subject : OicUuid_t) (l : list OicSecAce_t) :
    list OicSecAce_t * bool :=
  (List.filter (fun ace => negb (bool_decide (subjectuuid_bytes (a_subject ace) = subject))) l,
   existsb (fun ace => bool_decide (subjectuuid_bytes (a_subject ace) = subject)) l).

(** The first entry with the identifier. *)
Fixpoint remove_id (id : Z) (l : list OicSecAce_t) : list OicSecAce_t * bool :=
  match l with
  | [] => ([], false)
  | ace :: l' =>
      if a_aceid ace =? id then (l', true)
      else let '(rest, removed) := remove_id id l' in (ace :: rest, removed)
  end.

Definition remove_ids (ids : list Z) (l : list OicSecAce_t) : list OicSecAce_t * bool :=
  fold_left (fun '(l, flag) id => let '(l', removed) := remove_id id l in (l', flag || removed))
    ids (l, false).

(** [RemoveAllAce] keeps the entries with a resource of the given [href]. *)
Definition keeps_resource (resource : option string) (ace : OicSecAce_t) : bool :=
  match resource with
  | None => false
  | Some res => existsb (fun r => match r_href r with
                                  | Some h => String.eqb h res | None => false end)
                  (a_resources ace)
  end.

(** ** Default lists *)

Definition rsrc_of (href : string) : OicSecRsrc_t :=
  mk_rsrc (Some href) None None None NO_WILDCARD.

Definition default_aces : list OicSecAce_t :=
  let discovery := [rsrc_of OC_RSRVD_WELL_KNOWN_URI; rsrc_of OC_RSRVD_DEVICE_URI;
                    rsrc_of OC_RSRVD_PLATFORM_URI] in
  let rwd := Z.lor (Z.lor PERMISSION_READ PERMISSION_WRITE) PERMISSION_DELETE in
  [mk_ace (ConntypeSubject ANON_CLEAR) discovery PERMISSION_READ [] ACE_ID1;
   mk_ace (ConntypeSubject AUTH_CRYPT) discovery PERMISSION_READ [] ACE_ID2;
   mk_ace (ConntypeSubject ANON_CLEAR) [rsrc_of OIC_RSRC_DOXM_URI] rwd [] ACE_ID3;
   mk_ace (ConntypeSubject AUTH_CRYPT) [rsrc_of OIC_RSRC_DOXM_URI; rsrc_of OIC_RSRC_ROLES_URI]
     rwd [] ACE_ID4].

Definition GetSecDefaultACE : OicSecAce_t :=
  let rsrc href rt := mk_rsrc (Some href) None (Some [rt]) (Some [OC_RSRVD_INTERFACE_DEFAULT])
                        NO_WILDCARD in
  mk_ace (UuidSubject WILDCARD_SUBJECT_ID)
    [rsrc OIC_RSRC_DOXM_URI OIC_RSRC_TYPE_SEC_DOXM; rsrc OIC_RSRC_PSTAT_URI OIC_RSRC_TYPE_SEC_PSTAT]
    PERMISSION_READ [] ACE_ID5.

(** The entry an unowned device has for its provisioning resources. *)
Fixpoint count_sec_prov (l : list OicSecRsrc_t) : option nat :=
  match l with
  | [] => Some O
  | r :: l' =>
      href ← r_href r;
      n ← count_sec_prov l';
      Some (if String.eqb href OIC_RSRC_DOXM_URI || String.eqb href OIC_RSRC_CRED_URI
               || String.eqb href OIC_RSRC_PSTAT_URI then S n else n)
  end.

Fixpoint remove_sec_prov (l : list OicSecAce_t) : option (list OicSecAce_t * bool) :=
  match l with
  | [] => Some ([], false)
  | ace :: l' =>
      drop_it ← (if has_uuid WILDCARD_SUBJECT_ID ace
                    && (Z.lor PERMISSION_READ PERMISSION_WRITE =? a_permission ace)
                 then matchedRsrc ← count_sec_prov (a_resources ace);
                      Some (NUMBER_OF_SEC_PROV_RSCS =? matchedRsrc)%nat
                 else Some false);
      '(rest, removed) ← remove_sec_prov l';
      Some (if drop_it : bool then (rest, true) else (ace :: rest, removed))
  end.

Section resource.
Context {L : CborLib} {W : Type} {ST : Storage W} {P : Platform W}.

Implicit Type s : SVR W.

Definition update_aces (l : list OicSecAce_t) : SVR W -> SVR W :=
  fun s => with_acl (set_aces l <$> gAcl s) s.

(** The encoder; the fuel of its counting loop is enough whenever that loop ends
    ([AclCodec.count_validities_ends]). *)
Definition encode_acl (a : OicSecAcl_t) : M (SVR W) (option (list Z)) :=
  demand (AclToCBORPayload 1 a).

(** [CBORPayloadToAcl], which reads the list in memory. *)
Definition decode_acl (cborPayload : list Z) : M (SVR W) (option OicSecAcl_t) :=
  let! g := gets gAcl in demand (CBORPayloadToAcl g cborPayload).

(** Encodes [gAcl] and stores it. *)
Definition store_acl : M (SVR W) OCStackResult :=
  let! a := gets gAcl in
  match a with
  | None => ret OC_STACK_INVALID_PARAM
  | Some a =>
      let! b := encode_acl a in
      match b with
      | Some b => on_world (UpdateSecureResourceInPS OIC_JSON_ACL_NAME b)
      | None => ret OC_STACK_ERROR
      end
  end.

Definition deleted_if (r : OCStackResult) : OCStackResult :=
  if is_ok r then OC_STACK_RESOURCE_DELETED else OC_STACK_NO_RESOURCE.

(** A null or empty [resource] is [None]. *)
Definition RemoveACE (subject : OicUuid_t) (resource : option string) :
    M (SVR W) OCStackResult :=
  let! a := gets gAcl in
  match a with
  | None => ret OC_STACK_INVALID_PARAM
  | Some a =>
      if bool_decide (subject = WILDCARD_SUBJECT_ID) then ret OC_STACK_INVALID_PARAM
      else
        let! (l, deleteFlag) :=
          match resource with
          | None => ret (remove_subject subject (aces a))
          | Some res => demand (remove_resource subject res false (aces a))
          end in
        modify (update_aces l) ;;;
        if deleteFlag : bool then
          if bool_decide (subject = WILDCARD_SUBJECT_B64_ID) then ret OC_STACK_RESOURCE_DELETED
          else let! r := store_acl in ret (deleted_if r)
        else ret OC_STACK_NO_RESOURCE
  end.

Definition RemoveAceByAceIds (aceIdList : list Z) : M (SVR W) OCStackResult :=
  let! a := gets gAcl in
  match a with
  | None => ret OC_STACK_INVALID_PARAM
  | Some a =>
      let '(l, deleteFlag) := remove_ids aceIdList (aces a) in
      modify (update_aces l) ;;;
      if deleteFlag : bool then let! r := store_acl in ret (deleted_if r)
      else ret OC_STACK_NO_RESOURCE
  end.

(** On failure the list is restored from its encoding. *)
Definition RemoveAllAce (resource : option string) : M (SVR W) OCStackResult :=
  let! a := gets gAcl in
  match a with
  | None => ret OC_STACK_INVALID_PARAM
  | Some a =>
      let! b := encode_acl a in
      match b with
      | None => ret OC_STACK_ERROR
      | Some aclBackup =>
          modify (update_aces (List.filter (keeps_resource resource) (aces a))) ;;;
          let! r := store_acl in
          let! r :=
            if is_ok r then ret r
            else
              let! o := decode_acl aclBackup in
              match o with
              | Some originAcl =>
                  let! r := on_world (UpdateSecureResourceInPS OIC_JSON_ACL_NAME aclBackup) in
                  (if is_ok r then modify (with_acl (Some originAcl)) else ret tt) ;;; ret r
              | None => ret OC_STACK_ERROR
              end in
          ret (if is_ok r then OC_STACK_RESOURCE_DELETED else r)
      end
  end.

(** ** Insertion *)

Definition AppendACLObject (acl : option OicSecAcl_t) : M (SVR W) OCStackResult :=
  let! a := gets gAcl in
  match a, acl with
  | Some a, Some new => modify (update_aces (aces a ++ aces new)) ;;; store_acl
  | _, _ => ret OC_STACK_INVALID_PARAM
  end.

Definition AppendACL (cborPayload : list Z) : M (SVR W) OCStackResult :=
  let! acl := decode_acl cborPayload in AppendACLObject acl.

(** [IsSameACE] with each entry of the list. *)
Fixpoint same_as_any (ace : OicSecAce_t) (l : list OicSecAce_t) : option bool :=
  match l with
  | [] => Some false
  | e :: l' => b ← IsSameACE ace e; c ← same_as_any ace l'; Some (b || c)
  end.

(** The entries of [new] that are not in [l], the last one first. *)
Fixpoint new_aces (new l acc : list OicSecAce_t) : option (list OicSecAce_t) :=
  match new with
  | [] => Some acc
  | ace :: new' =>
      dup ← same_as_any ace l;
      new_aces new' l (if dup : bool then acc else fst (DuplicateACE 0 ace false) :: acc)
  end.

Definition InstallACL (acl : option OicSecAcl_t) : M (SVR W) OCStackResult :=
  let! a := gets gAcl in
  match a, acl with
  | Some a, Some new =>
      let! insert := demand (new_aces (aces new) (aces a) []) in
      match insert with
      | _ :: _ => AppendACLObject (Some (mk_acl THE_NIL_UUID insert))
      | [] => ret (match aces new with [] => OC_STACK_ERROR | _ :: _ => OC_STACK_DUPLICATE_REQUEST end)
      end
  | _, _ => ret OC_STACK_INVALID_PARAM
  end.

Definition SetDefaultACL (acl : option OicSecAcl_t) : M (SVR W) OCStackResult :=
  modify (with_acl acl) ;;; ret OC_STACK_OK.

(** The device owns its default list; without a device resource a fresh UUID. *)
Definition GetDefaultACL : M (SVR W) (OCStackResult * option OicSecAcl_t) :=
  let! d := GetDoxmResourceData in
  match d with
  | Some d => ret (OC_STACK_OK, Some (mk_acl (d_deviceID d) default_aces))
  | None =>
      let! bytes := fun s => let '(b, w) := random_uuid (world s) in Some (b, with_world w s) in
      ret (match bytes with
           | Some u => (OC_STACK_OK, Some (mk_acl u default_aces))
           | None => (OC_STACK_ERROR, None)
           end)
  end.

Definition UpdateDefaultSecProvACE : M (SVR W) OCStackResult :=
  let! a := gets gAcl in
  match a with
  | None => ret OC_STACK_OK
  | Some a =>
      let! (l, isRemoved) := demand (remove_sec_prov (aces a)) in
      modify (update_aces (if isRemoved : bool then l ++ [GetSecDefaultACE] else l)) ;;;
      (if isRemoved : bool then store_acl else ret OC_STACK_OK) ;;;
      ret OC_STACK_OK
  end.

(** ** The owner *)

(** Undone when it cannot be stored. *)
Definition SetAclRownerId (newROwner : option OicUuid_t) : M (SVR W) OCStackResult :=
  let! a := gets gAcl in
  match a, newROwner with
  | None, _ => ret OC_STACK_NO_RESOURCE
  | Some _, None => ret OC_STACK_INVALID_PARAM
  | Some a, Some u =>
      modify (with_acl (Some (set_acl_rownerID u a))) ;;;
      let! r := store_acl in
      (if is_ok r then ret tt
       else modify (fun s => with_acl (set_acl_rownerID (acl_rownerID a) <$> gAcl s) s)) ;;;
      ret r
  end.

Definition GetAclRownerId : M (SVR W) (option OicUuid_t) :=
  gets (fun s => acl_rownerID <$> gAcl s).

Definition IsAclRowneruuidTheNilUuid : M (SVR W) bool :=
  gets (fun s => match gAcl s with Some a => IsNilUuid (acl_rownerID a) | None => true end).

(** ** Initialization *)

Definition DeInitACLResource : M (SVR W) OCStackResult :=
  let! ok := call (OCDeleteResource OIC_RSRC_ACL_URI) in
  let! ok2 := call (OCDeleteResource OIC_RSRC_ACL2_URI) in
  modify (with_acl None) ;;; ret (result_of (ok && ok2)).

Definition CreateACLResource : M (SVR W) OCStackResult :=
  let! ok := call (OCCreateResource OIC_RSRC_ACL2_URI) in
  if negb ok then DeInitACLResource ;;; ret OC_STACK_ERROR else ret OC_STACK_OK.

Definition InitACLResource : M (SVR W) OCStackResult :=
  let! (r, data) := on_world (GetSecureVirtualDatabaseFromPS (Some OIC_JSON_ACL_NAME)) in
  match data with
  | Some b => let! a := decode_acl b in modify (with_acl a)
  | None => ret tt
  end ;;;
  let! a := gets gAcl in
  let! r :=
    match a with
    | None => let! (r, a) := GetDefaultACL in modify (with_acl a) ;;; ret r
    | Some _ => ret r
    end in
  let! a := gets gAcl in
  match a with
  | None => DeInitACLResource ;;; ret r
  | Some _ =>
      let! r := CreateACLResource in
      if is_ok r then ret r else DeInitACLResource ;;; ret r
  end.

End resource.

(** ** Properties *)

(** Two entries that differ in the connection type only count as the same. *)
Lemma IsSameACE_ignores_conntype r p : r <> [] -> IsSameResources r r = Some true ->
  IsSameACE (mk_ace (ConntypeSubject AUTH_CRYPT) r p [] 0)
            (mk_ace (ConntypeSubject ANON_CLEAR) r p [] 0) = Some true.
Proof.
  intros Hr Hs. unfold IsSameACE, andb_then. cbn [a_subject a_resources a_permission a_validities
    same_subject mbind option_bind]. by rewrite Hs, Z.eqb_refl.
Qed.

(** A list installed to open a resource to everybody over plain connections is
    refused as a duplicate when it is open over secure ones. *)
Lemma InstallACL_drops_conntype_check :
  same_as_any (mk_ace (ConntypeSubject ANON_CLEAR) [rsrc_of "/light"] PERMISSION_READ [] 0)
    [mk_ace (ConntypeSubject AUTH_CRYPT) [rsrc_of "/light"] PERMISSION_READ [] 7] = Some true.
Proof. reflexivity. Qed.

(** A role differing in one of its two parts only is the same subject. *)
Lemma IsSameACE_role_check :
  same_subject (RoleSubject (mk_role "admin" "a")) (RoleSubject (mk_role "guest" "a")) = true.
Proof. reflexivity. Qed.

(** ** The iterators enumerate the matching entries *)

Lemma find_from_spec {A} (f : A -> bool) l : forall k,
  match find_from f k l with
  | Some i => exists x, (k <= i)%nat /\ l !! (i - k)%nat = Some x /\ f x = true /\
                List.filter f l = x :: List.filter f (drop (S (i - k)) l)
  | None => List.filter f l = []
  end.
Proof.
  induction l as [|x l IH]; intros k; simpl; [done|].
  destruct (f x) eqn:Hx.
  - exists x. rewrite Nat.sub_diag. split_and!; [lia|done..].
  - specialize (IH (S k)). destruct (find_from f (S k) l) as [i|]; [|done].
    destruct IH as (y & Hk & Hl & Hy & Hf). exists y.
    replace (i - k)%nat with (S (i - S k)) by lia. split_and!; [lia|done..].
Qed.

(** The entries after the saved one. *)
Definition remaining (l : list OicSecAce_t) (savePtr : option nat) : list OicSecAce_t :=
  match savePtr with None => l | Some i => drop (S i) l end.

(** A call returns the first matching entry that remains and leaves the others. *)
Lemma next_ace_spec f l savePtr :
  match next_ace f l savePtr with
  | Some i => exists ace, l !! i = Some ace /\ f ace = true /\
                List.filter f (remaining l savePtr) = ace :: List.filter f (remaining l (Some i))
  | None => List.filter f (remaining l savePtr) = []
  end.
Proof.
  unfold next_ace, remaining. destruct savePtr as [j|].
  - pose proof (find_from_spec f (drop (S j) l) (S j)) as H.
    destruct (find_from f (S j) (drop (S j) l)) as [i|]; [|done].
    destruct H as (x & Hk & Hl & Hx & Hf). exists x. rewrite lookup_drop in Hl.
    replace (S j + (i - S j))%nat with i in Hl by lia. split_and!; [done..|].
    rewrite Hf. do 2 f_equal. rewrite drop_drop. f_equal. lia.
  - pose proof (find_from_spec f l 0) as H.
    destruct (find_from f 0 l) as [i|]; [|done].
    destruct H as (x & _ & Hl & Hx & Hf). rewrite Nat.sub_0_r in *. by exists x.
Qed.

Section properties.
Context {L : CborLib} {LL : CborLaws} {W : Type} {ST : Storage W} {SL : StorageLaws W}
.
Implicit Type s : SVR W.

Definition acl_stored (a : OicSecAcl_t) (w : W) : Prop :=
  AclToCBORPayload 1 a = Some (Some (entry SVR_DB_DAT_FILE_NAME w OIC_JSON_ACL_NAME)).

Lemma AclToCBORPayload_nonempty fuel a b : AclToCBORPayload fuel a = Some (Some b) -> b <> [].
Proof.
  unfold AclToCBORPayload. destruct (ace_maps fuel (aces a)) as [[ms|]|]; cbn [mbind option_bind];
    [|done..].
  destruct (ConvertUuidToStr (acl_rownerID a)) as [[] [t|]]; try done.
  intros [= H]. by apply payload_nonempty in H.
Qed.

(** When it returns, the list is stored or the result is an error. *)
Lemma store_acl_run a s r s' : gAcl s = Some a -> db_ok SVR_DB_DAT_FILE_NAME (world s) ->
  store_acl s = Some (r, s') -> exists w', s' = with_world w' s /\
    (r = OC_STACK_OK /\ acl_stored a w' /\ db_ok SVR_DB_DAT_FILE_NAME w' \/ r = OC_STACK_ERROR).
Proof.
  intros Ha Hdb. unfold store_acl, bind at 1, gets. rewrite Ha.
  unfold bind, encode_acl, demand. destruct (AclToCBORPayload 1 a) as [[b|]|] eqn:Hb; [| |done].
  - destruct (UpdateResourceInPS_map SVR_DB_DAT_FILE_NAME (world s) OIC_JSON_ACL_NAME b)
      as (r' & w' & Hu & Hr); [done|apply svr_name; set_solver|by eapply AclToCBORPayload_nonempty|].
    unfold on_world, UpdateSecureResourceInPS. rewrite Hu. intros [= <- <-]. exists w'. split; [done|].
    destruct Hr as [(-> & Hok & He)|]; [left|by right]. split_and!; [done| |done].
    unfold acl_stored. rewrite Hb, He by (apply svr_name; set_solver).
    by rewrite String.eqb_refl.
  - intros [= <- <-]. exists (world s). split; [by destruct s|by right].
Qed.

(** It returns when no entry has a validity. *)
Lemma store_acl_returns a s : gAcl s = Some a -> no_validities a ->
  db_ok SVR_DB_DAT_FILE_NAME (world s) -> exists r s', store_acl s = Some (r, s').
Proof.
  intros Ha Hv Hdb. unfold store_acl, bind at 1, gets. rewrite Ha.
  unfold bind, encode_acl, demand. destruct (no_validities_encoded a Hv) as [[b|] Hb]; rewrite Hb.
  - destruct (UpdateResourceInPS_map SVR_DB_DAT_FILE_NAME (world s) OIC_JSON_ACL_NAME b)
      as (r' & w' & Hu & Hr); [done|apply svr_name; set_solver|by eapply AclToCBORPayload_nonempty|].
    unfold on_world, UpdateSecureResourceInPS. rewrite Hu. by do 2 eexists.
  - by do 2 eexists.
Qed.

Lemma store_acl_spec a s : gAcl s = Some a -> no_validities a ->
  db_ok SVR_DB_DAT_FILE_NAME (world s) ->
  exists r w', store_acl s = Some (r, with_world w' s) /\
    (r = OC_STACK_OK /\ acl_stored a w' /\ db_ok SVR_DB_DAT_FILE_NAME w' \/ r = OC_STACK_ERROR).
Proof.
  intros Ha Hv Hdb. destruct (store_acl_returns a s Ha Hv Hdb) as (r & s' & E).
  destruct (store_acl_run a s r s' Ha Hdb E) as (w' & -> & Hr). by exists r, w'.
Qed.

(** Deleting the entries of a subject removes exactly those, keeps the order of
    the others and touches no other resource; success means that there was one
    and that the shorter list is stored. *)
Theorem RemoveACE_subject subject a s : gAcl s = Some a -> no_validities a -> subject <> WILDCARD_SUBJECT_ID ->
  db_ok SVR_DB_DAT_FILE_NAME (world s) ->
  let kept := List.filter (fun ace =>
    negb (bool_decide (subjectuuid_bytes (a_subject ace) = subject))) (aces a) in
  exists r s', RemoveACE subject None s = Some (r, s') /\
    gAcl s' = Some (set_aces kept a) /\ pstat s' = pstat s /\ doxm s' = doxm s /\
    (r = OC_STACK_RESOURCE_DELETED \/ r = OC_STACK_NO_RESOURCE) /\
    (r = OC_STACK_RESOURCE_DELETED -> kept <> aces a /\
       (subject <> WILDCARD_SUBJECT_B64_ID -> acl_stored (set_aces kept a) (world s'))).
Proof.
  intros Ha Hv Hs Hdb kept. unfold RemoveACE, bind at 1, gets at 1. rewrite Ha.
  rewrite bool_decide_eq_false_2 by done.
  unfold bind at 1, ret at 1, remove_subject. fold kept.
  assert (Hex : existsb (fun ace => bool_decide (subjectuuid_bytes (a_subject ace) = subject)) (aces a)
    = true -> kept <> aces a).
  { rewrite existsb_exists. intros (x & Hx & Hb) He. unfold kept in He.
    rewrite <- He in Hx. apply List.filter_In in Hx as [_ Hx]. by rewrite Hb in Hx. }
  unfold bind at 1, modify at 1.
  set (s1 := update_aces kept s).
  assert (Ha1 : gAcl s1 = Some (set_aces kept a)) by (unfold s1, update_aces; by rewrite Ha).
  destruct (existsb _ _) eqn:Hd.
  - destruct (bool_decide (subject = WILDCARD_SUBJECT_B64_ID)) eqn:Hw.
    + do 2 eexists. split; [done|]. split; [done|]. split_and!; [done..|by left|].
      intros _. split; [auto|]. apply bool_decide_eq_true in Hw. done.
    + destruct (store_acl_spec (set_aces kept a) s1) as (r & w' & E & Hr); [done| |done|].
      { by apply List.incl_Forall with (aces a); [apply List.incl_filter|]. }
      unfold bind. rewrite E. do 2 eexists. split; [done|]. split; [done|]. split_and!; [done..| |].
      { unfold deleted_if. destruct (is_ok r); auto. }
      intros Hr'. split; [auto|]. intros _. destruct Hr as [(_ & ? & _)| ->]; done.
  - do 2 eexists. split; [done|]. split; [done|]. split_and!; [done..|by right|done].
Qed.

Lemma new_aces_spec new l : forall acc ins, new_aces new l acc = Some ins ->
  exists fresh, ins = rev fresh ++ acc /\
    fresh = (fun ace => fst (DuplicateACE 0 ace false)) <$>
      List.filter (fun ace => bool_decide (same_as_any ace l = Some false)) new.
Proof.
  induction new as [|ace new IH]; intros acc ins; simpl.
  { intros [= <-]. by exists []. }
  destruct (same_as_any ace l) as [[]|]; simpl; [| |done].
  - intros H. apply IH in H as (fresh & -> & ->). eexists. split; [done|].
    done.
  - intros H. apply IH in H as (fresh & -> & ->). eexists. split; [|done].
    simpl. by rewrite <- app_assoc.
Qed.

(** Installing a list never changes an entry that is there: copies of the new
    entries that equal none of them are put behind, the last one first. *)
Theorem InstallACL_appends new a s r s' : gAcl s = Some a ->
  db_ok SVR_DB_DAT_FILE_NAME (world s) ->
  InstallACL (Some new) s = Some (r, s') ->
  let fresh := List.filter (fun ace => bool_decide (same_as_any ace (aces a) = Some false))
                 (aces new) in
  let added := rev ((fun ace => fst (DuplicateACE 0 ace false)) <$> fresh) in
  gAcl s' = Some (set_aces (aces a ++ added) a) /\ pstat s' = pstat s /\ doxm s' = doxm s /\
  (r = OC_STACK_OK -> acl_stored (set_aces (aces a ++ added) a) (world s')) /\
  (fresh = [] <-> r = OC_STACK_DUPLICATE_REQUEST \/ aces new = []).
Proof.
  intros Ha Hdb. unfold InstallACL, bind at 1, gets at 1. rewrite Ha.
  unfold bind at 1, demand. destruct (new_aces (aces new) (aces a) []) as [ins|] eqn:Hn; [|done].
  apply new_aces_spec in Hn as (fresh & -> & Hf). rewrite app_nil_r.
  intros Hrun. cbv zeta. rewrite <- Hf.
  assert (Hnil : List.filter (fun ace => bool_decide (same_as_any ace (aces a) = Some false)) (aces new)
    = [] <-> fresh = []) by (rewrite Hf; split; intros H; [by rewrite H|by apply fmap_nil_inv in H]).
  rewrite Hnil. clear Hnil.
  destruct (rev fresh) as [|x xs] eqn:Hrev.
  - assert (Hfr : fresh = []) by (by rewrite <- (rev_involutive fresh), Hrev).
    rewrite app_nil_r.
    assert (Hset : set_aces (aces a) a = a) by by destruct a. rewrite Hset.
    assert (Hs : s' = s /\ (r = OC_STACK_ERROR /\ aces new = [] \/
      r = OC_STACK_DUPLICATE_REQUEST)) by (destruct (aces new); injection Hrun as <- <-; auto).
    destruct Hs as [-> Hr]. split_and!; [done..| |].
    + intros ->. by destruct Hr as [[? _]|].
    + split; [|done]. intros _. destruct Hr as [[_ ?]|]; auto.
  - unfold AppendACLObject, bind at 1, gets in Hrun. rewrite Ha in Hrun. cbn [aces] in Hrun.
    unfold bind, modify in Hrun. set (s1 := update_aces (aces a ++ x :: xs) s) in Hrun.
    assert (Ha1 : gAcl s1 = Some (set_aces (aces a ++ x :: xs) a))
      by (unfold s1, update_aces; by rewrite Ha).
    apply (store_acl_run _ s1 _ _ Ha1) in Hrun as (w' & -> & Hr); [|done].
    assert (Hne : fresh <> []) by (intros ->; done).
    split_and!; [done..| |].
    + intros ->. by destruct Hr as [(_ & ? & _)|].
    + split; [done|]. intros [->|Hnew]; [by destruct Hr as [(? & _)|]|].
      exfalso. apply Hne. rewrite Hf, Hnew. done.
Qed.

(** Replacing the owner is all or nothing. *)
Theorem SetAclRownerId_atomic u a s : gAcl s = Some a -> no_validities a ->
  db_ok SVR_DB_DAT_FILE_NAME (world s) ->
  exists r s', SetAclRownerId (Some u) s = Some (r, s') /\ pstat s' = pstat s /\
    doxm s' = doxm s /\
    (r = OC_STACK_OK /\ gAcl s' = Some (set_acl_rownerID u a) /\
       acl_stored (set_acl_rownerID u a) (world s')
     \/ r = OC_STACK_ERROR /\ gAcl s' = Some a).
Proof.
  intros Ha Hv Hdb. unfold SetAclRownerId, bind at 1, gets. rewrite Ha.
  unfold bind at 1, modify at 1. set (s1 := with_acl (Some (set_acl_rownerID u a)) s).
  destruct (store_acl_spec (set_acl_rownerID u a) s1) as (r & w' & E & Hr); [done..|].
  unfold bind at 1. rewrite E. destruct Hr as [(-> & Hst & _)| ->]; simpl.
  - do 2 eexists. split_and!; [done..|]. left. done.
  - do 2 eexists. split_and!; [done..|]. right. split; [done|]. simpl. by destruct a.
Qed.

End properties.

End Acl.
