(* ===== verification/Cred.v ===== *)
(** * Credentials, /oic/sec/cred ([sec/svrs/credresource.c])

    The list in memory: validity, identifiers, insertion, removal, the owner,
    storage and initialization.  The CBOR format is in [CredCodec];
    certificates, keys of sessions and the provisioning callbacks are not
    modelled. *)

From Stdlib Require Import Sorting.Sorted.
From S2P Require Import Prelude.
From S2P Require Import Status.
From S2P Require Import SrmUtility.
From S2P Require Import Cbor.
From S2P Require Import PsInterface.
From S2P Require Import Svr.
From S2P Require Import Pstat.
From S2P Require Import Doxm.
From S2P Require Import CredCodec.
From S2P Require Import Acl.
Import SrmUtility Cbor PsInterface Svr Pstat Doxm CredCodec Acl.

Module Cred.

Open Scope m_scope.

Definition UINT16_MAX : Z := 65535.

(** ** Sizes and checks *)

Definition key_size (k : OicSecKey_t) : Z :=
  match k_data k with Some _ => if 0 <? k_len k then k_len k else 0 | None => 0 end.

Definition GetCredKeyDataSize (cred : list OicSecCred_t) : Z :=
  fold_left (fun size c => size_t (size_t (size_t (size + key_size (c_privateData c))
    + key_size (c_publicData c)) + key_size (c_optionalData c))) cred 0.

Definition OicSecCredCount (secCred : list OicSecCred_t) : Z := Z.of_nat (List.length secCred).

(** The first size of the buffer for the storage and for a response. *)
Definition storage_size (cred : list OicSecCred_t) : Z :=
  size_t (GetCredKeyDataSize cred + 512 * OicSecCredCount cred).
Definition response_size (cred : list OicSecCred_t) : Z :=
  size_t (GetCredKeyDataSize cred + 256 * OicSecCredCount cred).

Definition CheckSubjectOfCertificate (deviceID : OicUuid_t) (cred : OicSecCred_t) :
    OicSecCred_t :=
  if (SIGNED_ASYMMETRIC_KEY =? c_credType cred) &&
     (bool_decide (c_subject cred = THE_NIL_UUID) ||
      bool_decide (c_subject cred = WILDCARD_SUBJECT_ID))
  then set_c_subject deviceID cred else cred.

(** [OIC_ENCODING_UNKNOWN < encoding && OIC_ENCODING_DER >= encoding]. *)
Definition known_encoding (k : OicSecKey_t) : bool :=
  (OIC_ENCODING_UNKNOWN <? k_encoding k) && (k_encoding k <=? OIC_ENCODING_DER).

Definition IsValidCredential (cred : OicSecCred_t) : bool :=
  let priv := c_privateData cred in
  let pub := c_publicData cred in
  let opt := c_optionalData cred in
  let t := c_credType cred in
  negb (c_credId cred =? 0) &&
  (if (t =? SYMMETRIC_PAIR_WISE_KEY) || (t =? SYMMETRIC_GROUP_KEY) || (t =? PIN_PASSWORD) then
     has_data priv && negb (k_len priv =? 0) &&
     ((OIC_ENCODING_RAW =? k_encoding priv) || (OIC_ENCODING_BASE64 =? k_encoding priv))
   else if t =? ASYMMETRIC_KEY then
     has_data pub && negb (k_len pub =? 0) && known_encoding pub
   else if t =? SIGNED_ASYMMETRIC_KEY then
     (has_data pub || has_data opt) && (negb (k_len pub =? 0) || negb (k_len opt =? 0)) &&
     (if has_data opt then known_encoding opt else true)
   else if t =? ASYMMETRIC_ENCRYPTION_KEY then
     has_data priv && negb (k_len priv =? 0) && known_encoding priv
   else false) &&
  negb (bool_decide (c_subject cred = THE_NIL_UUID)).

Definition IsEmptyCred (cred : OicSecCred_t) : bool :=
  bool_decide (c_subject cred = THE_NIL_UUID) && negb (IsNonEmptyRole (c_roleId cred)) &&
  (c_credId cred =? 0) && (c_credType cred =? 0) && negb (has_data (c_privateData cred)) &&
  negb (has_data (c_publicData cred)) && negb (has_data (c_optionalData cred)) &&
  bool_decide (c_credUsage cred = None).

(** [IsSameSecKey] and [IsSameSecOpt]; comparing bytes a key does not have is
    undefined. *)
Definition IsSameSecKey (sk1 sk2 : OicSecKey_t) : option bool :=
  if negb (k_len sk1 =? k_len sk2) then Some false
  else if negb (k_encoding sk1 =? k_encoding sk2) then Some false
  else if k_len sk1 =? 0 then Some true
  else
    d1 ← k_data sk1; d2 ← k_data sk2;
    let n := Z.to_nat (k_len sk1) in
    if (n <=? List.length d1)%nat && (n <=? List.length d2)%nat
    then Some (bool_decide (take n d1 = take n d2)) else None.

(** ** Identifiers *)

Definition CmpCredId (first second : OicSecCred_t) : Z :=
  if c_credId first <? c_credId second then -1
  else if c_credId second <? c_credId first then 1 else 0.

(** [LL_SORT] of uthash's [utlist.h], a stable merge sort, which is not among the
    sources: it sorts by the comparison it is given. *)
Class UtList : Type := { LL_SORT : forall {A}, (A -> A -> Z) -> list A -> list A }.
Class UtListLaws {U : UtList} : Prop := {
  LL_SORT_perm : forall {A} (cmp : A -> A -> Z) l, LL_SORT cmp l ≡ₚ l;
  LL_SORT_sorted : forall l, StronglySorted (fun a b => CmpCredId a b <= 0) (LL_SORT CmpCredId l) }.

(** The loop: the first number from [next] on that is not the identifier met. *)
Fixpoint next_id (l : list OicSecCred_t) (next : Z) : Z :=
  match l with
  | c :: l' => if c_credId c =? next then next_id l' (u16 (next + 1)) else next
  | [] => next
  end.

(** The first credential with the identifier [id] taken out. *)
Fixpoint remove_cred (id : Z) (l : list OicSecCred_t) : list OicSecCred_t :=
  match l with
  | c :: l' => if c_credId c =? id then l' else c :: remove_cred id l'
  | [] => []
  end.

Section resource.
Context {L : CborLib} {W : Type} {ST : Storage W} {P : Platform W}
  {U : UtList}.
Implicit Type s : SVR W.

(** The list is left sorted; 0 is the error. *)
Definition GetCredId : M (SVR W) Z :=
  modify (fun s => with_cred (LL_SORT CmpCredId (gCred s)) s) ;;;
  let! l := gets gCred in
  let nextCredId := next_id l 1 in
  ret (if nextCredId <? UINT16_MAX then nextCredId else 0).

Definition UpdatePersistentStorage (cred : list OicSecCred_t) : M (SVR W) bool :=
  let! r :=
    match cred with
    | _ :: _ =>
        let! owner := gets gRownerId in
        let! b := demand (CredToCBORPayloadWithRowner cred owner (storage_size cred) false) in
        match b with
        | Some payload => on_world (UpdateSecureResourceInPS OIC_JSON_CRED_NAME payload)
        | None => ret OC_STACK_ERROR
        end
    | [] => on_world (UpdateSecureResourceInPS OIC_JSON_CRED_NAME [])
    end in
  ret (is_ok r).

Definition store_cred : M (SVR W) bool :=
  let! l := gets gCred in UpdatePersistentStorage l.

(** ** Insertion *)

(** A state that forbids writing is only logged. *)
Definition AddCredential (newCred : OicSecCred_t) : M (SVR W) OCStackResult :=
  let! dos := GetDos in
  match dos with
  | None => ret OC_STACK_ERROR
  | Some _ =>
      let! newCred :=
        if negb (c_credId newCred =? 0) then
          modify (fun s => with_cred (remove_cred (c_credId newCred) (gCred s)) s) ;;; ret newCred
        else let! id := GetCredId in ret (set_credId id newCred) in
      modify (fun s => with_cred (gCred s ++ [newCred]) s) ;;;
      let! ok := store_cred in
      ret (result_of ok)
  end.

(** ** Removal *)

(** Credentials that satisfy [f] are removed; the storage is updated when there
    was one. *)
Definition remove_where (f : OicSecCred_t -> bool) : M (SVR W) OCStackResult :=
  let! l := gets gCred in
  modify (with_cred (List.filter (fun c => negb (f c)) l)) ;;;
  if existsb f l then
    let! ok := store_cred in
    ret (if ok : bool then OC_STACK_RESOURCE_DELETED else OC_STACK_ERROR)
  else ret OC_STACK_ERROR.

Definition RemoveCredential (subject : OicUuid_t) : M (SVR W) OCStackResult :=
  remove_where (fun c => bool_decide (c_subject c = subject)).

Definition RemoveCredentialByCredId (credId : Z) : M (SVR W) OCStackResult :=
  if credId =? 0 then ret OC_STACK_INVALID_PARAM
  else remove_where (fun c => c_credId c =? credId).

(** The two loops remove what is in the list of identifiers. *)
Fixpoint remove_each (credIdList : list Z) (l : list OicSecCred_t) : list OicSecCred_t * bool :=
  match credIdList with
  | [] => (l, false)
  | id :: ids =>
      let '(l', deleteFlag) :=
        remove_each ids (List.filter (fun c => negb (c_credId c =? id)) l) in
      (l', existsb (fun c => c_credId c =? id) l || deleteFlag)
  end.

Definition RemoveCredentialByCredIds (credIdList : list Z) : M (SVR W) OCStackResult :=
  let! l := gets gCred in
  let '(l', deleteFlag) := remove_each credIdList l in
  modify (with_cred l') ;;;
  if deleteFlag : bool then
    let! ok := store_cred in
    ret (if ok : bool then OC_STACK_RESOURCE_DELETED else OC_STACK_ERROR)
  else ret OC_STACK_ERROR.

Definition GetCredDefault : list OicSecCred_t := [].

Definition RemoveAllCredentials : M (SVR W) OCStackResult :=
  modify (with_cred GetCredDefault) ;;;
  let! ok := store_cred in ret (result_of ok).

(** ** Look-up *)

Definition GetCredResourceData (subject : option OicUuid_t) : M (SVR W) (option OicSecCred_t) :=
  gets (fun s => u ← subject; List.find (fun c => bool_decide (c_subject c = u)) (gCred s)).

Definition GetCredList : M (SVR W) (list OicSecCred_t) := gets gCred.

(** A key is copied when it has data; otherwise the copy's stays zeroed. *)
Definition copy_key (k : OicSecKey_t) : option OicSecKey_t :=
  match k_data k with
  | Some d =>
      let n := Z.to_nat (k_len k) in
      if (n <=? List.length d)%nat then Some (mk_key (Some (take n d)) (k_len k) (k_encoding k))
      else None
  | None => Some (mk_key None 0 0)
  end.

(** The copy has neither a role nor an owner. *)
Definition GetCredEntryByCredId (credId : Z) : M (SVR W) (option OicSecCred_t) :=
  if credId <? 1 then ret None
  else
    let! l := gets gCred in
    match List.find (fun c => c_credId c =? credId) l with
    | None => ret None
    | Some c =>
        demand (priv ← copy_key (c_privateData c); pub ← copy_key (c_publicData c);
                opt ← copy_key (c_optionalData c);
                let revstat := has_data (c_optionalData c) && o_revstat (c_optionalData c) in
                Some (Some (mk_cred (c_credId c) (c_subject c) (mk_role EmptyString EmptyString)
                        (c_credType c) pub (c_credUsage c) (mk_opt opt revstat) priv (c_period c)
                        THE_NIL_UUID)))
    end.

(** ** The owner *)

(** The new owner stays in memory when it cannot be stored. *)
Definition SetCredRownerId (newROwner : option OicUuid_t) : M (SVR W) OCStackResult :=
  match newROwner with
  | None => ret OC_STACK_INVALID_PARAM
  | Some u =>
      let! cur := gets gRownerId in
      if UuidCmp cur u then ret OC_STACK_OK
      else modify (with_rowner u) ;;; let! ok := store_cred in ret (result_of ok)
  end.

Definition GetCredRownerId : M (SVR W) OicUuid_t := gets gRownerId.
Definition IsCredRowneruuidTheNilUuid : M (SVR W) bool := gets (fun s => IsNilUuid (gRownerId s)).

(** ** Initialization *)

Definition DeInitCredResource : M (SVR W) OCStackResult :=
  let! ok := call (OCDeleteResource OIC_RSRC_CRED_URI) in
  modify (with_cred []) ;;; ret (result_of ok).

Definition CreateCredResource : M (SVR W) OCStackResult :=
  let! ok := call (OCCreateResource OIC_RSRC_CRED_URI) in
  if negb ok then DeInitCredResource ;;; ret OC_STACK_ERROR else ret OC_STACK_OK.

(** [CBORPayloadToCred] is given [&gCred]; it refuses a list that is not null. *)
Definition InitCredResource : M (SVR W) OCStackResult :=
  let! (r, data) := on_world (GetSecureVirtualDatabaseFromPS (Some OIC_JSON_CRED_NAME)) in
  let! g := gets gCred in
  let! read := match data, g with
               | Some b, [] => if is_ok r then demand (CBORPayloadToCred b) else ret None
               | _, _ => ret None
               end in
  let '(l, rowner) := default (GetCredDefault, None) read in
  modify (with_cred l) ;;;
  match l with
  | [] => CreateCredResource
  | _ :: _ =>
      let! d := GetDoxmDeviceID in
      match d with
      | None => ret OC_STACK_INVALID_PARAM
      | Some deviceID =>
          modify (with_cred (CheckSubjectOfCertificate deviceID <$> l)) ;;;
          modify (with_rowner (match rowner with
                               | Some u => if IsNilUuid u then deviceID else u
                               | None => deviceID
                               end)) ;;;
          let! _ := store_cred in
          CreateCredResource
      end
  end.

End resource.

(** ** Properties *)

(** No two credentials have the same identifier and none has 0. *)
Definition distinct_ids (l : list OicSecCred_t) : Prop :=
  NoDup (c_credId <$> l) /\ Forall (fun c => 0 < c_credId c < 2 ^ 16) l.

Lemma CmpCredId_le a b : CmpCredId a b <= 0 <-> c_credId a <= c_credId b.
Proof.
  unfold CmpCredId. destruct (Z.ltb_spec (c_credId a) (c_credId b)); [lia|].
  destruct (Z.ltb_spec (c_credId b) (c_credId a)); lia.
Qed.

(** In a sorted list the loop finds a free number, at most the list's length
    further on. *)
Lemma next_id_free l : forall n,
  StronglySorted (fun a b => CmpCredId a b <= 0) l -> NoDup (c_credId <$> l) ->
  Forall (fun c => n <= c_credId c) l -> 0 <= n -> n + Z.of_nat (List.length l) < 2 ^ 16 ->
  n <= next_id l n <= n + Z.of_nat (List.length l) /\ next_id l n ∉ c_credId <$> l.
Proof.
  induction l as [|c l IH]; intros n Hs Hnd Hge Hn Hlen; [simpl; split; [lia|by intros ?%elem_of_nil]|].
  inversion Hs as [|? ? Hs' Hc]; subst. rewrite fmap_cons in *. apply NoDup_cons in Hnd as [Hni Hnd].
  apply Forall_cons in Hge as [Hgc Hge].
  assert (Hc' : Forall (fun b => c_credId c <= c_credId b) l)
    by (eapply Forall_impl; [exact Hc|]; intros b; apply CmpCredId_le).
  simpl List.length in *. cbn [next_id]. destruct (Z.eqb_spec (c_credId c) n) as [E|E].
  - unfold u16. rewrite (Z.mod_small (n + 1)) by lia.
    destruct (IH (n + 1)) as [IH1 IH2]; [done|done| |lia|lia|].
    + apply Forall_forall. intros b Hb. rewrite Forall_forall in Hc'. specialize (Hc' b Hb).
      assert (c_credId b <> n); [|lia]. intros Eb. apply Hni. rewrite E, <- Eb.
      by apply list_elem_of_fmap_2.
    + split; [lia|]. rewrite elem_of_cons. intros [E'|?]; [lia|done].
  - split; [lia|]. rewrite elem_of_cons. intros [E'|Hin]; [lia|].
    apply list_elem_of_fmap in Hin as (b & Eb & Hb). rewrite Forall_forall in Hc'.
    specialize (Hc' b Hb). lia.
Qed.

Lemma filter_absent id l : id ∉ c_credId <$> l ->
  List.filter (fun c => negb (c_credId c =? id)) l = l.
Proof.
  induction l as [|c l IH]; [done|]. rewrite fmap_cons, elem_of_cons. intros Hni. simpl.
  destruct (Z.eqb_spec (c_credId c) id); [naive_solver|]. simpl. by rewrite IH by naive_solver.
Qed.

(** With distinct identifiers the first is the only one. *)
Lemma remove_cred_filter id l : NoDup (c_credId <$> l) ->
  remove_cred id l = List.filter (fun c => negb (c_credId c =? id)) l.
Proof.
  induction l as [|c l IH]; [done|]. rewrite fmap_cons, NoDup_cons. intros [Hni Hnd]. simpl.
  destruct (Z.eqb_spec (c_credId c) id) as [<-|]; simpl; [by rewrite filter_absent|].
  by rewrite IH.
Qed.

Lemma distinct_ids_add l c : distinct_ids l -> 0 < c_credId c < 2 ^ 16 ->
  distinct_ids (List.filter (fun x => negb (c_credId x =? c_credId c)) l ++ [c]).
Proof.
  intros [Hnd Hr] Hc.
  assert (Hf : forall x, x ∈ List.filter (fun x => negb (c_credId x =? c_credId c)) l ->
    x ∈ l /\ c_credId x <> c_credId c).
  { intros x. rewrite !list_elem_of_In. rewrite filter_In. intros [? Hx]. split; [done|].
    by destruct (Z.eqb_spec (c_credId x) (c_credId c)). }
  split.
  - rewrite fmap_app. apply NoDup_app. split_and!.
    + clear Hf Hr. induction l as [|x l IH]; [constructor|].
      rewrite fmap_cons, NoDup_cons in Hnd. destruct Hnd as [Hni Hnd]. simpl.
      destruct (negb (c_credId x =? c_credId c)); [|by apply IH].
      rewrite fmap_cons. constructor; [|by apply IH]. contradict Hni.
      apply list_elem_of_fmap in Hni as (y & -> & Hy). apply list_elem_of_fmap_2.
      rewrite list_elem_of_In in *. by apply filter_In in Hy as [? _].
    + intros i Hi. apply list_elem_of_fmap in Hi as (x & -> & Hx). apply Hf in Hx as [_ Hx].
      cbn. rewrite list_elem_of_singleton. done.
    + apply NoDup_singleton.
  - apply Forall_app. split; [|by apply Forall_singleton]. apply Forall_forall. intros x Hx.
    apply Hf in Hx as [Hx _]. rewrite Forall_forall in Hr. by apply Hr.
Qed.

Section properties.
Context {L : CborLib} {LL : CborLaws} {W : Type} {ST : Storage W} {SL : StorageLaws W}
  {P : Platform W} {U : UtList} {UL : UtListLaws}.
Implicit Type s : SVR W.

(** The database holds the list [l] with owner [o]. *)
Definition cred_stored (l : list OicSecCred_t) (o : OicUuid_t) (w : W) : Prop :=
  let b := entry SVR_DB_DAT_FILE_NAME w OIC_JSON_CRED_NAME in
  match l with
  | [] => b = []
  | _ :: _ => CredToCBORPayloadWithRowner l o (storage_size l) false = Some (Some b)
  end.

Lemma cred_persistent_spec l s : Forall keys_bounded l ->
  db_ok SVR_DB_DAT_FILE_NAME (world s) ->
  exists ok w', UpdatePersistentStorage l s = Some (ok, with_world w' s) /\
    (ok = true -> db_ok SVR_DB_DAT_FILE_NAME w' /\ cred_stored l (gRownerId s) w').
Proof.
  intros Hk Hdb. assert (Hn : OIC_JSON_CRED_NAME ∈ database_names (SVR_DB_DAT_FILE_NAME (W:=W)))
    by (apply svr_name; set_solver).
  assert (Hput : forall b, exists r w',
    on_world (UpdateSecureResourceInPS OIC_JSON_CRED_NAME b) s = Some (r, with_world w' s) /\
    (r = OC_STACK_OK -> db_ok SVR_DB_DAT_FILE_NAME w' /\
       entry SVR_DB_DAT_FILE_NAME w' OIC_JSON_CRED_NAME = b)).
  { intros b. destruct (UpdateResourceInPS_any SVR_DB_DAT_FILE_NAME (world s)
      OIC_JSON_CRED_NAME b) as (r & w' & Hu & Hr); [done|done|].
    unfold on_world, UpdateSecureResourceInPS. rewrite Hu. exists r, w'. split; [done|].
    intros ->. destruct Hr as [(_ & Hok & He)|[|[_ ?]]]; [|done|done]. split; [done|].
    by rewrite He, String.eqb_refl by done. }
  unfold UpdatePersistentStorage, bind at 1. destruct l as [|c l].
  - destruct (Hput []) as (r & w' & E & Hr). rewrite E. exists (is_ok r), w'.
    split; [done|]. rewrite is_ok_true. apply Hr.
  - unfold bind at 1, gets.
    destruct (CredToCBORPayload_defined (c :: l) (gRownerId s) (storage_size (c :: l)) false)
      as [[b|] Hb]; [done|..]; unfold bind, demand; rewrite Hb.
    + destruct (Hput b) as (r & w' & E & Hr). rewrite E. exists (is_ok r), w'.
      split; [done|]. rewrite is_ok_true. intros Hok. destruct (Hr Hok) as [? He].
      split; [done|]. unfold cred_stored. by rewrite He, Hb.
    + exists false, (world s). by destruct s.
Qed.

Lemma store_cred_spec s : Forall keys_bounded (gCred s) -> db_ok SVR_DB_DAT_FILE_NAME (world s) ->
  exists ok w', store_cred s = Some (ok, with_world w' s) /\
    (ok = true -> db_ok SVR_DB_DAT_FILE_NAME w' /\ cred_stored (gCred s) (gRownerId s) w').
Proof. intros Hk Hdb. unfold store_cred, bind, gets. by apply cred_persistent_spec. Qed.

(** An identifier that is assigned is free. *)
Lemma GetCredId_fresh s : distinct_ids (gCred s) ->
  Z.of_nat (List.length (gCred s)) < UINT16_MAX - 1 ->
  exists id l, GetCredId s = Some (id, with_cred l s) /\ l ≡ₚ gCred s /\
    0 < id < 2 ^ 16 /\ id ∉ c_credId <$> gCred s.
Proof.
  intros [Hnd Hr] Hlen. set (l := LL_SORT CmpCredId (gCred s)).
  assert (Hp : l ≡ₚ gCred s) by apply LL_SORT_perm. pose proof (Permutation_length Hp) as Hl.
  destruct (next_id_free l 1) as [Hb Hf].
  - apply LL_SORT_sorted.
  - by rewrite Hp.
  - rewrite Hp. eapply Forall_impl; [exact Hr|]. simpl. lia.
  - lia.
  - unfold UINT16_MAX in Hlen. lia.
  - rewrite (fmap_Permutation c_credId _ _ Hp) in Hf. exists (next_id l 1), l. split_and!; try done; [|unfold UINT16_MAX in Hlen; lia..].
    unfold GetCredId, bind, modify, gets, ret. cbn [gCred with_cred]. fold l.
    destruct (Z.ltb_spec (next_id l 1) UINT16_MAX); [done|lia].
Qed.

(** C34: Adding a credential keeps the identifiers distinct: an identifier that is
    given replaces the credential that has it, a missing one is assigned a free
    number, every other credential stays, and success means that the list is
    stored. *)
Theorem AddCredential_ids new s p : pstat s = Some p ->
  db_ok SVR_DB_DAT_FILE_NAME (world s) -> distinct_ids (gCred s) ->
  Forall keys_bounded (gCred s) -> keys_bounded new -> in_width 16 (c_credId new) -> Z.of_nat (List.length (gCred s)) < UINT16_MAX - 1 ->
  exists r s' id, AddCredential new s = Some (r, s') /\
    (c_credId new <> 0 -> id = c_credId new) /\
    (c_credId new = 0 -> id ∉ c_credId <$> gCred s) /\
    distinct_ids (gCred s') /\
    gCred s' ≡ₚ List.filter (fun c => negb (c_credId c =? id)) (gCred s)
                ++ [set_credId id new] /\
    (r = OC_STACK_OK /\ cred_stored (gCred s') (gRownerId s') (world s') \/ r = OC_STACK_ERROR).
Proof.
  intros Hp Hdb Hids Hks Hk Hw Hlen. unfold in_width in Hw.
  assert (Hid : exists id l, id = (if c_credId new =? 0 then id else c_credId new) /\
    (c_credId new = 0 -> id ∉ c_credId <$> gCred s) /\ 0 < id < 2 ^ 16 /\
    l ≡ₚ List.filter (fun c => negb (c_credId c =? id)) (gCred s) /\
    AddCredential new s = (let! ok := store_cred in ret (result_of ok))
      (with_cred (l ++ [set_credId id new]) s)).
  { unfold AddCredential, GetDos, GetPstatDosS, GetPstatDosP, get_pstat.
    unfold bind at 1 2 3, gets, ret at 1. rewrite Hp. cbn [fmap option_fmap option_map mbind option_bind].
    destruct (Z.eqb_spec (c_credId new) 0) as [E|E]; cbn [negb].
    - destruct (GetCredId_fresh s Hids Hlen) as (id & l & Eg & Hl & Hr & Hf).
      exists id, l. split_and!; try done; [lia..|by rewrite filter_absent|].
      unfold bind at 1 2, ret at 1. rewrite Eg. done.
    - exists (c_credId new), (remove_cred (c_credId new) (gCred s)).
      split_and!; try done; [lia..|by rewrite remove_cred_filter by apply Hids|].
      unfold bind at 1 2, modify, ret at 1. f_equal. f_equal. by destruct new. }
  destruct Hid as (id & l & Eid & Hfree & Hr & Hl & ->).
  destruct (store_cred_spec (with_cred (l ++ [set_credId id new]) s)) as (ok & w' & E & Hok); [|done|].
  { apply Forall_app. split; [|by apply Forall_singleton]. change (Forall keys_bounded l).
    rewrite Hl. by apply List.incl_Forall with (gCred s); [apply List.incl_filter|]. }
  unfold bind. rewrite E. exists (result_of ok), (with_world w' (with_cred (l ++ [set_credId id new]) s)), id.
  assert (Hpm : l ++ [set_credId id new] ≡ₚ
    List.filter (fun c => negb (c_credId c =? id)) (gCred s) ++ [set_credId id new]) by (by rewrite Hl).
  split_and!; [done| |done| |done|].
  - intros Hn. rewrite Eid. by destruct (Z.eqb_spec (c_credId new) 0).
  - cbn [gCred with_world with_cred]. unfold distinct_ids. rewrite Hpm.
    by apply (distinct_ids_add (gCred s) (set_credId id new)).
  - destruct ok; [left|by right]. split; [done|]. by apply Hok.
Qed.

(** Removing the credentials of a subject removes exactly those; when there is one
    it succeeds once the shorter list is stored, when there is none it fails and
    leaves the storage alone. *)
Theorem RemoveCredential_exact u s : Forall keys_bounded (gCred s) ->
  db_ok SVR_DB_DAT_FILE_NAME (world s) ->
  exists r s', RemoveCredential u s = Some (r, s') /\
    gCred s' = List.filter (fun c => negb (bool_decide (c_subject c = u))) (gCred s) /\
    ((exists c, c ∈ gCred s /\ c_subject c = u) ->
       r = OC_STACK_RESOURCE_DELETED /\ cred_stored (gCred s') (gRownerId s') (world s')
       \/ r = OC_STACK_ERROR) /\
    (~ (exists c, c ∈ gCred s /\ c_subject c = u) -> r = OC_STACK_ERROR /\ world s' = world s).
Proof.
  intros Hk Hdb. unfold RemoveCredential, remove_where.
  set (l' := List.filter (fun c => negb (bool_decide (c_subject c = u))) (gCred s)).
  unfold bind at 1, gets. unfold bind at 1, modify. fold l'.
  assert (He : existsb (fun c => bool_decide (c_subject c = u)) (gCred s) = true <->
    exists c, c ∈ gCred s /\ c_subject c = u).
  { rewrite existsb_exists. setoid_rewrite bool_decide_eq_true. by setoid_rewrite list_elem_of_In. }
  destruct (existsb _ (gCred s)).
  - destruct (store_cred_spec (with_cred l' s)) as (ok & w' & E & Hok); [|done|].
    { by apply List.incl_Forall with (gCred s); [apply List.incl_filter|]. }
    unfold bind. rewrite E. do 2 eexists. split; [done|]. split; [done|].
    split; [|intros Hn; by destruct Hn; apply He].
    intros _. destruct ok; [left|by right]. split; [done|]. by apply Hok.
  - do 2 eexists. split; [done|]. split; [done|]. split; [|done].
    intros Hex. by apply He in Hex.
Qed.

End properties.

End Cred.
