(* ===== verification/ResourceManager.v ===== *)
(** * Initialization and reset of all resources

    [sec/svrs/resourcemanager.c], the entry points of
    [sec/svrs/secureresourcemanager.c] for it and [ResetSecureResourceInPS]
    ([sec/psinterface.c]).  The resources that are not modelled (sp, crl, csr,
    roles, amacl) are calls of [Svr.ext_call]. *)

From S2P Require Import Prelude.
From S2P Require Import Status.
From S2P Require Import SrmUtility.
From S2P Require Import Cbor.
From S2P Require Import PsInterface.
From S2P Require Import Svr.
From S2P Require Import Pstat.
From S2P Require Import Doxm.
From S2P Require Import Acl.
From S2P Require Import Cred.
Import SrmUtility Cbor PsInterface Svr Pstat Doxm Acl Cred.

Module ResourceManager.

Open Scope m_scope.

Section resource.
Context {L : CborLib} {W : Type} {ST : Storage W} {P : Platform W} {CT : CoapTokens}
  {U : UtList}.
Implicit Type s : SVR W.

(** [if (OC_STACK_OK == ret) ret = m;] *)
Definition when_ok (r : OCStackResult) (m : M (SVR W) OCStackResult) : M (SVR W) OCStackResult :=
  if is_ok r then m else ret r.

Definition init_svr (name : string) : M (SVR W) OCStackResult :=
  let! ok := call (InitSvr name) in ret (result_of ok).

Definition DestroySecureResources : M (SVR W) OCStackResult :=
  DeInitACLResource ;;;
  DeInitCredResource ;;;
  DeInitDoxmResource ;;;
  DeInitPstatResource ;;;
  call (DeInitSvr "crl") ;;;
  call (DeInitSvr "csr") ;;;
  call (DeInitSvr "roles") ;;;
  call (DeInitSvr "amacl") ;;;
  call (DeInitSvr "sp") ;;;
  ret OC_STACK_OK.

Definition InitSecureResources : M (SVR W) OCStackResult :=
  let! r := InitDoxmResource in
  let! r := when_ok r InitPstatResource in
  let! r := when_ok r (init_svr "sp") in
  let! r := when_ok r InitACLResource in
  let! r := when_ok r InitCredResource in
  let! r := when_ok r (init_svr "crl") in
  let! r := when_ok r (init_svr "csr") in
  let! r := when_ok r (init_svr "roles") in
  (if is_ok r then ret OC_STACK_OK else DestroySecureResources) ;;;
  ret r.

(** The result of the initialization is not looked at. *)
Definition SRMInitSecureResources : M (SVR W) OCStackResult :=
  InitSecureResources ;;;
  let! ok := call CAregisterPskCredentialsHandler in
  call CAregisterPkixInfoHandler ;;;
  call CAregisterIdentityHandler ;;;
  call CAregisterGetCredentialTypesHandler ;;;
  ret (result_of ok).

Definition SRMDeInitSecureResources : M (SVR W) unit := DestroySecureResources ;;; ret tt.

Definition ResetSecureResourceInPS : M (SVR W) OCStackResult :=
  let! (r, continue) := on_world reset_database in
  (if continue : bool then SRMDeInitSecureResources ;;; SRMInitSecureResources ;;; ret tt
   else ret tt) ;;;
  ret r.

Definition ResetSecureResources : M (SVR W) OCStackResult :=
  let! r := DestroySecureResources in
  let! r := when_ok r InitSecureResources in
  when_ok r ResetSecureResourceInPS.

End resource.

End ResourceManager.
