(* ===== verification/Dos.v ===== *)
(** * The device onboarding state machine ([sec/dox/deviceonboardingstate.c])

    Which transitions are valid, the conditions for entering a state, what
    entering it sets, and [SetDosState], which every change goes through. *)

From S2P Require Import Prelude.
From S2P Require Import Status.
From S2P Require Import SrmUtility.
From S2P Require Import Cbor.
From S2P Require Import PsInterface.
From S2P Require Import Svr.
From S2P Require Import Pstat.
From S2P Require Import Doxm.
From S2P Require Import Acl.
From S2P Require Import Cred.
From S2P Require Import ResourceManager.
Import SrmUtility Cbor PsInterface Svr Pstat Doxm Acl Cred ResourceManager.

Module Dos.

Open Scope m_scope.

(** [DOS_STATE_COUNT] fails an assertion; a number that is no state falls through
    the switch. *)
Definition IsValidStateTransition (oldState newState : Z) : option bool :=
  if newState =? DOS_RESET then Some true
  else if newState =? DOS_RFNOP then Some (DOS_RFPRO =? oldState)
  else if newState =? DOS_RFOTM then Some (DOS_RESET =? oldState)
  else if newState =? DOS_RFPRO then
    Some ((DOS_RFNOP =? oldState) || (DOS_RFOTM =? oldState) || (DOS_SRESET =? oldState))
  else if newState =? DOS_SRESET then Some ((DOS_RFNOP =? oldState) || (DOS_RFPRO =? oldState))
  else if newState =? DOS_STATE_COUNT then None
  else Some false.

Section machine.
Context {L : CborLib} {W : Type} {ST : Storage W} {P : Platform W} {CT : CoapTokens}
  {U : UtList}.
Implicit Type s : SVR W.

(** [VERIFY_TRUE_OR_EXIT] and [VERIFY_SUCCESS], the exit returning false. *)
Definition check (m : M (SVR W) bool) (k : M (SVR W) bool) : M (SVR W) bool :=
  let! b := m in if b : bool then k else ret false.
Definition check_not (m : M (SVR W) bool) (k : M (SVR W) bool) : M (SVR W) bool :=
  let! b := m in if b : bool then ret false else k.
Definition must (m : M (SVR W) OCStackResult) (k : M (SVR W) bool) : M (SVR W) bool :=
  let! r := m in if is_ok r then k else ret false.

(** ** Conditions *)

Definition IsReadyToEnterRFNOP : M (SVR W) bool :=
  check IsDoxmOwned (
  check_not IsDoxmDevowneruuidTheNilUuid (
  check_not IsDoxmDeviceuuidTheNilUuid (
  let! isop := GetPstatIsop in
  match isop with
  | None => ret false
  | Some isop =>
      if isop : bool then ret false
      else
        check_not IsAclRowneruuidTheNilUuid (
        check_not IsCredRowneruuidTheNilUuid (
        check_not IsDoxmRowneruuidTheNilUuid (
        check_not IsPstatRowneruuidTheNilUuid (
        ret true))))
  end))).

Definition IsReadyToEnterRFOTM : M (SVR W) bool :=
  check_not IsDoxmOwned (
  check IsDoxmDevowneruuidTheNilUuid (
  ret true)).

Definition IsReadyToEnterRFPRO : M (SVR W) bool :=
  check IsDoxmOwned (
  check_not IsDoxmDevowneruuidTheNilUuid (
  check_not IsDoxmDeviceuuidTheNilUuid (
  check_not IsAclRowneruuidTheNilUuid (
  check_not IsCredRowneruuidTheNilUuid (
  check_not IsDoxmRowneruuidTheNilUuid (
  check_not IsPstatRowneruuidTheNilUuid (
  ret true))))))).

Definition IsReadyToEnterSRESET : M (SVR W) bool :=
  check IsDoxmOwned (
  check_not IsDoxmDevowneruuidTheNilUuid (
  check_not IsDoxmDeviceuuidTheNilUuid (
  ret true))).

(** ** Entering a state *)

(** [x |= m] or [x &= ~m]. *)
Definition put_bit (b : bool) (m x : Z) : Z := if b then Z.lor x m else Z.ldiff x m.

Definition EnterStateGeneric (isop cmReset cmTakeOwner tmReset tmTakeOwner : bool) (state : Z) :
    M (SVR W) bool :=
  let! cm := GetPstatCm in
  match cm with
  | None => ret false
  | Some cm =>
      let! tm := GetPstatTm in
      match tm with
      | None => ret false
      | Some tm =>
          must (SetPstatIsop isop) (
          must (SetPstatCm (put_bit cmTakeOwner TAKE_OWNER (put_bit cmReset RESET cm))) (
          must (SetPstatTm (put_bit tmTakeOwner TAKE_OWNER (put_bit tmReset RESET tm))) (
          must (SetPstatDosS state) (
          ret true))))
      end
  end.

Definition EnterRFNOP : M (SVR W) bool := EnterStateGeneric true false false false false DOS_RFNOP.
Definition EnterRFOTM : M (SVR W) bool := EnterStateGeneric false false true false false DOS_RFOTM.
Definition EnterRFPRO : M (SVR W) bool := EnterStateGeneric false false false false false DOS_RFPRO.

Definition EnterRESET : M (SVR W) bool :=
  must ResetSecureResources (
  must (SetDoxmIsOwned false) (
  must (SetDoxmDevOwnerId THE_NIL_UUID) (
  must (SetAclRownerId (Some THE_NIL_UUID)) (
  must (SetCredRownerId (Some THE_NIL_UUID)) (
  must (SetDoxmRownerId THE_NIL_UUID) (
  must (SetPstatRownerId (Some THE_NIL_UUID)) (
  must (SetPstatCm 0) (
  must (SetPstatTm 0) (
  check (EnterStateGeneric false true false false true DOS_RESET) (
  must (let! (r, _) := EnableAnonCipherSuiteIfUnOwnedAndJustWorksSelected in ret r) (
  ret true))))))))))).

Definition EnterSRESET : M (SVR W) bool :=
  check (EnterStateGeneric false true false false false DOS_SRESET) (ret true).

(** ** State changes *)

(** [if (ready()) ret = enter() ? OK : INTERNAL_SERVER_ERROR; else FORBIDDEN] *)
Definition change_if (ready enter : M (SVR W) bool) : M (SVR W) OCStackResult :=
  let! b := ready in
  if b : bool then
    let! b := enter in
    ret (if b : bool then OC_STACK_OK else OC_STACK_INTERNAL_SERVER_ERROR)
  else ret OC_STACK_FORBIDDEN_REQ.

Definition DoStateChange (newState : Z) : M (SVR W) OCStackResult :=
  if newState =? DOS_RESET then
    let! b := EnterRESET in
    if b : bool then change_if IsReadyToEnterRFOTM EnterRFOTM
    else ret OC_STACK_INTERNAL_SERVER_ERROR
  else if newState =? DOS_RFNOP then change_if IsReadyToEnterRFNOP EnterRFNOP
  else if newState =? DOS_RFOTM then change_if IsReadyToEnterRFOTM EnterRFOTM
  else if newState =? DOS_RFPRO then change_if IsReadyToEnterRFPRO EnterRFPRO
  else if newState =? DOS_SRESET then change_if IsReadyToEnterSRESET EnterSRESET
  else if newState =? DOS_STATE_COUNT then undefined
  else ret OC_STACK_INTERNAL_SERVER_ERROR.

Definition SetDosState (desiredState : Z) : M (SVR W) OCStackResult :=
  let! pending := GetPstatDosP in
  match pending with
  | None => ret OC_STACK_INTERNAL_SERVER_ERROR
  | Some true => ret OC_STACK_FORBIDDEN_REQ
  | Some false =>
      let! r := SetPstatDosP true in
      if negb (is_ok r) then ret OC_STACK_INTERNAL_SERVER_ERROR
      else
        let! oldState := GetPstatDosS in
        match oldState with
        | None => ret OC_STACK_INTERNAL_SERVER_ERROR
        | Some oldState =>
            let! valid := demand (IsValidStateTransition oldState desiredState) in
            let! r :=
              if valid : bool then
                let! stateChangeResult := DoStateChange desiredState in
                ret (match stateChangeResult with
                     | OC_STACK_OK => OC_STACK_OK
                     | OC_STACK_FORBIDDEN_REQ => OC_STACK_FORBIDDEN_REQ
                     | _ => OC_STACK_INTERNAL_SERVER_ERROR
                     end)
              else ret OC_STACK_FORBIDDEN_REQ in
            let! r' := SetPstatDosP false in
            ret (if is_ok r' then r else OC_STACK_INTERNAL_SERVER_ERROR)
        end
  end.

(** ** The state machine without RESET *)

(** An owned device, and resources that all have an owner. *)
Definition owned_device (d : OicSecDoxm_t) : bool :=
  d_owned d && negb (IsNilUuid (d_owner d)) && negb (IsNilUuid (d_deviceID d)).
Definition all_rowners (p : OicSecPstat_t) (d : OicSecDoxm_t) s : bool :=
  negb (match gAcl s with Some a => IsNilUuid (acl_rownerID a) | None => true end) &&
  negb (IsNilUuid (gRownerId s)) && negb (IsNilUuid (d_rownerID d)) &&
  negb (IsNilUuid (p_rownerID p)).

(** What the specification asks for before a state is entered, and what entering
    it does to the status. *)
Definition may_enter (st : Z) (p : OicSecPstat_t) (d : OicSecDoxm_t) s : bool :=
  if st =? DOS_RFOTM then negb (d_owned d) && IsNilUuid (d_owner d)
  else if st =? DOS_RFPRO then owned_device d && all_rowners p d s
  else if st =? DOS_RFNOP then owned_device d && negb (p_isOp p) && all_rowners p d s
  else if st =? DOS_SRESET then owned_device d
  else false.

Definition entered (st : Z) (p : OicSecPstat_t) : OicSecPstat_t :=
  mk_pstat st (p_pending p) (st =? DOS_RFNOP)
    (put_bit (st =? DOS_RFOTM) TAKE_OWNER (put_bit ((st =? DOS_SRESET) || (st =? DOS_RESET)) RESET (p_cm p)))
    (put_bit (st =? DOS_RESET) TAKE_OWNER (Z.ldiff (p_tm p) RESET))
    (p_om p) (p_sm p) (p_commitHash p) (p_rownerID p).

Definition allowed (old new : Z) : Prop :=
  (old = DOS_RESET /\ new = DOS_RFOTM) \/ (old = DOS_RFOTM /\ new = DOS_RFPRO) \/
  (old = DOS_RFPRO /\ new = DOS_RFNOP) \/ (old = DOS_RFNOP /\ new = DOS_RFPRO) \/
  (old = DOS_RFNOP /\ new = DOS_SRESET) \/ (old = DOS_RFPRO /\ new = DOS_SRESET) \/
  (old = DOS_SRESET /\ new = DOS_RFPRO).

Lemma set_pstat_some f s p : pstat s = Some p -> set_pstat f s = Some (OC_STACK_OK, upd_pstat f s).
Proof. intros Hp. unfold set_pstat, bind, gets, modify, ret. by rewrite Hp. Qed.

Lemma set_pstat_inv f s s' : set_pstat f s = Some (OC_STACK_OK, s') ->
  exists p, pstat s = Some p /\ s' = upd_pstat f s.
Proof.
  unfold set_pstat, bind, gets, modify, ret. destruct (pstat s) as [p|]; [|done].
  intros [= <-]. by exists p.
Qed.

Lemma set_doxm_inv f s s' : set_doxm f s = Some (OC_STACK_OK, s') ->
  exists d, doxm s = Some d /\ s' = upd_doxm f s.
Proof.
  unfold set_doxm, bind, gets, modify, ret. destruct (doxm s) as [d|]; [|done].
  intros [= <-]. by exists d.
Qed.

(** Entering a state only updates the status. *)
Lemma EnterStateGeneric_spec i cr ct tr tt st s p : pstat s = Some p ->
  EnterStateGeneric i cr ct tr tt st s = Some (true, upd_pstat (fun p =>
    mk_pstat st (p_pending p) i (put_bit ct TAKE_OWNER (put_bit cr RESET (p_cm p)))
      (put_bit tt TAKE_OWNER (put_bit tr RESET (p_tm p))) (p_om p) (p_sm p) (p_commitHash p)
      (p_rownerID p)) s).
Proof.
  intros Hp. unfold EnterStateGeneric, GetPstatCm, GetPstatTm, get_pstat. run. rewrite Hp. run.
  rewrite Hp. run. unfold must, SetPstatIsop, SetPstatCm, SetPstatTm, SetPstatDosS. run.
  erewrite bind_some by by apply (set_pstat_some _ _ p). cbn [is_ok].
  do 3 (erewrite bind_some by (eapply set_pstat_some; rewrite !pstat_upd, Hp; reflexivity);
        cbn [is_ok]).
  unfold ret. do 2 f_equal. rewrite !upd_pstat_twice. by apply (upd_pstat_ext _ _ _ p).
Qed.

Lemma check_gets f k s : check (gets f) k s = if f s then k s else Some (false, s).
Proof. unfold check, bind, gets. by destruct (f s). Qed.
Lemma check_not_gets f k s : check_not (gets f) k s = if f s then Some (false, s) else k s.
Proof. unfold check_not, bind, gets. by destruct (f s). Qed.

(** The conditions only read. *)
Lemma IsReadyToEnter_spec st ready p d s : pstat s = Some p -> doxm s = Some d ->
  (st, ready) ∈ [(DOS_RFOTM, IsReadyToEnterRFOTM); (DOS_RFPRO, IsReadyToEnterRFPRO);
                 (DOS_RFNOP, IsReadyToEnterRFNOP); (DOS_SRESET, IsReadyToEnterSRESET)] ->
  ready s = Some (may_enter st p d s, s).
Proof.
  intros Hp Hd Hin. rewrite !elem_of_cons in Hin.
  unfold may_enter, owned_device, all_rowners.
  destruct Hin as [[= -> ->]|[[= -> ->]|[[= -> ->]|[[= -> ->]|Hin]]]];
    [unfold IsReadyToEnterRFOTM|unfold IsReadyToEnterRFPRO|unfold IsReadyToEnterRFNOP
    |unfold IsReadyToEnterSRESET|by apply elem_of_nil in Hin];
    unfold IsDoxmOwned, IsDoxmDevowneruuidTheNilUuid, IsDoxmDeviceuuidTheNilUuid,
      IsDoxmRowneruuidTheNilUuid, IsAclRowneruuidTheNilUuid, IsCredRowneruuidTheNilUuid,
      IsPstatRowneruuidTheNilUuid, GetPstatIsop, get_pstat;
    repeat first [rewrite check_gets | rewrite check_not_gets]; rewrite ?Hd, ?Hp;
    cbn -[IsNilUuid check_not].
  - by destruct (d_owned d), (IsNilUuid (d_owner d)).
  - destruct (d_owned d), (IsNilUuid (d_owner d)), (IsNilUuid (d_deviceID d)); try done.
    destruct (match gAcl s with Some a => _ | None => _ end); [done|].
    by destruct (IsNilUuid (gRownerId s)), (IsNilUuid (d_rownerID d)), (IsNilUuid (p_rownerID p)).
  - destruct (d_owned d), (IsNilUuid (d_owner d)), (IsNilUuid (d_deviceID d)); try done.
    rewrite ?Hp. cbn -[IsNilUuid check_not].
    destruct (p_isOp p); [done|]. rewrite ?check_not_gets, ?Hd, ?Hp. cbn -[IsNilUuid].
    destruct (match gAcl s with Some a => _ | None => _ end); [done|].
    by destruct (IsNilUuid (gRownerId s)), (IsNilUuid (d_rownerID d)), (IsNilUuid (p_rownerID p)).
  - by destruct (d_owned d), (IsNilUuid (d_owner d)), (IsNilUuid (d_deviceID d)).
Qed.

(** The code's table of transitions is the specification's. *)
Lemma IsValidStateTransition_spec old new : new <> DOS_STATE_COUNT -> new <> DOS_RESET ->
  exists b, IsValidStateTransition old new = Some b /\ (b = true <-> allowed old new).
Proof.
  intros Hc Hr. unfold IsValidStateTransition, allowed, DOS_STATE_COUNT, DOS_RESET, DOS_RFOTM,
    DOS_RFPRO, DOS_RFNOP, DOS_SRESET in *.
  destruct (Z.eqb_spec new 0); [done|]. destruct (Z.eqb_spec new 3); [eexists; split; [done|]; lia|].
  destruct (Z.eqb_spec new 1); [eexists; split; [done|]; lia|].
  destruct (Z.eqb_spec new 2); [eexists; split; [done|]; lia|].
  destruct (Z.eqb_spec new 4); [eexists; split; [done|]; lia|].
  destruct (Z.eqb_spec new 5); [done|]. eexists. split; [done|]. lia.
Qed.

Lemma DoStateChange_spec st p d s : pstat s = Some p -> doxm s = Some d ->
  st ∈ [DOS_RFOTM; DOS_RFPRO; DOS_RFNOP; DOS_SRESET] ->
  DoStateChange st s =
    Some (if may_enter st p d s then (OC_STACK_OK, upd_pstat (entered st) s)
          else (OC_STACK_FORBIDDEN_REQ, s)).
Proof.
  intros Hp Hd Hst.
  assert (Hrun : forall ready enter, ready s = Some (may_enter st p d s, s) ->
    enter s = Some (true, upd_pstat (entered st) s) ->
    change_if ready enter s = Some (if may_enter st p d s
      then (OC_STACK_OK, upd_pstat (entered st) s) else (OC_STACK_FORBIDDEN_REQ, s))).
  { intros ready enter E1 E2. unfold change_if, bind. rewrite E1.
    destruct (may_enter st p d s); [by rewrite E2|done]. }
  rewrite !elem_of_cons in Hst. unfold DoStateChange.
  destruct Hst as [->|[->|[->|[->|Hst]]]]; [..|by apply elem_of_nil in Hst]; cbn -[change_if];
    apply Hrun; try (eapply IsReadyToEnter_spec; [done|done|]; rewrite !elem_of_cons; tauto).
  - unfold EnterRFOTM. by rewrite (EnterStateGeneric_spec _ _ _ _ _ _ _ p).
  - unfold EnterRFPRO. by rewrite (EnterStateGeneric_spec _ _ _ _ _ _ _ p).
  - unfold EnterRFNOP. by rewrite (EnterStateGeneric_spec _ _ _ _ _ _ _ p).
  - unfold EnterSRESET, check, bind. by rewrite (EnterStateGeneric_spec _ _ _ _ _ _ _ p).
Qed.

Lemma SetDosState_cases st p d s : pstat s = Some p -> doxm s = Some d ->
  p_pending p = false -> st ∈ [DOS_RFOTM; DOS_RFPRO; DOS_RFNOP; DOS_SRESET] ->
  exists r s', SetDosState st s = Some (r, s') /\
    (r = OC_STACK_OK /\ allowed (p_state p) st /\ may_enter st p d s = true /\
       s' = upd_pstat (entered st) s
     \/ r = OC_STACK_FORBIDDEN_REQ /\ ~ (allowed (p_state p) st /\ may_enter st p d s = true) /\
        s' = s).
Proof.
  intros Hp Hd Hpend Hst.
  destruct (IsValidStateTransition_spec (p_state p) st) as (b & Hb & Hb');
    [intros ->; revert Hst; vm_compute; set_solver..|].
  set (s1 := upd_pstat (set_pending true) s).
  assert (Hp1 : pstat s1 = Some (set_pending true p)) by (unfold s1; by rewrite pstat_upd, Hp).
  assert (Hd1 : doxm s1 = Some d) by (unfold s1; by rewrite doxm_upd_pstat).
  assert (Hm : may_enter st (set_pending true p) d s1 = may_enter st p d s).
  { unfold may_enter, all_rowners, s1. rewrite gAcl_upd_pstat, gRownerId_upd_pstat. by destruct p. }
  unfold SetDosState, GetPstatDosP, GetPstatDosS, get_pstat. unfold bind at 1, gets at 1.
  rewrite Hp. cbn [fmap option_fmap option_map]. rewrite Hpend.
  erewrite bind_some by by apply (set_pstat_some _ _ p). fold s1. cbn [is_ok negb].
  unfold bind at 1, gets at 1. rewrite Hp1. cbn [fmap option_fmap option_map p_state set_pending].
  unfold bind at 1, demand at 1. rewrite Hb.
  assert (Hback : upd_pstat (set_pending false) s1 = s).
  { unfold s1. rewrite upd_pstat_twice. apply (upd_pstat_same _ _ p); [done|].
    destruct p; simpl in *. by subst. }
  destruct b.
  - rewrite bind_assoc. unfold bind at 1.
    rewrite (DoStateChange_spec st _ d s1 Hp1 Hd1 Hst), Hm.
    destruct (may_enter st p d s) eqn:Hmay; unfold bind at 1, ret at 1.
    + erewrite bind_some by (eapply set_pstat_some; rewrite pstat_upd, Hp1; done).
      do 2 eexists. split; [done|]. left. split_and!; [done|by apply Hb'|done|].
      clear Hback; unfold s1. rewrite !upd_pstat_twice. apply (upd_pstat_ext _ _ _ p); [done|].
      destruct p; simpl in *. by subst.
    + erewrite bind_some by (by eapply set_pstat_some). rewrite Hback.
      do 2 eexists. split; [done|]. right. split_and!; [done|by intros [_ ?]|done].
  - unfold bind at 1, ret at 1. erewrite bind_some by (by eapply set_pstat_some). rewrite Hback.
    do 2 eexists. split; [done|]. right. split_and!; [done| |done]. intros [Ha _].
    by apply Hb' in Ha.
Qed.

Lemma SetDosState_unknown st p s : pstat s = Some p -> p_pending p = false ->
  st ∉ [DOS_RESET; DOS_RFOTM; DOS_RFPRO; DOS_RFNOP; DOS_SRESET; DOS_STATE_COUNT] ->
  SetDosState st s = Some (OC_STACK_FORBIDDEN_REQ, s).
Proof.
  intros Hp Hpend Hst. rewrite !not_elem_of_cons in Hst.
  destruct Hst as (H1 & H2 & H3 & H4 & H5 & H6 & _).
  unfold SetDosState, GetPstatDosP, GetPstatDosS, get_pstat. unfold bind at 1, gets at 1.
  rewrite Hp. cbn [fmap option_fmap option_map]. rewrite Hpend.
  erewrite bind_some by by apply (set_pstat_some _ _ p). cbn [is_ok negb].
  unfold bind at 1, gets at 1. rewrite pstat_upd, Hp. cbn [fmap option_fmap option_map].
  unfold bind at 1, demand at 1, IsValidStateTransition.
  rewrite !(proj2 (Z.eqb_neq st _)) by done. unfold bind at 1, ret at 1.
  erewrite bind_some by (eapply set_pstat_some; by rewrite pstat_upd, Hp).
  unfold ret. cbn [is_ok]. do 2 f_equal. rewrite upd_pstat_twice.
  apply (upd_pstat_same _ _ p); [done|]. destruct p; simpl in *. by subst.
Qed.


(** ** RESET *)

Lemma store_acl_world : keeps only_world store_acl.
Proof. unfold store_acl, encode_acl. keep. Qed.
Lemma store_cred_world : keeps only_world store_cred.
Proof. unfold store_cred, Cred.UpdatePersistentStorage. keep. Qed.
Lemma pstat_persistent_world p : keeps only_world (Pstat.UpdatePersistentStorage p).
Proof. unfold Pstat.UpdatePersistentStorage. keep. Qed.
Lemma anon_world : keeps only_world EnableAnonCipherSuiteIfUnOwnedAndJustWorksSelected.
Proof. unfold EnableAnonCipherSuiteIfUnOwnedAndJustWorksSelected. keep. Qed.

Lemma must_inv m k s s' : must m k s = Some (true, s') ->
  exists s1, m s = Some (OC_STACK_OK, s1) /\ k s1 = Some (true, s').
Proof.
  intros E. apply bind_inv in E as (r & s1 & E1 & E2). destruct r; try done. eauto.
Qed.
Lemma check_inv m k s s' : check m k s = Some (true, s') ->
  exists s1, m s = Some (true, s1) /\ k s1 = Some (true, s').
Proof. intros E. apply bind_inv in E as ([] & s1 & E1 & E2); [eauto|done]. Qed.

(** What the rest of the program sees of a state; calls of other layers do not
    change it. *)
Definition view s : option OicSecPstat_t * option OicSecDoxm_t * option OicSecAcl_t *
    list OicSecCred_t * OicUuid_t := (pstat s, doxm s, gAcl s, gCred s, gRownerId s).

Lemma view_world s s' : only_world s s' -> view s' = view s.
Proof. intros [w ->]. unfold view. by svr_simpl. Qed.

(** What a setter that succeeds has set. *)
Lemma set_pstat_view f s s' p d a c o : set_pstat f s = Some (OC_STACK_OK, s') ->
  view s = (p, d, a, c, o) -> exists p', p = Some p' /\ view s' = (Some (f p'), d, a, c, o).
Proof.
  intros (p' & Hp & ->)%set_pstat_inv. unfold view. svr_simpl. rewrite Hp.
  intros [= <- <- <- <- <-]. by exists p'.
Qed.

Lemma set_doxm_view f s s' p d a c o : set_doxm f s = Some (OC_STACK_OK, s') ->
  view s = (p, d, a, c, o) -> exists d', d = Some d' /\ view s' = (p, Some (f d'), a, c, o).
Proof.
  intros (d' & Hd & ->)%set_doxm_inv. unfold view. svr_simpl. rewrite Hd.
  intros [= <- <- <- <- <-]. by exists d'.
Qed.

Lemma SetAclRownerId_view u s s' p d a c o :
  SetAclRownerId (Some u) s = Some (OC_STACK_OK, s') -> view s = (p, d, a, c, o) ->
  exists a', a = Some a' /\ view s' = (p, d, Some (set_acl_rownerID u a'), c, o).
Proof.
  unfold SetAclRownerId. intros E. apply bind_inv in E as (x & s1 & [= <- <-] & E).
  destruct (gAcl s) as [a'|] eqn:Ha; [|done]. unfold bind at 1, modify at 1 in E.
  apply bind_inv in E as (r & s2 & E1 & E2). apply store_acl_world, view_world in E1.
  intros Hv. exists a'. unfold view in Hv. rewrite Ha in Hv. injection Hv as <- <- <- <- <-.
  split; [done|]. destruct r; try done. injection E2 as <-. rewrite E1. unfold view. by svr_simpl.
Qed.

Lemma SetCredRownerId_view u s s' p d a c o :
  SetCredRownerId (Some u) s = Some (OC_STACK_OK, s') -> view s = (p, d, a, c, o) ->
  view s' = (p, d, a, c, u).
Proof.
  unfold SetCredRownerId. intros E. apply bind_inv in E as (x & s1 & [= <- <-] & E).
  intros Hv. destruct (UuidCmp (gRownerId s) u) eqn:Hu.
  - apply UuidCmp_true in Hu. injection E as <-. rewrite Hv. unfold view in Hv. congruence.
  - unfold bind at 1, modify at 1 in E. apply bind_inv in E as (ok & s2 & E1 & E2).
    apply store_cred_world, view_world in E1. destruct ok; [|done]. injection E2 as <-.
    rewrite E1. unfold view in *. svr_simpl. by injection Hv as -> -> -> -> _.
Qed.

Lemma SetPstatRownerId_view u s s' p d a c o :
  SetPstatRownerId (Some u) s = Some (OC_STACK_OK, s') -> view s = (p, d, a, c, o) ->
  exists p', p = Some p' /\ view s' = (Some (set_p_rownerID u p'), d, a, c, o).
Proof.
  unfold SetPstatRownerId. intros E. apply bind_inv in E as (x & s1 & [= <- <-] & E).
  destruct (pstat s) as [p'|] eqn:Hp; [|done]. unfold bind at 1, modify at 1 in E.
  apply bind_inv in E as (x & s1 & [= <- <-] & E). apply bind_inv in E as (ok & s2 & E1 & E2).
  apply pstat_persistent_world, view_world in E1. intros Hv. exists p'.
  unfold view in Hv. rewrite Hp in Hv. injection Hv as <- <- <- <- <-. split; [done|].
  destruct ok; [|done]. injection E2 as <-. rewrite E1. unfold view. svr_simpl. by rewrite Hp.
Qed.

(** A resource that no one owns. *)
Definition unowned (d : OicSecDoxm_t) : Prop :=
  d_owned d = false /\ d_owner d = THE_NIL_UUID /\ d_rownerID d = THE_NIL_UUID.

Lemma EnterRESET_view s s' : EnterRESET s = Some (true, s') ->
  exists p d a c, view s' = (Some p, Some d, Some a, c, THE_NIL_UUID) /\
    unowned d /\ acl_rownerID a = THE_NIL_UUID /\ p_rownerID p = THE_NIL_UUID /\
    p_state p = DOS_RESET /\ p_isOp p = false /\ p_cm p = RESET /\ p_tm p = TAKE_OWNER.
Proof.
  unfold EnterRESET. intros E. apply must_inv in E as (s1 & _ & E).
  destruct (view s1) as [[[[p d] a] c] o] eqn:V1.
  apply must_inv in E as (s2 & E2 & E). eapply set_doxm_view in E2; [|exact V1]. destruct E2 as (d1 & -> & V2).
  apply must_inv in E as (s3 & E3 & E). eapply set_doxm_view in E3; [|exact V2]. destruct E3 as (? & [= <-] & V3).
  apply must_inv in E as (s4 & E4 & E).
  eapply SetAclRownerId_view in E4; [|exact V3]. destruct E4 as (a1 & -> & V4).
  apply must_inv in E as (s5 & E5 & E). eapply SetCredRownerId_view in E5; [|exact V4].
  apply must_inv in E as (s6 & E6 & E). eapply set_doxm_view in E6; [|exact E5]. destruct E6 as (? & [= <-] & V6).
  apply must_inv in E as (s7 & E7 & E).
  eapply SetPstatRownerId_view in E7; [|exact V6]. destruct E7 as (p1 & -> & V7).
  apply must_inv in E as (s8 & E8 & E). eapply set_pstat_view in E8; [|exact V7]. destruct E8 as (? & [= <-] & V8).
  apply must_inv in E as (s9 & E9 & E). eapply set_pstat_view in E9; [|exact V8]. destruct E9 as (? & [= <-] & V9).
  apply check_inv in E as (s10 & E10 & E).
  assert (Hp : pstat s9 = Some (set_tm 0 (set_cm 0 (set_p_rownerID THE_NIL_UUID p1))))
    by (unfold view in V9; congruence).
  rewrite (EnterStateGeneric_spec _ _ _ _ _ _ _ _ Hp) in E10. injection E10 as <-.
  apply must_inv in E as (s11 & E11 & E). injection E as <-.
  apply bind_inv in E11 as ([r en] & s12 & E11 & E12). injection E12 as _ <-.
  apply anon_world, view_world in E11. unfold view at 2 in E11. revert E11. svr_simpl.
  rewrite Hp. unfold view in V9. injection V9 as _ -> -> -> ->. intros ->.
  cbn [fmap option_fmap option_map]. do 4 eexists. split; [done|]. by split_and!.
Qed.

(** The status of a device that was just reset. *)
Definition after_reset s : Prop := exists p d a c,
  view s = (Some p, Some d, Some a, c, THE_NIL_UUID) /\
  unowned d /\ acl_rownerID a = THE_NIL_UUID /\ p_rownerID p = THE_NIL_UUID /\
  p_state p = DOS_RFOTM /\ p_pending p = false /\ p_isOp p = false /\
  p_cm p = TAKE_OWNER /\ p_tm p = 0.

(** After [EnterRESET] the device is ready for RFOTM. *)
Lemma reset_then_rfotm s rc s' : (let! b := EnterRESET in
    if b : bool then change_if IsReadyToEnterRFOTM EnterRFOTM
    else ret OC_STACK_INTERNAL_SERVER_ERROR) s = Some (rc, s') ->
  rc = OC_STACK_INTERNAL_SERVER_ERROR \/
  rc = OC_STACK_OK /\ exists s1 p, s' = upd_pstat (entered DOS_RFOTM) s1 /\ pstat s1 = Some p /\
    after_reset (upd_pstat (fun p => set_pending false (entered DOS_RFOTM p)) s1).
Proof.
  intros E. apply bind_inv in E as (ok & s6 & E6 & E3).
  destruct ok; [|injection E3 as <- _; by left]. right.
  apply EnterRESET_view in E6 as (p & d & a & c & V & (U1 & U2 & U3) & Ha & Hpo & _ & _ & Hcm & Htm).
  unfold view in V. injection V as Hp Hd Va Vc Vo.
  assert (Hmay : may_enter DOS_RFOTM p d s6 = true) by (unfold may_enter; cbn; by rewrite U1, U2).
  unfold change_if in E3. erewrite bind_some in E3
    by (eapply IsReadyToEnter_spec; [done|done|]; rewrite !elem_of_cons; tauto).
  rewrite Hmay in E3. unfold EnterRFOTM in E3.
  rewrite (bind_some _ _ _ _ _ (EnterStateGeneric_spec _ _ _ _ _ _ _ _ Hp)) in E3.
  injection E3 as <- <-. split; [done|]. exists s6, p. split; [done|]. split; [done|].
  unfold after_reset, view. svr_simpl. rewrite Hp, Hd, Va, Vc, Vo.
  cbn [fmap option_fmap option_map]. do 4 eexists. split; [done|]. split; [by split_and!|].
  split; [done|]. cbn. rewrite Hcm, Htm. by split_and!.
Qed.

Lemma SetDosState_reset_cases s r s' : SetDosState DOS_RESET s = Some (r, s') ->
  (r = OC_STACK_OK /\ after_reset s') \/ r = OC_STACK_INTERNAL_SERVER_ERROR \/
  (r = OC_STACK_FORBIDDEN_REQ /\ s' = s /\ p_pending <$> pstat s = Some true).
Proof.
  unfold SetDosState. intros E. apply bind_inv in E as (pend & s0 & [= <- <-] & E).
  destruct (p_pending <$> pstat s) as [[]|];
    [injection E as <- <-; tauto| |injection E as <- <-; tauto].
  apply bind_inv in E as (r1 & s1 & _ & E).
  destruct (is_ok r1); cbn [negb] in E; [|injection E as <- _; tauto].
  apply bind_inv in E as (old & s2 & [= <- <-] & E).
  destruct (p_state <$> pstat s1) as [st|]; [|injection E as <- _; tauto].
  apply bind_inv in E as (v & s2 & [= <- <-] & E). apply bind_inv in E as (rc & s3 & E3 & E).
  apply bind_inv in E as (r' & s4 & E4 & E). injection E as Hr <-.
  destruct (is_ok r') eqn:Hr'; [|subst; tauto]. apply is_ok_true in Hr' as ->.
  apply bind_inv in E3 as (rc' & s5 & E3 & E5). injection E5 as Hrc <-.
  unfold DoStateChange in E3. rewrite Z.eqb_refl in E3.
  apply reset_then_rfotm in E3 as [->|(-> & s6 & p & -> & Hp & Ha)].
  { subst. tauto. }
  left. subst. split; [done|].
  apply set_pstat_inv in E4 as (p' & _ & ->). by rewrite upd_pstat_twice.
Qed.

(** C6: A reset succeeds or is an internal error, unless another change is pending;
    when it succeeds the device is unowned and in RFOTM, whatever state it was in:
    no resource has an owner, no change is pending, and the provisioning status
    is that of a device which waits for an owner. *)
Theorem SetDosState_reset s r s' : p_pending <$> pstat s = Some false ->
  SetDosState DOS_RESET s = Some (r, s') ->
  (r = OC_STACK_OK /\ after_reset s') \/ r = OC_STACK_INTERNAL_SERVER_ERROR.
Proof.
  intros Hp E. apply SetDosState_reset_cases in E as [?|[?|(_ & _ & E)]]; [tauto..|].
  congruence.
Qed.

End machine.

End Dos.
