(* ===== verification/Handlers.v ===== *)
(** * The POST handlers of /oic/sec/pstat and /oic/sec/doxm

    [HandlePstatPostRequest] and [PstatEntityHandler] ([sec/svrs/pstatresource.c]),
    [HandleDoxmPostRequest] and [DoxmEntityHandler] ([sec/svrs/doxmresource.c]): the
    requests that move a device through its onboarding states.  Each handler is
    split into the part that decides on a result and the response to it. *)

From S2P Require Import Prelude.
From S2P Require Import Status.
From S2P Require Import SrmUtility.
From S2P Require Import Cbor.
From S2P Require Import PsInterface.
From S2P Require Import Svr.
From S2P Require Import Pstat.
From S2P Require Import Doxm.
From S2P Require Import Acl.
From S2P Require Import Cred.
From S2P Require Import ResourceManager.
From S2P Require Import Dos.
Import SrmUtility Cbor PsInterface Svr Pstat Doxm Acl Cred ResourceManager Dos.

Module Handlers.

Open Scope m_scope.

Section handlers.
Context {L : CborLib} {W : Type} {ST : Storage W} {P : Platform W} {CT : CoapTokens}
  {U : UtList}.
Implicit Type s : SVR W.

(** ** Provisioning status *)

(** Everything but [dos] is written before the state is changed.  [ehRet] is what
    the request ends with when the status cannot be stored. *)
Definition store_pstat (ehRet : OCEntityHandlerResult) : M (SVR W) OCEntityHandlerResult :=
  let! p := gets pstat in
  let! ok := Pstat.UpdatePersistentStorage p in
  ret (if ok : bool then OC_EH_OK else ehRet).

Definition change_dos (state : Z) : M (SVR W) OCEntityHandlerResult :=
  let! stateChangeResult := SetDosState state in
  match stateChangeResult with
  | OC_STACK_OK => store_pstat OC_EH_OK
  | OC_STACK_FORBIDDEN_REQ => ret OC_EH_NOT_ACCEPTABLE
  | _ => ret OC_EH_INTERNAL_SERVER_ERROR
  end.

Definition write_pstat (new p : OicSecPstat_t) : OicSecPstat_t :=
  set_p_rownerID (p_rownerID new) (set_tm (p_tm new) (set_om (p_om new) p)).

(** The bits of [cm] that a new [tm] clears are cleared in the parsed copy only,
    which is not read again. *)
Definition update_pstat (req : request) : M (SVR W) OCEntityHandlerResult :=
  let! g := gets pstat in
  match req_payload req, g with
  | Some payload, Some g =>
      let! (r, new, roParsed) := CBORPayloadToPstatBin payload true (p_state g) in
      match new with
      | None => ret OC_EH_ERROR
      | Some new =>
          if negb (is_ok r) then ret OC_EH_ERROR
          else if roParsed : bool then ret OC_EH_NOT_ACCEPTABLE
          else if negb (existsb (fun sm => sm =? p_om new) (p_sm g)) then ret OC_EH_BAD_REQ
          else
            modify (upd_pstat (write_pstat new)) ;;;
            let! cur := gets pstat in
            let! cur := demand cur in
            if negb (p_state new =? p_state cur) then change_dos (p_state new)
            else store_pstat OC_EH_ERROR
      end
  | _, _ => ret OC_EH_ERROR
  end.

Definition HandlePstatPostRequest (req : request) : M (SVR W) OCEntityHandlerResult :=
  let! ehRet := update_pstat req in respond ehRet [].

(** [flag] is [flag & OC_REQUEST_FLAG]. *)
Definition PstatEntityHandler (flag : bool) (req : request) : M (SVR W) OCEntityHandlerResult :=
  if flag then
    match req_method req with
    | OC_REST_GET => HandlePstatGetRequest req
    | OC_REST_POST => HandlePstatPostRequest req
    | _ => respond OC_EH_ERROR []
    end
  else ret OC_EH_ERROR.

(** ** Device ownership *)

Definition HandleDoxmPostRequestUpdatePS (fACE : bool) : M (SVR W) OCEntityHandlerResult :=
  let! d := gets doxm in
  let! ok := Doxm.UpdatePersistentStorage d in
  if ok : bool then
    if fACE then
      let! r := UpdateDefaultSecProvACE in ret (if is_ok r then OC_EH_OK else OC_EH_ERROR)
    else ret OC_EH_OK
  else ret OC_EH_ERROR.

Definition update_doxm (req : request) : M (SVR W) OCEntityHandlerResult :=
  let! g := gets doxm in
  match req_payload req, g with
  | Some payload, Some g =>
      let! dos := GetDos in
      match dos with
      | None => ret OC_EH_INTERNAL_SERVER_ERROR
      | Some (state, _) =>
          if (DOS_RESET =? state) || (DOS_RFNOP =? state) then ret OC_EH_NOT_ACCEPTABLE
          else
            let! res := CBORPayloadToDoxmBin payload true state in
            match res with
            | inl _ => ret OC_EH_INTERNAL_SERVER_ERROR
            | inr (newDoxm, roParsed, oxmselParsed) =>
                if roParsed : bool then ret OC_EH_NOT_ACCEPTABLE
                else if negb (ValidateOxmsel (d_oxm g) (d_oxmSel newDoxm))
                then ret OC_EH_NOT_ACCEPTABLE
                else
                  modify (upd_doxm (DoxmUpdateWriteableProperty newDoxm)) ;;;
                  let! ehRet :=
                    if oxmselParsed && (DOS_RFOTM =? state)
                    then StartOwnershipTransfer newDoxm (req_adapter req) else ret OC_EH_OK in
                  if eh_ok ehRet then HandleDoxmPostRequestUpdatePS false else ret ehRet
            end
      end
  | _, _ => ret OC_EH_INTERNAL_SERVER_ERROR
  end.

Definition HandleDoxmPostRequest (req : request) : M (SVR W) OCEntityHandlerResult :=
  let! ehRet := update_doxm req in respond ehRet [].

Definition DoxmEntityHandler (flag : bool) (req : request) : M (SVR W) OCEntityHandlerResult :=
  if flag then
    match req_method req with
    | OC_REST_GET => HandleDoxmGetRequest req
    | OC_REST_POST => HandleDoxmPostRequest req
    | _ => respond OC_EH_ERROR []
    end
  else ret OC_EH_ERROR.

End handlers.

End Handlers.
