(* ===== verification/AclCredHandlers.v ===== *)
(** * The handlers of /oic/sec/acl, /oic/sec/acl2 and /oic/sec/cred

    The REST methods of [sec/svrs/aclresource.c] and [sec/svrs/credresource.c] and
    the parsing of their queries. *)

From S2P Require Import Prelude.
From S2P Require Import Status.
From S2P Require Import CString.
From S2P Require Import OicString.
From S2P Require Import SrmUtility.
From S2P Require Import Cbor.
From S2P Require Import PsInterface.
From S2P Require Import Svr.
From S2P Require Import Pstat.
From S2P Require Import Doxm.
From S2P Require Import AclCodec.
From S2P Require Import CredCodec.
From S2P Require Import Acl.
From S2P Require Import Cred.
Import CString SrmUtility Cbor PsInterface Svr Pstat Doxm AclCodec CredCodec Acl Cred.

Module AclCredHandlers.

Open Scope m_scope.

Definition MAX_URI_LENGTH : nat := 256.
Definition STRING_UUID_SIZE : Z := 37.
Definition NO_SECURITY_MODE : Z := 0.
Definition CA_ADAPTER_IP : Z := Z.shiftl 1 0.

(** ** Numbers in a query *)

Definition is_space (c : ascii) : bool := (code c =? 32) || ((9 <=? code c) && (code c <=? 13)).
Definition is_digit (c : ascii) : bool := (48 <=? code c) && (code c <=? 57).

Fixpoint skip_spaces (s : string) : string :=
  match s with String c s' => if is_space c then skip_spaces s' else s | EmptyString => s end.

Fixpoint digits (s : string) (acc : Z) : Z :=
  match s with
  | String c s' => if is_digit c then digits s' (10 * acc + (code c - 48)) else acc
  | EmptyString => acc
  end.

(** C [atoi]: a value outside [int] is undefined. *)
Definition atoi (s : string) : option Z :=
  let s := skip_spaces s in
  let '(neg, s) := match s with
                   | String c s' => if code c =? 45 then (true, s')
                                    else if code c =? 43 then (false, s') else (false, s)
                   | EmptyString => (false, s)
                   end in
  let v := if neg : bool then - digits s 0 else digits s 0 in
  if (- 2 ^ 31 <=? v) && (v <? 2 ^ 31) then Some v else None.

(** The tokens [strtok_r(str, sep)] returns one after the other. *)
Fixpoint strtok (sep : ascii) (s cur : string) : list string :=
  match s with
  | EmptyString => if String.eqb cur EmptyString then [] else [cur]
  | String c s' =>
      if Ascii.eqb c sep then
        if String.eqb cur EmptyString then strtok sep s' EmptyString
        else cur :: strtok sep s' EmptyString
      else strtok sep s' (cur ++ String c EmptyString)
  end.

(** The value of a query that is inside the string. *)
Definition query_value (query : string) (it : OicParseQueryIter_t) : option string :=
  if Z.of_nat (valPos it) + valLen it <=? strlen query
  then Some (str_take (Z.to_nat (valLen it)) (str_drop (valPos it) query)) else None.

(** The identifiers of a value, converted and put in front of [acc]. *)
Fixpoint prepend_ids (tokens : list string) (acc : list Z) : option (list Z) :=
  match tokens with
  | [] => Some acc
  | t :: tokens' => n ← atoi t; prepend_ids tokens' (u16 n :: acc)
  end.

(** [GetAceIdsFromQueryString] and [GetCredIdsFromQueryString]: an empty value ends
    the search; nothing found is the empty list. *)
Fixpoint ids_from (name query : string) (its : list OicParseQueryIter_t) (acc : list Z) :
    option (list Z) :=
  match its with
  | [] => Some acc
  | it :: its' =>
      if attr_is query it name then
        if valLen it =? 0 then Some acc
        else
          v ← query_value query it;
          acc' ← prepend_ids (strtok "," v EmptyString) acc;
          ids_from name query its' acc'
      else ids_from name query its' acc
  end.

(** The first query named [name] decides. *)
Definition first_query (name query : string) (its : list OicParseQueryIter_t) :
    option OicParseQueryIter_t :=
  List.find (fun it => attr_is query it name) its.

Section queries.
Context {CT : CoapTokens}.

Definition GetAceIdsFromQueryString (query : string) : option (list Z) :=
  ids_from OIC_JSON_ACEID_NAME query (ParseQueryIterInit query) [].
Definition GetCredIdsFromQueryString (query : string) : option (list Z) :=
  ids_from OIC_JSON_CREDID_NAME query (ParseQueryIterInit query) [].

(** [GetSubjectFromQueryString] of the access control lists: the value is copied
    into a zeroed buffer, which a value as long as the buffer leaves without an
    end.  The outer option is undefined behaviour. *)
Definition GetSubjectFromQueryString (query : string) : option (option OicUuid_t) :=
  match first_query OIC_JSON_SUBJECTID_NAME query (ParseQueryIterInit query) with
  | None => Some None
  | Some it =>
      if valLen it =? 0 then Some None
      else if STRING_UUID_SIZE <? valLen it then Some None
      else if STRING_UUID_SIZE =? valLen it then None
      else
        v ← query_value query it;
        '(r, u) ← ConvertStrToUuid v THE_NIL_UUID;
        Some (if is_ok r then Some u else None)
  end.

(** The same of the credentials, where the query string itself is cut off. *)
Definition CredSubjectFromQueryString (query : string) : option (option OicUuid_t) :=
  match first_query OIC_JSON_SUBJECTID_NAME query (ParseQueryIterInit query) with
  | None => Some None
  | Some it =>
      if valLen it =? 0 then Some None
      else
        v ← query_value query it;
        '(r, u) ← ConvertStrToUuid v THE_NIL_UUID;
        Some (if is_ok r then Some u else None)
  end.

(** The value is copied to the end of the query, not to its own. *)
Definition GetResourceFromQueryString (query : string) : option string :=
  match first_query OIC_JSON_RESOURCES_NAME query (ParseQueryIterInit query) with
  | None => None
  | Some it => if valLen it =? 0 then None
               else Some (str_take (MAX_URI_LENGTH - 1) (str_drop (valPos it) query))
  end.

End queries.

Section handlers.
Context {L : CborLib} {W : Type} {ST : Storage W} {P : Platform W} {CT : CoapTokens}
  {U : UtList}.
Implicit Type s : SVR W.

(** ** Access control lists: POST *)

(** Entries are compared with the list as it is extended. *)
Fixpoint post_aces (new l : list OicSecAce_t) : option (list OicSecAce_t) :=
  match new with
  | [] => Some l
  | ace :: new' =>
      dup ← same_as_any ace l;
      post_aces new' (if dup : bool then l else fst (DuplicateACE 0 ace false) :: l)
  end.

(** An entry with an identifier replaces the first that has it; one without gets
    the next free identifier. *)
Fixpoint post_aces2 (new l : list OicSecAce_t) (freeId : Z) : list OicSecAce_t * Z :=
  match new with
  | [] => (l, freeId)
  | ace :: new' =>
      let useNewAceId := a_aceid ace =? 0 in
      let l := if useNewAceId then l else fst (remove_id (a_aceid ace) l) in
      let '(insertAce, freeId) := DuplicateACE freeId ace useNewAceId in
      post_aces2 new' (insertAce :: l) freeId
  end.

(** Both handlers up to the insertion, which is [install]; a payload that cannot
    be read changes nothing and is answered with success. *)
Definition post_acl (install : OicSecAcl_t -> OicSecAcl_t -> M (SVR W) unit) (req : request) :
    M (SVR W) OCEntityHandlerResult :=
  let! dos := GetDos in
  match dos with
  | None => ret OC_EH_INTERNAL_SERVER_ERROR
  | Some (state, _) =>
      if (DOS_RESET =? state) || (DOS_RFNOP =? state) then ret OC_EH_NOT_ACCEPTABLE
      else
        match req_payload req with
        | None => ret OC_EH_ERROR
        | Some payload =>
            let! version := demand (AclVersionCheck payload) in
            if bool_decide (default OIC_SEC_ACL_V1 version = OIC_SEC_ACL_V1)
            then ret OC_EH_NOT_ACCEPTABLE
            else
              let! newAcl := decode_acl payload in
              let! g := gets gAcl in
              match newAcl, g with
              | Some newAcl, Some g =>
                  install newAcl g ;;;
                  let! ownerRes := SetAclRownerId (Some (acl_rownerID newAcl)) in
                  ret (match ownerRes with
                       | OC_STACK_OK | OC_STACK_NO_RESOURCE => OC_EH_OK
                       | _ => OC_EH_ERROR
                       end)
              | _, _ => ret OC_EH_OK
              end
        end
  end.

Definition install_aces (newAcl g : OicSecAcl_t) : M (SVR W) unit :=
  let! l := demand (post_aces (aces newAcl) (aces g)) in modify (update_aces l).

Definition install_aces2 (newAcl g : OicSecAcl_t) : M (SVR W) unit :=
  let! freeId := gets gAceFreeId in
  let '(l, freeId) := post_aces2 (aces newAcl) (aces g) freeId in
  modify (fun s => with_free_id freeId (update_aces l s)).

Definition HandleACLPostRequest (req : request) : M (SVR W) OCEntityHandlerResult :=
  let! ehRet := post_acl install_aces req in respond ehRet [].
Definition HandleACL2PostRequest (req : request) : M (SVR W) OCEntityHandlerResult :=
  let! ehRet := post_acl install_aces2 req in respond ehRet [].

(** ** DELETE *)

(** Nothing to delete is a success. *)
Definition delete_acl (req : request) : M (SVR W) OCEntityHandlerResult :=
  match req_query req with
  | None => ret OC_EH_ERROR
  | Some query =>
      let! dos := GetDos in
      match dos with
      | None => ret OC_EH_ERROR
      | Some (state, _) =>
          if (DOS_RESET =? state) || (DOS_RFNOP =? state) then ret OC_EH_NOT_ACCEPTABLE
          else
            let! aceIdList := demand (GetAceIdsFromQueryString query) in
            let! r :=
              match aceIdList with
              | _ :: _ => RemoveAceByAceIds aceIdList
              | [] =>
                  let! subject := demand (GetSubjectFromQueryString query) in
                  match subject with
                  | Some u =>
                      RemoveACE u (match GetResourceFromQueryString query with
                                   | Some EmptyString => None | r => r end)
                  | None => RemoveAllAce (Some OIC_RSRC_TYPE_SEC_ACE2)
                  end
              end in
            ret (match r with OC_STACK_RESOURCE_DELETED => OC_EH_RESOURCE_DELETED | _ => OC_EH_OK end)
      end
  end.

Definition HandleACLDeleteRequest (req : request) : M (SVR W) OCEntityHandlerResult :=
  let! ehRet := delete_acl req in respond ehRet [].

(** ** GET *)

(** Some resource of the entry is [resource] or the wildcard; an entry's resource
    without [href] is a null dereference. *)
Fixpoint names_resource (resource : string) (l : list OicSecRsrc_t) : option bool :=
  match l with
  | [] => Some false
  | r :: l' =>
      h ← r_href r;
      if String.eqb h resource || String.eqb WILDCARD_RESOURCE_URI h then Some true
      else names_resource resource l'
  end.

(** The entries from the first that matches to the end of the list: the encoder
    follows the links of the entry it is given. *)
Fixpoint matching_aces (subject : OicUuid_t) (resource : string) (l : list OicSecAce_t) :
    option (list OicSecAce_t) :=
  match l with
  | [] => Some []
  | ace :: l' =>
      if has_uuid subject ace then
        hit ← (if String.eqb resource EmptyString then Some true
               else names_resource resource (a_resources ace));
        if hit : bool then Some l else matching_aces subject resource l'
      else matching_aces subject resource l'
  end.

Definition acl_payload (query : option string) : M (SVR W) (option (list Z)) :=
  let! subject := match query with
                  | Some q => demand (GetSubjectFromQueryString q)
                  | None => ret None
                  end in
  let! g := gets gAcl in
  match query, subject with
  | Some q, Some u =>
      let resource := default EmptyString (GetResourceFromQueryString q) in
      match g with
      | None => ret None
      | Some g =>
          let! l := demand (matching_aces u resource (aces g)) in
          match l with [] => ret None | _ :: _ => encode_acl (mk_acl (acl_rownerID g) l) end
      end
  | _, _ => match g with Some a => encode_acl a | None => ret None end
  end.

Definition HandleACLGetRequest (req : request) : M (SVR W) OCEntityHandlerResult :=
  let! payload := acl_payload (req_query req) in
  match payload with
  | Some b => respond OC_EH_OK b
  | None => respond OC_EH_ERROR []
  end.

Definition acl_handler (post : request -> M (SVR W) OCEntityHandlerResult) (flag : bool)
    (req : request) : M (SVR W) OCEntityHandlerResult :=
  if flag then
    match req_method req with
    | OC_REST_GET => HandleACLGetRequest req
    | OC_REST_POST => post req
    | OC_REST_DELETE => HandleACLDeleteRequest req
    | _ => respond OC_EH_ERROR []
    end
  else ret OC_EH_ERROR.

Definition ACLEntityHandler := acl_handler HandleACLPostRequest.
Definition ACL2EntityHandler := acl_handler HandleACL2PostRequest.

(** ** Credentials: POST *)

(** The private data of the owner's credential is the key both sides derive; false
    when it cannot be or is not for a symmetric pair. *)
Definition FillPrivateDataOfOwnerPSK (receivedCred : OicSecCred_t) (d : OicSecDoxm_t) :
    M (SVR W) (OicSecCred_t * bool) :=
  match GetOxmString (d_oxmSel d) with
  | None => ret (receivedCred, false)
  | Some oxmLabel =>
      let! psk := gets (fun s => generate_owner_psk oxmLabel (d_owner d) (d_deviceID d) (world s)) in
      match psk with
      | None => ret (receivedCred, false)
      | Some ownerPSK =>
          let e := k_encoding (c_privateData receivedCred) in
          let data :=
            if OIC_ENCODING_RAW =? e then Some (ownerPSK, Z.of_nat OWNER_PSK_LENGTH_128)
            else if OIC_ENCODING_BASE64 =? e then
              b64 ← mbedtls_base64_encode (W:=W) ownerPSK;
              Some (b64 ++ [0], Z.of_nat (List.length b64))
            else None in
          match data with
          | None => ret (receivedCred, false)
          | Some (bytes, len) =>
              ret (mk_cred (c_credId receivedCred) (c_subject receivedCred) (c_roleId receivedCred)
                     (c_credType receivedCred) (c_publicData receivedCred)
                     (c_credUsage receivedCred) (c_optionalData receivedCred)
                     (mk_key (Some bytes) len e) (c_period receivedCred) (c_rownerID receivedCred),
                   bool_decide (c_subject receivedCred = d_owner d) &&
                   (c_credType receivedCred =? SYMMETRIC_PAIR_WISE_KEY))
          end
      end
  end.

Definition changed_if (ok : bool) : OCEntityHandlerResult := if ok then OC_EH_CHANGED else OC_EH_ERROR.

(** The calls up to the first that fails. *)
Fixpoint all_calls (cs : list ext_call) : M (SVR W) bool :=
  match cs with
  | [] => ret true
  | c :: cs' => let! ok := call c in if ok : bool then all_calls cs' else ret false
  end.

(** The session's handlers are put back once the owner's credential is there. *)
Definition revert_handlers (oxmSel : Z) : M (SVR W) OCEntityHandlerResult :=
  let! ok1 :=
    if OIC_RANDOM_DEVICE_PIN =? oxmSel then
      call (SetUuidForPinBasedOxm THE_NIL_UUID) ;;; call CAregisterPskCredentialsHandler
    else ret true in
  if negb ok1 then ret OC_EH_ERROR
  else
    let! ok2 :=
      if OIC_MANUFACTURER_CERTIFICATE =? oxmSel
      then all_calls [CAregisterPkixInfoHandler; CAregisterIdentityHandler;
                      CAregisterGetCredentialTypesHandler]
      else ret true in
    if negb ok2 then ret OC_EH_ERROR
    else
      let! ok3 := call (CAEnableAnonECDHCipherSuite false) in
      let! ok4 := call (CASelectCipherSuite ECDHE_PSK_WITH_AES_128_CBC_SHA256 CA_ADAPTER_IP) in
      ret (changed_if (ok3 && ok4)).

(** The result, and whether the credential was linked into the list. *)
Definition HandleNewCredential (cred : OicSecCred_t) :
    M (SVR W) (OCEntityHandlerResult * bool) :=
  let! d := gets doxm in
  let owner := match d with
               | Some d => negb (NO_SECURITY_MODE =? c_credType cred) && negb (d_owned d) &&
                           negb (bool_decide (d_owner d = THE_NIL_UUID)) &&
                           bool_decide (d_owner d = c_subject cred)
               | None => false
               end in
  match d, owner with
  | Some d, true =>
      if c_credType cred =? SYMMETRIC_PAIR_WISE_KEY then
        let! (cred, ok) := FillPrivateDataOfOwnerPSK cred d in
        if ok : bool then
          RemoveCredential (c_subject cred) ;;;
          let! r := AddCredential cred in
          if is_ok r then let! ehRet := revert_handlers (d_oxmSel d) in ret (ehRet, true)
          else ret (OC_EH_ERROR, true)
        else ret (OC_EH_ERROR, false)
      else ret (OC_EH_ERROR, false)
  | _, _ =>
      if IsEmptyCred cred then let! ok := store_cred in ret (changed_if ok, false)
      else let! r := AddCredential cred in ret (changed_if (is_ok r), true)
  end.

Fixpoint repeat_remove (n : nat) (subject : OicUuid_t) : M (SVR W) unit :=
  match n with
  | O => ret tt
  | S n' => RemoveCredential subject ;;; repeat_remove n' subject
  end.

(** [first] is the head of the received list and [n] how many of it were handled.
    A failure frees the received list although credentials that were [linked] are
    part of the device's own: their memory is used after that, which is
    undefined.  Otherwise the first one's subject is removed [n] times. *)
Fixpoint add_credentials (first : OicUuid_t) (n : nat) (linked : bool)
    (creds : list OicSecCred_t) : M (SVR W) OCEntityHandlerResult :=
  match creds with
  | [] => ret OC_EH_CHANGED
  | newCred :: creds' =>
      let! (ehRet, added) := HandleNewCredential newCred in
      match ehRet with
      | OC_EH_CHANGED => add_credentials first (S n) (linked || added) creds'
      | _ => if linked || added then undefined else repeat_remove n first ;;; ret ehRet
      end
  end.

(** The new owner of the resource is not stored. *)
Definition post_cred (req : request) : M (SVR W) OCEntityHandlerResult :=
  let! dos := GetDos in
  match dos with
  | None => ret OC_EH_INTERNAL_SERVER_ERROR
  | Some (state, _) =>
      if (DOS_RESET =? state) || (DOS_RFNOP =? state) then ret OC_EH_NOT_ACCEPTABLE
      else
        let! creds := demand (match req_payload req with
                              | Some b => CBORPayloadToCred b | None => fails end) in
        match creds with
        | Some ((first :: _) as creds, rownerId) =>
            let! ehRet := add_credentials (c_subject first) 0 false creds in
            match ehRet, rownerId with
            | OC_EH_CHANGED, Some u => modify (with_rowner u)
            | _, _ => ret tt
            end ;;;
            ret ehRet
        | _ => ret OC_EH_INTERNAL_SERVER_ERROR
        end
  end.

Definition HandlePostRequest (req : request) : M (SVR W) OCEntityHandlerResult :=
  let! ehRet := post_cred req in respond ehRet [].

(** ** Credentials: GET and DELETE *)

Definition HandleGetRequest (req : request) : M (SVR W) OCEntityHandlerResult :=
  let! cred := gets gCred in
  let! owner := gets gRownerId in
  let! b := demand (CredToCBORPayloadWithRowner cred owner (response_size cred) true) in
  match b with
  | Some payload => respond OC_EH_OK payload
  | None => respond OC_EH_ERROR []
  end.

Definition delete_cred (query : string) : M (SVR W) OCEntityHandlerResult :=
  let! dos := GetDos in
  match dos with
  | None => ret OC_EH_ERROR
  | Some (state, _) =>
      if (DOS_RESET =? state) || (DOS_RFNOP =? state) then ret OC_EH_NOT_ACCEPTABLE
      else
        let! credIdList := demand (GetCredIdsFromQueryString query) in
        match credIdList with
        | _ :: _ =>
            let! r := RemoveCredentialByCredIds credIdList in
            ret (match r with OC_STACK_RESOURCE_DELETED => OC_EH_RESOURCE_DELETED | _ => OC_EH_ERROR end)
        | [] =>
            let! subject := demand (CredSubjectFromQueryString query) in
            match subject with
            | Some u =>
                let! r := RemoveCredential u in
                ret (match r with OC_STACK_RESOURCE_DELETED => OC_EH_RESOURCE_DELETED
                     | _ => OC_EH_ERROR end)
            | None =>
                let! r := RemoveAllCredentials in
                ret (if is_ok r then OC_EH_RESOURCE_DELETED else OC_EH_ERROR)
            end
        end
  end.

(** A request without query gets no response. *)
Definition HandleDeleteRequest (req : request) : M (SVR W) OCEntityHandlerResult :=
  match req_query req with
  | None => ret OC_EH_ERROR
  | Some query => let! ehRet := delete_cred query in respond ehRet []
  end.

Definition CredEntityHandler (flag : bool) (req : request) : M (SVR W) OCEntityHandlerResult :=
  if flag then
    match req_method req with
    | OC_REST_GET => HandleGetRequest req
    | OC_REST_PUT | OC_REST_POST => HandlePostRequest req
    | OC_REST_DELETE => HandleDeleteRequest req
    | OC_REST_OTHER => respond OC_EH_ERROR []
    end
  else ret OC_EH_ERROR.

End handlers.

(** ** Properties *)

Definition with_id (id : Z) (l : list OicSecAce_t) : option OicSecAce_t :=
  List.find (fun ace => a_aceid ace =? id) l.

(** The copy that is put into the list of an entry that has an identifier. *)
Definition copy_ace (ace : OicSecAce_t) : OicSecAce_t := fst (DuplicateACE 0 ace false).

Lemma with_id_remove id id' l : id <> id' -> with_id id (fst (remove_id id' l)) = with_id id l.
Proof.
  intros Hne. induction l as [|ace l IH]; [done|]. cbn [remove_id].
  destruct (Z.eqb_spec (a_aceid ace) id') as [E|E].
  - unfold with_id. cbn [fst List.find]. by rewrite E, (proj2 (Z.eqb_neq _ _)).
  - destruct (remove_id id' l) as [rest removed]. unfold with_id in *. cbn [fst List.find] in *.
    by destruct (a_aceid ace =? id).
Qed.

Lemma remove_id_ids id l : NoDup (a_aceid <$> l) ->
  NoDup (a_aceid <$> fst (remove_id id l)) /\ id ∉ a_aceid <$> fst (remove_id id l) /\
  (forall i, i ∈ a_aceid <$> fst (remove_id id l) -> i ∈ a_aceid <$> l).
Proof.
  induction l as [|ace l IH]; cbn [remove_id fst]; rewrite ?fmap_cons, ?NoDup_cons.
  { intros _. split_and!; [apply NoDup_nil_2|apply not_elem_of_nil|done]. }
  intros [Hn Hl]. destruct (Z.eqb_spec (a_aceid ace) id) as [<-|E].
  { cbn [fst]. split_and!; [done..|]. intros i Hi. by constructor. }
  destruct (IH Hl) as (H1 & H2 & H3). destruct (remove_id id l) as [rest removed]. cbn [fst] in *.
  rewrite fmap_cons, NoDup_cons, not_elem_of_cons. split_and!; auto.
  intros i. rewrite !elem_of_cons. naive_solver.
Qed.

Lemma post_aces2_lookup new : Forall (fun ace => a_aceid ace <> 0) new -> forall l freeId,
  snd (post_aces2 new l freeId) = freeId /\
  (forall id, with_id id (fst (post_aces2 new l freeId))
              = with_id id ((copy_ace <$> rev new) ++ l)) /\
  (NoDup (a_aceid <$> l) -> NoDup (a_aceid <$> fst (post_aces2 new l freeId))).
Proof.
  induction 1 as [|ace new Hace _ IH]; intros l freeId; [done|]. cbn [post_aces2].
  rewrite (proj2 (Z.eqb_neq _ _)) by done. unfold DuplicateACE. fold (copy_ace ace).
  set (c := mk_ace _ _ _ _ _). destruct (IH (c :: fst (remove_id (a_aceid ace) l)) freeId)
    as (H1 & H2 & H3). split; [done|]. split.
  - intros id. rewrite H2. cbn [rev]. rewrite fmap_app, <- app_assoc. unfold with_id.
    generalize (copy_ace <$> rev new). intros front.
    induction front as [|x front IHf]; cbn [app List.find]; [|by destruct (a_aceid x =? id)].
    cbn [fmap list_fmap app List.find]. change (copy_ace ace) with c.
    destruct (Z.eqb_spec (a_aceid c) id) as [E|E]; [done|].
    apply with_id_remove. intros ->. by apply E.
  - intros Hl. apply H3. destruct (remove_id_ids (a_aceid ace) l Hl) as (R1 & R2 & _).
    rewrite fmap_cons. by constructor.
Qed.

(** C11: Posting entries that have identifiers: each takes the place of the entry with
    its identifier, the last of several wins, every other entry is found as before,
    and identifiers stay distinct.  No other resource changes. *)
Theorem acl2_post_replaces {W} new g (s : SVR W) : gAcl s = Some g ->
  Forall (fun ace => a_aceid ace <> 0) (aces new) ->
  exists l s', install_aces2 new g s = Some (tt, s') /\ gAcl s' = Some (set_aces l g) /\
    (forall id, with_id id l = with_id id ((copy_ace <$> rev (aces new)) ++ aces g)) /\
    (NoDup (a_aceid <$> aces g) -> NoDup (a_aceid <$> l)) /\
    gAceFreeId s' = gAceFreeId s /\ pstat s' = pstat s /\ doxm s' = doxm s /\ gCred s' = gCred s.
Proof.
  intros Hg Hn. unfold install_aces2, bind, gets, modify.
  destruct (post_aces2_lookup (aces new) Hn (aces g) (gAceFreeId s)) as (H1 & H2 & H3).
  destruct (post_aces2 (aces new) (aces g) (gAceFreeId s)) as [l freeId].
  cbn [fst snd] in *. subst freeId. exists l. eexists. split; [done|].
  unfold update_aces. cbn [gAcl with_free_id with_acl]. rewrite Hg. by split_and!.
Qed.

(** The counter of free identifiers knows nothing of identifiers that clients give:
    two entries can end up with the same one. *)
Lemma free_id_collides a b : a_aceid a = 6 -> a_aceid b = 0 ->
  a_aceid <$> fst (post_aces2 [a; b] [] 6) = [6; 6].
Proof. intros Ha Hb. cbn [post_aces2]. rewrite Ha. cbn. rewrite Hb. cbn. by rewrite Ha. Qed.

End AclCredHandlers.
