(* ===== verification/PolicyEngine.v ===== *)
(** * The policy engine ([sec/authorization/policyengine.c])

    Decides whether a request may be passed on to the resource it names: access
    that the onboarding state and the owners of the security resources give
    implicitly, and otherwise the entries of the access control list. *)

From S2P Require Import Prelude.
From S2P Require Import Status.
From S2P Require Import CString.
From S2P Require Import SrmUtility.
From S2P Require Import Calendar.
From S2P Require Import Svr.
From S2P Require Import Pstat.
From S2P Require Import Doxm.
From S2P Require Import AclCodec.
From S2P Require Import Acl.
From S2P Require Import Cred.
From S2P Require Import AclCredHandlers.
Import CString SrmUtility Calendar Svr Pstat Doxm AclCodec Acl Cred AclCredHandlers.

Module PolicyEngine.

Open Scope m_scope.

(** ** Responses, permissions and the request context *)

Definition ACCESS_GRANTED_DEF : Z := Z.shiftl 1 0.
Definition ACCESS_DENIED_DEF : Z := Z.shiftl 1 1.
Definition ACCESS_GRANTED : Z := ACCESS_GRANTED_DEF.
Definition ACCESS_DENIED : Z := ACCESS_DENIED_DEF.
Definition ACCESS_DENIED_INVALID_PERIOD : Z := Z.lor ACCESS_DENIED_DEF INVALID_PERIOD_DEF.
Definition ACCESS_DENIED_INSUFFICIENT_PERMISSION : Z :=
  Z.lor ACCESS_DENIED_DEF INSUFFICIENT_PERMISSION_DEF.
Definition ACCESS_DENIED_SUBJECT_NOT_FOUND : Z := Z.lor ACCESS_DENIED_DEF SUBJECT_NOT_FOUND_DEF.
Definition ACCESS_DENIED_RESOURCE_NOT_FOUND : Z :=
  Z.lor ACCESS_DENIED_DEF RESOURCE_NOT_FOUND_DEF.
Definition ACCESS_DENIED_POLICY_ENGINE_ERROR : Z :=
  Z.lor ACCESS_DENIED_DEF POLICY_ENGINE_ERROR_DEF.

Definition IsAccessGranted (response : Z) : bool := ACCESS_GRANTED =? Z.land response ACCESS_GRANTED.

Definition PERMISSION_ERROR : Z := 0.
Definition PERMISSION_CREATE : Z := Z.shiftl 1 0.
Definition PERMISSION_NOTIFY : Z := Z.shiftl 1 4.
Definition PERMISSION_FULL_CONTROL : Z :=
  fold_left Z.lor [PERMISSION_READ; PERMISSION_WRITE; PERMISSION_DELETE; PERMISSION_NOTIFY]
    PERMISSION_CREATE.

(** The method of a request; any other code is [CA_OTHER]. *)
Inductive CAMethod_t : Type := CA_GET | CA_POST | CA_PUT | CA_DELETE | CA_OTHER.

Definition GetPermissionFromCAMethod_t (method : CAMethod_t) : Z :=
  match method with
  | CA_GET => PERMISSION_READ
  | CA_POST => PERMISSION_WRITE
  | CA_PUT => PERMISSION_CREATE
  | CA_DELETE => PERMISSION_DELETE
  | CA_OTHER => PERMISSION_FULL_CONTROL
  end.

Inductive OicSecSvrType_t : Type :=
| OIC_RESOURCE_TYPE_ERROR | OIC_R_ACL_TYPE | OIC_R_AMACL_TYPE | OIC_R_CRED_TYPE
| OIC_R_CRL_TYPE | OIC_R_DOXM_TYPE | OIC_R_DPAIRING_TYPE | OIC_R_PCONF_TYPE
| OIC_R_PSTAT_TYPE | OIC_R_SACL_TYPE | OIC_R_SVC_TYPE | OIC_R_CSR_TYPE | OIC_R_ACL2_TYPE
| OIC_R_ROLES_TYPE | OIC_R_SP_TYPE | NOT_A_SVR_RESOURCE.
#[export] Instance svr_type_eq_dec : EqDecision OicSecSvrType_t.
Proof. solve_decision. Defined.

Inductive OicSecDiscoverable_t : Type :=
| DISCOVERABLE_NOT_KNOWN | DISCOVERABLE_TRUE | DISCOVERABLE_FALSE.
#[export] Instance discoverable_eq_dec : EqDecision OicSecDiscoverable_t.
Proof. solve_decision. Defined.

Inductive SubjectIdentityType_t : Type :=
| SUBJECT_ID_TYPE_ERROR | SUBJECT_ID_TYPE_UUID | SUBJECT_ID_TYPE_ROLE.
#[export] Instance subject_type_eq_dec : EqDecision SubjectIdentityType_t.
Proof. solve_decision. Defined.

(** The parts of an endpoint and of a request that are looked at. *)
Record CAEndpoint_t : Type := mk_endpoint { ep_flags : Z; ep_addr : string; ep_port : Z }.
Record CARequestInfo_t : Type := mk_requestInfo {
  ri_method : CAMethod_t; ri_resourceUri : option string; ri_identity : list Z }.

(** [SRMRequestContext_t]; of the response only the result code. *)
Record SRMRequestContext_t : Type := mk_ctx {
  endPoint : option CAEndpoint_t;
  resourceType : OicSecSvrType_t;
  resourceUri : string;
  requestedPermission : Z;
  responseResult : Z;
  responseSent : bool;
  responseVal : Z;
  requestInfo : option CARequestInfo_t;
  resourceIsOcSecure : bool;
  resourceIsOcNonsecure : bool;
  secureChannel : bool;
  slowResponseSent : bool;
  discoverable : OicSecDiscoverable_t;
  subjectIdType : SubjectIdentityType_t;
  subjectUuid : OicUuid_t }.

Definition set_responseVal (v : Z) (c : SRMRequestContext_t) : SRMRequestContext_t :=
  mk_ctx (endPoint c) (resourceType c) (resourceUri c) (requestedPermission c)
    (responseResult c) (responseSent c) v (requestInfo c) (resourceIsOcSecure c)
    (resourceIsOcNonsecure c) (secureChannel c) (slowResponseSent c) (discoverable c)
    (subjectIdType c) (subjectUuid c).

(** What the transport and the roles resource know of the peer of a request, and
    [localtime(time(0))]. *)
Class Peers : Type := {
  CAGetSecureEndpointAttributes : CAEndpoint_t -> option Z;
  GetEndpointRoles : option CAEndpoint_t -> option (list OicSecRole_t);
  localTime : tm }.

Definition CA_SECURE_ENDPOINT_ATTRIBUTE_ADMINISTRATOR : Z := 1.

(** ** Matching an entry of the list *)

Section entry.
Context {PR : Peers}.
Implicit Type c : SRMRequestContext_t.

Definition IsPermissionAllowingRequest (permission request : Z) : bool :=
  request =? Z.land request permission.

(** The loop over the recurrences of one validity. *)
Definition any_recurrence (v : OicSecValidity_t) : bool :=
  existsb (fun r => bool_decide
      (IsRequestWithinValidTime localTime (v_period v) (Some r) = IOTVTICAL_VALID_ACCESS))
    (default [] (v_recurrences v)).

Definition IsAccessWithinValidTime (ace : OicSecAce_t) : bool :=
  match a_validities ace with
  | [] => true
  | v :: _ =>
      match v_recurrences v with
      | None => false
      | Some _ => existsb any_recurrence (a_validities ace)
      end
  end.

(** Whether one resource of the entry names the requested one. *)
Definition rsrc_matches c (rsrc : OicSecRsrc_t) : bool :=
  match r_href rsrc with
  | None =>
      negb (bool_decide (r_wildcard rsrc = NO_WILDCARD))
      && IsNonConfigurationResourceUri (Some (resourceUri c))
      && (bool_decide (r_wildcard rsrc = ALL_NCRS)
          || bool_decide (r_wildcard rsrc = ALL_DISCOVERABLE_NCRS_WITH_OC_SECURE)
             && bool_decide (discoverable c = DISCOVERABLE_TRUE) && resourceIsOcSecure c
          || bool_decide (r_wildcard rsrc = ALL_DISCOVERABLE_NCRS_WITH_OC_NONSECURE)
             && bool_decide (discoverable c = DISCOVERABLE_TRUE) && resourceIsOcNonsecure c)
  | Some href => String.eqb (resourceUri c) href || String.eqb WILDCARD_RESOURCE_URI href
  end.

Definition IsResourceInAce c (ace : OicSecAce_t) : bool :=
  existsb (rsrc_matches c) (a_resources ace).

Definition ProcessMatchingACE c (currentAce : OicSecAce_t) : SRMRequestContext_t :=
  if IsResourceInAce c currentAce then
    if IsAccessWithinValidTime currentAce then
      if IsPermissionAllowingRequest (a_permission currentAce) (requestedPermission c) then
        set_responseVal ACCESS_GRANTED c
      else set_responseVal ACCESS_DENIED_INSUFFICIENT_PERMISSION c
    else set_responseVal ACCESS_DENIED_INVALID_PERIOD c
  else set_responseVal ACCESS_DENIED_RESOURCE_NOT_FOUND c.

(** ** Searching the list

    [do { ... } while (NULL != currentAce && !IsAccessGranted(responseVal))]: the
    iterator [next] gives the position of the next entry; a position outside the
    list would be a stray pointer. *)
Fixpoint search (fuel : nat) (next : option nat -> option nat) (l : list OicSecAce_t)
    (aceSavePtr : option nat) c : option SRMRequestContext_t :=
  match fuel with
  | O => None
  | S fuel' =>
      match next aceSavePtr with
      | None => Some c
      | Some i =>
          ace ← l !! i;
          let c := ProcessMatchingACE c ace in
          if IsAccessGranted (responseVal c) then Some c else search fuel' next l (Some i) c
      end
  end.

(** A list of [n] entries is passed at most [n + 1] times. *)
Definition search_all (next : option nat -> option nat) (l : list OicSecAce_t) c :=
  search (S (List.length l)) next l None c.

Definition ProcessAccessRequest (acl : option OicSecAcl_t) c : option SRMRequestContext_t :=
  let l := match acl with Some a => aces a | None => [] end in
  let c := set_responseVal ACCESS_DENIED_SUBJECT_NOT_FOUND c in
  let conntype := if secureChannel c then AUTH_CRYPT else ANON_CLEAR in
  c ← search_all (GetACLResourceDataByConntype acl conntype) l c;
  if IsAccessGranted (responseVal c) then Some c
  else
    c ← search_all (GetACLResourceData acl (subjectUuid c)) l c;
    if IsAccessGranted (responseVal c) then Some c
    else
      match GetEndpointRoles (endPoint c) with
      | None => Some c
      | Some roles => search_all (GetACLResourceDataByRoles acl roles) l c
      end.

End entry.

(** ** Implicit access *)

Section engine.
Context {W : Type} {PR : Peers}.
Implicit Types (s : SVR W) (c : SRMRequestContext_t).

Definition IsRequestFromDevOwner c : M (SVR W) bool :=
  if IsNilUuid (subjectUuid c) then ret false
  else
    let! d := GetDoxmResourceData in
    ret (match d with Some d => UuidCmp (d_owner d) (subjectUuid c) | None => false end).

Definition IsRequestFromOwnershipTransferSession c : bool :=
  match endPoint c with
  | None => false
  | Some e =>
      match CAGetSecureEndpointAttributes e with
      | None => false
      | Some allAttributes =>
          negb (Z.land allAttributes CA_SECURE_ENDPOINT_ATTRIBUTE_ADMINISTRATOR =? 0)
      end
  end.

(** The table of the functions that give the owner of a resource. *)
Definition GetSvrRownerId (t : OicSecSvrType_t) : option (M (SVR W) (option OicUuid_t)) :=
  match t with
  | OIC_R_ACL_TYPE | OIC_R_ACL2_TYPE => Some GetAclRownerId
  | OIC_R_CRED_TYPE => Some (let! u := GetCredRownerId in ret (Some u))
  | OIC_R_DOXM_TYPE => Some GetDoxmRownerId
  | OIC_R_PSTAT_TYPE => Some GetPstatRownerId
  | _ => None
  end.

(** The common part of the tests that compare the subject with an owner. *)
Definition from_owner (getRownerId : M (SVR W) (option OicUuid_t)) c : M (SVR W) bool :=
  if negb (bool_decide (subjectIdType c = SUBJECT_ID_TYPE_UUID)) then ret false
  else if IsNilUuid (subjectUuid c) then ret false
  else
    let! owner := getRownerId in
    ret (match owner with Some o => UuidCmp (subjectUuid c) o | None => false end).

Definition IsRequestFromResourceOwner c : M (SVR W) bool :=
  match GetSvrRownerId (resourceType c) with
  | Some getRownerId => from_owner getRownerId c
  | None => ret false
  end.
Definition IsRequestFromDoxs c : M (SVR W) bool := from_owner GetDoxmRownerId c.
Definition IsRequestFromAms c : M (SVR W) bool := from_owner GetAclRownerId c.
Definition IsRequestFromCms c : M (SVR W) bool :=
  from_owner (let! u := GetCredRownerId in ret (Some u)) c.

(** [if (a && m) k1 else k2] for a test [m] that is evaluated only when [a] holds. *)
Definition test {A} (a : bool) (m : M (SVR W) bool) (k1 k2 : M (SVR W) A) : M (SVR W) A :=
  if a then (let! b := m in if b then k1 else k2) else k2.

Definition not_svr c : bool := bool_decide (resourceType c = NOT_A_SVR_RESOURCE).
Definition type_in (l : list OicSecSvrType_t) c : bool := bool_decide (resourceType c ∈ l).

(** The branches of [CheckPermission] that grant access without the list. *)
Definition test_implicit {A} (state : Z) c (granted otherwise : M (SVR W) A) : M (SVR W) A :=
  test true
    (let! b := IsRequestFromDevOwner c in
     ret (b && ((state =? DOS_RFOTM) || (state =? DOS_SRESET)) && negb (not_svr c)))
    granted
  (test true (IsRequestFromResourceOwner c) granted
  (if negb (state =? DOS_RFNOP) && negb (not_svr c) && IsRequestFromOwnershipTransferSession c
   then granted
   else
     test (type_in [OIC_R_DOXM_TYPE; OIC_R_PSTAT_TYPE; OIC_R_CRED_TYPE; OIC_R_ACL_TYPE] c)
       (IsRequestFromDoxs c) granted
    (test (type_in [OIC_R_PSTAT_TYPE] c) (IsRequestFromAms c) granted
    (test (type_in [OIC_R_PSTAT_TYPE] c) (IsRequestFromCms c) granted
     otherwise)))).

(** The three assertions on the context are the first line. *)
Definition CheckPermission c : M (SVR W) SRMRequestContext_t :=
  demand (if negb (requestedPermission c =? 0)
             && (Z.ldiff (requestedPermission c) PERMISSION_FULL_CONTROL =? 0)
          then Some tt else None) ;;;
  let c := set_responseVal ACCESS_DENIED_POLICY_ENGINE_ERROR c in
  let! dos := GetDos in
  match dos with
  | None => ret c
  | Some (state, _) =>
      if negb (state =? DOS_RFNOP)
         && negb (IsDeviceConfigurationResourceUri (Some (resourceUri c)))
      then ret (set_responseVal ACCESS_DENIED c)
      else
        test_implicit state c (ret (set_responseVal ACCESS_GRANTED c))
          (let! acl := gets gAcl in demand (ProcessAccessRequest acl c))
  end.

End engine.

(** ** The search is a scan of the matching entries, and it ends *)

Section scanning.
Context {PR : Peers}.
Implicit Type c : SRMRequestContext_t.

(** What one entry decides; it does not depend on the earlier verdict. *)
Definition verdict c (ace : OicSecAce_t) : Z :=
  if IsResourceInAce c ace then
    if IsAccessWithinValidTime ace then
      if IsPermissionAllowingRequest (a_permission ace) (requestedPermission c)
      then ACCESS_GRANTED else ACCESS_DENIED_INSUFFICIENT_PERMISSION
    else ACCESS_DENIED_INVALID_PERIOD
  else ACCESS_DENIED_RESOURCE_NOT_FOUND.

(** The verdict of the first entry that grants access, else of the last one,
    else the verdict before. *)
Fixpoint scan c (l : list OicSecAce_t) (v : Z) : Z :=
  match l with
  | [] => v
  | ace :: l' => if IsAccessGranted (verdict c ace) then verdict c ace
                 else scan c l' (verdict c ace)
  end.

Lemma set_responseVal_twice v w c : set_responseVal v (set_responseVal w c) = set_responseVal v c.
Proof. done. Qed.
Lemma set_responseVal_id c : set_responseVal (responseVal c) c = c.
Proof. by destruct c. Qed.

Lemma ProcessMatchingACE_verdict v c ace :
  ProcessMatchingACE (set_responseVal v c) ace = set_responseVal (verdict c ace) c.
Proof.
  unfold ProcessMatchingACE, verdict. cbn [requestedPermission set_responseVal].
  change (IsResourceInAce (set_responseVal v c) ace) with (IsResourceInAce c ace).
  by destruct (IsResourceInAce c ace), (IsAccessWithinValidTime ace),
    (IsPermissionAllowingRequest (a_permission ace) (requestedPermission c)).
Qed.

Lemma search_scan f l c : forall fuel savePtr v,
  (List.length (List.filter f (remaining l savePtr)) < fuel)%nat ->
  search fuel (next_ace f l) l savePtr (set_responseVal v c)
    = Some (set_responseVal (scan c (List.filter f (remaining l savePtr)) v) c).
Proof.
  induction fuel as [|fuel IH]; intros savePtr v Hf; [lia|]. cbn [search].
  pose proof (next_ace_spec f l savePtr) as Hn.
  destruct (next_ace f l savePtr) as [i|]; [|by rewrite Hn].
  destruct Hn as (ace & Hl & _ & Hr). rewrite Hl, Hr. cbn [mbind option_bind scan].
  rewrite ProcessMatchingACE_verdict. cbn [responseVal set_responseVal].
  destruct (IsAccessGranted (verdict c ace)); [done|].
  apply IH. rewrite Hr in Hf. cbn [List.length] in Hf. lia.
Qed.

Lemma filter_length_le {A} (f : A -> bool) l : (List.length (List.filter f l) <= List.length l)%nat.
Proof. induction l as [|x l IH]; simpl; [lia|]. destruct (f x); simpl; lia. Qed.

Lemma search_all_scan f l v c :
  search_all (next_ace f l) l (set_responseVal v c)
    = Some (set_responseVal (scan c (List.filter f l) v) c).
Proof. apply (search_scan f l c _ None v). pose proof (filter_length_le f l). simpl. lia. Qed.

(** The entries by subject, in the order they are tried. *)
Definition channel c : OicSecConntype_t := if secureChannel c then AUTH_CRYPT else ANON_CLEAR.

Definition roles_of c : list OicSecRole_t := default [] (GetEndpointRoles (endPoint c)).

Definition acl_verdict (acl : option OicSecAcl_t) c : Z :=
  let l := match acl with Some a => aces a | None => [] end in
  let v := scan c (List.filter (has_conntype (channel c)) l) ACCESS_DENIED_SUBJECT_NOT_FOUND in
  if IsAccessGranted v then v
  else
    let v := scan c (List.filter (has_uuid (subjectUuid c)) l) v in
    if IsAccessGranted v then v else scan c (List.filter (has_role (roles_of c)) l) v.

Lemma scan_set w c l : forall v, scan (set_responseVal w c) l v = scan c l v.
Proof.
  induction l as [|ace l IH]; intros v; [done|]. cbn [scan].
  change (verdict (set_responseVal w c) ace) with (verdict c ace). by rewrite IH.
Qed.

Lemma acl_verdict_set w acl c : acl_verdict acl (set_responseVal w c) = acl_verdict acl c.
Proof. unfold acl_verdict. by rewrite !scan_set. Qed.

Lemma has_role_nil ace : has_role [] ace = false.
Proof. unfold has_role. by destruct (a_subject ace). Qed.

Lemma filter_false {A} (f : A -> bool) l : (forall x, f x = false) -> List.filter f l = [].
Proof. intros Hf. induction l as [|x l IH]; simpl; [done|]. by rewrite Hf. Qed.

Lemma ProcessAccessRequest_verdict acl c :
  ProcessAccessRequest acl c = Some (set_responseVal (acl_verdict acl c) c).
Proof.
  unfold ProcessAccessRequest, acl_verdict, roles_of.
  change (if secureChannel (set_responseVal ACCESS_DENIED_SUBJECT_NOT_FOUND c)
          then AUTH_CRYPT else ANON_CLEAR) with (channel c).
  destruct acl as [a|]; [|simpl; by destruct (GetEndpointRoles (endPoint c))].
  unfold GetACLResourceDataByConntype, GetACLResourceData, GetACLResourceDataByRoles.
  rewrite search_all_scan. cbn [mbind option_bind responseVal set_responseVal].
  destruct (IsAccessGranted (scan c (List.filter (has_conntype (channel c)) (aces a))
    ACCESS_DENIED_SUBJECT_NOT_FOUND)) eqn:H1; [done|].
  cbn [subjectUuid set_responseVal]. rewrite search_all_scan.
  cbn [mbind option_bind responseVal set_responseVal].
  destruct (IsAccessGranted (scan c (List.filter (has_uuid (subjectUuid c)) (aces a)) _)) eqn:H2;
    [done|]. cbn [endPoint set_responseVal].
  destruct (GetEndpointRoles (endPoint c)) as [[|r roles]|]; cbn [default].
  - by rewrite (filter_false (has_role [])) by apply has_role_nil.
  - by rewrite search_all_scan.
  - by rewrite (filter_false (has_role [])) by apply has_role_nil.
Qed.

(** C3: Whatever the list, the peer and the request, the three loops over the entries
    end and the request gets a verdict: no entry is looked at twice in a loop and
    no pointer outside the list is followed. *)
Theorem ProcessAccessRequest_terminates acl c : exists v,
  ProcessAccessRequest acl c = Some (set_responseVal v c).
Proof. eexists. apply ProcessAccessRequest_verdict. Qed.

(** ** Which requests are granted *)

Lemma verdict_granted c ace : IsAccessGranted (verdict c ace) = true <->
  IsResourceInAce c ace = true /\ IsAccessWithinValidTime ace = true /\
  IsPermissionAllowingRequest (a_permission ace) (requestedPermission c) = true.
Proof.
  unfold verdict. destruct (IsResourceInAce c ace), (IsAccessWithinValidTime ace),
    (IsPermissionAllowingRequest (a_permission ace) (requestedPermission c)); simpl; naive_solver.
Qed.

Lemma scan_granted c l : forall v, IsAccessGranted v = false ->
  IsAccessGranted (scan c l v) = true <->
  exists ace, ace ∈ l /\ IsAccessGranted (verdict c ace) = true.
Proof.
  induction l as [|ace l IH]; intros v Hv; simpl.
  - rewrite Hv. split; [done|]. intros (ace & H & _). by apply not_elem_of_nil in H.
  - destruct (IsAccessGranted (verdict c ace)) eqn:Hg.
    + rewrite Hg. split; [|done]. exists ace. split; [constructor|done].
    + rewrite (IH _ Hg). setoid_rewrite elem_of_cons. split.
      * intros (b & Hb & Hc). eauto.
      * intros (b & [->|Hb] & Hc); [congruence|eauto].
Qed.

Lemma elem_of_filter_bool {A} (f : A -> bool) x l : x ∈ List.filter f l <-> x ∈ l /\ f x = true.
Proof. rewrite !list_elem_of_In. apply filter_In. Qed.

Definition applies c (ace : OicSecAce_t) : bool :=
  has_conntype (channel c) ace || has_uuid (subjectUuid c) ace || has_role (roles_of c) ace.

Lemma acl_verdict_granted acl c : IsAccessGranted (acl_verdict acl c) = true <->
  exists a ace, acl = Some a /\ ace ∈ aces a /\ applies c ace = true /\
    IsAccessGranted (verdict c ace) = true.
Proof.
  assert (H0 : IsAccessGranted ACCESS_DENIED_SUBJECT_NOT_FOUND = false) by done.
  unfold acl_verdict, applies. destruct acl as [a|]; [|naive_solver].
  pose proof (scan_granted c (List.filter (has_conntype (channel c)) (aces a)) _ H0) as S1.
  cbv zeta. destruct (IsAccessGranted (scan c (List.filter (has_conntype (channel c)) (aces a)) _))
    eqn:H1.
  { split; [|done]. intros _. destruct S1 as [S1 _].
    destruct (S1 eq_refl) as (ace & Hin & Hg). apply elem_of_filter_bool in Hin as [Hin Hc].
    exists a, ace. by rewrite Hc. }
  pose proof (scan_granted c (List.filter (has_uuid (subjectUuid c)) (aces a)) _ H1) as S2.
  destruct (IsAccessGranted (scan c (List.filter (has_uuid (subjectUuid c)) (aces a)) _)) eqn:H2.
  { split; [|done]. intros _. destruct S2 as [S2 _].
    destruct (S2 eq_refl) as (ace & Hin & Hg). apply elem_of_filter_bool in Hin as [Hin Hc].
    exists a, ace. by rewrite Hc, orb_true_r. }
  rewrite (scan_granted c _ _ H2). setoid_rewrite elem_of_filter_bool.
  setoid_rewrite elem_of_filter_bool in S1. setoid_rewrite elem_of_filter_bool in S2. split.
  - intros (ace & [Hin Hc] & Hg). exists a, ace. by rewrite Hc, orb_true_r.
  - intros (a' & ace & [= <-] & Hin & Ha & Hg).
    apply orb_prop in Ha as [[Ha|Ha]%orb_prop|Ha]; [| |by eauto].
    + discriminate (proj2 S1). eauto.
    + discriminate (proj2 S2). eauto.
Qed.

End scanning.

(** ** The specification of the reference monitor *)

Section specification.
Context {W : Type} {PR : Peers}.
Implicit Types (s : SVR W) (c : SRMRequestContext_t) (p : OicSecPstat_t).

(** A resource of an entry names the requested one: by its path, by the path [*],
    or by a wildcard for the resources that do not configure the device. *)
Definition names c (rsrc : OicSecRsrc_t) : Prop :=
  match r_href rsrc with
  | Some href => href = resourceUri c \/ href = WILDCARD_RESOURCE_URI
  | None =>
      path (resourceUri c) ∉ svr_uris ++ dcr_uris /\
      match r_wildcard rsrc with
      | NO_WILDCARD => False
      | ALL_NCRS => True
      | ALL_DISCOVERABLE_NCRS_WITH_OC_SECURE =>
          discoverable c = DISCOVERABLE_TRUE /\ resourceIsOcSecure c = true
      | ALL_DISCOVERABLE_NCRS_WITH_OC_NONSECURE =>
          discoverable c = DISCOVERABLE_TRUE /\ resourceIsOcNonsecure c = true
      end
  end.

(** The entry is for the peer: its kind of connection, its identity or a role. *)
Definition about c (ace : OicSecAce_t) : Prop :=
  match a_subject ace with
  | ConntypeSubject t => t = channel c
  | UuidSubject u => u = subjectUuid c
  | RoleSubject r => exists q, q ∈ roles_of c /\ role_id r = role_id q
                               /\ role_authority r = role_authority q
  end.

Definition in_time (ace : OicSecAce_t) : Prop :=
  a_validities ace = [] \/
  (exists v l, a_validities ace = v :: l /\ v_recurrences v <> None) /\
  exists v rs r, v ∈ a_validities ace /\ v_recurrences v = Some rs /\ r ∈ rs /\
    IsRequestWithinValidTime localTime (v_period v) (Some r) = IOTVTICAL_VALID_ACCESS.

Definition permits c (ace : OicSecAce_t) : Prop :=
  forall i, 0 <= i -> Z.testbit (requestedPermission c) i = true ->
    Z.testbit (a_permission ace) i = true.

Definition granted_by_entry s c : Prop :=
  exists a ace, gAcl s = Some a /\ ace ∈ aces a /\ about c ace /\
    (exists rsrc, rsrc ∈ a_resources ace /\ names c rsrc) /\ in_time ace /\ permits c ace.

(** The owner of a security resource. *)
Definition owner_of s (t : OicSecSvrType_t) : option OicUuid_t :=
  match t with
  | OIC_R_ACL_TYPE | OIC_R_ACL2_TYPE => acl_rownerID <$> gAcl s
  | OIC_R_CRED_TYPE => Some (gRownerId s)
  | OIC_R_DOXM_TYPE => d_rownerID <$> doxm s
  | OIC_R_PSTAT_TYPE => p_rownerID <$> pstat s
  | _ => None
  end.

(** The subject may use the resource because of what it owns. *)
Definition granted_to_owner p s c : Prop :=
  subjectUuid c <> THE_NIL_UUID /\
  ((p_state p ∈ [DOS_RFOTM; DOS_SRESET] /\ resourceType c <> NOT_A_SVR_RESOURCE /\
    d_owner <$> doxm s = Some (subjectUuid c)) \/
   subjectIdType c = SUBJECT_ID_TYPE_UUID /\
   (owner_of s (resourceType c) = Some (subjectUuid c) \/
    resourceType c ∈ [OIC_R_DOXM_TYPE; OIC_R_PSTAT_TYPE; OIC_R_CRED_TYPE; OIC_R_ACL_TYPE] /\
      owner_of s OIC_R_DOXM_TYPE = Some (subjectUuid c) \/
    resourceType c = OIC_R_PSTAT_TYPE /\
      (owner_of s OIC_R_ACL_TYPE = Some (subjectUuid c) \/
       owner_of s OIC_R_CRED_TYPE = Some (subjectUuid c)))).

(** The session in which the ownership is being transferred. *)
Definition granted_to_session p c : Prop :=
  p_state p <> DOS_RFNOP /\ resourceType c <> NOT_A_SVR_RESOURCE /\
  IsRequestFromOwnershipTransferSession c = true.

Definition authorized p s c : Prop :=
  (p_state p = DOS_RFNOP \/ path (resourceUri c) ∈ svr_uris ++ dcr_uris) /\
  (granted_to_owner p s c \/ granted_to_session p c \/ granted_by_entry s c).

Definition valid_permission (perm : Z) : Prop :=
  perm <> 0 /\ Z.ldiff perm PERMISSION_FULL_CONTROL = 0.

(** ** The engine implements it *)

Lemma IsDcr_spec uri : IsDeviceConfigurationResourceUri (Some uri) = true <->
  path uri ∈ svr_uris ++ dcr_uris.
Proof.
  unfold IsDeviceConfigurationResourceUri, SRMIsSecurityResourceURI.
  rewrite elem_of_app, <- !uri_in_spec.
  destruct (uri_in uri svr_uris), (uri_in uri dcr_uris); naive_solver.
Qed.

Lemma rsrc_matches_spec c rsrc : rsrc_matches c rsrc = true <-> names c rsrc.
Proof.
  unfold rsrc_matches, names. destruct (r_href rsrc) as [href|].
  - rewrite orb_true_iff, !String.eqb_eq. naive_solver.
  - unfold IsNonConfigurationResourceUri.
    rewrite !andb_true_iff, !orb_true_iff, !andb_true_iff, !negb_true_iff, bool_decide_eq_false,
      !bool_decide_eq_true, <- not_true_iff_false, IsDcr_spec.
    destruct (r_wildcard rsrc); naive_solver.
Qed.

Lemma IsResourceInAce_spec c ace : IsResourceInAce c ace = true <->
  exists rsrc, rsrc ∈ a_resources ace /\ names c rsrc.
Proof.
  unfold IsResourceInAce. rewrite existsb_exists. setoid_rewrite <- list_elem_of_In.
  by setoid_rewrite rsrc_matches_spec.
Qed.

Lemma any_recurrence_spec v : any_recurrence v = true <-> exists rs r,
  v_recurrences v = Some rs /\ r ∈ rs /\
  IsRequestWithinValidTime localTime (v_period v) (Some r) = IOTVTICAL_VALID_ACCESS.
Proof.
  unfold any_recurrence. rewrite existsb_exists. setoid_rewrite <- list_elem_of_In.
  setoid_rewrite bool_decide_eq_true. destruct (v_recurrences v) as [rs|]; simpl.
  - naive_solver.
  - setoid_rewrite elem_of_nil. naive_solver.
Qed.

Lemma IsAccessWithinValidTime_spec ace : IsAccessWithinValidTime ace = true <-> in_time ace.
Proof.
  unfold IsAccessWithinValidTime, in_time. destruct (a_validities ace) as [|v l]; [naive_solver|].
  destruct (v_recurrences v) as [rs|] eqn:Hv.
  - rewrite existsb_exists. setoid_rewrite <- list_elem_of_In.
    setoid_rewrite any_recurrence_spec. split.
    + intros (w & Hw & rs' & r & ?). right. split; [|naive_solver].
      exists v, l. by rewrite Hv.
    + intros [[=]|(_ & w & rs' & r & Hw & ?)]. eauto.
  - split; [done|]. intros [[=]|((w & l' & [= <- <-] & Hw) & _)]. by rewrite Hv in Hw.
Qed.

Lemma IsPermissionAllowingRequest_spec c ace :
  IsPermissionAllowingRequest (a_permission ace) (requestedPermission c) = true <-> permits c ace.
Proof.
  unfold IsPermissionAllowingRequest, permits. rewrite Z.eqb_eq. split.
  - intros H i Hi Hb. rewrite H, Z.land_spec in Hb. by apply andb_prop in Hb as [_ ?].
  - intros H. apply Z.bits_inj'. intros i Hi. rewrite Z.land_spec. specialize (H i Hi).
    destruct (Z.testbit (requestedPermission c) i); [by rewrite H|done].
Qed.

Lemma applies_spec c ace : applies c ace = true <-> about c ace.
Proof.
  unfold applies, about, has_conntype, has_uuid, has_role. destruct (a_subject ace) as [u|r|t];
    rewrite ?orb_true_r, ?orb_false_r; cbn [orb].
  - rewrite bool_decide_eq_true. done.
  - rewrite existsb_exists. setoid_rewrite andb_true_iff. setoid_rewrite String.eqb_eq.
    by setoid_rewrite <- list_elem_of_In.
  - rewrite bool_decide_eq_true. done.
Qed.

Lemma acl_verdict_spec s c : IsAccessGranted (acl_verdict (gAcl s) c) = true <->
  granted_by_entry s c.
Proof.
  rewrite acl_verdict_granted. unfold granted_by_entry.
  setoid_rewrite verdict_granted. setoid_rewrite applies_spec.
  setoid_rewrite IsResourceInAce_spec. setoid_rewrite IsAccessWithinValidTime_spec.
  by setoid_rewrite IsPermissionAllowingRequest_spec.
Qed.

Definition is_owner c (o : option OicUuid_t) : bool :=
  bool_decide (subjectIdType c = SUBJECT_ID_TYPE_UUID) && negb (IsNilUuid (subjectUuid c))
  && match o with Some o => UuidCmp (subjectUuid c) o | None => false end.

Lemma is_owner_spec c o : is_owner c o = true <->
  subjectUuid c <> THE_NIL_UUID /\ subjectIdType c = SUBJECT_ID_TYPE_UUID /\
  o = Some (subjectUuid c).
Proof.
  unfold is_owner. rewrite !andb_true_iff, bool_decide_eq_true, negb_true_iff, IsNilUuid_false.
  destruct o as [o|]; [rewrite UuidCmp_true|]; naive_solver.
Qed.

Lemma from_owner_reads get f c : reads get f ->
  reads (from_owner get c) (fun s => is_owner c (f s)).
Proof.
  intros Hg s. unfold from_owner, is_owner.
  destruct (bool_decide (subjectIdType c = SUBJECT_ID_TYPE_UUID)); [|done].
  destruct (IsNilUuid (subjectUuid c)); [done|]. cbn [negb andb].
  by rewrite (bind_some _ _ s _ _ (Hg s)).
Qed.

Lemma ResourceOwner_reads c :
  reads (IsRequestFromResourceOwner c) (fun s => is_owner c (owner_of s (resourceType c))).
Proof.
  assert (Hn : is_owner c None = false) by (unfold is_owner; by rewrite andb_false_r).
  unfold IsRequestFromResourceOwner. intros s.
  destruct (resourceType c); cbn [GetSvrRownerId]; cbv beta; cbn [owner_of]; rewrite ?Hn;
    first [done
          |exact (from_owner_reads GetAclRownerId (fun s => acl_rownerID <$> gAcl s) c (fun _ => eq_refl) s)
          |exact (from_owner_reads GetDoxmRownerId (fun s => d_rownerID <$> doxm s) c (fun _ => eq_refl) s)
          |exact (from_owner_reads GetPstatRownerId (fun s => p_rownerID <$> pstat s) c (fun _ => eq_refl) s)
          |exact (from_owner_reads _ (fun s => Some (gRownerId s)) c (fun _ => eq_refl) s)].
Qed.

Definition from_dev_owner s c : bool :=
  negb (IsNilUuid (subjectUuid c))
  && match doxm s with Some d => UuidCmp (d_owner d) (subjectUuid c) | None => false end.

Lemma DevOwner_reads c : reads (IsRequestFromDevOwner c) (fun s => from_dev_owner s c).
Proof.
  intros s. unfold IsRequestFromDevOwner, from_dev_owner.
  by destruct (IsNilUuid (subjectUuid c)).
Qed.

Lemma test_reads {A} (a b : bool) (m : M (SVR W) bool) (k1 k2 : M (SVR W) A) s :
  m s = Some (b, s) -> test a m k1 k2 s = (if a && b then k1 else k2) s.
Proof. intros Hm. unfold test. destruct a; [|done]. rewrite (bind_some _ _ _ _ _ Hm). by destruct b. Qed.

(** The six tests as one. *)
Definition implicit (st : Z) s c : bool :=
  from_dev_owner s c && ((st =? DOS_RFOTM) || (st =? DOS_SRESET)) && negb (not_svr c)
  || is_owner c (owner_of s (resourceType c))
  || negb (st =? DOS_RFNOP) && negb (not_svr c) && IsRequestFromOwnershipTransferSession c
  || type_in [OIC_R_DOXM_TYPE; OIC_R_PSTAT_TYPE; OIC_R_CRED_TYPE; OIC_R_ACL_TYPE] c
     && is_owner c (owner_of s OIC_R_DOXM_TYPE)
  || type_in [OIC_R_PSTAT_TYPE] c && is_owner c (owner_of s OIC_R_ACL_TYPE)
  || type_in [OIC_R_PSTAT_TYPE] c && is_owner c (owner_of s OIC_R_CRED_TYPE).

Lemma implicit_spec p s c : implicit (p_state p) s c = true <->
  granted_to_owner p s c \/ granted_to_session p c.
Proof.
  unfold implicit, granted_to_owner, granted_to_session, from_dev_owner, not_svr, type_in.
  rewrite !orb_true_iff, !andb_true_iff, !is_owner_spec, !negb_true_iff, !bool_decide_eq_true,
    bool_decide_eq_false, IsNilUuid_false, orb_true_iff, !Z.eqb_eq, Z.eqb_neq.
  assert (Hd : match doxm s with Some d => UuidCmp (d_owner d) (subjectUuid c) | None => false end
               = true <-> d_owner <$> doxm s = Some (subjectUuid c)).
  { destruct (doxm s) as [d|]; simpl; [rewrite UuidCmp_true|]; split; congruence. }
  assert (Hs : p_state p ∈ [DOS_RFOTM; DOS_SRESET] <->
               p_state p = DOS_RFOTM \/ p_state p = DOS_SRESET) by set_solver.
  rewrite Hd, Hs, !list_elem_of_singleton. tauto.
Qed.

Lemma test_implicit_eq {A} st c s (k1 k2 : M (SVR W) A) :
  test_implicit st c k1 k2 s = (if implicit st s c then k1 else k2) s.
Proof.
  unfold test_implicit, implicit.
  erewrite test_reads by (erewrite bind_some by apply DevOwner_reads; reflexivity).
  destruct (_ && negb (not_svr c)); [done|]; cbn [andb orb].
  erewrite test_reads by apply ResourceOwner_reads. cbn [andb]. destruct (is_owner _ _); [done|]; cbn [andb orb].
  destruct (_ && IsRequestFromOwnershipTransferSession c); [done|]; cbn [andb orb].
  erewrite test_reads by (apply from_owner_reads; intros ?; reflexivity).
  destruct (type_in _ c && _); [done|]; cbn [andb orb].
  erewrite test_reads by (apply from_owner_reads; intros ?; reflexivity).
  destruct (type_in _ c && _); [done|]; cbn [andb orb].
  erewrite test_reads by (apply from_owner_reads; intros ?; reflexivity).
  by destruct (type_in _ c && _).
Qed.

Definition state_allows (st : Z) c : bool :=
  (st =? DOS_RFNOP) || IsDeviceConfigurationResourceUri (Some (resourceUri c)).

(** The verdict as a function of the state. *)
Definition permission_verdict p s c : Z :=
  if state_allows (p_state p) c then
    if implicit (p_state p) s c then ACCESS_GRANTED else acl_verdict (gAcl s) c
  else ACCESS_DENIED.

Lemma CheckPermission_verdict p s c : pstat s = Some p ->
  valid_permission (requestedPermission c) ->
  CheckPermission c s = Some (set_responseVal (permission_verdict p s c) c, s).
Proof.
  intros Hp [H0 Hl]. unfold CheckPermission. rewrite (proj2 (Z.eqb_neq _ _) H0), Hl.
  cbn [negb andb Z.eqb]. rewrite (bind_some _ _ s tt s) by done.
  assert (Hdos : GetDos s = Some (Some (p_state p, p_pending p), s)).
  { unfold GetDos, GetPstatDosS, GetPstatDosP, get_pstat, bind, gets. by rewrite Hp. }
  rewrite (bind_some _ _ _ _ _ Hdos). cbv iota beta.
  unfold permission_verdict, state_allows. cbn [resourceUri set_responseVal].
  destruct (p_state p =? DOS_RFNOP) eqn:Hst,
    (IsDeviceConfigurationResourceUri (Some (resourceUri c))) eqn:Hu; cbn [negb andb orb]; try done;
    rewrite test_implicit_eq;
    change (implicit ?st s (set_responseVal ?v c)) with (implicit st s c);
    (destruct (implicit (p_state p) s c); [done|]);
    rewrite (bind_some _ _ s (gAcl s) s) by done; unfold demand;
    by rewrite ProcessAccessRequest_verdict, acl_verdict_set.
Qed.

(** C2: The policy engine is the reference monitor of the specification: every
    request with a valid permission mask gets a verdict, nothing but the verdict
    changes, and access is granted exactly when the onboarding state lets the
    resource be used and the subject's ownership, the ownership transfer session
    or an entry of the access control list gives the access. *)
Theorem CheckPermission_granted p s c : pstat s = Some p ->
  valid_permission (requestedPermission c) ->
  exists v, CheckPermission c s = Some (set_responseVal v c, s) /\
    (IsAccessGranted v = true <-> authorized p s c).
Proof.
  intros Hp Hv. eexists. split; [by apply CheckPermission_verdict|].
  unfold permission_verdict, authorized, state_allows.
  assert (Hst : ((p_state p =? DOS_RFNOP)
            || IsDeviceConfigurationResourceUri (Some (resourceUri c))) = true <->
          p_state p = DOS_RFNOP \/ path (resourceUri c) ∈ svr_uris ++ dcr_uris)
    by (by rewrite orb_true_iff, Z.eqb_eq, IsDcr_spec).
  pose proof (implicit_spec p s c) as Hi. pose proof (acl_verdict_spec s c) as Ha.
  assert (Hd : IsAccessGranted ACCESS_DENIED = false) by done.
  assert (Hg : IsAccessGranted ACCESS_GRANTED = true) by done.
  destruct (_ || _), (implicit (p_state p) s c); rewrite ?Hd, ?Hg, ?Ha;
    assert (false <> true) by done; tauto.
Qed.

End specification.

End PolicyEngine.
