(* ===== verification/SecureResourceManager.v ===== *)
(** * The security resource manager ([sec/svrs/secureresourcemanager.c])

    The entry point of every request that arrives over the transport: it fills
    in the request context, asks the policy engine, and passes the request on or
    answers it.  The lookup of a resource by its URI is [FindResourceByUri]
    ([ocf/ocresource.c]). *)

From S2P Require Import Prelude.
From S2P Require Import Status.
From S2P Require Import CString.
From S2P Require Import OicString.
From S2P Require Import SrmUtility.
From S2P Require Import Svr.
From S2P Require Import Pstat.
From S2P Require Import AclCredHandlers.
From S2P Require Import PolicyEngine.
Import CString SrmUtility Svr Pstat AclCredHandlers PolicyEngine.

Module SecureResourceManager.

Open Scope m_scope.

(** ** The type of a resource *)

(** [uriLen == svrLen && 0 == strncmp(uri, rsrc, svrLen)], one after the other. *)
Definition svr_types : list (string * OicSecSvrType_t) :=
  [(OIC_RSRC_ACL_URI, OIC_R_ACL_TYPE); (OIC_RSRC_ACL2_URI, OIC_R_ACL2_TYPE);
   (OIC_RSRC_AMACL_URI, OIC_R_AMACL_TYPE); (OIC_RSRC_CRED_URI, OIC_R_CRED_TYPE);
   (OIC_RSRC_CRL_URI, OIC_R_CRL_TYPE); (OIC_RSRC_CSR_URI, OIC_R_CSR_TYPE);
   (OIC_RSRC_SP_URI, OIC_R_SP_TYPE); (OIC_RSRC_DOXM_URI, OIC_R_DOXM_TYPE);
   (OIC_RSRC_PSTAT_URI, OIC_R_PSTAT_TYPE); (OIC_RSRC_ROLES_URI, OIC_R_ROLES_TYPE);
   (OIC_RSRC_SACL_URI, OIC_R_SACL_TYPE)].

Fixpoint type_from (types : list (string * OicSecSvrType_t)) (uri : string) : OicSecSvrType_t :=
  match types with
  | [] => NOT_A_SVR_RESOURCE
  | (rsrc, t) :: types' => if uri_in uri [rsrc] then t else type_from types' uri
  end.

Definition GetSvrTypeFromUri (uri : option string) : OicSecSvrType_t :=
  match uri with None => NOT_A_SVR_RESOURCE | Some u => type_from svr_types u end.

(** ** The environment *)

Definition OC_DISCOVERABLE : Z := Z.shiftl 1 0.
Definition OC_SECURE : Z := Z.shiftl 1 4.
Definition OC_NONSECURE : Z := Z.shiftl 1 6.
Definition CA_SECURE : Z := Z.shiftl 1 4.
Definition CA_UNAUTHORIZED_REQ : Z := 401.
Definition CA_INTERNAL_SERVER_ERROR : Z := 500.

(** The list of resources ([headResource]): URI and properties; and whether the
    transport sends a response. *)
Class Server : Type := {
  headResource : list (string * Z);
  CASendResponse : CAEndpoint_t -> Z -> bool }.

Fixpoint find_resource (resourceUri : string) (pointer : list (string * Z)) : option Z :=
  match pointer with
  | [] => None
  | (uri, properties) :: next =>
      if String.eqb resourceUri uri then Some properties else find_resource resourceUri next
  end.

(** What the manager does to the outside. *)
Inductive event : Type :=
| HandleCARequests (endPoint : CAEndpoint_t) (requestInfo : CARequestInfo_t)
| SendResponse (endPoint : CAEndpoint_t) (result : Z).

Section manager.
Context {W : Type} {PR : Peers} {SV : Server}.
Implicit Types (s : SVR W) (c : SRMRequestContext_t).

Definition FindResourceByUri (resourceUri : string) : option Z :=
  find_resource resourceUri headResource.

(** ** Filling in the context *)

(** The two flags of the resource keep their values. *)
Definition ClearRequestContext c : SRMRequestContext_t :=
  mk_ctx None OIC_RESOURCE_TYPE_ERROR "" PERMISSION_ERROR 0 false
    ACCESS_DENIED_POLICY_ENGINE_ERROR None (resourceIsOcSecure c) (resourceIsOcNonsecure c)
    false false DISCOVERABLE_NOT_KNOWN SUBJECT_ID_TYPE_ERROR THE_NIL_UUID.

Definition IsRequestOverSecureChannel (e : CAEndpoint_t) (idType : SubjectIdentityType_t)
    (subject : OicUuid_t) : bool :=
  if negb (Z.land (ep_flags e) CA_SECURE =? 0) then true
  else bool_decide (idType = SUBJECT_ID_TYPE_UUID) && negb (bool_decide (subject = THE_NIL_UUID)).

(** [OICStrcpyPartial] into the 257 characters of [resourceUri], which are zero
    ([SetResourceUri_copy] below). *)
Definition SetResourceUri (uri : option string) : string * OicSecSvrType_t :=
  match uri with
  | None => (""%string, OIC_RESOURCE_TYPE_ERROR)
  | Some u =>
      let position := upto u "?" in
      if (MAX_URI_LENGTH <? position)%nat then (""%string, OIC_RESOURCE_TYPE_ERROR)
      else
        let uri := str_take position u in (uri, GetSvrTypeFromUri (Some uri))
  end.

Definition SetResourceUriAndType c : SRMRequestContext_t :=
  let '(uri, type) := SetResourceUri (r ← requestInfo c; ri_resourceUri r) in
  mk_ctx (endPoint c) type uri (requestedPermission c) (responseResult c) (responseSent c)
    (responseVal c) (requestInfo c) (resourceIsOcSecure c) (resourceIsOcNonsecure c)
    (secureChannel c) (slowResponseSent c) (discoverable c) (subjectIdType c) (subjectUuid c).

Definition set_resource_flags (sec nonsec : bool) (disc : OicSecDiscoverable_t) c :=
  mk_ctx (endPoint c) (resourceType c) (resourceUri c) (requestedPermission c)
    (responseResult c) (responseSent c) (responseVal c) (requestInfo c) sec nonsec
    (secureChannel c) (slowResponseSent c) disc (subjectIdType c) (subjectUuid c).

Definition has_property (properties bit : Z) : bool := bit =? Z.land properties bit.

Definition SetDiscoverableAndOcSecureFlags c : SRMRequestContext_t :=
  let unknown := set_resource_flags (resourceIsOcSecure c) (resourceIsOcNonsecure c)
                   DISCOVERABLE_NOT_KNOWN c in
  if String.eqb (resourceUri c) "" then unknown
  else
    match FindResourceByUri (resourceUri c) with
    | None => unknown
    | Some properties =>
        set_resource_flags (has_property properties OC_SECURE)
          (has_property properties OC_NONSECURE)
          (if has_property properties OC_DISCOVERABLE then DISCOVERABLE_TRUE
           else DISCOVERABLE_FALSE) c
    end.

(** ** The response *)

Definition set_response (sent : bool) (val result : Z) c : SRMRequestContext_t :=
  mk_ctx (endPoint c) (resourceType c) (resourceUri c) (requestedPermission c) result sent val
    (requestInfo c) (resourceIsOcSecure c) (resourceIsOcNonsecure c) (secureChannel c)
    (slowResponseSent c) (discoverable c) (subjectIdType c) (subjectUuid c).

Definition SRMSendResponse c : SRMRequestContext_t * list event :=
  match requestInfo c, endPoint c with
  | Some _, Some e =>
      let sent := CASendResponse e (responseResult c) in
      (set_response (sent || responseSent c) (responseVal c) (responseResult c) c,
       [SendResponse e (responseResult c)])
  | _, _ => (c, [])
  end.

Definition SRMGenerateResponse c : SRMRequestContext_t * list event :=
  if IsAccessGranted (responseVal c) then
    match endPoint c, requestInfo c with
    | Some e, Some r =>
        (set_response true (responseVal c) (responseResult c) c, [HandleCARequests e r])
    | _, _ =>
        SRMSendResponse
          (set_response (responseSent c) ACCESS_DENIED_POLICY_ENGINE_ERROR
             CA_INTERNAL_SERVER_ERROR c)
    end
  else SRMSendResponse (set_response (responseSent c) (responseVal c) CA_UNAUTHORIZED_REQ c).

(** ** The entry point

    [g] is the one global context; the result is the context afterwards. *)
Definition SRMRequestHandler (endPoint : option CAEndpoint_t)
    (requestInfo : option CARequestInfo_t) (g : SRMRequestContext_t) :
    M (SVR W) (SRMRequestContext_t * list event) :=
  let ctx := ClearRequestContext g in
  match endPoint, requestInfo with
  | Some e, Some r =>
      let subject := take UUID_LENGTH (ri_identity r) in
      let ctx := mk_ctx (Some e) (resourceType ctx) (resourceUri ctx)
        (GetPermissionFromCAMethod_t (ri_method r)) (responseResult ctx) (responseSent ctx)
        (responseVal ctx) (Some r) (resourceIsOcSecure ctx) (resourceIsOcNonsecure ctx)
        (IsRequestOverSecureChannel e SUBJECT_ID_TYPE_UUID subject) (slowResponseSent ctx)
        (discoverable ctx) SUBJECT_ID_TYPE_UUID subject in
      let ctx := SetResourceUriAndType ctx in
      let ctx := SetDiscoverableAndOcSecureFlags ctx in
      let ctx := set_response (responseSent ctx) (responseVal ctx) CA_INTERNAL_SERVER_ERROR ctx in
      let! ctx := CheckPermission ctx in
      ret (SRMGenerateResponse ctx)
  | _, _ => ret (ctx, [])
  end.

(** ** Properties *)

(** The string-level copy is what [OICStrcpyPartial] leaves in the buffer. *)
Lemma SetResourceUri_copy (u srest : list Z) (position : nat) :
  chars u -> (0 < position <= MAX_URI_LENGTH)%nat -> (position <= List.length u)%nat ->
  exists b, OicString.OICStrcpyPartial (Some (replicate (S MAX_URI_LENGTH) 0))
      (Z.of_nat (S MAX_URI_LENGTH)) (Some (u ++ 0 :: srest)) (Z.of_nat position)
    = Some (true, Some (take position u ++ 0 :: b)).
Proof.
  intros Hu Hp Hl. unfold OicString.OICStrcpyPartial.
  rewrite !(proj2 (Z.eqb_neq _ _)) by lia. cbn [orb].
  replace (replicate (S MAX_URI_LENGTH) 0) with ([] ++ 0 :: replicate MAX_URI_LENGTH 0 ++ [])
    by (by rewrite app_nil_r).
  cbn [app]. rewrite store_0. cbn [mbind option_bind].
  rewrite Z.min_r by lia.
  rewrite (OicString.strncat_spec [] u (replicate MAX_URI_LENGTH 0) [] srest);
    [|by constructor|done|rewrite length_replicate; lia].
  cbn [mbind option_bind app]. rewrite Nat2Z.id. by eexists.
Qed.

Lemma type_from_in types uri t : type_from types uri = t -> t <> NOT_A_SVR_RESOURCE ->
  exists rsrc, (rsrc, t) ∈ types /\ path uri = rsrc.
Proof.
  induction types as [|[r t'] types IH]; cbn [type_from]; intros Ht Hn; [by subst|].
  destruct (uri_in uri [r]) eqn:Hu.
  - apply uri_in_spec, list_elem_of_singleton in Hu. subst. exists (path uri).
    split; [constructor|done].
  - destruct (IH Ht Hn) as (r' & Hr & ?). exists r'. split; [by constructor|done].
Qed.

(** The two classifications of a path disagree: [sacl] has a type but is not a
    security resource, for [ver] it is the other way round. *)
Lemma svr_classifications_disagree :
  (GetSvrTypeFromUri (Some OIC_RSRC_SACL_URI) = OIC_R_SACL_TYPE /\
   SRMIsSecurityResourceURI (Some OIC_RSRC_SACL_URI) = false) /\
  (GetSvrTypeFromUri (Some OIC_RSRC_VER_URI) = NOT_A_SVR_RESOURCE /\
   SRMIsSecurityResourceURI (Some OIC_RSRC_VER_URI) = true).
Proof. by vm_compute. Qed.

(** The context of a request, from the request alone. *)
Definition request_context (e : CAEndpoint_t) (r : CARequestInfo_t) : SRMRequestContext_t :=
  let subject := take UUID_LENGTH (ri_identity r) in
  let '(uri, type) := SetResourceUri (ri_resourceUri r) in
  let properties := if String.eqb uri "" then None else FindResourceByUri uri in
  mk_ctx (Some e) type uri (GetPermissionFromCAMethod_t (ri_method r)) 0 false
    ACCESS_DENIED_POLICY_ENGINE_ERROR (Some r)
    (match properties with Some q => has_property q OC_SECURE | None => false end)
    (match properties with Some q => has_property q OC_NONSECURE | None => false end)
    (IsRequestOverSecureChannel e SUBJECT_ID_TYPE_UUID subject) false
    (match properties with
     | Some q => if has_property q OC_DISCOVERABLE then DISCOVERABLE_TRUE else DISCOVERABLE_FALSE
     | None => DISCOVERABLE_NOT_KNOWN end)
    SUBJECT_ID_TYPE_UUID subject.

(** Two contexts that the specification cannot tell apart: the flags of the
    resource count only for a discoverable one. *)
Definition same_request c c' : Prop :=
  endPoint c = endPoint c' /\ resourceType c = resourceType c' /\
  resourceUri c = resourceUri c' /\ requestedPermission c = requestedPermission c' /\
  secureChannel c = secureChannel c' /\ discoverable c = discoverable c' /\
  subjectIdType c = subjectIdType c' /\ subjectUuid c = subjectUuid c' /\
  (discoverable c = DISCOVERABLE_TRUE -> resourceIsOcSecure c = resourceIsOcSecure c' /\
     resourceIsOcNonsecure c = resourceIsOcNonsecure c').

Lemma names_same c c' rsrc : same_request c c' -> names c rsrc <-> names c' rsrc.
Proof.
  intros (_ & _ & Hu & _ & _ & Hd & _ & _ & Hf). unfold names. rewrite <- Hu, <- Hd.
  destruct (r_href rsrc); [done|]. destruct (r_wildcard rsrc); [done| | |done].
  all: split; intros (? & Ht & Hs); destruct (Hf Ht) as [E1 E2]; split; try done; split; congruence.
Qed.

Lemma authorized_same p s c c' : same_request c c' -> authorized p s c <-> authorized p s c'.
Proof.
  intros Hs. pose proof (fun rsrc => names_same c c' rsrc Hs) as Hn.
  destruct Hs as (He & Ht & Hu & Hp & Hch & _ & Hi & Hsu & _).
  unfold authorized, granted_to_owner, granted_to_session, granted_by_entry, about, permits,
    channel, roles_of, IsRequestFromOwnershipTransferSession.
  setoid_rewrite Hn. by rewrite He, Ht, Hu, Hp, Hch, Hi, Hsu.
Qed.

Lemma GetPermission_valid m : valid_permission (GetPermissionFromCAMethod_t m).
Proof. by destruct m. Qed.

(** The context that the policy engine is given. *)
Definition filled_context g e r : SRMRequestContext_t :=
  let subject := take UUID_LENGTH (ri_identity r) in
  let c := SetDiscoverableAndOcSecureFlags (SetResourceUriAndType
    (mk_ctx (Some e) OIC_RESOURCE_TYPE_ERROR "" (GetPermissionFromCAMethod_t (ri_method r)) 0 false
      ACCESS_DENIED_POLICY_ENGINE_ERROR (Some r) (resourceIsOcSecure g) (resourceIsOcNonsecure g)
      (IsRequestOverSecureChannel e SUBJECT_ID_TYPE_UUID subject) false DISCOVERABLE_NOT_KNOWN
      SUBJECT_ID_TYPE_UUID subject)) in
  set_response (responseSent c) (responseVal c) CA_INTERNAL_SERVER_ERROR c.

Lemma filled_context_fields g e r : same_request (filled_context g e r) (request_context e r) /\
  endPoint (filled_context g e r) = Some e /\ requestInfo (filled_context g e r) = Some r.
Proof.
  unfold filled_context, request_context, SetResourceUriAndType. cbn [requestInfo mbind option_bind].
  destruct (SetResourceUri (ri_resourceUri r)) as [uri type].
  unfold SetDiscoverableAndOcSecureFlags. cbn [resourceUri].
  destruct (String.eqb uri ""); [|destruct (FindResourceByUri uri) as [q|]]; done.
Qed.

(** C1: The reference monitor is never bypassed and leaks nothing between requests:
    whatever the previous request left in the global context, a request is passed
    on to the stack exactly when the specification authorizes it, otherwise it
    gets one answer, [CA_UNAUTHORIZED_REQ], and in both cases the security
    resources are not touched. *)
Theorem SRMRequestHandler_decides g p s e r : pstat s = Some p ->
  exists g' ev, SRMRequestHandler (Some e) (Some r) g s = Some (g', ev, s) /\
    (authorized p s (request_context e r) /\ ev = [HandleCARequests e r] \/
     ~ authorized p s (request_context e r) /\ ev = [SendResponse e CA_UNAUTHORIZED_REQ]).
Proof.
  intros Hp. destruct (filled_context_fields g e r) as (Hs & He & Hr).
  assert (Hv : valid_permission (requestedPermission (filled_context g e r))).
  { destruct Hs as (_ & _ & _ & -> & _). unfold request_context.
    destruct (SetResourceUri _). apply GetPermission_valid. }
  destruct (CheckPermission_granted p s _ Hp Hv) as (v & Hc & Ha).
  rewrite (authorized_same p s _ _ Hs) in Ha.
  change (SRMRequestHandler (Some e) (Some r) g)
    with (bind (S := SVR W) (CheckPermission (filled_context g e r))
            (fun ctx => ret (SRMGenerateResponse ctx))).
  rewrite (bind_some _ _ _ _ _ Hc). unfold SRMGenerateResponse, SRMSendResponse, ret.
  cbn [responseVal endPoint requestInfo set_responseVal set_response responseResult].
  rewrite He, Hr.
  destruct (IsAccessGranted v); do 2 eexists; (split; [reflexivity|]); [left|right];
    (split; [|done]); [by apply Ha|]. intros H. by apply Ha in H.
Qed.

(** A request whose path does not fit into the context is judged as one for the
    empty path: the wildcard of all ordinary resources covers it. *)
Lemma overlong_path_matches_wildcard e r u : ri_resourceUri r = Some u ->
  (MAX_URI_LENGTH < upto u "?")%nat ->
  names (request_context e r) (mk_rsrc None None None None ALL_NCRS).
Proof.
  intros Hr Hl. unfold names, request_context, SetResourceUri. rewrite Hr.
  rewrite (proj2 (Nat.ltb_lt _ _)) by done. cbn [r_href r_wildcard resourceUri]. split; [|done].
  apply (bool_decide_unpack _). by vm_compute.
Qed.

End manager.

End SecureResourceManager.
