(* ===== verification/AccessWitnesses.v ===== *)
(** * The access control theorems at concrete inputs *)

From S2P Require Import Prelude.
From S2P Require Import Status.
From S2P Require Import CString.
From S2P Require Import SrmUtility.
From S2P Require Import Calendar.
From S2P Require Import Svr.
From S2P Require Import Pstat.
From S2P Require Import Acl.
From S2P Require Import AclCredHandlers.
From S2P Require Import PolicyEngine.
From S2P Require Import SecureResourceManager.
Import CString SrmUtility Calendar Svr Pstat Acl AclCredHandlers
  PolicyEngine SecureResourceManager.

Module AccessWitnesses.

(** Nobody is in an ownership transfer session and nobody has a role. *)
#[export] Instance demo_peers : Peers := {
  CAGetSecureEndpointAttributes _ := None;
  GetEndpointRoles _ := Some [];
  localTime := mk_tm 0 0 16 29 5 115 1 179 0 }.
#[export] Instance demo_server : Server := {
  headResource := [("/light"%string, Z.lor OC_DISCOVERABLE OC_SECURE)];
  CASendResponse _ _ := true }.

Definition client : OicUuid_t := replicate 16 7.
Definition peer_endpoint : CAEndpoint_t := mk_endpoint CA_SECURE "fe80::1" 5684.
Definition operating_pstat : OicSecPstat_t := set_state DOS_RFNOP initial_default_pstat.

(** A device in operation whose list lets the client read the light. *)
Definition operating : SVR unit :=
  mk_svr operating_pstat RDefault initial_default_doxm RDefault []
    (Some (mk_acl THE_NIL_UUID
      [mk_ace (UuidSubject client) [rsrc_of "/light"] PERMISSION_READ [] 9]))
    10 [] THE_NIL_UUID tt.

Definition read_light : CARequestInfo_t := mk_requestInfo CA_GET (Some "/light?if=oic.if.s"%string) client.
Definition write_light : CARequestInfo_t := mk_requestInfo CA_POST (Some "/light"%string) client.

Example light_read : fst <$> SRMRequestHandler (Some peer_endpoint) (Some read_light)
    (request_context peer_endpoint write_light) operating
  = Some (set_response true ACCESS_GRANTED CA_INTERNAL_SERVER_ERROR
            (request_context peer_endpoint read_light), [HandleCARequests peer_endpoint read_light]).
Proof. by vm_compute. Qed.

Lemma CheckPermission_granted_witness :
  exists v, CheckPermission (request_context peer_endpoint read_light) operating
      = Some (set_responseVal v (request_context peer_endpoint read_light), operating) /\
    (IsAccessGranted v = true <->
     authorized operating_pstat operating (request_context peer_endpoint read_light)).
Proof. apply (CheckPermission_granted operating_pstat); [reflexivity|split; done]. Defined.

Lemma SRMRequestHandler_decides_witness :
  exists g' ev, SRMRequestHandler (Some peer_endpoint) (Some write_light)
      (request_context peer_endpoint read_light) operating = Some (g', ev, operating) /\
    (authorized operating_pstat operating (request_context peer_endpoint write_light) /\
       ev = [HandleCARequests peer_endpoint write_light] \/
     ~ authorized operating_pstat operating (request_context peer_endpoint write_light) /\
       ev = [SendResponse peer_endpoint CA_UNAUTHORIZED_REQ]).
Proof.
  apply (SRMRequestHandler_decides _ operating_pstat operating peer_endpoint write_light);
    reflexivity.
Defined.

End AccessWitnesses.
