(* ===== verification/Onboarding.v ===== *)
(** * The onboarding invariant

    Requests to the security resources and state changes as steps of a relation,
    and what holds in every state a new device can reach by them, as long as none
    ends in an internal server error: the provisioning status is the one its
    onboarding state prescribes, and a device in any state but RFOTM is owned. *)

From S2P Require Import Prelude.
From S2P Require Import Status.
From S2P Require Import SrmUtility.
From S2P Require Import Cbor.
From S2P Require Import PsInterface.
From S2P Require Import Svr.
From S2P Require Import Pstat.
From S2P Require Import Doxm.
From S2P Require Import Acl.
From S2P Require Import Cred.
From S2P Require Import ResourceManager.
From S2P Require Import Dos.
From S2P Require Import Handlers.
From S2P Require Import AclCredHandlers.
Import SrmUtility Cbor PsInterface Svr Pstat Doxm Acl Cred ResourceManager Dos Handlers
  AclCredHandlers.

Module Onboarding.

Open Scope m_scope.

Section onboarding.
Context {L : CborLib} {W : Type} {ST : Storage W} {P : Platform W} {CT : CoapTokens}
  {U : UtList}.
Implicit Type s : SVR W.

(** ** What the handlers leave alone *)

Definition same_pstat s s' : Prop := pstat s' = pstat s.
Definition same_device s s' : Prop := pstat s' = pstat s /\ doxm s' = doxm s.

#[local] Instance same_pstat_preorder : PreOrder same_pstat.
Proof. split; [by intros s|]. unfold same_pstat. intros s1 s2 s3 -> ->. done. Qed.
#[local] Instance same_device_preorder : PreOrder same_device.
Proof. split; [by intros s|]. unfold same_device. by intros s1 s2 s3 [-> ->] [-> ->]. Qed.

Lemma only_world_device s s' : only_world s s' -> same_device s s'.
Proof. intros [w ->]. split; by svr_simpl. Qed.
Lemma same_device_pstat s s' : same_device s s' -> same_pstat s s'.
Proof. by intros [? _]. Qed.

Lemma device_on_world {A} (m : M W A) : keeps same_device (on_world m).
Proof. eapply keeps_weaken; [apply only_world_device|apply keeps_on_world]. Qed.
Lemma device_call c : keeps same_device (call c).
Proof. eapply keeps_weaken; [apply only_world_device|apply keeps_call]. Qed.
Lemma device_verify c : keeps same_device (verify c).
Proof. eapply keeps_weaken; [apply only_world_device|apply keeps_verify]. Qed.
Lemma pstat_call c : keeps same_pstat (call c).
Proof. eapply keeps_weaken; [apply same_device_pstat|apply device_call]. Qed.
Lemma pstat_on_world {A} (m : M W A) : keeps same_pstat (on_world m).
Proof. eapply keeps_weaken; [apply same_device_pstat|apply device_on_world]. Qed.
Lemma pstat_verify c : keeps same_pstat (verify c).
Proof. eapply keeps_weaken; [apply same_device_pstat|apply device_verify]. Qed.
#[local] Hint Resolve device_on_world device_call device_verify pstat_call pstat_on_world
  pstat_verify : keeps.

(** [keep] with the updates of single fields. *)
Ltac keep_fields :=
  repeat first
    [ progress keep
    | apply keeps_modify; intros; unfold same_pstat, same_device, update_aces;
      autorewrite with svr; solve [auto] ].

Lemma encode_acl_device a : keeps same_device (encode_acl a).
Proof. unfold encode_acl. keep_fields. Qed.
Lemma decode_acl_device b : keeps same_device (decode_acl b).
Proof. unfold decode_acl. keep_fields. Qed.
#[local] Hint Resolve encode_acl_device decode_acl_device : keeps.
Lemma store_acl_device : keeps same_device store_acl.
Proof. unfold store_acl. keep_fields. Qed.
Lemma store_cred_device : keeps same_device store_cred.
Proof. unfold store_cred, Cred.UpdatePersistentStorage. keep_fields. Qed.
Lemma respond_device r b : keeps same_device (respond r b).
Proof. unfold respond, SendSRMResponse. keep_fields. Qed.
Lemma GetDos_device : keeps same_device GetDos.
Proof. unfold GetDos, GetPstatDosS, GetPstatDosP, get_pstat. keep_fields. Qed.
#[local] Hint Resolve store_acl_device store_cred_device respond_device GetDos_device : keeps.

Lemma SetAclRownerId_device u : keeps same_device (SetAclRownerId u).
Proof. unfold SetAclRownerId. keep_fields. Qed.
Lemma RemoveACE_device u r : keeps same_device (RemoveACE u r).
Proof. unfold RemoveACE. keep_fields. Qed.
Lemma RemoveAceByAceIds_device l : keeps same_device (RemoveAceByAceIds l).
Proof. unfold RemoveAceByAceIds. keep_fields. Qed.
Lemma RemoveAllAce_device r : keeps same_device (RemoveAllAce r).
Proof. unfold RemoveAllAce. keep_fields. Qed.
Lemma remove_where_device f : keeps same_device (remove_where f).
Proof. unfold remove_where. keep_fields. Qed.
Lemma RemoveCredentialByCredIds_device l : keeps same_device (RemoveCredentialByCredIds l).
Proof. unfold RemoveCredentialByCredIds. keep_fields. Qed.
Lemma RemoveAllCredentials_device : keeps same_device RemoveAllCredentials.
Proof. unfold RemoveAllCredentials. keep_fields. Qed.
#[local] Hint Resolve SetAclRownerId_device RemoveACE_device RemoveAceByAceIds_device
  RemoveAllAce_device remove_where_device RemoveCredentialByCredIds_device
  RemoveAllCredentials_device : keeps.
Lemma RemoveCredential_device u : keeps same_device (RemoveCredential u).
Proof. apply remove_where_device. Qed.
Lemma AddCredential_device c : keeps same_device (AddCredential c).
Proof. unfold AddCredential, GetCredId. keep_fields. Qed.
#[local] Hint Resolve RemoveCredential_device AddCredential_device : keeps.

Lemma all_calls_device cs : keeps same_device (all_calls cs).
Proof. induction cs; cbn [all_calls]; keep_fields. Qed.
#[local] Hint Resolve all_calls_device : keeps.
Lemma HandleNewCredential_device c : keeps same_device (HandleNewCredential c).
Proof. unfold HandleNewCredential, FillPrivateDataOfOwnerPSK, revert_handlers. keep_fields. Qed.
Lemma repeat_remove_device n u : keeps same_device (repeat_remove n u).
Proof. induction n; cbn [repeat_remove]; keep_fields. Qed.
#[local] Hint Resolve HandleNewCredential_device repeat_remove_device : keeps.
Lemma add_credentials_device u cs : forall n b, keeps same_device (add_credentials u n b cs).
Proof.
  induction cs as [|c cs IH]; intros n b; cbn [add_credentials]; [keep_fields|].
  apply keeps_bind; [exact _|apply HandleNewCredential_device|intros [r a]].
  destruct r; [keep_fields..|]. all: first [apply IH|keep_fields].
Qed.
#[local] Hint Resolve add_credentials_device : keeps.

(** Requests to the access control list and the credentials. *)
Lemma CredEntityHandler_device f req : keeps same_device (CredEntityHandler f req).
Proof.
  unfold CredEntityHandler, HandleGetRequest, HandlePostRequest, HandleDeleteRequest, post_cred,
    delete_cred. keep_fields.
Qed.
Lemma acl_handler_device post f req : keeps same_device (post req) ->
  keeps same_device (acl_handler post f req).
Proof.
  intros Hp. unfold acl_handler, HandleACLGetRequest, acl_payload, HandleACLDeleteRequest, delete_acl.
  destruct f, (req_method req); try done; keep_fields.
Qed.
Lemma ACLEntityHandler_device f req : keeps same_device (ACLEntityHandler f req).
Proof.
  apply acl_handler_device. unfold HandleACLPostRequest, post_acl, install_aces. keep_fields.
Qed.
Lemma ACL2EntityHandler_device f req : keeps same_device (ACL2EntityHandler f req).
Proof.
  apply acl_handler_device. unfold HandleACL2PostRequest, post_acl, install_aces2. keep_fields.
Qed.

Lemma HandlePstatGetRequest_device req : keeps same_device (HandlePstatGetRequest req).
Proof. unfold HandlePstatGetRequest, Pstat.ValidateQuery. keep_fields. Qed.
Lemma HandleDoxmGetRequest_device req : keeps same_device (HandleDoxmGetRequest req).
Proof. unfold HandleDoxmGetRequest, Doxm.ValidateQuery. keep_fields. Qed.

(** A request to /oic/sec/doxm leaves the provisioning status alone. *)
Lemma call_all_pstat cs : keeps same_pstat (call_all cs).
Proof. induction cs; cbn [call_all]; keep_fields. Qed.
#[local] Hint Resolve call_all_pstat : keeps.
Lemma EnableAnon_pstat : keeps same_pstat EnableAnonCipherSuiteIfUnOwnedAndJustWorksSelected.
Proof. unfold EnableAnonCipherSuiteIfUnOwnedAndJustWorksSelected. keep_fields. Qed.
#[local] Hint Resolve EnableAnon_pstat : keeps.
Lemma StartOwnershipTransfer_pstat d a : keeps same_pstat (StartOwnershipTransfer d a).
Proof.
  unfold StartOwnershipTransfer, StartOTMJustWorks, HandleDoxmPostRequestRandomPin,
    HandleDoxmPostRequestMfg. keep_fields.
Qed.
#[local] Hint Resolve StartOwnershipTransfer_pstat : keeps.
Lemma update_doxm_pstat req : keeps same_pstat (update_doxm req).
Proof.
  unfold update_doxm, GetDos, GetPstatDosS, GetPstatDosP, get_pstat, CBORPayloadToDoxmBin,
    HandleDoxmPostRequestUpdatePS, Doxm.UpdatePersistentStorage. keep_fields.
Qed.

(** ** The invariant *)

(** The state, the status that goes with it, and an owner in every state but RFOTM.
    [cm]'s bits 0 and 1 are RESET and TAKE_OWNER. *)
Definition consistent (p : OicSecPstat_t) (d : OicSecDoxm_t) : Prop :=
  p_state p ∈ [DOS_RFOTM; DOS_RFPRO; DOS_RFNOP; DOS_SRESET] /\
  p_pending p = false /\
  p_isOp p = (p_state p =? DOS_RFNOP) /\
  Z.testbit (p_cm p) 1 = (p_state p =? DOS_RFOTM) /\
  Z.testbit (p_cm p) 0 = (p_state p =? DOS_SRESET) /\
  (p_state p <> DOS_RFOTM -> owned_device d = true).

Definition onboarding s : Prop :=
  exists p d, pstat s = Some p /\ doxm s = Some d /\ consistent p d.

Lemma onboarding_device s s' : same_device s s' -> onboarding s -> onboarding s'.
Proof. intros [Hp Hd] (p & d & ? & ? & ?). exists p, d. by rewrite Hp, Hd. Qed.

Lemma entered_bits st p : st <> DOS_RESET -> Z.testbit (p_cm (entered st p)) 1 = (st =? DOS_RFOTM) /\
  Z.testbit (p_cm (entered st p)) 0 = (st =? DOS_SRESET).
Proof.
  intros Hst. cbn [entered p_cm]. rewrite (proj2 (Z.eqb_neq st DOS_RESET)), orb_false_r by done.
  unfold put_bit. destruct (st =? DOS_RFOTM), (st =? DOS_SRESET);
    rewrite ?Z.lor_spec, ?Z.ldiff_spec, ?Z.lor_spec, ?Z.ldiff_spec; cbn;
    rewrite ?Z.lor_spec, ?Z.ldiff_spec; cbn; rewrite ?orb_true_r, ?andb_true_r, ?andb_false_r,
    ?orb_false_r; done.
Qed.

(** A change of state keeps the invariant unless it ends in an internal error. *)
Lemma SetDosState_onboarding st s r s' : SetDosState st s = Some (r, s') -> onboarding s ->
  r <> OC_STACK_INTERNAL_SERVER_ERROR -> onboarding s'.
Proof.
  intros E (p & d & Hp & Hd & Hc) Hr. pose proof Hc as (Hst & Hpend & Hop & Hcm1 & Hcm0 & Hown).
  destruct (decide (st ∈ [DOS_RFOTM; DOS_RFPRO; DOS_RFNOP; DOS_SRESET])) as [Hin|Hin].
  - destruct (SetDosState_cases st p d s Hp Hd Hpend Hin) as (r' & s2 & E2 & Hres).
    rewrite E in E2. injection E2 as <- <-. destruct Hres as [(_ & _ & Hm & ->)|(_ & _ & ->)].
    + assert (Hn : st <> DOS_RESET) by (intros ->; revert Hin; vm_compute; set_solver).
      exists (entered st p), d. rewrite pstat_upd, doxm_upd_pstat, Hp. split; [done|].
      split; [done|]. destruct (entered_bits st p Hn) as [B1 B0].
      unfold consistent. split_and!; try done. intros Hno.
      unfold may_enter in Hm. cbn [p_state entered] in Hno.
      rewrite (proj2 (Z.eqb_neq st DOS_RFOTM)) in Hm by done.
      destruct (st =? DOS_RFPRO); [by apply andb_prop in Hm as [? _]|].
      destruct (st =? DOS_RFNOP);
        [by apply andb_prop in Hm as [[? _]%andb_prop _]|by destruct (st =? DOS_SRESET)].
    + by exists p, d.
  - destruct (decide (st = DOS_RESET)) as [->|Hn].
    { apply SetDosState_reset_cases in E as [(_ & p' & d' & a & c & V & _ & _ & _ & Hs & Hpe & Ho & Hcm & _)|[|(_ & -> & _)]];
        [|done|by exists p, d].
      unfold view in V. injection V as Hp' Hd' _ _ _. exists p', d'. split; [done|]. split; [done|].
      unfold consistent. rewrite Hs, Hpe, Ho, Hcm. split_and!; try done. set_solver. }
    destruct (decide (st = DOS_STATE_COUNT)) as [->|Hn'].
    { unfold SetDosState, GetPstatDosP, get_pstat in E. unfold bind at 1, gets at 1 in E.
      rewrite Hp in E. cbn in E. rewrite Hpend in E.
      erewrite bind_some in E by by apply (set_pstat_some _ _ p). cbn [is_ok negb] in E.
      unfold bind at 1, GetPstatDosS, get_pstat, gets at 1 in E. rewrite pstat_upd, Hp in E.
      by cbn in E. }
    rewrite (SetDosState_unknown st p s Hp Hpend) in E; [injection E as <- <-; by exists p, d|].
    rewrite !not_elem_of_cons in *. naive_solver.
Qed.

Lemma store_pstat_device r : keeps same_device (store_pstat r).
Proof. unfold store_pstat, Pstat.UpdatePersistentStorage. keep_fields. Qed.

Lemma CBORPayloadToPstatBin_device b f st g s : pstat s = Some g ->
  forall a s', CBORPayloadToPstatBin b f st s = Some (a, s') -> s' = s.
Proof.
  intros Hp a s' E. unfold CBORPayloadToPstatBin in E. destruct b; [by injection E as _ <-|].
  destruct f; [|by injection E as _ <-].
  apply bind_inv in E as (x & s1 & [= <- <-] & E).
  assert (Hn : gPstat s <> RNull) by (unfold pstat in Hp; by destruct (gPstat s)).
  apply bind_inv in E as (u & s1 & E1 & E).
  assert (s1 = s) as -> by (destruct (gPstat s); by try injection E1 as _ <-).
  clear E1.
  apply bind_inv in E as (x & s1 & [= <- <-] & E). rewrite Hp in E.
  apply bind_inv in E as (x & s1 & [= <- <-] & E).
  apply bind_inv in E as (l & s1 & E1 & E). unfold demand in E1, E.
  destruct (as_map (z :: b)); [|done]. injection E1 as <- <-.
  destruct (parse_pstat st g l0); [by injection E as _ <-|done].
Qed.

(** A request to /oic/sec/pstat either writes nothing, or writes [om], [tm] and the
    owner and then changes the state if another one is asked for. *)
Lemma update_pstat_onboarding req s r s' : update_pstat req s = Some (r, s') ->
  onboarding s -> r <> OC_EH_INTERNAL_SERVER_ERROR -> onboarding s'.
Proof.
  intros E (p & d & Hp & Hd & Hc) Hr. unfold update_pstat in E.
  apply bind_inv in E as (x & s1 & [= <- <-] & E). rewrite Hp in E.
  assert (Hs : onboarding s) by (by exists p, d).
  destruct (req_payload req) as [b|]; [|by injection E as _ <-].
  apply bind_inv in E as ([[rc new] ro] & s1 & E1 & E).
  apply (CBORPayloadToPstatBin_device _ _ _ _ _ Hp) in E1 as ->.
  destruct new as [new|]; [|by injection E as _ <-].
  destruct (negb (is_ok rc)); [by injection E as _ <-|]. destruct ro; [by injection E as _ <-|].
  destruct (negb _) in E; [by injection E as _ <-|].
  apply bind_inv in E as (u & s1 & [= _ <-] & E).
  apply bind_inv in E as (x & s1 & [= <- <-] & E). rewrite pstat_upd, Hp in E.
  apply bind_inv in E as (x & s1 & [= <- <-] & E).
  set (s1 := upd_pstat (write_pstat new) s) in *.
  assert (Hs1 : onboarding s1).
  { exists (write_pstat new p), d. unfold s1. rewrite pstat_upd, doxm_upd_pstat, Hp. by destruct p. }
  destruct (negb _) in E; [|by eapply onboarding_device; [eapply store_pstat_device|]].
  unfold change_dos in E. apply bind_inv in E as (rs & s2 & E2 & E).
  assert (Hok : rs <> OC_STACK_INTERNAL_SERVER_ERROR)
    by (intros ->; by injection E as <- _).
  pose proof (SetDosState_onboarding _ _ _ _ E2 Hs1 Hok) as Hs2.
  destruct rs; try (by injection E as _ <-).
  by eapply onboarding_device; [eapply store_pstat_device|].
Qed.

Definition has_doxm s s' : Prop := is_Some (doxm s) -> is_Some (doxm s').
#[local] Instance has_doxm_preorder : PreOrder has_doxm.
Proof. split; unfold has_doxm; [by intros s|]. intros s1 s2 s3. tauto. Qed.

Lemma doxm_stays {A} (m : M (SVR W) A) : keeps same_device m -> keeps has_doxm m.
Proof. apply keeps_weaken. intros s s' [_ E]. unfold has_doxm. by rewrite E. Qed.
Lemma doxm_stays_call c : keeps has_doxm (call c).
Proof. apply doxm_stays. auto with keeps. Qed.
Lemma doxm_stays_verify c : keeps has_doxm (verify c).
Proof. apply doxm_stays. auto with keeps. Qed.
Lemma doxm_stays_on_world {A} (m : M W A) : keeps has_doxm (on_world m).
Proof. apply doxm_stays. auto with keeps. Qed.
Lemma doxm_stays_upd f : keeps has_doxm (modify (upd_doxm f)).
Proof.
  apply keeps_modify. intros s. unfold has_doxm. rewrite doxm_upd. intros [d ->]. by eexists.
Qed.
#[local] Hint Resolve doxm_stays_call doxm_stays_verify doxm_stays_on_world doxm_stays_upd : keeps.

Lemma call_all_doxm cs : keeps has_doxm (call_all cs).
Proof. induction cs; cbn [call_all]; keep. Qed.
#[local] Hint Resolve call_all_doxm : keeps.

(** The end of a request to /oic/sec/doxm, with the transfer it may start. *)
Lemma finish_doxm (b : bool) new a : keeps has_doxm
  (let! ehRet := if b then StartOwnershipTransfer new a else ret OC_EH_OK in
   if eh_ok ehRet then HandleDoxmPostRequestUpdatePS false else ret ehRet).
Proof.
  unfold StartOwnershipTransfer, StartOTMJustWorks, HandleDoxmPostRequestRandomPin,
    HandleDoxmPostRequestMfg, EnableAnonCipherSuiteIfUnOwnedAndJustWorksSelected,
    HandleDoxmPostRequestUpdatePS, Doxm.UpdatePersistentStorage. keep.
Qed.

(** Writing what is there already changes nothing. *)
Lemma DoxmUpdate_owned new d : d_owned new = d_owned d -> d_deviceID new = d_deviceID d ->
  d_owner new = d_owner d -> owned_device (DoxmUpdateWriteableProperty new d) = owned_device d.
Proof.
  intros H1 H2 H3. unfold DoxmUpdateWriteableProperty, owned_device.
  repeat match goal with |- context [if ?b then _ else _] => destruct b; cbn end;
    by rewrite ?H1, ?H2, ?H3.
Qed.

(** A request to /oic/sec/doxm: outside RFOTM what makes the device owned is
    read-only. *)
Lemma update_doxm_onboarding req s r s' : update_doxm req s = Some (r, s') ->
  onboarding s -> onboarding s'.
Proof.
  intros E (p & d & Hp & Hd & Hc). pose proof Hc as (Hst & _ & _ & _ & _ & Hown).
  assert (Hp' : pstat s' = Some p) by (rewrite <- Hp; by eapply update_doxm_pstat).
  assert (Hs : onboarding s) by (by exists p, d).
  unfold update_doxm in E. apply bind_inv in E as (x & s1 & [= <- <-] & E). rewrite Hd in E.
  destruct (req_payload req) as [b|]; [|by injection E as _ <-].
  apply bind_inv in E as (dos & s1 & E1 & E).
  assert (E1' : GetDos s = Some (Some (p_state p, p_pending p), s)).
  { unfold GetDos, GetPstatDosS, GetPstatDosP, get_pstat, bind, gets, ret. by rewrite Hp. }
  rewrite E1' in E1. injection E1 as <- <-.
  destruct (_ || _); [by injection E as _ <-|].
  apply bind_inv in E as (res & s1 & E1 & E).
  assert (Hres : s1 = s /\ forall n o, res = inr (n, false, o) ->
    exists l, parse_doxm (p_state p) (Some d) l = Some (inr (n, false, o))).
  { unfold CBORPayloadToDoxmBin in E1. destruct b; [by injection E1 as <- <-|].
    apply bind_inv in E1 as (x & s2 & [= <- <-] & E1). rewrite Hd in E1.
    apply bind_inv in E1 as (l & s2 & E2 & E1). unfold demand in E1, E2.
    destruct (as_map (z :: b)); [|done]. injection E2 as <- <-.
    destruct (parse_doxm (p_state p) (Some d) l0) eqn:Ep; [|done]. injection E1 as <- <-.
    split; [done|]. intros n o ->. by exists l0. }
  destruct Hres as [-> Hres].
  destruct res as [|[[new ro] o]]; [by injection E as _ <-|].
  destruct ro; [by injection E as _ <-|]. destruct (Hres new o eq_refl) as [l Hl].
  destruct (negb _) in E; [by injection E as _ <-|].
  apply bind_inv in E as (u & s1 & [= _ <-] & E).
  set (s1 := upd_doxm (DoxmUpdateWriteableProperty new) s) in *.
  destruct (decide (p_state p = DOS_RFOTM)) as [Hr|Hr].
  - (* the doxm may be anything *)
    assert (Hd' : exists d', doxm s' = Some d').
    { apply (finish_doxm _ _ _ _ _ _ E). unfold s1. rewrite doxm_upd, Hd. by eexists. }
    destruct Hd' as [d' Hd']. exists p, d'. split; [done|]. split; [done|].
    destruct Hc as (?&?&?&?&?&_). by split_and!.
  - rewrite (proj2 (Z.eqb_neq DOS_RFOTM (p_state p))), andb_false_r in E by congruence.
    unfold bind at 1, ret at 1 in E. cbn [eh_ok] in E.
    assert (Hk : keeps same_device (HandleDoxmPostRequestUpdatePS false)).
    { unfold HandleDoxmPostRequestUpdatePS, Doxm.UpdatePersistentStorage. keep_fields. }
    apply Hk in E as [_ E]. exists p, (DoxmUpdateWriteableProperty new d).
    split; [done|]. split; [rewrite E; unfold s1; by rewrite doxm_upd, Hd|].
    assert (H05 : 0 <= p_state p < 5).
    { rewrite !elem_of_cons in Hst. unfold DOS_RFOTM, DOS_RFPRO, DOS_RFNOP, DOS_SRESET in Hst.
      destruct Hst as [->|[->|[->|[->|?%elem_of_nil]]]]; done || lia. }
    destruct (parse_doxm_keeps _ _ _ _ _ H05 Hl) as (_ & _ & Hk').
    destruct (Hk' Hr) as (K1 & K2 & K3 & K4 & _).
    assert (Ho : owned_device (DoxmUpdateWriteableProperty new d) = owned_device d)
      by (by apply DoxmUpdate_owned).
    destruct Hc as (?&?&?&?&?&?). unfold consistent. rewrite Ho. by split_and!.
Qed.

(** ** Reachable states *)

Definition internal_error (req : request) s : Prop :=
  req_method req = OC_REST_POST /\
  exists s', update_pstat req s = Some (OC_EH_INTERNAL_SERVER_ERROR, s').

(** A request to one of the resources, in any order, or a change of state asked for
    by the device itself.  A change of state that ends in an internal error leaves
    the resources as the failed initialization left them, so it is no step. *)
Inductive step s s' : Prop :=
| step_pstat f req a : PstatEntityHandler f req s = Some (a, s') -> ~ internal_error req s -> step s s'
| step_doxm f req a : DoxmEntityHandler f req s = Some (a, s') -> step s s'
| step_acl f req a : ACLEntityHandler f req s = Some (a, s') -> step s s'
| step_acl2 f req a : ACL2EntityHandler f req s = Some (a, s') -> step s s'
| step_cred f req a : CredEntityHandler f req s = Some (a, s') -> step s s'
| step_dos st r : SetDosState st s = Some (r, s') -> r <> OC_STACK_INTERNAL_SERVER_ERROR ->
    step s s'.

Lemma step_onboarding s s' : step s s' -> onboarding s -> onboarding s'.
Proof.
  intros [f req a E Hi|f req a E|f req a E|f req a E|f req a E|st r E Hr] Hs.
  - unfold PstatEntityHandler in E. destruct f; [|by injection E as _ <-].
    destruct (req_method req) eqn:Hm;
      try (eapply onboarding_device; [|exact Hs]; eapply respond_device; exact E).
    + eapply onboarding_device; [|exact Hs]. by eapply HandlePstatGetRequest_device.
    + apply bind_inv in E as (r & s1 & E1 & E). eapply onboarding_device; [by eapply respond_device|].
      eapply update_pstat_onboarding; [exact E1|done|]. intros ->. apply Hi. split; [done|].
      by exists s1.
  - unfold DoxmEntityHandler in E. destruct f; [|by injection E as _ <-].
    destruct (req_method req) eqn:Hm;
      try (eapply onboarding_device; [|exact Hs]; eapply respond_device; exact E).
    + eapply onboarding_device; [|exact Hs]. by eapply HandleDoxmGetRequest_device.
    + apply bind_inv in E as (r & s1 & E1 & E). eapply onboarding_device; [by eapply respond_device|].
      by eapply update_doxm_onboarding.
  - eapply onboarding_device; [|exact Hs]. by eapply ACLEntityHandler_device.
  - eapply onboarding_device; [|exact Hs]. by eapply ACL2EntityHandler_device.
  - eapply onboarding_device; [|exact Hs]. by eapply CredEntityHandler_device.
  - by eapply SetDosState_onboarding.
Qed.

(** A device as it leaves the factory: both resources are the static defaults. *)
Definition factory_new s : Prop :=
  gPstat s = RDefault /\ gDefaultPstat s = initial_default_pstat /\
  gDoxm s = RDefault /\ gDefaultDoxm s = initial_default_doxm.

(** C4: In every state a factory-new device reaches by requests and changes of
    state, in whatever order they come, none of which ends in an internal server
    error, the status is the one the onboarding state prescribes and the device is
    owned unless it is in RFOTM.  An internal error, such as a RESET that fails
    half-way, is no [step]: of the states behind it nothing is said. *)
Theorem onboarding_reachable s s' : factory_new s -> rtc step s s' ->
  exists p d, pstat s' = Some p /\ doxm s' = Some d /\ consistent p d.
Proof.
  intros (H1 & H2 & H3 & H4) Hr. assert (Hs : onboarding s).
  { exists initial_default_pstat, initial_default_doxm. unfold pstat, doxm.
    rewrite H1, H2, H3, H4. split; [done|]. split; [done|]. unfold consistent.
    split_and!; try done. set_solver. }
  clear H1 H2 H3 H4. induction Hr as [|s1 s2 s3 Hstep _ IH]; [done|].
  apply IH. by eapply step_onboarding.
Qed.

Lemma GetDos_some s p : pstat s = Some p -> GetDos s = Some (Some (p_state p, p_pending p), s).
Proof.
  intros Hp. unfold GetDos, GetPstatDosS, GetPstatDosP, get_pstat, bind, gets, ret. by rewrite Hp.
Qed.

(** A POST to each of the four handlers with its deciding part, and a DELETE. *)
Lemma post_handlers req (r1 r2 : OCEntityHandlerResult) s : req_method req = OC_REST_POST ->
  update_doxm req s = Some (r1, s) ->
  (forall install, post_acl install req s = Some (r2, s)) -> post_cred req s = Some (r2, s) ->
  DoxmEntityHandler true req s = respond r1 [] s /\
  ACLEntityHandler true req s = respond r2 [] s /\
  ACL2EntityHandler true req s = respond r2 [] s /\
  CredEntityHandler true req s = respond r2 [] s.
Proof.
  intros Hm Hd Ha Hc. unfold DoxmEntityHandler, ACLEntityHandler, ACL2EntityHandler, acl_handler,
    CredEntityHandler, HandleDoxmPostRequest, HandleACLPostRequest, HandleACL2PostRequest,
    HandlePostRequest. rewrite Hm.
  rewrite (bind_some _ _ _ _ _ Hd), !(bind_some _ _ _ _ _ (Ha _)), (bind_some _ _ _ _ _ Hc). done.
Qed.

Lemma respond_world r b : keeps only_world (respond r b).
Proof. unfold respond, SendSRMResponse. keep. Qed.
#[local] Hint Resolve respond_world : keeps.

(** [m] changes nothing in [s]. *)
Definition refuses {A} (m : M (SVR W) A) s : Prop := exists r, m s = Some (r, s).

Lemma refuses_respond m s r s' : refuses m s ->
  (let! ehRet := m in respond ehRet []) s = Some (r, s') -> only_world s s'.
Proof. intros [x E]. rewrite (bind_some _ _ _ _ _ E). apply respond_world. Qed.

(** The handlers change nothing where their deciding parts do not: what remains
    reads, and responds. *)
Lemma reading_handlers s :
  (forall req, refuses (update_doxm req) s) ->
  (forall install req, refuses (post_acl install req) s) ->
  (forall req, refuses (delete_acl req) s) ->
  (forall req, refuses (post_cred req) s) -> (forall q, refuses (delete_cred q) s) ->
  forall handler flag req r s',
    handler ∈ [DoxmEntityHandler; ACLEntityHandler; ACL2EntityHandler; CredEntityHandler] ->
    handler flag req s = Some (r, s') -> only_world s s'.
Proof.
  intros Hd Ha Hda Hc Hdc handler flag req r s' Hh.
  assert (Hget : keeps only_world (HandleDoxmGetRequest req) /\
    keeps only_world (HandleACLGetRequest req) /\ keeps only_world (HandleGetRequest req)).
  { unfold HandleDoxmGetRequest, Doxm.ValidateQuery, HandleACLGetRequest, acl_payload, encode_acl,
      HandleGetRequest. split_and!; keep. }
  destruct Hget as (G1 & G2 & G3).
  rewrite !elem_of_cons in Hh. destruct Hh as [->|[->|[->|[->|?%elem_of_nil]]]]; [..|done];
    unfold DoxmEntityHandler, ACLEntityHandler, ACL2EntityHandler, acl_handler,
      CredEntityHandler, HandleDeleteRequest; (destruct flag; [|by intros [= _ <-]]);
    destruct (req_method req); eauto using refuses_respond; try (by eapply respond_world).
  all: destruct (req_query req); [eauto using refuses_respond|by intros [= _ <-]].
Qed.

(** C7: In RESET and in normal operation the ownership resource, the access control
    lists and the credentials are read-only: a POST with a payload to the handler of
    doxm, acl, acl2 or cred, and a DELETE with a query of the last three, does
    nothing but send the refusal, and whatever other request one of these handlers
    returns from, it changes none of the security resources in memory.  (A POST to
    pstat can ask for another state, and a RESET changes them all.) *)
Theorem read_only_states s p d : pstat s = Some p -> doxm s = Some d ->
  p_state p = DOS_RESET \/ p_state p = DOS_RFNOP ->
  (forall req b, req_method req = OC_REST_POST -> req_payload req = Some b ->
     DoxmEntityHandler true req s = respond OC_EH_NOT_ACCEPTABLE [] s /\
     ACLEntityHandler true req s = respond OC_EH_NOT_ACCEPTABLE [] s /\
     ACL2EntityHandler true req s = respond OC_EH_NOT_ACCEPTABLE [] s /\
     CredEntityHandler true req s = respond OC_EH_NOT_ACCEPTABLE [] s) /\
  (forall req q, req_method req = OC_REST_DELETE -> req_query req = Some q ->
     ACLEntityHandler true req s = respond OC_EH_NOT_ACCEPTABLE [] s /\
     ACL2EntityHandler true req s = respond OC_EH_NOT_ACCEPTABLE [] s /\
     CredEntityHandler true req s = respond OC_EH_NOT_ACCEPTABLE [] s) /\
  (forall handler flag req r s',
     handler ∈ [DoxmEntityHandler; ACLEntityHandler; ACL2EntityHandler; CredEntityHandler] ->
     handler flag req s = Some (r, s') -> only_world s s').
Proof.
  intros Hp Hd Hst. pose proof (GetDos_some s p Hp) as Hg.
  assert (Ht : (DOS_RESET =? p_state p) || (DOS_RFNOP =? p_state p) = true)
    by (destruct Hst as [-> | ->]; done).
  assert (Hacl : forall install req, post_acl install req s = Some (OC_EH_NOT_ACCEPTABLE, s))
    by (intros install req; unfold post_acl; by rewrite (bind_some _ _ _ _ _ Hg), Ht).
  assert (Hcred : forall req, post_cred req s = Some (OC_EH_NOT_ACCEPTABLE, s))
    by (intros req; unfold post_cred; by rewrite (bind_some _ _ _ _ _ Hg), Ht).
  assert (Hdoxm : forall req, update_doxm req s = Some (match req_payload req with
      Some _ => OC_EH_NOT_ACCEPTABLE | None => OC_EH_INTERNAL_SERVER_ERROR end, s)).
  { intros req. unfold update_doxm, bind at 1, gets. rewrite Hd.
    destruct (req_payload req); [|done]. by rewrite (bind_some _ _ _ _ _ Hg), Ht. }
  assert (Hdel : forall req, delete_acl req s = Some (match req_query req with
      Some _ => OC_EH_NOT_ACCEPTABLE | None => OC_EH_ERROR end, s)).
  { intros req. unfold delete_acl. destruct (req_query req); [|done].
    by rewrite (bind_some _ _ _ _ _ Hg), Ht. }
  assert (Hdelc : forall q, delete_cred q s = Some (OC_EH_NOT_ACCEPTABLE, s))
    by (intros q; unfold delete_cred; by rewrite (bind_some _ _ _ _ _ Hg), Ht).
  split_and!.
  - intros req b Hm Hb. pose proof (Hdoxm req) as Hx. rewrite Hb in Hx. by apply post_handlers.
  - intros req q Hm Hq. pose proof (Hdel req) as Hx. rewrite Hq in Hx.
    unfold ACLEntityHandler, ACL2EntityHandler, acl_handler, CredEntityHandler,
      HandleACLDeleteRequest, HandleDeleteRequest. rewrite Hm, Hq.
    by rewrite !(bind_some _ _ _ _ _ Hx), (bind_some _ _ _ _ _ (Hdelc q)).
  - apply reading_handlers; unfold refuses; eauto.
Qed.

End onboarding.

End Onboarding.
