(* ===== verification/AclInvariant.v ===== *)
(** * The access control list over time

    No entry of the list in memory ever has a validity: the decoder cannot produce
    one and the defaults have none.  The encoder, which does not return on a
    validity ([AclCodec.AclToCBORPayload_returns]), is therefore never called on one
    by a request, by a change of state or at a start, and a GET whose query can be
    read is answered. *)

From S2P Require Import Prelude.
From S2P Require Import Status.
From S2P Require Import SrmUtility.
From S2P Require Import Cbor.
From S2P Require Import PsInterface.
From S2P Require Import Svr.
From S2P Require Import Pstat.
From S2P Require Import Doxm.
From S2P Require Import AclCodec.
From S2P Require Import Acl.
From S2P Require Import Cred.
From S2P Require Import ResourceManager.
From S2P Require Import Dos.
From S2P Require Import Handlers.
From S2P Require Import AclCredHandlers.
From S2P Require Import Onboarding.
Import SrmUtility Cbor PsInterface Svr Pstat Doxm AclCodec Acl Cred ResourceManager Dos Handlers
  AclCredHandlers Onboarding.

Module AclInvariant.

Open Scope m_scope.

(** ** The decoder *)

Definition clean (l : list OicSecAce_t) : Prop := Forall (fun a => a_validities a = []) l.

(** What a step of the decoder goes on with satisfies [P]. *)
Definition flows {A} (P : A -> Prop) (m : option (flow A)) : Prop :=
  match m with Some (Go a) | Some (Done a) => P a | _ => True end.

Lemma flows_then {A} (P : A -> Prop) m f : flows P m -> (forall a, P a -> flows P (f a)) ->
  flows P (then_flow m f).
Proof. intros Hm Hf. destruct m as [[a|a|]|]; cbn in *; auto. Qed.

Lemma flows_map {A B} (Q : A -> Prop) (P : B -> Prop) (g : A -> B) m :
  (forall a, Q a -> P (g a)) -> flows Q m -> flows P (inside g m).
Proof. intros H Hm. destruct m as [[a|a|]|]; cbn in *; auto. Qed.

Lemma flows_inside {A B} (P : B -> Prop) (g : A -> B) m : (forall a, P (g a)) ->
  flows P (inside g m).
Proof. intros H. destruct m as [[a|a|]|]; cbn; auto. Qed.

Lemma parse_ace_field_clean version name v a : a_validities a = [] ->
  flows (fun a => a_validities a = []) (parse_ace_field version name v a).
Proof.
  intros Ha. unfold parse_ace_field.
  repeat match goal with |- context [if String.eqb ?x ?y then _ else _] => destruct (String.eqb x y) end;
    try done.
  - destruct (parse_u16 v); done.
  - destruct version; [by apply flows_inside|by apply flows_inside|done].
  - destruct version; [by apply flows_inside|done|by apply flows_inside].
  - destruct v as [v|]; [|done]. destruct (is_container v); [by apply flows_inside|done].
  - destruct (parse_u16 v); done.
  - unfold parse_validities. by destruct v as [[| | | |[]| | | | |]|].
Qed.

Lemma ace_loop_clean version fuel : forall its a, a_validities a = [] ->
  flows (fun a => a_validities a = []) (ace_loop fuel version its a).
Proof.
  induction fuel as [|fuel IH]; intros its a Ha; [done|]. cbn [ace_loop].
  destruct its as [|it rest]; [done|].
  destruct it; try by apply IH. apply flows_then; [by apply parse_ace_field_clean|]. intros. by apply IH.
Qed.

Lemma aces_loop_clean version its : forall l, clean l -> flows clean (aces_loop version its l).
Proof.
  induction its as [|it rest IH]; intros l Hl; [done|]. cbn [aces_loop].
  destruct (is_container it); [|done]. apply flows_then; [|intros; by apply IH].
  apply (flows_map (fun a => a_validities a = [])); [|by apply ace_loop_clean].
  intros a Ha. apply Forall_app. split; [done|by apply Forall_singleton].
Qed.

Lemma arrays_loop_clean version its : forall l, clean l -> flows clean (arrays_loop version its l).
Proof.
  induction its as [|it rest IH]; intros l Hl; [done|]. cbn [arrays_loop].
  destruct (is_container it); [|done]. apply flows_then; [by apply aces_loop_clean|intros; by apply IH].
Qed.

Lemma parse_acl_field_clean gAcl tag v acl : clean (aces acl) ->
  flows (fun a => clean (aces a)) (parse_acl_field gAcl tag v acl).
Proof.
  intros Hl. unfold parse_acl_field.
  assert (H : flows clean (if String.eqb tag OIC_JSON_ACLIST_NAME then parse_aclist v (aces acl)
    else if String.eqb tag OIC_JSON_ACLIST2_NAME then parse_aclist2 v (aces acl)
    else Some (Go (aces acl)))).
  { destruct (String.eqb tag OIC_JSON_ACLIST_NAME).
    - unfold parse_aclist. destruct v as [v|]; [|done]. destruct (is_container v); [|done].
      destruct (items v) as [|[| |t| | | | | | |] rest]; try done.
      destruct (String.eqb _ _); [by apply arrays_loop_clean|done].
    - destruct (String.eqb tag OIC_JSON_ACLIST2_NAME); [|done].
      unfold parse_aclist2. destruct v as [v|]; [|done]. destruct (is_container v); [|done].
      by apply aces_loop_clean. }
  apply flows_then; [by apply (flows_map clean)|].
  clear H Hl acl. intros acl Hl. unfold parse_acl_rowner. destruct (IsNilUuid _); [|done].
  destruct (String.eqb tag OIC_JSON_ROWNERID_NAME); [|by destruct gAcl].
  destruct v as [[| |t| | | | | | |]|]; try done.
  destruct (ConvertStrToUuid _ _) as [[r u]|]; [|done]. cbn. by destruct (is_ok r).
Qed.

Lemma acl_loop_clean gAcl its : forall a, clean (aces a) ->
  flows (fun a => clean (aces a)) (acl_loop gAcl its a).
Proof.
  assert (H : forall n its, (List.length its <= n)%nat -> forall a, clean (aces a) ->
    flows (fun a => clean (aces a)) (acl_loop gAcl its a)).
  { induction n as [|n IH]; intros [|it rest] Hn a Ha; cbn [List.length] in Hn; try done; [lia|].
    cbn [acl_loop]. destruct it; try (apply IH; [lia|done]).
    destruct rest as [|v rest]; [by apply parse_acl_field_clean|].
    apply flows_then; [by apply parse_acl_field_clean|]. intros. apply IH; [cbn in Hn; lia|done]. }
  by apply (H (List.length its)).
Qed.

Lemma CBORPayloadToAcl_clean {L : CborLib} gAcl b a :
  CBORPayloadToAcl gAcl b = Some (Some a) -> no_validities a.
Proof.
  unfold CBORPayloadToAcl. destruct b as [|x b]; [done|].
  destruct (parse (x :: b)) as [t|]; [|done]. cbn [mbind option_bind].
  destruct (is_container t); [|done].
  pose proof (acl_loop_clean gAcl (items t) (mk_acl THE_NIL_UUID []) (List.Forall_nil _)) as H.
  destruct (acl_loop _ _ _) as [[a'|a'|]|]; cbn in *; try done; by intros [= <-].
Qed.

(** ** Pure operations *)

Lemma clean_filter f l : clean l -> clean (List.filter f l).
Proof. intros H. by apply List.incl_Forall with l; [apply List.incl_filter|]. Qed.

Lemma remove_resource_clean u res l : forall flag l' flag', clean l ->
  remove_resource u res flag l = Some (l', flag') -> clean l'.
Proof.
  induction l as [|ace l IH]; intros flag l' flag' Hl; cbn [remove_resource].
  { by intros [= <- _]. }
  inversion Hl as [|? ? Ha Hl']; subst. destruct (bool_decide _).
  - destruct (remove_rsrcs res (a_resources ace)) as [[rest removed]|]; [|done].
    cbn [mbind option_bind].
    destruct (remove_resource u res (flag || removed) l) as [[others fl]|] eqn:E; [|done].
    cbn [mbind option_bind]. pose proof (IH _ _ _ Hl' E) as Ho.
    destruct (_ && _); intros [= <- _]; [done|by constructor].
  - destruct (remove_resource u res flag l) as [[others fl]|] eqn:E; [|done].
    cbn [mbind option_bind]. intros [= <- _]. constructor; [done|by eapply IH].
Qed.

Lemma remove_id_clean id l : clean l -> clean (fst (remove_id id l)).
Proof.
  induction l as [|ace l IH]; intros Hl; [done|]. inversion Hl as [|? ? Ha Hl']; subst.
  cbn [remove_id]. destruct (_ =? _); [done|].
  destruct (remove_id id l) as [rest removed] eqn:E. constructor; [done|]. by apply IH.
Qed.

Lemma remove_ids_clean ids l : clean l -> clean (fst (remove_ids ids l)).
Proof.
  unfold remove_ids. generalize false. revert l.
  induction ids as [|id ids IH]; intros l flag Hl; [done|]. cbn [fold_left].
  pose proof (remove_id_clean id l Hl) as H. destruct (remove_id id l) as [l' removed]. by apply IH.
Qed.

Lemma DuplicateACE_clean freeId ace b : a_validities ace = [] ->
  a_validities (fst (DuplicateACE freeId ace b)) = [].
Proof. intros H. unfold DuplicateACE. destruct b; cbn; by rewrite H. Qed.

Lemma post_aces_clean new : forall l l', clean new -> clean l -> post_aces new l = Some l' -> clean l'.
Proof.
  induction new as [|ace new IH]; intros l l' Hn Hl; cbn [post_aces]; [by intros [= <-]|].
  inversion Hn as [|? ? Ha Hn']; subst. destruct (same_as_any ace l) as [dup|]; [|done].
  cbn [mbind option_bind]. apply IH; [done|].
  destruct dup; [done|]. constructor; [by apply DuplicateACE_clean|done].
Qed.

Lemma post_aces2_clean new : forall l freeId, clean new -> clean l ->
  clean (fst (post_aces2 new l freeId)).
Proof.
  induction new as [|ace new IH]; intros l freeId Hn Hl; [done|].
  inversion Hn as [|? ? Ha Hn']; subst. cbn [post_aces2].
  pose proof (DuplicateACE_clean freeId ace (a_aceid ace =? 0) Ha) as Hd.
  destruct (DuplicateACE freeId ace (a_aceid ace =? 0)) as [ins free]. apply IH; [done|].
  constructor; [done|]. destruct (_ =? 0); [done|by apply remove_id_clean].
Qed.

Lemma remove_sec_prov_clean l : forall l' b, clean l -> remove_sec_prov l = Some (l', b) -> clean l'.
Proof.
  induction l as [|ace l IH]; intros l' b Hl; cbn [remove_sec_prov]; [by intros [= <- _]|].
  inversion Hl as [|? ? Ha Hl']; subst.
  destruct (if _ && _ then _ else _) as [d|]; [|done]. cbn [mbind option_bind].
  destruct (remove_sec_prov l) as [[rest removed]|] eqn:E; [|done]. cbn [mbind option_bind].
  pose proof (IH _ _ Hl' eq_refl) as Hr. destruct d; intros [= <- _]; [done|by constructor].
Qed.

(** ** The state *)

Section invariant.
Context {L : CborLib} {W : Type} {ST : Storage W} {P : Platform W} {CT : CoapTokens} {U : UtList}.
Implicit Type s : SVR W.

Definition acl_clean s : Prop := match gAcl s with Some a => no_validities a | None => True end.
Definition stays_clean s s' : Prop := acl_clean s -> acl_clean s'.
#[local] Instance stays_clean_preorder : PreOrder stays_clean.
Proof. split; unfold stays_clean; [by intros s|]. intros s1 s2 s3. tauto. Qed.

Lemma same_acl s s' : gAcl s' = gAcl s -> stays_clean s s'.
Proof. unfold stays_clean, acl_clean. by intros ->. Qed.
Lemma only_world_clean s s' : only_world s s' -> stays_clean s s'.
Proof. intros [w ->]. by apply same_acl. Qed.
Lemma clean_on_world {A} (m : M W A) : keeps stays_clean (on_world m).
Proof. eapply keeps_weaken; [apply only_world_clean|apply keeps_on_world]. Qed.
Lemma clean_call c : keeps stays_clean (call c).
Proof. eapply keeps_weaken; [apply only_world_clean|apply keeps_call]. Qed.
Lemma clean_verify c : keeps stays_clean (verify c).
Proof. eapply keeps_weaken; [apply only_world_clean|apply keeps_verify]. Qed.
Lemma clean_upd_pstat f : keeps stays_clean (modify (upd_pstat f)).
Proof. apply keeps_modify. intros s. apply same_acl. apply gAcl_upd_pstat. Qed.
Lemma clean_upd_doxm f : keeps stays_clean (modify (upd_doxm f)).
Proof. apply keeps_modify. intros s. apply same_acl. apply gAcl_upd_doxm. Qed.
#[local] Hint Resolve clean_on_world clean_call clean_verify clean_upd_pstat clean_upd_doxm : keeps.

Lemma clean_random_uuid {A} (f : option (list Z) -> A) : keeps stays_clean
  (fun s => let '(b, w) := random_uuid (world s) in Some (f b, with_world w s)).
Proof. intros s a s' E. destruct (random_uuid (world s)) as [b w]. injection E as _ <-. by apply same_acl. Qed.

(** [keep] with the updates of other fields. *)
Ltac keep_clean :=
  repeat first
    [ progress keep
    | apply clean_random_uuid
    | apply keeps_modify; intros; apply same_acl; by autorewrite with svr
    | apply keeps_modify; intros; by apply same_acl ].

(** A list put in the place of the old one. *)
Lemma acl_clean_update l s : clean l -> acl_clean (update_aces l s).
Proof. intros Hl. unfold acl_clean, update_aces. cbn [gAcl with_acl]. by destruct (gAcl s). Qed.

Lemma acl_clean_some a s : gAcl s = Some a -> acl_clean s -> clean (aces a).
Proof. unfold acl_clean. by intros ->. Qed.

Lemma encode_acl_clean a : keeps stays_clean (encode_acl a).
Proof. unfold encode_acl. keep. Qed.
Lemma decode_acl_clean b : keeps stays_clean (decode_acl b).
Proof. unfold decode_acl. keep. Qed.
#[local] Hint Resolve encode_acl_clean decode_acl_clean : keeps.
Lemma store_acl_clean : keeps stays_clean store_acl.
Proof. unfold store_acl. keep. Qed.
Lemma store_cred_clean : keeps stays_clean store_cred.
Proof. unfold store_cred, Cred.UpdatePersistentStorage. keep. Qed.
Lemma respond_clean r b : keeps stays_clean (respond r b).
Proof. unfold respond, SendSRMResponse. keep. Qed.
#[local] Hint Resolve store_acl_clean store_cred_clean respond_clean : keeps.

Lemma decode_acl_result b s a s' : decode_acl b s = Some (Some a, s') -> no_validities a.
Proof.
  unfold decode_acl, bind, gets, demand. destruct (CBORPayloadToAcl (gAcl s) b) as [o|] eqn:E; [|done].
  intros [= -> _]. by eapply CBORPayloadToAcl_clean.
Qed.

Lemma RemoveACE_clean u r : keeps stays_clean (RemoveACE u r).
Proof.
  intros s x s' E Hc. unfold RemoveACE in E. apply bind_inv in E as (a & s1 & [= <- <-] & E).
  destruct (gAcl s) as [a|] eqn:Ha; [|by injection E as _ <-].
  destruct (bool_decide _); [by injection E as _ <-|].
  pose proof (acl_clean_some a s Ha Hc) as Hl.
  apply bind_inv in E as ([l fl] & s1 & E1 & E).
  assert (Hs : s1 = s /\ clean l).
  { destruct r as [res|].
    - unfold demand in E1. destruct (remove_resource u res false (aces a)) as [[l0 f0]|] eqn:Er; [|done].
      injection E1 as <- _ <-. split; [done|]. by eapply remove_resource_clean.
    - injection E1 as <- _ <-. split; [done|]. by apply clean_filter. }
  destruct Hs as [-> Hl']. apply bind_inv in E as (v & s2 & [= _ <-] & E).
  assert (Hk : keeps stays_clean (if fl
    then if bool_decide (u = WILDCARD_SUBJECT_B64_ID) then ret OC_STACK_RESOURCE_DELETED
         else let! r := store_acl in ret (deleted_if r)
    else ret OC_STACK_NO_RESOURCE)) by keep.
  by apply (Hk _ _ _ E), acl_clean_update.
Qed.

Lemma RemoveAceByAceIds_clean ids : keeps stays_clean (RemoveAceByAceIds ids).
Proof.
  intros s x s' E Hc. unfold RemoveAceByAceIds in E. apply bind_inv in E as (a & s1 & [= <- <-] & E).
  destruct (gAcl s) as [a|] eqn:Ha; [|by injection E as _ <-].
  pose proof (remove_ids_clean ids (aces a) (acl_clean_some a s Ha Hc)) as Hl.
  destruct (remove_ids ids (aces a)) as [l fl]. apply bind_inv in E as (v & s2 & [= _ <-] & E).
  assert (Hk : keeps stays_clean (if fl then let! r := store_acl in ret (deleted_if r)
    else ret OC_STACK_NO_RESOURCE)) by keep.
  by apply (Hk _ _ _ E), acl_clean_update.
Qed.

Lemma RemoveAllAce_clean r : keeps stays_clean (RemoveAllAce r).
Proof.
  intros s x s' E Hc. unfold RemoveAllAce in E. apply bind_inv in E as (a & s1 & [= <- <-] & E).
  destruct (gAcl s) as [a|] eqn:Ha; [|by injection E as _ <-].
  pose proof (acl_clean_some a s Ha Hc) as Hl.
  apply bind_inv in E as (b & s1 & E1 & E). apply encode_acl_clean in E1. apply E1 in Hc. clear E1.
  destruct b as [b|]; [|by injection E as _ <-].
  apply bind_inv in E as (v & s2 & [= _ <-] & E).
  assert (Hc2 := acl_clean_update (List.filter (keeps_resource r) (aces a)) s1 (clean_filter _ _ Hl)).
  apply bind_inv in E as (rs & s3 & E3 & E). apply store_acl_clean in E3. apply E3 in Hc2. clear E3.
  apply bind_inv in E as (rs' & s4 & E4 & E). injection E as _ <-.
  destruct (is_ok rs); [by injection E4 as _ <-|].
  apply bind_inv in E4 as (o & s5 & E5 & E). pose proof (decode_acl_clean _ _ _ _ E5 Hc2) as Hc5.
  destruct o as [o|]; [|by injection E as _ <-]. apply decode_acl_result in E5.
  apply bind_inv in E as (r6 & s6 & E6 & E). apply clean_on_world in E6. apply E6 in Hc5. clear E6.
  apply bind_inv in E as (v' & s7 & E7 & E). injection E as _ <-.
  destruct (is_ok r6); [|by injection E7 as _ <-]. by injection E7 as _ <-.
Qed.

Lemma SetAclRownerId_clean u : keeps stays_clean (SetAclRownerId u).
Proof.
  intros s x s' E Hc. unfold SetAclRownerId in E. apply bind_inv in E as (a & s1 & [= <- <-] & E).
  destruct (gAcl s) as [a|] eqn:Ha; [|by injection E as _ <-].
  destruct u as [u|]; [|by injection E as _ <-].
  apply bind_inv in E as (v & s2 & [= _ <-] & E).
  assert (Hk : keeps stays_clean (let! r := store_acl in
    (if is_ok r then ret tt
     else modify (fun s => with_acl (set_acl_rownerID (acl_rownerID a) <$> gAcl s) s)) ;;; ret r)).
  { keep. apply keeps_modify. intros s0. unfold stays_clean, acl_clean. cbn [gAcl with_acl].
    by destruct (gAcl s0). }
  apply (Hk _ _ _ E). unfold acl_clean in *. rewrite Ha in Hc. exact Hc.
Qed.
#[local] Hint Resolve RemoveACE_clean RemoveAceByAceIds_clean RemoveAllAce_clean
  SetAclRownerId_clean : keeps.

Lemma UpdateDefaultSecProvACE_clean : keeps stays_clean UpdateDefaultSecProvACE.
Proof.
  intros s x s' E Hc. unfold UpdateDefaultSecProvACE in E.
  apply bind_inv in E as (a & s1 & [= <- <-] & E).
  destruct (gAcl s) as [a|] eqn:Ha; [|by injection E as _ <-].
  apply bind_inv in E as ([l b] & s1 & E1 & E). unfold demand in E1.
  destruct (remove_sec_prov (aces a)) as [[l0 b0]|] eqn:Er; [|done]. injection E1 as <- <- <-.
  apply remove_sec_prov_clean in Er; [|by eapply acl_clean_some].
  apply bind_inv in E as (v & s2 & [= _ <-] & E).
  assert (Hk : keeps stays_clean ((if b0 then store_acl else ret OC_STACK_OK) ;;; ret OC_STACK_OK))
    by keep.
  apply (Hk _ _ _ E), acl_clean_update. destruct b0; [|done].
  apply Forall_app. split; [done|by apply Forall_singleton].
Qed.

(** ** Initialization and changes of state *)

Lemma GetDoxmResourceData_clean : keeps stays_clean GetDoxmResourceData.
Proof. unfold GetDoxmResourceData. keep_clean. Qed.
Lemma DeInitACLResource_clean : keeps stays_clean DeInitACLResource.
Proof. unfold DeInitACLResource. keep_clean. by apply keeps_modify; intros. Qed.
#[local] Hint Resolve UpdateDefaultSecProvACE_clean GetDoxmResourceData_clean
  DeInitACLResource_clean : keeps.
Lemma CreateACLResource_clean : keeps stays_clean CreateACLResource.
Proof. unfold CreateACLResource. keep. Qed.
#[local] Hint Resolve CreateACLResource_clean : keeps.

Lemma default_aces_clean : clean default_aces.
Proof. repeat constructor. Qed.

Lemma GetDefaultACL_clean s r a s' : GetDefaultACL s = Some (r, a, s') -> acl_clean s ->
  acl_clean s' /\ match a with Some a => no_validities a | None => True end.
Proof.
  unfold GetDefaultACL. intros E Hc. apply bind_inv in E as (d & s1 & E1 & E).
  pose proof (GetDoxmResourceData_clean _ _ _ E1 Hc) as Hc1. destruct d as [d|].
  - injection E as _ <- <-. split; [done|apply default_aces_clean].
  - apply bind_inv in E as (u & s2 & E2 & E). destruct (random_uuid (world s1)) as [b w].
    injection E2 as _ <-. destruct u; injection E as _ <- <-; (split; [exact Hc1|]); [|done].
    apply default_aces_clean.
Qed.

Lemma InitACLResource_clean : keeps stays_clean InitACLResource.
Proof.
  intros s x s' E Hc. unfold InitACLResource in E. apply bind_inv in E as ([r data] & s1 & E1 & E).
  apply clean_on_world in E1. apply E1 in Hc. clear E1.
  apply bind_inv in E as (v & s2 & E2 & E).
  assert (Hc2 : acl_clean s2).
  { destruct data as [b|]; [|by injection E2 as _ <-]. apply bind_inv in E2 as (a & s3 & E3 & E2).
    injection E2 as _ <-. unfold acl_clean. cbn [gAcl with_acl].
    destruct a as [a|]; [|done]. by eapply decode_acl_result. }
  clear E2 Hc. apply bind_inv in E as (a & s3 & [= <- <-] & E).
  apply bind_inv in E as (r4 & s4 & E4 & E).
  assert (Hc4 : acl_clean s4).
  { destruct (gAcl s2) as [a|]; [by injection E4 as _ <-|].
    apply bind_inv in E4 as ([r5 a5] & s5 & E5 & E4).
    apply bind_inv in E4 as (v' & s6 & [= _ <-] & E4). injection E4 as _ <-.
    apply GetDefaultACL_clean in E5 as [_ E5]; [|done]. exact E5. }
  assert (Hk : keeps stays_clean
    (let! a := gets gAcl in
     match a with
     | None => DeInitACLResource ;;; ret r4
     | Some _ =>
         let! r := CreateACLResource in
         if is_ok r then ret r else DeInitACLResource ;;; ret r
     end)) by keep.
  by apply (Hk _ _ _ E).
Qed.
#[local] Hint Resolve InitACLResource_clean : keeps.

Lemma InitPstatResource_clean : keeps stays_clean InitPstatResource.
Proof.
  unfold InitPstatResource, CreatePstatResource, DeInitPstatResource, CBORPayloadToPstat,
    CBORPayloadToPstatBin, Pstat.UpdatePersistentStorage. keep_clean.
Qed.
Lemma InitDoxmResource_clean : keeps stays_clean InitDoxmResource.
Proof.
  unfold InitDoxmResource, CreateDoxmResource, DeInitDoxmResource, CheckDeviceID, new_device_id,
    CBORPayloadToDoxm, CBORPayloadToDoxmBin, Doxm.UpdatePersistentStorage,
    EnableAnonCipherSuiteIfUnOwnedAndJustWorksSelected. keep_clean.
Qed.
Lemma InitCredResource_clean : keeps stays_clean InitCredResource.
Proof.
  unfold InitCredResource, CreateCredResource, DeInitCredResource, GetDoxmDeviceID, get_doxm.
  keep_clean.
Qed.
#[local] Hint Resolve InitPstatResource_clean InitDoxmResource_clean InitCredResource_clean : keeps.

Lemma DestroySecureResources_clean : keeps stays_clean DestroySecureResources.
Proof.
  unfold DestroySecureResources, DeInitCredResource, DeInitDoxmResource, DeInitPstatResource.
  keep_clean.
Qed.
#[local] Hint Resolve DestroySecureResources_clean : keeps.
Lemma when_ok_clean r m : keeps stays_clean m -> keeps stays_clean (when_ok r m).
Proof. intros H. unfold when_ok. by destruct (is_ok r); [|keep]. Qed.
Lemma init_svr_clean name : keeps stays_clean (init_svr name).
Proof. unfold init_svr. keep. Qed.
#[local] Hint Resolve when_ok_clean init_svr_clean : keeps.
Lemma InitSecureResources_clean : keeps stays_clean InitSecureResources.
Proof. unfold InitSecureResources. keep. Qed.
#[local] Hint Resolve InitSecureResources_clean : keeps.
Lemma ResetSecureResources_clean : keeps stays_clean ResetSecureResources.
Proof.
  unfold ResetSecureResources, ResetSecureResourceInPS, SRMDeInitSecureResources,
    SRMInitSecureResources.
  keep; apply when_ok_clean; keep.
Qed.
#[local] Hint Resolve ResetSecureResources_clean : keeps.

Lemma SRMInitSecureResources_clean : keeps stays_clean SRMInitSecureResources.
Proof. unfold SRMInitSecureResources. keep; apply when_ok_clean; keep. Qed.
Lemma SRMDeInitSecureResources_clean : keeps stays_clean SRMDeInitSecureResources.
Proof. unfold SRMDeInitSecureResources. keep; apply when_ok_clean; keep. Qed.

(** The conditions and the accessors read or change other resources. *)
Lemma check_clean m k : keeps stays_clean m -> keeps stays_clean k -> keeps stays_clean (check m k).
Proof. intros. unfold check. keep. Qed.
Lemma check_not_clean m k : keeps stays_clean m -> keeps stays_clean k ->
  keeps stays_clean (check_not m k).
Proof. intros. unfold check_not. keep. Qed.
Lemma must_clean m k : keeps stays_clean m -> keeps stays_clean k -> keeps stays_clean (must m k).
Proof. intros. unfold must. keep. Qed.
Lemma set_pstat_clean f : keeps stays_clean (set_pstat f).
Proof. unfold set_pstat. keep. Qed.
Lemma get_pstat_clean {A} (f : OicSecPstat_t -> A) : keeps stays_clean (get_pstat f).
Proof. unfold get_pstat. keep. Qed.
Lemma set_doxm_clean f : keeps stays_clean (set_doxm f).
Proof. unfold set_doxm. keep. Qed.
#[local] Hint Resolve set_pstat_clean get_pstat_clean set_doxm_clean : keeps.
Lemma EnterStateGeneric_clean a b c d e st : keeps stays_clean (EnterStateGeneric a b c d e st).
Proof.
  unfold EnterStateGeneric, GetPstatCm, GetPstatTm, SetPstatIsop, SetPstatCm, SetPstatTm, SetPstatDosS.
  keep. repeat (apply must_clean; keep).
Qed.
#[local] Hint Resolve EnterStateGeneric_clean : keeps.

Lemma conditions_clean : keeps stays_clean IsReadyToEnterRFNOP /\
  keeps stays_clean IsReadyToEnterRFOTM /\ keeps stays_clean IsReadyToEnterRFPRO /\
  keeps stays_clean IsReadyToEnterSRESET.
Proof.
  unfold IsReadyToEnterRFNOP, IsReadyToEnterRFOTM, IsReadyToEnterRFPRO, IsReadyToEnterSRESET,
    IsDoxmOwned, IsDoxmDevowneruuidTheNilUuid, IsDoxmDeviceuuidTheNilUuid, GetPstatIsop,
    IsAclRowneruuidTheNilUuid, IsCredRowneruuidTheNilUuid, IsDoxmRowneruuidTheNilUuid,
    IsPstatRowneruuidTheNilUuid.
  split_and!; repeat first [apply check_not_clean | apply check_clean | progress keep].
Qed.

Lemma EnterRESET_clean : keeps stays_clean EnterRESET.
Proof.
  unfold EnterRESET, SetDoxmIsOwned, SetDoxmDevOwnerId, SetCredRownerId, SetDoxmRownerId,
    SetPstatRownerId, SetPstatCm, SetPstatTm, Pstat.UpdatePersistentStorage,
    EnableAnonCipherSuiteIfUnOwnedAndJustWorksSelected.
  repeat first [apply must_clean | apply check_clean | progress keep_clean].
Qed.
#[local] Hint Resolve EnterRESET_clean : keeps.

Lemma SetDosState_clean st : keeps stays_clean (SetDosState st).
Proof.
  destruct conditions_clean as (H1 & H2 & H3 & H4).
  unfold SetDosState, DoStateChange, change_if, GetPstatDosP, SetPstatDosP, GetPstatDosS,
    EnterRFNOP, EnterRFOTM, EnterRFPRO, EnterSRESET. keep. all: by apply check_clean; keep.
Qed.
#[local] Hint Resolve SetDosState_clean : keeps.

(** ** Requests *)

Lemma GetDos_clean : keeps stays_clean GetDos.
Proof. unfold GetDos, GetPstatDosS, GetPstatDosP. keep. Qed.
#[local] Hint Resolve GetDos_clean : keeps.

Lemma post_acl_clean install req :
  (forall new g s u s', no_validities new -> gAcl s = Some g -> install new g s = Some (u, s') ->
     acl_clean s -> acl_clean s') ->
  keeps stays_clean (post_acl install req).
Proof.
  intros Hi s x s' E Hc. unfold post_acl in E. apply bind_inv in E as (dos & s1 & E1 & E).
  pose proof (GetDos_clean _ _ _ E1 Hc) as Hc1. destruct dos as [[st pe]|]; [|by injection E as _ <-].
  destruct (_ || _); [by injection E as _ <-|].
  destruct (req_payload req) as [b|]; [|by injection E as _ <-].
  apply bind_inv in E as (v & s2 & E2 & E).
  assert (s2 = s1) as -> by (unfold demand in E2; by destruct (AclVersionCheck b); [injection E2 as _ <-|]).
  destruct (bool_decide _); [by injection E as _ <-|].
  apply bind_inv in E as (new & s3 & E3 & E).
  assert (s3 = s1) as -> by (unfold decode_acl, bind, gets, demand in E3;
    by destruct (CBORPayloadToAcl (gAcl s1) b); [injection E3 as _ <-|]).
  apply bind_inv in E as (g & s4 & [= <- <-] & E).
  destruct new as [new|]; [|by injection E as _ <-].
  destruct (gAcl s1) as [g|] eqn:Hg; [|by injection E as _ <-].
  apply bind_inv in E as (u & s5 & E5 & E).
  assert (Hc5 : acl_clean s5) by (eapply Hi; [by eapply decode_acl_result|exact Hg|exact E5|done]).
  apply bind_inv in E as (r & s6 & E6 & E). injection E as _ <-.
  by apply (SetAclRownerId_clean _ _ _ _ E6).
Qed.

Lemma ACLEntityHandler_clean f req : keeps stays_clean (ACLEntityHandler f req).
Proof.
  assert (H : keeps stays_clean (post_acl install_aces req)).
  { apply post_acl_clean. intros new g s u s' Hn Hg E Hc. unfold install_aces in E.
    apply bind_inv in E as (l & s1 & E1 & E). unfold demand in E1.
    destruct (post_aces (aces new) (aces g)) as [l0|] eqn:Ep; [|done].
    injection E1 as <- <-. injection E as _ <-. apply acl_clean_update.
    eapply post_aces_clean; [exact Hn|by eapply acl_clean_some|exact Ep]. }
  unfold ACLEntityHandler, acl_handler, HandleACLGetRequest, acl_payload, HandleACLDeleteRequest,
    delete_acl, HandleACLPostRequest. destruct f, (req_method req); try done; keep.
Qed.

Lemma ACL2EntityHandler_clean f req : keeps stays_clean (ACL2EntityHandler f req).
Proof.
  assert (H : keeps stays_clean (post_acl install_aces2 req)).
  { apply post_acl_clean. intros new g s u s' Hn Hg E Hc. unfold install_aces2 in E.
    apply bind_inv in E as (k & s1 & [= <- <-] & E).
    pose proof (post_aces2_clean (aces new) (aces g) (gAceFreeId s) Hn
      (acl_clean_some _ _ Hg Hc)) as Hl.
    destruct (post_aces2 _ _ _) as [l k']. injection E as _ <-. by apply acl_clean_update. }
  unfold ACL2EntityHandler, acl_handler, HandleACLGetRequest, acl_payload, HandleACLDeleteRequest,
    delete_acl, HandleACL2PostRequest. destruct f, (req_method req); try done; keep.
Qed.

Lemma RemoveCredential_clean u : keeps stays_clean (RemoveCredential u).
Proof. unfold RemoveCredential, remove_where. keep_clean. Qed.
Lemma AddCredential_clean c : keeps stays_clean (AddCredential c).
Proof. unfold AddCredential, GetCredId. keep_clean. Qed.
Lemma RemoveCredentialByCredIds_clean l : keeps stays_clean (RemoveCredentialByCredIds l).
Proof. unfold RemoveCredentialByCredIds. keep_clean. Qed.
Lemma RemoveAllCredentials_clean : keeps stays_clean RemoveAllCredentials.
Proof. unfold RemoveAllCredentials. keep_clean. Qed.
Lemma all_calls_clean cs : keeps stays_clean (all_calls cs).
Proof. induction cs; cbn [all_calls]; keep. Qed.
#[local] Hint Resolve RemoveCredential_clean AddCredential_clean RemoveCredentialByCredIds_clean
  RemoveAllCredentials_clean all_calls_clean : keeps.
Lemma HandleNewCredential_clean c : keeps stays_clean (HandleNewCredential c).
Proof. unfold HandleNewCredential, FillPrivateDataOfOwnerPSK, revert_handlers. keep. Qed.
Lemma repeat_remove_clean n u : keeps stays_clean (repeat_remove n u).
Proof. induction n; cbn [repeat_remove]; keep. Qed.
#[local] Hint Resolve HandleNewCredential_clean repeat_remove_clean : keeps.
Lemma add_credentials_clean u cs : forall n b, keeps stays_clean (add_credentials u n b cs).
Proof.
  induction cs as [|c cs IH]; intros n b; cbn [add_credentials]; [keep|].
  apply keeps_bind; [exact _|apply HandleNewCredential_clean|intros [r a]].
  destruct r; first [apply IH|keep].
Qed.
#[local] Hint Resolve add_credentials_clean : keeps.
Lemma CredEntityHandler_clean f req : keeps stays_clean (CredEntityHandler f req).
Proof.
  unfold CredEntityHandler, HandleGetRequest, HandlePostRequest, HandleDeleteRequest, post_cred,
    delete_cred. keep_clean.
Qed.

Lemma PstatEntityHandler_clean f req : keeps stays_clean (PstatEntityHandler f req).
Proof.
  unfold PstatEntityHandler, HandlePstatGetRequest, Pstat.ValidateQuery, HandlePstatPostRequest,
    update_pstat, change_dos, store_pstat, CBORPayloadToPstatBin, Pstat.UpdatePersistentStorage.
  keep_clean.
Qed.

Lemma call_all_clean cs : keeps stays_clean (call_all cs).
Proof. induction cs; cbn [call_all]; keep. Qed.
#[local] Hint Resolve call_all_clean : keeps.
Lemma DoxmEntityHandler_clean f req : keeps stays_clean (DoxmEntityHandler f req).
Proof.
  unfold DoxmEntityHandler, HandleDoxmGetRequest, Doxm.ValidateQuery, HandleDoxmPostRequest,
    update_doxm, CBORPayloadToDoxmBin, StartOwnershipTransfer, StartOTMJustWorks,
    HandleDoxmPostRequestRandomPin, HandleDoxmPostRequestMfg,
    EnableAnonCipherSuiteIfUnOwnedAndJustWorksSelected, HandleDoxmPostRequestUpdatePS,
    Doxm.UpdatePersistentStorage. keep_clean.
Qed.

(** What can happen to a device: the start and the end of the security resources,
    requests and changes of state, internal errors included. *)
Inductive event s s' : Prop :=
| event_init r : SRMInitSecureResources s = Some (r, s') -> event s s'
| event_deinit r : SRMDeInitSecureResources s = Some (r, s') -> event s s'
| event_pstat f req a : PstatEntityHandler f req s = Some (a, s') -> event s s'
| event_doxm f req a : DoxmEntityHandler f req s = Some (a, s') -> event s s'
| event_acl f req a : ACLEntityHandler f req s = Some (a, s') -> event s s'
| event_acl2 f req a : ACL2EntityHandler f req s = Some (a, s') -> event s s'
| event_cred f req a : CredEntityHandler f req s = Some (a, s') -> event s s'
| event_dos st r : SetDosState st s = Some (r, s') -> event s s'.

Lemma step_event s s' : step s s' -> event s s'.
Proof. intros []; eauto using event. Qed.

Lemma event_clean s s' : event s s' -> stays_clean s s'.
Proof.
  intros [r E|r E|f req a E|f req a E|f req a E|f req a E|f req a E|st r E].
  - revert E. apply SRMInitSecureResources_clean.
  - revert E. apply SRMDeInitSecureResources_clean.
  - by eapply PstatEntityHandler_clean.
  - by eapply DoxmEntityHandler_clean.
  - by eapply ACLEntityHandler_clean.
  - by eapply ACL2EntityHandler_clean.
  - by eapply CredEntityHandler_clean.
  - by eapply SetDosState_clean.
Qed.

Lemma acl_clean_reachable s s' : acl_clean s -> rtc event s s' -> acl_clean s'.
Proof. intros Hc Hr. induction Hr as [|s1 s2 s3 Hs _ IH]; [done|]. by apply IH, (event_clean _ _ Hs). Qed.

Lemma respond_returns r b s : exists a s', respond r b s = Some (a, s').
Proof.
  unfold respond, SendSRMResponse, bind, call, ret. destruct (ext _ (world s)) as [ok w].
  by do 2 eexists.
Qed.

(** ** Answering a GET *)

(** The query names a subject, or none, without undefined behaviour (a value of 37
    characters leaves a string without an end, a malformed one asks for characters
    outside the query). *)
Definition readable (query : option string) : Prop :=
  match query with Some q => is_Some (GetSubjectFromQueryString q) | None => True end.

(** The entries' resources have the [href] a search by resource reads. *)
Definition hrefs (l : list OicSecAce_t) : Prop :=
  Forall (fun a => Forall (fun r => is_Some (r_href r)) (a_resources a)) l.

Lemma names_resource_returns res l : Forall (fun r => is_Some (r_href r)) l ->
  is_Some (names_resource res l).
Proof.
  induction 1 as [|r l [h Hr] _ IH]; [by eexists|]. cbn [names_resource]. rewrite Hr.
  cbn [mbind option_bind]. by destruct (_ || _); [eexists|].
Qed.

(** The entries that are sent are the end of the list. *)
Lemma matching_aces_suffix u res l : hrefs l ->
  exists l', matching_aces u res l = Some l' /\ l' `suffix_of` l.
Proof.
  induction 1 as [|a l Ha _ (l' & IH & Hs)]; [by exists []|]. cbn [matching_aces].
  assert (Hrest : exists l', matching_aces u res l = Some l' /\ l' `suffix_of` a :: l)
    by (exists l'; split; [done|by apply suffix_cons_r]).
  destruct (has_uuid u a); [|done]. destruct (String.eqb res EmptyString); cbn [mbind option_bind].
  - by exists (a :: l).
  - destruct (names_resource_returns res (a_resources a) Ha) as [[] ->]; cbn [mbind option_bind];
      [by exists (a :: l)|done].
Qed.

Lemma encode_acl_clean_returns a s : no_validities a -> exists b, encode_acl a s = Some (b, s).
Proof.
  intros H. destruct (no_validities_encoded a H) as [m Hm]. unfold encode_acl, demand.
  rewrite Hm. by eexists.
Qed.

Lemma acl_payload_returns query s : acl_clean s -> readable query ->
  match gAcl s with Some g => query <> None -> hrefs (aces g) | None => True end ->
  exists b, acl_payload query s = Some (b, s).
Proof.
  intros Hc Hq Hh. unfold acl_payload.
  assert (E : exists subject, match query with
    | Some q => demand (GetSubjectFromQueryString q) | None => ret None end s = Some (subject, s)).
  { destruct query as [q|]; [|by eexists]. destruct Hq as [u E]. unfold demand. rewrite E. by eexists. }
  destruct E as [subject E]. rewrite (bind_some _ _ _ _ _ E). unfold bind at 1, gets.
  unfold acl_clean in Hc. destruct (gAcl s) as [g|]; [|by destruct query, subject; eexists].
  destruct query as [q|]; [destruct subject as [u|]|]; try by apply encode_acl_clean_returns.
  destruct (matching_aces_suffix u (default EmptyString (GetResourceFromQueryString q)) (aces g))
    as (l' & El & k & Hk); [by apply Hh|].
  unfold bind at 1, demand. rewrite El. destruct l' as [|a l']; [by eexists|].
  apply encode_acl_clean_returns. unfold no_validities in *. rewrite Hk in Hc.
  by apply Forall_app in Hc as [_ Hc].
Qed.

(** C8: Once no entry of the access control list in memory has a validity - no list
    is in memory when a device starts - none ever gets one, however starts and
    ends of the security resources, requests and changes of state follow each
    other, internal errors included; and a GET of the list, whose encoder would not
    return on a validity, is answered: always without a query, and with one if its
    subject can be read and the resources of the entries have an [href]. *)
Theorem acl_get_answered s s' : acl_clean s -> rtc event s s' ->
  acl_clean s' /\
  forall req, readable (req_query req) ->
    match gAcl s' with Some g => req_query req <> None -> hrefs (aces g) | None => True end ->
    exists a s'', HandleACLGetRequest req s' = Some (a, s'').
Proof.
  intros Hc Hr. pose proof (acl_clean_reachable s s' Hc Hr) as Hc'. split; [done|].
  intros req Hq Hh. destruct (acl_payload_returns (req_query req) s' Hc' Hq Hh) as [b E].
  unfold HandleACLGetRequest. rewrite (bind_some _ _ _ _ _ E). destruct b; apply respond_returns.
Qed.

End invariant.

End AclInvariant.
