(* ===== verification/Witnesses.v ===== *)
(** * Concrete runs of the security resources

    An instance of every interface the sources are used through - calls of other
    layers succeed, files are a map, bytes are CBOR tokens - and, on it, a device that
    is taken from the factory state to normal operation and reset.  The theorems about the resources are applied to
    states of that run. *)

From Stdlib Require Import Sorting.Sorted.
From S2P Require Import Prelude.
From S2P Require Import Status.
From S2P Require Import CString.
From S2P Require Import SrmUtility.
From S2P Require Import Cbor.
From S2P Require Import PsInterface.
From S2P Require Import CborTokens.
From S2P Require Import Svr.
From S2P Require Import Pstat.
From S2P Require Import Doxm.
From S2P Require Import AclCodec.
From S2P Require Import CredCodec.
From S2P Require Import Acl.
From S2P Require Import Cred.
From S2P Require Import ResourceManager.
From S2P Require Import Dos.
From S2P Require Import Handlers.
From S2P Require Import AclCredHandlers.
From S2P Require Import Onboarding.
From S2P Require Import AclInvariant.
Import CString SrmUtility Cbor PsInterface CborTokens Svr Pstat Doxm AclCodec CredCodec
  Acl Cred  ResourceManager Dos   Handlers AclCredHandlers Onboarding AclInvariant.

Module Witnesses.

(** ** The instances *)

#[export] Instance demo_platform : Platform files := {
  ext _ w := (true, w);
  random_uuid w := (Some (replicate 16 17), w);
  generate_owner_psk _ _ _ _ := Some (replicate 16 5);
  sha256 _ := Some (replicate 32 9);
  mbedtls_base64_encode b := Some b }.

Definition obt : OicUuid_t := replicate 16 7.
Definition peer : OicUuid_t := replicate 16 8.
Definition role_less : OicSecRole_t := mk_role EmptyString EmptyString.
Definition demo_cred (id : Z) (u : OicUuid_t) : OicSecCred_t :=
  mk_cred id u role_less SYMMETRIC_PAIR_WISE_KEY no_key None (mk_opt no_key false)
    (mk_key (Some (replicate 16 3 ++ [0])) 16 OIC_ENCODING_RAW) None THE_NIL_UUID.
Definition demo_ace (id : Z) (u : OicUuid_t) : OicSecAce_t :=
  mk_ace (UuidSubject u) [rsrc_of "/a/light"] 6 [] id.

(** Segments between semicolons. *)
Fixpoint segments (s : string) (start len : nat) : list (nat * nat) :=
  match s with
  | EmptyString => [(start, len)]
  | String c s' =>
      if Ascii.eqb c ";" then (start, len) :: segments s' (start + len + 1) 0
      else segments s' start (S len)
  end.
#[export] Instance demo_tokens : CoapTokens := { coap_segments q := segments q 0 0 }.

Fixpoint insert_by {A} (cmp : A -> A -> Z) (x : A) (l : list A) : list A :=
  match l with
  | [] => [x]
  | y :: l' => if cmp x y <=? 0 then x :: l else y :: insert_by cmp x l'
  end.
Fixpoint sort_by {A} (cmp : A -> A -> Z) (l : list A) : list A :=
  match l with [] => [] | x :: l' => insert_by cmp x (sort_by cmp l') end.
#[export] Instance demo_sort : UtList := { LL_SORT A := @sort_by A }.

Lemma insert_by_perm {A} (cmp : A -> A -> Z) x l : insert_by cmp x l ≡ₚ x :: l.
Proof.
  induction l as [|y l IH]; simpl; [done|]. destruct (cmp x y <=? 0); [done|].
  rewrite IH. apply Permutation_swap.
Qed.

#[export] Instance demo_sort_laws : UtListLaws.
Proof.
  split.
  - intros A cmp l. induction l as [|x l IH]; simpl; [done|]. by rewrite insert_by_perm, IH.
  - intros l. induction l as [|x l IH]; simpl; [constructor|]. simpl in IH.
    revert IH. generalize (sort_by CmpCredId l). clear l. intros l.
    induction 1 as [|y l Hs IH Hy]; simpl; [by repeat constructor|].
    destruct (Z.leb_spec (CmpCredId x y) 0) as [Hle|Hgt].
    + constructor; [by constructor|]. constructor; [done|].
      eapply Forall_impl; [exact Hy|]. intros z Hz. apply CmpCredId_le in Hz, Hle.
      apply CmpCredId_le. lia.
    + constructor; [done|]. apply Forall_forall. intros z Hz. rewrite insert_by_perm in Hz.
      rewrite Forall_forall in Hy. apply elem_of_cons in Hz as [->|Hz]; [|by apply Hy].
      apply CmpCredId_le. assert (~ c_credId x <= c_credId y)
        by (intros H; apply CmpCredId_le in H; lia). lia.
Qed.

(** ** A run *)

Definition factory : SVR files :=
  mk_svr initial_default_pstat RDefault initial_default_doxm RDefault []
    (Some (mk_acl THE_NIL_UUID default_aces)) ACE_ID_FIRST_FREE [] THE_NIL_UUID demo_db.

Definition post (l : list (cbor * cbor)) : request :=
  mk_request OC_REST_POST None (Some (tokens (CMap l))) 1.
Definition after {A} (m : M (SVR files) A) (s : SVR files) : SVR files :=
  match m s with Some (_, s') => s' | None => s end.

Definition text_of (u : OicUuid_t) : cbor := CText (uuid_string u).

(** The owner claims the device, takes over its resources and moves it on. *)
Definition claim : request :=
  post [field OIC_JSON_OWNED_NAME (CBool true); field OIC_JSON_DEVICE_ID_NAME (text_of peer);
        field OIC_JSON_DEVOWNERID_NAME (text_of obt); field OIC_JSON_ROWNERID_NAME (text_of obt)].
Definition own_pstat : request := post [field OIC_JSON_ROWNERID_NAME (text_of obt)].
Definition posted_acl : OicSecAcl_t := mk_acl obt [demo_ace 40 peer].
Definition own_acl : request :=
  mk_request OC_REST_POST None (default None (AclToCBORPayload 1 posted_acl)) 1.
Definition posted_creds : list OicSecCred_t := [demo_cred 0 peer].
Definition own_cred : request :=
  mk_request OC_REST_POST None
    (default None (CredToCBORPayloadWithRowner posted_creds obt 0 false)) 1.
Definition move_to (st : Z) : request :=
  post [field OIC_JSON_DOS_NAME (CMap [field OIC_JSON_S_NAME (CInt st)])].

Definition s1 := Eval vm_compute in after (DoxmEntityHandler true claim) factory.
Definition s2 := Eval vm_compute in after (PstatEntityHandler true own_pstat) s1.
Definition s3 := Eval vm_compute in after (ACL2EntityHandler true own_acl) s2.
Definition s4 := Eval vm_compute in after (CredEntityHandler true own_cred) s3.
Definition s5 := Eval vm_compute in after (PstatEntityHandler true (move_to DOS_RFPRO)) s4.
Definition s6 := Eval vm_compute in after (PstatEntityHandler true (move_to DOS_RFNOP)) s5.
Definition s7 := Eval vm_compute in after (SetDosState DOS_RESET) s6.

(** Each request of the run is answered with success. *)
Lemma run1 : DoxmEntityHandler true claim factory = Some (OC_EH_OK, s1).
Proof. vm_compute. reflexivity. Qed.
Lemma run2 : PstatEntityHandler true own_pstat s1 = Some (OC_EH_OK, s2).
Proof. vm_compute. reflexivity. Qed.
Lemma run3 : ACL2EntityHandler true own_acl s2 = Some (OC_EH_OK, s3).
Proof. vm_compute. reflexivity. Qed.
Lemma run4 : CredEntityHandler true own_cred s3 = Some (OC_EH_OK, s4).
Proof. vm_compute. reflexivity. Qed.
Lemma run5 : PstatEntityHandler true (move_to DOS_RFPRO) s4 = Some (OC_EH_OK, s5).
Proof. vm_compute. reflexivity. Qed.
Lemma run6 : PstatEntityHandler true (move_to DOS_RFNOP) s5 = Some (OC_EH_OK, s6).
Proof. vm_compute. reflexivity. Qed.
Lemma run7 : SetDosState DOS_RESET s6 = Some (OC_STACK_OK, s7).
Proof. vm_compute. reflexivity. Qed.

Lemma run_states : p_state <$> pstat s4 = Some DOS_RFOTM /\ p_state <$> pstat s5 = Some DOS_RFPRO /\
  p_state <$> pstat s6 = Some DOS_RFNOP /\ p_state <$> pstat s7 = Some DOS_RFOTM.
Proof. by vm_compute. Qed.

(** The static default is modified in place and nothing restores it: the identifier
    the owner gave the device survives the reset. *)
Lemma reset_keeps_device_id : d_deviceID <$> doxm s7 = Some peer /\
  d_deviceID initial_default_doxm <> peer.
Proof. by vm_compute. Qed.

Lemma s6_db : db_ok SVR_DB_DAT_FILE_NAME (world s6).
Proof. vm_compute. by eexists. Qed.

Definition pstat6 : OicSecPstat_t := Eval vm_compute in default initial_default_pstat (pstat s6).
Definition doxm6 : OicSecDoxm_t := Eval vm_compute in default initial_default_doxm (doxm s6).
Definition acl6 : OicSecAcl_t := Eval vm_compute in default (mk_acl THE_NIL_UUID []) (gAcl s6).

Lemma obt_is_uuid : is_uuid obt.
Proof. split; [done|]. by repeat constructor. Qed.
Lemma peer_is_uuid : is_uuid peer.
Proof. split; [done|]. by repeat constructor. Qed.

Lemma wf_pstat6 : wf_pstat pstat6.
Proof.
  unfold wf_pstat. do 4 (split; [by vm_compute|]).
  split; [by exists SINGLE_SERVICE_CLIENT_DRIVEN|]. split; [done|]. apply obt_is_uuid.
Qed.
Lemma wf_doxm6 : wf_doxm doxm6.
Proof.
  unfold wf_doxm. split; [done|]. split; [by apply Forall_singleton|].
  do 3 (split; [by vm_compute|]). split; [apply peer_is_uuid|]. split; apply obt_is_uuid.
Qed.

(** ** The theorems at states of the run *)

Lemma pstat_cbor_roundtrip_witness :
  exists b, PstatToCBORPayload (Some pstat6) = Some (OC_STACK_OK, b) /\
    exists s', CBORPayloadToPstat b true s6 = Some (OC_STACK_OK, Some pstat6, s') /\
      (gPstat s6 <> RNull -> s' = s6).
Proof. apply (pstat_cbor_roundtrip pstat6 s6). apply wf_pstat6. Defined.

Lemma SetPstatRownerId_stores_or_reverts_witness :
  exists r s', SetPstatRownerId (Some peer) s6 = Some (r, s') /\ doxm s' = doxm s6.
Proof.
  destruct (SetPstatRownerId_stores_or_reverts pstat6 peer s6) as (r & s' & E & Hd & _);
    [by vm_compute|apply wf_pstat6|apply peer_is_uuid|apply s6_db|]. by exists r, s'.
Defined.

Definition stored_pstat : SVR files :=
  Eval vm_compute in after (Pstat.UpdatePersistentStorage (Some pstat6)) s6.
Lemma run_store : Pstat.UpdatePersistentStorage (Some pstat6) s6 = Some (true, stored_pstat).
Proof. vm_compute. reflexivity. Qed.
Definition restarted : SVR files := with_world (world stored_pstat) (point_pstat RNull factory).

Lemma pstat_survives_restart_witness :
  exists s', InitPstatResource restarted = Some (OC_STACK_OK, s') /\ pstat s' = Some pstat6.
Proof.
  apply (pstat_survives_restart pstat6 s6 stored_pstat restarted);
    [apply wf_pstat6|apply s6_db|exact run_store|done|done|done].
Defined.

Lemma doxm_cbor_roundtrip_witness :
  exists b, DoxmToCBORPayload (Some doxm6) = (OC_STACK_OK, b) /\
    CBORPayloadToDoxm b true (point_doxm RNull s6)
      = Some (OC_STACK_OK, Some doxm6, point_doxm RNull s6).
Proof.
  apply (doxm_cbor_roundtrip doxm6 (point_doxm RNull s6));
    [apply wf_doxm6|vm_compute; lia|done].
Defined.

Lemma posted_acl_ok : acl_ok posted_acl.
Proof.
  split; [apply obt_is_uuid|]. apply Forall_singleton. split; [split; [apply peer_is_uuid|done]|].
  split; [|done]. apply Forall_singleton. by repeat split.
Qed.

(** Read back on the device whose list has an owner. *)
Lemma acl_cbor_roundtrip_witness :
  exists b, AclToCBORPayload 1 posted_acl = Some (Some b) /\ b <> [] /\
    CBORPayloadToAcl (gAcl s6) b
      = Some (Some (set_acl_rownerID (owner_read (gAcl s6) posted_acl) posted_acl)) /\
    AclVersionCheck b = Some (Some OIC_SEC_ACL_V2).
Proof.
  apply (acl_cbor_roundtrip (gAcl s6) posted_acl); [apply posted_acl_ok|by vm_compute].
Defined.

(** The default list, without and with a validity in its first entry. *)
Definition dated (v : list OicSecValidity_t) : OicSecAcl_t :=
  mk_acl obt [mk_ace (UuidSubject peer) [rsrc_of "/a/light"] 6 v 40].
Lemma AclToCBORPayload_returns_witness :
  is_Some (AclToCBORPayload 8 (dated [])) /\
  ~ is_Some (AclToCBORPayload 8 (dated [mk_validity (Some "20200101T000000Z"%string) None])).
Proof.
  assert (He : forall v, Forall encodable (aces (dated v))) by (intros v; repeat constructor; by eexists).
  split.
  - apply (AclToCBORPayload_returns 7 (dated [])); [apply He|by repeat constructor].
  - intros H. apply (AclToCBORPayload_returns 7) in H; [|apply He]. by inversion H.
Defined.

Lemma cred_cbor_roundtrip_witness :
  exists b, CredToCBORPayloadWithRowner posted_creds obt 0 true = Some (Some b) /\ b <> [] /\
    CBORPayloadToCred b = Some (Some (sent true <$> posted_creds, Some obt)).
Proof.
  apply (cred_cbor_roundtrip posted_creds obt 0 true);
    [done| |apply obt_is_uuid|by vm_compute].
  apply Forall_singleton. split; [by vm_compute|]. split; [apply peer_is_uuid|].
  split; [by left|]. split; [by vm_compute|]. split; [by left|]. split; [by left|].
  split; [done|]. split; [done|]. split; [|done]. right. exists (replicate 16 3), OIC_ENCODING_RAW.
  split; [done|]. split; [by repeat constructor|]. by apply elem_of_cons; left.
Defined.

Lemma RemoveACE_subject_witness :
  exists r s', RemoveACE peer None s6 = Some (r, s') /\
    gAcl s' = Some (set_aces (List.filter (fun ace =>
      negb (bool_decide (subjectuuid_bytes (a_subject ace) = peer))) (aces acl6)) acl6).
Proof.
  destruct (RemoveACE_subject peer acl6 s6) as (r & s' & E & Ha & _);
    [by vm_compute|by repeat constructor|by vm_compute|apply s6_db|]. by exists r, s'.
Defined.

Definition new_acl : OicSecAcl_t := mk_acl obt [demo_ace 41 obt; demo_ace 42 peer].
Definition installed : SVR files := Eval vm_compute in after (InstallACL (Some new_acl)) s6.
Lemma run_install : InstallACL (Some new_acl) s6 = Some (OC_STACK_OK, installed).
Proof. vm_compute. reflexivity. Qed.
Lemma InstallACL_appends_witness :
  pstat installed = pstat s6 /\
  aces <$> gAcl installed = Some (aces acl6 ++ [demo_ace 41 obt]).
Proof.
  destruct (InstallACL_appends new_acl acl6 s6 OC_STACK_OK installed) as (Ha & Hp & _);
    [by vm_compute|apply s6_db|exact run_install|]. split; [exact Hp|by vm_compute].
Defined.

Lemma SetAclRownerId_atomic_witness :
  exists r s', SetAclRownerId (Some peer) s6 = Some (r, s') /\ pstat s' = pstat s6.
Proof.
  destruct (SetAclRownerId_atomic peer acl6 s6) as (r & s' & E & Hp & _);
    [by vm_compute|by repeat constructor|apply s6_db|]. by exists r, s'.
Defined.

Definition with_creds : SVR files := with_cred [demo_cred 2 obt; demo_cred 1 peer] s6.
Lemma with_creds_distinct : distinct_ids (gCred with_creds).
Proof.
  split; [|by repeat constructor]. cbn. repeat constructor; set_solver.
Qed.

Lemma demo_cred_bounded id u : keys_bounded (demo_cred id u).
Proof. by repeat split. Qed.
Lemma with_creds_bounded : Forall keys_bounded (gCred with_creds).
Proof. repeat constructor; apply demo_cred_bounded. Qed.

Lemma AddCredential_ids_witness :
  exists r s' id, AddCredential (demo_cred 0 peer) with_creds = Some (r, s') /\
    id ∉ [2; 1] /\ distinct_ids (gCred s').
Proof.
  destruct (AddCredential_ids (demo_cred 0 peer) with_creds pstat6)
    as (r & s' & id & E & _ & Hf & Hd & _);
    [by vm_compute|apply s6_db|apply with_creds_distinct|apply with_creds_bounded
    |apply demo_cred_bounded|by vm_compute|by vm_compute|].
  exists r, s', id. split; [exact E|]. split; [by apply Hf|exact Hd].
Defined.

Lemma RemoveCredential_exact_witness :
  exists r s', RemoveCredential peer with_creds = Some (r, s') /\ gCred s' = [demo_cred 2 obt].
Proof.
  destruct (RemoveCredential_exact peer with_creds) as (r & s' & E & Hl & _);
    [apply with_creds_bounded|apply s6_db|].
  exists r, s'. split; [exact E|]. rewrite Hl. by vm_compute.
Defined.


Lemma SetDosState_reset_witness : SetDosState DOS_RESET s6 = Some (OC_STACK_OK, s7) /\ after_reset s7.
Proof.
  destruct (SetDosState_reset s6 OC_STACK_OK s7) as [[_ H]|H]; [by vm_compute|exact run7| |done].
  split; [exact run7|exact H].
Defined.

Definition answered {A} (m : M (SVR files) A) (s : SVR files) : option A := fst <$> m s.

Lemma no_internal_error (req : request) (s : SVR files) :
  answered (update_pstat req) s <> Some OC_EH_INTERNAL_SERVER_ERROR -> ~ internal_error req s.
Proof. unfold answered. intros H (_ & s' & E). by rewrite E in H. Qed.

Lemma run_steps : rtc step factory s6.
Proof.
  eapply rtc_l; [exact (step_doxm _ _ _ _ _ run1)|].
  eapply rtc_l; [refine (step_pstat _ _ _ _ _ run2 (no_internal_error _ _ _)); by vm_compute|].
  eapply rtc_l; [exact (step_acl2 _ _ _ _ _ run3)|].
  eapply rtc_l; [exact (step_cred _ _ _ _ _ run4)|].
  eapply rtc_l; [refine (step_pstat _ _ _ _ _ run5 (no_internal_error _ _ _)); by vm_compute|].
  eapply rtc_l; [refine (step_pstat _ _ _ _ _ run6 (no_internal_error _ _ _)); by vm_compute|].
  apply rtc_refl.
Qed.

Lemma onboarding_reachable_witness :
  exists p d, pstat s6 = Some p /\ doxm s6 = Some d /\ consistent p d.
Proof. apply (onboarding_reachable factory s6); [by vm_compute|exact run_steps]. Defined.

Lemma acl2_post_replaces_witness :
  exists l s', install_aces2 (mk_acl obt [demo_ace 40 obt; demo_ace 41 peer]) acl6 s6 = Some (tt, s') /\
    gAcl s' = Some (set_aces l acl6) /\ with_id 40 l = Some (demo_ace 40 obt) /\
    with_id 41 l = Some (demo_ace 41 peer).
Proof.
  destruct (acl2_post_replaces (mk_acl obt [demo_ace 40 obt; demo_ace 41 peer]) acl6 s6)
    as (l & s' & E & Hg & Hl & _); [by vm_compute|by repeat constructor|].
  exists l, s'. split; [exact E|]. split; [exact Hg|]. split; rewrite Hl; by vm_compute.
Defined.

Lemma acl_get_answered_witness : acl_clean s6 /\
  (exists a s'', HandleACLGetRequest (mk_request OC_REST_GET None None 1) s6 = Some (a, s'')) /\
  (exists a s'', HandleACLGetRequest (mk_request OC_REST_GET (Some "resources=/a"%string) None 1) s6
     = Some (a, s'')).
Proof.
  destruct (acl_get_answered factory s6) as [H1 H2];
    [exact default_aces_clean|exact (rtc_subrel _ _ _ _ (fun _ _ => step_event _ _) run_steps)|].
  split_and!; [done|apply H2; by vm_compute|].
  apply H2; [by eexists|]. vm_compute. intros _. repeat constructor; by eexists.
Defined.

Definition any_delete : request :=
  mk_request OC_REST_DELETE (Some "credid=1"%string) None 1.
Definition any_request : request := mk_request OC_REST_POST (Some "aceid=40"%string) (Some [1]) 1.
Lemma read_only_states_witness :
  ACL2EntityHandler true any_request s6 = respond OC_EH_NOT_ACCEPTABLE [] s6 /\
  forall r s', CredEntityHandler true any_delete s6 = Some (r, s') -> only_world s6 s'.
Proof.
  destruct (read_only_states s6 pstat6 doxm6) as (H1 & _ & H3);
    [by vm_compute|by vm_compute|right; by vm_compute|]. split.
  - by apply (H1 any_request [1]).
  - intros r s'. apply (H3 CredEntityHandler true any_delete r s'). set_solver.
Defined.

End Witnesses.
